(* ===== verification/_CoqProject ===== *)
-Q . S2P
Prelude.v
Bytes.v
Refcount.v
Qcow2.v
WriteTypes.v
WritePlan.v
WriteInv.v
WriteStages.v
WriteFlush.v
WriteSession.v
WriteProps.v
SnapshotWalk.v
SnapshotProps.v
Exec.v
ExecSpec.v
ExecBytes.v
ExecProps.v
Growth.v
GrowthExec.v
GrowthExecProps.v
Bench.v
CachedRead.v
Vdi.v
Parallels.v
Qcow1.v
Qcow2Lookup.v
SnapTable.v
SnapRead.v
Repair.v
Header.v
Stamp.v
Ownership.v
Amend.v
Rebase.v
BitmapDir.v
BitmapAction.v
RangeIo.v
BitmapMerge.v
Create.v
CreateProps.v
CreateHeader.v
CreatePlan.v
CreateImage.v
Utf16.v
Vhdx.v
VhdxMeta.v
VhdxLocator.v
VhdxReader.v
VhdxInit.v
VhdxSpec.v
VhdxOpen.v
VhdxPlan.v
VhdxImage.v
VhdGeometry.v
Vhd.v
VhdReader.v
Measure.v
MeasureProps.v
Resize.v
ResizeSize.v
ResizeStage.v
ResizeSlots.v
ResizeTables.v
ResizeGrow.v
ResizeDisk.v
ResizeProps.v
ResizeOp.v
ResizeQuery.v
ResizeRun.v
