(* ===== verification/Prelude.v ===== *)
(** * A verification development for instar

    instar is a qemu-img replacement that runs every parser and planner of untrusted
    disk images inside a small virtual machine.  The Rust sources are under
    [src/src/]: format crates ([crates/qcow2], [crates/qcow1], [crates/vdi],
    [crates/parallels], [crates/vhd], [crates/vhdx], ...), pure planners
    ([crates/qcow2-write], [crates/amend], [crates/rebase], [crates/check],
    [crates/snapshot], ...) that turn a request and staged metadata into byte patches or
    steps, an executor of such steps
    ([crates/qcow2-write-exec]), the guest operations that glue them to devices, and
    the virtual machine monitor.  The development models the planners, the executor
    and the readers, and proves what they promise to each other and to the user.

    ** Conventions

    - [outcome E A] (this file) is what a Rust function of type [Result<A, E>] can do:
      return [Ok], return [Err], or abort in a panic (a slice index out of range, a
      division by zero).  An [Option] is an [outcome] with a trivial error, or an
      [option] where the code cannot panic.  [OutOfFuel] is the model's own marker
      for a loop that ran out of the fuel it was given.
    - [SM S E A] threads the [&mut] parameters of a Rust function as an explicit state
      [S]; the state survives an [Err], as it does in Rust.  [wp] is its weakest
      precondition: no panic, no lack of fuel, and a condition for each of the two
      ways to return.
    - Unsigned integers are [Z]; the operators that wrap, saturate or check are
      written out at their width.  The release build wraps, so a plain [+] of the
      source is [wadd] wherever the operands are not bounded by the code around it.
    - Byte buffers are lists of numbers below 256 ([Bytes]); [slice] and [splice] are
      the range read and range write, [None] where Rust would panic.

    ** The parts, and the files that model them

    Byte order and buffers, [shared/src/lib.rs]: [Bytes].

    Refcounts and allocation, [snapshot/src/qcow2.rs]: [Refcount] has the packed
    refcount codec of every width and the first-fit cluster allocator.

    The qcow2 vocabulary, [qcow2/src/lib.rs]: [Qcow2] has the header parser, entry
    flags, compressed descriptors and the classification of clusters and subclusters;
    [Qcow2Lookup] the read path ([Qcow2State::init], [cluster_lookup], whole-cluster
    verdicts); [Header] the parser seen as a function of the header's fields.

    The write path.  [WriteTypes] and [WritePlan] are the planner of
    [qcow2-write/src/lib.rs]: envelope, stage machine, L2 window, flush.  Its state
    [WriteState] is the planner's own, a [StepBuf] is the list of steps it emitted,
    and every arm of [drive_write] is a definition.  [WriteInv], [WriteStages],
    [WriteFlush], [WriteSession] prove an invariant of every session of calls,
    [WriteProps] the theorems.  [Exec] is the interpreter of
    [qcow2-write-exec/src/lib.rs] over the [DeviceIo] trait; [ExecSpec] has the
    interface it relies on ([FlatDisk], with [VecDisk] as an instance) and the
    abstract machine of the step contracts; [ExecBytes] and [ExecProps] prove that the
    interpreter implements it.  [Growth] and [GrowthExec] are the refcount-growth
    planner and executor ([growth.rs] of the two crates), [GrowthExecProps] composes
    them.  [Bench] is the request schedule of [bench/src/lib.rs].

    Snapshots.  [SnapshotWalk] and [SnapshotProps] are the two-pass refcount update and
    the COPIED recomputation of [snapshot/src/qcow2.rs], with the gate on compressed
    entries that the guest operation ([operations/snapshot/src/main.rs]) puts in front of
    them; [SnapTable] the snapshot table of [snapshot/src/table.rs] with the parsers of its
    entries, and [SnapRead] the streaming reader of [qcow2/src/lib.rs] over such a table.

    Repair and header rewriting.  [Repair] is [check/src/qcow2.rs]; [Amend] is
    [amend/src/qcow2.rs]; [Rebase] is [rebase/src/qcow2.rs].  The headers they write
    are checked by parsing them again.

    Persistent bitmaps.  [BitmapDir] has the codecs of [qcow2/src/bitmap.rs] and the
    directory operations of [bitmap/src/directory.rs], over the view of a directory as
    a list of packed raw entries; [BitmapAction] the actions and the merge planner of
    [bitmap/src/action.rs] and [bitmap/src/merge.rs], over the refcount blocks of
    [Refcount]; [BitmapMerge] the guest's merge loop of [operations/bitmap/src/main.rs],
    over the device interface of [ExecSpec] and the byte ranges of [RangeIo], which the
    guest operations share.

    Readers.  [CachedRead] has the one-sector caches every reader goes through
    ([cached_read!]), the interface [FlatInput] of an input device, and a relation
    between cached and direct reads; [Vdi], [Parallels], [Qcow1] and [Qcow2Lookup] are
    its clients, instances of [LookupFormat].

    Image creation.  [Create] is the layout arithmetic, header, L1 and refcount writers
    of [qcow2/src/create.rs]; [CreateProps] and [CreateHeader] what the written tables
    and the header hold; [CreatePlan] is [plan_qcow2] of [create/src/lib.rs], a list of
    (offset, bytes) writes in a scratch buffer, with the L2 tables and the tail sector
    that [operations/create/src/main.rs] writes after it, and [CreateImage] applies such
    lists to an empty file and opens it with the reader of [Qcow2Lookup].

    UTF-16 names, [shared/src/lib.rs]: [Utf16].

    VHDX, [vhdx/src/lib.rs].  [Vhdx] has the layout and the BAT of fixed images;
    [VhdxMeta] the checksum and the builders and parsers of header, region table and
    metadata table; [VhdxLocator] the parent locator of a differencing child (a UTF-16
    key-value table inside the metadata region); [VhdxReader] block lookup and the
    sector bitmaps; [VhdxInit] the whole of [VhdxState::init]; [VhdxSpec] says what a
    VHDX image is in terms of the format (fields, GUIDs, states, the checksum bit by bit),
    without the definitions of the code, and [VhdxOpen] relates the two.  [VhdxPlan] is [plan_vhdx] of [create/src/lib.rs] with
    the path rules of the guest operation, and [VhdxImage] opens what it wrote.

    VHD, [vhd/src/lib.rs].  [VhdGeometry] has the disk geometries and their rounding, [Vhd]
    the footer and the dynamic header with their checksum, written and read, and
    [VhdReader] opening an image, the lookups of single images and of chains, and the
    sector bitmaps.  [Stamp] (structures that carry their own checksum) and [Ownership]
    (the walk over a sector bitmap) are shared with VHDX.

    Measuring, [measure/src/lib.rs] and [operations/measure/src/main.rs]: [Measure] has the
    size calculators and the operation, [MeasureProps] their theorems against the
    layouts of [Create] and [Vhdx].

    Resizing, [resize/src/lib.rs] and [resize/src/qcow2.rs].  [Resize] is the planner: a
    growth or a shrink becomes an ordered list of patches whose bytes live in one scratch
    buffer.  [ResizeSize] is about the sizing loop; [ResizeStage] about the staged
    refcount blocks, as two phases (before and after the header switches) of functions
    from clusters to refcounts, and [ResizeSlots] about the loops that fill them, for both
    kinds of slots the planners keep; [ResizeTables] and [ResizeGrow] give the shape of
    every growth plan; [ResizeDisk] applies prefixes of a plan to the image, and
    [ResizeProps] puts them together.  [ResizeOp] is the guest operation around the
    planner ([operations/resize/src/main.rs]) with the host's post-pass of
    [vmm/src/main.rs]; [ResizeQuery] relates its pre-pass query to the planner, and
    [ResizeRun] runs it on a device.

    ** What the theorems show

    - Planner: every session terminates without a panic ([planner_total]).  The crash
      ordering contracts (a), (b) and (c) of the crate hold of every emitted trace, with
      the place and extent of every metadata write and the table every slot holds
      ([data_before_pointer], [init_before_l1_patch], [refcounts_last],
      [no_lost_l2_update]); contract (d) holds inside a flush, and
      [eviction_has_no_barrier] exhibits where a write breaks it.  A flush writes every
      dirty structure to its place and leaves nothing unsaved
      ([flush_saves_everything]);
      in-place overwrites are exactly those of exclusively owned clusters
      ([owned_iff_exclusive]); the window never caches a table twice
      ([l2_window_coherent]).
    - Executor: it refines the abstract machine ([execute_refines]) and completes on
      healthy devices ([execute_complete]).
    - Growth: an accepted plan covers itself and is least
      ([growth_plan_least]); executing it puts every new structure on disk
      ([grow_refcounts_materialises]).
    - Snapshots: refcount passes are exact and atomic under the stated condition, and
      two lemmas exhibit where the comments promise more; COPIED is recomputed exactly
      ([copied_flags_recomputed]).  References are the address bits of entries, on
      tables that passed the gate; [compressed_entry_flagged] shows what would happen to a
      compressed entry.  The table operations are operations on the list of entries
      ([delete_compacts]), and the repository's reader lists a created snapshot
      ([create_appends_entry]), its id cut at 63 bytes and its name at 255.
    - Repair: counting and correcting makes every refcount the number of references
      ([repair_all_consistent]).
    - Amend and rebase: a plan exists exactly when no reason to refuse holds, and applied
      it gives a header that parses to what was asked for ([amend_reparses],
      [rebase_reparses]);
      [amend_upgrade_garbles_compression_type] exhibits the one field an upgrade gets
      wrong.
    - Bitmaps: adding claims a free run and appends one entry ([add_appends_bitmap]),
      removing undoes it ([add_remove_roundtrip]) except on an image of size zero
      ([zero_size_remove_leaks]); a merge leaves every destination entry standing for
      the OR of both ([merge_ors_source]).
    - Readers: opening an image and any sequence of cached lookups equals the walk over
      the bytes of the image ([qcow2_lookups_exact], [qcow1_reads_exact],
      [vdi_reads_exact], [parallels_reads_exact]), or what the format says of the image
      ([vhdx_reads_exact], [vhd_reads_exact]), and fails only for stated reasons.  Of the
      scan for the encryption header only its termination is proved; of a VHDX region
      table the first eight entries are looked at, as in the code, and of a metadata table
      the first 32 in the sector it starts in.
    - Creation: the qcow2 layout covers itself with the least refcount blocks
      ([layout_self_covering]); a plan exists exactly for the accepted requests and
      tiles the file ([qcow2_plan_exact]); the planned bytes, applied to an empty file,
      open to an image that answers the request, but for the version, always 3, and the
      compression type with a backing format, and whose every read is unallocated, or
      the preallocated cluster of its offset ([created_image_reads]).
    - VHDX: the layout is exact ([vhdx_layout_exact]), the checksum is CRC-32C
      ([vhdx_crc_exact]), what the builders write parses back
      ([vhdx_structures_reparse], [locator_roundtrip]), ownership runs are maximal
      ([vhdx_ownership_run]), and a created file opens to the requested geometry, its
      child to its parent's name ([created_vhdx_reads]).
    - VHD: rounding a size to a geometry ends within 4080 candidates, covers the request and
      is stable ([chs_rounding_exact]); footers and dynamic headers read back as written,
      with the one's complement checksum of the format ([vhd_structures_roundtrip]); the footer is found in a partly filled last sector
      ([vhd_footer_located]), where [fixed_refused_on_large_sectors] exhibits an image that
      opening refuses; the lookups of a chain reader and its ownership runs are exact
      ([vhd_ownership_exact]).
    - Measuring: the calculators equal their formulas over unbounded integers
      ([measure_sizes_exact]), the message is consistent ([measure_message_sound]), and
      the sizes are those creation produces ([measure_predicts_create]).
    - Resizing: the sizing loop ends with the least structures that cover the file
      ([append_requirements_least]); every prefix of a growth plan leaves the old image
      or the new one on the disk, within the capacity the host gives the device
      ([grow_crash_safe]), for images of at most 2^50 bytes with a dense refcount table;
      the query lists every block the planner reads ([grow_query_sufficient]); the whole
      operation refuses and leaves the disk alone or leaves the grown image
      ([run_qcow2_grows]).  [far_l1_panics] and [full_prealloc_erases_l1] exhibit two
      defects, of the guest and of the host.
    - UTF-16: the decoder equals decoding the units and printing the characters, with
      all refusals ([utf16_decode_exact]), and inverts the encoder
      ([utf16_roundtrip]).

    ** Fuel

    Loops that are not structural take fuel.  [CLUSTER_FUEL] (16) exceeds the longest
    chain of stages a cluster goes through, and the write loop has a turn per cluster
    of the request; [FLUSH_FUEL] (2400) is every L2 slot and refblock once and the
    fixed stages; the byte loops of the executor have a turn per byte or sector plus
    one; the allocator a turn per entry plus one; the growth fixed point the 8 rounds
    of the source; [LUKS_FUEL] (131073) a turn per 8 bytes of the range the scan
    is limited to; the extension walk of amend a turn per byte; the UTF-16 decoder a
    turn per byte; the refcount fixed point of creation the 16 rounds of the source; the
    BAT of a fixed VHDX a turn per staged chunk; the sizing loop of a resize
    [APPEND_FUEL] (64) rounds, of which 26 suffice; the geometry search [SEARCH_TURNS]
    (4081), one more than a floor geometry can miss its size by; the byte ranges of the guest
    operations a turn per byte plus one.  The theorems above state that none of
    them is exhausted.

    ** Not modelled

    Device and call-table functions (parameters, behind the classes above), closures
    over staged buffers (functions), decompression and cryptography (libraries outside
    the sources), the guest operations other than the bitmap merge, measure, the
    qcow2 resize and the tail of the qcow2 creation, and the virtual machine monitor (glue and hardware access), the formats
    VMDK and DMG, the resize and creation planners of the formats other than qcow2 and
    VHDX, the commit planners, and the allocation scans and extent maps of VHD and VHDX.
    The qcow2 shrink is modelled without a theorem: it sets refcounts to 0 whatever they
    were, so no exactness holds of it.

    ** This file

    Shared vocabulary: outcomes, the monad, machine-width integers, generic lemmas and
    the automation the component files share. *)

From stdpp Require Import base numbers list sets.
From Stdlib Require Import ZArith Lia.

#[global] Open Scope Z_scope.
#[global] Set Default Goal Selector "!".

Declare Scope instar_scope.
Delimit Scope instar_scope with instar.
#[global] Open Scope instar_scope.

Create HintDb instar.

(** ** Outcomes *)

Inductive outcome (E A : Type) : Type :=
| Ok (a : A)
| Err (e : E)
| Panic
| OutOfFuel.

Arguments Ok {E A} a.
Arguments Err {E A} e.
Arguments Panic {E A}.
Arguments OutOfFuel {E A}.

Definition obind {E A B} (m : outcome E A) (k : A -> outcome E B) : outcome E B :=
  match m with
  | Ok a => k a
  | Err e => Err e
  | Panic => Panic
  | OutOfFuel => OutOfFuel
  end.

(** [Result::map_err]. *)
Definition map_err {E F A} (f : E -> F) (m : outcome E A) : outcome F A :=
  match m with
  | Ok a => Ok a
  | Err e => Err (f e)
  | Panic => Panic
  | OutOfFuel => OutOfFuel
  end.

(** [Option::ok_or]. *)
Definition ok_or {E A} (o : option A) (e : E) : outcome E A :=
  match o with Some a => Ok a | None => Err e end.

(** An index or slice expression: panics when out of range. *)
Definition or_panic {E A} (o : option A) : outcome E A :=
  match o with Some a => Ok a | None => Panic end.

(** The code returned, normally or with an error. *)
Definition returns {E A} (m : outcome E A) : Prop :=
  match m with Ok _ | Err _ => True | Panic | OutOfFuel => False end.

Notation "'let?' x ':=' m 'in' k" := (obind m (fun x => k))
  (at level 10, x pattern, m at level 100, k at level 200,
   format "'[v' 'let?'  x  ':='  m  'in' '/' k ']'") : instar_scope.

(** ** The state-and-outcome monad *)

Definition SM (S E A : Type) : Type := S -> outcome E A * S.

Definition sret {S E A} (a : A) : SM S E A := fun s => (Ok a, s).
Definition sfail {S E A} (e : E) : SM S E A := fun s => (Err e, s).
Definition sbind {S E A B} (m : SM S E A) (k : A -> SM S E B) : SM S E B :=
  fun s => match m s with
           | (Ok a, s') => k a s'
           | (Err e, s') => (Err e, s')
           | (Panic, s') => (Panic, s')
           | (OutOfFuel, s') => (OutOfFuel, s')
           end.
Definition sget {S E} : SM S E S := fun s => (Ok s, s).
Definition sput {S E} (s : S) : SM S E unit := fun _ => (Ok tt, s).
Definition smod {S E} (f : S -> S) : SM S E unit := fun s => (Ok tt, f s).
Definition slift {S E A} (m : outcome E A) : SM S E A := fun s => (m, s).

Notation "'let!' x ':=' m 'in' k" := (sbind m (fun x => k))
  (at level 10, x pattern, m at level 100, k at level 200,
   format "'[v' 'let!'  x  ':='  m  'in' '/' k ']'") : instar_scope.
Notation "'do!' m 'in' k" := (sbind m (fun _ => k))
  (at level 10, m at level 100, k at level 200,
   format "'[v' 'do!'  m  'in' '/' k ']'") : instar_scope.

(** ** Machine integers *)

Definition u8_max : Z := 255.
Definition u16_max : Z := 65535.
Definition u32_max : Z := 4294967295.
Definition u64_max : Z := 18446744073709551615.

Definition is_u8 (x : Z) : Prop := 0 <= x <= u8_max.
Definition is_u16 (x : Z) : Prop := 0 <= x <= u16_max.
Definition is_u32 (x : Z) : Prop := 0 <= x <= u32_max.
Definition is_u64 (x : Z) : Prop := 0 <= x <= u64_max.

(** [as u8], [as u16], [as u32]: truncation. *)
Definition as_u8 (x : Z) : Z := x mod 256.
Definition as_u16 (x : Z) : Z := x mod 65536.
Definition as_u32 (x : Z) : Z := x mod 4294967296.

(** Plain [+], [-] and [*] on [u64] and [usize] in a release build wrap. *)
Definition wadd (x y : Z) : Z := (x + y) mod 18446744073709551616.
Definition wsub (x y : Z) : Z := (x - y) mod 18446744073709551616.
Definition wmul (x y : Z) : Z := (x * y) mod 18446744073709551616.

(** [checked_add], [checked_mul], [saturating_*] on [u64] and [usize]. *)
Definition checked_add (x y : Z) : option Z :=
  if x + y <=? u64_max then Some (x + y) else None.
Definition checked_mul (x y : Z) : option Z :=
  if x * y <=? u64_max then Some (x * y) else None.
Definition sat_add (x y : Z) : Z := Z.min (x + y) u64_max.
Definition sat_sub (x y : Z) : Z := Z.max (x - y) 0.
Definition sat_mul (x y : Z) : Z := Z.min (x * y) u64_max.

(** [div_ceil] for a nonzero divisor. *)
Definition div_ceil (x y : Z) : Z :=
  if x mod y =? 0 then x / y else x / y + 1.

(** [/] and [%] panic on a zero divisor. *)
Definition udiv {E} (x y : Z) : outcome E Z :=
  if y =? 0 then Panic else Ok (x / y).
Definition urem {E} (x y : Z) : outcome E Z :=
  if y =? 0 then Panic else Ok (x mod y).

(** [is_multiple_of] (a zero divisor divides zero only). *)
Definition is_multiple_of (x y : Z) : bool :=
  if y =? 0 then x =? 0 else x mod y =? 0.

(** Bitwise complement at 64 bits and at 8 bits. *)
Definition not64 (x : Z) : Z := Z.lxor x u64_max.
Definition not8 (x : Z) : Z := Z.lxor x u8_max.

(** [<<] on [u64] drops the bits shifted out. *)
Definition shl64 (x n : Z) : Z := Z.shiftl x n mod 18446744073709551616.

(** The pattern [!=0] on a masked value. *)
Definition nonzero (x : Z) : bool := negb (x =? 0).

(** [is_power_of_two]. *)
Definition is_power_of_two (x : Z) : bool := nonzero x && (Z.land x (x - 1) =? 0).

(** [checked_next_multiple_of] for a nonzero divisor. *)
Definition checked_next_multiple_of (x m : Z) : option Z :=
  if x mod m =? 0 then Some x else checked_add x (m - x mod m).

Lemma wadd_small x y : 0 <= x + y <= u64_max -> wadd x y = x + y.
Proof. unfold wadd, u64_max. intros. apply Z.mod_small. lia. Qed.

Lemma wsub_small x y : 0 <= x - y <= u64_max -> wsub x y = x - y.
Proof. unfold wsub, u64_max. intros. apply Z.mod_small. lia. Qed.

Lemma wmul_small x y : 0 <= x * y <= u64_max -> wmul x y = x * y.
Proof. unfold wmul, u64_max. intros. apply Z.mod_small. lia. Qed.

Lemma wadd_u64 x y : is_u64 (wadd x y).
Proof.
  unfold is_u64, wadd, u64_max.
  pose proof (Z.mod_pos_bound (x + y) 18446744073709551616). lia.
Qed.

Lemma checked_add_Some x y z : checked_add x y = Some z <-> z = x + y /\ x + y <= u64_max.
Proof.
  unfold checked_add. destruct (Z.leb_spec (x + y) u64_max); split; intros;
    simplify_eq; intuition (try congruence; try lia).
Qed.

Lemma checked_mul_Some x y z : checked_mul x y = Some z <-> z = x * y /\ x * y <= u64_max.
Proof.
  unfold checked_mul. destruct (Z.leb_spec (x * y) u64_max); split; intros;
    simplify_eq; intuition (try congruence; try lia).
Qed.

Lemma checked_add_eq x y : x + y <= u64_max -> checked_add x y = Some (x + y).
Proof. intros. by apply checked_add_Some. Qed.

Lemma checked_mul_eq x y : x * y <= u64_max -> checked_mul x y = Some (x * y).
Proof. intros. by apply checked_mul_Some. Qed.

Lemma div_ceil_spec x y : 0 < y -> div_ceil x y * y >= x /\ (div_ceil x y - 1) * y < x.
Proof.
  intros Hy. unfold div_ceil.
  pose proof (Z.div_mod x y ltac:(lia)) as Hdm.
  pose proof (Z.mod_pos_bound x y Hy).
  destruct (Z.eqb_spec (x mod y) 0); nia.
Qed.

Lemma div_ceil_nonneg x y : 0 < y -> 0 <= x -> 0 <= div_ceil x y.
Proof.
  intros Hy Hx. unfold div_ceil. pose proof (Z.div_pos x y Hx Hy).
  destruct (Z.eqb_spec (x mod y) 0); lia.
Qed.

(** [div_ceil x y] is the least [q] with [q * y >= x]. *)
Lemma div_ceil_le x y q : 0 < y -> x <= q * y -> div_ceil x y <= q.
Proof.
  intros Hy Hq. destruct (div_ceil_spec x y Hy) as [_ Hlt]. nia.
Qed.

Lemma div_ceil_mono x y q : 0 < q -> x <= y -> div_ceil x q <= div_ceil y q.
Proof.
  intros Hq Hxy. apply div_ceil_le; [done|]. destruct (div_ceil_spec y q Hq). lia.
Qed.

Lemma is_multiple_of_spec x y : y <> 0 -> is_multiple_of x y = true <-> x mod y = 0.
Proof.
  intros Hy. unfold is_multiple_of.
  destruct (Z.eqb_spec y 0); [lia|]. apply Z.eqb_eq.
Qed.

Lemma nonzero_true x : nonzero x = true <-> x <> 0.
Proof. unfold nonzero. destruct (Z.eqb_spec x 0); naive_solver. Qed.

Lemma nonzero_false x : nonzero x = false <-> x = 0.
Proof. unfold nonzero. destruct (Z.eqb_spec x 0); naive_solver. Qed.

Lemma lor_low x v k : 0 <= k -> x mod 2 ^ k = 0 -> 0 <= v < 2 ^ k -> Z.lor x v = x + v.
Proof.
  intros Hk Hx Hv. symmetry. apply Z.add_nocarry_lor. rewrite <- (Z.mod_small v (2 ^ k)) by lia.
  rewrite <- Z.land_ones by lia. rewrite (Z.land_comm v), Z.land_assoc. rewrite Z.land_ones by lia. by rewrite Hx, Z.land_0_l.
Qed.

(** A value shifted past [b]'s width does not overlap it. *)
Lemma lor_low_add a b s : 0 <= s -> 0 <= b < 2 ^ s -> Z.lor (Z.shiftl a s) b = a * 2 ^ s + b.
Proof.
  intros Hs Hb. rewrite <- Z.shiftl_mul_pow2 by done.
  assert (Z.land (Z.shiftl a s) b = 0) as H0.
  { apply Z.bits_inj'. intros k Hk. rewrite Z.land_spec, Z.bits_0.
    destruct (Z.lt_ge_cases k s).
    - rewrite Z.shiftl_spec_low by done. done.
    - rewrite <- (Z.mod_small b (2 ^ s)) by done.
      rewrite Z.mod_pow2_bits_high by lia. apply andb_false_r. }
  rewrite Z.add_nocarry_lxor, Z.lxor_lor by done. done.
Qed.

Lemma land_pow2_mask x s : 0 <= s -> Z.land x (Z.shiftl 1 s - 1) = x mod 2 ^ s.
Proof.
  intros Hs. rewrite Z.shiftl_1_l, <- Z.land_ones by done. f_equal.
  rewrite Z.ones_equiv. lia.
Qed.

(** [x & !7] rounds down to a multiple of eight. *)
Lemma land_not7 x : 0 <= x <= u64_max -> Z.land x (not64 7) = x / 8 * 8.
Proof.
  intros Hx. unfold u64_max in Hx. change (not64 7) with (Z.ldiff (Z.ones 64) (Z.ones 3)).
  rewrite Z.ldiff_land, Z.land_assoc, Z.land_ones by lia. rewrite Z.mod_small by lia.
  rewrite <- Z.ldiff_land, Z.ldiff_ones_r by lia. by rewrite Z.shiftl_mul_pow2, Z.shiftr_div_pow2 by lia.
Qed.

Lemma power_of_two_log x : 0 < x -> Z.land x (x - 1) = 0 -> x = 2 ^ Z.log2 x.
Proof.
  intros Hx Hl. pose proof (Z.log2_spec x Hx) as [Hlo Hhi]. pose proof (Z.log2_nonneg x) as Hn.
  destruct (Z.eq_dec x (2 ^ Z.log2 x)) as [|Hne]; [done|exfalso].
  assert (Z.log2 (x - 1) = Z.log2 x) as Hl1 by (apply Z.log2_unique; lia).
  assert (Z.testbit (Z.land x (x - 1)) (Z.log2 x) = true) as Hb.
  { rewrite Z.land_spec, Z.bit_log2 by done. rewrite <- Hl1, Z.bit_log2; [done|]. assert (0 < 2 ^ Z.log2 x) by lia. lia. }
  by rewrite Hl, Z.bits_0 in Hb.
Qed.

Lemma is_power_of_two_spec x : 0 <= x -> is_power_of_two x = true -> x = 2 ^ Z.log2 x.
Proof.
  intros Hx Hp. unfold is_power_of_two in Hp. apply andb_true_iff in Hp as [Hn Hl].
  apply nonzero_true in Hn. apply Z.eqb_eq in Hl. apply power_of_two_log; [lia|done].
Qed.

Lemma next_multiple_spec x m : 0 < m -> 0 <= x ->
  match checked_next_multiple_of x m with
  | Some y => y = div_ceil x m * m /\ y <= Z.max x u64_max
  | None => u64_max < div_ceil x m * m
  end.
Proof.
  intros Hm Hx. unfold checked_next_multiple_of, div_ceil. pose proof (Z.div_mod x m ltac:(lia)).
  pose proof (Z.mod_pos_bound x m Hm). destruct (Z.eqb_spec (x mod m) 0); [lia|].
  unfold checked_add. destruct (Z.leb_spec (x + (m - x mod m)) u64_max); lia.
Qed.

(** ** Automation *)

(** Split every boolean comparison the goal or a hypothesis branches on. *)
Ltac bool_cases :=
  repeat match goal with
  | |- context [if ?b then _ else _] => let E := fresh "E" in destruct b eqn:E
  | H : context [if ?b then _ else _] |- _ => let E := fresh "E" in destruct b eqn:E
  end.

(** Turn boolean facts into arithmetic ones. *)
Ltac bool_to_prop :=
  repeat match goal with
  | H : (_ && _)%bool = true |- _ => apply andb_true_iff in H; destruct H
  | H : (_ || _)%bool = false |- _ => apply orb_false_iff in H; destruct H
  | H : (_ || _)%bool = true |- _ => apply orb_true_iff in H
  | H : (_ && _)%bool = false |- _ => apply andb_false_iff in H
  | H : negb _ = true |- _ => apply negb_true_iff in H
  | H : negb _ = false |- _ => apply negb_false_iff in H
  | H : (_ <=? _) = true |- _ => apply Z.leb_le in H
  | H : (_ <=? _) = false |- _ => apply Z.leb_gt in H
  | H : (_ <? _) = true |- _ => apply Z.ltb_lt in H
  | H : (_ <? _) = false |- _ => apply Z.ltb_ge in H
  | H : (_ =? _) = true |- _ => apply Z.eqb_eq in H
  | H : (_ =? _) = false |- _ => apply Z.eqb_neq in H
  end.

(** Unfold the monad and run a chain of binds against known outcomes. *)
Ltac smred := unfold sbind, sret, sfail, sget, sput, smod, slift, obind in *; cbn in *.

(** ** Weakest preconditions *)

(** [wp m Q R s]: from [s], [m] neither panics nor runs out of fuel; if it
    returns [Ok a] the result and final state satisfy [Q], if it returns [Err e]
    they satisfy [R]. *)
Definition wp {S E A} (m : SM S E A) (Q : A -> S -> Prop) (R : E -> S -> Prop) (s : S) : Prop :=
  match m s with
  | (Ok a, s') => Q a s'
  | (Err e, s') => R e s'
  | _ => False
  end.

Lemma wp_ret {S E A} (a : A) (Q : A -> S -> Prop) (R : E -> S -> Prop) s :
  Q a s -> wp (sret a) Q R s.
Proof. done. Qed.

Lemma wp_fail {S E A} (e : E) (Q : A -> S -> Prop) (R : E -> S -> Prop) s :
  R e s -> wp (sfail e) Q R s.
Proof. done. Qed.

Lemma wp_get {S E} (Q : S -> S -> Prop) (R : E -> S -> Prop) s : Q s s -> wp sget Q R s.
Proof. done. Qed.

Lemma wp_put {S E} (x : S) (Q : unit -> S -> Prop) (R : E -> S -> Prop) s :
  Q tt x -> wp (sput x) Q R s.
Proof. done. Qed.

Lemma wp_mod {S E} (f : S -> S) (Q : unit -> S -> Prop) (R : E -> S -> Prop) s :
  Q tt (f s) -> wp (smod f) Q R s.
Proof. done. Qed.

Lemma wp_lift {S E A} (m : outcome E A) (Q : A -> S -> Prop) (R : E -> S -> Prop) s :
  match m with Ok a => Q a s | Err e => R e s | _ => False end -> wp (slift m) Q R s.
Proof. unfold wp, slift. done. Qed.

Lemma wp_bind {S E A B} (m : SM S E A) (k : A -> SM S E B) Q R s :
  wp m (fun a s' => wp (k a) Q R s') R s -> wp (sbind m k) Q R s.
Proof. unfold wp, sbind. by destruct (m s) as [[a|e| |] s']. Qed.

Lemma wp_mono {S E A} (m : SM S E A) (Q Q' : A -> S -> Prop) (R R' : E -> S -> Prop) s :
  wp m Q R s -> (forall a s', Q a s' -> Q' a s') -> (forall e s', R e s' -> R' e s') ->
  wp m Q' R' s.
Proof. unfold wp. destruct (m s) as [[a|e| |] s']; auto. Qed.

Lemma wp_returns {S E A} (m : SM S E A) Q R s : wp m Q R s -> returns (m s).1.
Proof. unfold wp, returns. by destruct (m s) as [[a|e| |] s']. Qed.

(** Step through the monad's structure. *)
Ltac wstep :=
  cbv beta zeta;
  lazymatch goal with
  | |- wp (sbind _ _) _ _ _ => apply wp_bind
  | |- wp sget _ _ _ => apply wp_get
  | |- wp (sput _) _ _ _ => apply wp_put
  | |- wp (smod _) _ _ _ => apply wp_mod
  | |- wp (sret _) _ _ _ => apply wp_ret
  | |- wp (sfail _) _ _ _ => apply wp_fail
  | |- wp (slift _) _ _ _ => apply wp_lift
  end; cbv beta zeta.
