(* ===== verification/Bytes.v ===== *)
(** Byte buffers and the byte-order helpers of [src/src/shared/src/lib.rs].

    A [&[u8]] is a [list Z] whose elements are below 256.  [slice] and [splice]
    are the bounds-checked range read and range write ([buf[a..b]] and
    [buf[a..b].copy_from_slice(..)]); out of range they have no value, which
    the callers turn into a panic.  [be_val] and [be_bytes] are
    [from_be_bytes] and [to_be_bytes] at any width. *)

From stdpp Require Import base numbers list sets.
From Stdlib Require Import ZArith Lia.
From S2P Require Import Prelude.

(** ** Definitions *)

Abbreviation bytes := (list Z).

Definition is_bytes (l : bytes) : Prop := Forall is_u8 l.

Definition is_bytesb (l : bytes) : bool := forallb (fun b => (0 <=? b) && (b <=? u8_max)) l.

(** [buf.len()]. *)
Definition blen (l : bytes) : Z := Z.of_nat (length l).

(** [buf[i]]. *)
Definition byte_at (l : bytes) (i : Z) : option Z :=
  if 0 <=? i then l !! Z.to_nat i else None.

(** [&buf[a..b]]. *)
Definition slice (l : bytes) (a b : Z) : option bytes :=
  if (0 <=? a) && (a <=? b) && (b <=? blen l)
  then Some (take (Z.to_nat (b - a)) (drop (Z.to_nat a) l))
  else None.

(** [buf[a..a + src.len()].copy_from_slice(src)]. *)
Definition splice (l : bytes) (a : Z) (src : bytes) : option bytes :=
  if (0 <=? a) && (a + blen src <=? blen l)
  then Some (take (Z.to_nat a) l ++ src ++ drop (Z.to_nat a + length src) l)
  else None.

(** [buf[i] = v]. *)
Definition set_byte (l : bytes) (i v : Z) : option bytes := splice l i [v].

(** [slice.fill(v)] on a slice of [n] bytes. *)
Definition filled (n v : Z) : bytes := replicate (Z.to_nat n) v.

(** [uN::from_be_bytes]. *)
Definition be_val (l : bytes) : Z := foldl (fun acc b => acc * 256 + b) 0 l.

(** [v.to_be_bytes()] at a width of [n] bytes. *)
Fixpoint be_bytes (n : nat) (v : Z) : bytes :=
  match n with
  | O => []
  | S n' => be_bytes n' (v / 256) ++ [v mod 256]
  end.

Definition be_u16 {E} (buf : bytes) (off : Z) : outcome E Z :=
  let? s := or_panic (slice buf off (off + 2)) in Ok (be_val s).

Definition be_u32 {E} (buf : bytes) (off : Z) : outcome E Z :=
  let? s := or_panic (slice buf off (off + 4)) in Ok (be_val s).

Definition be_u64 {E} (buf : bytes) (off : Z) : outcome E Z :=
  let? s := or_panic (slice buf off (off + 8)) in Ok (be_val s).

Definition write_be_u16 {E} (buf : bytes) (off val : Z) : outcome E bytes :=
  or_panic (splice buf off (be_bytes 2 val)).

Definition write_be_u32 {E} (buf : bytes) (off val : Z) : outcome E bytes :=
  or_panic (splice buf off (be_bytes 4 val)).

Definition write_be_u64 {E} (buf : bytes) (off val : Z) : outcome E bytes :=
  or_panic (splice buf off (be_bytes 8 val)).

(** ** Lengths and bounds *)

Lemma blen_nonneg l : 0 <= blen l.
Proof. unfold blen. lia. Qed.

Lemma blen_app l1 l2 : blen (l1 ++ l2) = blen l1 + blen l2.
Proof. unfold blen. rewrite length_app. lia. Qed.

Lemma blen_cons x l : blen (x :: l) = 1 + blen l.
Proof. unfold blen. cbn [length]. lia. Qed.

Lemma blen_filled n v : 0 <= n -> blen (filled n v) = n.
Proof. unfold blen, filled. rewrite length_replicate. lia. Qed.

Lemma is_bytesb_true l : is_bytesb l = true -> is_bytes l.
Proof.
  unfold is_bytesb, is_bytes. rewrite forallb_forall, Forall_forall. intros H x Hx.
  apply list_elem_of_In in Hx. specialize (H x Hx). bool_to_prop. done.
Qed.

Lemma filled_is_bytes n v : is_u8 v -> is_bytes (filled n v).
Proof. intros. apply Forall_replicate. done. Qed.

Lemma byte_at_Some_iff l i : is_Some (byte_at l i) <-> 0 <= i < blen l.
Proof.
  unfold byte_at, blen. destruct (Z.leb_spec 0 i).
  - rewrite lookup_lt_is_Some. lia.
  - split; [intros [? ?]; done | lia].
Qed.

Lemma byte_at_None l i : ~ 0 <= i < blen l -> byte_at l i = None.
Proof.
  intros. destruct (byte_at l i) eqn:E; [|done].
  exfalso. apply H. apply byte_at_Some_iff. eauto.
Qed.

Lemma byte_at_u8 l i v : is_bytes l -> byte_at l i = Some v -> is_u8 v.
Proof.
  unfold byte_at. intros Hl. destruct (0 <=? i); [|done].
  intros Hi. rewrite (Forall_lookup is_u8 l) in Hl. eauto.
Qed.

Lemma byte_ext l1 l2 : blen l1 = blen l2 ->
  (forall i, 0 <= i < blen l1 -> byte_at l1 i = byte_at l2 i) -> l1 = l2.
Proof.
  intros Hlen Heq. apply list_eq. intros i.
  destruct (decide (i < length l1)%nat).
  - specialize (Heq (Z.of_nat i)). unfold byte_at, blen in *.
    destruct (Z.leb_spec 0 (Z.of_nat i)); [|lia].
    rewrite Nat2Z.id in Heq. apply Heq. lia.
  - unfold blen in Hlen. rewrite !lookup_ge_None_2 by lia. done.
Qed.

(** ** [slice] *)

Lemma slice_Some l a b s : slice l a b = Some s ->
  0 <= a <= b /\ b <= blen l /\ s = take (Z.to_nat (b - a)) (drop (Z.to_nat a) l).
Proof. unfold slice. intros. bool_cases; simplify_eq; bool_to_prop. auto. Qed.

Lemma slice_Some_2 l a b : 0 <= a <= b -> b <= blen l ->
  slice l a b = Some (take (Z.to_nat (b - a)) (drop (Z.to_nat a) l)).
Proof.
  intros. unfold slice.
  destruct (Z.leb_spec 0 a), (Z.leb_spec a b), (Z.leb_spec b (blen l)); done || lia.
Qed.

Lemma slice_is_Some l a b : is_Some (slice l a b) <-> 0 <= a <= b /\ b <= blen l.
Proof.
  split.
  - intros [s Hs]. apply slice_Some in Hs. tauto.
  - intros [? ?]. rewrite slice_Some_2 by tauto. eauto.
Qed.

Lemma slice_blen l a b s : slice l a b = Some s -> blen s = b - a.
Proof.
  intros Hs%slice_Some. destruct Hs as (? & ? & ->).
  unfold blen in *. rewrite length_take, length_drop. lia.
Qed.

Lemma slice_is_bytes l a b s : is_bytes l -> slice l a b = Some s -> is_bytes s.
Proof. intros Hl Hs%slice_Some. destruct Hs as (? & ? & ->). by apply Forall_take, Forall_drop. Qed.

Lemma slice_byte l a b s i : slice l a b = Some s -> 0 <= i < b - a ->
  byte_at s i = byte_at l (a + i).
Proof.
  intros Hs%slice_Some Hi. destruct Hs as (? & ? & ->). unfold byte_at.
  destruct (Z.leb_spec 0 i), (Z.leb_spec 0 (a + i)); try lia.
  rewrite lookup_take_lt, lookup_drop by lia. f_equal. lia.
Qed.

Lemma slice_full l : slice l 0 (blen l) = Some l.
Proof.
  rewrite slice_Some_2 by (pose proof (blen_nonneg l); lia).
  f_equal. rewrite drop_0, take_ge; [done|]. unfold blen. lia.
Qed.

(** Slicing a slice. *)
Lemma slice_slice l a b s c d : slice l a b = Some s -> 0 <= c <= d -> d <= b - a ->
  slice s c d = slice l (a + c) (a + d).
Proof.
  intros Hs Hcd Hd. pose proof (slice_blen _ _ _ _ Hs) as Hlen.
  pose proof (slice_Some _ _ _ _ Hs) as (? & ? & _).
  destruct (slice s c d) as [t|] eqn:Ht.
  2:{ rewrite slice_Some_2 in Ht by lia. done. }
  destruct (slice l (a + c) (a + d)) as [u|] eqn:Hu.
  2:{ rewrite slice_Some_2 in Hu by lia. done. }
  f_equal. apply byte_ext.
  - rewrite (slice_blen _ _ _ _ Ht), (slice_blen _ _ _ _ Hu). lia.
  - intros i Hi. rewrite (slice_blen _ _ _ _ Ht) in Hi.
    rewrite (slice_byte _ _ _ _ _ Ht) by lia. rewrite (slice_byte _ _ _ _ _ Hs) by lia.
    rewrite (slice_byte _ _ _ _ _ Hu) by lia. f_equal. lia.
Qed.

Lemma byte_at_app x y i : byte_at (x ++ y) i = if i <? blen x then byte_at x i else byte_at y (i - blen x).
Proof.
  unfold byte_at, blen. destruct (Z.ltb_spec i (Z.of_nat (length x))), (Z.leb_spec 0 i); try done.
  - apply lookup_app_l. lia.
  - destruct (Z.leb_spec 0 (i - Z.of_nat (length x))); [|lia]. rewrite lookup_app_r by lia. f_equal. lia.
  - lia.
Qed.

(** ** [splice] *)

Lemma splice_Some l a src l' : splice l a src = Some l' ->
  0 <= a /\ a + blen src <= blen l /\
  l' = take (Z.to_nat a) l ++ src ++ drop (Z.to_nat a + length src) l.
Proof. unfold splice. intros. bool_cases; simplify_eq; bool_to_prop. auto. Qed.

Lemma splice_is_Some l a src :
  is_Some (splice l a src) <-> 0 <= a /\ a + blen src <= blen l.
Proof.
  unfold splice. split.
  - intros [l' Hl']. bool_cases; simplify_eq; bool_to_prop. auto.
  - intros [? ?]. destruct (Z.leb_spec 0 a), (Z.leb_spec (a + blen src) (blen l)); try lia.
    cbn. eauto.
Qed.

Lemma splice_blen l a src l' : splice l a src = Some l' -> blen l' = blen l.
Proof.
  intros Hs%splice_Some. destruct Hs as (? & ? & ->). unfold blen in *.
  rewrite !length_app, length_take, length_drop. lia.
Qed.

Lemma splice_is_bytes l a src l' :
  is_bytes l -> is_bytes src -> splice l a src = Some l' -> is_bytes l'.
Proof.
  intros Hl Hsrc Hs%splice_Some. destruct Hs as (? & ? & ->).
  repeat apply Forall_app_2; [by apply Forall_take | done | by apply Forall_drop].
Qed.

Lemma splice_byte l a src l' i : splice l a src = Some l' ->
  byte_at l' i =
  if (a <=? i) && (i <? a + blen src) then byte_at src (i - a) else byte_at l i.
Proof.
  intros Hs. pose proof (splice_blen _ _ _ _ Hs) as Hlen.
  apply splice_Some in Hs as (Ha & Hb & ->). unfold byte_at, blen in *.
  destruct (Z.leb_spec a i), (Z.ltb_spec i (a + Z.of_nat (length src)));
    cbn [andb]; destruct (Z.leb_spec 0 i); try lia; try done.
  - destruct (Z.leb_spec 0 (i - a)); [|lia].
    rewrite lookup_app_r; rewrite length_take; [|lia].
    rewrite lookup_app_l by lia. f_equal. lia.
  - rewrite lookup_app_r; rewrite length_take; [|lia].
    rewrite lookup_app_r by lia. rewrite lookup_drop. f_equal. lia.
  - rewrite lookup_app_l; [|rewrite length_take; lia].
    rewrite lookup_take_lt by lia. done.
Qed.

(** Reading back the range just written. *)
Lemma slice_splice_eq l a src l' : splice l a src = Some l' ->
  slice l' a (a + blen src) = Some src.
Proof.
  intros Hs. pose proof (splice_blen _ _ _ _ Hs) as Hlen.
  pose proof (splice_Some _ _ _ _ Hs) as (? & ? & _). pose proof (blen_nonneg src).
  destruct (slice l' a (a + blen src)) as [t|] eqn:Ht.
  2:{ rewrite slice_Some_2 in Ht by lia. done. }
  pose proof (slice_blen _ _ _ _ Ht). f_equal. apply byte_ext; [lia|].
  intros i Hi. rewrite (slice_byte _ _ _ _ _ Ht) by lia.
  rewrite (splice_byte _ _ _ _ _ Hs).
  destruct (Z.leb_spec a (a + i)), (Z.ltb_spec (a + i) (a + blen src)); try lia.
  cbn. f_equal. lia.
Qed.

(** A range disjoint from the one written is unchanged. *)
Lemma slice_splice_ne l a src l' c d : splice l a src = Some l' ->
  d <= a \/ a + blen src <= c -> slice l' c d = slice l c d.
Proof.
  intros Hs Hdis. pose proof (splice_blen _ _ _ _ Hs) as Hlen.
  destruct (slice l c d) as [t|] eqn:Ht.
  - pose proof (slice_Some _ _ _ _ Ht) as (? & ? & _).
    destruct (slice l' c d) as [u|] eqn:Hu.
    2:{ rewrite slice_Some_2 in Hu by lia. done. }
    pose proof (slice_blen _ _ _ _ Ht). pose proof (slice_blen _ _ _ _ Hu).
    f_equal. apply byte_ext; [lia|]. intros i Hi.
    rewrite (slice_byte _ _ _ _ _ Ht), (slice_byte _ _ _ _ _ Hu) by lia.
    rewrite (splice_byte _ _ _ _ _ Hs).
    destruct (Z.leb_spec a (c + i)), (Z.ltb_spec (c + i) (a + blen src)); done || lia.
  - destruct (slice l' c d) as [u|] eqn:Hu; [|done].
    pose proof (slice_Some _ _ _ _ Hu) as (? & ? & _).
    rewrite slice_Some_2 in Ht by lia. done.
Qed.

(** What lies left and right of a seam. *)
Lemma slice_left p q : slice (p ++ q) 0 (blen p) = Some p.
Proof.
  rewrite slice_Some_2 by (rewrite ?blen_app; pose proof (blen_nonneg p); pose proof (blen_nonneg q); lia).
  rewrite drop_0, Z.sub_0_r. unfold blen. by rewrite Nat2Z.id, take_app_length.
Qed.

Lemma slice_right p q a b : 0 <= a -> slice (p ++ q) (blen p + a) (blen p + b) = slice q a b.
Proof.
  intros Ha. pose proof (blen_nonneg p). unfold slice. rewrite blen_app.
  destruct (Z.leb_spec 0 (blen p + a)); [|lia]. destruct (Z.leb_spec 0 a); [|lia].
  destruct (Z.leb_spec (blen p + a) (blen p + b)), (Z.leb_spec a b); try lia; [|done].
  destruct (Z.leb_spec (blen p + b) (blen p + blen q)), (Z.leb_spec b (blen q)); try lia; [|done].
  cbn [andb]. f_equal. f_equal; [lia|]. unfold blen. rewrite Z2Nat.inj_add, Nat2Z.id by lia. apply drop_app_add.
Qed.

Lemma slice_join l a p b q : slice l 0 a = Some p -> slice l a b = Some q -> slice l 0 b = Some (p ++ q).
Proof.
  intros Hp Hq. pose proof (slice_Some _ _ _ _ Hp) as (? & ? & ->). pose proof (slice_Some _ _ _ _ Hq) as (? & ? & ->).
  rewrite slice_Some_2 by lia. f_equal. rewrite !drop_0, !Z.sub_0_r.
  replace (Z.to_nat b) with (Z.to_nat a + Z.to_nat (b - a))%nat by lia. by rewrite take_take_drop.
Qed.

(** ** Big-endian encoding *)

Lemma be_val_app l b : be_val (l ++ [b]) = be_val l * 256 + b.
Proof. unfold be_val. rewrite foldl_app. done. Qed.

Lemma length_be_bytes n v : length (be_bytes n v) = n.
Proof.
  revert v. induction n as [|n IH]; intros v; [done|].
  cbn. rewrite length_app, IH. cbn. lia.
Qed.

Lemma blen_be_bytes n v : blen (be_bytes n v) = Z.of_nat n.
Proof. unfold blen. by rewrite length_be_bytes. Qed.

Lemma be_bytes_is_bytes n v : is_bytes (be_bytes n v).
Proof.
  revert v. induction n as [|n IH]; intros v; [constructor|].
  cbn [be_bytes]. apply Forall_app_2; [apply IH|]. apply Forall_singleton.
  unfold is_u8, u8_max. pose proof (Z.mod_pos_bound v 256). lia.
Qed.

Lemma be_val_bytes n v : 0 <= v < 256 ^ Z.of_nat n -> be_val (be_bytes n v) = v.
Proof.
  revert v. induction n as [|n IH]; intros v Hv.
  - cbn in *. lia.
  - cbn [be_bytes]. rewrite be_val_app, IH.
    + pose proof (Z.div_mod v 256). lia.
    + rewrite Nat2Z.inj_succ, Z.pow_succ_r in Hv by lia.
      split; [apply Z.div_pos; lia | apply Z.div_lt_upper_bound; lia].
Qed.

Lemma be_val_bound l : is_bytes l -> 0 <= be_val l < 256 ^ blen l.
Proof.
  induction l as [|b l IH] using rev_ind; intros Hl; [change (0 <= 0 < 1); lia|].
  apply Forall_app in Hl as [Hl Hb]. inversion Hb; subst. unfold is_u8, u8_max in *.
  rewrite be_val_app, blen_app. change (blen [b]) with 1.
  pose proof (blen_nonneg l). rewrite Z.pow_add_r by lia.
  specialize (IH Hl). lia.
Qed.

Lemma be_bytes_val l : is_bytes l -> be_bytes (length l) (be_val l) = l.
Proof.
  induction l as [|b l IH] using rev_ind; intros Hl; [done|].
  apply Forall_app in Hl as [Hl Hb]. inversion Hb; subst. unfold is_u8, u8_max in *.
  rewrite be_val_app, length_app, Nat.add_1_r. cbn [be_bytes].
  rewrite (Z.add_comm _ b), Z.div_add, Z.mod_add by lia.
  rewrite Z.div_small, Z.mod_small, Z.add_0_l, IH by (done || lia). done.
Qed.

(** ** The byte-order helpers round trip *)

Lemma be_u64_ok {E} buf off : 0 <= off -> off + 8 <= blen buf ->
  exists s, slice buf off (off + 8) = Some s /\ be_u64 (E := E) buf off = Ok (be_val s).
Proof.
  intros. unfold be_u64. destruct (slice buf off (off + 8)) as [s|] eqn:Hs; [eauto|].
  rewrite slice_Some_2 in Hs by lia. done.
Qed.

Lemma be_u64_bound {E} buf off v :
  is_bytes buf -> be_u64 (E := E) buf off = Ok v -> is_u64 v.
Proof.
  unfold be_u64. intros Hb. destruct (slice buf off (off + 8)) as [s|] eqn:Hs; cbn; [|done].
  intros [= <-]. pose proof (be_val_bound s (slice_is_bytes _ _ _ _ Hb Hs)) as Hv.
  rewrite (slice_blen _ _ _ _ Hs) in Hv. replace (off + 8 - off) with 8 in Hv by lia.
  change (256 ^ 8) with 18446744073709551616 in Hv. unfold is_u64, u64_max. lia.
Qed.

Lemma write_be_u64_read {E F} buf buf' off v :
  is_u64 v -> write_be_u64 (E := E) buf off v = Ok buf' -> be_u64 (E := F) buf' off = Ok v.
Proof.
  unfold write_be_u64, be_u64. intros Hv.
  destruct (splice buf off (be_bytes 8 v)) as [b|] eqn:Hs; cbn; [|done]. intros [= ->].
  pose proof (slice_splice_eq _ _ _ _ Hs) as Hr. rewrite blen_be_bytes in Hr.
  change (Z.of_nat 8) with 8 in Hr. rewrite Hr. cbn [or_panic obind]. f_equal. apply be_val_bytes.
  change (256 ^ Z.of_nat 8) with 18446744073709551616. unfold is_u64, u64_max in Hv. lia.
Qed.

Lemma write_be_u64_frame {E F} buf buf' off v off' :
  write_be_u64 (E := E) buf off v = Ok buf' -> off' + 8 <= off \/ off + 8 <= off' ->
  be_u64 (E := F) buf' off' = be_u64 buf off'.
Proof.
  unfold write_be_u64, be_u64. intros Hw Hdis.
  destruct (splice buf off (be_bytes 8 v)) as [b|] eqn:Hs; [|done]. injection Hw as ->.
  rewrite (slice_splice_ne _ _ _ _ _ _ Hs); [done|]. rewrite blen_be_bytes. lia.
Qed.

Lemma write_be_u64_blen {E} buf buf' off v :
  write_be_u64 (E := E) buf off v = Ok buf' -> blen buf' = blen buf.
Proof.
  unfold write_be_u64. destruct (splice buf off (be_bytes 8 v)) as [b|] eqn:Hs; [|done].
  intros [= ->]. by eapply splice_blen.
Qed.

#[export] Hint Resolve blen_nonneg be_bytes_is_bytes : instar.
Create Rewrite HintDb instar.
#[export] Hint Rewrite @blen_app @blen_cons @blen_be_bytes : instar.

(** ** Reading fixed-width fields of a long enough buffer *)

Lemma be_field_read {E} (n : nat) buf off : is_bytes buf -> 0 <= off -> off + Z.of_nat n <= blen buf ->
  exists s, slice buf off (off + Z.of_nat n) = Some s /\ 0 <= be_val s < 256 ^ Z.of_nat n /\
    obind (E := E) (or_panic (slice buf off (off + Z.of_nat n))) (fun s => Ok (be_val s)) = Ok (be_val s).
Proof.
  intros Hb Ho Hl. destruct (slice buf off (off + Z.of_nat n)) as [s|] eqn:Hs.
  2:{ rewrite slice_Some_2 in Hs by lia. done. }
  exists s. split; [done|]. split; [|done].
  pose proof (be_val_bound s (slice_is_bytes _ _ _ _ Hb Hs)) as Hv.
  rewrite (slice_blen _ _ _ _ Hs) in Hv.
  by replace (off + Z.of_nat n - off) with (Z.of_nat n) in Hv by lia.
Qed.

Lemma be_u32_read {E} buf off : is_bytes buf -> 0 <= off -> off + 4 <= blen buf ->
  exists v, be_u32 (E := E) buf off = Ok v /\ is_u32 v.
Proof.
  intros Hb Ho Hl. destruct (be_field_read (E := E) 4 buf off Hb Ho Hl) as (s & _ & Hv & He).
  exists (be_val s). split; [exact He|]. unfold is_u32, u32_max.
  change (256 ^ Z.of_nat 4) with 4294967296 in Hv. lia.
Qed.

Lemma be_u64_read {E} buf off : is_bytes buf -> 0 <= off -> off + 8 <= blen buf ->
  exists v, be_u64 (E := E) buf off = Ok v /\ is_u64 v.
Proof.
  intros Hb Ho Hl. destruct (be_field_read (E := E) 8 buf off Hb Ho Hl) as (s & _ & Hv & He).
  exists (be_val s). split; [exact He|]. unfold is_u64, u64_max.
  change (256 ^ Z.of_nat 8) with 18446744073709551616 in Hv. lia.
Qed.
