(* ===== verification/Refcount.v ===== *)
(** Refcount primitives and the cluster allocator of the snapshot crate
    ([src/src/crates/snapshot/src/qcow2.rs], errors from
    [src/src/crates/snapshot/src/lib.rs]).

    A refcount block is a byte buffer of packed entries of 1, 2, 4, 8, 16, 32 or
    64 bits.  [read_refcount_in_block] and [set_refcount_in_block] are the scalar
    accessors; [alloc_contiguous_clusters_in_refblocks] is the first-fit
    allocator over the concatenation of the staged refcount blocks. *)

From stdpp Require Import base numbers list sets.
From Stdlib Require Import ZArith Lia.
From S2P Require Import Prelude Bytes.

(** ** Definitions *)

Inductive SnapshotError : Type :=
| UnsupportedFormat
| UnsupportedFeature
| NotFound
| DuplicateName
| RefcountOverflow (at_host_offset : Z)
| AllocationFailed
| RefcountExhausted
| SnapshotTableFull
| Io
| L1SizeMismatch
| InvalidUtf8
| InvalidConfig
| ParseFailed
| MisalignedAccess
| Unsupported.

#[global] Instance SnapshotError_eq_dec : EqDecision SnapshotError.
Proof. solve_decision. Defined.

(** The sub-byte widths: entries are packed LSB first within a byte. *)
Definition read_packed (block : bytes) (local_idx per width : Z) : outcome SnapshotError Z :=
  let byte := local_idx / per in
  if blen block <=? byte then Err MisalignedAccess
  else let? b := or_panic (byte_at block byte) in
       Ok (Z.land (Z.shiftr b (width * (local_idx mod per))) (2 ^ width - 1)).

(** The widths of [n] whole bytes: big-endian at byte [local_idx * n]. *)
Definition read_whole (block : bytes) (local_idx : Z) (n : nat) : outcome SnapshotError Z :=
  let off := wmul local_idx (Z.of_nat n) in
  if blen block <? wadd off (Z.of_nat n) then Err MisalignedAccess
  else let? s := or_panic (slice block off (off + Z.of_nat n)) in Ok (be_val s).

Definition read_refcount_in_block (block : bytes) (local_idx refcount_bits : Z)
  : outcome SnapshotError Z :=
  match refcount_bits with
  | 1 => read_packed block local_idx 8 1
  | 2 => read_packed block local_idx 4 2
  | 4 => read_packed block local_idx 2 4
  | 8 => let byte := local_idx in
         if blen block <=? byte then Err MisalignedAccess
         else or_panic (byte_at block byte)
  | 16 => read_whole block local_idx 2
  | 32 => read_whole block local_idx 4
  | 64 => read_whole block local_idx 8
  | _ => Err Unsupported
  end.

(** [(block[byte] & !mask) | (((value as u8) & ones) << shift)]. *)
Definition set_packed (block : bytes) (local_idx per width value : Z)
  : outcome SnapshotError bytes :=
  let byte := local_idx / per in
  if blen block <=? byte then Err MisalignedAccess
  else
    let shift := width * (local_idx mod per) in
    let mask := Z.shiftl (2 ^ width - 1) shift in
    let? b := or_panic (byte_at block byte) in
    or_panic (set_byte block byte
      (Z.lor (Z.land b (not8 mask))
             (Z.shiftl (Z.land (as_u8 value) (2 ^ width - 1)) shift))).

Definition set_whole (block : bytes) (local_idx : Z) (n : nat) (value : Z)
  : outcome SnapshotError bytes :=
  let off := wmul local_idx (Z.of_nat n) in
  if blen block <? wadd off (Z.of_nat n) then Err MisalignedAccess
  else or_panic (splice block off (be_bytes n value)).

Definition set_refcount_in_block (block : bytes) (local_idx refcount_bits value : Z)
  : outcome SnapshotError bytes :=
  match refcount_bits with
  | 1 => let byte := local_idx / 8 in
         if blen block <=? byte then Err MisalignedAccess
         else let bit := local_idx mod 8 in
              let? b := or_panic (byte_at block byte) in
              or_panic (set_byte block byte
                (if value =? 0 then Z.land b (not8 (Z.shiftl 1 bit))
                 else Z.lor b (Z.shiftl 1 bit)))
  | 2 => set_packed block local_idx 4 2 value
  | 4 => set_packed block local_idx 2 4 value
  | 8 => let byte := local_idx in
         if blen block <=? byte then Err MisalignedAccess
         else or_panic (set_byte block byte (as_u8 value))
  | 16 => set_whole block local_idx 2 value
  | 32 => set_whole block local_idx 4 value
  | 64 => set_whole block local_idx 8 value
  | _ => Err Unsupported
  end.

Definition check_refcount_after_addend (current addend refcount_bits : Z)
  : outcome SnapshotError Z :=
  if refcount_bits =? 0 then Err Unsupported
  else
    let max := if 64 <=? refcount_bits then u64_max else Z.shiftl 1 refcount_bits - 1 in
    if 0 <=? addend then
      let? new_val := ok_or (checked_add current addend) (RefcountOverflow 0) in
      if max <? new_val then Err (RefcountOverflow 0) else Ok new_val
    else
      let dec := Z.abs addend in
      if current <? dec then Err ParseFailed else Ok (current - dec).

Record AllocCursor : Type := mkAllocCursor {
  next_refblock : Z;
  next_entry_in_refblock : Z;
  allocated : Z
}.

Definition AllocCursor_default : AllocCursor := mkAllocCursor 0 0 0.

(** The [&mut] parameters of the allocator. *)
Record AllocSt : Type := mkAllocSt { as_blocks : bytes; as_cursor : AllocCursor }.

(** The [read_entry] closure: a flat cluster index into the block bytes. *)
Definition read_entry (blocks : bytes) (cluster_size refcount_bits epr cluster_index : Z)
  : outcome SnapshotError Z :=
  let refblock_idx := cluster_index / epr in
  let entry_idx := cluster_index mod epr in
  let? refblock_byte_off := ok_or (checked_mul refblock_idx cluster_size) ParseFailed in
  let? refblock_end := ok_or (checked_add refblock_byte_off cluster_size) ParseFailed in
  if blen blocks <? refblock_end then Err MisalignedAccess
  else let? b := or_panic (slice blocks refblock_byte_off refblock_end) in
       read_refcount_in_block b entry_idx refcount_bits.

(** The inner probe loop: [Ok None] when all [n] entries from [probe] are free,
    [Ok (Some p)] when entry [p] is the first occupied one. *)
Fixpoint probe_run (n : nat) (blocks : bytes) (cluster_size refcount_bits epr probe : Z)
  : outcome SnapshotError (option Z) :=
  match n with
  | O => Ok None
  | S n' =>
      let? v := read_entry blocks cluster_size refcount_bits epr probe in
      if v =? 0 then probe_run n' blocks cluster_size refcount_bits epr (probe + 1)
      else Ok (Some probe)
  end.

(** The claim loop: set the [n] entries from [cluster_index] to 1. *)
Fixpoint claim_run (n : nat) (cluster_size refcount_bits epr cluster_index : Z)
  : SM AllocSt SnapshotError unit :=
  match n with
  | O => sret tt
  | S n' =>
      let! s := sget in
      let blocks := as_blocks s in
      let off := wmul (cluster_index / epr) cluster_size in
      let! refblock := slift (or_panic (slice blocks off (wadd off cluster_size))) in
      let! refblock' :=
        slift (set_refcount_in_block refblock (cluster_index mod epr) refcount_bits 1) in
      let! blocks' := slift (or_panic (splice blocks off refblock')) in
      do! sput (mkAllocSt blocks' (as_cursor s)) in
      claim_run n' cluster_size refcount_bits epr (cluster_index + 1)
  end.

(** The outer scan loop.  Every turn moves [start] forward, so
    [total_entries + 1] turns are enough. *)
Fixpoint alloc_scan (fuel : nat)
    (cluster_size refcount_bits epr total_entries host_refblocks_start count start : Z)
  : SM AllocSt SnapshotError Z :=
  match fuel with
  | O => slift OutOfFuel
  | S fuel' =>
      if wadd start count <=? total_entries then
        let! s := sget in
        let! p := slift (probe_run (Z.to_nat (wadd start count - start))
                           (as_blocks s) cluster_size refcount_bits epr start) in
        match p with
        | None =>
            do! claim_run (Z.to_nat (wadd start count - start))
                  cluster_size refcount_bits epr start in
            let next := wadd start count in
            do! smod (fun s => mkAllocSt (as_blocks s)
                  (mkAllocCursor (next / epr) (next mod epr)
                     (wadd (allocated (as_cursor s)) count))) in
            slift (let? v := ok_or (checked_mul start cluster_size) ParseFailed in
                   ok_or (checked_add v host_refblocks_start) ParseFailed)
        | Some probe =>
            alloc_scan fuel' cluster_size refcount_bits epr total_entries
              host_refblocks_start count (wadd probe 1)
        end
      else sfail RefcountExhausted
  end.

Definition alloc_contiguous_clusters_in_refblocks
    (cluster_size refcount_bits refblock_count host_refblocks_start count : Z)
  : SM AllocSt SnapshotError Z :=
  if negb (refcount_bits =? 16) then sfail Unsupported
  else if cluster_size =? 0 then sfail InvalidConfig
  else if count =? 0 then sfail InvalidConfig
  else
    let epr := wmul cluster_size 8 / refcount_bits in
    if epr =? 0 then sfail InvalidConfig
    else
      let! total_entries := slift (ok_or (checked_mul refblock_count epr) ParseFailed) in
      let! s := sget in
      let cursor := as_cursor s in
      let! base := slift (ok_or (checked_mul (next_refblock cursor) epr) ParseFailed) in
      let! start :=
        slift (ok_or (checked_add base (next_entry_in_refblock cursor)) ParseFailed) in
      alloc_scan (S (Z.to_nat total_entries)) cluster_size refcount_bits epr total_entries
        host_refblocks_start count start.

Definition alloc_cluster_in_refblocks
    (cluster_size refcount_bits refblock_count host_refblocks_start : Z)
  : SM AllocSt SnapshotError Z :=
  alloc_contiguous_clusters_in_refblocks cluster_size refcount_bits refblock_count
    host_refblocks_start 1.

(** ** Specification vocabulary *)

(** The widths the format permits. *)
Definition valid_width (w : Z) : Prop := w ∈ [1; 2; 4; 8; 16; 32; 64].

(** Entry [idx] lies wholly inside the block. *)
Definition in_block (block : bytes) (idx w : Z) : Prop :=
  0 <= idx /\ (idx + 1) * w <= 8 * blen block.

(** A Rust slice is never longer than [isize::MAX] bytes. *)
Definition slice_fits (l : bytes) : Prop := blen l <= 9223372036854775807.

(** ** Packed bytes: entry [i] of a byte is read and written independently *)

Definition get_sub (w b i : Z) : Z := Z.land (Z.shiftr b (w * i)) (2 ^ w - 1).
Definition put_sub (w b i u : Z) : Z :=
  Z.lor (Z.land b (not8 (Z.shiftl (2 ^ w - 1) (w * i)))) (Z.shiftl u (w * i)).

Definition sub_check (w : Z) : bool :=
  forallb (fun b => forallb (fun i => forallb (fun u =>
    let p := put_sub w b i u in
    (0 <=? p) && (p <=? 255) &&
    forallb (fun j => get_sub w p j =? (if j =? i then u else get_sub w b j))
      (seqZ 0 (8 / w)))
    (seqZ 0 (2 ^ w))) (seqZ 0 (8 / w))) (seqZ 0 256).

Lemma sub_check_ok : forallb sub_check [1; 2; 4] = true.
Proof. vm_compute. reflexivity. Qed.

Lemma forallb_seqZ f a n : forallb f (seqZ a n) = true -> forall x, a <= x < a + n -> f x = true.
Proof.
  intros Hf x Hx. rewrite forallb_forall in Hf. apply Hf.
  apply list_elem_of_In, elem_of_seqZ. lia.
Qed.

Lemma put_sub_spec w b i u : w ∈ [1; 2; 4] -> is_u8 b -> 0 <= i < 8 / w -> 0 <= u < 2 ^ w ->
  is_u8 (put_sub w b i u) /\
  forall j, 0 <= j < 8 / w ->
    get_sub w (put_sub w b i u) j = if j =? i then u else get_sub w b j.
Proof.
  intros Hw Hb Hi Hu. pose proof sub_check_ok as Hc.
  rewrite forallb_forall in Hc. specialize (Hc w ltac:(by apply list_elem_of_In)).
  unfold sub_check in Hc. unfold is_u8, u8_max in *.
  apply forallb_seqZ with (x := b) in Hc; [|lia].
  apply forallb_seqZ with (x := i) in Hc; [|lia].
  apply forallb_seqZ with (x := u) in Hc; [|lia].
  cbv zeta in Hc. apply andb_true_iff in Hc as [Hr Hg]. bool_to_prop.
  split; [lia|]. intros j Hj.
  apply forallb_seqZ with (x := j) in Hg; [|lia]. by apply Z.eqb_eq in Hg.
Qed.

Lemma land_ones_bound x w : 0 <= w -> 0 <= Z.land x (2 ^ w - 1) < 2 ^ w.
Proof.
  intros Hw. pose proof (Z.ones_equiv w) as Ho.
  rewrite <- Z.sub_1_r in Ho. rewrite <- Ho, Z.land_ones by done.
  apply Z.mod_pos_bound. lia.
Qed.

Definition bit1_check : bool :=
  forallb (fun b => forallb (fun i =>
    Z.lor b (Z.shiftl 1 i) =? put_sub 1 b i 1) (seqZ 0 8)) (seqZ 0 256).

Lemma bit1_check_ok : bit1_check = true.
Proof. vm_compute. reflexivity. Qed.

Lemma set_bit_put_sub b i : is_u8 b -> 0 <= i < 8 -> Z.lor b (Z.shiftl 1 i) = put_sub 1 b i 1.
Proof.
  intros Hb Hi. pose proof bit1_check_ok as Hc. unfold bit1_check in Hc.
  unfold is_u8, u8_max in Hb.
  apply forallb_seqZ with (x := b) in Hc; [|lia].
  apply forallb_seqZ with (x := i) in Hc; [|lia]. by apply Z.eqb_eq.
Qed.

(** ** The accessors in terms of whole ranges *)

Lemma read_packed_val block idx per w : 0 < per -> 0 <= idx -> idx / per < blen block ->
  exists b, byte_at block (idx / per) = Some b /\
            read_packed block idx per w = Ok (get_sub w b (idx mod per)).
Proof.
  intros Hper Hidx Hlt. pose proof (Z.div_pos idx per Hidx Hper).
  destruct (proj2 (byte_at_Some_iff block (idx / per))) as [b Hb]; [lia|].
  exists b. split; [done|]. unfold read_packed.
  destruct (Z.leb_spec (blen block) (idx / per)); [lia|]. by rewrite Hb.
Qed.

(** What a packed write does: only its byte changes, to [put_sub]. *)
Definition packed_write (block : bytes) (idx per w u : Z) (block' : bytes) : Prop :=
  exists b, byte_at block (idx / per) = Some b /\
            splice block (idx / per) [put_sub w b (idx mod per) u] = Some block'.

Lemma packed_write_exists block idx per w u :
  0 < per -> 0 <= idx -> idx / per < blen block -> exists block', packed_write block idx per w u block'.
Proof.
  intros Hper Hidx Hlt. pose proof (Z.div_pos idx per Hidx Hper).
  destruct (proj2 (byte_at_Some_iff block (idx / per))) as [b Hb]; [lia|].
  destruct (proj2 (splice_is_Some block (idx / per) [put_sub w b (idx mod per) u])) as [b' Hb'].
  { change (blen [put_sub w b (idx mod per) u]) with 1. lia. }
  exists b', b. done.
Qed.

Lemma packed_write_read block idx per w u block' j :
  w ∈ [1; 2; 4] -> per = 8 / w -> is_bytes block -> 0 <= idx -> 0 <= u < 2 ^ w ->
  packed_write block idx per w u block' -> 0 <= j ->
  read_packed block' j per w = if j =? idx then Ok u else read_packed block j per w.
Proof.
  intros Hw -> Hbs Hidx Hu (b & Hb & Hs) Hj.
  assert (0 < 8 / w) as Hper by (rewrite !elem_of_cons in Hw; destruct Hw as [->|[->|[->|Hn]]];
    [done..| by apply elem_of_nil in Hn]).
  pose proof (splice_blen _ _ _ _ Hs) as Hlen.
  pose proof (byte_at_u8 _ _ _ Hbs Hb) as Hu8.
  pose proof (Z.mod_pos_bound idx (8 / w) Hper). pose proof (Z.mod_pos_bound j (8 / w) Hper).
  destruct (put_sub_spec w b (idx mod (8 / w)) u Hw Hu8) as [_ Hget]; [lia..|].
  pose proof (Z.div_pos j _ Hj Hper). pose proof (Z.div_pos idx _ Hidx Hper).
  pose proof (Z.div_mod j (8 / w)). pose proof (Z.div_mod idx (8 / w)).
  unfold read_packed. rewrite Hlen.
  destruct (Z.leb_spec (blen block) (j / (8 / w))).
  - assert (is_Some (byte_at block (idx / (8 / w)))) as Hin by eauto.
    apply byte_at_Some_iff in Hin.
    destruct (Z.eqb_spec j idx); [subst; lia | done].
  - rewrite (splice_byte _ _ _ _ _ Hs).
    change (blen [put_sub w b (idx mod (8 / w)) u]) with 1.
    destruct (Z.eq_dec (j / (8 / w)) (idx / (8 / w))) as [Heq|Hne].
    + rewrite Heq, Z.leb_refl. destruct (Z.ltb_spec (idx / (8 / w)) (idx / (8 / w) + 1)); [|lia].
      cbn [andb]. rewrite Z.sub_diag.
      change (byte_at [?x] 0) with (Some x). rewrite Hb. cbn [or_panic obind].
      unfold get_sub in Hget. rewrite Hget by lia.
      destruct (Z.eqb_spec (j mod (8 / w)) (idx mod (8 / w))), (Z.eqb_spec j idx); done || nia.
    + destruct (Z.eqb_spec j idx); [congruence|].
      destruct (Z.leb_spec (idx / (8 / w)) (j / (8 / w))),
        (Z.ltb_spec (j / (8 / w)) (idx / (8 / w) + 1)); done || lia.
Qed.

Lemma packed_write_blen block idx per w u block' :
  packed_write block idx per w u block' -> blen block' = blen block.
Proof. intros (b & _ & Hs). by eapply splice_blen. Qed.

Lemma packed_write_bytes block idx per w u block' :
  w ∈ [1; 2; 4] -> per = 8 / w -> is_bytes block -> 0 <= idx -> 0 <= u < 2 ^ w ->
  packed_write block idx per w u block' -> is_bytes block'.
Proof.
  intros Hw -> Hbs Hidx Hu (b & Hb & Hs).
  assert (0 < 8 / w) as Hper by (rewrite !elem_of_cons in Hw; destruct Hw as [->|[->|[->|Hn]]];
    [done..| by apply elem_of_nil in Hn]).
  pose proof (Z.mod_pos_bound idx (8 / w) Hper).
  pose proof (byte_at_u8 _ _ _ Hbs Hb) as Hu8.
  eapply splice_is_bytes; [done| |done]. apply Forall_singleton.
  apply put_sub_spec; done || lia.
Qed.

(** The value an entry of width [w] holds after [value] is written to it. *)
Definition stored (w value : Z) : Z :=
  if w =? 1 then (if value =? 0 then 0 else 1) else value mod 2 ^ w.

Lemma land_as_u8 w v : w ∈ [2; 4] -> Z.land (as_u8 v) (2 ^ w - 1) = v mod 2 ^ w.
Proof.
  intros Hw. unfold as_u8. rewrite !elem_of_cons in Hw.
  assert (forall k, 0 <= k <= 8 -> Z.land (v mod 256) (2 ^ k - 1) = v mod 2 ^ k) as H.
  { intros k Hk. pose proof (Z.ones_equiv k) as Ho. rewrite <- Z.sub_1_r in Ho.
    rewrite <- Ho, Z.land_ones by lia. change 256 with (2 ^ 8).
    replace (2 ^ 8) with (2 ^ k * 2 ^ (8 - k)) by (rewrite <- Z.pow_add_r by lia; f_equal; lia).
    rewrite Z.rem_mul_r by (try apply Z.pow_nonzero; lia).
    rewrite Z.mul_comm, Z.mod_add by (apply Z.pow_nonzero; lia).
    apply Z.mod_mod, Z.pow_nonzero; lia. }
  destruct Hw as [->|[->|Hn]]; [apply H; lia..| by apply elem_of_nil in Hn].
Qed.

(** A sub-byte write performs [packed_write] of the stored value. *)
Lemma set_sub_write block idx w value :
  w ∈ [1; 2; 4] -> is_bytes block -> 0 <= idx -> idx / (8 / w) < blen block ->
  exists block', set_refcount_in_block block idx w value = Ok block' /\
                 packed_write block idx (8 / w) w (stored w value) block'.
Proof.
  intros Hw Hbs Hidx Hlt.
  assert (0 < 8 / w) as Hper by (rewrite !elem_of_cons in Hw; destruct Hw as [->|[->|[->|Hn]]];
    [done..| by apply elem_of_nil in Hn]).
  destruct (packed_write_exists block idx (8 / w) w (stored w value)) as [b' Hpw]; [done..|].
  exists b'. split; [|done]. destruct Hpw as (b & Hb & Hs).
  pose proof (byte_at_u8 _ _ _ Hbs Hb) as Hu8.
  pose proof (Z.mod_pos_bound idx (8 / w) Hper).
  assert (w ∈ [2; 4] -> set_packed block idx (8 / w) w value = Ok b') as Hpacked.
  { intros Hw'. unfold set_packed, set_byte. destruct (Z.leb_spec (blen block) (idx / (8 / w))); [lia|].
    rewrite Hb. cbn [or_panic obind]. rewrite land_as_u8 by done.
    assert (stored w value = value mod 2 ^ w) as Hst.
    { unfold stored. destruct (Z.eqb_spec w 1); [subst; set_solver|done]. }
    rewrite Hst in Hs. unfold put_sub in Hs. by rewrite Hs. }
  rewrite !elem_of_cons in Hw. destruct Hw as [->|[->|[->|Hn]]]; [..|by apply elem_of_nil in Hn].
  - change (8 / 1) with 8 in *. unfold stored in Hs. change (1 =? 1) with true in Hs.
    unfold set_refcount_in_block, set_byte.
    destruct (Z.leb_spec (blen block) (idx / 8)); [lia|]. rewrite Hb. cbn [or_panic obind].
    destruct (value =? 0); [|rewrite set_bit_put_sub by (done || lia); by rewrite Hs].
    unfold put_sub in Hs. rewrite Z.shiftl_0_l, Z.lor_0_r, Z.mul_1_l in Hs.
    change (2 ^ 1 - 1) with 1 in Hs. by rewrite Hs.
  - apply Hpacked. apply elem_of_cons; auto using list_elem_of_here.
  - apply Hpacked. set_solver.
Qed.

(** The byte-and-wider widths, uniformly: entry [idx] of [n] bytes is the
    big-endian value of bytes [idx * n .. idx * n + n]. *)
Lemma byte_at_slice block i : byte_at block i = (be_val <$> slice block i (i + 1)).
Proof.
  destruct (slice block i (i + 1)) as [s|] eqn:Hs; cbn.
  - pose proof (slice_blen _ _ _ _ Hs) as Hlen. pose proof (slice_byte _ _ _ _ 0 Hs ltac:(lia)) as H0.
    rewrite Z.add_0_r in H0. rewrite <- H0. unfold blen in Hlen.
    destruct s as [|b [|? ?]]; cbn in *; try lia. done.
  - apply byte_at_None. intros ?. rewrite slice_Some_2 in Hs by lia. done.
Qed.

Lemma read_whole_val block idx n : slice_fits block -> 0 <= idx -> (0 < n)%nat ->
  idx * Z.of_nat n + Z.of_nat n <= blen block ->
  read_whole block idx n =
  or_panic (be_val <$> slice block (idx * Z.of_nat n) (idx * Z.of_nat n + Z.of_nat n)).
Proof.
  unfold slice_fits. intros Hfit Hidx Hn Hle. unfold read_whole.
  rewrite wmul_small by (unfold u64_max; nia). rewrite wadd_small by (unfold u64_max; nia).
  destruct (Z.ltb_spec (blen block) (idx * Z.of_nat n + Z.of_nat n)); [lia|].
  by destruct (slice _ _ _).
Qed.

Lemma set_whole_val block idx n v : slice_fits block -> 0 <= idx -> (0 < n)%nat ->
  idx * Z.of_nat n + Z.of_nat n <= blen block ->
  set_whole block idx n v = or_panic (splice block (idx * Z.of_nat n) (be_bytes n v)).
Proof.
  unfold slice_fits. intros Hfit Hidx Hn Hle. unfold set_whole.
  rewrite wmul_small by (unfold u64_max; nia). rewrite wadd_small by (unfold u64_max; nia).
  destruct (Z.ltb_spec (blen block) (idx * Z.of_nat n + Z.of_nat n)); [lia|]. done.
Qed.

(** Classification of the widths: sub-byte, or [8 * n] with [n] whole bytes. *)
Lemma valid_width_cases w : valid_width w ->
  w ∈ [1; 2; 4] \/ exists n : nat, n ∈ [1; 2; 4; 8]%nat /\ w = 8 * Z.of_nat n.
Proof.
  unfold valid_width. intros Hw. rewrite !elem_of_cons in Hw.
  destruct Hw as [->|[->|[->|[->|[->|[->|[->|Hn]]]]]]]; [left; set_solver..| | | | |];
    [right; exists 1%nat | right; exists 2%nat | right; exists 4%nat | right; exists 8%nat |
     by apply elem_of_nil in Hn]; split; set_solver || done.
Qed.

Lemma read_multi_val block idx n w : n ∈ [1; 2; 4; 8]%nat -> w = 8 * Z.of_nat n ->
  slice_fits block -> in_block block idx w ->
  read_refcount_in_block block idx w =
  or_panic (be_val <$> slice block (idx * Z.of_nat n) (idx * Z.of_nat n + Z.of_nat n)).
Proof.
  intros Hn -> Hfit [Hidx Hin].
  rewrite !elem_of_cons in Hn. destruct Hn as [->|[->|[->|[->|Hn]]]]; [| | | |by apply elem_of_nil in Hn];
    unfold read_refcount_in_block.
  2: change (8 * Z.of_nat 2) with 16 in *; apply (read_whole_val block idx 2); done || lia.
  2: change (8 * Z.of_nat 4) with 32 in *; apply (read_whole_val block idx 4); done || lia.
  2: change (8 * Z.of_nat 8) with 64 in *; apply (read_whole_val block idx 8); done || lia.
  change (8 * Z.of_nat 1) with 8 in *. change (Z.of_nat 1) with 1.
  destruct (Z.leb_spec (blen block) idx); [lia|]. by rewrite byte_at_slice, Z.mul_1_r.
Qed.

Lemma set_multi_val block idx n w v : n ∈ [1; 2; 4; 8]%nat -> w = 8 * Z.of_nat n ->
  slice_fits block -> in_block block idx w ->
  set_refcount_in_block block idx w v =
  or_panic (splice block (idx * Z.of_nat n) (be_bytes n v)).
Proof.
  intros Hn -> Hfit [Hidx Hin].
  rewrite !elem_of_cons in Hn. destruct Hn as [->|[->|[->|[->|Hn]]]]; [| | | |by apply elem_of_nil in Hn];
    unfold set_refcount_in_block.
  2: change (8 * Z.of_nat 2) with 16 in *; apply (set_whole_val block idx 2 v); done || lia.
  2: change (8 * Z.of_nat 4) with 32 in *; apply (set_whole_val block idx 4 v); done || lia.
  2: change (8 * Z.of_nat 8) with 64 in *; apply (set_whole_val block idx 8 v); done || lia.
  change (8 * Z.of_nat 1) with 8 in *. change (Z.of_nat 1) with 1.
  destruct (Z.leb_spec (blen block) idx); [lia|]. by rewrite Z.mul_1_r.
Qed.

Lemma be_val_bytes_mod n v : be_val (be_bytes n v) = v mod 256 ^ Z.of_nat n.
Proof.
  revert v. induction n as [|n IH]; intros v.
  - cbn. by rewrite Z.mod_1_r.
  - cbn [be_bytes]. rewrite be_val_app, IH, Nat2Z.inj_succ, Z.pow_succ_r by lia.
    rewrite Z.rem_mul_r by (try apply Z.pow_nonzero; lia). lia.
Qed.

(** ** The scalar accessors: refinement of an array of naturals *)

Lemma in_block_sub block idx w : w ∈ [1; 2; 4] -> in_block block idx w ->
  0 <= idx /\ idx / (8 / w) < blen block.
Proof.
  intros Hw [Hidx Hin]. split; [done|].
  rewrite !elem_of_cons in Hw. destruct Hw as [->|[->|[->|Hn]]]; [..|by apply elem_of_nil in Hn];
    [change (8 / 1) with 8 | change (8 / 2) with 4 | change (8 / 4) with 2];
    apply Z.div_lt_upper_bound; lia.
Qed.

Lemma read_sub_eq block idx w : w ∈ [1; 2; 4] ->
  read_refcount_in_block block idx w = read_packed block idx (8 / w) w.
Proof.
  intros Hw. rewrite !elem_of_cons in Hw.
  destruct Hw as [->|[->|[->|Hn]]]; [..|by apply elem_of_nil in Hn]; reflexivity.
Qed.

Lemma read_refcount_ok block idx w :
  is_bytes block -> slice_fits block -> valid_width w -> in_block block idx w ->
  exists v, read_refcount_in_block block idx w = Ok v /\ 0 <= v < 2 ^ w.
Proof.
  intros Hb Hfit [Hw|(n & Hn & ->)]%valid_width_cases Hin.
  - destruct (in_block_sub _ _ _ Hw Hin) as [Hidx Hlt]. rewrite read_sub_eq by done.
    assert (0 < 8 / w /\ 0 <= w) as [Hper Hw0]
      by (rewrite !elem_of_cons in Hw; destruct Hw as [->|[->|[->|Hn]]];
          [done..| by apply elem_of_nil in Hn]).
    destruct (read_packed_val block idx (8 / w) w Hper Hidx Hlt) as (b & _ & ->).
    eexists. split; [done|]. apply land_ones_bound. done.
  - erewrite read_multi_val by done. destruct Hin as [Hidx Hin].
    destruct (slice block (idx * Z.of_nat n) (idx * Z.of_nat n + Z.of_nat n)) as [s|] eqn:Hs.
    2:{ rewrite slice_Some_2 in Hs by lia. done. }
    exists (be_val s). split; [done|].
    pose proof (be_val_bound s (slice_is_bytes _ _ _ _ Hb Hs)) as Hv.
    rewrite (slice_blen _ _ _ _ Hs) in Hv.
    replace (idx * Z.of_nat n + Z.of_nat n - idx * Z.of_nat n) with (Z.of_nat n) in Hv by lia.
    change 256 with (2 ^ 8) in Hv. rewrite <- Z.pow_mul_r in Hv by lia. lia.
Qed.

Lemma set_refcount_spec block idx w value :
  is_bytes block -> slice_fits block -> valid_width w -> in_block block idx w ->
  exists block', set_refcount_in_block block idx w value = Ok block' /\
    blen block' = blen block /\ is_bytes block' /\
    forall j, in_block block j w ->
      read_refcount_in_block block' j w =
      if j =? idx then Ok (stored w value) else read_refcount_in_block block j w.
Proof.
  intros Hb Hfit [Hw|(n & Hn & ->)]%valid_width_cases Hin.
  - destruct (in_block_sub _ _ _ Hw Hin) as [Hidx Hlt].
    destruct (set_sub_write block idx w value) as (b' & Hset & Hpw); [done..|].
    assert (0 <= stored w value < 2 ^ w) as Hst.
    { rewrite !elem_of_cons in Hw. destruct Hw as [->|[->|[->|Hn]]]; [..|by apply elem_of_nil in Hn];
        unfold stored; cbn -[Z.modulo Z.pow].
      - destruct (value =? 0); cbn; lia.
      - apply Z.mod_pos_bound; done.
      - apply Z.mod_pos_bound; done. }
    exists b'. split; [done|]. split; [by eapply packed_write_blen|].
    split; [by eapply packed_write_bytes|]. intros j [Hj _].
    rewrite !read_sub_eq by done. by eapply packed_write_read.
  - rewrite (set_multi_val block idx n _ value Hn eq_refl Hfit Hin). destruct Hin as [Hidx Hin].
    destruct (splice block (idx * Z.of_nat n) (be_bytes n value)) as [b'|] eqn:Hs.
    2:{ apply eq_None_not_Some in Hs as []. apply splice_is_Some. rewrite blen_be_bytes. lia. }
    pose proof (splice_blen _ _ _ _ Hs) as Hlen.
    exists b'. split; [done|]. split; [done|].
    split; [exact (splice_is_bytes _ _ _ _ Hb (be_bytes_is_bytes n value) Hs)|].
    intros j Hjin. rewrite !(read_multi_val _ j n) by (unfold slice_fits, in_block in *; rewrite ?Hlen; done).
    destruct Hjin as [Hj Hjin]. destruct (Z.eqb_spec j idx) as [->|Hne].
    + pose proof (slice_splice_eq _ _ _ _ Hs) as Hr. rewrite blen_be_bytes in Hr. rewrite Hr.
      cbn [fmap option_fmap option_map or_panic]. rewrite be_val_bytes_mod. f_equal. unfold stored.
      destruct (Z.eqb_spec (8 * Z.of_nat n) 1); [lia|].
      change 256 with (2 ^ 8). by rewrite <- Z.pow_mul_r by lia.
    + rewrite (slice_splice_ne _ _ _ _ _ _ Hs); [done|]. rewrite blen_be_bytes. nia.
Qed.

Lemma stored_small w v : valid_width w -> 0 <= v < 2 ^ w -> stored w v = v.
Proof.
  intros Hw Hv. unfold stored. destruct (Z.eqb_spec w 1) as [->|].
  - change (2 ^ 1) with 2 in Hv. destruct (Z.eqb_spec v 0); lia.
  - by apply Z.mod_small.
Qed.

(** ** The allocator over 16-bit refcount blocks *)

(** Refcount of flat cluster index [i] in the concatenated blocks. *)
Definition entry (blocks : bytes) (i : Z) : Z :=
  from_option be_val 0 (slice blocks (2 * i) (2 * i + 2)).

(** [n] whole blocks of [cs] bytes, [epr] entries each. *)
Record staged_blocks (blocks : bytes) (cs epr n : Z) : Prop := {
  sb_bytes : is_bytes blocks;
  sb_fits : slice_fits blocks;
  sb_cs : cs = 2 * epr;
  sb_epr : 0 < epr;
  sb_n : 0 <= n;
  sb_len : blen blocks = n * cs
}.

(** [count] consecutive free clusters from [s]. *)
Definition free_run (blocks : bytes) (s count : Z) : Prop :=
  forall i, s <= i < s + count -> entry blocks i = 0.

(** [blocks'] is [blocks] with the entries of [s, s + count) set to 1. *)
Definition claimed (blocks blocks' : bytes) (total s count : Z) : Prop :=
  forall i, 0 <= i < total ->
    entry blocks' i = if (s <=? i) && (i <? s + count) then 1 else entry blocks i.

Lemma entry_slice blocks cs epr n i : staged_blocks blocks cs epr n -> 0 <= i < n * epr ->
  exists s, slice blocks (2 * i) (2 * i + 2) = Some s /\ entry blocks i = be_val s.
Proof.
  intros [] Hi. unfold entry. destruct (slice blocks (2 * i) (2 * i + 2)) as [s|] eqn:Hs; [eauto|].
  rewrite slice_Some_2 in Hs by nia. done.
Qed.

Lemma entry_bound blocks cs epr n i : staged_blocks blocks cs epr n -> 0 <= i < n * epr ->
  0 <= entry blocks i <= u16_max.
Proof.
  intros Hsb Hi. destruct (entry_slice _ _ _ _ _ Hsb Hi) as (s & Hs & ->).
  pose proof (be_val_bound s (slice_is_bytes _ _ _ _ (sb_bytes _ _ _ _ Hsb) Hs)) as Hv.
  rewrite (slice_blen _ _ _ _ Hs) in Hv. replace (2 * i + 2 - 2 * i) with 2 in Hv by lia.
  change (256 ^ 2) with 65536 in Hv. unfold u16_max. lia.
Qed.

(** The block holding entry [i] is in range, and the entry sits at byte [2 * i]. *)
Lemma block_of_entry cs epr n i : cs = 2 * epr -> 0 < epr -> 0 <= i < n * epr ->
  0 <= i / epr * cs /\ i / epr * cs + cs <= n * cs /\
  0 <= i mod epr < epr /\ i / epr * cs + i mod epr * 2 = 2 * i.
Proof.
  intros -> Hepr Hi. pose proof (Z.div_mod i epr ltac:(lia)).
  pose proof (Z.mod_pos_bound i epr Hepr). pose proof (Z.div_pos i epr ltac:(lia) Hepr).
  assert (i / epr < n) by (apply Z.div_lt_upper_bound; lia). repeat split; nia.
Qed.

Lemma read_entry_val blocks cs epr n i : staged_blocks blocks cs epr n -> 0 <= i < n * epr ->
  read_entry blocks cs 16 epr i = Ok (entry blocks i).
Proof.
  intros Hsb Hi. destruct (entry_slice _ _ _ _ _ Hsb Hi) as (s & Hs & Hent).
  destruct Hsb as [Hb Hfit Hcs Hepr Hn Hlen]. unfold slice_fits in Hfit.
  destruct (block_of_entry cs epr n i Hcs Hepr Hi) as (H0 & H1 & Hmod & Hoff).
  unfold read_entry.
  rewrite checked_mul_eq by (unfold u64_max; lia). cbn [ok_or obind].
  rewrite checked_add_eq by (unfold u64_max; lia). cbn [ok_or obind]. destruct (Z.ltb_spec (blen blocks) (i / epr * cs + cs)); [nia|].
  destruct (slice blocks (i / epr * cs) (i / epr * cs + cs)) as [b|] eqn:Hblk.
  2:{ rewrite slice_Some_2 in Hblk by nia. done. }
  cbn [or_panic obind]. pose proof (slice_blen _ _ _ _ Hblk) as Hbl.
  replace (i / epr * cs + cs - i / epr * cs) with cs in Hbl by lia.
  assert (2%nat ∈ [1; 2; 4; 8]%nat) as H2 by set_solver.
  rewrite (read_multi_val b _ 2 16 H2 eq_refl) by (unfold slice_fits, in_block; lia).
  change (Z.of_nat 2) with 2. rewrite (slice_slice _ _ _ _ _ _ Hblk) by nia.
  replace (i / epr * cs + i mod epr * 2) with (2 * i) by lia.
  replace (i / epr * cs + (i mod epr * 2 + 2)) with (2 * i + 2) by lia.
  rewrite Hs. cbn. by rewrite Hent.
Qed.

(** The block slice that holds an entry, read at the entry's local index. *)
Lemma read_block_entry blocks cs epr n i b : staged_blocks blocks cs epr n -> 0 <= i < n * epr ->
  slice blocks (i / epr * cs) (i / epr * cs + cs) = Some b ->
  read_refcount_in_block b (i mod epr) 16 = Ok (entry blocks i).
Proof.
  intros Hsb Hi Hs. rewrite <- (read_entry_val _ _ _ _ _ Hsb Hi). unfold read_entry.
  destruct (slice_Some _ _ _ _ Hs) as (H0 & H1 & _). pose proof (sb_fits _ _ _ _ Hsb) as Hfit.
  unfold slice_fits in Hfit.
  rewrite checked_mul_eq by (unfold u64_max; nia). cbn [ok_or obind].
  rewrite checked_add_eq by (unfold u64_max; lia). cbn [ok_or obind].
  destruct (Z.ltb_spec (blen blocks) (i / epr * cs + cs)); [lia|]. by rewrite Hs.
Qed.

(** Splicing a modified sub-slice back is splicing into the whole. *)
Lemma splice_slice_back l a b s o src s' :
  slice l a b = Some s -> splice s o src = Some s' -> splice l a s' = splice l (a + o) src.
Proof.
  intros Hs Hsp. pose proof (slice_blen _ _ _ _ Hs) as Hlen.
  pose proof (splice_blen _ _ _ _ Hsp) as Hlen'.
  pose proof (slice_Some _ _ _ _ Hs) as (Ha & Hb & _).
  pose proof (splice_Some _ _ _ _ Hsp) as (Ho & Hob & _).
  destruct (splice l a s') as [l1|] eqn:H1.
  2:{ apply eq_None_not_Some in H1 as []. apply splice_is_Some. lia. }
  destruct (splice l (a + o) src) as [l2|] eqn:H2.
  2:{ apply eq_None_not_Some in H2 as []. apply splice_is_Some. lia. }
  f_equal. apply byte_ext.
  { by rewrite (splice_blen _ _ _ _ H1), (splice_blen _ _ _ _ H2). }
  intros i Hi. rewrite (splice_byte _ _ _ _ _ H1), (splice_byte _ _ _ _ _ H2).
  destruct (Z.leb_spec a i), (Z.ltb_spec i (a + blen s')); cbn [andb].
  1:{ rewrite (splice_byte _ _ _ _ _ Hsp).
      destruct (Z.leb_spec o (i - a)), (Z.leb_spec (a + o) i); try lia;
        destruct (Z.ltb_spec (i - a) (o + blen src)), (Z.ltb_spec i (a + o + blen src)); try lia; cbn [andb].
      - f_equal. lia.
      - rewrite (slice_byte _ _ _ _ _ Hs) by lia. f_equal. lia.
      - rewrite (slice_byte _ _ _ _ _ Hs) by lia. f_equal. lia.
      - rewrite (slice_byte _ _ _ _ _ Hs) by lia. f_equal. lia. }
  all: destruct (Z.leb_spec (a + o) i), (Z.ltb_spec i (a + o + blen src)); try lia; done.
Qed.

Lemma entry_splice blocks i v blocks' cs epr n j :
  staged_blocks blocks cs epr n -> 0 <= j < n * epr -> 0 <= v <= u16_max -> 0 <= i ->
  splice blocks (2 * i) (be_bytes 2 v) = Some blocks' ->
  staged_blocks blocks' cs epr n /\ entry blocks' j = if j =? i then v else entry blocks j.
Proof.
  intros [Hb Hfit Hcs Hepr Hn Hlen] Hj Hv Hi Hs. pose proof (splice_blen _ _ _ _ Hs) as Hl'.
  split.
  - split; try done; [|unfold slice_fits in *; lia|lia].
    exact (splice_is_bytes _ _ _ _ Hb (be_bytes_is_bytes 2 v) Hs).
  - unfold entry. destruct (Z.eqb_spec j i) as [->|Hne].
    + pose proof (slice_splice_eq _ _ _ _ Hs) as Hr. rewrite blen_be_bytes in Hr.
      change (Z.of_nat 2) with 2 in Hr. rewrite Hr. cbn [from_option].
      apply be_val_bytes. change (256 ^ Z.of_nat 2) with 65536. unfold u16_max in Hv. lia.
    + rewrite (slice_splice_ne _ _ _ _ _ _ Hs); [done|]. rewrite blen_be_bytes. lia.
Qed.

(** Claiming one entry: the modified block spliced back is a two-byte write. *)
Lemma set_in_blocks blocks cs epr n i v : staged_blocks blocks cs epr n -> 0 <= i < n * epr ->
  exists b b' blocks',
    slice blocks (i / epr * cs) (i / epr * cs + cs) = Some b /\
    set_refcount_in_block b (i mod epr) 16 v = Ok b' /\
    splice blocks (i / epr * cs) b' = Some blocks' /\
    splice blocks (2 * i) (be_bytes 2 v) = Some blocks'.
Proof.
  intros Hsb Hi. pose proof Hsb as [Hb Hfit Hcs Hepr Hn Hlen]. unfold slice_fits in Hfit.
  destruct (block_of_entry cs epr n i Hcs Hepr Hi) as (H0 & H1 & Hmod & Hoff).
  destruct (slice blocks (i / epr * cs) (i / epr * cs + cs)) as [b|] eqn:Hblk.
  2:{ rewrite slice_Some_2 in Hblk by lia. done. }
  pose proof (slice_blen _ _ _ _ Hblk) as Hbl.
  assert (2%nat ∈ [1; 2; 4; 8]%nat) as H2 by (repeat constructor).
  pose proof (set_multi_val b (i mod epr) 2 16 v H2 eq_refl) as Hset.
  specialize (Hset ltac:(unfold slice_fits; lia) ltac:(unfold in_block; lia)).
  change (Z.of_nat 2) with 2 in Hset.
  destruct (splice b (i mod epr * 2) (be_bytes 2 v)) as [b'|] eqn:Hsp.
  2:{ apply eq_None_not_Some in Hsp as []. apply splice_is_Some. rewrite blen_be_bytes. lia. }
  pose proof (splice_slice_back _ _ _ _ _ _ _ Hblk Hsp) as Hback. rewrite Hoff in Hback.
  destruct (splice blocks (2 * i) (be_bytes 2 v)) as [bs'|] eqn:Hw.
  2:{ apply eq_None_not_Some in Hw as []. apply splice_is_Some. rewrite blen_be_bytes. lia. }
  exists b, b', bs'. done.
Qed.

Lemma claim_run_spec k s cs epr n i : staged_blocks (as_blocks s) cs epr n ->
  0 <= i -> i + Z.of_nat k <= n * epr ->
  exists blocks', claim_run k cs 16 epr i s = (Ok tt, mkAllocSt blocks' (as_cursor s)) /\
    staged_blocks blocks' cs epr n /\
    claimed (as_blocks s) blocks' (n * epr) i (Z.of_nat k).
Proof.
  revert s i. induction k as [|k IH]; intros s i Hsb Hi Hle.
  - exists (as_blocks s). split; [by destruct s|]. split; [done|]. intros j Hj.
    destruct (Z.leb_spec i j), (Z.ltb_spec j (i + Z.of_nat 0)); done || lia.
  - pose proof Hsb as [Hb Hfit Hcs Hepr Hn Hlen]. unfold slice_fits in Hfit.
    assert (0 <= i < n * epr) as Hi' by lia.
    destruct (block_of_entry cs epr n i Hcs Hepr Hi') as (H0 & H1 & _ & _).
    destruct (set_in_blocks _ _ _ _ i 1 Hsb Hi') as (b & b' & bs & Hsl & Hset & Hsp & Hw).
    cbn [claim_run]. unfold sbind at 1, sget. cbv beta iota zeta.
    rewrite wmul_small by (unfold u64_max; lia). rewrite wadd_small by (unfold u64_max; lia).
    rewrite Hsl. cbn [or_panic slift sbind]. unfold sbind, slift. rewrite Hset, Hsp. cbn [or_panic sput].
    assert (forall j, 0 <= j < n * epr ->
      staged_blocks bs cs epr n /\ entry bs j = if j =? i then 1 else entry (as_blocks s) j) as Hbs.
    { intros j Hj. eapply entry_splice; eauto. unfold u16_max. lia. }
    destruct (IH (mkAllocSt bs (as_cursor s)) (i + 1)) as (bs' & Hrun & Hsb' & Hcl); [|lia..|].
    { apply (Hbs i Hi'). }
    exists bs'. split; [exact Hrun|]. split; [done|]. intros j Hj. rewrite (Hcl j Hj). cbn [as_blocks].
    destruct (Hbs j Hj) as [_ ->].
    destruct (Z.leb_spec (i + 1) j), (Z.ltb_spec j (i + 1 + Z.of_nat k)), (Z.leb_spec i j),
      (Z.ltb_spec j (i + Z.of_nat (S k))), (Z.eqb_spec j i); done || lia.
Qed.

Lemma probe_run_spec k blocks cs epr n i : staged_blocks blocks cs epr n ->
  0 <= i -> i + Z.of_nat k <= n * epr ->
  match probe_run k blocks cs 16 epr i with
  | Ok None => free_run blocks i (Z.of_nat k)
  | Ok (Some p) => i <= p < i + Z.of_nat k /\ entry blocks p <> 0
  | _ => False
  end.
Proof.
  revert i. induction k as [|k IH]; intros i Hsb Hi Hle; cbn [probe_run].
  - intros j Hj. lia.
  - rewrite (read_entry_val _ _ _ _ _ Hsb) by lia. cbn [obind].
    destruct (Z.eqb_spec (entry blocks i) 0) as [H0|]; [|lia].
    specialize (IH (i + 1) Hsb ltac:(lia) ltac:(lia)).
    destruct (probe_run k blocks cs 16 epr (i + 1)) as [[p|]| | |]; try done; [lia|].
    intros j Hj. destruct (Z.eq_dec j i) as [->|]; [done|]. apply IH. lia.
Qed.

(** What a successful allocation of [count] clusters from flat index [start]
    on means. *)
Record alloc_ok (s s' : AllocSt) (cs epr total base count start host : Z) : Prop := {
  ao_first : exists f, start <= f /\ f + count <= total /\ host = f * cs + base /\
    free_run (as_blocks s) f count /\
    (forall g, start <= g < f -> ~ free_run (as_blocks s) g count) /\
    claimed (as_blocks s) (as_blocks s') total f count /\
    as_cursor s' = mkAllocCursor ((f + count) / epr) ((f + count) mod epr)
                     (wadd (allocated (as_cursor s)) count)
}.

Lemma alloc_scan_spec fuel s cs epr n base count start :
  staged_blocks (as_blocks s) cs epr n -> 0 < count -> 0 <= start -> 0 <= base ->
  n * epr + count <= u64_max -> start + count <= u64_max -> n * epr * cs + base <= u64_max ->
  (Z.to_nat (n * epr - start) < fuel)%nat ->
  match alloc_scan fuel cs 16 epr (n * epr) base count start s with
  | (Ok host, s') => alloc_ok s s' cs epr (n * epr) base count start host /\
                     staged_blocks (as_blocks s') cs epr n
  | (Err e, s') => e = RefcountExhausted /\ s' = s /\
      forall g, start <= g -> g + count <= n * epr -> ~ free_run (as_blocks s) g count
  | _ => False
  end.
Proof.
  intros Hsb Hcount Hstart Hbase Htot Hsc Hhost. revert start Hstart Hsc.
  induction fuel as [|fuel IH]; intros start Hstart Hsc Hfuel; [lia|].
  cbn [alloc_scan]. rewrite (wadd_small start count) by lia.
  destruct (Z.leb_spec (start + count) (n * epr)) as [Hle|Hgt].
  2:{ cbn. split; [done|]. split; [done|]. intros g ? ?. lia. }
  unfold sbind at 1, sget. cbv beta iota zeta.
  replace (start + count - start) with count by lia.
  pose proof (probe_run_spec (Z.to_nat count) (as_blocks s) cs epr n start Hsb Hstart) as Hprobe.
  rewrite Z2Nat.id in Hprobe by lia. specialize (Hprobe Hle). unfold sbind at 1, slift.
  destruct (probe_run _ _ _ _ _ _) as [[p|]| | |]; try done.
  - destruct Hprobe as [Hp Hocc]. rewrite (wadd_small p 1) by (unfold u64_max in *; lia).
    specialize (IH (p + 1) ltac:(lia) ltac:(lia) ltac:(lia)).
    assert (forall g, start <= g < p + 1 -> ~ free_run (as_blocks s) g count) as Hskip.
    { intros g Hg Hfree. apply Hocc, Hfree. lia. }
    destruct (alloc_scan _ _ _ _ _ _ _ _ _) as [[host|e| |] s']; try done.
    + destruct IH as [[(f & ? & ? & ? & ? & Hno & ? & ?)] ?]. split; [|done]. split. exists f.
      repeat split; try done; [lia|]. intros g Hg.
      destruct (Z.le_gt_cases (p + 1) g); [apply Hno; lia | apply Hskip; lia].
    + destruct IH as (-> & -> & Hno). split; [done|]. split; [done|]. intros g Hg ?.
      destruct (Z.le_gt_cases (p + 1) g); [apply Hno; lia | apply Hskip; lia].
  - destruct (claim_run_spec (Z.to_nat count) s cs epr n start Hsb Hstart) as (bs & Hrun & Hsb' & Hcl);
      [lia|]. rewrite Z2Nat.id in Hcl by lia. unfold sbind at 1. rewrite Hrun.
    unfold sbind, smod. cbn [as_blocks as_cursor].
    pose proof (sb_epr _ _ _ _ Hsb). pose proof (sb_cs _ _ _ _ Hsb).
    rewrite checked_mul_eq by (unfold u64_max in *; nia). cbn [ok_or obind].
    rewrite checked_add_eq by (unfold u64_max in *; nia). cbn [ok_or].
    split; [|done]. split. exists start. repeat split; done || lia.
Qed.

(** The flat index an [AllocCursor] resumes from. *)
Definition cursor_start (epr : Z) (c : AllocCursor) : Z :=
  next_refblock c * epr + next_entry_in_refblock c.

(** The cursor and the staged blocks are those of an image whose cluster
    addresses fit 64 bits. *)
Record alloc_pre (s : AllocSt) (cs epr n base count : Z) : Prop := {
  ap_blocks : staged_blocks (as_blocks s) cs epr n;
  ap_count : 0 < count;
  ap_base : 0 <= base;
  ap_cs : cs * 8 <= u64_max;
  ap_rb : 0 <= next_refblock (as_cursor s);
  ap_entry : 0 <= next_entry_in_refblock (as_cursor s);
  ap_start : cursor_start epr (as_cursor s) + count <= u64_max;
  ap_total : n * epr + count <= u64_max;
  ap_host : n * epr * cs + base <= u64_max
}.

Lemma alloc_contiguous_spec s cs epr n base count : alloc_pre s cs epr n base count ->
  let start := cursor_start epr (as_cursor s) in
  match alloc_contiguous_clusters_in_refblocks cs 16 n base count s with
  | (Ok host, s') => alloc_ok s s' cs epr (n * epr) base count start host /\
                     staged_blocks (as_blocks s') cs epr n
  | (Err e, s') => e = RefcountExhausted /\ s' = s /\
      forall g, start <= g -> g + count <= n * epr -> ~ free_run (as_blocks s) g count
  | _ => False
  end.
Proof.
  intros [Hsb Hcount Hbase Hcs8 Hrb Hent Hstart Htot Hhost]. cbv zeta.
  pose proof Hsb as [Hb Hfit Hcs Hepr Hn Hlen]. unfold slice_fits in Hfit.
  unfold cursor_start in *. unfold alloc_contiguous_clusters_in_refblocks.
  change (16 =? 16) with true. cbn [negb].
  destruct (Z.eqb_spec cs 0); [lia|]. destruct (Z.eqb_spec count 0); [lia|].
  rewrite wmul_small by lia.
  assert (cs * 8 / 16 = epr) as ->
    by (subst cs; rewrite <- (Z.div_mul epr 16) at 2 by lia; f_equal; lia).
  destruct (Z.eqb_spec epr 0); [lia|].
  assert (0 <= next_refblock (as_cursor s) * epr) by nia.
  unfold sbind at 1, slift. rewrite (checked_mul_eq n epr) by lia. cbn [ok_or].
  unfold sbind at 1, sget. cbv beta iota zeta.
  unfold sbind at 1, slift. rewrite checked_mul_eq by lia. cbn [ok_or].
  unfold sbind at 1, slift. rewrite checked_add_eq by lia. cbn [ok_or].
  apply alloc_scan_spec; done || lia.
Qed.

(** ** Properties *)

(** Writing a representable refcount at any width the format permits
    succeeds, reads back as written, and leaves every other entry of the block
    as it was. *)
Theorem refcount_set_read block idx w value :
  is_bytes block -> slice_fits block -> valid_width w -> in_block block idx w ->
  0 <= value < 2 ^ w ->
  exists block', set_refcount_in_block block idx w value = Ok block' /\
    blen block' = blen block /\
    read_refcount_in_block block' idx w = Ok value /\
    forall j, in_block block j w -> j <> idx ->
      read_refcount_in_block block' j w = read_refcount_in_block block j w.
Proof.
  intros Hb Hfit Hw Hin Hv.
  destruct (set_refcount_spec block idx w value Hb Hfit Hw Hin) as (b' & Hset & Hlen & _ & Hread).
  exists b'. split; [done|]. split; [done|]. split.
  - rewrite (Hread idx Hin), Z.eqb_refl. by rewrite stored_small.
  - intros j Hj Hne. rewrite (Hread j Hj). by destruct (Z.eqb_spec j idx).
Qed.

Lemma refcount_set_read_witness :
  set_refcount_in_block [0xAB; 0xCD] 2 4 7 = Ok [0xAB; 0xC7] /\
  exists block', set_refcount_in_block [0xAB; 0xCD] 2 4 7 = Ok block' /\
    blen block' = 2 /\ read_refcount_in_block block' 2 4 = Ok 7 /\
    forall j, in_block [0xAB; 0xCD] j 4 -> j <> 2 ->
      read_refcount_in_block block' j 4 = read_refcount_in_block [0xAB; 0xCD] j 4.
Proof.
  split; [reflexivity|]. apply (refcount_set_read [0xAB; 0xCD] 2 4 7).
  - repeat constructor; vm_compute; discriminate.
  - vm_compute. discriminate.
  - vm_compute. repeat constructor.
  - split; vm_compute; discriminate.
  - split; [vm_compute; discriminate | reflexivity].
Defined.

(** C8: the allocator is first-fit and exact.  On success the [count] clusters it
    returns were all free, no earlier run from the cursor was, exactly those
    entries are now 1, and the cursor stands just past them; it fails only with
    [RefcountExhausted], having changed nothing, and only when no free run of
    that length is left.  In particular it always returns. *)
Theorem alloc_contiguous_first_fit s cs epr n base count :
  alloc_pre s cs epr n base count ->
  let start := cursor_start epr (as_cursor s) in
  match alloc_contiguous_clusters_in_refblocks cs 16 n base count s with
  | (Ok host, s') => alloc_ok s s' cs epr (n * epr) base count start host
  | (Err e, s') => e = RefcountExhausted /\ s' = s /\
      forall g, start <= g -> g + count <= n * epr -> ~ free_run (as_blocks s) g count
  | _ => False
  end.
Proof.
  intros Hpre. pose proof (alloc_contiguous_spec s cs epr n base count Hpre) as H.
  cbv zeta in *. destruct (alloc_contiguous_clusters_in_refblocks _ _ _ _ _ _) as [[| | |] s'];
    tauto.
Qed.

(** Two blocks of four entries, the first three clusters in use. *)
Definition demo_blocks : bytes := [0; 1; 0; 1; 0; 1; 0; 0; 0; 0; 0; 1; 0; 0; 0; 0].
Definition demo_alloc : AllocSt := mkAllocSt demo_blocks AllocCursor_default.

Lemma demo_alloc_pre : alloc_pre demo_alloc 8 4 2 0 2.
Proof.
  split; [split|..]; try (vm_compute; congruence).
  repeat constructor; vm_compute; congruence.
Qed.

Lemma alloc_contiguous_first_fit_witness :
  alloc_contiguous_clusters_in_refblocks 8 16 2 0 2 demo_alloc =
    (Ok 24, mkAllocSt [0; 1; 0; 1; 0; 1; 0; 1; 0; 1; 0; 1; 0; 0; 0; 0] (mkAllocCursor 1 1 2)) /\
  alloc_ok demo_alloc
    (mkAllocSt [0; 1; 0; 1; 0; 1; 0; 1; 0; 1; 0; 1; 0; 0; 0; 0] (mkAllocCursor 1 1 2))
    8 4 8 0 2 0 24.
Proof.
  split; [reflexivity|].
  exact (alloc_contiguous_first_fit demo_alloc 8 4 2 0 2 demo_alloc_pre).
Defined.

(** Two successive allocations never hand out the same cluster: the second
    run starts at or after the end of the first. *)
Theorem alloc_twice_disjoint s s1 s2 cs epr n base c1 c2 h1 h2 :
  alloc_pre s cs epr n base c1 -> 0 < c2 -> n * epr + c2 <= u64_max ->
  alloc_contiguous_clusters_in_refblocks cs 16 n base c1 s = (Ok h1, s1) ->
  alloc_contiguous_clusters_in_refblocks cs 16 n base c2 s1 = (Ok h2, s2) ->
  h1 + c1 * cs <= h2.
Proof.
  intros Hpre Hc2 Htot H1 H2. pose proof (alloc_contiguous_spec _ _ _ _ _ _ Hpre) as Ha.
  cbv zeta in Ha. rewrite H1 in Ha. destruct Ha as [[(f & Hf & Hft & -> & _ & _ & _ & Hcur)] Hsb1].
  destruct Hpre as [Hsb Hc1 Hbase Hcs8 Hrb Hent Hstart Htot1 Hhost].
  pose proof (sb_epr _ _ _ _ Hsb) as Hepr. pose proof (sb_cs _ _ _ _ Hsb) as Hcs.
  assert (0 <= cursor_start epr (as_cursor s)) by (unfold cursor_start; nia).
  assert (cursor_start epr (as_cursor s1) = f + c1) as Hst.
  { rewrite Hcur. unfold cursor_start. cbn [next_refblock next_entry_in_refblock].
    pose proof (Z.div_mod (f + c1) epr). lia. }
  assert (alloc_pre s1 cs epr n base c2) as Hpre2.
  { split; try done; try lia; rewrite Hcur; cbn [next_refblock next_entry_in_refblock].
    - apply Z.div_pos; lia.
    - apply Z.mod_pos_bound. done. }
  pose proof (alloc_contiguous_spec _ _ _ _ _ _ Hpre2) as Hb. cbv zeta in Hb.
  rewrite H2, Hst in Hb. destruct Hb as [[(g & Hg & _ & -> & _)] _]. nia.
Qed.

Lemma alloc_twice_disjoint_witness : 24 + 2 * 8 <= 48.
Proof.
  apply (alloc_twice_disjoint demo_alloc
    (mkAllocSt [0; 1; 0; 1; 0; 1; 0; 1; 0; 1; 0; 1; 0; 0; 0; 0] (mkAllocCursor 1 1 2))
    (mkAllocSt [0; 1; 0; 1; 0; 1; 0; 1; 0; 1; 0; 1; 0; 1; 0; 1] (mkAllocCursor 2 0 4))
    8 4 2 0 2 2 24 48 demo_alloc_pre); reflexivity || (vm_compute; congruence).
Defined.
