(* ===== verification/Qcow2.v ===== *)
(** qcow2 on-disk vocabulary of [src/src/crates/qcow2/src/lib.rs]: the entry
    flags and masks, [QcowHeader::parse], the compressed-cluster descriptor and
    the classification of (sub)clusters.

    [QcowHeader::parse] returns an [Option]; here its [None] is [Err tt], so
    that an out-of-range index would be visible as [Panic]. *)

From stdpp Require Import base numbers list sets.
From Stdlib Require Import ZArith Lia.
From S2P Require Import Prelude Bytes Refcount.

(** ** Constants *)

Definition VERSION_OFFSET : Z := 4.
Definition BACKING_FILE_OFFSET_OFFSET : Z := 8.
Definition BACKING_FILE_SIZE_OFFSET : Z := 16.
Definition CLUSTER_BITS_OFFSET : Z := 20.
Definition SIZE_OFFSET : Z := 24.
Definition CRYPT_METHOD_OFFSET : Z := 32.
Definition L1_SIZE_OFFSET : Z := 36.
Definition L1_TABLE_OFFSET_OFFSET : Z := 40.
Definition REFCOUNT_TABLE_OFFSET_OFFSET : Z := 48.
Definition REFCOUNT_TABLE_CLUSTERS_OFFSET : Z := 56.
Definition NB_SNAPSHOTS_OFFSET : Z := 60.
Definition SNAPSHOTS_OFFSET_OFFSET : Z := 64.
Definition INCOMPATIBLE_FEATURES_OFFSET : Z := 72.
Definition COMPATIBLE_FEATURES_OFFSET : Z := 80.
Definition REFCOUNT_ORDER_OFFSET : Z := 96.
Definition HEADER_LENGTH_OFFSET : Z := 100.
Definition COMPRESSION_TYPE_OFFSET : Z := 104.
Definition V2_HEADER_EXTENSION_OFFSET : Z := 72.

Definition INCOMPAT_DIRTY : Z := 1.
Definition INCOMPAT_CORRUPT : Z := 2.
Definition INCOMPAT_EXTERNAL_DATA : Z := 4.
Definition INCOMPAT_COMPRESSION : Z := 8.
Definition INCOMPAT_EXTENDED_L2 : Z := 16.
Definition COMPAT_LAZY_REFCOUNTS : Z := 1.

Definition QCOW_OFLAG_ZERO : Z := 1.
Definition OFLAG_COMPRESSED : Z := 0x4000000000000000.
Definition OFLAG_COPIED : Z := 0x8000000000000000.
Definition L1_OFFSET_MASK : Z := 0x00fffffffffffe00.
Definition L2_OFFSET_MASK : Z := 0x00fffffffffffe00.
Definition QCOW2_MAX_L1_SIZE_ENTRIES : Z := 4194304.
Definition QCOW_EXTL2_SUBCLUSTERS_PER_CLUSTER : Z := 32.

(** ** The header *)

Record QcowHeader : Type := mkQcowHeader {
  version : Z;
  header_length : Z;
  hdr_cluster_bits : Z;
  hdr_cluster_size : Z;
  hdr_virtual_size : Z;
  hdr_l1_size : Z;
  hdr_l1_table_offset : Z;
  backing_file_offset : Z;
  backing_file_size : Z;
  crypt_method : Z;
  hdr_refcount_table_offset : Z;
  hdr_refcount_table_clusters : Z;
  hdr_refcount_bits : Z;
  incompatible_features : Z;
  compatible_features : Z;
  compression_type : Z;
  nb_snapshots : Z;
  snapshots_offset : Z;
  hdr_dirty : bool;
  hdr_corrupt : bool;
  has_external_data : bool;
  extended_l2 : bool;
  lazy_refcounts : bool
}.

(** The v3-only fields: refcount width, feature words, compression type. *)
Definition parse_v3_fields (header : bytes) (ver : Z) : outcome unit (Z * Z * Z * Z) :=
  if 3 <=? ver then
    let? refcount_order := be_u32 header REFCOUNT_ORDER_OFFSET in
    let rb := if refcount_order <=? 6 then Z.shiftl 1 refcount_order else 16 in
    let? incompat := be_u64 header INCOMPATIBLE_FEATURES_OFFSET in
    let? compat := be_u64 header COMPATIBLE_FEATURES_OFFSET in
    let? ct := or_panic (byte_at header COMPRESSION_TYPE_OFFSET) in
    Ok (rb, incompat, compat, ct)
  else Ok (16, 0, 0, 0).

Definition parse (header : bytes) : outcome unit QcowHeader :=
  if blen header <? 105 then Err tt
  else
  let? ver := be_u32 header VERSION_OFFSET in
  if negb (ver =? 2) && negb (ver =? 3) then Err tt
  else
  let? hlen := (if 3 <=? ver then be_u32 header HEADER_LENGTH_OFFSET
                else Ok V2_HEADER_EXTENSION_OFFSET) in
  let? cbits := be_u32 header CLUSTER_BITS_OFFSET in
  if negb ((9 <=? cbits) && (cbits <=? 21)) then Err tt
  else
  let csize := Z.shiftl 1 cbits in
  let? vsize := be_u64 header SIZE_OFFSET in
  let? l1 := be_u32 header L1_SIZE_OFFSET in
  if QCOW2_MAX_L1_SIZE_ENTRIES <? l1 then Err tt
  else
  let? l1off := be_u64 header L1_TABLE_OFFSET_OFFSET in
  let? boff := be_u64 header BACKING_FILE_OFFSET_OFFSET in
  let? bsize := be_u32 header BACKING_FILE_SIZE_OFFSET in
  let? crypt := be_u32 header CRYPT_METHOD_OFFSET in
  let? rtoff := be_u64 header REFCOUNT_TABLE_OFFSET_OFFSET in
  let? rtcl := be_u32 header REFCOUNT_TABLE_CLUSTERS_OFFSET in
  let? nsnap := be_u32 header NB_SNAPSHOTS_OFFSET in
  let? snapoff := be_u64 header SNAPSHOTS_OFFSET_OFFSET in
  let? (rbits, incompat, compat, ct) := parse_v3_fields header ver in
  let l2_entry_size := if nonzero (Z.land incompat INCOMPAT_EXTENDED_L2) then 16 else 8 in
  let l2_coverage := wmul csize (csize / l2_entry_size) in
  if QCOW2_MAX_L1_SIZE_ENTRIES <? div_ceil vsize l2_coverage then Err tt
  else
  Ok {| version := ver; header_length := hlen; hdr_cluster_bits := cbits;
        hdr_cluster_size := csize; hdr_virtual_size := vsize; hdr_l1_size := l1;
        hdr_l1_table_offset := l1off; backing_file_offset := boff;
        backing_file_size := bsize; crypt_method := crypt;
        hdr_refcount_table_offset := rtoff; hdr_refcount_table_clusters := rtcl;
        hdr_refcount_bits := rbits; incompatible_features := incompat;
        compatible_features := compat; compression_type := ct;
        nb_snapshots := nsnap; snapshots_offset := snapoff;
        hdr_dirty := nonzero (Z.land incompat INCOMPAT_DIRTY);
        hdr_corrupt := nonzero (Z.land incompat INCOMPAT_CORRUPT);
        has_external_data := nonzero (Z.land incompat INCOMPAT_EXTERNAL_DATA);
        extended_l2 := nonzero (Z.land incompat INCOMPAT_EXTENDED_L2);
        lazy_refcounts := nonzero (Z.land compat COMPAT_LAZY_REFCOUNTS) |}.

Definition qemu_disk_size (h : QcowHeader) : Z :=
  let l1_table_end := sat_add (hdr_l1_table_offset h) (sat_mul (hdr_l1_size h) 8) in
  sat_mul (sat_add l1_table_end 511 / 512) 512.

Definition compat_value (h : QcowHeader) : Z := if 3 <=? version h then 1 else 0.

(** ** Compressed-cluster descriptors *)

Definition encode_compressed_l2_entry (host_offset compressed_bytes cluster_bits : Z) : Z :=
  let csize_shift := 62 - (cluster_bits - 8) in
  let offset_mask := Z.shiftl 1 csize_shift - 1 in
  let nb_sectors := div_ceil compressed_bytes 512 in
  Z.lor (Z.lor OFLAG_COMPRESSED (shl64 (wsub nb_sectors 1) csize_shift))
        (Z.land host_offset offset_mask).

Definition parse_compressed_l2_entry (l2_entry cluster_bits : Z) : option (Z * Z) :=
  let csize_shift := 62 - (cluster_bits - 8) in
  let csize_mask := Z.shiftl 1 (cluster_bits - 8) - 1 in
  let offset_mask := Z.shiftl 1 csize_shift - 1 in
  let compressed_offset := Z.land l2_entry offset_mask in
  let nb_sectors := Z.land (Z.shiftr l2_entry csize_shift) csize_mask + 1 in
  match checked_mul nb_sectors 512 with
  | None => None
  | Some nb_sectors_bytes =>
      let offset_remainder := Z.land compressed_offset 511 in
      if nb_sectors_bytes <? offset_remainder then None
      else
        let compressed_size := nb_sectors_bytes - offset_remainder in
        if compressed_size =? 0 then None else Some (compressed_offset, compressed_size)
  end.

(** ** Cluster and subcluster types *)

Inductive ClusterType : Type := CtUnallocated | CtZeroPlain | CtZeroAlloc | CtNormal | CtCompressed.

Inductive SubclusterType : Type :=
| ScNormal | ScZeroAlloc | ScZeroPlain | ScUnallocatedAlloc | ScUnallocatedPlain
| ScCompressed | ScInvalid.

#[global] Instance ClusterType_eq_dec : EqDecision ClusterType.
Proof. solve_decision. Defined.
#[global] Instance SubclusterType_eq_dec : EqDecision SubclusterType.
Proof. solve_decision. Defined.

Definition cluster_type (l2_entry : Z) (extended_l2 has_data_file : bool) : ClusterType :=
  if nonzero (Z.land l2_entry OFLAG_COMPRESSED) then CtCompressed
  else if nonzero (Z.land l2_entry QCOW_OFLAG_ZERO) && negb extended_l2 then
    if nonzero (Z.land l2_entry L2_OFFSET_MASK) then CtZeroAlloc else CtZeroPlain
  else if Z.land l2_entry L2_OFFSET_MASK =? 0 then
    if has_data_file && nonzero (Z.land l2_entry OFLAG_COPIED) then CtNormal else CtUnallocated
  else CtNormal.

Definition l2_entry_names_host_cluster (l2_entry : Z) (extended_l2 has_data_file : bool) : bool :=
  match cluster_type l2_entry extended_l2 has_data_file with
  | CtNormal | CtZeroAlloc => true
  | _ => false
  end.

Definition subclusters_per_cluster (extended_l2 : bool) : Z :=
  if extended_l2 then QCOW_EXTL2_SUBCLUSTERS_PER_CLUSTER else 1.

Definition sub_alloc_range (from to : Z) : Z := as_u32 (Z.shiftl 1 to - Z.shiftl 1 from).

(** The two halves of the subcluster bitmap: [bitmap as u32] and
    [(bitmap >> 32) as u32]. *)
Definition alloc_bits (bitmap : Z) : Z := as_u32 bitmap.
Definition zero_bits (bitmap : Z) : Z := as_u32 (Z.shiftr bitmap 32).

Definition subcluster_type (l2_entry bitmap sc_index : Z) (extended_l2 has_data_file : bool)
  : SubclusterType :=
  if subclusters_per_cluster extended_l2 <=? sc_index then ScInvalid
  else
    let ctype := cluster_type l2_entry extended_l2 has_data_file in
    if negb extended_l2 then
      match ctype with
      | CtCompressed => ScCompressed
      | CtZeroPlain => ScZeroPlain
      | CtZeroAlloc => ScZeroAlloc
      | CtNormal => ScNormal
      | CtUnallocated => ScUnallocatedPlain
      end
    else
      let sc_bit := Z.shiftl 1 sc_index in
      match ctype with
      | CtCompressed => ScCompressed
      | CtNormal =>
          if nonzero (Z.land (zero_bits bitmap) (alloc_bits bitmap)) then ScInvalid
          else if nonzero (Z.land (zero_bits bitmap) sc_bit) then ScZeroAlloc
          else if nonzero (Z.land (alloc_bits bitmap) sc_bit) then ScNormal
          else ScUnallocatedAlloc
      | CtUnallocated =>
          if nonzero (alloc_bits bitmap) then ScInvalid
          else if nonzero (Z.land (zero_bits bitmap) sc_bit) then ScZeroPlain
          else ScUnallocatedPlain
      | CtZeroPlain | CtZeroAlloc => ScInvalid
      end.

(** [trailing_ones] and [trailing_zeros] of a [u32]: the length of the run of
    bits equal to [b] from bit [i] up. *)
Fixpoint trailing (b : bool) (n : nat) (i x : Z) : Z :=
  match n with
  | O => 0
  | S n' => if Bool.eqb (Z.testbit x i) b then 1 + trailing b n' (i + 1) x else 0
  end.
Definition trailing_ones (x : Z) : Z := trailing true 32 0 x.
Definition trailing_zeros (x : Z) : Z := trailing false 32 0 x.

Definition subcluster_range (l2_entry bitmap sc_from : Z) (extended_l2 has_data_file : bool)
  : SubclusterType * Z :=
  let ty := subcluster_type l2_entry bitmap sc_from extended_l2 has_data_file in
  let per_cluster := subclusters_per_cluster extended_l2 in
  if decide (ty = ScInvalid) then (ty, 0)
  else if negb extended_l2 || bool_decide (ty = ScCompressed) then (ty, per_cluster - sc_from)
  else
    let below := sub_alloc_range 0 sc_from in
    let run :=
      match ty with
      | ScNormal => trailing_ones (Z.lor (alloc_bits bitmap) below) - sc_from
      | ScZeroPlain | ScZeroAlloc => trailing_ones (Z.lor (zero_bits bitmap) below) - sc_from
      | ScUnallocatedPlain | ScUnallocatedAlloc =>
          trailing_zeros (Z.land (Z.lor (zero_bits bitmap) (alloc_bits bitmap))
                                 (Z.lxor below u32_max)) - sc_from
      | ScCompressed | ScInvalid => 0
      end in
    (ty, run).

Inductive SubclusterBitmapStatus : Type :=
| BsOk | CompressedNonZero | AllocAndZeroOverlap | UnallocatedWithAllocBits.

Definition compressed_entry_has_bitmap (l2_entry sc_bitmap : Z) : bool :=
  nonzero (Z.land l2_entry OFLAG_COMPRESSED) && nonzero sc_bitmap.

Definition validate_subcluster_bitmap (l2_entry sc_bitmap : Z) (has_data_file : bool)
  : SubclusterBitmapStatus :=
  if compressed_entry_has_bitmap l2_entry sc_bitmap then CompressedNonZero
  else if decide (subcluster_type l2_entry sc_bitmap 0 true has_data_file <> ScInvalid) then BsOk
  else match subcluster_type l2_entry 0 0 true has_data_file with
       | ScUnallocatedAlloc => AllocAndZeroOverlap
       | _ => UnallocatedWithAllocBits
       end.

(** What a parsed header guarantees to every consumer. *)
Record header_ok (h : QcowHeader) : Prop := {
  ho_version : version h = 2 \/ version h = 3;
  ho_bits : 9 <= hdr_cluster_bits h <= 21;
  ho_size : hdr_cluster_size h = 2 ^ hdr_cluster_bits h;
  ho_vsize : is_u64 (hdr_virtual_size h);
  ho_l1 : 0 <= hdr_l1_size h <= QCOW2_MAX_L1_SIZE_ENTRIES;
  ho_l1off : is_u64 (hdr_l1_table_offset h);
  ho_rtoff : is_u64 (hdr_refcount_table_offset h);
  ho_rtcl : is_u32 (hdr_refcount_table_clusters h);
  ho_width : valid_width (hdr_refcount_bits h);
  ho_cover : hdr_virtual_size h <=
    QCOW2_MAX_L1_SIZE_ENTRIES *
      (hdr_cluster_size h * (hdr_cluster_size h / (if extended_l2 h then 16 else 8)));
  ho_v2 : version h = 2 ->
    hdr_refcount_bits h = 16 /\ incompatible_features h = 0 /\ compatible_features h = 0
}.

Lemma refcount_order_width o : 0 <= o -> valid_width (if o <=? 6 then Z.shiftl 1 o else 16).
Proof.
  intros Ho. destruct (Z.leb_spec o 6); [|unfold valid_width; set_solver].
  assert (o = 0 \/ o = 1 \/ o = 2 \/ o = 3 \/ o = 4 \/ o = 5 \/ o = 6) as Hc by lia.
  unfold valid_width. repeat destruct Hc as [->|Hc]; subst; vm_compute; repeat constructor.
Qed.

(** The geometry products of a parsed header do not wrap. *)
Lemma l2_coverage_small cb e : 9 <= cb <= 21 -> e = 8 \/ e = 16 ->
  0 < 2 ^ cb * (2 ^ cb / e) <= 549755813888.
Proof.
  intros Hcb He.
  assert (512 <= 2 ^ cb <= 2097152) as Hp.
  { change 512 with (2 ^ 9). change 2097152 with (2 ^ 21). split; apply Z.pow_le_mono_r; lia. }
  assert (32 <= 2 ^ cb / e <= 262144) as Hd.
  { destruct He as [-> | ->]; split; try (apply Z.div_le_lower_bound; lia);
      (apply Z.lt_succ_r, Z.div_lt_upper_bound; lia). }
  nia.
Qed.

Lemma parse_v3_fields_ok header ver : is_bytes header -> 105 <= blen header ->
  exists rb inc com ct, parse_v3_fields header ver = Ok (rb, inc, com, ct) /\
    valid_width rb /\ is_u64 inc /\ is_u64 com /\ (ver < 3 -> rb = 16 /\ inc = 0 /\ com = 0).
Proof.
  intros Hb Hl. unfold parse_v3_fields. destruct (Z.leb_spec 3 ver).
  - destruct (be_u32_read (E := unit) header REFCOUNT_ORDER_OFFSET Hb) as (o & -> & Ho);
      [done | unfold REFCOUNT_ORDER_OFFSET; lia|].
    destruct (be_u64_read (E := unit) header INCOMPATIBLE_FEATURES_OFFSET Hb) as (i & -> & Hi);
      [done | unfold INCOMPATIBLE_FEATURES_OFFSET; lia|].
    destruct (be_u64_read (E := unit) header COMPATIBLE_FEATURES_OFFSET Hb) as (c & -> & Hc);
      [done | unfold COMPATIBLE_FEATURES_OFFSET; lia|].
    destruct (proj2 (byte_at_Some_iff header COMPRESSION_TYPE_OFFSET)) as [ct Hct];
      [unfold COMPRESSION_TYPE_OFFSET; lia|].
    rewrite Hct. cbn [obind or_panic]. do 4 eexists. split; [done|].
    split; [|split; [done|]; split; [done|lia]]. apply refcount_order_width. apply Ho.
  - do 4 eexists. split; [done|]. unfold valid_width, is_u64, u64_max.
    repeat split; try lia. set_solver.
Qed.

Ltac read_field H :=
  match goal with
  | |- match obind (be_u32 ?b ?o) _ with Ok _ => _ | Err _ => _ | Panic => _ | OutOfFuel => _ end =>
      let v := fresh "v" in let Hv := fresh "Hv" in
      destruct (be_u32_read (E := unit) b o H) as (v & -> & Hv);
      [vm_compute; discriminate | unfold VERSION_OFFSET, HEADER_LENGTH_OFFSET, CLUSTER_BITS_OFFSET,
         L1_SIZE_OFFSET, BACKING_FILE_SIZE_OFFSET, CRYPT_METHOD_OFFSET,
         REFCOUNT_TABLE_CLUSTERS_OFFSET, NB_SNAPSHOTS_OFFSET; lia | cbn [obind]]
  | |- match obind (be_u64 ?b ?o) _ with Ok _ => _ | Err _ => _ | Panic => _ | OutOfFuel => _ end =>
      let v := fresh "v" in let Hv := fresh "Hv" in
      destruct (be_u64_read (E := unit) b o H) as (v & -> & Hv);
      [vm_compute; discriminate | unfold SIZE_OFFSET, L1_TABLE_OFFSET_OFFSET,
         BACKING_FILE_OFFSET_OFFSET, REFCOUNT_TABLE_OFFSET_OFFSET, SNAPSHOTS_OFFSET_OFFSET; lia
      | cbn [obind]]
  end.

Lemma parse_header_length header ver : is_bytes header -> 105 <= blen header ->
  exists hl, (if 3 <=? ver then be_u32 (E := unit) header HEADER_LENGTH_OFFSET
              else Ok V2_HEADER_EXTENSION_OFFSET) = Ok hl.
Proof.
  intros Hb Hl. destruct (3 <=? ver); [|eauto].
  destruct (be_u32_read (E := unit) header HEADER_LENGTH_OFFSET Hb) as (v & -> & _); [done | | eauto].
  unfold HEADER_LENGTH_OFFSET. lia.
Qed.

Lemma parse_spec header : is_bytes header ->
  match parse header with
  | Ok h => header_ok h
  | Err _ => True
  | Panic | OutOfFuel => False
  end.
Proof.
  intros Hb. unfold parse. destruct (Z.ltb_spec (blen header) 105); [done|].
  read_field Hb. destruct (Z.eqb_spec v 2) as [Hv2|Hv2], (Z.eqb_spec v 3) as [Hv3|Hv3];
    cbn [negb andb]; try done; try lia.
  all: destruct (parse_header_length header v Hb H) as [hl ->]; cbn [obind].
  all: read_field Hb; destruct (Z.leb_spec 9 v0), (Z.leb_spec v0 21); cbn [negb andb]; try done.
  all: do 2 read_field Hb; destruct (Z.ltb_spec QCOW2_MAX_L1_SIZE_ENTRIES v2); [done|].
  all: do 8 read_field Hb.
  all: destruct (parse_v3_fields_ok header v Hb H) as (rb & inc & com & ct & -> & Hw & Hi & Hc & Hver2).
  all: cbn [obind]; rewrite Z.shiftl_1_l.
  all: set (e := if nonzero (Z.land inc INCOMPAT_EXTENDED_L2) then 16 else 8).
  all: pose proof (l2_coverage_small v0 e ltac:(lia)
         ltac:(unfold e; destruct (nonzero _); tauto)) as Hcov.
  all: rewrite wmul_small by (unfold u64_max; lia).
  all: destruct (Z.ltb_spec QCOW2_MAX_L1_SIZE_ENTRIES (div_ceil v1 (2 ^ v0 * (2 ^ v0 / e))))
         as [|Hdc]; [done|].
  all: destruct (div_ceil_spec v1 (2 ^ v0 * (2 ^ v0 / e)) ltac:(lia)) as [Hge _].
  all: assert (v1 <= QCOW2_MAX_L1_SIZE_ENTRIES * (2 ^ v0 * (2 ^ v0 / e))) as Hcover by nia.
  all: unfold is_u32 in *; split;
       cbn [version header_length hdr_cluster_bits hdr_cluster_size hdr_virtual_size hdr_l1_size
            hdr_l1_table_offset hdr_refcount_table_offset hdr_refcount_table_clusters
            hdr_refcount_bits incompatible_features compatible_features extended_l2];
       solve [assumption | lia | intros ?; apply Hver2; lia].
Qed.

(** ** Bit runs *)

(** A sector-aligned offset below 2^56 is its own offset field. *)
Lemma L1_mask_id x : 0 <= x < 2 ^ 56 -> x mod 512 = 0 -> Z.land x L1_OFFSET_MASK = x.
Proof.
  intros Hx Hm. apply Z.bits_inj'. intros k Hk. rewrite Z.land_spec.
  change L1_OFFSET_MASK with (Z.shiftl (Z.ones 47) 9).
  destruct (Z.lt_ge_cases k 9) as [H9|H9].
  - rewrite Z.shiftl_spec_low by done. rewrite andb_false_r.
    rewrite <- (Z.mod_pow2_bits_low x 9 k) by done. change (2 ^ 9) with 512. by rewrite Hm, Z.bits_0.
  - rewrite Z.shiftl_spec by lia. destruct (Z.lt_ge_cases k 56) as [H56|H56].
    + rewrite Z.ones_spec_low by lia. apply andb_true_r.
    + rewrite <- (Z.mod_small x (2 ^ 56)) by done. by rewrite Z.mod_pow2_bits_high by lia.
Qed.

Lemma trailing_spec b n i x : 0 <= trailing b n i x <= Z.of_nat n /\
  (forall k, 0 <= k < trailing b n i x -> Z.testbit x (i + k) = b) /\
  (trailing b n i x < Z.of_nat n -> Z.testbit x (i + trailing b n i x) = negb b).
Proof.
  revert i. induction n as [|n IH]; intros i.
  - cbn [trailing]. split; [lia|]. split; intros; lia.
  - cbn [trailing]. destruct (Bool.eqb (Z.testbit x i) b) eqn:E.
    + apply Bool.eqb_prop in E. destruct (IH (i + 1)) as (H1 & H2 & H3).
      split; [lia|]. split.
      * intros k Hk. destruct (Z.eq_dec k 0) as [->|]; [by rewrite Z.add_0_r|].
        replace (i + k) with (i + 1 + (k - 1)) by lia. apply H2. lia.
      * intros Hlt. rewrite Z.add_assoc. apply H3. lia.
    + split; [lia|]. split; [intros; lia|]. intros _. rewrite Z.add_0_r.
      by destruct (Z.testbit x i), b.
Qed.

Lemma land_bit x i : 0 <= i -> nonzero (Z.land x (Z.shiftl 1 i)) = Z.testbit x i.
Proof.
  intros Hi. rewrite Z.shiftl_1_l. destruct (Z.testbit x i) eqn:E.
  - apply nonzero_true. intros H0.
    assert (Z.testbit (Z.land x (2 ^ i)) i = true) as Ht
      by (rewrite Z.land_spec, E, Z.pow2_bits_true by done; done).
    by rewrite H0, Z.bits_0 in Ht.
  - apply nonzero_false. apply Z.bits_inj'. intros k Hk. rewrite Z.land_spec, Z.bits_0.
    destruct (Z.eq_dec k i) as [->|Hne]; [by rewrite E|].
    rewrite Z.pow2_bits_false by congruence. apply andb_false_r.
Qed.

Lemma sub_alloc_range_below f i : 0 <= f <= 32 -> 0 <= i < 32 ->
  Z.testbit (sub_alloc_range 0 f) i = (i <? f).
Proof.
  intros Hf Hi. unfold sub_alloc_range, as_u32. rewrite !Z.shiftl_1_l, Z.pow_0_r.
  change 4294967296 with (2 ^ 32). rewrite Z.mod_pow2_bits_low by lia.
  pose proof (Z.ones_equiv f) as Ho. rewrite <- Z.sub_1_r in Ho. rewrite <- Ho.
  destruct (Z.ltb_spec i f); [apply Z.ones_spec_low | apply Z.ones_spec_high]; lia.
Qed.

Lemma not32_bit x i : 0 <= i < 32 -> Z.testbit (Z.lxor x u32_max) i = negb (Z.testbit x i).
Proof.
  intros Hi. rewrite Z.lxor_spec. change u32_max with (Z.ones 32).
  rewrite Z.ones_spec_low by lia. apply xorb_true_r.
Qed.

(** The bits of subcluster [i] after the whole-entry checks. *)
Lemma subcluster_type_ext e bm i df : 0 <= i < 32 ->
  subcluster_type e bm i true df =
  match cluster_type e true df with
  | CtCompressed => ScCompressed
  | CtNormal =>
      if nonzero (Z.land (zero_bits bm) (alloc_bits bm)) then ScInvalid
      else if Z.testbit (zero_bits bm) i then ScZeroAlloc
      else if Z.testbit (alloc_bits bm) i then ScNormal else ScUnallocatedAlloc
  | CtUnallocated =>
      if nonzero (alloc_bits bm) then ScInvalid
      else if Z.testbit (zero_bits bm) i then ScZeroPlain else ScUnallocatedPlain
  | CtZeroPlain | CtZeroAlloc => ScInvalid
  end.
Proof.
  intros Hi. unfold subcluster_type, subclusters_per_cluster, QCOW_EXTL2_SUBCLUSTERS_PER_CLUSTER.
  destruct (Z.leb_spec 32 i); [lia|]. cbn [negb]. rewrite !land_bit by lia. done.
Qed.

(** The bits a run of type [ty] looks at: the word whose bits continue the run,
    and the value they keep. *)
Lemma run_of_bits (b : bool) x from f r :
  0 <= from < 32 -> (forall i, from <= i < 32 -> f i = Z.testbit x i) ->
  (forall i, 0 <= i < from -> Z.testbit x i = b) -> f from = b ->
  r = trailing b 32 0 x - from ->
  1 <= r /\ from + r <= 32 /\ (forall k, 0 <= k < r -> f (from + k) = b) /\
  (from + r < 32 -> f (from + r) = negb b).
Proof.
  intros Hfrom Hf Hbelow Hat ->. destruct (trailing_spec b 32 0 x) as (H1 & H2 & H3).
  change (Z.of_nat 32) with 32 in *. remember (trailing b 32 0 x) as t eqn:Ht0. clear Ht0.
  setoid_rewrite Z.add_0_l in H2. rewrite Z.add_0_l in H3.
  assert (from < t) as Hlt.
  { destruct (Z.lt_ge_cases from t); [done|]. exfalso.
    specialize (H3 ltac:(lia)). destruct (Z.eq_dec t from) as [Ht|].
    - rewrite Hf in Hat by lia. rewrite Ht, Hat in H3. by destruct b.
    - rewrite Hbelow in H3 by lia. by destruct b. }
  split; [lia|]. split; [lia|]. split.
  - intros k Hk. rewrite Hf by lia. apply H2. lia.
  - intros Hr. rewrite Hf by lia. replace (from + (t - from)) with t by lia. apply H3. lia.
Qed.

(** [f] keeps the value [b] on the maximal run of [r] bits from [from]. *)
Definition max_run (f : Z -> bool) (b : bool) (from r : Z) : Prop :=
  1 <= r /\ from + r <= 32 /\ (forall k, 0 <= k < r -> f (from + k) = b) /\
  (from + r < 32 -> f (from + r) = negb b).

Lemma run_ones x from : 0 <= from < 32 -> Z.testbit x from = true ->
  max_run (Z.testbit x) true from (trailing_ones (Z.lor x (sub_alloc_range 0 from)) - from).
Proof.
  intros Hfrom Hx. eapply (run_of_bits true (Z.lor x (sub_alloc_range 0 from))); try done.
  - intros i Hi. rewrite Z.lor_spec, sub_alloc_range_below by lia.
    destruct (Z.ltb_spec i from); [lia|]. by rewrite orb_false_r.
  - intros i Hi. rewrite Z.lor_spec, sub_alloc_range_below by lia.
    destruct (Z.ltb_spec i from); [|lia]. apply orb_true_r.
Qed.

Lemma run_zeros x from : 0 <= from < 32 -> Z.testbit x from = false ->
  max_run (Z.testbit x) false from
    (trailing_zeros (Z.land x (Z.lxor (sub_alloc_range 0 from) u32_max)) - from).
Proof.
  intros Hfrom Hx.
  eapply (run_of_bits false (Z.land x (Z.lxor (sub_alloc_range 0 from) u32_max))); try done.
  - intros i Hi. rewrite Z.land_spec, not32_bit, sub_alloc_range_below by lia.
    destruct (Z.ltb_spec i from); [lia|]. by rewrite andb_true_r.
  - intros i Hi. rewrite Z.land_spec, not32_bit, sub_alloc_range_below by lia.
    destruct (Z.ltb_spec i from); [|lia]. apply andb_false_r.
Qed.

Lemma land_zero_bits x y i : nonzero (Z.land x y) = false ->
  Z.testbit y i = true -> Z.testbit x i = false.
Proof.
  intros H0%nonzero_false Hy. apply (f_equal (fun z => Z.testbit z i)) in H0.
  rewrite Z.land_spec, Z.bits_0, Hy, andb_true_r in H0. done.
Qed.

(** A maximal run of the deciding bit is a maximal run of the type. *)
Lemma max_run_types e bm from df ty f b r :
  max_run f b from r -> 0 <= from ->
  (forall i, from <= i < 32 -> f i = b -> subcluster_type e bm i true df = ty) ->
  (forall i, from <= i < 32 -> f i = negb b -> subcluster_type e bm i true df <> ty) ->
  1 <= r /\ from + r <= 32 /\
  (forall k, 0 <= k < r -> subcluster_type e bm (from + k) true df = ty) /\
  (ty <> ScCompressed -> from + r < 32 -> subcluster_type e bm (from + r) true df <> ty).
Proof.
  intros (H1 & H2 & H3 & H4) Hfrom Hin Hout. split; [done|]. split; [done|]. split.
  - intros k Hk. apply Hin; [lia|]. by apply H3.
  - intros _ Hr. apply Hout; [lia|]. by apply H4.
Qed.

Lemma subcluster_range_run e bm from df ty run : 0 <= from < 32 ->
  subcluster_range e bm from true df = (ty, run) ->
  ty = subcluster_type e bm from true df /\
  (ty = ScInvalid -> run = 0) /\
  (ty <> ScInvalid -> 1 <= run /\ from + run <= 32 /\
     (forall k, 0 <= k < run -> subcluster_type e bm (from + k) true df = ty) /\
     (ty <> ScCompressed -> from + run < 32 -> subcluster_type e bm (from + run) true df <> ty)).
Proof.
  intros Hfrom. unfold subcluster_range, subclusters_per_cluster,
    QCOW_EXTL2_SUBCLUSTERS_PER_CLUSTER. cbv zeta.
  remember (subcluster_type e bm from true df) as ty0 eqn:E.
  pose proof (subcluster_type_ext e bm) as Hext.
  destruct (decide (ty0 = ScInvalid)) as [Hinv|Hval]; [intros [= <- <-]; tauto|].
  rewrite Hext in E by lia. destruct (cluster_type e true df) eqn:Hct; try congruence.
  - destruct (nonzero (alloc_bits bm)) eqn:Ha; [congruence|].
    destruct (Z.testbit (zero_bits bm) from) eqn:Hz; subst ty0; cbn [negb orb bool_decide decide_rel];
      intros [= <- <-]; (split; [done|]); (split; [congruence|]); intros _.
    + eapply max_run_types; [apply (run_ones _ _ Hfrom Hz)|lia| |].
      * intros i Hi Hb. by rewrite Hext, Hct, ?Ha, ?Hb by lia.
      * intros i Hi Hb. by rewrite Hext, Hct, ?Ha, ?Hb by lia.
    + assert (Z.testbit (Z.lor (zero_bits bm) (alloc_bits bm)) from = false) as Hza.
      { apply nonzero_false in Ha. by rewrite Ha, Z.lor_0_r. }
      eapply max_run_types; [apply (run_zeros _ _ Hfrom Hza)|lia| |];
        intros i Hi Hb; pose proof Ha as Ha0; apply nonzero_false in Ha0;
        rewrite Ha0, Z.lor_0_r in Hb; by rewrite Hext, Hct, ?Ha, ?Hb by lia.
  - destruct (nonzero (Z.land (zero_bits bm) (alloc_bits bm))) eqn:Ha; [congruence|].
    destruct (Z.testbit (zero_bits bm) from) eqn:Hz;
      [|destruct (Z.testbit (alloc_bits bm) from) eqn:Hal]; subst ty0;
      cbn [negb orb bool_decide decide_rel];
      intros [= <- <-]; (split; [done|]); (split; [congruence|]); intros _.
    + eapply max_run_types; [apply (run_ones _ _ Hfrom Hz)|lia| |].
      * intros i Hi Hb. by rewrite Hext, Hct, ?Ha, ?Hb by lia.
      * intros i Hi Hb. rewrite Hext, Hct, ?Ha, ?Hb by lia. by destruct (Z.testbit (alloc_bits bm) i).
    + eapply max_run_types; [apply (run_ones _ _ Hfrom Hal)|lia| |].
      * intros i Hi Hb. rewrite Hext, Hct, ?Ha by lia. by rewrite (land_zero_bits _ _ _ Ha Hb), Hb.
      * intros i Hi Hb. rewrite Hext, Hct, ?Ha, ?Hb by lia. by destruct (Z.testbit (zero_bits bm) i).
    + assert (Z.testbit (Z.lor (zero_bits bm) (alloc_bits bm)) from = false) as Hza
        by (by rewrite Z.lor_spec, Hz, Hal).
      eapply max_run_types; [apply (run_zeros _ _ Hfrom Hza)|lia| |];
        intros i Hi Hb; rewrite Z.lor_spec in Hb; rewrite Hext, Hct, ?Ha by lia;
        by destruct (Z.testbit (zero_bits bm) i), (Z.testbit (alloc_bits bm) i).
  - subst ty0. cbn. intros [= <- <-]. split; [done|]. split; [done|]. intros _.
    split; [lia|]. split; [lia|]. split; [|done]. intros k Hk. by rewrite Hext, Hct by lia.
Qed.

(** ** Compressed descriptors *)

(** The descriptor as a sum: flag, sector field, offset. *)
Lemma encode_compressed_sum off len cb :
  9 <= cb <= 21 -> 0 <= off < 2 ^ (70 - cb) -> 0 < len <= 2 ^ (cb + 1) ->
  encode_compressed_l2_entry off len cb =
    (2 ^ (cb - 8) + (div_ceil len 512 - 1)) * 2 ^ (70 - cb) + off /\
  0 <= div_ceil len 512 - 1 < 2 ^ (cb - 8).
Proof.
  intros Hcb Hoff Hlen. unfold encode_compressed_l2_entry.
  replace (62 - (cb - 8)) with (70 - cb) by lia.
  destruct (div_ceil_spec len 512 ltac:(lia)) as [Hge Hlt].
  assert (div_ceil len 512 <= 2 ^ (cb - 8)) as Hle.
  { apply div_ceil_le; [lia|]. change 512 with (2 ^ 9). rewrite <- Z.pow_add_r by lia.
    replace (cb - 8 + 9) with (cb + 1) by lia. lia. }
  set (q := div_ceil len 512 - 1) in *. assert (0 <= q < 2 ^ (cb - 8)) as Hq by lia.
  split; [|done]. rewrite land_pow2_mask, (Z.mod_small off) by lia.
  assert (2 ^ (cb - 8) * 2 ^ (70 - cb) = 4611686018427387904) as Hp.
  { rewrite <- Z.pow_add_r by lia. by replace (cb - 8 + (70 - cb)) with 62 by lia. }
  assert (0 < 2 ^ (70 - cb)) by (apply Z.pow_pos_nonneg; lia).
  rewrite wsub_small by (unfold u64_max; nia). fold q.
  unfold shl64. rewrite Z.mod_small by (rewrite Z.shiftl_mul_pow2 by lia; nia).
  assert (OFLAG_COMPRESSED = Z.shiftl (2 ^ (cb - 8)) (70 - cb)) as ->.
  { rewrite Z.shiftl_mul_pow2 by lia. by rewrite Hp. }
  rewrite <- Z.shiftl_lor, lor_low_add by lia. f_equal. f_equal.
  pose proof (lor_low_add 1 q (cb - 8) ltac:(lia) Hq) as Hl.
  by rewrite Z.shiftl_1_l, Z.mul_1_l in Hl.
Qed.

Lemma parse_compressed_sum f off cb : 9 <= cb <= 21 -> 0 <= off < 2 ^ (70 - cb) ->
  0 <= f < 2 ^ (cb - 8) -> off mod 512 = 0 ->
  parse_compressed_l2_entry ((2 ^ (cb - 8) + f) * 2 ^ (70 - cb) + off) cb =
    Some (off, (f + 1) * 512).
Proof.
  intros Hcb Hoff Hf Hal. unfold parse_compressed_l2_entry.
  replace (62 - (cb - 8)) with (70 - cb) by lia.
  assert (0 < 2 ^ (70 - cb)) by (apply Z.pow_pos_nonneg; lia).
  assert (0 < 2 ^ (cb - 8) <= 8192) as Hp.
  { split; [apply Z.pow_pos_nonneg; lia|]. change 8192 with (2 ^ 13). apply Z.pow_le_mono_r; lia. }
  rewrite !land_pow2_mask by lia. rewrite Z.shiftr_div_pow2 by lia.
  rewrite (Z.add_comm (_ * _) off), Z.div_add, (Z.mod_add off) by lia.
  rewrite (Z.div_small off), (Z.mod_small off) by lia.
  rewrite Z.add_0_l, (Z.add_comm (2 ^ (cb - 8)) f).
  pose proof (Z.mod_add f 1 (2 ^ (cb - 8)) ltac:(lia)) as Hm. rewrite Z.mul_1_l in Hm.
  rewrite Hm, Z.mod_small by lia. rewrite checked_mul_eq by (unfold u64_max; lia).
  change 511 with (Z.shiftl 1 9 - 1). rewrite land_pow2_mask by lia. change (2 ^ 9) with 512.
  rewrite Hal, Z.sub_0_r. destruct (Z.ltb_spec ((f + 1) * 512) 0); [lia|].
  destruct (Z.eqb_spec ((f + 1) * 512) 0); [lia|done].
Qed.

(** ** Properties *)

(** C12: [QcowHeader::parse] is total on arbitrary bytes (no index it takes is out
    of range), and every header it accepts satisfies the invariants the rest of
    the code relies on: a known version, cluster bits in 9..=21, a bounded L1, a
    permitted refcount width, and a virtual size an L1 of the maximal length can
    map. *)
Theorem parse_total_sound header : is_bytes header ->
  returns (parse header) /\ forall h, parse header = Ok h -> header_ok h.
Proof.
  intros Hb. pose proof (parse_spec header Hb) as H. split.
  - by destruct (parse header).
  - intros h Hh. by rewrite Hh in H.
Qed.

(** A minimal v3 header: 64 KiB clusters, 1 GiB, two L1 entries. *)
Definition demo_header : bytes :=
  be_bytes 4 0x514649fb ++ be_bytes 4 3 ++ be_bytes 8 0 ++ be_bytes 4 0 ++ be_bytes 4 16 ++
  be_bytes 8 1073741824 ++ be_bytes 4 0 ++ be_bytes 4 2 ++ be_bytes 8 196608 ++
  be_bytes 8 65536 ++ be_bytes 4 1 ++ be_bytes 4 0 ++ be_bytes 8 0 ++ be_bytes 8 0 ++
  be_bytes 8 0 ++ be_bytes 8 0 ++ be_bytes 4 4 ++ be_bytes 4 112 ++ replicate 408 0.

Lemma demo_header_bytes : is_bytes demo_header.
Proof. apply is_bytesb_true. vm_compute. reflexivity. Qed.

Lemma parse_total_sound_witness : exists h, parse demo_header = Ok h /\ header_ok h /\
  hdr_cluster_size h = 65536 /\ hdr_refcount_bits h = 16.
Proof.
  eexists. split; [vm_compute; reflexivity|]. split; [|split; reflexivity].
  apply (parse_total_sound demo_header demo_header_bytes). vm_compute. reflexivity.
Defined.

(** [subcluster_range] returns the type of the first subcluster and the length
    of the {e maximal} run of subclusters sharing it, within the cluster; an
    invalid entry has run length 0. *)
Theorem subcluster_range_maximal e bm from df ty run : 0 <= from < 32 ->
  subcluster_range e bm from true df = (ty, run) ->
  ty = subcluster_type e bm from true df /\
  (ty = ScInvalid -> run = 0) /\
  (ty <> ScInvalid -> 1 <= run /\ from + run <= 32 /\
     (forall k, 0 <= k < run -> subcluster_type e bm (from + k) true df = ty) /\
     (ty <> ScCompressed -> from + run < 32 -> subcluster_type e bm (from + run) true df <> ty)).
Proof. apply subcluster_range_run. Qed.

Lemma subcluster_range_maximal_witness :
  subcluster_range 0x8000000000010000 0x0000000C000000F0 4 true false = (ScNormal, 4) /\
  ScNormal = subcluster_type 0x8000000000010000 0x0000000C000000F0 4 true false.
Proof.
  split; [reflexivity|].
  apply (subcluster_range_maximal 0x8000000000010000 0x0000000C000000F0 4 false ScNormal 4);
    [lia | reflexivity].
Defined.

(** A compressed-cluster descriptor written for a sector-aligned payload reads
    back as that offset and the payload rounded up to whole sectors, so the
    reader never sees less than what was written. *)
Theorem compressed_entry_roundtrip off len cb :
  9 <= cb <= 21 -> 0 <= off < 2 ^ (70 - cb) -> off mod 512 = 0 -> 0 < len <= 2 ^ (cb + 1) ->
  parse_compressed_l2_entry (encode_compressed_l2_entry off len cb) cb =
    Some (off, div_ceil len 512 * 512) /\
  len <= div_ceil len 512 * 512 < len + 512.
Proof.
  intros Hcb Hoff Hal Hlen.
  destruct (encode_compressed_sum off len cb Hcb Hoff Hlen) as [-> Hq].
  rewrite parse_compressed_sum by done. destruct (div_ceil_spec len 512 ltac:(lia)).
  split; [do 2 f_equal|]; lia.
Qed.

Lemma compressed_entry_roundtrip_witness :
  parse_compressed_l2_entry (encode_compressed_l2_entry 327680 1300 16) 16 = Some (327680, 1536) /\
  1300 <= 1536 < 1300 + 512.
Proof. apply (compressed_entry_roundtrip 327680 1300 16); vm_compute; intuition congruence. Defined.
