(* ===== verification/WriteTypes.v ===== *)
(** Data types of the qcow2 write planner ([src/src/crates/qcow2-write/src/lib.rs]):
    geometry, step vocabulary, step buffer, staged regions, envelope gates, error
    codes, the planner state [WriteState] with its L2 window and dirty bitsets,
    and the resume points. *)

From stdpp Require Import base numbers list sets.
From Stdlib Require Import ZArith Lia.
From S2P Require Import Prelude Bytes Refcount Qcow2.

(** ** Capacity constants *)

Definition MAX_L2_SLOTS : Z := 256.
Definition MAX_REFBLOCKS : Z := 2048.

(** ** Geometry *)

Record Geometry : Type := mkGeometry {
  cluster_bits : Z;
  cluster_size : Z;
  virtual_size : Z;
  l1_table_offset : Z;
  l1_size : Z;
  refcount_table_offset : Z;
  refcount_table_clusters : Z;
  refcount_bits : Z;
  entries_per_l2 : Z;
  l2_coverage : Z;
  entries_per_refblock : Z
}.

Definition Geometry_from_header {E} (hdr : QcowHeader) : outcome E Geometry :=
  let epl2 := hdr_cluster_size hdr / 8 in
  let? epr := udiv (wmul (hdr_cluster_size hdr) 8) (hdr_refcount_bits hdr) in
  Ok {| cluster_bits := hdr_cluster_bits hdr;
        cluster_size := hdr_cluster_size hdr;
        virtual_size := hdr_virtual_size hdr;
        l1_table_offset := hdr_l1_table_offset hdr;
        l1_size := hdr_l1_size hdr;
        refcount_table_offset := hdr_refcount_table_offset hdr;
        refcount_table_clusters := hdr_refcount_table_clusters hdr;
        refcount_bits := hdr_refcount_bits hdr;
        entries_per_l2 := epl2;
        l2_coverage := wmul (hdr_cluster_size hdr) epl2;
        entries_per_refblock := epr |}.

(** ** Steps *)

Inductive RegionId : Type :=
| RL1 | RL2Slot (slot : Z) | RRefcountTable | RRefblocks | RBounce | RCallerData.

Inductive TargetDevice : Type := Input0 | Output.

Inductive BarrierClass : Type := BOrdering | BDurability.

Inductive StepKind : Type :=
| ReadCluster | WriteRange | ZeroRange | FillRange | PatchEntryU64
| LoadCluster | WritebackCluster | ZeroRegion
| Barrier (class : BarrierClass).

Record Step : Type := mkStep {
  kind : StepKind;
  device : TargetDevice;
  region : RegionId;
  region_offset : Z;
  disk_offset : Z;
  len : Z;
  value : Z
}.

#[global] Instance RegionId_eq_dec : EqDecision RegionId.
Proof. solve_decision. Defined.
#[global] Instance TargetDevice_eq_dec : EqDecision TargetDevice.
Proof. solve_decision. Defined.
#[global] Instance BarrierClass_eq_dec : EqDecision BarrierClass.
Proof. solve_decision. Defined.
#[global] Instance StepKind_eq_dec : EqDecision StepKind.
Proof. solve_decision. Defined.
#[global] Instance Step_eq_dec : EqDecision Step.
Proof. solve_decision. Defined.

(** Staging shape. *)
Record StagingConfig : Type := mkStagingConfig {
  cfg_l2_slots : Z;
  cfg_max_refblocks : Z;
  cfg_device : TargetDevice
}.

(** The step window: the emitted prefix, in order, and the buffer's length. *)
Record StepBuf : Type := mkStepBuf { sb_steps : list Step; sb_capacity : Z }.

Definition sb_emitted (b : StepBuf) : Z := Z.of_nat (length (sb_steps b)).
Definition sb_remaining (b : StepBuf) : Z := sb_capacity b - sb_emitted b.
Definition sb_reset (b : StepBuf) : StepBuf := mkStepBuf [] (sb_capacity b).

(** [StepBuf::push]; [None] is [Err(BufFull)]. *)
Definition sb_push (b : StepBuf) (s : Step) : option StepBuf :=
  if sb_emitted b =? sb_capacity b then None
  else Some (mkStepBuf (sb_steps b ++ [s]) (sb_capacity b)).

(** The planner's view of the executor-staged buffers. *)
Record StagedRegions : Type := mkStaged {
  st_l1 : bytes;
  st_l2_window : bytes;
  st_refcount_table : bytes;
  st_refblocks : bytes
}.

(** ** Envelope gates *)

Inductive Gate : Type :=
| GRefcountWidth | GUnknownIncompatible | GExtendedL2 | GExternalDataFile | GEncryption
| GDirtyCorrupt | GHasSnapshots | GUnsupportedVersion | GInvalidStagingConfig.

Definition Gate_code (g : Gate) : Z :=
  match g with
  | GRefcountWidth => 1
  | GUnknownIncompatible => 2
  | GExtendedL2 => 3
  | GExternalDataFile => 4
  | GEncryption => 5
  | GDirtyCorrupt => 6
  | GHasSnapshots => 7
  | GUnsupportedVersion => 8
  | GInvalidStagingConfig => 9
  end.

Definition KNOWN_INCOMPAT : Z :=
  Z.lor (Z.lor (Z.lor INCOMPAT_DIRTY INCOMPAT_CORRUPT) INCOMPAT_EXTERNAL_DATA) INCOMPAT_EXTENDED_L2.

Definition check_envelope_with (hdr : QcowHeader) (allow_snapshots : bool) : outcome Gate unit :=
  if negb (version hdr =? 2) && negb (version hdr =? 3) then Err GUnsupportedVersion
  else if negb (hdr_refcount_bits hdr =? 16) then Err GRefcountWidth
  else if nonzero (Z.land (incompatible_features hdr) INCOMPAT_COMPRESSION)
       || nonzero (Z.land (incompatible_features hdr) (not64 KNOWN_INCOMPAT))
  then Err GUnknownIncompatible
  else if extended_l2 hdr then Err GExtendedL2
  else if has_external_data hdr then Err GExternalDataFile
  else if negb (crypt_method hdr =? 0) then Err GEncryption
  else if hdr_dirty hdr || hdr_corrupt hdr then Err GDirtyCorrupt
  else if negb allow_snapshots && (0 <? nb_snapshots hdr) then Err GHasSnapshots
  else Ok tt.

Definition check_envelope (hdr : QcowHeader) : outcome Gate unit := check_envelope_with hdr false.

(** ** Planner errors *)

Inductive WriteError : Type :=
| WeBufFull | WeRefcountExhausted | WeNotImplemented | WeOutOfBounds | WeResumeMismatch
| WeStagedRegionsMismatch | WeCompressedCluster | WeSnapshotShared | WeSnapshotSharedL2Table
| WeUnknownL1Entry | WeUnknownL2Entry | WeRefcountInconsistent | WeRefcountCoverage
| WeNeedsBackingFill.

#[global] Instance WriteError_eq_dec : EqDecision WriteError.
Proof. solve_decision. Defined.

Definition WriteError_code (e : WriteError) : Z :=
  match e with
  | WeBufFull => 1
  | WeRefcountExhausted => 2
  | WeNotImplemented => 3
  | WeOutOfBounds => 4
  | WeResumeMismatch => 5
  | WeStagedRegionsMismatch => 6
  | WeCompressedCluster => 7
  | WeSnapshotShared => 8
  | WeSnapshotSharedL2Table => 9
  | WeUnknownL1Entry => 10
  | WeUnknownL2Entry => 11
  | WeRefcountInconsistent => 12
  | WeRefcountCoverage => 13
  | WeNeedsBackingFill => 14
  end.

Inductive DataSource : Type := CallerData (offset : Z) | Fill (byte : Z).

#[global] Instance DataSource_eq_dec : EqDecision DataSource.
Proof. solve_decision. Defined.

(** ** Planner state *)

Record L2Slot : Type := mkL2Slot {
  slot_valid : bool;
  slot_dirty : bool;
  slot_l1_idx : Z;
  slot_host_offset : Z;
  slot_last_access : Z
}.

Definition L2Slot_EMPTY : L2Slot := mkL2Slot false false 0 0 0.

(** Micro-stages of one cluster's emission group. *)
Inductive ClusterStage : Type :=
| Enter | SlotFree | FreshAlloc | FreshZeroed | SlotReady | DataAlloc | HeadDone | BodyDone
| TailDone | CowL2Load | CowL2Repoint | CowL2Decrement | CowDataEnter | CowDataCopy
| CowDataBody | CowDataPatch | CowDataDecrement.

#[global] Instance ClusterStage_eq_dec : EqDecision ClusterStage.
Proof. solve_decision. Defined.

Record WriteProgress : Type := mkWriteProgress {
  wp_voff : Z;
  wp_len : Z;
  wp_data : DataSource;
  wp_consumed : Z;
  wp_stage : ClusterStage;
  wp_slot : Z;
  wp_l2_host : Z;
  wp_data_host : Z;
  wp_cow_src : Z;
  wp_cow_zero_preimage : bool
}.

Inductive FlushStage : Type :=
| PreBarrier | L2Writebacks | L1Barrier | L1Write | RbBarrier | RbWritebacks | EndBarrier.

Record FlushProgress : Type := mkFlushProgress { fp_stage : FlushStage; fp_next_idx : Z }.

Inductive Pending : Type :=
| PIdle | PWrite (p : WriteProgress) | PFlush (p : FlushProgress).

Record WriteState : Type := mkWriteState {
  geometry : Geometry;
  config : StagingConfig;
  l2_slots : list L2Slot;
  refblock_dirty_words : list Z;
  access_counter : Z;
  alloc_cursor : AllocCursor;
  has_backing : bool;
  cow_enabled : bool;
  l1_dirty : bool;
  steps_since_barrier : Z;
  slot_pending_zero : list Z;
  pending : Pending
}.

(** Field updates. *)
Definition set_l2_slots (x : list L2Slot) (w : WriteState) : WriteState :=
  mkWriteState (geometry w) (config w) x (refblock_dirty_words w) (access_counter w)
    (alloc_cursor w) (has_backing w) (cow_enabled w) (l1_dirty w) (steps_since_barrier w)
    (slot_pending_zero w) (pending w).
Definition set_refblock_dirty_words (x : list Z) (w : WriteState) : WriteState :=
  mkWriteState (geometry w) (config w) (l2_slots w) x (access_counter w)
    (alloc_cursor w) (has_backing w) (cow_enabled w) (l1_dirty w) (steps_since_barrier w)
    (slot_pending_zero w) (pending w).
Definition set_access_counter (x : Z) (w : WriteState) : WriteState :=
  mkWriteState (geometry w) (config w) (l2_slots w) (refblock_dirty_words w) x
    (alloc_cursor w) (has_backing w) (cow_enabled w) (l1_dirty w) (steps_since_barrier w)
    (slot_pending_zero w) (pending w).
Definition set_alloc_cursor (x : AllocCursor) (w : WriteState) : WriteState :=
  mkWriteState (geometry w) (config w) (l2_slots w) (refblock_dirty_words w) (access_counter w)
    x (has_backing w) (cow_enabled w) (l1_dirty w) (steps_since_barrier w)
    (slot_pending_zero w) (pending w).
Definition set_l1_dirty (x : bool) (w : WriteState) : WriteState :=
  mkWriteState (geometry w) (config w) (l2_slots w) (refblock_dirty_words w) (access_counter w)
    (alloc_cursor w) (has_backing w) (cow_enabled w) x (steps_since_barrier w)
    (slot_pending_zero w) (pending w).
Definition set_steps_since_barrier (x : Z) (w : WriteState) : WriteState :=
  mkWriteState (geometry w) (config w) (l2_slots w) (refblock_dirty_words w) (access_counter w)
    (alloc_cursor w) (has_backing w) (cow_enabled w) (l1_dirty w) x
    (slot_pending_zero w) (pending w).
Definition set_slot_pending_zero (x : list Z) (w : WriteState) : WriteState :=
  mkWriteState (geometry w) (config w) (l2_slots w) (refblock_dirty_words w) (access_counter w)
    (alloc_cursor w) (has_backing w) (cow_enabled w) (l1_dirty w) (steps_since_barrier w)
    x (pending w).
Definition set_pending (x : Pending) (w : WriteState) : WriteState :=
  mkWriteState (geometry w) (config w) (l2_slots w) (refblock_dirty_words w) (access_counter w)
    (alloc_cursor w) (has_backing w) (cow_enabled w) (l1_dirty w) (steps_since_barrier w)
    (slot_pending_zero w) x.

(** ** Bitsets of 64-bit words *)

Definition word_at (words : list Z) (i : Z) : option Z :=
  if 0 <=? i then words !! Z.to_nat i else None.

Definition bit_get (words : list Z) (idx : Z) : option bool :=
  w ← word_at words (idx / 64);
  Some (nonzero (Z.land (Z.shiftr w (idx mod 64)) 1)).

Definition bit_set (words : list Z) (idx : Z) : option (list Z) :=
  w ← word_at words (idx / 64);
  Some (<[Z.to_nat (idx / 64) := Z.lor w (shl64 1 (idx mod 64))]> words).

Definition bit_clear (words : list Z) (idx : Z) : option (list Z) :=
  w ← word_at words (idx / 64);
  Some (<[Z.to_nat (idx / 64) := Z.land w (not64 (shl64 1 (idx mod 64)))]> words).

(** ** The L2 window and dirty-set operations of [WriteState] *)

Definition slot_at (slots : list L2Slot) (i : Z) : option L2Slot :=
  if 0 <=? i then slots !! Z.to_nat i else None.

Definition refblock_dirty {E} (w : WriteState) (idx : Z) : outcome E bool :=
  if cfg_max_refblocks (config w) <=? idx then Ok false
  else or_panic (bit_get (refblock_dirty_words w) idx).

(** [(from..limit).find(..)] over an index predicate that may panic; [n] is the
    number of indices left. *)
Fixpoint find_idx {E} (p : Z -> outcome E bool) (n : nat) (i : Z) : outcome E (option Z) :=
  match n with
  | O => Ok None
  | S n' => let? b := p i in if b then Ok (Some i) else find_idx p n' (i + 1)
  end.

Definition find_slot {E} (w : WriteState) (l1_idx : Z) : outcome E (option Z) :=
  find_idx (fun i => let? s := or_panic (slot_at (l2_slots w) i) in
                     Ok (slot_valid s && (slot_l1_idx s =? l1_idx)))
    (Z.to_nat (cfg_l2_slots (config w))) 0.

Fixpoint pick_victim_from {E} (slots : list L2Slot) (n : nat) (i best best_access : Z)
  : outcome E Z :=
  match n with
  | O => Ok best
  | S n' =>
      let? s := or_panic (slot_at slots i) in
      if negb (slot_valid s) then Ok i
      else if slot_last_access s <? best_access
           then pick_victim_from slots n' (i + 1) i (slot_last_access s)
           else pick_victim_from slots n' (i + 1) best best_access
  end.

Definition pick_victim {E} (w : WriteState) : outcome E Z :=
  pick_victim_from (l2_slots w) (Z.to_nat (cfg_l2_slots (config w))) 0 0 u64_max.

(** [self.l2_slots[idx] = s]. *)
Definition put_slot {E} (w : WriteState) (idx : Z) (s : L2Slot) : outcome E WriteState :=
  let? _ := or_panic (slot_at (l2_slots w) idx) in
  Ok (set_l2_slots (<[Z.to_nat idx := s]> (l2_slots w)) w).

Definition touch {E} (w : WriteState) (idx : Z) : outcome E WriteState :=
  let c := wadd (access_counter w) 1 in
  let? s := or_panic (slot_at (l2_slots w) idx) in
  put_slot (set_access_counter c w) idx
    (mkL2Slot (slot_valid s) (slot_dirty s) (slot_l1_idx s) (slot_host_offset s) c).

Definition pending_zero_set {E} (w : WriteState) (idx : Z) : outcome E WriteState :=
  let? ws := or_panic (bit_set (slot_pending_zero w) idx) in
  Ok (set_slot_pending_zero ws w).

Definition pending_zero_get {E} (w : WriteState) (idx : Z) : outcome E bool :=
  or_panic (bit_get (slot_pending_zero w) idx).

Definition pending_zero_clear_all (w : WriteState) : WriteState :=
  set_slot_pending_zero (replicate (Z.to_nat (MAX_L2_SLOTS / 64)) 0) w.

Definition refblock_dirty_set {E} (w : WriteState) (idx : Z) : outcome E WriteState :=
  let? ws := or_panic (bit_set (refblock_dirty_words w) idx) in
  Ok (set_refblock_dirty_words ws w).

Definition refblock_dirty_clear {E} (w : WriteState) (idx : Z) : outcome E WriteState :=
  let? ws := or_panic (bit_clear (refblock_dirty_words w) idx) in
  Ok (set_refblock_dirty_words ws w).

Definition next_dirty_slot {E} (w : WriteState) (from : Z) : outcome E (option Z) :=
  find_idx (fun i => let? s := or_panic (slot_at (l2_slots w) i) in
                     Ok (slot_valid s && slot_dirty s))
    (Z.to_nat (cfg_l2_slots (config w) - from)) from.

Definition next_dirty_refblock {E} (w : WriteState) (from : Z) : outcome E (option Z) :=
  find_idx (refblock_dirty w) (Z.to_nat (cfg_max_refblocks (config w) - from)) from.

(** ** Construction *)

Definition new_state_impl (hdr : QcowHeader) (cfg : StagingConfig) (cow : bool)
  : outcome Gate WriteState :=
  let? _ := check_envelope_with hdr cow in
  if (cfg_l2_slots cfg =? 0) || (MAX_L2_SLOTS <? cfg_l2_slots cfg)
     || (cfg_max_refblocks cfg =? 0) || (MAX_REFBLOCKS <? cfg_max_refblocks cfg)
  then Err GInvalidStagingConfig
  else
    let? geo := Geometry_from_header hdr in
    Ok {| geometry := geo;
          config := cfg;
          l2_slots := replicate (Z.to_nat MAX_L2_SLOTS) L2Slot_EMPTY;
          refblock_dirty_words := replicate (Z.to_nat (MAX_REFBLOCKS / 64)) 0;
          access_counter := 0;
          alloc_cursor := AllocCursor_default;
          has_backing := negb (backing_file_offset hdr =? 0);
          cow_enabled := cow;
          l1_dirty := false;
          steps_since_barrier := 0;
          slot_pending_zero := replicate (Z.to_nat (MAX_L2_SLOTS / 64)) 0;
          pending := PIdle |}.

Definition new_state (hdr : QcowHeader) (cfg : StagingConfig) : outcome Gate WriteState :=
  new_state_impl hdr cfg false.

Definition new_state_cow (hdr : QcowHeader) (cfg : StagingConfig) : outcome Gate WriteState :=
  new_state_impl hdr cfg true.
