(* ===== verification/WritePlan.v ===== *)
(** The qcow2 write planner ([src/src/crates/qcow2-write/src/lib.rs]): step
    constructors, refcount access, classification of L1 and L2 entries, the two
    emission loops [drive_write] and [drive_flush], and the entry points
    [plan_write] and [plan_flush].

    The [&mut] parameters of the planner ([WriteState], [StagedRegions], the
    progress record and the [StepBuf]) are the state [PS] of the monad.  Each arm
    of [drive_write]'s stage machine is a definition of its own; [drive_stage]
    is the [match], [cluster_loop] the inner loop and [write_loop] the outer one. *)

From stdpp Require Import base numbers list sets.
From Stdlib Require Import ZArith Lia.
From S2P Require Import Prelude Bytes Refcount Qcow2 WriteTypes.

(** ** Planner memory *)

Record PS (P : Type) : Type := mkPS {
  ws : WriteState;
  st : StagedRegions;
  pr : P;
  sb : StepBuf
}.
Arguments mkPS {P}.
Arguments ws {P}.
Arguments st {P}.
Arguments pr {P}.
Arguments sb {P}.

Abbreviation PM P := (SM (PS P) WriteError).

Definition set_ws {P} (w : WriteState) (s : PS P) : PS P := mkPS w (st s) (pr s) (sb s).
Definition set_st {P} (x : StagedRegions) (s : PS P) : PS P := mkPS (ws s) x (pr s) (sb s).
Definition set_pr {P} (x : P) (s : PS P) : PS P := mkPS (ws s) (st s) x (sb s).
Definition set_sb {P} (x : StepBuf) (s : PS P) : PS P := mkPS (ws s) (st s) (pr s) x.

(** Run a [WriteState] update that may panic. *)
Definition upd_ws {P} (f : WriteState -> outcome WriteError WriteState) : PM P unit :=
  let! s := sget in let! w := slift (f (ws s)) in sput (set_ws w s).

(** ** Pushing steps *)

Definition is_barrier (k : StepKind) : bool := match k with Barrier _ => true | _ => false end.

Definition push_step {P} (step : Step) : PM P unit :=
  let! s := sget in
  match sb_push (sb s) step with
  | None => sfail WeBufFull
  | Some b =>
      let n := if is_barrier (kind step) then 0 else wadd (steps_since_barrier (ws s)) 1 in
      sput (mkPS (set_steps_since_barrier n (ws s)) (st s) (pr s) b)
  end.

Definition barrier_step (dev : TargetDevice) : Step :=
  mkStep (Barrier BDurability) dev RBounce 0 0 0 0.

Definition barrier_if_needed {P} : PM P unit :=
  let! s := sget in
  if steps_since_barrier (ws s) =? 0 then sret tt
  else push_step (barrier_step (cfg_device (config (ws s)))).

Definition load_step (slot l2_host cs : Z) (dev : TargetDevice) : Step :=
  mkStep LoadCluster dev (RL2Slot slot) 0 l2_host cs 0.
Definition writeback_step (slot l2_host cs : Z) (dev : TargetDevice) : Step :=
  mkStep WritebackCluster dev (RL2Slot slot) 0 l2_host cs 0.
Definition zero_region_step (slot cs : Z) (dev : TargetDevice) : Step :=
  mkStep ZeroRegion dev (RL2Slot slot) 0 0 cs 0.
Definition patch_step (r : RegionId) (off v : Z) (dev : TargetDevice) : Step :=
  mkStep PatchEntryU64 dev r off 0 0 v.
Definition zero_range_step (off n : Z) (dev : TargetDevice) : Step :=
  mkStep ZeroRange dev RBounce 0 off n 0.
Definition read_cluster_to_bounce_step (off cs : Z) (dev : TargetDevice) : Step :=
  mkStep ReadCluster dev RBounce 0 off cs 0.
Definition write_bounce_cluster_step (off cs : Z) (dev : TargetDevice) : Step :=
  mkStep WriteRange dev RBounce 0 off cs 0.
Definition body_step (data : DataSource) (consumed off n : Z) (dev : TargetDevice) : Step :=
  match data with
  | CallerData offset => mkStep WriteRange dev RCallerData (wadd offset consumed) off n 0
  | Fill byte => mkStep FillRange dev RBounce 0 off n byte
  end.

(** ** Staged refcounts *)

Definition validate_staged (w : WriteState) (staged : StagedRegions) (steps : StepBuf)
  : outcome WriteError unit :=
  let geo := geometry w in
  let cs := cluster_size geo in
  if sb_capacity steps =? 0 then Err WeStagedRegionsMismatch
  else if blen (st_l1 staged) <? wmul (l1_size geo) 8 then Err WeStagedRegionsMismatch
  else if blen (st_l2_window staged) <? wmul (cfg_l2_slots (config w)) cs
  then Err WeStagedRegionsMismatch
  else if negb (is_multiple_of (blen (st_refblocks staged)) cs) then Err WeStagedRegionsMismatch
  else
    let? rb_count := udiv (blen (st_refblocks staged)) cs in
    if cfg_max_refblocks (config w) <? rb_count then Err WeStagedRegionsMismatch
    else if blen (st_refcount_table staged) <? wmul rb_count 8 then Err WeStagedRegionsMismatch
    else Ok tt.

(** The staged refblock covering a host offset: its index, its bytes and the
    entry within it; [RefcountCoverage] when it is not staged. *)
Definition locate_refcount (geo : Geometry) (refblocks : bytes) (host : Z)
  : outcome WriteError (Z * Z * bytes * Z) :=
  let cs := cluster_size geo in
  let? cluster_index := udiv host cs in
  let? rb_idx := udiv cluster_index (entries_per_refblock geo) in
  let? rb_count := udiv (blen refblocks) cs in
  if rb_count <=? rb_idx then Err WeRefcountCoverage
  else
    let start := wmul rb_idx cs in
    let? block := or_panic (slice refblocks start (wadd start cs)) in
    let? local := urem cluster_index (entries_per_refblock geo) in
    Ok (rb_idx, start, block, local).

Definition read_staged_refcount (w : WriteState) (staged : StagedRegions) (host : Z)
  : outcome WriteError Z :=
  let? (_, _, block, local) := locate_refcount (geometry w) (st_refblocks staged) host in
  map_err (fun _ => WeStagedRegionsMismatch)
    (read_refcount_in_block block local (refcount_bits (geometry w))).

Definition map_alloc_err (e : SnapshotError) : WriteError :=
  match e with RefcountExhausted => WeRefcountExhausted | _ => WeStagedRegionsMismatch end.

Definition alloc_cluster {P} : PM P Z :=
  let! s := sget in
  let geo := geometry (ws s) in
  let! rb_count := slift (udiv (blen (st_refblocks (st s))) (cluster_size geo)) in
  let '(r, a) :=
    alloc_cluster_in_refblocks (cluster_size geo) (refcount_bits geo) rb_count 0
      (mkAllocSt (st_refblocks (st s)) (alloc_cursor (ws s))) in
  do! sput (mkPS (set_alloc_cursor (as_cursor a) (ws s))
              (mkStaged (st_l1 (st s)) (st_l2_window (st s)) (st_refcount_table (st s))
                 (as_blocks a)) (pr s) (sb s)) in
  let! host := slift (map_err map_alloc_err r) in
  let! rb_idx := slift (let? ci := udiv host (cluster_size geo) in
                        udiv ci (entries_per_refblock geo)) in
  do! upd_ws (fun w => refblock_dirty_set w rb_idx) in
  sret host.

Definition dec_refcount {P} (host : Z) : PM P unit :=
  let! s := sget in
  let geo := geometry (ws s) in
  let! (rb_idx, start, block, local) :=
    slift (locate_refcount geo (st_refblocks (st s)) host) in
  let! cur := slift (map_err (fun _ => WeStagedRegionsMismatch)
                       (read_refcount_in_block block local (refcount_bits geo))) in
  let! new := slift (map_err (fun _ => WeRefcountInconsistent)
                       (check_refcount_after_addend cur (-1) (refcount_bits geo))) in
  let! block' := slift (map_err (fun _ => WeStagedRegionsMismatch)
                          (set_refcount_in_block block local (refcount_bits geo) new)) in
  let! rbs := slift (or_panic (splice (st_refblocks (st s)) start block')) in
  do! sput (set_st (mkStaged (st_l1 (st s)) (st_l2_window (st s)) (st_refcount_table (st s)) rbs) s) in
  upd_ws (fun w => refblock_dirty_set w rb_idx).

(** ** Classification *)

Inductive Classified : Type :=
| CUnallocated
| COwned (host : Z)
| COwnedZero (host : Z)
| CCowData (old : Z) (zero_preimage : bool).

Definition L2_KNOWN_BITS : Z := Z.lor (Z.lor OFLAG_COPIED L2_OFFSET_MASK) QCOW_OFLAG_ZERO.

Definition classify_l2_entry (w : WriteState) (staged : StagedRegions) (entry : Z)
  : outcome WriteError Classified :=
  if entry =? 0 then Ok CUnallocated
  else if nonzero (Z.land entry OFLAG_COMPRESSED) then Err WeCompressedCluster
  else if nonzero (Z.land entry (not64 L2_KNOWN_BITS)) then Err WeUnknownL2Entry
  else
    let host := Z.land entry L2_OFFSET_MASK in
    let cs := cluster_size (geometry w) in
    if nonzero (Z.land entry QCOW_OFLAG_ZERO) then
      if host =? 0 then Ok CUnallocated
      else if negb (is_multiple_of host cs) then Err WeUnknownL2Entry
      else
        let? rc := read_staged_refcount w staged host in
        if rc =? 0 then Err WeRefcountInconsistent
        else if 1 <? rc then
          if cow_enabled w then Ok (CCowData host true) else Err WeSnapshotShared
        else Ok (COwnedZero host)
    else if (host =? 0) || negb (is_multiple_of host cs) then Err WeUnknownL2Entry
    else if Z.land entry OFLAG_COPIED =? 0 then
      if cow_enabled w then Ok (CCowData host false) else Err WeSnapshotShared
    else
      let? rc := read_staged_refcount w staged host in
      if rc =? 0 then Err WeRefcountInconsistent
      else if 1 <? rc then
        if cow_enabled w then Ok (CCowData host false) else Err WeSnapshotShared
      else Ok (COwned host).

Inductive L1Verdict : Type := L1Owned (host : Z) | L1CowL2 (host : Z).

Definition validate_l1_entry (w : WriteState) (staged : StagedRegions) (raw : Z)
  : outcome WriteError L1Verdict :=
  if nonzero (Z.land raw (not64 (Z.lor OFLAG_COPIED L1_OFFSET_MASK))) then Err WeUnknownL1Entry
  else
    let host := Z.land raw L1_OFFSET_MASK in
    if (host =? 0) || negb (is_multiple_of host (cluster_size (geometry w)))
    then Err WeUnknownL1Entry
    else if Z.land raw OFLAG_COPIED =? 0 then
      if cow_enabled w then Ok (L1CowL2 host) else Err WeSnapshotSharedL2Table
    else
      let? rc := read_staged_refcount w staged host in
      if rc =? 0 then Err WeRefcountInconsistent
      else if 1 <? rc then
        if cow_enabled w then Ok (L1CowL2 host) else Err WeSnapshotSharedL2Table
      else Ok (L1Owned host).

Definition read_staged_l2_entry (w : WriteState) (staged : StagedRegions) (slot l2_idx : Z)
  : outcome WriteError Z :=
  let? pz := pending_zero_get w slot in
  if pz then Ok 0
  else be_u64 (st_l2_window staged) (wadd (wmul slot (cluster_size (geometry w))) (wmul l2_idx 8)).

(** ** The per-cluster stage machine *)

(** The locals of one turn of the outer loop. *)
Record Ctx : Type := mkCtx {
  c_cur : Z; c_l1_idx : Z; c_l2_idx : Z; c_in_off : Z; c_win_len : Z
}.

Inductive Ctrl : Type := Stay | BreakCluster.

Abbreviation WM := (PM WriteProgress).

Definition upd_pr (f : WriteProgress -> WriteProgress) : WM unit :=
  smod (fun s => set_pr (f (pr s)) s).

Definition with_stage (x : ClusterStage) (p : WriteProgress) : WriteProgress :=
  mkWriteProgress (wp_voff p) (wp_len p) (wp_data p) (wp_consumed p) x (wp_slot p)
    (wp_l2_host p) (wp_data_host p) (wp_cow_src p) (wp_cow_zero_preimage p).
Definition with_slot (x : Z) (p : WriteProgress) : WriteProgress :=
  mkWriteProgress (wp_voff p) (wp_len p) (wp_data p) (wp_consumed p) (wp_stage p) x
    (wp_l2_host p) (wp_data_host p) (wp_cow_src p) (wp_cow_zero_preimage p).
Definition with_consumed (x : Z) (p : WriteProgress) : WriteProgress :=
  mkWriteProgress (wp_voff p) (wp_len p) (wp_data p) x (wp_stage p) (wp_slot p)
    (wp_l2_host p) (wp_data_host p) (wp_cow_src p) (wp_cow_zero_preimage p).
Definition with_l2_host (x : Z) (p : WriteProgress) : WriteProgress :=
  mkWriteProgress (wp_voff p) (wp_len p) (wp_data p) (wp_consumed p) (wp_stage p) (wp_slot p)
    x (wp_data_host p) (wp_cow_src p) (wp_cow_zero_preimage p).
Definition with_data_host (x : Z) (p : WriteProgress) : WriteProgress :=
  mkWriteProgress (wp_voff p) (wp_len p) (wp_data p) (wp_consumed p) (wp_stage p) (wp_slot p)
    (wp_l2_host p) x (wp_cow_src p) (wp_cow_zero_preimage p).
Definition with_cow (src : Z) (z : bool) (p : WriteProgress) : WriteProgress :=
  mkWriteProgress (wp_voff p) (wp_len p) (wp_data p) (wp_consumed p) (wp_stage p) (wp_slot p)
    (wp_l2_host p) (wp_data_host p) src z.

Definition goto (x : ClusterStage) : WM Ctrl := do! upd_pr (with_stage x) in sret Stay.

(** Close the cluster: advance past its bytes and leave the inner loop. *)
Definition finish_cluster (c : Ctx) : WM Ctrl :=
  do! upd_pr (fun p => with_stage Enter (with_consumed (wadd (wp_consumed p) (c_win_len c)) p)) in
  sret BreakCluster.

Definition dev_of (s : PS WriteProgress) : TargetDevice := cfg_device (config (ws s)).
Definition cs_of (s : PS WriteProgress) : Z := cluster_size (geometry (ws s)).

Definition stage_enter (c : Ctx) : WM Ctrl :=
  let! s := sget in
  let! hit := slift (find_slot (ws s) (c_l1_idx c)) in
  match hit with
  | Some i =>
      do! upd_pr (with_slot (as_u16 i)) in
      do! upd_ws (fun w => touch w i) in
      goto SlotReady
  | None =>
      let! victim := slift (pick_victim (ws s)) in
      do! upd_pr (with_slot (as_u16 victim)) in
      let! sl := slift (or_panic (slot_at (l2_slots (ws s)) victim)) in
      do! (if slot_valid sl && slot_dirty sl then
             do! push_step (writeback_step (as_u16 victim) (slot_host_offset sl) (cs_of s) (dev_of s)) in
             upd_ws (fun w => put_slot w victim
               (mkL2Slot false false (slot_l1_idx sl) (slot_host_offset sl) (slot_last_access sl)))
           else sret tt) in
      goto SlotFree
  end.

(** Re-point the slot serving the current cluster, keeping its LRU stamp. *)
Definition assign_slot (c : Ctx) (dirty : bool) (host : Z) : WM unit :=
  let! s := sget in
  upd_ws (fun w =>
    let? sl := or_panic (slot_at (l2_slots w) (wp_slot (pr s))) in
    put_slot w (wp_slot (pr s)) (mkL2Slot true dirty (c_l1_idx c) host (slot_last_access sl))).

Definition stage_slot_free (c : Ctx) : WM Ctrl :=
  let! s := sget in
  let! raw := slift (be_u64 (st_l1 (st s)) (wmul (c_l1_idx c) 8)) in
  if raw =? 0 then
    let! h := alloc_cluster in
    do! upd_pr (with_l2_host h) in
    goto FreshAlloc
  else
    let! v := slift (validate_l1_entry (ws s) (st s) raw) in
    match v with
    | L1Owned l2_host =>
        do! push_step (load_step (wp_slot (pr s)) l2_host (cs_of s) (dev_of s)) in
        do! assign_slot c false l2_host in
        do! upd_pr (with_stage Enter) in
        sfail WeBufFull
    | L1CowL2 old_l2_host =>
        let! h := alloc_cluster in
        do! upd_pr (fun p => with_cow old_l2_host (wp_cow_zero_preimage p) (with_l2_host h p)) in
        goto CowL2Load
    end.

Definition stage_fresh_alloc (c : Ctx) : WM Ctrl :=
  let! s := sget in
  do! push_step (zero_region_step (wp_slot (pr s)) (cs_of s) (dev_of s)) in
  do! assign_slot c true (wp_l2_host (pr s)) in
  do! upd_ws (fun w => pending_zero_set w (wp_slot (pr s))) in
  goto FreshZeroed.

(** The L1 patch that makes the fresh or copied L2 table reachable. *)
Definition push_l1_patch (c : Ctx) : WM unit :=
  let! s := sget in
  do! push_step (patch_step RL1 (wmul (c_l1_idx c) 8)
                   (Z.lor (wp_l2_host (pr s)) OFLAG_COPIED) (dev_of s)) in
  upd_ws (fun w => Ok (set_l1_dirty true w)).

Definition stage_fresh_zeroed (c : Ctx) : WM Ctrl :=
  do! push_l1_patch c in
  let! s := sget in
  do! upd_ws (fun w => touch w (wp_slot (pr s))) in
  goto SlotReady.

Definition stage_slot_ready (c : Ctx) : WM Ctrl :=
  let! s := sget in
  let! entry := slift (read_staged_l2_entry (ws s) (st s) (wp_slot (pr s)) (c_l2_idx c)) in
  let! v := slift (classify_l2_entry (ws s) (st s) entry) in
  match v with
  | COwned host =>
      do! push_step (body_step (wp_data (pr s)) (wp_consumed (pr s)) (wadd host (c_in_off c))
                       (c_win_len c) (dev_of s)) in
      finish_cluster c
  | COwnedZero host =>
      do! upd_pr (with_data_host host) in
      goto DataAlloc
  | CCowData old zero_preimage =>
      let! h := alloc_cluster in
      do! upd_pr (fun p => with_cow old zero_preimage (with_data_host h p)) in
      goto CowDataEnter
  | CUnallocated =>
      let eff_end := Z.min (cs_of s)
        (wsub (virtual_size (geometry (ws s))) (wsub (c_cur c) (c_in_off c))) in
      if has_backing (ws s) &&
         (negb (c_in_off c =? 0) || (wadd (c_in_off c) (c_win_len c) <? eff_end))
      then sfail WeNeedsBackingFill
      else
        let! h := alloc_cluster in
        do! upd_pr (with_data_host h) in
        goto DataAlloc
  end.

Definition stage_data_alloc (c : Ctx) : WM Ctrl :=
  let! s := sget in
  do! (if 0 <? c_in_off c
       then push_step (zero_range_step (wp_data_host (pr s)) (c_in_off c) (dev_of s))
       else sret tt) in
  goto HeadDone.

(** The body write of the caller's bytes into the cluster at [wp_data_host]. *)
Definition push_body (c : Ctx) : WM unit :=
  let! s := sget in
  push_step (body_step (wp_data (pr s)) (wp_consumed (pr s))
               (wadd (wp_data_host (pr s)) (c_in_off c)) (c_win_len c) (dev_of s)).

Definition stage_head_done (c : Ctx) : WM Ctrl := do! push_body c in goto BodyDone.

Definition stage_body_done (c : Ctx) : WM Ctrl :=
  let! s := sget in
  let tail_off := wadd (c_in_off c) (c_win_len c) in
  do! (if tail_off <? cs_of s
       then push_step (zero_range_step (wadd (wp_data_host (pr s)) tail_off)
                         (wsub (cs_of s) tail_off) (dev_of s))
       else sret tt) in
  goto TailDone.

(** The L2 patch that makes the data cluster reachable. *)
Definition push_l2_patch (c : Ctx) : WM unit :=
  let! s := sget in
  do! push_step (patch_step (RL2Slot (wp_slot (pr s))) (wmul (c_l2_idx c) 8)
                   (Z.lor (wp_data_host (pr s)) OFLAG_COPIED) (dev_of s)) in
  upd_ws (fun w =>
    let? sl := or_panic (slot_at (l2_slots w) (wp_slot (pr s))) in
    put_slot w (wp_slot (pr s))
      (mkL2Slot (slot_valid sl) true (slot_l1_idx sl) (slot_host_offset sl) (slot_last_access sl))).

Definition stage_tail_done (c : Ctx) : WM Ctrl := do! push_l2_patch c in finish_cluster c.

Definition stage_cow_l2_load (c : Ctx) : WM Ctrl :=
  let! s := sget in
  do! push_step (load_step (wp_slot (pr s)) (wp_cow_src (pr s)) (cs_of s) (dev_of s)) in
  do! assign_slot c true (wp_l2_host (pr s)) in
  goto CowL2Repoint.

Definition stage_cow_l2_repoint (c : Ctx) : WM Ctrl := do! push_l1_patch c in goto CowL2Decrement.

Definition stage_cow_l2_decrement (c : Ctx) : WM Ctrl :=
  let! s := sget in
  do! dec_refcount (wp_cow_src (pr s)) in
  do! upd_pr (with_stage Enter) in
  sfail WeBufFull.

Definition stage_cow_data_enter (c : Ctx) : WM Ctrl :=
  let! s := sget in
  if (c_in_off c =? 0) && (c_win_len c =? cs_of s) then goto CowDataBody
  else if wp_cow_zero_preimage (pr s) then
    do! push_step (zero_range_step (wp_data_host (pr s)) (cs_of s) (dev_of s)) in
    goto CowDataBody
  else
    do! push_step (read_cluster_to_bounce_step (wp_cow_src (pr s)) (cs_of s) (dev_of s)) in
    goto CowDataCopy.

Definition stage_cow_data_copy (c : Ctx) : WM Ctrl :=
  let! s := sget in
  do! push_step (write_bounce_cluster_step (wp_data_host (pr s)) (cs_of s) (dev_of s)) in
  goto CowDataBody.

Definition stage_cow_data_body (c : Ctx) : WM Ctrl := do! push_body c in goto CowDataPatch.

Definition stage_cow_data_patch (c : Ctx) : WM Ctrl := do! push_l2_patch c in goto CowDataDecrement.

Definition stage_cow_data_decrement (c : Ctx) : WM Ctrl :=
  let! s := sget in
  do! dec_refcount (wp_cow_src (pr s)) in
  finish_cluster c.

Definition drive_stage (c : Ctx) : WM Ctrl :=
  let! s := sget in
  match wp_stage (pr s) with
  | Enter => stage_enter c
  | SlotFree => stage_slot_free c
  | FreshAlloc => stage_fresh_alloc c
  | FreshZeroed => stage_fresh_zeroed c
  | SlotReady => stage_slot_ready c
  | DataAlloc => stage_data_alloc c
  | HeadDone => stage_head_done c
  | BodyDone => stage_body_done c
  | TailDone => stage_tail_done c
  | CowL2Load => stage_cow_l2_load c
  | CowL2Repoint => stage_cow_l2_repoint c
  | CowL2Decrement => stage_cow_l2_decrement c
  | CowDataEnter => stage_cow_data_enter c
  | CowDataCopy => stage_cow_data_copy c
  | CowDataBody => stage_cow_data_body c
  | CowDataPatch => stage_cow_data_patch c
  | CowDataDecrement => stage_cow_data_decrement c
  end.

(** The inner ['cluster: loop].  No cluster takes more than nine stages. *)
Fixpoint cluster_loop (fuel : nat) (c : Ctx) : WM unit :=
  match fuel with
  | O => slift OutOfFuel
  | S fuel' =>
      let! r := drive_stage c in
      match r with Stay => cluster_loop fuel' c | BreakCluster => sret tt end
  end.

Definition CLUSTER_FUEL : nat := 16.

(** The locals computed at the head of the outer loop. *)
Definition make_ctx (geo : Geometry) (p : WriteProgress) : outcome WriteError Ctx :=
  let cs := cluster_size geo in
  let cur := wadd (wp_voff p) (wp_consumed p) in
  let? q := udiv cur (l2_coverage geo) in
  let? ci := udiv cur cs in
  let? l2_idx := urem ci (entries_per_l2 geo) in
  let? in_off := urem cur cs in
  Ok (mkCtx cur (as_u32 q) l2_idx in_off
        (Z.min (wsub cs in_off) (wsub (wp_len p) (wp_consumed p)))).

(** The outer [while prog.consumed < prog.len]; every turn consumes at least one
    byte of the request. *)
Fixpoint write_loop (fuel : nat) : WM unit :=
  match fuel with
  | O => slift OutOfFuel
  | S fuel' =>
      let! s := sget in
      if wp_consumed (pr s) <? wp_len (pr s) then
        let! c := slift (make_ctx (geometry (ws s)) (pr s)) in
        do! cluster_loop CLUSTER_FUEL c in
        write_loop fuel'
      else sret tt
  end.

(** Fuel for a request: one turn per cluster it can touch, and one to stop. *)
Definition write_fuel (geo : Geometry) (p : WriteProgress) : nat :=
  S (S (S (Z.to_nat ((wp_len p - wp_consumed p) / cluster_size geo)))).

Definition drive_write : WM unit :=
  let! s := sget in write_loop (write_fuel (geometry (ws s)) (pr s)).

(** ** The flush *)

Abbreviation FM := (PM FlushProgress).

Definition fgoto (x : FlushStage) (idx : Z) : FM bool :=
  do! smod (set_pr (mkFlushProgress x idx)) in sret true.

Definition l1_write_step (geo : Geometry) (dev : TargetDevice) : Step :=
  mkStep WriteRange dev RL1 0 (l1_table_offset geo) (wmul (l1_size geo) 8) 0.
Definition refblock_write_step (idx host cs : Z) (dev : TargetDevice) : Step :=
  mkStep WriteRange dev RRefblocks (wmul idx cs) host cs 0.

Definition flush_l2_writebacks : FM bool :=
  let! s := sget in
  let! nxt := slift (next_dirty_slot (ws s) (fp_next_idx (pr s))) in
  match nxt with
  | Some idx =>
      let! sl := slift (or_panic (slot_at (l2_slots (ws s)) idx)) in
      do! push_step (writeback_step (as_u16 idx) (slot_host_offset sl)
                       (cluster_size (geometry (ws s))) (cfg_device (config (ws s)))) in
      do! upd_ws (fun w => put_slot w idx
            (mkL2Slot (slot_valid sl) false (slot_l1_idx sl) (slot_host_offset sl)
               (slot_last_access sl))) in
      fgoto L2Writebacks (idx + 1)
  | None => fgoto L1Barrier (fp_next_idx (pr s))
  end.

Definition flush_refblock_host (geo : Geometry) (staged : StagedRegions) (idx : Z)
  : outcome WriteError Z :=
  let cs := cluster_size geo in
  let? rb_count := udiv (blen (st_refblocks staged)) cs in
  if rb_count <=? idx then Err WeStagedRegionsMismatch
  else
    let? rt_entry := be_u64 (st_refcount_table staged) (wmul idx 8) in
    let host := Z.land rt_entry L1_OFFSET_MASK in
    if (host =? 0) || negb (is_multiple_of host cs) || nonzero (Z.land rt_entry 0x1ff)
    then Err WeStagedRegionsMismatch
    else Ok host.

Definition flush_rb_writebacks : FM bool :=
  let! s := sget in
  let! nxt := slift (next_dirty_refblock (ws s) (fp_next_idx (pr s))) in
  match nxt with
  | Some idx =>
      let! host := slift (flush_refblock_host (geometry (ws s)) (st s) idx) in
      do! push_step (refblock_write_step idx host (cluster_size (geometry (ws s)))
                       (cfg_device (config (ws s)))) in
      do! upd_ws (fun w => refblock_dirty_clear w idx) in
      fgoto RbWritebacks (idx + 1)
  | None => fgoto EndBarrier (fp_next_idx (pr s))
  end.

(** One turn of [drive_flush]'s loop; [false] when it returns [Ok(())]. *)
Definition flush_stage : FM bool :=
  let! s := sget in
  match fp_stage (pr s) with
  | PreBarrier => do! barrier_if_needed in fgoto L2Writebacks 0
  | L2Writebacks => flush_l2_writebacks
  | L1Barrier =>
      if l1_dirty (ws s) then
        do! barrier_if_needed in fgoto L1Write (fp_next_idx (pr s))
      else fgoto RbBarrier (fp_next_idx (pr s))
  | L1Write =>
      do! push_step (l1_write_step (geometry (ws s)) (cfg_device (config (ws s)))) in
      do! upd_ws (fun w => Ok (set_l1_dirty false w)) in
      fgoto RbBarrier (fp_next_idx (pr s))
  | RbBarrier =>
      let! nxt := slift (next_dirty_refblock (ws s) 0) in
      match nxt with
      | Some _ => do! barrier_if_needed in fgoto RbWritebacks 0
      | None => fgoto EndBarrier (fp_next_idx (pr s))
      end
  | RbWritebacks => flush_rb_writebacks
  | EndBarrier => do! barrier_if_needed in sret false
  end.

Fixpoint flush_loop (fuel : nat) : FM unit :=
  match fuel with
  | O => slift OutOfFuel
  | S fuel' => let! more := flush_stage in if more then flush_loop fuel' else sret tt
  end.

(** Fuel: every L2 slot and refblock once, and the fixed stages. *)
Definition FLUSH_FUEL : nat := 2400.

Definition drive_flush : FM unit := flush_loop FLUSH_FUEL.

(** ** Entry points *)

(** Run a drive function from a resume point and keep its final progress. *)
Definition run_drive {P} (m : PM P unit) (p : P) : PM unit (outcome WriteError unit * P) :=
  fun s =>
    let '(r, s') := m (mkPS (ws s) (st s) p (sb s)) in
    (Ok (r, pr s'), mkPS (ws s') (st s') tt (sb s')).

(** The common tail: [Ok] returns the window, [BufFull] records the resume
    point, any other error abandons the request. *)
Definition finish_plan {P} (mk : P -> Pending) (start_emitted : Z)
    (rp : outcome WriteError unit * P) : PM unit Z :=
  match rp with
  | (Ok _, _) => let! s := sget in sret (sb_emitted (sb s) - start_emitted)
  | (Err WeBufFull, p) =>
      do! upd_ws (fun w => Ok (set_pending (mk p) w)) in sfail WeBufFull
  | (Err e, _) => sfail e
  | (Panic, _) => slift Panic
  | (OutOfFuel, _) => slift OutOfFuel
  end.

(** Request admission: [Ok None] is the empty request. *)
Definition admit_write (geo : Geometry) (voff n : Z) (data : DataSource)
  : outcome WriteError (option WriteProgress) :=
  let? e := ok_or (checked_add voff n) WeOutOfBounds in
  if virtual_size geo <? e then Err WeOutOfBounds
  else
    let? _ := (match data with
               | CallerData offset => ok_or (checked_add offset n) WeOutOfBounds
               | Fill _ => Ok 0
               end) in
    if n =? 0 then Ok None
    else
      let? q := udiv (e - 1) (l2_coverage geo) in
      if l1_size geo <=? q then Err WeOutOfBounds
      else Ok (Some (mkWriteProgress voff n data 0 Enter 0 0 0 0 false)).

Definition plan_write (voff n : Z) (data : DataSource) : PM unit Z :=
  let! s := sget in
  let start_emitted := sb_emitted (sb s) in
  do! (match pending (ws s) with
       | PFlush _ => sfail WeResumeMismatch
       | PWrite p =>
           if negb (wp_voff p =? voff) || negb (wp_len p =? n) || negb (bool_decide (wp_data p = data))
           then sfail WeResumeMismatch else sret tt
       | PIdle => sret tt
       end) in
  do! slift (validate_staged (ws s) (st s) (sb s)) in
  let! prog := slift (match pending (ws s) with
                      | PWrite p => Ok (Some p)
                      | _ => admit_write (geometry (ws s)) voff n data
                      end) in
  match prog with
  | None => sret 0
  | Some p =>
      do! upd_ws (fun w => Ok (pending_zero_clear_all (set_pending PIdle w))) in
      let! rp := run_drive drive_write p in
      finish_plan PWrite start_emitted rp
  end.

Definition plan_flush : PM unit Z :=
  let! s := sget in
  let start_emitted := sb_emitted (sb s) in
  let! p := (match pending (ws s) with
             | PWrite _ => sfail WeResumeMismatch
             | PFlush p => sret p
             | PIdle => sret (mkFlushProgress PreBarrier 0)
             end) in
  do! slift (validate_staged (ws s) (st s) (sb s)) in
  do! upd_ws (fun w => Ok (pending_zero_clear_all (set_pending PIdle w))) in
  let! rp := run_drive drive_flush p in
  finish_plan PFlush start_emitted rp.
