(* ===== verification/WriteInv.v ===== *)
(** The invariant of the write planner.

    A planning session is a sequence of [plan_write] and [plan_flush] calls on
    one [WriteState]; its trace is the concatenation of the steps they emitted.
    [stream_ok] is the crash-ordering contract of the crate header as a
    predicate on traces: every emitted step is checked against the steps before
    it by [step_ok].  [base] ties the planner's dirty bits, barrier counter and
    L2 window to the trace; [prog_ok] and [stage_inv] say what holds at each
    resume point.  The lemmas here cover the operations the stages share. *)

From stdpp Require Import base numbers list sets.
From Stdlib Require Import ZArith Lia.
From S2P Require Import Prelude Bytes Refcount Qcow2 WriteTypes WritePlan.

(** ** Trace monitors *)

Definition is_writeback (i : Z) (x : Step) : bool :=
  match kind x, region x with
  | WritebackCluster, RL2Slot j => i =? j
  | _, _ => false
  end.

(** The step puts content into slot [i] that the disk does not have. *)
Definition dirties_slot (i : Z) (x : Step) : bool :=
  match kind x, region x with
  | PatchEntryU64, RL2Slot j | ZeroRegion, RL2Slot j => i =? j
  | _, _ => false
  end.

Definition is_l1_write (x : Step) : bool :=
  match kind x, region x with WriteRange, RL1 => true | _, _ => false end.
Definition is_l1_patch (x : Step) : bool :=
  match kind x, region x with PatchEntryU64, RL1 => true | _, _ => false end.
Definition is_rb_write (x : Step) : bool :=
  match kind x, region x with WriteRange, RRefblocks => true | _, _ => false end.

(** Slot [i] holds updates that no later write-back saved. *)
Definition slot_unsaved (i : Z) (tr : list Step) : bool :=
  foldl (fun b x => if is_writeback i x then false else dirties_slot i x || b) false tr.

(** The staged L1 holds updates that no later L1 write saved. *)
Definition l1_unsaved (tr : list Step) : bool :=
  foldl (fun b x => if is_l1_write x then false else is_l1_patch x || b) false tr.

(** Steps emitted since the last barrier. *)
Definition since_barrier (tr : list Step) : Z :=
  foldl (fun n x => if is_barrier (kind x) then 0 else n + 1) 0 tr.

(** Every step since the last barrier satisfies [p]. *)
Definition only_since (p : Step -> bool) (tr : list Step) : bool :=
  foldl (fun b x => if is_barrier (kind x) then true else p x && b) true tr.

Definition only_refblocks (tr : list Step) : bool := only_since is_rb_write tr.

Lemma slot_unsaved_snoc i tr x :
  slot_unsaved i (tr ++ [x]) =
  if is_writeback i x then false else dirties_slot i x || slot_unsaved i tr.
Proof. unfold slot_unsaved. by rewrite foldl_app. Qed.

Lemma l1_unsaved_snoc tr x :
  l1_unsaved (tr ++ [x]) = if is_l1_write x then false else is_l1_patch x || l1_unsaved tr.
Proof. unfold l1_unsaved. by rewrite foldl_app. Qed.

Lemma since_barrier_snoc tr x :
  since_barrier (tr ++ [x]) = if is_barrier (kind x) then 0 else since_barrier tr + 1.
Proof. unfold since_barrier. by rewrite foldl_app. Qed.

Lemma only_since_snoc p tr x :
  only_since p (tr ++ [x]) = if is_barrier (kind x) then true else p x && only_since p tr.
Proof. unfold only_since. by rewrite foldl_app. Qed.

Lemma since_barrier_bound tr : 0 <= since_barrier tr <= Z.of_nat (length tr).
Proof.
  induction tr as [|x tr IH] using rev_ind; [done|].
  rewrite since_barrier_snoc, length_app. cbn [length]. destruct (is_barrier _); lia.
Qed.

Lemma since_barrier_only p tr : since_barrier tr = 0 -> only_since p tr = true.
Proof.
  destruct tr as [|x tr _] using rev_ind; [done|].
  rewrite since_barrier_snoc, only_since_snoc. pose proof (since_barrier_bound tr).
  destruct (is_barrier _); [done|lia].
Qed.

(** What a window slot holds, read off the trace.  [Some (o, h)]: the L2 table
    of host cluster [h]; [o] is the L1 entry it was published under, [None] when
    the table was loaded and not published since.  [None]: nothing, or a table
    that no L1 entry names yet.  The flag says the last step initialised the
    slot: only then does an L1 patch publish it. *)
Definition table_step (i : Z) (s : option (option Z * Z) * bool) (x : Step)
  : option (option Z * Z) * bool :=
  match kind x, region x with
  | LoadCluster, RL2Slot j => if i =? j then (Some (None, disk_offset x), true) else (s.1, false)
  | ZeroRegion, RL2Slot j => if i =? j then (None, true) else (s.1, false)
  | PatchEntryU64, RL1 =>
      (if s.2 then Some (Some (region_offset x / 8), Z.land (value x) L1_OFFSET_MASK) else s.1, false)
  | _, _ => (s.1, false)
  end.

Definition slot_table (i : Z) (tr : list Step) : option (option Z * Z) :=
  (foldl (table_step i) (None, false) tr).1.
Definition just_initialised (i : Z) (tr : list Step) : bool :=
  (foldl (table_step i) (None, false) tr).2.

(** The steps that change what a slot holds. *)
Definition moves_table (x : Step) : bool :=
  match kind x, region x with
  | LoadCluster, RL2Slot _ | ZeroRegion, RL2Slot _ | PatchEntryU64, RL1 => true
  | _, _ => false
  end.

Lemma slot_table_snoc i tr x :
  slot_table i (tr ++ [x]) = (table_step i (slot_table i tr, just_initialised i tr) x).1.
Proof. unfold slot_table, just_initialised. rewrite foldl_app. cbn. by destruct (foldl _ _ _). Qed.

Lemma slot_table_quiet i tr x : moves_table x = false ->
  slot_table i (tr ++ [x]) = slot_table i tr.
Proof.
  intros Hx. rewrite slot_table_snoc. unfold moves_table in Hx. unfold table_step.
  destruct (kind x), (region x); done.
Qed.

(** Only the slot the last step named is freshly initialised. *)
Lemma just_initialised_snoc i tr x : just_initialised i (tr ++ [x]) =
  match kind x, region x with
  | LoadCluster, RL2Slot j | ZeroRegion, RL2Slot j => i =? j
  | _, _ => false
  end.
Proof.
  unfold just_initialised. rewrite foldl_app. cbn. unfold table_step.
  destruct (kind x), (region x); try done; by destruct (_ =? _).
Qed.

(** ** The crash-ordering contract *)

(** The step writes bytes of the device from the caller's data, the bounce
    buffer, a fill byte or zeros. *)
Definition is_data_write (x : Step) : bool :=
  match kind x, region x with
  | WriteRange, RBounce | WriteRange, RCallerData | ZeroRange, _ | FillRange, _ => true
  | _, _ => false
  end.

(** The step is part of filling the cluster at [h]: a data write inside it, or
    the read of a copy-on-write source into the bounce buffer. *)
Definition fills (h cs : Z) (x : Step) : Prop :=
  (is_data_write x = true /\ h <= disk_offset x /\ disk_offset x + len x <= h + cs) \/
  kind x = ReadCluster.

Definition writes_byte (x : Step) (o : Z) : Prop :=
  is_data_write x = true /\ disk_offset x <= o < disk_offset x + len x.

(** The trace ends in steps that fill the cluster at [h] and between them write
    every byte of [lo, hi). *)
Definition group (h cs lo hi : Z) (tr : list Step) : Prop :=
  exists a g, tr = a ++ g /\ Forall (fills h cs) g /\
    forall o, lo <= o < hi -> Exists (fun x => writes_byte x o) g.

(** The trace ends in the initialisation of a whole L2 window slot. *)
Definition slot_initialised (cs i : Z) (tr : list Step) : Prop :=
  exists a x, tr = a ++ [x] /\ region x = RL2Slot i /\ region_offset x = 0 /\ len x = cs /\
    (kind x = ZeroRegion \/ kind x = LoadCluster).

(** What step [x] is and what the steps before it must have done for it to be
    emitted, on device [dev] with geometry [g].  Every cached table goes back
    whole to the cluster it belongs to, the L1 table and each refblock are
    written whole, and every barrier is a durability barrier. *)
Definition step_ok (g : Geometry) (dev : TargetDevice) (a : list Step) (x : Step) : Prop :=
  let cs := cluster_size g in
  device x = dev /\
  match kind x, region x with
  | PatchEntryU64, RL2Slot _ =>
      exists h, 0 <= h < 2 ^ 56 /\ h mod cs = 0 /\ value x = Z.lor h OFLAG_COPIED /\
        group h cs h (h + cs) a
  | PatchEntryU64, RL1 =>
      exists h idx i, 0 <= h < 2 ^ 56 /\ h mod cs = 0 /\ value x = Z.lor h OFLAG_COPIED /\
        region_offset x = 8 * idx /\ 0 <= idx < l1_size g /\ slot_initialised cs i a
  | LoadCluster, RL2Slot i | ZeroRegion, RL2Slot i =>
      slot_unsaved i a = false /\ region_offset x = 0 /\ len x = cs
  | WritebackCluster, RL2Slot i =>
      region_offset x = 0 /\ len x = cs /\ exists o, slot_table i a = Some (o, disk_offset x)
  | WriteRange, RL1 =>
      region_offset x = 0 /\ disk_offset x = l1_table_offset g /\ len x = 8 * l1_size g /\
      since_barrier a = 0 /\ forall i, slot_unsaved i a = false
  | WriteRange, RRefblocks =>
      (exists idx, 0 <= idx /\ region_offset x = idx * cs /\ len x = cs /\
         0 < disk_offset x /\ disk_offset x mod cs = 0) /\
      only_refblocks a = true /\ (forall i, slot_unsaved i a = false) /\ l1_unsaved a = false
  | Barrier c, _ => c = BDurability
  | _, _ => True
  end.

Definition stream_ok (g : Geometry) (dev : TargetDevice) (tr : list Step) : Prop :=
  forall a x b, tr = a ++ x :: b -> step_ok g dev a x.

Lemma stream_ok_nil g dev : stream_ok g dev [].
Proof. intros [|] x b ?; done. Qed.

Lemma stream_ok_snoc g dev tr x : stream_ok g dev tr -> step_ok g dev tr x ->
  stream_ok g dev (tr ++ [x]).
Proof.
  intros Htr Hx a y b Heq. destruct b as [|z b _] using rev_ind.
  - apply app_inj_tail in Heq as [-> ->]. done.
  - rewrite app_comm_cons, app_assoc in Heq. apply app_inj_tail in Heq as [-> _]. by apply Htr with b.
Qed.

(** ** Planner state *)

Record geo_ok (g : Geometry) : Prop := {
  go_bits : 9 <= cluster_bits g <= 21;
  go_cs : cluster_size g = 2 ^ cluster_bits g;
  go_rb : refcount_bits g = 16;
  go_epl2 : entries_per_l2 g = cluster_size g / 8;
  go_cov : l2_coverage g = cluster_size g * (cluster_size g / 8);
  go_epr : entries_per_refblock g = cluster_size g / 2;
  go_vs : is_u64 (virtual_size g);
  go_l1 : 0 <= l1_size g <= QCOW2_MAX_L1_SIZE_ENTRIES
}.

Record state_ok (w : WriteState) : Prop := {
  so_geo : geo_ok (geometry w);
  so_slots : 1 <= cfg_l2_slots (config w) <= MAX_L2_SLOTS;
  so_max_rb : 1 <= cfg_max_refblocks (config w) <= MAX_REFBLOCKS;
  so_window : length (l2_slots w) = 256%nat;
  so_rb_words : length (refblock_dirty_words w) = 32%nat;
  so_pz_words : length (slot_pending_zero w) = 4%nat;
  so_cur_rb : 0 <= next_refblock (alloc_cursor w);
  so_cur_entry : 0 <= next_entry_in_refblock (alloc_cursor w);
  so_cursor : cursor_start (entries_per_refblock (geometry w)) (alloc_cursor w)
              <= MAX_REFBLOCKS * entries_per_refblock (geometry w)
}.

Definition dirty_slot (w : WriteState) (i : Z) : Prop :=
  i < cfg_l2_slots (config w) /\
  exists sl, slot_at (l2_slots w) i = Some sl /\ slot_valid sl = true /\ slot_dirty sl = true.

(** At most one valid slot caches a given L2 table. *)
Definition slots_unique (w : WriteState) : Prop :=
  forall i j si sj, slot_at (l2_slots w) i = Some si -> slot_at (l2_slots w) j = Some sj ->
    i < cfg_l2_slots (config w) -> j < cfg_l2_slots (config w) ->
    slot_valid si = true -> slot_valid sj = true -> slot_l1_idx si = slot_l1_idx sj -> i = j.

(** The planner's dirty tracking agrees with the trace. *)
Record tracks (tr : list Step) (w : WriteState) : Prop := {
  tk_slots : forall i, slot_unsaved i tr = true -> dirty_slot w i;
  tk_l1 : l1_unsaved tr = true -> l1_dirty w = true;
  tk_barrier : steps_since_barrier w = since_barrier tr
}.

Record base (tr : list Step) (w : WriteState) : Prop := {
  ba_state : state_ok w;
  ba_stream : stream_ok (geometry w) (cfg_device (config w)) tr;
  ba_tracks : tracks tr w;
  ba_unique : slots_unique w
}.

(** What a valid slot claims to cache is what the trace says it holds. *)
Definition holds (sl : L2Slot) (t : option (option Z * Z)) : Prop :=
  exists o, t = Some (o, slot_host_offset sl) /\ (o = None \/ o = Some (slot_l1_idx sl)).

(** Every valid slot but [e] holds the table it claims. *)
Definition homes (e : option Z) (tr : list Step) (w : WriteState) : Prop :=
  forall i sl, slot_at (l2_slots w) i = Some sl -> i < cfg_l2_slots (config w) ->
    slot_valid sl = true -> e <> Some i -> holds sl (slot_table i tr).

(** Staged refblock [i] is marked dirty. *)
Definition rb_dirty (w : WriteState) (i : Z) : Prop :=
  0 <= i < cfg_max_refblocks (config w) /\ bit_get (refblock_dirty_words w) i = Some true.

(** Staged regions the planner can work on; [validate_staged] establishes the
    lengths. *)
Record staged_ok (w : WriteState) (r : StagedRegions) : Prop := {
  sr_l1_bytes : is_bytes (st_l1 r);
  sr_l2_bytes : is_bytes (st_l2_window r);
  sr_rt_bytes : is_bytes (st_refcount_table r);
  sr_rb_bytes : is_bytes (st_refblocks r);
  sr_rb_fits : slice_fits (st_refblocks r);
  sr_l1 : l1_size (geometry w) * 8 <= blen (st_l1 r);
  sr_l2 : cfg_l2_slots (config w) * cluster_size (geometry w) <= blen (st_l2_window r);
  sr_rb : blen (st_refblocks r) mod cluster_size (geometry w) = 0;
  sr_count : blen (st_refblocks r) / cluster_size (geometry w) <= cfg_max_refblocks (config w);
  sr_rt : blen (st_refblocks r) / cluster_size (geometry w) * 8 <= blen (st_refcount_table r)
}.

(** ** Resume points *)

Definition p_cur (p : WriteProgress) : Z := wp_voff p + wp_consumed p.
Definition p_in_off (g : Geometry) (p : WriteProgress) : Z := p_cur p mod cluster_size g.
Definition p_win_len (g : Geometry) (p : WriteProgress) : Z :=
  Z.min (cluster_size g - p_in_off g p) (wp_len p - wp_consumed p).
Definition p_l1_idx (g : Geometry) (p : WriteProgress) : Z := p_cur p / l2_coverage g.
Definition p_l2_idx (g : Geometry) (p : WriteProgress) : Z :=
  (p_cur p / cluster_size g) mod entries_per_l2 g.

(** The request was admitted and its progress is inside it. *)
Record prog_ok (w : WriteState) (p : WriteProgress) : Prop := {
  po_voff : 0 <= wp_voff p;
  po_consumed : 0 <= wp_consumed p <= wp_len p;
  po_len : 0 < wp_len p;
  po_end : wp_voff p + wp_len p <= virtual_size (geometry w);
  po_l1 : (wp_voff p + wp_len p - 1) / l2_coverage (geometry w) < l1_size (geometry w);
  po_slot : 0 <= wp_slot p < cfg_l2_slots (config w)
}.

(** A cluster address as an L1 or L2 entry can hold it. *)
Definition host_ok (cs h : Z) : Prop := 0 <= h < 2 ^ 56 /\ h mod cs = 0.

(** The progress's slot caches the L2 table of the current cluster. *)
Definition serving (w : WriteState) (p : WriteProgress) : Prop :=
  exists sl, slot_at (l2_slots w) (wp_slot p) = Some sl /\ slot_valid sl = true /\
    slot_l1_idx sl = p_l1_idx (geometry w) p.

(** That slot was assigned the cluster the L1 patch will publish. *)
Definition claims_host (w : WriteState) (p : WriteProgress) : Prop :=
  exists sl, slot_at (l2_slots w) (wp_slot p) = Some sl /\ slot_host_offset sl = wp_l2_host p.

(** The slot whose table is initialised and not yet published. *)
Definition exempt (p : WriteProgress) : option Z :=
  match wp_stage p with FreshZeroed | CowL2Repoint => Some (wp_slot p) | _ => None end.

(** The progress's slot may be overwritten, and no slot caches that table. *)
Definition vacant (w : WriteState) (p : WriteProgress) : Prop :=
  ~ dirty_slot w (wp_slot p) /\
  forall i sl, slot_at (l2_slots w) i = Some sl -> i < cfg_l2_slots (config w) ->
    slot_valid sl = true -> slot_l1_idx sl <> p_l1_idx (geometry w) p.

(** The data cluster of the current group and how much of it is written. *)
Definition filled_to (tr : list Step) (w : WriteState) (p : WriteProgress) (n : Z) : Prop :=
  host_ok (cluster_size (geometry w)) (wp_data_host p) /\
  group (wp_data_host p) (cluster_size (geometry w)) (wp_data_host p) (wp_data_host p + n) tr.

Definition stage_inv (tr : list Step) (w : WriteState) (p : WriteProgress) : Prop :=
  let g := geometry w in
  let cs := cluster_size g in
  match wp_stage p with
  | Enter => True
  | SlotFree => vacant w p
  | FreshAlloc => vacant w p /\ host_ok cs (wp_l2_host p)
  | FreshZeroed =>
      serving w p /\ host_ok cs (wp_l2_host p) /\ slot_initialised cs (wp_slot p) tr /\
      claims_host w p
  | SlotReady => serving w p
  | DataAlloc => serving w p /\ filled_to tr w p 0
  | HeadDone => serving w p /\ filled_to tr w p (p_in_off g p)
  | BodyDone => serving w p /\ filled_to tr w p (p_in_off g p + p_win_len g p)
  | TailDone => serving w p /\ filled_to tr w p cs
  | CowL2Load => vacant w p /\ host_ok cs (wp_l2_host p) /\ host_ok cs (wp_cow_src p)
  | CowL2Repoint =>
      serving w p /\ host_ok cs (wp_l2_host p) /\ slot_initialised cs (wp_slot p) tr /\
      claims_host w p /\ host_ok cs (wp_cow_src p)
  | CowL2Decrement => serving w p /\ host_ok cs (wp_cow_src p)
  | CowDataEnter | CowDataCopy => serving w p /\ filled_to tr w p 0 /\ host_ok cs (wp_cow_src p)
  | CowDataBody =>
      serving w p /\ filled_to tr w p 0 /\ host_ok cs (wp_cow_src p) /\
      (p_in_off g p = 0 /\ p_win_len g p = cs \/ filled_to tr w p cs)
  | CowDataPatch => serving w p /\ filled_to tr w p cs /\ host_ok cs (wp_cow_src p)
  | CowDataDecrement => serving w p /\ host_ok cs (wp_cow_src p)
  end.

(** ** Geometry facts *)

Lemma geo_cs_pos g : geo_ok g -> 512 <= cluster_size g <= 2097152.
Proof.
  intros [Hb -> _ _ _ _ _ _]. change 512 with (2 ^ 9). change 2097152 with (2 ^ 21).
  split; apply Z.pow_le_mono_r; lia.
Qed.

Lemma geo_cs_eight g : geo_ok g ->
  cluster_size g = 8 * entries_per_l2 g /\ cluster_size g = 2 * entries_per_refblock g.
Proof.
  intros [Hb Hcs _ -> _ -> _ _]. rewrite Hcs.
  assert (2 ^ cluster_bits g = 8 * 2 ^ (cluster_bits g - 3)) as H8.
  { change 8 with (2 ^ 3). rewrite <- Z.pow_add_r by lia. f_equal. lia. }
  assert (2 ^ cluster_bits g = 2 * 2 ^ (cluster_bits g - 1)) as H2.
  { change 2 with (2 ^ 1) at 2. rewrite <- Z.pow_add_r by lia. f_equal. lia. }
  split.
  - rewrite H8, (Z.mul_comm 8 (2 ^ _)), Z.div_mul; lia.
  - rewrite H2, (Z.mul_comm 2 (2 ^ _)), Z.div_mul; lia.
Qed.

Lemma geo_cov g : geo_ok g -> l2_coverage g = cluster_size g * entries_per_l2 g.
Proof. intros []. congruence. Qed.

(** The locals of the outer loop are the plain arithmetic ones. *)
Lemma make_ctx_ok w p : geo_ok (geometry w) -> prog_ok w p -> wp_consumed p < wp_len p ->
  make_ctx (geometry w) p =
    Ok (mkCtx (p_cur p) (p_l1_idx (geometry w) p) (p_l2_idx (geometry w) p)
          (p_in_off (geometry w) p) (p_win_len (geometry w) p)).
Proof.
  intros Hg [] Hc. pose proof (geo_cs_pos _ Hg). pose proof (geo_cs_eight _ Hg) as [He _].
  pose proof (geo_cov _ Hg) as Hcov. destruct (go_vs _ Hg) as [_ Hvs].
  assert (0 < l2_coverage (geometry w)) by nia.
  unfold make_ctx, udiv, urem, p_l1_idx, p_l2_idx, p_in_off, p_win_len.
  rewrite (wadd_small (wp_voff p)) by lia. fold (p_cur p).
  assert (p_cur p / l2_coverage (geometry w) <= 4194304) as Hq.
  { transitivity ((wp_voff p + wp_len p - 1) / l2_coverage (geometry w)).
    - apply Z.div_le_mono; [done|]. unfold p_cur. lia.
    - pose proof (go_l1 _ Hg). unfold QCOW2_MAX_L1_SIZE_ENTRIES in *. lia. }
  assert (0 <= p_cur p / l2_coverage (geometry w)) by (apply Z.div_pos; unfold p_cur; lia).
  destruct (Z.eqb_spec (l2_coverage (geometry w)) 0); [lia|]. cbn [obind].
  destruct (Z.eqb_spec (cluster_size (geometry w)) 0); [lia|]. cbn [obind].
  destruct (Z.eqb_spec (entries_per_l2 (geometry w)) 0); [lia|]. cbn [obind].
  pose proof (Z.mod_pos_bound (p_cur p) (cluster_size (geometry w))).
  unfold as_u32. rewrite (Z.mod_small (p_cur p / _)) by lia.
  rewrite !wsub_small by (unfold u64_max in *; lia). done.
Qed.

(** ** Slot lookups *)

Lemma slot_at_range slots i : length slots = 256%nat -> 0 <= i < 256 -> is_Some (slot_at slots i).
Proof.
  intros Hl Hi. unfold slot_at. destruct (Z.leb_spec 0 i); [|lia].
  apply lookup_lt_is_Some. lia.
Qed.

Lemma slot_at_nonneg slots i sl : slot_at slots i = Some sl -> 0 <= i < Z.of_nat (length slots).
Proof.
  unfold slot_at. destruct (Z.leb_spec 0 i); [|done]. intros ?%lookup_lt_Some. lia.
Qed.

Lemma slot_at_insert slots i j sl : length slots = 256%nat -> 0 <= i < 256 ->
  slot_at (<[Z.to_nat i := sl]> slots) j = if i =? j then Some sl else slot_at slots j.
Proof.
  intros Hl Hi. unfold slot_at. destruct (Z.eqb_spec i j) as [->|Hne].
  - destruct (Z.leb_spec 0 j); [|lia]. apply list_lookup_insert_eq. lia.
  - destruct (Z.leb_spec 0 j); [|done]. apply list_lookup_insert_ne. lia.
Qed.

(** [find_idx] over a total predicate is a search. *)
Lemma find_idx_total {E} (p : Z -> outcome E bool) (f : Z -> bool) n i :
  (forall j, i <= j < i + Z.of_nat n -> p j = Ok (f j)) ->
  match find_idx p n i with
  | Ok (Some k) => i <= k < i + Z.of_nat n /\ f k = true /\ (forall j, i <= j < k -> f j = false)
  | Ok None => forall j, i <= j < i + Z.of_nat n -> f j = false
  | _ => False
  end.
Proof.
  revert i. induction n as [|n IH]; intros i Hp; cbn [find_idx]; [intros; lia|].
  rewrite Hp by lia. cbn [obind]. destruct (f i) eqn:Hf; [repeat split; lia || done|].
  specialize (IH (i + 1) ltac:(intros; apply Hp; lia)).
  destruct (find_idx p n (i + 1)) as [[k|]| | |]; try done.
  - destruct IH as (? & ? & Hl). repeat split; try (lia || done). intros j Hj.
    destruct (Z.eq_dec j i) as [->|]; [done | apply Hl; lia].
  - intros j Hj. destruct (Z.eq_dec j i) as [->|]; [done | apply IH; lia].
Qed.

Lemma find_slot_spec {E} w l : state_ok w ->
  match find_slot (E := E) w l with
  | Ok (Some i) => 0 <= i < cfg_l2_slots (config w) /\
      exists sl, slot_at (l2_slots w) i = Some sl /\ slot_valid sl = true /\ slot_l1_idx sl = l
  | Ok None => forall i sl, slot_at (l2_slots w) i = Some sl -> i < cfg_l2_slots (config w) ->
      slot_valid sl = true -> slot_l1_idx sl <> l
  | _ => False
  end.
Proof.
  intros Hs. destruct (so_slots _ Hs) as [H1 H2]. unfold MAX_L2_SLOTS in H2.
  pose proof (slot_at_range (l2_slots w)) as Hat. specialize (fun i => Hat i (so_window _ Hs)).
  set (f := fun i => match slot_at (l2_slots w) i with
                     | Some s => slot_valid s && (slot_l1_idx s =? l) | None => false end).
  pose proof (find_idx_total (E := E)
    (fun i => let? s := or_panic (slot_at (l2_slots w) i) in
              Ok (slot_valid s && (slot_l1_idx s =? l))) f
    (Z.to_nat (cfg_l2_slots (config w))) 0) as Hf.
  unfold find_slot. rewrite Z2Nat.id in Hf by lia. unfold f in Hf.
  destruct (find_idx _ _ _) as [[k|]| | |].
  - destruct Hf as (Hk & Hfk & _).
    + intros j Hj. destruct (Hat j ltac:(lia)) as [sl ->]. done.
    + split; [lia|]. destruct (slot_at (l2_slots w) k) as [sl|]; [|done].
      bool_to_prop. eauto.
  - intros i sl Hi Hlt Hv. pose proof (slot_at_nonneg _ _ _ Hi).
    assert (f i = false) as Hfi.
    { apply Hf; [|lia]. intros j Hj. destruct (Hat j ltac:(lia)) as [s ->]. done. }
    unfold f in Hfi. rewrite Hi, Hv in Hfi. cbn in Hfi. lia.
  - apply Hf. intros j Hj. destruct (Hat j ltac:(lia)) as [sl ->]. done.
  - apply Hf. intros j Hj. destruct (Hat j ltac:(lia)) as [sl ->]. done.
  - apply Hf. intros j Hj. destruct (Hat j ltac:(lia)) as [sl ->]. done.
Qed.

Lemma pick_victim_from_range {E} slots n i best acc : length slots = 256%nat ->
  0 <= i -> i + Z.of_nat n <= 256 -> 0 <= best < i + Z.of_nat n ->
  exists v, pick_victim_from (E := E) slots n i best acc = Ok v /\ 0 <= v < i + Z.of_nat n.
Proof.
  intros Hl. revert i best acc. induction n as [|n IH]; intros i best acc Hi Hn Hb;
    cbn [pick_victim_from]; [eauto|].
  destruct (slot_at_range slots i Hl ltac:(lia)) as [sl ->]. cbn [or_panic obind].
  destruct (slot_valid sl); cbn [negb]; [|exists i; split; [done|lia]].
  destruct (slot_last_access sl <? acc).
  - destruct (IH (i + 1) i (slot_last_access sl)) as (v & -> & ?); [lia..|]. exists v. split; [done|lia].
  - destruct (IH (i + 1) best acc) as (v & -> & ?); [lia..|]. exists v. split; [done|lia].
Qed.

Lemma pick_victim_range {E} w : state_ok w ->
  exists v, pick_victim (E := E) w = Ok v /\ 0 <= v < cfg_l2_slots (config w).
Proof.
  intros Hs. destruct (so_slots _ Hs) as [H1 H2]. unfold MAX_L2_SLOTS in H2.
  destruct (pick_victim_from_range (E := E) (l2_slots w) (Z.to_nat (cfg_l2_slots (config w))) 0 0 u64_max)
    as (v & Hv & Hr); [apply Hs | lia..|].
  exists v. split; [exact Hv | lia].
Qed.

(** ** Updates of the planner state *)

(** The parts of the state that carry no information the trace relates to. *)
Record same_core (w w' : WriteState) : Prop := {
  sc_geo : geometry w' = geometry w;
  sc_cfg : config w' = config w;
  sc_slots : l2_slots w' = l2_slots w;
  sc_l1 : l1_dirty w' = l1_dirty w;
  sc_barrier : steps_since_barrier w' = steps_since_barrier w
}.

Lemma base_core tr w w' : base tr w -> same_core w w' -> state_ok w' -> base tr w'.
Proof.
  intros [Hs Hst [H1 H2 H3] Hu] [Hg Hc Hsl Hl Hb] Hs'. split; [done| | |].
  - by rewrite Hg, Hc.
  - split; [|by rewrite Hl | by rewrite Hb]. unfold dirty_slot in *. by rewrite Hc, Hsl.
  - unfold slots_unique in *. by rewrite Hc, Hsl.
Qed.

(** Replacing slot [k], the trace staying as it is. *)
Lemma base_slot tr w w' k sl :
  base tr w -> geometry w' = geometry w -> config w' = config w ->
  l1_dirty w' = l1_dirty w -> steps_since_barrier w' = steps_since_barrier w ->
  0 <= k < cfg_l2_slots (config w) ->
  l2_slots w' = <[Z.to_nat k := sl]> (l2_slots w) -> state_ok w' ->
  (slot_unsaved k tr = true -> slot_valid sl = true /\ slot_dirty sl = true) ->
  (slot_valid sl = true -> forall i s, i <> k -> i < cfg_l2_slots (config w) ->
     slot_at (l2_slots w) i = Some s -> slot_valid s = true -> slot_l1_idx s <> slot_l1_idx sl) ->
  base tr w'.
Proof.
  intros [Hs Hst [H1 H2 H3] Hu] Hg Hc Hl Hb Hk Hsl Hs' Hd Hun.
  pose proof (so_slots _ Hs) as Hn. unfold MAX_L2_SLOTS in Hn.
  pose proof (slot_at_insert (l2_slots w) k) as Hins.
  specialize (fun j s => Hins j s (so_window _ Hs) ltac:(lia)).
  split; [done|by rewrite Hg, Hc| |].
  - split; [|by rewrite Hl | by rewrite Hb]. intros i Hi. unfold dirty_slot.
    rewrite Hc, Hsl, Hins. destruct (Z.eqb_spec k i) as [<-|Hne].
    + destruct (Hd Hi). split; [lia|]. by exists sl.
    + apply H1. done.
  - intros i j si sj. rewrite Hc, Hsl, !Hins.
    destruct (Z.eqb_spec k i) as [<-|Hi], (Z.eqb_spec k j) as [<-|Hj];
      intros Hsi Hsj Hlti Hltj Hvi Hvj Heq.
    + done.
    + injection Hsi as <-. exfalso. by apply (Hun Hvi j sj (not_eq_sym Hj)).
    + injection Hsj as <-. exfalso. by apply (Hun Hvj i si (not_eq_sym Hi)).
    + by apply (Hu i j si sj).
Qed.

(** Appending a step whose slot or L1 updates are already marked dirty. *)
Lemma base_push tr w n x : base tr w ->
  step_ok (geometry w) (cfg_device (config w)) tr x ->
  (forall i, dirties_slot i x = true -> dirty_slot w i) ->
  (is_l1_patch x = true -> l1_dirty w = true) ->
  n = (if is_barrier (kind x) then 0 else since_barrier tr + 1) ->
  base (tr ++ [x]) (set_steps_since_barrier n w).
Proof.
  intros [Hs Hst [H1 H2 H3] Hu] Hx Hd Hp ->. split.
  - destruct Hs. by split.
  - by apply stream_ok_snoc.
  - split; cbn.
    + intros i Hi. rewrite slot_unsaved_snoc in Hi. destruct (is_writeback i x); [done|].
      apply orb_true_iff in Hi as [Hi|Hi]; [exact (Hd i Hi) | exact (H1 i Hi)].
    + intros Hi. rewrite l1_unsaved_snoc in Hi. destruct (is_l1_write x); [done|].
      apply orb_true_iff in Hi as [Hi|Hi]; auto.
    + by rewrite since_barrier_snoc.
  - done.
Qed.

(** ** What the slots hold *)

Lemma homes_push e tr w w' x : homes e tr w -> moves_table x = false ->
  l2_slots w' = l2_slots w -> config w' = config w -> homes e (tr ++ [x]) w'.
Proof. intros Hh Hx Hl Hc i sl. rewrite Hl, Hc, slot_table_quiet by done. apply Hh. Qed.

Lemma homes_same e tr w w' : homes e tr w -> l2_slots w' = l2_slots w -> config w' = config w ->
  homes e tr w'.
Proof. intros Hh Hl Hc i sl. rewrite Hl, Hc. apply Hh. Qed.

(** Replacing a slot by one with the same claim, or dropping the claim. *)
Lemma homes_put e tr w w' k old sl : state_ok w -> homes e tr w -> 0 <= k < cfg_l2_slots (config w) ->
  slot_at (l2_slots w) k = Some old ->
  (slot_valid sl = true -> slot_valid old = true /\ slot_l1_idx sl = slot_l1_idx old /\
     slot_host_offset sl = slot_host_offset old) ->
  l2_slots w' = <[Z.to_nat k := sl]> (l2_slots w) -> config w' = config w -> homes e tr w'.
Proof.
  intros Hs Hh Hk Hold Hv Hl Hc i s. pose proof (so_slots _ Hs) as Hn. unfold MAX_L2_SLOTS in Hn.
  rewrite Hl, Hc, slot_at_insert by (apply Hs || lia).
  destruct (Z.eqb_spec k i) as [<-|]; [|apply Hh]. intros [= <-] Hlt Hva He.
  destruct (Hv Hva) as (Hvo & H1 & H2). destruct (Hh k old Hold Hlt Hvo He) as (o & Ho & Hi).
  exists o. by rewrite H1, H2.
Qed.

(** Initialising slot [k] and assigning it. *)
Lemma homes_init tr w w' k x sl : state_ok w -> homes None tr w -> 0 <= k < cfg_l2_slots (config w) ->
  region x = RL2Slot k -> kind x = LoadCluster \/ kind x = ZeroRegion ->
  l2_slots w' = <[Z.to_nat k := sl]> (l2_slots w) -> config w' = config w ->
  homes (Some k) (tr ++ [x]) w' /\
  (kind x = LoadCluster -> disk_offset x = slot_host_offset sl -> homes None (tr ++ [x]) w').
Proof.
  intros Hs Hh Hk Hr Hx Hl Hc. pose proof (so_slots _ Hs) as Hn. unfold MAX_L2_SLOTS in Hn.
  assert (homes (Some k) (tr ++ [x]) w') as Hm.
  { intros i s. rewrite Hl, Hc, slot_at_insert by (apply Hs || lia).
    destruct (Z.eqb_spec k i) as [<-|Hne]; [done|]. intros Hat Hlt Hv _.
    rewrite slot_table_snoc. unfold table_step. rewrite Hr.
    destruct (Z.eqb_spec i k); [lia|]. destruct Hx as [->| ->]; by apply Hh. }
  split; [done|]. intros Hld Ho i s Hat Hlt Hv _.
  destruct (Z.eq_dec k i) as [<-|Hne]; [|apply Hm; congruence].
  revert Hat. rewrite Hl, slot_at_insert, Z.eqb_refl by (apply Hs || lia). intros [= <-].
  rewrite slot_table_snoc. unfold table_step. rewrite Hr, Hld, Z.eqb_refl, Ho. exists None. eauto.
Qed.

Lemma base_l1_dirty tr w b : base tr w -> (l1_unsaved tr = true -> b = true) ->
  base tr (set_l1_dirty b w).
Proof.
  intros [Hs Hst [H1 H2 H3] Hu] Hb. split; [|done| |done].
  - destruct Hs. by split.
  - by split.
Qed.

(** ** Bitset access *)

Lemma word_at_range words i n : length words = n -> 0 <= i < 64 * Z.of_nat n ->
  exists x, word_at words (i / 64) = Some x /\ (Z.to_nat (i / 64) < length words)%nat.
Proof.
  intros Hl Hi. pose proof (Z.div_pos i 64 ltac:(lia) ltac:(lia)).
  assert (i / 64 < Z.of_nat n) by (apply Z.div_lt_upper_bound; lia).
  unfold word_at. destruct (Z.leb_spec 0 (i / 64)); [|lia].
  destruct (lookup_lt_is_Some_2 words (Z.to_nat (i / 64))) as [x Hx]; [lia|].
  exists x. split; [done|lia].
Qed.

Lemma bit_set_range words i n : length words = n -> 0 <= i < 64 * Z.of_nat n ->
  exists words', bit_set words i = Some words' /\ length words' = n.
Proof.
  intros Hl Hi. destruct (word_at_range words i n Hl Hi) as (x & Hx & _).
  unfold bit_set. rewrite Hx. cbn. eexists. split; [done|]. by rewrite length_insert.
Qed.

Lemma bit_get_range words i n : length words = n -> 0 <= i < 64 * Z.of_nat n ->
  exists b, bit_get words i = Some b.
Proof.
  intros Hl Hi. destruct (word_at_range words i n Hl Hi) as (x & Hx & _).
  unfold bit_get. rewrite Hx. cbn. eauto.
Qed.

Lemma nonzero_bit x k : 0 <= k -> nonzero (Z.land (Z.shiftr x k) 1) = Z.testbit x k.
Proof.
  intros Hk. rewrite Z.testbit_odd. change 1 with (Z.ones 1) at 1.
  rewrite Z.land_ones, Z.pow_1_r, Zmod_odd by done. by destruct (Z.odd _).
Qed.

Lemma set_bit x k j : 0 <= k < 64 -> 0 <= j < 64 ->
  Z.testbit (Z.lor x (shl64 1 k)) j = (k =? j) || Z.testbit x j.
Proof.
  intros Hk Hj. unfold shl64. rewrite Z.shiftl_1_l, Z.mod_small.
  2:{ change 18446744073709551616 with (2 ^ 64). split; [lia|]. apply Z.pow_lt_mono_r; lia. }
  rewrite Z.lor_spec, Z.pow2_bits_eqb by lia. by destruct (Z.testbit x j), (k =? j).
Qed.

Lemma bit_set_get words words' i j n : length words = n -> 0 <= i < 64 * Z.of_nat n ->
  0 <= j < 64 * Z.of_nat n -> bit_set words i = Some words' ->
  bit_get words' j = if i =? j then Some true else bit_get words j.
Proof.
  intros Hl Hi Hj Hc. destruct (word_at_range words i n Hl Hi) as (x & Hx & Hxi).
  destruct (word_at_range words j n Hl Hj) as (y & Hy & Hyj).
  unfold bit_set in Hc. rewrite Hx in Hc. injection Hc as <-.
  pose proof (Z.mod_pos_bound i 64 ltac:(lia)). pose proof (Z.mod_pos_bound j 64 ltac:(lia)).
  pose proof (Z.div_pos i 64 ltac:(lia) ltac:(lia)). pose proof (Z.div_pos j 64 ltac:(lia) ltac:(lia)).
  unfold bit_get. rewrite Hy. unfold word_at in *.
  destruct (Z.leb_spec 0 (i / 64)); [|lia]. destruct (Z.leb_spec 0 (j / 64)); [|lia].
  destruct (Z.eq_dec (i / 64) (j / 64)) as [He|Hne].
  - rewrite <- He, list_lookup_insert_eq by lia. cbn. rewrite !nonzero_bit, set_bit by lia.
    rewrite <- He, Hx in Hy. injection Hy as <-.
    pose proof (Z.div_mod i 64 ltac:(lia)). pose proof (Z.div_mod j 64 ltac:(lia)).
    destruct (Z.eqb_spec i j), (Z.eqb_spec (i mod 64) (j mod 64)); try lia; done.
  - rewrite list_lookup_insert_ne by lia. rewrite Hy. cbn.
    destruct (Z.eqb_spec i j) as [->|]; done.
Qed.

(** ** The planner's memory *)

Definition tr_of {P} (pre : list Step) (s : PS P) : list Step := pre ++ sb_steps (sb s).

(** The window has room for what it holds, and the whole session emits fewer
    steps than the barrier counter can count. *)
Definition buf_ok {P} (pre : list Step) (s : PS P) : Prop :=
  sb_emitted (sb s) <= sb_capacity (sb s) /\
  Z.of_nat (length pre) + sb_capacity (sb s) <= u64_max.

Record mem_ok {P} (pre : list Step) (s : PS P) : Prop := {
  mo_base : base (tr_of pre s) (ws s);
  mo_buf : buf_ok pre s;
  mo_staged : staged_ok (ws s) (st s)
}.

(** [s] after pushing [x]. *)
Definition pushed {P} (x : Step) (s : PS P) : PS P :=
  mkPS (set_steps_since_barrier
          (if is_barrier (kind x) then 0 else wadd (steps_since_barrier (ws s)) 1) (ws s))
    (st s) (pr s) (mkStepBuf (sb_steps (sb s) ++ [x]) (sb_capacity (sb s))).

Lemma wp_push_step {P} pre (s : PS P) x (Q : unit -> PS P -> Prop) R :
  mem_ok pre s -> R WeBufFull s ->
  (buf_ok pre (pushed x s) -> tr_of pre (pushed x s) = tr_of pre s ++ [x] ->
   steps_since_barrier (ws (pushed x s)) =
     (if is_barrier (kind x) then 0 else since_barrier (tr_of pre s) + 1) ->
   Q tt (pushed x s)) ->
  wp (push_step x) Q R s.
Proof.
  intros [Hb [He Hc] _] HR HQ. unfold push_step. do 2 wstep. unfold sb_push.
  destruct (Z.eqb_spec (sb_emitted (sb s)) (sb_capacity (sb s))) as [|Hne]; [by wstep|].
  wstep. apply HQ.
  - split; [|done]. unfold sb_emitted in *. cbn [sb pushed sb_steps sb_capacity].
    rewrite length_app. cbn [length]. lia.
  - unfold tr_of. cbn [sb pushed sb_steps]. by rewrite app_assoc.
  - cbn [ws pushed steps_since_barrier set_steps_since_barrier].
    destruct (is_barrier _); [done|]. rewrite (tk_barrier _ _ (ba_tracks _ _ Hb)).
    pose proof (since_barrier_bound (tr_of pre s)) as Hs. unfold tr_of in *.
    rewrite length_app in Hs. unfold sb_emitted in *.
    apply wadd_small. lia.
Qed.

Lemma wp_upd_ws {P} (s : PS P) f w' (Q : unit -> PS P -> Prop) R :
  f (ws s) = Ok w' -> Q tt (set_ws w' s) -> wp (upd_ws f) Q R s.
Proof. intros Hf HQ. unfold upd_ws. do 3 wstep. rewrite Hf. by wstep. Qed.

(** ** Staged refcounts *)

Definition rb_count (w : WriteState) (r : StagedRegions) : Z :=
  blen (st_refblocks r) / cluster_size (geometry w).

Lemma staged_blocks_of w r : state_ok w -> staged_ok w r ->
  staged_blocks (st_refblocks r) (cluster_size (geometry w)) (entries_per_refblock (geometry w))
    (rb_count w r) /\ 0 <= rb_count w r <= 2048.
Proof.
  intros Hs Hr. pose proof (geo_cs_pos _ (so_geo _ Hs)) as Hcs.
  destruct (geo_cs_eight _ (so_geo _ Hs)) as [_ H2]. unfold rb_count.
  pose proof (Z.div_mod (blen (st_refblocks r)) (cluster_size (geometry w)) ltac:(lia)) as Hdm.
  pose proof (blen_nonneg (st_refblocks r)).
  pose proof (Z.div_pos (blen (st_refblocks r)) (cluster_size (geometry w)) ltac:(lia) ltac:(lia)).
  pose proof (sr_count _ _ Hr). pose proof (so_max_rb _ Hs) as Hm. unfold MAX_REFBLOCKS in Hm.
  rewrite (sr_rb _ _ Hr) in Hdm. split; [|lia].
  split; try apply Hr; lia.
Qed.

(** The staged regions after a change of the refblock bytes. *)
Definition with_refblocks (r : StagedRegions) (b : bytes) : StagedRegions :=
  mkStaged (st_l1 r) (st_l2_window r) (st_refcount_table r) b.

Lemma staged_ok_refblocks w r b : state_ok w -> staged_ok w r ->
  staged_blocks b (cluster_size (geometry w)) (entries_per_refblock (geometry w)) (rb_count w r) ->
  staged_ok w (with_refblocks r b).
Proof.
  intros Hs Hr [Hb Hfit _ _ _ Hl]. pose proof (geo_cs_pos _ (so_geo _ Hs)) as Hcs.
  destruct (staged_blocks_of _ _ Hs Hr) as [[_ _ _ _ _ Hl0] _]. rewrite <- Hl0 in Hl.
  destruct Hr. split; cbn; rewrite ?Hl; done.
Qed.

Lemma staged_ok_core w w' r : staged_ok w r -> geometry w' = geometry w -> config w' = config w ->
  staged_ok w' r.
Proof. intros [] Hg Hc. split; rewrite ?Hg, ?Hc; done. Qed.

(** [set_refblock_dirty_words] and [set_alloc_cursor] leave the invariant alone. *)
Lemma base_refblocks tr w words : base tr w -> length words = 32%nat ->
  base tr (set_refblock_dirty_words words w).
Proof.
  intros Hb Hl. apply (base_core _ w); [done|by split|]. destruct (ba_state _ _ Hb). by split.
Qed.

Lemma base_cursor tr w c : base tr w -> 0 <= next_refblock c -> 0 <= next_entry_in_refblock c ->
  cursor_start (entries_per_refblock (geometry w)) c <= MAX_REFBLOCKS * entries_per_refblock (geometry w) ->
  base tr (set_alloc_cursor c w).
Proof.
  intros Hb ? ? ?. apply (base_core _ w); [done|by split|]. destruct (ba_state _ _ Hb). by split.
Qed.

(** Dirty marks are kept, and a refblock with a changed entry is marked. *)
Record marked (w : WriteState) (r : StagedRegions) (w' : WriteState) (r' : StagedRegions) : Prop := {
  mk_len : blen (st_refblocks r') = blen (st_refblocks r);
  mk_keep : forall i, rb_dirty w i -> rb_dirty w' i;
  mk_new : forall j, 0 <= j < rb_count w r * entries_per_refblock (geometry w) ->
    entry (st_refblocks r') j <> entry (st_refblocks r) j ->
    rb_dirty w' (j / entries_per_refblock (geometry w))
}.

Lemma marked_same w r w' r' : st_refblocks r' = st_refblocks r -> config w' = config w ->
  refblock_dirty_words w' = refblock_dirty_words w -> marked w r w' r'.
Proof. intros Hr Hc Hw. split; [by rewrite Hr|unfold rb_dirty; by rewrite Hc, Hw|by rewrite Hr]. Qed.

Lemma marked_trans w r w1 r1 w2 r2 : marked w r w1 r1 -> geometry w1 = geometry w ->
  marked w1 r1 w2 r2 -> marked w r w2 r2.
Proof.
  intros [Hl Hk Hn] Hg [Hl1 Hk1 Hn1]. split; [congruence|auto|].
  intros j Hj Hne. unfold rb_count in *. rewrite Hl, Hg in Hn1.
  destruct (Z.eq_dec (entry (st_refblocks r1) j) (entry (st_refblocks r) j)) as [He|Hd]; [|auto].
  apply Hn1; congruence.
Qed.

Lemma refblock_dirty_set_ok {E} w i : state_ok w -> 0 <= i < 2048 ->
  exists words, refblock_dirty_set (E := E) w i = Ok (set_refblock_dirty_words words w) /\
    length words = 32%nat /\
    (i < cfg_max_refblocks (config w) -> rb_dirty (set_refblock_dirty_words words w) i) /\
    forall j, rb_dirty w j -> rb_dirty (set_refblock_dirty_words words w) j.
Proof.
  intros Hs Hi. destruct (bit_set_range (refblock_dirty_words w) i 32) as (ws & Hws & Hl);
    [apply Hs | lia|]. exists ws. unfold refblock_dirty_set. rewrite Hws. do 2 (split; [done|]).
  pose proof (so_max_rb _ Hs) as Hm. unfold MAX_REFBLOCKS in Hm.
  pose proof (fun j => bit_set_get _ ws i j 32 (so_rb_words _ Hs)) as Hget.
  split.
  - intros Hlt. split; [cbn; lia|]. cbn. rewrite (Hget i), Z.eqb_refl by (done || lia). done.
  - intros j [Hj Hb]. split; [done|]. cbn. rewrite (Hget j) by (done || lia).
    by destruct (i =? j).
Qed.

(** What [alloc_cluster] does to the planner's memory. *)
Record allocated_cluster {P} (pre : list Step) (s : PS P) (h : Z) (s' : PS P) : Prop := {
  ac_state : exists cur words b, s' =
    mkPS (set_refblock_dirty_words words (set_alloc_cursor cur (ws s)))
      (with_refblocks (st s) b) (pr s) (sb s) /\
    claimed (st_refblocks (st s)) b
      (rb_count (ws s) (st s) * entries_per_refblock (geometry (ws s)))
      (h / cluster_size (geometry (ws s))) 1;
  ac_mem : mem_ok pre s';
  ac_marked : marked (ws s) (st s) (ws s') (st s');
  ac_host : host_ok (cluster_size (geometry (ws s))) h;
  ac_free : entry (st_refblocks (st s)) (h / cluster_size (geometry (ws s))) = 0
}.

Lemma alloc_pre_of {P} pre (s : PS P) : mem_ok pre s ->
  alloc_pre (mkAllocSt (st_refblocks (st s)) (alloc_cursor (ws s)))
    (cluster_size (geometry (ws s))) (entries_per_refblock (geometry (ws s)))
    (rb_count (ws s) (st s)) 0 1.
Proof.
  intros [Hb _ Hr]. pose proof (ba_state _ _ Hb) as Hs.
  destruct (staged_blocks_of _ _ Hs Hr) as [Hsb Hn].
  pose proof (geo_cs_pos _ (so_geo _ Hs)). destruct (geo_cs_eight _ (so_geo _ Hs)) as [_ H2].
  pose proof (so_cursor _ Hs) as Hc. unfold MAX_REFBLOCKS in Hc.
  split; cbn [as_blocks as_cursor]; try apply Hs; try done; unfold u64_max; try lia; try nia.
Qed.

Lemma wp_alloc_cluster {P} pre (s : PS P) Q R : mem_ok pre s ->
  R WeRefcountExhausted s -> (forall h s', allocated_cluster pre s h s' -> Q h s') ->
  wp alloc_cluster Q R s.
Proof.
  intros Hm HR HQ. pose proof Hm as [Hb Hbuf Hr]. pose proof (ba_state _ _ Hb) as Hs.
  destruct (staged_blocks_of _ _ Hs Hr) as [Hsb Hn].
  pose proof (geo_cs_pos _ (so_geo _ Hs)) as Hcs. destruct (geo_cs_eight _ (so_geo _ Hs)) as [_ H2].
  unfold alloc_cluster. do 4 wstep. unfold udiv.
  destruct (Z.eqb_spec (cluster_size (geometry (ws s))) 0); [lia|].
  fold (rb_count (ws s) (st s)). rewrite (go_rb _ (so_geo _ Hs)).
  pose proof (alloc_contiguous_spec _ _ _ _ _ _ (alloc_pre_of pre s Hm)) as Ha.
  cbv zeta in Ha. unfold alloc_cluster_in_refblocks.
  destruct (alloc_contiguous_clusters_in_refblocks _ _ _ _ _ _) as [[h|e| |] a]; try done.
  - destruct Ha as [[(f & Hf & Hft & -> & Hfree & _ & Hcl & Hcur)] Hsb'].
    cbn [as_blocks as_cursor] in *. rewrite Z.add_0_r in *.
    pose proof (ap_rb _ _ _ _ _ _ (alloc_pre_of pre s Hm)) as Hrb0.
    pose proof (ap_entry _ _ _ _ _ _ (alloc_pre_of pre s Hm)) as Hen0. cbn in Hrb0, Hen0.
    assert (0 <= f) by (unfold cursor_start in Hf; nia).
    pose proof (Z.div_mod (f + 1) (entries_per_refblock (geometry (ws s))) ltac:(lia)) as Hdm.
    pose proof (Z.mod_pos_bound (f + 1) (entries_per_refblock (geometry (ws s))) ltac:(lia)).
    pose proof (Z.div_pos (f + 1) (entries_per_refblock (geometry (ws s))) ltac:(lia) ltac:(lia)).
    assert (f * cluster_size (geometry (ws s)) / cluster_size (geometry (ws s)) = f) as Hdiv
      by (apply Z.div_mul; lia).
    assert (base (tr_of pre s) (set_alloc_cursor (as_cursor a) (ws s))) as Hb'.
    { apply base_cursor; [done|..]; rewrite Hcur; unfold cursor_start;
        cbn [next_refblock next_entry_in_refblock]; unfold MAX_REFBLOCKS; try lia. nia. }
    do 2 wstep. do 2 wstep. cbn [map_err]. do 2 wstep. unfold udiv.
    destruct (Z.eqb_spec (cluster_size (geometry (ws s))) 0); [lia|]. cbn [obind].
    destruct (Z.eqb_spec (entries_per_refblock (geometry (ws s))) 0); [lia|]. rewrite Hdiv.
    assert (f / entries_per_refblock (geometry (ws s)) < rb_count (ws s) (st s))
      by (apply Z.div_lt_upper_bound; lia).
    pose proof (Z.div_pos f (entries_per_refblock (geometry (ws s))) ltac:(lia) ltac:(lia)).
    wstep. destruct (refblock_dirty_set_ok (E := WriteError) (set_alloc_cursor (as_cursor a) (ws s))
      (f / entries_per_refblock (geometry (ws s)))) as (words & Hset & Hwl & Hmk & Hkeep);
      [apply Hb'|lia|].
    eapply wp_upd_ws; [exact Hset|]. wstep. apply HQ. split.
    + exists (as_cursor a), words, (as_blocks a). split; [done|]. by rewrite Hdiv.
    + split; [by apply base_refblocks | done |]. cbn. apply (staged_ok_core (ws s)); [|done..].
      by apply staged_ok_refblocks.
    + split; [|done|].
      * cbn. by rewrite (sb_len _ _ _ _ Hsb), (sb_len _ _ _ _ Hsb').
      * cbn. intros j Hj. rewrite Hcl by done.
        destruct (Z.leb_spec f j), (Z.ltb_spec j (f + 1)); cbn [andb]; try done. intros _.
        replace j with f by lia. apply Hmk. cbn. unfold rb_count in *. pose proof (sr_count _ _ Hr). lia.
    + split; [|by rewrite Z.mod_mul by lia].
      assert (f <= 2048 * 1048576) by nia. change (2 ^ 56) with (72057594037927936). nia.
    + rewrite Hdiv. apply Hfree. lia.
  - destruct Ha as (-> & -> & _). do 2 wstep. do 2 wstep. cbn [map_err].
    destruct s as [w [] p b]. cbn. destruct w. apply HR.
Qed.

Lemma locate_refcount_spec w r host : state_ok w -> staged_ok w r -> 0 <= host ->
  let cs := cluster_size (geometry w) in
  let epr := entries_per_refblock (geometry w) in
  match locate_refcount (geometry w) (st_refblocks r) host with
  | Ok (rb, start, block, local) =>
      0 <= host / cs < rb_count w r * epr /\ rb = host / cs / epr /\ 0 <= rb < rb_count w r /\
      start = host / cs / epr * cs /\ local = (host / cs) mod epr /\
      slice (st_refblocks r) start (start + cs) = Some block
  | Err e => e = WeRefcountCoverage /\ rb_count w r * epr <= host / cs
  | _ => False
  end.
Proof.
  intros Hs Hr Hh. cbv zeta. destruct (staged_blocks_of _ _ Hs Hr) as [[_ Hfit _ _ _ Hl] Hn].
  pose proof (geo_cs_pos _ (so_geo _ Hs)) as Hcs. destruct (geo_cs_eight _ (so_geo _ Hs)) as [_ H2].
  set (cs := cluster_size (geometry w)) in *. set (epr := entries_per_refblock (geometry w)) in *.
  pose proof (Z.div_pos host cs ltac:(lia) ltac:(lia)) as Hi0.
  pose proof (Z.div_pos (host / cs) epr ltac:(lia) ltac:(lia)) as Hb0.
  unfold locate_refcount, udiv, urem. fold cs epr.
  destruct (Z.eqb_spec cs 0); [lia|]. cbn [obind]. destruct (Z.eqb_spec epr 0); [lia|]. cbn [obind].
  change (blen (st_refblocks r) / cs) with (rb_count w r).
  pose proof (Z.div_mod (host / cs) epr ltac:(lia)).
  pose proof (Z.mod_pos_bound (host / cs) epr ltac:(lia)).
  destruct (Z.leb_spec (rb_count w r) (host / cs / epr)); [split; [done|nia]|].
  assert (host / cs < rb_count w r * epr) by nia.
  rewrite wmul_small by (unfold u64_max; nia). rewrite wadd_small by (unfold u64_max; nia).
  destruct (slice _ _ _) as [block|] eqn:Hsl; [|rewrite slice_Some_2 in Hsl by nia; done].
  cbn [or_panic obind]. repeat split; lia || done.
Qed.

Lemma read_staged_refcount_spec w r host : state_ok w -> staged_ok w r -> 0 <= host ->
  match read_staged_refcount w r host with
  | Ok v => v = entry (st_refblocks r) (host / cluster_size (geometry w)) /\
      host / cluster_size (geometry w) < rb_count w r * entries_per_refblock (geometry w)
  | Err e => e = WeRefcountCoverage /\
      rb_count w r * entries_per_refblock (geometry w) <= host / cluster_size (geometry w)
  | _ => False
  end.
Proof.
  intros Hs Hr Hh. pose proof (locate_refcount_spec w r host Hs Hr Hh) as Hl. cbv zeta in Hl.
  unfold read_staged_refcount.
  destruct (locate_refcount _ _ _) as [[[[rb start] block] local]| | |]; try done.
  destruct Hl as (Hi & -> & _ & -> & -> & Hsl). cbn [obind].
  rewrite (go_rb _ (so_geo _ Hs)).
  rewrite (read_block_entry _ _ _ _ _ _ (proj1 (staged_blocks_of _ _ Hs Hr)) Hi Hsl).
  split; [done|apply Hi].
Qed.

(** What [dec_refcount] does on success: one entry drops by one. *)
Record decremented {P} (pre : list Step) (s : PS P) (h : Z) (s' : PS P) : Prop := {
  dc_state : exists words b, s' =
    mkPS (set_refblock_dirty_words words (ws s)) (with_refblocks (st s) b) (pr s) (sb s) /\
    forall j, 0 <= j < rb_count (ws s) (st s) * entries_per_refblock (geometry (ws s)) ->
      entry b j = if j =? h / cluster_size (geometry (ws s))
                  then entry (st_refblocks (st s)) j - 1 else entry (st_refblocks (st s)) j;
  dc_mem : mem_ok pre s';
  dc_marked : marked (ws s) (st s) (ws s') (st s');
  dc_pos : 1 <= entry (st_refblocks (st s)) (h / cluster_size (geometry (ws s)))
}.

Lemma wp_dec_refcount {P} pre (s : PS P) h Q R : mem_ok pre s -> 0 <= h ->
  (forall e, e = WeRefcountCoverage \/ e = WeRefcountInconsistent -> R e s) ->
  (forall s', decremented pre s h s' -> Q tt s') ->
  wp (dec_refcount h) Q R s.
Proof.
  intros Hm Hh HR HQ. pose proof Hm as [Hb Hbuf Hr]. pose proof (ba_state _ _ Hb) as Hs.
  destruct (staged_blocks_of _ _ Hs Hr) as [Hsb Hn].
  pose proof (locate_refcount_spec (ws s) (st s) h Hs Hr Hh) as Hl. cbv zeta in Hl.
  unfold dec_refcount. do 4 wstep.
  destruct (locate_refcount _ _ _) as [[[[rb start] block] local]|e| |]; try done.
  2:{ destruct Hl as [-> _]. apply HR. by left. }
  destruct Hl as (Hi & -> & Hrb & -> & -> & Hsl). set (i := h / cluster_size (geometry (ws s))) in *.
  do 2 wstep. rewrite (go_rb _ (so_geo _ Hs)). rewrite (read_block_entry _ _ _ _ _ _ Hsb Hi Hsl).
  cbn [map_err]. do 2 wstep.
  pose proof (entry_bound _ _ _ _ _ Hsb Hi) as Hbnd. unfold check_refcount_after_addend.
  change (16 =? 0) with false. change (0 <=? -1) with false. change (Z.abs (-1)) with 1. cbv iota zeta.
  destruct (Z.ltb_spec (entry (st_refblocks (st s)) i) 1); cbn [map_err]; [apply HR; by right|].
  do 2 wstep. destruct (set_in_blocks _ _ _ _ _ (entry (st_refblocks (st s)) i - 1) Hsb Hi)
    as (b0 & b' & blocks' & Hsl' & Hset & Hspl & Hspl2).
  rewrite Hsl in Hsl'. injection Hsl' as <-. rewrite Hset. cbn [map_err]. do 2 wstep.
  rewrite Hspl. cbn [or_panic]. do 2 wstep.
  destruct (refblock_dirty_set_ok (E := WriteError) (ws s)
    (i / entries_per_refblock (geometry (ws s)))) as (words & Hw & Hwl & Hmk & Hkeep); [done|lia|].
  eapply wp_upd_ws; [exact Hw|]. apply HQ.
  assert (forall j, 0 <= j < rb_count (ws s) (st s) * entries_per_refblock (geometry (ws s)) ->
    staged_blocks blocks' (cluster_size (geometry (ws s))) (entries_per_refblock (geometry (ws s)))
      (rb_count (ws s) (st s)) /\
    entry blocks' j = if j =? i then entry (st_refblocks (st s)) i - 1
                      else entry (st_refblocks (st s)) j) as Hent.
  { intros j Hj. apply (entry_splice _ i _ _ _ _ _ _ Hsb Hj); [lia | lia | done]. }
  split.
  - exists words, blocks'. split; [done|]. intros j Hj. destruct (Hent j Hj) as [_ ->]. fold i.
    destruct (Z.eqb_spec j i) as [->|]; done.
  - split; [by apply base_refblocks | done|]. apply (staged_ok_core (ws s)); [|done..].
    apply staged_ok_refblocks; [done..|]. apply (Hent i Hi).
  - split; [|done|].
    + cbn. by rewrite (sb_len _ _ _ _ Hsb), (sb_len _ _ _ _ (proj1 (Hent i Hi))).
    + cbn. intros j Hj. destruct (Hent j Hj) as [_ ->]. destruct (Z.eqb_spec j i) as [->|]; [|done].
      intros _. apply Hmk. unfold rb_count in *. pose proof (sr_count _ _ Hr). lia.
  - fold i. lia.
Qed.

(** ** Classification *)

Lemma land_mask_bound x m : 0 <= m -> 0 <= Z.land x m <= m.
Proof.
  intros Hm. split; [apply Z.land_nonneg; by right|].
  destruct (Z.eq_dec (Z.land x m) 0) as [->|]; [done|].
  pose proof (proj2 (Z.land_nonneg x m) (or_intror Hm)).
  rewrite Z.land_comm in *. apply Z.ldiff_le; [done|].
  apply Z.bits_inj'. intros k Hk. rewrite Z.ldiff_spec, Z.land_spec, Z.bits_0.
  destruct (Z.testbit m k), (Z.testbit x k); done.
Qed.

Lemma masked_host_ok cs x : 512 <= cs -> is_multiple_of (Z.land x L2_OFFSET_MASK) cs = true ->
  host_ok cs (Z.land x L2_OFFSET_MASK).
Proof.
  intros Hcs Hm. apply is_multiple_of_spec in Hm; [|lia]. split; [|done].
  pose proof (land_mask_bound x L2_OFFSET_MASK ltac:(done)) as Hb.
  change (2 ^ 56) with 72057594037927936. unfold L2_OFFSET_MASK in *. lia.
Qed.

Lemma land_host_mask cs cb h : cs = 2 ^ cb -> 9 <= cb <= 21 -> host_ok cs h ->
  Z.land h L2_OFFSET_MASK = h.
Proof.
  intros -> Hcb [Hh Hal]. apply Z.bits_inj'. intros k Hk. rewrite Z.land_spec.
  replace L2_OFFSET_MASK with (Z.shiftl (Z.ones 47) 9) by reflexivity.
  destruct (Z.lt_ge_cases k 9) as [Hlt|Hge].
  - rewrite (Z.shiftl_spec_low _ 9 k Hlt), andb_false_r. symmetry.
    rewrite <- (Z.mod_pow2_bits_low h cb k) by lia. by rewrite Hal, Z.bits_0.
  - rewrite Z.shiftl_spec by lia. destruct (Z.lt_ge_cases k 56).
    + rewrite Z.ones_spec_low by lia. by rewrite andb_true_r.
    + rewrite Z.ones_spec_high by lia. rewrite andb_false_r. symmetry.
      rewrite <- (Z.mod_small h (2 ^ 56)) by lia. apply Z.mod_pow2_bits_high. lia.
Qed.

Lemma host_entry_mask cs cb h : cs = 2 ^ cb -> 9 <= cb <= 21 -> host_ok cs h ->
  Z.land (Z.lor h OFLAG_COPIED) L1_OFFSET_MASK = h.
Proof.
  intros Hcs Hcb Hh. change L1_OFFSET_MASK with L2_OFFSET_MASK.
  rewrite Z.land_lor_distr_l, (land_host_mask cs cb h Hcs Hcb Hh). apply Z.lor_0_r.
Qed.

(** The L1 patch right after the initialisation of a slot publishes it. *)
Lemma homes_publish tr w w' p x sl : geo_ok (geometry w) -> homes (Some (wp_slot p)) tr w ->
  host_ok (cluster_size (geometry w)) (wp_l2_host p) ->
  slot_initialised (cluster_size (geometry w)) (wp_slot p) tr ->
  slot_at (l2_slots w) (wp_slot p) = Some sl -> slot_host_offset sl = wp_l2_host p ->
  kind x = PatchEntryU64 -> region x = RL1 -> region_offset x = 8 * slot_l1_idx sl ->
  value x = Z.lor (wp_l2_host p) OFLAG_COPIED ->
  l2_slots w' = l2_slots w -> config w' = config w -> homes None (tr ++ [x]) w'.
Proof.
  intros Hg Hh Hho (a & y & -> & Hyr & _ & _ & Hyk) Hat Hhs Hk Hr Ho Hv Hl Hc i s.
  rewrite Hl, Hc, slot_table_snoc, just_initialised_snoc. unfold table_step. rewrite Hk, Hr, Hyr.
  intros Hi Hlt Hva _. destruct (Z.eq_dec (wp_slot p) i) as [<-|Hne].
  - rewrite Hat in Hi. injection Hi as <-. exists (Some (slot_l1_idx sl)). split; [|by right].
    rewrite Hv, (host_entry_mask _ _ _ (go_cs _ Hg) (go_bits _ Hg) Hho), Ho, Z.mul_comm, Z.div_mul, Hhs by done.
    destruct Hyk as [->| ->]; by rewrite Z.eqb_refl.
  - destruct (Hh i s Hi Hlt Hva ltac:(congruence)) as (o & Ht & Hi').
    exists o. split; [|done]. rewrite <- Ht.
    destruct Hyk as [->| ->]; destruct (Z.eqb_spec i (wp_slot p)); done || lia.
Qed.

(** The refcount of a host cluster in the staged refblocks. *)
Definition staged_rc (w : WriteState) (r : StagedRegions) (h : Z) : Z :=
  entry (st_refblocks r) (h / cluster_size (geometry w)).

(** A cluster the planner may overwrite in place has exactly one reference. *)
Lemma classify_spec w r e : state_ok w -> staged_ok w r ->
  match classify_l2_entry w r e with
  | Ok CUnallocated => True
  | Ok (COwned h) => host_ok (cluster_size (geometry w)) h /\ staged_rc w r h = 1
  | Ok (COwnedZero h) => host_ok (cluster_size (geometry w)) h /\ staged_rc w r h = 1
  | Ok (CCowData old _) => host_ok (cluster_size (geometry w)) old /\ cow_enabled w = true
  | Err err => err <> WeBufFull
  | _ => False
  end.
Proof.
  intros Hs Hr. pose proof (geo_cs_pos _ (so_geo _ Hs)) as Hcs. unfold classify_l2_entry.
  destruct (e =? 0); [done|]. destruct (nonzero (Z.land e OFLAG_COMPRESSED)); [done|].
  destruct (nonzero (Z.land e (not64 L2_KNOWN_BITS))); [done|].
  pose proof (land_mask_bound e L2_OFFSET_MASK ltac:(done)) as [Hh0 _].
  pose proof (read_staged_refcount_spec w r _ Hs Hr Hh0) as Hrc.
  pose proof (masked_host_ok (cluster_size (geometry w)) e ltac:(lia)) as Hhost.
  destruct (staged_blocks_of _ _ Hs Hr) as [Hsb _].
  assert (forall i, 0 <= entry (st_refblocks r) i) as Hpos.
  { intros i. unfold entry. destruct (slice _ _ _) as [b|] eqn:Hb; [|done]. cbn.
    apply be_val_bound. exact (slice_is_bytes _ _ _ _ (sb_bytes _ _ _ _ Hsb) Hb). }
  specialize (Hpos (Z.land e L2_OFFSET_MASK / cluster_size (geometry w))).
  destruct (is_multiple_of (Z.land e L2_OFFSET_MASK) (cluster_size (geometry w))); cbn [negb].
  - specialize (Hhost eq_refl).
    destruct (read_staged_refcount w r (Z.land e L2_OFFSET_MASK)) as [v|err| |]; try done;
      cbn [obind]; destruct Hrc as [-> _]; unfold staged_rc; bool_cases; bool_to_prop; try done; split; done || lia.
  - rewrite orb_true_r. bool_cases; done.
Qed.

Lemma validate_l1_spec w r e : state_ok w -> staged_ok w r ->
  match validate_l1_entry w r e with
  | Ok (L1Owned h) | Ok (L1CowL2 h) => host_ok (cluster_size (geometry w)) h
  | Err err => err <> WeBufFull
  | _ => False
  end.
Proof.
  intros Hs Hr. pose proof (geo_cs_pos _ (so_geo _ Hs)) as Hcs. unfold validate_l1_entry.
  destruct (nonzero _); [done|]. change L1_OFFSET_MASK with L2_OFFSET_MASK.
  pose proof (land_mask_bound e L2_OFFSET_MASK ltac:(done)) as [Hh0 _].
  pose proof (read_staged_refcount_spec w r _ Hs Hr Hh0) as Hrc.
  pose proof (masked_host_ok (cluster_size (geometry w)) e ltac:(lia)) as Hhost.
  destruct (is_multiple_of (Z.land e L2_OFFSET_MASK) (cluster_size (geometry w))); cbn [negb].
  - specialize (Hhost eq_refl).
    destruct (read_staged_refcount w r (Z.land e L2_OFFSET_MASK)) as [v|err| |]; try done;
      cbn [obind]; destruct Hrc as [-> _]; bool_cases; done.
  - rewrite orb_true_r. done.
Qed.

Lemma read_staged_l2_entry_ok w r slot idx : state_ok w -> staged_ok w r ->
  0 <= slot < cfg_l2_slots (config w) -> 0 <= idx < entries_per_l2 (geometry w) ->
  exists v, read_staged_l2_entry w r slot idx = Ok v.
Proof.
  intros Hs Hr Hsl Hi. pose proof (so_slots _ Hs) as Hn. unfold MAX_L2_SLOTS in Hn.
  pose proof (geo_cs_pos _ (so_geo _ Hs)) as Hcs. destruct (geo_cs_eight _ (so_geo _ Hs)) as [H8 _].
  unfold read_staged_l2_entry, pending_zero_get.
  destruct (bit_get_range (slot_pending_zero w) slot 4 (so_pz_words _ Hs) ltac:(lia)) as [b ->].
  cbn [or_panic obind]. destruct b; [eauto|]. pose proof (sr_l2 _ _ Hr).
  assert (slot * cluster_size (geometry w) <= 255 * 2097152) by nia.
  rewrite !wmul_small by (unfold u64_max; nia). rewrite wadd_small by (unfold u64_max; nia).
  destruct (be_u64_ok (E := WriteError) (st_l2_window r) (slot * cluster_size (geometry w) + idx * 8))
    as (v & _ & ->); [nia..|]. eauto.
Qed.
