(* ===== verification/WriteStages.v ===== *)
(** The stage machine of [plan_write] keeps the planner invariant: one lemma per
    arm of [drive_write]'s match, then the two loops.  Each arm either fails,
    leaving the request resumable when the error is [BufFull], or moves to a
    stage of smaller rank, or closes the cluster. *)

From stdpp Require Import base numbers list sets.
From Stdlib Require Import ZArith Lia.
From S2P Require Import Prelude Bytes Refcount Qcow2 WriteTypes WritePlan WriteInv.

Abbreviation WS := (PS WriteProgress).

(** ** Invariant and frame of a [drive_write] run *)

Record winv (pre : list Step) (s : WS) : Prop := {
  wi_mem : mem_ok pre s;
  wi_prog : prog_ok (ws s) (pr s);
  wi_stage : stage_inv (tr_of pre s) (ws s) (pr s);
  wi_homes : homes (exempt (pr s)) (tr_of pre s) (ws s)
}.

(** The steps [plan_write] may emit: no barrier and no L1 or refblock
    write-back. *)
Definition write_step (x : Step) : bool :=
  negb (is_barrier (kind x)) && negb (is_l1_write x) && negb (is_rb_write x).

(** What no stage changes, and what it may append to the window. *)
Record frame (s s' : WS) : Prop := {
  fr_geo : geometry (ws s') = geometry (ws s);
  fr_cfg : config (ws s') = config (ws s);
  fr_pending : pending (ws s') = pending (ws s);
  fr_voff : wp_voff (pr s') = wp_voff (pr s);
  fr_len : wp_len (pr s') = wp_len (pr s);
  fr_data : wp_data (pr s') = wp_data (pr s);
  fr_cap : sb_capacity (sb s') = sb_capacity (sb s);
  fr_marked : marked (ws s) (st s) (ws s') (st s');
  fr_steps : exists g, sb_steps (sb s') = sb_steps (sb s) ++ g /\
    Forall (fun x => write_step x = true) g
}.

Lemma frame_trans s1 s2 s3 : frame s1 s2 -> frame s2 s3 -> frame s1 s3.
Proof.
  intros [] []. split; try congruence; [by eapply marked_trans|].
  destruct fr_steps0 as (g & Hg & Fg), fr_steps1 as (g' & Hg' & Fg').
  exists (g ++ g'). split; [by rewrite Hg', Hg, app_assoc | by apply Forall_app].
Qed.

Definition rank (x : ClusterStage) : nat :=
  match x with
  | Enter => 9
  | SlotFree => 8
  | FreshAlloc => 7
  | FreshZeroed => 6
  | SlotReady => 5
  | CowDataEnter => 4
  | DataAlloc | CowDataCopy => 3
  | HeadDone | CowDataBody | CowL2Load => 2
  | BodyDone | CowDataPatch | CowL2Repoint => 1
  | TailDone | CowDataDecrement | CowL2Decrement => 0
  end.

Definition ctx_of (g : Geometry) (p : WriteProgress) : Ctx :=
  mkCtx (p_cur p) (p_l1_idx g p) (p_l2_idx g p) (p_in_off g p) (p_win_len g p).

(** Results of one stage from state [s]. *)
Definition stage_ok (pre : list Step) (s : WS) (r : Ctrl) (s' : WS) : Prop :=
  frame s s' /\ winv pre s' /\
  match r with
  | Stay => wp_consumed (pr s') = wp_consumed (pr s) /\
            (rank (wp_stage (pr s')) < rank (wp_stage (pr s)))%nat
  | BreakCluster => wp_stage (pr s') = Enter /\
      wp_consumed (pr s') = wp_consumed (pr s) + p_win_len (geometry (ws s)) (pr s)
  end.

Definition stage_err (pre : list Step) (s : WS) (e : WriteError) (s' : WS) : Prop :=
  frame s s' /\ base (tr_of pre s') (ws s') /\
  homes (if bool_decide (e = WeBufFull) then exempt (pr s') else None) (tr_of pre s') (ws s') /\
  (e = WeBufFull -> prog_ok (ws s') (pr s') /\ stage_inv (tr_of pre s') (ws s') (pr s') /\
     wp_consumed (pr s') = wp_consumed (pr s)).

(** ** Small lemmas *)

Lemma mem_ok_pr {P P'} pre (s : PS P) (p : P') :
  mem_ok pre s -> mem_ok pre (mkPS (ws s) (st s) p (sb s)).
Proof. intros []. by split. Qed.

Lemma stage_err_same pre s e : winv pre s -> e = WeBufFull \/ exempt (pr s) = None ->
  stage_err pre s e s.
Proof.
  intros [[] ? ? Hh] He. split; [|split; [done|split; [|done]]].
  - split; try done. exists []. split; [by rewrite app_nil_r|constructor].
  - destruct (bool_decide_reflect (e = WeBufFull)) as [|Hne]; [done|].
    destruct He as [He|He]; [congruence|]. by rewrite He in Hh.
Qed.

(** A failure that changes nothing, at a stage whose table is published. *)
Ltac err_same :=
  apply stage_err_same; [done | first [left; reflexivity | right; unfold exempt;
    match goal with H : wp_stage _ = _ |- _ => rewrite H; reflexivity end]].

Lemma prog_ok_ext w w' p p' : prog_ok w p -> geometry w' = geometry w -> config w' = config w ->
  wp_voff p' = wp_voff p -> wp_len p' = wp_len p -> wp_consumed p' = wp_consumed p ->
  0 <= wp_slot p' < cfg_l2_slots (config w) -> prog_ok w' p'.
Proof.
  intros [] Hg Hc Hv Hl Hcon Hs. split; rewrite ?Hg, ?Hc, ?Hv, ?Hl, ?Hcon; done.
Qed.

Lemma as_u16_slot w i : state_ok w -> 0 <= i < cfg_l2_slots (config w) -> as_u16 i = i.
Proof.
  intros Hs Hi. pose proof (so_slots _ Hs) as Hn. unfold MAX_L2_SLOTS in Hn.
  apply Z.mod_small. lia.
Qed.

Lemma slot_lookup w i : state_ok w -> 0 <= i < cfg_l2_slots (config w) ->
  exists sl, slot_at (l2_slots w) i = Some sl.
Proof.
  intros Hs Hi. pose proof (so_slots _ Hs) as Hn. unfold MAX_L2_SLOTS in Hn.
  apply slot_at_range; [apply Hs|lia].
Qed.

Lemma slot_at_put w i j sl : state_ok w -> 0 <= i < cfg_l2_slots (config w) ->
  slot_at (<[Z.to_nat i := sl]> (l2_slots w)) j = if i =? j then Some sl else slot_at (l2_slots w) j.
Proof.
  intros Hs Hi. pose proof (so_slots _ Hs) as Hn. unfold MAX_L2_SLOTS in Hn.
  apply slot_at_insert; [apply Hs|lia].
Qed.

Lemma put_slot_ok {E} w i sl : state_ok w -> 0 <= i < cfg_l2_slots (config w) ->
  put_slot (E := E) w i sl = Ok (set_l2_slots (<[Z.to_nat i := sl]> (l2_slots w)) w).
Proof. intros Hs Hi. unfold put_slot. by destruct (slot_lookup w i Hs Hi) as [? ->]. Qed.

Lemma state_ok_slots w i sl : state_ok w -> state_ok (set_l2_slots (<[i := sl]> (l2_slots w)) w).
Proof. intros []. split; cbn; try done. by rewrite length_insert. Qed.

(** Replacing a slot by one that keeps or drops its claim on an L2 table. *)
Lemma base_put tr w k old sl : base tr w -> 0 <= k < cfg_l2_slots (config w) ->
  slot_at (l2_slots w) k = Some old ->
  (slot_unsaved k tr = true -> slot_valid sl = true /\ slot_dirty sl = true) ->
  (slot_valid sl = true -> slot_valid old = true /\ slot_l1_idx sl = slot_l1_idx old) ->
  base tr (set_l2_slots (<[Z.to_nat k := sl]> (l2_slots w)) w).
Proof.
  intros Hb Hk Hat Hd Hv. eapply (base_slot tr w _ k sl); try done.
  - by apply state_ok_slots, (ba_state _ _ Hb).
  - intros Hsl i s Hne Hlt Hi Hvi Heq. destruct (Hv Hsl) as [Hvo Hlo].
    apply Hne. eapply (ba_unique _ _ Hb i k s old); try done; [lia|congruence].
Qed.

(** The slot claimed by a vacant position. *)
Lemma base_assign tr w p sl : base tr w -> vacant w p -> 0 <= wp_slot p < cfg_l2_slots (config w) ->
  slot_l1_idx sl = p_l1_idx (geometry w) p ->
  base tr (set_l2_slots (<[Z.to_nat (wp_slot p) := sl]> (l2_slots w)) w).
Proof.
  intros Hb [Hnd Hno] Hk Hl1. eapply (base_slot tr w _ (wp_slot p) sl); try done.
  - by apply state_ok_slots, (ba_state _ _ Hb).
  - intros Hu. destruct Hnd. exact (tk_slots _ _ (ba_tracks _ _ Hb) _ Hu).
  - intros _ i s _ Hlt Hi Hvi. rewrite Hl1. eauto.
Qed.

Lemma serving_put w p sl : state_ok w -> 0 <= wp_slot p < cfg_l2_slots (config w) ->
  slot_valid sl = true -> slot_l1_idx sl = p_l1_idx (geometry w) p ->
  serving (set_l2_slots (<[Z.to_nat (wp_slot p) := sl]> (l2_slots w)) w) p.
Proof.
  intros Hs Hk Hv Hl. exists sl. cbn. rewrite (slot_at_put w _ _ _ Hs Hk), Z.eqb_refl. done.
Qed.

Lemma dirty_put w k sl : state_ok w -> 0 <= k < cfg_l2_slots (config w) ->
  slot_valid sl = true -> slot_dirty sl = true ->
  dirty_slot (set_l2_slots (<[Z.to_nat k := sl]> (l2_slots w)) w) k.
Proof.
  intros Hs Hk Hv Hd. split; [cbn; lia|]. exists sl. cbn.
  by rewrite (slot_at_put w _ _ _ Hs Hk), Z.eqb_refl.
Qed.

(** [touch] restamps one slot. *)
Lemma touch_ok {E} tr w k sl : base tr w -> 0 <= k < cfg_l2_slots (config w) ->
  slot_at (l2_slots w) k = Some sl ->
  exists w', touch (E := E) w k = Ok w' /\ base tr w' /\ geometry w' = geometry w /\
    config w' = config w /\ pending w' = pending w /\
    refblock_dirty_words w' = refblock_dirty_words w /\
    l2_slots w' = <[Z.to_nat k := mkL2Slot (slot_valid sl) (slot_dirty sl) (slot_l1_idx sl)
       (slot_host_offset sl) (wadd (access_counter w) 1)]> (l2_slots w).
Proof.
  intros Hb Hk Hat. set (w1 := set_access_counter (wadd (access_counter w) 1) w).
  assert (base tr w1) as Hb1.
  { apply (base_core tr w); [done|by split|]. destruct (ba_state _ _ Hb). by split. }
  unfold touch. rewrite Hat. cbn [or_panic obind]. fold w1.
  rewrite (put_slot_ok w1 k _ (ba_state _ _ Hb1) Hk). eexists. split; [done|].
  split; [|done]. apply (base_put tr w1 k sl); try done.
  intros Hu. destruct (tk_slots _ _ (ba_tracks _ _ Hb) _ Hu) as (_ & sl' & Hat' & ? & ?).
  simplify_eq. done.
Qed.

(** ** Groups *)

Lemma group_nil h cs tr : group h cs h (h + 0) tr.
Proof. exists tr, []. rewrite app_nil_r. repeat split; [constructor|]. intros o ?. lia. Qed.

Lemma group_keep h cs lo hi tr x : group h cs lo hi tr -> fills h cs x ->
  group h cs lo hi (tr ++ [x]).
Proof.
  intros (a & g & -> & Hf & Hw) Hx. exists a, (g ++ [x]). rewrite app_assoc. split; [done|].
  split; [apply Forall_app; by split; [|constructor]|].
  intros o Ho. apply Exists_app. left. by apply Hw.
Qed.

(** A data write that continues where the covered range ends. *)
Lemma group_write h cs lo hi hi' tr x : group h cs lo hi tr -> is_data_write x = true ->
  h <= disk_offset x <= hi -> disk_offset x + len x = hi' -> hi' <= h + cs ->
  group h cs lo hi' (tr ++ [x]).
Proof.
  intros (a & g & -> & Hf & Hw) Hx Ho Hl Hhi. exists a, (g ++ [x]). rewrite app_assoc.
  split; [done|]. split.
  - apply Forall_app. split; [done|]. constructor; [|constructor]. left. split; [done|]. lia.
  - intros o Hr. apply Exists_app. destruct (Z.lt_ge_cases o hi).
    + left. apply Hw. lia.
    + right. constructor. split; [done|]. lia.
Qed.

Lemma body_step_data data consumed off n dev :
  is_data_write (body_step data consumed off n dev) = true /\
  disk_offset (body_step data consumed off n dev) = off /\
  len (body_step data consumed off n dev) = n /\
  write_step (body_step data consumed off n dev) = true /\
  (forall i, dirties_slot i (body_step data consumed off n dev) = false) /\
  is_l1_patch (body_step data consumed off n dev) = false /\
  (forall g a, step_ok g dev a (body_step data consumed off n dev)) /\
  moves_table (body_step data consumed off n dev) = false /\
  is_barrier (kind (body_step data consumed off n dev)) = false.
Proof. by destruct data. Qed.

(** ** Pushing inside a stage *)

Lemma frame_refl (s : WS) : frame s s.
Proof. split; try done. exists []. by rewrite app_nil_r. Qed.

Lemma frame_push x (s : WS) : write_step x = true -> frame s (pushed x s).
Proof.
  intros Hx. split; try done. exists [x]. by split; [|constructor].
Qed.

(** Later updates of the planner state, progress or staged bytes. *)
Lemma frame_upd s s1 s2 : frame s s1 -> sb s2 = sb s1 ->
  geometry (ws s2) = geometry (ws s1) -> config (ws s2) = config (ws s1) ->
  pending (ws s2) = pending (ws s1) ->
  wp_voff (pr s2) = wp_voff (pr s1) -> wp_len (pr s2) = wp_len (pr s1) ->
  wp_data (pr s2) = wp_data (pr s1) -> st_refblocks (st s2) = st_refblocks (st s1) ->
  refblock_dirty_words (ws s2) = refblock_dirty_words (ws s1) -> frame s s2.
Proof.
  intros [] Hb Hg Hc Hp Hv Hl Hd Hr Hw. split; rewrite ?Hb; try (congruence || done).
  eapply marked_trans; [eassumption..|]. by apply marked_same.
Qed.

Ltac frame_tac :=
  first [ apply frame_refl | eassumption
        | eapply frame_upd; [apply frame_refl | reflexivity ..]
        | eapply frame_upd; [eassumption | reflexivity ..]
        | eapply frame_trans; [|eassumption]; frame_tac
        | eapply frame_upd; [frame_tac | reflexivity ..] ].

Lemma write_step_barrier x : write_step x = true -> is_barrier (kind x) = false.
Proof. unfold write_step. by destruct (is_barrier _). Qed.

(** A step that marks nothing. *)
Lemma wp_push pre (s : WS) x (Q : unit -> WS -> Prop) R : mem_ok pre s -> R WeBufFull s ->
  write_step x = true -> step_ok (geometry (ws s)) (cfg_device (config (ws s))) (tr_of pre s) x ->
  (forall i, dirties_slot i x = false) -> is_l1_patch x = false ->
  (mem_ok pre (pushed x s) -> frame s (pushed x s) ->
   tr_of pre (pushed x s) = tr_of pre s ++ [x] -> Q tt (pushed x s)) ->
  wp (push_step x) Q R s.
Proof.
  intros Hm HR Hw Hx Hd Hl HQ. apply (wp_push_step pre); [done..|]. intros Hbuf Htr Hn.
  apply HQ; [|by apply frame_push|done]. destruct Hm as [Hb _ Hst]. split; [|done|].
  - rewrite Htr. cbn [ws pushed] in *. apply base_push; try done.
    + intros i. by rewrite Hd.
    + by rewrite Hl.
  - apply (staged_ok_core (ws s)); done.
Qed.

(** A step that patches or zeroes the slot [k], followed by marking it dirty. *)
Lemma pushed_dirty pre (s : WS) x k sl :
  mem_ok pre s -> buf_ok pre (pushed x s) -> tr_of pre (pushed x s) = tr_of pre s ++ [x] ->
  steps_since_barrier (ws (pushed x s)) =
    (if is_barrier (kind x) then 0 else since_barrier (tr_of pre s) + 1) ->
  step_ok (geometry (ws s)) (cfg_device (config (ws s))) (tr_of pre s) x ->
  (forall i, dirties_slot i x = true -> i = k) -> is_l1_patch x = false ->
  0 <= k < cfg_l2_slots (config (ws s)) -> slot_valid sl = true -> slot_dirty sl = true ->
  base (tr_of pre s) (set_l2_slots (<[Z.to_nat k := sl]> (l2_slots (ws s))) (ws s)) ->
  mem_ok pre (set_ws (set_l2_slots (<[Z.to_nat k := sl]> (l2_slots (ws s))) (ws (pushed x s)))
                (pushed x s)).
Proof.
  intros [Hb _ Hst] Hbuf Htr Hn Hx Hd Hl Hk Hv Hdt Hb'. split; [|done|].
  - unfold tr_of in *. cbn [sb set_ws] in *. rewrite Htr. cbn [ws pushed] in *.
    apply (base_push _ _ _ _ Hb'); try done; [|by rewrite Hl].
    intros i Hi. rewrite (Hd i Hi). apply dirty_put; try done. apply Hb.
  - apply (staged_ok_core (ws s)); done.
Qed.

Lemma wp_bind_inv {S E A B} (m : SM S E A) (k : A -> SM S E B) Q R s :
  wp (sbind m k) Q R s -> wp m (fun a s' => wp (k a) Q R s') R s.
Proof. unfold wp, sbind. by destruct (m s) as [[a|e| |] s']. Qed.

(** ** The stages *)

Section stages.
Context (pre : list Step) (s : WS).
Context (Hinv : winv pre s) (Hmore : wp_consumed (pr s) < wp_len (pr s)).
Let c : Ctx := ctx_of (geometry (ws s)) (pr s).
Let Hmem : mem_ok pre s := wi_mem _ _ Hinv.
Let Hprog : prog_ok (ws s) (pr s) := wi_prog _ _ Hinv.
Let Hbase : base (tr_of pre s) (ws s) := mo_base _ _ Hmem.
Let Hstate : state_ok (ws s) := ba_state _ _ Hbase.
Let Hslot : 0 <= wp_slot (pr s) < cfg_l2_slots (config (ws s)) := po_slot _ _ Hprog.
Let Hhomes : homes (exempt (pr s)) (tr_of pre s) (ws s) := wi_homes _ _ Hinv.

(** At every stage but two, all tables are where the window says. *)
Lemma settled st : wp_stage (pr s) = st -> st <> FreshZeroed -> st <> CowL2Repoint ->
  homes None (tr_of pre s) (ws s).
Proof.
  intros Hst H1 H2. pose proof Hhomes as Hh. unfold exempt in Hh. rewrite Hst in Hh. by destruct st.
Qed.

(** Rewrite the trace of a [homes] goal with an equation for a convertible one. *)
Ltac on_trace Htr :=
  match type of Htr with ?t = _ => match goal with |- homes ?e _ ?w =>
    change (homes e t w); rewrite Htr end end.

Ltac settle :=
  match goal with H : wp_stage _ = _ |- _ =>
    exact (settled _ H ltac:(discriminate) ltac:(discriminate)) end.

(** Leaving a stage for [x] from an intermediate state. *)
Lemma wp_goto s1 x (R : WriteError -> WS -> Prop) :
  frame s s1 -> mem_ok pre s1 -> prog_ok (ws s1) (pr s1) ->
  stage_inv (tr_of pre s1) (ws s1) (with_stage x (pr s1)) ->
  wp_consumed (pr s1) = wp_consumed (pr s) -> (rank x < rank (wp_stage (pr s)))%nat ->
  homes (exempt (with_stage x (pr s1))) (tr_of pre s1) (ws s1) ->
  wp (goto x) (stage_ok pre s) R s1.
Proof.
  intros Hf Hm Hp Hst Hc Hr Hh. unfold goto, upd_pr. do 3 wstep. split; [|split].
  - by apply (frame_upd s s1).
  - split; [by apply mem_ok_pr | by apply (prog_ok_ext (ws s1) (ws s1) (pr s1)); try apply Hp | done | done].
  - done.
Qed.

Lemma stage_enter_spec : wp_stage (pr s) = Enter ->
  wp (stage_enter c) (stage_ok pre s) (stage_err pre s) s.
Proof.
  intros Hst. unfold stage_enter. do 4 wstep.
  pose proof (find_slot_spec (E := WriteError) (ws s) (c_l1_idx c) Hstate) as Hfind.
  destruct (find_slot _ _) as [[i|]|e| |]; try done; unfold upd_pr.
  - destruct Hfind as (Hi & sl & Hat & Hv & Hl). do 3 wstep.
    destruct (touch_ok (E := WriteError) _ _ _ _ Hbase Hi Hat) as (w' & Ht & Hb' & Hg & Hc & Hpe & Hrbw & Hsl).
    eapply wp_upd_ws; [exact Ht|]. apply wp_goto; cbn.
    + eapply frame_upd; [apply frame_refl | done..].
    + destruct Hmem. split; [done|done|]. by apply (staged_ok_core (ws s)).
    + apply (prog_ok_ext (ws s) _ (pr s)); try done. cbn. by rewrite (as_u16_slot (ws s)).
    + unfold serving. cbn. rewrite (as_u16_slot (ws s)), Hsl, (slot_at_put (ws s)), Z.eqb_refl by done.
      eexists. split; [done|]. cbn. by rewrite Hl, Hg.
    + done.
    + rewrite Hst. cbn. lia.
    + eapply (homes_put None _ (ws s) _ i sl); [done|settle|done|done| |exact Hsl|done]. done.
  - destruct (pick_victim_range (E := WriteError) (ws s) Hstate) as (v & Hv & Hvr).
    destruct (slot_lookup (ws s) v Hstate Hvr) as [sl Hat].
    assert (prog_ok (ws s) (with_slot (as_u16 v) (pr s))) as Hp1.
    { apply (prog_ok_ext (ws s) _ (pr s)); try done. cbn. by rewrite (as_u16_slot (ws s)). }
    do 2 wstep. rewrite Hv. do 2 wstep. do 2 wstep. rewrite Hat. cbn [or_panic]. wstep.
    destruct (slot_valid sl && slot_dirty sl) eqn:Hvd.
    + bool_to_prop. destruct (settled _ Hst ltac:(done) ltac:(done) v sl Hat ltac:(lia) ltac:(done)
        ltac:(done)) as (o & Ho & _).
      wstep. apply (wp_push pre); try done.
      * by apply mem_ok_pr.
      * split; [frame_tac|]. split; [done|]. split; [|intros _; cbn; split; [done|]].
        -- cbn. unfold exempt. cbn. rewrite Hst. settle.
        -- unfold stage_inv. cbn. by rewrite Hst.
      * split; [done|]. cbn. rewrite (as_u16_slot (ws s)) by done. eauto.
      * intros Hm1 Hf1 Htr1. cbn [dev_of cs_of] in *.
        set (x := writeback_step _ _ _ _) in *. set (s1 := pushed x _) in *.
        assert (slot_unsaved v (tr_of pre s1) = false) as Hsv.
        { rewrite Htr1, slot_unsaved_snoc. unfold x, is_writeback. cbn.
          by rewrite (as_u16_slot (ws s)), Z.eqb_refl. }
        eapply wp_upd_ws; [by apply (put_slot_ok (ws s1)); [apply Hm1|]|].
        apply wp_goto; cbn [ws st pr sb set_ws].
        -- eapply (frame_upd s s1); [|done..]. frame_tac.
        -- split; [|apply Hm1|].
           ++ apply (base_put _ (ws s1) v sl); try done; [apply Hm1|].
              intros Hu. enough (true = false) by done. rewrite <- Hu. exact Hsv.
           ++ apply (staged_ok_core (ws s)); [apply Hmem|done..].
        -- destruct Hp1. by split.
        -- split.
           ++ intros (_ & sl' & Hat' & Hv' & _). cbn in Hat'. revert Hat' Hv'.
              rewrite (as_u16_slot (ws s)), (slot_at_put (ws s)), Z.eqb_refl by done. by intros [= <-].
           ++ intros i sl' Hi' Hlt Hv'. cbn in *. revert Hi'. rewrite (slot_at_put (ws s)) by done.
              destruct (Z.eqb_spec v i); [by intros [= <-]|]. intros Hi'. by apply (Hfind i).
        -- done.
        -- rewrite Hst. cbn. lia.
        -- eapply (homes_put None _ (ws s1) _ v sl); [apply Hm1| |done|done| |reflexivity|done]; [|done].
           on_trace Htr1. apply (homes_push _ _ (ws s)); [settle|done..].
    + wstep. apply wp_goto; cbn.
      * frame_tac.
      * by apply mem_ok_pr.
      * done.
      * split; [|done]. intros (_ & sl' & Hat' & Hv' & Hd'). cbn in Hat'.
        rewrite (as_u16_slot (ws s)), Hat in Hat' by done. injection Hat' as <-.
        by rewrite Hv', Hd' in Hvd.
      * done.
      * rewrite Hst. cbn. lia.
      * settle.
Qed.

Lemma l1_idx_range : 0 <= p_l1_idx (geometry (ws s)) (pr s) < l1_size (geometry (ws s)).
Proof.
  destruct Hprog. pose proof (geo_cs_pos _ (so_geo _ Hstate)).
  pose proof (geo_cs_eight _ (so_geo _ Hstate)) as [H8 _]. pose proof (geo_cov _ (so_geo _ Hstate)).
  assert (0 < l2_coverage (geometry (ws s))) by nia. unfold p_l1_idx, p_cur.
  split; [apply Z.div_pos; lia|]. eapply Z.le_lt_trans; [|exact po_l1]. apply Z.div_le_mono; lia.
Qed.

Lemma l1_entry_read : exists raw,
  be_u64 (E := WriteError) (st_l1 (st s)) (wmul (c_l1_idx c) 8) = Ok raw /\
  wmul (c_l1_idx c) 8 = 8 * p_l1_idx (geometry (ws s)) (pr s).
Proof.
  pose proof l1_idx_range as Hl. pose proof (go_l1 _ (so_geo _ Hstate)) as Hm.
  unfold QCOW2_MAX_L1_SIZE_ENTRIES in Hm. pose proof (sr_l1 _ _ (mo_staged _ _ Hmem)).
  cbn [c_l1_idx c ctx_of]. rewrite wmul_small by (unfold u64_max; lia).
  destruct (be_u64_ok (E := WriteError) (st_l1 (st s)) (p_l1_idx (geometry (ws s)) (pr s) * 8))
    as (b & _ & ->); [lia..|]. eexists. split; [done|]. lia.
Qed.

Lemma wp_assign s1 dirty host Q R : state_ok (ws s1) ->
  0 <= wp_slot (pr s1) < cfg_l2_slots (config (ws s1)) ->
  (forall la, Q tt (set_ws (set_l2_slots (<[Z.to_nat (wp_slot (pr s1)) :=
     mkL2Slot true dirty (c_l1_idx c) host la]> (l2_slots (ws s1))) (ws s1)) s1)) ->
  wp (assign_slot c dirty host) Q R s1.
Proof.
  intros Hs Hk HQ. unfold assign_slot. do 2 wstep.
  destruct (slot_lookup _ _ Hs Hk) as [sl Hat].
  eapply wp_upd_ws; [|apply HQ]. rewrite Hat. cbn [or_panic obind]. by apply put_slot_ok.
Qed.

Lemma vacant_saved : vacant (ws s) (pr s) -> slot_unsaved (wp_slot (pr s)) (tr_of pre s) = false.
Proof.
  intros [Hnd _]. destruct (slot_unsaved _ _) eqn:Hu; [|done].
  destruct Hnd. exact (tk_slots _ _ (ba_tracks _ _ Hbase) _ Hu).
Qed.

(** An allocation changes neither the window nor the progress. *)
Lemma wp_alloc_stage Q R : (forall e, R e s) ->
  (forall h s1, frame s s1 -> mem_ok pre s1 -> host_ok (cluster_size (geometry (ws s))) h ->
     pr s1 = pr s -> tr_of pre s1 = tr_of pre s -> geometry (ws s1) = geometry (ws s) ->
     config (ws s1) = config (ws s) -> l2_slots (ws s1) = l2_slots (ws s) -> Q h s1) ->
  wp alloc_cluster Q R s.
Proof.
  intros HR HQ. apply (wp_alloc_cluster pre); [done|apply HR|].
  intros h s1 [(cur & words & b & -> & _) Hm Hmk Hh _]. apply HQ; try done.
  split; try done. exists []. by rewrite app_nil_r.
Qed.

Lemma slot_free_owned h : wp_stage (pr s) = SlotFree -> vacant (ws s) (pr s) ->
  wp (do! push_step (load_step (wp_slot (pr s)) h (cs_of s) (dev_of s)) in
      do! assign_slot c false h in
      do! upd_pr (with_stage Enter) in
      sfail WeBufFull) (stage_ok pre s) (stage_err pre s) s.
Proof.
  intros Hst Hvac. wstep. apply (wp_push pre); try done.
  - err_same.
  - split; [done|]. by split; [apply vacant_saved|].
  - intros Hm1 Hf1 Htr1. set (s1 := pushed _ s) in *. do 1 wstep.
    apply wp_assign; [apply Hm1|done|]. intros la. unfold upd_pr. do 3 wstep.
    split; [eapply (frame_upd s s1); done|]. split; [|split; [|intros _; split; [|done]]].
    + apply (base_assign (tr_of pre s1) (ws s1) (pr s)); try done. apply Hm1.
    + on_trace Htr1. eapply (homes_init _ (ws s)); try done; [settle|by left].
    + destruct Hprog. by split.
Qed.

Lemma stage_slot_free_spec : wp_stage (pr s) = SlotFree ->
  wp (stage_slot_free c) (stage_ok pre s) (stage_err pre s) s.
Proof.
  intros Hst. pose proof (wi_stage _ _ Hinv) as Hvac. unfold stage_inv in Hvac. rewrite Hst in Hvac.
  unfold stage_slot_free. do 2 wstep. destruct l1_entry_read as (raw & Hraw & _).
  do 2 wstep. rewrite Hraw. destruct (raw =? 0).
  - wstep. apply wp_alloc_stage; [intros; err_same|].
    intros h s1 Hf Hm Hh Hpr Htr Hg Hc Hsl. unfold upd_pr. do 2 wstep. apply wp_goto; cbn.
    + eapply frame_upd; [exact Hf|done..].
    + by apply mem_ok_pr.
    + rewrite Hpr. apply (prog_ok_ext (ws s) _ (pr s)); done.
    + rewrite Hpr, Hg. split; [|done]. unfold vacant, dirty_slot. cbn. by rewrite Hc, Hsl, Hg.
    + by rewrite Hpr.
    + rewrite Hst. cbn. lia.
    + on_trace Htr. apply (homes_same _ _ (ws s)); [settle|done..].
  - do 2 wstep. pose proof (validate_l1_spec (ws s) (st s) raw Hstate (mo_staged _ _ Hmem)) as Hv.
    destruct (validate_l1_entry _ _ _) as [[h|h]|e| |]; try done.
    + by apply slot_free_owned.
    + wstep. apply wp_alloc_stage; [intros; err_same|].
      intros h' s1 Hf Hm Hh Hpr Htr Hg Hc Hsl. unfold upd_pr. do 2 wstep. apply wp_goto; cbn.
      * eapply frame_upd; [exact Hf|done..].
      * by apply mem_ok_pr.
      * rewrite Hpr. apply (prog_ok_ext (ws s) _ (pr s)); done.
      * rewrite Hpr, Hg. split; [|done]. unfold vacant, dirty_slot. cbn. by rewrite Hc, Hsl, Hg.
      * by rewrite Hpr.
      * rewrite Hst. cbn. lia.
      * on_trace Htr. apply (homes_same _ _ (ws s)); [settle|done..].
    + err_same.
Qed.

(** Zero-initialising or copying into the vacant slot, then claiming it dirty. *)
Lemma claim_slot_dirty x h la : vacant (ws s) (pr s) ->
  (forall i, dirties_slot i x = true -> i = wp_slot (pr s)) -> is_l1_patch x = false ->
  step_ok (geometry (ws s)) (cfg_device (config (ws s))) (tr_of pre s) x ->
  buf_ok pre (pushed x s) -> tr_of pre (pushed x s) = tr_of pre s ++ [x] ->
  steps_since_barrier (ws (pushed x s)) =
    (if is_barrier (kind x) then 0 else since_barrier (tr_of pre s) + 1) ->
  mem_ok pre (set_ws (set_l2_slots (<[Z.to_nat (wp_slot (pr s)) :=
     mkL2Slot true true (c_l1_idx c) h la]> (l2_slots (ws s))) (ws (pushed x s))) (pushed x s)).
Proof.
  intros Hvac Hd Hl Hx Hbuf Htr Hn. apply pushed_dirty; try done. by apply base_assign.
Qed.

Lemma vacant_init x : vacant (ws s) (pr s) -> device x = cfg_device (config (ws s)) ->
  kind x = LoadCluster \/ kind x = ZeroRegion -> region x = RL2Slot (wp_slot (pr s)) ->
  region_offset x = 0 -> len x = cluster_size (geometry (ws s)) ->
  step_ok (geometry (ws s)) (cfg_device (config (ws s))) (tr_of pre s) x.
Proof.
  intros Hvac Hdv Hk Hr Ho Hlen. split; [done|]. rewrite Hr.
  destruct Hk as [->| ->]; (split; [by apply vacant_saved|done]).
Qed.

Lemma stage_fresh_alloc_spec : wp_stage (pr s) = FreshAlloc ->
  wp (stage_fresh_alloc c) (stage_ok pre s) (stage_err pre s) s.
Proof.
  intros Hst. pose proof (wi_stage _ _ Hinv) as Hi. unfold stage_inv in Hi. rewrite Hst in Hi.
  destruct Hi as [Hvac Hh]. unfold stage_fresh_alloc. do 3 wstep.
  apply (wp_push_step pre); [done|err_same|]. intros Hbuf Htr Hn.
  set (x := zero_region_step _ _ _) in *. wstep. apply wp_assign; [by destruct Hstate; split|done|].
  intros la. wstep. cbn [ws pushed l2_slots set_steps_since_barrier pr].
  pose proof (claim_slot_dirty x (wp_l2_host (pr s)) la Hvac) as Hm.
  specialize (Hm (fun i Hi => proj1 (Z.eqb_eq _ _) Hi) eq_refl
    (vacant_init x Hvac eq_refl (or_intror eq_refl) eq_refl eq_refl eq_refl) Hbuf Htr Hn).
  set (s1 := set_ws (set_l2_slots _ _) (pushed x s)) in *.
  destruct (bit_set_range (slot_pending_zero (ws s)) (wp_slot (pr s)) 4) as (words & Hw & Hwl);
    [apply Hstate | pose proof (so_slots _ Hstate) as Hn'; unfold MAX_L2_SLOTS in Hn'; lia |].
  eapply wp_upd_ws; [unfold pending_zero_set; cbn; rewrite Hw; done|].
  apply wp_goto.
  - apply (frame_upd s (pushed x s)); [by apply frame_push|done..].
  - destruct Hm as [Hb1 Hbuf1 Hst1]. split; [|done|by apply (staged_ok_core (ws s1))].
    apply (base_core _ (ws s1)); [done|by split|]. destruct (ba_state _ _ Hb1). by split.
  - destruct Hprog. by split.
  - split; [|split; [done|split]].
    + eexists. cbn. rewrite (slot_at_put (ws s)), Z.eqb_refl by done. done.
    + exists (tr_of pre s), x. split; [exact Htr|]. do 3 (split; [done|]). by left.
    + eexists. cbn. rewrite (slot_at_put (ws s)), Z.eqb_refl by done. done.
  - done.
  - rewrite Hst. cbn. lia.
  - on_trace Htr. eapply (homes_init _ (ws s)); [done|settle|done|done|by right|reflexivity|done].
Qed.

Lemma wp_push_l1_patch (Q : unit -> WS -> Prop) :
  host_ok (cluster_size (geometry (ws s))) (wp_l2_host (pr s)) ->
  slot_initialised (cluster_size (geometry (ws s))) (wp_slot (pr s)) (tr_of pre s) ->
  serving (ws s) (pr s) -> claims_host (ws s) (pr s) -> exempt (pr s) = Some (wp_slot (pr s)) ->
  (forall s1, frame s s1 -> mem_ok pre s1 -> pr s1 = pr s -> geometry (ws s1) = geometry (ws s) ->
     config (ws s1) = config (ws s) -> l2_slots (ws s1) = l2_slots (ws s) ->
     homes None (tr_of pre s1) (ws s1) -> Q tt s1) ->
  wp (push_l1_patch c) Q (stage_err pre s) s.
Proof.
  intros Hho Hinit (sl & Hat & Hv & Hl) (sl' & Hat' & Hhost) Hex HQ. rewrite Hat in Hat'.
  injection Hat' as <-. pose proof Hho as [Hh Hal]. destruct l1_entry_read as (_ & _ & Hoff).
  unfold push_l1_patch. do 3 wstep.
  apply (wp_push_step pre); [done|err_same|]. intros Hbuf Htr Hn.
  set (x := patch_step _ _ _ _) in *. eapply wp_upd_ws; [done|].
  apply HQ; try done.
  - apply (frame_upd s (pushed x s)); [by apply frame_push|done..].
  - split; [|done|apply (staged_ok_core (ws s)); [apply Hmem|done..]].
    unfold tr_of in *. cbn [sb set_ws] in *. rewrite Htr. cbn [ws pushed] in *.
    apply (base_push _ (set_l1_dirty true (ws s))); try done; [by apply base_l1_dirty|].
    split; [done|]. exists (wp_l2_host (pr s)), (p_l1_idx (geometry (ws s)) (pr s)), (wp_slot (pr s)).
    repeat split; try done; try lia; apply l1_idx_range.
  - on_trace Htr. pose proof Hhomes as Hhm. rewrite Hex in Hhm.
    eapply (homes_publish _ (ws s)); try done; [apply Hstate|]. rewrite Hl. exact Hoff.
Qed.

Lemma serving_same w p : l2_slots w = l2_slots (ws s) -> geometry w = geometry (ws s) ->
  wp_slot p = wp_slot (pr s) -> p_cur p = p_cur (pr s) -> serving (ws s) (pr s) -> serving w p.
Proof.
  intros Hsl Hg Hp Hcur (sl & Hat & Hv & Hl). exists sl. rewrite Hsl, Hp. split; [done|].
  split; [done|]. rewrite Hl, Hg. unfold p_l1_idx. by rewrite Hcur.
Qed.

Lemma stage_fresh_zeroed_spec : wp_stage (pr s) = FreshZeroed ->
  wp (stage_fresh_zeroed c) (stage_ok pre s) (stage_err pre s) s.
Proof.
  intros Hst. pose proof (wi_stage _ _ Hinv) as Hi. unfold stage_inv in Hi. rewrite Hst in Hi.
  destruct Hi as ((sl & Hat & Hv & Hl) & Hh & Hinit & Hclm). unfold stage_fresh_zeroed. wstep.
  apply wp_push_l1_patch; [done|done|by exists sl|done|unfold exempt; by rewrite Hst|].
  intros s1 Hf Hm Hpr Hg Hc Hsl Hhm. do 3 wstep.
  rewrite Hpr. destruct (touch_ok (E := WriteError) (tr_of pre s1) (ws s1) (wp_slot (pr s)) sl)
    as (w' & Ht & Hb' & Hg' & Hc' & Hpe' & Hrbw' & Hsl'); [apply Hm | by rewrite Hc | by rewrite Hsl |].
  eapply wp_upd_ws; [exact Ht|]. apply wp_goto; cbn; rewrite ?Hpr.
  - eapply frame_upd; [exact Hf|done..].
  - split; [done|apply Hm|]. apply (staged_ok_core (ws s1)); [apply Hm|done..].
  - apply (prog_ok_ext (ws s) _ (pr s)); try done; congruence.
  - eexists. rewrite Hsl', Hsl. cbn. rewrite (slot_at_put (ws s)), Z.eqb_refl by done.
    split; [done|]. cbn. split; [done|]. rewrite Hl, Hg', Hg. done.
  - done.
  - rewrite Hst. cbn. lia.
  - eapply (homes_put None _ (ws s1) _ (wp_slot (pr s)) sl);
      [apply Hm|exact Hhm|by rewrite Hc|by rewrite Hsl| |exact Hsl'|done]. done.
Qed.

(** The part of the cluster the request covers. *)
Lemma window_bounds :
  let g := geometry (ws s) in
  0 <= p_in_off g (pr s) /\ 0 < p_win_len g (pr s) /\
  p_in_off g (pr s) + p_win_len g (pr s) <= cluster_size g /\
  wp_consumed (pr s) + p_win_len g (pr s) <= wp_len (pr s) /\
  wp_len (pr s) <= u64_max /\ 512 <= cluster_size g <= 2097152.
Proof.
  cbv zeta. pose proof (geo_cs_pos _ (so_geo _ Hstate)) as Hcs.
  pose proof (Z.mod_pos_bound (p_cur (pr s)) (cluster_size (geometry (ws s))) ltac:(lia)).
  destruct (go_vs _ (so_geo _ Hstate)). destruct Hprog. unfold p_win_len, p_in_off in *. lia.
Qed.

Lemma wp_finish s1 R : frame s s1 -> mem_ok pre s1 -> prog_ok (ws s1) (pr s1) ->
  wp_consumed (pr s1) = wp_consumed (pr s) -> homes None (tr_of pre s1) (ws s1) ->
  wp (finish_cluster c) (stage_ok pre s) R s1.
Proof.
  intros Hf Hm Hp Hc Hhm. destruct window_bounds as (? & ? & ? & Hle & Hlen & _).
  pose proof (po_consumed _ _ Hprog) as Hcons. unfold finish_cluster, upd_pr. do 3 wstep.
  cbn [c_win_len c ctx_of]. rewrite Hc, wadd_small by lia. split; [|split; [split|]].
  - by apply (frame_upd s s1).
  - by apply mem_ok_pr.
  - destruct Hp. rewrite (fr_len _ _ Hf) in *. split; cbn; rewrite ?(fr_len _ _ Hf); done || lia.
  - done.
  - done.
  - done.
Qed.

Lemma stage_slot_ready_spec : wp_stage (pr s) = SlotReady ->
  wp (stage_slot_ready c) (stage_ok pre s) (stage_err pre s) s.
Proof.
  intros Hst. pose proof (wi_stage _ _ Hinv) as Hserv. unfold stage_inv in Hserv. rewrite Hst in Hserv.
  pose proof (mo_staged _ _ Hmem) as Hstg. destruct (geo_cs_eight _ (so_geo _ Hstate)) as [H8 _].
  destruct window_bounds as (_ & _ & _ & _ & _ & Hcs).
  unfold stage_slot_ready. do 4 wstep.
  destruct (read_staged_l2_entry_ok (ws s) (st s) (wp_slot (pr s)) (c_l2_idx c)) as [v Hv];
    [done..|apply Z.mod_pos_bound; lia|]. rewrite Hv. do 2 wstep.
  pose proof (classify_spec (ws s) (st s) v Hstate Hstg) as Hcl.
  assert (forall s1 h, frame s s1 -> mem_ok pre s1 -> host_ok (cluster_size (geometry (ws s))) h ->
    pr s1 = pr s -> geometry (ws s1) = geometry (ws s) -> config (ws s1) = config (ws s) ->
    l2_slots (ws s1) = l2_slots (ws s) -> tr_of pre s1 = tr_of pre s ->
    wp (do! upd_pr (with_data_host h) in goto DataAlloc) (stage_ok pre s) (stage_err pre s) s1) as Hgo.
  { intros s1 h Hf Hm Hh Hpr Hg Hc Hsl Htr. unfold upd_pr. do 2 wstep. apply wp_goto; cbn; rewrite ?Hpr.
    - eapply frame_upd; [exact Hf|cbn; by rewrite ?Hpr..].
    - rewrite <- Hpr. by apply mem_ok_pr.
    - by apply (prog_ok_ext (ws s) _ (pr s)).
    - split; [by apply serving_same|]. split; cbn; rewrite ?Hg; [done|apply group_nil].
    - done.
    - rewrite Hst. cbn. lia.
    - on_trace Htr. apply (homes_same _ _ (ws s)); [settle|done..]. }
  destruct (classify_l2_entry _ _ _) as [[|h|h|old z]|e| |]; try done.
  - bool_cases; [wstep; err_same|]. wstep.
    apply wp_alloc_stage; [intros; err_same|].
    intros h s1 Hf Hm Hh Hpr Htr Hg Hc Hsl. by apply Hgo.
  - destruct Hcl as [Hh _]. wstep.
    destruct (body_step_data (wp_data (pr s)) (wp_consumed (pr s)) (wadd h (c_in_off c))
      (c_win_len c) (dev_of s)) as (_ & _ & _ & Hw & Hd & Hl & Hx & Hmv & _).
    apply (wp_push pre); try done; [err_same|]. intros Hm1 Hf1 Htr1.
    apply wp_finish; try done; [destruct Hprog; by split|].
    on_trace Htr1. apply (homes_push _ _ (ws s)); [settle|done..].
  - apply Hgo; try done; [apply frame_refl|apply Hcl].
  - wstep. apply wp_alloc_stage; [intros; err_same|].
    intros h s1 Hf Hm Hh Hpr Htr Hg Hc Hsl. unfold upd_pr. do 2 wstep. apply wp_goto; cbn; rewrite ?Hpr.
    + eapply frame_upd; [exact Hf|cbn; by rewrite ?Hpr..].
    + rewrite <- Hpr. by apply mem_ok_pr.
    + by apply (prog_ok_ext (ws s) _ (pr s)).
    + split; [by apply serving_same|]. rewrite Hg. split; [|apply Hcl].
      split; cbn; rewrite ?Hg; [done|apply group_nil].
    + done.
    + rewrite Hst. cbn. lia.
    + on_trace Htr. apply (homes_same _ _ (ws s)); [settle|done..].
  - err_same.
Qed.

(** Push one step and move on, the slot window and the progress staying put. *)
Lemma wp_push_goto x next : write_step x = true -> (forall i, dirties_slot i x = false) ->
  is_l1_patch x = false -> step_ok (geometry (ws s)) (cfg_device (config (ws s))) (tr_of pre s) x ->
  stage_inv (tr_of pre s ++ [x]) (ws s) (with_stage next (pr s)) ->
  (rank next < rank (wp_stage (pr s)))%nat ->
  moves_table x = false -> exempt (pr s) = None -> exempt (with_stage next (pr s)) = None ->
  wp (do! push_step x in goto next) (stage_ok pre s) (stage_err pre s) s.
Proof.
  intros Hw Hd Hl Hx Hst Hr Hmv He He'. wstep. apply (wp_push pre); try done; [err_same|].
  intros Hm1 Hf1 Htr1. apply wp_goto; try done.
  - destruct Hprog. by split.
  - rewrite Htr1. exact Hst.
  - change (exempt (with_stage next (pr (pushed x s)))) with (exempt (with_stage next (pr s))).
    rewrite He'. on_trace Htr1. apply (homes_push _ _ (ws s)); [|done..]. rewrite <- He. exact Hhomes.
Qed.

Lemma wp_just_goto next : stage_inv (tr_of pre s) (ws s) (with_stage next (pr s)) ->
  (rank next < rank (wp_stage (pr s)))%nat ->
  exempt (pr s) = None -> exempt (with_stage next (pr s)) = None ->
  wp (do! sret tt in goto next) (stage_ok pre s) (stage_err pre s) s.
Proof.
  intros Hst Hr He He'. do 2 wstep. apply wp_goto; try done; [apply frame_refl|].
  rewrite He', <- He. exact Hhomes.
Qed.

(** No address inside the data cluster wraps. *)
Lemma host_add_small h o : host_ok (cluster_size (geometry (ws s))) h ->
  0 <= o <= cluster_size (geometry (ws s)) -> wadd h o = h + o.
Proof.
  intros [Hh _] Ho. destruct window_bounds as (_ & _ & _ & _ & _ & Hcs). apply wadd_small.
  change (2 ^ 56) with 72057594037927936 in Hh. unfold u64_max. lia.
Qed.

Lemma filled_write n n' x : filled_to (tr_of pre s) (ws s) (pr s) n -> is_data_write x = true ->
  disk_offset x = wp_data_host (pr s) + n -> len x = n' - n -> 0 <= n <= n' ->
  n' <= cluster_size (geometry (ws s)) ->
  filled_to (tr_of pre s ++ [x]) (ws s) (pr s) n'.
Proof.
  intros [Hh Hg] Hx Ho Hl Hn Hle. split; [done|].
  eapply group_write; [exact Hg|done|lia..].
Qed.

Lemma stage_data_alloc_spec : wp_stage (pr s) = DataAlloc ->
  wp (stage_data_alloc c) (stage_ok pre s) (stage_err pre s) s.
Proof.
  intros Hst. pose proof (wi_stage _ _ Hinv) as Hi. unfold stage_inv in Hi. rewrite Hst in Hi.
  destruct Hi as [Hserv Hf]. destruct window_bounds as (? & ? & ? & _).
  unfold stage_data_alloc. do 2 wstep. cbn [c_in_off c ctx_of].
  destruct (Z.ltb_spec 0 (p_in_off (geometry (ws s)) (pr s))).
  - apply wp_push_goto; try done; [|rewrite Hst; cbn; lia|unfold exempt; by rewrite Hst]. split; [done|].
    apply (filled_write _ (p_in_off (geometry (ws s)) (pr s)) _ Hf); try done;
      cbn [disk_offset len zero_range_step]; lia.
  - apply wp_just_goto; [|rewrite Hst; cbn; lia|unfold exempt; by rewrite Hst|done]. split; [done|].
    change (filled_to (tr_of pre s) (ws s) (pr s) (p_in_off (geometry (ws s)) (pr s))).
    replace (p_in_off (geometry (ws s)) (pr s)) with 0 by lia. done.
Qed.

Lemma stage_head_done_spec : wp_stage (pr s) = HeadDone ->
  wp (stage_head_done c) (stage_ok pre s) (stage_err pre s) s.
Proof.
  intros Hst. pose proof (wi_stage _ _ Hinv) as Hi. unfold stage_inv in Hi. rewrite Hst in Hi.
  destruct Hi as [Hserv Hf]. destruct window_bounds as (? & ? & ? & _).
  unfold stage_head_done. apply wp_bind. unfold push_body. do 2 wstep.
  cbn [c_in_off c_win_len c ctx_of]. rewrite (host_add_small _ _ (proj1 Hf)) by lia.
  destruct (body_step_data (wp_data (pr s)) (wp_consumed (pr s))
    (wp_data_host (pr s) + p_in_off (geometry (ws s)) (pr s)) (p_win_len (geometry (ws s)) (pr s))
    (dev_of s)) as (Hdw & Ho & Hln & Hw & Hd & Hl & Hx & Hmv & _).
  apply wp_bind_inv, wp_push_goto; try done; [|rewrite Hst; cbn; lia|unfold exempt; by rewrite Hst]. split; [done|].
  apply (filled_write _ (p_in_off (geometry (ws s)) (pr s) + p_win_len (geometry (ws s)) (pr s)) _ Hf);
    try done; rewrite ?Ho, ?Hln; lia.
Qed.

Lemma stage_body_done_spec : wp_stage (pr s) = BodyDone ->
  wp (stage_body_done c) (stage_ok pre s) (stage_err pre s) s.
Proof.
  intros Hst. pose proof (wi_stage _ _ Hinv) as Hi. unfold stage_inv in Hi. rewrite Hst in Hi.
  destruct Hi as [Hserv Hf]. destruct window_bounds as (? & ? & ? & _ & _ & ?).
  unfold stage_body_done. do 2 wstep. cbn [c_in_off c_win_len c ctx_of].
  rewrite (wadd_small (p_in_off _ _)) by (unfold u64_max; lia). fold (cs_of s). unfold cs_of.
  set (n := p_in_off (geometry (ws s)) (pr s) + p_win_len (geometry (ws s)) (pr s)) in *.
  destruct (Z.ltb_spec n (cluster_size (geometry (ws s)))).
  - rewrite (host_add_small _ _ (proj1 Hf)) by lia. rewrite wsub_small by (unfold u64_max; lia).
    apply wp_push_goto; try done; [|rewrite Hst; cbn; lia|unfold exempt; by rewrite Hst]. split; [done|].
    apply (filled_write _ (cluster_size (geometry (ws s))) _ Hf); try done;
      cbn [disk_offset len zero_range_step]; lia.
  - apply wp_just_goto; [|rewrite Hst; cbn; lia|unfold exempt; by rewrite Hst|done]. split; [done|].
    change (filled_to (tr_of pre s) (ws s) (pr s) (cluster_size (geometry (ws s)))).
    replace (cluster_size (geometry (ws s))) with n by lia. done.
Qed.

(** The L2 patch of a completely written cluster. *)
Lemma wp_push_l2_patch (Q : unit -> WS -> Prop) : serving (ws s) (pr s) ->
  exempt (pr s) = None ->
  filled_to (tr_of pre s) (ws s) (pr s) (cluster_size (geometry (ws s))) ->
  (forall s1, frame s s1 -> mem_ok pre s1 -> pr s1 = pr s -> geometry (ws s1) = geometry (ws s) ->
     config (ws s1) = config (ws s) -> serving (ws s1) (pr s1) ->
     homes None (tr_of pre s1) (ws s1) -> Q tt s1) ->
  wp (push_l2_patch c) Q (stage_err pre s) s.
Proof.
  intros (sl & Hat & Hv & Hl) Hex [[Hh Hal] Hg] HQ. unfold push_l2_patch. do 3 wstep.
  apply (wp_push_step pre); [done|err_same|]. intros Hbuf Htr Hn.
  set (x := patch_step _ _ _ _) in *.
  eapply wp_upd_ws.
  { cbn [ws pushed l2_slots set_steps_since_barrier]. rewrite Hat. cbn [or_panic obind].
    apply put_slot_ok; [by destruct Hstate; split|done]. }
  apply HQ; try done.
  - apply (frame_upd s (pushed x s)); [by apply frame_push|done..].
  - apply pushed_dirty; try done.
    + split; [done|]. by exists (wp_data_host (pr s)).
    + intros i Hi. by apply Z.eqb_eq in Hi.
    + by apply (base_put _ _ _ sl).
  - eexists. cbn. rewrite (slot_at_put (ws s)), Z.eqb_refl by done. done.
  - pose proof Hhomes as Hhm. rewrite Hex in Hhm. on_trace Htr.
    eapply (homes_put None _ (ws s) _ (wp_slot (pr s)) sl);
      [done| |done|done| |reflexivity|done]; [|done]. by apply (homes_push _ _ (ws s)).
Qed.

Lemma stage_tail_done_spec : wp_stage (pr s) = TailDone ->
  wp (stage_tail_done c) (stage_ok pre s) (stage_err pre s) s.
Proof.
  intros Hst. pose proof (wi_stage _ _ Hinv) as Hi. unfold stage_inv in Hi. rewrite Hst in Hi.
  destruct Hi as [Hserv Hf]. unfold stage_tail_done. wstep.
  apply wp_push_l2_patch; try done; [unfold exempt; by rewrite Hst|].
  intros s1 Hfr Hm Hpr Hg Hc _ Hhm. apply wp_finish; try done; rewrite Hpr; [|done].
  by apply (prog_ok_ext (ws s) _ (pr s)).
Qed.

Lemma stage_cow_l2_load_spec : wp_stage (pr s) = CowL2Load ->
  wp (stage_cow_l2_load c) (stage_ok pre s) (stage_err pre s) s.
Proof.
  intros Hst. pose proof (wi_stage _ _ Hinv) as Hi. unfold stage_inv in Hi. rewrite Hst in Hi.
  destruct Hi as (Hvac & Hh & Hsrc). unfold stage_cow_l2_load. do 3 wstep.
  apply (wp_push_step pre); [done|err_same|]. intros Hbuf Htr Hn.
  set (x := load_step _ _ _ _) in *. wstep. apply wp_assign; [by destruct Hstate; split|done|].
  intros la. pose proof (claim_slot_dirty x (wp_l2_host (pr s)) la Hvac) as Hm.
  specialize (Hm (fun i Hi => match Bool.diff_false_true Hi with end)
    eq_refl (vacant_init x Hvac eq_refl (or_introl eq_refl) eq_refl eq_refl eq_refl) Hbuf Htr Hn).
  apply wp_goto.
  - apply (frame_upd s (pushed x s)); [by apply frame_push|done..].
  - exact Hm.
  - destruct Hprog. by split.
  - split; [|split; [done|split; [|split; [|done]]]].
    + eexists. cbn. rewrite (slot_at_put (ws s)), Z.eqb_refl by done. done.
    + exists (tr_of pre s), x. split; [exact Htr|]. do 3 (split; [done|]). by right.
    + eexists. cbn. rewrite (slot_at_put (ws s)), Z.eqb_refl by done. done.
  - done.
  - rewrite Hst. cbn. lia.
  - on_trace Htr. eapply (homes_init _ (ws s)); [done|settle|done|done|by left|reflexivity|done].
Qed.

Lemma stage_cow_l2_repoint_spec : wp_stage (pr s) = CowL2Repoint ->
  wp (stage_cow_l2_repoint c) (stage_ok pre s) (stage_err pre s) s.
Proof.
  intros Hst. pose proof (wi_stage _ _ Hinv) as Hi. unfold stage_inv in Hi. rewrite Hst in Hi.
  destruct Hi as (Hserv & Hh & Hinit & Hclm & Hsrc). unfold stage_cow_l2_repoint. wstep.
  apply wp_push_l1_patch; [done..|unfold exempt; by rewrite Hst|]. intros s1 Hf Hm Hpr Hg Hc Hsl Hhm.
  apply wp_goto; try done; rewrite ?Hpr.
  - by apply (prog_ok_ext (ws s) _ (pr s)).
  - cbn. rewrite Hg. split; [|done]. by apply serving_same.
  - done.
  - rewrite Hst. cbn. lia.
Qed.

(** A decrement changes neither the window nor the progress. *)
Lemma wp_dec_stage h (Q : unit -> WS -> Prop) :
  host_ok (cluster_size (geometry (ws s))) h -> exempt (pr s) = None ->
  (forall s1, frame s s1 -> mem_ok pre s1 -> pr s1 = pr s ->
     geometry (ws s1) = geometry (ws s) -> config (ws s1) = config (ws s) ->
     homes None (tr_of pre s1) (ws s1) -> Q tt s1) ->
  wp (dec_refcount h) Q (stage_err pre s) s.
Proof.
  intros [Hh _] Hex HQ. apply (wp_dec_refcount pre); [done|lia|intros; apply stage_err_same; [done|by right]|].
  intros s1 [(words & b & -> & _) Hm Hmk _]. apply HQ; try done.
  - split; try done. exists []. by rewrite app_nil_r.
  - rewrite <- Hex. exact Hhomes.
Qed.

Lemma stage_cow_l2_decrement_spec : wp_stage (pr s) = CowL2Decrement ->
  wp (stage_cow_l2_decrement c) (stage_ok pre s) (stage_err pre s) s.
Proof.
  intros Hst. pose proof (wi_stage _ _ Hinv) as Hi. unfold stage_inv in Hi. rewrite Hst in Hi.
  destruct Hi as [Hserv Hsrc]. unfold stage_cow_l2_decrement. do 3 wstep.
  apply wp_dec_stage; [done|unfold exempt; by rewrite Hst|]. intros s1 Hf Hm Hpr Hg Hc Hhm.
  unfold upd_pr. do 3 wstep.
  split; [by apply (frame_upd s s1)|]. split; [apply Hm|]. split; [done|]. intros _. cbn.
  split; [|by rewrite Hpr]. rewrite Hpr. by apply (prog_ok_ext (ws s) _ (pr s)).
Qed.

Lemma stage_cow_data_enter_spec : wp_stage (pr s) = CowDataEnter ->
  wp (stage_cow_data_enter c) (stage_ok pre s) (stage_err pre s) s.
Proof.
  intros Hst. pose proof (wi_stage _ _ Hinv) as Hi. unfold stage_inv in Hi. rewrite Hst in Hi.
  destruct Hi as (Hserv & Hf & Hsrc). destruct window_bounds as (? & ? & ? & _ & _ & ?).
  unfold stage_cow_data_enter. do 2 wstep. cbn [c_in_off c_win_len c ctx_of]. unfold cs_of.
  destruct ((p_in_off (geometry (ws s)) (pr s) =? 0) &&
            (p_win_len (geometry (ws s)) (pr s) =? cluster_size (geometry (ws s)))) eqn:Hfull.
  - bool_to_prop. apply wp_goto; try done; [apply frame_refl| |rewrite Hst; cbn; lia|settle].
    split; [done|]. split; [done|]. split; [done|]. by left.
  - destruct (wp_cow_zero_preimage (pr s)).
    + apply wp_push_goto; try done; [|rewrite Hst; cbn; lia|unfold exempt; by rewrite Hst].
      assert (filled_to (tr_of pre s ++ [zero_range_step (wp_data_host (pr s))
        (cluster_size (geometry (ws s))) (dev_of s)]) (ws s) (pr s) (cluster_size (geometry (ws s)))) as Hf'.
      { apply (filled_write _ _ _ Hf); try done; cbn [disk_offset len zero_range_step]; lia. }
      split; [done|]. split; [|split; [done|by right]]. split; [apply Hf|apply group_nil].
    + apply wp_push_goto; try done; [|rewrite Hst; cbn; lia|unfold exempt; by rewrite Hst].
      split; [done|]. split; [|done]. split; [apply Hf|apply group_nil].
Qed.

Lemma stage_cow_data_copy_spec : wp_stage (pr s) = CowDataCopy ->
  wp (stage_cow_data_copy c) (stage_ok pre s) (stage_err pre s) s.
Proof.
  intros Hst. pose proof (wi_stage _ _ Hinv) as Hi. unfold stage_inv in Hi. rewrite Hst in Hi.
  destruct Hi as (Hserv & Hf & Hsrc). destruct window_bounds as (_ & _ & _ & _ & _ & ?).
  unfold stage_cow_data_copy. do 2 wstep. apply wp_push_goto; try done; [|rewrite Hst; cbn; lia|unfold exempt; by rewrite Hst].
  split; [done|]. split; [split; [apply Hf|apply group_nil]|]. split; [done|]. right.
  apply (filled_write _ (cluster_size (geometry (ws s))) _ Hf); try done;
    cbn [disk_offset len write_bounce_cluster_step]; unfold cs_of; lia.
Qed.

Lemma stage_cow_data_body_spec : wp_stage (pr s) = CowDataBody ->
  wp (stage_cow_data_body c) (stage_ok pre s) (stage_err pre s) s.
Proof.
  intros Hst. pose proof (wi_stage _ _ Hinv) as Hi. unfold stage_inv in Hi. rewrite Hst in Hi.
  destruct Hi as (Hserv & Hf & Hsrc & Hcov). destruct window_bounds as (? & ? & ? & _ & _ & ?).
  unfold stage_cow_data_body. wstep. unfold push_body. do 2 wstep.
  cbn [c_in_off c_win_len c ctx_of]. rewrite (host_add_small _ _ (proj1 Hf)) by lia.
  destruct (body_step_data (wp_data (pr s)) (wp_consumed (pr s))
    (wp_data_host (pr s) + p_in_off (geometry (ws s)) (pr s)) (p_win_len (geometry (ws s)) (pr s))
    (dev_of s)) as (Hdw & Ho & Hln & Hw & Hd & Hl & Hx & Hmv & _).
  apply wp_bind_inv, wp_push_goto; try done; [|rewrite Hst; cbn; lia|unfold exempt; by rewrite Hst]. split; [done|].
  split; [|done]. destruct Hcov as [[Hz Hw']|[Hh Hg]].
  - apply (filled_write _ (cluster_size (geometry (ws s))) _ Hf); try done; rewrite ?Ho, ?Hln; lia.
  - split; [done|]. apply group_keep; [done|]. left. rewrite Ho, Hln. split; [done|]. cbn [wp_data_host with_stage]. lia.
Qed.

Lemma stage_cow_data_patch_spec : wp_stage (pr s) = CowDataPatch ->
  wp (stage_cow_data_patch c) (stage_ok pre s) (stage_err pre s) s.
Proof.
  intros Hst. pose proof (wi_stage _ _ Hinv) as Hi. unfold stage_inv in Hi. rewrite Hst in Hi.
  destruct Hi as (Hserv & Hf & Hsrc). unfold stage_cow_data_patch. wstep.
  apply wp_push_l2_patch; try done; [unfold exempt; by rewrite Hst|].
  intros s1 Hfr Hm Hpr Hg Hc Hserv1 Hhm.
  apply wp_goto; try done.
  - rewrite Hpr. by apply (prog_ok_ext (ws s) _ (pr s)).
  - cbn. rewrite Hg, Hpr. rewrite Hpr in Hserv1. done.
  - by rewrite Hpr.
  - rewrite Hst. cbn. lia.
Qed.

Lemma stage_cow_data_decrement_spec : wp_stage (pr s) = CowDataDecrement ->
  wp (stage_cow_data_decrement c) (stage_ok pre s) (stage_err pre s) s.
Proof.
  intros Hst. pose proof (wi_stage _ _ Hinv) as Hi. unfold stage_inv in Hi. rewrite Hst in Hi.
  destruct Hi as [Hserv Hsrc]. unfold stage_cow_data_decrement. do 3 wstep.
  apply wp_dec_stage; [done|unfold exempt; by rewrite Hst|]. intros s1 Hf Hm Hpr Hg Hc Hhm. apply wp_finish; try done; rewrite Hpr; [|done].
  by apply (prog_ok_ext (ws s) _ (pr s)).
Qed.

(** Every stage of the machine. *)
Lemma drive_stage_spec : wp (drive_stage c) (stage_ok pre s) (stage_err pre s) s.
Proof.
  unfold drive_stage. do 2 wstep. destruct (wp_stage (pr s)) eqn:Hst;
    eauto using stage_enter_spec, stage_slot_free_spec, stage_fresh_alloc_spec,
      stage_fresh_zeroed_spec, stage_slot_ready_spec, stage_data_alloc_spec, stage_head_done_spec,
      stage_body_done_spec, stage_tail_done_spec, stage_cow_l2_load_spec, stage_cow_l2_repoint_spec,
      stage_cow_l2_decrement_spec, stage_cow_data_enter_spec, stage_cow_data_copy_spec,
      stage_cow_data_body_spec, stage_cow_data_patch_spec, stage_cow_data_decrement_spec.
Qed.
End stages.

(** ** The loops *)

Lemma ctx_of_same s s1 : frame s s1 -> wp_consumed (pr s1) = wp_consumed (pr s) ->
  ctx_of (geometry (ws s1)) (pr s1) = ctx_of (geometry (ws s)) (pr s) /\
  p_win_len (geometry (ws s1)) (pr s1) = p_win_len (geometry (ws s)) (pr s).
Proof.
  intros [] Hc. unfold ctx_of, p_l1_idx, p_l2_idx, p_win_len, p_in_off, p_cur. by rewrite !fr_geo0, fr_voff0, fr_len0, Hc.
Qed.

(** The inner loop closes the cluster within the fuel it is given. *)
Lemma cluster_loop_spec pre fuel s : winv pre s -> wp_consumed (pr s) < wp_len (pr s) ->
  (rank (wp_stage (pr s)) < fuel)%nat ->
  wp (cluster_loop fuel (ctx_of (geometry (ws s)) (pr s)))
    (fun _ s' => stage_ok pre s BreakCluster s') (stage_err pre s) s.
Proof.
  revert s. induction fuel as [|fuel IH]; intros s Hinv Hmore Hr; [lia|].
  cbn [cluster_loop]. wstep. eapply wp_mono; [by apply drive_stage_spec| |done].
  intros [] s1 (Hf & Hinv1 & Hres); cbv beta iota.
  - destruct Hres as [Hc Hlt]. destruct (ctx_of_same _ _ Hf Hc) as [Hctx Hwin]. rewrite <- Hctx.
    eapply wp_mono; [apply (IH s1); [done|rewrite Hc, (fr_len _ _ Hf); done|lia]|..].
    + intros _ s2 (Hf2 & Hinv2 & Hst2 & Hc2). split; [by eapply frame_trans|]. split; [done|].
      rewrite Hc2, Hc, Hwin. done.
    + intros e s2 (Hf2 & Hb2 & Hh2 & He2). split; [by eapply frame_trans|]. do 2 (split; [done|]).
      intros He. destruct (He2 He) as (? & ? & ->). done.
  - apply wp_ret. done.
Qed.

(** Outer-loop turns a progress still needs. *)
Definition turns (g : Geometry) (p : WriteProgress) : Z :=
  if wp_consumed p <? wp_len p
  then (wp_voff p + wp_len p - 1) / cluster_size g - p_cur p / cluster_size g + 1
  else 0.

Lemma turns_step g p p' : 0 < cluster_size g -> 0 <= p_cur p -> wp_consumed p < wp_len p ->
  wp_voff p' = wp_voff p -> wp_len p' = wp_len p ->
  wp_consumed p' = wp_consumed p + p_win_len g p -> turns g p' < turns g p.
Proof.
  intros Hcs H0 Hlt Hv Hl Hc. unfold turns, p_win_len, p_in_off, p_cur in *.
  rewrite Hv, Hl, Hc. set (cs := cluster_size g) in *.
  pose proof (Z.div_mod (wp_voff p + wp_consumed p) cs ltac:(lia)) as Hdm.
  pose proof (Z.mod_pos_bound (wp_voff p + wp_consumed p) cs Hcs) as Hm.
  pose proof (Z.div_le_mono (wp_voff p + wp_consumed p) (wp_voff p + wp_len p - 1) cs Hcs ltac:(lia)).
  destruct (Z.ltb_spec (wp_consumed p) (wp_len p)); [|lia].
  destruct (Z.ltb_spec (wp_consumed p + Z.min (cs - (wp_voff p + wp_consumed p) mod cs)
              (wp_len p - wp_consumed p)) (wp_len p)); [|lia].
  rewrite Z.min_l by lia.
  replace (wp_voff p + (wp_consumed p + (cs - (wp_voff p + wp_consumed p) mod cs)))
    with (((wp_voff p + wp_consumed p) / cs + 1) * cs) by lia.
  rewrite Z.div_mul by lia. lia.
Qed.

Lemma turns_fuel g p : 0 < cluster_size g -> 0 <= p_cur p -> wp_consumed p <= wp_len p ->
  (Z.to_nat (turns g p) < write_fuel g p)%nat.
Proof.
  intros Hcs H0 Hle. unfold turns, write_fuel.
  assert (0 <= (wp_len p - wp_consumed p) / cluster_size g) by (apply Z.div_pos; lia).
  destruct (Z.ltb_spec (wp_consumed p) (wp_len p)); [|cbn; lia]. unfold p_cur in *.
  set (cs := cluster_size g) in *.
  assert ((wp_voff p + wp_len p - 1) / cs <=
          (wp_voff p + wp_consumed p) / cs + (wp_len p - wp_consumed p) / cs + 1).
  { apply Z.lt_succ_r, Z.div_lt_upper_bound; [done|].
    pose proof (Z.div_mod (wp_voff p + wp_consumed p) cs ltac:(lia)).
    pose proof (Z.mod_pos_bound (wp_voff p + wp_consumed p) cs Hcs).
    pose proof (Z.div_mod (wp_len p - wp_consumed p) cs ltac:(lia)).
    pose proof (Z.mod_pos_bound (wp_len p - wp_consumed p) cs Hcs). lia. }
  lia.
Qed.

Definition write_done (pre : list Step) (s : WS) (s' : WS) : Prop :=
  frame s s' /\ winv pre s' /\ wp_stage (pr s') = Enter /\ wp_consumed (pr s') = wp_len (pr s').

(** A failed run: resumable when the error is [BufFull]. *)
Definition write_stopped (pre : list Step) (s : WS) (e : WriteError) (s' : WS) : Prop :=
  frame s s' /\ base (tr_of pre s') (ws s') /\
  homes (if bool_decide (e = WeBufFull) then exempt (pr s') else None) (tr_of pre s') (ws s') /\
  (e = WeBufFull -> prog_ok (ws s') (pr s') /\ stage_inv (tr_of pre s') (ws s') (pr s') /\
     wp_consumed (pr s') < wp_len (pr s')).

Lemma write_loop_spec pre fuel s : winv pre s ->
  wp_consumed (pr s) < wp_len (pr s) \/ wp_stage (pr s) = Enter -> (Z.to_nat (turns (geometry (ws s)) (pr s)) < fuel)%nat ->
  wp (write_loop fuel) (fun _ => write_done pre s) (write_stopped pre s) s.
Proof.
  revert s. induction fuel as [|fuel IH]; intros s Hinv Hent Hfuel; [lia|].
  pose proof (wi_prog _ _ Hinv) as Hp. pose proof (mo_base _ _ (wi_mem _ _ Hinv)) as Hb.
  pose proof (so_geo _ (ba_state _ _ Hb)) as Hg. pose proof (geo_cs_pos _ Hg) as Hcs.
  cbn [write_loop]. do 2 wstep. destruct (Z.ltb_spec (wp_consumed (pr s)) (wp_len (pr s))).
  - do 2 wstep. rewrite make_ctx_ok by done. wstep.
    fold (ctx_of (geometry (ws s)) (pr s)).
    eapply wp_mono; [apply (cluster_loop_spec pre); [done..|]|..].
    + unfold CLUSTER_FUEL. destruct (wp_stage (pr s)); cbn; lia.
    + intros _ s1 (Hf & Hinv1 & Hst & Hc).
      eapply wp_mono; [apply (IH s1 Hinv1); [by right|]|..].
      * pose proof (turns_step (geometry (ws s)) (pr s) (pr s1) ltac:(lia)) as Ht.
        rewrite (fr_geo _ _ Hf). destruct Hp. unfold p_cur in Ht.
        specialize (Ht ltac:(lia) ltac:(lia) (fr_voff _ _ Hf) (fr_len _ _ Hf) Hc).
        assert (0 <= turns (geometry (ws s)) (pr s1)).
        { unfold turns. destruct (Z.ltb_spec (wp_consumed (pr s1)) (wp_len (pr s1))); [|lia].
          unfold p_cur. pose proof (Z.div_le_mono (wp_voff (pr s1) + wp_consumed (pr s1))
            (wp_voff (pr s1) + wp_len (pr s1) - 1) (cluster_size (geometry (ws s))) ltac:(lia)). lia. }
        lia.
      * intros _ s2 (Hf2 & Hinv2 & Hc2). split; [by eapply frame_trans|done].
      * intros e s2 (Hf2 & Hb2 & He2). split; [by eapply frame_trans|done].
    + intros e s1 (Hf & Hb1 & Hh1 & He). do 3 (split; [done|]). intros Hbf.
      destruct (He Hbf) as (? & ? & ->). split; [done|]. split; [done|].
      by rewrite (fr_len _ _ Hf).
  - wstep. split; [apply frame_refl|]. split; [done|]. destruct Hp. split; [|lia].
    destruct Hent; [lia|done].
Qed.

Lemma drive_write_spec pre s : winv pre s -> wp_consumed (pr s) < wp_len (pr s) ->
  wp drive_write (fun _ => write_done pre s) (write_stopped pre s) s.
Proof.
  intros Hinv Hmore. unfold drive_write. do 2 wstep. apply write_loop_spec; [done|by left|].
  pose proof (wi_prog _ _ Hinv) as Hp. pose proof (mo_base _ _ (wi_mem _ _ Hinv)) as Hb.
  pose proof (geo_cs_pos _ (so_geo _ (ba_state _ _ Hb))). destruct Hp.
  apply turns_fuel; unfold p_cur; lia.
Qed.
