(* ===== verification/WriteFlush.v ===== *)
(** [plan_flush] keeps the planner invariant, terminates, and on success leaves
    nothing dirty: one lemma per stage of [drive_flush], then its loop. *)

From stdpp Require Import base numbers list sets.
From Stdlib Require Import ZArith Lia.
From S2P Require Import Prelude Bytes Refcount Qcow2 WriteTypes WritePlan WriteInv.

Abbreviation FS := (PS FlushProgress).

(** ** Bits of the dirty words *)

Lemma clear_bit x k j : 0 <= k < 64 -> 0 <= j < 64 ->
  Z.testbit (Z.land x (not64 (shl64 1 k))) j = negb (k =? j) && Z.testbit x j.
Proof.
  intros Hk Hj. unfold not64, shl64. change u64_max with (Z.ones 64).
  rewrite Z.shiftl_1_l, Z.mod_small.
  2:{ change 18446744073709551616 with (2 ^ 64). split; [lia|]. apply Z.pow_lt_mono_r; lia. }
  rewrite Z.land_spec, Z.lxor_spec, Z.ones_spec_low, Z.pow2_bits_eqb by lia.
  by destruct (Z.testbit x j), (k =? j).
Qed.

Lemma bit_clear_get words words' i j n : length words = n -> 0 <= i < 64 * Z.of_nat n ->
  0 <= j < 64 * Z.of_nat n -> bit_clear words i = Some words' ->
  length words' = n /\ bit_get words' j = if i =? j then Some false else bit_get words j.
Proof.
  intros Hl Hi Hj Hc. destruct (word_at_range words i n Hl Hi) as (x & Hx & Hxi).
  destruct (word_at_range words j n Hl Hj) as (y & Hy & Hyj).
  unfold bit_clear in Hc. rewrite Hx in Hc. injection Hc as <-. split; [by rewrite length_insert|].
  pose proof (Z.mod_pos_bound i 64 ltac:(lia)). pose proof (Z.mod_pos_bound j 64 ltac:(lia)).
  pose proof (Z.div_pos i 64 ltac:(lia) ltac:(lia)). pose proof (Z.div_pos j 64 ltac:(lia) ltac:(lia)).
  unfold bit_get. rewrite Hy. unfold word_at in *.
  destruct (Z.leb_spec 0 (i / 64)); [|lia]. destruct (Z.leb_spec 0 (j / 64)); [|lia].
  destruct (Z.eq_dec (i / 64) (j / 64)) as [He|Hne].
  - rewrite <- He, list_lookup_insert_eq by lia. cbn. rewrite !nonzero_bit, clear_bit by lia.
    rewrite <- He, Hx in Hy. injection Hy as <-.
    pose proof (Z.div_mod i 64 ltac:(lia)). pose proof (Z.div_mod j 64 ltac:(lia)).
    destruct (Z.eqb_spec i j), (Z.eqb_spec (i mod 64) (j mod 64)); try lia; done.
  - rewrite list_lookup_insert_ne by lia. rewrite Hy. cbn.
    destruct (Z.eqb_spec i j) as [->|]; done.
Qed.

(** ** Invariant of a flush *)

Definition slots_clean (w : WriteState) : Prop := forall i, ~ dirty_slot w i.

Definition all_clean (w : WriteState) : Prop :=
  slots_clean w /\ l1_dirty w = false /\ forall i, ~ rb_dirty w i.

(** An L2 write-back, whatever the slot. *)
Definition is_l2_write (x : Step) : bool :=
  match kind x with WritebackCluster => true | _ => false end.

(** What a flush may emit, given the trace before it: barriers and write-backs
    only, and an L2 table only in a group of its own, begun by a barrier. *)
Definition flush_step (a : list Step) (x : Step) : Prop :=
  is_barrier (kind x) || is_l2_write x || is_l1_write x || is_rb_write x = true /\
  (is_l2_write x = true -> only_since is_l2_write a = true).

Definition flush_steps (a g : list Step) : Prop :=
  forall b x c, g = b ++ x :: c -> flush_step (a ++ b) x.

Lemma flush_steps_nil a : flush_steps a [].
Proof. by intros [|]. Qed.

Lemma flush_steps_one a x : flush_step a x -> flush_steps a [x].
Proof.
  intros Hx [|y b] z c Heq; [|by destruct b]. injection Heq as -> _. by rewrite app_nil_r.
Qed.

Lemma flush_steps_app a g g' : flush_steps a g -> flush_steps (a ++ g) g' -> flush_steps a (g ++ g').
Proof.
  intros Hg Hg' b x c Heq. apply app_eq_app in Heq as (l & [(-> & Hl)|(-> & ->)]).
  - destruct l as [|y l].
    + cbn in Hl. subst g'. specialize (Hg' [] x c eq_refl). by rewrite !app_nil_r in Hg'.
    + injection Hl as <- ->. by apply (Hg b x l).
  - rewrite app_assoc. by apply (Hg' l x c).
Qed.

(** The cluster the staged refcount table names for refblock [idx]. *)
Definition rb_home (g : Geometry) (r : StagedRegions) (idx host : Z) : Prop :=
  exists raw, be_u64 (E := WriteError) (st_refcount_table r) (idx * 8) = Ok raw /\
    host = Z.land raw L1_OFFSET_MASK /\ 0 < host /\ host mod cluster_size g = 0.

(** Everything dirty in [w] is still dirty in [w'] or was written, whole and
    where it belongs, by the steps [g]. *)
Record saves (w w' : WriteState) (r : StagedRegions) (g : list Step) : Prop := {
  sv_slots : forall i sl, slot_at (l2_slots w) i = Some sl -> exists sl',
    slot_at (l2_slots w') i = Some sl' /\ slot_valid sl' = slot_valid sl /\
    slot_l1_idx sl' = slot_l1_idx sl /\ slot_host_offset sl' = slot_host_offset sl;
  sv_l2 : forall i sl, dirty_slot w i -> slot_at (l2_slots w) i = Some sl ->
    dirty_slot w' i \/
    mkStep WritebackCluster (cfg_device (config w)) (RL2Slot i) 0 (slot_host_offset sl)
      (cluster_size (geometry w)) 0 ∈ g;
  sv_l1 : l1_dirty w = true -> l1_dirty w' = true \/
    mkStep WriteRange (cfg_device (config w)) RL1 0 (l1_table_offset (geometry w))
      (8 * l1_size (geometry w)) 0 ∈ g;
  sv_rb : forall i, rb_dirty w i -> rb_dirty w' i \/
    exists host, rb_home (geometry w) r i host /\
      mkStep WriteRange (cfg_device (config w)) RRefblocks (i * cluster_size (geometry w)) host
        (cluster_size (geometry w)) 0 ∈ g
}.

Lemma saves_same w w' r g : l2_slots w' = l2_slots w -> config w' = config w ->
  l1_dirty w' = l1_dirty w -> refblock_dirty_words w' = refblock_dirty_words w -> saves w w' r g.
Proof.
  intros Hl Hc H1 Hw. split; unfold dirty_slot, rb_dirty; rewrite ?Hl, ?Hc, ?H1, ?Hw; eauto.
Qed.

Lemma saves_trans w w1 w2 r g g' : saves w w1 r g -> saves w1 w2 r g' ->
  geometry w1 = geometry w -> config w1 = config w -> saves w w2 r (g ++ g').
Proof.
  intros [Hs H2 H1 Hr] [Hs' H2' H1' Hr'] Hg Hc. rewrite Hg, Hc in *. split.
  - intros i sl Hat. destruct (Hs i sl Hat) as (sl1 & Hat1 & Hv & Hi & Hh).
    destruct (Hs' i sl1 Hat1) as (sl2 & Hat2 & ? & ? & ?). exists sl2. split; [done|]. repeat split; congruence.
  - intros i sl Hd Hat. destruct (Hs i sl Hat) as (sl1 & Hat1 & _ & _ & Hh).
    destruct (H2 i sl Hd Hat) as [Hd1|Hin]; [|right; apply elem_of_app; by left].
    destruct (H2' i sl1 Hd1 Hat1) as [|Hin]; [by left|]. right. apply elem_of_app. right. by rewrite <- Hh.
  - intros Hd. destruct (H1 Hd) as [Hd1|Hin]; [|right; apply elem_of_app; by left].
    destruct (H1' Hd1) as [|Hin]; [by left|]. right. apply elem_of_app. by right.
  - intros i Hd. destruct (Hr i Hd) as [Hd1|(h & Hh & Hin)].
    + destruct (Hr' i Hd1) as [|(h & Hh & Hin)]; [by left|]. right. exists h. split; [done|].
      apply elem_of_app. by right.
    + right. exists h. split; [done|]. apply elem_of_app. by left.
Qed.

Definition flush_inv (tr : list Step) (w : WriteState) (p : FlushProgress) : Prop :=
  match fp_stage p with
  | PreBarrier => True
  | L2Writebacks =>
      only_since is_l2_write tr = true /\
      0 <= fp_next_idx p <= cfg_l2_slots (config w) /\
      forall i, i < fp_next_idx p -> ~ dirty_slot w i
  | L1Barrier => slots_clean w
  | L1Write => slots_clean w /\ since_barrier tr = 0
  | RbBarrier => slots_clean w /\ l1_dirty w = false
  | RbWritebacks =>
      slots_clean w /\ l1_dirty w = false /\ only_refblocks tr = true /\
      0 <= fp_next_idx p <= cfg_max_refblocks (config w) /\
      forall i, i < fp_next_idx p -> ~ rb_dirty w i
  | EndBarrier => all_clean w
  end.

Definition fmeasure (w : WriteState) (p : FlushProgress) : Z :=
  let n := cfg_l2_slots (config w) in
  let m := cfg_max_refblocks (config w) in
  match fp_stage p with
  | PreBarrier => n + m + 7
  | L2Writebacks => n - fp_next_idx p + m + 6
  | L1Barrier => m + 5
  | L1Write => m + 4
  | RbBarrier => m + 3
  | RbWritebacks => m - fp_next_idx p + 2
  | EndBarrier => 1
  end.

Record finv (pre : list Step) (s : FS) : Prop := {
  fi_mem : mem_ok pre s;
  fi_stage : flush_inv (tr_of pre s) (ws s) (pr s);
  fi_homes : homes None (tr_of pre s) (ws s)
}.

Record fframe (pre : list Step) (s s' : FS) : Prop := {
  ff_geo : geometry (ws s') = geometry (ws s);
  ff_cfg : config (ws s') = config (ws s);
  ff_pending : pending (ws s') = pending (ws s);
  ff_st : st s' = st s;
  ff_cap : sb_capacity (sb s') = sb_capacity (sb s);
  ff_steps : exists g, sb_steps (sb s') = sb_steps (sb s) ++ g /\
    flush_steps (tr_of pre s) g /\ saves (ws s) (ws s') (st s) g
}.

Lemma fframe_refl pre s : fframe pre s s.
Proof.
  split; try done. exists []. rewrite app_nil_r. split; [done|].
  split; [apply flush_steps_nil|by apply saves_same].
Qed.

Lemma fframe_trans pre s1 s2 s3 : fframe pre s1 s2 -> fframe pre s2 s3 -> fframe pre s1 s3.
Proof.
  intros [] []. split; try congruence.
  destruct ff_steps0 as (g & Hg & Ho & Hs), ff_steps1 as (g' & Hg' & Ho' & Hs'). exists (g ++ g').
  split; [by rewrite Hg', Hg, app_assoc|]. unfold tr_of in *. rewrite Hg, app_assoc in Ho'.
  split; [by apply flush_steps_app|]. eapply saves_trans; [exact Hs| |done..]. by rewrite <- ff_st0.
Qed.

(** One step pushed, then an update of the planner state. *)
Lemma fframe_one pre (s s' : FS) x : flush_step (tr_of pre s) x ->
  geometry (ws s') = geometry (ws s) -> config (ws s') = config (ws s) ->
  pending (ws s') = pending (ws s) -> st s' = st s -> sb s' = sb (pushed x s) ->
  saves (ws s) (ws s') (st s) [x] -> fframe pre s s'.
Proof.
  intros Hx ? ? ? ? Hb Hs. split; try done; [by rewrite Hb|]. exists [x]. rewrite Hb.
  split; [done|]. split; [by apply flush_steps_one|done].
Qed.

Lemma fframe_upd pre s s1 s2 : fframe pre s s1 -> geometry (ws s2) = geometry (ws s1) ->
  config (ws s2) = config (ws s1) -> pending (ws s2) = pending (ws s1) ->
  st s2 = st s1 -> sb s2 = sb s1 -> l2_slots (ws s2) = l2_slots (ws s1) ->
  l1_dirty (ws s2) = l1_dirty (ws s1) ->
  refblock_dirty_words (ws s2) = refblock_dirty_words (ws s1) -> fframe pre s s2.
Proof.
  intros Hf Hg Hc Hp Hst Hb Hl H1 Hw. eapply fframe_trans; [exact Hf|]. split; try done; [by rewrite Hb|].
  exists []. rewrite Hb, app_nil_r. split; [done|]. split; [apply flush_steps_nil|by apply saves_same].
Qed.

Definition fstage_ok (pre : list Step) (s : FS) (more : bool) (s' : FS) : Prop :=
  fframe pre s s' /\ finv pre s' /\
  if more then fmeasure (ws s') (pr s') < fmeasure (ws s) (pr s)
  else all_clean (ws s') /\ since_barrier (tr_of pre s') = 0.

Definition fstage_err (pre : list Step) (s : FS) (e : WriteError) (s' : FS) : Prop :=
  fframe pre s s' /\ base (tr_of pre s') (ws s') /\ homes None (tr_of pre s') (ws s') /\
  (e = WeBufFull -> flush_inv (tr_of pre s') (ws s') (pr s')).

Lemma fstage_err_same pre s e : finv pre s -> fstage_err pre s e s.
Proof. intros [[] ? ?]. split; [apply fframe_refl|done]. Qed.

(** ** Pushing *)

Lemma wp_fpush pre (s : FS) x (Q : unit -> FS -> Prop) : finv pre s ->
  step_ok (geometry (ws s)) (cfg_device (config (ws s))) (tr_of pre s) x ->
  (forall i, dirties_slot i x = false) -> moves_table x = false ->
  (mem_ok pre (pushed x s) -> homes None (tr_of pre (pushed x s)) (ws (pushed x s)) ->
   tr_of pre (pushed x s) = tr_of pre s ++ [x] -> Q tt (pushed x s)) ->
  wp (push_step x) Q (fstage_err pre s) s.
Proof.
  intros Hi Hx Hd Hl HQ. pose proof (fi_mem _ _ Hi) as Hm.
  assert (is_l1_patch x = false) as Hnp.
  { unfold moves_table, is_l1_patch in *. by destruct (kind x), (region x). }
  apply (wp_push_step pre); [done|by apply fstage_err_same|]. intros Hbuf Htr Hn.
  apply HQ; [|rewrite Htr; by apply (homes_push _ _ (ws s)); [apply Hi|..]|done].
  destruct Hm as [Hb _ Hst]. split; [|done|].
  - rewrite Htr. cbn [ws pushed] in *. apply base_push; try done.
    + intros i. by rewrite Hd.
    + by rewrite Hnp.
  - by apply (staged_ok_core (ws s)).
Qed.

(** After [barrier_if_needed] the trace is empty or ends in a barrier. *)
Lemma wp_barrier pre (s : FS) (Q : unit -> FS -> Prop) : finv pre s ->
  (forall s1, mem_ok pre s1 -> fframe pre s s1 -> homes None (tr_of pre s1) (ws s1) -> since_barrier (tr_of pre s1) = 0 -> pr s1 = pr s ->
     l2_slots (ws s1) = l2_slots (ws s) -> l1_dirty (ws s1) = l1_dirty (ws s) ->
     refblock_dirty_words (ws s1) = refblock_dirty_words (ws s) -> Q tt s1) ->
  wp barrier_if_needed Q (fstage_err pre s) s.
Proof.
  intros Hi HQ. pose proof (fi_mem _ _ Hi) as Hm. unfold barrier_if_needed. do 2 wstep.
  pose proof (tk_barrier _ _ (ba_tracks _ _ (mo_base _ _ Hm))) as Hsb.
  destruct (Z.eqb_spec (steps_since_barrier (ws s)) 0).
  - wstep. apply HQ; try done; [apply fframe_refl|apply Hi|congruence].
  - apply (wp_fpush pre); try done. intros Hm1 Hh1 Htr1. apply HQ; try done.
    + apply (fframe_one _ _ _ (barrier_step (cfg_device (config (ws s)))));
        [by split|done..|by apply saves_same].
    + by rewrite Htr1, since_barrier_snoc.
Qed.

(** ** Searches *)

Lemma next_dirty_slot_spec {E} w from : state_ok w -> 0 <= from ->
  match next_dirty_slot (E := E) w from with
  | Ok (Some i) => from <= i < cfg_l2_slots (config w) /\ dirty_slot w i /\
      forall j, from <= j < i -> ~ dirty_slot w j
  | Ok None => forall i, from <= i -> ~ dirty_slot w i
  | _ => False
  end.
Proof.
  intros Hs Hfrom. pose proof (so_slots _ Hs) as Hn. unfold MAX_L2_SLOTS in Hn.
  set (f := fun i => match slot_at (l2_slots w) i with
                     | Some s => slot_valid s && slot_dirty s | None => false end).
  assert (forall j, dirty_slot w j -> f j = true) as Hdf.
  { intros j (_ & sl & Hat & Hv & Hd). unfold f. by rewrite Hat, Hv, Hd. }
  pose proof (find_idx_total (E := E)
    (fun i => let? s := or_panic (slot_at (l2_slots w) i) in Ok (slot_valid s && slot_dirty s)) f
    (Z.to_nat (cfg_l2_slots (config w) - from)) from) as Hf.
  assert (forall j, from <= j < from + Z.of_nat (Z.to_nat (cfg_l2_slots (config w) - from)) ->
    (let? s := or_panic (slot_at (l2_slots w) j) in Ok (E := E) (slot_valid s && slot_dirty s)) =
    Ok (f j)) as Htot.
  { intros j Hj. unfold f. destruct (slot_at_range (l2_slots w) j (so_window _ Hs) ltac:(lia)) as [sl ->].
    done. }
  specialize (Hf Htot). unfold next_dirty_slot. destruct (find_idx _ _ _) as [[i|]| | |]; try done.
  - destruct Hf as (Hr & Hfi & Hlt). split; [lia|]. split.
    + split; [lia|]. unfold f in Hfi. destruct (slot_at _ i) as [sl|]; [|done]. bool_to_prop. eauto.
    + intros j Hj Hd. specialize (Hlt j Hj). rewrite (Hdf j Hd) in Hlt. done.
  - intros i Hi Hd. pose proof Hd as [Hlt _]. specialize (Hf i ltac:(lia)).
    rewrite (Hdf i Hd) in Hf. done.
Qed.

Lemma next_dirty_refblock_spec {E} w from : state_ok w -> 0 <= from ->
  match next_dirty_refblock (E := E) w from with
  | Ok (Some i) => from <= i < cfg_max_refblocks (config w) /\ rb_dirty w i /\
      forall j, from <= j < i -> ~ rb_dirty w j
  | Ok None => forall i, from <= i -> ~ rb_dirty w i
  | _ => False
  end.
Proof.
  intros Hs Hfrom. pose proof (so_max_rb _ Hs) as Hn. unfold MAX_REFBLOCKS in Hn.
  set (f := fun i => bool_decide (bit_get (refblock_dirty_words w) i = Some true)).
  pose proof (find_idx_total (E := E) (refblock_dirty w) f
    (Z.to_nat (cfg_max_refblocks (config w) - from)) from) as Hf.
  assert (forall j, from <= j < from + Z.of_nat (Z.to_nat (cfg_max_refblocks (config w) - from)) ->
    refblock_dirty (E := E) w j = Ok (f j)) as Htot.
  { intros j Hj. unfold f, refblock_dirty.
    destruct (Z.leb_spec (cfg_max_refblocks (config w)) j); [lia|].
    destruct (bit_get_range (refblock_dirty_words w) j 32 (so_rb_words _ Hs) ltac:(lia)) as [b Hb].
    rewrite Hb. cbn. destruct b; by case_bool_decide. }
  specialize (Hf Htot). unfold next_dirty_refblock.
  destruct (find_idx _ _ _) as [[i|]| | |]; try done.
  - destruct Hf as (Hr & Hfi & Hlt). split; [lia|]. split.
    + split; [lia|]. by apply bool_decide_eq_true in Hfi.
    + intros j Hj [_ Hd]. specialize (Hlt j Hj). by apply bool_decide_eq_false in Hlt.
  - intros i Hi [Hr Hd]. specialize (Hf i ltac:(lia)). by apply bool_decide_eq_false in Hf.
Qed.

(** ** The stages *)

Section stages.
Context (pre : list Step) (s : FS) (Hinv : finv pre s).
Let Hmem : mem_ok pre s := fi_mem _ _ Hinv.
Let Hbase : base (tr_of pre s) (ws s) := mo_base _ _ Hmem.
Let Hstate : state_ok (ws s) := ba_state _ _ Hbase.

Lemma wp_fgoto s1 x idx R : fframe pre s s1 -> mem_ok pre s1 -> homes None (tr_of pre s1) (ws s1) ->
  flush_inv (tr_of pre s1) (ws s1) (mkFlushProgress x idx) ->
  fmeasure (ws s1) (mkFlushProgress x idx) < fmeasure (ws s) (pr s) ->
  wp (fgoto x idx) (fstage_ok pre s) R s1.
Proof.
  intros Hf Hm Hh Hi Hlt. unfold fgoto. do 3 wstep. split; [by apply (fframe_upd pre s s1)|].
  split; [split; [|done|done]|done]. destruct Hm. by split.
Qed.

Lemma flush_pre_barrier : fp_stage (pr s) = PreBarrier ->
  wp (do! barrier_if_needed in fgoto L2Writebacks 0) (fstage_ok pre s) (fstage_err pre s) s.
Proof.
  intros Hst. pose proof (so_slots _ Hstate) as Hn. wstep. apply (wp_barrier pre); [done|].
  intros s1 Hm Hf Hh Hs0 _ _ _ _. apply wp_fgoto; try done; unfold flush_inv, fmeasure; cbn.
  - rewrite (ff_cfg _ _ _ Hf). split; [by apply since_barrier_only|]. split; [lia|]. intros i Hi (_ & sl & Hat & _).
    apply slot_at_nonneg in Hat. lia.
  - rewrite Hst, (ff_cfg _ _ _ Hf). lia.
Qed.

Lemma flush_l2_writebacks_spec : fp_stage (pr s) = L2Writebacks ->
  wp flush_l2_writebacks (fstage_ok pre s) (fstage_err pre s) s.
Proof.
  intros Hst. pose proof (fi_stage _ _ Hinv) as Hfi. unfold flush_inv in Hfi. rewrite Hst in Hfi.
  destruct Hfi as (Honly & Hidx & Hbelow). pose proof (so_slots _ Hstate) as Hn. unfold MAX_L2_SLOTS in Hn.
  unfold flush_l2_writebacks. do 4 wstep.
  pose proof (next_dirty_slot_spec (E := WriteError) (ws s) (fp_next_idx (pr s)) Hstate
    ltac:(lia)) as Hnext.
  destruct (next_dirty_slot _ _) as [[i|]| | |]; try done.
  - destruct Hnext as (Hi & (_ & sl & Hat & Hv & Hd) & Hskip). do 2 wstep. rewrite Hat. cbn [or_panic].
    assert (as_u16 i = i) as Hu16 by (apply Z.mod_small; lia). rewrite Hu16.
    destruct (fi_homes _ _ Hinv i sl Hat ltac:(lia) Hv ltac:(done)) as (o & Ho & _).
    wstep. apply (wp_fpush pre); try done; [split; [done|]; by split; [|split; [|exists o]]|].
    intros Hm1 Hh1 Htr1. set (x := writeback_step _ _ _ _) in *. set (s1 := pushed x s) in *. wstep.
    assert (slot_unsaved i (tr_of pre s1) = false) as Hsv.
    { rewrite Htr1, slot_unsaved_snoc. unfold x, is_writeback. cbn. by rewrite Z.eqb_refl. }
    eapply wp_upd_ws.
    { unfold put_slot. cbn [ws s1 pushed l2_slots set_steps_since_barrier]. by rewrite Hat. }
    set (sl' := mkL2Slot _ _ _ _ _) in *. cbv beta.
    assert (base (tr_of pre s1) (set_l2_slots (<[Z.to_nat i := sl']> (l2_slots (ws s1))) (ws s1))) as Hb2.
    { pose proof (mo_base _ _ Hm1) as Hb1. eapply (base_slot _ (ws s1) _ i sl'); try done; [cbn; lia|..].
      - destruct (ba_state _ _ Hb1). split; try done. cbn. by rewrite length_insert.
      - rewrite Hsv. done.
      - intros _ j sj Hne Hlt Hatj Hvj Heq. apply Hne.
        by apply (ba_unique _ _ Hb1 j i sj sl); try done; cbn; lia. }
    apply wp_fgoto; cbn [ws set_ws].
    + apply (fframe_one pre s _ x); [by split|done..|]. split; cbn; [| |by left|by left].
      * intros j sj Hatj. rewrite (slot_at_insert _ i j) by (apply Hstate || lia).
        destruct (Z.eqb_spec i j) as [<-|]; [|eauto]. rewrite Hat in Hatj. injection Hatj as <-.
        by exists sl'.
      * intros j sj (Hlt & sd & Hsd & Hvd & Hdd) Hatj. destruct (Z.eq_dec i j) as [<-|Hne].
        { right. rewrite Hat in Hatj. injection Hatj as <-. apply list_elem_of_singleton. done. }
        left. split; [done|]. exists sd. cbn. rewrite (slot_at_insert _ i j) by (apply Hstate || lia).
        by destruct (Z.eqb_spec i j).
    + split; [exact Hb2|apply Hm1|]. apply (staged_ok_core (ws s)); [apply Hmem|done..].
    + eapply (homes_put None _ (ws s1) _ i sl); [apply Hm1|exact Hh1|cbn; lia|done| |reflexivity|done].
      done.
    + split; [|split; [cbn; lia|]].
      { change (only_since is_l2_write (tr_of pre s1) = true). by rewrite Htr1, only_since_snoc. }
      cbn. intros j Hj (Hlt & sj & Hatj & Hvj & Hdj). cbn in *.
      rewrite (slot_at_insert _ i j) in Hatj; [|apply Hstate|lia].
      destruct (Z.eqb_spec i j) as [->|Hne]; [by injection Hatj as <-|].
      destruct (Z.lt_ge_cases j (fp_next_idx (pr s))).
      * apply (Hbelow j); [done|]. split; [done|]. eauto.
      * apply (Hskip j); [lia|]. split; [done|]. eauto.
    + unfold fmeasure. rewrite Hst. cbn. lia.
  - apply wp_fgoto; try done; [apply fframe_refl|apply Hinv| |unfold fmeasure; rewrite Hst; cbn; lia].
    intros i Hi. destruct (Z.lt_ge_cases i (fp_next_idx (pr s))); [by apply (Hbelow i)|].
    by apply (Hnext i).
Qed.

Lemma slots_clean_same w : l2_slots w = l2_slots (ws s) -> config w = config (ws s) ->
  slots_clean (ws s) -> slots_clean w.
Proof. intros Hl Hc H i. unfold dirty_slot. rewrite Hl, Hc. apply H. Qed.

Lemma clean_saved : slots_clean (ws s) -> forall i, slot_unsaved i (tr_of pre s) = false.
Proof.
  intros Hc i. destruct (slot_unsaved _ _) eqn:Hu; [|done].
  destruct (Hc i). exact (tk_slots _ _ (ba_tracks _ _ Hbase) _ Hu).
Qed.

Lemma flush_l1_barrier : fp_stage (pr s) = L1Barrier ->
  wp (if l1_dirty (ws s) then do! barrier_if_needed in fgoto L1Write (fp_next_idx (pr s))
      else fgoto RbBarrier (fp_next_idx (pr s))) (fstage_ok pre s) (fstage_err pre s) s.
Proof.
  intros Hst. pose proof (fi_stage _ _ Hinv) as Hcl. unfold flush_inv in Hcl. rewrite Hst in Hcl.
  destruct (l1_dirty (ws s)) eqn:Hd.
  - wstep. apply (wp_barrier pre); [done|]. intros s1 Hm Hf Hh Hs0 _ Hsl _ _.
    apply wp_fgoto; try done.
    + split; [|done]. apply slots_clean_same; [done|apply Hf|done].
    + unfold fmeasure. rewrite Hst, (ff_cfg _ _ _ Hf). cbn. lia.
  - apply wp_fgoto; try done; [apply fframe_refl|apply Hinv|]. unfold fmeasure. rewrite Hst. cbn. lia.
Qed.

Lemma flush_l1_write : fp_stage (pr s) = L1Write ->
  wp (do! push_step (l1_write_step (geometry (ws s)) (cfg_device (config (ws s)))) in
      do! upd_ws (fun w => Ok (set_l1_dirty false w)) in
      fgoto RbBarrier (fp_next_idx (pr s))) (fstage_ok pre s) (fstage_err pre s) s.
Proof.
  intros Hst. pose proof (fi_stage _ _ Hinv) as Hfi. unfold flush_inv in Hfi. rewrite Hst in Hfi.
  destruct Hfi as [Hcl Hs0]. wstep.
  assert (wmul (l1_size (geometry (ws s))) 8 = 8 * l1_size (geometry (ws s))) as Hlen.
  { pose proof (go_l1 _ (so_geo _ Hstate)) as Hl. unfold QCOW2_MAX_L1_SIZE_ENTRIES in Hl.
    rewrite wmul_small by (unfold u64_max; lia). lia. }
  apply (wp_fpush pre); try done.
  { split; [done|]. do 3 (split; [done|]). by split; [|apply clean_saved]. }
  intros Hm1 Hh1 Htr1. wstep. eapply wp_upd_ws; [done|]. apply wp_fgoto; cbn [ws set_ws].
  - apply (fframe_one _ _ _ (l1_write_step (geometry (ws s)) (cfg_device (config (ws s)))));
      [by split|done..|]. split; cbn; [eauto|by left| |by left]. intros _. right.
    apply list_elem_of_singleton. unfold l1_write_step. by rewrite Hlen.
  - destruct Hm1 as [Hb1 Hbuf1 Hst1]. split; [|done|by apply (staged_ok_core (ws (pushed
      (l1_write_step (geometry (ws s)) (cfg_device (config (ws s)))) s)))].
    apply base_l1_dirty; [done|]. unfold tr_of in *. cbn [sb set_ws] in *. rewrite Htr1, l1_unsaved_snoc.
    done.
  - exact Hh1.
  - split; [|done]. by apply slots_clean_same.
  - unfold fmeasure. rewrite Hst. cbn. lia.
Qed.

Lemma rb_dirty_same w i : config w = config (ws s) ->
  refblock_dirty_words w = refblock_dirty_words (ws s) -> rb_dirty w i <-> rb_dirty (ws s) i.
Proof. intros Hc Hw. unfold rb_dirty. by rewrite Hc, Hw. Qed.

Lemma flush_rb_barrier : fp_stage (pr s) = RbBarrier ->
  wp (let! nxt := slift (next_dirty_refblock (ws s) 0) in
      match nxt with
      | Some _ => do! barrier_if_needed in fgoto RbWritebacks 0
      | None => fgoto EndBarrier (fp_next_idx (pr s))
      end) (fstage_ok pre s) (fstage_err pre s) s.
Proof.
  intros Hst. pose proof (fi_stage _ _ Hinv) as Hfi. unfold flush_inv in Hfi. rewrite Hst in Hfi.
  destruct Hfi as [Hcl Hl1]. pose proof (so_max_rb _ Hstate) as Hn. do 2 wstep.
  pose proof (next_dirty_refblock_spec (E := WriteError) (ws s) 0 Hstate ltac:(lia)) as Hnext.
  destruct (next_dirty_refblock _ _) as [[i|]| | |]; try done.
  - wstep. apply (wp_barrier pre); [done|]. intros s1 Hm Hf Hh Hs0 _ Hsl Hl1' Hw.
    apply wp_fgoto; try done.
    + split; [apply slots_clean_same; [done|apply Hf|done]|]. split; [congruence|].
      split; [by apply since_barrier_only|]. cbn. rewrite (ff_cfg _ _ _ Hf). split; [lia|].
      intros j Hj [? _]. lia.
    + unfold fmeasure. rewrite Hst, (ff_cfg _ _ _ Hf). cbn. lia.
  - apply wp_fgoto; try done; [apply fframe_refl|apply Hinv| |].
    + split; [done|]. split; [done|]. intros j Hj. apply (Hnext j); [|done]. destruct Hj. lia.
    + unfold fmeasure. rewrite Hst. cbn. lia.
Qed.

Lemma flush_refblock_host_total idx : 0 <= idx ->
  match flush_refblock_host (geometry (ws s)) (st s) idx with
  | Ok host => rb_home (geometry (ws s)) (st s) idx host
  | Err e => e = WeStagedRegionsMismatch
  | _ => False
  end.
Proof.
  intros Hi. pose proof (geo_cs_pos _ (so_geo _ Hstate)) as Hcs. destruct (mo_staged _ _ Hmem).
  destruct (staged_blocks_of _ _ Hstate (mo_staged _ _ Hmem)) as [_ Hn]. unfold rb_count in Hn.
  unfold flush_refblock_host, udiv. destruct (Z.eqb_spec (cluster_size (geometry (ws s))) 0); [lia|].
  cbn [obind]. destruct (Z.leb_spec (blen (st_refblocks (st s)) / cluster_size (geometry (ws s))) idx);
    [done|].
  rewrite wmul_small by (unfold u64_max; lia).
  destruct (be_u64_ok (E := WriteError) (st_refcount_table (st s)) (idx * 8)) as (b & _ & Hb); [lia..|].
  rewrite Hb. cbn [obind]. destruct (_ || _) eqn:Hc; [done|]. bool_to_prop.
  exists (be_val b). split; [done|]. split; [done|].
  pose proof (land_mask_bound (be_val b) L1_OFFSET_MASK ltac:(done)).
  split; [lia|]. by apply is_multiple_of_spec; [lia|].
Qed.

Lemma flush_rb_writebacks_spec : fp_stage (pr s) = RbWritebacks ->
  wp flush_rb_writebacks (fstage_ok pre s) (fstage_err pre s) s.
Proof.
  intros Hst. pose proof (fi_stage _ _ Hinv) as Hfi. unfold flush_inv in Hfi. rewrite Hst in Hfi.
  destruct Hfi as (Hcl & Hl1 & Honly & Hidx & Hbelow). pose proof (so_max_rb _ Hstate) as Hn.
  unfold MAX_REFBLOCKS in Hn. unfold flush_rb_writebacks. do 4 wstep.
  pose proof (next_dirty_refblock_spec (E := WriteError) (ws s) (fp_next_idx (pr s)) Hstate
    ltac:(lia)) as Hnext.
  destruct (next_dirty_refblock _ _) as [[i|]| | |]; try done.
  - destruct Hnext as (Hi & _ & Hskip). do 2 wstep.
    pose proof (flush_refblock_host_total i ltac:(lia)) as Hh.
    destruct (flush_refblock_host _ _ _) as [host|e| |]; try done.
    2:{ subst e. split; [apply fframe_refl|]. split; [done|]. split; [apply Hinv|done]. }
    pose proof (geo_cs_pos _ (so_geo _ Hstate)) as Hcs.
    assert (wmul i (cluster_size (geometry (ws s))) = i * cluster_size (geometry (ws s))) as Hoff
      by (apply wmul_small; unfold u64_max; nia).
    wstep. apply (wp_fpush pre); try done.
    { split; [done|]. split.
      { exists i. destruct Hh as (_ & _ & _ & H0 & Hal). repeat split; try done. lia. }
      split; [done|]. split; [by apply clean_saved|].
      destruct (l1_unsaved _) eqn:Hu; [|done].
      by rewrite (tk_l1 _ _ (ba_tracks _ _ Hbase) Hu) in Hl1. }
    intros Hm1 Hh1 Htr1. set (x := refblock_write_step _ _ _ _) in *. wstep.
    destruct (word_at_range (refblock_dirty_words (ws s)) i 32 (so_rb_words _ Hstate) ltac:(lia))
      as (y & Hy & _).
    destruct (bit_clear (refblock_dirty_words (ws s)) i) as [words|] eqn:Hc.
    2:{ unfold bit_clear in Hc. by rewrite Hy in Hc. }
    eapply wp_upd_ws; [unfold refblock_dirty_clear; cbn; rewrite Hc; done|].
    pose proof (fun j Hj => proj2 (bit_clear_get _ _ i j 32 (so_rb_words _ Hstate) ltac:(lia) Hj Hc)) as Hget.
    apply wp_fgoto; cbn [ws set_ws].
    + eapply (fframe_one pre s _ x); [by split|done..|]. split; cbn; [eauto|by left|by left|].
      intros j [Hj Hbj]. destruct (Z.eq_dec i j) as [<-|Hne].
      * right. exists host. split; [done|]. apply list_elem_of_singleton. unfold x, refblock_write_step.
        by rewrite Hoff.
      * left. split; [done|]. cbn. rewrite Hget by lia. by destruct (Z.eqb_spec i j).
    + destruct Hm1 as [Hb1 Hbuf1 Hst1]. split; [|done|by apply (staged_ok_core (ws (pushed x s)))].
      apply base_refblocks; [done|].
      by destruct (bit_clear_get _ _ i i 32 (so_rb_words _ Hstate) ltac:(lia) ltac:(lia) Hc).
    + exact Hh1.
    + split; [done|]. split; [done|]. split.
      { unfold tr_of in *. cbn [sb set_ws] in *. rewrite Htr1. unfold only_refblocks. rewrite only_since_snoc. done. }
      split; [cbn; lia|]. cbn. intros j Hj [Hjr Hb]. cbn in *.
      rewrite Hget in Hb by lia. destruct (Z.eqb_spec i j); [done|].
      destruct (Z.lt_ge_cases j (fp_next_idx (pr s))).
      * by apply (Hbelow j).
      * apply (Hskip j); [lia|done].
    + unfold fmeasure. rewrite Hst. cbn. lia.
  - apply wp_fgoto; try done; [apply fframe_refl|apply Hinv| |unfold fmeasure; rewrite Hst; cbn; lia].
    split; [done|]. split; [done|]. intros j Hj.
    destruct (Z.lt_ge_cases j (fp_next_idx (pr s))); [by apply (Hbelow j)|by apply (Hnext j)].
Qed.

Lemma flush_end_barrier : fp_stage (pr s) = EndBarrier ->
  wp (do! barrier_if_needed in sret false) (fstage_ok pre s) (fstage_err pre s) s.
Proof.
  intros Hst. pose proof (fi_stage _ _ Hinv) as Hfi. unfold flush_inv in Hfi. rewrite Hst in Hfi.
  destruct Hfi as (Hcl & Hl1 & Hrb). wstep. apply (wp_barrier pre); [done|].
  intros s1 Hm Hf Hh Hs0 Hpr Hsl Hl1' Hw. wstep.
  assert (all_clean (ws s1)) as Hall.
  { split; [apply slots_clean_same; [done|apply Hf|done]|]. split; [congruence|].
    intros i. rewrite (rb_dirty_same (ws s1) i (ff_cfg _ _ _ Hf) Hw). apply Hrb. }
  split; [done|]. split; [|done]. split; [done| |done]. unfold flush_inv. by rewrite Hpr, Hst.
Qed.

Lemma flush_stage_spec : wp flush_stage (fstage_ok pre s) (fstage_err pre s) s.
Proof.
  unfold flush_stage. do 2 wstep. destruct (fp_stage (pr s)) eqn:Hst;
    eauto using flush_pre_barrier, flush_l2_writebacks_spec, flush_l1_barrier, flush_l1_write,
      flush_rb_barrier, flush_rb_writebacks_spec, flush_end_barrier.
Qed.

End stages.

(** ** The loop *)

Definition flush_done (pre : list Step) (s s' : FS) : Prop :=
  fframe pre s s' /\ base (tr_of pre s') (ws s') /\ homes None (tr_of pre s') (ws s') /\ all_clean (ws s') /\
  since_barrier (tr_of pre s') = 0.

Lemma flush_loop_spec pre fuel s : finv pre s -> fmeasure (ws s) (pr s) < Z.of_nat fuel ->
  0 <= fmeasure (ws s) (pr s) ->
  wp (flush_loop fuel) (fun _ => flush_done pre s) (fstage_err pre s) s.
Proof.
  revert s. induction fuel as [|fuel IH]; intros s Hinv Hlt Hpos; [lia|].
  cbn [flush_loop]. wstep. eapply wp_mono; [by apply flush_stage_spec| |done].
  intros [] s1 (Hf & Hinv1 & Hres); cbv beta iota.
  - eapply wp_mono; [apply (IH s1 Hinv1); [lia|]|..].
    + pose proof (fi_stage _ _ Hinv1) as Hfi. unfold flush_inv in Hfi.
      pose proof (so_slots _ (ba_state _ _ (mo_base _ _ (fi_mem _ _ Hinv1)))).
      pose proof (so_max_rb _ (ba_state _ _ (mo_base _ _ (fi_mem _ _ Hinv1)))).
      unfold fmeasure. destruct (fp_stage (pr s1)); lia.
    + intros _ s2 (Hf2 & Hrest). split; [by eapply fframe_trans|done].
    + intros e s2 (Hf2 & Hrest). split; [by eapply fframe_trans|done].
  - wstep. split; [done|]. do 2 (split; [apply Hinv1|]). done.
Qed.

Lemma drive_flush_spec pre s : finv pre s ->
  wp drive_flush (fun _ => flush_done pre s) (fstage_err pre s) s.
Proof.
  intros Hinv. pose proof (ba_state _ _ (mo_base _ _ (fi_mem _ _ Hinv))) as Hs.
  pose proof (so_slots _ Hs). pose proof (so_max_rb _ Hs). pose proof (fi_stage _ _ Hinv) as Hfi.
  unfold MAX_L2_SLOTS, MAX_REFBLOCKS, flush_inv in *. apply flush_loop_spec; [done|..];
    unfold FLUSH_FUEL, fmeasure; destruct (fp_stage (pr s)); lia.
Qed.
