(* ===== verification/WriteSession.v ===== *)
(** Planning sessions: any interleaving of [plan_write] and [plan_flush] calls on
    the state of one opened image, with whatever bytes the executor staged, and
    any window size.  [session_inv] holds throughout, and the theorems of the
    planner follow from it. *)

From stdpp Require Import base numbers list sets.
From Stdlib Require Import ZArith Lia.
From S2P Require Import Prelude Bytes Refcount Qcow2 WriteTypes WritePlan WriteInv WriteStages WriteFlush.

(** ** Calls *)

(** What every [StagedRegions] a caller can build satisfies. *)
Record regions_ok (r : StagedRegions) : Prop := {
  ro_l1 : is_bytes (st_l1 r);
  ro_l2 : is_bytes (st_l2_window r);
  ro_rt : is_bytes (st_refcount_table r);
  ro_rb : is_bytes (st_refblocks r);
  ro_fits : slice_fits (st_refblocks r)
}.

Definition source_ok (data : DataSource) : Prop :=
  match data with CallerData o => is_u64 o | Fill b => is_u8 b end.

(** The memory a planning call starts from: a freshly reset window. *)
Definition call_mem (w : WriteState) (r : StagedRegions) (cap : Z) : PS unit :=
  mkPS w r tt (mkStepBuf [] cap).

(** The window's length, and the bound on the steps of a whole session. *)
Definition call_ok (tr : list Step) (r : StagedRegions) (cap : Z) : Prop :=
  regions_ok r /\ 0 <= cap /\ Z.of_nat (length tr) + cap <= u64_max.

(** ** Sessions *)

Inductive session (w0 : WriteState) : WriteState -> list Step -> Prop :=
| session_start : session w0 w0 []
| session_write w tr r cap voff n data res s' :
    session w0 w tr -> call_ok tr r cap -> is_u64 voff -> is_u64 n -> source_ok data ->
    plan_write voff n data (call_mem w r cap) = (res, s') ->
    session w0 (ws s') (tr ++ sb_steps (sb s'))
| session_flush w tr r cap res s' :
    session w0 w tr -> call_ok tr r cap -> plan_flush (call_mem w r cap) = (res, s') ->
    session w0 (ws s') (tr ++ sb_steps (sb s')).

(** ** The session invariant *)

Definition pending_inv (tr : list Step) (w : WriteState) : Prop :=
  match pending w with
  | PIdle => True
  | PWrite p => prog_ok w p /\ stage_inv tr w p /\ wp_consumed p < wp_len p
  | PFlush p => flush_inv tr w p
  end.

(** The slot a suspended write has initialised and not yet published. *)
Definition pending_exempt (w : WriteState) : option Z :=
  match pending w with PWrite p => exempt p | _ => None end.

Record session_inv (tr : list Step) (w : WriteState) : Prop := {
  si_base : base tr w;
  si_pending : pending_inv tr w;
  si_homes : homes (pending_exempt w) tr w
}.

Lemma validate_staged_spec w r b : state_ok w -> regions_ok r ->
  match validate_staged w r b with
  | Ok _ => staged_ok w r
  | Err e => e = WeStagedRegionsMismatch
  | _ => False
  end.
Proof.
  intros Hs []. pose proof (geo_cs_pos _ (so_geo _ Hs)) as Hcs.
  pose proof (go_l1 _ (so_geo _ Hs)) as Hl. pose proof (so_slots _ Hs) as Hn.
  unfold MAX_L2_SLOTS, QCOW2_MAX_L1_SIZE_ENTRIES in *. unfold validate_staged, udiv.
  destruct (sb_capacity b =? 0); [done|].
  rewrite (wmul_small (l1_size _)) by (unfold u64_max; lia).
  destruct (Z.ltb_spec (blen (st_l1 r)) (l1_size (geometry w) * 8)); [done|].
  rewrite (wmul_small (cfg_l2_slots _)) by (unfold u64_max; nia).
  destruct (Z.ltb_spec (blen (st_l2_window r)) (cfg_l2_slots (config w) * cluster_size (geometry w)));
    [done|].
  destruct (is_multiple_of _ _) eqn:Hm; cbn [negb]; [|done].
  apply is_multiple_of_spec in Hm; [|lia].
  destruct (Z.eqb_spec (cluster_size (geometry w)) 0); [lia|]. cbn [obind].
  destruct (Z.ltb_spec (cfg_max_refblocks (config w))
    (blen (st_refblocks r) / cluster_size (geometry w))); [done|].
  pose proof (blen_nonneg (st_refblocks r)). pose proof (so_max_rb _ Hs) as Hrb.
  pose proof (Z.div_pos (blen (st_refblocks r)) (cluster_size (geometry w)) ltac:(lia) ltac:(lia)).
  unfold MAX_REFBLOCKS in Hrb. rewrite wmul_small by (unfold u64_max; lia).
  destruct (Z.ltb_spec (blen (st_refcount_table r))
    (blen (st_refblocks r) / cluster_size (geometry w) * 8)); [done|].
  by split.
Qed.

Lemma admit_write_spec w voff n data : geo_ok (geometry w) -> 1 <= cfg_l2_slots (config w) ->
  is_u64 voff -> is_u64 n ->
  match admit_write (geometry w) voff n data with
  | Ok None => n = 0
  | Ok (Some p) => prog_ok w p /\ wp_stage p = Enter /\ wp_consumed p < wp_len p /\
      wp_voff p = voff /\ wp_len p = n /\ wp_data p = data
  | Err e => e = WeOutOfBounds
  | _ => False
  end.
Proof.
  intros Hg Hsl Hv Hn. pose proof (geo_cs_pos _ Hg). pose proof (geo_cs_eight _ Hg) as [H8 _].
  pose proof (geo_cov _ Hg). assert (0 < l2_coverage (geometry w)) by nia.
  unfold admit_write, udiv, is_u64 in *.
  destruct (checked_add voff n) as [e|] eqn:He; [|done]. cbn [ok_or obind].
  apply checked_add_Some in He as [-> He].
  destruct (Z.ltb_spec (virtual_size (geometry w)) (voff + n)); [done|].
  destruct (match data with CallerData o => ok_or (checked_add o n) WeOutOfBounds | Fill _ => Ok 0 end)
    as [x|e| |] eqn:Hd; cbn [obind].
  - destruct (Z.eqb_spec n 0); [done|].
    destruct (Z.eqb_spec (l2_coverage (geometry w)) 0); [lia|]. cbn [obind].
    destruct (Z.leb_spec (l1_size (geometry w)) ((voff + n - 1) / l2_coverage (geometry w))); [done|].
    split; [|repeat split; cbn; lia]. split; cbn; lia.
  - destruct data; [|done]. destruct (checked_add _ _); [done|]. by injection Hd.
  - destruct data; [|done]. by destruct (checked_add _ _).
  - destruct data; [|done]. by destruct (checked_add _ _).
Qed.

(** Entering a drive: the resume point is taken and pending slot inits count as
    executed. *)
Lemma base_enter tr w : base tr w -> base tr (pending_zero_clear_all (set_pending PIdle w)).
Proof.
  intros Hb. apply (base_core _ w); [done|by split|]. destruct (ba_state _ _ Hb). by split.
Qed.

Lemma base_pending tr w p : base tr w -> base tr (set_pending p w).
Proof.
  intros Hb. apply (base_core _ w); [done|by split|]. destruct (ba_state _ _ Hb). by split.
Qed.

(** ** One call *)

Definition unit_mem {P} (s : PS P) : PS unit := mkPS (ws s) (st s) tt (sb s).

Lemma wp_run_drive {P} (m : PM P unit) p (s : PS unit) Q R :
  wp m (fun _ s1 => Q (Ok tt, pr s1) (unit_mem s1)) (fun e s1 => Q (Err e, pr s1) (unit_mem s1))
    (mkPS (ws s) (st s) p (sb s)) ->
  wp (run_drive m p) Q R s.
Proof.
  unfold wp, run_drive. by destruct (m _) as [[[]|e| |] s1].
Qed.

(** What a returning planning call leaves behind. *)
Record call_done (tr : list Step) (w : WriteState) (s' : PS unit) : Prop := {
  cd_inv : session_inv (tr ++ sb_steps (sb s')) (ws s');
  cd_geo : geometry (ws s') = geometry w;
  cd_cfg : config (ws s') = config w
}.

Definition write_ok (tr : list Step) (w : WriteState) (r : StagedRegions) (k : Z) (s' : PS unit) : Prop :=
  call_done tr w s' /\ Forall (fun x => write_step x = true) (sb_steps (sb s')) /\
  marked w r (ws s') (st s') /\
  pending (ws s') = PIdle /\ k = Z.of_nat (length (sb_steps (sb s'))).

Definition write_err (tr : list Step) (w : WriteState) (r : StagedRegions) (e : WriteError) (s' : PS unit) : Prop :=
  call_done tr w s' /\ Forall (fun x => write_step x = true) (sb_steps (sb s')) /\
  marked w r (ws s') (st s') /\
  (e = WeBufFull <-> exists p, pending (ws s') = PWrite p) \/
  ws s' = w /\ st s' = r /\ sb_steps (sb s') = [] /\ e <> WeBufFull.

Lemma call_unchanged tr w r cap : session_inv tr w -> call_done tr w (call_mem w r cap).
Proof. intros Hi. split; [|done|done]. cbn. by rewrite app_nil_r. Qed.

Lemma winv_enter tr w r cap p : session_inv tr w -> call_ok tr r cap -> staged_ok w r ->
  prog_ok w p -> stage_inv tr w p -> homes (exempt p) tr w ->
  winv tr (mkPS (pending_zero_clear_all (set_pending PIdle w)) r p (mkStepBuf [] cap)).
Proof.
  intros [Hb _ _] (Hr & Hcap & Hlen) Hst Hp Hsi Hh. split.
  - split; [|by split|by apply (staged_ok_core w)]. unfold tr_of. cbn. rewrite app_nil_r.
    by apply base_enter.
  - destruct Hp. by split.
  - unfold tr_of. cbn [sb sb_steps ws pr]. rewrite app_nil_r. exact Hsi.
  - unfold tr_of. cbn [sb sb_steps ws pr]. rewrite app_nil_r. exact Hh.
Qed.

Lemma pending_inv_set tr w p : prog_ok w p /\ stage_inv tr w p /\ wp_consumed p < wp_len p ->
  pending_inv tr (set_pending (PWrite p) w).
Proof. intros ([] & Hst & Hc). unfold pending_inv. cbn. split; [by split|]. split; done. Qed.

Lemma drive_write_call tr w r cap p (Q : Z -> PS unit -> Prop) R :
  session_inv tr w -> call_ok tr r cap -> staged_ok w r -> prog_ok w p -> stage_inv tr w p ->
  homes (exempt p) tr w -> wp_consumed p < wp_len p ->
  (forall k s', write_ok tr w r k s' -> Q k s') -> (forall e s', write_err tr w r e s' -> R e s') ->
  wp (do! upd_ws (fun w => Ok (pending_zero_clear_all (set_pending PIdle w))) in
      let! rp := run_drive drive_write p in
      finish_plan PWrite 0 rp) Q R (call_mem w r cap).
Proof.
  intros Hi Hc Hst Hp Hsi Hho Hmore HQ HR. wstep. eapply wp_upd_ws; [done|]. wstep. apply wp_run_drive.
  eapply wp_mono; [apply (drive_write_spec tr); [by apply winv_enter|done]|..].
  - intros _ s1 (Hf & Hinv1 & Hent & _). unfold finish_plan. do 3 wstep. apply HQ.
    destruct (fr_steps _ _ Hf) as (g & Hg & Fg). cbn in Hg.
    assert (pending (ws s1) = PIdle) as Hpe by exact (fr_pending _ _ Hf).
    split; [split|split; [|split; [|split]]].
    + split; [apply Hinv1|unfold pending_inv; cbn [ws unit_mem]; by rewrite Hpe|].
      unfold pending_exempt. cbn [ws unit_mem]. rewrite Hpe. pose proof (wi_homes _ _ Hinv1) as Hh1.
      unfold exempt in Hh1. by rewrite Hent in Hh1.
    + exact (fr_geo _ _ Hf).
    + exact (fr_cfg _ _ Hf).
    + cbn. by rewrite Hg.
    + destruct (fr_marked _ _ Hf). by split.
    + exact (fr_pending _ _ Hf).
    + unfold sb_emitted. cbn. lia.
  - intros e s1 (Hf & Hb1 & Hh1 & He). destruct (fr_steps _ _ Hf) as (g & Hg & Fg). cbn in Hg.
    assert (pending (ws s1) = PIdle) as Hpe by exact (fr_pending _ _ Hf).
    destruct (decide (e = WeBufFull)) as [->|Hne].
    + rewrite bool_decide_eq_true_2 in Hh1 by done.
      unfold finish_plan. wstep. eapply wp_upd_ws; [done|]. wstep. apply HR. left.
      split; [split|split; [|split]]; cbn; try apply Hf; [split| |destruct (fr_marked _ _ Hf); by split|].
      * by apply base_pending.
      * apply pending_inv_set. by apply He.
      * exact Hh1.
      * by rewrite Hg.
      * split; [by eexists|done].
    + assert (finish_plan PWrite 0 (Err e, pr s1) = sfail e) as -> by (by destruct e).
      rewrite bool_decide_eq_false_2 in Hh1 by done.
      wstep. apply HR. left.
      split; [split|split; [|split]]; cbn; try apply Hf; [split| |destruct (fr_marked _ _ Hf); by split|].
      * done.
      * unfold pending_inv. cbn. by rewrite Hpe.
      * unfold pending_exempt. cbn. by rewrite Hpe.
      * by rewrite Hg.
      * split; [done|]. rewrite Hpe. intros [? ?]. done.
Qed.

Lemma plan_write_spec tr w r cap voff n data :
  session_inv tr w -> call_ok tr r cap -> is_u64 voff -> is_u64 n ->
  wp (plan_write voff n data) (write_ok tr w r) (write_err tr w r) (call_mem w r cap).
Proof.
  intros Hi Hc Hv Hn. pose proof Hi as [Hb Hp Hho]. pose proof (ba_state _ _ Hb) as Hs.
  assert (forall e, e <> WeBufFull -> write_err tr w r e (call_mem w r cap)) as Hrefuse by (by right).
  unfold plan_write. do 2 wstep. cbn [ws call_mem st sb].
  unfold pending_inv, pending_exempt in *. destruct (pending w) as [|p|p] eqn:Hpe.
  3:{ do 2 wstep. by apply Hrefuse. }
  - do 3 wstep. wstep.
    pose proof (validate_staged_spec w r (mkStepBuf [] cap) Hs (proj1 Hc)) as Hval.
    destruct (validate_staged _ _ _) as [[]|e| |]; try done; [|by subst; apply Hrefuse].
    do 2 wstep.
    pose proof (admit_write_spec w voff n data (so_geo _ Hs) (proj1 (so_slots _ Hs)) Hv Hn) as Had.
    destruct (admit_write _ _ _ _) as [[p|]|e| |]; try done; [| |by subst; apply Hrefuse].
    + destruct Had as (Hpo & Hst & Hmore & _). apply (drive_write_call tr w r cap p); try done.
      * unfold stage_inv. by rewrite Hst.
      * unfold exempt. by rewrite Hst.
    + wstep. split; [by apply call_unchanged|]. split; [constructor|]. split; [by apply marked_same|done].
  - wstep. destruct (negb _ || _ || _); [wstep; by apply Hrefuse|]. do 2 wstep. wstep.
    pose proof (validate_staged_spec w r (mkStepBuf [] cap) Hs (proj1 Hc)) as Hval.
    destruct (validate_staged _ _ _) as [[]|e| |]; try done; [|by subst; apply Hrefuse].
    do 2 wstep. destruct Hp as (Hpo & Hsi & Hco). by apply (drive_write_call tr w r cap p).
Qed.

(** ** Flush calls *)

Definition flush_ok (tr : list Step) (w : WriteState) (r : StagedRegions) (k : Z) (s' : PS unit) : Prop :=
  call_done tr w s' /\ saves w (ws s') r (sb_steps (sb s')) /\ flush_steps tr (sb_steps (sb s')) /\
  all_clean (ws s') /\ since_barrier (tr ++ sb_steps (sb s')) = 0 /\
  pending (ws s') = PIdle /\ k = Z.of_nat (length (sb_steps (sb s'))).

Definition flush_err (tr : list Step) (w : WriteState) (r : StagedRegions) (e : WriteError)
    (s' : PS unit) : Prop :=
  call_done tr w s' /\ saves w (ws s') r (sb_steps (sb s')) /\ flush_steps tr (sb_steps (sb s')) /\ (e = WeBufFull <-> exists p, pending (ws s') = PFlush p) \/
  ws s' = w /\ sb_steps (sb s') = [] /\ e <> WeBufFull.

(** The frame of a flush from the start of the call. *)
Lemma flush_frame_call tr w r p cap s1 :
  fframe tr (mkPS (pending_zero_clear_all (set_pending PIdle w)) r p (mkStepBuf [] cap)) s1 ->
  saves w (ws s1) r (sb_steps (sb s1)) /\ flush_steps tr (sb_steps (sb s1)).
Proof.
  intros [_ _ _ _ _ (g & Hg & Ho & Hs)]. cbn in Hg. unfold tr_of in Ho. cbn in Ho.
  rewrite app_nil_r in Ho. rewrite Hg. split; [|done]. destruct Hs. by split.
Qed.

Lemma plan_flush_spec tr w r cap : session_inv tr w -> call_ok tr r cap ->
  wp plan_flush (flush_ok tr w r) (flush_err tr w r) (call_mem w r cap).
Proof.
  intros Hi Hc. pose proof Hi as [Hb Hp Hho]. pose proof (ba_state _ _ Hb) as Hs.
  assert (exists p, (flush_inv tr w p /\ homes None tr w) /\
    (match pending w with PWrite _ => sfail WeResumeMismatch | PFlush p => sret p
     | PIdle => sret (mkFlushProgress PreBarrier 0) end : PM unit FlushProgress) = sret p \/
    (match pending w with PWrite _ => sfail WeResumeMismatch | PFlush p => sret p
     | PIdle => sret (mkFlushProgress PreBarrier 0) end : PM unit FlushProgress) = sfail WeResumeMismatch)
    as (p & [[[Hfi Hh0] Hres]|Hres]).
  { unfold pending_inv, pending_exempt in *. destruct (pending w) as [|q|q]; [|by exists (mkFlushProgress PreBarrier 0); right|].
    - exists (mkFlushProgress PreBarrier 0). by left.
    - exists q. by left. }
  2:{ unfold plan_flush. do 2 wstep. cbn [ws call_mem]. rewrite Hres. do 2 wstep. by right. }
  unfold plan_flush. do 2 wstep. cbn [ws call_mem]. rewrite Hres. do 4 wstep. cbn [st sb call_mem].
  pose proof (validate_staged_spec w r (mkStepBuf [] cap) Hs (proj1 Hc)) as Hval.
  destruct (validate_staged _ _ _) as [[]|e| |]; try done; [|subst; by right].
  wstep. eapply wp_upd_ws; [done|]. wstep. apply wp_run_drive.
  destruct Hc as (Hr & Hcap & Hlen).
  eapply wp_mono; [apply (drive_flush_spec tr); split; [split; [|by split|by apply (staged_ok_core w)]| |]|..].
  - unfold tr_of. cbn. rewrite app_nil_r. by apply base_enter.
  - unfold tr_of. cbn [sb sb_steps ws pr set_ws call_mem]. rewrite app_nil_r. exact Hfi.
  - unfold tr_of. cbn [sb sb_steps ws pr set_ws call_mem]. rewrite app_nil_r. exact Hh0.
  - intros _ s1 (Hf & Hb1 & Hh1 & Hcl & Hs0). unfold finish_plan. do 3 wstep.
    assert (pending (ws s1) = PIdle) as Hpe by exact (ff_pending _ _ _ Hf).
    destruct (flush_frame_call tr w r p cap s1 Hf) as [Hsv Hord].
    split; [split|do 4 (split; [done|]); split]; cbn; try apply Hf; try done.
    + split; [done|unfold pending_inv; cbn; by rewrite Hpe|unfold pending_exempt; cbn; by rewrite Hpe].
    + unfold sb_emitted. cbn. lia.
  - intros e s1 (Hf & Hb1 & Hh1 & He).
    assert (pending (ws s1) = PIdle) as Hpe by exact (ff_pending _ _ _ Hf).
    destruct (flush_frame_call tr w r p cap s1 Hf) as [Hsv Hord].
    destruct (decide (e = WeBufFull)) as [->|Hne].
    + unfold finish_plan. wstep. eapply wp_upd_ws; [done|]. wstep. left.
      split; [split|split; [destruct Hsv; by split|split; [done|]]]; cbn; try apply Hf; [split|].
      * by apply base_pending.
      * exact (He eq_refl).
      * exact Hh1.
      * split; [by eexists|done].
    + assert (finish_plan PFlush (sb_emitted (mkStepBuf [] cap)) (Err e, pr s1) = sfail e) as ->
        by (by destruct e).
      wstep. left. split; [split|do 2 (split; [done|])]; cbn; try apply Hf; [split|].
      * done.
      * unfold pending_inv. cbn. by rewrite Hpe.
      * unfold pending_exempt. cbn. by rewrite Hpe.
      * split; [done|]. rewrite Hpe. intros [? ?]. done.
Qed.

(** ** Opening an image *)

(** The planner state of an image: its header bytes parsed, the envelope checked
    and the staging shape accepted. *)
Definition opened (header : bytes) (cfg : StagingConfig) (cow : bool) (w0 : WriteState) : Prop :=
  is_bytes header /\ is_u32 (cfg_l2_slots cfg) /\ is_u32 (cfg_max_refblocks cfg) /\
  exists hdr, parse header = Ok hdr /\ new_state_impl hdr cfg cow = Ok w0.

Lemma envelope_facts hdr snaps : check_envelope_with hdr snaps = Ok tt ->
  (version hdr = 2 \/ version hdr = 3) /\ hdr_refcount_bits hdr = 16 /\ extended_l2 hdr = false /\
  has_external_data hdr = false /\ crypt_method hdr = 0 /\ hdr_dirty hdr = false /\
  hdr_corrupt hdr = false /\
  Z.land (incompatible_features hdr) (not64 KNOWN_INCOMPAT) = 0 /\
  (snaps = false -> nb_snapshots hdr <= 0).
Proof.
  unfold check_envelope_with.
  destruct (negb _ && negb _) eqn:Hver; [done|]. destruct (negb (hdr_refcount_bits hdr =? 16)) eqn:Hrb; [done|].
  destruct (nonzero _ || nonzero _) eqn:Hinc; [done|]. destruct (extended_l2 hdr); [done|].
  destruct (has_external_data hdr); [done|]. destruct (negb (crypt_method hdr =? 0)) eqn:Hcr; [done|].
  destruct (hdr_dirty hdr || hdr_corrupt hdr) eqn:Hdc; [done|].
  destruct (negb snaps && _) eqn:Hsn; [done|]. intros _. bool_to_prop.
  repeat split; try done.
  - destruct Hver; bool_to_prop; lia.
  - by apply nonzero_false.
  - intros ->. destruct Hsn; [done|]. bool_to_prop. done.
Qed.

Lemma geometry_ok hdr g : header_ok hdr -> hdr_refcount_bits hdr = 16 ->
  Geometry_from_header (E := Gate) hdr = Ok g ->
  geo_ok g /\ cluster_size g = hdr_cluster_size hdr /\ virtual_size g = hdr_virtual_size hdr /\
  l1_size g = hdr_l1_size hdr.
Proof.
  intros [] Hrb. unfold Geometry_from_header, udiv. rewrite Hrb. change (16 =? 0) with false.
  cbn [obind]. intros [= <-]. cbn. split; [|done].
  assert (512 <= hdr_cluster_size hdr <= 2097152).
  { rewrite ho_size. change 512 with (2 ^ 9). change 2097152 with (2 ^ 21).
    split; apply Z.pow_le_mono_r; lia. }
  pose proof (Z.div_le_upper_bound (hdr_cluster_size hdr) 8 262144 ltac:(lia) ltac:(lia)).
  pose proof (Z.div_pos (hdr_cluster_size hdr) 8 ltac:(lia) ltac:(lia)).
  split; cbn; try done; try lia.
  - rewrite wmul_small by (unfold u64_max; nia). done.
  - rewrite wmul_small by (unfold u64_max; lia).
    change 16 with (2 * 8). by rewrite Z.div_mul_cancel_r.
Qed.

Lemma slots_empty_clean n i : ~ (exists sl, slot_at (replicate n L2Slot_EMPTY) i = Some sl /\
  slot_valid sl = true).
Proof.
  intros (sl & Hat & Hv). unfold slot_at in Hat. destruct (0 <=? i); [|done].
  apply lookup_replicate in Hat as [-> _]. done.
Qed.

Lemma opened_inv header cfg cow w0 : opened header cfg cow w0 -> session_inv [] w0.
Proof.
  intros (Hb & [Hc1 _] & [Hc2 _] & hdr & Hparse & Hnew).
  pose proof (parse_spec header Hb) as Hok. rewrite Hparse in Hok. revert Hnew.
  unfold new_state_impl. destruct (check_envelope_with hdr cow) as [[]| | |] eqn:Henv; try done.
  cbn [obind]. destruct (_ || _) eqn:Hcfg; [done|]. bool_to_prop.
  destruct (Geometry_from_header hdr) as [g|e| |] eqn:Hg; try done. cbn [obind]. intros [= <-].
  destruct (geometry_ok hdr g Hok (proj1 (proj2 (envelope_facts _ _ Henv))) Hg) as (Hgo & _).
  pose proof (geo_cs_pos _ Hgo). destruct (geo_cs_eight _ Hgo) as [_ Hhalf].
  split; [split|done|].
  - split; cbn; try done; try lia. unfold cursor_start, MAX_REFBLOCKS. cbn. lia.
  - apply stream_ok_nil.
  - split; done.
  - intros i j si sj Hi _ _ _ Hv. exfalso. apply (slots_empty_clean (Z.to_nat MAX_L2_SLOTS) i). by exists si.
  - intros i sl Hi _ Hv _. exfalso. apply (slots_empty_clean (Z.to_nat MAX_L2_SLOTS) i). by exists sl.
Qed.

Lemma session_preserves w0 w tr : session_inv [] w0 -> session w0 w tr ->
  session_inv tr w /\ geometry w = geometry w0 /\ config w = config w0.
Proof.
  intros H0. induction 1 as [|w tr r cap voff n data res s' _ (Hi & Hg & Hc) Hcall Hv Hn _ Hrun
                            |w tr r cap res s' _ (Hi & Hg & Hc) Hcall Hrun].
  - done.
  - pose proof (plan_write_spec tr w r cap voff n data Hi Hcall Hv Hn) as Hwp.
    unfold wp in Hwp. rewrite Hrun in Hwp. destruct res; try done.
    + destruct Hwp as [[] _]. split; [done|]. split; congruence.
    + destruct Hwp as [[[] _]|(-> & _ & -> & _)]; [split; [done|]; split; congruence|].
      by rewrite app_nil_r.
  - pose proof (plan_flush_spec tr w r cap Hi Hcall) as Hwp. unfold wp in Hwp. rewrite Hrun in Hwp.
    destruct res; try done.
    + destruct Hwp as [[] _]. split; [done|]. split; congruence.
    + destruct Hwp as [[[] _]|(-> & -> & _)]; [split; [done|]; split; congruence|].
      by rewrite app_nil_r.
Qed.

Lemma session_stream header cfg cow w0 w tr : opened header cfg cow w0 -> session w0 w tr ->
  session_inv tr w /\ stream_ok (geometry w0) (cfg_device (config w0)) tr.
Proof.
  intros Ho Hs. destruct (session_preserves w0 w tr (opened_inv _ _ _ _ Ho) Hs) as (Hi & Hg & Hc).
  split; [done|]. rewrite <- Hg, <- Hc. apply Hi.
Qed.
