(* ===== verification/WriteProps.v ===== *)
(** The theorems of the write planner, about every session an opened image can
    have, with a concrete session as their instance. *)

From stdpp Require Import base numbers list sets.
From Stdlib Require Import ZArith Lia.
From S2P Require Import Prelude Bytes Refcount Qcow2 WriteTypes WritePlan WriteInv WriteStages WriteFlush WriteSession.

(** ** A concrete session *)

(** A v3 image with 512-byte clusters, 64 KiB, two L1 entries. *)
Definition small_header : bytes :=
  be_bytes 4 0x514649fb ++ be_bytes 4 3 ++ be_bytes 8 0 ++ be_bytes 4 0 ++ be_bytes 4 9 ++
  be_bytes 8 65536 ++ be_bytes 4 0 ++ be_bytes 4 2 ++ be_bytes 8 1536 ++
  be_bytes 8 512 ++ be_bytes 4 1 ++ be_bytes 4 0 ++ be_bytes 8 0 ++ be_bytes 8 0 ++
  be_bytes 8 0 ++ be_bytes 8 0 ++ be_bytes 4 4 ++ be_bytes 4 112 ++ replicate 408 0.

Definition small_cfg : StagingConfig := mkStagingConfig 2 1 Output.

(** Header, refcount table, refblock and L1 clusters in use; nothing mapped. *)
Definition small_regions : StagedRegions :=
  mkStaged (replicate 16 0) (replicate 1024 0) (be_bytes 8 1024)
    ([0; 1; 0; 1; 0; 1; 0; 1] ++ replicate 504 0).

Definition small_state : WriteState :=
  match parse small_header with
  | Ok h => match new_state h small_cfg with Ok w => w | _ => mkWriteState
      (mkGeometry 0 0 0 0 0 0 0 0 0 0 0) small_cfg [] [] 0 AllocCursor_default false false false 0 []
      PIdle end
  | _ => mkWriteState (mkGeometry 0 0 0 0 0 0 0 0 0 0 0) small_cfg [] [] 0 AllocCursor_default
      false false false 0 [] PIdle
  end.

(** 100 bytes of [7] at offset 600, then a flush in a two-step window. *)
Definition small_write : outcome WriteError Z * PS unit :=
  plan_write 600 100 (Fill 7) (call_mem small_state small_regions 32).
Definition small_state1 : WriteState := ws small_write.2.
Definition small_trace1 : list Step := sb_steps (sb small_write.2).
Definition small_flush : outcome WriteError Z * PS unit :=
  plan_flush (call_mem small_state1 (st small_write.2) 16).
Definition small_state2 : WriteState := ws small_flush.2.
Definition small_trace2 : list Step := small_trace1 ++ sb_steps (sb small_flush.2).

Lemma small_opened : opened small_header small_cfg false small_state.
Proof.
  split; [apply is_bytesb_true; vm_compute; reflexivity|].
  split; [vm_compute; split; congruence|]. split; [vm_compute; split; congruence|].
  eexists. split; [vm_compute; reflexivity|]. vm_compute. reflexivity.
Qed.

Lemma small_regions_ok r : r = small_regions \/ r = st small_write.2 -> regions_ok r.
Proof.
  intros [-> | ->]; split; try (apply is_bytesb_true; vm_compute; reflexivity);
    vm_compute; congruence.
Qed.

Lemma small_session1 : session small_state small_state1 small_trace1.
Proof.
  unfold small_state1, small_trace1. rewrite <- (app_nil_l (sb_steps _)).
  apply (session_write small_state small_state [] small_regions 32 600 100 (Fill 7)
           small_write.1 small_write.2).
  - constructor.
  - split; [apply small_regions_ok; by left|]. vm_compute. intuition congruence.
  - vm_compute. intuition congruence.
  - vm_compute. intuition congruence.
  - vm_compute. intuition congruence.
  - unfold small_write. by destruct (plan_write _ _ _ _).
Qed.

Lemma small_call2 : call_ok small_trace1 (st small_write.2) 16.
Proof. split; [apply small_regions_ok; by right|]. vm_compute. intuition congruence. Qed.

Lemma small_session2 : session small_state small_state2 small_trace2.
Proof.
  unfold small_state2, small_trace2.
  apply (session_flush small_state small_state1 small_trace1 (st small_write.2) 16
           small_flush.1 small_flush.2).
  - apply small_session1.
  - apply small_call2.
  - unfold small_flush. by destruct (plan_flush _).
Qed.

(** ** Totality *)

(** C1: no sequence of planning calls on an opened image, whatever bytes are
    staged and however small the window, makes the planner panic or run away:
    the next [plan_write] and the next [plan_flush] both return. *)
Theorem planner_total header cfg cow w0 w tr r cap voff n data :
  opened header cfg cow w0 -> session w0 w tr -> call_ok tr r cap -> is_u64 voff -> is_u64 n ->
  returns (plan_write voff n data (call_mem w r cap)).1 /\
  returns (plan_flush (call_mem w r cap)).1.
Proof.
  intros Ho Hs Hc Hv Hn. destruct (session_stream _ _ _ _ _ _ Ho Hs) as [Hi _]. split.
  - eapply wp_returns, plan_write_spec; done.
  - eapply wp_returns, plan_flush_spec; done.
Qed.

Lemma planner_total_witness :
  returns (plan_write 65000 500 (CallerData 3) (call_mem small_state1 (st small_write.2) 16)).1 /\
  returns (plan_flush (call_mem small_state1 (st small_write.2) 16)).1.
Proof.
  apply (planner_total small_header small_cfg false small_state small_state1 small_trace1).
  - exact small_opened.
  - exact small_session1.
  - exact small_call2.
  - vm_compute. intuition congruence.
  - vm_compute. intuition congruence.
Defined.

(** ** The crash-ordering contract *)

Lemma stream_at g dev tr k x : stream_ok g dev tr -> tr !! k = Some x ->
  step_ok g dev (take k tr) x.
Proof. intros Hst Hk. apply (Hst _ _ (drop (S k) tr)). symmetry. by apply take_drop_middle. Qed.

(** C2: contract (a).  Whenever an L2 entry is patched, the value names an aligned
    cluster [h] with the COPIED flag, and the steps just before it write every
    byte of that cluster and no other byte of the device. *)
Theorem data_before_pointer header cfg cow w0 w tr k x i :
  opened header cfg cow w0 -> session w0 w tr ->
  tr !! k = Some x -> kind x = PatchEntryU64 -> region x = RL2Slot i ->
  let cs := cluster_size (geometry w0) in
  exists h, 0 <= h < 2 ^ 56 /\ h mod cs = 0 /\ value x = Z.lor h OFLAG_COPIED /\
    group h cs h (h + cs) (take k tr).
Proof.
  intros Ho Hs Hk Hkind Hreg. destruct (session_stream _ _ _ _ _ _ Ho Hs) as [_ Hst].
  pose proof (stream_at _ _ _ _ _ Hst Hk) as [_ Hx]. by rewrite Hkind, Hreg in Hx.
Qed.

Lemma data_before_pointer_witness :
  exists h, 0 <= h < 2 ^ 56 /\ h mod cluster_size (geometry small_state) = 0 /\
    Z.lor 2560 OFLAG_COPIED = Z.lor h OFLAG_COPIED /\
    group h (cluster_size (geometry small_state)) h (h + cluster_size (geometry small_state))
      (take 5 small_trace2).
Proof.
  apply (data_before_pointer small_header small_cfg false small_state small_state2 small_trace2 5
    (patch_step (RL2Slot 0) 8 (Z.lor 2560 OFLAG_COPIED) Output) 0).
  - exact small_opened.
  - exact small_session2.
  - vm_compute. reflexivity.
  - reflexivity.
  - reflexivity.
Defined.



(** C4: contract (c), and what the metadata writes are.  Every barrier is a
    durability barrier on the image's device.  The L1 table is written whole, to
    its place in the header's geometry, only right after a barrier, when no L2
    slot holds unsaved updates.  A refblock is written whole, to an aligned
    cluster, only when neither the L2 slots nor the L1 hold unsaved updates and
    every step since the last barrier is itself a refblock write.  (Contract (d)
    for the L2 group holds inside [plan_flush], C5; the eviction of a slot inside
    [plan_write] breaks it, [eviction_has_no_barrier].) *)
Theorem refcounts_last header cfg cow w0 w tr k x :
  opened header cfg cow w0 -> session w0 w tr -> tr !! k = Some x ->
  let g := geometry w0 in
  (forall c, kind x = Barrier c -> c = BDurability /\ device x = cfg_device (config w0)) /\
  (is_l1_write x = true ->
     device x = cfg_device (config w0) /\ region_offset x = 0 /\
     disk_offset x = l1_table_offset g /\ len x = 8 * l1_size g /\
     since_barrier (take k tr) = 0 /\ forall i, slot_unsaved i (take k tr) = false) /\
  (is_rb_write x = true ->
     device x = cfg_device (config w0) /\
     (exists idx, 0 <= idx /\ region_offset x = idx * cluster_size g /\ len x = cluster_size g /\
        0 < disk_offset x /\ disk_offset x mod cluster_size g = 0) /\
     only_refblocks (take k tr) = true /\ (forall i, slot_unsaved i (take k tr) = false) /\
     l1_unsaved (take k tr) = false).
Proof.
  intros Ho Hs Hk. destruct (session_stream _ _ _ _ _ _ Ho Hs) as [_ Hst].
  pose proof (stream_at _ _ _ _ _ Hst Hk) as [Hd Hx]. unfold is_l1_write, is_rb_write in *.
  split; [|destruct (kind x), (region x); done]. intros c Hkd. by rewrite Hkd in Hx.
Qed.

Lemma refcounts_last_witness :
  let x := refblock_write_step 0 1024 512 Output in
  small_trace2 !! 11%nat = Some x /\ is_rb_write x = true /\
  (exists idx, 0 <= idx /\ region_offset x = idx * cluster_size (geometry small_state) /\
     len x = cluster_size (geometry small_state) /\ 0 < disk_offset x /\
     disk_offset x mod cluster_size (geometry small_state) = 0) /\
  only_refblocks (take 11 small_trace2) = true /\
  (forall i, slot_unsaved i (take 11 small_trace2) = false) /\
  l1_unsaved (take 11 small_trace2) = false.
Proof.
  split; [vm_compute; reflexivity|]. split; [reflexivity|].
  apply (refcounts_last small_header small_cfg false small_state small_state2 small_trace2 11
    (refblock_write_step 0 1024 512 Output)).
  - exact small_opened.
  - exact small_session2.
  - vm_compute. reflexivity.
  - reflexivity.
Defined.

(** C3: no L2 update is lost.  A window slot is reloaded or re-zeroed, whole, only
    when every patch made to it has been written back; every write-back writes
    the whole slot to the cluster of the table the slot holds, the one it was
    loaded from or was published as; and at any moment a slot with unsaved
    patches is one the next flush will write back. *)
Theorem no_lost_l2_update header cfg cow w0 w tr :
  opened header cfg cow w0 -> session w0 w tr ->
  (forall k x i, tr !! k = Some x -> region x = RL2Slot i ->
     kind x = LoadCluster \/ kind x = ZeroRegion ->
     slot_unsaved i (take k tr) = false /\ region_offset x = 0 /\
     len x = cluster_size (geometry w0)) /\
  (forall k x i, tr !! k = Some x -> region x = RL2Slot i -> kind x = WritebackCluster ->
     device x = cfg_device (config w0) /\ region_offset x = 0 /\
     len x = cluster_size (geometry w0) /\
     exists o, slot_table i (take k tr) = Some (o, disk_offset x)) /\
  (forall i, slot_unsaved i tr = true -> dirty_slot w i).
Proof.
  intros Ho Hs. destruct (session_stream _ _ _ _ _ _ Ho Hs) as [Hi Hst]. split; [|split].
  - intros k x i Hk Hreg Hkind. pose proof (stream_at _ _ _ _ _ Hst Hk) as [_ Hx].
    rewrite Hreg in Hx. destruct Hkind as [Hkd|Hkd]; by rewrite Hkd in Hx.
  - intros k x i Hk Hreg Hkind. pose proof (stream_at _ _ _ _ _ Hst Hk) as [Hd Hx].
    rewrite Hreg, Hkind in Hx. done.
  - apply Hi.
Qed.

Lemma no_lost_l2_update_witness :
  slot_unsaved 0 small_trace1 = true /\ dirty_slot small_state1 0 /\
  small_trace2 !! 7%nat = Some (writeback_step 0 2048 512 Output) /\
  exists o, slot_table 0 (take 7 small_trace2) = Some (o, 2048).
Proof.
  split; [vm_compute; reflexivity|]. split; [|split; [vm_compute; reflexivity|]].
  - apply (no_lost_l2_update small_header small_cfg false small_state small_state1 small_trace1).
    + exact small_opened.
    + exact small_session1.
    + vm_compute. reflexivity.
  - apply (no_lost_l2_update small_header small_cfg false small_state small_state2 small_trace2
      small_opened small_session2) with (x := writeback_step 0 2048 512 Output).
    + vm_compute. reflexivity.
    + reflexivity.
    + reflexivity.
Defined.

(** C11: at most one window slot caches a given L2 table, so a lookup by L1 index
    finds the only copy. *)
Theorem l2_window_coherent header cfg cow w0 w tr :
  opened header cfg cow w0 -> session w0 w tr -> slots_unique w.
Proof. intros Ho Hs. apply (session_stream _ _ _ _ _ _ Ho Hs). Qed.

Lemma l2_window_coherent_witness : slots_unique small_state2.
Proof.
  exact (l2_window_coherent small_header small_cfg false small_state small_state2 small_trace2
    small_opened small_session2).
Defined.

(** ** What the calls promise *)

(** C5: nothing the planner changed stays unwritten.  A [plan_write] call, however
    it ends, keeps the dirty marks and marks every staged refblock in which it
    changed a refcount.  A successful [plan_flush] emits the whole write-back of
    every dirty L2 slot to its cluster, of the L1 table if it is dirty, and of
    every dirty refblock to the cluster the staged refcount table names for it;
    it emits nothing else but barriers, and each L2 write-back in a group of its
    own after a barrier (contract (d)); after it nothing is dirty, every patch of
    the session has been saved, and the trace is empty or ends in a barrier. *)
Theorem flush_saves_everything header cfg cow w0 w tr r cap :
  opened header cfg cow w0 -> session w0 w tr -> call_ok tr r cap ->
  let g := geometry w in
  let dev := cfg_device (config w) in
  (forall voff n data res s', is_u64 voff -> is_u64 n ->
     plan_write voff n data (call_mem w r cap) = (res, s') ->
     (forall i, rb_dirty w i -> rb_dirty (ws s') i) /\
     forall j, 0 <= j < rb_count w r * entries_per_refblock g ->
       entry (st_refblocks (st s')) j <> entry (st_refblocks r) j ->
       rb_dirty (ws s') (j / entries_per_refblock g)) /\
  forall k s', plan_flush (call_mem w r cap) = (Ok k, s') ->
    let steps := sb_steps (sb s') in
    (forall i sl, dirty_slot w i -> slot_at (l2_slots w) i = Some sl ->
       mkStep WritebackCluster dev (RL2Slot i) 0 (slot_host_offset sl) (cluster_size g) 0 ∈ steps) /\
    (l1_dirty w = true ->
       mkStep WriteRange dev RL1 0 (l1_table_offset g) (8 * l1_size g) 0 ∈ steps) /\
    (forall i, rb_dirty w i -> exists host, rb_home g r i host /\
       mkStep WriteRange dev RRefblocks (i * cluster_size g) host (cluster_size g) 0 ∈ steps) /\
    flush_steps tr steps /\
    all_clean (ws s') /\ (forall i, slot_unsaved i (tr ++ steps) = false) /\
    l1_unsaved (tr ++ steps) = false /\ since_barrier (tr ++ steps) = 0 /\ pending (ws s') = PIdle.
Proof.
  intros Ho Hs Hc. destruct (session_stream _ _ _ _ _ _ Ho Hs) as [Hi _]. cbv zeta. split.
  - intros voff n data res s' Hv Hn Hrun. pose proof (plan_write_spec tr w r cap voff n data Hi Hc Hv Hn) as Hwp.
    unfold wp in Hwp. rewrite Hrun in Hwp. destruct res as [k|e| |]; try done.
    + destruct Hwp as (_ & _ & [_ Hk Hm] & _). by split.
    + destruct Hwp as [(_ & _ & [_ Hk Hm] & _)|(-> & -> & _)]; by split.
  - intros k s' Hrun.
    pose proof (plan_flush_spec tr w r cap Hi Hc) as Hwp. unfold wp in Hwp. rewrite Hrun in Hwp.
    destruct Hwp as ([[Hb' _ _] _ _] & [_ H2 H1 Hr] & Hord & Hcl & Hs0 & Hpe & _).
    pose proof Hcl as (Hsl & Hl1 & Hrb). pose proof (ba_tracks _ _ Hb') as [Hts Htl _].
    split; [|split; [|split; [|do 2 (split; [done|]); split; [|split; [|done]]]]].
    + intros i sl Hd Hat. destruct (H2 i sl Hd Hat) as [Hd'|]; [by destruct (Hsl i)|done].
    + intros Hd. destruct (H1 Hd) as [Hd'|]; [congruence|done].
    + intros i Hd. destruct (Hr i Hd) as [Hd'|]; [by destruct (Hrb i)|done].
    + intros i. destruct (slot_unsaved _ _) eqn:Hu; [|done]. destruct (Hsl i). by apply Hts.
    + destruct (l1_unsaved _) eqn:Hu; [|done]. by rewrite Htl in Hl1.
Qed.

Lemma flush_saves_everything_witness :
  rb_dirty small_state1 0 /\
  (exists host, rb_home (geometry small_state1) (st small_write.2) 0 host /\
     mkStep WriteRange Output RRefblocks (0 * 512) host 512 0 ∈ sb_steps (sb small_flush.2)) /\
  all_clean small_state2 /\ (forall i, slot_unsaved i small_trace2 = false) /\
  l1_unsaved small_trace2 = false /\ since_barrier small_trace2 = 0 /\
  pending small_state2 = PIdle.
Proof.
  assert (rb_dirty small_state1 0) as Hrb by (vm_compute; intuition congruence).
  split; [exact Hrb|].
  destruct (flush_saves_everything small_header small_cfg false small_state small_state1 small_trace1
    (st small_write.2) 16 small_opened small_session1 small_call2) as [_ Hflush].
  destruct (Hflush 7 small_flush.2) as (_ & _ & Hr & _ & Hrest).
  - unfold small_flush. vm_compute. reflexivity.
  - split; [exact (Hr 0 Hrb)|exact Hrest].
Defined.

(** [plan_write] emits no barrier and no L1 or refblock write-back; when it
    returns [Ok] the request is finished, and it is resumable exactly when it
    returns [BufFull]. *)
Theorem plan_write_window header cfg cow w0 w tr r cap voff n data res s' :
  opened header cfg cow w0 -> session w0 w tr -> call_ok tr r cap -> is_u64 voff -> is_u64 n ->
  pending w = PIdle ->
  plan_write voff n data (call_mem w r cap) = (res, s') ->
  Forall (fun x => write_step x = true) (sb_steps (sb s')) /\
  (forall k, res = Ok k -> pending (ws s') = PIdle /\ k = Z.of_nat (length (sb_steps (sb s')))) /\
  (res = Err WeBufFull <-> exists p, pending (ws s') = PWrite p).
Proof.
  intros Ho Hs Hc Hv Hn Hpe Hrun. destruct (session_stream _ _ _ _ _ _ Ho Hs) as [Hi _].
  pose proof (plan_write_spec tr w r cap voff n data Hi Hc Hv Hn) as Hwp. unfold wp in Hwp.
  rewrite Hrun in Hwp. destruct res as [k|e| |]; try done.
  - destruct Hwp as (_ & Hf & _ & Hp & Hk). split; [done|]. split; [intros ? [= <-]; done|].
    rewrite Hp. split; [done|]. by intros [].
  - destruct Hwp as [(_ & Hf & _ & Hiff)|(Hw & _ & Hst & Hne)].
    + split; [done|]. split; [done|]. rewrite <- Hiff. split; [by intros [=]|by intros ->].
    + rewrite Hst, Hw, Hpe. split; [constructor|]. split; [done|].
      split; [by intros [=]|by intros []].
Qed.

Lemma plan_write_window_witness :
  plan_write 600 100 (Fill 7) (call_mem small_state small_regions 1) =
    (Err WeBufFull, (plan_write 600 100 (Fill 7) (call_mem small_state small_regions 1)).2) /\
  let s' := (plan_write 600 100 (Fill 7) (call_mem small_state small_regions 1)).2 in
  Forall (fun x => write_step x = true) (sb_steps (sb s')) /\
  (forall k, Err WeBufFull = Ok k ->
     pending (ws s') = PIdle /\ k = Z.of_nat (length (sb_steps (sb s')))) /\
  (Err WeBufFull = Err (A := Z) WeBufFull <-> exists p, pending (ws s') = PWrite p).
Proof.
  split; [vm_compute; reflexivity|].
  apply (plan_write_window small_header small_cfg false small_state small_state [] small_regions 1
    600 100 (Fill 7)).
  - exact small_opened.
  - constructor.
  - split; [apply small_regions_ok; by left|]. vm_compute. intuition congruence.
  - vm_compute. intuition congruence.
  - vm_compute. intuition congruence.
  - reflexivity.
  - vm_compute. reflexivity.
Defined.

(** ** Classification *)

Lemma land_single x b : 0 <= b -> Z.land x (2 ^ b) = if Z.testbit x b then 2 ^ b else 0.
Proof.
  intros Hb. apply Z.bits_inj'. intros k Hk. rewrite Z.land_spec, Z.pow2_bits_eqb by lia.
  destruct (Z.eqb_spec b k) as [<-|].
  - destruct (Z.testbit x b); [by rewrite Z.pow2_bits_true | by rewrite Z.bits_0].
  - rewrite andb_false_r. destruct (Z.testbit x b); [|by rewrite Z.bits_0].
    symmetry. apply Z.pow2_bits_false. lia.
Qed.

(** A plain standard entry is its host offset and its COPIED flag. *)
Lemma plain_entry_split e : is_u64 e -> Z.land e (not64 L2_KNOWN_BITS) = 0 ->
  Z.land e QCOW_OFLAG_ZERO = 0 -> Z.land e OFLAG_COPIED <> 0 ->
  e = Z.lor (Z.land e L2_OFFSET_MASK) OFLAG_COPIED.
Proof.
  intros He Hres Hz Hc. change OFLAG_COPIED with (2 ^ 63) in *.
  rewrite (land_single e 63) in Hc by lia. destruct (Z.testbit e 63) eqn:H63; [|done].
  apply Z.bits_inj'. intros k Hk. rewrite Z.lor_spec, Z.land_spec, Z.pow2_bits_eqb by lia.
  destruct (Z.eqb_spec 63 k) as [<-|Hne]; [by rewrite H63, orb_true_r|]. rewrite orb_false_r.
  destruct (Z.lt_ge_cases k 64) as [Hlt|Hge].
  2:{ rewrite <- (Z.mod_small e (2 ^ 64)) by (unfold is_u64, u64_max in He; lia).
      by rewrite Z.mod_pow2_bits_high. }
  assert (Z.testbit (Z.land e (not64 L2_KNOWN_BITS)) k = false) as Hr by (by rewrite Hres, Z.bits_0).
  assert (Z.testbit (Z.land e QCOW_OFLAG_ZERO) k = false) as Hz' by (by rewrite Hz, Z.bits_0).
  rewrite Z.land_spec in Hr, Hz'. unfold not64, L2_KNOWN_BITS in Hr.
  change OFLAG_COPIED with (2 ^ 63) in Hr. change u64_max with (Z.ones 64) in Hr.
  rewrite Z.lxor_spec, !Z.lor_spec, Z.pow2_bits_false, Z.ones_spec_low in Hr by lia.
  destruct (Z.testbit e k), (Z.testbit L2_OFFSET_MASK k), (Z.testbit QCOW_OFLAG_ZERO k); done.
Qed.

(** C10: an L2 entry lets the planner overwrite a cluster in place exactly when it is
    that cluster's aligned nonzero address with the COPIED flag and no other bit,
    and the staged refcount of the cluster is 1; a shared, unreferenced, zero,
    compressed or malformed entry never does. *)
Theorem owned_iff_exclusive w r e h : state_ok w -> staged_ok w r -> is_u64 e ->
  classify_l2_entry w r e = Ok (COwned h) <->
  e = Z.lor h OFLAG_COPIED /\ h <> 0 /\ host_ok (cluster_size (geometry w)) h /\
  h / cluster_size (geometry w) < rb_count w r * entries_per_refblock (geometry w) /\
  staged_rc w r h = 1.
Proof.
  intros Hs Hr He. pose proof (geo_cs_pos _ (so_geo _ Hs)) as Hcs.
  pose proof (go_cs _ (so_geo _ Hs)) as Hpow. pose proof (go_bits _ (so_geo _ Hs)) as Hcb. split.
  - intros Hcl. pose proof (classify_spec w r e Hs Hr) as Hspec. rewrite Hcl in Hspec.
    destruct Hspec as [Hh Hrc]. revert Hcl. unfold classify_l2_entry.
    destruct (e =? 0); [done|]. destruct (nonzero (Z.land e OFLAG_COMPRESSED)); [done|].
    destruct (nonzero (Z.land e (not64 L2_KNOWN_BITS))) eqn:Hk; [done|]. apply nonzero_false in Hk.
    destruct (nonzero (Z.land e QCOW_OFLAG_ZERO)) eqn:Hz.
    { destruct (read_staged_refcount _ _ _); cbn [obind]; bool_cases; done. }
    apply nonzero_false in Hz. destruct (_ || _) eqn:H0; [done|].
    destruct (Z.eqb_spec (Z.land e OFLAG_COPIED) 0); [by destruct (cow_enabled w)|].
    pose proof (land_mask_bound e L2_OFFSET_MASK ltac:(done)) as [Hh0 _].
    destruct (read_staged_refcount w r (Z.land e L2_OFFSET_MASK)) as [v|err| |] eqn:Hread; try done.
    cbn [obind]. intros Hcl. assert (Z.land e L2_OFFSET_MASK = h) as <- by (bool_cases; congruence).
    bool_to_prop. split; [by apply plain_entry_split|]. do 2 (split; [done|]). split; [|done].
    pose proof (read_staged_refcount_spec w r _ Hs Hr Hh0) as Hl. rewrite Hread in Hl. apply Hl.
  - intros (-> & Hnz & Hh & Hcov & Hrc). pose proof (land_host_mask _ _ h Hpow Hcb Hh) as Hm.
    assert (forall x, Z.land L2_OFFSET_MASK x = 0 -> Z.land (Z.lor h OFLAG_COPIED) x =
      Z.land OFLAG_COPIED x) as Hx.
    { intros x Hx. rewrite <- Hm at 1. rewrite Z.land_lor_distr_l, <- Z.land_assoc, Hx, Z.land_0_r.
      apply Z.lor_0_l. }
    assert (Z.land (Z.lor h OFLAG_COPIED) L2_OFFSET_MASK = h) as Hhost.
    { rewrite Z.land_lor_distr_l, Hm. apply Z.lor_0_r. }
    pose proof (read_staged_refcount_spec w r h Hs Hr (proj1 (proj1 Hh))) as Hread.
    unfold classify_l2_entry. rewrite Hhost.
    destruct (Z.eqb_spec (Z.lor h OFLAG_COPIED) 0) as [H0|_]; [by rewrite H0 in Hhost|].
    rewrite (Hx OFLAG_COMPRESSED), (Hx (not64 L2_KNOWN_BITS)), (Hx QCOW_OFLAG_ZERO) by reflexivity.
    replace (Z.land (Z.lor h OFLAG_COPIED) OFLAG_COPIED =? 0) with false
      by (rewrite (Hx OFLAG_COPIED); reflexivity).
    change (nonzero (Z.land OFLAG_COPIED _)) with false. cbv iota.
    destruct (Z.eqb_spec h 0); [done|].
    rewrite (proj2 (is_multiple_of_spec h (cluster_size (geometry w)) ltac:(lia)) (proj2 Hh)).
    cbn [negb orb].
    destruct (read_staged_refcount w r h) as [v|err| |]; try done.
    + destruct Hread as [-> _]. cbn [obind]. fold (staged_rc w r h). by rewrite Hrc.
    + destruct Hread. lia.
Qed.

Lemma small_staged : staged_ok small_state small_regions.
Proof.
  split; try (apply is_bytesb_true; vm_compute; reflexivity); vm_compute; congruence.
Qed.

Lemma small_state_ok : state_ok small_state.
Proof. apply (opened_inv _ _ _ _ small_opened). Qed.

Lemma owned_iff_exclusive_witness :
  classify_l2_entry small_state small_regions (Z.lor 1536 OFLAG_COPIED) = Ok (COwned 1536) <->
  Z.lor 1536 OFLAG_COPIED = Z.lor 1536 OFLAG_COPIED /\ 1536 <> 0 /\
  host_ok (cluster_size (geometry small_state)) 1536 /\
  1536 / cluster_size (geometry small_state) <
    rb_count small_state small_regions * entries_per_refblock (geometry small_state) /\
  staged_rc small_state small_regions 1536 = 1.
Proof.
  apply (owned_iff_exclusive small_state small_regions (Z.lor 1536 OFLAG_COPIED) 1536).
  - exact small_state_ok.
  - exact small_staged.
  - vm_compute. intuition congruence.
Defined.

(** ** Envelope and protocol *)

Lemma bit_get_zeroes n i : bit_get (replicate n 0) i <> Some true.
Proof.
  unfold bit_get, word_at. destruct (0 <=? i / 64); [|done].
  destruct (replicate n 0 !! Z.to_nat (i / 64)) as [x|] eqn:Hx; [|done].
  apply lookup_replicate in Hx as [-> _]. cbn. by rewrite Z.shiftr_0_l.
Qed.

(** A planner state exists only for images inside the envelope: version 2 or 3,
    16-bit refcounts, no unknown incompatible feature, no extended L2, external
    data file or encryption, not dirty or corrupt, and no snapshots unless
    copy-on-write was asked for.  Its geometry is the header's, and nothing is
    dirty or pending. *)
Theorem envelope_sound header cfg cow w0 hdr :
  is_bytes header -> is_u32 (cfg_l2_slots cfg) -> is_u32 (cfg_max_refblocks cfg) ->
  parse header = Ok hdr -> new_state_impl hdr cfg cow = Ok w0 ->
  (version hdr = 2 \/ version hdr = 3) /\ hdr_refcount_bits hdr = 16 /\
  Z.land (incompatible_features hdr) (not64 KNOWN_INCOMPAT) = 0 /\
  extended_l2 hdr = false /\ has_external_data hdr = false /\ crypt_method hdr = 0 /\
  hdr_dirty hdr = false /\ hdr_corrupt hdr = false /\ (cow = false -> nb_snapshots hdr <= 0) /\
  cluster_size (geometry w0) = hdr_cluster_size hdr /\
  virtual_size (geometry w0) = hdr_virtual_size hdr /\ l1_size (geometry w0) = hdr_l1_size hdr /\
  1 <= cfg_l2_slots cfg <= MAX_L2_SLOTS /\ 1 <= cfg_max_refblocks cfg <= MAX_REFBLOCKS /\
  config w0 = cfg /\ cow_enabled w0 = cow /\ all_clean w0 /\ pending w0 = PIdle.
Proof.
  intros Hb [Hc1 _] [Hc2 _] Hparse Hnew. pose proof (parse_spec header Hb) as Hok.
  rewrite Hparse in Hok. revert Hnew. unfold new_state_impl.
  destruct (check_envelope_with hdr cow) as [[]| | |] eqn:Henv; try done.
  cbn [obind]. destruct (_ || _) eqn:Hcfg; [done|]. bool_to_prop.
  destruct (Geometry_from_header hdr) as [g|e| |] eqn:Hg; try done. cbn [obind]. intros [= <-].
  destruct (envelope_facts _ _ Henv) as (Hv & Hrb & Hx & Hd & Hcr & Hdi & Hco & Hinc & Hsn).
  destruct (geometry_ok hdr g Hok Hrb Hg) as (_ & Hcs & Hvs & Hl1).
  do 12 (split; [done|]). split; [lia|]. split; [lia|]. do 2 (split; [done|]).
  split; [|done]. split; [|split; [done|]].
  - intros i (_ & sl & Hat & Hva & _). apply (slots_empty_clean (Z.to_nat MAX_L2_SLOTS) i). by exists sl.
  - intros i [_ Hbit]. by apply (bit_get_zeroes (Z.to_nat (MAX_REFBLOCKS / 64)) i).
Qed.

Lemma envelope_sound_witness : exists hdr,
  parse small_header = Ok hdr /\ hdr_refcount_bits hdr = 16 /\ nb_snapshots hdr <= 0 /\
  all_clean small_state.
Proof.
  destruct (parse small_header) as [hdr|e| |] eqn:Hp; try (vm_compute in Hp; congruence).
  exists hdr. split; [reflexivity|].
  destruct (envelope_sound small_header small_cfg false small_state hdr) as
    (_ & Hrb & _ & _ & _ & _ & _ & _ & Hsn & _ & _ & _ & _ & _ & _ & _ & Hcl & _).
  - apply is_bytesb_true. vm_compute. reflexivity.
  - vm_compute. intuition congruence.
  - vm_compute. intuition congruence.
  - exact Hp.
  - vm_compute in Hp. injection Hp as <-. vm_compute. reflexivity.
  - split; [exact Hrb|]. split; [exact (Hsn eq_refl) | exact Hcl].
Defined.

(** Calls out of turn are refused and change nothing: while a write is being
    resumed, a flush or a different write gets [ResumeMismatch], and so does any
    write while a flush is being resumed. *)
Theorem out_of_turn_refused w r cap p q voff n data :
  (pending w = PWrite p -> plan_flush (call_mem w r cap) = (Err WeResumeMismatch, call_mem w r cap)) /\
  (pending w = PWrite p -> (voff, n, data) <> (wp_voff p, wp_len p, wp_data p) ->
     plan_write voff n data (call_mem w r cap) = (Err WeResumeMismatch, call_mem w r cap)) /\
  (pending w = PFlush q ->
     plan_write voff n data (call_mem w r cap) = (Err WeResumeMismatch, call_mem w r cap)).
Proof.
  split; [|split].
  - intros Hp. unfold plan_flush, sbind, sget. cbn [ws call_mem]. by rewrite Hp.
  - intros Hp Hne. unfold plan_write. unfold sbind at 1, sget. cbv beta iota zeta.
    unfold sbind at 1. cbn [ws call_mem]. rewrite Hp.
    destruct (negb _ || _ || _) eqn:Hb; [done|]. bool_to_prop. destruct Hne.
    apply bool_decide_eq_true in H0. congruence.
  - intros Hp. unfold plan_write, sbind, sget. cbn [ws call_mem]. by rewrite Hp.
Qed.

Lemma out_of_turn_refused_witness :
  let w := ws (plan_write 600 100 (Fill 7) (call_mem small_state small_regions 1)).2 in
  plan_flush (call_mem w small_regions 4) = (Err WeResumeMismatch, call_mem w small_regions 4).
Proof.
  intros w. destruct (pending w) as [|p|q] eqn:Hp; try (vm_compute in Hp; congruence).
  exact (proj1 (out_of_turn_refused w small_regions 4 p (mkFlushProgress PreBarrier 0) 0 0 (Fill 0)) Hp).
Defined.

(** ** Eviction *)

Lemma pick_victim_from_lru {E} slots n i best acc v :
  pick_victim_from (E := E) slots n i best acc = Ok v -> 0 <= i ->
  (exists s, slot_at slots v = Some s /\ slot_valid s = false /\ i <= v < i + Z.of_nat n) \/
  ((forall j s, i <= j < i + Z.of_nat n -> slot_at slots j = Some s -> slot_valid s = true) /\
   (v = best /\ (forall j s, i <= j < i + Z.of_nat n -> slot_at slots j = Some s ->
                   acc <= slot_last_access s) \/
    exists sv, i <= v < i + Z.of_nat n /\ slot_at slots v = Some sv /\ slot_last_access sv < acc /\
      forall j s, i <= j < i + Z.of_nat n -> slot_at slots j = Some s ->
        slot_last_access sv <= slot_last_access s)).
Proof.
  revert i best acc. induction n as [|n IH]; intros i best acc; cbn [pick_victim_from].
  { intros [= <-] Hi. right. split; [intros; lia|]. left. split; [done|]. intros; lia. }
  destruct (slot_at slots i) as [s|] eqn:Hs; [|done]. cbn [or_panic obind].
  destruct (slot_valid s) eqn:Hv; cbn [negb].
  2:{ intros [= <-] Hi. left. exists s. repeat split; done || lia. }
  assert (forall (P : Z -> L2Slot -> Prop), P i s ->
    (forall j t, i + 1 <= j < i + 1 + Z.of_nat n -> slot_at slots j = Some t -> P j t) ->
    forall j t, i <= j < i + Z.of_nat (S n) -> slot_at slots j = Some t -> P j t) as Hext.
  { intros P HP Hall j t Hj Ht. destruct (Z.eq_dec j i) as [->|]; [congruence|]. apply Hall; [lia|done]. }
  destruct (Z.ltb_spec (slot_last_access s) acc); intros Hrun Hi;
    destruct (IH _ _ _ Hrun ltac:(lia)) as [(sv & ? & ? & ?)|[Hall Hcase]].
  - left. exists sv. repeat split; done || lia.
  - right. split; [by apply Hext|]. right. destruct Hcase as [[-> Hle]|(sv & Hr & Hsv & Hlt & Hle)].
    + exists s. split; [lia|]. split; [done|]. split; [done|].
      apply (Hext (fun _ t => slot_last_access s <= slot_last_access t)); [lia|done].
    + exists sv. split; [lia|]. split; [done|]. split; [lia|].
      apply (Hext (fun _ t => slot_last_access sv <= slot_last_access t)); [lia|done].
  - left. exists sv. repeat split; done || lia.
  - right. split; [by apply Hext|]. destruct Hcase as [[-> Hle]|(sv & Hr & Hsv & Hlt & Hle)].
    + left. split; [done|]. by apply (Hext (fun _ t => acc <= slot_last_access t)).
    + right. exists sv. split; [lia|]. split; [done|]. split; [done|].
      apply (Hext (fun _ t => slot_last_access sv <= slot_last_access t)); [lia|done].
Qed.

(** The eviction victim is a slot of the window that is either unused or,
    when every slot is in use, one of the least recently accessed. *)
Theorem victim_is_lru w v : state_ok w ->
  (forall i s, slot_at (l2_slots w) i = Some s -> slot_last_access s <= u64_max) ->
  pick_victim (E := WriteError) w = Ok v ->
  exists sv, 0 <= v < cfg_l2_slots (config w) /\ slot_at (l2_slots w) v = Some sv /\
    (slot_valid sv = false \/
     forall i s, i < cfg_l2_slots (config w) -> slot_at (l2_slots w) i = Some s ->
       slot_valid s = true /\ slot_last_access sv <= slot_last_access s).
Proof.
  intros Hs Hacc Hv. destruct (pick_victim_range (E := WriteError) w Hs) as (v' & Hv' & Hr).
  rewrite Hv in Hv'. injection Hv' as <-. pose proof (so_slots _ Hs) as Hn. unfold MAX_L2_SLOTS in Hn.
  destruct (slot_at_range (l2_slots w) v (so_window _ Hs) ltac:(lia)) as [sv Hsv].
  exists sv. split; [done|]. split; [done|]. unfold pick_victim in Hv.
  apply pick_victim_from_lru in Hv; [|lia]. rewrite Z.add_0_l, Z2Nat.id in Hv by lia.
  destruct Hv as [(s & Hs' & ? & _)|[Hall Hcase]]; [left; congruence|]. right.
  intros i s Hi Hat. pose proof (slot_at_nonneg _ _ _ Hat).
  split; [apply (Hall i s); [lia|done]|]. destruct Hcase as [[-> Hle]|(sv' & _ & Hsv' & _ & Hle)].
  - pose proof (Hle i s ltac:(lia) Hat). pose proof (Hacc _ _ Hsv). lia.
  - rewrite Hsv in Hsv'. injection Hsv' as <-. apply (Hle i s); [lia|done].
Qed.

Lemma last_access_bound slots : forallb (fun s => slot_last_access s <=? u64_max) slots = true ->
  forall i s, slot_at slots i = Some s -> slot_last_access s <= u64_max.
Proof.
  intros Hb i s Hs. unfold slot_at in Hs. destruct (0 <=? i); [|done].
  rewrite forallb_forall in Hb. apply Z.leb_le, Hb, list_elem_of_In.
  by eapply list_elem_of_lookup_2.
Qed.

Lemma victim_is_lru_witness :
  pick_victim (E := WriteError) small_state1 = Ok 1 /\
  exists sv, 0 <= 1 < cfg_l2_slots (config small_state1) /\
    slot_at (l2_slots small_state1) 1 = Some sv /\
    (slot_valid sv = false \/
     forall i s, i < cfg_l2_slots (config small_state1) -> slot_at (l2_slots small_state1) i = Some s ->
       slot_valid s = true /\ slot_last_access sv <= slot_last_access s).
Proof.
  split; [vm_compute; reflexivity|]. apply (victim_is_lru small_state1 1).
  - apply (session_stream _ _ _ _ _ _ small_opened small_session1).
  - apply last_access_bound. vm_compute. reflexivity.
  - vm_compute. reflexivity.
Defined.

(** ** Eviction and barriers *)

(** One window slot: writing to a second L2 table evicts the first. *)
Definition one_slot_state : WriteState :=
  mkWriteState (geometry small_state) (mkStagingConfig 1 1 Output) (l2_slots small_state)
    (refblock_dirty_words small_state) 0 AllocCursor_default false false false 0
    (slot_pending_zero small_state) PIdle.

Definition evicting_write : outcome WriteError Z * PS unit :=
  plan_write 32256 1024 (Fill 7) (call_mem one_slot_state small_regions 32).

(** An eviction inside [plan_write] writes an L2 table back with no barrier
    between it and the data writes the table's new entries point to: contract (d)
    covers [plan_flush] only. *)
Theorem eviction_has_no_barrier :
  opened small_header (mkStagingConfig 1 1 Output) false one_slot_state /\
  exists k, evicting_write.1 = Ok k /\
    let tr := sb_steps (sb evicting_write.2) in
    exists x y, tr !! 2%nat = Some x /\ is_data_write x = true /\
      tr !! 4%nat = Some y /\ kind y = WritebackCluster /\
      forallb (fun z => negb (is_barrier (kind z))) tr = true.
Proof.
  split.
  - split; [apply is_bytesb_true; vm_compute; reflexivity|].
    split; [vm_compute; split; congruence|]. split; [vm_compute; split; congruence|].
    eexists. split; [vm_compute; reflexivity|]. vm_compute. reflexivity.
  - eexists. split; [vm_compute; reflexivity|]. cbv zeta. do 2 eexists.
    split; [vm_compute; reflexivity|]. split; [reflexivity|].
    split; [vm_compute; reflexivity|]. split; [reflexivity|].
    vm_compute. reflexivity.
Qed.
