(* ===== verification/SnapshotWalk.v ===== *)
(** Walking snapshot metadata ([src/src/crates/snapshot/src/qcow2.rs]): COPIED-flag
    rewrites of single entries, the L1/L2 visitor, the two-pass refcount mutator
    behind snapshot create, delete and apply, and the COPIED-flag recomputation.

    The closures the Rust functions take are parameters: [l2_for_index] returns
    the staged L2 bytes of an L1 index, [rb_for_cluster] maps a host offset to a
    refblock's byte offset and the entry inside it. *)

From stdpp Require Import base numbers list sets gmap.
From Stdlib Require Import ZArith Lia.
From S2P Require Import Prelude Bytes Refcount Qcow2.

(** ** COPIED flag of one entry *)

Definition with_copied (entry : Z) (set : bool) : Z :=
  if set then Z.lor entry OFLAG_COPIED else Z.land entry (not64 OFLAG_COPIED).

Definition rewrite_copied_at (buf : bytes) (entry_idx stride : Z) (set : bool)
  : outcome SnapshotError bytes :=
  let? off := ok_or (checked_mul entry_idx stride) MisalignedAccess in
  if match checked_add off stride with Some e => blen buf <? e | None => true end
  then Err MisalignedAccess
  else
    let? entry := be_u64 buf off in
    write_be_u64 buf off (with_copied entry set).

Definition rewrite_l1_entry_copied_flag (l1 : bytes) (entry_idx : Z) (set : bool)
  : outcome SnapshotError bytes := rewrite_copied_at l1 entry_idx 8 set.

Definition l2_stride (extended_l2 : bool) : Z := if extended_l2 then 16 else 8.

Definition rewrite_l2_entry_copied_flag (l2 : bytes) (entry_idx : Z) (set extended_l2 : bool)
  : outcome SnapshotError bytes := rewrite_copied_at l2 entry_idx (l2_stride extended_l2) set.

(** ** The visitor *)

Inductive L2Classification : Type := L2cStandard | L2cCompressed.

Record L1ClusterRef : Type := mkL1ClusterRef {
  ref_l1_idx : Z;
  ref_l2_idx : Z;
  ref_host_offset : Z;
  ref_classification : L2Classification
}.

(** [!((1u64 << cluster_bits) - 1)]; the shift amount is taken modulo 64. *)
Definition cluster_mask (cluster_bits : Z) : Z :=
  not64 (wsub (shl64 1 (cluster_bits mod 64)) 1).

(** The cluster an L2 entry refers to, if any. *)
Definition l2_entry_target (cluster_bits l2_entry : Z) : option (L2Classification * Z) :=
  if Z.land l2_entry (not64 OFLAG_COPIED) =? 0 then None
  else if nonzero (Z.land l2_entry OFLAG_COMPRESSED) then
    let raw_off := Z.land l2_entry (not64 (Z.lor OFLAG_COMPRESSED OFLAG_COPIED)) in
    Some (L2cCompressed, Z.land raw_off (cluster_mask cluster_bits))
  else
    let host_offset := Z.land l2_entry L2_OFFSET_MASK in
    if host_offset =? 0 then None else Some (L2cStandard, host_offset).

(** ** The gate on staged tables *)

(** [SnapshotResult::ERROR_UNSUPPORTED_FEATURE]. *)
Definition ERROR_UNSUPPORTED_FEATURE : Z := 2.

(** The loop of [stage_l2_set] that refuses a staged table with a compressed
    entry; the walks below run on tables that passed it. *)
Fixpoint gate_loop (fuel : nat) (l2_slice : bytes) (stride j : Z) : outcome Z unit :=
  match fuel with
  | O => OutOfFuel
  | S fuel' =>
      if j + 8 <=? blen l2_slice then
        let? e := be_u64 l2_slice j in
        if nonzero (Z.land e OFLAG_COMPRESSED) then Err ERROR_UNSUPPORTED_FEATURE
        else gate_loop fuel' l2_slice stride (j + stride)
      else Ok tt
  end.

Definition compressed_gate (l2_slice : bytes) (extended_l2 : bool) : outcome Z unit :=
  gate_loop (S (Z.to_nat (blen l2_slice / 8))) l2_slice (l2_stride extended_l2) 0.

Section visitor.
Context {V : Type} (visit : V -> L1ClusterRef -> V * bool).

(** The inner loop; the flag says whether the visitor stopped the walk. *)
Fixpoint visit_l2 (n : nat) (l1_idx l2_idx : Z) (l2 : bytes) (stride cluster_bits : Z) (v : V)
  : outcome SnapshotError (V * bool) :=
  match n with
  | O => Ok (v, true)
  | S n' =>
      let eoff := l2_idx * stride in
      if blen l2 <? eoff + 8 then Ok (v, true)
      else
        let? e := be_u64 l2 eoff in
        match l2_entry_target cluster_bits e with
        | None => visit_l2 n' l1_idx (l2_idx + 1) l2 stride cluster_bits v
        | Some (cl, host) =>
            let '(v', cont) := visit v (mkL1ClusterRef (as_u32 l1_idx) (as_u32 l2_idx) host cl) in
            if cont then visit_l2 n' l1_idx (l2_idx + 1) l2 stride cluster_bits v'
            else Ok (v', false)
        end
  end.

Fixpoint visit_l1 (n : nat) (l1_idx : Z) (l1 : bytes) (cluster_bits : Z)
    (l2_for_index : Z -> option bytes) (stride : Z) (v : V) : outcome SnapshotError V :=
  match n with
  | O => Ok v
  | S n' =>
      let? raw := be_u64 l1 (l1_idx * 8) in
      if Z.land raw L1_OFFSET_MASK =? 0
      then visit_l1 n' (l1_idx + 1) l1 cluster_bits l2_for_index stride v
      else
        let? l2 := ok_or (l2_for_index (as_u32 l1_idx)) MisalignedAccess in
        let? (v', cont) := visit_l2 (Z.to_nat (blen l2 / stride)) l1_idx 0 l2 stride cluster_bits v in
        if cont then visit_l1 n' (l1_idx + 1) l1 cluster_bits l2_for_index stride v' else Ok v'
  end.

Definition for_each_cluster_in_l1 (l1 : bytes) (cluster_bits : Z)
    (l2_for_index : Z -> option bytes) (extended_l2 : bool) (v : V) : outcome SnapshotError V :=
  if cluster_bits =? 0 then Err InvalidConfig
  else visit_l1 (Z.to_nat (blen l1 / 8)) 0 l1 cluster_bits l2_for_index (l2_stride extended_l2) v.

End visitor.

(** ** The refcount passes *)

Section walk.
Context {S : Type} (body : Z -> SM S SnapshotError unit).

(** The inner loop of both passes: [body] on every data cluster of a table. *)
Fixpoint walk_l2 (n : nat) (l2_idx : Z) (l2 : bytes) (stride cluster_bits : Z)
  : SM S SnapshotError unit :=
  match n with
  | O => sret tt
  | Datatypes.S n' =>
      let eoff := l2_idx * stride in
      if blen l2 <? eoff + 8 then sret tt
      else
        let! e := slift (be_u64 l2 eoff) in
        do! (match l2_entry_target cluster_bits e with
             | None => sret tt
             | Some (_, host) => body host
             end) in
        walk_l2 n' (l2_idx + 1) l2 stride cluster_bits
  end.

(** The outer loop: the table's data clusters, then the table's own cluster. *)
Fixpoint walk_l1 (n : nat) (l1_idx : Z) (l1 : bytes) (cluster_bits : Z)
    (l2_for_index : Z -> option bytes) (stride : Z) : SM S SnapshotError unit :=
  match n with
  | O => sret tt
  | Datatypes.S n' =>
      let! raw := slift (be_u64 l1 (l1_idx * 8)) in
      let l2_table_offset := Z.land raw L1_OFFSET_MASK in
      do! (if l2_table_offset =? 0 then sret tt
           else
             let! l2 := slift (ok_or (l2_for_index (as_u32 l1_idx)) MisalignedAccess) in
             do! walk_l2 (Z.to_nat (blen l2 / stride)) 0 l2 stride cluster_bits in
             body l2_table_offset) in
      walk_l1 n' (l1_idx + 1) l1 cluster_bits l2_for_index stride
  end.

Definition refcount_walk (l1 : bytes) (cluster_bits : Z) (extended_l2 : bool)
    (l2_for_index : Z -> option bytes) : SM S SnapshotError unit :=
  if cluster_bits =? 0 then sfail InvalidConfig
  else walk_l1 (Z.to_nat (blen l1 / 8)) 0 l1 cluster_bits l2_for_index (l2_stride extended_l2).

End walk.

(** [1usize << cluster_bits]. *)
Definition bytes_per_refblock (cluster_bits : Z) : Z := shl64 1 (cluster_bits mod 64).

Section passes.
Context (cluster_bits refcount_bits : Z) (extended_l2 : bool).
Context (l2_for_index : Z -> option bytes) (rb_for_cluster : Z -> option (Z * Z)).

(** The refblock and entry of a cluster, bounds-checked. *)
Definition locate_block (refblocks : bytes) (host : Z) : outcome SnapshotError (Z * bytes * Z) :=
  let? (rb_off, local_idx) := ok_or (rb_for_cluster host) MisalignedAccess in
  let? e := ok_or (checked_add rb_off (bytes_per_refblock cluster_bits)) MisalignedAccess in
  if blen refblocks <? e then Err MisalignedAccess
  else let? b := or_panic (slice refblocks rb_off e) in Ok (rb_off, b, local_idx).

Definition check_cluster (refblocks : bytes) (addend host : Z) : outcome SnapshotError unit :=
  let? (_, b, local_idx) := locate_block refblocks host in
  let? current := read_refcount_in_block b local_idx refcount_bits in
  match check_refcount_after_addend current addend refcount_bits with
  | Ok _ => Ok tt
  | Err (RefcountOverflow _) => Err (RefcountOverflow host)
  | Err e => Err e
  | Panic => Panic
  | OutOfFuel => OutOfFuel
  end.

Definition dry_run_refcount_pass (l1 : bytes) (addend : Z) (refblocks : bytes)
  : outcome SnapshotError unit :=
  (refcount_walk (fun host => slift (check_cluster refblocks addend host)) l1 cluster_bits
     extended_l2 l2_for_index tt).1.

Definition bump_cluster (addend host : Z) : SM bytes SnapshotError unit :=
  let! refblocks := sget in
  let! (rb_off, b, local_idx) := slift (locate_block refblocks host) in
  let! current := slift (read_refcount_in_block b local_idx refcount_bits) in
  let! new_val := slift (check_refcount_after_addend current addend refcount_bits) in
  let! b' := slift (set_refcount_in_block b local_idx refcount_bits new_val) in
  let! refblocks' := slift (or_panic (splice refblocks rb_off b')) in
  sput refblocks'.

Definition apply_refcount_pass (l1 : bytes) (addend : Z) : SM bytes SnapshotError unit :=
  refcount_walk (bump_cluster addend) l1 cluster_bits extended_l2 l2_for_index.

Inductive SnapshotRefcountOp : Type :=
| IncrementForCreate (snapshot_l1 : bytes)
| DecrementForDelete (snapshot_l1 : bytes)
| SwapForApply (from_l1 to_l1 : bytes).

Definition precheck_snapshot_refcount (op : SnapshotRefcountOp) (refblocks : bytes)
  : outcome SnapshotError unit :=
  match op with
  | IncrementForCreate l1 => dry_run_refcount_pass l1 1 refblocks
  | DecrementForDelete l1 => dry_run_refcount_pass l1 (-1) refblocks
  | SwapForApply from to =>
      let? _ := dry_run_refcount_pass from (-1) refblocks in
      dry_run_refcount_pass to 1 refblocks
  end.

Definition apply_op (op : SnapshotRefcountOp) : SM bytes SnapshotError unit :=
  match op with
  | IncrementForCreate l1 => apply_refcount_pass l1 1
  | DecrementForDelete l1 => apply_refcount_pass l1 (-1)
  | SwapForApply from to =>
      do! apply_refcount_pass from (-1) in apply_refcount_pass to 1
  end.

Definition update_snapshot_refcount (op : SnapshotRefcountOp) : SM bytes SnapshotError unit :=
  let! refblocks := sget in
  do! slift (match op with
             | IncrementForCreate l1 => dry_run_refcount_pass l1 1 refblocks
             | DecrementForDelete l1 => dry_run_refcount_pass l1 (-1) refblocks
             | SwapForApply from to =>
                 let? _ := dry_run_refcount_pass from (-1) refblocks in
                 dry_run_refcount_pass to 1 refblocks
             end) in
  apply_op op.

End passes.

(** ** Recomputing COPIED flags *)

(** The mutable state of [update_copied_flags_for_l1]: the L1 bytes, the staged L2
    tables by L1 index, and the rewrite counter. *)
Record CopiedSt : Type := mkCopiedSt {
  cp_l1 : bytes;
  cp_l2 : gmap Z bytes;
  cp_rewrites : Z
}.

Abbreviation CM := (SM CopiedSt SnapshotError).

Definition count_rewrite (s : CopiedSt) : Z := Z.min (cp_rewrites s + 1) u32_max.

Definition rewrite_l1 (l1_idx : Z) (set : bool) : CM unit :=
  let! s := sget in
  let! l1' := slift (rewrite_l1_entry_copied_flag (cp_l1 s) (as_u32 l1_idx) set) in
  sput (mkCopiedSt l1' (cp_l2 s) (count_rewrite s)).

Definition rewrite_l2 (key : Z) (l2_idx : Z) (set extended_l2 : bool) : CM unit :=
  let! s := sget in
  let! l2 := slift (or_panic (cp_l2 s !! key)) in
  let! l2' := slift (rewrite_l2_entry_copied_flag l2 (as_u32 l2_idx) set extended_l2) in
  sput (mkCopiedSt (cp_l1 s) (<[key := l2']> (cp_l2 s)) (count_rewrite s)).

(** The host offset whose refcount decides an L2 entry's flag; [None] for an entry
    that refers to no cluster. *)
Definition copied_target (cluster_bits l2_entry : Z) : option Z :=
  if nonzero (Z.land l2_entry OFLAG_COMPRESSED) then
    Some (Z.land (Z.land l2_entry (not64 (Z.lor OFLAG_COMPRESSED OFLAG_COPIED)))
            (cluster_mask cluster_bits))
  else
    let v := Z.land l2_entry L2_OFFSET_MASK in
    if v =? 0 then None else Some v.

Section copied.
Context (cluster_bits : Z) (refcount_for_cluster : Z -> option Z) (extended_l2 : bool).

(** Bring one L2 entry's flag in line. *)
Definition fix_l2_entry (key l2_idx : Z) : CM unit :=
  let! s := sget in
  let! l2 := slift (or_panic (cp_l2 s !! key)) in
  let! e := slift (be_u64 l2 (l2_idx * l2_stride extended_l2)) in
  let has := nonzero (Z.land e OFLAG_COPIED) in
  match copied_target cluster_bits e with
  | None => if has then rewrite_l2 key l2_idx false extended_l2 else sret tt
  | Some host =>
      let! rc := slift (ok_or (refcount_for_cluster host) MisalignedAccess) in
      let want := rc =? 1 in
      if Bool.eqb want has then sret tt else rewrite_l2 key l2_idx want extended_l2
  end.

Fixpoint fix_l2_table (n : nat) (key l2_idx len : Z) : CM unit :=
  match n with
  | O => sret tt
  | S n' =>
      if len <? l2_idx * l2_stride extended_l2 + 8 then sret tt
      else do! fix_l2_entry key l2_idx in fix_l2_table n' key (l2_idx + 1) len
  end.

Fixpoint fix_l1_table (n : nat) (l1_idx : Z) : CM unit :=
  match n with
  | O => sret tt
  | S n' =>
      let! s := sget in
      let! raw := slift (be_u64 (cp_l1 s) (l1_idx * 8)) in
      let l2_table_offset := Z.land raw L1_OFFSET_MASK in
      do! (if l2_table_offset =? 0 then sret tt
           else
             let! rc := slift (ok_or (refcount_for_cluster l2_table_offset) MisalignedAccess) in
             let want := rc =? 1 in
             do! (if Bool.eqb want (nonzero (Z.land raw OFLAG_COPIED)) then sret tt
                  else rewrite_l1 l1_idx want) in
             let! s' := sget in
             let! l2 := slift (ok_or (cp_l2 s' !! as_u32 l1_idx) MisalignedAccess) in
             fix_l2_table (Z.to_nat (blen l2 / l2_stride extended_l2)) (as_u32 l1_idx) 0 (blen l2)) in
      fix_l1_table n' (l1_idx + 1)
  end.

Definition update_copied_flags_for_l1 : CM Z :=
  if cluster_bits =? 0 then sfail InvalidConfig
  else
    do! smod (fun s => mkCopiedSt (cp_l1 s) (cp_l2 s) 0) in
    let! s := sget in
    do! fix_l1_table (Z.to_nat (blen (cp_l1 s) / 8)) 0 in
    let! s' := sget in
    sret (cp_rewrites s').

End copied.

(** ** Reading entries *)

(** The big-endian word at a byte offset. *)
Definition u64_at (buf : bytes) (off : Z) : Z :=
  from_option be_val 0 (slice buf off (off + 8)).

Lemma be_u64_at {E} buf off : 0 <= off -> off + 8 <= blen buf ->
  be_u64 (E := E) buf off = Ok (u64_at buf off).
Proof.
  intros Ho Hl. unfold be_u64, u64_at. destruct (slice buf off (off + 8)) as [s|] eqn:Hs; [done|].
  rewrite slice_Some_2 in Hs by lia. done.
Qed.

Lemma u64_at_u64 buf off : is_bytes buf -> is_u64 (u64_at buf off).
Proof.
  intros Hb. unfold u64_at. destruct (slice buf off (off + 8)) as [s|] eqn:Hs; cbn.
  - pose proof (be_val_bound s (slice_is_bytes _ _ _ _ Hb Hs)) as Hv.
    rewrite (slice_blen _ _ _ _ Hs) in Hv. replace (off + 8 - off) with 8 in Hv by lia.
    change (256 ^ 8) with 18446744073709551616 in Hv. unfold is_u64, u64_max. lia.
  - split; vm_compute; congruence.
Qed.

(** ** COPIED flag of one entry *)

Lemma with_copied_bit e set k : 0 <= k < 64 ->
  Z.testbit (with_copied e set) k = if k =? 63 then set else Z.testbit e k.
Proof.
  intros Hk. unfold with_copied, not64. change OFLAG_COPIED with (2 ^ 63).
  change u64_max with (Z.ones 64). destruct set.
  - rewrite Z.lor_spec, Z.pow2_bits_eqb, (Z.eqb_sym 63) by lia.
    destruct (k =? 63); [apply orb_true_r|apply orb_false_r].
  - rewrite Z.land_spec, Z.lxor_spec, Z.ones_spec_low, Z.pow2_bits_eqb, (Z.eqb_sym 63) by lia.
    destruct (k =? 63); [apply andb_false_r|apply andb_true_r].
Qed.

Lemma u64_bits_high e k : is_u64 e -> 64 <= k -> Z.testbit e k = false.
Proof.
  intros He Hk. rewrite <- (Z.mod_small e (2 ^ 64)) by (unfold is_u64, u64_max in He; lia).
  by apply Z.mod_pow2_bits_high.
Qed.

Lemma with_copied_u64 e set : is_u64 e -> is_u64 (with_copied e set).
Proof.
  intros He. unfold with_copied. destruct set.
  - split; [apply Z.lor_nonneg; split; [apply He|done]|].
    enough (Z.lor e OFLAG_COPIED < 2 ^ 64) by (unfold u64_max; lia).
    destruct (Z.eq_dec (Z.lor e OFLAG_COPIED) 0) as [->|]; [done|].
    apply Z.log2_lt_cancel. change (Z.log2 (2 ^ 64)) with 64.
    rewrite Z.log2_lor; [|apply He|done]. apply Z.max_lub_lt; [|done].
    destruct (Z.eq_dec e 0) as [->|]; [done|]. apply Z.log2_lt_pow2; unfold is_u64, u64_max in He; lia.
  - pose proof (proj2 (Z.land_nonneg e (not64 OFLAG_COPIED)) (or_introl (proj1 He))).
    split; [done|]. destruct He as [He0 He1].
    transitivity e; [|done]. destruct (Z.eq_dec (Z.land e (not64 OFLAG_COPIED)) 0) as [->|]; [done|].
    apply Z.ldiff_le; [done|]. apply Z.bits_inj'. intros k Hk.
    rewrite Z.ldiff_spec, Z.land_spec, Z.bits_0. by destruct (Z.testbit e k), (Z.testbit _ k).
Qed.

(** The flag test and the rewrite agree. *)
Lemma with_copied_id e set : is_u64 e -> nonzero (Z.land e OFLAG_COPIED) = set -> with_copied e set = e.
Proof.
  intros He Hs. pose proof (with_copied_u64 e set He) as Hu. apply Z.bits_inj'. intros k Hk.
  destruct (Z.lt_ge_cases k 64) as [Hlt|Hge]; [|by rewrite !u64_bits_high].
  rewrite with_copied_bit by lia. destruct (Z.eqb_spec k 63) as [->|]; [|done].
  rewrite <- Hs. change OFLAG_COPIED with (2 ^ 63).
  destruct (Z.testbit e 63) eqn:Hb.
  - apply nonzero_true. intros H0. pose proof (f_equal (fun x => Z.testbit x 63) H0) as Ht.
    cbv beta in Ht. by rewrite Z.land_spec, Hb, Z.pow2_bits_true, Z.bits_0 in Ht by lia.
  - apply nonzero_false. apply Z.bits_inj'. intros j Hj.
    rewrite Z.land_spec, Z.pow2_bits_eqb, Z.bits_0 by lia.
    destruct (Z.eqb_spec 63 j) as [<-|]; [by rewrite Hb | apply andb_false_r].
Qed.

Lemma rewrite_copied_at_spec buf idx stride set :
  is_bytes buf -> slice_fits buf -> 0 <= idx -> stride = 8 \/ stride = 16 ->
  idx * stride + stride <= blen buf ->
  exists buf', rewrite_copied_at buf idx stride set = Ok buf' /\
    splice buf (idx * stride) (be_bytes 8 (with_copied (u64_at buf (idx * stride)) set)) = Some buf' /\
    is_bytes buf' /\ blen buf' = blen buf /\
    u64_at buf' (idx * stride) = with_copied (u64_at buf (idx * stride)) set /\
    forall o, o + 8 <= idx * stride \/ idx * stride + 8 <= o -> u64_at buf' o = u64_at buf o.
Proof.
  intros Hb Hfit Hi Hst Hl. unfold slice_fits in Hfit. unfold rewrite_copied_at.
  rewrite checked_mul_eq by (unfold u64_max; lia). cbn [ok_or obind].
  rewrite checked_add_eq by (unfold u64_max; lia).
  destruct (Z.ltb_spec (blen buf) (idx * stride + stride)); [lia|].
  rewrite be_u64_at by lia. cbn [obind]. unfold write_be_u64.
  destruct (splice buf (idx * stride) (be_bytes 8 (with_copied (u64_at buf (idx * stride)) set)))
    as [buf'|] eqn:Hs.
  2:{ apply eq_None_not_Some in Hs as []. apply splice_is_Some. rewrite blen_be_bytes. lia. }
  exists buf'. split; [done|]. split; [done|].
  split; [exact (splice_is_bytes _ _ _ _ Hb (be_bytes_is_bytes 8 _) Hs)|].
  split; [exact (splice_blen _ _ _ _ Hs)|].
  pose proof (slice_splice_eq _ _ _ _ Hs) as He. rewrite blen_be_bytes in He. split.
  - unfold u64_at at 1. change (Z.of_nat 8) with 8 in He. rewrite He. cbn [from_option].
    rewrite be_val_bytes; [done|]. change (256 ^ Z.of_nat 8) with 18446744073709551616.
    pose proof (with_copied_u64 _ set (u64_at_u64 buf (idx * stride) Hb)) as Hu.
    unfold is_u64, u64_max in Hu. lia.
  - intros o Ho. unfold u64_at. f_equal. apply (slice_splice_ne _ _ _ _ _ _ Hs).
    rewrite blen_be_bytes. lia.
Qed.
