(* ===== verification/SnapshotProps.v ===== *)
(** The theorems of the snapshot walks: what the visitor visits, what the two
    refcount passes check and change, and what the COPIED recomputation
    establishes. *)

From stdpp Require Import base numbers list sets gmap.
From Stdlib Require Import ZArith Lia.
From S2P Require Import Prelude Bytes Refcount Qcow2 SnapshotWalk.

(** ** The clusters an L1 table reaches *)

(** References of the entries [i, i + n) of one staged table, in index order. *)
Fixpoint table_refs (n : nat) (l1_idx i : Z) (l2 : bytes) (stride cluster_bits : Z)
  : list L1ClusterRef :=
  match n with
  | O => []
  | S n' =>
      match l2_entry_target cluster_bits (u64_at l2 (i * stride)) with
      | Some (cl, h) => [mkL1ClusterRef (as_u32 l1_idx) (as_u32 i) h cl]
      | None => []
      end ++ table_refs n' l1_idx (i + 1) l2 stride cluster_bits
  end.

(** The references of the L1 entries [i, i + n), each table's data clusters
    followed by the offset of the table itself; [None] when a table is not staged. *)
Fixpoint l1_refs (n : nat) (i : Z) (l1 : bytes) (cluster_bits : Z)
    (l2_for_index : Z -> option bytes) (stride : Z) : option (list (list L1ClusterRef * Z)) :=
  match n with
  | O => Some []
  | S n' =>
      let t := Z.land (u64_at l1 (i * 8)) L1_OFFSET_MASK in
      if t =? 0 then l1_refs n' (i + 1) l1 cluster_bits l2_for_index stride
      else
        l2 ← l2_for_index (as_u32 i);
        rest ← l1_refs n' (i + 1) l1 cluster_bits l2_for_index stride;
        Some ((table_refs (Z.to_nat (blen l2 / stride)) i 0 l2 stride cluster_bits, t) :: rest)
  end.

Definition all_refs (l1 : bytes) (cluster_bits : Z) (l2_for_index : Z -> option bytes)
    (extended_l2 : bool) : option (list (list L1ClusterRef * Z)) :=
  l1_refs (Z.to_nat (blen l1 / 8)) 0 l1 cluster_bits l2_for_index (l2_stride extended_l2).

(** Data references only, and every touched cluster including the tables. *)
Definition data_refs (rs : list (list L1ClusterRef * Z)) : list L1ClusterRef := concat (map fst rs).
Definition touched (rs : list (list L1ClusterRef * Z)) : list Z :=
  concat (map (fun r => map ref_host_offset r.1 ++ [r.2]) rs).

Lemma l2_stride_pos ext : l2_stride ext = 8 \/ l2_stride ext = 16.
Proof. unfold l2_stride. destruct ext; auto. Qed.

(** Entry [i] of a table of [len / stride] entries lies inside it. *)
Lemma entry_inside len stride i k : stride = 8 \/ stride = 16 -> 0 <= len -> 0 <= i ->
  i + Z.of_nat (S k) <= len / stride -> i * stride + 8 <= len.
Proof.
  intros Hs Hl Hi Hle. pose proof (Z.mul_div_le len stride ltac:(lia)). nia.
Qed.

Lemma table_range l stride : stride = 8 \/ stride = 16 ->
  0 + Z.of_nat (Z.to_nat (blen l / stride)) <= blen l / stride.
Proof.
  intros Hs. pose proof (Z.div_pos (blen l) stride (blen_nonneg l) ltac:(lia)). lia.
Qed.

(** ** The visitor *)

(** Feed references to a visitor until it stops. *)
Fixpoint run_visit {V} (visit : V -> L1ClusterRef -> V * bool) (rs : list L1ClusterRef) (v : V)
  : V * bool :=
  match rs with
  | [] => (v, true)
  | r :: rs' => let '(v', cont) := visit v r in if cont then run_visit visit rs' v' else (v', false)
  end.

Lemma run_visit_app {V} (visit : V -> L1ClusterRef -> V * bool) a b v :
  run_visit visit (a ++ b) v =
  let '(v', cont) := run_visit visit a v in if cont then run_visit visit b v' else (v', false).
Proof.
  revert v. induction a as [|r a IH]; intros v; cbn; [done|].
  destruct (visit v r) as [v' []]; [apply IH|done].
Qed.

Lemma visit_l2_run {V} (visit : V -> L1ClusterRef -> V * bool) n l1_idx i l2 stride cb v :
  stride = 8 \/ stride = 16 -> 0 <= i -> i + Z.of_nat n <= blen l2 / stride ->
  visit_l2 visit n l1_idx i l2 stride cb v =
    Ok (run_visit visit (table_refs n l1_idx i l2 stride cb) v).
Proof.
  intros Hs. revert i v. induction n as [|n IH]; intros i v Hi Hle; [done|].
  pose proof (entry_inside (blen l2) stride i n Hs (blen_nonneg l2) Hi Hle) as Hin.
  cbn [visit_l2 table_refs]. destruct (Z.ltb_spec (blen l2) (i * stride + 8)); [lia|].
  rewrite be_u64_at by nia. cbn [obind].
  destruct (l2_entry_target cb (u64_at l2 (i * stride))) as [[cl h]|].
  - cbn [app run_visit]. destruct (visit v _) as [v' []]; [apply IH; lia|done].
  - cbn [app]. apply IH; lia.
Qed.

Lemma visit_l1_run {V} (visit : V -> L1ClusterRef -> V * bool) n i l1 cb l2f stride v rs :
  stride = 8 \/ stride = 16 -> 0 <= i -> i + Z.of_nat n <= blen l1 / 8 ->
  l1_refs n i l1 cb l2f stride = Some rs ->
  visit_l1 visit n i l1 cb l2f stride v = Ok (run_visit visit (data_refs rs) v).1.
Proof.
  intros Hs. revert i v rs. induction n as [|n IH]; intros i v rs Hi Hle Hrs.
  { injection Hrs as <-. done. }
  pose proof (entry_inside (blen l1) 8 i n (or_introl eq_refl) (blen_nonneg l1) Hi Hle) as Hin.
  cbn [visit_l1 l1_refs] in *. rewrite be_u64_at by lia. cbn [obind].
  destruct (Z.land (u64_at l1 (i * 8)) L1_OFFSET_MASK =? 0); [apply IH; [lia|lia|done]|].
  destruct (l2f (as_u32 i)) as [l2|]; [|done]. cbn [mbind option_bind ok_or obind] in *.
  destruct (l1_refs n (i + 1) l1 cb l2f stride) as [rest|] eqn:Hrest; [|done].
  injection Hrs as <-. rewrite visit_l2_run by (lia || done || by apply table_range). cbn [obind].
  unfold data_refs. cbn [map concat fst]. rewrite run_visit_app.
  destruct (run_visit visit _ v) as [v' []]; [apply IH; [lia|lia|done]|done].
Qed.

(** ** Iterating a pass *)

Fixpoint sm_iter {S E A} (f : A -> SM S E unit) (l : list A) : SM S E unit :=
  match l with [] => sret tt | a :: l' => do! f a in sm_iter f l' end.

Lemma sm_iter_app {S E A} (f : A -> SM S E unit) l1 l2 s :
  sm_iter f (l1 ++ l2) s = (do! sm_iter f l1 in sm_iter f l2) s.
Proof.
  revert s. induction l1 as [|a l1 IH]; intros s; cbn; [done|].
  unfold sbind. by destruct (f a s) as [[[]|e| |] s'].
Qed.

Lemma walk_l2_iter {S} (body : Z -> SM S SnapshotError unit) n l1_idx i l2 stride cb s :
  stride = 8 \/ stride = 16 -> 0 <= i -> i + Z.of_nat n <= blen l2 / stride ->
  walk_l2 body n i l2 stride cb s =
    sm_iter body (map ref_host_offset (table_refs n l1_idx i l2 stride cb)) s.
Proof.
  intros Hs. revert i s. induction n as [|n IH]; intros i s Hi Hle; [done|].
  pose proof (entry_inside (blen l2) stride i n Hs (blen_nonneg l2) Hi Hle) as Hin.
  cbn [walk_l2 table_refs]. destruct (Z.ltb_spec (blen l2) (i * stride + 8)); [lia|].
  unfold sbind at 1, slift. rewrite be_u64_at by nia.
  destruct (l2_entry_target cb (u64_at l2 (i * stride))) as [[cl h]|]; cbn [app map sm_iter ref_host_offset].
  - unfold sbind. destruct (body h s) as [[[]|e| |] s']; try done. apply IH; lia.
  - unfold sbind at 1, sret. apply IH; lia.
Qed.

Lemma walk_l1_step {S} (body : Z -> SM S SnapshotError unit) n i l1 cb l2f stride s :
  stride = 8 \/ stride = 16 -> 0 <= i -> i * 8 + 8 <= blen l1 ->
  walk_l1 body (Datatypes.S n) i l1 cb l2f stride s =
  let t := Z.land (u64_at l1 (i * 8)) L1_OFFSET_MASK in
  if t =? 0 then walk_l1 body n (i + 1) l1 cb l2f stride s
  else match l2f (as_u32 i) with
       | None => (Err MisalignedAccess, s)
       | Some l2 =>
           (do! sm_iter body (map ref_host_offset
              (table_refs (Z.to_nat (blen l2 / stride)) i 0 l2 stride cb)) in
            do! body t in walk_l1 body n (i + 1) l1 cb l2f stride) s
       end.
Proof.
  intros Hs Hi Hin. cbn [walk_l1]. unfold sbind at 1, slift. rewrite be_u64_at by lia.
  cbv beta iota zeta. destruct (_ =? 0); [done|]. unfold sbind at 1, sbind at 1.
  destruct (l2f (as_u32 i)) as [l2|]; cbn [ok_or]; [|done]. unfold sbind at 1.
  rewrite (walk_l2_iter body _ i 0) by (lia || done || by apply table_range).
  unfold sbind. by destruct (sm_iter _ _ s) as [[[]|e| |] s1].
Qed.

Lemma walk_l1_iter {S} (body : Z -> SM S SnapshotError unit) n i l1 cb l2f stride s :
  stride = 8 \/ stride = 16 -> 0 <= i -> i + Z.of_nat n <= blen l1 / 8 ->
  match l1_refs n i l1 cb l2f stride with
  | Some rs => walk_l1 body n i l1 cb l2f stride s = sm_iter body (touched rs) s
  | None => (walk_l1 body n i l1 cb l2f stride s).1 <> Ok tt
  end.
Proof.
  intros Hs. revert i s. induction n as [|n IH]; intros i s Hi Hle; [done|].
  pose proof (entry_inside (blen l1) 8 i n (or_introl eq_refl) (blen_nonneg l1) Hi Hle) as Hin.
  specialize (fun s => IH (i + 1) s ltac:(lia) ltac:(lia)).
  rewrite walk_l1_step by done. cbn [l1_refs].
  destruct (Z.land (u64_at l1 (i * 8)) L1_OFFSET_MASK =? 0); [apply IH|].
  destruct (l2f (as_u32 i)) as [l2|]; cbn [mbind option_bind]; [|done].
  set (t := Z.land _ _). set (hs := map _ _).
  destruct (l1_refs n (i + 1) l1 cb l2f stride) as [rest|] eqn:Hrest; cbn [mbind option_bind].
  - unfold touched. cbn [map concat fst snd]. fold hs. fold (touched rest).
    rewrite sm_iter_app. unfold sbind at 3. rewrite sm_iter_app. unfold sbind.
    destruct (sm_iter body hs s) as [[[]|e| |] s1]; try done. cbn [sm_iter]. unfold sbind.
    by destruct (body t s1) as [[[]|e| |] s2].
  - unfold sbind. destruct (sm_iter body hs s) as [[[]|e| |] s1]; try done.
    by destruct (body t s1) as [[[]|e| |] s2].
Qed.

(** ** One refcount adjustment *)

Lemma check_addend_spec cur addend w : valid_width w -> 0 <= cur < 2 ^ w -> Z.abs addend <= 1 ->
  match check_refcount_after_addend cur addend w with
  | Ok n => n = cur + addend /\ 0 <= n < 2 ^ w
  | Err _ => ~ 0 <= cur + addend < 2 ^ w
  | _ => False
  end.
Proof.
  intros Hw Hc Ha.
  assert (1 <= w <= 64 /\ (if 64 <=? w then u64_max else Z.shiftl 1 w - 1) = 2 ^ w - 1 /\
    2 ^ w <= 18446744073709551616) as (Hw1 & Hmax & Hle).
  { unfold valid_width in Hw. rewrite !elem_of_cons, elem_of_nil in Hw.
    repeat destruct Hw as [->|Hw]; try done. }
  unfold check_refcount_after_addend. destruct (Z.eqb_spec w 0); [lia|]. rewrite Hmax.
  destruct (Z.leb_spec 0 addend).
  - unfold checked_add, u64_max. destruct (Z.leb_spec (cur + addend) 18446744073709551615); cbn [ok_or obind].
    + destruct (Z.ltb_spec (2 ^ w - 1) (cur + addend)); lia.
    + lia.
  - destruct (Z.ltb_spec cur (Z.abs addend)); lia.
Qed.

Section passes.
Context (cb w : Z) (ext : bool) (l2f : Z -> option bytes) (rbf : Z -> option (Z * Z)).
Context (Hcb : 0 < cb < 63) (Hw : valid_width w).

(** What the refblock mapping promises: whole aligned blocks, entries inside them. *)
Definition mapping_ok : Prop := forall h o i, rbf h = Some (o, i) ->
  0 <= o /\ o mod 2 ^ cb = 0 /\ 0 <= i /\ (i + 1) * w <= 8 * 2 ^ cb.

Definition blocks_ok (blocks : bytes) : Prop := is_bytes blocks /\ slice_fits blocks.

(** The staged refcount of the cluster at [h]. *)
Definition rc (blocks : bytes) (h : Z) : outcome SnapshotError Z :=
  let? (_, b, i) := locate_block cb rbf blocks h in read_refcount_in_block b i w.

Lemma bytes_per_refblock_pow : bytes_per_refblock cb = 2 ^ cb.
Proof.
  unfold bytes_per_refblock, shl64. rewrite (Z.mod_small cb) by lia. rewrite Z.shiftl_1_l.
  apply Z.mod_small. split; [lia|]. change 18446744073709551616 with (2 ^ 64).
  apply Z.pow_lt_mono_r; lia.
Qed.

Context (Hmap : mapping_ok).

Lemma locate_block_spec blocks h : blocks_ok blocks ->
  match locate_block cb rbf blocks h with
  | Ok (o, b, i) => rbf h = Some (o, i) /\ slice blocks o (o + 2 ^ cb) = Some b /\
      blen b = 2 ^ cb /\ is_bytes b /\ slice_fits b /\ in_block b i w /\ o mod 2 ^ cb = 0
  | Err e => e = MisalignedAccess
  | _ => False
  end.
Proof.
  intros [Hb Hfit]. unfold locate_block. destruct (rbf h) as [[o i]|] eqn:Hr; [|done].
  cbn [ok_or obind]. destruct (Hmap _ _ _ Hr) as (Ho & Hal & Hi & Hin).
  rewrite bytes_per_refblock_pow. destruct (checked_add o (2 ^ cb)) as [e|] eqn:He; [|done].
  apply checked_add_Some in He as [-> _]. cbn [ok_or obind].
  destruct (Z.ltb_spec (blen blocks) (o + 2 ^ cb)); [done|].
  destruct (slice blocks o (o + 2 ^ cb)) as [b|] eqn:Hs.
  2:{ rewrite slice_Some_2 in Hs by lia. done. }
  cbn [or_panic obind]. pose proof (slice_blen _ _ _ _ Hs) as Hl.
  replace (o + 2 ^ cb - o) with (2 ^ cb) in Hl by lia. unfold slice_fits, in_block in *.
  repeat split; try done; try lia. exact (slice_is_bytes _ _ _ _ Hb Hs).
Qed.

Lemma rc_cases blocks h : blocks_ok blocks ->
  match rc blocks h with
  | Ok v => 0 <= v < 2 ^ w
  | Err e => e = MisalignedAccess
  | _ => False
  end.
Proof.
  intros Hb. pose proof (locate_block_spec blocks h Hb) as Hl. unfold rc.
  destruct (locate_block cb rbf blocks h) as [[[o b] i]|e| |]; try done.
  destruct Hl as (_ & _ & _ & Hbb & Hbf & Hin & _). cbn [obind].
  destruct (read_refcount_ok b i w Hbb Hbf Hw Hin) as (v & -> & Hv). done.
Qed.

Lemma check_cluster_spec blocks addend h : blocks_ok blocks -> Z.abs addend <= 1 ->
  match check_cluster cb w rbf blocks addend h with
  | Ok _ => exists v, rc blocks h = Ok v /\ 0 <= v + addend < 2 ^ w
  | Err _ => forall v, rc blocks h = Ok v -> ~ 0 <= v + addend < 2 ^ w
  | _ => False
  end.
Proof.
  intros Hb Ha. pose proof (rc_cases blocks h Hb) as Hrc. unfold rc, check_cluster in *.
  pose proof (locate_block_spec blocks h Hb) as Hl.
  destruct (locate_block cb rbf blocks h) as [[[o b] i]|e| |]; try done. cbn [obind] in *.
  destruct (read_refcount_in_block b i w) as [v|e| |]; try done. cbn [obind].
  pose proof (check_addend_spec v addend w Hw Hrc Ha) as Hc.
  destruct (check_refcount_after_addend v addend w) as [n|e| |]; try done.
  - exists v. destruct Hc as [-> ?]. done.
  - destruct e; intros v' [= <-]; done.
Qed.

(** Same staged entry. *)
Definition same_entry (h h' : Z) : bool := bool_decide (rbf h = rbf h').

Lemma rc_splice blocks blocks' h o i b b' x : blocks_ok blocks ->
  rbf h = Some (o, i) -> slice blocks o (o + 2 ^ cb) = Some b -> o mod 2 ^ cb = 0 ->
  set_refcount_in_block b i w x = Ok b' -> 0 <= x < 2 ^ w ->
  blen b = 2 ^ cb -> is_bytes b -> slice_fits b -> in_block b i w ->
  splice blocks o b' = Some blocks' ->
  blocks_ok blocks' /\ blen blocks' = blen blocks /\
  forall h', rc blocks' h' = if same_entry h h' then Ok x else rc blocks h'.
Proof.
  intros [Hb Hfit] Hr Hs Hal Hset Hx Hlb Hbb Hbf Hin Hspl.
  destruct (set_refcount_spec b i w x Hbb Hbf Hw Hin) as (b1 & Hset1 & Hl1 & Hb1 & Hread).
  rewrite Hset in Hset1. injection Hset1 as <-. pose proof (splice_blen _ _ _ _ Hspl) as Hlen.
  assert (blocks_ok blocks') as Hok'.
  { split; [exact (splice_is_bytes _ _ _ _ Hb Hb1 Hspl)|]. unfold slice_fits in *. lia. }
  split; [done|]. split; [done|]. intros h'. unfold rc, locate_block.
  destruct (rbf h') as [[o' i']|] eqn:Hr'; cbn [ok_or obind].
  2:{ unfold same_entry. by rewrite bool_decide_eq_false_2 by congruence. }
  destruct (Hmap _ _ _ Hr') as (Ho' & Hal' & Hi' & Hin'). rewrite bytes_per_refblock_pow, Hlen.
  pose proof (slice_Some _ _ _ _ Hs) as (Ho & Hoe & _).
  assert (same_entry h h' = true <-> o' = o /\ i' = i) as Hse.
  { unfold same_entry. rewrite bool_decide_eq_true, Hr, Hr'.
    split; [by intros [= -> ->] | by intros [-> ->]]. }
  destruct (checked_add o' (2 ^ cb)) as [e|] eqn:He.
  2:{ cbn [ok_or obind]. destruct (same_entry h h'); [|done]. destruct Hse as [[-> ->] _]; [done|].
      rewrite checked_add_eq in He; [done|]. unfold slice_fits, u64_max in *. lia. }
  apply checked_add_Some in He as [-> _]. cbn [ok_or obind].
  destruct (Z.ltb_spec (blen blocks) (o' + 2 ^ cb)).
  { destruct (same_entry h h'); [|done]. destruct Hse as [[-> ->] _]; [done|]. lia. }
  destruct (Z.eq_dec o' o) as [->|Hne].
  - pose proof (slice_splice_eq _ _ _ _ Hspl) as Hs'. rewrite Hl1, Hlb in Hs'. rewrite Hs', Hs.
    cbn [or_panic obind]. rewrite Hread by (split; [done|rewrite Hlb; done]).
    destruct (Z.eqb_spec i' i) as [->|Hni].
    + replace (same_entry h h') with true by (symmetry; by apply Hse). by rewrite stored_small.
    + destruct (same_entry h h'); [|done]. destruct Hse as [[_ ->] _]; done.
  - rewrite (slice_splice_ne _ _ _ _ _ _ Hspl).
    + destruct (same_entry h h'); [|done]. destruct Hse as [[-> _] _]; done.
    + rewrite Hl1, Hlb. pose proof (Z.div_mod o (2 ^ cb) ltac:(lia)).
      pose proof (Z.div_mod o' (2 ^ cb) ltac:(lia)).
      assert (o / 2 ^ cb <> o' / 2 ^ cb) by (intros Hq; rewrite Hq in *; lia).
      assert (0 < 2 ^ cb) by lia. nia.
Qed.

(** The body of the apply pass. *)
Lemma bump_cluster_spec blocks addend h : blocks_ok blocks -> Z.abs addend <= 1 ->
  match bump_cluster cb w rbf addend h blocks with
  | (Ok _, blocks') => exists v, rc blocks h = Ok v /\ 0 <= v + addend < 2 ^ w /\
      blocks_ok blocks' /\
      forall h', rc blocks' h' = if same_entry h h' then Ok (v + addend) else rc blocks h'
  | (Err _, blocks') => blocks' = blocks /\
      forall v, rc blocks h = Ok v -> ~ 0 <= v + addend < 2 ^ w
  | _ => False
  end.
Proof.
  intros Hb Ha. pose proof (rc_cases blocks h Hb) as Hrc. unfold rc in Hrc.
  pose proof (locate_block_spec blocks h Hb) as Hl. unfold bump_cluster.
  unfold sbind at 1, sget. unfold sbind at 1, slift.
  assert (forall v, rc blocks h = Ok v -> exists t, locate_block cb rbf blocks h = Ok t) as Hloc.
  { unfold rc. intros v. destruct (locate_block cb rbf blocks h); cbn; eauto; done. }
  destruct (locate_block cb rbf blocks h) as [[[o b] i]|e| |] eqn:Hlb; try done.
  2:{ split; [done|]. intros v Hv. destruct (Hloc v Hv). done. }
  destruct Hl as (Hr & Hs & Hlen & Hbb & Hbf & Hin & Hal). cbn [obind] in Hrc.
  unfold sbind at 1. destruct (read_refcount_in_block b i w) as [v|e| |] eqn:Hread; try done.
  2:{ split; [done|]. unfold rc. rewrite Hlb. cbn [obind]. by rewrite Hread. }
  assert (rc blocks h = Ok v) as Hv by (unfold rc; rewrite Hlb; exact Hread).
  pose proof (check_addend_spec v addend w Hw Hrc Ha) as Hc. unfold sbind at 1.
  destruct (check_refcount_after_addend v addend w) as [n|e| |]; try done.
  2:{ split; [done|]. rewrite Hv. by intros ? [= <-]. }
  destruct Hc as [-> Hn].
  destruct (set_refcount_spec b i w (v + addend) Hbb Hbf Hw Hin) as (b' & Hset & Hl' & Hb' & _).
  unfold sbind at 1. rewrite Hset. unfold sbind at 1.
  destruct (splice blocks o b') as [blocks'|] eqn:Hspl.
  2:{ apply eq_None_not_Some in Hspl as []. apply splice_is_Some.
      destruct (slice_Some _ _ _ _ Hs) as (? & ? & _). lia. }
  cbn [or_panic sput]. exists v. split; [done|]. split; [done|].
  destruct (rc_splice blocks blocks' h o i b b' (v + addend)) as (? & _ & ?); done.
Qed.

(** How often a list of clusters names the entry of [h]. *)
Definition mult (hs : list Z) (h : Z) : Z :=
  Z.of_nat (length (filter (fun x => same_entry x h = true) hs)).

Lemma mult_cons x hs h : mult (x :: hs) h = (if same_entry x h then 1 else 0) + mult hs h.
Proof.
  unfold mult. rewrite filter_cons. case_decide as Hs.
  - rewrite Hs. cbn [length]. lia.
  - apply not_true_is_false in Hs. rewrite Hs. lia.
Qed.

Lemma mult_nonneg hs h : 0 <= mult hs h.
Proof. unfold mult. lia. Qed.

(** A whole pass that succeeds adds the addend once per reference. *)
Lemma bump_iter_ok addend hs blocks blocks' : blocks_ok blocks -> Z.abs addend <= 1 ->
  sm_iter (bump_cluster cb w rbf addend) hs blocks = (Ok tt, blocks') ->
  blocks_ok blocks' /\
  forall h v, rc blocks h = Ok v -> rc blocks' h = Ok (v + addend * mult hs h).
Proof.
  intros Hb Ha. revert blocks Hb. induction hs as [|x hs IH]; intros blocks Hb Hrun; cbn [sm_iter] in Hrun.
  { injection Hrun as <-. split; [done|]. intros h v ->. f_equal. unfold mult. cbn. lia. }
  unfold sbind in Hrun. pose proof (bump_cluster_spec blocks addend x Hb Ha) as Hx.
  destruct (bump_cluster cb w rbf addend x blocks) as [[[]|e| |] b1]; try done.
  destruct Hx as (u & Hu & _ & Hb1 & Hall). destruct (IH b1 Hb1 Hrun) as [Hb' Hrc].
  split; [done|]. intros h v Hv. specialize (Hall h). rewrite mult_cons.
  destruct (same_entry x h) eqn:Hse.
  - rewrite (Hrc h _ Hall). f_equal. assert (v = u) as ->; [|lia].
    unfold same_entry in Hse. apply bool_decide_eq_true in Hse. unfold rc, locate_block in *.
    rewrite <- Hse in Hv. congruence.
  - rewrite Hv in Hall. rewrite (Hrc h _ Hall), Z.add_0_l. done.
Qed.

(** When no entry is named twice, checks that hold up front hold all along. *)
Lemma bump_iter_succeeds addend hs blocks : blocks_ok blocks -> Z.abs addend <= 1 ->
  (forall h, mult hs h <= 1) ->
  Forall (fun h => exists v, rc blocks h = Ok v /\ 0 <= v + addend < 2 ^ w) hs ->
  exists blocks', sm_iter (bump_cluster cb w rbf addend) hs blocks = (Ok tt, blocks').
Proof.
  intros Hb Ha. revert blocks Hb. induction hs as [|x hs IH]; intros blocks Hb Hnd Hall; cbn [sm_iter].
  { by exists blocks. }
  apply Forall_cons in Hall as [(v & Hv & Hr) Hall].
  pose proof (bump_cluster_spec blocks addend x Hb Ha) as Hx. unfold sbind.
  destruct (bump_cluster cb w rbf addend x blocks) as [[[]|e| |] b1]; try done.
  2:{ destruct Hx as [_ Hx]. by destruct (Hx v Hv). }
  destruct Hx as (u & Hu & _ & Hb1 & Hrc). apply IH; [done| |].
  - intros h. specialize (Hnd h). rewrite mult_cons in Hnd. destruct (same_entry x h); lia.
  - apply Forall_forall. intros h Hh. rewrite Forall_forall in Hall. rewrite Hrc.
    destruct (same_entry x h) eqn:Hse; [|by apply Hall].
    specialize (Hnd h). rewrite mult_cons, Hse in Hnd. exfalso.
    assert (0 < mult hs h); [|lia]. unfold mult.
    assert (h ∈ filter (fun y => same_entry y h = true) hs) as Hin.
    { apply list_elem_of_filter. split; [|done]. by apply bool_decide_eq_true. }
    destruct (filter _ hs); [by apply elem_of_nil in Hin | cbn; lia].
Qed.

(** The dry run accepts exactly the walks whose every reference checks out. *)
Lemma dry_run_iff l1 addend blocks : blocks_ok blocks -> Z.abs addend <= 1 ->
  dry_run_refcount_pass cb w ext l2f rbf l1 addend blocks = Ok tt <->
  exists rs, all_refs l1 cb l2f ext = Some rs /\
    Forall (fun h => exists v, rc blocks h = Ok v /\ 0 <= v + addend < 2 ^ w) (touched rs).
Proof.
  intros Hb Ha. unfold dry_run_refcount_pass, refcount_walk, all_refs.
  destruct (Z.eqb_spec cb 0); [lia|].
  pose proof (walk_l1_iter (fun host => slift (check_cluster cb w rbf blocks addend host))
    (Z.to_nat (blen l1 / 8)) 0 l1 cb l2f (l2_stride ext) tt (l2_stride_pos ext) ltac:(lia)) as Hwalk.
  specialize (Hwalk (table_range l1 8 (or_introl eq_refl))).
  destruct (l1_refs _ _ _ _ _ _) as [rs|]; [|split; [done|intros (? & ? & _); done]].
  rewrite Hwalk. clear Hwalk. transitivity (Forall (fun h => exists v, rc blocks h = Ok v /\
    0 <= v + addend < 2 ^ w) (touched rs)); [|split; [by exists rs|by intros (? & [= <-] & ?)]].
  induction (touched rs) as [|h hs IH]; cbn [sm_iter]; [split; [constructor|done]|].
  rewrite Forall_cons. pose proof (check_cluster_spec blocks addend h Hb Ha) as Hc.
  unfold sbind, slift. destruct (check_cluster cb w rbf blocks addend h) as [[]|e| |]; try done.
  - rewrite IH. tauto.
  - split; [done|]. intros [(v & Hv & Hr) _]. by destruct (Hc v Hv).
Qed.

(** The apply pass over a staged walk. *)
Lemma apply_pass_iter l1 addend blocks rs : all_refs l1 cb l2f ext = Some rs ->
  apply_refcount_pass cb w ext l2f rbf l1 addend blocks =
  sm_iter (bump_cluster cb w rbf addend) (touched rs) blocks.
Proof.
  intros Hrs. unfold apply_refcount_pass, refcount_walk. destruct (Z.eqb_spec cb 0); [lia|].
  pose proof (walk_l1_iter (bump_cluster cb w rbf addend)
    (Z.to_nat (blen l1 / 8)) 0 l1 cb l2f (l2_stride ext) blocks (l2_stride_pos ext) ltac:(lia)) as Hwalk.
  specialize (Hwalk (table_range l1 8 (or_introl eq_refl))). unfold all_refs in Hrs.
  by rewrite Hrs in Hwalk.
Qed.

Lemma apply_pass_ok l1 addend blocks blocks' : blocks_ok blocks -> Z.abs addend <= 1 ->
  apply_refcount_pass cb w ext l2f rbf l1 addend blocks = (Ok tt, blocks') ->
  exists rs, all_refs l1 cb l2f ext = Some rs /\ blocks_ok blocks' /\
    forall h v, rc blocks h = Ok v -> rc blocks' h = Ok (v + addend * mult (touched rs) h).
Proof.
  intros Hb Ha Hrun. destruct (all_refs l1 cb l2f ext) as [rs|] eqn:Hrs.
  - exists rs. split; [done|]. rewrite (apply_pass_iter l1 addend blocks rs Hrs) in Hrun.
    by apply bump_iter_ok.
  - exfalso. revert Hrun. unfold apply_refcount_pass, refcount_walk. destruct (Z.eqb_spec cb 0); [lia|].
    pose proof (walk_l1_iter (bump_cluster cb w rbf addend)
      (Z.to_nat (blen l1 / 8)) 0 l1 cb l2f (l2_stride ext) blocks (l2_stride_pos ext) ltac:(lia)) as Hwalk.
    specialize (Hwalk (table_range l1 8 (or_introl eq_refl))). unfold all_refs in Hrs.
    rewrite Hrs in Hwalk. intros Hrun. by rewrite Hrun in Hwalk.
Qed.

End passes.

(** ** Properties *)

(** The visitor sees every allocated cluster reachable from the L1 table, data
    and compressed, once per L2 entry and in table order, and nothing else, until
    it asks to stop. *)
Theorem visitor_visits_reachable {V} (visit : V -> L1ClusterRef -> V * bool) l1 cb l2f ext v rs :
  0 < cb -> all_refs l1 cb l2f ext = Some rs ->
  for_each_cluster_in_l1 visit l1 cb l2f ext v = Ok (run_visit visit (data_refs rs) v).1.
Proof.
  intros Hcb Hrs. unfold for_each_cluster_in_l1. destruct (Z.eqb_spec cb 0); [lia|].
  apply visit_l1_run; [apply l2_stride_pos|lia|by apply (table_range l1 8); left|done].
Qed.

(** Two L1 entries; the first table maps cluster 0x40000 plainly and 0x50000 with
    the COPIED flag. *)
Definition demo_l1 : bytes := be_bytes 8 (Z.lor 0x20000 OFLAG_COPIED) ++ be_bytes 8 0.
Definition demo_l2 : bytes := be_bytes 8 0x40000 ++ be_bytes 8 0 ++ be_bytes 8 (Z.lor 0x50000 OFLAG_COPIED).
Definition demo_l2f (i : Z) : option bytes := if i =? 0 then Some demo_l2 else None.

Lemma visitor_visits_reachable_witness :
  for_each_cluster_in_l1 (fun acc r => (acc ++ [ref_host_offset r], true)) demo_l1 16 demo_l2f false [] =
    Ok [0x40000; 0x50000].
Proof.
  rewrite (visitor_visits_reachable _ demo_l1 16 demo_l2f false []
    [([mkL1ClusterRef 0 0 0x40000 L2cStandard; mkL1ClusterRef 0 2 0x50000 L2cStandard], 0x20000)]).
  - reflexivity.
  - lia.
  - vm_compute. reflexivity.
Defined.

(** Entry [i] of one refblock of 2^9 bytes holds cluster [i]. *)
Definition demo_rbf (h : Z) : option (Z * Z) :=
  if (0 <=? h) && (h <? 256 * 65536) then Some (0, h / 65536) else None.
Definition demo_rb : bytes := concat (replicate 6 [0; 1]) ++ replicate 500 0.

Lemma demo_mapping : mapping_ok 9 16 demo_rbf.
Proof.
  intros h o i. unfold demo_rbf. destruct (Z.leb_spec 0 h), (Z.ltb_spec h (256 * 65536)); try done.
  cbn [andb]. intros [= <- <-]. pose proof (Z.div_pos h 65536 ltac:(lia) ltac:(lia)).
  assert (h / 65536 < 256) by (apply Z.div_lt_upper_bound; lia). change (2 ^ 9) with 512.
  repeat split; done || lia.
Qed.

Lemma demo_rb_ok : blocks_ok demo_rb.
Proof. split; [apply is_bytesb_true; vm_compute; reflexivity|]. vm_compute. congruence. Qed.

Lemma zero_rb_ok : blocks_ok (replicate 512 0).
Proof. split; [apply is_bytesb_true; vm_compute; reflexivity|]. vm_compute. congruence. Qed.

(** ** References of tables without compressed entries *)

(** The cluster address in an L1 or standard L2 entry: bits 9 to 55. *)
Definition entry_host (e : Z) : Z := 512 * ((e / 512) mod 2 ^ 47).

(** Clusters the entries [i, i + n) of a table name. *)
Fixpoint table_hosts (n : nat) (i : Z) (l2 : bytes) (stride : Z) : list Z :=
  match n with
  | O => []
  | S n' =>
      let h := entry_host (u64_at l2 (i * stride)) in
      (if h =? 0 then [] else [h]) ++ table_hosts n' (i + 1) l2 stride
  end.

(** Clusters the L1 entries [i, i + n) reach: each table's data clusters and the
    table's own; [None] when a table is not staged. *)
Fixpoint l1_hosts (n : nat) (i : Z) (l1 : bytes) (l2_for_index : Z -> option bytes) (stride : Z)
  : option (list Z) :=
  match n with
  | O => Some []
  | S n' =>
      let t := entry_host (u64_at l1 (i * 8)) in
      if t =? 0 then l1_hosts n' (i + 1) l1 l2_for_index stride
      else
        l2 ← l2_for_index i;
        rest ← l1_hosts n' (i + 1) l1 l2_for_index stride;
        Some (table_hosts (Z.to_nat (blen l2 / stride)) 0 l2 stride ++ t :: rest)
  end.

Definition reached (l1 : bytes) (l2_for_index : Z -> option bytes) (stride : Z) : option (list Z) :=
  l1_hosts (Z.to_nat (blen l1 / 8)) 0 l1 l2_for_index stride.

(** The staged tables passed the gate. *)
Definition gated (l2_for_index : Z -> option bytes) (ext : bool) : Prop :=
  forall i l2, l2_for_index i = Some l2 -> compressed_gate l2 ext = Ok tt.

Lemma entry_host_mask e : Z.land e L2_OFFSET_MASK = entry_host e.
Proof.
  unfold entry_host. change L2_OFFSET_MASK with (Z.shiftl (Z.ones 47) 9).
  change 512 with (2 ^ 9). rewrite <- Z.shiftr_div_pow2, <- Z.land_ones, Z.mul_comm, <- Z.shiftl_mul_pow2 by lia.
  apply Z.bits_inj'. intros k Hk. rewrite Z.land_spec. destruct (Z.lt_ge_cases k 9).
  - rewrite !Z.shiftl_spec_low by done. apply andb_false_r.
  - rewrite !Z.shiftl_spec, Z.land_spec, Z.shiftr_spec by lia. by replace (k - 9 + 9) with k by lia.
Qed.

Lemma gate_loop_ok fuel l2 stride j : stride = 8 \/ stride = 16 -> 0 <= j ->
  gate_loop fuel l2 stride j = Ok tt ->
  forall i, 0 <= i -> j + i * stride + 8 <= blen l2 ->
    Z.land (u64_at l2 (j + i * stride)) OFLAG_COMPRESSED = 0.
Proof.
  intros Hst. revert j. induction fuel as [|fuel IH]; intros j Hj; cbn [gate_loop]; [done|].
  destruct (Z.leb_spec (j + 8) (blen l2)).
  2:{ intros _ i Hi Hle. nia. }
  rewrite be_u64_at by lia. cbn [obind]. destruct (nonzero _) eqn:Hz; [done|]. intros Hrun i Hi Hle.
  destruct (Z.eq_dec i 0) as [->|].
  - rewrite Z.mul_0_l, Z.add_0_r. by apply nonzero_false.
  - replace (j + i * stride) with (j + stride + (i - 1) * stride) by lia.
    apply IH; [lia|done|lia|]. nia.
Qed.

Lemma gated_plain l2 ext i : compressed_gate l2 ext = Ok tt -> 0 <= i ->
  i * l2_stride ext + 8 <= blen l2 -> Z.land (u64_at l2 (i * l2_stride ext)) OFLAG_COMPRESSED = 0.
Proof.
  intros Hg Hi Hle. exact (gate_loop_ok _ _ _ 0 (l2_stride_pos ext) ltac:(lia) Hg i Hi Hle).
Qed.

(** On a plain entry the walk's target is the address in the entry. *)
Lemma plain_target cb e : Z.land e OFLAG_COMPRESSED = 0 ->
  l2_entry_target cb e = if entry_host e =? 0 then None else Some (L2cStandard, entry_host e).
Proof.
  intros Hc. unfold l2_entry_target. rewrite Hc, <- entry_host_mask. cbn [nonzero].
  destruct (Z.eqb_spec (Z.land e (not64 OFLAG_COPIED)) 0) as [H0|]; [|done].
  replace (Z.land e L2_OFFSET_MASK) with 0; [done|].
  change L2_OFFSET_MASK with (Z.land (not64 OFLAG_COPIED) L2_OFFSET_MASK). by rewrite Z.land_assoc, H0.
Qed.

Lemma table_refs_hosts n l1_idx i l2 ext cb : compressed_gate l2 ext = Ok tt -> 0 <= i ->
  i + Z.of_nat n <= blen l2 / l2_stride ext ->
  map ref_host_offset (table_refs n l1_idx i l2 (l2_stride ext) cb) =
  table_hosts n i l2 (l2_stride ext).
Proof.
  intros Hg. revert i. induction n as [|n IH]; intros i Hi Hle; [done|]. cbn [table_refs table_hosts].
  pose proof (entry_inside (blen l2) (l2_stride ext) i n (l2_stride_pos ext) (blen_nonneg l2) Hi Hle).
  rewrite plain_target by (by apply gated_plain). rewrite map_app, IH by lia. f_equal.
  by destruct (entry_host _ =? 0).
Qed.

Lemma l1_refs_hosts n i l1 l2f ext cb rs : gated l2f ext -> 0 <= i -> i + Z.of_nat n <= u32_max ->
  l1_refs n i l1 cb l2f (l2_stride ext) = Some rs ->
  l1_hosts n i l1 l2f (l2_stride ext) = Some (touched rs).
Proof.
  intros Hg. revert i rs. induction n as [|n IH]; intros i rs Hi Hu; cbn [l1_refs l1_hosts].
  { by intros [= <-]. }
  change L1_OFFSET_MASK with L2_OFFSET_MASK. rewrite entry_host_mask.
  destruct (entry_host _ =? 0); [apply IH; lia|].
  unfold as_u32. rewrite Z.mod_small by (unfold u32_max in Hu; lia).
  destruct (l2f i) as [l2|] eqn:Hl2; [|done]. cbn.
  destruct (l1_refs n (i + 1) l1 cb l2f (l2_stride ext)) as [rest|] eqn:Hr; [|done]. cbn.
  intros [= <-]. rewrite (IH (i + 1) rest) by (done || lia). cbn. unfold touched. cbn.
  rewrite <- (table_refs_hosts _ i 0 l2 ext cb); [|by apply (Hg i)|done|by apply table_range, l2_stride_pos].
  by rewrite <- app_assoc.
Qed.

Lemma all_refs_reached l1 l2f ext cb rs : gated l2f ext -> blen l1 / 8 <= u32_max ->
  all_refs l1 cb l2f ext = Some rs -> reached l1 l2f (l2_stride ext) = Some (touched rs).
Proof.
  intros Hg Hl Hr. pose proof (Z.div_pos (blen l1) 8 (blen_nonneg l1) ltac:(lia)).
  eapply l1_refs_hosts; [done|done|lia|exact Hr].
Qed.

Lemma width16 : valid_width 16.
Proof. vm_compute. repeat constructor. Qed.

(** The L1 tables an operation walks. *)
Definition op_tables (op : SnapshotRefcountOp) : list bytes :=
  match op with
  | IncrementForCreate l1 | DecrementForDelete l1 => [l1]
  | SwapForApply from to => [from; to]
  end.

(** What a successful update changes, in terms of the references the walk visits. *)
Lemma update_ok_refs cb w ext l2f rbf op blocks blocks' :
  0 < cb < 63 -> valid_width w -> mapping_ok cb w rbf -> blocks_ok blocks ->
  update_snapshot_refcount cb w ext l2f rbf op blocks = (Ok tt, blocks') ->
  match op with
  | IncrementForCreate l1 => exists rs, all_refs l1 cb l2f ext = Some rs /\
      forall h v, rc cb w rbf blocks h = Ok v ->
        rc cb w rbf blocks' h = Ok (v + mult rbf (touched rs) h)
  | DecrementForDelete l1 => exists rs, all_refs l1 cb l2f ext = Some rs /\
      forall h v, rc cb w rbf blocks h = Ok v ->
        rc cb w rbf blocks' h = Ok (v - mult rbf (touched rs) h)
  | SwapForApply from to => exists rf rt, all_refs from cb l2f ext = Some rf /\
      all_refs to cb l2f ext = Some rt /\
      forall h v, rc cb w rbf blocks h = Ok v ->
        rc cb w rbf blocks' h = Ok (v - mult rbf (touched rf) h + mult rbf (touched rt) h)
  end.
Proof.
  intros Hcb Hw Hmap Hb. unfold update_snapshot_refcount. unfold sbind at 1, sget. unfold sbind at 1, slift.
  destruct (match op with IncrementForCreate _ => _ | _ => _ end) as [[]|e| |]; try done.
  destruct op as [l1|l1|from to]; cbn [apply_op]; intros Hrun.
  - destruct (apply_pass_ok cb w ext l2f rbf Hcb Hw Hmap l1 1 blocks blocks' Hb ltac:(lia) Hrun)
      as (rs & Hrs & _ & Hrc). exists rs. split; [done|]. intros h v Hv. rewrite (Hrc h v Hv), Z.mul_1_l. done.
  - destruct (apply_pass_ok cb w ext l2f rbf Hcb Hw Hmap l1 (-1) blocks blocks' Hb ltac:(lia) Hrun)
      as (rs & Hrs & _ & Hrc). exists rs. split; [done|]. intros h v Hv. rewrite (Hrc h v Hv).
    by replace (v + -1 * mult rbf (touched rs) h) with (v - mult rbf (touched rs) h) by lia.
  - unfold sbind in Hrun.
    destruct (apply_refcount_pass cb w ext l2f rbf from (-1) blocks) as [[[]|e| |] b1] eqn:Hr1; try done.
    destruct (apply_pass_ok cb w ext l2f rbf Hcb Hw Hmap from (-1) blocks b1 Hb ltac:(lia) Hr1)
      as (rf & Hrf & Hb1 & Hrc1).
    destruct (apply_pass_ok cb w ext l2f rbf Hcb Hw Hmap to 1 b1 blocks' Hb1 ltac:(lia) Hrun)
      as (rt & Hrt & _ & Hrc2). exists rf, rt. split; [done|]. split; [done|]. intros h v Hv.
    rewrite (Hrc2 h _ (Hrc1 h v Hv)), Z.mul_1_l.
    by replace (v + -1 * mult rbf (touched rf) h) with (v - mult rbf (touched rf) h) by lia.
Qed.

(** C7: on tables that passed the staging gate (no compressed entry), a
    successful [update_snapshot_refcount] changes each staged refcount by exactly
    the number of references to it: plus for create, minus for delete, minus the
    outgoing and plus the incoming table for apply.  A reference is an L2 entry
    whose address bits 9 to 55 name a cluster, or an L1 entry for the table it
    names.  (Compressed entries, which the gate refuses, are outside the
    statement: the walk takes one reference at an address that keeps the
    sector-count bits.) *)
Theorem refcount_update_exact cb w ext l2f rbf op blocks blocks' :
  0 < cb < 63 -> valid_width w -> mapping_ok cb w rbf -> blocks_ok blocks -> gated l2f ext ->
  (forall l1, l1 ∈ op_tables op -> blen l1 / 8 <= u32_max) ->
  update_snapshot_refcount cb w ext l2f rbf op blocks = (Ok tt, blocks') ->
  let st := l2_stride ext in
  match op with
  | IncrementForCreate l1 => exists rs, reached l1 l2f st = Some rs /\
      forall h v, rc cb w rbf blocks h = Ok v -> rc cb w rbf blocks' h = Ok (v + mult rbf rs h)
  | DecrementForDelete l1 => exists rs, reached l1 l2f st = Some rs /\
      forall h v, rc cb w rbf blocks h = Ok v -> rc cb w rbf blocks' h = Ok (v - mult rbf rs h)
  | SwapForApply from to => exists rf rt, reached from l2f st = Some rf /\ reached to l2f st = Some rt /\
      forall h v, rc cb w rbf blocks h = Ok v ->
        rc cb w rbf blocks' h = Ok (v - mult rbf rf h + mult rbf rt h)
  end.
Proof.
  intros Hcb Hw Hmap Hb Hg Hl Hrun. cbv zeta.
  assert (forall l1 rs, l1 ∈ op_tables op -> all_refs l1 cb l2f ext = Some rs ->
    reached l1 l2f (l2_stride ext) = Some (touched rs)) as Hre.
  { intros l1 rs Hin. apply all_refs_reached; [done|by apply Hl]. }
  pose proof (update_ok_refs cb w ext l2f rbf op blocks blocks' Hcb Hw Hmap Hb Hrun) as Hok.
  destruct op as [l1|l1|from to]; cbn [op_tables] in Hre.
  - destruct Hok as (rs & Hrs & Hrc). exists (touched rs). split; [|done]. apply Hre; [constructor|done].
  - destruct Hok as (rs & Hrs & Hrc). exists (touched rs). split; [|done]. apply Hre; [constructor|done].
  - destruct Hok as (rf & rt & Hrf & Hrt & Hrc). exists (touched rf), (touched rt).
    split; [apply Hre; [constructor|done]|]. split; [|done]. apply Hre; [constructor; constructor|done].
Qed.

Definition demo_created : bytes :=
  (update_snapshot_refcount 9 16 false demo_l2f demo_rbf (IncrementForCreate demo_l1) demo_rb).2.

Lemma demo_gated : gated demo_l2f false.
Proof.
  intros i l2. unfold demo_l2f. destruct (i =? 0); [|done]. intros [= <-]. vm_compute. reflexivity.
Qed.

Lemma refcount_update_exact_witness : exists rs, reached demo_l1 demo_l2f 8 = Some rs /\
  forall h v, rc 9 16 demo_rbf demo_rb h = Ok v ->
    rc 9 16 demo_rbf demo_created h = Ok (v + mult demo_rbf rs h).
Proof.
  apply (refcount_update_exact 9 16 false demo_l2f demo_rbf (IncrementForCreate demo_l1) demo_rb demo_created).
  - lia.
  - exact width16.
  - exact demo_mapping.
  - exact demo_rb_ok.
  - exact demo_gated.
  - intros l1 ->%list_elem_of_singleton. vm_compute. congruence.
  - vm_compute. reflexivity.
Defined.

(** The mutator is the pre-check followed by the apply passes. *)
Lemma update_precheck_apply cb w ext l2f rbf op blocks :
  update_snapshot_refcount cb w ext l2f rbf op blocks =
  (do! slift (precheck_snapshot_refcount cb w ext l2f rbf op blocks) in
   apply_op cb w ext l2f rbf op) blocks.
Proof. by destruct op. Qed.

(** A pass the dry run accepted succeeds when no entry is named twice, even after
    other decrements. *)
Lemma apply_after_dry_run cb w ext l2f rbf l1 addend blocks b1 :
  0 < cb < 63 -> valid_width w -> mapping_ok cb w rbf -> blocks_ok blocks -> blocks_ok b1 ->
  Z.abs addend <= 1 ->
  (forall rs, all_refs l1 cb l2f ext = Some rs -> forall h, mult rbf (touched rs) h <= 1) ->
  dry_run_refcount_pass cb w ext l2f rbf l1 addend blocks = Ok tt ->
  (forall h v, rc cb w rbf blocks h = Ok v -> exists v', rc cb w rbf b1 h = Ok v' /\
     (b1 = blocks \/ addend = 1 /\ v' <= v)) ->
  exists blocks', apply_refcount_pass cb w ext l2f rbf l1 addend b1 = (Ok tt, blocks').
Proof.
  intros Hcb Hw Hmap Hb Hb1 Ha Hnd Hdry Hrel.
  apply (dry_run_iff cb w ext l2f rbf Hcb Hw Hmap l1 addend blocks Hb Ha) in Hdry as (rs & Hrs & Hall).
  rewrite (apply_pass_iter cb w ext l2f rbf Hcb l1 addend b1 rs Hrs).
  apply (bump_iter_succeeds cb w rbf Hcb Hw Hmap); [done|done|by apply Hnd|].
  eapply Forall_impl; [exact Hall|]. intros h (v & Hv & Hr). destruct (Hrel h v Hv) as (v' & Hv' & Hc).
  exists v'. split; [done|]. destruct Hc as [->|[-> Hle]].
  - rewrite Hv in Hv'. by injection Hv' as <-.
  - pose proof (rc_cases cb w rbf Hcb Hw Hmap b1 h Hb1) as Hbnd. rewrite Hv' in Hbnd. lia.
Qed.

(** C20: when no walked table names a staged entry twice, the dry run decides: if it
    refuses, the error is returned with the refblocks as they were, and if it
    accepts, the update goes through. *)
Theorem refcount_update_atomic cb w ext l2f rbf op blocks :
  0 < cb < 63 -> valid_width w -> mapping_ok cb w rbf -> blocks_ok blocks ->
  (forall l1 rs, l1 ∈ op_tables op -> all_refs l1 cb l2f ext = Some rs ->
     forall h, mult rbf (touched rs) h <= 1) ->
  match precheck_snapshot_refcount cb w ext l2f rbf op blocks with
  | Ok _ => (update_snapshot_refcount cb w ext l2f rbf op blocks).1 = Ok tt
  | r => update_snapshot_refcount cb w ext l2f rbf op blocks = (r, blocks)
  end.
Proof.
  intros Hcb Hw Hmap Hb Hnd. rewrite update_precheck_apply. unfold sbind, slift.
  assert (forall h v, rc cb w rbf blocks h = Ok v -> exists v', rc cb w rbf blocks h = Ok v' /\
    (blocks = blocks \/ -1 = 1 /\ v' <= v)) as Hsame by (intros h v Hv; exists v; auto).
  destruct (precheck_snapshot_refcount cb w ext l2f rbf op blocks) as [[]|e| |] eqn:Hpre; try done.
  destruct op as [l1|l1|from to]; cbn [apply_op precheck_snapshot_refcount op_tables] in *.
  - destruct (apply_after_dry_run cb w ext l2f rbf l1 1 blocks blocks) as [b' ->]; try done.
    + intros rs. apply Hnd. rewrite !elem_of_cons. tauto.
    + intros h v Hv. exists v. auto.
  - destruct (apply_after_dry_run cb w ext l2f rbf l1 (-1) blocks blocks) as [b' ->]; try done.
    intros rs. apply Hnd. rewrite !elem_of_cons. tauto.
  - destruct (dry_run_refcount_pass cb w ext l2f rbf from (-1) blocks) as [[]| | |] eqn:Hd1; try done.
    cbn [obind] in Hpre.
    destruct (apply_after_dry_run cb w ext l2f rbf from (-1) blocks blocks) as [b1 Hr1]; try done.
    { intros rs. apply Hnd. rewrite !elem_of_cons. tauto. }
    unfold sbind. rewrite Hr1.
    destruct (apply_pass_ok cb w ext l2f rbf Hcb Hw Hmap from (-1) blocks b1 Hb ltac:(lia) Hr1)
      as (rf & _ & Hb1 & Hrc1).
    destruct (apply_after_dry_run cb w ext l2f rbf to 1 blocks b1) as [b' ->]; try done.
    + intros rs. apply Hnd. rewrite !elem_of_cons. tauto.
    + intros h v Hv. eexists. split; [exact (Hrc1 h v Hv)|]. right. split; [done|].
      pose proof (mult_nonneg rbf (touched rf) h). lia.
Qed.

Lemma refcount_update_atomic_witness :
  update_snapshot_refcount 9 16 false demo_l2f demo_rbf (DecrementForDelete demo_l1) (replicate 512 0) =
    (Err ParseFailed, replicate 512 0).
Proof.
  assert (forall l1 rs, l1 ∈ op_tables (DecrementForDelete demo_l1) ->
    all_refs l1 9 demo_l2f false = Some rs -> forall h, mult demo_rbf (touched rs) h <= 1) as Hnd.
  { intros l1 rs Hl1 Hrs h. apply list_elem_of_singleton in Hl1 as ->.
    vm_compute in Hrs. injection Hrs as <-.
    cbn [touched map concat app ref_host_offset fst snd]. rewrite !mult_cons. unfold same_entry.
    change (demo_rbf 0x40000) with (Some (0, 4)). change (demo_rbf 0x50000) with (Some (0, 5)).
    change (demo_rbf 0x20000) with (Some (0, 2)). change (mult demo_rbf [] h) with 0.
    destruct (demo_rbf h) as [[o i]|]; repeat case_bool_decide; simplify_eq; lia. }
  exact (refcount_update_atomic 9 16 false demo_l2f demo_rbf (DecrementForDelete demo_l1) (replicate 512 0)
    ltac:(lia) width16 demo_mapping
    zero_rb_ok Hnd).
Defined.

(** A table with two entries for the same cluster, whose refcount is 1. *)
Definition twice_l2 : bytes := be_bytes 8 0x40000 ++ be_bytes 8 0x40000.
Definition twice_l2f (i : Z) : option bytes := if i =? 0 then Some twice_l2 else None.

(** Without that hypothesis the dry run is no guarantee: with a cluster of
    refcount 1 named by two L2 entries, a delete passes the pre-check, then fails
    half-way with the first decrement already made. *)
Theorem dry_run_misses_double_reference :
  precheck_snapshot_refcount 9 16 false twice_l2f demo_rbf (DecrementForDelete demo_l1) demo_rb = Ok tt /\
  exists blocks', update_snapshot_refcount 9 16 false twice_l2f demo_rbf (DecrementForDelete demo_l1) demo_rb
    = (Err ParseFailed, blocks') /\
  rc 9 16 demo_rbf demo_rb 0x40000 = Ok 1 /\ rc 9 16 demo_rbf blocks' 0x40000 = Ok 0.
Proof.
  split; [vm_compute; reflexivity|]. eexists. split; [vm_compute; reflexivity|].
  split; vm_compute; reflexivity.
Qed.

(** All refcounts at the 16-bit maximum. *)
Definition cap_rb : bytes := concat (replicate 6 [255; 255]) ++ replicate 500 0.

(** An apply whose outgoing and incoming tables share a cluster at the refcount
    cap is refused by the pre-check of the incoming side, with the refblocks
    unchanged, although the two passes in order (down, then up) would succeed. *)
Theorem swap_at_cap_refused :
  update_snapshot_refcount 9 16 false demo_l2f demo_rbf (SwapForApply demo_l1 demo_l1) cap_rb
    = (Err (RefcountOverflow 0x40000), cap_rb) /\
  apply_op 9 16 false demo_l2f demo_rbf (SwapForApply demo_l1 demo_l1) cap_rb = (Ok tt, cap_rb).
Proof. split; vm_compute; reflexivity. Qed.

(** ** COPIED flags *)

Lemma wp_bind_assoc {S E A B C} (m : SM S E A) (k : A -> SM S E B) (K : B -> SM S E C) Q R s :
  wp (sbind m k) (fun b s' => wp (K b) Q R s') R s -> wp (sbind m (fun a => sbind (k a) K)) Q R s.
Proof.
  unfold wp, sbind. destruct (m s) as [[a|e| |] s1]; try done.
  by destruct (k a s1) as [[b|e| |] s2].
Qed.

Section copied.
Context (cb : Z) (rcf : Z -> option Z) (ext : bool).
Abbreviation st := (l2_stride ext).

(** What an L2 entry should become. *)
Definition fixed_entry (e : Z) : option Z :=
  match copied_target cb e with
  | None => Some (with_copied e false)
  | Some h => r ← rcf h; Some (with_copied e (r =? 1))
  end.

(** [l2'] is [l2] with the flag of the entries in [lo, hi) brought in line, and no
    other word changed. *)
Record table_fixed (lo hi : Z) (l2 l2' : bytes) : Prop := {
  tf_bytes : is_bytes l2';
  tf_len : blen l2' = blen l2;
  tf_in : forall j, lo <= j < hi -> fixed_entry (u64_at l2 (j * st)) = Some (u64_at l2' (j * st));
  tf_out : forall o, (forall j, lo <= j < hi -> o + 8 <= j * st \/ j * st + 8 <= o) ->
    u64_at l2' o = u64_at l2 o
}.

Lemma fix_l2_entry_spec s key i l2 : cp_l2 s !! key = Some l2 -> is_bytes l2 -> slice_fits l2 ->
  0 <= i -> i * st + st <= blen l2 -> i <= u32_max ->
  wp (fix_l2_entry cb rcf ext key i)
    (fun _ s' => exists l2', cp_l2 s' = <[key := l2']> (cp_l2 s) /\ cp_l1 s' = cp_l1 s /\
       table_fixed i (i + 1) l2 l2')
    (fun e _ => e = MisalignedAccess) s.
Proof.
  intros Hk Hb Hf Hi Hl Hu. pose proof (l2_stride_pos ext) as Hst.
  pose proof (u64_at_u64 l2 (i * st) Hb) as He64.
  assert (forall set, fixed_entry (u64_at l2 (i * st)) = Some (with_copied (u64_at l2 (i * st)) set) ->
    wp (rewrite_l2 key i set ext)
      (fun _ s' => exists l2', cp_l2 s' = <[key := l2']> (cp_l2 s) /\ cp_l1 s' = cp_l1 s /\
         table_fixed i (i + 1) l2 l2') (fun e _ => e = MisalignedAccess) s) as Hrw.
  { intros set Hfix. unfold rewrite_l2. do 4 wstep. rewrite Hk. cbn [or_panic]. do 2 wstep.
    unfold as_u32. rewrite (Z.mod_small i) by (unfold u32_max in Hu; lia).
    destruct (rewrite_copied_at_spec l2 i st set Hb Hf Hi Hst Hl) as (l2' & Hr & _ & Hb' & Hl' & Hat & Hout).
    unfold rewrite_l2_entry_copied_flag. rewrite Hr. wstep. exists l2'. split; [done|]. split; [done|].
    split; [done|done| |].
    - intros j Hj. replace j with i by lia. by rewrite Hat.
    - intros o Ho. apply Hout. apply Ho. lia. }
  assert (forall set, fixed_entry (u64_at l2 (i * st)) = Some (with_copied (u64_at l2 (i * st)) set) ->
    nonzero (Z.land (u64_at l2 (i * st)) OFLAG_COPIED) = set ->
    exists l2', cp_l2 s = <[key := l2']> (cp_l2 s) /\ cp_l1 s = cp_l1 s /\
      table_fixed i (i + 1) l2 l2') as Hkeep.
  { intros set Hfix Hset. exists l2. split; [by rewrite insert_id|]. split; [done|].
    split; [done|done| |done]. intros j Hj. replace j with i by lia.
    by rewrite Hfix, with_copied_id. }
  unfold fix_l2_entry. do 4 wstep. rewrite Hk. cbn [or_panic]. do 2 wstep.
  rewrite be_u64_at by nia. unfold fixed_entry in *.
  destruct (copied_target cb (u64_at l2 (i * st))) as [h|].
  - do 2 wstep. destruct (rcf h) as [r|]; cbn [ok_or]; [|done]. cbn [mbind option_bind] in *.
    destruct (Bool.eqb (r =? 1) _) eqn:Heq.
    + wstep. apply (Hkeep (r =? 1)); [done|]. apply Bool.eqb_prop in Heq. by rewrite Heq.
    + by apply Hrw.
  - destruct (nonzero (Z.land (u64_at l2 (i * st)) OFLAG_COPIED)) eqn:Hnz.
    + by apply Hrw.
    + wstep. by apply (Hkeep false).
Qed.

Lemma table_fixed_trans lo mid hi l2 l2' l2'' : 0 <= lo <= mid -> mid <= hi ->
  table_fixed lo mid l2 l2' -> table_fixed mid hi l2' l2'' -> table_fixed lo hi l2 l2''.
Proof.
  intros Hlo Hmid [Hb1 Hl1 Hin1 Hout1] [Hb2 Hl2 Hin2 Hout2]. pose proof (l2_stride_pos ext) as Hst.
  split; [done|lia| |].
  - intros j Hj. destruct (Z.lt_ge_cases j mid).
    + rewrite Hin1 by lia. f_equal. symmetry. apply Hout2. intros k Hk. nia.
    + rewrite <- Hin2 by lia. f_equal. symmetry. apply Hout1. intros k Hk. nia.
  - intros o Ho. rewrite Hout2, Hout1; [done|..]; intros j Hj; apply Ho; lia.
Qed.

Lemma fix_l2_table_spec n s key i l2 : cp_l2 s !! key = Some l2 -> is_bytes l2 -> slice_fits l2 ->
  0 <= i -> (i + Z.of_nat n) * st <= blen l2 -> i + Z.of_nat n <= u32_max ->
  wp (fix_l2_table cb rcf ext n key i (blen l2))
    (fun _ s' => exists l2', cp_l2 s' = <[key := l2']> (cp_l2 s) /\ cp_l1 s' = cp_l1 s /\
       table_fixed i (i + Z.of_nat n) l2 l2')
    (fun e _ => e = MisalignedAccess) s.
Proof.
  revert s i l2. pose proof (l2_stride_pos ext) as Hst.
  induction n as [|n IH]; intros s i l2 Hk Hb Hf Hi Hl Hu; cbn [fix_l2_table].
  - wstep. exists l2. split; [by rewrite insert_id|]. split; [done|]. split; [done|done| |done].
    intros j Hj. lia.
  - destruct (Z.ltb_spec (blen l2) (i * st + 8)); [nia|]. wstep.
    eapply wp_mono; [apply (fix_l2_entry_spec s key i l2); try done; nia| |done].
    intros _ s1 (l2' & Hs1 & Hl1 & Ht). destruct (Ht) as [Hb' Hlen _ _]. rewrite <- Hlen.
    eapply wp_mono; [apply (IH s1 (i + 1) l2'); try done|..].
    + by rewrite Hs1, lookup_insert_eq.
    + unfold slice_fits in *. lia.
    + lia.
    + nia.
    + lia.
    + intros _ s2 (l2'' & Hs2 & Hl2 & Ht2). exists l2''. split; [by rewrite Hs2, Hs1, insert_insert_eq|].
      split; [congruence|]. replace (i + Z.of_nat (S n)) with (i + 1 + Z.of_nat n) by lia.
      eapply table_fixed_trans; [| |exact Ht|exact Ht2]; lia.
    + done.
Qed.

(** L1 entry [i] and its table, before and after. *)
Definition l1_entry_fixed (s s' : CopiedSt) (i : Z) : Prop :=
  let e := u64_at (cp_l1 s) (i * 8) in
  let t := Z.land e L1_OFFSET_MASK in
  if t =? 0 then u64_at (cp_l1 s') (i * 8) = e /\ cp_l2 s' !! i = cp_l2 s !! i
  else exists r l2 l2', rcf t = Some r /\ u64_at (cp_l1 s') (i * 8) = with_copied e (r =? 1) /\
    cp_l2 s !! i = Some l2 /\ cp_l2 s' !! i = Some l2' /\ table_fixed 0 (blen l2 / st) l2 l2'.

Definition tables_ok (m : gmap Z bytes) : Prop := forall k l2, m !! k = Some l2 ->
  is_bytes l2 /\ slice_fits l2 /\ blen l2 <= u32_max.

Lemma tables_ok_insert m k lo hi l2 l2' : tables_ok m -> m !! k = Some l2 -> table_fixed lo hi l2 l2' ->
  tables_ok (<[k := l2']> m).
Proof.
  intros Hm Hk Ht j b. destruct (Hm k l2 Hk) as (_ & Hf & Hl). destruct (decide (j = k)) as [->|Hne].
  - rewrite lookup_insert_eq. intros [= <-]. destruct Ht as [Hb Hlen _ _].
    split; [done|]. unfold slice_fits in *. lia.
  - rewrite lookup_insert_ne by done. apply Hm.
Qed.

(** One turn of the outer loop. *)
Lemma fix_l1_turn s i : is_bytes (cp_l1 s) -> slice_fits (cp_l1 s) -> tables_ok (cp_l2 s) ->
  0 <= i <= u32_max -> i * 8 + 8 <= blen (cp_l1 s) ->
  wp (let! raw := slift (be_u64 (cp_l1 s) (i * 8)) in
      let t := Z.land raw L1_OFFSET_MASK in
      if t =? 0 then sret tt
      else
        let! r := slift (ok_or (rcf t) MisalignedAccess) in
        let want := r =? 1 in
        do! (if Bool.eqb want (nonzero (Z.land raw OFLAG_COPIED)) then sret tt
             else rewrite_l1 i want) in
        let! s' := sget in
        let! l2 := slift (ok_or (cp_l2 s' !! as_u32 i) MisalignedAccess) in
        fix_l2_table cb rcf ext (Z.to_nat (blen l2 / st)) (as_u32 i) 0 (blen l2))
    (fun _ s' => is_bytes (cp_l1 s') /\ blen (cp_l1 s') = blen (cp_l1 s) /\ tables_ok (cp_l2 s') /\
       l1_entry_fixed s s' i /\ (forall k, k <> i -> cp_l2 s' !! k = cp_l2 s !! k) /\
       (forall k, k <> i -> u64_at (cp_l1 s') (k * 8) = u64_at (cp_l1 s) (k * 8)))
    (fun e _ => e = MisalignedAccess) s.
Proof.
  intros Hb Hf Ht Hi Hl. pose proof (l2_stride_pos ext) as Hst. do 2 wstep.
  rewrite be_u64_at by lia. unfold l1_entry_fixed. cbv zeta.
  destruct (Z.land (u64_at (cp_l1 s) (i * 8)) L1_OFFSET_MASK =? 0); [by wstep|].
  do 2 wstep. destruct (rcf _) as [r|]; cbn [ok_or]; [|done].
  assert (as_u32 i = i) as Hu by (apply Z.mod_small; unfold u32_max in Hi; lia).
  rewrite Hu.
  assert (forall s1, cp_l2 s1 = cp_l2 s -> is_bytes (cp_l1 s1) -> blen (cp_l1 s1) = blen (cp_l1 s) ->
    u64_at (cp_l1 s1) (i * 8) = with_copied (u64_at (cp_l1 s) (i * 8)) (r =? 1) ->
    (forall k, k <> i -> u64_at (cp_l1 s1) (k * 8) = u64_at (cp_l1 s) (k * 8)) ->
    wp (let! s' := sget in
        let! l2 := slift (ok_or (cp_l2 s' !! i) MisalignedAccess) in
        fix_l2_table cb rcf ext (Z.to_nat (blen l2 / st)) i 0 (blen l2))
      (fun _ s' => is_bytes (cp_l1 s') /\ blen (cp_l1 s') = blen (cp_l1 s) /\ tables_ok (cp_l2 s') /\
       (exists r' l2 l2', Some r = Some r' /\
          u64_at (cp_l1 s') (i * 8) = with_copied (u64_at (cp_l1 s) (i * 8)) (r' =? 1) /\
          cp_l2 s !! i = Some l2 /\ cp_l2 s' !! i = Some l2' /\ table_fixed 0 (blen l2 / st) l2 l2') /\
       (forall k, k <> i -> cp_l2 s' !! k = cp_l2 s !! k) /\
       (forall k, k <> i -> u64_at (cp_l1 s') (k * 8) = u64_at (cp_l1 s) (k * 8)))
      (fun e _ => e = MisalignedAccess) s1) as Htable.
  { intros s1 Hs1 Hb1 Hl1 Hat Hout. do 4 wstep. rewrite Hs1.
    destruct (cp_l2 s !! i) as [l2|] eqn:Hk; cbn [ok_or]; [|done].
    destruct (Ht i l2 Hk) as (Hb2 & Hf2 & Hl2).
    pose proof (Z.div_pos (blen l2) st (blen_nonneg l2) ltac:(lia)) as Hn0.
    pose proof (Z.mul_div_le (blen l2) st ltac:(lia)) as Hn1.
    eapply wp_mono; [apply (fix_l2_table_spec _ s1 i 0 l2)| |done]; try done.
    - by rewrite Hs1.
    - lia.
    - nia.
    - intros _ s2 (l2' & Hs2 & Hl1' & Htf). rewrite Z.add_0_l, Z2Nat.id in Htf by done.
      rewrite Hl1', Hs2, Hs1. repeat (split; [done|]). split; [by eapply tables_ok_insert|].
      split; [|split; [|done]].
      + exists r, l2, l2'. by rewrite lookup_insert_eq.
      + intros k Hne. by rewrite lookup_insert_ne by done. }
  wstep. destruct (Bool.eqb (r =? 1) _) eqn:Heq.
  - wstep. apply Bool.eqb_prop in Heq. apply Htable; try done.
    symmetry. apply with_copied_id; [by apply u64_at_u64|done].
  - unfold rewrite_l1. do 4 wstep. rewrite Hu.
    destruct (rewrite_copied_at_spec (cp_l1 s) i 8 (r =? 1)) as (l1' & Hr & _ & Hb' & Hl' & Hat & Hout);
      [done|done|lia|by left|lia|].
    unfold rewrite_l1_entry_copied_flag. rewrite Hr. wstep. apply Htable; try done.
    intros k Hne. apply Hout. lia.
Qed.

Lemma fix_l1_table_spec n s i : is_bytes (cp_l1 s) -> slice_fits (cp_l1 s) -> tables_ok (cp_l2 s) ->
  0 <= i -> i + Z.of_nat n <= u32_max -> (i + Z.of_nat n) * 8 <= blen (cp_l1 s) ->
  wp (fix_l1_table cb rcf ext n i)
    (fun _ s' => blen (cp_l1 s') = blen (cp_l1 s) /\
       (forall k, i <= k < i + Z.of_nat n -> l1_entry_fixed s s' k) /\
       (forall k, ~ i <= k < i + Z.of_nat n -> cp_l2 s' !! k = cp_l2 s !! k) /\
       (forall k, ~ i <= k < i + Z.of_nat n -> u64_at (cp_l1 s') (k * 8) = u64_at (cp_l1 s) (k * 8)))
    (fun e _ => e = MisalignedAccess) s.
Proof.
  revert s i. induction n as [|n IH]; intros s i Hb Hf Ht Hi Hu Hl; cbn [fix_l1_table].
  { wstep. split; [done|]. split; [intros; lia|]. done. }
  do 2 wstep. apply (wp_bind_assoc _ _ (fun _ => fix_l1_table cb rcf ext n (i + 1))).
  eapply wp_mono; [apply (fix_l1_turn s i); done || lia| |done].
  intros _ s1 (Hb1 & Hl1 & Ht1 & Hfix & Hk & Ho).
  eapply wp_mono; [apply (IH s1 (i + 1)); try done; [unfold slice_fits in *; lia|lia|lia|lia]| |done].
  intros _ s2 (Hl2 & Hfix2 & Hk2 & Ho2). split; [lia|]. split; [|split].
  - intros k Hkr. destruct (Z.eq_dec k i) as [->|Hne].
    + unfold l1_entry_fixed in *. rewrite Hk2, Ho2 by lia. done.
    + specialize (Hfix2 k ltac:(lia)). unfold l1_entry_fixed in *. rewrite Hk, Ho in Hfix2 by done. done.
  - intros k Hkr. rewrite Hk2, Hk by lia. done.
  - intros k Hkr. rewrite Ho2, Ho by lia. done.
Qed.

End copied.

Lemma update_copied_spec cb rcf ext s :
  0 < cb -> is_bytes (cp_l1 s) -> slice_fits (cp_l1 s) -> blen (cp_l1 s) / 8 <= u32_max ->
  tables_ok (cp_l2 s) ->
  wp (update_copied_flags_for_l1 cb rcf ext)
    (fun _ s' => blen (cp_l1 s') = blen (cp_l1 s) /\
      (forall i, 0 <= i < blen (cp_l1 s) / 8 -> l1_entry_fixed cb rcf ext s s' i) /\
      (forall k, ~ 0 <= k < blen (cp_l1 s) / 8 -> cp_l2 s' !! k = cp_l2 s !! k))
    (fun e _ => e = MisalignedAccess) s.
Proof.
  intros Hcb Hb Hf Hl Ht. pose proof (Z.div_pos (blen (cp_l1 s)) 8 (blen_nonneg _) ltac:(lia)) as Hn0.
  pose proof (Z.mul_div_le (blen (cp_l1 s)) 8 ltac:(lia)) as Hn1.
  unfold update_copied_flags_for_l1. destruct (Z.eqb_spec cb 0); [lia|]. do 5 wstep.
  set (s0 := mkCopiedSt _ _ 0).
  eapply wp_mono; [apply (fix_l1_table_spec cb rcf ext (Z.to_nat (blen (cp_l1 s) / 8)) s0 0);
    cbn [cp_l1 cp_l2 s0]; done || lia| |done].
  intros _ s1 (Hlen & Hfix & Hk & _). rewrite Z.add_0_l, Z2Nat.id in * by done. do 3 wstep.
  split; [done|]. split; [|done]. intros i Hi. exact (Hfix i Hi).
Qed.

(** Entry [e] with bit 63 set to [b], the other bits as they are. *)
Definition flagged (e : Z) (b : bool) : Z := e mod 2 ^ 63 + (if b then 2 ^ 63 else 0).

Lemma with_copied_flagged e b : is_u64 e -> with_copied e b = flagged e b.
Proof.
  intros [H0 H1]. unfold with_copied, flagged. rewrite <- (Z.land_ones e 63) by lia.
  assert (Z.land e (not64 OFLAG_COPIED) = Z.land e (Z.ones 63)) as Hc.
  { change (not64 OFLAG_COPIED) with (Z.ones 63). done. }
  destruct b; [|by rewrite Hc, Z.add_0_r]. rewrite Z.add_nocarry_lxor.
  - apply Z.bits_inj'. intros k Hk. change OFLAG_COPIED with (2 ^ 63).
    rewrite Z.lor_spec, Z.lxor_spec, Z.land_spec, Z.pow2_bits_eqb by lia.
    destruct (Z.lt_ge_cases k 63).
    + rewrite Z.ones_spec_low by lia. destruct (Z.eqb_spec 63 k); [lia|]. by destruct (Z.testbit e k).
    + rewrite Z.ones_spec_high by lia. rewrite andb_false_r. destruct (Z.eqb_spec 63 k) as [<-|].
      { by rewrite orb_true_r. }
      replace (Z.testbit e k) with false; [done|]. symmetry.
      rewrite <- (Z.mod_small e (2 ^ 64)) by (unfold u64_max in H1; lia).
      apply Z.mod_pow2_bits_high. lia.
  - apply Z.bits_inj'. intros k Hk. rewrite !Z.land_spec, Z.pow2_bits_eqb, Z.bits_0 by lia.
    destruct (Z.lt_ge_cases k 63); [destruct (Z.eqb_spec 63 k); [lia|apply andb_false_r]|].
    rewrite Z.ones_spec_high by lia. by rewrite andb_false_r.
Qed.

(** [l2'] is the table [l2] with the flag of every entry brought in line with the
    refcount of the cluster it names, and no other word changed. *)
Definition table_flagged (rcf : Z -> option Z) (st : Z) (l2 l2' : bytes) : Prop :=
  blen l2' = blen l2 /\
  (forall j, 0 <= j < blen l2 / st ->
     let e := u64_at l2 (j * st) in
     if entry_host e =? 0 then u64_at l2' (j * st) = flagged e false
     else exists r, rcf (entry_host e) = Some r /\ u64_at l2' (j * st) = flagged e (r =? 1)) /\
  forall o, (forall j, 0 <= j < blen l2 / st -> o + 8 <= j * st \/ j * st + 8 <= o) ->
    u64_at l2' o = u64_at l2 o.

Definition l1_entry_flagged (rcf : Z -> option Z) (st : Z) (s s' : CopiedSt) (i : Z) : Prop :=
  let e := u64_at (cp_l1 s) (i * 8) in
  if entry_host e =? 0 then u64_at (cp_l1 s') (i * 8) = e /\ cp_l2 s' !! i = cp_l2 s !! i
  else exists r l2 l2', rcf (entry_host e) = Some r /\
    u64_at (cp_l1 s') (i * 8) = flagged e (r =? 1) /\
    cp_l2 s !! i = Some l2 /\ cp_l2 s' !! i = Some l2' /\ table_flagged rcf st l2 l2'.

Lemma table_fixed_flagged cb rcf ext l2 l2' : is_bytes l2 -> compressed_gate l2 ext = Ok tt ->
  table_fixed cb rcf ext 0 (blen l2 / l2_stride ext) l2 l2' ->
  table_flagged rcf (l2_stride ext) l2 l2'.
Proof.
  intros Hb Hg [_ Hlen Hin Hout]. pose proof (l2_stride_pos ext) as Hst. split; [done|]. split; [|done].
  intros j Hj. pose proof (u64_at_u64 l2 (j * l2_stride ext) Hb) as He. specialize (Hin j Hj).
  pose proof (Z.mul_div_le (blen l2) (l2_stride ext) ltac:(lia)) as Hle.
  assert (Z.land (u64_at l2 (j * l2_stride ext)) OFLAG_COMPRESSED = 0) as Hc.
  { apply gated_plain; [done|lia|]. nia. }
  unfold fixed_entry, copied_target in Hin. rewrite Hc, entry_host_mask in Hin. cbn [nonzero] in Hin.
  cbv zeta. destruct (entry_host _ =? 0).
  - injection Hin as Hin. rewrite <- Hin. by apply (with_copied_flagged _ false).
  - change (match rcf (entry_host (u64_at l2 (j * l2_stride ext))) with
      | Some r => Some (with_copied (u64_at l2 (j * l2_stride ext)) (r =? 1)) | None => None end =
      Some (u64_at l2' (j * l2_stride ext))) in Hin.
    destruct (rcf (entry_host _)) as [r|]; [|done].
    injection Hin as Hin. exists r. split; [done|]. rewrite <- Hin. by apply with_copied_flagged.
Qed.

(** C21: on tables that passed the staging gate (no compressed entry), a successful
    COPIED recomputation leaves every L1 entry that names a table with bit 63 set
    exactly when the table's refcount is 1, every L2 entry that names a cluster
    with bit 63 set exactly when that cluster's refcount is 1, clears it in L2
    entries that name no cluster, and changes no other bit and no other table; it
    fails only on metadata that was not staged.  (On a compressed entry, which
    the gate refuses, the flag would be set too: [compressed_entry_flagged].) *)
Theorem copied_flags_recomputed cb rcf ext s :
  0 < cb -> is_bytes (cp_l1 s) -> slice_fits (cp_l1 s) -> blen (cp_l1 s) / 8 <= u32_max ->
  tables_ok (cp_l2 s) -> (forall k l2, cp_l2 s !! k = Some l2 -> compressed_gate l2 ext = Ok tt) ->
  match update_copied_flags_for_l1 cb rcf ext s with
  | (Ok _, s') => blen (cp_l1 s') = blen (cp_l1 s) /\
      (forall i, 0 <= i < blen (cp_l1 s) / 8 -> l1_entry_flagged rcf (l2_stride ext) s s' i) /\
      (forall k, ~ 0 <= k < blen (cp_l1 s) / 8 -> cp_l2 s' !! k = cp_l2 s !! k)
  | (Err e, _) => e = MisalignedAccess
  | _ => False
  end.
Proof.
  intros Hcb Hb Hf Hl Ht Hg. pose proof (update_copied_spec cb rcf ext s Hcb Hb Hf Hl Ht) as Hwp. unfold wp in Hwp.
  destruct (update_copied_flags_for_l1 cb rcf ext s) as [[| | |] s']; try done.
  destruct Hwp as (Hlen & Hfix & Hout). split; [done|]. split; [|done]. intros i Hi.
  specialize (Hfix i Hi). unfold l1_entry_fixed in Hfix. unfold l1_entry_flagged. cbv zeta in *.
  change L1_OFFSET_MASK with L2_OFFSET_MASK in Hfix. rewrite entry_host_mask in Hfix.
  destruct (entry_host _ =? 0); [done|]. destruct Hfix as (r & l2 & l2' & Hr & He & Hl2 & Hl2' & Htf).
  exists r, l2, l2'. split; [done|].
  split; [by rewrite He, with_copied_flagged by (by apply u64_at_u64)|]. do 2 (split; [done|]).
  apply (table_fixed_flagged cb); [apply (Ht i l2 Hl2)|by apply (Hg i)|done].
Qed.

Definition demo_copied : CopiedSt := mkCopiedSt demo_l1 {[0 := demo_l2]} 0.
(** The table and cluster 0x40000 are owned, 0x50000 is shared. *)
Definition demo_rcf (h : Z) : option Z := Some (if h =? 0x50000 then 2 else 1).

Lemma copied_flags_recomputed_witness :
  let r := update_copied_flags_for_l1 16 demo_rcf false demo_copied in
  r.1 = Ok 2 /\ u64_at (from_option id [] (cp_l2 r.2 !! 0)) 0 = Z.lor 0x40000 OFLAG_COPIED /\
  u64_at (from_option id [] (cp_l2 r.2 !! 0)) 16 = 0x50000 /\
  match r with
  | (Ok _, s') => blen (cp_l1 s') = blen (cp_l1 demo_copied) /\
      (forall i, 0 <= i < blen (cp_l1 demo_copied) / 8 ->
         l1_entry_flagged demo_rcf 8 demo_copied s' i) /\
      (forall k, ~ 0 <= k < blen (cp_l1 demo_copied) / 8 -> cp_l2 s' !! k = cp_l2 demo_copied !! k)
  | (Err e, _) => e = MisalignedAccess
  | _ => False
  end.
Proof.
  split; [vm_compute; reflexivity|]. split; [vm_compute; reflexivity|].
  split; [vm_compute; reflexivity|]. apply (copied_flags_recomputed 16 demo_rcf false demo_copied).
  - lia.
  - apply is_bytesb_true. vm_compute. reflexivity.
  - vm_compute. congruence.
  - vm_compute. congruence.
  - intros k l2. unfold demo_copied. cbn [cp_l2]. intros [<- <-]%lookup_singleton_Some.
    split; [apply is_bytesb_true; vm_compute; reflexivity|]. split; vm_compute; congruence.
  - intros k l2. unfold demo_copied. cbn [cp_l2]. intros [<- <-]%lookup_singleton_Some.
    vm_compute. reflexivity.
Defined.

(** A table with one compressed entry, one sector at 0x40000. *)
Definition compressed_l2 : bytes := be_bytes 8 (Z.lor 0x40000 OFLAG_COMPRESSED) ++ replicate 504 0.

(** The staging gate refuses a table with a compressed entry; the walk itself
    would set COPIED on it when the refcount it looks up is 1. *)
Theorem compressed_entry_flagged :
  compressed_gate compressed_l2 false = Err ERROR_UNSUPPORTED_FEATURE /\
  let r := update_copied_flags_for_l1 16 demo_rcf false (mkCopiedSt demo_l1 {[0 := compressed_l2]} 0) in
  u64_at (from_option id [] (cp_l2 r.2 !! 0)) 0 = flagged (Z.lor 0x40000 OFLAG_COMPRESSED) true.
Proof. split; vm_compute; reflexivity. Qed.
