(* ===== verification/Exec.v ===== *)
(** The step executor ([src/src/crates/qcow2-write-exec/src/lib.rs]): region
    resolution, the byte-range layer over sector-addressed devices with its
    sub-sector read-modify-write, and the literal interpreter of step programs.

    The [DeviceIo] trait is a class and [CallTableIo] its production instance.
    What the executor may rely on from a device, the abstract machine the
    interpreter implements and the theorems are in the two files after this
    one. *)

From stdpp Require Import base numbers list sets.
From Stdlib Require Import ZArith Lia.
From S2P Require Import Prelude Bytes Refcount Qcow2 WriteTypes.

(** ** Errors *)

Inductive ExecCause : Type :=
| ReadFailed | WriteFailed | FsyncFailed | RegionBounds | UnknownSlot | ExGeometry | Overflow
| StepContract.

Definition ExecCause_code (c : ExecCause) : Z :=
  match c with
  | ReadFailed => 1
  | WriteFailed => 2
  | FsyncFailed => 3
  | RegionBounds => 4
  | UnknownSlot => 5
  | ExGeometry => 6
  | Overflow => 7
  | StepContract => 8
  end.

Record ExecError : Type := mkExecError { step_index : Z; cause : ExecCause }.

Record ExecStats : Type := mkExecStats { steps_executed : Z; fsyncs : Z }.

(** ** Devices *)

(** The [DeviceIo] trait.  A read takes the caller's buffer and returns what it
    holds afterwards, also when it fails. *)
Class DeviceIo (D : Type) : Type := {
  sector_size : D -> TargetDevice -> Z;
  read_sector : TargetDevice -> Z -> bytes -> D -> bool * bytes * D;
  write_sector : TargetDevice -> Z -> bytes -> D -> bool * D;
  fsync : TargetDevice -> D -> option bool * D
}.

(** The entry points of the core call table that [CallTableIo] uses, on a host
    state [H]. *)
Record CallTable (H : Type) : Type := mkCallTable {
  read_input_sector : Z -> Z -> bytes -> H -> bool * bytes * H;
  write_input_sector : Z -> Z -> bytes -> H -> bool * H;
  read_output_sector : Z -> bytes -> H -> bool * bytes * H;
  write_output_sector : Z -> bytes -> H -> bool * H;
  fsync_input : Z -> H -> bool * H;
  get_input_sector_size : Z -> Z;
  get_output_sector_size : Z
}.
Arguments read_input_sector {H}.
Arguments write_input_sector {H}.
Arguments read_output_sector {H}.
Arguments write_output_sector {H}.
Arguments fsync_input {H}.
Arguments get_input_sector_size {H}.
Arguments get_output_sector_size {H}.

Record CallTableIo (H : Type) : Type := mkCallTableIo {
  ct_table : CallTable H;
  ct_host : H;
  input_sector_size : Z;
  output_sector_size : Z;
  input_fsync : bool
}.
Arguments mkCallTableIo {H}.
Arguments ct_table {H}.
Arguments ct_host {H}.
Arguments input_sector_size {H}.
Arguments output_sector_size {H}.
Arguments input_fsync {H}.

Definition CallTableIo_new {H} (t : CallTable H) (h : H) (input_fsync : bool) : CallTableIo H :=
  mkCallTableIo t h (get_input_sector_size t 0) (get_output_sector_size t) input_fsync.

Definition ct_sector_size {H} (d : CallTableIo H) (dev : TargetDevice) : Z :=
  match dev with Input0 => input_sector_size d | Output => output_sector_size d end.

Definition ct_set_host {H} (d : CallTableIo H) (h : H) : CallTableIo H :=
  mkCallTableIo (ct_table d) h (input_sector_size d) (output_sector_size d) (input_fsync d).

Definition ct_read_sector {H} (dev : TargetDevice) (sector : Z) (buf : bytes) (d : CallTableIo H)
  : bool * bytes * CallTableIo H :=
  if negb (blen buf =? ct_sector_size d dev) then (false, buf, d)
  else
    let '(ok, buf', h) :=
      match dev with
      | Input0 => read_input_sector (ct_table d) 0 sector buf (ct_host d)
      | Output => read_output_sector (ct_table d) sector buf (ct_host d)
      end in
    (ok, buf', ct_set_host d h).

Definition ct_write_sector {H} (dev : TargetDevice) (sector : Z) (buf : bytes) (d : CallTableIo H)
  : bool * CallTableIo H :=
  if negb (blen buf =? ct_sector_size d dev) then (false, d)
  else
    let '(ok, h) :=
      match dev with
      | Input0 => write_input_sector (ct_table d) 0 sector buf (ct_host d)
      | Output => write_output_sector (ct_table d) sector buf (ct_host d)
      end in
    (ok, ct_set_host d h).

Definition ct_fsync {H} (dev : TargetDevice) (d : CallTableIo H) : option bool * CallTableIo H :=
  match dev with
  | Input0 =>
      if input_fsync d then
        let '(ok, h) := fsync_input (ct_table d) 0 (ct_host d) in (Some ok, ct_set_host d h)
      else (None, d)
  | Output => (None, d)
  end.

#[global] Instance CallTableIo_device H : DeviceIo (CallTableIo H) := {
  sector_size := ct_sector_size;
  read_sector := ct_read_sector;
  write_sector := ct_write_sector;
  fsync := ct_fsync
}.

(** ** Regions *)

Record Regions : Type := mkRegions {
  rg_l1 : bytes;
  rg_l2_window : bytes;
  rg_refcount_table : bytes;
  rg_refblocks : bytes;
  rg_bounce : bytes;
  rg_caller_data : bytes;
  rg_rmw_sector : bytes;
  rg_fill_sector : bytes;
  rg_cluster_size : Z
}.

(** The buffer behind a region id (all L2 slots share one window). *)
Definition region_buf (r : Regions) (id : RegionId) : bytes :=
  match id with
  | RL1 => rg_l1 r
  | RL2Slot _ => rg_l2_window r
  | RRefcountTable => rg_refcount_table r
  | RRefblocks => rg_refblocks r
  | RBounce => rg_bounce r
  | RCallerData => rg_caller_data r
  end.

Definition set_region_buf (id : RegionId) (b : bytes) (r : Regions) : Regions :=
  let '(mkRegions l1 l2 rt rb bo cd rmw fs cs) := r in
  match id with
  | RL1 => mkRegions b l2 rt rb bo cd rmw fs cs
  | RL2Slot _ => mkRegions l1 b rt rb bo cd rmw fs cs
  | RRefcountTable => mkRegions l1 l2 b rb bo cd rmw fs cs
  | RRefblocks => mkRegions l1 l2 rt b bo cd rmw fs cs
  | RBounce => mkRegions l1 l2 rt rb b cd rmw fs cs
  | RCallerData => mkRegions l1 l2 rt rb bo b rmw fs cs
  end.

Definition set_rmw (b : bytes) (r : Regions) : Regions :=
  let '(mkRegions l1 l2 rt rb bo cd _ fs cs) := r in mkRegions l1 l2 rt rb bo cd b fs cs.
Definition set_fill (b : bytes) (r : Regions) : Regions :=
  let '(mkRegions l1 l2 rt rb bo cd rmw _ cs) := r in mkRegions l1 l2 rt rb bo cd rmw b cs.

(** [Regions::resolve]: the byte range of the named window inside its buffer. *)
Definition resolve (r : Regions) (id : RegionId) (region_offset len : Z)
  : outcome ExecCause (Z * Z) :=
  let cs := rg_cluster_size r in
  let? (base, window) :=
    (match id with
     | RL2Slot slot =>
         if (cs =? 0) || negb (is_multiple_of (blen (rg_l2_window r)) cs) then Err ExGeometry
         else
           let? n := udiv (blen (rg_l2_window r)) cs in
           if n <=? slot then Err UnknownSlot else Ok (wmul slot cs, cs)
     | _ => Ok (0, blen (region_buf r id))
     end) in
  let? e := ok_or (checked_add region_offset len) Overflow in
  if window <? e then Err RegionBounds
  else Ok (wadd base region_offset, wadd base e).

(** ** Byte-range layer *)

Section byte_range.
Context {D : Type} `{DeviceIo D}.

(** Memory of a read: the devices, the destination and the bounce sector. *)
Record RdSt : Type := mkRdSt { rd_dev : D; rd_dst : bytes; rd_rmw : bytes }.

(** One turn of the loop: a whole aligned sector goes straight to [dst], a part
    of a sector through the bounce sector. *)
Definition read_turn (dev : TargetDevice) (ssz done cur take : Z) : SM RdSt ExecCause unit :=
  let! s := sget in
  let sector := cur / ssz in
  let in_off := cur mod ssz in
  if (in_off =? 0) && (take =? ssz) then
    let! sub := slift (or_panic (slice (rd_dst s) done (wadd done ssz))) in
    let '(ok, sub', d') := read_sector dev sector sub (rd_dev s) in
    let! dst' := slift (or_panic (splice (rd_dst s) done sub')) in
    do! sput (mkRdSt d' dst' (rd_rmw s)) in
    if ok then sret tt else sfail ReadFailed
  else
    let! bounce := slift (or_panic (slice (rd_rmw s) 0 ssz)) in
    let '(ok, bounce', d') := read_sector dev sector bounce (rd_dev s) in
    let! rmw' := slift (or_panic (splice (rd_rmw s) 0 bounce')) in
    do! sput (mkRdSt d' (rd_dst s) rmw') in
    if ok then
      let! seg := slift (or_panic (slice bounce' in_off (in_off + take))) in
      let! dst' := slift (or_panic (splice (rd_dst s) done seg)) in
      sput (mkRdSt d' dst' rmw')
    else sfail ReadFailed.

Fixpoint read_loop (fuel : nat) (dev : TargetDevice) (ssz done cur : Z)
  : SM RdSt ExecCause unit :=
  match fuel with
  | O => slift OutOfFuel
  | S fuel' =>
      let! s := sget in
      if done <? blen (rd_dst s) then
        let take := Z.min (ssz - cur mod ssz) (blen (rd_dst s) - done) in
        do! read_turn dev ssz done cur take in
        let! cur' := slift (ok_or (checked_add cur take) Overflow) in
        read_loop fuel' dev ssz (wadd done take) cur'
      else sret tt
  end.

(** Every turn moves at least one byte. *)
Definition read_bytes (dev : TargetDevice) (disk_offset : Z) : SM RdSt ExecCause unit :=
  let! s := sget in
  if blen (rd_dst s) =? 0 then sret tt
  else
    let ssz := sector_size (rd_dev s) dev in
    if (ssz =? 0) || (blen (rd_rmw s) <? ssz) then sfail ExGeometry
    else read_loop (S (Z.to_nat (blen (rd_dst s)))) dev ssz 0 disk_offset.

(** Memory of a write: the devices and the bounce sector. *)
Record WrSt : Type := mkWrSt { wr_dev : D; wr_rmw : bytes }.

(** One turn of the loop: a whole aligned sector straight from [src], a part of
    a sector by read-modify-write of the covering sector. *)
Definition write_turn (dev : TargetDevice) (ssz : Z) (src : bytes) (done cur take : Z)
  : SM WrSt ExecCause unit :=
  let! s := sget in
  let sector := cur / ssz in
  let in_off := cur mod ssz in
  if (in_off =? 0) && (take =? ssz) then
    let! sub := slift (or_panic (slice src done (wadd done ssz))) in
    let '(ok, d') := write_sector dev sector sub (wr_dev s) in
    do! sput (mkWrSt d' (wr_rmw s)) in
    if ok then sret tt else sfail WriteFailed
  else
    let! bounce := slift (or_panic (slice (wr_rmw s) 0 ssz)) in
    let '(ok, bounce', d') := read_sector dev sector bounce (wr_dev s) in
    let! rmw' := slift (or_panic (splice (wr_rmw s) 0 bounce')) in
    do! sput (mkWrSt d' rmw') in
    if ok then
      let! seg := slift (or_panic (slice src done (wadd done take))) in
      let! bounce2 := slift (or_panic (splice bounce' in_off seg)) in
      let! rmw2 := slift (or_panic (splice rmw' 0 bounce2)) in
      let '(ok2, d2) := write_sector dev sector bounce2 d' in
      do! sput (mkWrSt d2 rmw2) in
      if ok2 then sret tt else sfail WriteFailed
    else sfail ReadFailed.

Fixpoint write_loop (fuel : nat) (dev : TargetDevice) (ssz : Z) (src : bytes) (done cur : Z)
  : SM WrSt ExecCause unit :=
  match fuel with
  | O => slift OutOfFuel
  | S fuel' =>
      if done <? blen src then
        let take := Z.min (ssz - cur mod ssz) (blen src - done) in
        do! write_turn dev ssz src done cur take in
        let! cur' := slift (ok_or (checked_add cur take) Overflow) in
        write_loop fuel' dev ssz src (wadd done take) cur'
      else sret tt
  end.

Definition write_bytes (dev : TargetDevice) (disk_offset : Z) (src : bytes)
  : SM WrSt ExecCause unit :=
  if blen src =? 0 then sret tt
  else
    let! s := sget in
    let ssz := sector_size (wr_dev s) dev in
    if (ssz =? 0) || (blen (wr_rmw s) <? ssz) then sfail ExGeometry
    else write_loop (S (Z.to_nat (blen src))) dev ssz src 0 disk_offset.

Fixpoint fill_loop (fuel : nat) (dev : TargetDevice) (disk_offset len ssz : Z) (fill : bytes)
    (done : Z) : SM WrSt ExecCause unit :=
  match fuel with
  | O => slift OutOfFuel
  | S fuel' =>
      if done <? len then
        let chunk := Z.min (len - done) ssz in
        let! off := slift (ok_or (checked_add disk_offset done) Overflow) in
        let! src := slift (or_panic (slice fill 0 chunk)) in
        do! write_bytes dev off src in
        fill_loop fuel' dev disk_offset len ssz fill (wadd done chunk)
      else sret tt
  end.

(** Memory of a fill: the memory of its writes and the fill sector. *)
Record FlSt : Type := mkFlSt { fl_wr : WrSt; fl_fill : bytes }.

Definition on_wr {A} (m : SM WrSt ExecCause A) : SM FlSt ExecCause A :=
  fun s => let '(r, w) := m (fl_wr s) in (r, mkFlSt w (fl_fill s)).

(** One turn of the loop per sector. *)
Definition fill_bytes (dev : TargetDevice) (disk_offset len byte : Z)
  : SM FlSt ExecCause unit :=
  if len =? 0 then sret tt
  else
    let! s := sget in
    let ssz := sector_size (wr_dev (fl_wr s)) dev in
    if (ssz =? 0) || (blen (fl_fill s) <? ssz) || (blen (wr_rmw (fl_wr s)) <? ssz)
    then sfail ExGeometry
    else
      let! fill := slift (or_panic (splice (fl_fill s) 0 (filled ssz byte))) in
      do! sput (mkFlSt (fl_wr s) fill) in
      on_wr (fill_loop (S (Z.to_nat (div_ceil len ssz))) dev disk_offset len ssz fill 0).

(** ** The interpreter *)

Record ExSt : Type := mkExSt { ex_regions : Regions; ex_dev : D; ex_stats : ExecStats }.

Abbreviation EM := (SM ExSt ExecCause).

(** Device to region. *)
Definition transfer_in (x : Step) : EM unit :=
  let! s := sget in
  let! (a, b) := slift (resolve (ex_regions s) (region x) (region_offset x) (len x)) in
  let! dst := slift (or_panic (slice (region_buf (ex_regions s) (region x)) a b)) in
  let '(r, s') := read_bytes (device x) (disk_offset x)
                    (mkRdSt (ex_dev s) dst (rg_rmw_sector (ex_regions s))) in
  let! buf := slift (or_panic (splice (region_buf (ex_regions s) (region x)) a (rd_dst s'))) in
  do! sput (mkExSt (set_rmw (rd_rmw s') (set_region_buf (region x) buf (ex_regions s)))
              (rd_dev s') (ex_stats s)) in
  slift r.

(** Region to device. *)
Definition transfer_out (x : Step) : EM unit :=
  let! s := sget in
  let! (a, b) := slift (resolve (ex_regions s) (region x) (region_offset x) (len x)) in
  let! src := slift (or_panic (slice (region_buf (ex_regions s) (region x)) a b)) in
  let '(r, s') := write_bytes (device x) (disk_offset x) src
                    (mkWrSt (ex_dev s) (rg_rmw_sector (ex_regions s))) in
  do! sput (mkExSt (set_rmw (wr_rmw s') (ex_regions s)) (wr_dev s') (ex_stats s)) in
  slift r.

Definition exec_fill (x : Step) (byte : Z) : EM unit :=
  let! s := sget in
  let '(r, s') := fill_bytes (device x) (disk_offset x) (len x) byte
                    (mkFlSt (mkWrSt (ex_dev s) (rg_rmw_sector (ex_regions s)))
                       (rg_fill_sector (ex_regions s))) in
  do! sput (mkExSt (set_fill (fl_fill s') (set_rmw (wr_rmw (fl_wr s')) (ex_regions s)))
              (wr_dev (fl_wr s')) (ex_stats s)) in
  slift r.

(** Overwrite part of a region, no device involved. *)
Definition patch_region (id : RegionId) (a : Z) (data : bytes) : EM unit :=
  let! s := sget in
  let! buf := slift (or_panic (splice (region_buf (ex_regions s) id) a data)) in
  sput (mkExSt (set_region_buf id buf (ex_regions s)) (ex_dev s) (ex_stats s)).

Definition check_whole_cluster (x : Step) : EM unit :=
  let! s := sget in
  if rg_cluster_size (ex_regions s) =? 0 then sfail ExGeometry
  else if negb (len x =? rg_cluster_size (ex_regions s)) then sfail StepContract
  else sret tt.

Definition exec_barrier (x : Step) (class : BarrierClass) : EM unit :=
  match class with
  | BOrdering => sret tt
  | BDurability =>
      let! s := sget in
      let '(r, d') := fsync (device x) (ex_dev s) in
      do! sput (mkExSt (ex_regions s) d'
            (match r with
             | Some true => mkExecStats (steps_executed (ex_stats s)) (wadd (fsyncs (ex_stats s)) 1)
             | _ => ex_stats s
             end)) in
      match r with Some false => sfail FsyncFailed | _ => sret tt end
  end.

Definition exec_step (x : Step) : EM unit :=
  match kind x with
  | ReadCluster => transfer_in x
  | WriteRange => transfer_out x
  | ZeroRange => exec_fill x 0
  | FillRange => exec_fill x (as_u8 (value x))
  | PatchEntryU64 =>
      let! s := sget in
      let! (a, _) := slift (resolve (ex_regions s) (region x) (region_offset x) 8) in
      patch_region (region x) a (be_bytes 8 (value x))
  | LoadCluster => do! check_whole_cluster x in transfer_in x
  | WritebackCluster => do! check_whole_cluster x in transfer_out x
  | ZeroRegion =>
      let! s := sget in
      let! (a, b) := slift (resolve (ex_regions s) (region x) (region_offset x) (len x)) in
      patch_region (region x) a (filled (b - a) 0)
  | Barrier class => exec_barrier x class
  end.

(** The window loop; the error carries the index of the failing step. *)
Fixpoint exec_steps (i : Z) (steps : list Step) : SM ExSt ExecError unit :=
  match steps with
  | [] => sret tt
  | x :: rest =>
      fun s =>
        match exec_step x s with
        | (Ok _, s') =>
            exec_steps (i + 1) rest
              (mkExSt (ex_regions s') (ex_dev s')
                 (mkExecStats (wadd (steps_executed (ex_stats s')) 1) (fsyncs (ex_stats s'))))
        | (Err c, s') => (Err (mkExecError i c), s')
        | (Panic, s') => (Panic, s')
        | (OutOfFuel, s') => (OutOfFuel, s')
        end
  end.

Definition execute (steps : list Step) (r : Regions) (d : D)
  : outcome ExecError ExecStats * (Regions * D) :=
  let '(res, s) := exec_steps 0 steps (mkExSt r d (mkExecStats 0 0)) in
  ((let? _ := res in Ok (ex_stats s)), (ex_regions s, ex_dev s)).

End byte_range.
Arguments RdSt D : clear implicits.
Arguments WrSt D : clear implicits.
Arguments ExSt D : clear implicits.
