(* ===== verification/ExecSpec.v ===== *)
(** What the step executor promises, and what it relies on.

    - [FlatDisk]: the interface a device offers.  Each device is a byte array; a
      successful sector read returns a sector of it, a successful sector write
      replaces one, and a failed write may leave any bytes in that one sector.
      [healthy] singles out the devices whose in-range accesses succeed.
    - [VecDisk]: an instance, two vectors with their sector sizes.
    - [spec_step], [spec_steps]: the abstract machine of the [StepKind] contracts.
      It has no sectors, no bounce buffers and no slot arithmetic: regions are
      separate byte arrays, devices are byte arrays, a step copies a range. *)

From stdpp Require Import base numbers list sets option.
From Stdlib Require Import ZArith Lia.
From S2P Require Import Prelude Bytes Refcount Qcow2 WriteTypes Exec.

(** ** Flat contents of the two devices *)

Record Disks : Type := mkDisks { disk_input0 : bytes; disk_output : bytes }.

Definition disk_of (k : Disks) (dev : TargetDevice) : bytes :=
  match dev with Input0 => disk_input0 k | Output => disk_output k end.

Definition set_disk (dev : TargetDevice) (b : bytes) (k : Disks) : Disks :=
  match dev with
  | Input0 => mkDisks b (disk_output k)
  | Output => mkDisks (disk_input0 k) b
  end.

(** A write of one sector: [ok] or torn. *)
Definition sector_written (ok : bool) (off : Z) (buf c c' : bytes) : Prop :=
  if ok then splice c off buf = Some c'
  else c' = c \/ exists torn, blen torn = blen buf /\ splice c off torn = Some c'.

(** ** The device interface *)

Class FlatDisk (D : Type) `{DeviceIo D} : Type := {
  contents : D -> Disks;
  healthy : D -> Prop;
  fd_sector_size d dev : 0 <= sector_size d dev;
  fd_read dev sec buf d : 0 <= sec -> blen buf = sector_size d dev ->
    let '(ok, buf', d') := read_sector dev sec buf d in
    contents d' = contents d /\ (forall v, sector_size d' v = sector_size d v) /\
    blen buf' = blen buf /\
    (ok = true ->
     slice (disk_of (contents d) dev) (sec * blen buf) (sec * blen buf + blen buf) = Some buf');
  fd_write dev sec buf d : 0 <= sec -> blen buf = sector_size d dev ->
    let '(ok, d') := write_sector dev sec buf d in
    (forall v, sector_size d' v = sector_size d v) /\
    exists c', contents d' = set_disk dev c' (contents d) /\
               sector_written ok (sec * blen buf) buf (disk_of (contents d) dev) c';
  fd_fsync dev d :
    let '(r, d') := fsync dev d in
    contents d' = contents d /\ (forall v, sector_size d' v = sector_size d v) /\
    (healthy d -> r <> Some false /\ healthy d');
  fd_healthy_size d dev : healthy d ->
    0 < sector_size d dev /\
    blen (disk_of (contents d) dev) mod sector_size d dev = 0 /\
    blen (disk_of (contents d) dev) <= u64_max;
  fd_healthy_read dev sec buf d : healthy d -> 0 <= sec -> blen buf = sector_size d dev ->
    sec * blen buf + blen buf <= blen (disk_of (contents d) dev) ->
    let '(ok, _, d') := read_sector dev sec buf d in ok = true /\ healthy d';
  fd_healthy_write dev sec buf d : healthy d -> 0 <= sec -> blen buf = sector_size d dev ->
    sec * blen buf + blen buf <= blen (disk_of (contents d) dev) ->
    let '(ok, d') := write_sector dev sec buf d in ok = true /\ healthy d'
}.

(** ** A device of two vectors *)

Record VecDisk : Type := mkVecDisk {
  vd_disks : Disks;
  vd_input_sector : N;
  vd_output_sector : N;
  vd_fsync : bool
}.

Definition vd_sector_size (d : VecDisk) (dev : TargetDevice) : Z :=
  match dev with Input0 => Z.of_N (vd_input_sector d) | Output => Z.of_N (vd_output_sector d) end.

Definition vd_read (dev : TargetDevice) (sec : Z) (buf : bytes) (d : VecDisk)
  : bool * bytes * VecDisk :=
  match slice (disk_of (vd_disks d) dev) (sec * blen buf) (sec * blen buf + blen buf) with
  | Some b => (true, b, d)
  | None => (false, buf, d)
  end.

Definition vd_write (dev : TargetDevice) (sec : Z) (buf : bytes) (d : VecDisk)
  : bool * VecDisk :=
  match splice (disk_of (vd_disks d) dev) (sec * blen buf) buf with
  | Some c => (true, mkVecDisk (set_disk dev c (vd_disks d)) (vd_input_sector d)
                       (vd_output_sector d) (vd_fsync d))
  | None => (false, d)
  end.

Definition vd_sync (dev : TargetDevice) (d : VecDisk) : option bool * VecDisk :=
  (match dev with Input0 => if vd_fsync d then Some true else None | Output => None end, d).

#[global] Instance VecDisk_device : DeviceIo VecDisk := {
  sector_size := vd_sector_size;
  read_sector := vd_read;
  write_sector := vd_write;
  fsync := vd_sync
}.

(** The vectors are whole numbers of sectors. *)
Definition vd_healthy (d : VecDisk) : Prop :=
  forall dev, 0 < vd_sector_size d dev /\
    blen (disk_of (vd_disks d) dev) mod vd_sector_size d dev = 0 /\
    blen (disk_of (vd_disks d) dev) <= u64_max.

(** ** The abstract machine *)

(** The bytes of a region: an L2 slot is one cluster of the window. *)
Definition region_window (r : Regions) (id : RegionId) : option bytes :=
  match id with
  | RL2Slot slot =>
      let cs := rg_cluster_size r in
      if (cs =? 0) || negb (blen (rg_l2_window r) mod cs =? 0) then None
      else slice (rg_l2_window r) (slot * cs) (slot * cs + cs)
  | _ => Some (region_buf r id)
  end.

Definition set_region_window (r : Regions) (id : RegionId) (w : bytes) : option Regions :=
  match id with
  | RL2Slot slot =>
      b ← splice (rg_l2_window r) (slot * rg_cluster_size r) w; Some (set_region_buf id b r)
  | _ => Some (set_region_buf id w r)
  end.

Definition spec_region_read (r : Regions) (id : RegionId) (off n : Z) : option bytes :=
  w ← region_window r id; slice w off (off + n).

Definition spec_region_write (r : Regions) (id : RegionId) (off : Z) (data : bytes)
  : option Regions :=
  w ← region_window r id; w' ← splice w off data; set_region_window r id w'.

(** Ranges of a device.  An empty range is never out of bounds. *)
Definition spec_disk_read (k : Disks) (dev : TargetDevice) (off n : Z) : option bytes :=
  if n =? 0 then Some [] else slice (disk_of k dev) off (off + n).

Definition spec_disk_write (k : Disks) (dev : TargetDevice) (off : Z) (data : bytes)
  : option Disks :=
  if blen data =? 0 then Some k
  else c ← splice (disk_of k dev) off data; Some (set_disk dev c k).

(** The machine's regions are the planner's: the service sectors are not part of it. *)
Definition drop_service (r : Regions) : Regions := set_rmw [] (set_fill [] r).

Definition Flat : Type := Regions * Disks.

Definition spec_in (x : Step) (s : Flat) : option Flat :=
  let '(r, k) := s in
  b ← spec_disk_read k (device x) (disk_offset x) (len x);
  r' ← spec_region_write r (region x) (region_offset x) b;
  Some (r', k).

Definition spec_out (x : Step) (s : Flat) : option Flat :=
  let '(r, k) := s in
  b ← spec_region_read r (region x) (region_offset x) (len x);
  k' ← spec_disk_write k (device x) (disk_offset x) b;
  Some (r, k').

Definition spec_step (x : Step) (s : Flat) : option Flat :=
  let whole := negb (rg_cluster_size s.1 =? 0) && (len x =? rg_cluster_size s.1) in
  match kind x with
  | ReadCluster => spec_in x s
  | LoadCluster => if whole then spec_in x s else None
  | WriteRange => spec_out x s
  | WritebackCluster => if whole then spec_out x s else None
  | ZeroRange =>
      k ← spec_disk_write s.2 (device x) (disk_offset x) (filled (len x) 0); Some (s.1, k)
  | FillRange =>
      k ← spec_disk_write s.2 (device x) (disk_offset x) (filled (len x) (value x mod 256));
      Some (s.1, k)
  | PatchEntryU64 =>
      r ← spec_region_write s.1 (region x) (region_offset x) (be_bytes 8 (value x));
      Some (r, s.2)
  | ZeroRegion =>
      r ← spec_region_write s.1 (region x) (region_offset x) (filled (len x) 0); Some (r, s.2)
  | Barrier _ => Some s
  end.

Fixpoint spec_steps (steps : list Step) (s : Flat) : option Flat :=
  match steps with
  | [] => Some s
  | x :: rest => s' ← spec_step x s; spec_steps rest s'
  end.

(** The durability barriers of a program. *)
Definition durability_barriers (steps : list Step) : Z :=
  Z.of_nat (length (filter (fun x => kind x = Barrier BDurability) steps)).

(** ** [VecDisk] satisfies the interface *)

Lemma disk_of_set dev v b k :
  disk_of (set_disk dev b k) v = if decide (v = dev) then b else disk_of k v.
Proof. destruct dev, v; done. Qed.

Lemma disk_of_set_eq dev b k : disk_of (set_disk dev b k) dev = b.
Proof. by destruct dev. Qed.

Lemma set_disk_set dev b b' k : set_disk dev b (set_disk dev b' k) = set_disk dev b k.
Proof. by destruct dev. Qed.

Lemma set_disk_self dev k : set_disk dev (disk_of k dev) k = k.
Proof. by destruct dev, k. Qed.

#[global] Program Instance VecDisk_flat : FlatDisk VecDisk := {
  contents := vd_disks;
  healthy := vd_healthy
}.
Next Obligation. intros d []; cbn; lia. Qed.
Next Obligation.
  intros dev sec buf d Hsec Hb. cbn. unfold vd_read.
  destruct (slice _ _ _) as [b|] eqn:E; [|done].
  split_and!; try done. rewrite (slice_blen _ _ _ _ E). lia.
Qed.
Next Obligation.
  intros dev sec buf d Hsec Hb. cbn. unfold vd_write.
  destruct (splice _ _ _) as [c|] eqn:E; cbn.
  - split; [by intros []|]. by exists c.
  - split; [done|]. exists (disk_of (vd_disks d) dev). rewrite set_disk_self. by split; [|left].
Qed.
Next Obligation.
  intros dev d. cbn. split_and!; [done | done |]. intros Hd. split; [|done].
  destruct dev; [by destruct (vd_fsync d)|done].
Qed.
Next Obligation. intros d dev H. apply H. Qed.
Next Obligation.
  intros dev sec buf d Hd Hsec Hb Hin. cbn. unfold vd_read.
  rewrite slice_Some_2 by (pose proof (blen_nonneg buf); nia). done.
Qed.
Next Obligation.
  intros dev sec buf d Hd Hsec Hb Hin. cbn. unfold vd_write.
  destruct (splice _ _ _) as [c|] eqn:E.
  - split; [done|]. intros v. specialize (Hd v). cbn. pose proof (splice_blen _ _ _ _ E) as El.
    rewrite disk_of_set. destruct (decide (v = dev)) as [->|]; [|by destruct v].
    rewrite El. by destruct dev.
  - pose proof (blen_nonneg buf).
    assert (is_Some (splice (disk_of (vd_disks d) dev) (sec * blen buf) buf)) as [? ?]
      by (apply splice_is_Some; nia). congruence.
Qed.
