(* ===== verification/ExecBytes.v ===== *)
(** The byte-range layer is exact: on any [FlatDisk], a successful [read_bytes]
    returns the bytes of the flat device, a successful [write_bytes] or
    [fill_bytes] replaces exactly the addressed bytes (the read-modify-write of
    partial sectors preserves their neighbours), a failed one damages at most
    the sectors it covers, and a healthy device never fails in range. *)

From stdpp Require Import base numbers list sets option.
From Stdlib Require Import ZArith Lia.
From S2P Require Import Prelude Bytes Refcount Qcow2 WriteTypes Exec ExecSpec.

(** ** Partial copies *)

(** [dst] holds the first [n] bytes of [src] from [off] on. *)
Definition copied (src : bytes) (off : Z) (dst : bytes) (n : Z) : Prop :=
  (0 < n -> off + n <= blen src) /\
  forall i, 0 <= i < n -> byte_at dst i = byte_at src (off + i).

(** [c'] is [c] with its bytes from [off] on replaced by the first [n] of [src]. *)
Definition patched (c : bytes) (off : Z) (src : bytes) (n : Z) (c' : bytes) : Prop :=
  blen c' = blen c /\ (0 < n -> off + n <= blen c) /\
  forall i, byte_at c' i =
    if (off <=? i) && (i <? off + n) then byte_at src (i - off) else byte_at c i.

(** The sectors a byte range touches. *)
Definition covered (ssz off n i : Z) : Prop :=
  off / ssz * ssz <= i < div_ceil (off + n) ssz * ssz.

Definition unchanged_outside (P : Z -> Prop) (c c' : bytes) : Prop :=
  blen c' = blen c /\ forall i, ~ P i -> byte_at c' i = byte_at c i.

Lemma copied_slice src off dst : 0 <= off -> 0 < blen dst ->
  copied src off dst (blen dst) -> slice src off (off + blen dst) = Some dst.
Proof.
  intros Hoff Hn [Hin Hb]. specialize (Hin Hn).
  destruct (slice src off (off + blen dst)) as [t|] eqn:Ht.
  2:{ rewrite slice_Some_2 in Ht by lia. done. }
  pose proof (slice_blen _ _ _ _ Ht). f_equal. apply byte_ext; [lia|]. intros i Hi.
  rewrite (slice_byte _ _ _ _ _ Ht) by lia. rewrite Hb by lia. done.
Qed.

Lemma copied_extend src off dst dst' n m seg :
  0 <= n -> 0 < m ->
  copied src off dst n ->
  slice src (off + n) (off + n + m) = Some seg -> splice dst n seg = Some dst' ->
  copied src off dst' (n + m).
Proof.
  intros Hn Hm [_ Hb] Hseg Hdst. pose proof (slice_Some _ _ _ _ Hseg) as (? & ? & _).
  pose proof (slice_blen _ _ _ _ Hseg) as Hl. split; [lia|]. intros i Hi.
  rewrite (splice_byte _ _ _ _ _ Hdst).
  destruct (Z.leb_spec n i), (Z.ltb_spec i (n + blen seg)); cbn [andb]; try lia.
  - rewrite (slice_byte _ _ _ _ _ Hseg) by lia. f_equal. lia.
  - apply Hb. lia.
Qed.

Lemma patched_splice c off src c' : 0 <= off -> 0 < blen src ->
  patched c off src (blen src) c' -> splice c off src = Some c'.
Proof.
  intros Hoff Hn (Hl & Hin & Hb). specialize (Hin Hn).
  assert (is_Some (splice c off src)) as [t Ht] by (apply splice_is_Some; lia).
  rewrite Ht. f_equal. pose proof (splice_blen _ _ _ _ Ht). apply byte_ext; [lia|].
  intros i Hi. rewrite Hb. apply (splice_byte _ _ _ _ _ Ht).
Qed.

(** One more segment, written in place. *)
Lemma patched_extend c off src c1 c2 n m seg :
  0 <= n -> 0 < m ->
  patched c off src n c1 -> slice src n (n + m) = Some seg ->
  splice c1 (off + n) seg = Some c2 -> patched c off src (n + m) c2.
Proof.
  intros Hn Hm (Hl & Hin & Hb) Hseg Hc2. pose proof (slice_blen _ _ _ _ Hseg) as Hs.
  pose proof (splice_blen _ _ _ _ Hc2). pose proof (splice_Some _ _ _ _ Hc2) as (? & ? & _).
  split_and!; [lia | lia |]. intros i. rewrite (splice_byte _ _ _ _ _ Hc2), Hb.
  destruct (Z.leb_spec (off + n) i), (Z.ltb_spec i (off + n + blen seg)),
    (Z.leb_spec off i), (Z.ltb_spec i (off + (n + m))), (Z.ltb_spec i (off + n));
    cbn [andb]; try lia; try done.
  rewrite (slice_byte _ _ _ _ _ Hseg) by lia. f_equal. lia.
Qed.

(** Patching the bounce sector and writing it back is patching the disk. *)
Lemma splice_through_sector c base ssz sect seg in_off sect' c' :
  slice c base (base + ssz) = Some sect -> splice sect in_off seg = Some sect' ->
  splice c base sect' = Some c' -> splice c (base + in_off) seg = Some c'.
Proof.
  intros Hsect Hsect' Hc'.
  pose proof (slice_blen _ _ _ _ Hsect). pose proof (splice_blen _ _ _ _ Hsect').
  pose proof (splice_blen _ _ _ _ Hc').
  pose proof (splice_Some _ _ _ _ Hsect') as (? & ? & _).
  pose proof (slice_Some _ _ _ _ Hsect) as (? & ? & _). pose proof (blen_nonneg seg).
  assert (is_Some (splice c (base + in_off) seg)) as [t Ht] by (apply splice_is_Some; lia).
  rewrite Ht. f_equal. pose proof (splice_blen _ _ _ _ Ht). apply byte_ext; [lia|].
  intros i Hi. rewrite (splice_byte _ _ _ _ _ Ht), (splice_byte _ _ _ _ _ Hc').
  destruct (Z.leb_spec base i), (Z.ltb_spec i (base + blen sect')),
    (Z.leb_spec (base + in_off) i), (Z.ltb_spec i (base + in_off + blen seg));
    cbn [andb]; try lia; try done; rewrite (splice_byte _ _ _ _ _ Hsect').
  all: destruct (Z.leb_spec in_off (i - base)), (Z.ltb_spec (i - base) (in_off + blen seg));
    cbn [andb]; try lia.
  all: try (rewrite (slice_byte _ _ _ _ _ Hsect) by lia); f_equal; lia.
Qed.

Lemma sector_cover ssz off n i : 0 < ssz -> 0 <= off -> off <= i < off + n ->
  i / ssz * ssz >= off / ssz * ssz /\ i / ssz * ssz + ssz <= div_ceil (off + n) ssz * ssz.
Proof.
  intros Hs Ho Hi. pose proof (Z.div_le_mono off i ssz Hs ltac:(lia)).
  destruct (div_ceil_spec (off + n) ssz Hs) as [Hc _].
  pose proof (Z.mul_div_le i ssz Hs).
  assert (i / ssz < div_ceil (off + n) ssz) by nia. nia.
Qed.

Lemma sector_written_outside ok off buf c c' : 0 <= off ->
  sector_written ok off buf c c' ->
  unchanged_outside (fun i => off <= i < off + blen buf) c c'.
Proof.
  intros Hoff. unfold sector_written. assert (forall b, blen b = blen buf ->
    splice c off b = Some c' -> unchanged_outside (fun i => off <= i < off + blen buf) c c') as Hw.
  { intros b Hb Hs. split; [by eapply splice_blen|]. intros i Hi.
    rewrite (splice_byte _ _ _ _ _ Hs).
    destruct (Z.leb_spec off i), (Z.ltb_spec i (off + blen b)); cbn [andb]; done || lia. }
  destruct ok; [by apply Hw|]. intros [->|(torn & Ht & Hs)]; [done|by eapply Hw].
Qed.

Lemma patched_outside c off src n c' : 0 <= n -> patched c off src n c' ->
  unchanged_outside (fun i => off <= i < off + n) c c'.
Proof.
  intros Hn (Hl & _ & Hb). split; [done|]. intros i Hi. rewrite Hb.
  destruct (Z.leb_spec off i), (Z.ltb_spec i (off + n)); cbn [andb]; done || lia.
Qed.

Lemma unchanged_outside_mono (P Q : Z -> Prop) c c' :
  (forall i, P i -> Q i) -> unchanged_outside P c c' -> unchanged_outside Q c c'.
Proof. intros HPQ [Hl Hb]. split; [done|]. intros i Hi. apply Hb. auto. Qed.

Lemma unchanged_outside_trans P c1 c2 c3 :
  unchanged_outside P c1 c2 -> unchanged_outside P c2 c3 -> unchanged_outside P c1 c3.
Proof.
  intros [Hl1 Hb1] [Hl2 Hb2]. split; [congruence|]. intros i Hi. rewrite Hb2, Hb1; done.
Qed.
(** ** Reads *)

Section flat.
Context {D : Type} `{FlatDisk D}.

(** Same bytes, same geometry, and still healthy if it was. *)
Definition same_device (d d' : D) : Prop :=
  contents d' = contents d /\ (forall v, sector_size d' v = sector_size d v).

Lemma same_device_refl d : same_device d d.
Proof. done. Qed.

Lemma same_device_trans d1 d2 d3 :
  same_device d1 d2 -> same_device d2 d3 -> same_device d1 d3.
Proof. intros [Hc1 Hs1] [Hc2 Hs2]. split; [congruence|]. intros v. by rewrite Hs2, Hs1. Qed.

(** The sector holding byte [cur] is in range when the device is healthy and [cur] is. *)
Lemma healthy_sector d dev cur : healthy d -> 0 <= cur < blen (disk_of (contents d) dev) ->
  cur / sector_size d dev * sector_size d dev + sector_size d dev
  <= blen (disk_of (contents d) dev).
Proof.
  intros Hd Hcur. destruct (fd_healthy_size d dev Hd) as (Hpos & Hmod & _).
  set (ssz := sector_size d dev) in *. set (c := blen _) in *.
  pose proof (Z.div_mod c ssz ltac:(lia)). pose proof (Z.mul_div_le cur ssz Hpos).
  assert (cur / ssz < c / ssz) by nia. nia.
Qed.

(** Access to the sector that holds byte [cur]. *)
Lemma sector_read d dev cur ssz buf :
  0 < ssz -> ssz = sector_size d dev -> 0 <= cur -> blen buf = ssz ->
  exists ok buf' d', read_sector dev (cur / ssz) buf d = (ok, buf', d') /\
    same_device d d' /\ blen buf' = ssz /\
    (ok = true -> slice (disk_of (contents d) dev) (cur / ssz * ssz) (cur / ssz * ssz + ssz)
                  = Some buf') /\
    (healthy d -> cur < blen (disk_of (contents d) dev) -> ok = true /\ healthy d').
Proof.
  intros Hpos Hssz Hcur Hb. assert (0 <= cur / ssz) by (apply Z.div_pos; lia).
  pose proof (fd_read dev (cur / ssz) buf d) as Hr.
  pose proof (fd_healthy_read dev (cur / ssz) buf d) as Hh.
  destruct (read_sector dev (cur / ssz) buf d) as [[ok buf'] d']. rewrite Hb in Hr, Hh.
  destruct Hr as (Hc & Hsz & Hl & Hok); [done | done |].
  exists ok, buf', d'. split_and!; try done; intros. apply Hh; try done.
  subst ssz. apply healthy_sector; [done|lia].
Qed.

Lemma sector_write d dev cur ssz buf :
  0 < ssz -> ssz = sector_size d dev -> 0 <= cur -> blen buf = ssz ->
  exists ok d' c', write_sector dev (cur / ssz) buf d = (ok, d') /\
    (forall v, sector_size d' v = sector_size d v) /\
    contents d' = set_disk dev c' (contents d) /\
    sector_written ok (cur / ssz * ssz) buf (disk_of (contents d) dev) c' /\
    (healthy d -> cur < blen (disk_of (contents d) dev) -> ok = true /\ healthy d').
Proof.
  intros Hpos Hssz Hcur Hb. assert (0 <= cur / ssz) by (apply Z.div_pos; lia).
  pose proof (fd_write dev (cur / ssz) buf d) as Hr.
  pose proof (fd_healthy_write dev (cur / ssz) buf d) as Hh.
  destruct (write_sector dev (cur / ssz) buf d) as [ok d']. rewrite Hb in Hr, Hh.
  destruct Hr as (Hsz & c' & Hc & Hw); [done | done |].
  exists ok, d', c'. split_and!; try done; intros; apply Hh; try done;
    subst ssz; apply healthy_sector; done || lia.
Qed.

Definition rd_frame (s s' : RdSt D) : Prop :=
  same_device (rd_dev s) (rd_dev s') /\ blen (rd_dst s') = blen (rd_dst s) /\
  blen (rd_rmw s') = blen (rd_rmw s).

Lemma slice_of l a b : 0 <= a <= b -> b <= blen l -> exists s, slice l a b = Some s /\ blen s = b - a.
Proof.
  intros. destruct (proj2 (slice_is_Some l a b)) as [s Hs]; [done|].
  exists s. split; [done|]. by eapply slice_blen.
Qed.

Lemma splice_of l a src : 0 <= a -> a + blen src <= blen l ->
  exists l', splice l a src = Some l' /\ blen l' = blen l.
Proof.
  intros. destruct (proj2 (splice_is_Some l a src)) as [s Hs]; [done|].
  exists s. split; [done|]. by eapply splice_blen.
Qed.

Lemma splice_nil l a : 0 <= a <= blen l -> splice l a [] = Some l.
Proof.
  intros Ha. unfold splice. change (blen []) with 0. destruct (Z.leb_spec 0 a), (Z.leb_spec (a + 0) (blen l)); try lia. cbn.
  by rewrite Nat.add_0_r, take_drop.
Qed.

(** Two writes side by side are one. *)
Lemma splice_app l a x l1 y l2 : splice l a x = Some l1 -> splice l1 (a + blen x) y = Some l2 -> splice l a (x ++ y) = Some l2.
Proof.
  intros H1 H2. pose proof (splice_Some _ _ _ _ H1) as (? & ? & _). pose proof (splice_Some _ _ _ _ H2) as (? & ? & _).
  pose proof (splice_blen _ _ _ _ H1). pose proof (blen_nonneg x). pose proof (blen_nonneg y).
  destruct (splice_of l a (x ++ y)) as (l' & Hs & Hl); [lia | rewrite blen_app; lia |]. rewrite Hs. f_equal.
  apply byte_ext; [rewrite Hl, (splice_blen _ _ _ _ H2); lia|]. intros i Hi.
  rewrite (splice_byte _ _ _ _ i Hs), (splice_byte _ _ _ _ i H2), (splice_byte _ _ _ _ i H1), blen_app, byte_at_app.
  destruct (Z.leb_spec a i), (Z.ltb_spec i (a + blen x)), (Z.leb_spec (a + blen x) i), (Z.ltb_spec i (a + blen x + blen y)),
    (Z.ltb_spec i (a + (blen x + blen y))), (Z.ltb_spec (i - a) (blen x)); cbn [andb]; try lia; try done.
  f_equal. lia.
Qed.

Lemma read_turn_spec dev ssz off done (s : RdSt D) :
  let c := disk_of (contents (rd_dev s)) dev in
  let cur := off + done in
  let n := blen (rd_dst s) in
  let take := Z.min (ssz - cur mod ssz) (n - done) in
  0 < ssz -> ssz = sector_size (rd_dev s) dev -> ssz <= blen (rd_rmw s) ->
  0 <= off -> 0 <= done < n -> n <= u64_max -> copied c off (rd_dst s) done ->
  wp (read_turn dev ssz done cur take)
    (fun _ s' => rd_frame s s' /\ copied c off (rd_dst s') (done + take) /\
                 (healthy (rd_dev s) -> off + n <= blen c -> healthy (rd_dev s')))
    (fun _ s' => rd_frame s s' /\ ~ (healthy (rd_dev s) /\ off + n <= blen c)) s.
Proof.
  intros c cur n take Hpos Hssz Hrmw Hoff Hdone Hn Hcop.
  pose proof (Z.mod_pos_bound cur ssz Hpos). pose proof (Z.div_mod cur ssz ltac:(lia)).
  unfold read_turn. wstep. wstep. destruct ((cur mod ssz =? 0) && (take =? ssz)) eqn:E.
  - bool_to_prop. rewrite wadd_small by lia.
    destruct (slice_of (rd_dst s) done (done + ssz)) as (sub & Hsub & Hsl); [lia | fold n; lia |].
    destruct (sector_read (rd_dev s) dev cur ssz sub)
      as (ok & sub' & d' & Hr & Hsame & Hl & Hok & Hh); [lia..|].
    destruct (splice_of (rd_dst s) done sub') as (dst' & Hdst & Hdl); [lia | fold n; lia |].
    wstep. wstep. rewrite Hsub. cbn [or_panic]. rewrite Hr.
    wstep. wstep. rewrite Hdst. cbn [or_panic]. wstep. wstep. fold c in Hok, Hh.
    destruct ok; wstep.
    + split_and!; [by split_and! | | intros; apply Hh; [done|lia]].
      eapply copied_extend; [| |exact Hcop | |exact Hdst]; [lia | lia |].
      rewrite <- (Hok eq_refl). f_equal; lia.
    + split; [by split_and!|]. intros [? ?]. by destruct Hh; [|lia|].
  - assert (0 < take) by lia.
    destruct (slice_of (rd_rmw s) 0 ssz) as (sub & Hsub & Hsl); [lia | lia |].
    destruct (sector_read (rd_dev s) dev cur ssz sub)
      as (ok & sub' & d' & Hr & Hsame & Hl & Hok & Hh); [lia..|].
    destruct (splice_of (rd_rmw s) 0 sub') as (rmw' & Hrm & Hrl); [lia | lia |].
    destruct (slice_of sub' (cur mod ssz) (cur mod ssz + take)) as (seg & Hseg & Hgl); [lia | lia |].
    destruct (splice_of (rd_dst s) done seg) as (dst' & Hdst & Hdl); [lia | fold n; lia |].
    wstep. wstep. rewrite Hsub. cbn [or_panic]. rewrite Hr.
    wstep. wstep. rewrite Hrm. cbn [or_panic]. wstep. wstep. fold c in Hok, Hh.
    destruct ok; wstep.
    + wstep. rewrite Hseg. cbn [or_panic]. wstep. wstep. rewrite Hdst. cbn [or_panic]. wstep.
      split_and!; [by split_and! | | intros; apply Hh; [done|lia]].
      eapply copied_extend; [| |exact Hcop | |exact Hdst]; [lia | lia |].
      rewrite <- Hseg. rewrite (slice_slice _ _ _ _ _ _ (Hok eq_refl)) by lia. f_equal; lia.
    + split; [by split_and!|]. intros [? ?]. by destruct Hh; [|lia|].
Qed.

Lemma rd_frame_trans s1 s2 s3 : rd_frame s1 s2 -> rd_frame s2 s3 -> rd_frame s1 s3.
Proof.
  intros (? & ? & ?) (? & ? & ?). split_and!; [by eapply same_device_trans|congruence..].
Qed.

Lemma read_loop_spec fuel : forall dev ssz off done (s : RdSt D),
  let c := disk_of (contents (rd_dev s)) dev in
  let n := blen (rd_dst s) in
  0 < ssz -> ssz = sector_size (rd_dev s) dev -> ssz <= blen (rd_rmw s) ->
  0 <= off -> 0 <= done <= n -> n <= u64_max -> copied c off (rd_dst s) done ->
  (Z.to_nat (n - done) < fuel)%nat ->
  wp (read_loop fuel dev ssz done (off + done))
    (fun _ s' => rd_frame s s' /\ copied c off (rd_dst s') n /\
                 (healthy (rd_dev s) -> off + n <= blen c -> healthy (rd_dev s')))
    (fun _ s' => rd_frame s s' /\ ~ (healthy (rd_dev s) /\ off + n <= blen c)) s.
Proof.
  induction fuel as [|fuel IH]; intros dev ssz off done s c n Hpos Hssz Hrmw Hoff Hdone Hn Hcop Hf;
    [lia|].
  cbn [read_loop]. wstep. wstep. fold n. destruct (Z.ltb_spec done n).
  2:{ wstep. split_and!; try done. by replace n with done by lia. }
  wstep. eapply wp_mono; [by apply read_turn_spec; try done; fold n; lia | |done].
  cbv beta zeta. fold c n. intros _ s1 (Hfr & Hcop1 & Hh1).
  pose proof (Z.mod_pos_bound (off + done) ssz Hpos).
  set (take := Z.min _ _) in *. assert (0 < take <= n - done) by lia.
  pose proof Hfr as ((Hc1 & Hs1) & Hd1 & Hr1).
  wstep. wstep. unfold checked_add. destruct (Z.leb_spec (off + done + take) u64_max); cbn [ok_or].
  2:{ split; [done|]. intros [Hh Hin]. destruct (fd_healthy_size _ dev Hh) as (_ & _ & Hb).
      fold c in Hb. lia. }
  rewrite wadd_small by lia. rewrite <- Z.add_assoc.
  eapply wp_mono; [apply (IH dev ssz off (done + take) s1); try done; rewrite ?Hc1, ?Hd1, ?Hs1, ?Hr1;
                   fold c n; done || lia | |].
  all: cbv beta zeta; rewrite Hc1, Hd1; fold c n; intros _ s2.
  - intros (Hfr2 & Hcop2 & Hh2). split_and!; [by eapply rd_frame_trans | done | by auto].
  - intros (Hfr2 & Hn2). split; [by eapply rd_frame_trans|]. intros [? ?]. apply Hn2. auto.
Qed.

(** A successful read returns the addressed bytes of the flat device. *)
Lemma read_bytes_spec dev off (s : RdSt D) :
  let n := blen (rd_dst s) in
  0 <= off -> n <= u64_max ->
  wp (read_bytes dev off)
    (fun _ s' => rd_frame s s' /\
       spec_disk_read (contents (rd_dev s)) dev off n = Some (rd_dst s') /\
       (healthy (rd_dev s) -> healthy (rd_dev s')))
    (fun _ s' => rd_frame s s' /\
       ~ (healthy (rd_dev s) /\ sector_size (rd_dev s) dev <= blen (rd_rmw s) /\
          is_Some (spec_disk_read (contents (rd_dev s)) dev off n))) s.
Proof.
  intros n Hoff Hn. pose proof (blen_nonneg (rd_dst s)). pose proof (fd_sector_size (rd_dev s) dev).
  unfold read_bytes, spec_disk_read. wstep. wstep. fold n. destruct (Z.eqb_spec n 0) as [E|E].
  { wstep. split_and!; try done. unfold n, blen in E. f_equal. symmetry. apply length_zero_iff_nil. lia. }
  destruct ((sector_size (rd_dev s) dev =? 0) || (blen (rd_rmw s) <? sector_size (rd_dev s) dev)) eqn:Eg.
  { wstep. split; [done|]. intros (Hh & Hr & _). destruct (fd_healthy_size _ dev Hh) as [? _].
    bool_to_prop. destruct Eg; bool_to_prop; lia. }
  bool_to_prop. rewrite <- (Z.add_0_r off) at 1.
  eapply wp_mono; [apply read_loop_spec; try done; fold n; try lia | |]; cbv beta zeta; fold n.
  - split; [lia|]. intros i Hi. lia.
  - intros _ s' (Hfr & Hcop & Hh). pose proof Hfr as (_ & Hd & _). fold n in Hd.
    assert (slice (disk_of (contents (rd_dev s)) dev) off (off + n) = Some (rd_dst s')) as Hs.
    { rewrite <- Hd. apply copied_slice; [done | lia |]. by rewrite Hd. }
    split_and!; try done. intros. apply Hh; [done|]. apply slice_Some in Hs. lia.
  - intros _ s' (Hfr & Hno). split; [done|]. intros (Hh & _ & [b Hs]). apply Hno.
    apply slice_Some in Hs. split; [done|lia].
Qed.

(** ** Writes *)

Definition wr_sizes (s s' : WrSt D) : Prop :=
  (forall v, sector_size (wr_dev s') v = sector_size (wr_dev s) v) /\
  blen (wr_rmw s') = blen (wr_rmw s).

(** Only [dev] may differ, and there only inside [P]. *)
Definition wr_outside (dev : TargetDevice) (P : Z -> Prop) (s s' : WrSt D) : Prop :=
  exists c', contents (wr_dev s') = set_disk dev c' (contents (wr_dev s)) /\
             unchanged_outside P (disk_of (contents (wr_dev s)) dev) c'.

Lemma wr_outside_written dev (P : Z -> Prop) ok off buf c' (s : WrSt D) d' rmw' :
  0 <= off -> contents d' = set_disk dev c' (contents (wr_dev s)) ->
  sector_written ok off buf (disk_of (contents (wr_dev s)) dev) c' ->
  (forall i, off <= i < off + blen buf -> P i) ->
  wr_outside dev P s (mkWrSt d' rmw').
Proof.
  intros Hoff Hc Hw HP. exists c'. split; [done|].
  eapply unchanged_outside_mono; [exact HP|]. by eapply sector_written_outside.
Qed.

Lemma wr_outside_refl dev P (s : WrSt D) d' rmw' :
  contents d' = contents (wr_dev s) -> wr_outside dev P s (mkWrSt d' rmw').
Proof.
  intros Hc. exists (disk_of (contents (wr_dev s)) dev). cbn. rewrite Hc, set_disk_self. done.
Qed.

Lemma write_turn_spec dev ssz src off done (s : WrSt D) :
  let c := disk_of (contents (wr_dev s)) dev in
  let cur := off + done in
  let n := blen src in
  let take := Z.min (ssz - cur mod ssz) (n - done) in
  0 < ssz -> ssz = sector_size (wr_dev s) dev -> ssz <= blen (wr_rmw s) ->
  0 <= off -> 0 <= done < n -> n <= u64_max ->
  wp (write_turn dev ssz src done cur take)
    (fun _ s' => wr_sizes s s' /\
       (exists seg c', slice src done (done + take) = Some seg /\ splice c cur seg = Some c' /\
          contents (wr_dev s') = set_disk dev c' (contents (wr_dev s))) /\
       (healthy (wr_dev s) -> off + n <= blen c -> healthy (wr_dev s')))
    (fun _ s' => wr_sizes s s' /\
       wr_outside dev (fun i => cur / ssz * ssz <= i < cur / ssz * ssz + ssz) s s' /\
       ~ (healthy (wr_dev s) /\ off + n <= blen c)) s.
Proof.
  intros c cur n take Hpos Hssz Hrmw Hoff Hdone Hn.
  pose proof (Z.mod_pos_bound cur ssz Hpos). pose proof (Z.div_mod cur ssz ltac:(lia)).
  assert (0 <= cur / ssz * ssz) by (pose proof (Z.div_pos cur ssz); nia).
  unfold write_turn. wstep. wstep. destruct ((cur mod ssz =? 0) && (take =? ssz)) eqn:E.
  - bool_to_prop. rewrite wadd_small by lia.
    destruct (slice_of src done (done + ssz)) as (sub & Hsub & Hsl); [lia | fold n; lia |].
    destruct (sector_write (wr_dev s) dev cur ssz sub)
      as (ok & d' & c' & Hr & Hsz & Hc & Hw & Hh); [lia..|].
    wstep. wstep. rewrite Hsub. cbn [or_panic]. rewrite Hr. wstep. wstep. fold c in Hw, Hh.
    destruct ok; wstep.
    + split_and!; [by split | | intros; apply Hh; [done|lia]].
      exists sub, c'. split_and!; [by replace take with ssz by lia | | done].
      rewrite <- Hw. f_equal; lia.
    + split_and!; [by split | |intros [? ?]; by destruct Hh; [|lia|]].
      eapply wr_outside_written; [done | done | exact Hw | intros; lia].
  - assert (0 < take) by lia. rewrite wadd_small by lia.
    destruct (slice_of (wr_rmw s) 0 ssz) as (sub & Hsub & Hsl); [lia | lia |].
    destruct (sector_read (wr_dev s) dev cur ssz sub)
      as (ok & sub' & d1 & Hr & [Hc1 Hs1] & Hl & Hok & Hh); [lia..|].
    destruct (splice_of (wr_rmw s) 0 sub') as (rmw' & Hrm & Hrl); [lia | lia |].
    destruct (slice_of src done (done + take)) as (seg & Hseg & Hgl); [lia | fold n; lia |].
    destruct (splice_of sub' (cur mod ssz) seg) as (sub2 & Hsub2 & Hl2); [lia | lia |].
    destruct (splice_of rmw' 0 sub2) as (rmw2 & Hrm2 & Hrl2); [lia | lia |].
    destruct (sector_write d1 dev cur ssz sub2)
      as (ok2 & d2 & c' & Hr2 & Hsz2 & Hc2 & Hw2 & Hh2); [rewrite ?Hs1; lia..|].
    rewrite Hc1 in Hc2, Hw2, Hh2. fold c in Hok, Hh, Hw2, Hh2.
    wstep. wstep. rewrite Hsub. cbn [or_panic]. rewrite Hr.
    wstep. wstep. rewrite Hrm. cbn [or_panic]. wstep. wstep.
    destruct ok; wstep.
    2:{ split_and!; [split; [done|cbn; lia] | by apply wr_outside_refl
                    | intros [? ?]; by destruct Hh; [|lia|]]. }
    wstep. rewrite Hseg. cbn [or_panic]. wstep. wstep. rewrite Hsub2. cbn [or_panic].
    wstep. wstep. rewrite Hrm2. cbn [or_panic]. rewrite Hr2. wstep. wstep.
    assert (wr_sizes s (mkWrSt d2 rmw2)) by (split; [intros v; cbn; by rewrite Hsz2|cbn; lia]).
    destruct ok2; wstep; split_and!; try done.
    + exists seg, c'. split_and!; try done. replace cur with (cur / ssz * ssz + cur mod ssz) by lia.
      eapply splice_through_sector; [by apply Hok | exact Hsub2 | exact Hw2].
    + intros. apply Hh2; [apply Hh; [done|lia] | lia].
    + eapply wr_outside_written; [done | done | exact Hw2 | intros; lia].
    + intros [? ?]. destruct Hh; [done|lia|]. by destruct Hh2; [|lia|].
Qed.

Lemma wr_sizes_trans s1 s2 s3 : wr_sizes s1 s2 -> wr_sizes s2 s3 -> wr_sizes s1 s3.
Proof. intros [Hs1 ?] [Hs2 ?]. split; [intros v; by rewrite Hs2, Hs1|congruence]. Qed.

(** [s] is [s0] with the first [n] bytes of a write of [src] at [off] done. *)
Definition wr_progress (dev : TargetDevice) (off : Z) (src : bytes) (n : Z) (s0 s : WrSt D) : Prop :=
  wr_sizes s0 s /\
  (exists c, contents (wr_dev s) = set_disk dev c (contents (wr_dev s0)) /\
             patched (disk_of (contents (wr_dev s0)) dev) off src n c) /\
  (healthy (wr_dev s0) -> off + blen src <= blen (disk_of (contents (wr_dev s0)) dev) ->
   healthy (wr_dev s)).

(** A write failed: at most the sectors it covers are damaged. *)
Definition wr_failed (dev : TargetDevice) (off n : Z) (s0 s : WrSt D) : Prop :=
  wr_sizes s0 s /\ wr_outside dev (covered (sector_size (wr_dev s0) dev) off n) s0 s /\
  ~ (healthy (wr_dev s0) /\ off + n <= blen (disk_of (contents (wr_dev s0)) dev)).

Lemma wr_progress_start dev off src (s : WrSt D) : wr_progress dev off src 0 s s.
Proof.
  split_and!; [done | | done]. exists (disk_of (contents (wr_dev s)) dev).
  rewrite set_disk_self. split; [done|]. split_and!; [done | lia |].
  intros i. destruct (Z.leb_spec off i), (Z.ltb_spec i (off + 0)); cbn [andb]; done || lia.
Qed.

(** What a failed piece of the write does after the first [done] bytes. *)
Lemma wr_progress_outside dev off src done (P : Z -> Prop) s0 s s' :
  0 < sector_size (wr_dev s0) dev -> 0 <= off -> 0 <= done <= blen src ->
  wr_progress dev off src done s0 s ->
  wr_outside dev P s s' ->
  (forall i, P i -> covered (sector_size (wr_dev s0) dev) off (blen src) i) ->
  wr_outside dev (covered (sector_size (wr_dev s0) dev) off (blen src)) s0 s'.
Proof.
  intros Hpos Hoff Hdone (_ & (c & Hc & Hp) & _) (c' & Hc' & Hu) HP.
  exists c'. split; [by rewrite Hc', Hc, set_disk_set|].
  rewrite Hc, disk_of_set_eq in Hu.
  eapply unchanged_outside_trans; [|by eapply unchanged_outside_mono].
  eapply unchanged_outside_mono; [|exact (patched_outside _ _ _ _ _ (proj1 Hdone) Hp)].
  intros i Hi. cbv beta in Hi.
  set (ssz := sector_size (wr_dev s0) dev) in *.
  pose proof (sector_cover ssz off (blen src) i Hpos Hoff ltac:(lia)).
  pose proof (Z.mod_pos_bound i ssz Hpos). pose proof (Z.div_mod i ssz ltac:(lia)).
  unfold covered. lia.
Qed.

Lemma write_turns_spec fuel : forall dev ssz src off done (s0 s : WrSt D),
  let n := blen src in
  0 < ssz -> ssz = sector_size (wr_dev s0) dev -> ssz <= blen (wr_rmw s0) ->
  0 <= off -> 0 <= done <= n -> n <= u64_max -> wr_progress dev off src done s0 s ->
  (Z.to_nat (n - done) < fuel)%nat ->
  wp (write_loop fuel dev ssz src done (off + done))
    (fun _ s' => wr_progress dev off src n s0 s')
    (fun _ s' => wr_failed dev off n s0 s') s.
Proof.
  induction fuel as [|fuel IH]; intros dev ssz src off done s0 s n Hpos Hssz Hrmw Hoff Hdone Hn Hp Hf;
    [lia|].
  cbn [write_loop]. fold n. destruct (Z.ltb_spec done n).
  2:{ wstep. by replace n with done by lia. }
  pose proof Hp as ([Hs Hr] & (c & Hc & Hpa) & Hh). pose proof Hpa as (Hl & _).
  pose proof (Z.mod_pos_bound (off + done) ssz Hpos).
  assert (disk_of (contents (wr_dev s)) dev = c) as Hcs by by rewrite Hc, disk_of_set_eq.
  wstep. eapply wp_mono; [by apply write_turn_spec; rewrite ?Hs, ?Hr; fold n; try lia | |];
    cbv beta zeta; rewrite Hcs; fold n;
    set (take := Z.min (ssz - (off + done) mod ssz) (n - done)).
  - intros _ s1 (Hsz1 & (seg & c1 & Hseg & Hc1 & Hcon1) & Hh1).
    assert (0 < take <= n - done) by lia.
    assert (wr_progress dev off src (done + take) s0 s1) as Hp1.
    { split_and!; [by eapply wr_sizes_trans | | intros; apply Hh1; [by apply Hh | fold n; lia]].
      exists c1. split; [by rewrite Hcon1, Hc, set_disk_set|].
      eapply patched_extend; [| |exact Hpa|exact Hseg|exact Hc1]; lia. }
    wstep. wstep. unfold checked_add.
    destruct (Z.leb_spec (off + done + take) u64_max); cbn [ok_or].
    2:{ split_and!; [apply Hp1 | | ].
        - eapply (wr_progress_outside dev off src (done + take) (fun _ => False) s0 s1); try done;
            [lia | lia |]. destruct s1. by apply wr_outside_refl.
        - intros [Hh' Hin]. destruct (fd_healthy_size _ dev Hh') as (_ & _ & Hb). lia. }
    rewrite wadd_small by lia. rewrite <- Z.add_assoc. apply (IH dev ssz src off); done || lia.
  - intros _ s1 (Hsz1 & Hout & Hno). split_and!; [by eapply wr_sizes_trans | |].
    + eapply wr_progress_outside; [lia | done | |exact Hp|exact Hout|]; [lia|]. intros i Hi. cbv beta in Hi.
      pose proof (sector_cover ssz off n (off + done) Hpos Hoff ltac:(lia)).
      unfold covered. rewrite <- Hssz. fold n. lia.
    + intros [? ?]. apply Hno. split; [by apply Hh|lia].
Qed.

(** A successful write replaces exactly the addressed bytes of one device. *)
Lemma write_bytes_spec dev off src (s : WrSt D) :
  0 <= off -> blen src <= u64_max ->
  wp (write_bytes dev off src)
    (fun _ s' => wr_sizes s s' /\
       spec_disk_write (contents (wr_dev s)) dev off src = Some (contents (wr_dev s')) /\
       (healthy (wr_dev s) -> healthy (wr_dev s')))
    (fun _ s' => wr_sizes s s' /\
       wr_outside dev (covered (sector_size (wr_dev s) dev) off (blen src)) s s' /\
       ~ (healthy (wr_dev s) /\ sector_size (wr_dev s) dev <= blen (wr_rmw s) /\
          is_Some (spec_disk_write (contents (wr_dev s)) dev off src))) s.
Proof.
  intros Hoff Hn. pose proof (blen_nonneg src). pose proof (fd_sector_size (wr_dev s) dev).
  unfold write_bytes, spec_disk_write. destruct (Z.eqb_spec (blen src) 0) as [E|E]; [by wstep|].
  wstep. wstep.
  destruct ((sector_size (wr_dev s) dev =? 0) || (blen (wr_rmw s) <? sector_size (wr_dev s) dev)) eqn:Eg.
  { wstep. split_and!; [done | destruct s; by apply wr_outside_refl |].
    intros (Hh & Hr & _). destruct (fd_healthy_size _ dev Hh) as [? _].
    bool_to_prop. destruct Eg; bool_to_prop; lia. }
  bool_to_prop. rewrite <- (Z.add_0_r off) at 1.
  eapply wp_mono; [apply (write_turns_spec _ dev _ src off 0 s s); try done; try lia;
                   apply wr_progress_start | |]; cbv beta zeta.
  - intros _ s' (Hsz & (c & Hc & Hp) & Hh). pose proof Hp as (_ & Hin & _).
    apply patched_splice in Hp; [|lia|lia]. rewrite Hp. cbn. split_and!; [done | by rewrite Hc |].
    intros. apply Hh; [done|lia].
  - intros _ s' (Hsz & Hout & Hno). split_and!; [done..|]. intros (Hh & _ & [k Hk]).
    apply bind_Some in Hk as (c & Hc & _). apply splice_Some in Hc. apply Hno. split; [done|lia].
Qed.

(** ** Fills *)

Lemma slice_filled n v a b : 0 <= a <= b -> b <= n -> slice (filled n v) a b = Some (filled (b - a) v).
Proof.
  intros. rewrite slice_Some_2 by (rewrite ?blen_filled; lia). f_equal. unfold filled.
  rewrite drop_replicate, take_replicate. f_equal. lia.
Qed.

Lemma covered_mono ssz off n off' n' i : 0 < ssz -> 0 <= off <= off' -> off' + n' <= off + n ->
  covered ssz off' n' i -> covered ssz off n i.
Proof.
  intros Hs Ho Hn [Hlo Hhi]. pose proof (Z.div_le_mono off off' ssz Hs ltac:(lia)).
  destruct (div_ceil_spec (off + n) ssz Hs) as [Hc _].
  pose proof (div_ceil_le (off' + n') ssz (div_ceil (off + n) ssz) Hs ltac:(lia)).
  unfold covered. nia.
Qed.

(** Fewer sectors left after each chunk. *)
Lemma div_ceil_chunk n ssz : 0 < ssz -> 0 < n ->
  0 <= div_ceil (n - Z.min n ssz) ssz < div_ceil n ssz.
Proof.
  intros Hs Hn. split; [apply div_ceil_nonneg; lia|].
  destruct (div_ceil_spec n ssz Hs) as [Hc _].
  pose proof (div_ceil_le (n - Z.min n ssz) ssz (div_ceil n ssz - 1) Hs) as Hle.
  assert (0 < div_ceil n ssz) by nia. enough (n - Z.min n ssz <= (div_ceil n ssz - 1) * ssz) by lia.
  destruct (Z.min_spec n ssz) as [[? ->]|[? ->]]; nia.
Qed.

Lemma fill_loop_spec fuel : forall dev ssz off n v fill done (s0 s : WrSt D),
  0 < ssz -> ssz = sector_size (wr_dev s0) dev -> ssz <= blen (wr_rmw s0) ->
  slice fill 0 ssz = Some (filled ssz v) ->
  0 <= off -> 0 <= done <= n -> n <= u64_max ->
  wr_progress dev off (filled n v) done s0 s ->
  (Z.to_nat (div_ceil (n - done) ssz) < fuel)%nat ->
  wp (fill_loop fuel dev off n ssz fill done)
    (fun _ s' => wr_progress dev off (filled n v) n s0 s')
    (fun _ s' => wr_failed dev off n s0 s') s.
Proof.
  induction fuel as [|fuel IH];
    intros dev ssz off n v fill done s0 s Hpos Hssz Hrmw Hfill Hoff Hdone Hn Hp Hf; [lia|].
  cbn [fill_loop]. destruct (Z.ltb_spec done n); [|wstep; assert (done = n) as -> by lia; exact Hp].
  pose proof (blen_filled n v ltac:(lia)) as Hlf.
  pose proof (div_ceil_chunk (n - done) ssz Hpos ltac:(lia)) as Hchunk.
  set (chunk := Z.min (n - done) ssz) in *. assert (0 < chunk <= ssz) by lia.
  pose proof Hp as ([Hs Hr] & (c & Hc & Hpa) & Hh). pose proof Hpa as (Hl & _).
  assert (disk_of (contents (wr_dev s)) dev = c) as Hcs by by rewrite Hc, disk_of_set_eq.
  wstep. wstep. unfold checked_add. destruct (Z.leb_spec (off + done) u64_max); cbn [ok_or].
  2:{ split_and!; [apply Hp | | ].
      - rewrite <- Hlf. eapply (wr_progress_outside dev off _ done (fun _ => False) s0 s); try done;
          [lia | lia |]. destruct s. by apply wr_outside_refl.
      - intros [Hh' Hin]. destruct (fd_healthy_size _ dev Hh') as (_ & _ & Hb). lia. }
  wstep. wstep. replace (slice fill 0 chunk) with (Some (filled chunk v)).
  2:{ pose proof (slice_slice _ _ _ _ 0 chunk Hfill ltac:(lia) ltac:(lia)) as Hsl.
      rewrite !Z.add_0_l in Hsl. rewrite <- Hsl, slice_filled by lia. by rewrite Z.sub_0_r. }
  cbn [or_panic]. pose proof (blen_filled chunk v ltac:(lia)) as Hlc.
  wstep. eapply wp_mono; [apply write_bytes_spec; lia | |]; cbv beta zeta.
  - intros _ s1 (Hsz1 & Hw & Hh1). rewrite wadd_small by lia.
    unfold spec_disk_write in Hw. destruct (Z.eqb_spec (blen (filled chunk v)) 0); [lia|].
    apply bind_Some in Hw as (c1 & Hc1 & [= Hcon1]). rewrite Hcs in Hc1.
    apply (IH dev ssz off n v fill (done + chunk) s0 s1); try done; try lia.
    2:{ replace (n - (done + chunk)) with (n - done - chunk) by lia. lia. }
    split_and!; [by eapply wr_sizes_trans | | auto].
    exists c1. split; [by rewrite <- Hcon1, Hc, set_disk_set|].
    eapply patched_extend; [| |exact Hpa| |exact Hc1]; [lia | lia |].
    rewrite slice_filled by lia. do 2 f_equal. lia.
  - rewrite Hs. intros _ s1 (Hsz1 & Hout & Hno). split_and!; [by eapply wr_sizes_trans | |].
    + rewrite <- Hlf. eapply wr_progress_outside; [lia | done | |exact Hp|exact Hout|]; [lia|].
      intros i Hi. rewrite Hlc in Hi. eapply covered_mono; [lia | | |exact Hi]; lia.
    + intros [? ?]. apply Hno. split_and!; [by apply Hh; rewrite ?Hlf | lia |].
      unfold spec_disk_write. destruct (Z.eqb_spec (blen (filled chunk v)) 0); [lia|].
      destruct (splice_of c (off + done) (filled chunk v)) as (c1 & Hc1 & _); [lia | lia |].
      rewrite Hcs, Hc1. by eexists.
Qed.

(** A successful fill writes [n] copies of the byte. *)
Lemma fill_bytes_spec dev off n v (s : FlSt) :
  0 <= off -> 0 <= n <= u64_max ->
  wp (fill_bytes dev off n v)
    (fun _ s' => wr_sizes (fl_wr s) (fl_wr s') /\ blen (fl_fill s') = blen (fl_fill s) /\
       spec_disk_write (contents (wr_dev (fl_wr s))) dev off (filled n v)
         = Some (contents (wr_dev (fl_wr s'))) /\
       (healthy (wr_dev (fl_wr s)) -> healthy (wr_dev (fl_wr s'))))
    (fun _ s' => wr_sizes (fl_wr s) (fl_wr s') /\ blen (fl_fill s') = blen (fl_fill s) /\
       wr_outside dev (covered (sector_size (wr_dev (fl_wr s)) dev) off n) (fl_wr s) (fl_wr s') /\
       ~ (healthy (wr_dev (fl_wr s)) /\
          sector_size (wr_dev (fl_wr s)) dev <= blen (wr_rmw (fl_wr s)) /\
          sector_size (wr_dev (fl_wr s)) dev <= blen (fl_fill s) /\
          is_Some (spec_disk_write (contents (wr_dev (fl_wr s))) dev off (filled n v)))) s.
Proof.
  intros Hoff Hn. destruct s as [s fill]. cbn [fl_wr fl_fill].
  pose proof (fd_sector_size (wr_dev s) dev). pose proof (blen_filled n v ltac:(lia)) as Hlf.
  unfold fill_bytes, spec_disk_write. rewrite Hlf. destruct (Z.eqb_spec n 0) as [E|E]; [by wstep|].
  wstep. wstep. cbn [fl_wr fl_fill]. set (ssz := sector_size (wr_dev s) dev) in *.
  destruct ((ssz =? 0) || (blen fill <? ssz) || (blen (wr_rmw s) <? ssz)) eqn:Eg.
  { wstep. split_and!; try done; [destruct s; by apply wr_outside_refl|].
    intros (Hh & Hr & Hf & _). destruct (fd_healthy_size _ dev Hh) as [Hz _]. fold ssz in Hz.
    bool_to_prop. destruct Eg as [Eg|Eg]; bool_to_prop; [destruct Eg; bool_to_prop|]; lia. }
  bool_to_prop. pose proof (blen_filled ssz v ltac:(lia)) as Hls.
  destruct (splice_of fill 0 (filled ssz v)) as (fill' & Hfill & Hfl); [lia | lia |].
  wstep. wstep. rewrite Hfill. cbn [or_panic]. wstep. wstep.
  pose proof (slice_splice_eq _ _ _ _ Hfill) as Hsl. rewrite Hls, Z.add_0_l in Hsl.
  pose proof (fill_loop_spec (S (Z.to_nat (div_ceil n ssz))) dev ssz off n v fill' 0 s s
    ltac:(lia) eq_refl ltac:(lia) Hsl Hoff ltac:(lia) ltac:(lia)
    (wr_progress_start _ _ _ _) ltac:(rewrite Z.sub_0_r; lia)) as Hw.
  unfold wp in *. unfold on_wr. cbn [fl_wr].
  destruct (fill_loop _ _ _ _ _ _ _ s) as [[u|e| |] s']; try done; cbn [fl_wr fl_fill].
  - destruct Hw as (Hsz & (c & Hc & Hp) & Hh). rewrite Hlf in Hh. pose proof Hp as (_ & Hin & _).
    rewrite <- Hlf in Hp at 2. apply patched_splice in Hp; [|lia|lia]. rewrite Hp. cbn.
    split_and!; [done | done | by rewrite Hc |]. intros. apply Hh; [done|lia].
  - destruct Hw as (Hsz & Hout & Hno). split_and!; try done. intros (Hh & _ & _ & [k Hk]).
    apply bind_Some in Hk as (c & Hc & _). apply splice_Some in Hc. apply Hno. split; [done|lia].
Qed.

End flat.
