(* ===== verification/ExecProps.v ===== *)
(** The interpreter of step programs implements the abstract machine: a window
    that executes did exactly what the [StepKind] contracts say, a window that
    fails did all the steps before the failing one, and damage is confined to
    that step's own ranges; on healthy devices the interpreter fails only where
    the abstract machine has no step. *)

From stdpp Require Import base numbers list sets option.
From Stdlib Require Import ZArith Lia.
From S2P Require Import Prelude Bytes Refcount Qcow2 WriteTypes Exec ExecSpec ExecBytes.

(** ** Well-formed regions and steps *)

(** Buffers live in memory: their lengths are machine words. *)
Definition regions_fit (r : Regions) : Prop :=
  (forall id, blen (region_buf r id) <= u64_max) /\ 0 <= rg_cluster_size r <= u64_max.

(** The fields of a step are unsigned words. *)
Definition step_ok (x : Step) : Prop :=
  0 <= region_offset x <= u64_max /\ 0 <= disk_offset x <= u64_max /\ 0 <= len x <= u64_max /\
  match region x with RL2Slot slot => 0 <= slot | _ => True end.

Lemma region_buf_set id b r : region_buf (set_region_buf id b r) id = b.
Proof. by destruct r, id. Qed.

Lemma region_buf_set_blen id b r v :
  blen b = blen (region_buf r id) -> blen (region_buf (set_region_buf id b r) v) = blen (region_buf r v).
Proof. by destruct r, id, v. Qed.

Lemma drop_service_set_rmw b r : drop_service (set_rmw b r) = drop_service r.
Proof. by destruct r. Qed.
Lemma drop_service_set_fill b r : drop_service (set_fill b r) = drop_service r.
Proof. by destruct r. Qed.
Lemma drop_service_set_buf id b r :
  drop_service (set_region_buf id b r) = set_region_buf id b (drop_service r).
Proof. by destruct r, id. Qed.
Lemma drop_service_window id r : region_window (drop_service r) id = region_window r id.
Proof. by destruct r, id. Qed.
Lemma drop_service_buf id r : region_buf (drop_service r) id = region_buf r id.
Proof. by destruct r, id. Qed.
Lemma drop_service_cs r : rg_cluster_size (drop_service r) = rg_cluster_size r.
Proof. by destruct r. Qed.
Lemma drop_service_fit r : regions_fit (drop_service r) <-> regions_fit r.
Proof. unfold regions_fit. rewrite drop_service_cs. by setoid_rewrite drop_service_buf. Qed.

#[export] Hint Rewrite drop_service_set_rmw drop_service_set_fill drop_service_set_buf
  drop_service_window drop_service_buf drop_service_cs : instar.

(** ** Region resolution *)

(** [resolve] finds a range exactly when the region has it, and then reads and
    writes through the range are reads and writes of the region's own window. *)
Definition resolves (r : Regions) (id : RegionId) (off n : Z) (a b : Z) : Prop :=
  0 <= a <= b /\ b = a + n /\ b <= blen (region_buf r id) /\
  slice (region_buf r id) a b = spec_region_read r id off n /\
  forall data, blen data = n -> exists buf,
    splice (region_buf r id) a data = Some buf /\
    spec_region_write r id off data = Some (set_region_buf id buf r).

Lemma resolve_flat r id off n :
  0 <= off -> 0 <= n -> off + n <= blen (region_buf r id) ->
  match id with RL2Slot _ => False | _ => True end ->
  resolves r id off n off (off + n).
Proof.
  intros Ho Hn Hin Hid. split_and!; try lia; [by destruct id|].
  intros data Hd. destruct (splice_of (region_buf r id) off data) as (buf & Hs & _); [lia | lia |].
  exists buf. split; [done|]. unfold spec_region_write, region_window, set_region_window.
  destruct id; try done; by cbn [region_buf mbind option_bind] in *; rewrite Hs.
Qed.

Lemma resolve_slot r slot off n :
  let cs := rg_cluster_size r in
  0 <= off -> 0 <= n -> off + n <= cs -> 0 <= slot -> 0 < cs ->
  blen (rg_l2_window r) mod cs = 0 -> slot * cs + cs <= blen (rg_l2_window r) ->
  resolves r (RL2Slot slot) off n (slot * cs + off) (slot * cs + (off + n)).
Proof.
  intros cs Ho Hn Hin Hslot Hcs Hmod Hw. assert (0 <= slot * cs) by nia.
  destruct (slice_of (rg_l2_window r) (slot * cs) (slot * cs + cs)) as (w & Hsl & Hwl); [lia | lia |].
  assert (region_window r (RL2Slot slot) = Some w) as Hrw.
  { unfold region_window. fold cs. destruct (Z.eqb_spec cs 0); [lia|].
    rewrite (proj2 (Z.eqb_eq _ 0) Hmod). done. }
  split_and!; cbn [region_buf]; try lia.
  - unfold spec_region_read. rewrite Hrw. cbn [mbind option_bind].
    by rewrite (slice_slice _ _ _ _ _ _ Hsl) by lia.
  - intros data Hd. destruct (splice_of w off data) as (w' & Hw' & Hl'); [lia | lia |].
    destruct (splice_of (rg_l2_window r) (slot * cs) w') as (buf & Hb & _); [lia | lia |].
    exists buf. split; [by eapply splice_through_sector|].
    unfold spec_region_write. rewrite Hrw. cbn [mbind option_bind]. rewrite Hw'.
    cbn [mbind option_bind set_region_window]. fold cs. by rewrite Hb.
Qed.

Definition no_range (r : Regions) (id : RegionId) (off n : Z) : Prop :=
  spec_region_read r id off n = None /\
  forall data, blen data = n -> spec_region_write r id off data = None.

Lemma no_range_window r id off n : 0 <= n ->
  (forall w, region_window r id = Some w -> blen w < off + n) -> no_range r id off n.
Proof.
  intros Hn Hw. unfold no_range, spec_region_read, spec_region_write.
  destruct (region_window r id) as [w|]; [|done]. specialize (Hw w eq_refl).
  cbn [mbind option_bind]. split.
  - unfold slice. destruct (Z.leb_spec (off + n) (blen w)); [lia|]. by rewrite andb_false_r.
  - intros data Hd. unfold splice. destruct (Z.leb_spec (off + blen data) (blen w)); [lia|].
    by rewrite andb_false_r.
Qed.

(** What [resolve] promises of its result. *)
Definition resolve_result (r : Regions) (id : RegionId) (off n : Z)
    (m : outcome ExecCause (Z * Z)) : Prop :=
  match m with
  | Ok (a, b) => resolves r id off n a b
  | Err _ => no_range r id off n
  | _ => False
  end.

Lemma resolve_rest_flat r id off n :
  blen (region_buf r id) <= u64_max -> 0 <= off -> 0 <= n ->
  match id with RL2Slot _ => False | _ => True end ->
  resolve_result r id off n
    (let? e := ok_or (checked_add off n) Overflow in
     if blen (region_buf r id) <? e then Err RegionBounds else Ok (wadd 0 off, wadd 0 e)).
Proof.
  intros Hlen Ho Hn Hid.
  assert (region_window r id = Some (region_buf r id)) as Hw by by destruct id.
  assert (blen (region_buf r id) < off + n -> no_range r id off n).
  { intros. apply no_range_window; [done|]. rewrite Hw. by intros w [= <-]. }
  unfold checked_add. destruct (Z.leb_spec (off + n) u64_max); cbn [ok_or obind]; [|cbn; auto with lia].
  destruct (Z.ltb_spec (blen (region_buf r id)) (off + n)); cbn; [auto|].
  rewrite !wadd_small, !Z.add_0_l by lia. by apply resolve_flat.
Qed.

(** A slot inside a well-formed window. *)
Lemma resolve_rest_slot r slot off n :
  let cs := rg_cluster_size r in
  blen (rg_l2_window r) <= u64_max -> cs <= u64_max -> 0 <= off -> 0 <= n -> 0 <= slot -> 0 < cs ->
  blen (rg_l2_window r) mod cs = 0 -> slot < blen (rg_l2_window r) / cs ->
  resolve_result r (RL2Slot slot) off n
    (let? e := ok_or (checked_add off n) Overflow in
     if cs <? e then Err RegionBounds else Ok (wadd (wmul slot cs) off, wadd (wmul slot cs) e)).
Proof.
  intros cs Hlen Hcs Ho Hn Hslot Hpos Hmod Hlt.
  pose proof (Z.div_mod (blen (rg_l2_window r)) cs ltac:(lia)).
  assert (slot * cs + cs <= blen (rg_l2_window r)) by nia. assert (0 <= slot * cs) by nia.
  assert (cs < off + n -> no_range r (RL2Slot slot) off n).
  { intros. apply no_range_window; [done|]. unfold region_window. fold cs.
    rewrite (proj2 (Z.eqb_neq cs 0)), Hmod by lia. cbn. intros w Hw%slice_blen. lia. }
  unfold checked_add. destruct (Z.leb_spec (off + n) u64_max); cbn [ok_or obind]; [|cbn; auto with lia].
  destruct (Z.ltb_spec cs (off + n)); cbn; [auto|].
  rewrite wmul_small, !wadd_small by lia. apply resolve_slot; done || lia.
Qed.

Lemma resolve_spec r id off n :
  regions_fit r -> 0 <= off -> 0 <= n ->
  match id with RL2Slot slot => 0 <= slot | _ => True end ->
  resolve_result r id off n (resolve r id off n).
Proof.
  intros [Hfit Hcs] Ho Hn Hid. pose proof (Hfit id) as Hlen. unfold resolve.
  destruct id as [|slot| | | |]; cbn [obind]; try by apply resolve_rest_flat.
  cbn [region_buf] in Hlen. set (cs := rg_cluster_size r) in *.
  unfold is_multiple_of. destruct (Z.eqb_spec cs 0) as [E|E].
  { cbn. apply no_range_window; [done|]. unfold region_window. fold cs. by rewrite E. }
  cbn [orb]. destruct (Z.eqb_spec (blen (rg_l2_window r) mod cs) 0) as [Em|Em]; cbn [negb].
  2:{ cbn. apply no_range_window; [done|]. unfold region_window. fold cs.
      by rewrite (proj2 (Z.eqb_neq cs 0) E), (proj2 (Z.eqb_neq _ 0) Em). }
  unfold udiv. rewrite (proj2 (Z.eqb_neq cs 0) E). cbn [obind].
  pose proof (Z.div_mod (blen (rg_l2_window r)) cs E).
  destruct (Z.leb_spec (blen (rg_l2_window r) / cs) slot); cbn [obind].
  { cbn. apply no_range_window; [done|]. unfold region_window. fold cs.
    rewrite (proj2 (Z.eqb_neq cs 0) E), Em. cbn. intros w Hw%slice_Some. nia. }
  apply resolve_rest_slot; done || lia.
Qed.

(** ** One step *)

Section interpreter.
Context {D : Type} `{FlatDisk D}.

(** The abstract state behind the executor's memory. *)
Definition view (s : ExSt D) : Flat := (drop_service (ex_regions s), contents (ex_dev s)).

(** The service sectors are at least a sector of each device. *)
Definition serviceable (r : Regions) (d : D) : Prop :=
  forall dev, sector_size d dev <= blen (rg_rmw_sector r) /\ sector_size d dev <= blen (rg_fill_sector r).

(** Buffer lengths, cluster size and sector sizes never change. *)
Definition ex_frame (s s' : ExSt D) : Prop :=
  (forall v, sector_size (ex_dev s') v = sector_size (ex_dev s) v) /\
  (forall id, blen (region_buf (ex_regions s') id) = blen (region_buf (ex_regions s) id)) /\
  blen (rg_rmw_sector (ex_regions s')) = blen (rg_rmw_sector (ex_regions s)) /\
  blen (rg_fill_sector (ex_regions s')) = blen (rg_fill_sector (ex_regions s)) /\
  rg_cluster_size (ex_regions s') = rg_cluster_size (ex_regions s).

(** What a failing step may have changed: its own region range, and the sectors
    of its own device that its disk range covers. *)
Definition step_damage (ssz : Z) (x : Step) (s s' : Flat) : Prop :=
  (s'.1 = s.1 \/ exists w, blen w = len x /\
                   spec_region_write s.1 (region x) (region_offset x) w = Some s'.1) /\
  exists c, s'.2 = set_disk (device x) c s.2 /\
            unchanged_outside (covered ssz (disk_offset x) (len x)) (disk_of s.2 (device x)) c.

Definition step_done (spec : Flat -> option Flat) (s s' : ExSt D) : Prop :=
  ex_frame s s' /\ spec (view s) = Some (view s') /\ ex_stats s' = ex_stats s /\
  (healthy (ex_dev s) -> healthy (ex_dev s')).

Definition step_failed (x : Step) (spec : Flat -> option Flat) (s s' : ExSt D) : Prop :=
  ex_frame s s' /\ step_damage (sector_size (ex_dev s) (device x)) x (view s) (view s') /\
  ~ (healthy (ex_dev s) /\ serviceable (ex_regions s) (ex_dev s) /\ is_Some (spec (view s))).

Lemma ex_frame_refl s : ex_frame s s.
Proof. done. Qed.

Lemma ex_frame_trans s1 s2 s3 : ex_frame s1 s2 -> ex_frame s2 s3 -> ex_frame s1 s3.
Proof.
  intros (Ha & Hb & ? & ? & ?) (Ha' & Hb' & ? & ? & ?).
  split_and!; [intros v; by rewrite Ha' | intros v; by rewrite Hb' | congruence..].
Qed.

Lemma step_damage_refl ssz x f : step_damage ssz x f f.
Proof.
  split; [by left|]. exists (disk_of f.2 (device x)). by rewrite set_disk_self.
Qed.

(** A step that refuses before it does anything. *)
Lemma step_refused x spec s : spec (view s) = None -> step_failed x spec s s.
Proof.
  intros Hn. split_and!; [apply ex_frame_refl | apply step_damage_refl |].
  rewrite Hn. intros (_ & _ & [? ?]). done.
Qed.

Lemma spec_region_read_drop r id off n :
  spec_region_read (drop_service r) id off n = spec_region_read r id off n.
Proof. unfold spec_region_read. by rewrite drop_service_window. Qed.

Lemma spec_region_write_drop r id off data :
  spec_region_write (drop_service r) id off data
  = drop_service <$> spec_region_write r id off data.
Proof.
  unfold spec_region_write. rewrite drop_service_window.
  destruct (region_window r id) as [w|]; [|done]. cbn [mbind option_bind].
  destruct (splice w off data) as [w'|]; [|done]. cbn [mbind option_bind].
  unfold set_region_window. destruct r, id; try done. cbn.
  by destruct (splice _ _ _).
Qed.

Lemma frame_in r id buf rmw d d' st :
  (forall v, sector_size d' v = sector_size d v) -> blen buf = blen (region_buf r id) ->
  blen rmw = blen (rg_rmw_sector r) ->
  ex_frame (mkExSt r d st) (mkExSt (set_rmw rmw (set_region_buf id buf r)) d' st).
Proof.
  intros Hs Hb Hr. split_and!; cbn; try done; try by destruct r, id.
  intros v. rewrite <- (region_buf_set_blen id buf r v Hb). by destruct r, id, v.
Qed.

Lemma frame_service r rmw fill d d' st :
  (forall v, sector_size d' v = sector_size d v) -> blen rmw = blen (rg_rmw_sector r) ->
  blen fill = blen (rg_fill_sector r) ->
  ex_frame (mkExSt r d st) (mkExSt (set_fill fill (set_rmw rmw r)) d' st).
Proof. intros Hs Hb Hr. split_and!; cbn; try done; try by destruct r. Qed.

Lemma transfer_in_spec x s : regions_fit (ex_regions s) -> step_ok x ->
  wp (transfer_in x) (fun _ => step_done (spec_in x) s) (fun _ => step_failed x (spec_in x) s) s.
Proof.
  intros Hfit (Hro & Hdo & Hlen & Hslot). destruct s as [r d st]. cbn [ex_regions] in Hfit.
  unfold transfer_in. wstep. wstep. cbn [ex_regions ex_dev ex_stats].
  pose proof (resolve_spec r (region x) (region_offset x) (len x) Hfit
    ltac:(lia) ltac:(lia) Hslot) as Hres.
  wstep. wstep. unfold resolve_result in Hres.
  destruct (resolve r _ _ _) as [[a b]|e| |]; [| |done|done].
  2:{ apply step_refused. cbn [spec_in view ex_regions ex_dev]. destruct Hres as [_ Hw].
      destruct (spec_disk_read _ _ _ _) as [y|] eqn:Ey; [|done]. cbn [mbind option_bind].
      rewrite spec_region_write_drop, Hw; [done|]. unfold spec_disk_read in Ey.
      destruct (Z.eqb_spec (len x) 0); [by simplify_eq|]. rewrite (slice_blen _ _ _ _ Ey). lia. }
  destruct Hres as (Hab & -> & Hb & Hrd & Hwr).
  destruct (slice_of (region_buf r (region x)) a (a + len x)) as (dst & Hdst & Hdl); [lia | done |].
  wstep. wstep. rewrite Hdst. cbn [or_panic].
  pose proof (read_bytes_spec (device x) (disk_offset x) (mkRdSt d dst (rg_rmw_sector r))
    ltac:(lia) ltac:(cbn; lia)) as Hrb.
  cbn [rd_dst rd_dev rd_rmw] in Hrb. replace (blen dst) with (len x) in Hrb by lia.
  unfold wp in Hrb at 1. destruct (read_bytes _ _ _) as [res s'].
  assert (rd_frame (mkRdSt d dst (rg_rmw_sector r)) s') as ([Hc Hs] & Hld & Hlr)
    by (destruct res; tauto).
  cbn [rd_dst rd_dev rd_rmw] in *. destruct (Hwr (rd_dst s')) as (buf & Hsp & Hspec); [lia|].
  wstep. wstep. rewrite Hsp. cbn [or_panic]. wstep. wstep. wstep.
  assert (ex_frame (mkExSt r d st) (mkExSt (set_rmw (rd_rmw s') (set_region_buf (region x) buf r))
                                     (rd_dev s') st)) as Hfr.
  { apply frame_in; [done | by eapply splice_blen | done]. }
  destruct res as [u|e| |]; [| |done|done].
  - destruct Hrb as (_ & Hread & Hh). split_and!; try done.
    cbn [spec_in view ex_regions ex_dev]. rewrite Hread. cbn [mbind option_bind].
    rewrite spec_region_write_drop, Hspec. unfold view. cbn [ex_regions ex_dev].
    by rewrite drop_service_set_rmw, Hc.
  - destruct Hrb as (_ & Hno). split_and!; try done.
    + split.
      * right. exists (rd_dst s'). split; [lia|]. cbn [view ex_regions fst].
        by rewrite spec_region_write_drop, Hspec, drop_service_set_rmw.
      * exists (disk_of (contents d) (device x)). cbn [view snd ex_dev]. by rewrite Hc, set_disk_self.
    + intros (Hh & Hsv & [f Hf]). apply Hno. split_and!; [done | apply Hsv |].
      cbn [spec_in view ex_regions ex_dev] in Hf. apply bind_Some in Hf as (y & Hy & _). eauto.
Qed.

(** A write's damage, seen from the interpreter. *)
Lemma damage_of_write ssz x r d st rmw rmw' fill fill' s' :
  wr_outside (device x) (covered ssz (disk_offset x) (len x)) (mkWrSt d rmw) s' ->
  step_damage ssz x (view (mkExSt r d st))
    (view (mkExSt (set_fill fill (set_rmw rmw' (set_fill fill' r))) (wr_dev s') st)).
Proof.
  intros (c & Hc & Hu). split.
  - left. cbn [view fst ex_regions]. by rewrite drop_service_set_fill, drop_service_set_rmw, drop_service_set_fill.
  - exists c. done.
Qed.

Lemma set_fill_self r : set_fill (rg_fill_sector r) r = r.
Proof. by destruct r. Qed.

Lemma set_fill_rmw_self r rmw : set_fill (rg_fill_sector r) (set_rmw rmw r) = set_rmw rmw r.
Proof. by destruct r. Qed.

Lemma transfer_out_spec x s : regions_fit (ex_regions s) -> step_ok x ->
  wp (transfer_out x) (fun _ => step_done (spec_out x) s) (fun _ => step_failed x (spec_out x) s) s.
Proof.
  intros Hfit (Hro & Hdo & Hlen & Hslot). destruct s as [r d st]. cbn [ex_regions] in Hfit.
  unfold transfer_out. wstep. wstep. cbn [ex_regions ex_dev ex_stats].
  pose proof (resolve_spec r (region x) (region_offset x) (len x) Hfit
    ltac:(lia) ltac:(lia) Hslot) as Hres.
  wstep. wstep. unfold resolve_result in Hres.
  destruct (resolve r _ _ _) as [[a b]|e| |]; [| |done|done].
  2:{ apply step_refused. unfold view. cbn [spec_out ex_regions ex_dev]. destruct Hres as [Hr _].
      by rewrite spec_region_read_drop, Hr. }
  destruct Hres as (Hab & -> & Hb & Hrd & _).
  destruct (slice_of (region_buf r (region x)) a (a + len x)) as (src & Hsrc & Hsl); [lia | done |].
  wstep. wstep. rewrite Hsrc in *. cbn [or_panic].
  pose proof (write_bytes_spec (device x) (disk_offset x) src (mkWrSt d (rg_rmw_sector r))
    ltac:(lia) ltac:(lia)) as Hwb.
  cbn [wr_dev wr_rmw] in Hwb. replace (blen src) with (len x) in Hwb by lia.
  unfold wp in Hwb at 1. destruct (write_bytes _ _ _ _) as [res s'].
  assert (wr_sizes (mkWrSt d (rg_rmw_sector r)) s') as [Hs Hlr] by (destruct res; tauto).
  cbn [wr_dev wr_rmw] in *. wstep. wstep. wstep.
  assert (ex_frame (mkExSt r d st) (mkExSt (set_rmw (wr_rmw s') r) (wr_dev s') st)) as Hfr.
  { rewrite <- (set_fill_rmw_self r). by apply frame_service. }
  assert (spec_out x (view (mkExSt r d st)) =
          k ← spec_disk_write (contents d) (device x) (disk_offset x) src;
          Some (drop_service r, k)) as Hspec.
  { unfold view. cbn [spec_out ex_regions ex_dev]. by rewrite spec_region_read_drop, <- Hrd. }
  destruct res as [u|e| |]; [| |done|done].
  - destruct Hwb as (_ & Hw & Hh). split_and!; try done.
    rewrite Hspec, Hw. unfold view. cbn. by rewrite drop_service_set_rmw.
  - destruct Hwb as (_ & Hout & Hno). split_and!; try done.
    + pose proof (damage_of_write _ x r d st _ (wr_rmw s') (rg_fill_sector r) (rg_fill_sector r) s' Hout)
        as Hdm. by rewrite set_fill_self, set_fill_rmw_self in Hdm.
    + rewrite Hspec. intros (Hh & Hsv & [f Hf]). apply Hno. split_and!; [done | apply Hsv |].
      apply bind_Some in Hf as (y & Hy & _). eauto.
Qed.

Lemma exec_fill_spec x v s : step_ok x ->
  let spec := fun f : Flat => k ← spec_disk_write f.2 (device x) (disk_offset x) (filled (len x) v);
                              Some (f.1, k) in
  wp (exec_fill x v) (fun _ => step_done spec s) (fun _ => step_failed x spec s) s.
Proof.
  intros (Hro & Hdo & Hlen & Hslot) spec. destruct s as [r d st].
  unfold exec_fill. wstep. wstep. cbn [ex_regions ex_dev ex_stats].
  pose proof (fill_bytes_spec (device x) (disk_offset x) (len x) v
    (mkFlSt (mkWrSt d (rg_rmw_sector r)) (rg_fill_sector r)) ltac:(lia) ltac:(lia)) as Hfb.
  cbn [wr_dev wr_rmw fl_wr fl_fill] in Hfb.
  unfold wp in Hfb at 1. destruct (fill_bytes _ _ _ _ _) as [res s'].
  assert (wr_sizes (mkWrSt d (rg_rmw_sector r)) (fl_wr s') /\
          blen (fl_fill s') = blen (rg_fill_sector r)) as [[Hs Hlr] Hlf] by (destruct res; tauto).
  cbn [wr_dev wr_rmw] in *. wstep. wstep. wstep.
  assert (ex_frame (mkExSt r d st) (mkExSt (set_fill (fl_fill s') (set_rmw (wr_rmw (fl_wr s')) r))
                                      (wr_dev (fl_wr s')) st)) as Hfr by by apply frame_service.
  destruct res as [u|e| |]; [| |done|done].
  - destruct Hfb as (_ & _ & Hw & Hh). split_and!; try done.
    unfold spec, view. cbn [fst snd ex_dev ex_regions]. rewrite Hw. cbn.
    by rewrite drop_service_set_fill, drop_service_set_rmw.
  - destruct Hfb as (_ & _ & Hout & Hno). split_and!; try done.
    + pose proof (damage_of_write _ x r d st _ (wr_rmw (fl_wr s')) (fl_fill s') (rg_fill_sector r) _ Hout)
        as Hdm. by rewrite set_fill_self in Hdm.
    + intros (Hh & Hsv & [f Hf]). apply Hno. split_and!; [done | apply Hsv | apply Hsv |].
      apply bind_Some in Hf as (y & Hy & _). eauto.
Qed.

(** Memory steps: a patch of a region's own window. *)
Lemma patch_spec x n (bytes_for : Z -> Z -> bytes) data s :
  regions_fit (ex_regions s) -> step_ok x -> blen data = n -> 0 <= n ->
  (forall a, bytes_for a (a + n) = data) ->
  let spec := fun f : Flat => r ← spec_region_write f.1 (region x) (region_offset x) data;
                              Some (r, f.2) in
  wp (let! st := sget in
      let! (a, b) := slift (resolve (ex_regions st) (region x) (region_offset x) n) in
      patch_region (region x) a (bytes_for a b))
    (fun _ => step_done spec s) (fun _ => step_failed x spec s) s.
Proof.
  intros Hfit (Hro & Hdo & Hlen & Hslot) Hn Hpos Hfor spec. destruct s as [r d st]. cbn [ex_regions] in Hfit.
  wstep. wstep. cbn [ex_regions ex_dev ex_stats].
  pose proof (resolve_spec r (region x) (region_offset x) n Hfit ltac:(lia) ltac:(lia) Hslot) as Hres.
  wstep. wstep. unfold resolve_result in Hres. unfold step_done, step_failed.
  destruct (resolve r _ _ _) as [[a b]|e| |]; [| |done|done].
  - destruct Hres as (Hab & -> & Hb & _ & Hwr). destruct (Hwr data Hn) as (buf & Hsp & Hspec).
    rewrite Hfor. unfold patch_region. wstep. wstep. cbn [ex_regions ex_dev ex_stats]. wstep. wstep.
    rewrite Hsp. cbn [or_panic]. wstep. split_and!; try done.
    + pose proof (frame_in r (region x) buf (rg_rmw_sector r) d d st ltac:(done)
        ltac:(by eapply splice_blen) ltac:(done)) as Hfr.
      by replace (set_rmw (rg_rmw_sector r) (set_region_buf (region x) buf r))
        with (set_region_buf (region x) buf r) in Hfr by by destruct r, (region x).
    + unfold spec, view. cbn [fst snd ex_dev ex_regions]. by rewrite spec_region_write_drop, Hspec.
  - apply step_refused. unfold spec, view. cbn [fst snd ex_dev ex_regions]. destruct Hres as [_ Hw].
    by rewrite spec_region_write_drop, Hw.
Qed.

(** The whole-cluster contract of [LoadCluster] and [WritebackCluster]. *)
Lemma whole_cluster_spec x (m : SM (ExSt D) ExecCause unit) spec s :
  wp m (fun _ => step_done spec s) (fun _ => step_failed x spec s) s ->
  let spec' := fun f : Flat =>
    if negb (rg_cluster_size f.1 =? 0) && (len x =? rg_cluster_size f.1) then spec f else None in
  wp (do! check_whole_cluster x in m)
    (fun _ => step_done spec' s) (fun _ => step_failed x spec' s) s.
Proof.
  intros Hm spec'. unfold check_whole_cluster. wstep. wstep. wstep.
  assert (rg_cluster_size (view s).1 = rg_cluster_size (ex_regions s)) as Hcs
    by apply drop_service_cs.
  destruct (rg_cluster_size (ex_regions s) =? 0) eqn:E0.
  { wstep. apply step_refused. unfold spec'. by rewrite Hcs, E0. }
  destruct (len x =? rg_cluster_size (ex_regions s)) eqn:E1; cbn [negb].
  2:{ wstep. apply step_refused. unfold spec'. by rewrite Hcs, E0, E1. }
  wstep. assert (spec' (view s) = spec (view s)) as Heq by (unfold spec'; by rewrite Hcs, E0, E1).
  unfold step_done, step_failed in *. by rewrite Heq.
Qed.

(** What a successful step does to the counters. *)
Definition stats_after (x : Step) (st st' : ExecStats) : Prop :=
  steps_executed st' = steps_executed st /\
  (fsyncs st' = fsyncs st \/
   kind x = Barrier BDurability /\ fsyncs st' = wadd (fsyncs st) 1).

Lemma exec_barrier_spec x class s : kind x = Barrier class ->
  wp (exec_barrier x class)
    (fun _ s' => ex_frame s s' /\ view s' = view s /\ stats_after x (ex_stats s) (ex_stats s') /\
                 (healthy (ex_dev s) -> healthy (ex_dev s')))
    (fun _ s' => ex_frame s s' /\ view s' = view s /\ ~ healthy (ex_dev s)) s.
Proof.
  intros Hk. unfold exec_barrier. destruct class; wstep; [split_and!; try done; by split; [|left]|]. wstep.
  pose proof (fd_fsync (device x) (ex_dev s)) as Hf.
  destruct (fsync (device x) (ex_dev s)) as [o d']. destruct Hf as (Hc & Hs & Hh). wstep. wstep.
  assert (forall st, ex_frame s (mkExSt (ex_regions s) d' st)) by (intros; by split_and!).
  assert (forall st, view (mkExSt (ex_regions s) d' st) = view s) by (intros; unfold view; cbn; by rewrite Hc).
  destruct o as [[]|]; wstep; split_and!; auto; try (split; auto); try tauto.
Qed.

Lemma exec_step_spec x s : regions_fit (ex_regions s) -> step_ok x ->
  wp (exec_step x)
    (fun _ s' => ex_frame s s' /\ spec_step x (view s) = Some (view s') /\
                 stats_after x (ex_stats s) (ex_stats s') /\
                 (healthy (ex_dev s) -> healthy (ex_dev s')))
    (fun _ s' => step_failed x (spec_step x) s s') s.
Proof.
  intros Hfit Hx.
  assert (forall spec (m : SM (ExSt D) ExecCause unit),
    (forall f, spec_step x f = spec f) ->
    wp m (fun _ => step_done spec s) (fun _ => step_failed x spec s) s ->
    wp m (fun _ s' => ex_frame s s' /\ spec_step x (view s) = Some (view s') /\
                      stats_after x (ex_stats s) (ex_stats s') /\
                      (healthy (ex_dev s) -> healthy (ex_dev s')))
         (fun _ s' => step_failed x (spec_step x) s s') s) as Hstep.
  { intros spec m Heq Hm. eapply wp_mono; [exact Hm | |]; intros ? s'.
    - intros (Hfr & Hsp & Hst & Hh). rewrite Heq, Hst. split_and!; try done. split; auto.
    - unfold step_failed. by rewrite Heq. }
  pose proof Hx as (_ & _ & Hlen & _).
  unfold exec_step, spec_step in *. destruct (kind x) as [| | | | | | | |class] eqn:Hk.
  9:{ eapply wp_mono; [by apply exec_barrier_spec | |]; intros ? s'.
    - intros (Hfr & Hv & Hst & Hh). by rewrite Hv.
    - intros (Hfr & Hv & Hno). split_and!; [done | rewrite Hv; apply step_damage_refl | tauto]. }
  all: eapply Hstep; [intros f; reflexivity|].
  - by apply transfer_in_spec.
  - by apply transfer_out_spec.
  - by apply exec_fill_spec.
  - by apply exec_fill_spec.
  - by apply (patch_spec x 8 (fun _ _ => be_bytes 8 (value x))); rewrite ?blen_be_bytes.
  - by apply whole_cluster_spec, transfer_in_spec.
  - by apply whole_cluster_spec, transfer_out_spec.
  - apply (patch_spec x (len x) (fun a b => filled (b - a) 0)); try done; [apply blen_filled; lia|lia|].
    intros a. f_equal. lia.
Qed.

(** ** Windows of steps *)

Lemma ex_frame_fit s s' : ex_frame s s' -> regions_fit (ex_regions s) -> regions_fit (ex_regions s').
Proof.
  intros (_ & Hb & _ & _ & Hcs) [Hf Hc]. split; [|by rewrite Hcs]. intros id. by rewrite Hb.
Qed.

Lemma ex_frame_serviceable s s' : ex_frame s s' ->
  serviceable (ex_regions s) (ex_dev s) -> serviceable (ex_regions s') (ex_dev s').
Proof. intros (Hs & _ & Hr & Hf & _) Hsv dev. rewrite Hs, Hr, Hf. apply Hsv. Qed.

(** A window failed at [step_index]: the steps before it are done, the step there
    left its damage, and the device or the buffers were at fault unless the
    abstract machine is stuck too. *)
Definition window_failed (i : Z) (steps : list Step) (s : ExSt D) (e : ExecError) (s' : ExSt D) : Prop :=
  exists pre x post mid, steps = pre ++ x :: post /\ step_index e = i + Z.of_nat (length pre) /\
    spec_steps pre (view s) = Some mid /\
    step_damage (sector_size (ex_dev s) (device x)) x mid (view s') /\
    ~ (healthy (ex_dev s) /\ serviceable (ex_regions s) (ex_dev s) /\
       is_Some (spec_steps steps (view s))).

Definition window_done (steps : list Step) (s s' : ExSt D) : Prop :=
  ex_frame s s' /\ spec_steps steps (view s) = Some (view s') /\
  steps_executed (ex_stats s') = steps_executed (ex_stats s) + Z.of_nat (length steps) /\
  fsyncs (ex_stats s) <= fsyncs (ex_stats s') <= fsyncs (ex_stats s) + durability_barriers steps /\
  (healthy (ex_dev s) -> healthy (ex_dev s')).

Lemma durability_barriers_cons x rest :
  durability_barriers (x :: rest) =
  (if decide (kind x = Barrier BDurability) then 1 else 0) + durability_barriers rest.
Proof.
  unfold durability_barriers. rewrite filter_cons.
  destruct (decide (kind x = Barrier BDurability)); cbn [length]; lia.
Qed.

Lemma stats_after_bound x rest st st' :
  0 <= fsyncs st -> fsyncs st + Z.of_nat (length (x :: rest)) <= u64_max ->
  stats_after x st st' ->
  fsyncs st <= fsyncs st' <= fsyncs st + (if decide (kind x = Barrier BDurability) then 1 else 0).
Proof.
  intros H0' Hb [_ Hf]. cbn [length] in Hb.
  destruct Hf as [->|[Hk ->]]; destruct (decide _); try done; rewrite ?wadd_small; lia.
Qed.

Lemma exec_steps_spec steps : forall i s,
  regions_fit (ex_regions s) -> Forall step_ok steps ->
  0 <= steps_executed (ex_stats s) -> 0 <= fsyncs (ex_stats s) ->
  steps_executed (ex_stats s) + Z.of_nat (length steps) <= u64_max ->
  fsyncs (ex_stats s) + Z.of_nat (length steps) <= u64_max ->
  wp (exec_steps i steps) (fun _ s' => window_done steps s s') (window_failed i steps s) s.
Proof.
  induction steps as [|x rest IH]; intros i s Hfit Hok Hse Hfs Hsb Hfb.
  { cbn [exec_steps]. wstep. split_and!; [done | done | cbn; lia | | | done]; unfold durability_barriers; cbn; lia. }
  apply Forall_cons_1 in Hok as [Hx Hrest].
  pose proof (exec_step_spec x s Hfit Hx) as Hstep.
  unfold wp in Hstep. unfold wp. cbn [exec_steps].
  destruct (exec_step x s) as [[u|c| |] s1]; try done.
  - destruct Hstep as (Hfr & Hsp & Hst & Hh).
    pose proof (stats_after_bound x rest _ _ Hfs Hfb Hst) as Hfs1. destruct Hst as [Hse1 _].
    cbn [length] in Hsb, Hfb. rewrite wadd_small by lia.
    set (s1' := mkExSt (ex_regions s1) (ex_dev s1)
                  (mkExecStats (steps_executed (ex_stats s1) + 1) (fsyncs (ex_stats s1)))).
    assert (ex_frame s s1') as Hfr1 by done. assert (view s1' = view s1) as Hv by done.
    pose proof (durability_barriers_cons x rest) as Hdb.
    set (k := if decide _ then 1 else 0) in *. assert (k <= 1) by (unfold k; case_decide; lia).
    specialize (IH (i + 1) s1' (ex_frame_fit _ _ Hfr1 Hfit) Hrest ltac:(cbn; lia) ltac:(cbn; lia)
      ltac:(cbn -[u64_max]; lia) ltac:(cbn -[u64_max]; lia)). unfold wp in IH.
    destruct (exec_steps (i + 1) rest s1') as [[u'|c| |] s2]; try done.
    + destruct IH as (Hfr2 & Hsp2 & Hse2 & Hfs2 & Hh2). cbn [s1' ex_stats steps_executed fsyncs] in Hse2, Hfs2.
      split_and!; [by eapply ex_frame_trans | | | lia | lia | auto].
      * cbn [spec_steps]. rewrite Hsp. cbn [mbind option_bind]. by rewrite <- Hv.
      * cbn [length]. lia.
    + destruct IH as (pre & y & post & mid & -> & Hi & Hpre & Hdm & Hno).
      exists (x :: pre), y, post, mid. split_and!; [done | cbn [length]; lia | | |].
      * cbn [spec_steps]. rewrite Hsp. cbn [mbind option_bind]. by rewrite <- Hv.
      * destruct Hfr1 as (Hss & _). by rewrite Hss in Hdm.
      * intros (Hhe & Hsv & Hsome). apply Hno. split_and!; [by apply Hh | by eapply ex_frame_serviceable |].
        cbn [spec_steps] in Hsome. rewrite Hsp in Hsome. by rewrite Hv.
  - destruct Hstep as (Hfr & Hdm & Hno). exists [], x, rest, (view s).
    split_and!; [done | cbn; lia | done | done |]. intros (Hhe & Hsv & Hsome). apply Hno.
    split_and!; try done. cbn [spec_steps] in Hsome. destruct (spec_step x (view s)); [by eexists|].
    by destruct Hsome.
Qed.

End interpreter.

(** ** Properties *)

Section properties.
Context {D : Type} `{FlatDisk D}.

(** C6: [execute] refines the abstract machine.  On [Ok], the planner regions and
    both devices are exactly what running the program's contracts on byte arrays
    gives, every step was counted, and no more fsyncs than durability barriers
    were.  On [Err], the steps before the reported index were done exactly, and
    the failing step changed at most its own region range and the sectors of
    its own device that its range covers.  It never panics. *)
Theorem execute_refines (steps : list Step) (r : Regions) (d : D) :
  regions_fit r -> Forall step_ok steps -> Z.of_nat (length steps) <= u64_max ->
  match execute steps r d with
  | (Ok st, (r', d')) =>
      spec_steps steps (drop_service r, contents d) = Some (drop_service r', contents d') /\
      steps_executed st = Z.of_nat (length steps) /\ 0 <= fsyncs st <= durability_barriers steps
  | (Err e, (r', d')) =>
      exists pre x post mid, steps = pre ++ x :: post /\ step_index e = Z.of_nat (length pre) /\
        spec_steps pre (drop_service r, contents d) = Some mid /\
        step_damage (sector_size d (device x)) x mid (drop_service r', contents d')
  | _ => False
  end.
Proof.
  intros Hfit Hok Hlen.
  pose proof (exec_steps_spec steps 0 (mkExSt r d (mkExecStats 0 0)) Hfit Hok
    ltac:(done) ltac:(done) ltac:(cbn -[u64_max]; lia) ltac:(cbn -[u64_max]; lia)) as Hw.
  unfold wp in Hw. unfold execute. destruct (exec_steps 0 steps _) as [[u|e| |] s']; try done.
  - destruct Hw as (_ & Hsp & Hse & Hfs & _). cbn -[durability_barriers] in *. split_and!; done || lia.
  - destruct Hw as (pre & x & post & mid & -> & Hi & Hpre & Hdm & _). by exists pre, x, post, mid.
Qed.

(** C19: on healthy devices, with service sectors of at least a sector, every
    program the abstract machine can run executes to the end: the executor has
    no failure of its own. *)
Theorem execute_complete (steps : list Step) (r : Regions) (d : D) (f : Flat) :
  regions_fit r -> Forall step_ok steps -> Z.of_nat (length steps) <= u64_max ->
  healthy d -> serviceable r d -> spec_steps steps (drop_service r, contents d) = Some f ->
  exists st r' d', execute steps r d = (Ok st, (r', d')) /\ f = (drop_service r', contents d').
Proof.
  intros Hfit Hok Hlen Hh Hsv Hf.
  pose proof (exec_steps_spec steps 0 (mkExSt r d (mkExecStats 0 0)) Hfit Hok
    ltac:(done) ltac:(done) ltac:(cbn -[u64_max]; lia) ltac:(cbn -[u64_max]; lia)) as Hw.
  unfold wp in Hw. unfold execute. destruct (exec_steps 0 steps _) as [[u|e| |] s']; try done.
  - destruct Hw as (_ & Hsp & _). unfold view in Hsp. cbn [ex_regions ex_dev] in Hsp.
    rewrite Hsp in Hf. simplify_eq. by eexists _, _, _.
  - destruct Hw as (pre & x & post & mid & _ & _ & _ & _ & Hno). exfalso. apply Hno.
    by split_and!; [| |exists f].
Qed.

(** A byte range written through sectors reads back, for any alignment and any
    sector size: [write_bytes] then [read_bytes] on a healthy device both
    succeed, return the bytes written, and leave every other byte of both
    devices as it was, the rest of partially covered sectors included. *)
Theorem write_read_roundtrip (dev : TargetDevice) (off : Z) (src dst rmw rmw' : bytes) (d : D) :
  healthy d -> 0 <= off -> 0 < blen src <= u64_max ->
  off + blen src <= blen (disk_of (contents d) dev) ->
  sector_size d dev <= blen rmw -> sector_size d dev <= blen rmw' -> blen dst = blen src ->
  exists s1 s2 c,
    write_bytes dev off src (mkWrSt d rmw) = (Ok tt, s1) /\
    read_bytes dev off (mkRdSt (wr_dev s1) dst rmw') = (Ok tt, s2) /\
    rd_dst s2 = src /\
    splice (disk_of (contents d) dev) off src = Some c /\
    contents (rd_dev s2) = set_disk dev c (contents d).
Proof.
  intros Hh Hoff Hn Hin Hr Hr' Hd.
  destruct (splice_of (disk_of (contents d) dev) off src) as (c & Hc & Hcl); [lia | lia |].
  assert (spec_disk_write (contents d) dev off src = Some (set_disk dev c (contents d))) as Hsw.
  { unfold spec_disk_write. destruct (Z.eqb_spec (blen src) 0); [lia|]. by rewrite Hc. }
  pose proof (write_bytes_spec dev off src (mkWrSt d rmw) ltac:(lia) ltac:(lia)) as Hw.
  unfold wp in Hw. cbn [wr_dev wr_rmw] in Hw. rewrite Hsw in Hw.
  destruct (write_bytes dev off src (mkWrSt d rmw)) as [[[]|e| |] s1] eqn:Ew; try done.
  2:{ destruct Hw as (_ & _ & Hno). exfalso. by apply Hno. }
  destruct Hw as ((Hs & _) & [= Hc1] & Hh1). specialize (Hh1 Hh). cbn in Hs.
  pose proof (read_bytes_spec dev off (mkRdSt (wr_dev s1) dst rmw') ltac:(lia) ltac:(cbn; lia)) as Hrd.
  unfold wp in Hrd. cbn [rd_dev rd_dst rd_rmw] in Hrd.
  assert (spec_disk_read (contents (wr_dev s1)) dev off (blen dst) = Some src) as Hsr.
  { unfold spec_disk_read. destruct (Z.eqb_spec (blen dst) 0); [lia|].
    rewrite <- Hc1, disk_of_set_eq, Hd. by eapply slice_splice_eq. }
  rewrite Hsr in Hrd. destruct (read_bytes dev off _) as [[[]|e| |] s2] eqn:Er; try done.
  2:{ destruct Hrd as (_ & Hno). exfalso. apply Hno. by rewrite Hs. }
  destruct Hrd as (((Hc2 & _) & _) & [= Hsrc] & _). cbn in Hc2.
  exists s1, s2, c. split_and!; done || congruence.
Qed.

End properties.

(** ** A concrete device *)

(** Two slots of one 8-byte cluster each over devices with sectors of 4 and 2. *)
Definition demo_regions : Regions :=
  mkRegions (filled 8 0) (filled 16 7) [] [] [] [1; 2; 3; 4; 5] (filled 4 0) (filled 4 0) 8.
Definition demo_disk : VecDisk := mkVecDisk (mkDisks (filled 32 9) (filled 16 0)) 4 2 true.
Definition demo_program : list Step :=
  [ mkStep LoadCluster Input0 (RL2Slot 1) 0 8 8 0;
    mkStep PatchEntryU64 Input0 (RL2Slot 1) 0 0 0 258;
    mkStep WriteRange Input0 RCallerData 1 17 3 0;
    mkStep FillRange Output RBounce 0 3 6 255;
    mkStep (Barrier BDurability) Input0 RBounce 0 0 0 0;
    mkStep WritebackCluster Input0 (RL2Slot 1) 0 24 8 0 ].

Lemma demo_fit : regions_fit demo_regions.
Proof. split; [intros []; vm_compute; discriminate | vm_compute; split; discriminate]. Qed.

Lemma demo_steps_ok : Forall step_ok demo_program.
Proof. repeat constructor; vm_compute; discriminate. Qed.

Lemma demo_healthy : healthy demo_disk.
Proof. intros []; vm_compute; split_and!; done. Qed.

Lemma execute_refines_witness :
  spec_steps demo_program (drop_service demo_regions, contents demo_disk)
    = Some (drop_service (execute demo_program demo_regions demo_disk).2.1,
            contents (execute demo_program demo_regions demo_disk).2.2).
Proof.
  pose proof (execute_refines demo_program demo_regions demo_disk demo_fit demo_steps_ok
    ltac:(vm_compute; discriminate)) as Hr.
  revert Hr. vm_compute. intros (Hr & _). exact Hr.
Defined.

Lemma execute_complete_witness :
  exists st r' d', execute demo_program demo_regions demo_disk = (Ok st, (r', d')).
Proof.
  destruct (execute_complete demo_program demo_regions demo_disk
    (default (demo_regions, contents demo_disk)
       (spec_steps demo_program (drop_service demo_regions, contents demo_disk)))
    demo_fit demo_steps_ok ltac:(vm_compute; discriminate) demo_healthy
    ltac:(intros []; vm_compute; split; discriminate) ltac:(vm_compute; reflexivity))
    as (st & r' & d' & He & _).
  by exists st, r', d'.
Defined.

Lemma write_read_roundtrip_witness :
  exists s1 s2,
    write_bytes Input0 5 [1; 2; 3; 4; 5] (mkWrSt demo_disk (filled 4 0)) = (Ok tt, s1) /\
    read_bytes Input0 5 (mkRdSt (wr_dev s1) (filled 5 0) (filled 4 0)) = (Ok tt, s2) /\
    rd_dst s2 = [1; 2; 3; 4; 5].
Proof.
  destruct (write_read_roundtrip Input0 5 [1; 2; 3; 4; 5] (filled 5 0) (filled 4 0) (filled 4 0)
    demo_disk demo_healthy ltac:(done) ltac:(vm_compute; split; done) ltac:(vm_compute; done)
    ltac:(vm_compute; done) ltac:(vm_compute; done) ltac:(vm_compute; done))
    as (s1 & s2 & c & Hw & Hr & Hd & _).
  by exists s1, s2.
Defined.
