(* ===== verification/Growth.v ===== *)
(** The refcount-growth planner ([src/src/crates/qcow2-write/src/growth.rs]):
    how many refblocks, and how large a relocated refcount table, a write run
    needs before its first write, when the new structures need refcounts
    themselves.  Saturating 64-bit arithmetic, as in the source. *)

From stdpp Require Import base numbers list sets.
From Stdlib Require Import ZArith Lia.
From S2P Require Import Prelude.

Inductive GrowthOverflow : Type := GrowthRefused.

Record GrowthCaps : Type := mkGrowthCaps {
  max_refblocks : Z;
  max_refblock_clusters : Z;
  max_rt_slots : Z
}.

Record RefcountGrowthPlan : Type := mkRefcountGrowthPlan {
  needed_slots : Z;
  new_refblocks : Z;
  structures_start : Z;
  new_rt_clusters : Z;
  rt_start : Z;
  refblocks_start : Z;
  worst_end_clusters : Z
}.

Definition GROWTH_FIXED_POINT_ROUNDS : nat := 8.

(** The loop's variables after a round. *)
Record GrowthRound : Type := mkGrowthRound {
  gr_slots : Z;
  gr_refblocks : Z;
  gr_rt_clusters : Z;
  gr_next_end : Z
}.

Definition growth_round (entries_per_refblock cluster_size populated rt_capacity_slots base_end end_ : Z)
  : GrowthRound :=
  let needed := div_ceil end_ entries_per_refblock in
  let refblocks := sat_sub needed populated in
  let rt := if rt_capacity_slots <? needed then div_ceil (sat_mul needed 8) cluster_size else 0 in
  mkGrowthRound needed refblocks rt (sat_add (sat_add base_end rt) refblocks).

(** The bounded fixed-point loop; [None] when it did not converge. *)
Fixpoint growth_loop (rounds : nat)
    (entries_per_refblock cluster_size populated rt_capacity_slots base_end end_ : Z)
  : option GrowthRound :=
  match rounds with
  | O => None
  | S rounds' =>
      let r := growth_round entries_per_refblock cluster_size populated rt_capacity_slots base_end end_ in
      if gr_next_end r =? end_ then Some r
      else growth_loop rounds' entries_per_refblock cluster_size populated rt_capacity_slots
             base_end (gr_next_end r)
  end.

Definition plan_refcount_growth
    (entries_per_refblock cluster_size file_end_clusters populated rt_capacity_slots
     worst_case_new_clusters : Z) (caps : GrowthCaps)
  : outcome GrowthOverflow RefcountGrowthPlan :=
  if (entries_per_refblock =? 0) || (cluster_size =? 0) then Err GrowthRefused
  else
    let base_end := sat_add file_end_clusters worst_case_new_clusters in
    let base_slots := div_ceil base_end entries_per_refblock in
    if base_slots <=? populated then
      Ok (mkRefcountGrowthPlan populated 0 file_end_clusters 0 file_end_clusters file_end_clusters
            (sat_mul populated entries_per_refblock))
    else
      match growth_loop GROWTH_FIXED_POINT_ROUNDS entries_per_refblock cluster_size populated
              rt_capacity_slots base_end base_end with
      | None => Err GrowthRefused
      | Some r =>
          if (max_refblocks caps <? gr_slots r) || (max_refblock_clusters caps <? gr_slots r) ||
             (max_rt_slots caps <? gr_slots r) ||
             (sat_mul (max_rt_slots caps) 8 <? sat_mul (gr_rt_clusters r) cluster_size)
          then Err GrowthRefused
          else
            Ok (mkRefcountGrowthPlan (gr_slots r) (gr_refblocks r) file_end_clusters (gr_rt_clusters r)
                  file_end_clusters (sat_add file_end_clusters (gr_rt_clusters r))
                  (sat_mul (gr_slots r) entries_per_refblock))
      end.

(** ** What a slot count has to satisfy *)

(** Clusters of a refcount table with room for [s] slots, when the current one has
    [cap] and is too small. *)
Definition rt_for (cs cap s : Z) : Z := if cap <? s then div_ceil (s * 8) cs else 0.

(** [s] slots cover the run's end and the structures that [s] slots take. *)
Definition self_covering (epb cs pop cap base s : Z) : Prop :=
  base + rt_for cs cap s + Z.max (s - pop) 0 <= s * epb.

Section growth.
Context (epb cs pop cap base : Z).
Context (Hepb : 0 < epb) (Hcs : 0 < cs) (Hpop : 0 <= pop) (Hbase : 0 <= base).

Lemma rt_for_nonneg s : 0 <= s -> 0 <= rt_for cs cap s.
Proof. intros. unfold rt_for. destruct (cap <? s); [apply div_ceil_nonneg|]; lia. Qed.

Lemma rt_for_mono s s' : 0 <= s <= s' -> rt_for cs cap s <= rt_for cs cap s'.
Proof.
  intros Hs. unfold rt_for. destruct (Z.ltb_spec cap s), (Z.ltb_spec cap s'); try lia.
  - apply div_ceil_mono; lia.
  - apply div_ceil_nonneg; lia.
Qed.

(** The end a round computes from an assumed end, without saturation. *)
Definition next_end (e : Z) : Z :=
  base + rt_for cs cap (div_ceil e epb) + Z.max (div_ceil e epb - pop) 0.

Lemma next_end_ge e : 0 <= e -> base <= next_end e.
Proof.
  intros. unfold next_end. pose proof (rt_for_nonneg (div_ceil e epb)).
  pose proof (div_ceil_nonneg e epb Hepb). lia.
Qed.

Lemma next_end_mono e e' : 0 <= e <= e' -> next_end e <= next_end e'.
Proof.
  intros He. unfold next_end. pose proof (div_ceil_mono e e' epb Hepb ltac:(lia)).
  pose proof (div_ceil_nonneg e epb Hepb ltac:(lia)).
  pose proof (rt_for_mono (div_ceil e epb) (div_ceil e' epb)). lia.
Qed.

(** A self-covering slot count bounds the whole iteration from below. *)
Lemma next_end_below s e : 0 <= s -> self_covering epb cs pop cap base s -> 0 <= e <= s * epb ->
  next_end e <= s * epb.
Proof.
  intros Hs Hself He. unfold next_end, self_covering in *.
  pose proof (div_ceil_le e epb s Hepb ltac:(lia)). pose proof (div_ceil_nonneg e epb Hepb ltac:(lia)).
  pose proof (rt_for_mono (div_ceil e epb) s ltac:(lia)). lia.
Qed.

(** Away from saturation a round computes [next_end]. *)
Lemma growth_round_exact e : 0 <= e -> div_ceil e epb * 8 <= u64_max -> next_end e <= u64_max ->
  growth_round epb cs pop cap base e =
  mkGrowthRound (div_ceil e epb) (Z.max (div_ceil e epb - pop) 0) (rt_for cs cap (div_ceil e epb))
    (next_end e).
Proof.
  intros He H8 Hn. unfold growth_round, next_end, rt_for, sat_sub, sat_add, sat_mul in *.
  rewrite (Z.min_l (div_ceil e epb * 8)) by done.
  assert (0 <= rt_for cs cap (div_ceil e epb)) as Hr
    by (apply rt_for_nonneg, div_ceil_nonneg; lia).
  unfold rt_for in Hr. rewrite !Z.min_l by lia. done.
Qed.

Lemma growth_round_below e : 0 <= e ->
  gr_next_end (growth_round epb cs pop cap base e) <= next_end e.
Proof.
  intros He. unfold growth_round, next_end, rt_for, sat_sub, sat_add, sat_mul. cbn [gr_next_end].
  pose proof (div_ceil_nonneg e epb Hepb He).
  pose proof (div_ceil_mono (Z.min (div_ceil e epb * 8) u64_max) (div_ceil e epb * 8) cs Hcs ltac:(lia)).
  destruct (cap <? div_ceil e epb); lia.
Qed.

Lemma growth_round_nonneg e : 0 <= e -> 0 <= gr_next_end (growth_round epb cs pop cap base e).
Proof.
  intros He. pose proof (div_ceil_nonneg e epb Hepb He).
  unfold growth_round, sat_sub, sat_add, sat_mul, u64_max. cbn [gr_next_end].
  assert (0 <= div_ceil (Z.min (div_ceil e epb * 8) u64_max) cs)
    by (apply div_ceil_nonneg; unfold u64_max; lia).
  unfold u64_max in *. destruct (cap <? div_ceil e epb); lia.
Qed.

(** The loop stops at a fixed point, below every self-covering slot count. *)
Lemma growth_loop_spec rounds : forall e r, 0 <= e ->
  growth_loop rounds epb cs pop cap base e = Some r ->
  exists e', 0 <= e' /\ r = growth_round epb cs pop cap base e' /\ gr_next_end r = e' /\
    (forall s, 0 <= s -> self_covering epb cs pop cap base s -> e <= s * epb -> gr_slots r <= s).
Proof.
  induction rounds as [|n IH]; intros e r He; [done|]. cbn [growth_loop].
  set (g := growth_round epb cs pop cap base e).
  destruct (Z.eqb_spec (gr_next_end g) e) as [Heq|Hne].
  - intros [= <-]. exists e. split_and!; try done.
    intros s Hs Hself Hes. unfold g, growth_round. cbn [gr_slots]. by apply div_ceil_le.
  - intros Hr. destruct (IH (gr_next_end g) r (growth_round_nonneg e He) Hr)
      as (e' & He' & Hr' & Hfix & Hleast).
    exists e'. split_and!; try done. intros s Hs Hself Hes. apply Hleast; [done | done |].
    pose proof (growth_round_below e He) as Hlow. fold g in Hlow.
    pose proof (next_end_below s e Hs Hself ltac:(lia)). lia.
Qed.

(** ** Convergence *)

Definition slots (e : Z) : Z := div_ceil e epb.

Lemma slots_step e d k : 0 <= e -> 0 <= d <= k * epb -> slots (e + d) <= slots e + k.
Proof.
  intros He Hd. unfold slots. apply div_ceil_le; [done|].
  destruct (div_ceil_spec e epb Hepb). nia.
Qed.

(** A table for [s + k] slots is at most [k] clusters longer (clusters of at least
    8 bytes per slot). *)
Lemma rt_for_step s k : 8 <= cs -> 0 <= s -> 0 <= k -> (s + k <= cap \/ cap < s) ->
  rt_for cs cap (s + k) <= rt_for cs cap s + k.
Proof.
  intros H8 Hs Hk Hc. unfold rt_for.
  destruct (Z.ltb_spec cap (s + k)), (Z.ltb_spec cap s); try lia.
  apply div_ceil_le; [done|]. destruct (div_ceil_spec (s * 8) cs Hcs). nia.
Qed.

Lemma rt_for_bound s m : 512 <= cs -> 0 <= s <= 64 * m -> rt_for cs cap s <= m.
Proof.
  intros H512 Hs. unfold rt_for. destruct (cap <? s); [|lia]. apply div_ceil_le; [done|]. nia.
Qed.

(** One round on from [e = next_end p], when the table does not start to move. *)
Lemma calm_step p e k : 8 <= cs -> 0 <= p <= e -> e = next_end p ->
  slots e <= slots p + k -> (slots e <= cap \/ cap < slots p) -> next_end e <= e + 2 * k.
Proof.
  intros H8 Hpe He Hk Hc. unfold next_end in *. fold (slots e) (slots p) in *.
  pose proof (div_ceil_mono p e epb Hepb ltac:(lia)) as Hm. fold (slots e) (slots p) in Hm.
  pose proof (div_ceil_nonneg p epb Hepb ltac:(lia)) as Hp0. fold (slots p) in Hp0.
  pose proof (rt_for_step (slots p) (slots e - slots p) H8 Hp0 ltac:(lia) ltac:(lia)) as Hr.
  replace (slots p + (slots e - slots p)) with (slots e) in Hr by lia. lia.
Qed.

(** The round in which the table starts to move. *)
Lemma moving_step p e k m : 512 <= cs -> 0 <= p <= e -> e = next_end p ->
  slots e <= slots p + k -> slots e <= 64 * m -> next_end e <= e + k + m.
Proof.
  intros H512 Hpe He Hk Hm. unfold next_end in *. fold (slots e) (slots p) in *.
  pose proof (div_ceil_mono p e epb Hepb ltac:(lia)) as Hmo. fold (slots e) (slots p) in Hmo.
  pose proof (div_ceil_nonneg p epb Hepb ltac:(lia)) as Hp0. fold (slots p) in Hp0.
  pose proof (rt_for_bound (slots e) m H512 ltac:(lia)).
  pose proof (rt_for_nonneg (slots p) Hp0). lia.
Qed.

(** After crossing a refblock boundary by a little, the next boundary is far. *)
Lemma no_recross p e d : 256 <= epb -> 0 <= p -> p <= e <= p + 252 -> 0 <= d <= 2 ->
  slots p < slots e -> slots (e + d) = slots e.
Proof.
  intros H256 Hp Hpe Hd Hlt. unfold slots in *.
  pose proof (div_ceil_mono e (e + d) epb Hepb ltac:(lia)).
  destruct (div_ceil_spec p epb Hepb).
  pose proof (div_ceil_le (e + d) epb (div_ceil p epb + 1) Hepb ltac:(nia)). lia.
Qed.

Definition converges (n : nat) (e : Z) : Prop :=
  is_Some (growth_loop n epb cs pop cap base e).

Context (H256 : 256 <= epb) (H512 : 512 <= cs) (Hb60 : base <= 2 ^ 60).

Lemma growth_round_next e : 0 <= e -> slots e <= 20000 ->
  gr_next_end (growth_round epb cs pop cap base e) = next_end e.
Proof.
  intros He Hs. rewrite growth_round_exact; [done | done | unfold slots in *; unfold u64_max; lia |].
  unfold next_end. fold (slots e). pose proof (div_ceil_nonneg e epb Hepb He) as H0. fold (slots e) in H0.
  pose proof (rt_for_bound (slots e) 313 H512 ltac:(lia)).
  change (2 ^ 60) with 1152921504606846976 in Hb60. unfold u64_max. lia.
Qed.

Lemma converges_fix n e : 0 <= e -> slots e <= 20000 -> next_end e = e -> converges (S n) e.
Proof.
  intros He Hs Hf. unfold converges. cbn [growth_loop]. rewrite growth_round_next, Hf, Z.eqb_refl by done.
  by eexists.
Qed.

Lemma converges_step n e : 0 <= e -> slots e <= 20000 -> converges n (next_end e) -> converges (S n) e.
Proof.
  intros He Hs Hc. unfold converges. cbn [growth_loop]. rewrite growth_round_next by done.
  destruct (next_end e =? e); [by eexists|done].
Qed.

Lemma converges_calm n p e : 0 <= p <= e -> e = next_end p -> slots e <= slots p + 1 -> e <= p + 252 ->
  (slots e <= cap \/ cap < slots p) -> slots e <= 19000 -> converges (S (S n)) e.
Proof.
  intros Hpe He Hk Hd Hc Hs. assert (slots p <= slots e) by (apply div_ceil_mono; lia).
  pose proof (next_end_mono p e ltac:(lia)) as Hm. rewrite <- He in Hm.
  pose proof (calm_step p e 1 ltac:(lia) Hpe He ltac:(lia) Hc) as Hle.
  destruct (Z.eq_dec (slots p) (slots e)) as [Heq|Hne].
  - apply converges_fix; [lia | lia |]. rewrite He at 2. unfold next_end. fold (slots e) (slots p).
    by rewrite Heq.
  - pose proof (no_recross p e (next_end e - e) H256 ltac:(lia) ltac:(lia) ltac:(lia) ltac:(lia)) as Hs2.
    replace (e + (next_end e - e)) with (next_end e) in Hs2 by lia.
    apply converges_step; [lia | lia |]. apply converges_fix; [lia | lia |].
    unfold next_end at 1 3. fold (slots (next_end e)) (slots e). by rewrite Hs2.
Qed.

(** Once the table has moved, two more rounds of shrinking corrections. *)
Lemma converges_moved n p e : 0 <= p <= e -> e = next_end p -> slots e <= slots p + 126 ->
  cap < slots p -> slots e <= 18000 -> converges (S (S (S n))) e.
Proof.
  intros Hpe He Hk Hc Hs. assert (slots p <= slots e) by (apply div_ceil_mono; lia).
  pose proof (next_end_mono p e ltac:(lia)) as Hm. rewrite <- He in Hm.
  pose proof (calm_step p e 126 ltac:(lia) Hpe He Hk ltac:(lia)) as Hle.
  pose proof (slots_step e (next_end e - e) 1 ltac:(lia) ltac:(lia)) as Hs2.
  replace (e + (next_end e - e)) with (next_end e) in Hs2 by lia.
  apply converges_step; [lia | lia |]. eapply (converges_calm n e); lia || done.
Qed.

(** Six rounds are enough from the run's own end. *)
Lemma growth_converges n : slots base <= 16384 -> converges (6 + n) base.
Proof.
  intros Hs0. set (e1 := next_end base).
  assert (base <= e1) by (apply next_end_ge; lia).
  pose proof (div_ceil_nonneg base epb Hepb ltac:(lia)) as Hp0. fold (slots base) in Hp0.
  assert (e1 <= base + 16640) as Hd0.
  { unfold e1, next_end. fold (slots base). pose proof (rt_for_bound (slots base) 256 H512 ltac:(lia)). lia. }
  pose proof (slots_step base (e1 - base) 65 ltac:(lia) ltac:(lia)) as Hs1.
  replace (base + (e1 - base)) with e1 in Hs1 by lia.
  assert (slots base <= slots e1) by (apply div_ceil_mono; lia).
  apply converges_step; [lia | lia |]. fold e1.
  destruct (Z.lt_ge_cases cap (slots base)); [eapply (converges_moved _ base e1); lia || done|].
  set (e2 := next_end e1). assert (e1 <= e2) by (apply (next_end_mono base e1); lia).
  assert (slots e1 <= slots e2) by (apply div_ceil_mono; lia).
  destruct (Z.lt_ge_cases cap (slots e1)) as [Hc1|Hc1].
  - pose proof (moving_step base e1 65 258 H512 ltac:(lia) eq_refl ltac:(lia) ltac:(lia)) as Hd1. fold e2 in Hd1.
    pose proof (slots_step e1 (e2 - e1) 2 ltac:(lia) ltac:(lia)) as Hs2.
    replace (e1 + (e2 - e1)) with e2 in Hs2 by lia.
    apply converges_step; [lia | lia |]. eapply (converges_moved _ e1 e2); lia || done.
  - pose proof (calm_step base e1 65 ltac:(lia) ltac:(lia) eq_refl ltac:(lia) ltac:(lia)) as Hd1. fold e2 in Hd1.
    pose proof (slots_step e1 (e2 - e1) 1 ltac:(lia) ltac:(lia)) as Hs2.
    replace (e1 + (e2 - e1)) with e2 in Hs2 by lia.
    apply converges_step; [lia | lia |]. fold e2.
    destruct (Z.lt_ge_cases cap (slots e2)) as [Hc2|Hc2]; [|eapply (converges_calm _ e1 e2); lia || done].
    set (e3 := next_end e2). assert (e2 <= e3) by (apply (next_end_mono e1 e2); lia).
    pose proof (moving_step e1 e2 1 258 H512 ltac:(lia) eq_refl ltac:(lia) ltac:(lia)) as Hd2. fold e3 in Hd2.
    pose proof (slots_step e2 (e3 - e2) 2 ltac:(lia) ltac:(lia)) as Hs3.
    replace (e2 + (e3 - e2)) with e3 in Hs3 by lia.
    apply converges_step; [lia | lia |]. eapply (converges_moved _ e2 e3); lia || done.
Qed.

(** The converged round, exactly. *)
Lemma growth_fixed_point : slots base <= 16384 ->
  exists s next, 0 <= s <= 16484 /\
    growth_loop GROWTH_FIXED_POINT_ROUNDS epb cs pop cap base base
      = Some (mkGrowthRound s (Z.max (s - pop) 0) (rt_for cs cap s) next) /\
    self_covering epb cs pop cap base s /\
    forall s', 0 <= s' -> self_covering epb cs pop cap base s' -> s <= s'.
Proof.
  intros Hs0. destruct (growth_converges 2 Hs0) as [r Hloop].
  destruct (growth_loop_spec _ _ r Hbase Hloop) as (e & He & Hr & Hfix & Hleast).
  assert (forall s, 0 <= s -> self_covering epb cs pop cap base s -> gr_slots r <= s) as Hmin.
  { intros s Hs Hself. apply Hleast; [done | done |]. unfold self_covering in Hself.
    pose proof (rt_for_nonneg s Hs). lia. }
  destruct (div_ceil_spec base epb Hepb) as [Hge _]. fold (slots base) in Hge.
  pose proof (div_ceil_nonneg base epb Hepb Hbase) as Hb0. fold (slots base) in Hb0.
  assert (gr_slots r <= slots base + 100) as Hsmall.
  { apply Hmin; [lia|]. unfold self_covering.
    pose proof (rt_for_bound (slots base + 100) 258 H512 ltac:(lia)). nia. }
  assert (gr_slots r = slots e) as Hslots by by rewrite Hr.
  pose proof (div_ceil_nonneg e epb Hepb He) as Hs. fold (slots e) in Hs.
  pose proof (growth_round_next e He ltac:(lia)) as Hn. rewrite <- Hr, Hfix in Hn.
  rewrite growth_round_exact in Hr; [|done | unfold u64_max; fold (slots e); lia | rewrite <- Hn].
  2:{ rewrite Hn. unfold next_end. fold (slots e).
      pose proof (rt_for_bound (slots e) 258 H512 ltac:(lia)).
      change (2 ^ 60) with 1152921504606846976 in Hb60. unfold u64_max. lia. }
  exists (slots e), (next_end e). split_and!; [lia | lia | rewrite Hr in Hloop; exact Hloop | |].
  - unfold self_covering. unfold next_end in Hn. fold (slots e) in Hn.
    destruct (div_ceil_spec e epb Hepb) as [Hge' _]. fold (slots e) in Hge'. lia.
  - intros s' Hs' Hself. rewrite <- Hslots. by apply Hmin.
Qed.

End growth.

(** Everything known of a plan that grows. *)
Lemma grown_plan epb cs fe pop cap wc caps :
  is_u64 epb -> is_u64 cs -> is_u64 fe -> is_u64 pop -> is_u64 wc ->
  match plan_refcount_growth epb cs fe pop cap wc caps with
  | Ok p =>
      structures_start p = fe /\ rt_start p = fe /\ refblocks_start p = sat_add fe (new_rt_clusters p) /\
      needed_slots p = pop + new_refblocks p /\ worst_end_clusters p = sat_mul (needed_slots p) epb /\
      Z.min (fe + wc + new_rt_clusters p + new_refblocks p) u64_max <= worst_end_clusters p /\
      0 <= new_refblocks p /\ 0 <= new_rt_clusters p /\ 0 < epb /\ 0 < cs /\
      (if new_refblocks p =? 0 then new_rt_clusters p = 0 /\ sat_add fe wc <= pop * epb
       else pop * epb < sat_add fe wc /\
         needed_slots p <= max_refblocks caps /\ needed_slots p <= max_refblock_clusters caps /\
         needed_slots p <= max_rt_slots caps /\
         sat_mul (new_rt_clusters p) cs <= sat_mul (max_rt_slots caps) 8 /\
         (if cap <? needed_slots p then Z.min (needed_slots p * 8) u64_max <= new_rt_clusters p * cs
          else new_rt_clusters p = 0))
  | Err _ => epb = 0 \/ cs = 0 \/ pop * epb < sat_add fe wc
  | _ => False
  end.
Proof.
  unfold is_u64. intros Hepb Hcs Hfe Hpop Hwc. unfold plan_refcount_growth.
  destruct (Z.eqb_spec epb 0); [by left|]. destruct (Z.eqb_spec cs 0); [by right; left|]. cbn [orb].
  set (base := sat_add fe wc). assert (0 <= base <= u64_max) by (unfold base, sat_add, u64_max in *; lia).
  destruct (div_ceil_spec base epb ltac:(lia)) as [Hge Hlt].
  destruct (Z.leb_spec (div_ceil base epb) pop) as [Hle|Hgt].
  { cbn. assert (base <= pop * epb) by nia.
    unfold base, sat_add, sat_mul in *. split_and!; lia || done. }
  assert (pop * epb < base) by nia.
  destruct (growth_loop _ _ _ _ _ _ _) as [r|] eqn:Hloop; [|by right; right].
  destruct (growth_loop_spec epb cs pop cap base ltac:(lia) ltac:(lia) ltac:(lia)
    _ base r ltac:(lia) Hloop) as (e & He & Hr & Hfix & _).
  destruct (_ || _) eqn:Hcaps; [by right; right|]. bool_to_prop.
  cbn [structures_start rt_start refblocks_start needed_slots worst_end_clusters new_rt_clusters new_refblocks].
  rewrite Hr in Hfix. unfold growth_round in Hr. rewrite Hr in *.
  cbn [gr_slots gr_refblocks gr_rt_clusters gr_next_end] in *.
  destruct (div_ceil_spec e epb ltac:(lia)) as [Hge' _].
  set (s := div_ceil e epb) in *. set (rt := if cap <? s then _ else _) in *.
  assert (0 <= s) by (apply div_ceil_nonneg; lia).
  assert (0 <= rt) by (unfold rt, sat_mul; destruct (cap <? s); [apply div_ceil_nonneg|]; unfold u64_max; lia).
  assert (base <= e) by (unfold growth_round, sat_add, sat_sub in Hfix; cbn in Hfix; fold s rt in Hfix; lia).
  assert (pop < s) by nia.
  assert (sat_sub s pop = s - pop) as Hsub by (unfold sat_sub; lia).
  assert (e = Z.min (Z.min (Z.min (fe + wc) u64_max + rt) u64_max + (s - pop)) u64_max) as Hsum
    by (rewrite <- Hfix, <- Hsub; done).
  rewrite Hsub. destruct (Z.eqb_spec (s - pop) 0); [lia|].
  split_and!; try lia; try done; [unfold sat_mul; lia|].
  unfold rt. destruct (cap <? s); [|done].
  destruct (div_ceil_spec (sat_mul s 8) cs ltac:(lia)) as [Hrt _]. unfold sat_mul in *. lia.
Qed.

(** ** Properties *)

(** The staging budget allows [s] slots and their table. *)
Definition within_caps (cs cap : Z) (caps : GrowthCaps) (s : Z) : Prop :=
  s <= max_refblocks caps /\ s <= max_refblock_clusters caps /\ s <= max_rt_slots caps /\
  rt_for cs cap s * cs <= max_rt_slots caps * 8.

(** An accepted plan is sound on any 64-bit input.  Its coverage reaches the end
    of the run plus the new structures themselves (up to the 64-bit limit); it
    grows exactly when the populated refblocks do not cover the run; and when it
    grows, the table has room for every slot and all staging caps hold. *)
Theorem growth_plan_sound (epb cs fe pop cap wc : Z) (caps : GrowthCaps) :
  is_u64 epb -> is_u64 cs -> is_u64 fe -> is_u64 pop -> is_u64 wc ->
  match plan_refcount_growth epb cs fe pop cap wc caps with
  | Ok p =>
      Z.min (fe + wc + new_rt_clusters p + new_refblocks p) u64_max <= worst_end_clusters p /\
      structures_start p = fe /\ refblocks_start p = sat_add fe (new_rt_clusters p) /\
      needed_slots p = pop + new_refblocks p /\
      (new_refblocks p = 0 <-> sat_add fe wc <= pop * epb) /\
      (new_refblocks p = 0 -> new_rt_clusters p = 0) /\
      (0 < new_refblocks p ->
       (needed_slots p <= cap \/
        Z.min (needed_slots p * 8) u64_max <= new_rt_clusters p * cs) /\
       needed_slots p <= max_refblocks caps /\ needed_slots p <= max_refblock_clusters caps /\
       needed_slots p <= max_rt_slots caps /\
       sat_mul (new_rt_clusters p) cs <= sat_mul (max_rt_slots caps) 8)
  | Err _ => epb = 0 \/ cs = 0 \/ pop * epb < sat_add fe wc
  | _ => False
  end.
Proof.
  intros Hepb Hcs Hfe Hpop Hwc. pose proof (grown_plan epb cs fe pop cap wc caps Hepb Hcs Hfe Hpop Hwc) as Hg.
  destruct (plan_refcount_growth _ _ _ _ _ _ _) as [p|[]| |]; try done.
  destruct Hg as (? & ? & ? & ? & ? & ? & ? & ? & ? & ? & Hg).
  destruct (Z.eqb_spec (new_refblocks p) 0), (Z.ltb_spec cap (needed_slots p)); split_and!; lia || tauto || done.
Qed.

(** For real geometry (at least 256 entries per refblock, clusters of at least
    512 bytes, runs that need up to 16384 refblocks) the fixed point is reached
    within the round bound, so a refusal means the budget: an accepted growth
    takes the least slot count that covers the run and its own structures, and
    after a refusal no slot count within the caps does. *)
Theorem growth_plan_least (epb cs fe pop cap wc : Z) (caps : GrowthCaps) :
  256 <= epb -> 512 <= cs -> 0 <= fe -> 0 <= pop -> 0 <= wc ->
  fe + wc <= 2 ^ 60 -> pop * epb < fe + wc <= 16384 * epb -> max_rt_slots caps <= 2 ^ 40 ->
  match plan_refcount_growth epb cs fe pop cap wc caps with
  | Ok p =>
      self_covering epb cs pop cap (fe + wc) (needed_slots p) /\
      within_caps cs cap caps (needed_slots p) /\
      new_rt_clusters p = rt_for cs cap (needed_slots p) /\
      forall s, 0 <= s -> self_covering epb cs pop cap (fe + wc) s -> needed_slots p <= s
  | Err _ =>
      forall s, 0 <= s -> self_covering epb cs pop cap (fe + wc) s -> ~ within_caps cs cap caps s
  | _ => False
  end.
Proof.
  intros Hepb Hcs Hfe Hpop Hwc H60 Hbase Hmax. unfold plan_refcount_growth.
  rewrite (proj2 (Z.eqb_neq epb 0)), (proj2 (Z.eqb_neq cs 0)) by lia. cbn [orb].
  assert (2 ^ 40 = 1099511627776) as E40 by reflexivity.
  assert (sat_add fe wc = fe + wc) as ->
    by (change (2 ^ 60) with 1152921504606846976 in H60; unfold sat_add, u64_max; lia).
  assert (0 <= fe + wc) as Hb0 by lia. revert Hb0 H60 Hbase. generalize (fe + wc). intros base Hb0 H60 Hbase.
  destruct (div_ceil_spec base epb ltac:(lia)) as [Hge Hlt].
  destruct (Z.leb_spec (div_ceil base epb) pop) as [Hle|Hgt]; [exfalso; nia|].
  assert (div_ceil base epb <= 16384) as Hs0 by (apply div_ceil_le; lia).
  destruct (growth_fixed_point epb cs pop cap base ltac:(lia) ltac:(lia) ltac:(lia) ltac:(lia)
    Hepb Hcs H60 Hs0) as (s & next & Hs & -> & Hself & Hmin).
  cbn [gr_slots gr_refblocks gr_rt_clusters gr_next_end].
  pose proof (rt_for_nonneg cs cap ltac:(lia) s ltac:(lia)) as Hrt0.
  assert (max_rt_slots caps * 8 < u64_max) by (rewrite E40 in Hmax; unfold u64_max; lia).
  assert (sat_mul (max_rt_slots caps) 8 = max_rt_slots caps * 8) as -> by (unfold sat_mul; lia).
  destruct (_ || _) eqn:Hcaps.
  - intros s' Hs' Hself' (Hc1 & Hc2 & Hc3 & Hc4). specialize (Hmin s' Hs' Hself').
    pose proof (rt_for_mono cs cap ltac:(lia) s s' ltac:(lia)) as Hm.
    assert (rt_for cs cap s * cs <= max_rt_slots caps * 8) by nia. unfold sat_mul in Hcaps.
    rewrite !orb_true_iff, !Z.ltb_lt in Hcaps. lia.
  - bool_to_prop. cbn. unfold sat_mul in *.
    assert (rt_for cs cap s * cs <= max_rt_slots caps * 8) by lia.
    by split_and!.
Qed.

Definition demo_caps : GrowthCaps := mkGrowthCaps 2048 2048 65536.

(** 64 KiB clusters, one populated refblock, a run past the end of its coverage. *)
Lemma growth_plan_sound_witness :
  plan_refcount_growth 32768 65536 32000 1 8192 4096 demo_caps =
    Ok (mkRefcountGrowthPlan 2 1 32000 0 32000 32000 65536) /\
  Z.min (32000 + 4096 + 0 + 1) u64_max <= 65536.
Proof.
  pose proof (growth_plan_sound 32768 65536 32000 1 8192 4096 demo_caps
    ltac:(vm_compute; split; discriminate) ltac:(vm_compute; split; discriminate)
    ltac:(vm_compute; split; discriminate) ltac:(vm_compute; split; discriminate)
    ltac:(vm_compute; split; discriminate)) as Hs.
  assert (plan_refcount_growth 32768 65536 32000 1 8192 4096 demo_caps =
    Ok (mkRefcountGrowthPlan 2 1 32000 0 32000 32000 65536)) as Heq by (vm_compute; reflexivity).
  rewrite Heq in Hs. destruct Hs as [Hs _]. split; [exact Heq|exact Hs].
Defined.

(** 512-byte clusters: the refcount table has 64 slots and has to move. *)
Lemma growth_plan_least_witness :
  plan_refcount_growth 256 512 40000 150 64 4096 demo_caps =
    Ok (mkRefcountGrowthPlan 173 23 40000 3 40000 40003 44288) /\
  forall s, 0 <= s -> self_covering 256 512 150 64 44096 s -> 173 <= s.
Proof.
  pose proof (growth_plan_least 256 512 40000 150 64 4096 demo_caps
    ltac:(lia) ltac:(lia) ltac:(lia) ltac:(lia) ltac:(lia) ltac:(vm_compute; discriminate)
    ltac:(lia) ltac:(vm_compute; discriminate)) as Hs.
  assert (plan_refcount_growth 256 512 40000 150 64 4096 demo_caps =
    Ok (mkRefcountGrowthPlan 173 23 40000 3 40000 40003 44288)) as Heq by (vm_compute; reflexivity).
  rewrite Heq in Hs. destruct Hs as (_ & _ & _ & Hs). split; [exact Heq|exact Hs].
Defined.

(** The fixed point can take four rounds with the smallest real geometry: 256
    entries per refblock, 512-byte clusters, an 8 GiB file. *)
Theorem growth_takes_four_rounds :
  growth_loop 3 256 512 0 64 (2 ^ 24) (2 ^ 24) = None /\
  is_Some (growth_loop 4 256 512 0 64 (2 ^ 24) (2 ^ 24)).
Proof. split; [vm_compute; reflexivity|]. vm_compute. by eexists. Qed.
