(* ===== verification/GrowthExec.v ===== *)
(** The refcount-growth executor
    ([src/src/crates/qcow2-write-exec/src/growth.rs]): stages the extended
    refcount table and the new refblocks of a [RefcountGrowthPlan], gives every
    new structure cluster refcount 1, and writes them out: refblocks, refcount
    table, fsync, header pointer (when the table moved), fsync, old table freed. *)

From stdpp Require Import base numbers list sets option.
From Stdlib Require Import ZArith Lia.
From S2P Require Import Prelude Bytes Refcount Qcow2 WriteTypes Exec Growth.

(** ** Definitions *)

Inductive GrowthExecError : Type := StageOutOfCoverage | GxWriteFailed | GxFsyncFailed.

Record RefcountTable : Type := mkRefcountTable { rt_offset : Z; rt_clusters : Z }.

Section executor.
Context {D : Type} `{DeviceIo D}.
(** Of [GrowthExec], the fields that never change; and the device the growth is for. *)
Context (cs epb : Z) (device : TargetDevice).

(** The devices, the mutable fields of [GrowthExec] and the three buffers. *)
Record GrowthSt : Type := mkGrowthSt {
  g_dev : D;
  g_refblock_count : Z;
  g_dirty : list Z;
  g_rt : bytes;
  g_refblocks : bytes;
  g_rmw : bytes
}.

Abbreviation GM := (SM GrowthSt GrowthExecError).

Definition set_g_count (n : Z) (s : GrowthSt) : GrowthSt :=
  mkGrowthSt (g_dev s) n (g_dirty s) (g_rt s) (g_refblocks s) (g_rmw s).
Definition set_g_dirty (d : list Z) (s : GrowthSt) : GrowthSt :=
  mkGrowthSt (g_dev s) (g_refblock_count s) d (g_rt s) (g_refblocks s) (g_rmw s).
Definition set_g_rt (b : bytes) (s : GrowthSt) : GrowthSt :=
  mkGrowthSt (g_dev s) (g_refblock_count s) (g_dirty s) b (g_refblocks s) (g_rmw s).
Definition set_g_refblocks (b : bytes) (s : GrowthSt) : GrowthSt :=
  mkGrowthSt (g_dev s) (g_refblock_count s) (g_dirty s) (g_rt s) b (g_rmw s).

Definition GrowthExec_new (d : D) (refblock_count : Z) (rt refblocks rmw : bytes) : GrowthSt :=
  mkGrowthSt d refblock_count (replicate (Z.to_nat (MAX_REFBLOCKS / 64)) 0) rt refblocks rmw.

Definition g_dirty_set (slot : Z) : GM unit :=
  let! s := sget in
  let! w := slift (or_panic (bit_set (g_dirty s) slot)) in sput (set_g_dirty w s).

Definition g_dirty_clear (slot : Z) : GM unit :=
  let! s := sget in
  let! w := slift (or_panic (bit_clear (g_dirty s) slot)) in sput (set_g_dirty w s).

Definition g_dirty_get (slot : Z) : GM bool :=
  let! s := sget in slift (or_panic (bit_get (g_dirty s) slot)).

(** [write_bytes(..).is_err()], negated. *)
Definition g_write (off : Z) (src : bytes) : GM bool :=
  fun s =>
    let '(r, w) := write_bytes device off src (mkWrSt (g_dev s) (g_rmw s)) in
    let s' := mkGrowthSt (wr_dev w) (g_refblock_count s) (g_dirty s) (g_rt s) (g_refblocks s) (wr_rmw w) in
    match r with
    | Ok _ => (Ok true, s')
    | Err _ => (Ok false, s')
    | Panic => (Panic, s')
    | OutOfFuel => (OutOfFuel, s')
    end.

Definition stage_refcount (cluster value : Z) : GM bool :=
  let! s := sget in
  let! slot := slift (udiv cluster epb) in
  if g_refblock_count s <=? slot then sret false
  else
    let! block := slift (or_panic (slice (g_refblocks s) (wmul slot cs) (wadd (wmul slot cs) cs))) in
    let! local := slift (urem cluster epb) in
    match set_refcount_in_block block local 16 value with
    | Ok block' =>
        let! rbs := slift (or_panic (splice (g_refblocks s) (wmul slot cs) block')) in
        do! sput (set_g_refblocks rbs s) in
        do! g_dirty_set slot in
        sret true
    | Err _ => sret false
    | Panic => slift Panic
    | OutOfFuel => slift OutOfFuel
    end.

(** One turn of the flush loop on a slot that is not skipped. *)
Definition flush_slot (slot : Z) : GM bool :=
  let! dirty := g_dirty_get slot in
  if dirty then
    let! s := sget in
    let! raw := slift (be_u64 (g_rt s) (wmul slot 8)) in
    let! src := slift (or_panic (slice (g_refblocks s) (wmul slot cs) (wadd (wmul slot cs) cs))) in
    let! ok := g_write (Z.land raw L1_OFFSET_MASK) src in
    if ok then do! g_dirty_clear slot in sret true else sret false
  else sret true.

Fixpoint flush_slots (fuel : nat) (slot : Z) : GM bool :=
  match fuel with
  | O => slift OutOfFuel
  | S fuel' =>
      let! s := sget in
      if slot <? g_refblock_count s then
        let! skip := (if is_multiple_of slot 64 then
                        let! w := slift (or_panic (word_at (g_dirty s) (slot / 64))) in
                        sret (w =? 0)
                      else sret false) in
        if (skip : bool) then flush_slots fuel' (wadd slot 64)
        else
          let! ok := flush_slot slot in
          if (ok : bool) then flush_slots fuel' (wadd slot 1) else sret false
      else sret true
  end.

(** Every turn advances by at least one slot. *)
Definition flush_dirty_refblocks : GM bool :=
  let! s := sget in flush_slots (S (Z.to_nat (g_refblock_count s))) 0.

Definition durability : GM unit :=
  let! s := sget in
  let '(r, d') := fsync device (g_dev s) in
  do! sput (mkGrowthSt d' (g_refblock_count s) (g_dirty s) (g_rt s) (g_refblocks s) (g_rmw s)) in
  match r with Some false => sfail GxFsyncFailed | _ => sret tt end.

(** The [for] loops: [n] turns from [i] on. *)
Fixpoint stage_rt_entries (n : nat) (j old_slots rt_image_len : Z) (plan : RefcountGrowthPlan) : GM unit :=
  match n with
  | O => sret tt
  | S n' =>
      let slot := wadd old_slots j in
      let host_off := wmul (wadd (refblocks_start plan) j) cs in
      let! s := sget in
      let! rt_buf := slift (or_panic (slice (g_rt s) 0 rt_image_len)) in
      let! rt_buf' := slift (or_panic (splice rt_buf (wmul slot 8) (be_bytes 8 host_off))) in
      let! rt := slift (or_panic (splice (g_rt s) 0 rt_buf')) in
      do! sput (set_g_rt rt s) in
      stage_rt_entries n' (j + 1) old_slots rt_image_len plan
  end.

Fixpoint stage_refcounts (n : nat) (first i value : Z) : GM unit :=
  match n with
  | O => sret tt
  | S n' =>
      let! ok := stage_refcount (wadd first i) value in
      if (ok : bool) then stage_refcounts n' first (i + 1) value else sfail StageOutOfCoverage
  end.

Fixpoint mark_dirty (n : nat) (slot : Z) : GM unit :=
  match n with
  | O => sret tt
  | S n' => do! g_dirty_set slot in mark_dirty n' (slot + 1)
  end.

Definition or_write_failed (m : GM bool) : GM unit :=
  let! ok := m in if (ok : bool) then sret tt else sfail GxWriteFailed.

(** [buf[a..b].fill(0)]. *)
Definition zero_part (b : bytes) (lo hi : Z) : outcome GrowthExecError bytes :=
  let? sub := or_panic (slice b lo hi) in or_panic (splice b lo (filled (blen sub) 0)).

(** Staging, up to the point where every dirty refblock is known. *)
Definition stage_growth (plan : RefcountGrowthPlan) : GM unit :=
  let! s := sget in
  let old_slots := g_refblock_count s in
  let new_slots := needed_slots plan in
  let relocating := 0 <? new_rt_clusters plan in
  let rt_image_len := if relocating then wmul (new_rt_clusters plan) cs else wmul new_slots 8 in
  let! _ := slift (or_panic (slice (g_rt s) 0 rt_image_len)) in
  let! rt := (if relocating then slift (zero_part (g_rt s) (wmul old_slots 8) rt_image_len)
              else sret (g_rt s)) in
  do! sput (set_g_rt rt s) in
  do! stage_rt_entries (Z.to_nat (new_refblocks plan)) 0 old_slots rt_image_len plan in
  let! s2 := sget in
  let! rbs := slift (zero_part (g_refblocks s2) (wmul old_slots cs) (wmul new_slots cs)) in
  do! sput (set_g_count new_slots (set_g_refblocks rbs s2)) in
  do! stage_refcounts (Z.to_nat (wadd (new_rt_clusters plan) (new_refblocks plan)))
        (structures_start plan) 0 1 in
  mark_dirty (Z.to_nat (new_slots - old_slots)) old_slots.

(** The refcount table on disk: the new entries, or the whole moved table. *)
Definition write_table (plan : RefcountGrowthPlan) (old_slots : Z) (rt_table : RefcountTable)
  : GM unit :=
  let! s := sget in
  if 0 <? new_rt_clusters plan then
    let! img := slift (or_panic (slice (g_rt s) 0 (wmul (new_rt_clusters plan) cs))) in
    or_write_failed (g_write (wmul (rt_start plan) cs) img)
  else
    let start := wmul old_slots 8 in
    let len := wmul (wsub (needed_slots plan) old_slots) 8 in
    let! src := slift (or_panic (slice (g_rt s) start (wadd start len))) in
    or_write_failed (g_write (wadd (rt_offset rt_table) start) src).

(** The commit point: 12 header bytes at offset 48. *)
Definition header_patch (plan : RefcountGrowthPlan) : bytes :=
  be_bytes 8 (wmul (rt_start plan) cs) ++ be_bytes 4 (as_u32 (new_rt_clusters plan)).

Definition flip_header (plan : RefcountGrowthPlan) (rt_table : RefcountTable) : GM unit :=
  do! or_write_failed (g_write 48 (header_patch plan)) in
  do! durability in
  let! first := slift (udiv (rt_offset rt_table) cs) in
  do! stage_refcounts (Z.to_nat (rt_clusters rt_table)) first 0 0 in
  or_write_failed flush_dirty_refblocks.

Definition grow_refcounts (plan : RefcountGrowthPlan) (rt_table : RefcountTable) : GM unit :=
  let! s := sget in
  do! stage_growth plan in
  do! or_write_failed flush_dirty_refblocks in
  do! write_table plan (g_refblock_count s) rt_table in
  do! durability in
  if 0 <? new_rt_clusters plan then flip_header plan rt_table else sret tt.

End executor.
Arguments GrowthSt D : clear implicits.
