(* ===== verification/GrowthExecProps.v ===== *)
(** Executing a growth plan on flat devices: the planner's self-coverage makes the
    executor's internal refusal unreachable, and a growth that returns [Ok] has
    every new refblock and the grown refcount table on disk. *)

From stdpp Require Import base numbers list sets option.
From Stdlib Require Import ZArith Lia.
From S2P Require Import Prelude Bytes Refcount Qcow2 WriteTypes WriteInv WriteFlush.
From S2P Require Import Exec ExecSpec ExecBytes Growth GrowthExec.

(** ** Dirty bits *)

Lemma bit_clear_range words i n : length words = n -> 0 <= i < 64 * Z.of_nat n ->
  exists words', bit_clear words i = Some words'.
Proof.
  intros Hl Hi. destruct (word_at_range words i n Hl Hi) as (x & Hx & _).
  unfold bit_clear. rewrite Hx. cbn. eauto.
Qed.

(** A zero word is 64 clean slots. *)
Lemma zero_word_clean words slot i : slot mod 64 = 0 -> word_at words (slot / 64) = Some 0 ->
  slot <= i < slot + 64 -> bit_get words i = Some false.
Proof.
  intros Hm Hw Hi. pose proof (Z.div_mod slot 64 ltac:(lia)).
  assert (i / 64 = slot / 64) as Hd.
  { symmetry. apply (Z.div_unique i 64 (slot / 64) (i - slot)); lia. }
  unfold bit_get. rewrite Hd, Hw. cbn. by rewrite Z.shiftr_0_l.
Qed.

(** ** Invariants of the growth *)

Section growth_exec.
Context {D : Type} `{FlatDisk D}.
Context (cs epb : Z) (device : TargetDevice) (plan : RefcountGrowthPlan) (old blocks_len rt_len : Z).

Record growth_geometry : Prop := {
  gg_cs : 0 < cs;
  gg_epb : 0 < epb;
  gg_entries : epb * 2 <= cs;
  gg_old : 0 <= old;
  gg_slots : needed_slots plan = old + new_refblocks plan;
  gg_new : 0 < new_refblocks plan;
  gg_max : needed_slots plan <= MAX_REFBLOCKS;
  gg_rt : 0 <= new_rt_clusters plan;
  gg_start : 0 <= structures_start plan;
  gg_rt_start : rt_start plan = structures_start plan;
  gg_rb_start : refblocks_start plan = structures_start plan + new_rt_clusters plan;
  gg_cover : structures_start plan + new_rt_clusters plan + new_refblocks plan
             <= needed_slots plan * epb;
  gg_blocks : needed_slots plan * cs <= blocks_len;
  gg_blocks_max : blocks_len <= 9223372036854775807;
  gg_image : needed_slots plan * 8 <= rt_len /\ new_rt_clusters plan * cs <= rt_len /\
             (0 < new_rt_clusters plan -> needed_slots plan * 8 <= new_rt_clusters plan * cs);
  gg_rt_max : rt_len <= 9223372036854775807;
  gg_hosts : (refblocks_start plan + new_refblocks plan) * cs <= 2 ^ 55;
  gg_aligned : cs mod 512 = 0;
  gg_header : 60 <= structures_start plan * cs
}.
Context (G : growth_geometry).

(** Where new slot [i] goes. *)
Definition new_host (i : Z) : Z := (refblocks_start plan + (i - old)) * cs.

(** Where every slot's block is: old slots inside the file and apart. *)
Context (host : Z -> Z).
Record host_layout : Prop := {
  hl_new i : old <= i < needed_slots plan -> host i = new_host i;
  hl_old i : 0 <= i < old -> 60 <= host i /\ host i + cs <= structures_start plan * cs;
  hl_apart i j : 0 <= i < old -> 0 <= j < old -> i <> j -> host i + cs <= host j \/ host j + cs <= host i
}.
Context (L : host_layout).

Definition entry_host (rt : bytes) (i : Z) : Prop :=
  exists raw, be_u64 (E := GrowthExecError) rt (i * 8) = Ok raw /\ Z.land raw L1_OFFSET_MASK = host i.

Definition g_base (s : GrowthSt D) : Prop :=
  Z.of_nat (length (g_dirty s)) = MAX_REFBLOCKS / 64 /\ is_bytes (g_refblocks s) /\
  blen (g_refblocks s) = blocks_len /\ blen (g_rt s) = rt_len.

(** The staged table points every slot at its place. *)
Definition g_table (s : GrowthSt D) : Prop :=
  forall i, 0 <= i < needed_slots plan -> entry_host (g_rt s) i.

Definition block_of (s : GrowthSt D) (i : Z) : option bytes :=
  slice (g_refblocks s) (i * cs) (i * cs + cs).

Definition disk (s : GrowthSt D) : bytes := disk_of (contents (g_dev s)) device.

(** The refcount the staged blocks give a cluster. *)
Definition refcount_of (rbs : bytes) (c : Z) : outcome SnapshotError Z :=
  match slice rbs (c / epb * cs) (c / epb * cs + cs) with
  | Some b => read_refcount_in_block b (c mod epb) 16
  | None => Panic
  end.

(** A clean slot is on disk as staged. *)
Definition synced_below (n : Z) (s : GrowthSt D) : Prop :=
  forall i, 0 <= i < n -> bit_get (g_dirty s) i = Some false ->
    is_Some (block_of s i) /\ slice (disk s) (host i) (host i + cs) = block_of s i.

Definition clean_synced : GrowthSt D -> Prop := synced_below (needed_slots plan).

Lemma dirty_total s i : g_base s -> 0 <= i < MAX_REFBLOCKS ->
  0 <= i < 64 * Z.of_nat (length (g_dirty s)).
Proof. intros (Hl & _) Hi. rewrite Hl. change (MAX_REFBLOCKS / 64) with 32. unfold MAX_REFBLOCKS in Hi. lia. Qed.

Lemma wp_dirty_set i (s : GrowthSt D) (Q : unit -> GrowthSt D -> Prop) R : g_base s -> 0 <= i < MAX_REFBLOCKS ->
  (forall w, length w = length (g_dirty s) ->
     (forall j, 0 <= j < MAX_REFBLOCKS -> bit_get w j = if i =? j then Some true else bit_get (g_dirty s) j) ->
     Q tt (set_g_dirty w s)) ->
  wp (g_dirty_set i) Q R s.
Proof.
  intros Hb Hi HQ. pose proof (dirty_total s i Hb Hi) as Ht.
  destruct (bit_set_range (g_dirty s) i _ eq_refl Ht) as (w & Hw & Hlen).
  unfold g_dirty_set. wstep. wstep. wstep. wstep. rewrite Hw. cbn [or_panic]. wstep.
  apply HQ; [done|]. intros j Hj. apply (bit_set_get _ _ i j (length (g_dirty s)) eq_refl Ht); [by apply dirty_total|done].
Qed.

Lemma block_total s i : g_base s -> 0 <= i < needed_slots plan ->
  exists b, block_of s i = Some b /\ blen b = cs /\ is_bytes b /\
    slice (g_refblocks s) (wmul i cs) (wadd (wmul i cs) cs) = Some b.
Proof.
  intros (_ & Hby & Hl & _) Hi. pose proof (gg_cs G) as Hcs. pose proof (gg_blocks G).
  pose proof (gg_blocks_max G).
  pose proof (Z.mul_le_mono_nonneg_r (i + 1) (needed_slots plan) cs ltac:(lia) ltac:(lia)).
  pose proof (Z.mul_nonneg_nonneg i cs ltac:(lia) ltac:(lia)).
  destruct (slice_of (g_refblocks s) (i * cs) (i * cs + cs)) as (b & Hb & Hbl); [lia | lia |].
  exists b. rewrite wmul_small, wadd_small by (unfold u64_max; lia). unfold block_of.
  split_and!; try done; [lia|]. by eapply slice_is_bytes.
Qed.

(** ** Staging *)

Lemma refcount_of_staged c cluster b b' v (s : GrowthSt D) rbs :
  block_of s (cluster / epb) = Some b ->
  slice rbs (cluster / epb * cs) (cluster / epb * cs + cs) = Some b' ->
  (forall j, 0 <= j < epb -> read_refcount_in_block b' j 16 =
     if j =? cluster mod epb then Ok (stored 16 v) else read_refcount_in_block b j 16) ->
  (c / epb <> cluster / epb -> slice rbs (c / epb * cs) (c / epb * cs + cs) = block_of s (c / epb)) ->
  refcount_of rbs c = if c =? cluster then Ok (stored 16 v) else refcount_of (g_refblocks s) c.
Proof.
  intros Hb Hb' Hread Hother. pose proof (gg_epb G) as Hepb. unfold refcount_of.
  pose proof (Z.div_mod c epb ltac:(lia)). pose proof (Z.div_mod cluster epb ltac:(lia)).
  destruct (Z.eq_dec (c / epb) (cluster / epb)) as [He|Hne].
  - rewrite He, Hb'. unfold block_of in Hb. rewrite Hb, Hread by (apply Z.mod_pos_bound; lia).
    destruct (Z.eqb_spec c cluster), (Z.eqb_spec (c mod epb) (cluster mod epb)); try congruence; nia.
  - rewrite (Hother Hne). unfold block_of. by destruct (Z.eqb_spec c cluster) as [->|].
Qed.

(** One refcount: its slot becomes dirty, and only its block changes. *)
Lemma wp_stage_refcount cluster v (s : GrowthSt D) (Q : bool -> GrowthSt D -> Prop) R :
  g_base s -> g_refblock_count s = needed_slots plan -> 0 <= cluster < needed_slots plan * epb ->
  (forall rbs w, blen rbs = blocks_len -> is_bytes rbs -> length w = length (g_dirty s) ->
     (forall j, 0 <= j < MAX_REFBLOCKS ->
        bit_get w j = if cluster / epb =? j then Some true else bit_get (g_dirty s) j) ->
     (forall i, 0 <= i < needed_slots plan -> i <> cluster / epb ->
        slice rbs (i * cs) (i * cs + cs) = block_of s i) ->
     (forall c, 0 <= c < needed_slots plan * epb ->
        refcount_of rbs c = if c =? cluster then Ok (stored 16 v) else refcount_of (g_refblocks s) c) ->
     Q true (set_g_dirty w (set_g_refblocks rbs s))) ->
  wp (stage_refcount cs epb cluster v) Q R s.
Proof.
  intros Hb Hcount Hcl HQ. pose proof G as [Hcs Hepb Hent _ _ _ Hmax _ _ _ _ _ Hbl Hbm _ _ _ _ _].
  assert (0 <= cluster / epb < needed_slots plan) as Hslot.
  { split; [apply Z.div_pos; lia | apply Z.div_lt_upper_bound; lia]. }
  pose proof (Z.mod_pos_bound cluster epb Hepb) as Hloc.
  destruct (block_total s (cluster / epb) Hb Hslot) as (b & Hblk & Hblen & Hbb & Hsl).
  unfold stage_refcount. wstep. wstep. wstep. wstep. unfold udiv, urem.
  rewrite (proj2 (Z.eqb_neq epb 0)) by lia. cbv beta iota. rewrite Hcount.
  destruct (Z.leb_spec (needed_slots plan) (cluster / epb)); [lia|].
  wstep. wstep. rewrite Hsl. cbn [or_panic]. wstep. wstep. cbv beta iota.
  destruct (set_refcount_spec b (cluster mod epb) 16 v) as (b' & Hset & Hl' & Hb' & Hread).
  { done. } { unfold slice_fits. nia. } { vm_compute. repeat constructor. }
  { unfold in_block. split; [lia|]. nia. }
  rewrite Hset. wstep. wstep. rewrite wmul_small by (unfold u64_max; nia).
  destruct Hb as (Hd & Hby & Hlen & Hrl).
  destruct (splice_of (g_refblocks s) (cluster / epb * cs) b') as (rbs & Hrbs & Hrlen); [nia | nia |].
  rewrite Hrbs. cbn [or_panic]. wstep. wstep. wstep.
  assert (is_bytes rbs) by exact (splice_is_bytes _ _ _ _ Hby Hb' Hrbs).
  apply wp_dirty_set; [split_and!; [exact Hd | done | exact (eq_trans Hrlen Hlen) | exact Hrl] | lia |].
  assert (forall i, 0 <= i < needed_slots plan -> i <> cluster / epb ->
    slice rbs (i * cs) (i * cs + cs) = block_of s i) as Hsame.
  { intros i Hi Hne. rewrite (slice_splice_ne _ _ _ _ _ _ Hrbs); [done|]. rewrite Hl', Hblen. nia. }
  intros w Hw Hget. wstep. apply HQ; try done; [lia|].
  intros c Hc. apply (refcount_of_staged c cluster b b' v s rbs); try done.
  - pose proof (slice_splice_eq _ _ _ _ Hrbs) as He. by rewrite Hl', Hblen in He.
  - intros j Hj. apply Hread. unfold in_block. split; [lia|]. nia.
  - intros Hne. apply Hsame; [|done]. split; [apply Z.div_pos; lia | apply Z.div_lt_upper_bound; lia].
Qed.

(** The state every phase after staging keeps. *)
Definition g_ready (s : GrowthSt D) : Prop :=
  g_base s /\ g_table s /\ g_refblock_count s = needed_slots plan.

Lemma g_ready_update (s : GrowthSt D) w rbs : g_ready s -> length w = length (g_dirty s) ->
  is_bytes rbs -> blen rbs = blocks_len -> g_ready (set_g_dirty w (set_g_refblocks rbs s)).
Proof.
  intros ((Hd & _ & _ & Hrt) & Ht & Hc) Hw Hb Hl. split; [|done].
  unfold g_base. cbn [g_dirty g_refblocks g_rt set_g_dirty set_g_refblocks]. by rewrite Hw.
Qed.

Lemma wp_stage_refcounts n : forall first i v (s : GrowthSt D),
  g_ready s -> 0 <= first + i -> 0 <= i -> 0 <= first ->
  first + i + Z.of_nat n <= needed_slots plan * epb ->
  wp (stage_refcounts cs epb n first i v)
    (fun _ s' => g_ready s' /\ g_dev s' = g_dev s /\ g_rmw s' = g_rmw s /\ g_rt s' = g_rt s /\
                 (forall n, n <= needed_slots plan -> synced_below n s -> synced_below n s') /\
                 forall c, 0 <= c < needed_slots plan * epb -> refcount_of (g_refblocks s') c =
                   if (first + i <=? c) && (c <? first + i + Z.of_nat n) then Ok (stored 16 v)
                   else refcount_of (g_refblocks s) c)
    (fun _ _ => False) s.
Proof.
  induction n as [|n IH]; intros first i v s Hr Hfi Hi Hf Hle; cbn [stage_refcounts].
  { wstep. split_and!; try done. intros c Hc.
    destruct (Z.leb_spec (first + i) c), (Z.ltb_spec c (first + i + Z.of_nat 0)); done || lia. }
  pose proof Hr as (Hb & Ht & Hc). wstep.
  assert (needed_slots plan * epb <= u64_max) as Hmax.
  { pose proof (gg_max G). pose proof (gg_entries G). pose proof (gg_blocks G). pose proof (gg_blocks_max G).
    pose proof (gg_epb G). unfold u64_max.
    pose proof (Z.mul_le_mono_nonneg_l epb cs (needed_slots plan) ltac:(lia) ltac:(lia)). lia. }
  rewrite wadd_small by lia. apply wp_stage_refcount; [done | done | lia |].
  intros rbs w Hrl Hrb Hwl Hget Hsame Hrc. set (s1 := set_g_dirty w (set_g_refblocks rbs s)).
  assert (g_ready s1) as Hr1 by by apply g_ready_update.
  assert (forall m, m <= needed_slots plan -> synced_below m s -> synced_below m s1) as Hcs.
  { intros m Hm Hcl j Hj Hbit. cbn in Hbit. rewrite Hget in Hbit by (destruct G; lia).
    destruct (Z.eqb_spec ((first + i) / epb) j) as [|Hne]; [done|].
    unfold block_of. cbn [g_refblocks s1 set_g_dirty set_g_refblocks].
    rewrite (Hsame j) by (destruct G; lia). by apply Hcl. }
  eapply wp_mono; [apply (IH first (i + 1) v s1); done || lia | |done].
  intros _ s2 (Hr2 & Hdev & Hrmw & Hrt & Hcl2 & Hrc2). split_and!; auto.
  intros c Hcr. rewrite Hrc2 by done. cbn [g_refblocks s1 set_g_dirty set_g_refblocks]. rewrite Hrc by done.
  destruct (Z.leb_spec (first + i) c), (Z.leb_spec (first + (i + 1)) c),
    (Z.ltb_spec c (first + (i + 1) + Z.of_nat n)), (Z.ltb_spec c (first + i + Z.of_nat (S n))),
    (Z.eqb_spec c (first + i)); cbn [andb]; try lia; done.
Qed.

Lemma wp_mark_dirty n : forall slot (s : GrowthSt D),
  g_ready s -> 0 <= slot -> slot + Z.of_nat n <= needed_slots plan ->
  wp (mark_dirty n slot)
    (fun _ s' => g_ready s' /\ g_dev s' = g_dev s /\ g_rmw s' = g_rmw s /\
       g_rt s' = g_rt s /\ g_refblocks s' = g_refblocks s /\
       forall j, 0 <= j < MAX_REFBLOCKS -> bit_get (g_dirty s') j =
         if (slot <=? j) && (j <? slot + Z.of_nat n) then Some true else bit_get (g_dirty s) j)
    (fun _ _ => False) s.
Proof.
  induction n as [|n IH]; intros slot s Hr Hs Hle; cbn [mark_dirty].
  { wstep. split_and!; try done. intros j Hj.
    destruct (Z.leb_spec slot j), (Z.ltb_spec j (slot + Z.of_nat 0)); done || lia. }
  pose proof Hr as (Hb & Ht & Hc). wstep. apply wp_dirty_set; [done | destruct G; lia |].
  intros w Hwl Hget. set (s1 := set_g_dirty w s).
  assert (g_ready s1) as Hr1.
  { destruct Hb as (_ & ? & ? & _). apply (g_ready_update s w (g_refblocks s)); done. }
  eapply wp_mono; [apply (IH (slot + 1) s1); done || lia | |done].
  intros _ s2 (Hr2 & Hdev & Hrmw & Hrt & Hrbs & Hbits). split_and!; try done. intros j Hj. rewrite Hbits by done.
  cbn [g_dirty s1 set_g_dirty]. rewrite Hget by done.
  destruct (Z.leb_spec slot j), (Z.leb_spec (slot + 1) j), (Z.ltb_spec j (slot + 1 + Z.of_nat n)),
    (Z.ltb_spec j (slot + Z.of_nat (S n))), (Z.eqb_spec slot j); cbn [andb]; try lia; done.
Qed.

Lemma new_host_bound i : old <= i < needed_slots plan -> is_u64 (new_host i).
Proof.
  intros Hi. pose proof (gg_hosts G) as Hh. change (2 ^ 55) with 36028797018963968 in Hh.
  pose proof (gg_cs G) as Hcs. pose proof (gg_slots G). pose proof (gg_rb_start G).
  pose proof (gg_start G). pose proof (gg_rt G). unfold new_host, is_u64, u64_max.
  pose proof (Z.mul_le_mono_nonneg_r (refblocks_start plan + (i - old))
    (refblocks_start plan + new_refblocks plan) cs ltac:(lia) ltac:(lia)).
  pose proof (Z.mul_nonneg_nonneg (refblocks_start plan + (i - old)) cs ltac:(lia) ltac:(lia)). lia.
Qed.

(** The new table entries. *)
Lemma wp_stage_rt_entries n : forall j limit (s : GrowthSt D),
  0 <= j -> j + Z.of_nat n <= new_refblocks plan -> needed_slots plan * 8 <= limit <= rt_len ->
  blen (g_rt s) = rt_len ->
  wp (stage_rt_entries cs n j old limit plan)
    (fun _ s' => exists rt, s' = set_g_rt rt s /\ blen rt = rt_len /\
       (forall i, old + j <= i < old + j + Z.of_nat n ->
          be_u64 (E := GrowthExecError) rt (i * 8) = Ok (new_host i)) /\
       (forall i, 0 <= i < old + j ->
          be_u64 (E := GrowthExecError) rt (i * 8) = be_u64 (g_rt s) (i * 8)))
    (fun _ _ => False) s.
Proof.
  induction n as [|n IH]; intros j limit s Hj Hle Hlim Hlen; cbn [stage_rt_entries].
  { wstep. exists (g_rt s). split_and!; [by destruct s | done | lia | done]. }
  pose proof G as [Hcs _ _ Hold Hslots _ Hmax _ Hst _ Hrb _ _ _ _ Hrm Hho _ _].
  change (2 ^ 55) with 36028797018963968 in Hho. unfold MAX_REFBLOCKS in Hmax.
  assert (new_host (old + j) = (refblocks_start plan + j) * cs) as Hhost
    by (unfold new_host; f_equal; lia).
  pose proof (new_host_bound (old + j) ltac:(lia)) as Hu. unfold is_u64, u64_max in Hu.
  rewrite Hhost in Hu. rewrite !wadd_small by (unfold u64_max; nia).
  rewrite !wmul_small by (unfold u64_max; nia). rewrite <- Hhost.
  destruct (slice_of (g_rt s) 0 limit) as (buf & Hbuf & Hbl); [lia | lia |].
  destruct (splice_of buf ((old + j) * 8) (be_bytes 8 (new_host (old + j)))) as (buf' & Hbuf' & Hbl');
    [lia | rewrite blen_be_bytes; lia |].
  destruct (splice_of (g_rt s) 0 buf') as (rt & Hrt & Hrl); [lia | lia |].
  wstep. wstep. wstep. wstep. rewrite Hbuf. cbn [or_panic]. wstep. wstep. rewrite Hbuf'. cbn [or_panic].
  wstep. wstep. rewrite Hrt. cbn [or_panic]. wstep. wstep.
  pose proof (splice_through_sector _ _ _ _ _ _ _ _ Hbuf Hbuf' Hrt) as Hsp. rewrite Z.add_0_l in Hsp.
  assert (write_be_u64 (E := GrowthExecError) (g_rt s) ((old + j) * 8) (new_host (old + j)) = Ok rt) as Hw
    by (unfold write_be_u64; by rewrite Hsp).
  eapply wp_mono; [apply (IH (j + 1) limit (set_g_rt rt s)); cbn; lia | |done].
  intros _ s' (rt' & -> & Hl' & Hnew & Hkeep). exists rt'. cbn [g_rt set_g_rt] in Hkeep.
  split_and!; [done | done | |].
  - intros i Hi. destruct (Z.eq_dec i (old + j)) as [->|Hne]; [|apply Hnew; lia].
    rewrite Hkeep by lia. eapply write_be_u64_read; [|exact Hw]. apply new_host_bound. lia.
  - intros i Hi. rewrite Hkeep by lia. eapply write_be_u64_frame; [exact Hw|]. lia.
Qed.

(** ** Device writes *)

Definition with_device (d : D) (rmw : bytes) (s : GrowthSt D) : GrowthSt D :=
  mkGrowthSt d (g_refblock_count s) (g_dirty s) (g_rt s) (g_refblocks s) rmw.

Lemma wp_g_write off src (s : GrowthSt D) (Q : bool -> GrowthSt D -> Prop) R :
  0 <= off -> blen src <= u64_max ->
  (forall d' rmw', spec_disk_write (contents (g_dev s)) device off src = Some (contents d') ->
     Q true (with_device d' rmw' s)) ->
  (forall d' rmw', Q false (with_device d' rmw' s)) ->
  wp (g_write device off src) Q R s.
Proof.
  intros Hoff Hlen Hok Hno. unfold wp, g_write.
  pose proof (write_bytes_spec device off src (mkWrSt (g_dev s) (g_rmw s)) Hoff Hlen) as Hw.
  unfold wp in Hw. destruct (write_bytes device off src _) as [[u|e| |] w]; try done.
  - destruct Hw as (_ & Hw & _). by apply Hok.
  - by apply Hno.
Qed.

Lemma spec_write_disk k off src k' : spec_disk_write k device off src = Some k' -> 0 < blen src ->
  splice (disk_of k device) off src = Some (disk_of k' device).
Proof.
  unfold spec_disk_write. intros Hw Hlen. destruct (Z.eqb_spec (blen src) 0); [lia|].
  apply bind_Some in Hw as (c & Hc & [= <-]). by rewrite disk_of_set_eq.
Qed.

(** A write that misses the refblocks keeps them. *)
Lemma clean_synced_write (s : GrowthSt D) d' rmw' off src :
  clean_synced s -> spec_disk_write (contents (g_dev s)) device off src = Some (contents d') ->
  0 < blen src ->
  (forall i, 0 <= i < needed_slots plan -> host i + cs <= off \/ off + blen src <= host i) ->
  clean_synced (with_device d' rmw' s).
Proof.
  intros Hcl Hw Hlen Hoff i Hi Hbit. destruct (Hcl i Hi Hbit) as [Hsome Heq].
  split; [done|]. unfold disk. cbn [g_dev with_device].
  rewrite (slice_splice_ne _ _ _ _ _ _ (spec_write_disk _ _ _ _ Hw Hlen)); [done|].
  by apply Hoff.
Qed.

(** ** Flushing *)

(** Ranges the flush leaves alone: the header's first bytes and the moved table. *)
Definition off_limits (lo hi : Z) : Prop :=
  hi <= 60 \/ structures_start plan * cs <= lo /\ hi <= refblocks_start plan * cs.

Definition flushed_from (s s' : GrowthSt D) : Prop :=
  g_ready s' /\ clean_synced s' /\ g_rt s' = g_rt s /\ g_refblocks s' = g_refblocks s /\
  (forall lo hi, off_limits lo hi -> slice (disk s') lo hi = slice (disk s) lo hi) /\
  (forall j, 0 <= j < MAX_REFBLOCKS -> bit_get (g_dirty s) j = Some false ->
     bit_get (g_dirty s') j = Some false).

Lemma flushed_refl s : g_ready s -> clean_synced s -> flushed_from s s.
Proof. done. Qed.

Lemma flushed_trans s1 s2 s3 : flushed_from s1 s2 -> flushed_from s2 s3 -> flushed_from s1 s3.
Proof.
  intros (_ & _ & Hrt1 & Hrb1 & Hd1 & Hb1) (Hr & Hcl & Hrt2 & Hrb2 & Hd2 & Hb2).
  split_and!; try done; try congruence.
  - intros lo hi Hoff. rewrite Hd2, Hd1 by done. done.
  - intros j Hj Hbit. by apply Hb2, Hb1.
Qed.

Lemma new_host_mask i : old <= i < needed_slots plan -> Z.land (new_host i) L1_OFFSET_MASK = new_host i.
Proof.
  intros Hi. apply L1_mask_id.
  - pose proof (new_host_bound i Hi) as Hu. unfold is_u64 in Hu. split; [lia|].
    pose proof (gg_hosts G) as Hh. pose proof (gg_cs G). pose proof (gg_slots G).
    change (2 ^ 55) with 36028797018963968 in Hh. change (2 ^ 56) with 72057594037927936.
    pose proof (Z.mul_le_mono_nonneg_r (refblocks_start plan + (i - old))
      (refblocks_start plan + new_refblocks plan) cs ltac:(lia) ltac:(lia)). unfold new_host. lia.
  - unfold new_host. rewrite Z.mul_mod, (gg_aligned G), Z.mul_0_r, Z.mod_0_l by lia. done.
Qed.

(** What a slot's block cannot hit. *)
Lemma new_host_above i : old <= i < needed_slots plan -> refblocks_start plan * cs <= new_host i.
Proof. intros Hi. unfold new_host. pose proof (gg_cs G). nia. Qed.

Lemma starts_le : structures_start plan * cs <= refblocks_start plan * cs.
Proof.
  rewrite (gg_rb_start G). pose proof (gg_cs G). pose proof (gg_rt G). nia.
Qed.

Lemma host_above i : 0 <= i < needed_slots plan -> 60 <= host i.
Proof.
  intros Hi. pose proof starts_le. pose proof (gg_header G). destruct (Z.lt_ge_cases i old).
  - apply (hl_old L). lia.
  - rewrite (hl_new L) by lia. pose proof (new_host_above i ltac:(lia)). lia.
Qed.

Lemma host_limits i lo hi : 0 <= i < needed_slots plan -> off_limits lo hi ->
  hi <= host i \/ host i + cs <= lo.
Proof.
  intros Hi Hoff. pose proof (host_above i Hi). destruct Hoff as [Hh|[Hl Hh]]; [lia|].
  destruct (Z.lt_ge_cases i old).
  - destruct (hl_old L i); lia.
  - rewrite (hl_new L) by lia. pose proof (new_host_above i ltac:(lia)). lia.
Qed.

Lemma host_apart i j : 0 <= i < needed_slots plan -> 0 <= j < needed_slots plan -> j <> i ->
  host j + cs <= host i \/ host i + cs <= host j.
Proof.
  intros Hi Hj Hne. pose proof starts_le. pose proof (gg_cs G).
  destruct (Z.lt_ge_cases i old), (Z.lt_ge_cases j old).
  - apply (hl_apart L); lia.
  - right. destruct (hl_old L i); [lia|]. rewrite (hl_new L j) by lia.
    pose proof (new_host_above j ltac:(lia)). lia.
  - left. destruct (hl_old L j); [lia|]. rewrite (hl_new L i) by lia.
    pose proof (new_host_above i ltac:(lia)). lia.
  - rewrite !(hl_new L) by lia. unfold new_host. nia.
Qed.

Lemma g_ready_device s d' rmw' : g_ready s -> g_ready (with_device d' rmw' s).
Proof. done. Qed.

Lemma wp_flush_slot i s : g_ready s -> clean_synced s -> 0 <= i < needed_slots plan ->
  wp (flush_slot cs device i)
    (fun ok s' => ok = true -> flushed_from s s' /\ bit_get (g_dirty s') i = Some false)
    (fun _ _ => False) s.
Proof.
  intros Hr Hcl Hi. pose proof Hr as (Hb & Ht & Hc). pose proof (gg_max G) as Hmax.
  pose proof (gg_image G) as [Himg _]. pose proof (gg_rt_max G). pose proof (gg_cs G) as Hcs.
  pose proof (gg_blocks_max G). pose proof (gg_blocks G).
  unfold flush_slot. wstep. unfold g_dirty_get. wstep. wstep. wstep.
  destruct (bit_get_range (g_dirty s) i _ eq_refl (dirty_total s i Hb ltac:(lia))) as [[] Hbit].
  2:{ rewrite Hbit. cbn [or_panic]. wstep. done. }
  rewrite Hbit. cbn [or_panic]. wstep. wstep. wstep. wstep. rewrite wmul_small by (unfold u64_max; lia).
  destruct (Ht i Hi) as (raw & Hraw & Hhost). rewrite Hraw. pose proof (host_above i Hi) as Hh0.
  destruct (block_total s i Hb Hi) as (b & Hblk & Hbl & _ & Hsl).
  wstep. wstep. rewrite Hsl. cbn [or_panic]. wstep. rewrite Hhost.
  apply wp_g_write; [lia | rewrite Hbl; unfold u64_max; nia | |by intros; wstep].
  intros d' rmw' Hw. set (s1 := with_device d' rmw' s).
  destruct (bit_clear_range (g_dirty s) i _ eq_refl (dirty_total s i Hb ltac:(lia))) as [w Hclr].
  assert (forall j, 0 <= j < MAX_REFBLOCKS -> length w = length (g_dirty s) /\
    bit_get w j = if i =? j then Some false else bit_get (g_dirty s) j) as Hbits.
  { intros j Hj. apply (bit_clear_get (g_dirty s) w i j _ eq_refl); try done; apply dirty_total; done || lia. }
  wstep. unfold g_dirty_clear. wstep. wstep. wstep. wstep. cbn [g_dirty s1 with_device]. rewrite Hclr.
  cbn [or_panic]. wstep. wstep. intros _.
  pose proof (spec_write_disk _ _ _ _ Hw ltac:(lia)) as Hsp.
  split; [|change (g_dirty (set_g_dirty w s1)) with w; rewrite (proj2 (Hbits i ltac:(lia))), Z.eqb_refl; done].
  assert (g_ready (set_g_dirty w s1)) as Hr'.
  { destruct Hb as (_ & ? & ? & _).
    apply (g_ready_update s1 w (g_refblocks s)); try done. apply (Hbits i ltac:(lia)). }
  split; [exact Hr'|]. split; [|split; [done|split; [done|split]]].
  - intros j Hj Hjb. assert (0 <= j < MAX_REFBLOCKS) as Hj0 by (pose proof (gg_old G); lia).
    change (g_dirty (set_g_dirty w s1)) with w in Hjb. rewrite (proj2 (Hbits j Hj0)) in Hjb.
    change (block_of (set_g_dirty w s1) j) with (block_of s j).
    change (disk (set_g_dirty w s1)) with (disk_of (contents d') device).
    destruct (Z.eqb_spec i j) as [<-|Hne].
    + rewrite Hblk. split; [done|]. rewrite <- Hbl. by eapply slice_splice_eq.
    + destruct (Hcl j Hj Hjb) as [Hsome Heq]. split; [done|].
      rewrite (slice_splice_ne _ _ _ _ _ _ Hsp); [done|]. rewrite Hbl. by apply host_apart.
  - intros lo hi Hoff. change (disk (set_g_dirty w s1)) with (disk_of (contents d') device).
    rewrite (slice_splice_ne _ _ _ _ _ _ Hsp); [done|]. rewrite Hbl. by apply host_limits.
  - intros j Hj Hjb. cbn. rewrite (proj2 (Hbits j Hj)). by destruct (i =? j).
Qed.

Lemma wp_flush_slots fuel : forall slot s,
  g_ready s -> clean_synced s -> 0 <= slot ->
  (forall j, 0 <= j < slot -> j < needed_slots plan -> bit_get (g_dirty s) j = Some false) ->
  (Z.to_nat (needed_slots plan - slot) < fuel)%nat ->
  wp (flush_slots cs device fuel slot)
    (fun ok s' => ok = true -> flushed_from s s' /\
       forall j, 0 <= j < needed_slots plan -> bit_get (g_dirty s') j = Some false)
    (fun _ _ => False) s.
Proof.
  induction fuel as [|fuel IH]; intros slot s Hr Hcl Hs Hclean Hf; [lia|].
  pose proof Hr as (Hb & Ht & Hc). pose proof (gg_max G) as Hmax. unfold MAX_REFBLOCKS in Hmax.
  cbn [flush_slots]. wstep. wstep. rewrite Hc. destruct (Z.ltb_spec slot (needed_slots plan)).
  2:{ wstep. intros _. split; [done|]. intros j Hj. apply Hclean; lia. }
  wstep. unfold is_multiple_of. cbn [Z.eqb].
  destruct (word_at_range (g_dirty s) slot _ eq_refl (dirty_total s slot Hb ltac:(unfold MAX_REFBLOCKS; lia)))
    as (x & Hx & _).
  assert (wp (let! ok := flush_slot cs device slot in
              if (ok : bool) then flush_slots cs device fuel (wadd slot 1) else sret false)
    (fun ok s' => ok = true -> flushed_from s s' /\
       forall j, 0 <= j < needed_slots plan -> bit_get (g_dirty s') j = Some false)
    (fun _ _ => False) s) as Hone.
  { wstep. eapply wp_mono; [by apply wp_flush_slot | |done]. intros ok s1 Hok. destruct ok; [|by wstep].
    destruct (Hok eq_refl) as [Hfl Hbit]. pose proof Hfl as (Hr1 & Hcl1 & _ & _ & _ & Hkeep).
    rewrite wadd_small by (unfold u64_max; lia).
    eapply wp_mono; [apply (IH (slot + 1) s1); try done; try lia | |done].
    - intros j Hj Hjn. destruct (Z.eq_dec j slot) as [->|Hne]; [done|].
      apply Hkeep; [unfold MAX_REFBLOCKS; lia|]. apply Hclean; lia.
    - intros ok2 s2 H2 Hok2. destruct (H2 Hok2) as [Hfl2 Hall]. split; [by eapply flushed_trans|done]. }
  destruct (Z.eqb_spec (slot mod 64) 0) as [Hm|Hm]; [|by wstep].
  wstep. wstep. rewrite Hx. cbn [or_panic]. wstep. destruct (Z.eqb_spec x 0) as [->|]; [|exact Hone].
  rewrite wadd_small by (unfold u64_max; lia). apply IH; try done; [lia | | lia].
  intros j Hj Hjn. destruct (Z.lt_ge_cases j slot); [apply Hclean; lia|].
  apply (zero_word_clean _ slot); done || lia.
Qed.

Lemma wp_flush_dirty s : g_ready s -> clean_synced s ->
  wp (or_write_failed (flush_dirty_refblocks cs device))
    (fun _ s' => flushed_from s s' /\
       forall j, 0 <= j < needed_slots plan -> bit_get (g_dirty s') j = Some false)
    (fun e _ => e <> StageOutOfCoverage) s.
Proof.
  intros Hr Hcl. pose proof Hr as (_ & _ & Hc). unfold or_write_failed, flush_dirty_refblocks.
  wstep. wstep. wstep. eapply wp_mono; [apply wp_flush_slots; try done; [lia | rewrite Hc; lia] | |done].
  intros [] s' Hok; wstep; [by apply Hok | done].
Qed.

Lemma wp_durability (s : GrowthSt D) (Q : unit -> GrowthSt D -> Prop) :
  (forall d', contents d' = contents (g_dev s) -> Q tt (with_device d' (g_rmw s) s)) ->
  wp (durability device) Q (fun e _ => e <> StageOutOfCoverage) s.
Proof.
  intros HQ. unfold durability. wstep. wstep. pose proof (fd_fsync device (g_dev s)) as Hf.
  destruct (fsync device (g_dev s)) as [r d']. destruct Hf as (Hd & _). wstep. wstep.
  destruct r as [[]|]; wstep; by apply HQ || done.
Qed.

(** ** Staging a growth *)

Lemma zero_part_spec b lo hi : 0 <= lo <= hi -> hi <= blen b ->
  exists b', zero_part b lo hi = Ok b' /\ blen b' = blen b /\ (is_bytes b -> is_bytes b') /\
    (forall x y, y <= lo -> slice b' x y = slice b x y) /\
    (forall x y, lo <= x <= y -> y <= hi -> slice b' x y = Some (filled (y - x) 0)).
Proof.
  intros Hlo Hhi. destruct (slice_of b lo hi) as (sub & Hsub & Hsl); [lia | lia |].
  pose proof (blen_filled (blen sub) 0 ltac:(lia)) as Hfl.
  destruct (splice_of b lo (filled (blen sub) 0)) as (b' & Hb' & Hl'); [lia | lia |].
  exists b'. unfold zero_part. rewrite Hsub. cbn [or_panic obind]. rewrite Hb'. split_and!; try done.
  - intros Hb. eapply splice_is_bytes; [done | | done]. by apply Forall_replicate.
  - intros x y Hy. eapply slice_splice_ne; [done|]. by left.
  - intros x y Hx Hy. pose proof (slice_splice_eq _ _ _ _ Hb') as Heq. rewrite Hfl, Hsl in Heq.
    pose proof (slice_slice _ _ _ _ (x - lo) (y - lo) Heq ltac:(lia) ltac:(lia)) as Hs2.
    replace (lo + (x - lo)) with x in Hs2 by lia. replace (lo + (y - lo)) with y in Hs2 by lia.
    rewrite <- Hs2, slice_filled by lia. do 2 f_equal. lia.
Qed.

Lemma zero_block_refcount i : 0 <= i < epb -> read_refcount_in_block (filled cs 0) i 16 = Ok 0.
Proof.
  intros Hi. pose proof (gg_cs G). pose proof (gg_entries G). pose proof (gg_blocks G).
  pose proof (gg_blocks_max G). pose proof (gg_slots G). pose proof (gg_new G). pose proof (gg_old G).
  assert (cs <= blocks_len) by nia. cbn [read_refcount_in_block]. unfold read_whole.
  change (Z.of_nat 2) with 2. rewrite wmul_small, wadd_small by (unfold u64_max; lia).
  rewrite blen_filled by lia. destruct (Z.ltb_spec cs (i * 2 + 2)); [lia|].
  rewrite slice_filled by lia. cbn [or_panic obind]. by replace (i * 2 + 2 - i * 2) with 2 by lia.
Qed.

(** The state a growth starts from: the old slots loaded, the clean ones as on disk. *)
Definition g_start (s : GrowthSt D) : Prop :=
  g_base s /\ g_refblock_count s = old /\ (forall i, 0 <= i < old -> entry_host (g_rt s) i) /\
  synced_below old s.

Definition image_len : Z :=
  if 0 <? new_rt_clusters plan then new_rt_clusters plan * cs else needed_slots plan * 8.

Lemma image_len_bounds : needed_slots plan * 8 <= image_len <= rt_len.
Proof.
  pose proof (gg_image G) as (H8 & Hcs & Hrel). unfold image_len.
  destruct (Z.ltb_spec 0 (new_rt_clusters plan)); [|lia]. specialize (Hrel ltac:(lia)). lia.
Qed.

(** The image, with the tail of a moved table cleared, still has the old entries. *)
Lemma zero_tail s : g_start s ->
  exists rt, (if 0 <? new_rt_clusters plan then zero_part (g_rt s) (old * 8) image_len else Ok (g_rt s)) = Ok rt /\
    blen rt = rt_len /\ forall i, 0 <= i < old -> entry_host rt i.
Proof.
  intros ((_ & _ & _ & Hl) & _ & He & _). pose proof image_len_bounds. pose proof (gg_old G).
  pose proof (gg_slots G). pose proof (gg_new G). destruct (0 <? new_rt_clusters plan); [|eauto].
  destruct (zero_part_spec (g_rt s) (old * 8) image_len) as (rt & Hz & Hrl & _ & Hlow & _); [lia | lia |].
  exists rt. split_and!; [done | lia |]. intros i Hi. destruct (He i Hi) as (raw & Hraw & Hm).
  exists raw. split; [|done]. unfold be_u64 in *. by rewrite Hlow by lia.
Qed.

(** The refcounts after staging. *)
Definition is_structure (c : Z) : bool :=
  (structures_start plan <=? c) &&
  (c <? structures_start plan + new_rt_clusters plan + new_refblocks plan).

Definition grown_refcount (s : GrowthSt D) (c : Z) : outcome SnapshotError Z :=
  if is_structure c then Ok 1 else if c <? old * epb then refcount_of (g_refblocks s) c else Ok 0.

Lemma zeroed_refcount rbs rbs' c :
  (forall x y, y <= old * cs -> slice rbs' x y = slice rbs x y) ->
  (forall x y, old * cs <= x <= y -> y <= needed_slots plan * cs -> slice rbs' x y = Some (filled (y - x) 0)) ->
  0 <= c < needed_slots plan * epb ->
  refcount_of rbs' c = if c <? old * epb then refcount_of rbs c else Ok 0.
Proof.
  intros Hlow Hhigh Hc. pose proof (gg_epb G). pose proof (gg_cs G). pose proof (gg_old G).
  assert (0 <= c / epb < needed_slots plan) as Hq.
  { split; [apply Z.div_pos; lia | apply Z.div_lt_upper_bound; lia]. }
  unfold refcount_of. destruct (Z.ltb_spec c (old * epb)) as [Hlt|Hge].
  - assert (c / epb < old) by (apply Z.div_lt_upper_bound; lia). by rewrite Hlow by nia.
  - assert (old <= c / epb) by (apply Z.div_le_lower_bound; lia). rewrite Hhigh by nia.
    replace (c / epb * cs + cs - c / epb * cs) with cs by lia.
    apply zero_block_refcount, Z.mod_pos_bound. lia.
Qed.

Lemma wp_stage_growth s : g_start s ->
  wp (stage_growth cs epb plan)
    (fun _ s' => g_ready s' /\ clean_synced s' /\ g_dev s' = g_dev s /\ g_rmw s' = g_rmw s /\
       forall c, 0 <= c < needed_slots plan * epb -> refcount_of (g_refblocks s') c = grown_refcount s c)
    (fun _ _ => False) s.
Proof.
  intros Hst. pose proof Hst as (Hb & Hc & He & Hsy). pose proof Hb as (Hd & Hby & Hbl & Hrl).
  pose proof image_len_bounds as Him. pose proof (gg_old G). pose proof (gg_slots G). pose proof (gg_new G).
  pose proof (gg_rt_max G). pose proof (gg_blocks_max G). pose proof (gg_blocks G). pose proof (gg_cs G) as Hcs.
  pose proof (gg_max G) as Hmax. pose proof (gg_rt G) as Hnrt. pose proof (gg_cover G) as Hcov.
  pose proof (gg_start G). pose proof (gg_image G) as (_ & Hnr & _).
  assert (new_rt_clusters plan * cs <= u64_max) by (unfold u64_max; lia).
  assert (old * cs <= needed_slots plan * cs) by nia.
  assert (needed_slots plan * cs <= u64_max) by (unfold u64_max; lia).
  unfold stage_growth. wstep. wstep. rewrite Hc.
  rewrite !wmul_small by (unfold u64_max, MAX_REFBLOCKS in *; nia). fold image_len.
  destruct (slice_of (g_rt s) 0 image_len) as (img & Himg & _); [lia | lia |].
  destruct (zero_tail s Hst) as (rt & Hz & Hrtl & Hold).
  assert (forall Q R, Q rt s -> wp (if 0 <? new_rt_clusters plan then
    slift (zero_part (g_rt s) (old * 8) image_len) else sret (g_rt s)) Q R s) as Hzt.
  { intros Q R HQ. destruct (0 <? _); wstep; [by rewrite Hz | by injection Hz as <-]. }
  wstep. wstep. rewrite Himg. cbn [or_panic]. wstep. apply Hzt. wstep. wstep. wstep.
  eapply wp_mono; [apply (wp_stage_rt_entries _ 0 image_len (set_g_rt rt s)); try done; lia | |done].
  intros _ s2 (rt2 & -> & Hl2 & Hnew & Hkeep). cbn [g_rt set_g_rt] in Hkeep. wstep. wstep. wstep. wstep.
  cbn [g_refblocks set_g_rt].
  destruct (zero_part_spec (g_refblocks s) (old * cs) (needed_slots plan * cs))
    as (rbs & Hzb & Hrbl & Hrby & Hlow & Hhigh); [nia | lia |].
  rewrite Hzb. wstep. wstep. wstep.
  set (s3 := set_g_count (needed_slots plan) (set_g_refblocks rbs (set_g_rt rt2 (set_g_rt rt s)))).
  assert (g_ready s3) as Hr3.
  { split; [|split; [|done]].
    - split_and!; [exact Hd | exact (Hrby Hby) | exact (eq_trans Hrbl Hbl) | exact Hl2].
    - intros i Hi. destruct (Z.lt_ge_cases i old) as [Hlt|Hge].
      + destruct (Hold i ltac:(lia)) as (raw & Hraw & Hm). exists raw. split; [|done].
        rewrite <- Hraw. apply Hkeep. lia.
      + exists (new_host i). split; [apply Hnew; lia|]. rewrite new_host_mask by lia.
        symmetry. apply (hl_new L). lia. }
  assert (synced_below old s3) as Hs3.
  { intros i Hi Hbit. destruct (Hsy i Hi Hbit) as [Hsome Heq]. unfold block_of.
    cbn [g_refblocks s3 set_g_count set_g_refblocks]. rewrite Hlow by nia. done. }
  rewrite wadd_small by (unfold u64_max; nia).
  eapply wp_mono; [apply (wp_stage_refcounts _ (structures_start plan) 0 1 s3); try done; lia | |done].
  intros _ s4 (Hr4 & Hdev & Hrmw & Hrt & Hcl4 & Hrc4).
  eapply wp_mono; [apply wp_mark_dirty; try done; lia | |done].
  intros _ s5 (Hr5 & Hdev5 & Hrmw5 & Hrt5 & Hrb5 & Hbits).
  split; [done|split; [|split; [by rewrite Hdev5, Hdev | split; [by rewrite Hrmw5, Hrmw|]]]].
  - intros i Hi Hbit. rewrite Hbits in Hbit by lia.
    destruct (Z.leb_spec old i), (Z.ltb_spec i (old + Z.of_nat (Z.to_nat (needed_slots plan - old))));
      cbn [andb] in Hbit; try lia; try done.
    destruct (Hcl4 old ltac:(lia) Hs3 i ltac:(lia) Hbit) as [Hsome Heq].
    unfold block_of, disk in *. by rewrite Hrb5, Hdev5.
  - intros c Hcr. rewrite Hrb5, Hrc4 by done. unfold grown_refcount, is_structure.
    change (g_refblocks s3) with rbs. rewrite (zeroed_refcount (g_refblocks s) rbs c) by done.
    replace (structures_start plan + 0) with (structures_start plan) by lia.
    rewrite Z2Nat.id by lia. by rewrite !Z.add_assoc.
Qed.

(** ** Writing the table and the header *)

(** Where the table on disk may be. *)
Record table_place (rt_table : RefcountTable) : Prop := {
  tp_offset : 60 <= rt_offset rt_table;
  tp_fits : new_rt_clusters plan = 0 -> rt_offset rt_table + needed_slots plan * 8 <= structures_start plan * cs;
  tp_apart i : new_rt_clusters plan = 0 -> 0 <= i < old ->
    host i + cs <= rt_offset rt_table + old * 8 \/ rt_offset rt_table + needed_slots plan * 8 <= host i;
  tp_clusters : 0 <= rt_clusters rt_table;
  tp_old : rt_offset rt_table / cs + rt_clusters rt_table <= structures_start plan
}.

Definition table_on_disk (rt_table : RefcountTable) (s : GrowthSt D) : Prop :=
  if 0 <? new_rt_clusters plan then
    slice (disk s) (rt_start plan * cs) (rt_start plan * cs + new_rt_clusters plan * cs)
      = slice (g_rt s) 0 (new_rt_clusters plan * cs)
  else
    slice (disk s) (rt_offset rt_table + old * 8) (rt_offset rt_table + needed_slots plan * 8)
      = slice (g_rt s) (old * 8) (needed_slots plan * 8).

(** A plain write that misses every refblock. *)
Lemma wp_plain_write off src s : g_ready s -> clean_synced s -> 0 <= off -> 0 < blen src <= u64_max ->
  (forall i, 0 <= i < needed_slots plan -> host i + cs <= off \/ off + blen src <= host i) ->
  wp (or_write_failed (g_write device off src))
    (fun _ s' => exists d' rmw', s' = with_device d' rmw' s /\ clean_synced s' /\
       splice (disk s) off src = Some (disk s'))
    (fun e _ => e <> StageOutOfCoverage) s.
Proof.
  intros Hr Hcl Hoff Hlen Hmiss. unfold or_write_failed. wstep. apply wp_g_write; [lia | lia | |].
  - intros d' rmw' Hw. wstep. exists d', rmw'. split_and!; [done | |].
    + by apply (clean_synced_write s d' rmw' off src); try lia.
    + apply spec_write_disk; [done | lia].
  - intros d' rmw'. wstep. done.
Qed.

Lemma wp_write_table rt_table s : g_ready s -> clean_synced s -> table_place rt_table ->
  wp (write_table cs device plan old rt_table)
    (fun _ s' => exists d' rmw', s' = with_device d' rmw' s /\ clean_synced s' /\ table_on_disk rt_table s')
    (fun e _ => e <> StageOutOfCoverage) s.
Proof.
  intros Hr Hcl Htp. pose proof Hr as ((_ & _ & _ & Hrl) & _ & _). pose proof (gg_image G) as (H8 & Hnr & _).
  pose proof (gg_rt_max G). pose proof (gg_slots G). pose proof (gg_new G). pose proof (gg_old G).
  pose proof (gg_cs G) as Hcs. pose proof (gg_rt G) as Hnrt. pose proof (gg_start G). pose proof (gg_rt_start G) as Hrs.
  pose proof (gg_hosts G) as Hh. change (2 ^ 55) with 36028797018963968 in Hh.
  pose proof (gg_rb_start G) as Hrb. pose proof starts_le.
  unfold write_table, table_on_disk. wstep. wstep.
  destruct (Z.ltb_spec 0 (new_rt_clusters plan)) as [Hpos|Hzero].
  - rewrite !wmul_small by (unfold u64_max; nia).
    destruct (slice_of (g_rt s) 0 (new_rt_clusters plan * cs)) as (img & Himg & Hil); [nia | lia |].
    wstep. wstep. rewrite Himg. cbn [or_panic].
    eapply wp_mono; [apply (wp_plain_write _ img s) | |done]; try done.
    + nia.
    + unfold u64_max. nia.
    + intros i Hi. assert (off_limits (rt_start plan * cs) (rt_start plan * cs + blen img)) as Hoff.
      { right. rewrite Hil, Hrs, Hrb. split; [done|]. nia. }
      pose proof (host_limits i _ _ Hi Hoff). lia.
    + intros _ s' (d' & rmw' & -> & Hcl' & Hsp). exists d', rmw'. split_and!; try done.
      change (g_rt (with_device d' rmw' s)) with (g_rt s). rewrite Himg.
      rewrite <- (slice_splice_eq _ _ _ _ Hsp), Hil. f_equal; lia.
  - destruct Htp as [Hoff Hfits Hap _ _]. specialize (Hfits ltac:(lia)).
    assert (structures_start plan * cs <= 36028797018963968) by nia.
    pose proof (gg_max G) as Hmax. unfold MAX_REFBLOCKS in Hmax.
    rewrite wsub_small by (unfold u64_max; lia). rewrite !wmul_small, !wadd_small by (unfold u64_max; lia).
    replace (old * 8 + (needed_slots plan - old) * 8) with (needed_slots plan * 8) by lia.
    destruct (slice_of (g_rt s) (old * 8) (needed_slots plan * 8)) as (img & Himg & Hil); [lia | lia |].
    wstep. wstep. rewrite Himg. cbn [or_panic].
    eapply wp_mono; [apply (wp_plain_write _ img s) | |done]; try done.
    + lia.
    + unfold u64_max. lia.
    + intros i Hi. rewrite Hil. destruct (Z.lt_ge_cases i old) as [Hlt|Hge].
      * pose proof (Hap i ltac:(lia) ltac:(lia)). lia.
      * rewrite (hl_new L) by lia. pose proof (new_host_above i ltac:(lia)). lia.
    + intros _ s' (d' & rmw' & -> & Hcl' & Hsp). exists d', rmw'. split_and!; try done.
      change (g_rt (with_device d' rmw' s)) with (g_rt s). rewrite Himg.
      rewrite <- (slice_splice_eq _ _ _ _ Hsp), Hil. f_equal; lia.
Qed.

Definition is_old_table (rt_table : RefcountTable) (c : Z) : bool :=
  (rt_offset rt_table / cs <=? c) && (c <? rt_offset rt_table / cs + rt_clusters rt_table).

(** Every refblock of the grown table is on disk as staged. *)
Definition blocks_on_disk (s : GrowthSt D) : Prop :=
  forall i, 0 <= i < needed_slots plan ->
    is_Some (block_of s i) /\ slice (disk s) (host i) (host i + cs) = block_of s i.

Lemma flushed_blocks s : clean_synced s ->
  (forall j, 0 <= j < needed_slots plan -> bit_get (g_dirty s) j = Some false) -> blocks_on_disk s.
Proof. intros Hcl Hall i Hi. apply Hcl; [done|]. by apply Hall. Qed.

Lemma wp_flip_header rt_table s : g_ready s -> clean_synced s -> table_place rt_table ->
  0 < new_rt_clusters plan -> table_on_disk rt_table s ->
  wp (flip_header cs epb device plan rt_table)
    (fun _ s' => g_ready s' /\ blocks_on_disk s' /\ table_on_disk rt_table s' /\
       slice (disk s') 48 60 = Some (header_patch cs plan) /\
       forall c, 0 <= c < needed_slots plan * epb -> refcount_of (g_refblocks s') c =
         if is_old_table rt_table c then Ok 0 else refcount_of (g_refblocks s) c)
    (fun e _ => e <> StageOutOfCoverage) s.
Proof.
  intros Hr Hcl Htp Hpos Htab. pose proof (gg_cs G) as Hcs. pose proof (gg_cover G). pose proof (gg_new G).
  pose proof (gg_rt_start G) as Hrs. pose proof (gg_rb_start G) as Hrb. pose proof (gg_header G).
  assert (0 <= rt_offset rt_table / cs) by (apply Z.div_pos; [destruct Htp|]; lia).
  assert (blen (header_patch cs plan) = 12) as Hpl
    by (unfold header_patch; rewrite blen_app, !blen_be_bytes; done).
  unfold flip_header. wstep. eapply wp_mono; [apply (wp_plain_write 48 _ s); try done; try lia | |done].
  { intros i Hi. pose proof (host_above i Hi). rewrite Hpl. lia. }
  intros _ s1 (d1 & rmw1 & -> & Hcl1 & Hsp). wstep. apply wp_durability. intros d2 Hd2.
  set (s2 := with_device d2 _ _).
  assert (disk s2 = disk (with_device d1 rmw1 s)) as Hdisk by (unfold disk; cbn [g_dev s2 with_device]; by rewrite Hd2).
  assert (clean_synced s2) as Hcl2 by (intros i Hi Hbit; rewrite Hdisk; by apply Hcl1).
  wstep. wstep. unfold udiv. rewrite (proj2 (Z.eqb_neq cs 0)) by lia. cbv beta iota. wstep.
  eapply wp_mono; [apply (wp_stage_refcounts _ (rt_offset rt_table / cs) 0 0 s2); try done; destruct Htp; lia | |done].
  intros _ s3 (Hr3 & Hdev & _ & Hrt & Hcl3 & Hrc).
  eapply wp_mono; [apply wp_flush_dirty; [done | by apply Hcl3] | |done].
  intros _ s4 ((Hr4 & Hcl4 & Hrt4 & Hrb4 & Hoff & _) & Hall).
  assert (forall lo hi, off_limits lo hi -> slice (disk s4) lo hi = slice (disk (with_device d1 rmw1 s)) lo hi) as Hkeep.
  { intros lo hi Hl. rewrite Hoff by done. unfold disk at 1. rewrite Hdev. fold (disk s2). by rewrite Hdisk. }
  split_and!; [done | by apply flushed_blocks | | |].
  - unfold table_on_disk in *. destruct (Z.ltb_spec 0 (new_rt_clusters plan)); [|lia].
    rewrite Hkeep. 2:{ right. rewrite Hrs, Hrb. split; [done|]. nia. }
    rewrite (slice_splice_ne _ _ _ _ _ _ Hsp) by (rewrite Hpl, Hrs; lia). by rewrite Hrt4, Hrt.
  - rewrite Hkeep by (left; lia). rewrite <- (slice_splice_eq _ _ _ _ Hsp). by rewrite Hpl.
  - intros c Hc. rewrite Hrb4, Hrc by done. unfold is_old_table. rewrite Z.add_0_r, Z2Nat.id by (destruct Htp; done).
    done.
Qed.

(** The state a successful growth ends in. *)
Definition grown (rt_table : RefcountTable) (s s' : GrowthSt D) : Prop :=
  g_refblock_count s' = needed_slots plan /\
  (forall i, 0 <= i < needed_slots plan -> entry_host (g_rt s') i) /\
  blocks_on_disk s' /\ table_on_disk rt_table s' /\
  (0 < new_rt_clusters plan -> slice (disk s') 48 60 = Some (header_patch cs plan)) /\
  forall c, 0 <= c < needed_slots plan * epb ->
    refcount_of (g_refblocks s') c =
    if (0 <? new_rt_clusters plan) && is_old_table rt_table c then Ok 0 else grown_refcount s c.

Lemma wp_grow_refcounts rt_table s : g_start s -> table_place rt_table ->
  wp (grow_refcounts cs epb device plan rt_table) (fun _ s' => grown rt_table s s')
     (fun e _ => e <> StageOutOfCoverage) s.
Proof.
  intros Hst Htp. pose proof Hst as (_ & Hc & _). unfold grow_refcounts. wstep. wstep. wstep.
  eapply wp_mono; [by apply wp_stage_growth | |done]. intros _ s1 (Hr1 & Hcl1 & _ & _ & Hrc1).
  wstep. eapply wp_mono; [by apply wp_flush_dirty | |done].
  intros _ s2 ((Hr2 & Hcl2 & _ & Hrb2 & _ & _) & Hall). rewrite Hc.
  wstep. eapply wp_mono; [by apply wp_write_table | |done]. intros _ s3 (d3 & rmw3 & -> & Hcl3 & Htab3).
  wstep. apply wp_durability. intros d4 Hd4. set (s3 := with_device d3 rmw3 s2) in *. set (s4 := with_device d4 _ s3).
  assert (disk s4 = disk s3) as Hdisk by (unfold disk; cbn [g_dev s4 with_device]; by rewrite Hd4).
  assert (clean_synced s4) as Hcl4 by (intros i Hi Hbit; rewrite Hdisk; by apply Hcl3).
  assert (table_on_disk rt_table s4) as Htab4 by (unfold table_on_disk in *; by rewrite Hdisk).
  destruct (Z.ltb_spec 0 (new_rt_clusters plan)) as [Hpos|Hzero].
  - eapply wp_mono; [by apply wp_flip_header | |done].
    intros _ s5 (Hr5 & Hbl5 & Htab5 & Hhdr & Hrc5). split_and!; try done; [apply Hr5 | apply Hr5 |].
    intros c Hcr. rewrite Hrc5 by done. destruct (Z.ltb_spec 0 (new_rt_clusters plan)); [|lia]. cbn [andb].
    destruct (is_old_table rt_table c); [done|]. rewrite <- Hrc1 by done. by rewrite <- Hrb2.
  - wstep. split_and!; try done; [apply Hr2 | apply Hr2 | by apply flushed_blocks | lia |].
    intros c Hcr. destruct (Z.ltb_spec 0 (new_rt_clusters plan)); [lia|]. cbn [andb].
    rewrite <- Hrc1 by done. by rewrite <- Hrb2.
Qed.

End growth_exec.

(** ** From the planner to the executor *)

(** The inputs of a planned growth: 16-bit refcounts in clusters of at most 2 MiB,
    and staging buffers as large as the caps the planner was given. *)
Record growth_inputs (epb cs fe pop wc : Z) (caps : GrowthCaps) (blocks_len rt_len : Z) : Prop := {
  gi_cs : 512 <= cs <= 2097152;
  gi_aligned : cs mod 512 = 0;
  gi_epb : 0 <= epb /\ epb * 2 <= cs;
  gi_fe : is_u64 fe /\ 60 <= fe * cs;
  gi_pop : is_u64 pop;
  gi_wc : is_u64 wc;
  gi_slots : max_refblocks caps <= MAX_REFBLOCKS;
  gi_blocks : max_refblock_clusters caps * cs <= blocks_len <= 9223372036854775807;
  gi_rt : max_rt_slots caps * 8 <= rt_len <= 9223372036854775807
}.

Lemma slots_cap s epb cs : 0 <= s <= 2048 -> 0 <= epb -> epb * 2 <= cs -> cs <= 2097152 ->
  s * epb <= 2147483648.
Proof.
  intros Hs He Hc Hm. pose proof (Z.mul_le_mono_nonneg s 2048 epb 1048576 ltac:(lia) ltac:(lia) ltac:(lia) ltac:(lia)).
  lia.
Qed.

Lemma sat_mul_le x y b : sat_mul x y <= b -> b < u64_max -> x * y <= b.
Proof. unfold sat_mul. lia. Qed.

Lemma small_lt_u64 b : b <= 9223372036854775807 -> b < u64_max.
Proof. unfold u64_max. lia. Qed.

Lemma planned_geometry epb cs fe pop cap wc caps p blocks_len rt_len :
  growth_inputs epb cs fe pop wc caps blocks_len rt_len ->
  plan_refcount_growth epb cs fe pop cap wc caps = Ok p -> 0 < new_refblocks p ->
  growth_geometry cs epb p pop blocks_len rt_len.
Proof.
  intros [Hcs Hal [He0 He2] [Hfe H60] Hpop Hwc Hms Hbl Hrt] Hplan Hnew.
  assert (is_u64 epb) as Hue by (split; [|apply Z.lt_le_incl, small_lt_u64]; lia).
  assert (is_u64 cs) as Huc by (split; [|apply Z.lt_le_incl, small_lt_u64]; lia).
  pose proof (grown_plan epb cs fe pop cap wc caps Hue Huc Hfe Hpop Hwc) as Hg. rewrite Hplan in Hg.
  clear Hplan Hue Huc. destruct Hg as (Hss & Hrs & Hrb & Hns & Hwe & Hcov & _ & Hrt0 & Hepb & _ & Hg).
  destruct (Z.eqb_spec (new_refblocks p) 0) as [|_]; [lia|].
  destruct Hg as (_ & Hm1 & Hm2 & Hm3 & Hm4 & Hm5).
  destruct Hfe as [Hfe0 _], Hpop as [Hpop0 _], Hwc as [Hwc0 _]. change MAX_REFBLOCKS with 2048 in Hms.
  pose proof (slots_cap (needed_slots p) epb cs ltac:(lia) He0 He2 ltac:(lia)) as Hcap.
  pose proof (small_lt_u64 _ (proj2 Hrt)) as Hu. pose proof (small_lt_u64 2147483648 ltac:(lia)) as Hu2.
  assert (new_rt_clusters p * cs <= max_rt_slots caps * 8) as Hnr.
  { apply sat_mul_le; [|lia]. unfold sat_mul in Hm4 at 2. lia. }
  assert (fe + new_rt_clusters p + new_refblocks p <= needed_slots p * epb) as Hcover.
  { rewrite Hwe in Hcov. unfold sat_mul in Hcov. lia. }
  assert (refblocks_start p = fe + new_rt_clusters p) as Hrb' by (rewrite Hrb; unfold sat_add; lia).
  assert (needed_slots p * cs <= max_refblock_clusters caps * cs) as Hb1 by (apply Z.mul_le_mono_nonneg_r; lia).
  assert ((fe + new_rt_clusters p + new_refblocks p) * cs <= 2147483648 * 2097152) as Hhost.
  { apply Z.mul_le_mono_nonneg; lia. }
  change (2147483648 * 2097152) with 4503599627370496 in Hhost.
  constructor; rewrite ?Hss, ?Hrb', ?Hrs; try assumption; try done; try lia.
  - change MAX_REFBLOCKS with 2048. lia.
  - split_and!; [lia | lia |]. intros Hpos. destruct (cap <? needed_slots p); lia.
Qed.

(** C29: A growth that the planner accepted, run on flat devices from buffers that
    hold the old refcount table and refblocks, never panics and never reports a
    cluster outside its own coverage: the refusal the executor keeps for a bad
    plan is unreachable.  When the growth succeeds, the staged table points every
    slot at its refblock, every refblock of the grown table is on disk as staged,
    so are the new table entries (in place, or the whole moved table with the
    header's pointer flipped to it), and every refcount is what it should be: 1
    for each new structure, 0 for the clusters of a table that moved and for the
    rest of the new blocks, and unchanged everywhere else. *)
Theorem grow_refcounts_materialises {D : Type} `{FlatDisk D} (epb cs fe pop cap wc : Z) (caps : GrowthCaps)
    (blocks_len rt_len : Z) (device : TargetDevice) (p : RefcountGrowthPlan)
    (host : Z -> Z) (rt_table : RefcountTable) (s : GrowthSt D) :
  growth_inputs epb cs fe pop wc caps blocks_len rt_len ->
  plan_refcount_growth epb cs fe pop cap wc caps = Ok p -> 0 < new_refblocks p ->
  host_layout cs p pop host -> table_place cs p pop host rt_table ->
  g_start cs device pop blocks_len rt_len host s ->
  wp (grow_refcounts cs epb device p rt_table)
     (fun _ s' => grown cs epb device p pop host rt_table s s')
     (fun e _ => e <> StageOutOfCoverage) s.
Proof.
  intros Hin Hplan Hnew Hl Htp Hst. pose proof (planned_geometry _ _ _ _ _ _ _ _ _ _ Hin Hplan Hnew) as G.
  by eapply wp_grow_refcounts.
Qed.

(** ** A growth that moves the table *)

Definition demo_growth_disk : bytes := filled 512 0 ++ be_bytes 8 1024 ++ filled 4600 0.

Definition demo_growth : GrowthSt VecDisk :=
  GrowthExec_new (mkVecDisk (mkDisks demo_growth_disk []) 512 512 true) 1
    (be_bytes 8 1024 ++ filled 504 0) (filled 1024 0) (filled 512 0).

Definition demo_growth_plan : RefcountGrowthPlan := mkRefcountGrowthPlan 2 1 8 1 8 9 512.

Definition demo_growth_host (i : Z) : Z := if i =? 0 then 1024 else 4608.

Lemma demo_growth_start : g_start 512 Input0 1 1024 512 demo_growth_host demo_growth.
Proof.
  split; [|split; [done|split]].
  - split; [reflexivity|split; [|split; reflexivity]]. apply Forall_replicate. done.
  - intros i Hi. assert (i = 0) as -> by lia. exists 1024. split; vm_compute; reflexivity.
  - intros i Hi _. assert (i = 0) as -> by lia. split; [eexists|]; vm_compute; reflexivity.
Qed.

Lemma grow_refcounts_materialises_witness :
  (grow_refcounts 512 256 Input0 demo_growth_plan (mkRefcountTable 512 1) demo_growth).1 = Ok tt /\
  wp (grow_refcounts 512 256 Input0 demo_growth_plan (mkRefcountTable 512 1))
     (fun _ s' => grown 512 256 Input0 demo_growth_plan 1 demo_growth_host (mkRefcountTable 512 1) demo_growth s')
     (fun e _ => e <> StageOutOfCoverage) demo_growth.
Proof.
  split; [vm_compute; reflexivity|].
  apply (grow_refcounts_materialises 256 512 8 1 1 249 (mkGrowthCaps 2048 2 64) 1024 512).
  - constructor; unfold is_u64, u64_max, MAX_REFBLOCKS; cbn; lia || done.
  - vm_compute. reflexivity.
  - vm_compute. reflexivity.
  - constructor; cbn [needed_slots structures_start demo_growth_plan].
    + intros i Hi. assert (i = 1) as -> by lia. reflexivity.
    + intros i Hi. assert (i = 0) as -> by lia. cbn. lia.
    + intros. lia.
  - constructor; cbn; intros; lia || (vm_compute; discriminate).
  - exact demo_growth_start.
Defined.
