(* ===== verification/Bench.v ===== *)
(** The bench request schedule ([src/src/crates/bench/src/lib.rs]): parameter
    validation, the offset sequence with its wrap rule, the split of a transfer
    into chunks, the flush cadence, and the bound on the clusters and L2 tables a
    run can touch, from which refcount growth is sized.

    A Rust iterator is its state and its [next]; [collect] drains it. *)

From stdpp Require Import base numbers list sets.
From Stdlib Require Import ZArith Lia.
From S2P Require Import Prelude.

(** ** Parameters *)

Definition DEFAULT_COUNT : Z := 75000.
Definition DEFAULT_DEPTH : Z := 64.
Definition DEFAULT_BUFSIZE : Z := 4096.
Definition QEMU_BENCH_ARG_MAX : Z := 2147483647.
Definition BENCH_MAX_BUFSIZE : Z := 2 * 1024 * 1024.

Record BenchParams : Type := mkBenchParams {
  bp_count : Z;
  bp_depth : Z;
  bp_bufsize : Z;
  bp_step : Z;
  bp_offset : Z;
  bp_is_write : bool;
  bp_pattern : Z;
  bp_flush_interval : Z;
  bp_no_drain : bool
}.

Definition BenchParams_default : BenchParams :=
  mkBenchParams DEFAULT_COUNT DEFAULT_DEPTH DEFAULT_BUFSIZE 0 0 false 0 0 false.

Definition effective_step (p : BenchParams) : Z :=
  if bp_step p =? 0 then bp_bufsize p else bp_step p.

Inductive BenchParamError : Type :=
| CountOutOfRange | DepthOutOfRange | BufsizeOutOfRange | StepOutOfRange | FlushRequiresWrite
| FlushIntervalSmallerThanDepth | BufsizeAboveInstarCap.

Definition validate (p : BenchParams) : outcome BenchParamError unit :=
  if bp_count p <? 1 then Err CountOutOfRange
  else if bp_depth p <? 1 then Err DepthOutOfRange
  else if (bp_bufsize p <? 1) || (QEMU_BENCH_ARG_MAX <? bp_bufsize p) then Err BufsizeOutOfRange
  else if BENCH_MAX_BUFSIZE <? bp_bufsize p then Err BufsizeAboveInstarCap
  else if QEMU_BENCH_ARG_MAX <? bp_step p then Err StepOutOfRange
  else if negb (bp_flush_interval p =? 0) && negb (bp_is_write p) then Err FlushRequiresWrite
  else if negb (bp_flush_interval p =? 0) && (bp_flush_interval p <? bp_depth p)
       then Err FlushIntervalSmallerThanDepth
  else Ok tt.

(** ** Offsets *)

Definition next_offset (cur step image_size bufsize : Z) : Z :=
  let n := sat_add cur step in
  if image_size <=? bufsize then 0 else n mod (image_size - bufsize).

Record OffsetSchedule : Type := mkOffsetSchedule {
  os_next : Z;
  os_remaining : Z;
  os_step : Z;
  os_image_size : Z;
  os_bufsize : Z
}.

Definition OffsetSchedule_new (p : BenchParams) (image_size : Z) : OffsetSchedule :=
  mkOffsetSchedule (bp_offset p) (bp_count p) (effective_step p) image_size (bp_bufsize p).

Definition offset_next (s : OffsetSchedule) : option (Z * OffsetSchedule) :=
  if os_remaining s =? 0 then None
  else
    let cur := os_next s in
    Some (cur, mkOffsetSchedule (next_offset cur (os_step s) (os_image_size s) (os_bufsize s))
                 (os_remaining s - 1) (os_step s) (os_image_size s) (os_bufsize s)).

(** ** Chunks *)

Record TransferSplit : Type := mkTransferSplit {
  ts_offset : Z;
  ts_remaining : Z;
  ts_max_transfer : Z
}.

Definition split_next (s : TransferSplit) : option ((Z * Z) * TransferSplit) :=
  if (ts_remaining s =? 0) || (ts_max_transfer s =? 0) then None
  else
    let chunk := if ts_remaining s <? ts_max_transfer s then ts_remaining s else ts_max_transfer s in
    Some ((ts_offset s, chunk),
          mkTransferSplit (sat_add (ts_offset s) chunk) (ts_remaining s - chunk) (ts_max_transfer s)).

(** Drain an iterator. *)
Fixpoint collect {S A : Type} (next : S -> option (A * S)) (fuel : nat) (s : S) : outcome Empty_set (list A) :=
  match next s with
  | None => Ok []
  | Some (a, s') =>
      match fuel with
      | O => OutOfFuel
      | Datatypes.S fuel' => let? l := collect next fuel' s' in Ok (a :: l)
      end
  end.

(** One turn per request, and one per chunk. *)
Definition offsets (p : BenchParams) (image_size : Z) : outcome Empty_set (list Z) :=
  collect offset_next (Z.to_nat (bp_count p)) (OffsetSchedule_new p image_size).

Definition chunks (offset len max_transfer : Z) : outcome Empty_set (list (Z * Z)) :=
  collect split_next (Z.to_nat (div_ceil len max_transfer)) (mkTransferSplit offset len max_transfer).

(** ** Flushes *)

Definition flush_after_completion (count completed flush_interval : Z) : bool :=
  negb (flush_interval =? 0) && (1 <=? completed) && (completed <=? count) &&
  is_multiple_of (count - completed) flush_interval.

Definition total_flushes (count flush_interval : Z) : Z :=
  if (flush_interval =? 0) || (count =? 0) then 0 else (count - 1) / flush_interval + 1.

(** ** Touched structures *)

Record TouchedBound : Type := mkTouchedBound { data_clusters : Z; l2_tables : Z }.

Definition units_spanned (start end_ granule : Z) : Z :=
  if (granule =? 0) || (end_ <=? start) then 0
  else (end_ - 1) / granule - start / granule + 1.

Definition worst_case_touched (p : BenchParams) (image_size cluster_size : Z) : TouchedBound :=
  let count := bp_count p in
  if (image_size =? 0) || (cluster_size =? 0) || (count =? 0) then mkTouchedBound 0 0
  else
    let bufsize := bp_bufsize p in
    let step := effective_step p in
    let l2_coverage := sat_mul cluster_size (cluster_size / 8) in
    let data1 := sat_mul count (sat_add (bufsize / cluster_size) 2) in
    let l2_1 := if l2_coverage =? 0 then 0 else sat_mul count (sat_add (bufsize / l2_coverage) 2) in
    let last_end := sat_add (sat_add (bp_offset p) (sat_mul (count - 1) step)) bufsize in
    let nowrap := (count =? 1) || (last_end <? image_size) in
    let data2 := if nowrap then Z.min data1 (units_spanned (bp_offset p) last_end cluster_size)
                 else data1 in
    let l2_2 := if nowrap && negb (l2_coverage =? 0)
                then Z.min l2_1 (units_spanned (bp_offset p) last_end l2_coverage) else l2_1 in
    let data3 := Z.min data2 (div_ceil image_size cluster_size) in
    let l2_3 := if l2_coverage =? 0 then l2_2 else Z.min l2_2 (div_ceil image_size l2_coverage) in
    mkTouchedBound data3 l2_3.

(** ** The schedule in closed form *)

Fixpoint offset_list (n : nat) (cur step image_size bufsize : Z) : list Z :=
  match n with
  | O => []
  | S n' => cur :: offset_list n' (next_offset cur step image_size bufsize) step image_size bufsize
  end.

Lemma collect_offsets n cur step img buf :
  collect offset_next n (mkOffsetSchedule cur (Z.of_nat n) step img buf)
  = Ok (offset_list n cur step img buf).
Proof.
  revert cur. induction n as [|n IH]; intros cur; [done|].
  assert (offset_next (mkOffsetSchedule cur (Z.of_nat (S n)) step img buf) =
    Some (cur, mkOffsetSchedule (next_offset cur step img buf) (Z.of_nat n) step img buf)) as Hn.
  { unfold offset_next. cbn [os_remaining os_next os_step os_image_size os_bufsize].
    destruct (Z.eqb_spec (Z.of_nat (S n)) 0); [lia|]. do 3 f_equal. lia. }
  cbn [collect offset_list]. rewrite Hn, IH. done.
Qed.

Lemma length_offset_list n cur step img buf : length (offset_list n cur step img buf) = n.
Proof. revert cur. induction n as [|n IH]; intros cur; [done|]. cbn. by rewrite IH. Qed.

(** Offset [i >= 1]: all wraps at once. *)
Definition wrapped (offset step img buf : Z) (i : nat) : Z :=
  if img <=? buf then 0 else (offset + Z.of_nat i * step) mod (img - buf).

Lemma next_offset_wrapped offset step img buf :
  0 <= offset -> 0 <= step -> offset + step <= u64_max ->
  next_offset offset step img buf = wrapped offset step img buf 1.
Proof.
  intros. unfold next_offset, wrapped, sat_add. rewrite Z.min_l by lia.
  destruct (img <=? buf); [done|]. f_equal. lia.
Qed.

Lemma wrapped_next offset step img buf i :
  0 <= offset -> 0 <= step -> 0 <= buf -> img + step <= u64_max ->
  next_offset (wrapped offset step img buf i) step img buf = wrapped offset step img buf (S i).
Proof.
  intros Ho Hs Hb Hi. unfold next_offset, wrapped, sat_add. destruct (Z.leb_spec img buf); [done|].
  set (m := img - buf). pose proof (Z.mod_pos_bound (offset + Z.of_nat i * step) m ltac:(lia)).
  rewrite Z.min_l by lia. rewrite Z.add_mod_idemp_l by lia. f_equal. lia.
Qed.

Lemma offset_list_wrapped n offset step img buf i k :
  0 <= offset -> 0 <= step -> 0 <= buf -> img + step <= u64_max -> (i < n)%nat ->
  offset_list n (wrapped offset step img buf k) step img buf !! i
  = Some (wrapped offset step img buf (k + i)).
Proof.
  revert i k. induction n as [|n IH]; intros i k Ho Hs Hb Hi Hlt; [lia|].
  cbn [offset_list]. destruct i as [|i]; [by rewrite Nat.add_0_r|].
  cbn [lookup list_lookup]. rewrite wrapped_next by done. rewrite IH by (done || lia).
  do 2 f_equal. lia.
Qed.

Lemma offset_list_lookup n offset step img buf i :
  0 <= offset -> 0 <= step -> 0 <= buf -> offset + step <= u64_max -> img + step <= u64_max ->
  (i < n)%nat ->
  offset_list n offset step img buf !! i
  = Some (match i with O => offset | S _ => wrapped offset step img buf i end).
Proof.
  intros Ho Hs Hb Hos Hi Hlt. destruct n as [|n]; [lia|]. destruct i as [|i]; [done|].
  cbn [offset_list lookup list_lookup]. rewrite next_offset_wrapped by done.
  by rewrite offset_list_wrapped by (done || lia).
Qed.

(** What [validate] checks. *)
Lemma validate_ok p : validate p = Ok tt ->
  1 <= bp_count p /\ 1 <= bp_depth p /\ 1 <= bp_bufsize p <= BENCH_MAX_BUFSIZE /\
  bp_step p <= QEMU_BENCH_ARG_MAX /\
  (bp_flush_interval p <> 0 -> bp_is_write p = true /\ bp_depth p <= bp_flush_interval p).
Proof.
  unfold validate. intros H.
  destruct (Z.ltb_spec (bp_count p) 1); [done|]. destruct (Z.ltb_spec (bp_depth p) 1); [done|].
  destruct (Z.ltb_spec (bp_bufsize p) 1); [done|].
  destruct (Z.ltb_spec QEMU_BENCH_ARG_MAX (bp_bufsize p)); [done|]. cbn [orb] in H.
  destruct (Z.ltb_spec BENCH_MAX_BUFSIZE (bp_bufsize p)); [done|].
  destruct (Z.ltb_spec QEMU_BENCH_ARG_MAX (bp_step p)); [done|].
  destruct (Z.eqb_spec (bp_flush_interval p) 0); cbn [negb andb] in H.
  - split_and!; lia || done.
  - destruct (bp_is_write p); cbn [negb andb] in H; [|done].
    destruct (Z.ltb_spec (bp_flush_interval p) (bp_depth p)); [done|]. split_and!; lia || done.
Qed.

Lemma effective_step_pos p : validate p = Ok tt -> 0 <= bp_step p -> 0 < effective_step p.
Proof.
  intros Hv%validate_ok Hs. unfold effective_step. destruct (Z.eqb_spec (bp_step p) 0); lia.
Qed.

(** ** Counting *)

Lemma length_le_of_subset (l m : list Z) : NoDup l -> (forall x, x ∈ l -> x ∈ m) -> (length l <= length m)%nat.
Proof. intros Hl Hs. apply submseteq_length, NoDup_submseteq; [done|]. intros x. apply Hs. Qed.

Lemma length_le_of_range (l : list Z) a b : NoDup l -> (forall x, x ∈ l -> a <= x < b) ->
  Z.of_nat (length l) <= Z.max (b - a) 0.
Proof.
  intros Hl Hr. pose proof (length_le_of_subset l (seqZ a (b - a)) Hl) as Hle.
  rewrite length_seqZ in Hle. enough (length l <= Z.to_nat (b - a))%nat by lia. apply Hle.
  intros x Hx. apply elem_of_seqZ. specialize (Hr x Hx). lia.
Qed.

(** Byte range [off, off + n) overlaps unit [c] of size [u]. *)
Definition overlaps (u off n c : Z) : Prop := c * u < off + n /\ off < (c + 1) * u.

Lemma overlaps_range u off n c : 0 < u -> 0 < n -> overlaps u off n c ->
  off / u <= c < (off + n - 1) / u + 1.
Proof.
  intros Hu Hn [H1 H2]. split.
  - enough (off / u < c + 1) by lia. apply Z.div_lt_upper_bound; lia.
  - enough (c <= (off + n - 1) / u) by lia. apply Z.div_le_lower_bound; lia.
Qed.

(** A range of [n] bytes overlaps at most [n / u + 2] units. *)
Lemma straddle u off n : 0 < u -> 0 < n -> (off + n - 1) / u - off / u + 1 <= n / u + 2.
Proof.
  intros Hu Hn. pose proof (Z.div_mod off u ltac:(lia)). pose proof (Z.mod_pos_bound off u Hu).
  pose proof (Z.div_mod n u ltac:(lia)). pose proof (Z.mod_pos_bound n u Hu).
  enough ((off + n - 1) / u < off / u + n / u + 2) by lia. apply Z.div_lt_upper_bound; [lia|]. nia.
Qed.

(** Units touched by a list of requests. *)
Definition touched_unit (u n : Z) (L : list Z) (c : Z) : Prop := exists off, off ∈ L /\ overlaps u off n c.

Lemma touched_straddle u n (L l : list Z) : 0 < u -> 0 < n -> NoDup l ->
  (forall c, c ∈ l -> touched_unit u n L c) ->
  Z.of_nat (length l) <= Z.of_nat (length L) * (n / u + 2).
Proof.
  intros Hu Hn Hl Ht.
  pose (units := fun off => seqZ (off / u) ((off + n - 1) / u - off / u + 1)).
  pose proof (length_le_of_subset l (concat (map units L)) Hl) as Hle.
  assert (Z.of_nat (length (concat (map units L))) <= Z.of_nat (length L) * (n / u + 2)) as Hc.
  { clear Hle Ht. induction L as [|off L IH]; [cbn; lia|]. cbn [map concat]. rewrite length_app.
    unfold units at 1. rewrite length_seqZ. pose proof (straddle u off n Hu Hn).
    pose proof (Z.div_pos n u ltac:(lia) Hu). cbn [length]. rewrite Nat2Z.inj_succ, Z.mul_succ_l. lia. }
  enough (length l <= length (concat (map units L)))%nat by lia. apply Hle. intros c Hx.
  destruct (Ht c Hx) as (off & Hoff & Hov). apply list_elem_of_In, in_concat.
  exists (units off). split; [by apply in_map, list_elem_of_In|].
  apply list_elem_of_In, elem_of_seqZ. pose proof (overlaps_range u off n c Hu Hn Hov). lia.
Qed.

Lemma touched_interval u n a b (L l : list Z) : 0 < u -> 0 < n -> NoDup l ->
  (forall off, off ∈ L -> a <= off /\ off + n <= b) ->
  (forall c, c ∈ l -> touched_unit u n L c) ->
  Z.of_nat (length l) <= Z.max ((b - 1) / u - a / u + 1) 0.
Proof.
  intros Hu Hn Hl HL Ht.
  replace ((b - 1) / u - a / u + 1) with ((b - 1) / u + 1 - a / u) by lia.
  apply length_le_of_range; [done|]. intros c Hc. destruct (Ht c Hc) as (off & Hoff & Hov).
  destruct (HL off Hoff). pose proof (overlaps_range u off n c Hu Hn Hov).
  pose proof (Z.div_le_mono a off u Hu). pose proof (Z.div_le_mono (off + n - 1) (b - 1) u Hu). lia.
Qed.

(** ** Properties *)

(** The machine widths of the parameters. *)
Definition params_fit (p : BenchParams) (image_size : Z) : Prop :=
  0 <= bp_offset p /\ 0 <= bp_step p /\
  bp_offset p + effective_step p <= u64_max /\ 0 <= image_size /\ image_size + effective_step p <= u64_max.

Lemma offsets_list p img : 0 <= bp_count p ->
  offsets p img = Ok (offset_list (Z.to_nat (bp_count p)) (bp_offset p) (effective_step p) img (bp_bufsize p)).
Proof.
  intros Hc. unfold offsets, OffsetSchedule_new.
  rewrite <- (Z2Nat.id (bp_count p)) at 2 by done. apply collect_offsets.
Qed.

(** The schedule of validated parameters ends after exactly [count] requests; the
    first is the raw offset, and request [i] is at [offset + i * step] reduced
    modulo the usable size, so that every later request lies inside the image. *)
Theorem schedule_closed_form (p : BenchParams) (image_size : Z) :
  validate p = Ok tt -> params_fit p image_size ->
  exists L, offsets p image_size = Ok L /\ Z.of_nat (length L) = bp_count p /\
    L !! 0%nat = Some (bp_offset p) /\
    forall i, (1 <= i < length L)%nat -> exists off,
      L !! i = Some off /\ 0 <= off /\
      (bp_bufsize p < image_size ->
       off = (bp_offset p + Z.of_nat i * effective_step p) mod (image_size - bp_bufsize p) /\
       off + bp_bufsize p < image_size) /\
      (image_size <= bp_bufsize p -> off = 0).
Proof.
  intros Hv (Ho & Hs & Hos & Hi0 & Hi). pose proof (effective_step_pos p Hv Hs).
  apply validate_ok in Hv as (Hc & _ & Hb & _). rewrite offsets_list by lia. eexists. split; [done|].
  rewrite length_offset_list. split_and!; [lia | rewrite offset_list_lookup by lia; done |].
  intros i Hi1. exists (wrapped (bp_offset p) (effective_step p) image_size (bp_bufsize p) i).
  rewrite offset_list_lookup by lia. split; [by destruct i; [lia|]|]. unfold wrapped.
  destruct (Z.leb_spec image_size (bp_bufsize p)); [split_and!; lia|].
  pose proof (Z.mod_pos_bound (bp_offset p + Z.of_nat i * effective_step p) (image_size - bp_bufsize p)).
  split_and!; lia.
Qed.

(** Draining a [TransferSplit] ends, and its chunks partition the range in order:
    chunk [i] starts at [offset + i * max_transfer], all but the last are full,
    and the lengths add up. *)
Theorem split_partitions (offset len max_transfer : Z) :
  0 <= offset -> 0 <= len -> 0 < max_transfer -> offset + len <= u64_max ->
  exists L, chunks offset len max_transfer = Ok L /\
    Z.of_nat (length L) = div_ceil len max_transfer /\
    forall i, (i < length L)%nat -> L !! i =
      Some (offset + Z.of_nat i * max_transfer,
            Z.min max_transfer (len - Z.of_nat i * max_transfer)).
Proof.
  intros Ho Hl Hm Hb. unfold chunks.
  pose proof (div_ceil_nonneg len max_transfer Hm Hl) as Hq0.
  destruct (div_ceil_spec len max_transfer Hm) as [Hq1 Hq2].
  rewrite <- (Z2Nat.id (div_ceil len max_transfer)) in Hq1, Hq2 |- * by done.
  rewrite Nat2Z.id. generalize (Z.to_nat (div_ceil len max_transfer)) as q, Hq1, Hq2.
  clear Hq0 Hq1 Hq2. intros q. revert offset len Ho Hl Hb.
  induction q as [|q IH]; intros offset len Ho Hl Hb Hq1 Hq2.
  { assert (len = 0) as -> by lia. exists []. split_and!; try done. cbn. lia. }
  assert (0 < len) by nia. set (chunk := Z.min max_transfer len).
  assert (split_next (mkTransferSplit offset len max_transfer) =
    Some ((offset, chunk), mkTransferSplit (offset + chunk) (len - chunk) max_transfer)) as Hn.
  { unfold split_next, sat_add. cbn [ts_remaining ts_max_transfer ts_offset].
    destruct (Z.eqb_spec len 0), (Z.eqb_spec max_transfer 0); try lia. cbn [orb].
    destruct (Z.ltb_spec len max_transfer); unfold chunk; rewrite ?Z.min_l, ?Z.min_r by lia; done. }
  cbn [collect]. rewrite Hn.
  destruct (IH (offset + chunk) (len - chunk)) as (L & HL & Hlen & Hlk); [unfold chunk; nia..|].
  rewrite HL. exists ((offset, chunk) :: L). split_and!; [done | cbn [length]; lia |].
  intros [|i] Hi; [cbn; do 2 f_equal; unfold chunk; lia|]. cbn [lookup list_lookup].
  rewrite Hlk by (cbn [length] in Hi; lia). cbn [length] in Hi.
  assert (max_transfer <= len) by nia. unfold chunk. rewrite Z.min_l by lia. do 2 f_equal; lia.
Qed.

(** Completions [1 .. n] after which a flush is due. *)
Definition due_flushes (n fi : Z) : list Z :=
  filter (fun k => flush_after_completion n k fi = true) (seqZ 1 n).

Lemma div_succ n fi : 0 < fi -> 0 < n -> n / fi = (n - 1) / fi + (if n mod fi =? 0 then 1 else 0).
Proof.
  intros Hf Hn. pose proof (Z.div_mod n fi ltac:(lia)). pose proof (Z.mod_pos_bound n fi Hf).
  destruct (Z.eqb_spec (n mod fi) 0).
  - rewrite <- (Z.div_unique (n - 1) fi (n / fi - 1) (fi - 1)); lia.
  - rewrite <- (Z.div_unique (n - 1) fi (n / fi) (n mod fi - 1)); lia.
Qed.

Lemma length_filter_shift (P Q : Z -> Prop) `{forall x, Decision (P x)} `{forall x, Decision (Q x)} l :
  (forall k, k ∈ l -> P (1 + k) <-> Q k) ->
  length (filter P (Z.add 1 <$> l)) = length (filter Q l).
Proof.
  induction l as [|k l IH]; intros HPQ; [done|]. rewrite fmap_cons, !filter_cons.
  assert (P (1 + k) <-> Q k) as Hk by (apply HPQ; left).
  assert (length (filter P (Z.add 1 <$> l)) = length (filter Q l)) as Hl
    by (apply IH; intros; apply HPQ; by right).
  destruct (decide (P (1 + k))), (decide (Q k)); cbn [length]; [lia | tauto | tauto | done].
Qed.

Lemma due_flushes_succ n fi : 0 < fi -> 0 <= n ->
  Z.of_nat (length (due_flushes (n + 1) fi)) =
  (if n mod fi =? 0 then 1 else 0) + Z.of_nat (length (due_flushes n fi)).
Proof.
  intros Hf Hn. unfold due_flushes.
  rewrite (seqZ_cons 1 (n + 1)) by lia. replace (Z.succ 1) with (1 + 1) by lia.
  rewrite <- (fmap_add_seqZ 1 1). replace (Z.pred (n + 1)) with n by lia. rewrite filter_cons.
  rewrite <- (length_filter_shift (fun k => flush_after_completion (n + 1) k fi = true)
                (fun k => flush_after_completion n k fi = true) (seqZ 1 n)).
  2:{ intros k [Hk1 Hk2]%elem_of_seqZ. unfold flush_after_completion.
      replace (n + 1 - (1 + k)) with (n - k) by lia.
      rewrite !(proj2 (Z.leb_le _ _)) by lia. done. }
  assert (flush_after_completion (n + 1) 1 fi = (n mod fi =? 0)) as Hfirst.
  { unfold flush_after_completion, is_multiple_of. rewrite (proj2 (Z.eqb_neq fi 0)) by lia.
    replace (n + 1 - 1) with n by lia. rewrite !(proj2 (Z.leb_le _ _)) by lia. done. }
  destruct (decide _) as [Hd|Hd]; rewrite Hfirst in Hd.
  - rewrite Hd. cbn [length]. lia.
  - apply not_true_is_false in Hd. rewrite Hd. lia.
Qed.

(** [total_flushes] counts exactly the completions after which a flush is due. *)
Theorem flush_count_exact (count flush_interval : Z) :
  0 <= count -> 0 <= flush_interval ->
  total_flushes count flush_interval =
  Z.of_nat (length (filter (fun k => flush_after_completion count k flush_interval = true)
                      (seqZ 1 count))).
Proof.
  intros Hc Hf. fold (due_flushes count flush_interval). unfold total_flushes.
  destruct (Z.eqb_spec flush_interval 0) as [->|Hne].
  { unfold due_flushes. by induction (seqZ 1 count). }
  cbn [orb]. rewrite <- (Z2Nat.id count) by done. induction (Z.to_nat count) as [|n IH]; [done|].
  replace (Z.of_nat (S n)) with (Z.of_nat n + 1) by lia. rewrite due_flushes_succ, <- IH by lia.
  destruct (Z.eqb_spec (Z.of_nat n + 1) 0); [lia|]. replace (Z.of_nat n + 1 - 1) with (Z.of_nat n) by lia.
  destruct (Z.eqb_spec (Z.of_nat n) 0) as [->|]; [by rewrite Z.mod_0_l, Z.div_0_l by lia|].
  rewrite (div_succ (Z.of_nat n)) by lia. lia.
Qed.

(** ** The touched-structures bound *)

Definition unit_bound (p : BenchParams) (image_size u : Z) : Z :=
  let last_end := sat_add (sat_add (bp_offset p) (sat_mul (bp_count p - 1) (effective_step p))) (bp_bufsize p) in
  let b1 := sat_mul (bp_count p) (sat_add (bp_bufsize p / u) 2) in
  let b2 := if (bp_count p =? 1) || (last_end <? image_size)
            then Z.min b1 (units_spanned (bp_offset p) last_end u) else b1 in
  Z.min b2 (div_ceil image_size u).

Lemma schedule_elem p img L off : validate p = Ok tt -> params_fit p img ->
  offsets p img = Ok L -> off ∈ L ->
  exists i, 0 <= i < bp_count p /\
    (i = 0 /\ off = bp_offset p \/
     0 < i /\ off = wrapped (bp_offset p) (effective_step p) img (bp_bufsize p) (Z.to_nat i)).
Proof.
  intros Hv (Ho & Hs & Hos & Hi0 & Hi) HL Hoff. pose proof (effective_step_pos p Hv Hs).
  apply validate_ok in Hv as (Hc & _ & Hb & _). rewrite offsets_list in HL by lia. injection HL as <-.
  apply list_elem_of_lookup in Hoff as [i Hlk].
  pose proof (lookup_lt_Some _ _ _ Hlk) as Hlt. rewrite length_offset_list in Hlt.
  rewrite offset_list_lookup in Hlk by lia. injection Hlk as <-. exists (Z.of_nat i).
  split; [lia|]. destruct i; [by left|]. right. rewrite Nat2Z.id. split; [lia|done].
Qed.

(** Requests lie in the image; without a wrap, in the span of the run. *)
Lemma schedule_ranges p img L off : validate p = Ok tt -> params_fit p img ->
  bp_offset p + bp_bufsize p <= img -> offsets p img = Ok L -> off ∈ L ->
  0 <= off /\ off + bp_bufsize p <= img /\
  (bp_count p = 1 \/ bp_offset p + (bp_count p - 1) * effective_step p + bp_bufsize p < img ->
   bp_offset p <= off /\
   off + bp_bufsize p <= bp_offset p + (bp_count p - 1) * effective_step p + bp_bufsize p).
Proof.
  intros Hv Hf Hin HL Hoff. destruct (schedule_elem p img L off Hv Hf HL Hoff) as (i & Hi & Hcase).
  destruct Hf as (Ho & Hs & _). pose proof (effective_step_pos p Hv Hs) as Hst.
  apply validate_ok in Hv as (Hc & _ & Hb & _).
  destruct Hcase as [[-> ->]|[Hpos ->]]; [split_and!; nia|].
  unfold wrapped. destruct (Z.leb_spec img (bp_bufsize p)).
  { assert (bp_offset p = 0) by lia. split_and!; try nia. }
  rewrite Z2Nat.id by lia.
  pose proof (Z.mod_pos_bound (bp_offset p + i * effective_step p) (img - bp_bufsize p) ltac:(lia)).
  split_and!; try lia. intros [?|Hnw]; [lia|]. rewrite Z.mod_small; nia.
Qed.

Lemma unit_bound_sound p img u L l : validate p = Ok tt -> params_fit p img ->
  bp_offset p + bp_bufsize p <= img -> 0 < u -> offsets p img = Ok L -> NoDup l ->
  (forall c, c ∈ l -> touched_unit u (bp_bufsize p) L c) ->
  Z.of_nat (length l) <= unit_bound p img u.
Proof.
  intros Hv Hf Hin Hu HL Hl Ht. pose proof (validate_ok p Hv) as (Hc & _ & Hb & _).
  pose proof Hf as (Ho & Hs & _ & Hi0 & Hi). pose proof (effective_step_pos p Hv Hs) as Hst.
  set (n := bp_bufsize p) in *. set (step := effective_step p) in *.
  assert (Z.of_nat (length L) = bp_count p) as HlenL.
  { rewrite offsets_list in HL by lia. injection HL as <-. rewrite length_offset_list. lia. }
  pose proof (touched_straddle u n L l Hu ltac:(lia) Hl Ht) as H1. rewrite HlenL in H1.
  pose proof (touched_interval u n 0 img L l Hu ltac:(lia) Hl) as H3.
  rewrite Z.div_0_l in H3 by lia. pose proof (div_ceil_spec img u Hu) as [Hd _].
  assert ((img - 1) / u < div_ceil img u) by (apply Z.div_lt_upper_bound; lia).
  assert (0 < div_ceil img u) by nia.
  assert (div_ceil img u <= img) by (apply div_ceil_le; nia).
  assert (Z.of_nat (length l) <= div_ceil img u) as H3'.
  { enough (Z.of_nat (length l) <= Z.max ((img - 1) / u - 0 + 1) 0) by lia. apply H3; [|done].
    intros off Hoff. pose proof (schedule_ranges p img L off Hv Hf Hin HL Hoff) as Hr. fold n in Hr. lia. }
  assert (Z.of_nat (length l) <= sat_mul (bp_count p) (sat_add (n / u) 2)) as H1'.
  { pose proof (Z.div_pos n u ltac:(lia) Hu). pose proof (Z.div_le_upper_bound n u n Hu ltac:(nia)).
    unfold BENCH_MAX_BUFSIZE in *. unfold sat_mul, sat_add. rewrite (Z.min_l (n / u + 2)) by (unfold u64_max; lia). lia. }
  unfold unit_bound. fold n step. set (last_end := sat_add _ n). cbv zeta.
  destruct ((bp_count p =? 1) || (last_end <? img)) eqn:Enw; [|lia].
  enough (Z.of_nat (length l) <= units_spanned (bp_offset p) last_end u) by lia.
  assert (last_end = bp_offset p + (bp_count p - 1) * step + n) as Hle.
  { unfold last_end, sat_add, sat_mul in *. apply orb_true_iff in Enw as [Ec|Ew]; bool_to_prop; [|lia].
    rewrite Ec. lia. }
  assert (bp_count p = 1 \/ bp_offset p + (bp_count p - 1) * step + n < img) as Hnw.
  { apply orb_true_iff in Enw as [Ec|Ew]; bool_to_prop; [by left|right; lia]. }
  pose proof (touched_interval u n (bp_offset p) last_end L l Hu ltac:(lia) Hl) as Hsp2.
  assert (bp_offset p < last_end) by nia. unfold units_spanned.
  destruct (Z.eqb_spec u 0), (Z.leb_spec last_end (bp_offset p)); try lia. cbn [orb].
  pose proof (Z.div_le_mono (bp_offset p) (last_end - 1) u Hu ltac:(lia)).
  enough (Z.of_nat (length l) <= Z.max ((last_end - 1) / u - bp_offset p / u + 1) 0) by lia.
  apply Hsp2; [|done]. intros off Hoff.
  destruct (schedule_ranges p img L off Hv Hf Hin HL Hoff) as (_ & _ & Hsp).
  specialize (Hsp Hnw). fold n step in Hsp. lia.
Qed.

(** [worst_case_touched] is a bound: however the requests of a validated schedule
    fall in the image, no more than [data_clusters] distinct data clusters and no
    more than [l2_tables] distinct L2 tables overlap them. *)
Theorem worst_case_sound (p : BenchParams) (image_size cluster_size : Z) (L clusters tables : list Z) :
  validate p = Ok tt -> params_fit p image_size -> bp_offset p + bp_bufsize p <= image_size ->
  8 <= cluster_size <= 2097152 -> offsets p image_size = Ok L ->
  NoDup clusters -> (forall c, c ∈ clusters -> touched_unit cluster_size (bp_bufsize p) L c) ->
  NoDup tables ->
  (forall t, t ∈ tables ->
     touched_unit (cluster_size * (cluster_size / 8)) (bp_bufsize p) L t) ->
  Z.of_nat (length clusters) <= data_clusters (worst_case_touched p image_size cluster_size) /\
  Z.of_nat (length tables) <= l2_tables (worst_case_touched p image_size cluster_size).
Proof.
  intros Hv Hf Hin Hcs HL Hc Hct Ht Htt. pose proof (validate_ok p Hv) as (Hcnt & _ & Hb & _).
  pose proof Hf as (Ho & _).
  assert (1 <= cluster_size / 8) by (apply Z.div_le_lower_bound; lia).
  assert (cluster_size / 8 <= cluster_size) by (apply Z.div_le_upper_bound; lia).
  set (cov := cluster_size * (cluster_size / 8)) in *.
  assert (sat_mul cluster_size (cluster_size / 8) = cov) as Hcov
    by (unfold sat_mul, u64_max; fold cov; unfold cov; nia).
  assert (0 < cov) by (unfold cov; nia).
  pose proof (unit_bound_sound p image_size cluster_size L clusters Hv Hf Hin ltac:(lia) HL Hc Hct) as Hdata.
  pose proof (unit_bound_sound p image_size cov L tables Hv Hf Hin ltac:(lia) HL Ht Htt) as Htab.
  unfold worst_case_touched. rewrite Hcov.
  destruct (Z.eqb_spec image_size 0), (Z.eqb_spec cluster_size 0), (Z.eqb_spec (bp_count p) 0),
    (Z.eqb_spec cov 0); try lia.
  cbn [orb negb]. rewrite andb_true_r. split; [exact Hdata|exact Htab].
Qed.

(** ** A small run *)

(** Four requests of 4 KiB, stepping 48 KiB through a 128 KiB image: the third wraps. *)
Definition demo_params : BenchParams := mkBenchParams 4 1 4096 49152 0 true 0 2 false.
Definition demo_offsets : list Z := [0; 49152; 98304; 20480].

Lemma demo_params_fit : params_fit demo_params 131072.
Proof. unfold params_fit. vm_compute. split_and!; discriminate. Qed.

Lemma schedule_closed_form_witness :
  exists L, offsets demo_params 131072 = Ok L /\ L !! 3%nat = Some ((0 + 3 * 49152) mod (131072 - 4096)).
Proof.
  destruct (schedule_closed_form demo_params 131072 eq_refl demo_params_fit) as (L & HL & Hlen & _ & Hi).
  exists L. split; [exact HL|]. destruct (Hi 3%nat) as (off & Hoff & _ & Hin & _).
  { cbn in Hlen. lia. }
  rewrite Hoff. f_equal. apply Hin. vm_compute. reflexivity.
Defined.

Lemma split_partitions_witness :
  exists L, chunks 100 150000 65536 = Ok L /\ L !! 2%nat = Some (131172, 18928).
Proof.
  destruct (split_partitions 100 150000 65536) as (L & HL & Hlen & Hi); [lia | lia | lia | unfold u64_max; lia |].
  exists L. split; [exact HL|]. rewrite Hi; [reflexivity|].
  assert (div_ceil 150000 65536 = 3) as Hd by (vm_compute; reflexivity). lia.
Defined.

Lemma flush_count_exact_witness :
  total_flushes 10 3 = Z.of_nat (length (filter (fun k => flush_after_completion 10 k 3 = true) (seqZ 1 10))).
Proof. apply (flush_count_exact 10 3); lia. Defined.

Lemma worst_case_sound_witness :
  Z.of_nat (length [0; 1]) <= data_clusters (worst_case_touched demo_params 131072 65536) /\
  Z.of_nat (length [0]) <= l2_tables (worst_case_touched demo_params 131072 65536).
Proof.
  apply (worst_case_sound demo_params 131072 65536 demo_offsets [0; 1] [0]).
  - reflexivity.
  - exact demo_params_fit.
  - vm_compute. discriminate.
  - lia.
  - vm_compute. reflexivity.
  - apply (bool_decide_unpack _). vm_compute. exact I.
  - intros c Hc. rewrite !elem_of_cons in Hc. destruct Hc as [->|[->|Hc]]; [| |by apply elem_of_nil in Hc].
    + exists 0. split; [left|vm_compute; done].
    + exists 98304. split; [right; right; left|vm_compute; done].
  - apply (bool_decide_unpack _). vm_compute. exact I.
  - intros c Hc. rewrite !elem_of_cons in Hc. destruct Hc as [->|Hc]; [|by apply elem_of_nil in Hc].
    exists 0. split; [left|vm_compute; done].
Defined.
