(* ===== verification/CachedRead.v ===== *)
(** Reading image tables through one-sector caches
    ([cached_read!] in [src/src/shared/src/lib.rs]), as every format reader does.

    - [InputIo] is the call-table entry that reads a sector of an input device;
      [FlatInput] is what the readers rely on: a device is a byte array, a
      successful read returns its bytes, a failed one leaves the buffer alone.
    - [InSt] is the mutable part of a format state: two sector caches, the byte
      counter of the caller and the host.
    - [tracks m ref]: whatever the caches hold, [m] computes [ref] of the
      image's bytes.  It composes along the monad, so a format's lookup is
      related to its cache-free reference definition rule by rule.
    - [LookupFormat] is the interface a format gives its clients. *)

From stdpp Require Import base numbers list sets option.
From Stdlib Require Import ZArith Lia.
From S2P Require Import Prelude Bytes ExecBytes.

(** ** Definitions *)

(** [uN::from_le_bytes]. *)
Definition le_val (l : bytes) : Z := foldr (fun b acc => b + 256 * acc) 0 l.

(** [v.to_le_bytes()]. *)
Definition le_bytes (n : nat) (v : Z) : bytes := rev (be_bytes n v).

Definition le_u16 {E} (buf : bytes) (off : Z) : outcome E Z :=
  let? s := or_panic (slice buf off (off + 2)) in Ok (le_val s).

Definition le_u32 {E} (buf : bytes) (off : Z) : outcome E Z :=
  let? s := or_panic (slice buf off (off + 4)) in Ok (le_val s).

Definition le_u64 {E} (buf : bytes) (off : Z) : outcome E Z :=
  let? s := or_panic (slice buf off (off + 8)) in Ok (le_val s).

Definition MAX_SECTOR_SIZE : Z := 65536.

(** [read_input_sector(device, sector, buf, buf.len())] of the call table. *)
Class InputIo (H : Type) := {
  input_read : Z -> Z -> bytes -> H -> bool * bytes * H
}.

Record SectorCache : Type := mkSectorCache { cached_sector : Z; cache_buf : bytes }.

(** The two caches of a format state. *)
Inductive CacheId : Type := CacheA | CacheB.

Section reader.
Context {H : Type} `{InputIo H}.

Record InSt : Type := mkInSt {
  in_host : H;
  in_bytes_read : Z;
  in_a : SectorCache;
  in_b : SectorCache
}.

(** [None] is the only error. *)
Abbreviation RM := (SM InSt unit).

Definition get_cache (c : CacheId) (s : InSt) : SectorCache :=
  match c with CacheA => in_a s | CacheB => in_b s end.

Definition set_cache (c : CacheId) (k : SectorCache) (s : InSt) : InSt :=
  match c with
  | CacheA => mkInSt (in_host s) (in_bytes_read s) k (in_b s)
  | CacheB => mkInSt (in_host s) (in_bytes_read s) (in_a s) k
  end.

Definition set_host (h : H) (s : InSt) : InSt := mkInSt h (in_bytes_read s) (in_a s) (in_b s).

Definition count_read (n : Z) (s : InSt) : InSt :=
  mkInSt (in_host s) (wadd (in_bytes_read s) n) (in_a s) (in_b s).

(** A sector into the first [sector_size] bytes of a buffer. *)
Definition read_into (device sector : Z) (buf : bytes) (sector_size : Z) : RM (bool * bytes) :=
  let! s := sget in
  let! part := slift (or_panic (slice buf 0 sector_size)) in
  let '(ok, part', h) := input_read device sector part (in_host s) in
  do! sput (set_host h s) in
  let! buf' := slift (or_panic (splice buf 0 part')) in
  sret (ok, buf').

(** The refill: on failure the tag keeps naming the sector cached before. *)
Definition refill (c : CacheId) (device sector sector_size : Z) : RM unit :=
  let! s := sget in
  let k := get_cache c s in
  let! (ok, buf) := read_into device sector (cache_buf k) sector_size in
  do! smod (set_cache c (mkSectorCache (cached_sector k) buf)) in
  if (ok : bool) then
    do! smod (count_read sector_size) in
    smod (set_cache c (mkSectorCache sector buf))
  else sfail tt.

Definition cached_read (c : CacheId) (width : Z) (val : bytes -> Z)
    (device byte_offset sector_size input_capacity : Z) : RM Z :=
  let! sector := slift (udiv byte_offset sector_size) in
  let! off := slift (urem byte_offset sector_size) in
  if sector_size <? wadd off width then sfail tt
  else if input_capacity <=? sector then sfail tt
  else
    let! s := sget in
    do! (if cached_sector (get_cache c s) =? sector then sret tt
         else refill c device sector sector_size) in
    let! s' := sget in
    let! p := slift (or_panic (slice (cache_buf (get_cache c s')) off (off + width))) in
    sret (val p).

(** [read_u32_le_cached] and [read_u64_be_cached], the instances the formats make. *)
Definition read_u32_le_cached (c : CacheId) : Z -> Z -> Z -> Z -> RM Z := cached_read c 4 le_val.
Definition read_u64_be_cached (c : CacheId) : Z -> Z -> Z -> Z -> RM Z := cached_read c 8 be_val.

(** A read of a format's [init]: the sector into the front of the buffer, and the byte
    count. *)
Definition fetch_into (device sector sector_size : Z) (buf : bytes) : RM bytes :=
  let! (ok, buf) := read_into device sector buf sector_size in
  if (ok : bool) then do! smod (count_read sector_size) in sret buf else sfail tt.

(** The header sector, in a zeroed buffer. *)
Definition read_header (device sector_size : Z) : RM bytes :=
  fetch_into device 0 sector_size (filled MAX_SECTOR_SIZE 0).

(** A fresh state: both tags invalid. *)
Definition InSt_new (h : H) (bytes_read : Z) (a b : bytes) : InSt :=
  mkInSt h bytes_read (mkSectorCache u64_max a) (mkSectorCache u64_max b).

(** [match f() { Some(x) => .., None => .. }]: a failed read is a value. *)
Definition attempt {A} (m : RM A) : RM (option A) :=
  fun s => match m s with
           | (Ok a, s') => (Ok (Some a), s')
           | (Err _, s') => (Ok None, s')
           | (Panic, s') => (Panic, s')
           | (OutOfFuel, s') => (OutOfFuel, s')
           end.

(** [?] on an [Option]. *)
Definition or_none {A} (o : option A) : RM A := slift (ok_or o tt).

End reader.
Arguments InSt H : clear implicits.

(** ** What a reader relies on *)

Class FlatInput (H : Type) `{InputIo H} := {
  image : H -> Z -> bytes;
  (** No read has failed for an I/O error. *)
  responsive : H -> Prop;
  fi_read dev sec buf h : 0 <= sec ->
    let '(ok, buf', h') := input_read dev sec buf h in
    (forall d, image h' d = image h d) /\ blen buf' = blen buf /\
    if (ok : bool)
    then slice (image h dev) (sec * blen buf) (sec * blen buf + blen buf) = Some buf'
    else buf' = buf;
  fi_responsive dev sec buf h : responsive h -> 0 <= sec ->
    let '(ok, _, h') := input_read dev sec buf h in
    responsive h' /\ (sec * blen buf + blen buf <= blen (image h dev) -> ok = true)
}.

(** Writing back what was read changes nothing. *)
Lemma splice_slice_id l a src l' :
  splice l a src = Some l' -> slice l a (a + blen src) = Some src -> l' = l.
Proof.
  intros Hsp Hsl. pose proof (splice_blen _ _ _ _ Hsp) as Hl. apply byte_ext; [done|].
  intros i Hi. rewrite (splice_byte _ _ _ _ _ Hsp).
  destruct (Z.leb_spec a i), (Z.ltb_spec i (a + blen src)); cbn [andb]; try done.
  rewrite (slice_byte _ _ _ _ _ Hsl) by lia. f_equal. lia.
Qed.

Lemma slice_halves l m x y : 0 <= m <= blen l -> slice l 0 m = Some x -> slice l m (blen l) = Some y ->
  x ++ y = l.
Proof.
  intros Hm (_ & _ & ->)%slice_Some (_ & _ & ->)%slice_Some. rewrite Z.sub_0_r, drop_0.
  rewrite (take_ge (drop _ _)); [by rewrite take_drop|]. rewrite length_drop. unfold blen in *. lia.
Qed.

(** ** Computing a function of the image *)

Section computes.
Context {H : Type} `{FlatInput H} (dev ssz cap : Z) (img : bytes).

(** The device has the capacity it reports, in sectors a cache can hold. *)
Record device_ok : Prop := {
  do_ssz : 0 < ssz <= MAX_SECTOR_SIZE;
  do_cap : 0 <= cap <= u64_max;
  do_size : cap * ssz <= blen img;
  do_len : blen img <= u64_max
}.

Definition cache_ok (k : SectorCache) : Prop :=
  ssz <= blen (cache_buf k) /\
  (cached_sector k = u64_max \/
   0 <= cached_sector k /\
   slice img (cached_sector k * ssz) (cached_sector k * ssz + ssz) = slice (cache_buf k) 0 ssz).

Definition reader_ok (s : InSt H) : Prop :=
  image (in_host s) dev = img /\ forall c, cache_ok (get_cache c s).

(** [m] returns values that satisfy [R], and fails only where [F] holds or a
    read failed. *)
Definition yields {A} (m : SM (InSt H) unit A) (R : A -> Prop) (F : Prop) : Prop :=
  forall s, reader_ok s ->
    wp m (fun a s' => reader_ok s' /\ (responsive (in_host s) -> responsive (in_host s')) /\ R a)
         (fun _ s' => reader_ok s' /\ (responsive (in_host s) -> responsive (in_host s') /\ F)) s.

(** [m] computes [ref]. *)
Definition computes {A} (m : SM (InSt H) unit A) (ref : option A) : Prop :=
  yields m (fun a => ref = Some a) (ref = None).

Lemma yields_bind {A B} (m : SM (InSt H) unit A) (k : A -> SM (InSt H) unit B) R F R' (F' : Prop) :
  yields m R F -> (forall a, R a -> yields (k a) R' F') -> (F -> F') -> yields (sbind m k) R' F'.
Proof.
  intros Hm Hk HF s Hs. wstep. eapply wp_mono; [by apply Hm| |].
  - intros a s1 (Hs1 & Hr1 & HR). eapply wp_mono; [by apply (Hk a HR)| |].
    + intros b s2 (Hs2 & Hr2 & Hb). split_and!; auto.
    + intros [] s2 (Hs2 & Hr2). split; auto.
  - intros [] s1 (Hs1 & Hr1). split; [done|]. intros Hr. destruct (Hr1 Hr) as [? HF1]. auto.
Qed.

Lemma yields_ret {A} (a : A) (R : A -> Prop) F : R a -> yields (sret a) R F.
Proof. intros HR s Hs. by wstep. Qed.

Lemma yields_fail {A} (R : A -> Prop) (F : Prop) : F -> yields (sfail tt) R F.
Proof. intros HF s Hs. by wstep. Qed.

Lemma yields_some {A B} (o : option A) a (k : A -> SM (InSt H) unit B) R F :
  o = Some a -> yields (k a) R F -> yields (sbind (or_none o) k) R F.
Proof. intros -> Hk s Hs. unfold or_none. wstep. wstep. cbn [ok_or]. by apply Hk. Qed.

Lemma yields_ok {A B} (m : outcome unit A) a (k : A -> SM (InSt H) unit B) R F :
  m = Ok a -> yields (k a) R F -> yields (sbind (slift m) k) R F.
Proof. intros -> Hk s Hs. do 2 wstep. by apply Hk. Qed.

Lemma yields_err {A B} (m : outcome unit A) (k : A -> SM (InSt H) unit B) R (F : Prop) :
  m = Err tt -> F -> yields (sbind (slift m) k) R F.
Proof. intros -> HF s Hs. do 2 wstep. done. Qed.

Lemma yields_value {A} (a : A) (R : A -> Prop) F : R a -> yields (slift (Ok a)) R F.
Proof. intros HR s Hs. wstep. split; [done|]. split; [done|]. exact HR. Qed.

Lemma computes_ret {A} (a : A) : computes (sret a) (Some a).
Proof. intros s Hs. by wstep. Qed.

Lemma computes_fail {A} : computes (A := A) (sfail tt) None.
Proof. intros s Hs. by wstep. Qed.

Lemma computes_or_none {A} (o : option A) : computes (or_none o) o.
Proof. intros s Hs. unfold or_none. wstep. by destruct o. Qed.

Lemma computes_lift {A} (a : A) : computes (slift (Ok a)) (Some a).
Proof. intros s Hs. by wstep. Qed.

Lemma computes_bind {A B} (m : SM (InSt H) unit A) (k : A -> SM (InSt H) unit B) ref rk :
  computes m ref -> (forall a, ref = Some a -> computes (k a) (rk a)) ->
  computes (sbind m k) (ref ≫= rk).
Proof.
  intros Hm Hk. eapply yields_bind; [exact Hm | |by intros ->].
  intros a Ha s Hs. rewrite Ha. by apply (Hk a).
Qed.

(** Steps whose value is known. *)
Lemma computes_some {A B} (o : option A) a (k : A -> SM (InSt H) unit B) r :
  o = Some a -> computes (k a) r -> computes (sbind (or_none o) k) r.
Proof. apply yields_some. Qed.

Lemma computes_none {A B} (o : option A) (k : A -> SM (InSt H) unit B) :
  o = None -> computes (sbind (or_none o) k) None.
Proof. intros -> s Hs. unfold or_none. wstep. by wstep. Qed.

Lemma computes_ok {A B} (m : outcome unit A) a (k : A -> SM (InSt H) unit B) r :
  m = Ok a -> computes (k a) r -> computes (sbind (slift m) k) r.
Proof. intros -> Hk s Hs. wstep. wstep. by apply Hk. Qed.

Lemma computes_err {A B} (m : outcome unit A) (k : A -> SM (InSt H) unit B) :
  m = Err tt -> computes (sbind (slift m) k) None.
Proof. intros -> s Hs. wstep. by wstep. Qed.

(** Case analysis on a value both sides branch on. *)
Lemma computes_if {A} (b : bool) (m1 m2 : SM (InSt H) unit A) r1 r2 :
  (b = true -> computes m1 r1) -> (b = false -> computes m2 r2) ->
  computes (if b then m1 else m2) (if b then r1 else r2).
Proof. destruct b; auto. Qed.

Lemma computes_eq {A} (m : SM (InSt H) unit A) r r' : computes m r -> r = r' -> computes m r'.
Proof. by intros ? <-. Qed.

(** A computation whose value is known. *)
Lemma computes_known {A B} (m : SM (InSt H) unit A) a (k : A -> SM (InSt H) unit B) r :
  computes m (Some a) -> computes (k a) r -> computes (sbind m k) r.
Proof. intros Hm Hk. eapply computes_eq; [by eapply (computes_bind _ _ (Some a) (fun _ => r)); [|intros ? [= <-]]|done]. Qed.

(** A failed attempt is a value; under a device without errors it means there is none. *)
Lemma wp_attempt {A} (m : SM (InSt H) unit A) ref s : computes m ref -> reader_ok s ->
  wp (attempt m) (fun o s' => reader_ok s' /\ (responsive (in_host s) -> responsive (in_host s')) /\
                              (forall a, o = Some a -> ref = Some a) /\ (o = None -> responsive (in_host s) -> ref = None))
    (fun _ _ => False) s.
Proof.
  intros Hm Hs. specialize (Hm s Hs). unfold wp, attempt in *. destruct (m s) as [[a|[]| |] s']; [| |done|done].
  - destruct Hm as (Hs' & Hr & Ha). split_and!; [done | done | by intros ? [= <-] | done].
  - destruct Hm as (Hs' & Hr). split_and!; [done | intros Hh; by apply Hr | done | intros _ Hh; by apply Hr].
Qed.

(** ** Reads *)

Context (Hdev : device_ok).

Lemma reader_ok_set c k s : reader_ok s -> cache_ok k -> reader_ok (set_cache c k s).
Proof.
  intros [Hi Hc] Hk. split; [by destruct c|]. intros c'.
  destruct c, c'; cbn; try exact Hk; [exact (Hc CacheB) | exact (Hc CacheA)].
Qed.

Lemma reader_ok_host h s : reader_ok s -> image h dev = img -> reader_ok (set_host h s).
Proof. intros [Hi Hc] Hh. split; [done|]. intros []; [exact (Hc CacheA) | exact (Hc CacheB)]. Qed.

Lemma reader_ok_count n s : reader_ok s -> reader_ok (count_read n s).
Proof. intros [Hi Hc]. split; [done|]. intros []; [exact (Hc CacheA) | exact (Hc CacheB)]. Qed.

(** One sector into a buffer: the sector's bytes, or nothing changed. *)
Lemma wp_read_into sector buf (s : InSt H) : reader_ok s -> 0 <= sector -> ssz <= blen buf ->
  wp (read_into dev sector buf ssz)
    (fun r s' => exists h, s' = set_host h s /\ reader_ok s' /\ blen (snd r) = blen buf /\
       (fst r = true -> slice img (sector * ssz) (sector * ssz + ssz) = slice (snd r) 0 ssz /\
                        slice (snd r) ssz (blen buf) = slice buf ssz (blen buf)) /\
       (fst r = false -> snd r = buf) /\
       (responsive (in_host s) -> responsive h /\ (sector * ssz + ssz <= blen img -> fst r = true)))
    (fun _ _ => False) s.
Proof.
  intros Hs Hsec Hlen. pose proof (do_ssz Hdev) as Hz. pose proof Hs as [Hi _].
  unfold read_into. wstep. wstep.
  destruct (slice_of buf 0 ssz) as (part & Hpart & Hpl); [lia | lia |].
  wstep. wstep. rewrite Hpart. cbn [or_panic].
  pose proof (fi_read dev sector part (in_host s) Hsec) as Hf.
  pose proof (fi_responsive dev sector part (in_host s)) as Hresp.
  destruct (input_read dev sector part (in_host s)) as [[ok part'] h]. destruct Hf as (Him & Hl' & Hok).
  rewrite Hpl, Z.sub_0_r in *. wstep. wstep. wstep. wstep.
  destruct (splice_of buf 0 part') as (buf' & Hbuf' & Hbl'); [lia | lia |]. rewrite Hbuf'. cbn [or_panic].
  wstep. exists h. cbn [fst snd]. rewrite Hi in *.
  split_and!; [done | by apply reader_ok_host; [|rewrite Him] | done | | |].
  - intros ->. rewrite Hok. split.
    + pose proof (slice_splice_eq _ _ _ _ Hbuf') as He. by rewrite Hl', Z.add_0_l in He.
    + apply (slice_splice_ne _ _ _ _ _ _ Hbuf'). lia.
  - intros ->. subst part'. apply splice_slice_id in Hbuf' as ->; [done|].
    by rewrite Hl', Z.add_0_l.
  - intros Hr. by apply Hresp.
Qed.

Lemma wp_refill c sector (s : InSt H) : reader_ok s -> 0 <= sector < cap ->
  wp (refill c dev sector ssz)
    (fun _ s' => reader_ok s' /\ cached_sector (get_cache c s') = sector /\
                 (responsive (in_host s) -> responsive (in_host s')))
    (fun _ s' => reader_ok s' /\ ~ responsive (in_host s)) s.
Proof.
  intros Hs Hsec. pose proof Hs as [_ Hc]. destruct (Hc c) as [Hlen Hold].
  assert (sector * ssz + ssz <= blen img) as Hin.
  { pose proof (do_size Hdev). pose proof (do_ssz Hdev). nia. }
  unfold refill. wstep. wstep. wstep.
  eapply wp_mono; [apply wp_read_into; done || lia | |done].
  intros [ok buf] s1 (h & -> & Hs1 & Hbl & Hyes & Hno & Hresp). cbn [fst snd] in *.
  assert (cache_ok (mkSectorCache (cached_sector (get_cache c s)) buf) \/ ok = true) as Hmid.
  { destruct ok; [by right|left]. rewrite (Hno eq_refl). exact (Hc c). }
  wstep. wstep. destruct ok.
  - wstep. wstep. wstep. destruct (Hyes eq_refl) as [Hsl _].
    assert (cache_ok (mkSectorCache sector buf)) as Hnew by (split; [cbn; lia | right; cbn; split; [lia|done]]).
    split_and!.
    + apply (reader_ok_set c _ (count_read ssz (set_host h s))) in Hnew;
        [|by apply reader_ok_count]. by destruct c.
    + by destruct c.
    + intros Hr. destruct (Hresp Hr) as [Hh _]. by destruct c.
  - wstep. destruct Hmid as [Hmid|]; [|done]. split; [by apply reader_ok_set|].
    intros Hr. destruct (Hresp Hr) as [_ Hh]. by specialize (Hh Hin).
Qed.

(** The value at an offset of the image, when it lies inside one sector. *)
Definition direct_read (width : Z) (val : bytes -> Z) (off : Z) : option Z :=
  if (off mod ssz + width <=? ssz) && (off / ssz <? cap)
  then val <$> slice img off (off + width) else None.

Lemma computes_read c width val off : is_u64 off -> 0 <= width <= 8 ->
  computes (cached_read c width val dev off ssz cap) (direct_read width val off).
Proof.
  intros Hoff Hw s Hs. pose proof (do_ssz Hdev) as Hz. pose proof (do_cap Hdev). unfold MAX_SECTOR_SIZE in Hz.
  unfold is_u64 in Hoff. pose proof (Z.mod_pos_bound off ssz ltac:(lia)).
  pose proof (Z.div_pos off ssz ltac:(lia) ltac:(lia)). pose proof (Z.div_mod off ssz ltac:(lia)) as Hdm.
  unfold cached_read, direct_read, udiv, urem. rewrite (proj2 (Z.eqb_neq ssz 0)) by lia.
  wstep. wstep. wstep. wstep. rewrite wadd_small by (unfold u64_max; lia).
  destruct (Z.ltb_spec ssz (off mod ssz + width)), (Z.leb_spec (off mod ssz + width) ssz); try lia;
    cbn [andb]; [by wstep|].
  destruct (Z.leb_spec cap (off / ssz)), (Z.ltb_spec (off / ssz) cap); try lia; [by wstep|].
  assert (forall s', reader_ok s' -> cached_sector (get_cache c s') = off / ssz ->
    exists p, slice (cache_buf (get_cache c s')) (off mod ssz) (off mod ssz + width) = Some p /\
              slice img off (off + width) = Some p) as Hfinal.
  { intros s' [_ Hc'] Htag. destruct (Hc' c) as [Hlen [Hbad|[_ Heq]]]; [lia|].
    destruct (slice_of (cache_buf (get_cache c s')) 0 ssz) as (sec & Hsec & Hsl); [lia | lia |].
    rewrite Htag, Hsec in Heq. rewrite Z.sub_0_r in Hsl.
    destruct (slice_of sec (off mod ssz) (off mod ssz + width)) as (p & Hp & _); [lia | lia |].
    exists p. split; rewrite <- Hp; [|symmetry].
    - rewrite (slice_slice _ _ _ _ (off mod ssz) (off mod ssz + width) Hsec) by lia. f_equal; lia.
    - rewrite (slice_slice _ _ _ _ (off mod ssz) (off mod ssz + width) Heq) by lia. f_equal; lia. }
  wstep. wstep. wstep.
  eapply (wp_mono _ (fun _ s' => reader_ok s' /\ cached_sector (get_cache c s') = off / ssz /\
    (responsive (in_host s) -> responsive (in_host s')))
    _ (fun _ s' => reader_ok s' /\ ~ responsive (in_host s))).
  - destruct (Z.eqb_spec (cached_sector (get_cache c s)) (off / ssz)) as [He|He].
    + by wstep.
    + apply wp_refill; done || lia.
  - intros _ s1 (Hs1 & Htag & Hr). destruct (Hfinal s1 Hs1 Htag) as (p & Hp & Hi).
    wstep. wstep. wstep. wstep. rewrite Hp. cbn [or_panic]. wstep. rewrite Hi. done.
  - intros [] s1 [Hs1 Hn]. split; [done|]. intros Hr. by destruct (Hn Hr).
Qed.

(** A sector, followed by what the buffer held past it. *)
Definition sector_ref (sector : Z) (rest : bytes) : option bytes :=
  (fun sec => sec ++ rest) <$> slice img (sector * ssz) (sector * ssz + ssz).

Lemma computes_fetch sector buf rest : 0 <= sector -> ssz <= blen buf -> slice buf ssz (blen buf) = Some rest ->
  computes (fetch_into dev sector ssz buf) (sector_ref sector rest).
Proof.
  intros Hsec Hlen Hrest s Hs. pose proof (do_ssz Hdev) as Hz. unfold fetch_into, sector_ref.
  wstep. eapply wp_mono; [apply (wp_read_into sector buf s Hs); lia | |done].
  intros [ok buf'] s1 (h & -> & Hs1 & Hbl & Hyes & Hno & Hresp). cbn [fst snd] in *. destruct ok.
  - wstep. wstep. wstep. destruct (Hyes eq_refl) as [Hsl Hrest']. split_and!.
    + by apply reader_ok_count.
    + intros Hr. by apply Hresp.
    + rewrite Hsl. rewrite Hrest in Hrest'.
      destruct (slice_of buf' 0 ssz) as (sec & Hsec' & Hl); [lia | lia |]. rewrite Hsec'. cbn. f_equal.
      apply (slice_halves buf' ssz); [lia | done | by rewrite Hbl].
  - wstep. split; [done|]. intros Hr. destruct (Hresp Hr) as [Hh Hin]. split; [done|].
    destruct (slice img (sector * ssz) (sector * ssz + ssz)) as [sec|] eqn:Hsl; [|done].
    apply slice_Some in Hsl as (_ & Hle & _). by specialize (Hin Hle).
Qed.

(** What a zeroed buffer holds past the sector. *)
Lemma zeroed_rest : ssz <= MAX_SECTOR_SIZE /\ blen (filled MAX_SECTOR_SIZE 0) = MAX_SECTOR_SIZE /\
  slice (filled MAX_SECTOR_SIZE 0) ssz (blen (filled MAX_SECTOR_SIZE 0)) = Some (filled (MAX_SECTOR_SIZE - ssz) 0).
Proof.
  pose proof (do_ssz Hdev) as Hz. assert (blen (filled MAX_SECTOR_SIZE 0) = MAX_SECTOR_SIZE) as Hfl by (apply blen_filled; lia).
  split; [lia|]. split; [done|]. rewrite Hfl. apply slice_filled; lia.
Qed.

Lemma computes_fetch_zeroed sector : 0 <= sector ->
  computes (fetch_into dev sector ssz (filled MAX_SECTOR_SIZE 0)) (sector_ref sector (filled (MAX_SECTOR_SIZE - ssz) 0)).
Proof.
  intros Hsec. destruct zeroed_rest as (Hz & Hl & Hs). apply computes_fetch; [done | by rewrite Hl | done].
Qed.

(** The header sector, zero-extended to the buffer's size. *)
Definition header_ref : option bytes :=
  (fun sec => sec ++ filled (MAX_SECTOR_SIZE - ssz) 0) <$> slice img 0 ssz.

Lemma computes_header : computes (read_header dev ssz) header_ref.
Proof. apply (computes_fetch_zeroed 0). lia. Qed.

End computes.

(** ** Little-endian values *)

Lemma le_val_bound l : is_bytes l -> 0 <= le_val l < 256 ^ blen l.
Proof.
  induction 1 as [|b l Hb _ IH]; cbn [le_val foldr]; [done|]. fold (le_val l).
  rewrite blen_cons, Z.pow_add_r by (pose proof (blen_nonneg l); lia). unfold is_u8, u8_max in Hb.
  change (256 ^ 1) with 256. lia.
Qed.

(** A little-endian read is a big-endian read of the reversed bytes. *)
Lemma le_val_be l : le_val l = be_val (rev l).
Proof.
  induction l as [|b l IH]; [done|]. cbn [le_val foldr rev]. fold (le_val l).
  rewrite IH. unfold be_val. rewrite foldl_app. cbn. lia.
Qed.

Lemma blen_le_bytes n v : blen (le_bytes n v) = Z.of_nat n.
Proof. unfold le_bytes, blen. by rewrite length_rev, length_be_bytes. Qed.

Lemma le_val_le_bytes n v : 0 <= v < 256 ^ Z.of_nat n -> le_val (le_bytes n v) = v.
Proof. intros Hv. unfold le_bytes. rewrite le_val_be, rev_involutive. by apply be_val_bytes. Qed.

Lemma le_bytes_is_bytes n v : is_bytes (le_bytes n v).
Proof. unfold le_bytes. apply Forall_rev, be_bytes_is_bytes. Qed.

Lemma le_u32_read {E} buf off : is_bytes buf -> 0 <= off -> off + 4 <= blen buf ->
  exists v, le_u32 (E := E) buf off = Ok v /\ is_u32 v.
Proof.
  intros Hb Ho Hl. unfold le_u32. destruct (slice_of buf off (off + 4)) as (s & Hs & Hsl); [lia | lia |].
  rewrite Hs. cbn. eexists. split; [done|].
  pose proof (le_val_bound s (slice_is_bytes _ _ _ _ Hb Hs)) as Hv. rewrite Hsl in Hv.
  replace (off + 4 - off) with 4 in Hv by lia. unfold is_u32, u32_max. lia.
Qed.

Lemma le_u64_read {E} buf off : is_bytes buf -> 0 <= off -> off + 8 <= blen buf ->
  exists v, le_u64 (E := E) buf off = Ok v /\ is_u64 v.
Proof.
  intros Hb Ho Hl. unfold le_u64. destruct (slice_of buf off (off + 8)) as (s & Hs & Hsl); [lia | lia |].
  rewrite Hs. cbn. eexists. split; [done|].
  pose proof (le_val_bound s (slice_is_bytes _ _ _ _ Hb Hs)) as Hv. rewrite Hsl in Hv.
  replace (off + 8 - off) with 8 in Hv by lia. unfold is_u64, u64_max. lia.
Qed.

(** Read the next fixed field of a buffer known to be long enough. *)
Ltac buf_field Hb :=
  lazymatch goal with
  | |- match obind (le_u32 ?b ?o) _ with Ok _ => _ | Err _ => _ | Panic => _ | OutOfFuel => _ end =>
      let o' := eval vm_compute in o in change o with o';
      let v := fresh "v" in let Hv := fresh "Hv" in
      destruct (le_u32_read (E := unit) b o' Hb) as (v & -> & Hv); [lia | lia |]
  | |- match obind (le_u64 ?b ?o) _ with Ok _ => _ | Err _ => _ | Panic => _ | OutOfFuel => _ end =>
      let o' := eval vm_compute in o in change o with o';
      let v := fresh "v" in let Hv := fresh "Hv" in
      destruct (le_u64_read (E := unit) b o' Hb) as (v & -> & Hv); [lia | lia |]
  | |- match obind (be_u32 ?b ?o) _ with Ok _ => _ | Err _ => _ | Panic => _ | OutOfFuel => _ end =>
      let o' := eval vm_compute in o in change o with o';
      let v := fresh "v" in let Hv := fresh "Hv" in
      destruct (be_u32_read (E := unit) b o' Hb) as (v & -> & Hv); [lia | lia |]
  | |- match obind (be_u64 ?b ?o) _ with Ok _ => _ | Err _ => _ | Panic => _ | OutOfFuel => _ end =>
      let o' := eval vm_compute in o in change o with o';
      let v := fresh "v" in let Hv := fresh "Hv" in
      destruct (be_u64_read (E := unit) b o' Hb) as (v & -> & Hv); [lia | lia |]
  | |- match obind (or_panic (byte_at ?b ?o)) _ with Ok _ => _ | Err _ => _ | Panic => _ | OutOfFuel => _ end =>
      let o' := eval vm_compute in o in change o with o';
      let v := fresh "v" in let Hv := fresh "Hv" in let He := fresh "He" in
      destruct (proj2 (byte_at_Some_iff b o') ltac:(lia)) as [v He];
      pose proof (byte_at_u8 _ _ _ Hb He) as Hv; rewrite He; clear He; cbn [or_panic]
  end; cbn [obind].

Lemma direct_read_bound ssz cap img width val off v : is_bytes img ->
  (forall l, is_bytes l -> 0 <= val l < 256 ^ blen l) ->
  direct_read ssz cap img width val off = Some v -> 0 <= v < 256 ^ width.
Proof.
  intros Hb Hval. unfold direct_read. destruct (_ && _); [|done]. intros (p & Hp & ->)%fmap_Some.
  pose proof (Hval p (slice_is_bytes _ _ _ _ Hb Hp)) as Hv. rewrite (slice_blen _ _ _ _ Hp) in Hv.
  by replace (off + width - off) with width in Hv by lia.
Qed.

(** A read fails only across a sector boundary or past the capacity. *)
Lemma direct_read_None ssz cap img width val off : device_ok ssz cap img -> 0 <= off -> 0 <= width ->
  direct_read ssz cap img width val off = None -> ssz < off mod ssz + width \/ cap <= off / ssz.
Proof.
  intros [Hz Hc Hs _] Ho Hw. unfold direct_read. unfold MAX_SECTOR_SIZE in Hz.
  destruct (Z.leb_spec (off mod ssz + width) ssz), (Z.ltb_spec (off / ssz) cap); cbn [andb]; try lia.
  pose proof (Z.div_mod off ssz ltac:(lia)). pose proof (Z.mod_pos_bound off ssz ltac:(lia)).
  rewrite slice_Some_2 by nia. done.
Qed.

Lemma mod_coarser x q b : 0 < q -> 0 < b -> x mod (q * b) = 0 -> x mod b = 0.
Proof.
  intros Hq Hb Hx. apply Z.mod_divide in Hx; [|nia]. apply Z.mod_divide; [lia|].
  transitivity (q * b); [by exists q|done].
Qed.

Lemma mod_add_mul x k b : 0 < b -> x mod b = 0 -> (x + b * k) mod b = 0.
Proof. intros Hb Hx. by rewrite Z.mul_comm, Z.mod_add by lia. Qed.

(** An aligned entry never crosses a sector boundary. *)
Lemma aligned_fits ssz width off : 0 < width -> 0 < ssz -> ssz mod width = 0 -> off mod width = 0 ->
  off mod ssz + width <= ssz.
Proof.
  intros Hw Hz Hs Ho. pose proof (Z.mod_pos_bound off ssz Hz).
  assert ((off mod ssz) mod width = 0) as Hm.
  { apply Z.mod_divide in Hs as [q ->]; [|lia]. apply Z.mod_divide in Ho as [r ->]; [|lia].
    apply Z.mod_divide; [lia|]. rewrite Z.mul_mod_distr_r by nia. by exists (r mod q). }
  apply Z.mod_divide in Hs as [q ->]; [|lia]. apply Z.mod_divide in Hm as [m Hm]; [|lia].
  rewrite Hm in *. assert (m < q) by (apply (Z.mul_lt_mono_pos_r width); lia). nia.
Qed.

Lemma mapM_None_elem {A B} (f : A -> option B) l : mapM f l = None -> exists x, x ∈ l /\ f x = None.
Proof.
  induction l as [|x l IH]; cbn; [done|]. destruct (f x) as [y|] eqn:Hx; cbn.
  - destruct (mapM f l); [done|]. intros _. destruct IH as (z & Hz & Hn); [done|].
    exists z. split; [by right|done].
  - intros _. exists x. split; [by left|done].
Qed.

Lemma header_ref_spec ssz img buf : is_bytes img -> 0 <= ssz <= MAX_SECTOR_SIZE ->
  header_ref ssz img = Some buf ->
  is_bytes buf /\ blen buf = MAX_SECTOR_SIZE /\ ssz <= blen img /\
  forall a b, 0 <= a <= b -> b <= ssz -> slice buf a b = slice img a b.
Proof.
  intros Hb Hz (sec & Hsec & ->)%fmap_Some. pose proof (slice_blen _ _ _ _ Hsec) as Hl.
  pose proof (slice_Some _ _ _ _ Hsec) as (_ & Hle & _). split_and!.
  - apply Forall_app_2; [by eapply slice_is_bytes|]. by apply filled_is_bytes.
  - rewrite blen_app, blen_filled by lia. lia.
  - done.
  - intros a b Hab Hbz. pose proof (slice_slice _ _ _ _ a b Hsec ltac:(lia) ltac:(lia)) as Hs.
    rewrite !Z.add_0_l in Hs. rewrite <- Hs.
    rewrite !slice_Some_2 by (rewrite ?blen_app, ?blen_filled; lia). f_equal.
    unfold blen in Hl. rewrite drop_app_le by lia. rewrite take_app_le; [done|]. rewrite length_drop. lia.
Qed.

(** ** The interface of a format *)

(** A format: its lookup, the same lookup on the bytes of the image, the
    well-formedness [init] establishes, and the law that ties them. *)
Class LookupFormat (F R : Type) := {
  lf_device : F -> Z;
  lf_lookup {H} `{InputIo H} : F -> Z -> Z -> Z -> SM (InSt H) unit R;
  lf_ref : F -> Z -> Z -> bytes -> Z -> option R;
  lf_ok : F -> Z -> Prop;
  lf_computes {H} `{FlatInput H} f ssz cap img voff :
    lf_ok f ssz -> device_ok ssz cap img -> is_bytes img -> is_u64 voff ->
    computes (lf_device f) ssz img (lf_lookup f ssz cap voff) (lf_ref f ssz cap img voff)
}.

(** A client: any number of lookups, one after the other. *)
Section client.
Context {F R H : Type} `{LookupFormat F R} `{FlatInput H}.

Fixpoint lookups (f : F) (ssz cap : Z) (voffs : list Z) : SM (InSt H) unit (list R) :=
  match voffs with
  | [] => sret []
  | v :: rest =>
      let! r := lf_lookup f ssz cap v in
      let! rs := lookups f ssz cap rest in
      sret (r :: rs)
  end.

Lemma lookups_compute f ssz cap img voffs :
  lf_ok f ssz -> device_ok ssz cap img -> is_bytes img -> Forall is_u64 voffs ->
  computes (lf_device f) ssz img (lookups f ssz cap voffs) (mapM (lf_ref f ssz cap img) voffs).
Proof.
  intros Hf Hd Hb. induction 1 as [|v rest Hv _ IH]; cbn [lookups]; [apply computes_ret|].
  apply computes_bind; [by apply lf_computes|]. intros r _.
  apply computes_bind; [done|]. intros rs _. apply computes_ret.
Qed.

(** Opening an image, then looking up. *)
Definition open_and_lookup (init : SM (InSt H) unit F) (ssz cap : Z) (voffs : list Z)
  : SM (InSt H) unit (F * list R) :=
  let! st := init in
  let! rs := lookups st ssz cap voffs in
  sret (st, rs).

Lemma opened_lookups init (Opened : F -> Prop) (Unopened : Prop) dev ssz cap img voffs (s : InSt H) :
  device_ok ssz cap img -> is_bytes img -> Forall is_u64 voffs ->
  yields dev ssz img init Opened Unopened ->
  (forall st, Opened st -> lf_ok st ssz /\ lf_device st = dev) ->
  reader_ok dev ssz img s ->
  wp (open_and_lookup init ssz cap voffs)
    (fun r _ => Opened (fst r) /\ lf_ok (fst r) ssz /\
                mapM (lf_ref (fst r) ssz cap img) voffs = Some (snd r))
    (fun _ _ => responsive (in_host s) ->
       Unopened \/
       exists st voff, Opened st /\ lf_ok st ssz /\ voff ∈ voffs /\ is_u64 voff /\
                       lf_ref st ssz cap img voff = None) s.
Proof.
  intros Hd Hb Hvs Hi Hst Hs.
  assert (yields dev ssz img (open_and_lookup init ssz cap voffs)
    (fun r => Opened (fst r) /\ lf_ok (fst r) ssz /\ mapM (lf_ref (fst r) ssz cap img) voffs = Some (snd r))
    (Unopened \/ exists st voff, Opened st /\ lf_ok st ssz /\ voff ∈ voffs /\ is_u64 voff /\
                       lf_ref st ssz cap img voff = None)) as Hc.
  { eapply yields_bind; [exact Hi | |by left]. intros st Hst1. destruct (Hst st Hst1) as [Hok <-].
    eapply yields_bind; [by apply lookups_compute | |].
    - intros rs Hrs. by apply yields_ret.
    - intros Hn. right. destruct (mapM_None_elem _ _ Hn) as (voff & Hin & Hv). rewrite Forall_forall in Hvs.
      exists st, voff. split; [done|]. split; [done|]. split; [done|].
      split; [by apply Hvs, list_elem_of_In|done]. }
  eapply wp_mono; [by apply Hc| |].
  - intros r s' (_ & _ & Hr). exact Hr.
  - intros [] s' (_ & Hresp) Hh. by apply Hresp.
Qed.

End client.

(** ** Devices as vectors *)

Record VecInput : Type := mkVecInput { vi_images : list bytes }.

Definition vi_image (h : VecInput) (dev : Z) : bytes :=
  if 0 <=? dev then default [] (vi_images h !! Z.to_nat dev) else [].

#[global] Instance VecInput_io : InputIo VecInput := {
  input_read dev sec buf h :=
    match slice (vi_image h dev) (sec * blen buf) (sec * blen buf + blen buf) with
    | Some b => (true, b, h)
    | None => (false, buf, h)
    end
}.

#[global] Program Instance VecInput_flat : FlatInput VecInput := {
  image := vi_image;
  responsive _ := True
}.
Next Obligation.
  intros dev sec buf h Hsec. cbn. destruct (slice _ _ _) as [b|] eqn:Hb; [|done].
  pose proof (slice_blen _ _ _ _ Hb). split_and!; [done | lia | done].
Qed.
Next Obligation.
  intros dev sec buf h _ Hsec. cbn. destruct (slice _ _ _) as [b|] eqn:Hb; [done|].
  split; [done|]. intros Hin. pose proof (blen_nonneg buf).
  rewrite slice_Some_2 in Hb by nia. done.
Qed.

(** A fresh state over vectors is ready. *)
Lemma vec_ready h n a b dev ssz : ssz <= blen a -> ssz <= blen b ->
  reader_ok dev ssz (vi_image h dev) (InSt_new h n a b).
Proof. intros Ha Hb. split; [done|]. intros []; split; auto. Qed.
