(* ===== verification/Vdi.v ===== *)
(** The VDI reader ([src/src/crates/vdi/src/lib.rs]): header validation, [init]
    and the cached block-map lookup. *)

From stdpp Require Import base numbers list sets option.
From Stdlib Require Import ZArith Lia.
From S2P Require Import Prelude Bytes ExecBytes CachedRead.

(** ** Definitions *)

Definition HEADER_SIZE : Z := 512.
Definition SIGNATURE_OFFSET : Z := 0x40.
Definition VERSION_OFFSET : Z := 0x44.
Definition IMAGE_TYPE_OFFSET : Z := 0x4c.
Definition OFFSET_BMAP_OFFSET : Z := 0x154.
Definition OFFSET_DATA_OFFSET : Z := 0x158.
Definition SECTOR_SIZE_OFFSET : Z := 0x168.
Definition DISK_SIZE_OFFSET : Z := 0x170.
Definition BLOCK_SIZE_OFFSET : Z := 0x178.
Definition BLOCK_EXTRA_OFFSET : Z := 0x17c.
Definition BLOCKS_IN_IMAGE_OFFSET : Z := 0x180.
Definition UUID_LINK_OFFSET : Z := 0x1a8.
Definition UUID_PARENT_OFFSET : Z := 0x1b8.

Definition VDI_SIGNATURE : Z := 0xbeda107f.
Definition VDI_VERSION_1_1 : Z := 0x00010001.
Definition VDI_SECTOR_SIZE : Z := 512.
Definition VDI_BLOCK_SIZE : Z := 1048576.
Definition VDI_IMAGE_TYPE_STATIC : Z := 2.
Definition VDI_BLOCKS_IN_IMAGE_MAX : Z := 536870784.
Definition VDI_DISK_SIZE_MAX : Z := 562949819203584.
Definition VDI_BLOCK_UNALLOCATED : Z := 0xffffffff.
Definition VDI_BLOCK_DISCARDED : Z := 0xfffffffe.

Record VdiHeader : Type := mkVdiHeader {
  signature : Z;
  version : Z;
  image_type : Z;
  hdr_offset_bmap : Z;
  hdr_offset_data : Z;
  hdr_sector_size : Z;
  hdr_disk_size : Z;
  hdr_block_size : Z;
  block_extra : Z;
  hdr_blocks_in_image : Z
}.

Definition round_up_512 (value : Z) : option Z :=
  match checked_add value 511 with
  | Some v => Some (Z.land v (not64 511))
  | None => None
  end.

Definition is_all_zero (l : bytes) : bool := forallb (fun b => b =? 0) l.

Definition parse (buf : bytes) : outcome unit VdiHeader :=
  if blen buf <? HEADER_SIZE then Err tt
  else
  let? signature := le_u32 buf SIGNATURE_OFFSET in
  if negb (signature =? VDI_SIGNATURE) then Err tt
  else
  let? version := le_u32 buf VERSION_OFFSET in
  if negb (version =? VDI_VERSION_1_1) then Err tt
  else
  let? raw_disk_size := le_u64 buf DISK_SIZE_OFFSET in
  if VDI_DISK_SIZE_MAX <? raw_disk_size then Err tt
  else
  let? disk_size := ok_or (round_up_512 raw_disk_size) tt in
  let? offset_bmap := le_u32 buf OFFSET_BMAP_OFFSET in
  if negb (is_multiple_of offset_bmap VDI_SECTOR_SIZE) then Err tt
  else
  let? offset_data := le_u32 buf OFFSET_DATA_OFFSET in
  if negb (is_multiple_of offset_data VDI_SECTOR_SIZE) then Err tt
  else
  let? sector_size := le_u32 buf SECTOR_SIZE_OFFSET in
  if negb (sector_size =? VDI_SECTOR_SIZE) then Err tt
  else
  let? block_size := le_u32 buf BLOCK_SIZE_OFFSET in
  if negb (block_size =? VDI_BLOCK_SIZE) then Err tt
  else
  let? blocks_in_image := le_u32 buf BLOCKS_IN_IMAGE_OFFSET in
  if VDI_BLOCKS_IN_IMAGE_MAX <? blocks_in_image then Err tt
  else
  let? geometry_bytes := ok_or (checked_mul blocks_in_image block_size) tt in
  if geometry_bytes <? disk_size then Err tt
  else
  let? link := or_panic (slice buf UUID_LINK_OFFSET (UUID_LINK_OFFSET + 16)) in
  if negb (is_all_zero link) then Err tt
  else
  let? parent := or_panic (slice buf UUID_PARENT_OFFSET (UUID_PARENT_OFFSET + 16)) in
  if negb (is_all_zero parent) then Err tt
  else
  let? image_type := le_u32 buf IMAGE_TYPE_OFFSET in
  let? block_extra := le_u32 buf BLOCK_EXTRA_OFFSET in
  Ok (mkVdiHeader signature version image_type offset_bmap offset_data sector_size
        disk_size block_size block_extra blocks_in_image).

Definition is_static (h : VdiHeader) : bool := image_type h =? VDI_IMAGE_TYPE_STATIC.

Inductive VdiBlockLookup : Type :=
| Unallocated
| Allocated (host_byte_offset : Z).

#[global] Instance VdiBlockLookup_eq_dec : EqDecision VdiBlockLookup.
Proof. solve_decision. Defined.

(** The fields of [VdiState] that never change; its caches are in [InSt]. *)
Record VdiState : Type := mkVdiState {
  device_idx : Z;
  offset_bmap : Z;
  offset_data : Z;
  block_size : Z;
  blocks_in_image : Z;
  disk_size : Z
}.

Section reader.
Context {H : Type} `{InputIo H}.

Definition init (device_idx sector_size : Z) : SM (InSt H) unit VdiState :=
  let! header_sector := read_header device_idx sector_size in
  let! header := slift (parse header_sector) in
  let! bmap_bytes := or_none (checked_mul (hdr_blocks_in_image header) 4) in
  let! bmap_end := or_none (checked_add (hdr_offset_bmap header) bmap_bytes) in
  let! _ := or_none (checked_add bmap_end (wsub sector_size 1)) in
  sret (mkVdiState device_idx (hdr_offset_bmap header) (hdr_offset_data header)
          (hdr_block_size header) (hdr_blocks_in_image header) (hdr_disk_size header)).

Definition block_lookup (st : VdiState) (sector_size input_capacity virtual_offset : Z)
  : SM (InSt H) unit VdiBlockLookup :=
  let! block_idx := slift (udiv virtual_offset (block_size st)) in
  if blocks_in_image st <=? block_idx then sret Unallocated
  else
  let! four := or_none (checked_mul block_idx 4) in
  let! entry_offset := or_none (checked_add (offset_bmap st) four) in
  let! entry := read_u32_le_cached CacheA (device_idx st) entry_offset sector_size input_capacity in
  if VDI_BLOCK_DISCARDED <=? entry then sret Unallocated
  else
  let! block_host_offset := or_none (checked_mul entry (block_size st)) in
  let! block_start := or_none (checked_add (offset_data st) block_host_offset) in
  let! offset_in_block := slift (urem virtual_offset (block_size st)) in
  let! host := or_none (checked_add block_start offset_in_block) in
  sret (Allocated host).

End reader.

(** ** The header *)

(** What a parsed header promises, beyond the values it copies. *)
Record header_ok (h : VdiHeader) : Prop := {
  ho_bmap : is_u32 (hdr_offset_bmap h) /\ hdr_offset_bmap h mod 512 = 0;
  ho_data : is_u32 (hdr_offset_data h) /\ hdr_offset_data h mod 512 = 0;
  ho_sector : hdr_sector_size h = 512;
  ho_block : hdr_block_size h = VDI_BLOCK_SIZE;
  ho_blocks : 0 <= hdr_blocks_in_image h <= VDI_BLOCKS_IN_IMAGE_MAX;
  ho_size : 0 <= hdr_disk_size h <= hdr_blocks_in_image h * VDI_BLOCK_SIZE /\ hdr_disk_size h mod 512 = 0
}.

Lemma vdi_round_up_spec v : is_u64 v ->
  match round_up_512 v with
  | Some r => v <= r < v + 512 /\ r mod 512 = 0
  | None => u64_max < v + 511
  end.
Proof.
  intros Hv. unfold round_up_512, checked_add. unfold is_u64, u64_max in *.
  destruct (Z.leb_spec (v + 511) 18446744073709551615); [|lia].
  assert (Z.land (v + 511) (not64 511) = (v + 511) / 512 * 512) as ->.
  { change (not64 511) with (Z.ldiff (Z.ones 64) (Z.ones 9)).
    rewrite Z.ldiff_land, Z.land_assoc, Z.land_ones, Z.mod_small by lia.
    rewrite <- Z.ldiff_land, Z.ldiff_ones_r by lia.
    rewrite Z.shiftl_mul_pow2, Z.shiftr_div_pow2 by lia. done. }
  split; [|apply Z.mod_mul; lia].
  pose proof (Z.div_mod (v + 511) 512 ltac:(lia)). pose proof (Z.mod_pos_bound (v + 511) 512 ltac:(lia)). lia.
Qed.

Lemma vdi_parse_spec buf : is_bytes buf ->
  match parse buf with
  | Ok h => header_ok h
  | Err _ => True
  | Panic | OutOfFuel => False
  end.
Proof.
  intros Hb. unfold parse. change HEADER_SIZE with 512. destruct (Z.ltb_spec (blen buf) 512) as [|Hlen]; [done|].
  buf_field Hb. destruct (v =? _); [|done]. cbn [negb].
  buf_field Hb. destruct (v0 =? _); [|done]. cbn [negb].
  buf_field Hb. destruct (_ <? v1) eqn:Hmax; [done|].
  pose proof (vdi_round_up_spec v1 Hv1) as Hr. destruct (round_up_512 v1) as [ds|]; [|done]. cbn [ok_or obind].
  buf_field Hb. destruct (is_multiple_of v2 _) eqn:Hm2; [|done]. cbn [negb].
  buf_field Hb. destruct (is_multiple_of v3 _) eqn:Hm3; [|done]. cbn [negb].
  buf_field Hb. destruct (Z.eqb_spec v4 VDI_SECTOR_SIZE) as [Hs|]; [|done]. cbn [negb].
  buf_field Hb. destruct (Z.eqb_spec v5 VDI_BLOCK_SIZE) as [Hbs|]; [|done]. cbn [negb].
  buf_field Hb. destruct (Z.ltb_spec VDI_BLOCKS_IN_IMAGE_MAX v6) as [|Hbl]; [done|].
  destruct (checked_mul v6 v5) as [gb|] eqn:Hgb; [|done]. cbn [ok_or obind].
  apply checked_mul_Some in Hgb as [-> _].
  destruct (Z.ltb_spec (v6 * v5) ds) as [|Hds]; [done|].
  change UUID_LINK_OFFSET with 424. change UUID_PARENT_OFFSET with 440.
  destruct (slice_of buf 424 (424 + 16)) as (l & -> & _); [lia | lia |]. cbn [or_panic obind].
  destruct (is_all_zero l); [|done]. cbn [negb].
  destruct (slice_of buf 440 (440 + 16)) as (p & -> & _); [lia | lia |]. cbn [or_panic obind].
  destruct (is_all_zero p); [|done]. cbn [negb].
  do 2 buf_field Hb. unfold is_multiple_of, is_u32, is_u64 in *. cbn [VDI_SECTOR_SIZE Z.eqb] in *.
  bool_to_prop. subst v4 v5. constructor; cbn; try done; lia.
Qed.

(** ** The lookup *)

(** What [init] establishes. *)
Record state_ok (st : VdiState) (ssz : Z) : Prop := {
  so_bmap : is_u32 (offset_bmap st) /\ offset_bmap st mod 512 = 0;
  so_data : is_u32 (offset_data st) /\ offset_data st mod 512 = 0;
  so_block : block_size st = VDI_BLOCK_SIZE;
  so_blocks : 0 <= blocks_in_image st <= VDI_BLOCKS_IN_IMAGE_MAX;
  so_size : 0 <= disk_size st <= blocks_in_image st * VDI_BLOCK_SIZE /\ disk_size st mod 512 = 0
}.

(** The lookup on the bytes of the image: no cache, no overflow check. *)
Definition block_ref (st : VdiState) (ssz cap : Z) (img : bytes) (voff : Z) : option VdiBlockLookup :=
  let b := voff / VDI_BLOCK_SIZE in
  if blocks_in_image st <=? b then Some Unallocated
  else
    entry ← direct_read ssz cap img 4 le_val (offset_bmap st + 4 * b);
    Some (if VDI_BLOCK_DISCARDED <=? entry then Unallocated
          else Allocated (offset_data st + entry * VDI_BLOCK_SIZE + voff mod VDI_BLOCK_SIZE)).

(** [init] on the bytes of the image. *)
Definition init_ref (dev ssz : Z) (img : bytes) : option VdiState :=
  buf ← header_ref ssz img;
  match parse buf with
  | Ok h => Some (mkVdiState dev (hdr_offset_bmap h) (hdr_offset_data h) (hdr_block_size h)
                    (hdr_blocks_in_image h) (hdr_disk_size h))
  | _ => None
  end.

Lemma vdi_init_ref_ok dev ssz img st : is_bytes img -> 0 <= ssz <= MAX_SECTOR_SIZE ->
  init_ref dev ssz img = Some st -> state_ok st ssz /\ device_idx st = dev.
Proof.
  intros Hb Hz. unfold init_ref. intros (buf & Hbuf & Hp)%bind_Some.
  destruct (header_ref_spec _ _ _ Hb Hz Hbuf) as (Hbb & _).
  pose proof (vdi_parse_spec buf Hbb) as Hs. destruct (parse buf) as [h|[]| |]; try done.
  injection Hp as <-. destruct Hs. done.
Qed.

Section correct.
Context {H : Type} `{FlatInput H} (dev ssz cap : Z) (img : bytes).
Context (Hdev : device_ok ssz cap img) (Hb : is_bytes img).

Lemma vdi_init_computes : computes dev ssz img (init dev ssz) (init_ref dev ssz img).
Proof.
  pose proof (do_ssz _ _ _ Hdev) as Hz. unfold MAX_SECTOR_SIZE in Hz.
  apply (computes_bind _ _ _ _ _ (header_ref ssz img)); [by eapply computes_header|].
  intros buf Hbuf. destruct (header_ref_spec ssz img buf Hb ltac:(unfold MAX_SECTOR_SIZE; lia) Hbuf) as (Hbb & _).
  pose proof (vdi_parse_spec buf Hbb) as Hs. destruct (parse buf) as [h|[]| |]; try done.
  destruct Hs as [[Hbm _] _ _ _ Hbl _]. unfold is_u32, u32_max in Hbm. unfold VDI_BLOCKS_IN_IMAGE_MAX in Hbl.
  eapply computes_ok; [done|]. eapply computes_some; [apply checked_mul_eq; unfold u64_max; lia|].
  eapply computes_some; [apply checked_add_eq; unfold u64_max; lia|].
  eapply computes_some; [|apply computes_ret].
  rewrite wsub_small by (unfold u64_max; lia). apply checked_add_eq. unfold u64_max. lia.
Qed.

Lemma vdi_block_computes st voff : state_ok st ssz -> device_idx st = dev -> is_u64 voff ->
  computes dev ssz img (block_lookup st ssz cap voff) (block_ref st ssz cap img voff).
Proof.
  intros [[Hbm _] [Hda _] Hbs Hbl _] Hdx Hv. unfold block_lookup, block_ref.
  unfold is_u64, is_u32, u32_max in *. rewrite Hbs, Hdx.
  assert (forall E x, udiv (E := E) x VDI_BLOCK_SIZE = Ok (x / VDI_BLOCK_SIZE) /\
                      urem (E := E) x VDI_BLOCK_SIZE = Ok (x mod VDI_BLOCK_SIZE)) as Hdiv by done.
  pose proof (Z.mod_pos_bound voff VDI_BLOCK_SIZE ltac:(done)) as Hm.
  pose proof (Z.div_pos voff VDI_BLOCK_SIZE ltac:(lia) ltac:(done)) as Hd.
  eapply computes_ok; [apply Hdiv|]. cbv zeta.
  apply computes_if; intros Hlt; [apply computes_ret|]. bool_to_prop.
  unfold VDI_BLOCKS_IN_IMAGE_MAX in Hbl. rewrite (Z.mul_comm 4).
  eapply computes_some; [apply checked_mul_eq; unfold u64_max; lia|].
  eapply computes_some; [apply checked_add_eq; unfold u64_max; lia|].
  apply computes_bind; [apply computes_read; [done | unfold is_u64, u64_max; lia | lia]|].
  intros entry He. pose proof (direct_read_bound _ _ _ _ _ _ _ Hb le_val_bound He) as Hent.
  change (256 ^ 4) with 4294967296 in Hent.
  destruct (VDI_BLOCK_DISCARDED <=? entry); [apply computes_ret|].
  change VDI_BLOCK_SIZE with 1048576 in *.
  eapply computes_some; [apply checked_mul_eq; unfold u64_max; lia|].
  eapply computes_some; [apply checked_add_eq; unfold u64_max; lia|].
  eapply computes_ok; [apply Hdiv|].
  eapply computes_some; [apply checked_add_eq; unfold u64_max; lia|]. apply computes_ret.
Qed.

End correct.

#[global] Program Instance Vdi_format : LookupFormat VdiState VdiBlockLookup := {
  lf_device := device_idx;
  lf_lookup H _ := block_lookup;
  lf_ref := block_ref;
  lf_ok := state_ok
}.
Next Obligation. intros. by apply vdi_block_computes. Qed.

Lemma vdi_block_ref_None st ssz cap img voff : device_ok ssz cap img -> ssz mod 512 = 0 ->
  state_ok st ssz -> is_u64 voff -> block_ref st ssz cap img voff = None ->
  voff / VDI_BLOCK_SIZE < blocks_in_image st /\
  cap <= (offset_bmap st + 4 * (voff / VDI_BLOCK_SIZE)) / ssz.
Proof.
  intros Hdev Hz [[Hbm Hal] _ _ _ _] Hv. unfold block_ref. unfold is_u64, is_u32 in *.
  pose proof (Z.div_pos voff VDI_BLOCK_SIZE ltac:(lia) ltac:(done)). set (b := voff / VDI_BLOCK_SIZE) in *.
  destruct (Z.leb_spec (blocks_in_image st) b); [done|]. intros [Hn|(e & _ & [=])]%bind_None.
  split; [done|]. pose proof (do_ssz _ _ _ Hdev).
  destruct (direct_read_None ssz cap img 4 le_val (offset_bmap st + 4 * b) Hdev ltac:(lia) ltac:(lia) Hn) as [Hs|Hc]; [|done].
  pose proof (aligned_fits ssz 4 (offset_bmap st + 4 * b) ltac:(lia) ltac:(lia)
    (mod_coarser ssz 128 4 ltac:(lia) ltac:(lia) Hz)
    (mod_add_mul _ b 4 ltac:(lia) (mod_coarser _ 128 4 ltac:(lia) ltac:(lia) Hal))). lia.
Qed.

(** ** Properties *)

(** Opening a VDI image and looking up any sequence of guest offsets, on a flat
    device with sectors of a multiple of 512 bytes and whatever the two sector
    caches hold, never panics or overflows; the header accepted is well formed
    (block map and data 512-aligned below 4 GiB, 1 MiB blocks, size rounded to
    sectors and inside the blocks), and every answer is the one read directly
    from the bytes of the image: unallocated past the block map or at an
    unallocated or discarded entry, otherwise the data offset plus whole blocks
    plus the offset in the block.  On a device without read errors it fails only
    for an invalid header or an entry of the block map beyond the device. *)
Theorem vdi_reads_exact {H : Type} `{FlatInput H} (dev ssz cap : Z) (img : bytes) (voffs : list Z)
    (s : InSt H) :
  device_ok ssz cap img -> is_bytes img -> ssz mod 512 = 0 -> Forall is_u64 voffs ->
  reader_ok dev ssz img s ->
  wp (open_and_lookup (init dev ssz) ssz cap voffs)
    (fun r _ => init_ref dev ssz img = Some (fst r) /\ state_ok (fst r) ssz /\
                mapM (block_ref (fst r) ssz cap img) voffs = Some (snd r))
    (fun _ _ => responsive (in_host s) ->
       init_ref dev ssz img = None \/
       exists st voff, init_ref dev ssz img = Some st /\ voff ∈ voffs /\
         voff / VDI_BLOCK_SIZE < blocks_in_image st /\
         cap <= (offset_bmap st + 4 * (voff / VDI_BLOCK_SIZE)) / ssz) s.
Proof.
  intros Hdev Hb Hz Hvs Hs. pose proof (do_ssz _ _ _ Hdev) as Hr.
  eapply wp_mono; [apply (opened_lookups _ (fun st => init_ref dev ssz img = Some st) (init_ref dev ssz img = None) dev ssz cap img); try done | by intros |].
  - by eapply vdi_init_computes.
  - intros st Hst. exact (vdi_init_ref_ok dev ssz img st Hb ltac:(lia) Hst).
  - intros ? ? Hfail Hresp. destruct (Hfail Hresp) as [Hn|(st & voff & Hst & Hok & Hin & Hv & Hn)]; [by left|right].
    exists st, voff. destruct (vdi_block_ref_None st ssz cap img voff Hdev Hz Hok Hv Hn). done.
Qed.

(** A dynamic image of four blocks: the second allocated, the third discarded. *)
Definition demo_vdi : bytes :=
  filled 64 0 ++ rev (be_bytes 4 VDI_SIGNATURE) ++ rev (be_bytes 4 VDI_VERSION_1_1) ++ filled 4 0 ++
  rev (be_bytes 4 1) ++ filled 260 0 ++ rev (be_bytes 4 512) ++ rev (be_bytes 4 1024) ++ filled 12 0 ++
  rev (be_bytes 4 512) ++ filled 4 0 ++ rev (be_bytes 8 4194000) ++ rev (be_bytes 4 1048576) ++
  filled 4 0 ++ rev (be_bytes 4 4) ++ filled 124 0 ++
  rev (be_bytes 4 0xffffffff) ++ rev (be_bytes 4 3) ++ rev (be_bytes 4 0xfffffffe) ++ rev (be_bytes 4 7) ++
  filled 496 0.

Definition demo_vdi_device : InSt VecInput :=
  InSt_new (mkVecInput [demo_vdi]) 0 (filled 512 0) (filled 512 0).

Lemma vdi_reads_exact_witness :
  (open_and_lookup (init 0 512) 512 2 [1048580; 2097152; 5; 9000000] demo_vdi_device).1 =
    Ok (mkVdiState 0 512 1024 1048576 4 4194304, [Allocated 3146756; Unallocated; Unallocated; Unallocated]) /\
  wp (open_and_lookup (init 0 512) 512 2 [1048580; 2097152; 5; 9000000])
    (fun r _ => init_ref 0 512 demo_vdi = Some (fst r) /\ state_ok (fst r) 512 /\
                mapM (block_ref (fst r) 512 2 demo_vdi) [1048580; 2097152; 5; 9000000] = Some (snd r))
    (fun _ _ => responsive (in_host demo_vdi_device) ->
       init_ref 0 512 demo_vdi = None \/
       exists st voff, init_ref 0 512 demo_vdi = Some st /\ voff ∈ [1048580; 2097152; 5; 9000000] /\
         voff / VDI_BLOCK_SIZE < blocks_in_image st /\
         2 <= (offset_bmap st + 4 * (voff / VDI_BLOCK_SIZE)) / 512) demo_vdi_device.
Proof.
  split; [vm_compute; reflexivity|].
  apply (vdi_reads_exact 0 512 2 demo_vdi [1048580; 2097152; 5; 9000000] demo_vdi_device).
  - constructor; try split; vm_compute; discriminate || reflexivity.
  - apply is_bytesb_true. vm_compute. reflexivity.
  - reflexivity.
  - repeat constructor; vm_compute; discriminate.
  - by apply vec_ready.
Defined.
