(* ===== verification/Parallels.v ===== *)
(** The Parallels reader ([src/src/crates/parallels/src/lib.rs]): header validation
    for both magics, [init] and the cached BAT lookup. *)

From stdpp Require Import base numbers list sets option.
From Stdlib Require Import ZArith Lia.
From S2P Require Import Prelude Bytes ExecBytes CachedRead.

(** ** Definitions *)

Definition HEADER_SIZE : Z := 64.
Definition MAGIC_OFFSET : Z := 0.
Definition VERSION_OFFSET : Z := 16.
Definition TRACKS_OFFSET : Z := 28.
Definition BAT_ENTRIES_OFFSET : Z := 32.
Definition NB_SECTORS_OFFSET : Z := 36.
Definition INUSE_OFFSET : Z := 44.
Definition DATA_OFF_OFFSET : Z := 48.
Definition EXT_OFF_OFFSET : Z := 56.

Definition PARALLELS_TRACKS_MAX : Z := 4186127.
Definition PARALLELS_BAT_ENTRIES_MAX : Z := 0x3fffffff.
Definition PARALLELS_INUSE_DIRTY : Z := 0x746f6e59.
Definition SECTOR_BYTES : Z := 512.

(** ["WithoutFreeSpace"], ["WithouFreSpacExt"] and the only version
    ([shared/src/format_detection.rs]). *)
Definition PARALLELS_MAGIC_V1 : bytes := [87; 105; 116; 104; 111; 117; 116; 70; 114; 101; 101; 83; 112; 97; 99; 101].
Definition PARALLELS_MAGIC_EXT : bytes := [87; 105; 116; 104; 111; 117; 70; 114; 101; 83; 112; 97; 99; 69; 120; 116].
Definition PARALLELS_VERSION : Z := 2.

Record ParallelsHeader : Type := mkParallelsHeader {
  is_v1 : bool;
  tracks : Z;
  hdr_bat_entries : Z;
  hdr_cluster_size : Z;
  hdr_virtual_size : Z;
  hdr_off_multiplier : Z;
  inuse : Z;
  data_off : Z
}.

Definition parse (buf : bytes) : outcome unit ParallelsHeader :=
  if blen buf <? HEADER_SIZE then Err tt
  else
  let? magic := or_panic (slice buf MAGIC_OFFSET (MAGIC_OFFSET + 16)) in
  let is_v1 := bool_decide (magic = PARALLELS_MAGIC_V1) in
  let is_ext := bool_decide (magic = PARALLELS_MAGIC_EXT) in
  if negb is_v1 && negb is_ext then Err tt
  else
  let? version := le_u32 buf VERSION_OFFSET in
  if negb (version =? PARALLELS_VERSION) then Err tt
  else
  let? tracks := le_u32 buf TRACKS_OFFSET in
  if tracks =? 0 then Err tt
  else if PARALLELS_TRACKS_MAX <? tracks then Err tt
  else
  let? bat_entries := le_u32 buf BAT_ENTRIES_OFFSET in
  if PARALLELS_BAT_ENTRIES_MAX <? bat_entries then Err tt
  else
  let? ext_off := le_u64 buf EXT_OFF_OFFSET in
  if negb (ext_off =? 0) then Err tt
  else
  let? raw_nb_sectors := le_u64 buf NB_SECTORS_OFFSET in
  let nb_sectors := if is_v1 then Z.land raw_nb_sectors 0xffffffff else raw_nb_sectors in
  let? virtual_size := ok_or (checked_mul nb_sectors SECTOR_BYTES) tt in
  let? cluster_size := ok_or (checked_mul tracks SECTOR_BYTES) tt in
  let off_multiplier := if is_v1 then 1 else tracks in
  let? inuse := le_u32 buf INUSE_OFFSET in
  let? data_off := le_u32 buf DATA_OFF_OFFSET in
  Ok (mkParallelsHeader is_v1 tracks bat_entries cluster_size virtual_size off_multiplier inuse data_off).

Definition is_dirty (h : ParallelsHeader) : bool := inuse h =? PARALLELS_INUSE_DIRTY.

Inductive ParallelsBlockLookup : Type :=
| Unallocated
| Allocated (host_byte_offset : Z).

#[global] Instance ParallelsBlockLookup_eq_dec : EqDecision ParallelsBlockLookup.
Proof. solve_decision. Defined.

(** The fields of [ParallelsState] that never change. *)
Record ParallelsState : Type := mkParallelsState {
  device_idx : Z;
  cluster_size : Z;
  bat_entries : Z;
  off_multiplier : Z;
  virtual_size : Z
}.

Section reader.
Context {H : Type} `{InputIo H}.

Definition init (device_idx sector_size : Z) : SM (InSt H) unit ParallelsState :=
  let! header_sector := read_header device_idx sector_size in
  let! header := slift (parse header_sector) in
  let! bat_bytes := or_none (checked_mul (hdr_bat_entries header) 4) in
  let! bat_end := or_none (checked_add HEADER_SIZE bat_bytes) in
  let! _ := or_none (checked_add bat_end (wsub sector_size 1)) in
  sret (mkParallelsState device_idx (hdr_cluster_size header) (hdr_bat_entries header)
          (hdr_off_multiplier header) (hdr_virtual_size header)).

Definition block_lookup (st : ParallelsState) (sector_size input_capacity virtual_offset : Z)
  : SM (InSt H) unit ParallelsBlockLookup :=
  let! cluster_idx := slift (udiv virtual_offset (cluster_size st)) in
  if bat_entries st <=? cluster_idx then sret Unallocated
  else
  let! four := or_none (checked_mul cluster_idx 4) in
  let! entry_offset := or_none (checked_add HEADER_SIZE four) in
  let! entry := read_u32_le_cached CacheA (device_idx st) entry_offset sector_size input_capacity in
  if entry =? 0 then sret Unallocated
  else
  let! offset_in_cluster := slift (urem virtual_offset (cluster_size st)) in
  let! units := or_none (checked_mul entry (off_multiplier st)) in
  let! byte_off := or_none (checked_mul units SECTOR_BYTES) in
  let! host_byte_offset := or_none (checked_add byte_off offset_in_cluster) in
  sret (Allocated host_byte_offset).

End reader.

(** ** The header *)

(** What a parsed header promises: clusters of whole sectors, a BAT that can be
    addressed, and the unit of BAT entries that goes with the magic. *)
Record header_ok (h : ParallelsHeader) : Prop := {
  ho_tracks : 0 < tracks h <= PARALLELS_TRACKS_MAX;
  ho_cluster : hdr_cluster_size h = tracks h * 512;
  ho_entries : 0 <= hdr_bat_entries h <= PARALLELS_BAT_ENTRIES_MAX;
  ho_mult : hdr_off_multiplier h = if is_v1 h then 1 else tracks h;
  ho_size : is_u64 (hdr_virtual_size h) /\ hdr_virtual_size h mod 512 = 0 /\
            (is_v1 h = true -> hdr_virtual_size h < 2 ^ 41)
}.

Lemma parallels_parse_spec buf : is_bytes buf ->
  match parse buf with
  | Ok h => header_ok h
  | Err _ => True
  | Panic | OutOfFuel => False
  end.
Proof.
  intros Hb. unfold parse. change HEADER_SIZE with 64. destruct (Z.ltb_spec (blen buf) 64) as [|Hlen]; [done|].
  change MAGIC_OFFSET with 0. destruct (slice_of buf 0 (0 + 16)) as (m & -> & _); [lia | lia |].
  cbn [or_panic obind]. destruct (negb _ && negb _); [done|]. set (v1 := bool_decide (m = _)).
  buf_field Hb. destruct (_ =? PARALLELS_VERSION); [|done]. cbn [negb].
  buf_field Hb. destruct (Z.eqb_spec v0 0); [done|]. destruct (Z.ltb_spec PARALLELS_TRACKS_MAX v0); [done|].
  buf_field Hb. destruct (Z.ltb_spec PARALLELS_BAT_ENTRIES_MAX v2); [done|].
  buf_field Hb. destruct (v3 =? 0); [|done]. cbn [negb].
  buf_field Hb. set (nb := if v1 then _ else _).
  assert (0 <= nb /\ (v1 = true -> nb < 4294967296)) as [Hnb Hnb1].
  { unfold nb. unfold is_u64 in *. destruct v1; [|split; [lia|done]].
    change 0xffffffff with (Z.ones 32). rewrite Z.land_ones by lia.
    pose proof (Z.mod_pos_bound v4 (2 ^ 32) ltac:(lia)). split; [lia|]. intros _. lia. }
  clearbody nb. destruct (checked_mul nb SECTOR_BYTES) as [vs|] eqn:Hvs; [|done]. cbn [ok_or obind].
  apply checked_mul_Some in Hvs as [-> Hvs].
  destruct (checked_mul v0 SECTOR_BYTES) as [c|] eqn:Hc; [|done]. cbn [ok_or obind].
  apply checked_mul_Some in Hc as [-> _]. do 2 buf_field Hb.
  unfold SECTOR_BYTES, is_u64, is_u32 in *. constructor; cbn; try done; try lia.
  split; [unfold is_u64; lia|]. split; [by rewrite Z.mod_mul by lia|]. intros Hone. specialize (Hnb1 Hone). lia.
Qed.

(** ** The lookup *)

(** What [init] establishes. *)
Record state_ok (st : ParallelsState) (ssz : Z) : Prop := {
  so_cluster : exists tracks, 0 < tracks <= PARALLELS_TRACKS_MAX /\ cluster_size st = tracks * 512 /\
                 (off_multiplier st = 1 \/ off_multiplier st = tracks);
  so_entries : 0 <= bat_entries st <= PARALLELS_BAT_ENTRIES_MAX;
  so_size : is_u64 (virtual_size st)
}.

(** The lookup on the bytes of the image: no cache, no overflow check. *)
Definition block_ref (st : ParallelsState) (ssz cap : Z) (img : bytes) (voff : Z)
  : option ParallelsBlockLookup :=
  let c := voff / cluster_size st in
  if bat_entries st <=? c then Some Unallocated
  else
    entry ← direct_read ssz cap img 4 le_val (64 + 4 * c);
    Some (if entry =? 0 then Unallocated
          else Allocated (entry * off_multiplier st * 512 + voff mod cluster_size st)).

(** [init] on the bytes of the image. *)
Definition init_ref (dev ssz : Z) (img : bytes) : option ParallelsState :=
  buf ← header_ref ssz img;
  match parse buf with
  | Ok h => Some (mkParallelsState dev (hdr_cluster_size h) (hdr_bat_entries h) (hdr_off_multiplier h)
                    (hdr_virtual_size h))
  | _ => None
  end.

Lemma parallels_init_ref_ok dev ssz img st : is_bytes img -> 0 <= ssz <= MAX_SECTOR_SIZE ->
  init_ref dev ssz img = Some st -> state_ok st ssz /\ device_idx st = dev.
Proof.
  intros Hb Hz. unfold init_ref. intros (buf & Hbuf & Hp)%bind_Some.
  destruct (header_ref_spec _ _ _ Hb Hz Hbuf) as (Hbb & _).
  pose proof (parallels_parse_spec buf Hbb) as Hs. destruct (parse buf) as [h|[]| |]; try done.
  injection Hp as <-. destruct Hs as [Ht Hc He Hm (Hs & _)]. split; [|done]. constructor; cbn; try done.
  exists (tracks h). split_and!; [lia | lia | done |]. rewrite Hm. destruct (is_v1 h); auto.
Qed.

Section correct.
Context {H : Type} `{FlatInput H} (dev ssz cap : Z) (img : bytes).
Context (Hdev : device_ok ssz cap img) (Hb : is_bytes img).

Lemma parallels_init_computes : computes dev ssz img (init dev ssz) (init_ref dev ssz img).
Proof.
  pose proof (do_ssz _ _ _ Hdev) as Hz. unfold MAX_SECTOR_SIZE in Hz.
  apply (computes_bind _ _ _ _ _ (header_ref ssz img)); [by eapply computes_header|].
  intros buf Hbuf. destruct (header_ref_spec ssz img buf Hb ltac:(unfold MAX_SECTOR_SIZE; lia) Hbuf) as (Hbb & _).
  pose proof (parallels_parse_spec buf Hbb) as Hs. destruct (parse buf) as [h|[]| |]; try done.
  destruct Hs as [_ _ He _ _]. unfold PARALLELS_BAT_ENTRIES_MAX in He.
  eapply computes_ok; [done|]. eapply computes_some; [apply checked_mul_eq; unfold u64_max; lia|].
  eapply computes_some; [apply checked_add_eq; unfold u64_max, HEADER_SIZE; lia|].
  eapply computes_some; [|apply computes_ret].
  rewrite wsub_small by (unfold u64_max; lia). apply checked_add_eq. unfold u64_max, HEADER_SIZE. lia.
Qed.

Lemma parallels_block_computes st voff : state_ok st ssz -> device_idx st = dev -> is_u64 voff ->
  computes dev ssz img (block_lookup st ssz cap voff) (block_ref st ssz cap img voff).
Proof.
  intros [(t & Ht & Hcs & Hmult) He _] Hdx Hv. unfold block_lookup, block_ref. unfold is_u64 in *. rewrite Hdx.
  unfold PARALLELS_TRACKS_MAX in Ht. unfold PARALLELS_BAT_ENTRIES_MAX in He.
  set (cs := cluster_size st) in *. set (m := off_multiplier st) in *.
  pose proof (Z.mod_pos_bound voff cs ltac:(lia)) as Hm.
  pose proof (Z.div_pos voff cs ltac:(lia) ltac:(lia)) as Hd.
  eapply computes_ok; [unfold udiv; rewrite (proj2 (Z.eqb_neq cs 0)) by lia; reflexivity|]. cbv zeta.
  apply computes_if; intros Hlt; [apply computes_ret|]. bool_to_prop. rewrite (Z.mul_comm 4).
  eapply computes_some; [apply checked_mul_eq; unfold u64_max; lia|].
  eapply computes_some; [apply checked_add_eq; unfold u64_max, HEADER_SIZE; lia|].
  apply computes_bind; [apply computes_read; [done | unfold is_u64, u64_max, HEADER_SIZE; lia | lia]|].
  intros entry Hent. apply direct_read_bound in Hent; [|done|apply le_val_bound].
  change (256 ^ 4) with 4294967296 in Hent.
  destruct (entry =? 0); [apply computes_ret|].
  eapply computes_ok; [unfold urem; rewrite (proj2 (Z.eqb_neq cs 0)) by lia; reflexivity|].
  assert (entry * m <= 4294967295 * 4186127) as Hem by (apply Z.mul_le_mono_nonneg; lia).
  eapply computes_some; [apply checked_mul_eq; unfold u64_max; lia|]. unfold SECTOR_BYTES.
  eapply computes_some; [apply checked_mul_eq; unfold u64_max; lia|].
  eapply computes_some; [apply checked_add_eq; unfold u64_max; lia|]. apply computes_ret.
Qed.

End correct.

#[global] Program Instance Parallels_format : LookupFormat ParallelsState ParallelsBlockLookup := {
  lf_device := device_idx;
  lf_lookup H _ := block_lookup;
  lf_ref := block_ref;
  lf_ok := state_ok
}.
Next Obligation. intros. by apply parallels_block_computes. Qed.

Lemma parallels_block_ref_None st ssz cap img voff : device_ok ssz cap img -> ssz mod 4 = 0 ->
  state_ok st ssz -> is_u64 voff -> block_ref st ssz cap img voff = None ->
  voff / cluster_size st < bat_entries st /\ cap <= (64 + 4 * (voff / cluster_size st)) / ssz.
Proof.
  intros Hdev Hz [(t & Ht & Hcs & _) _ _] Hv. unfold block_ref. unfold is_u64 in *.
  pose proof (Z.div_pos voff (cluster_size st) ltac:(lia) ltac:(lia)). set (c := voff / cluster_size st) in *.
  destruct (Z.leb_spec (bat_entries st) c); [done|]. intros [Hn|(e & _ & [=])]%bind_None.
  split; [done|]. pose proof (do_ssz _ _ _ Hdev).
  destruct (direct_read_None ssz cap img 4 le_val (64 + 4 * c) Hdev ltac:(lia) ltac:(lia) Hn) as [Hs|Hc]; [|done].
  pose proof (aligned_fits ssz 4 (64 + 4 * c) ltac:(lia) ltac:(lia) Hz
    (mod_add_mul 64 c 4 ltac:(lia) eq_refl)). lia.
Qed.

(** ** Properties *)

(** Opening a Parallels image of either magic and looking up any sequence of
    guest offsets, on a flat device and whatever the two sector caches hold, never
    panics or overflows, accepts only headers with a positive bounded cluster size
    and an addressable BAT, and answers what the bytes of the image say: entry 0
    and offsets past the BAT are unallocated, another entry is a sector number
    under the v1 magic and a cluster number under the ext magic.  Without read
    errors it fails only for an invalid header or a BAT entry beyond the device. *)
Theorem parallels_reads_exact {H : Type} `{FlatInput H} (dev ssz cap : Z) (img : bytes) (voffs : list Z)
    (s : InSt H) :
  device_ok ssz cap img -> is_bytes img -> ssz mod 4 = 0 -> Forall is_u64 voffs ->
  reader_ok dev ssz img s ->
  wp (open_and_lookup (init dev ssz) ssz cap voffs)
    (fun r _ => init_ref dev ssz img = Some (fst r) /\ state_ok (fst r) ssz /\
                mapM (block_ref (fst r) ssz cap img) voffs = Some (snd r))
    (fun _ _ => responsive (in_host s) ->
       init_ref dev ssz img = None \/
       exists st voff, init_ref dev ssz img = Some st /\ voff ∈ voffs /\
         voff / cluster_size st < bat_entries st /\
         cap <= (64 + 4 * (voff / cluster_size st)) / ssz) s.
Proof.
  intros Hdev Hb Hz Hvs Hs. pose proof (do_ssz _ _ _ Hdev) as Hr.
  eapply wp_mono; [apply (opened_lookups _ (fun st => init_ref dev ssz img = Some st) (init_ref dev ssz img = None) dev ssz cap img); try done | by intros |].
  - by eapply parallels_init_computes.
  - intros st Hst. exact (parallels_init_ref_ok dev ssz img st Hb ltac:(lia) Hst).
  - intros ? ? Hfail Hresp. destruct (Hfail Hresp) as [Hn|(st & voff & Hst & Hok & Hin & Hv & Hn)]; [by left|right].
    exists st, voff. destruct (parallels_block_ref_None st ssz cap img voff Hdev Hz Hok Hv Hn). done.
Qed.

(** An ext image with clusters of two sectors and three BAT entries. *)
Definition demo_parallels : bytes :=
  PARALLELS_MAGIC_EXT ++ rev (be_bytes 4 2) ++ filled 8 0 ++ rev (be_bytes 4 2) ++ rev (be_bytes 4 3) ++
  rev (be_bytes 8 6) ++ filled 20 0 ++
  rev (be_bytes 4 5) ++ rev (be_bytes 4 0) ++ rev (be_bytes 4 2) ++ filled 436 0.

Definition demo_parallels_device : InSt VecInput :=
  InSt_new (mkVecInput [demo_parallels]) 0 (filled 512 0) (filled 512 0).

Lemma parallels_reads_exact_witness :
  (open_and_lookup (init 0 512) 512 1 [7; 1024; 3000; 5000] demo_parallels_device).1 =
    Ok (mkParallelsState 0 1024 3 2 3072, [Allocated 5127; Unallocated; Allocated 3000; Unallocated]) /\
  wp (open_and_lookup (init 0 512) 512 1 [7; 1024; 3000; 5000])
    (fun r _ => init_ref 0 512 demo_parallels = Some (fst r) /\ state_ok (fst r) 512 /\
                mapM (block_ref (fst r) 512 1 demo_parallels) [7; 1024; 3000; 5000] = Some (snd r))
    (fun _ _ => responsive (in_host demo_parallels_device) ->
       init_ref 0 512 demo_parallels = None \/
       exists st voff, init_ref 0 512 demo_parallels = Some st /\ voff ∈ [7; 1024; 3000; 5000] /\
         voff / cluster_size st < bat_entries st /\
         1 <= (64 + 4 * (voff / cluster_size st)) / 512) demo_parallels_device.
Proof.
  split; [vm_compute; reflexivity|].
  apply (parallels_reads_exact 0 512 1 demo_parallels [7; 1024; 3000; 5000] demo_parallels_device).
  - constructor; try split; vm_compute; discriminate || reflexivity.
  - apply is_bytesb_true. vm_compute. reflexivity.
  - reflexivity.
  - repeat constructor; vm_compute; discriminate.
  - by apply vec_ready.
Defined.
