(* ===== verification/Qcow1.v ===== *)
(** The QCOW1 reader ([src/src/crates/qcow1/src/lib.rs]): header validation, the
    L1-size arithmetic, [init] and the cached two-level lookup. *)

From stdpp Require Import base numbers list sets option.
From Stdlib Require Import ZArith Lia.
From S2P Require Import Prelude Bytes ExecBytes CachedRead.

(** ** Definitions *)

Definition HEADER_SIZE : Z := 48.
Definition MAGIC_OFFSET : Z := 0.
Definition VERSION_OFFSET : Z := 4.
Definition BACKING_FILE_OFFSET_OFFSET : Z := 8.
Definition BACKING_FILE_SIZE_OFFSET : Z := 16.
Definition SIZE_OFFSET : Z := 24.
Definition CLUSTER_BITS_OFFSET : Z := 32.
Definition L2_BITS_OFFSET : Z := 33.
Definition CRYPT_METHOD_OFFSET : Z := 36.
Definition L1_TABLE_OFFSET_OFFSET : Z := 40.

(** [format_detection::QCOW2_MAGIC], shared by both versions. *)
Definition QCOW2_MAGIC : Z := 0x514649fb.
Definition QCOW1_VERSION : Z := 1.
Definition QCOW1_CLUSTER_BITS_MIN : Z := 9.
Definition QCOW1_CLUSTER_BITS_MAX : Z := 16.
Definition QCOW1_L2_BITS_MIN : Z := 6.
Definition QCOW1_L2_BITS_MAX : Z := 13.
Definition QCOW1_CRYPT_AES : Z := 1.
Definition QCOW1_BACKING_FILE_SIZE_MAX : Z := 1023.
Definition QCOW1_OFLAG_COMPRESSED : Z := 0x8000000000000000.
Definition QCOW1_L1_SIZE_MAX : Z := 2147483647 / 8.

(** [checked_shl], [checked_shr] and [checked_sub] on [u64]. *)
Definition checked_shl (x n : Z) : option Z := if n <? 64 then Some (shl64 x n) else None.
Definition checked_shr (x n : Z) : option Z := if n <? 64 then Some (Z.shiftr x n) else None.
Definition checked_sub (x y : Z) : option Z := if y <=? x then Some (x - y) else None.

Definition compute_l1_size (size cluster_bits l2_bits : Z) : option Z :=
  let shift := cluster_bits + l2_bits in
  span ← checked_shl 1 shift;
  if u64_max - span <? size then None
  else
    sum ← checked_add size (span - 1);
    l1_size ← checked_shr sum shift;
    if QCOW1_L1_SIZE_MAX <? l1_size then None else Some l1_size.

Record Qcow1Header : Type := mkQcow1Header {
  hdr_cluster_bits : Z;
  hdr_l2_bits : Z;
  hdr_cluster_size : Z;
  hdr_l2_size : Z;
  hdr_virtual_size : Z;
  hdr_l1_size : Z;
  hdr_l1_table_offset : Z;
  backing_file_offset : Z;
  backing_file_size : Z;
  hdr_crypt_method : Z
}.

Definition parse (buf : bytes) : outcome unit Qcow1Header :=
  if blen buf <? HEADER_SIZE then Err tt
  else
  let? magic := be_u32 buf MAGIC_OFFSET in
  if negb (magic =? QCOW2_MAGIC) then Err tt
  else
  let? version := be_u32 buf VERSION_OFFSET in
  if negb (version =? QCOW1_VERSION) then Err tt
  else
  let? size := be_u64 buf SIZE_OFFSET in
  if size <=? 1 then Err tt
  else
  let? cluster_bits := or_panic (byte_at buf CLUSTER_BITS_OFFSET) in
  if negb ((QCOW1_CLUSTER_BITS_MIN <=? cluster_bits) && (cluster_bits <=? QCOW1_CLUSTER_BITS_MAX)) then Err tt
  else
  let? l2_bits := or_panic (byte_at buf L2_BITS_OFFSET) in
  if negb ((QCOW1_L2_BITS_MIN <=? l2_bits) && (l2_bits <=? QCOW1_L2_BITS_MAX)) then Err tt
  else
  let? crypt_method := be_u32 buf CRYPT_METHOD_OFFSET in
  if QCOW1_CRYPT_AES <? crypt_method then Err tt
  else
  let? backing_file_size := be_u32 buf BACKING_FILE_SIZE_OFFSET in
  if QCOW1_BACKING_FILE_SIZE_MAX <? backing_file_size then Err tt
  else
  let? l1_size := ok_or (compute_l1_size size cluster_bits l2_bits) tt in
  let? cluster_size := ok_or (checked_shl 1 cluster_bits) tt in
  let? l2_size := ok_or (checked_shl 1 l2_bits) tt in
  let? l1_table_offset := be_u64 buf L1_TABLE_OFFSET_OFFSET in
  let? backing_file_offset := be_u64 buf BACKING_FILE_OFFSET_OFFSET in
  Ok (mkQcow1Header cluster_bits l2_bits cluster_size l2_size size l1_size l1_table_offset
        backing_file_offset backing_file_size crypt_method).

Definition is_encrypted (h : Qcow1Header) : bool := negb (hdr_crypt_method h =? 0).

Inductive Qcow1BlockLookup : Type :=
| Unallocated
| Allocated (host_byte_offset : Z)
| Compressed (host_offset csize : Z).

#[global] Instance Qcow1BlockLookup_eq_dec : EqDecision Qcow1BlockLookup.
Proof. solve_decision. Defined.

(** The fields of [Qcow1State] that never change. *)
Record Qcow1State : Type := mkQcow1State {
  device_idx : Z;
  cluster_bits : Z;
  l2_bits : Z;
  cluster_size : Z;
  l2_size : Z;
  l1_size : Z;
  l1_table_offset : Z;
  virtual_size : Z;
  crypt_method : Z
}.

Section reader.
Context {H : Type} `{InputIo H}.

Definition init (device_idx sector_size : Z) : SM (InSt H) unit Qcow1State :=
  let! header_sector := read_header device_idx sector_size in
  let! header := slift (parse header_sector) in
  if negb (hdr_crypt_method header =? 0) then sfail tt
  else
  let! l1_bytes := or_none (checked_mul (hdr_l1_size header) 8) in
  let! l1_end := or_none (checked_add (hdr_l1_table_offset header) l1_bytes) in
  let! _ := or_none (checked_add l1_end (wsub sector_size 1)) in
  sret (mkQcow1State device_idx (hdr_cluster_bits header) (hdr_l2_bits header)
          (hdr_cluster_size header) (hdr_l2_size header) (hdr_l1_size header)
          (hdr_l1_table_offset header) (hdr_virtual_size header) (hdr_crypt_method header)).

(** The compressed descriptor of an L2 entry. *)
Definition compressed_extent (st : Qcow1State) (entry : Z) : option Qcow1BlockLookup :=
  let cb := cluster_bits st in
  shift ← (if cb <=? 63 then Some (63 - cb) else None);
  one ← checked_shl 1 shift;
  offset_mask ← checked_sub one 1;
  csize_mask ← checked_sub (cluster_size st) 1;
  high ← checked_shr entry shift;
  Some (Compressed (Z.land entry offset_mask) (Z.land high csize_mask)).

Definition block_lookup (st : Qcow1State) (sector_size input_capacity virtual_offset : Z)
  : SM (InSt H) unit Qcow1BlockLookup :=
  let l1_shift := l2_bits st + cluster_bits st in
  let! l1_index := or_none (checked_shr virtual_offset l1_shift) in
  if l1_size st <=? l1_index then sret Unallocated
  else
  let! eight := or_none (checked_mul l1_index 8) in
  let! l1_entry_offset := or_none (checked_add (l1_table_offset st) eight) in
  let! l2_table_offset :=
    read_u64_be_cached CacheA (device_idx st) l1_entry_offset sector_size input_capacity in
  if l2_table_offset =? 0 then sret Unallocated
  else
  let! cluster_index := or_none (checked_shr virtual_offset (cluster_bits st)) in
  let l2_index := Z.land cluster_index (wsub (l2_size st) 1) in
  let! eight2 := or_none (checked_mul l2_index 8) in
  let! l2_entry_offset := or_none (checked_add l2_table_offset eight2) in
  let! entry :=
    read_u64_be_cached CacheB (device_idx st) l2_entry_offset sector_size input_capacity in
  if entry =? 0 then sret Unallocated
  else if nonzero (Z.land entry QCOW1_OFLAG_COMPRESSED) then or_none (compressed_extent st entry)
  else
  let! offset_in_cluster := slift (urem virtual_offset (cluster_size st)) in
  let! host_byte_offset := or_none (checked_add entry offset_in_cluster) in
  sret (Allocated host_byte_offset).

End reader.

(** ** The header *)

Lemma shl64_pow n : 0 <= n < 64 -> shl64 1 n = 2 ^ n.
Proof.
  intros Hn. unfold shl64. rewrite Z.shiftl_1_l, Z.mod_small; [done|].
  change 18446744073709551616 with (2 ^ 64). split; [lia|]. apply Z.pow_lt_mono_r; lia.
Qed.

Lemma land_low_bits x n : 0 <= n -> Z.land x (2 ^ n - 1) = x mod 2 ^ n.
Proof. intros Hn. by rewrite <- Z.shiftl_1_l, land_pow2_mask, Z.shiftl_1_l. Qed.

Lemma checked_shl_pow n : 0 <= n < 64 -> checked_shl 1 n = Some (2 ^ n).
Proof. intros Hn. unfold checked_shl. destruct (Z.ltb_spec n 64); [by rewrite shl64_pow|lia]. Qed.

Lemma checked_shr_div x n : 0 <= n < 64 -> checked_shr x n = Some (x / 2 ^ n).
Proof. intros Hn. unfold checked_shr. destruct (Z.ltb_spec n 64); [by rewrite Z.shiftr_div_pow2 by lia|lia]. Qed.

Lemma checked_add_None x y : u64_max < x + y -> checked_add x y = None.
Proof. unfold checked_add. destruct (Z.leb_spec (x + y) u64_max); [lia|done]. Qed.

(** The L1 size is the number of L1 entries the disk needs, and fits qemu's cap. *)
Lemma compute_l1_size_spec size cb lb n : is_u64 size -> 9 <= cb <= 16 -> 6 <= lb <= 13 ->
  compute_l1_size size cb lb = Some n ->
  n = div_ceil size (2 ^ (cb + lb)) /\ 0 <= n <= QCOW1_L1_SIZE_MAX.
Proof.
  intros Hs Hc Hl. unfold compute_l1_size. cbv zeta. rewrite checked_shl_pow by lia. cbn [mbind option_bind].
  pose proof (Z.pow_pos_nonneg 2 (cb + lb) ltac:(lia) ltac:(lia)) as Hp. set (p := 2 ^ (cb + lb)) in *.
  unfold is_u64 in Hs. destruct (Z.ltb_spec (u64_max - p) size); [done|].
  rewrite checked_add_eq by lia. cbn [mbind option_bind]. rewrite checked_shr_div by lia. fold p.
  cbn [mbind option_bind]. destruct (Z.ltb_spec QCOW1_L1_SIZE_MAX ((size + (p - 1)) / p)) as [|Hm]; [done|].
  intros [= <-]. split; [|split; [apply Z.div_pos; lia | done]].
  pose proof (Z.div_mod size p ltac:(lia)) as Hdm. pose proof (Z.mod_pos_bound size p ltac:(lia)).
  unfold div_ceil. destruct (Z.eqb_spec (size mod p) 0) as [Hz|Hz].
  - symmetry. apply (Z.div_unique _ _ _ (p - 1)); lia.
  - symmetry. apply (Z.div_unique _ _ _ (size mod p - 1)); lia.
Qed.

(** What a parsed header promises. *)
Record header_ok (h : Qcow1Header) : Prop := {
  ho_cbits : 9 <= hdr_cluster_bits h <= 16;
  ho_lbits : 6 <= hdr_l2_bits h <= 13;
  ho_csize : hdr_cluster_size h = 2 ^ hdr_cluster_bits h;
  ho_lsize : hdr_l2_size h = 2 ^ hdr_l2_bits h;
  ho_vsize : 2 <= hdr_virtual_size h <= u64_max;
  ho_l1 : hdr_l1_size h = div_ceil (hdr_virtual_size h) (2 ^ (hdr_cluster_bits h + hdr_l2_bits h)) /\
          0 <= hdr_l1_size h <= QCOW1_L1_SIZE_MAX;
  ho_l1off : is_u64 (hdr_l1_table_offset h);
  ho_backing : is_u64 (backing_file_offset h) /\ 0 <= backing_file_size h <= 1023;
  ho_crypt : hdr_crypt_method h = 0 \/ hdr_crypt_method h = 1
}.

Lemma qcow1_parse_spec buf : is_bytes buf ->
  match parse buf with
  | Ok h => header_ok h
  | Err _ => True
  | Panic | OutOfFuel => False
  end.
Proof.
  intros Hb. unfold parse. change HEADER_SIZE with 48. destruct (Z.ltb_spec (blen buf) 48) as [|Hlen]; [done|].
  buf_field Hb. destruct (v =? _); [|done]. cbn [negb].
  buf_field Hb. destruct (v0 =? _); [|done]. cbn [negb].
  buf_field Hb. destruct (Z.leb_spec v1 1); [done|].
  buf_field Hb. unfold QCOW1_CLUSTER_BITS_MIN, QCOW1_CLUSTER_BITS_MAX.
  destruct (Z.leb_spec 9 v2), (Z.leb_spec v2 16); cbn [negb andb]; try done.
  buf_field Hb. unfold QCOW1_L2_BITS_MIN, QCOW1_L2_BITS_MAX.
  destruct (Z.leb_spec 6 v3), (Z.leb_spec v3 13); cbn [negb andb]; try done.
  buf_field Hb. destruct (Z.ltb_spec QCOW1_CRYPT_AES v4) as [|Hcr]; [done|].
  buf_field Hb. destruct (Z.ltb_spec QCOW1_BACKING_FILE_SIZE_MAX v5) as [|Hbk]; [done|].
  destruct (compute_l1_size v1 v2 v3) as [n|] eqn:Hn; [|done]. cbn [ok_or obind].
  apply compute_l1_size_spec in Hn; [|done|lia|lia].
  rewrite !checked_shl_pow by lia. cbn [ok_or obind]. do 2 buf_field Hb.
  unfold is_u64, is_u32, QCOW1_CRYPT_AES, QCOW1_BACKING_FILE_SIZE_MAX in *.
  constructor; cbn; try done; try lia. split; [done|lia].
Qed.

(** ** The lookup *)

(** What [init] establishes. *)
Record state_ok (st : Qcow1State) (ssz : Z) : Prop := {
  so_cbits : 9 <= cluster_bits st <= 16;
  so_lbits : 6 <= l2_bits st <= 13;
  so_csize : cluster_size st = 2 ^ cluster_bits st;
  so_lsize : l2_size st = 2 ^ l2_bits st;
  so_l1 : l1_size st = div_ceil (virtual_size st) (2 ^ (cluster_bits st + l2_bits st)) /\
          0 <= l1_size st <= QCOW1_L1_SIZE_MAX;
  so_l1off : 0 <= l1_table_offset st /\ l1_table_offset st + l1_size st * 8 + ssz - 1 <= u64_max;
  so_crypt : crypt_method st = 0
}.

(** The lookup on the bytes of the image: no cache, no bit tricks. *)
Definition entry_ref (st : Qcow1State) (entry voff : Z) : Qcow1BlockLookup :=
  let cb := cluster_bits st in
  if entry =? 0 then Unallocated
  else if Z.testbit entry 63
  then Compressed (entry mod 2 ^ (63 - cb)) (entry / 2 ^ (63 - cb) mod 2 ^ cb)
  else Allocated (entry + voff mod 2 ^ cb).

Definition l1_entry_at (st : Qcow1State) (voff : Z) : Z :=
  l1_table_offset st + 8 * (voff / 2 ^ (cluster_bits st + l2_bits st)).
Definition l2_entry_at (st : Qcow1State) (l2_table voff : Z) : Z :=
  l2_table + 8 * (voff / 2 ^ cluster_bits st mod 2 ^ l2_bits st).

Definition block_ref (st : Qcow1State) (ssz cap : Z) (img : bytes) (voff : Z) : option Qcow1BlockLookup :=
  if l1_size st <=? voff / 2 ^ (cluster_bits st + l2_bits st) then Some Unallocated
  else
    l2_table ← direct_read ssz cap img 8 be_val (l1_entry_at st voff);
    if l2_table =? 0 then Some Unallocated
    else if u64_max <? l2_entry_at st l2_table voff then None
    else entry ← direct_read ssz cap img 8 be_val (l2_entry_at st l2_table voff);
         Some (entry_ref st entry voff).

Definition init_ref (dev ssz : Z) (img : bytes) : option Qcow1State :=
  buf ← header_ref ssz img;
  match parse buf with
  | Ok h =>
      if negb (hdr_crypt_method h =? 0) || (u64_max <? hdr_l1_table_offset h + hdr_l1_size h * 8 + ssz - 1)
      then None
      else Some (mkQcow1State dev (hdr_cluster_bits h) (hdr_l2_bits h) (hdr_cluster_size h) (hdr_l2_size h)
                   (hdr_l1_size h) (hdr_l1_table_offset h) (hdr_virtual_size h) (hdr_crypt_method h))
  | _ => None
  end.

Lemma qcow1_init_ref_ok dev ssz img st : is_bytes img -> 0 <= ssz <= MAX_SECTOR_SIZE ->
  init_ref dev ssz img = Some st -> state_ok st ssz /\ device_idx st = dev.
Proof.
  intros Hb Hz. unfold init_ref. intros (buf & Hbuf & Hp)%bind_Some.
  destruct (header_ref_spec _ _ _ Hb Hz Hbuf) as (Hbb & _).
  pose proof (qcow1_parse_spec buf Hbb) as Hs. destruct (parse buf) as [h|[]| |]; try done.
  destruct (negb _ || _) eqn:Hg; [done|]. bool_to_prop. injection Hp as <-.
  destruct Hs as [? ? ? ? _ ? Ho _ _]. unfold is_u64 in Ho. split; [|done]. constructor; cbn; try done; lia.
Qed.

Section correct.
Context {H : Type} `{FlatInput H} (dev ssz cap : Z) (img : bytes).
Context (Hdev : device_ok ssz cap img) (Hb : is_bytes img).

Lemma qcow1_init_computes : computes dev ssz img (init dev ssz) (init_ref dev ssz img).
Proof.
  pose proof (do_ssz _ _ _ Hdev) as Hz. unfold MAX_SECTOR_SIZE in Hz.
  apply (computes_bind _ _ _ _ _ (header_ref ssz img)); [by eapply computes_header|].
  intros buf Hbuf. destruct (header_ref_spec ssz img buf Hb ltac:(unfold MAX_SECTOR_SIZE; lia) Hbuf) as (Hbb & _).
  pose proof (qcow1_parse_spec buf Hbb) as Hs. destruct (parse buf) as [h|[]| |]; try done.
  destruct Hs as [_ _ _ _ _ [_ Hl1] Ho _ _]. change QCOW1_L1_SIZE_MAX with 268435455 in Hl1. unfold is_u64 in Ho.
  eapply computes_ok; [done|]. destruct (negb (hdr_crypt_method h =? 0)); [apply computes_fail|]. cbn [orb].
  eapply computes_some; [apply checked_mul_eq; unfold u64_max; lia|].
  rewrite wsub_small by (unfold u64_max; lia).
  destruct (Z.ltb_spec u64_max (hdr_l1_table_offset h + hdr_l1_size h * 8 + ssz - 1)) as [Hov|Hov].
  - destruct (checked_add (hdr_l1_table_offset h) (hdr_l1_size h * 8)) as [e|] eqn:He; [|by apply computes_none].
    apply checked_add_Some in He as [-> _]. eapply computes_some; [done|]. apply computes_none.
    apply checked_add_None. lia.
  - eapply computes_some; [apply checked_add_eq; lia|]. eapply computes_some; [apply checked_add_eq; lia|].
    apply computes_ret.
Qed.

Lemma compressed_extent_ref st entry voff : 9 <= cluster_bits st <= 16 -> cluster_size st = 2 ^ cluster_bits st ->
  entry <> 0 -> Z.testbit entry 63 = true -> compressed_extent st entry = Some (entry_ref st entry voff).
Proof.
  intros Hc Hcs Hne0 H63. unfold compressed_extent, entry_ref. rewrite (proj2 (Z.eqb_neq entry 0)) by done.
  rewrite H63. destruct (Z.leb_spec (cluster_bits st) 63); [|lia]. cbn [mbind option_bind].
  rewrite checked_shl_pow by lia. cbn [mbind option_bind]. unfold checked_sub.
  pose proof (Z.pow_pos_nonneg 2 (63 - cluster_bits st) ltac:(lia) ltac:(lia)).
  pose proof (Z.pow_pos_nonneg 2 (cluster_bits st) ltac:(lia) ltac:(lia)).
  destruct (Z.leb_spec 1 (2 ^ (63 - cluster_bits st))); [|lia]. cbn [mbind option_bind]. rewrite Hcs.
  destruct (Z.leb_spec 1 (2 ^ cluster_bits st)); [|lia]. cbn [mbind option_bind].
  rewrite checked_shr_div by lia. cbn [mbind option_bind].
  by rewrite !land_low_bits by lia.
Qed.

Lemma flag_bit_63 entry : 0 <= entry < 2 ^ 64 -> nonzero (Z.land entry QCOW1_OFLAG_COMPRESSED) = Z.testbit entry 63.
Proof.
  intros He. change QCOW1_OFLAG_COMPRESSED with (2 ^ 63). destruct (Z.testbit entry 63) eqn:E.
  - apply nonzero_true. intros Hz0. assert (Z.testbit (Z.land entry (2 ^ 63)) 63 = true) as Ht
      by (rewrite Z.land_spec, E, Z.pow2_bits_true by lia; done). by rewrite Hz0, Z.bits_0 in Ht.
  - apply nonzero_false. apply Z.bits_inj'. intros k Hk. rewrite Z.land_spec, Z.bits_0.
    destruct (Z.eq_dec k 63) as [->|Hne]; [by rewrite E|]. rewrite Z.pow2_bits_false by congruence. apply andb_false_r.
Qed.

Lemma qcow1_block_computes st voff : state_ok st ssz -> device_idx st = dev -> is_u64 voff ->
  computes dev ssz img (block_lookup st ssz cap voff) (block_ref st ssz cap img voff).
Proof.
  intros [Hcb Hlb Hcs Hls [_ Hl1] [Ho Hoe] _] Hdx Hv. unfold block_lookup, block_ref, l1_entry_at, l2_entry_at.
  change QCOW1_L1_SIZE_MAX with 268435455 in Hl1. pose proof (do_ssz _ _ _ Hdev) as Hz.
  unfold is_u64 in *. rewrite Hdx, (Z.add_comm (l2_bits st)). cbv zeta.
  pose proof (Z.pow_pos_nonneg 2 (cluster_bits st) ltac:(lia) ltac:(lia)) as Hpc.
  pose proof (Z.pow_pos_nonneg 2 (l2_bits st) ltac:(lia) ltac:(lia)) as Hpl.
  assert (2 ^ l2_bits st <= 2 ^ 13) as Hpl2 by (apply Z.pow_le_mono_r; lia). change (2 ^ 13) with 8192 in Hpl2.
  eapply computes_some; [apply checked_shr_div; lia|].
  pose proof (Z.div_pos voff (2 ^ (cluster_bits st + l2_bits st)) ltac:(lia) ltac:(apply Z.pow_pos_nonneg; lia)).
  set (l1i := voff / 2 ^ (cluster_bits st + l2_bits st)) in *.
  apply computes_if; intros Hlt; [apply computes_ret|]. bool_to_prop. rewrite (Z.mul_comm 8 l1i).
  eapply computes_some; [apply checked_mul_eq; unfold u64_max; lia|].
  eapply computes_some; [apply checked_add_eq; lia|].
  apply computes_bind; [apply computes_read; [done | unfold is_u64; lia | lia]|].
  intros l2t Hl2t. apply direct_read_bound in Hl2t; [|done|apply be_val_bound].
  change (256 ^ 8) with 18446744073709551616 in Hl2t. destruct (l2t =? 0); [apply computes_ret|].
  eapply computes_some; [apply checked_shr_div; lia|].
  set (l2i := voff / 2 ^ cluster_bits st) in *.
  rewrite Hls. rewrite wsub_small by (unfold u64_max; lia).
  rewrite land_low_bits by lia.
  pose proof (Z.mod_pos_bound l2i (2 ^ l2_bits st) ltac:(lia)) as Hm.
  rewrite (Z.mul_comm 8). eapply computes_some; [apply checked_mul_eq; unfold u64_max; lia|].
  destruct (Z.ltb_spec u64_max (l2t + l2i mod 2 ^ l2_bits st * 8)).
  { apply computes_none, checked_add_None. lia. }
  eapply computes_some; [apply checked_add_eq; lia|].
  apply computes_bind; [apply computes_read; [done | unfold is_u64; lia | lia]|].
  intros entry Hen. apply direct_read_bound in Hen; [|done|apply be_val_bound]. change (256 ^ 8) with (2 ^ 64) in Hen.
  rewrite flag_bit_63 by done. destruct (Z.eqb_spec entry 0) as [->|Hn0]; [apply computes_ret|].
  destruct (Z.testbit entry 63) eqn:H63.
  { rewrite (compressed_extent_ref st entry voff) by done. apply computes_or_none. }
  unfold entry_ref. rewrite H63, (proj2 (Z.eqb_neq entry 0)) by done.
  eapply computes_ok; [unfold urem; rewrite Hcs, (proj2 (Z.eqb_neq (2 ^ cluster_bits st) 0)) by lia; reflexivity|].
  assert (2 ^ cluster_bits st <= 2 ^ 16) as Hpc2 by (apply Z.pow_le_mono_r; lia). change (2 ^ 16) with 65536 in Hpc2.
  pose proof (Z.mod_pos_bound voff (2 ^ cluster_bits st) ltac:(lia)).
  assert (entry < 2 ^ 63) as Hlow.
  { destruct (Z.lt_ge_cases entry (2 ^ 63)) as [|Hge]; [done|]. exfalso.
    assert (entry / 2 ^ 63 = 1) as Hd1 by (symmetry; apply (Z.div_unique entry (2 ^ 63) 1 (entry - 2 ^ 63)); lia).
    rewrite <- (Z.add_0_l 63), <- Z.shiftr_spec, Z.shiftr_div_pow2, Hd1 in H63 by lia. done. }
  change (2 ^ 63) with 9223372036854775808 in Hlow.
  eapply computes_some; [apply checked_add_eq; unfold u64_max; lia|]. apply computes_ret.
Qed.

End correct.

#[global] Program Instance Qcow1_format : LookupFormat Qcow1State Qcow1BlockLookup := {
  lf_device := device_idx;
  lf_lookup H _ := block_lookup;
  lf_ref := block_ref;
  lf_ok := state_ok
}.
Next Obligation. intros. by apply qcow1_block_computes. Qed.

(** An 8-byte table entry the cached reader cannot return. *)
Definition entry_unreadable (ssz cap off : Z) : Prop := ssz < off mod ssz + 8 \/ cap <= off / ssz.

Lemma qcow1_block_ref_None st ssz cap img voff : device_ok ssz cap img -> is_bytes img ->
  state_ok st ssz -> is_u64 voff -> block_ref st ssz cap img voff = None ->
  entry_unreadable ssz cap (l1_entry_at st voff) \/
  exists t, direct_read ssz cap img 8 be_val (l1_entry_at st voff) = Some t /\ t <> 0 /\
    (u64_max < l2_entry_at st t voff \/ entry_unreadable ssz cap (l2_entry_at st t voff)).
Proof.
  intros Hdev Hb [Hcb Hlb _ _ _ [Ho _] _] Hv. unfold block_ref. unfold is_u64 in *.
  pose proof (Z.div_pos voff (2 ^ (cluster_bits st + l2_bits st)) ltac:(lia) ltac:(apply Z.pow_pos_nonneg; lia)).
  pose proof (Z.mod_pos_bound (voff / 2 ^ cluster_bits st) (2 ^ l2_bits st) ltac:(apply Z.pow_pos_nonneg; lia)).
  destruct (l1_size st <=? _); [done|]. intros [Hn|(t & Ht & Hn)]%bind_None.
  - left. apply direct_read_None in Hn; [done | done | unfold l1_entry_at; lia | lia].
  - right. exists t. split; [done|]. destruct (Z.eqb_spec t 0); [done|]. split; [done|].
    apply direct_read_bound in Ht; [|done|apply be_val_bound].
    destruct (Z.ltb_spec u64_max (l2_entry_at st t voff)); [by left|right].
    apply bind_None in Hn as [Hn|(e & _ & [=])].
    apply direct_read_None in Hn; [done | done | unfold l2_entry_at; lia | lia].
Qed.

(** ** Properties *)

(** Opening a QCOW1 image and looking up any sequence of guest offsets, on a flat
    device and whatever the L1 and L2 sector caches hold, never panics; an opened
    image is unencrypted, its geometry is in range and its L1 size is the ceiling
    of the disk size over the span of an L2 table; and every answer is the one the
    bytes of the image give: nothing past the L1 table or at zero entries, the
    compressed offset and byte length taken from the two bit fields of an entry
    with bit 63 set, the entry plus the offset in the cluster otherwise.  Without
    read errors it fails only for a refused header or a table entry that crosses a
    sector boundary, lies beyond the device or overflows. *)
Theorem qcow1_reads_exact {H : Type} `{FlatInput H} (dev ssz cap : Z) (img : bytes) (voffs : list Z)
    (s : InSt H) :
  device_ok ssz cap img -> is_bytes img -> Forall is_u64 voffs -> reader_ok dev ssz img s ->
  wp (open_and_lookup (init dev ssz) ssz cap voffs)
    (fun r _ => init_ref dev ssz img = Some (fst r) /\ state_ok (fst r) ssz /\
                mapM (block_ref (fst r) ssz cap img) voffs = Some (snd r))
    (fun _ _ => responsive (in_host s) ->
       init_ref dev ssz img = None \/
       exists st voff, init_ref dev ssz img = Some st /\ voff ∈ voffs /\
         (entry_unreadable ssz cap (l1_entry_at st voff) \/
          exists t, direct_read ssz cap img 8 be_val (l1_entry_at st voff) = Some t /\ t <> 0 /\
            (u64_max < l2_entry_at st t voff \/ entry_unreadable ssz cap (l2_entry_at st t voff)))) s.
Proof.
  intros Hdev Hb Hvs Hs. pose proof (do_ssz _ _ _ Hdev) as Hr.
  eapply wp_mono; [apply (opened_lookups _ (fun st => init_ref dev ssz img = Some st) (init_ref dev ssz img = None) dev ssz cap img); try done | by intros |].
  - by eapply qcow1_init_computes.
  - intros st Hst. exact (qcow1_init_ref_ok dev ssz img st Hb ltac:(lia) Hst).
  - intros ? ? Hfail Hresp. destruct (Hfail Hresp) as [Hn|(st & voff & Hst & Hok & Hin & Hv & Hn)]; [by left|right].
    exists st, voff. pose proof (qcow1_block_ref_None st ssz cap img voff Hdev Hb Hok Hv Hn). done.
Qed.

(** A 64 KiB disk in 512-byte clusters, L1 table at [l1], L2 table at 1024: cluster 0 at
    2048, cluster 1 compressed in 100 bytes at 3000, the rest unallocated. *)
Definition demo_qcow1 (l1 : Z) : bytes :=
  be_bytes 4 QCOW2_MAGIC ++ be_bytes 4 1 ++ filled 16 0 ++ be_bytes 8 65536 ++ [9; 6; 0; 0] ++
  be_bytes 4 0 ++ be_bytes 8 l1 ++ filled 464 0 ++ be_bytes 8 1024 ++ filled 504 0 ++
  be_bytes 8 2048 ++ be_bytes 8 (Z.lor QCOW1_OFLAG_COMPRESSED (100 * 2 ^ 54 + 3000)) ++ filled 496 0.

Definition demo_qcow1_device (l1 : Z) : InSt VecInput :=
  InSt_new (mkVecInput [demo_qcow1 l1]) 0 (filled 512 0) (filled 512 0).

Lemma demo_qcow1_ok : device_ok 512 3 (demo_qcow1 512) /\ is_bytes (demo_qcow1 512).
Proof.
  split; [constructor; try split; vm_compute; discriminate || reflexivity|].
  apply is_bytesb_true. vm_compute. reflexivity.
Qed.

Lemma qcow1_reads_exact_witness :
  (open_and_lookup (init 0 512) 512 3 [5; 600; 1024; 100000] (demo_qcow1_device 512)).1 =
    Ok (mkQcow1State 0 9 6 512 64 2 512 65536 0,
        [Allocated 2053; Compressed 3000 100; Unallocated; Unallocated]) /\
  wp (open_and_lookup (init 0 512) 512 3 [5; 600; 1024; 100000])
    (fun r _ => init_ref 0 512 (demo_qcow1 512) = Some (fst r) /\ state_ok (fst r) 512 /\
                mapM (block_ref (fst r) 512 3 (demo_qcow1 512)) [5; 600; 1024; 100000] = Some (snd r))
    (fun _ _ => responsive (in_host (demo_qcow1_device 512)) ->
       init_ref 0 512 (demo_qcow1 512) = None \/
       exists st voff, init_ref 0 512 (demo_qcow1 512) = Some st /\ voff ∈ [5; 600; 1024; 100000] /\
         (entry_unreadable 512 3 (l1_entry_at st voff) \/
          exists t, direct_read 512 3 (demo_qcow1 512) 8 be_val (l1_entry_at st voff) = Some t /\ t <> 0 /\
            (u64_max < l2_entry_at st t voff \/ entry_unreadable 512 3 (l2_entry_at st t voff))))
    (demo_qcow1_device 512).
Proof.
  split; [vm_compute; reflexivity|].
  apply (qcow1_reads_exact 0 512 3 (demo_qcow1 512) [5; 600; 1024; 100000] (demo_qcow1_device 512)).
  - apply demo_qcow1_ok.
  - apply demo_qcow1_ok.
  - repeat constructor; vm_compute; discriminate.
  - by apply vec_ready.
Defined.

(** An image whose L1 table offset is not 8-aligned opens, but a lookup whose L1
    entry crosses a sector boundary fails although no read does; so does one
    whose L1 table lies past the end of the device. *)
Theorem qcow1_unaligned_l1_refused :
  (open_and_lookup (init 0 512) 512 3 [] (demo_qcow1_device 508)).1 =
    Ok (mkQcow1State 0 9 6 512 64 2 508 65536 0, []) /\
  (open_and_lookup (init 0 512) 512 3 [0] (demo_qcow1_device 508)).1 = Err tt /\
  (open_and_lookup (init 0 512) 512 3 [0] (demo_qcow1_device 4096)).1 = Err tt.
Proof. split_and!; vm_compute; reflexivity. Qed.
