(* ===== verification/Qcow2Lookup.v ===== *)
(** The qcow2 read path ([src/src/crates/qcow2/src/lib.rs]): [Qcow2State::init] with
    its scan for the encryption extension, the cached two-level
    [cluster_lookup], and the whole-cluster verdict with the data-file rules. *)

From stdpp Require Import base numbers list sets option.
From Stdlib Require Import ZArith Lia.
From S2P Require Import Prelude Bytes ExecBytes CachedRead Qcow2.

(** ** Definitions *)

Definition MAX_CLUSTER_SIZE : Z := 2097152.
Definition EXT_ENCRYPT_HEADER : Z := 0x0537BE77.
Definition EXT_END : Z := 0.

Inductive DataFileEntryViolation : Type := DfCompressed | DfHostOffsetMismatch.

Inductive ClusterLookup : Type :=
| ClUnallocated
| ClZero
| ClStandard (host_offset : Z)
| ClStandardSubclusters (l2_entry bitmap : Z)
| ClCompressed (l2_entry : Z)
| ClInvalid
| ClDataFileRefused (violation : DataFileEntryViolation).

(** The fields of [Qcow2State] that lookups never change. *)
Record Qcow2State : Type := mkQcow2State {
  device_idx : Z;
  cluster_size : Z;
  cluster_bits : Z;
  l1_size : Z;
  l1_table_offset : Z;
  st_incompatible_features : Z;
  st_compression_type : Z;
  st_crypt_method : Z;
  luks_ext_offset : Z;
  luks_ext_len : Z;
  st_extended_l2 : bool
}.

Definition unsupported_incompat_features (st : Qcow2State) (supported_mask : Z) : Z :=
  Z.land (st_incompatible_features st) (not64 supported_mask).

Definition has_data_file (st : Qcow2State) : bool :=
  nonzero (Z.land (st_incompatible_features st) INCOMPAT_EXTERNAL_DATA).

Definition data_file_entry_violation (l2_entry bitmap : Z) (extended_l2 has_data_file : bool)
    (guest_cluster_offset : Z) : option DataFileEntryViolation :=
  if negb has_data_file then None
  else match subcluster_type l2_entry bitmap 0 extended_l2 true with
       | ScInvalid => None
       | ScCompressed => Some DfCompressed
       | _ => if l2_entry_names_host_cluster l2_entry extended_l2 true &&
                 negb (Z.land l2_entry L2_OFFSET_MASK =? guest_cluster_offset)
              then Some DfHostOffsetMismatch else None
       end.

Definition classify_l2_entry (st : Qcow2State) (l2_entry bitmap guest_cluster_offset : Z) : ClusterLookup :=
  let ext := st_extended_l2 st in
  let df := has_data_file st in
  let '(ty, run) := subcluster_range l2_entry bitmap 0 ext df in
  match data_file_entry_violation l2_entry bitmap ext df guest_cluster_offset with
  | Some violation => ClDataFileRefused violation
  | None =>
      match ty with
      | ScInvalid => ClInvalid
      | ScCompressed => ClCompressed l2_entry
      | _ =>
          if run <? subclusters_per_cluster ext then ClStandardSubclusters l2_entry bitmap
          else match ty with
               | ScNormal => ClStandard (Z.land l2_entry L2_OFFSET_MASK)
               | ScZeroPlain | ScZeroAlloc => ClZero
               | _ => ClUnallocated
               end
      end
  end.

Section reader.
Context {H : Type} `{InputIo H}.

Abbreviation RM := (SM (InSt H) unit).

Definition read_u32_be_cached (c : CacheId) : Z -> Z -> Z -> Z -> RM Z := cached_read c 4 be_val.

Section scan.
Context (dev sector_size input_capacity : Z).

Definition read32 (off : Z) : RM Z := read_u32_be_cached CacheA dev off sector_size input_capacity.
Definition read64 (off : Z) : RM Z := read_u64_be_cached CacheA dev off sector_size input_capacity.

(** [((h as u64) << 32) | l], when both halves were read. *)
Definition pair64 (h l : option Z) (old : Z) : Z :=
  match h, l with Some h, Some l => Z.lor (shl64 h 32) l | _, _ => old end.

(** The pointer the encryption extension holds. *)
Definition luks_pointer (ptr_off : Z) : RM (Z * Z) :=
  let! hi := attempt (read32 ptr_off) in
  let! lo := attempt (read32 (wadd ptr_off 4)) in
  let! hi2 := attempt (read32 (wadd ptr_off 8)) in
  let! lo2 := attempt (read32 (wadd ptr_off 12)) in
  sret (pair64 hi lo 0, pair64 hi2 lo2 0).

(** The scan of the header extensions, up to 1 MiB. *)
Fixpoint luks_scan (fuel : nat) (ext_off : Z) : RM (Z * Z) :=
  match fuel with
  | O => slift OutOfFuel
  | S fuel' =>
      if wadd ext_off 8 <? 1048576 then
        let! ty := attempt (read32 ext_off) in
        match ty with
        | None => sret (0, 0)
        | Some ext_type =>
            let! len := attempt (read32 (wadd ext_off 4)) in
            match len with
            | None => sret (0, 0)
            | Some ext_len =>
                if ext_type =? EXT_END then sret (0, 0)
                else if (ext_type =? EXT_ENCRYPT_HEADER) && (16 <=? ext_len)
                then luks_pointer (wadd ext_off 8)
                else luks_scan fuel' (wadd ext_off (wadd 8 (Z.land (wadd ext_len 7) (not64 7))))
            end
        end
      else sret (0, 0)
  end.

(** Every turn advances by at least 8 bytes. *)
Definition LUKS_FUEL : nat := Z.to_nat 131073.

(** The v3 fields: features, compression type and the encryption pointer. *)
Definition init_v3 (version crypt_method : Z) : RM (Z * Z * (Z * Z)) :=
  if 3 <=? version then
    let! features := read64 INCOMPATIBLE_FEATURES_OFFSET in
    let! ct_word := read32 COMPRESSION_TYPE_OFFSET in
    let! luks := (if crypt_method =? 2 then
                    let! header_length := read32 HEADER_LENGTH_OFFSET in
                    luks_scan LUKS_FUEL header_length
                  else sret (0, 0)) in
    sret (features, as_u8 (Z.shiftr ct_word 24), luks)
  else sret (0, 0, (0, 0)).

Definition invalidate (s : InSt H) : InSt H :=
  mkInSt (in_host s) (in_bytes_read s) (mkSectorCache u64_max (cache_buf (in_a s)))
    (mkSectorCache u64_max (cache_buf (in_b s))).

Definition init : RM Qcow2State :=
  let! version := read32 VERSION_OFFSET in
  if negb (version =? 2) && negb (version =? 3) then sfail tt
  else
  let! cluster_bits := read32 CLUSTER_BITS_OFFSET in
  if negb ((9 <=? cluster_bits) && (cluster_bits <=? 21)) then sfail tt
  else
  let cluster_size := shl64 1 cluster_bits in
  if MAX_CLUSTER_SIZE <? cluster_size then sfail tt
  else
  let! _ := read64 SIZE_OFFSET in
  let! crypt := read32 CRYPT_METHOD_OFFSET in
  let! (features, ct, (luks_off, luks_len)) := init_v3 version crypt in
  let! l1_size := read32 L1_SIZE_OFFSET in
  let! l1_off := read64 L1_TABLE_OFFSET_OFFSET in
  let actual_size := sat_mul input_capacity sector_size in
  if (l1_off =? 0) || (actual_size <=? l1_off) then sfail tt
  else
  let! l1_end := or_none (checked_add l1_off (sat_mul l1_size 8)) in
  if actual_size <? l1_end then sfail tt
  else
  do! smod invalidate in
  sret (mkQcow2State dev cluster_size cluster_bits l1_size l1_off features ct crypt luks_off luks_len
          (nonzero (Z.land features INCOMPAT_EXTENDED_L2))).

End scan.

Definition cluster_lookup (st : Qcow2State) (sector_size input_capacity virtual_offset : Z) : RM ClusterLookup :=
  let cs := cluster_size st in
  let entry_size := if st_extended_l2 st then 16 else 8 in
  let entries_per_l2 := cs / entry_size in
  let l2_coverage := wmul cs entries_per_l2 in
  let! l1_index := slift (udiv virtual_offset l2_coverage) in
  let! cluster_index := slift (udiv virtual_offset cs) in
  let! l2_index := slift (urem cluster_index entries_per_l2) in
  if l1_size st <=? l1_index then sret ClUnallocated
  else
  let! eight := or_none (checked_mul l1_index 8) in
  let! l1_byte_offset := or_none (checked_add (l1_table_offset st) eight) in
  let! l1_entry := read_u64_be_cached CacheA (device_idx st) l1_byte_offset sector_size input_capacity in
  let l2_table_offset := Z.land l1_entry L2_OFFSET_MASK in
  if l2_table_offset =? 0 then sret ClUnallocated
  else
  let! actual_size := or_none (checked_mul input_capacity sector_size) in
  if actual_size <=? l2_table_offset then sfail tt
  else
  let! es := or_none (checked_mul l2_index entry_size) in
  let! l2_byte_offset := or_none (checked_add l2_table_offset es) in
  let! l2_entry := read_u64_be_cached CacheB (device_idx st) l2_byte_offset sector_size input_capacity in
  let! bitmap := (if st_extended_l2 st then
                    read_u64_be_cached CacheB (device_idx st) (wadd l2_byte_offset 8) sector_size input_capacity
                  else sret 0) in
  let! rem := slift (urem virtual_offset cs) in
  sret (classify_l2_entry st l2_entry bitmap (wsub virtual_offset rem)).

End reader.

(** ** The verdict *)

(** How a subcluster reads. *)
Inductive ReadsAs : Type := FromHost | AsZeros | FromBacking | Inflated | Refused.

#[global] Instance ReadsAs_eq_dec : EqDecision ReadsAs.
Proof. solve_decision. Defined.

Definition reads_as (ty : SubclusterType) : ReadsAs :=
  match ty with
  | ScNormal => FromHost
  | ScZeroPlain | ScZeroAlloc => AsZeros
  | ScUnallocatedPlain | ScUnallocatedAlloc => FromBacking
  | ScCompressed => Inflated
  | ScInvalid => Refused
  end.

(** Within one extended entry, invalid and compressed are properties of the whole
    entry, and different types read differently. *)
Lemma types_of_entry e bm df i j : 0 <= i < 32 -> 0 <= j < 32 ->
  (subcluster_type e bm i true df = ScInvalid <-> subcluster_type e bm j true df = ScInvalid) /\
  (subcluster_type e bm i true df = ScCompressed <-> subcluster_type e bm j true df = ScCompressed) /\
  (subcluster_type e bm i true df <> subcluster_type e bm j true df ->
   reads_as (subcluster_type e bm i true df) <> reads_as (subcluster_type e bm j true df)).
Proof.
  intros Hi Hj. unfold subcluster_type, subclusters_per_cluster, QCOW_EXTL2_SUBCLUSTERS_PER_CLUSTER.
  destruct (Z.leb_spec 32 i), (Z.leb_spec 32 j); try lia. cbn [negb].
  destruct (cluster_type e true df); try (by split_and!); repeat case_match; by split_and!.
Qed.

(** The first run of an entry, whatever the entry size. *)
Lemma first_run e bm ext df ty run : subcluster_range e bm 0 ext df = (ty, run) ->
  ty = subcluster_type e bm 0 ext df /\
  (ty <> ScInvalid -> 1 <= run <= subclusters_per_cluster ext /\
     (forall k, 0 <= k < run -> subcluster_type e bm k ext df = ty) /\
     (ty <> ScCompressed -> run < subclusters_per_cluster ext -> subcluster_type e bm run ext df <> ty)) /\
  (ty = ScCompressed -> run = subclusters_per_cluster ext).
Proof.
  intros Hr. destruct ext.
  - pose proof (subcluster_range_run e bm 0 df ty run ltac:(lia) Hr) as (Hty & _ & Hrun). split; [done|].
    change (subclusters_per_cluster true) with 32. split.
    + intros Hn. destruct (Hrun Hn) as (H1 & H2 & H3 & H4). split; [lia|]. by split.
    + intros ->. unfold subcluster_range in Hr. rewrite <- Hty in Hr. destruct (decide _); [done|].
      rewrite bool_decide_eq_true_2, orb_true_r in Hr by done. by injection Hr as <-.
  - unfold subcluster_range in Hr. cbn [negb orb] in Hr. destruct (decide _) as [Hi|Hi].
    + injection Hr as <- <-. by rewrite Hi.
    + injection Hr as <- <-. cbn. split; [done|]. split; [|done]. intros _.
      split; [lia|]. split; [|lia]. intros k Hk. by replace k with 0 by lia.
Qed.

Definition verdict_ok (st : Qcow2State) (e bm guest : Z) (v : ClusterLookup) : Prop :=
  let ext := st_extended_l2 st in
  let ty sc := subcluster_type e bm sc ext (has_data_file st) in
  let n := subclusters_per_cluster ext in
  match v with
  | ClDataFileRefused DfCompressed => has_data_file st = true /\ ty 0 = ScCompressed
  | ClDataFileRefused DfHostOffsetMismatch =>
      has_data_file st = true /\ l2_entry_names_host_cluster e ext true = true /\
      Z.land e L2_OFFSET_MASK <> guest
  | ClInvalid => forall sc, 0 <= sc < n -> reads_as (ty sc) = Refused
  | ClCompressed e' => e' = e /\ forall sc, 0 <= sc < n -> reads_as (ty sc) = Inflated
  | ClStandard h => h = Z.land e L2_OFFSET_MASK /\ forall sc, 0 <= sc < n -> reads_as (ty sc) = FromHost
  | ClZero => forall sc, 0 <= sc < n -> reads_as (ty sc) = AsZeros
  | ClUnallocated => forall sc, 0 <= sc < n -> reads_as (ty sc) = FromBacking
  | ClStandardSubclusters e' bm' =>
      (e', bm') = (e, bm) /\
      (forall sc, 0 <= sc < n -> reads_as (ty sc) <> Refused /\ reads_as (ty sc) <> Inflated) /\
      exists sc1 sc2, 0 <= sc1 < n /\ 0 <= sc2 < n /\ reads_as (ty sc1) <> reads_as (ty sc2)
  end.

Lemma mixed_entry e bm df run : 1 <= run < 32 ->
  subcluster_type e bm run true df <> subcluster_type e bm 0 true df ->
  subcluster_type e bm 0 true df <> ScInvalid -> subcluster_type e bm 0 true df <> ScCompressed ->
  (forall sc, 0 <= sc < 32 -> reads_as (subcluster_type e bm sc true df) <> Refused /\
                              reads_as (subcluster_type e bm sc true df) <> Inflated) /\
  exists sc1 sc2, 0 <= sc1 < 32 /\ 0 <= sc2 < 32 /\
    reads_as (subcluster_type e bm sc1 true df) <> reads_as (subcluster_type e bm sc2 true df).
Proof.
  intros Hr Hne Hi Hc. split.
  - intros sc Hsc. destruct (types_of_entry e bm df sc 0 Hsc ltac:(lia)) as (H1 & H2 & _).
    destruct (subcluster_type e bm sc true df); cbn; split; try done; intros _; [by apply Hc, H2 | by apply Hi, H1].
  - exists run, 0. split; [lia|]. split; [lia|].
    by apply (types_of_entry e bm df run 0 ltac:(lia) ltac:(lia)).
Qed.

(** The verdict once the data-file rules are passed. *)
Lemma classify_rest st e bm guest ty run :
  let ext := st_extended_l2 st in
  subcluster_range e bm 0 ext (has_data_file st) = (ty, run) ->
  verdict_ok st e bm guest
    (match ty with
     | ScInvalid => ClInvalid
     | ScCompressed => ClCompressed e
     | _ => if run <? subclusters_per_cluster ext then ClStandardSubclusters e bm
            else match ty with
                 | ScNormal => ClStandard (Z.land e L2_OFFSET_MASK)
                 | ScZeroPlain | ScZeroAlloc => ClZero
                 | _ => ClUnallocated
                 end
     end).
Proof.
  cbv zeta. set (ext := st_extended_l2 st). set (df := has_data_file st). intros Hr.
  destruct (first_run _ _ _ _ _ _ Hr) as (Hty & Hrun & Hcomp). unfold verdict_ok. fold ext df.
  destruct (decide (ty = ScInvalid)) as [->|Hni].
  { intros sc Hsc. destruct ext; [|by replace sc with 0 by (cbn in Hsc; lia); rewrite <- Hty].
    destruct (types_of_entry e bm df sc 0 Hsc ltac:(lia)) as (Hinv & _). rewrite (proj2 Hinv); done. }
  destruct (Hrun Hni) as (Hbd & Hall & Hnext). destruct (decide (ty = ScCompressed)) as [->|Hnc].
  { split; [done|]. intros sc Hsc. by rewrite Hall by (rewrite Hcomp by done; lia). }
  specialize (Hnext Hnc). destruct (Z.ltb_spec run (subclusters_per_cluster ext)) as [Hlt|Hge].
  - destruct ext; [|cbn in Hlt; lia]. change (subclusters_per_cluster true) with 32 in *.
    pose proof (mixed_entry e bm df run ltac:(lia)) as Hmix. rewrite <- Hty in Hmix.
    destruct ty; try done; (split; [done|]); apply Hmix; auto.
  - destruct ty; try done; try (split; [done|]); intros sc Hsc; by rewrite Hall by lia.
Qed.

Lemma classify_verdict st e bm guest : verdict_ok st e bm guest (classify_l2_entry st e bm guest).
Proof.
  unfold classify_l2_entry. destruct (subcluster_range e bm 0 _ _) as [ty run] eqn:Hr.
  pose proof (classify_rest st e bm guest ty run Hr) as Hrest.
  destruct (first_run _ _ _ _ _ _ Hr) as (Hty & _). unfold data_file_entry_violation.
  destruct (has_data_file st) eqn:Hdf; cbn [negb]; [|exact Hrest]. rewrite <- Hty.
  destruct (decide (ty = ScInvalid)) as [->|Hni]; [exact Hrest|].
  destruct (decide (ty = ScCompressed)) as [->|Hnc]; [by unfold verdict_ok; rewrite Hdf, <- Hty|].
  destruct (l2_entry_names_host_cluster e (st_extended_l2 st) true) eqn:Hn; cbn [andb];
    [|by destruct ty].
  destruct (Z.eqb_spec (Z.land e L2_OFFSET_MASK) guest) as [Heq|Hne]; cbn [negb]; [by destruct ty|].
  destruct ty; try done; unfold verdict_ok; by rewrite Hdf, Hn.
Qed.

(** ** The lookup *)

(** What [init] establishes. *)
Record state_ok (st : Qcow2State) (ssz : Z) : Prop := {
  so_bits : 9 <= cluster_bits st <= 21;
  so_size : cluster_size st = 2 ^ cluster_bits st;
  so_l1 : is_u32 (l1_size st);
  so_l1off : 0 < l1_table_offset st /\ l1_table_offset st + l1_size st * 8 <= u64_max
}.

(** Bytes of an L2 entry, and entries of an L2 table. *)
Definition entry_size (st : Qcow2State) : Z := if st_extended_l2 st then 16 else 8.
Definition entries_per_l2 (st : Qcow2State) : Z := 2 ^ cluster_bits st / entry_size st.

(** The lookup on the bytes of the image: no cache, no overflow check. *)
Definition cluster_ref (st : Qcow2State) (ssz cap : Z) (img : bytes) (voff : Z) : option ClusterLookup :=
  let c := voff / 2 ^ cluster_bits st in
  if l1_size st <=? c / entries_per_l2 st then Some ClUnallocated
  else
    l1_entry ← direct_read ssz cap img 8 be_val (l1_table_offset st + 8 * (c / entries_per_l2 st));
    let t := Z.land l1_entry L2_OFFSET_MASK in
    if t =? 0 then Some ClUnallocated
    else if cap * ssz <=? t then None
    else
      let at_entry := t + c mod entries_per_l2 st * entry_size st in
      e ← direct_read ssz cap img 8 be_val at_entry;
      bm ← (if st_extended_l2 st then direct_read ssz cap img 8 be_val (at_entry + 8) else Some 0);
      Some (classify_l2_entry st e bm (c * 2 ^ cluster_bits st)).

Section correct.
Context {H : Type} `{FlatInput H} (dev ssz cap : Z) (img : bytes).
Context (Hdev : device_ok ssz cap img) (Hb : is_bytes img).

Lemma l2_mask_bound x : 0 <= Z.land x L2_OFFSET_MASK < 2 ^ 56.
Proof.
  change L2_OFFSET_MASK with (Z.shiftl (Z.ones 47) 9). split; [apply Z.land_nonneg; right; done|].
  apply Z.le_lt_trans with (Z.shiftl (Z.ones 47) 9); [|done]. apply Z.ldiff_le; [done|].
  apply Z.bits_inj'. intros k Hk. rewrite Z.ldiff_spec, Z.land_spec, Z.bits_0.
  destruct (Z.testbit x k), (Z.testbit (Z.shiftl (Z.ones 47) 9) k); done.
Qed.

(** The numbers of a table walk stay small. *)
Lemma walk_numbers st voff : state_ok st ssz -> is_u64 voff ->
  0 < entries_per_l2 st <= 2 ^ 18 /\ 2 ^ cluster_bits st / entry_size st * entry_size st = 2 ^ cluster_bits st /\
  voff / 2 ^ cluster_bits st / entries_per_l2 st = voff / (2 ^ cluster_bits st * entries_per_l2 st) /\
  512 <= 2 ^ cluster_bits st <= 2 ^ 21.
Proof.
  intros [Hbits _ _ _] Hv.
  assert (2 ^ 9 <= 2 ^ cluster_bits st) as Hlo by (apply Z.pow_le_mono_r; lia).
  assert (2 ^ cluster_bits st <= 2 ^ 21) as Hhi by (apply Z.pow_le_mono_r; lia).
  change (2 ^ 9) with 512 in Hlo. unfold entries_per_l2.
  assert (exists q, 2 ^ cluster_bits st = q * entry_size st /\ 0 < entry_size st /\ 8 <= entry_size st) as (q & Hq & He & He8).
  { unfold entry_size. destruct (st_extended_l2 st).
    - exists (2 ^ (cluster_bits st - 4)). change 16 with (2 ^ 4). rewrite <- Z.pow_add_r by lia.
      split; [f_equal; lia|lia].
    - exists (2 ^ (cluster_bits st - 3)). change 8 with (2 ^ 3). rewrite <- Z.pow_add_r by lia.
      split; [f_equal; lia|lia]. }
  rewrite Hq, Z.div_mul by lia. rewrite Hq in Hlo, Hhi. change (2 ^ 21) with 2097152 in *. change (2 ^ 18) with 262144.
  split; [nia|]. split; [done|]. split; [|lia]. rewrite Z.div_div by nia. done.
Qed.

Lemma cluster_computes st voff : state_ok st ssz -> device_idx st = dev -> is_u64 voff ->
  computes dev ssz img (cluster_lookup st ssz cap voff) (cluster_ref st ssz cap img voff).
Proof.
  intros Hok Hdx Hv. destruct (walk_numbers st voff Hok Hv) as (Hepl & Hdiv & Hdd & Hcs).
  destruct Hok as [Hbits Hsize Hl1 [Ho Hoe]]. unfold cluster_lookup, cluster_ref. cbv zeta.
  pose proof (do_size _ _ _ Hdev). pose proof (do_ssz _ _ _ Hdev) as Hz. pose proof (do_cap _ _ _ Hdev) as Hc.
  pose proof (do_len _ _ _ Hdev).
  change (if st_extended_l2 st then 16 else 8) with (entry_size st). rewrite Hsize, Hdx.
  change (2 ^ cluster_bits st / entry_size st) with (entries_per_l2 st).
  assert (8 <= entry_size st <= 16) as Hes by (unfold entry_size; destruct (st_extended_l2 st); lia).
  set (cs := 2 ^ cluster_bits st) in *. set (epl := entries_per_l2 st) in *. set (es := entry_size st) in *.
  change (2 ^ 18) with 262144 in Hepl. change (2 ^ 21) with 2097152 in Hcs.
  unfold is_u64, is_u32, u32_max in *. rewrite wmul_small by (unfold u64_max; nia).
  eapply computes_ok; [unfold udiv; rewrite (proj2 (Z.eqb_neq (cs * epl) 0)) by nia; reflexivity|].
  eapply computes_ok; [unfold udiv; rewrite (proj2 (Z.eqb_neq cs 0)) by lia; reflexivity|].
  eapply computes_ok; [unfold urem; rewrite (proj2 (Z.eqb_neq epl 0)) by lia; reflexivity|].
  rewrite <- Hdd. pose proof (Z.div_pos voff cs ltac:(lia) ltac:(lia)) as Hc0.
  set (c := voff / cs) in *. pose proof (Z.div_pos c epl ltac:(lia) ltac:(lia)) as Hi0.
  pose proof (Z.mod_pos_bound c epl ltac:(lia)) as Hm.
  apply computes_if; intros Hlt; [apply computes_ret|]. bool_to_prop. rewrite (Z.mul_comm 8).
  eapply computes_some; [apply checked_mul_eq; unfold u64_max; lia|].
  eapply computes_some; [apply checked_add_eq; lia|].
  apply computes_bind; [apply computes_read; [done | unfold is_u64; lia | lia]|]. intros l1e _.
  pose proof (l2_mask_bound l1e) as Ht. set (t := Z.land l1e L2_OFFSET_MASK) in *.
  change (2 ^ 56) with 72057594037927936 in Ht.
  apply computes_if; intros _; [apply computes_ret|].
  eapply computes_some; [apply checked_mul_eq; lia|]. apply computes_if; intros _; [apply computes_fail|].
  assert (c mod epl * es <= 262144 * 16) as Hle by (apply Z.mul_le_mono_nonneg; lia).
  eapply computes_some; [apply checked_mul_eq; unfold u64_max; lia|].
  eapply computes_some; [apply checked_add_eq; unfold u64_max; lia|].
  assert (0 <= c mod epl * es) by nia.
  apply computes_bind; [apply computes_read; [done | unfold is_u64, u64_max; lia | lia]|]. intros e _.
  rewrite wadd_small by (unfold u64_max; lia).
  apply computes_bind.
  { destruct (st_extended_l2 st); [|apply computes_ret].
    apply computes_read; [done | unfold is_u64, u64_max; lia | lia]. }
  intros bm _. eapply computes_ok; [unfold urem; rewrite (proj2 (Z.eqb_neq cs 0)) by lia; reflexivity|].
  pose proof (Z.div_mod voff cs ltac:(lia)). pose proof (Z.mod_pos_bound voff cs ltac:(lia)).
  rewrite wsub_small by (unfold u64_max in *; lia). replace (voff - voff mod cs) with (c * cs) by (unfold c; lia).
  apply computes_ret.
Qed.

(** ** [init] *)

Definition rd32 (off : Z) : option Z := direct_read ssz cap img 4 be_val off.
Definition rd64 (off : Z) : option Z := direct_read ssz cap img 8 be_val off.

(** [init] on the bytes of the image; the encryption pointer is left out. *)
Definition init_ref : option Qcow2State :=
  version ← rd32 VERSION_OFFSET;
  if negb (version =? 2) && negb (version =? 3) then None
  else
  cbits ← rd32 CLUSTER_BITS_OFFSET;
  if negb ((9 <=? cbits) && (cbits <=? 21)) then None
  else
  _ ← rd64 SIZE_OFFSET;
  crypt ← rd32 CRYPT_METHOD_OFFSET;
  '(features, ct) ←
    (if 3 <=? version then
       features ← rd64 INCOMPATIBLE_FEATURES_OFFSET;
       w ← rd32 COMPRESSION_TYPE_OFFSET;
       _ ← (if crypt =? 2 then rd32 HEADER_LENGTH_OFFSET else Some 0);
       Some (features, w / 2 ^ 24)
     else Some (0, 0));
  l1 ← rd32 L1_SIZE_OFFSET;
  off ← rd64 L1_TABLE_OFFSET_OFFSET;
  if (off =? 0) || (cap * ssz <? off + l1 * 8) || (cap * ssz <=? off) then None
  else Some (mkQcow2State dev (2 ^ cbits) cbits l1 off features ct crypt 0 0
               (nonzero (Z.land features INCOMPAT_EXTENDED_L2))).

Definition drop_luks (st : Qcow2State) : Qcow2State :=
  mkQcow2State (device_idx st) (cluster_size st) (cluster_bits st) (l1_size st) (l1_table_offset st)
    (st_incompatible_features st) (st_compression_type st) (st_crypt_method st) 0 0 (st_extended_l2 st).

Lemma yields_read32 off : is_u64 off ->
  yields dev ssz img (read32 dev ssz cap off) (fun v => rd32 off = Some v /\ is_u32 v) (rd32 off = None).
Proof.
  intros Ho s Hs. eapply wp_mono; [by apply (computes_read dev ssz cap img Hdev CacheA 4 be_val off Ho ltac:(lia) s Hs)| |done].
  intros v s' (Hs' & Hr & Hv). split; [done|]. split; [done|]. split; [done|].
  apply direct_read_bound in Hv; [|done|apply be_val_bound]. unfold is_u32, u32_max. lia.
Qed.

Lemma yields_read64 off : is_u64 off ->
  yields dev ssz img (read64 dev ssz cap off) (fun v => rd64 off = Some v /\ is_u64 v) (rd64 off = None).
Proof.
  intros Ho s Hs. eapply wp_mono; [by apply (computes_read dev ssz cap img Hdev CacheA 8 be_val off Ho ltac:(lia) s Hs)| |done].
  intros v s' (Hs' & Hr & Hv). split; [done|]. split; [done|]. split; [done|].
  apply direct_read_bound in Hv; [|done|apply be_val_bound]. unfold is_u64, u64_max. lia.
Qed.

(** A looked-at read never fails. *)
Lemma yields_attempt {A} (m : SM (InSt H) unit A) R F :
  yields dev ssz img m R F ->
  yields dev ssz img (attempt m) (fun o => forall a, o = Some a -> R a) False.
Proof.
  intros Hm s Hs. specialize (Hm s Hs). unfold wp, attempt in *.
  destruct (m s) as [[a|e| |] s']; try done.
  - destruct Hm as (? & ? & ?). split; [done|]. split; [done|]. by intros ? [= <-].
  - destruct Hm as (? & Hr). split; [done|]. split; [|done]. intros Hh. by apply Hr.
Qed.

Lemma yields_luks_pointer p : 0 <= p <= 4294967296 + 1048576 ->
  yields dev ssz img (luks_pointer dev ssz cap p) (fun _ => True) False.
Proof.
  intros Hp. unfold luks_pointer. rewrite !wadd_small by (unfold u64_max; lia).
  repeat (eapply yields_bind; [eapply yields_attempt, yields_read32; unfold is_u64, u64_max; lia| |done];
          intros ? _). by apply yields_ret.
Qed.

(** The extension scan ends, within its fuel, at whatever lengths it meets. *)
Lemma yields_luks_scan fuel : forall off, 0 <= off <= u32_max + 1048576 + 16 ->
  (1048576 - off) / 8 < Z.of_nat fuel -> 1 <= Z.of_nat fuel ->
  yields dev ssz img (luks_scan dev ssz cap fuel off) (fun _ => True) False.
Proof.
  induction fuel as [|fuel IH]; intros off Ho Hf Hf1; [lia|]. cbn [luks_scan]. unfold u32_max in Ho.
  rewrite wadd_small by (unfold u64_max; lia).
  destruct (Z.ltb_spec (off + 8) 1048576) as [Hlt|]; [|by apply yields_ret].
  eapply yields_bind; [eapply yields_attempt, yields_read32; unfold is_u64, u64_max; lia| |done].
  intros [ty|] _; [|by apply yields_ret]. rewrite wadd_small by (unfold u64_max; lia).
  eapply yields_bind; [eapply yields_attempt, yields_read32; unfold is_u64, u64_max; lia| |done].
  intros [len|] Hlen; [|by apply yields_ret]. destruct (Hlen len eq_refl) as [_ Hl]. unfold is_u32, u32_max in Hl.
  destruct (ty =? EXT_END); [by apply yields_ret|].
  destruct (_ && _); [apply yields_luks_pointer; lia|].
  assert (0 <= Z.land (wadd len 7) (not64 7) <= len + 7) as Hround.
  { rewrite wadd_small by (unfold u64_max; lia).
    change (not64 7) with (Z.ldiff (Z.ones 64) (Z.ones 3)). rewrite Z.ldiff_land, Z.land_assoc, Z.land_ones by lia.
    rewrite Z.mod_small by lia. rewrite <- Z.ldiff_land, Z.ldiff_ones_r by lia.
    rewrite Z.shiftl_mul_pow2, Z.shiftr_div_pow2 by lia.
    pose proof (Z.div_mod (len + 7) (2 ^ 3) ltac:(lia)). pose proof (Z.mod_pos_bound (len + 7) (2 ^ 3) ltac:(lia)).
    pose proof (Z.div_pos (len + 7) (2 ^ 3) ltac:(lia) ltac:(lia)). lia. }
  set (r := Z.land _ _) in *. clearbody r.
  rewrite (wadd_small 8 r), wadd_small by (unfold u64_max; lia).
  assert ((1048576 - (off + (8 + r))) / 8 <= (1048576 - off) / 8 - 1) as Hdec.
  { replace ((1048576 - off) / 8 - 1) with ((1048576 - off + -1 * 8) / 8) by (rewrite Z.div_add by lia; lia).
    apply Z.div_le_mono; lia. }
  assert (1 <= (1048576 - off) / 8) by (apply Z.div_le_lower_bound; lia).
  apply IH; [unfold u32_max; lia | lia | lia].
Qed.

Lemma yields_init_v3 version crypt :
  yields dev ssz img (init_v3 dev ssz cap version crypt)
    (fun r => (if 3 <=? version then
       features ← rd64 INCOMPATIBLE_FEATURES_OFFSET;
       w ← rd32 COMPRESSION_TYPE_OFFSET;
       _ ← (if crypt =? 2 then rd32 HEADER_LENGTH_OFFSET else Some 0);
       Some (features, w / 2 ^ 24)
     else Some (0, 0)) = Some (fst r))
    ((if 3 <=? version then
       features ← rd64 INCOMPATIBLE_FEATURES_OFFSET;
       w ← rd32 COMPRESSION_TYPE_OFFSET;
       _ ← (if crypt =? 2 then rd32 HEADER_LENGTH_OFFSET else Some 0);
       Some (features, w / 2 ^ 24)
     else Some (0, 0)) = None).
Proof.
  unfold init_v3. destruct (3 <=? version); [|by apply yields_ret].
  eapply yields_bind; [apply yields_read64; done | |by intros ->]. intros f [-> _]. cbn [mbind option_bind].
  eapply yields_bind; [apply yields_read32; done | |by intros ->]. intros w [-> Hw]. cbn [mbind option_bind].
  assert (as_u8 (Z.shiftr w 24) = w / 2 ^ 24) as Hct.
  { unfold as_u8. rewrite Z.shiftr_div_pow2 by lia. unfold is_u32, u32_max in Hw. apply Z.mod_small.
    split; [apply Z.div_pos; lia | apply Z.div_lt_upper_bound; lia]. }
  destruct (crypt =? 2).
  - eapply (yields_bind _ _ _ _ _ (fun _ => is_Some (rd32 HEADER_LENGTH_OFFSET)) (rd32 HEADER_LENGTH_OFFSET = None)).
    + eapply yields_bind; [apply yields_read32; done | |done]. intros hl [-> Hhl].
      intros s Hs. unfold is_u32 in Hhl.
      eapply wp_mono; [apply (yields_luks_scan LUKS_FUEL hl ltac:(lia)); [| |exact Hs] | |].
      * change (Z.of_nat LUKS_FUEL) with 131073. apply Z.div_lt_upper_bound; lia.
      * change (Z.of_nat LUKS_FUEL) with 131073. lia.
      * intros ? ? (? & ? & _). by split_and!.
      * intros ? ? (? & Hr). split; [done|]. intros Hh. by destruct (Hr Hh).
    + intros luks [x ->]. apply yields_ret. cbn. by rewrite Hct.
    + by intros ->.
  - eapply (yields_bind _ _ _ _ _ (fun _ => True) False); [by apply yields_ret | |done].
    intros luks _. apply yields_ret. cbn. by rewrite Hct.
Qed.

Lemma yields_invalidate (R : unit -> Prop) (F : Prop) : R tt -> yields dev ssz img (smod invalidate) R F.
Proof.
  intros HR s [Hi Hc]. wstep. split; [|done]. split; [done|].
  intros []; (split; [apply (Hc CacheA) || apply (Hc CacheB) | by left]).
Qed.

Lemma yields_init : yields dev ssz img (init dev ssz cap) (fun st => init_ref = Some (drop_luks st)) (init_ref = None).
Proof.
  unfold init, init_ref. pose proof (do_size _ _ _ Hdev). pose proof (do_len _ _ _ Hdev).
  eapply yields_bind; [apply yields_read32; done | |by intros ->]. intros version [-> _]. cbn [mbind option_bind].
  destruct (negb _ && negb _); [by apply yields_fail|].
  eapply yields_bind; [apply yields_read32; done | |by intros ->]. intros cbits [-> _]. cbn [mbind option_bind].
  destruct (negb _) eqn:Hbits; [by apply yields_fail|]. bool_to_prop.
  assert (shl64 1 cbits = 2 ^ cbits) as ->.
  { unfold shl64. rewrite Z.shiftl_1_l, Z.mod_small; [done|]. change 18446744073709551616 with (2 ^ 64).
    split; [lia|]. apply Z.pow_lt_mono_r; lia. }
  assert (2 ^ cbits <= 2 ^ 21) as Hc21 by (apply Z.pow_le_mono_r; lia).
  destruct (Z.ltb_spec MAX_CLUSTER_SIZE (2 ^ cbits)) as [Hbad|_]; [change (2 ^ 21) with MAX_CLUSTER_SIZE in Hc21; lia|].
  eapply yields_bind; [apply yields_read64; done | |by intros ->]. intros size [-> _]. cbn [mbind option_bind].
  eapply yields_bind; [apply yields_read32; done | |by intros ->]. intros crypt [-> _]. cbn [mbind option_bind].
  eapply yields_bind; [apply yields_init_v3 | |by intros ->].
  intros [[features ct] [lo ll]] Hv3. cbn [fst] in Hv3. rewrite Hv3. cbn [mbind option_bind].
  eapply yields_bind; [apply yields_read32; done | |by intros ->]. intros l1 [-> Hl1]. cbn [mbind option_bind].
  eapply yields_bind; [apply yields_read64; done | |by intros ->]. intros off [-> Hoff]. cbn [mbind option_bind].
  unfold is_u32, is_u64, u32_max in *.
  assert (sat_mul cap ssz = cap * ssz) as -> by (unfold sat_mul; lia).
  assert (sat_mul l1 8 = l1 * 8) as -> by (unfold sat_mul, u64_max; lia).
  destruct (Z.eqb_spec off 0), (Z.leb_spec (cap * ssz) off), (Z.ltb_spec (cap * ssz) (off + l1 * 8));
    cbn [orb]; try (by apply yields_fail).
  - destruct (checked_add off (l1 * 8)) as [e|] eqn:He.
    + apply checked_add_Some in He as [-> _]. eapply yields_some; [done|].
      destruct (Z.ltb_spec (cap * ssz) (off + l1 * 8)); [by apply yields_fail|lia].
    + intros s Hs. unfold or_none. wstep. by wstep.
  - eapply yields_some; [apply checked_add_eq; lia|].
    destruct (Z.ltb_spec (cap * ssz) (off + l1 * 8)); [lia|].
    eapply yields_bind; [by apply (yields_invalidate (fun _ => True) False) | |done]. intros _ _. by apply yields_ret.
Qed.

Lemma init_ref_state st : init_ref = Some (drop_luks st) -> state_ok st ssz /\ device_idx st = dev.
Proof.
  unfold init_ref. pose proof (do_size _ _ _ Hdev). pose proof (do_len _ _ _ Hdev).
  intros (version & _ & Hi)%bind_Some. destruct (negb _ && negb _); [done|].
  apply bind_Some in Hi as (cbits & _ & Hi). destruct (negb _) eqn:Hbits; [done|]. bool_to_prop.
  apply bind_Some in Hi as (size & _ & Hi). apply bind_Some in Hi as (crypt & _ & Hi).
  apply bind_Some in Hi as ([features ct] & _ & Hi).
  apply bind_Some in Hi as (l1 & Hl1 & Hi). apply bind_Some in Hi as (off & Hoff & Hi).
  destruct ((_ || _) || _) eqn:Hg; [done|]. bool_to_prop.
  apply direct_read_bound in Hl1; [|done|apply be_val_bound]. apply direct_read_bound in Hoff; [|done|apply be_val_bound].
  injection Hi as Hd Hs Hc Hl Ho _ _ _ _. split; [|done].
  constructor; rewrite <- ?Hc, <- ?Hs, <- ?Hl, <- ?Ho; unfold is_u32, u32_max; lia || done.
Qed.

End correct.

#[global] Program Instance Qcow2_format : LookupFormat Qcow2State ClusterLookup := {
  lf_device := device_idx;
  lf_lookup H _ := cluster_lookup;
  lf_ref := cluster_ref;
  lf_ok := state_ok
}.
Next Obligation. intros. by apply cluster_computes. Qed.

(** Opening and a sequence of lookups, against the walk over the image. *)
Lemma qcow2_lookups_spec {H : Type} `{FlatInput H} (dev ssz cap : Z) (img : bytes) (voffs : list Z)
    (s : InSt H) :
  device_ok ssz cap img -> is_bytes img -> Forall is_u64 voffs -> reader_ok dev ssz img s ->
  wp (open_and_lookup (init dev ssz cap) ssz cap voffs)
    (fun r _ => init_ref dev ssz cap img = Some (drop_luks (fst r)) /\ state_ok (fst r) ssz /\
                mapM (cluster_ref (fst r) ssz cap img) voffs = Some (snd r))
    (fun _ _ => responsive (in_host s) ->
       init_ref dev ssz cap img = None \/
       exists st voff, init_ref dev ssz cap img = Some (drop_luks st) /\ voff ∈ voffs /\
                       cluster_ref st ssz cap img voff = None) s.
Proof.
  intros Hdev Hb Hvs Hs.
  eapply wp_mono; [apply (opened_lookups _ (fun st => init_ref dev ssz cap img = Some (drop_luks st))
    (init_ref dev ssz cap img = None) dev ssz cap img); try done | by intros |].
  - by apply yields_init.
  - intros st Hst. by apply (init_ref_state dev ssz cap img Hdev Hb).
  - intros ? ? Hfail Hresp. destruct (Hfail Hresp) as [Hn|(st & voff & Hst & _ & Hin & _ & Hn)]; [by left|right].
    by exists st, voff.
Qed.

(** ** Properties *)

(** C30: Opening a qcow2 image and looking up any sequence of guest offsets, on a flat
    device and whatever the L1 and L2 sector caches hold, never panics or loops
    (the extension scan of encrypted images included).  An opened image has
    512-byte to 2 MiB clusters and an L1 table inside the device; every answer is
    the verdict on the L2 entry, and the subcluster bitmap of extended images,
    found by walking the tables in the bytes of the image; and without read
    errors it fails only where the header or the tables are not readable.  Of the
    extension scan only that it ends without a panic is said: the place of the
    encryption header it found is left out of the comparison ([drop_luks]). *)
Theorem qcow2_lookups_exact {H : Type} `{FlatInput H} (dev ssz cap : Z) (img : bytes) (voffs : list Z)
    (s : InSt H) :
  device_ok ssz cap img -> is_bytes img -> Forall is_u64 voffs -> reader_ok dev ssz img s ->
  wp (open_and_lookup (init dev ssz cap) ssz cap voffs)
    (fun r _ => init_ref dev ssz cap img = Some (drop_luks (fst r)) /\ state_ok (fst r) ssz /\
                mapM (cluster_ref (fst r) ssz cap img) voffs = Some (snd r))
    (fun _ _ => responsive (in_host s) ->
       init_ref dev ssz cap img = None \/
       exists st voff, init_ref dev ssz cap img = Some (drop_luks st) /\ voff ∈ voffs /\
                       cluster_ref st ssz cap img voff = None) s.
Proof. apply qcow2_lookups_spec. Qed.

(** The verdict of [classify_l2_entry] is exact.  An entry is refused by a
    data-file rule only in an image with a data file, when it is compressed or
    names a host cluster other than the guest's; every other verdict says how all
    the subclusters of the cluster read: from the host at the entry's offset, as
    zeros, from the backing image, inflated, or not at all; and an entry is
    reported as mixed only if two of its subclusters do read differently. *)
Theorem cluster_verdict_exact (st : Qcow2State) (l2_entry bitmap guest : Z) :
  verdict_ok st l2_entry bitmap guest (classify_l2_entry st l2_entry bitmap guest).
Proof. apply classify_verdict. Qed.

(** A v3 image with 512-byte clusters: L1 at 512, L2 at 1024, cluster 0 at 2048,
    cluster 1 zero, the others unallocated. *)
Definition demo_qcow2 : bytes :=
  be_bytes 4 0x514649fb ++ be_bytes 4 3 ++ filled 12 0 ++ be_bytes 4 9 ++ be_bytes 8 65536 ++ be_bytes 4 0 ++
  be_bytes 4 2 ++ be_bytes 8 512 ++ filled 464 0 ++
  be_bytes 8 (Z.lor OFLAG_COPIED 1024) ++ filled 504 0 ++
  be_bytes 8 (Z.lor OFLAG_COPIED 2048) ++ be_bytes 8 1 ++ filled 496 0.

Definition demo_qcow2_device : InSt VecInput :=
  InSt_new (mkVecInput [demo_qcow2]) 0 (filled 512 0) (filled 512 0).

Lemma qcow2_lookups_exact_witness :
  (open_and_lookup (init 0 512 3) 512 3 [5; 600; 1024; 40000; 100000] demo_qcow2_device).1 =
    Ok (mkQcow2State 0 512 9 2 512 0 0 0 0 0 false,
        [ClStandard 2048; ClZero; ClUnallocated; ClUnallocated; ClUnallocated]) /\
  wp (open_and_lookup (init 0 512 3) 512 3 [5; 600; 1024; 40000; 100000])
    (fun r _ => init_ref 0 512 3 demo_qcow2 = Some (drop_luks (fst r)) /\ state_ok (fst r) 512 /\
                mapM (cluster_ref (fst r) 512 3 demo_qcow2) [5; 600; 1024; 40000; 100000] = Some (snd r))
    (fun _ _ => responsive (in_host demo_qcow2_device) ->
       init_ref 0 512 3 demo_qcow2 = None \/
       exists st voff, init_ref 0 512 3 demo_qcow2 = Some (drop_luks st) /\ voff ∈ [5; 600; 1024; 40000; 100000] /\
                       cluster_ref st 512 3 demo_qcow2 voff = None) demo_qcow2_device.
Proof.
  split; [vm_compute; reflexivity|].
  apply (qcow2_lookups_exact 0 512 3 demo_qcow2 [5; 600; 1024; 40000; 100000] demo_qcow2_device).
  - constructor; try split; vm_compute; discriminate || reflexivity.
  - apply is_bytesb_true. vm_compute. reflexivity.
  - repeat constructor; vm_compute; discriminate.
  - by apply vec_ready.
Defined.
