(* ===== verification/SnapTable.v ===== *)
(** The snapshot-table codec ([src/src/crates/snapshot/src/table.rs]) and the header
    parser it is checked against ([parse_snapshot_header_bytes] and
    [parse_snapshot_extra_data] of [src/src/crates/qcow2/src/lib.rs]).

    The abstract view of a table is the list of its raw entries, [holds]; the walks,
    the append of create, the compaction of delete and the lookup of apply and
    delete are operations on that list. *)

From stdpp Require Import base numbers list sets option.
From Stdlib Require Import ZArith Lia.
From S2P Require Import Prelude Bytes Refcount ExecBytes.

(** ** Definitions *)

Definition SNAPSHOT_HEADER_SIZE : Z := 40.
Definition SNAPSHOT_EXTRA_DATA_SIZE : Z := 24.
Definition QCOW_MAX_SNAPSHOT_EXTRA_DATA : Z := 1024.

Record NewSnapshotEntry : Type := mkNewSnapshotEntry {
  ns_l1_table_offset : Z;
  ns_l1_size : Z;
  ns_id : bytes;
  ns_name : bytes;
  ns_date_sec : Z;
  ns_date_nsec : Z;
  ns_vm_clock_nsec : Z;
  ns_vm_state_size : Z;
  ns_vm_state_size_large : Z;
  ns_disk_size : Z;
  ns_icount : Z
}.

(** The output buffer is the state. *)
Abbreviation OM := (SM bytes SnapshotError).

(** [out[a..a + src.len()].copy_from_slice(src)]. *)
Definition put (a : Z) (src : bytes) : OM unit :=
  let! out := sget in
  let! out' := slift (or_panic (splice out a src)) in
  sput out'.

Definition serialize_snapshot_entry (e : NewSnapshotEntry) : OM Z :=
  if (u16_max <? blen (ns_id e)) || (u16_max <? blen (ns_name e)) then sfail InvalidConfig
  else
  let total := SNAPSHOT_HEADER_SIZE + SNAPSHOT_EXTRA_DATA_SIZE + blen (ns_id e) + blen (ns_name e) in
  let! out := sget in
  if blen out <? total then sfail MisalignedAccess
  else
  do! put 0 (be_bytes 8 (ns_l1_table_offset e)) in
  do! put 8 (be_bytes 4 (ns_l1_size e)) in
  do! put 12 (be_bytes 2 (as_u16 (blen (ns_id e)))) in
  do! put 14 (be_bytes 2 (as_u16 (blen (ns_name e)))) in
  do! put 16 (be_bytes 4 (ns_date_sec e)) in
  do! put 20 (be_bytes 4 (ns_date_nsec e)) in
  do! put 24 (be_bytes 8 (ns_vm_clock_nsec e)) in
  do! put 32 (be_bytes 4 (ns_vm_state_size e)) in
  do! put 36 (be_bytes 4 SNAPSHOT_EXTRA_DATA_SIZE) in
  do! put 40 (be_bytes 8 (ns_vm_state_size_large e)) in
  do! put 48 (be_bytes 8 (ns_disk_size e)) in
  do! put 56 (be_bytes 8 (ns_icount e)) in
  let id_start := SNAPSHOT_HEADER_SIZE + SNAPSHOT_EXTRA_DATA_SIZE in
  do! put id_start (ns_id e) in
  let name_start := id_start + blen (ns_id e) in
  do! put name_start (ns_name e) in
  sret total.

Definition round_up_8 (v : Z) : option Z :=
  match checked_add v 7 with
  | Some x => Some (Z.land x (not64 7))
  | None => None
  end.

Definition entry_bounds_at (table : bytes) (offset : Z) : outcome SnapshotError (Z * Z) :=
  let? start := ok_or (round_up_8 offset) ParseFailed in
  let? header_end := ok_or (checked_add start SNAPSHOT_HEADER_SIZE) ParseFailed in
  if blen table <? header_end then Err ParseFailed
  else
  let? extra_data_size := be_u32 table (start + 36) in
  let? id_str_size := be_u16 table (start + 12) in
  let? name_size := be_u16 table (start + 14) in
  let? entry_len :=
    ok_or (v ← checked_add SNAPSHOT_HEADER_SIZE extra_data_size;
           w ← checked_add v id_str_size;
           checked_add w name_size) ParseFailed in
  let? entry_end := ok_or (checked_add start entry_len) ParseFailed in
  if blen table <? entry_end then Err ParseFailed else Ok (start, entry_len).

(** [n] turns of the walk from [offset]. *)
Fixpoint walk_entries (table : bytes) (n : nat) (offset : Z) : outcome SnapshotError Z :=
  match n with
  | O => Ok offset
  | S n' => let? (start, len) := entry_bounds_at table offset in
            walk_entries table n' (wadd start len)
  end.

Definition snapshot_table_byte_len (table : bytes) (nb_snapshots : Z) : outcome SnapshotError Z :=
  walk_entries table (Z.to_nat nb_snapshots) 0.

(** The walk to entry [n] more entries away. *)
Fixpoint bounds_walk (table : bytes) (n : nat) (offset : Z) : outcome SnapshotError (Z * Z) :=
  let? (start, len) := entry_bounds_at table offset in
  match n with
  | O => Ok (start, len)
  | S n' => bounds_walk table n' (wadd start len)
  end.

Definition snapshot_table_entry_bounds (table : bytes) (nb_snapshots index : Z) : outcome SnapshotError (Z * Z) :=
  if nb_snapshots <=? index then Err InvalidConfig
  else bounds_walk table (Z.to_nat index) 0.

(** The gap between [from] and [to] set to zero. *)
Definition zero_gap (from to : Z) : OM unit := put from (filled (to - from) 0).

Definition build_snapshot_table (old_table : bytes) (old_len : Z) (new_entry : bytes) : OM Z :=
  if blen old_table <? old_len then sfail MisalignedAccess
  else
  let! aligned := slift (ok_or (round_up_8 old_len) ParseFailed) in
  let! total := slift (ok_or (checked_add aligned (blen new_entry)) ParseFailed) in
  let! out := sget in
  if blen out <? total then sfail MisalignedAccess
  else
  let! old := slift (or_panic (slice old_table 0 old_len)) in
  do! put 0 old in
  do! zero_gap old_len aligned in
  do! put aligned new_entry in
  sret total.

Fixpoint compact_loop (table : bytes) (n : nat) (i remove_index in_offset out_offset : Z) : OM Z :=
  match n with
  | O => sret out_offset
  | S n' =>
      let! (start, len) := slift (entry_bounds_at table in_offset) in
      let in_offset' := wadd start len in
      if i =? remove_index then compact_loop table n' (i + 1) remove_index in_offset' out_offset
      else
      let! aligned := slift (ok_or (round_up_8 out_offset) ParseFailed) in
      let! fin := slift (ok_or (checked_add aligned len) ParseFailed) in
      let! out := sget in
      if blen out <? fin then sfail MisalignedAccess
      else
      do! zero_gap out_offset aligned in
      let! e := slift (or_panic (slice table start (wadd start len))) in
      do! put aligned e in
      compact_loop table n' (i + 1) remove_index in_offset' fin
  end.

Definition build_snapshot_table_without (old_table : bytes) (old_len nb_snapshots remove_index : Z) : OM Z :=
  if nb_snapshots <=? remove_index then sfail InvalidConfig
  else if blen old_table <? old_len then sfail MisalignedAccess
  else
  let! table := slift (or_panic (slice old_table 0 old_len)) in
  compact_loop table (Z.to_nat nb_snapshots) 0 remove_index 0 0.

Inductive MatchMode : Type := IdThenName | NameOnly.

Record FoundSnapshot : Type := mkFoundSnapshot {
  fs_index : Z;
  fs_l1_table_offset : Z;
  fs_l1_size : Z;
  fs_disk_size_or_zero : Z
}.

Definition found_snapshot_at (table : bytes) (index start extra : Z) : outcome SnapshotError FoundSnapshot :=
  let? l1_table_offset := be_u64 table start in
  let? l1_size := be_u32 table (start + 8) in
  let? disk_size := (if 16 <=? extra then be_u64 table (start + SNAPSHOT_HEADER_SIZE + 8) else Ok 0) in
  Ok (mkFoundSnapshot index l1_table_offset l1_size disk_size).

Fixpoint find_loop (table : bytes) (n : nat) (i offset : Z) (needle : bytes) (by_id : bool)
  : outcome SnapshotError (option FoundSnapshot) :=
  match n with
  | O => Ok None
  | S n' =>
      let? (start, len) := entry_bounds_at table offset in
      let? extra := be_u32 table (start + 36) in
      let? id_size := be_u16 table (start + 12) in
      let? name_size := be_u16 table (start + 14) in
      let id_start := start + SNAPSHOT_HEADER_SIZE + extra in
      let '(field_start, field_len) :=
        if by_id then (id_start, id_size) else (id_start + id_size, name_size) in
      let? hit := (if field_len =? blen needle then
                     let? f := or_panic (slice table field_start (field_start + field_len)) in
                     Ok (bool_decide (f = needle))
                   else Ok false) in
      if hit : bool then let? found := found_snapshot_at table i start extra in Ok (Some found)
      else find_loop table n' (i + 1) (wadd start len) needle by_id
  end.

Definition find_pass (table : bytes) (nb_snapshots : Z) (needle : bytes) (by_id : bool)
  : outcome SnapshotError (option FoundSnapshot) :=
  find_loop table (Z.to_nat nb_snapshots) 0 0 needle by_id.

Definition find_snapshot_in_table (table : bytes) (table_len nb_snapshots : Z) (needle : bytes) (mode : MatchMode)
  : outcome SnapshotError (option FoundSnapshot) :=
  if blen table <? table_len then Err MisalignedAccess
  else
  let? table := or_panic (slice table 0 table_len) in
  match mode with
  | IdThenName =>
      let? found := find_pass table nb_snapshots needle true in
      match found with
      | Some f => Ok (Some f)
      | None => find_pass table nb_snapshots needle false
      end
  | NameOnly => find_pass table nb_snapshots needle false
  end.

(** Decimal ids. *)
Definition is_ascii_digit (b : Z) : bool := (48 <=? b) && (b <=? 57).

Fixpoint parse_digits (value : Z) (id : bytes) : option Z :=
  match id with
  | [] => Some value
  | b :: rest =>
      if is_ascii_digit b then
        v ← checked_mul value 10;
        w ← checked_add v (b - 48);
        parse_digits w rest
      else Some value
  end.

Definition parse_decimal_id (id : bytes) : option Z := parse_digits 0 id.

(** The digits of [v], least significant first; a value of 64 bits has at most 20. *)
Fixpoint digits_rev (fuel : nat) (v : Z) : bytes :=
  match fuel with
  | O => []
  | S fuel' => if 0 <? v then (48 + v mod 10) :: digits_rev fuel' (v / 10) else []
  end.

(** [tmp] has 20 bytes: a 21st digit would be written out of range. *)
Definition format_decimal_u64 (v : Z) : OM Z :=
  let tmp := if v =? 0 then [48] else digits_rev 21 v in
  let n := blen tmp in
  if 20 <? n then slift Panic
  else
  let! out := sget in
  if blen out <? n then sret 0
  else do! put 0 (rev tmp) in sret n.

(** The read side. *)
Record SnapshotHeaderRaw : Type := mkSnapshotHeaderRaw {
  sh_l1_table_offset : Z;
  sh_l1_size : Z;
  sh_id_str_size : Z;
  sh_name_size : Z;
  sh_date_sec : Z;
  sh_date_nsec : Z;
  sh_vm_clock_nsec : Z;
  sh_vm_state_size : Z;
  sh_extra_data_size : Z
}.

Record SnapshotExtraData : Type := mkSnapshotExtraData {
  sx_vm_state_size_large : Z;
  sx_disk_size : Z;
  sx_icount : Z
}.

Definition parse_snapshot_header_bytes (buf : bytes) : outcome unit SnapshotHeaderRaw :=
  if blen buf <? 40 then Err tt
  else
  let? l1_table_offset := be_u64 buf 0 in
  let? l1_size := be_u32 buf 8 in
  let? id_str_size := be_u16 buf 12 in
  let? name_size := be_u16 buf 14 in
  let? date_sec := be_u32 buf 16 in
  let? date_nsec := be_u32 buf 20 in
  let? vm_clock_nsec := be_u64 buf 24 in
  let? vm_state_size := be_u32 buf 32 in
  let? extra_data_size := be_u32 buf 36 in
  Ok (mkSnapshotHeaderRaw l1_table_offset l1_size id_str_size name_size date_sec date_nsec
        vm_clock_nsec vm_state_size extra_data_size).

(** [buf.get(a..a + 8)] decoded, or a default. *)
Definition get_u64_or (buf : bytes) (a dflt : Z) : Z :=
  match slice buf a (a + 8) with Some s => be_val s | None => dflt end.

Definition parse_snapshot_extra_data (buf : bytes) (extra_data_size : Z) : SnapshotExtraData :=
  if QCOW_MAX_SNAPSHOT_EXTRA_DATA <? extra_data_size then mkSnapshotExtraData 0 0 u64_max
  else mkSnapshotExtraData
    (if 8 <=? extra_data_size then get_u64_or buf 0 0 else 0)
    (if 16 <=? extra_data_size then get_u64_or buf 8 0 else 0)
    (if 24 <=? extra_data_size then get_u64_or buf 16 u64_max else u64_max).

(** ** Entries *)

Definition round8 (v : Z) : Z := (v + 7) / 8 * 8.

Lemma round8_spec v : v <= round8 v < v + 8 /\ round8 v mod 8 = 0.
Proof.
  unfold round8. split; [|apply Z.mod_mul; lia].
  pose proof (Z.div_mod (v + 7) 8 ltac:(lia)). pose proof (Z.mod_pos_bound (v + 7) 8 ltac:(lia)). lia.
Qed.

Lemma round_up_8_eq v : 0 <= v -> v + 7 <= u64_max -> round_up_8 v = Some (round8 v).
Proof.
  intros Hv Hm. unfold round_up_8. rewrite checked_add_eq by lia. f_equal. apply land_not7. lia.
Qed.

(** The length fields of an entry. *)
Definition num (n : nat) (e : bytes) (off : Z) : Z :=
  match slice e off (off + Z.of_nat n) with Some s => be_val s | None => 0 end.
Definition extra_of (e : bytes) : Z := num 4 e 36.
Definition id_size_of (e : bytes) : Z := num 2 e 12.
Definition name_size_of (e : bytes) : Z := num 2 e 14.

(** An entry is as long as its own header says. *)
Definition entry_ok (e : bytes) : Prop :=
  40 <= blen e /\ blen e = 40 + extra_of e + id_size_of e + name_size_of e.

(** The id and the name of an entry. *)
Definition id_of (e : bytes) : option bytes :=
  slice e (40 + extra_of e) (40 + extra_of e + id_size_of e).
Definition name_of (e : bytes) : option bytes :=
  slice e (40 + extra_of e + id_size_of e) (40 + extra_of e + id_size_of e + name_size_of e).

(** [table] holds the entries [es] from [off] on, each at the next multiple of 8. *)
Fixpoint holds (table : bytes) (off : Z) (es : list bytes) : Prop :=
  match es with
  | [] => True
  | e :: rest => entry_ok e /\ slice table (round8 off) (round8 off + blen e) = Some e /\
                 holds table (round8 off + blen e) rest
  end.

(** Where they end. *)
Fixpoint end_of (off : Z) (es : list bytes) : Z :=
  match es with [] => off | e :: rest => end_of (round8 off + blen e) rest end.

Lemma end_of_ge es : forall off, off <= end_of off es.
Proof.
  induction es as [|e es IH]; intros off; cbn; [lia|].
  specialize (IH (round8 off + blen e)). pose proof (round8_spec off). pose proof (blen_nonneg e). lia.
Qed.

Lemma end_of_app es1 es2 : forall off, end_of off (es1 ++ es2) = end_of (end_of off es1) es2.
Proof. induction es1 as [|e es1 IH]; intros off; cbn; [done|]. apply IH. Qed.

Lemma holds_app table es1 es2 : forall off,
  holds table off (es1 ++ es2) <-> holds table off es1 /\ holds table (end_of off es1) es2.
Proof. induction es1 as [|e es1 IH]; intros off; cbn; [tauto|]. rewrite IH. tauto. Qed.

Lemma holds_end table es : forall off, 0 <= off -> off <= blen table -> holds table off es -> end_of off es <= blen table.
Proof.
  induction es as [|e es IH]; intros off Ho Hl; cbn; [done|]. intros (_ & Hs & Hr).
  apply slice_Some in Hs as (_ & ? & _). pose proof (round8_spec off). pose proof (blen_nonneg e).
  apply IH; [lia | lia | done].
Qed.

(** Only the bytes up to the end matter. *)
Lemma holds_ext table table' es : forall off,
  (forall a b, off <= a -> b <= end_of off es -> slice table' a b = slice table a b) ->
  holds table off es -> holds table' off es.
Proof.
  induction es as [|e es IH]; intros off Heq; cbn; [done|]. intros (He & Hs & Hr).
  pose proof (round8_spec off) as Hr8. pose proof (blen_nonneg e).
  pose proof (end_of_ge es (round8 off + blen e)). split; [done|]. split.
  - rewrite Heq; [done | lia | cbn; lia].
  - apply IH; [|done]. intros a b Ha Hb. apply Heq; [lia | done].
Qed.

(** Fields of an entry, read through the table. *)
Lemma field_in table s e off n : slice table s (s + blen e) = Some e -> 0 <= off -> off + Z.of_nat n <= blen e ->
  slice table (s + off) (s + off + Z.of_nat n) = slice e off (off + Z.of_nat n) /\
  slice e off (off + Z.of_nat n) <> None.
Proof.
  intros Hs Ho Hn. split.
  - rewrite (slice_slice _ _ _ _ off (off + Z.of_nat n) Hs) by lia. f_equal. lia.
  - rewrite slice_Some_2 by lia. done.
Qed.

Lemma num_read {E} table s e off n : slice table s (s + blen e) = Some e -> 0 <= off -> off + Z.of_nat n <= blen e ->
  obind (E := E) (or_panic (slice table (s + off) (s + off + Z.of_nat n))) (fun x => Ok (be_val x)) = Ok (num n e off).
Proof.
  intros Hs Ho Hn. destruct (field_in table s e off n Hs Ho Hn) as [-> Hsome]. unfold num.
  by destruct (slice e off (off + Z.of_nat n)).
Qed.

Lemma num_bound n e off : is_bytes e -> 0 <= num n e off < 256 ^ Z.of_nat n.
Proof.
  intros Hb. unfold num. destruct (slice e off (off + Z.of_nat n)) as [x|] eqn:Hx.
  - pose proof (be_val_bound x (slice_is_bytes _ _ _ _ Hb Hx)) as Hv. rewrite (slice_blen _ _ _ _ Hx) in Hv.
    by replace (off + Z.of_nat n - off) with (Z.of_nat n) in Hv by lia.
  - split; [done|]. apply Z.pow_pos_nonneg; lia.
Qed.

(** A table whose size and entry sizes cannot overflow: any slice is. *)
Definition table_ok (table : bytes) : Prop := is_bytes table /\ blen table <= 9223372036854775807.

Lemma holds_bounds table off e rest : table_ok table -> 0 <= off <= blen table ->
  holds table off (e :: rest) -> entry_bounds_at table off = Ok (round8 off, blen e).
Proof.
  intros [Hb Hl] Ho (He & Hs & _). pose proof (round8_spec off) as [Hr _]. destruct He as [H40 Hlen].
  pose proof (slice_Some _ _ _ _ Hs) as (_ & Hin & _).
  pose proof (slice_is_bytes _ _ _ _ Hb Hs) as Heb.
  pose proof (num_bound 4 e 36 Heb) as Hx. pose proof (num_bound 2 e 12 Heb) as Hi. pose proof (num_bound 2 e 14 Heb) as Hn.
  fold (extra_of e) in Hx. fold (id_size_of e) in Hi. fold (name_size_of e) in Hn.
  change (256 ^ Z.of_nat 4) with 4294967296 in Hx. change (256 ^ Z.of_nat 2) with 65536 in Hi, Hn.
  unfold entry_bounds_at, SNAPSHOT_HEADER_SIZE. rewrite round_up_8_eq by (unfold u64_max; lia). cbn [ok_or obind].
  rewrite checked_add_eq by (unfold u64_max; lia). cbn [ok_or obind].
  destruct (Z.ltb_spec (blen table) (round8 off + 40)); [lia|]. unfold be_u32, be_u16.
  rewrite (num_read table (round8 off) e 36 4 Hs) by lia. cbn [obind].
  rewrite (num_read table (round8 off) e 12 2 Hs) by lia. cbn [obind].
  rewrite (num_read table (round8 off) e 14 2 Hs) by lia. cbn [obind].
  fold (extra_of e) (id_size_of e) (name_size_of e).
  rewrite checked_add_eq by (unfold u64_max; lia). cbn [mbind option_bind].
  rewrite checked_add_eq by (unfold u64_max; lia). cbn [mbind option_bind].
  rewrite checked_add_eq by (unfold u64_max; lia). cbn [ok_or obind]. rewrite <- Hlen.
  rewrite checked_add_eq by (unfold u64_max; lia). cbn [ok_or obind].
  destruct (Z.ltb_spec (blen table) (round8 off + blen e)); [lia|done].
Qed.

(** What a successful bounds read has found. *)
Lemma bounds_spec table off : table_ok table -> 0 <= off <= blen table ->
  match entry_bounds_at table off with
  | Ok (s, l) => exists e, s = round8 off /\ l = blen e /\ entry_ok e /\ slice table s (s + l) = Some e
  | Err e => e = ParseFailed
  | _ => False
  end.
Proof.
  intros [Hb Hl] Ho. pose proof (round8_spec off) as [Hr _].
  unfold entry_bounds_at, SNAPSHOT_HEADER_SIZE. rewrite round_up_8_eq by (unfold u64_max; lia). cbn [ok_or obind].
  rewrite checked_add_eq by (unfold u64_max; lia). cbn [ok_or obind].
  destruct (Z.ltb_spec (blen table) (round8 off + 40)) as [|H40]; [done|]. set (s0 := round8 off) in *.
  destruct (be_u32_read (E := SnapshotError) table (s0 + 36) Hb) as (x & Hx & Hxb); [lia | lia |].
  destruct (slice_of table (s0 + 12) (s0 + 12 + 2)) as (i & Hi & Hil); [lia | lia |].
  destruct (slice_of table (s0 + 14) (s0 + 14 + 2)) as (n & Hn & Hnl); [lia | lia |].
  unfold be_u16. rewrite Hx, Hi, Hn. cbn [obind or_panic].
  pose proof (be_val_bound i (slice_is_bytes _ _ _ _ Hb Hi)) as Hib.
  pose proof (be_val_bound n (slice_is_bytes _ _ _ _ Hb Hn)) as Hnb. rewrite Hil in Hib. rewrite Hnl in Hnb.
  replace (s0 + 12 + 2 - (s0 + 12)) with 2 in Hib by lia. replace (s0 + 14 + 2 - (s0 + 14)) with 2 in Hnb by lia.
  change (256 ^ 2) with 65536 in *. unfold is_u32, u32_max in Hxb.
  rewrite checked_add_eq by (unfold u64_max; lia). cbn [mbind option_bind].
  rewrite checked_add_eq by (unfold u64_max; lia). cbn [mbind option_bind].
  rewrite checked_add_eq by (unfold u64_max; lia). cbn [ok_or obind].
  rewrite checked_add_eq by (unfold u64_max; lia). cbn [ok_or obind].
  destruct (Z.ltb_spec (blen table) (s0 + (40 + x + be_val i + be_val n))) as [|Hend]; [done|].
  set (L := 40 + x + be_val i + be_val n) in *.
  destruct (slice_of table s0 (s0 + L)) as (e & He & Hel); [lia | lia |]. exists e.
  assert (blen e = L) as HeL by lia. split; [done|]. split; [done|]. split; [|done].
  rewrite <- HeL in He.
  assert (extra_of e = x /\ id_size_of e = be_val i /\ name_size_of e = be_val n) as (Hx' & Hi' & Hn').
  { pose proof (num_read (E := SnapshotError) table s0 e 36 4 He ltac:(lia) ltac:(lia)) as H1.
    pose proof (num_read (E := SnapshotError) table s0 e 12 2 He ltac:(lia) ltac:(lia)) as H2.
    pose proof (num_read (E := SnapshotError) table s0 e 14 2 He ltac:(lia) ltac:(lia)) as H3.
    change (Z.of_nat 2) with 2 in H2, H3. rewrite Hi in H2. rewrite Hn in H3. cbn in H2, H3.
    unfold be_u32 in Hx. change (Z.of_nat 4) with 4 in H1. rewrite Hx in H1.
    injection H1 as H1. injection H2 as H2. injection H3 as H3. done. }
  unfold entry_ok. rewrite Hx', Hi', Hn'. lia.
Qed.

(** ** Walks *)

Lemma walk_spec n : forall table off, table_ok table -> 0 <= off <= blen table ->
  match walk_entries table n off with
  | Ok L => exists es, length es = n /\ holds table off es /\ L = end_of off es
  | Err e => e = ParseFailed /\ forall es, length es = n -> ~ holds table off es
  | _ => False
  end.
Proof.
  induction n as [|n IH]; intros table off Ht Ho; cbn [walk_entries]; [by exists []|].
  pose proof Ht as [Hb Hl]. pose proof (bounds_spec table off Ht Ho) as Hbd.
  assert (forall y es, holds table off (y :: es) -> entry_bounds_at table off = Ok (round8 off, blen y)) as Hby
    by (intros y es; by apply holds_bounds).
  destruct (entry_bounds_at table off) as [[s l]|e| |]; cbn [obind]; try done.
  - destruct Hbd as (x & -> & -> & Hx & Hs).
    pose proof (slice_Some _ _ _ _ Hs) as (? & ? & _). pose proof (round8_spec off).
    rewrite wadd_small by (unfold u64_max; lia).
    specialize (IH table (round8 off + blen x) Ht ltac:(lia)).
    destruct (walk_entries table n (round8 off + blen x)) as [L|e| |]; try done.
    + destruct IH as (es & Hn & Hes & ->). exists (x :: es). cbn. auto.
    + destruct IH as [-> Hno]. split; [done|]. intros [|y es] Hlen Hh; [done|].
      pose proof (Hby y es Hh) as [= Heq]. destruct Hh as (_ & _ & Hrest).
      apply (Hno es); [by injection Hlen|]. by rewrite Heq.
  - subst e. split; [done|]. intros [|y es] Hlen Hh; [done|]. by specialize (Hby y es Hh).
Qed.

(** Entry [i] of a table. *)
Lemma bounds_walk_spec i : forall table off es e, table_ok table -> 0 <= off <= blen table ->
  holds table off es -> es !! i = Some e ->
  bounds_walk table i off = Ok (round8 (end_of off (take i es)), blen e).
Proof.
  induction i as [|i IH]; intros table off [|x es] e Ht Ho Hh Hi; try done.
  - cbn in Hi. injection Hi as ->. cbn [bounds_walk]. by rewrite (holds_bounds _ _ _ _ Ht Ho Hh).
  - cbn in Hi. cbn [bounds_walk]. rewrite (holds_bounds _ _ _ _ Ht Ho Hh). cbn [obind].
    destruct Hh as (_ & Hs & Hr). pose proof (slice_Some _ _ _ _ Hs) as (? & ? & _). pose proof Ht as [_ Hl].
    rewrite wadd_small by (unfold u64_max; pose proof (round8_spec off); lia). cbn [take end_of].
    apply IH; try done. pose proof (round8_spec off). lia.
Qed.

(** ** Building tables *)

Lemma wp_put_at a src out (Q : unit -> bytes -> Prop) (R : SnapshotError -> bytes -> Prop) :
  0 <= a -> a + blen src <= blen out ->
  (forall out', splice out a src = Some out' -> blen out' = blen out -> Q tt out') -> wp (put a src) Q R out.
Proof.
  intros Ha Hl HQ. destruct (splice_of out a src Ha Hl) as (out' & Ho & Hlen).
  unfold put. wstep. wstep. wstep. wstep. rewrite Ho. cbn [or_panic]. wstep. by apply HQ.
Qed.

Lemma wp_zero_gap from to out (Q : unit -> bytes -> Prop) (R : SnapshotError -> bytes -> Prop) :
  0 <= from <= to -> to <= blen out ->
  (forall out', blen out' = blen out -> (is_bytes out -> is_bytes out') -> slice out' from to = Some (filled (to - from) 0) ->
     (forall a b, b <= from \/ to <= a -> slice out' a b = slice out a b) -> Q tt out') ->
  wp (zero_gap from to) Q R out.
Proof.
  intros Hft Hto HQ. pose proof (blen_filled (to - from) 0 ltac:(lia)) as Hf. unfold zero_gap.
  apply wp_put_at; [lia | lia |]. intros out' Hsp Hlen. apply HQ; [done | | |].
  - intros Hb. apply (splice_is_bytes _ _ _ _ Hb (filled_is_bytes (to - from) 0 ltac:(done)) Hsp).
  - pose proof (slice_splice_eq _ _ _ _ Hsp) as He. rewrite Hf in He. by replace (from + (to - from)) with to in He by lia.
  - intros a b Hab. apply (slice_splice_ne _ _ _ _ _ _ Hsp). lia.
Qed.

(** A table is its bytes up to the end. *)
Lemma holds_prefix table es L p : holds table 0 es -> end_of 0 es <= L -> slice table 0 L = Some p -> holds p 0 es.
Proof.
  intros Hh He Hp. apply (holds_ext table); [|exact Hh]. intros a b Ha Hb.
  pose proof (slice_Some _ _ _ _ Hp) as (? & ? & _). pose proof (slice_blen _ _ _ _ Hp) as Hl.
  destruct (decide (a <= b)) as [Hab|Hab].
  - rewrite (slice_slice table 0 L p a b Hp) by lia. by rewrite !Z.add_0_l.
  - unfold slice. destruct (Z.leb_spec a b); [lia|]. by rewrite !andb_false_r.
Qed.

(** One more entry after the end. *)
Lemma holds_snoc table table' es new :
  holds table 0 es -> (forall a b, b <= end_of 0 es -> slice table' a b = slice table a b) ->
  entry_ok new -> slice table' (round8 (end_of 0 es)) (round8 (end_of 0 es) + blen new) = Some new ->
  holds table' 0 (es ++ [new]).
Proof.
  intros Hh Heq Hnew Hs. apply holds_app. split; [|done]. apply (holds_ext table); [|exact Hh]. intros a b _ Hb. by apply Heq.
Qed.

Lemma build_spec old L es new out : table_ok old -> holds old 0 es -> L = end_of 0 es -> L <= blen old ->
  entry_ok new -> is_bytes new -> blen new <= u32_max ->
  wp (build_snapshot_table old L new)
    (fun total out' => total = end_of 0 (es ++ [new]) /\ blen out' = blen out /\ (is_bytes out -> is_bytes out') /\ holds out' 0 (es ++ [new]) /\
       (forall a b, b <= L -> slice out' a b = slice old a b) /\
       slice out' L (round8 L) = Some (filled (round8 L - L) 0) /\
       (forall a b, total <= a -> slice out' a b = slice out a b))
    (fun e _ => e = MisalignedAccess /\ blen out < end_of 0 (es ++ [new])) out.
Proof.
  intros [Hb Hl] Hh HL HLb Hnew Hnb Hnl. unfold u32_max in Hnl. pose proof (end_of_ge es 0) as Hge. pose proof (round8_spec L) as [Hr _].
  pose proof (blen_nonneg new). rewrite end_of_app, <- HL. cbn [end_of].
  unfold build_snapshot_table. destruct (Z.ltb_spec (blen old) L); [lia|].
  wstep. wstep. rewrite round_up_8_eq by (unfold u64_max; lia). cbn [ok_or].
  wstep. wstep. rewrite checked_add_eq by (unfold u64_max; lia). cbn [ok_or]. wstep. wstep.
  destruct (Z.ltb_spec (blen out) (round8 L + blen new)); [by wstep|].
  destruct (slice_of old 0 L) as (p & Hp & Hpl); [lia | lia |]. rewrite Z.sub_0_r in Hpl.
  wstep. wstep. rewrite Hp. cbn [or_panic]. wstep. apply wp_put_at; [lia | lia |]. intros o1 Ho1 Hl1.
  wstep. apply wp_zero_gap; [lia | lia |]. intros o2 Hl2 Hb2 Hgap Hsame2.
  wstep. apply wp_put_at; [lia | lia |]. intros o3 Ho3 Hl3. wstep.
  assert (forall a b, b <= L -> slice o3 a b = slice old a b) as Hold.
  { intros a b Hab. rewrite (slice_splice_ne _ _ _ _ _ _ Ho3) by lia. rewrite Hsame2 by lia.
    pose proof (slice_splice_eq _ _ _ _ Ho1) as He. rewrite Hpl, Z.add_0_l in He.
    destruct (decide (0 <= a <= b)) as [Hab'|Hab'].
    - pose proof (slice_slice o1 0 L p a b He Hab' ltac:(lia)) as Hc1.
      pose proof (slice_slice old 0 L p a b Hp Hab' ltac:(lia)) as Hc2. rewrite !Z.add_0_l in *. congruence.
    - unfold slice. destruct (Z.leb_spec 0 a), (Z.leb_spec a b); try lia; done. }
  pose proof (slice_splice_eq _ _ _ _ Ho3) as Hput.
  split; [done|]. split; [lia|]. split.
  { intros Hob. apply (splice_is_bytes _ _ _ _ (Hb2 (splice_is_bytes _ _ _ _ Hob (slice_is_bytes _ _ _ _ Hb Hp) Ho1)) Hnb Ho3). }
  split; [apply (holds_snoc old); by rewrite <- ?HL|]. split; [done|]. split.
  - by rewrite (slice_splice_ne _ _ _ _ _ _ Ho3) by lia.
  - intros a b Ha. rewrite (slice_splice_ne _ _ _ _ _ _ Ho3) by lia. rewrite Hsame2 by lia.
    apply (slice_splice_ne _ _ _ _ _ _ Ho1). lia.
Qed.

(** A later start never gives an earlier end. *)
Lemma end_of_mono es : forall a b, a <= b -> end_of a es <= end_of b es.
Proof.
  induction es as [|e es IH]; intros a b Hab; cbn; [done|]. apply IH. unfold round8.
  pose proof (Z.div_le_mono (a + 7) (b + 7) 8 ltac:(lia) ltac:(lia)). lia.
Qed.

(** The compaction loop, having kept [kept] of the entries before [todo]. *)
Lemma compact_spec todo : forall table i r in_off out out_off kept,
  table_ok table -> 0 <= in_off <= blen table -> holds table in_off todo ->
  holds out 0 kept -> out_off = end_of 0 kept -> out_off <= blen out -> out_off <= in_off -> 0 <= i ->
  blen table <= blen out ->
  let keep := if (i <=? r) && (r <? i + Z.of_nat (length todo)) then delete (Z.to_nat (r - i)) todo else todo in
  wp (compact_loop table (length todo) i r in_off out_off)
    (fun total out' => total = end_of 0 (kept ++ keep) /\ blen out' = blen out /\ (is_bytes out -> is_bytes out') /\ holds out' 0 (kept ++ keep))
    (fun _ _ => False) out.
Proof.
  induction todo as [|e todo IH]; intros table i r in_off out out_off kept Ht Hin Hh Hk Ho Hob Hle Hi Hbig; cbn [compact_loop length].
  { wstep. destruct (Z.leb_spec i r), (Z.ltb_spec r (i + Z.of_nat 0)); cbn [andb]; try lia; by rewrite app_nil_r. }
  pose proof Ht as [Hb Hl]. pose proof (round8_spec in_off) as [Hr _]. pose proof (blen_nonneg e).
  wstep. wstep. rewrite (holds_bounds _ _ _ _ Ht Hin Hh). cbv beta iota.
  destruct Hh as (He & Hs & Hrest). pose proof (slice_Some _ _ _ _ Hs) as (? & ? & _).
  rewrite wadd_small by (unfold u64_max; lia). pose proof (round8_spec out_off) as [Hro _].
  pose proof (end_of_ge kept 0) as Hg0.
  destruct (Z.eqb_spec i r) as [->|Hne].
  - specialize (IH table (r + 1) r (round8 in_off + blen e) out out_off kept Ht ltac:(lia) Hrest Hk Ho Hob ltac:(lia) ltac:(lia) Hbig).
    cbv zeta in IH. destruct (Z.leb_spec (r + 1) r); [lia|]. cbn [andb] in IH.
    destruct (Z.leb_spec r r); [|lia]. destruct (Z.ltb_spec r (r + Z.of_nat (S (length todo)))); [|lia]. cbn [andb].
    by rewrite Z.sub_diag.
  - assert (round8 out_off <= round8 in_off) as Hmono.
    { unfold round8. pose proof (Z.div_le_mono (out_off + 7) (in_off + 7) 8 ltac:(lia) ltac:(lia)). lia. }
    wstep. wstep. rewrite round_up_8_eq by (unfold u64_max; lia). cbn [ok_or]. wstep. wstep.
    rewrite checked_add_eq by (unfold u64_max; lia). cbn [ok_or]. wstep. wstep.
    destruct (Z.ltb_spec (blen out) (round8 out_off + blen e)); [lia|].
    wstep. apply wp_zero_gap; [lia | lia |]. intros o1 Hl1 Hb1 _ Hsame1. wstep. wstep. rewrite Hs. cbn [or_panic].
    wstep. apply wp_put_at; [lia | lia |]. intros o2 Ho2 Hl2.
    assert (holds o2 0 (kept ++ [e])) as Hk2.
    { apply (holds_snoc out); [done | | done |].
      - intros a b Hab. rewrite (slice_splice_ne _ _ _ _ _ _ Ho2) by lia. apply Hsame1. lia.
      - rewrite <- Ho. exact (slice_splice_eq _ _ _ _ Ho2). }
    specialize (IH table (i + 1) r (round8 in_off + blen e) o2 (round8 out_off + blen e) (kept ++ [e]) Ht ltac:(lia) Hrest Hk2).
    rewrite end_of_app, <- Ho in IH. cbn [end_of] in IH.
    specialize (IH eq_refl ltac:(lia) ltac:(lia) ltac:(lia) ltac:(lia)). cbv zeta in IH.
    eapply wp_mono; [exact IH | |done]. intros total o3 (Ht3 & Hl3 & Hb3 & Hh3).
    assert ((if (i <=? r) && (r <? i + Z.of_nat (S (length todo))) then delete (Z.to_nat (r - i)) (e :: todo) else e :: todo) =
      e :: (if (i + 1 <=? r) && (r <? i + 1 + Z.of_nat (length todo)) then delete (Z.to_nat (r - (i + 1))) todo else todo)) as Hkeep.
    { destruct (Z.leb_spec i r), (Z.leb_spec (i + 1) r), (Z.ltb_spec r (i + Z.of_nat (S (length todo)))),
        (Z.ltb_spec r (i + 1 + Z.of_nat (length todo))); cbn [andb]; try lia; try done.
      by replace (Z.to_nat (r - i)) with (S (Z.to_nat (r - (i + 1)))) by lia. }
    cbv zeta. rewrite Hkeep. rewrite <- app_assoc in Ht3, Hh3. cbn [app] in Ht3, Hh3. split_and!; [done | lia | | done].
    intros Hbo. apply Hb3, (splice_is_bytes _ _ _ _ (Hb1 Hbo) (slice_is_bytes _ _ _ _ Hb Hs) Ho2).
Qed.

(** ** The serialised entry *)

(** The fixed fields of an entry, in order. *)
Definition header_fields (e : NewSnapshotEntry) : list (nat * Z) :=
  [(8%nat, ns_l1_table_offset e); (4%nat, ns_l1_size e); (2%nat, blen (ns_id e)); (2%nat, blen (ns_name e));
   (4%nat, ns_date_sec e); (4%nat, ns_date_nsec e); (8%nat, ns_vm_clock_nsec e); (4%nat, ns_vm_state_size e); (4%nat, 24);
   (8%nat, ns_vm_state_size_large e); (8%nat, ns_disk_size e); (8%nat, ns_icount e)].

Definition be_fields (fs : list (nat * Z)) : bytes := concat (map (fun f => be_bytes f.1 f.2) fs).

Definition encoded (e : NewSnapshotEntry) : bytes := be_fields (header_fields e) ++ ns_id e ++ ns_name e.

Lemma blen_be_fields fs : blen (be_fields fs) = Z.of_nat (sum_list (map fst fs)).
Proof.
  induction fs as [|[n v] fs IH]; [done|]. unfold be_fields. cbn. rewrite blen_app, blen_be_bytes.
  fold (be_fields fs). rewrite IH. lia.
Qed.

(** A [put] at the end of what has been written. *)
Lemma wp_put_next p a src out (Q : unit -> bytes -> Prop) (R : SnapshotError -> bytes -> Prop) :
  slice out 0 a = Some p -> a + blen src <= blen out ->
  (forall out', slice out' 0 (a + blen src) = Some (p ++ src) -> blen out' = blen out ->
     (forall c d, a + blen src <= c -> slice out' c d = slice out c d) -> Q tt out') ->
  wp (put a src) Q R out.
Proof.
  intros Hp Hl HQ. pose proof (slice_Some _ _ _ _ Hp) as (? & ? & _).
  apply wp_put_at; [lia | done |]. intros out' Hsp Hlen. apply HQ; [|done|].
  - eapply slice_join; [|exact (slice_splice_eq _ _ _ _ Hsp)]. by rewrite (slice_splice_ne _ _ _ _ _ _ Hsp) by lia.
  - intros c d Hc. apply (slice_splice_ne _ _ _ _ _ _ Hsp). lia.
Qed.

(** The next fixed field of an entry. *)
Ltac next_put H := wstep; eapply wp_put_next; [exact H | rewrite ?blen_be_bytes; lia |];
    clear H; let o := fresh "o" in let Hl := fresh "Hl" in intros o H Hl _; rewrite ?blen_be_bytes in H;
    lazymatch type of H with slice _ 0 ?b = _ => let b' := eval simpl in b in change b with b' in H end.

Lemma serialize_spec e buf :
  wp (serialize_snapshot_entry e)
    (fun m buf' => m = 64 + blen (ns_id e) + blen (ns_name e) /\ blen buf' = blen buf /\
       slice buf' 0 m = Some (encoded e) /\ blen (ns_id e) <= u16_max /\ blen (ns_name e) <= u16_max)
    (fun x buf' => buf' = buf /\
       (x = InvalidConfig /\ (u16_max < blen (ns_id e) \/ u16_max < blen (ns_name e)) \/
        x = MisalignedAccess /\ blen buf < 64 + blen (ns_id e) + blen (ns_name e))) buf.
Proof.
  pose proof (blen_nonneg (ns_id e)). pose proof (blen_nonneg (ns_name e)). unfold serialize_snapshot_entry.
  destruct (Z.ltb_spec u16_max (blen (ns_id e))) as [?|Hi]; cbn [orb]; [wstep; auto|].
  destruct (Z.ltb_spec u16_max (blen (ns_name e))) as [?|Hn]; cbn [orb]; [wstep; auto|].
  unfold SNAPSHOT_HEADER_SIZE, SNAPSHOT_EXTRA_DATA_SIZE. change (40 + 24) with 64.
  wstep. wstep. destruct (Z.ltb_spec (blen buf) (64 + blen (ns_id e) + blen (ns_name e))); [wstep; auto|].
  assert (as_u16 (blen (ns_id e)) = blen (ns_id e)) as -> by (unfold as_u16, u16_max in *; apply Z.mod_small; lia).
  assert (as_u16 (blen (ns_name e)) = blen (ns_name e)) as -> by (unfold as_u16, u16_max in *; apply Z.mod_small; lia).
  assert (slice buf 0 0 = Some []) as Hw by (rewrite slice_Some_2 by lia; done).
  do 12 next_put Hw.
  wstep. eapply wp_put_next; [exact Hw | lia |]. clear Hw. intros o11 Hw Hl11 _.
  wstep. eapply wp_put_next; [exact Hw | lia |]. clear Hw. intros o12 Hw Hl12 _.
  wstep. split; [done|]. split; [lia|]. split; [|done]. rewrite Hw. f_equal.
Qed.

(** Field [length fs1] of an encoded entry. *)
Lemma field_slice fs1 n v fs2 rest :
  let off := Z.of_nat (sum_list (map fst fs1)) in
  slice (be_fields (fs1 ++ (n, v) :: fs2) ++ rest) off (off + Z.of_nat n) = Some (be_bytes n v).
Proof.
  cbv zeta. unfold be_fields. rewrite map_app, concat_app, <- app_assoc. fold (be_fields fs1).
  cbn [map concat fst snd]. fold (be_fields fs2). rewrite <- app_assoc, <- blen_be_fields.
  pose proof (slice_right (be_fields fs1) (be_bytes n v ++ be_fields fs2 ++ rest) 0 (Z.of_nat n) ltac:(lia)) as Hr.
  rewrite Z.add_0_r in Hr. rewrite Hr, <- (blen_be_bytes n v). apply slice_left.
Qed.

(** The fields of a new entry have the widths of the struct. *)
Definition new_entry_ok (e : NewSnapshotEntry) : Prop :=
  is_u64 (ns_l1_table_offset e) /\ is_u32 (ns_l1_size e) /\ is_u32 (ns_date_sec e) /\ is_u32 (ns_date_nsec e) /\
  is_u64 (ns_vm_clock_nsec e) /\ is_u32 (ns_vm_state_size e) /\ is_u64 (ns_vm_state_size_large e) /\
  is_u64 (ns_disk_size e) /\ is_u64 (ns_icount e) /\ is_bytes (ns_id e) /\ is_bytes (ns_name e) /\
  blen (ns_id e) <= u16_max /\ blen (ns_name e) <= u16_max.

(** Read field [k] of the entry [e] off its encoding. *)
Ltac enc_field e k :=
  let fs := eval cbv [header_fields] in (header_fields e) in
  let f1 := eval cbn [firstn] in (firstn k fs) in
  let f2 := eval cbn [skipn] in (skipn k fs) in
  lazymatch f2 with
  | (?n, ?v) :: ?rest =>
    let H := fresh "Hf" in
    pose proof (field_slice f1 n v rest (ns_id e ++ ns_name e)) as H; cbn [app map fst sum_list] in H;
    lazymatch type of H with context [slice ?l ?a ?b] =>
      change l with (encoded e) in H;
      let a' := eval vm_compute in a in let b' := eval vm_compute in b in change (slice (encoded e) a' b' = Some (be_bytes n v)) in H
    end
  end.

Ltac enc_fields e :=
  enc_field e 0%nat; enc_field e 1%nat; enc_field e 2%nat; enc_field e 3%nat; enc_field e 4%nat; enc_field e 5%nat;
  enc_field e 6%nat; enc_field e 7%nat; enc_field e 8%nat; enc_field e 9%nat; enc_field e 10%nat; enc_field e 11%nat.

Lemma blen_encoded e : blen (encoded e) = 64 + blen (ns_id e) + blen (ns_name e).
Proof. unfold encoded. rewrite !blen_app, blen_be_fields. change (Z.of_nat (sum_list (map fst (header_fields e)))) with 64. lia. Qed.

Lemma encoded_header e : new_entry_ok e ->
  parse_snapshot_header_bytes (encoded e) =
    Ok (mkSnapshotHeaderRaw (ns_l1_table_offset e) (ns_l1_size e) (blen (ns_id e)) (blen (ns_name e)) (ns_date_sec e)
          (ns_date_nsec e) (ns_vm_clock_nsec e) (ns_vm_state_size e) 24).
Proof.
  intros (? & ? & ? & ? & ? & ? & ? & ? & ? & _ & _ & ? & ?). unfold is_u64, is_u32, u64_max, u32_max, u16_max in *.
  pose proof (blen_nonneg (ns_id e)). pose proof (blen_nonneg (ns_name e)).
  enc_fields e. unfold parse_snapshot_header_bytes. rewrite blen_encoded.
  destruct (Z.ltb_spec (64 + blen (ns_id e) + blen (ns_name e)) 40); [lia|]. unfold be_u64, be_u32, be_u16.
  repeat match goal with Hf : slice (encoded e) ?a ?b = Some _ |- context [or_panic (slice (encoded e) ?a' ?b')] =>
    change (slice (encoded e) a' b') with (slice (encoded e) a b); rewrite Hf; cbn [or_panic obind] end.
  by rewrite !be_val_bytes by (change (256 ^ Z.of_nat 8) with 18446744073709551616; change (256 ^ Z.of_nat 4) with 4294967296;
    change (256 ^ Z.of_nat 2) with 65536; lia).
Qed.

Lemma encoded_extra e : new_entry_ok e ->
  exists x, slice (encoded e) 40 64 = Some x /\
    parse_snapshot_extra_data x 24 = mkSnapshotExtraData (ns_vm_state_size_large e) (ns_disk_size e) (ns_icount e).
Proof.
  intros (_ & _ & _ & _ & _ & _ & ? & ? & ? & _). unfold is_u64, u64_max in *.
  pose proof (blen_nonneg (ns_id e)). pose proof (blen_nonneg (ns_name e)).
  destruct (slice_of (encoded e) 40 64) as (x & Hx & Hxl); [lia | rewrite blen_encoded; lia |].
  exists x. split; [done|]. enc_fields e. unfold parse_snapshot_extra_data, get_u64_or. cbn.
  rewrite !(slice_slice (encoded e) 40 64 x) by (done || lia).
  change (40 + 0) with 40; change (40 + (0 + 8)) with 48; change (40 + 8) with 48; change (40 + (8 + 8)) with 56; change (40 + 16) with 56; change (40 + (16 + 8)) with 64. rewrite Hf8, Hf9, Hf10. by rewrite !be_val_bytes by (change (256 ^ Z.of_nat 8) with 18446744073709551616; lia).
Qed.

Lemma encoded_sizes e : new_entry_ok e ->
  extra_of (encoded e) = 24 /\ id_size_of (encoded e) = blen (ns_id e) /\ name_size_of (encoded e) = blen (ns_name e).
Proof.
  intros (_ & _ & _ & _ & _ & _ & _ & _ & _ & _ & _ & ? & ?). unfold u16_max in *.
  pose proof (blen_nonneg (ns_id e)). pose proof (blen_nonneg (ns_name e)). enc_fields e.
  unfold extra_of, id_size_of, name_size_of, num.
  change (36 + Z.of_nat 4) with 40; change (12 + Z.of_nat 2) with 14; change (14 + Z.of_nat 2) with 16.
  rewrite Hf7, Hf1, Hf2. rewrite !be_val_bytes; [done | | |]; cbn; lia.
Qed.

Lemma encoded_ok e : new_entry_ok e -> entry_ok (encoded e).
Proof.
  intros He. destruct (encoded_sizes e He) as (Hx & Hi & Hn). unfold entry_ok. rewrite Hx, Hi, Hn, blen_encoded.
  pose proof (blen_nonneg (ns_id e)). pose proof (blen_nonneg (ns_name e)). lia.
Qed.

Lemma encoded_strings e : new_entry_ok e ->
  id_of (encoded e) = Some (ns_id e) /\ name_of (encoded e) = Some (ns_name e).
Proof.
  intros He. destruct (encoded_sizes e He) as (Hx & Hi & Hn). unfold id_of, name_of. rewrite Hx, Hi, Hn.
  assert (blen (be_fields (header_fields e)) = 64) as Hf by (rewrite blen_be_fields; done).
  pose proof (blen_nonneg (ns_id e)). pose proof (blen_nonneg (ns_name e)).
  pose proof (slice_right (be_fields (header_fields e)) (ns_id e ++ ns_name e) 0 (blen (ns_id e)) ltac:(lia)) as H1.
  pose proof (slice_right (be_fields (header_fields e)) (ns_id e ++ ns_name e) (blen (ns_id e))
    (blen (ns_id e) + blen (ns_name e)) ltac:(lia)) as H2.
  pose proof (slice_right (ns_id e) (ns_name e) 0 (blen (ns_name e)) ltac:(lia)) as H3.
  rewrite Hf in H1, H2. rewrite slice_left in H1. rewrite slice_full, Z.add_0_r in H3. rewrite H3, Z.add_assoc in H2. done.
Qed.

(** ** Appending an entry *)

Lemma byte_len_spec table n : table_ok table -> 0 <= n ->
  match snapshot_table_byte_len table n with
  | Ok L => exists es, Z.of_nat (length es) = n /\ holds table 0 es /\ L = end_of 0 es
  | Err e => e = ParseFailed
  | _ => False
  end.
Proof.
  intros Ht Hn. pose proof (walk_spec (Z.to_nat n) table 0 Ht ltac:(pose proof (blen_nonneg table); lia)) as Hw.
  unfold snapshot_table_byte_len. destruct (walk_entries table (Z.to_nat n) 0) as [L|e| |]; try done.
  - destruct Hw as (es & Hl & Hh & HL). exists es. split; [lia|done].
  - tauto.
Qed.

Lemma byte_len_holds table es : table_ok table -> holds table 0 es ->
  snapshot_table_byte_len table (Z.of_nat (length es)) = Ok (end_of 0 es).
Proof.
  intros Ht Hh. unfold snapshot_table_byte_len. rewrite Nat2Z.id.
  assert (forall es' off, 0 <= off <= blen table -> holds table off es' ->
    walk_entries table (length es') off = Ok (end_of off es')) as Hgen.
  { clear es Hh. induction es' as [|e es' IH]; intros off Ho Hh; cbn [walk_entries length]; [done|].
    rewrite (holds_bounds _ _ _ _ Ht Ho Hh). cbn [obind]. destruct Hh as (_ & Hs & Hr).
    pose proof (slice_Some _ _ _ _ Hs) as (? & ? & _). pose proof (round8_spec off). pose proof Ht as [_ ?].
    rewrite wadd_small by (unfold u64_max; lia). apply IH; [lia|done]. }
  apply Hgen; [|done]. pose proof (blen_nonneg table). lia.
Qed.

Lemma entry_bounds_holds table es (i : nat) e : table_ok table -> holds table 0 es -> es !! i = Some e ->
  snapshot_table_entry_bounds table (Z.of_nat (length es)) (Z.of_nat i) = Ok (round8 (end_of 0 (take i es)), blen e) /\
  slice table (round8 (end_of 0 (take i es))) (round8 (end_of 0 (take i es)) + blen e) = Some e.
Proof.
  intros Ht Hh Hi. pose proof (lookup_lt_Some _ _ _ Hi). split.
  - unfold snapshot_table_entry_bounds. destruct (Z.leb_spec (Z.of_nat (length es)) (Z.of_nat i)); [lia|]. rewrite Nat2Z.id.
    apply bounds_walk_spec; try done. pose proof (blen_nonneg table). lia.
  - rewrite <- (take_drop_middle es i e Hi) in Hh. apply holds_app in Hh as [_ Hh]. by destruct Hh as (_ & ? & _).
Qed.

(** A prefix of a table that holds its entries is a table. *)
Lemma prefix_table out es L : table_ok out -> holds out 0 es -> L = end_of 0 es -> 
  exists p, slice out 0 L = Some p /\ table_ok p /\ holds p 0 es.
Proof.
  intros [Hb Hl] Hh ->. pose proof (end_of_ge es 0). pose proof (holds_end out es 0 ltac:(lia) (blen_nonneg out) Hh) as He.
  destruct (slice_of out 0 (end_of 0 es)) as (p & Hp & Hpl); [lia | lia |]. exists p. split; [done|]. split.
  - split; [by eapply slice_is_bytes|lia].
  - by eapply holds_prefix; [exact Hh | reflexivity |].
Qed.

Lemma encoded_bytes e : new_entry_ok e -> is_bytes (encoded e) /\ blen (encoded e) <= u32_max.
Proof.
  intros (_ & _ & _ & _ & _ & _ & _ & _ & _ & Hi & Hn & ? & ?). split; [|rewrite blen_encoded; unfold u16_max, u32_max in *; lia].
  unfold encoded. apply Forall_app_2; [|by apply Forall_app_2]. unfold be_fields. generalize (header_fields e) as fs.
  induction fs as [|f fs IH]; [constructor|]. cbn. apply Forall_app_2; [apply be_bytes_is_bytes | done].
Qed.

(** Creating a snapshot, serialize then append, on any table of [n] entries. *)
Lemma appends_entry old n L e buf out :
  table_ok old -> 0 <= n -> snapshot_table_byte_len old n = Ok L -> new_entry_ok e ->
  64 + blen (ns_id e) + blen (ns_name e) <= blen buf ->
  table_ok out -> round8 L + 64 + blen (ns_id e) + blen (ns_name e) <= blen out ->
  exists es m buf' total out' p,
    holds old 0 es /\ Z.of_nat (length es) = n /\ table_ok p /\ holds p 0 (es ++ [encoded e]) /\
    serialize_snapshot_entry e buf = (Ok m, buf') /\ slice buf' 0 m = Some (encoded e) /\
    build_snapshot_table old L (encoded e) out = (Ok total, out') /\
    slice out' 0 L = slice old 0 L /\ slice out' 0 total = Some p /\
    snapshot_table_byte_len p (n + 1) = Ok total /\
    (forall i, 0 <= i < n -> snapshot_table_entry_bounds p (n + 1) i = snapshot_table_entry_bounds old n i) /\
    exists s, snapshot_table_entry_bounds p (n + 1) n = Ok (s, m) /\ slice p s (s + m) = Some (encoded e).
Proof.
  intros Hold Hn HL He Hbuf Hout Hroom.
  pose proof (byte_len_spec old n Hold Hn) as Hes. rewrite HL in Hes. destruct Hes as (es & Hlen & Hh & HLe).
  pose proof (serialize_spec e buf) as Hser. unfold wp in Hser.
  destruct (serialize_snapshot_entry e buf) as [[m|x| |] buf'] eqn:Es; try done.
  2: { destruct Hser as (_ & [[_ Hbad]|[_ Hbad]]); [|lia]. unfold new_entry_ok in He. lia. }
  destruct Hser as (Hm & _ & Hnew & _ & _). pose proof (blen_encoded e) as Hel.
  destruct (encoded_bytes e He) as [Heb Hes]. pose proof (encoded_ok e He) as Hek. pose proof Hold as [_ Hol].
  pose proof (holds_end old es 0 ltac:(lia) (blen_nonneg old) Hh) as Hend.
  pose proof (build_spec old L es (encoded e) out Hold Hh HLe ltac:(lia) Hek Heb Hes) as Hbuild. unfold wp in Hbuild.
  destruct (build_snapshot_table old L (encoded e) out) as [[total|x| |] out'] eqn:Eb; try done.
  2: { destruct Hbuild as (_ & Hbad). rewrite end_of_app, <- HLe in Hbad. cbn [end_of] in Hbad. lia. }
  destruct Hbuild as (Htot & Hol' & Hob' & Hh' & Hsame & _ & _). destruct Hout as [Hob Hobl].
  destruct (prefix_table out' (es ++ [encoded e]) total) as (p & Hp & Hpt & Hph); [split; [by apply Hob'|lia] | done | done |].
  assert (Z.of_nat (length (es ++ [encoded e])) = n + 1) as Hn1 by (rewrite length_app; cbn; lia).
  exists es, m, buf', total, out', p. do 7 (split; [done|]). split; [by apply Hsame|]. split; [done|].
  split; [rewrite <- Hn1, Htot; by apply byte_len_holds|]. split.
  - intros i Hi. destruct (lookup_lt_is_Some_2 es (Z.to_nat i)) as [x Hx]; [lia|].
    destruct (entry_bounds_holds old es (Z.to_nat i) x Hold Hh Hx) as [H1 _].
    destruct (entry_bounds_holds p (es ++ [encoded e]) (Z.to_nat i) x Hpt Hph) as [H2 _]; [by apply lookup_app_l_Some|].
    rewrite Z2Nat.id in H1, H2 by lia. rewrite Hn1 in H2. rewrite Hlen in H1. rewrite H1, H2, take_app_le by lia. done.
  - destruct (entry_bounds_holds p (es ++ [encoded e]) (length es) (encoded e) Hpt Hph) as [H1 H2];
      [by rewrite lookup_app_r, Nat.sub_diag by lia|].
    rewrite Hn1, Hlen in H1. rewrite Hel, <- Hm in H1, H2. eauto.
Qed.

(** ** Removing an entry *)

(** Deleting snapshot [idx] of [n] compacts the table: with an output buffer as
    long as the old table it always returns, and the result holds the other entries,
    in order, byte for byte, and nothing else. *)
Theorem delete_compacts old n L idx out es :
  table_ok old -> holds old 0 es -> Z.of_nat (length es) = n -> snapshot_table_byte_len old n = Ok L ->
  0 <= idx < n -> table_ok out -> L <= blen out ->
  exists total out' p,
    build_snapshot_table_without old L n idx out = (Ok total, out') /\ total <= L /\
    slice out' 0 total = Some p /\ snapshot_table_byte_len p (n - 1) = Ok total /\
    forall i e, delete (Z.to_nat idx) es !! i = Some e ->
      exists s, snapshot_table_entry_bounds p (n - 1) (Z.of_nat i) = Ok (s, blen e) /\ slice p s (s + blen e) = Some e.
Proof.
  intros Hold Hh Hlen HL Hidx [Hob Hobl] Hroom. pose proof (byte_len_holds old es Hold Hh) as HLe.
  rewrite Hlen, HL in HLe. injection HLe as HLe.
  destruct (prefix_table old es L Hold Hh HLe) as (table & Ht & Htok & Hth).
  pose proof (slice_blen _ _ _ _ Ht) as Htl. pose proof (slice_Some _ _ _ _ Ht) as (? & ? & _).
  pose proof (compact_spec es table 0 idx 0 out 0 [] Htok ltac:(lia) Hth I eq_refl ltac:(lia) ltac:(lia) ltac:(lia) ltac:(lia)) as Hc.
  cbv zeta in Hc. destruct (Z.leb_spec 0 idx); [|lia]. destruct (Z.ltb_spec idx (0 + Z.of_nat (length es))); [|lia].
  cbn [andb app] in Hc. rewrite Z.sub_0_r in Hc. unfold wp in Hc.
  unfold build_snapshot_table_without. destruct (Z.leb_spec n idx); [lia|]. destruct (Z.ltb_spec (blen old) L); [lia|].
  unfold sbind, slift. rewrite Ht. cbn [or_panic]. rewrite <- Hlen, Nat2Z.id.
  destruct (compact_loop table (length es) 0 idx 0 0 out) as [[total|x| |] out']; try done.
  destruct Hc as (Htot & Hol & Hbo & Hho).
  destruct (prefix_table out' (delete (Z.to_nat idx) es) total) as (p & Hp & Hpt & Hph); [split; [by apply Hbo|lia] | done | done |].
  destruct (lookup_lt_is_Some_2 es (Z.to_nat idx)) as [x Hx]; [lia|].
  assert (Z.of_nat (length (delete (Z.to_nat idx) es)) = Z.of_nat (length es) - 1) as Hn1
    by (rewrite length_delete by done; apply lookup_lt_Some in Hx; lia).
  exists total, out', p. split; [done|]. split.
  { rewrite Htot, HLe, delete_take_drop, end_of_app. rewrite <- (take_drop_middle es _ x Hx) at 3. rewrite end_of_app. cbn [end_of].
    apply end_of_mono. pose proof (round8_spec (end_of 0 (take (Z.to_nat idx) es))). pose proof (blen_nonneg x). lia. }
  split; [done|]. rewrite <- Hn1. split; [rewrite Htot; by apply byte_len_holds|].
  intros i e Hi. destruct (entry_bounds_holds p _ i e Hpt Hph Hi) as [Hi1 Hi2]. eauto.
Qed.

(** ** Lookup *)

(** The string a pass compares. *)
Definition key_of (by_id : bool) (e : bytes) : option bytes := if by_id then id_of e else name_of e.

(** What a match reports of entry [e] at index [i]. *)
Definition report (i : Z) (e : bytes) : FoundSnapshot :=
  mkFoundSnapshot i (num 8 e 0) (num 4 e 8) (if 16 <=? extra_of e then num 8 e 48 else 0).

(** The first entry with the key, by index. *)
Definition first_with (by_id : bool) (needle : bytes) (es : list bytes) : option FoundSnapshot :=
  (fun '(i, e) => report (Z.of_nat i) e) <$> list_find (fun e => key_of by_id e = Some needle) es.

Lemma entry_sizes_nonneg e : is_bytes e -> 0 <= extra_of e /\ 0 <= id_size_of e /\ 0 <= name_size_of e.
Proof. intros Hb. split; [|split]; by apply (num_bound _ e). Qed.

Lemma found_spec table s e i : slice table s (s + blen e) = Some e -> entry_ok e -> is_bytes e ->
  found_snapshot_at table i s (extra_of e) = Ok (report i e).
Proof.
  intros Hs [H40 Hl] Hb. destruct (entry_sizes_nonneg e Hb) as (? & ? & ?). unfold found_snapshot_at, report, be_u64, be_u32, SNAPSHOT_HEADER_SIZE.
  pose proof (num_read (E := SnapshotError) table s e 0 8 Hs ltac:(lia) ltac:(lia)) as Ha. rewrite Z.add_0_r in Ha.
  change (Z.of_nat 8) with 8 in Ha. rewrite Ha. cbn [obind].
  rewrite (num_read table s e 8 4 Hs) by lia. cbn [obind].
  destruct (Z.leb_spec 16 (extra_of e)); [|done]. rewrite <- Z.add_assoc. change (40 + 8) with 48.
  by rewrite (num_read table s e 48 8 Hs) by lia.
Qed.

(** One comparison. *)
Lemma key_read table s e by_id needle : slice table s (s + blen e) = Some e -> entry_ok e -> is_bytes e ->
  let '(field_start, field_len) :=
    if by_id : bool then (s + 40 + extra_of e, id_size_of e) else (s + 40 + extra_of e + id_size_of e, name_size_of e) in
  (if field_len =? blen needle then
     let? f := or_panic (slice table field_start (field_start + field_len)) in Ok (bool_decide (f = needle))
   else Ok (E := SnapshotError) false) = Ok (bool_decide (key_of by_id e = Some needle)).
Proof.
  intros Hs [H40 Hl] Hb. destruct (entry_sizes_nonneg e Hb) as (? & ? & ?).
  assert (forall a n, 0 <= a -> 0 <= n -> a + n <= blen e ->
    (if n =? blen needle then let? f := or_panic (slice table (s + a) (s + a + n)) in Ok (bool_decide (f = needle))
     else Ok (E := SnapshotError) false) = Ok (bool_decide (slice e a (a + n) = Some needle))) as Hgen.
  { intros a n Ha Hn Han. replace (s + a + n) with (s + (a + n)) by lia.
    rewrite <- (slice_slice _ _ _ _ a (a + n) Hs) by lia. destruct (slice_of e a (a + n)) as (f & Hf & Hfl); [lia | lia |].
    rewrite Hf. cbn [or_panic obind]. destruct (Z.eqb_spec n (blen needle)) as [->|Hne]; f_equal.
    - apply bool_decide_ext. naive_solver.
    - symmetry. apply bool_decide_eq_false. intros [= ->]. lia. }
  destruct by_id; cbn [key_of]; unfold id_of, name_of.
  - rewrite <- (Hgen (40 + extra_of e) (id_size_of e)) by lia. by rewrite !Z.add_assoc.
  - rewrite <- (Hgen (40 + extra_of e + id_size_of e) (name_size_of e)) by lia. by rewrite !Z.add_assoc.
Qed.

Lemma find_loop_spec es : forall table off (k : nat) needle by_id, table_ok table -> 0 <= off <= blen table ->
  holds table off es ->
  find_loop table (length es) (Z.of_nat k) off needle by_id =
    Ok ((fun '(i, e) => report (Z.of_nat (k + i)) e) <$> list_find (fun e => key_of by_id e = Some needle) es).
Proof.
  induction es as [|e es IH]; intros table off k needle by_id Ht Ho Hh; cbn [find_loop length]; [done|].
  rewrite (holds_bounds _ _ _ _ Ht Ho Hh). cbn [obind]. destruct Hh as (He & Hs & Hr). pose proof Ht as [Hb Hl].
  pose proof (slice_Some _ _ _ _ Hs) as (? & ? & _). pose proof (round8_spec off). pose proof (slice_is_bytes _ _ _ _ Hb Hs) as Heb.
  unfold be_u32, be_u16. pose proof He as [H40 _].
  rewrite (num_read table (round8 off) e 36 4 Hs) by lia. cbn [obind].
  rewrite (num_read table (round8 off) e 12 2 Hs) by lia. cbn [obind].
  rewrite (num_read table (round8 off) e 14 2 Hs) by lia. cbn [obind].
  fold (extra_of e) (id_size_of e) (name_size_of e). unfold SNAPSHOT_HEADER_SIZE.
  pose proof (key_read table (round8 off) e by_id needle Hs He Heb) as Hk.
  destruct (if by_id then _ else _) as [fs fl]. rewrite Hk. cbn [obind list_find].
  case_bool_decide as Hkey.
  - rewrite (found_spec _ _ _ _ Hs He Heb), decide_True by done. cbn. by rewrite Nat.add_0_r.
  - rewrite decide_False by done. rewrite wadd_small by (unfold u64_max; lia).
    replace (Z.of_nat k + 1) with (Z.of_nat (S k)) by lia. rewrite (IH table _ (S k)) by (done || lia).
    f_equal. destruct (list_find _ es) as [[i x]|]; [|done]. cbn. f_equal. f_equal. lia.
Qed.

(** Looking a snapshot up never fails on a table it can walk, and finds what the
    command promises: the first entry whose id is the needle, else the first whose
    name is; or, by name only, the first whose name is. *)
Theorem find_snapshot_first table n L es needle mode :
  table_ok table -> holds table 0 es -> Z.of_nat (length es) = n -> snapshot_table_byte_len table n = Ok L ->
  find_snapshot_in_table table L n needle mode =
    Ok match mode with
       | IdThenName => match first_with true needle es with Some f => Some f | None => first_with false needle es end
       | NameOnly => first_with false needle es
       end.
Proof.
  intros Ht Hh Hlen HL. pose proof (byte_len_holds table es Ht Hh) as HLe. rewrite Hlen, HL in HLe. injection HLe as HLe.
  destruct (prefix_table table es L Ht Hh HLe) as (p & Hp & Hpt & Hph). pose proof (slice_Some _ _ _ _ Hp) as (? & ? & _).
  unfold find_snapshot_in_table. destruct (Z.ltb_spec (blen table) L); [lia|]. rewrite Hp. cbn [or_panic obind].
  assert (forall by_id, find_pass p n needle by_id = Ok (first_with by_id needle es)) as Hpass.
  { intros by_id. unfold find_pass, first_with. rewrite <- Hlen, Nat2Z.id.
    apply (find_loop_spec es p 0 0%nat); [done | pose proof (blen_nonneg p); lia | done]. }
  destruct mode; rewrite !Hpass; [|done]. cbn [obind]. by destruct (first_with true needle es).
Qed.

(** ** Decimal ids *)

Definition all_digits (s : bytes) : Prop := Forall (fun b => is_ascii_digit b = true) s.

Lemma parse_digits_app s1 : forall acc s2, all_digits s1 ->
  parse_digits acc (s1 ++ s2) = (v ← parse_digits acc s1; parse_digits v s2).
Proof.
  induction s1 as [|b s1 IH]; intros acc s2 Hs; [done|]. inversion Hs as [|? ? Hb Hr]; subst. cbn [app parse_digits]. rewrite Hb.
  destruct (checked_mul acc 10) as [v|]; [|done]. cbn. destruct (checked_add v (b - 48)) as [w|]; [|done]. cbn. by apply IH.
Qed.

Lemma digits_rev_digits f : forall v, 0 <= v -> all_digits (digits_rev f v).
Proof.
  induction f as [|f IH]; intros v Hv; cbn; [constructor|]. destruct (Z.ltb_spec 0 v); [|constructor].
  pose proof (Z.mod_pos_bound v 10 ltac:(lia)). constructor; [unfold is_ascii_digit; apply andb_true_iff; split; apply Z.leb_le; lia|].
  apply IH. apply Z.div_pos; lia.
Qed.

Lemma digits_parse f : forall v, 0 <= v < 10 ^ Z.of_nat f -> v <= u64_max ->
  parse_digits 0 (rev (digits_rev f v)) = Some v.
Proof.
  induction f as [|f IH]; intros v Hv Hm; [change (10 ^ Z.of_nat 0) with 1 in Hv; change (Some 0 = Some v); f_equal; lia|]. cbn [digits_rev].
  destruct (Z.ltb_spec 0 v); [|cbn; f_equal; lia]. rewrite Nat2Z.inj_succ, Z.pow_succ_r in Hv by lia.
  pose proof (Z.div_mod v 10 ltac:(lia)). pose proof (Z.mod_pos_bound v 10 ltac:(lia)) as Hd.
  assert (0 <= v / 10 < 10 ^ Z.of_nat f) as Hq by (split; [apply Z.div_pos; lia | apply Z.div_lt_upper_bound; lia]).
  cbn [rev]. rewrite parse_digits_app by (apply Forall_rev, digits_rev_digits; lia). rewrite IH by lia. cbn [mbind option_bind parse_digits].
  replace (is_ascii_digit (48 + v mod 10)) with true
    by (symmetry; unfold is_ascii_digit; apply andb_true_iff; split; apply Z.leb_le; lia).
  unfold checked_mul, checked_add. destruct (Z.leb_spec (v / 10 * 10) u64_max); [|lia]. cbn [mbind option_bind].
  destruct (Z.leb_spec (v / 10 * 10 + (48 + v mod 10 - 48)) u64_max); [|lia]. cbn. f_equal. lia.
Qed.

Lemma digits_length f : forall v, (0 < v -> 10 ^ (Z.of_nat (length (digits_rev f v)) - 1) <= v) /\ (length (digits_rev f v) <= f)%nat.
Proof.
  induction f as [|f IH]; intros v; cbn [digits_rev]; [split; cbn; lia|]. destruct (Z.ltb_spec 0 v); [|split; cbn; lia].
  destruct (IH (v / 10)) as [H1 H2]. cbn [length]. split; [|lia]. intros _.
  pose proof (Z.div_mod v 10 ltac:(lia)). pose proof (Z.mod_pos_bound v 10 ltac:(lia)).
  replace (Z.of_nat (S (length (digits_rev f (v / 10)))) - 1) with (Z.of_nat (length (digits_rev f (v / 10)))) by lia.
  destruct (decide (0 < v / 10)) as [Hq|Hq].
  - specialize (H1 Hq). destruct (length (digits_rev f (v / 10))) as [|k] eqn:Hk.
    { cbn. lia. }
    replace (Z.of_nat (S k)) with (Z.succ (Z.of_nat (S k) - 1)) by lia. rewrite Z.pow_succ_r by lia. lia.
  - assert (digits_rev f (v / 10) = []) as -> by (destruct f; [done|]; cbn; destruct (Z.ltb_spec 0 (v / 10)); [lia|done]). cbn. lia.
Qed.

(** Decimal ids round-trip: formatting a 64-bit value in a buffer of 20 bytes or
    more never overruns the scratch array and always returns; the digits written are
    at most 20 and parse back to the value. *)
Theorem decimal_id_roundtrip v out : is_u64 v -> 20 <= blen out ->
  exists n out' s, format_decimal_u64 v out = (Ok n, out') /\ 1 <= n <= 20 /\ blen out' = blen out /\
    slice out' 0 n = Some s /\ all_digits s /\ parse_decimal_id s = Some v.
Proof.
  intros [Hv Hm] Hout. unfold format_decimal_u64.
  set (tmp := if v =? 0 then [48] else digits_rev 21 v).
  assert (1 <= blen tmp <= 20 /\ all_digits (rev tmp) /\ parse_digits 0 (rev tmp) = Some v) as (Hlen & Hdig & Hparse).
  { subst tmp. destruct (Z.eqb_spec v 0) as [->|Hne].
    - split; [change (blen [48]) with 1; lia|]. split; [by repeat constructor | done].
    - split.
      + destruct (digits_length 21 v) as [Hlo _]. specialize (Hlo ltac:(lia)). unfold blen.
        destruct (decide (Z.of_nat (length (digits_rev 21 v)) <= 20)) as [?|Hbig].
        * split; [|done]. cbn [digits_rev]. destruct (Z.ltb_spec 0 v); [cbn [length]|]; lia.
        * exfalso. assert (10 ^ 20 <= 10 ^ (Z.of_nat (length (digits_rev 21 v)) - 1)) by (apply Z.pow_le_mono_r; lia).
          change (10 ^ 20) with 100000000000000000000 in *. unfold u64_max in Hm. lia.
      + split; [apply Forall_rev, digits_rev_digits; lia|]. apply digits_parse; [|done].
        change (10 ^ Z.of_nat 21) with 1000000000000000000000. unfold u64_max in Hm. lia. }
  clearbody tmp. destruct (Z.ltb_spec 20 (blen tmp)); [lia|].
  assert (blen (rev tmp) = blen tmp) as Hrev by (unfold blen; by rewrite length_rev).
  destruct (splice_of out 0 (rev tmp)) as (out' & Hsp & Hol); [lia | lia |].
  exists (blen tmp), out', (rev tmp). unfold put, sbind, sget, slift, sput, sret.
  destruct (Z.ltb_spec (blen out) (blen tmp)); [lia|]. rewrite Hsp. cbn [or_panic].
  pose proof (slice_splice_eq _ _ _ _ Hsp) as Hs. rewrite Hrev in Hs. done.
Qed.

(** ** Witnesses *)

Definition entry_a : NewSnapshotEntry := mkNewSnapshotEntry 327680 1 [49] [97] 1700000000 5 6 0 0 1048576 u64_max.
Definition entry_b : NewSnapshotEntry := mkNewSnapshotEntry 393216 1 [50] [98; 98] 1700000001 5 6 0 0 2097152 u64_max.
Definition table_a : bytes := encoded entry_a.
Definition table_ab : bytes := encoded entry_a ++ filled 6 0 ++ encoded entry_b.

Lemma table_ab_ok : table_ok table_ab /\ holds table_ab 0 [encoded entry_a; encoded entry_b].
Proof.
  split; [split; [apply is_bytesb_true; vm_compute; reflexivity | vm_compute; discriminate]|].
  cbn [holds]. unfold entry_ok. repeat split; try (vm_compute; reflexivity); vm_compute; discriminate.
Qed.

Lemma delete_compacts_witness :
  exists total out' p, build_snapshot_table_without table_ab 139 2 0 (filled 139 255) = (Ok total, out') /\ total <= 139 /\
    slice out' 0 total = Some p /\ snapshot_table_byte_len p 1 = Ok total /\ 
    exists s, snapshot_table_entry_bounds p 1 0 = Ok (s, 67) /\ slice p s (s + 67) = Some (encoded entry_b).
Proof.
  destruct table_ab_ok as [Ht Hh].
  assert (table_ok (filled 139 255)) as Ho
    by (split; [apply is_bytesb_true; vm_compute; reflexivity | vm_compute; discriminate]).
  destruct (delete_compacts table_ab 2 139 0 (filled 139 255) _ Ht Hh eq_refl ltac:(vm_compute; reflexivity)
    ltac:(lia) Ho ltac:(vm_compute; discriminate)) as (total & out' & p & Hd & Hle & Hp & Hlen & Hall).
  exists total, out', p. exact (conj Hd (conj Hle (conj Hp (conj Hlen (Hall 0%nat (encoded entry_b) eq_refl))))).
Defined.

Lemma find_snapshot_first_witness :
  find_snapshot_in_table table_ab 139 2 [98; 98] IdThenName = Ok (Some (mkFoundSnapshot 1 393216 1 2097152)).
Proof.
  destruct table_ab_ok as [Ht Hh].
  rewrite (find_snapshot_first table_ab 2 139 _ [98; 98] IdThenName Ht Hh eq_refl ltac:(vm_compute; reflexivity)).
  vm_compute. reflexivity.
Defined.

Lemma decimal_id_roundtrip_witness :
  exists n out' s, format_decimal_u64 u64_max (filled 20 0) = (Ok n, out') /\ 1 <= n <= 20 /\ blen out' = blen (filled 20 0) /\
    slice out' 0 n = Some s /\ all_digits s /\ parse_decimal_id s = Some u64_max.
Proof. apply decimal_id_roundtrip; [split; vm_compute; discriminate | vm_compute; discriminate]. Defined.
