(* ===== verification/SnapRead.v ===== *)
(** The reader of the snapshot table ([for_each_snapshot_entry] and
    [read_bytes_cached] of [src/src/crates/qcow2/src/lib.rs]), and what it sees of the
    table that creating a snapshot builds ([SnapTable]).

    The reader goes through a one-sector cache byte by byte and hands each entry to
    a callback; [listing] is the callback that collects them.  The id is kept up to 63
    bytes and the name up to 255, in zero-padded arrays; the two length fields keep
    the lengths of the table. *)

From stdpp Require Import base numbers list sets option.
From Stdlib Require Import ZArith Lia.
From S2P Require Import Prelude Bytes Refcount ExecBytes CachedRead SnapTable.

(** ** Definitions *)

Record SnapshotEntry : Type := mkSnapshotEntry {
  se_l1_table_offset : Z;
  se_l1_size : Z;
  se_id_len : Z;
  se_name_len : Z;
  se_id : bytes;
  se_name : bytes;
  se_date_sec : Z;
  se_vm_state_size : Z;
  se_date_nsec : Z;
  se_vm_clock_nsec : Z;
  se_vm_state_size_large : Z;
  se_disk_size : Z;
  se_icount : Z;
  se_extra_data_size : Z
}.

(** [buf[..src.len()]] overwritten in a zeroed array of [n] bytes. *)
Definition zero_padded (n : Z) (src : bytes) : bytes := src ++ filled (n - blen src) 0.

(** The entry the reader assembles from the parsed header, the extra data and the
    string bytes it copied. *)
Definition snapshot_entry (raw : SnapshotHeaderRaw) (extra : SnapshotExtraData) (id name : bytes) : SnapshotEntry :=
  mkSnapshotEntry (sh_l1_table_offset raw) (sh_l1_size raw) (sh_id_str_size raw) (sh_name_size raw)
    (zero_padded 64 id) (zero_padded 256 name) (sh_date_sec raw) (sh_vm_state_size raw) (sh_date_nsec raw)
    (sh_vm_clock_nsec raw)
    (if 8 <=? sh_extra_data_size raw then sx_vm_state_size_large extra else sh_vm_state_size raw)
    (sx_disk_size extra) (sx_icount extra) (sh_extra_data_size raw).

(** [offset += (entry_size + 7) & !7]. *)
Definition entry_step (e : SnapshotEntry) : Z :=
  Z.land (40 + se_extra_data_size e + se_id_len e + se_name_len e + 7) (not64 7).

Section reader.
Context {H : Type} `{InputIo H} (device_idx sector_size input_capacity : Z).

Abbreviation RM := (SM (InSt H) unit).

(** [read_u8_cached]. *)
Definition read_u8_cached (offset : Z) : RM Z :=
  cached_read CacheA 1 be_val device_idx offset sector_size input_capacity.

(** Bytes [j], [j + 1], ... of the run at [offset]. *)
Fixpoint read_bytes_from (offset : Z) (n : nat) (j : Z) : RM bytes :=
  match n with
  | O => sret []
  | S n' =>
      let! b := read_u8_cached (wadd offset j) in
      let! rest := read_bytes_from offset n' (j + 1) in
      sret (b :: rest)
  end.

(** [false] is the error. *)
Definition read_bytes_cached (offset len : Z) (out : bytes) : RM bytes :=
  let n := Z.to_nat (Z.min len (blen out)) in
  let! got := read_bytes_from offset n 0 in
  sret (got ++ drop n out).

(** One turn of the loop, up to the callback. *)
Definition read_snapshot_entry (offset : Z) : RM SnapshotEntry :=
  let! header_buf := read_bytes_cached offset 40 (filled 40 0) in
  let! raw := slift (parse_snapshot_header_bytes header_buf) in
  if QCOW_MAX_SNAPSHOT_EXTRA_DATA <? sh_extra_data_size raw then sfail tt
  else
  let extra_read := Z.min (sh_extra_data_size raw) 24 in
  let! extra_buf :=
    (if 0 <? extra_read then read_bytes_cached (wadd offset 40) extra_read (filled extra_read 0)
     else sret []) in
  let extra := parse_snapshot_extra_data extra_buf (sh_extra_data_size raw) in
  let id_start := wadd (wadd offset 40) (sh_extra_data_size raw) in
  let id_copy_len := Z.min (sh_id_str_size raw) 63 in
  let! id :=
    (if 0 <? id_copy_len then read_bytes_cached id_start id_copy_len (filled id_copy_len 0) else sret []) in
  let name_start := wadd id_start (sh_id_str_size raw) in
  let name_copy_len := Z.min (sh_name_size raw) 255 in
  let! name :=
    (if 0 <? name_copy_len then read_bytes_cached name_start name_copy_len (filled name_copy_len 0) else sret []) in
  sret (snapshot_entry raw extra id name).

(** The loop, with the state of the callback. *)
Section walk.
Context {C : Type} (callback : SnapshotEntry -> C -> bool * C).

Fixpoint entries_loop (n : nat) (offset : Z) (c : C) : RM (bool * C) :=
  match n with
  | O => sret (true, c)
  | S n' =>
      let! r := attempt (read_snapshot_entry offset) in
      match r with
      | None => sret (false, c)
      | Some entry =>
          let '(go, c') := callback entry c in
          if go : bool then entries_loop n' (wadd offset (entry_step entry)) c'
          else sret (false, c')
      end
  end.

(** The cache starts invalid. *)
Definition for_each_snapshot_entry (nb_snapshots snapshots_offset : Z) (c : C) : RM (bool * C) :=
  do! smod (fun s => set_cache CacheA (mkSectorCache u64_max (cache_buf (get_cache CacheA s))) s) in
  entries_loop (Z.to_nat nb_snapshots) snapshots_offset c.

End walk.
End reader.

(** Collecting every entry. *)
Definition listing (entry : SnapshotEntry) (l : list SnapshotEntry) : bool * list SnapshotEntry :=
  (true, l ++ [entry]).

(** ** What the reader sees of the bytes of an entry *)

Definition entry_view (e : bytes) : option SnapshotEntry :=
  h ← slice e 0 40;
  match parse_snapshot_header_bytes h with
  | Ok raw =>
      if QCOW_MAX_SNAPSHOT_EXTRA_DATA <? sh_extra_data_size raw then None
      else
        x ← slice e 40 (40 + Z.min (sh_extra_data_size raw) 24);
        let i := 40 + sh_extra_data_size raw in
        id ← slice e i (i + Z.min (sh_id_str_size raw) 63);
        let n := i + sh_id_str_size raw in
        name ← slice e n (n + Z.min (sh_name_size raw) 255);
        Some (snapshot_entry raw (parse_snapshot_extra_data x (sh_extra_data_size raw)) id name)
  | _ => None
  end.

(** The header of an entry parses to its fields. *)
Lemma entry_header e h : is_bytes e -> slice e 0 40 = Some h ->
  exists raw, parse_snapshot_header_bytes h = Ok raw /\ sh_extra_data_size raw = extra_of e /\
    sh_id_str_size raw = id_size_of e /\ sh_name_size raw = name_size_of e.
Proof.
  intros Hb Hh. pose proof (slice_blen _ _ _ _ Hh) as Hl. pose proof (slice_Some _ _ _ _ Hh) as (_ & H40 & _).
  unfold parse_snapshot_header_bytes. destruct (Z.ltb_spec (blen h) 40); [lia|].
  assert (forall n off, 0 <= off -> off + Z.of_nat n <= 40 ->
    (let? s := or_panic (slice h off (off + Z.of_nat n)) in Ok (E := unit) (be_val s)) = Ok (num n e off)) as Hread.
  { intros n off Ho Hn. unfold num. rewrite (slice_slice _ _ _ _ off (off + Z.of_nat n) Hh) by lia.
    rewrite !Z.add_0_l. destruct (slice_of e off (off + Z.of_nat n)) as (x & Hx & _); [lia | lia |]. by rewrite Hx. }
  unfold be_u64, be_u32, be_u16.
  repeat first [rewrite (Hread 8%nat) by lia | rewrite (Hread 4%nat) by lia | rewrite (Hread 2%nat) by lia | progress cbn [obind]].
  by eexists.
Qed.

(** ** The reader computes the view *)

Section reading.
Context {H : Type} `{FlatInput H} (dev ssz cap : Z) (img : bytes) (Hdev : device_ok ssz cap img).

Lemma computes_u8 o b : is_u64 o -> o < cap * ssz -> slice img o (o + 1) = Some [b] ->
  computes dev ssz img (read_u8_cached dev ssz cap o) (Some b).
Proof.
  intros Ho Hc Hb. eapply computes_eq; [apply computes_read; [done | done | lia]|].
  destruct Hdev as [Hz Hcap _ _]. unfold is_u64 in Ho. pose proof (Z.mod_pos_bound o ssz ltac:(lia)).
  unfold direct_read. destruct (Z.leb_spec (o mod ssz + 1) ssz); [|lia].
  assert (o / ssz < cap) by (apply Z.div_lt_upper_bound; lia). destruct (Z.ltb_spec (o / ssz) cap); [|lia].
  cbn [andb]. rewrite Hb. done.
Qed.

Lemma computes_bytes off : forall n j l, 0 <= off -> 0 <= j -> off + j + Z.of_nat n <= cap * ssz ->
  slice img (off + j) (off + j + Z.of_nat n) = Some l ->
  computes dev ssz img (read_bytes_from dev ssz cap off n j) (Some l).
Proof.
  pose proof Hdev as [_ _ Hsize Hlen]. induction n as [|n IH]; intros j l Ho Hj Hc Hl; cbn [read_bytes_from].
  - pose proof (slice_blen _ _ _ _ Hl) as Hll. destruct l; [apply computes_ret|].
    rewrite blen_cons in Hll. pose proof (blen_nonneg l). lia.
  - pose proof (slice_blen _ _ _ _ Hl) as Hll. destruct l as [|b l]; [change (blen []) with 0 in Hll; lia|].
    rewrite blen_cons in Hll.
    pose proof (slice_slice _ _ _ _ 0 1 Hl ltac:(lia) ltac:(lia)) as Q1.
    pose proof (slice_slice _ _ _ _ 1 (1 + Z.of_nat n) Hl ltac:(lia) ltac:(lia)) as Q2.
    pose proof (slice_left [b] l) as E1. change (blen [b]) with 1 in E1. cbn [app] in E1. rewrite E1 in Q1.
    pose proof (slice_right [b] l 0 (Z.of_nat n) ltac:(lia)) as E2. change (blen [b]) with 1 in E2. cbn [app] in E2.
    replace (Z.of_nat n) with (blen l) in E2 at 2 by lia. rewrite slice_full, Z.add_0_r in E2. rewrite E2 in Q2.
    rewrite wadd_small by (unfold u64_max in *; lia).
    apply (computes_known _ _ _ _ b); [apply computes_u8; [split; lia | lia | rewrite Q1; f_equal; lia]|].
    apply (computes_known _ _ _ _ l); [|apply computes_ret].
    apply (IH (j + 1) l); [lia.. |]. rewrite Q2. f_equal; lia.
Qed.

(** A run of bytes into a buffer of its length. *)
Lemma computes_run off len l : 0 <= off -> 0 <= len -> off + len <= cap * ssz -> slice img off (off + len) = Some l ->
  computes dev ssz img (read_bytes_cached dev ssz cap off len (filled len 0)) (Some l).
Proof.
  intros Ho Hl Hc Hs. unfold read_bytes_cached. rewrite blen_filled, Z.min_id by done.
  apply (computes_known _ _ _ _ l).
  - apply (computes_bytes off _ 0 l); rewrite ?Z.add_0_r, ?Z2Nat.id by done; done.
  - eapply computes_eq; [apply computes_ret|]. f_equal. rewrite drop_ge; [apply app_nil_r|]. pose proof (blen_filled len 0 Hl) as Hf. unfold blen in Hf. lia.
Qed.

(** The same guarded by its length. *)
Lemma computes_some_run off len l : 0 <= off -> 0 <= len -> off + len <= cap * ssz -> slice img off (off + len) = Some l ->
  computes dev ssz img
    (if 0 <? len then read_bytes_cached dev ssz cap off len (filled len 0) else sret []) (Some l).
Proof.
  intros Ho Hl Hc Hs. destruct (Z.ltb_spec 0 len); [by apply computes_run|].
  pose proof (slice_blen _ _ _ _ Hs) as Hll. destruct l; [apply computes_ret|].
  rewrite blen_cons in Hll. pose proof (blen_nonneg l). lia.
Qed.

Lemma computes_entry off e : 0 <= off -> off + blen e <= cap * ssz -> slice img off (off + blen e) = Some e ->
  is_bytes e -> entry_ok e ->
  computes dev ssz img (read_snapshot_entry dev ssz cap off) (entry_view e).
Proof.
  intros Ho Hc Hs Hb [H40 Hl]. pose proof Hdev as [_ _ Hsize Hlen].
  destruct (entry_sizes_nonneg e Hb) as (Hx0 & Hi0 & Hn0).
  assert (forall a b, 0 <= a <= b -> b <= blen e ->
    exists x, slice e a b = Some x /\ slice img (off + a) (off + a + (b - a)) = Some x) as Hpart.
  { intros a b Hab Hbe. destruct (slice_of e a b) as (x & Hx & _); [lia | lia |]. exists x. split; [done|].
    rewrite <- Hx, (slice_slice _ _ _ _ a b Hs) by lia. f_equal. lia. }
  unfold read_snapshot_entry, entry_view.
  destruct (Hpart 0 40) as (h & Hh & Hhi); [lia | lia |]. rewrite Hh. cbn [mbind option_bind].
  destruct (entry_header e h Hb Hh) as (raw & Hraw & Ex & Ei & En). rewrite Hraw.
  rewrite Z.add_0_r in Hhi.
  apply (computes_known _ _ _ _ h); [by apply computes_run; [lia..|]|]. rewrite Hraw.
  eapply computes_ok; [reflexivity|].
  rewrite Ex, Ei, En. apply computes_if; [intros _; apply computes_fail|intros Hcap].
  unfold QCOW_MAX_SNAPSHOT_EXTRA_DATA in Hcap. apply Z.ltb_ge in Hcap. rewrite !wadd_small by (unfold u64_max in *; lia).
  destruct (Hpart 40 (40 + Z.min (extra_of e) 24)) as (x & -> & Hxi); [lia | lia |].
  destruct (Hpart (40 + extra_of e) (40 + extra_of e + Z.min (id_size_of e) 63)) as (i & -> & Hii); [lia | lia |].
  destruct (Hpart (40 + extra_of e + id_size_of e) (40 + extra_of e + id_size_of e + Z.min (name_size_of e) 255))
    as (nm & -> & Hni); [lia | lia |]. cbn [mbind option_bind].
  apply (computes_known _ _ _ _ x); [apply computes_some_run; [lia..|]; rewrite <- Hxi; f_equal; lia|].
  apply (computes_known _ _ _ _ i); [apply computes_some_run; [lia..|]; rewrite <- Hii; f_equal; lia|].
  apply (computes_known _ _ _ _ nm); [apply computes_some_run; [lia..|]; rewrite <- Hni; f_equal; lia|].
  apply computes_ret.
Qed.

(** On a responsive device an attempt returns the view of the entry, if it has one. *)
Lemma attempt_entry off e (s : InSt H) : 0 <= off -> off + blen e <= cap * ssz -> slice img off (off + blen e) = Some e ->
  is_bytes e -> entry_ok e -> reader_ok dev ssz img s -> responsive (in_host s) ->
  wp (attempt (read_snapshot_entry dev ssz cap off))
    (fun r s' => r = entry_view e /\ reader_ok dev ssz img s' /\ responsive (in_host s')) (fun _ _ => False) s.
Proof.
  intros Ho Hc Hs Hb He Hok Hr.
  eapply wp_mono; [apply (wp_attempt _ _ _ _ _ _ (computes_entry off e Ho Hc Hs Hb He) Hok) | |done].
  intros r s' (Hok' & Hr' & Hv & Hn). split; [|by auto]. destruct r as [v|]; symmetry; auto.
Qed.

(** The callbacks in order, over what the reader sees of the entries. *)
Fixpoint walk_views {C} (callback : SnapshotEntry -> C -> bool * C) (es : list bytes) (c : C) : bool * C :=
  match es with
  | [] => (true, c)
  | e :: rest =>
      match entry_view e with
      | None => (false, c)
      | Some v => let '(go, c') := callback v c in if go then walk_views callback rest c' else (false, c')
      end
  end.

Lemma round8_add a b : round8 (round8 a + b) = round8 a + round8 b.
Proof.
  unfold round8. replace ((a + 7) / 8 * 8 + b + 7) with (b + 7 + (a + 7) / 8 * 8) by lia.
  rewrite Z.div_add by lia. lia.
Qed.

Lemma view_step e v : is_bytes e -> entry_ok e -> entry_view e = Some v -> blen e <= 9223372036854775807 -> entry_step v = round8 (blen e).
Proof.
  intros Hb [H40 Hl] Hv Hmax. unfold entry_view in Hv. destruct (slice_of e 0 40) as (h & Hh & _); [lia | lia |].
  rewrite Hh in Hv. cbn [mbind option_bind] in Hv. destruct (entry_header e h Hb Hh) as (raw & Hraw & Ex & Ei & En).
  rewrite Hraw in Hv. destruct (_ <? _); [done|].
  destruct (slice e 40 _); [|done]. cbn [mbind option_bind] in Hv.
  destruct (slice e (40 + _) _); [|done]. cbn [mbind option_bind] in Hv.
  destruct (slice e _ _); [|done]. cbn [mbind option_bind] in Hv. injection Hv as <-.
  unfold entry_step, snapshot_entry. cbn [se_extra_data_size se_id_len se_name_len]. rewrite Ex, Ei, En, <- Hl.
  pose proof (blen_nonneg e). apply land_not7. unfold u64_max. lia.
Qed.

Lemma entries_delivered {C} (callback : SnapshotEntry -> C -> bool * C) table base : table_ok table -> 0 <= base ->
  base + blen table <= cap * ssz -> slice img base (base + blen table) = Some table ->
  forall es o off c (s : InSt H), 0 <= o -> holds table o es -> (es <> [] -> off = base + round8 o) ->
  reader_ok dev ssz img s -> responsive (in_host s) ->
  wp (entries_loop dev ssz cap callback (length es) off c)
    (fun r _ => r = walk_views callback es c) (fun _ _ => False) s.
Proof.
  intros [Htb Htl] Hbase Hcap Hs. pose proof Hdev as [_ _ Hsize Hlen].
  induction es as [|e es IH]; intros o off c s Ho Hh Hoff Hok Hr; cbn [entries_loop length walk_views]; [by wstep|].
  destruct Hh as (He & Hes & Hrest). rewrite (Hoff ltac:(done)). clear Hoff off.
  pose proof (round8_spec o) as [Hr8 _]. pose proof (slice_Some _ _ _ _ Hes) as (_ & Hin & _).
  pose proof (slice_is_bytes _ _ _ _ Htb Hes) as Heb. pose proof (blen_nonneg e).
  wstep. eapply wp_mono; [eapply (attempt_entry _ e); try done; try lia| |done].
  - rewrite <- Hes, (slice_slice _ _ _ _ (round8 o) (round8 o + blen e) Hs) by lia. f_equal. lia.
  - intros r s' (-> & Hok' & Hr'). destruct (entry_view e) as [v|] eqn:Hv; [|by wstep].
    destruct (callback v c) as [[] c']; [|by wstep].
    rewrite (view_step e v Heb He Hv) by lia.
    apply (IH (round8 o + blen e)); [lia | done | | done | done].
    intros Hne. destruct es as [|e' es]; [done|]. destruct Hrest as (_ & Hes' & _).
    apply slice_Some in Hes' as (_ & Hin' & _). pose proof (blen_nonneg e').
    rewrite round8_add in *. pose proof (round8_spec (blen e)). rewrite wadd_small by (unfold u64_max in *; lia). lia.
Qed.
End reading.

Section listed.
Context {H : Type} `{FlatInput H}.

(** A responsive device that holds [table] from [base] on. *)
Record stores (dev ssz cap base : Z) (table : bytes) (s : InSt H) : Prop := {
  st_device : device_ok ssz cap (image (in_host s) dev);
  st_ready : reader_ok dev ssz (image (in_host s) dev) s;
  st_responsive : responsive (in_host s);
  st_base : 0 <= base;
  st_room : base + blen table <= cap * ssz;
  st_table : slice (image (in_host s) dev) base (base + blen table) = Some table
}.

(** The reader walks exactly the entries the table holds. *)
Lemma for_each_walks {C} (callback : SnapshotEntry -> C -> bool * C) dev ssz cap base table es c (s : InSt H) :
  stores dev ssz cap base table s -> table_ok table -> holds table 0 es ->
  exists s', for_each_snapshot_entry dev ssz cap callback (Z.of_nat (length es)) base c s = (Ok (walk_views callback es c), s').
Proof.
  intros [Hdev Hok Hr Hbase Hroom Htab] Ht Hh. unfold for_each_snapshot_entry. rewrite Nat2Z.id.
  set (s0 := set_cache CacheA (mkSectorCache u64_max (cache_buf (get_cache CacheA s))) s).
  assert (reader_ok dev ssz (image (in_host s) dev) s0) as Hok0.
  { apply reader_ok_set; [done|]. destruct Hok as [_ Hc]. destruct (Hc CacheA) as [Hl _]. split; [done|by left]. }
  pose proof (entries_delivered dev ssz cap _ Hdev callback table base Ht Hbase Hroom Htab es 0 base c s0
    ltac:(lia) Hh (fun _ => ltac:(change (round8 0) with 0; lia)) Hok0 Hr) as Hwp.
  unfold wp in Hwp. unfold sbind, smod. fold s0.
  destruct (entries_loop dev ssz cap callback (length es) base c s0) as [[r|[]| |] s']; try done. subst r. by eexists.
Qed.
End listed.

(** A listing that reaches the end has seen every entry. *)
Lemma listing_end es : forall acc l, walk_views listing es acc = (true, l) ->
  exists vs, mapM entry_view es = Some vs /\ l = acc ++ vs.
Proof.
  induction es as [|e es IH]; intros acc l; cbn [walk_views listing].
  - intros [= <-]. exists []. by rewrite app_nil_r.
  - cbn. destruct (entry_view e) as [v|]; [|done]. intros (vs & Hvs & ->)%IH. exists (v :: vs).
    rewrite Hvs. split; [done|]. by rewrite <- app_assoc.
Qed.

Lemma listing_all es : forall acc vs, mapM entry_view es = Some vs -> walk_views listing es acc = (true, acc ++ vs).
Proof.
  induction es as [|e es IH]; intros acc vs; cbn.
  - intros [= <-]. by rewrite app_nil_r.
  - destruct (entry_view e) as [v|]; [|done]. cbn. destruct (mapM entry_view es) as [vs'|] eqn:Hvs; [|done].
    intros [= <-]. rewrite (IH _ vs') by done. by rewrite <- app_assoc.
Qed.

(** What the reader makes of a new snapshot: its fields, its id up to 63 bytes, its name up
    to 255. *)
Definition listed (e : NewSnapshotEntry) : SnapshotEntry :=
  mkSnapshotEntry (ns_l1_table_offset e) (ns_l1_size e) (blen (ns_id e)) (blen (ns_name e))
    (take 63 (ns_id e) ++ filled (64 - Z.min (blen (ns_id e)) 63) 0)
    (take 255 (ns_name e) ++ filled (256 - Z.min (blen (ns_name e)) 255) 0)
    (ns_date_sec e) (ns_vm_state_size e) (ns_date_nsec e) (ns_vm_clock_nsec e)
    (ns_vm_state_size_large e) (ns_disk_size e) (ns_icount e) 24.

(** Only the first 40 bytes are parsed. *)
Lemma header_prefix e h : slice e 0 40 = Some h -> parse_snapshot_header_bytes h = parse_snapshot_header_bytes e.
Proof.
  intros Hh. pose proof (slice_blen _ _ _ _ Hh) as Hl. pose proof (slice_Some _ _ _ _ Hh) as (_ & H40 & _).
  unfold parse_snapshot_header_bytes, be_u64, be_u32, be_u16.
  destruct (Z.ltb_spec (blen h) 40), (Z.ltb_spec (blen e) 40); try lia.
  rewrite !(slice_slice _ _ _ _ _ _ Hh) by lia. done.
Qed.

(** A string field cut at [n] bytes. *)
Lemma cut_field enc a l n : 0 <= n -> slice enc a (a + blen l) = Some l ->
  slice enc a (a + Z.min (blen l) n) = Some (take (Z.to_nat n) l) /\ blen (take (Z.to_nat n) l) = Z.min (blen l) n.
Proof.
  intros Hn Hs. pose proof (blen_nonneg l). assert (blen (take (Z.to_nat n) l) = Z.min (blen l) n) as Hl
    by (unfold blen; rewrite length_take; lia).
  split; [|done]. pose proof (slice_slice _ _ _ _ 0 (Z.min (blen l) n) Hs ltac:(lia) ltac:(lia)) as Hsub.
  rewrite Z.add_0_r in Hsub. rewrite <- Hsub, <- Hl.
  rewrite <- (take_drop (Z.to_nat n) l) at 1. apply slice_left.
Qed.

Lemma entry_view_encoded e : new_entry_ok e -> entry_view (encoded e) = Some (listed e).
Proof.
  intros He. pose proof (encoded_header e He) as Hhead. destruct (encoded_extra e He) as (x & Hx & Hex).
  destruct (encoded_strings e He) as [Hid Hname]. destruct (encoded_sizes e He) as (Sx & Si & Sn).
  unfold id_of, name_of in Hid, Hname. rewrite Sx, Si in Hid, Hname. rewrite Sn in Hname.
  destruct (cut_field (encoded e) (40 + 24) (ns_id e) 63 ltac:(lia) Hid) as [Hid' Lid].
  destruct (cut_field (encoded e) (40 + 24 + blen (ns_id e)) (ns_name e) 255 ltac:(lia) Hname) as [Hname' Lname].
  pose proof (blen_nonneg (ns_id e)). pose proof (blen_nonneg (ns_name e)).
  destruct (slice_of (encoded e) 0 40) as (h & Hh & _); [lia | rewrite blen_encoded; lia |].
  unfold entry_view. rewrite Hh. cbn [mbind option_bind]. rewrite (header_prefix _ _ Hh), Hhead.
  cbn [sh_extra_data_size sh_id_str_size sh_name_size]. change (QCOW_MAX_SNAPSHOT_EXTRA_DATA <? 24) with false.
  change (40 + Z.min 24 24) with 64. rewrite Hx, Hid', Hname'. cbn [mbind option_bind]. rewrite Hex.
  unfold snapshot_entry, listed, zero_padded. rewrite Lid, Lname. reflexivity.
Qed.

(** C28: creating a snapshot, serialize then append, on any table of [n] entries:
    when the buffers are large enough both steps return, the old table is kept byte
    for byte, the new table of [n + 1] entries is exactly as long as reported, its
    entry [n] is the new one and its other entries are where they were.  The
    repository's reader agrees: on any responsive device that stores the new table,
    a listing of [n + 1] entries reaches the end and gives what a listing of the old
    table gave, followed by the new snapshot with every field, the lengths of its id and
    name, its id cut at 63 bytes and its name at 255, zero-padded ([listed]); so an
    id of at most 63 and a name of at most 255 bytes are read back whole.  The old listing
    must itself reach the end: the reader stops at extra data of more than 1024 bytes. *)
Theorem create_appends_entry old n L e buf out :
  table_ok old -> 0 <= n -> snapshot_table_byte_len old n = Ok L -> new_entry_ok e ->
  64 + blen (ns_id e) + blen (ns_name e) <= blen buf ->
  table_ok out -> round8 L + 64 + blen (ns_id e) + blen (ns_name e) <= blen out ->
  exists m buf' new total out' p,
    serialize_snapshot_entry e buf = (Ok m, buf') /\ slice buf' 0 m = Some new /\
    build_snapshot_table old L new out = (Ok total, out') /\
    slice out' 0 L = slice old 0 L /\ slice out' 0 total = Some p /\
    snapshot_table_byte_len p (n + 1) = Ok total /\
    (forall i, 0 <= i < n -> snapshot_table_entry_bounds p (n + 1) i = snapshot_table_entry_bounds old n i) /\
    (exists s, snapshot_table_entry_bounds p (n + 1) n = Ok (s, m) /\ slice p s (s + m) = Some new) /\
    forall (H : Type) (Hio : InputIo H) (Hflat : FlatInput H) dev dev' ssz cap cap' base base' (s s' : InSt H) l,
      stores dev ssz cap base old s -> stores dev' ssz cap' base' p s' ->
      (for_each_snapshot_entry dev ssz cap listing n base [] s).1 = Ok (true, l) ->
      (for_each_snapshot_entry dev' ssz cap' listing (n + 1) base' [] s').1 = Ok (true, l ++ [listed e]).
Proof.
  intros Hold Hn HL He Hbuf Hout Hroom.
  destruct (appends_entry old n L e buf out Hold Hn HL He Hbuf Hout Hroom)
    as (es & m & buf' & total & out' & p & Hes & Hlen & Hpt & Hph & Hs & Hnew & Hb & Hkeep & Hp & Hl & Hothers & Hlast).
  exists m, buf', (encoded e), total, out', p. do 8 (split; [done|]).
  intros H Hio Hflat dev dev' ssz cap cap' base base' s s' l Hst Hst' Hl1.
  destruct (for_each_walks listing dev ssz cap base old es [] s Hst Hold Hes) as [s1 Hw]. rewrite Hlen in Hw. rewrite Hw in Hl1.
  injection Hl1 as Hl1. destruct (listing_end es [] l Hl1) as (vs & Hvs & ->).
  destruct (for_each_walks listing dev' ssz cap' base' p (es ++ [encoded e]) [] s' Hst' Hpt Hph) as [s2 Hw'].
  rewrite length_app, Nat2Z.inj_add, Hlen in Hw'. cbn [length] in Hw'. change (Z.of_nat 1) with 1 in Hw'. rewrite Hw'. cbn [fst].
  f_equal. apply (listing_all (es ++ [encoded e]) [] (vs ++ [listed e])).
  apply mapM_Some. apply Forall2_app; [by apply mapM_Some|]. constructor; [by apply entry_view_encoded|constructor].
Qed.

(** ** Witness *)

(** The table of one entry on one device, the table of two on another. *)
Definition device_a : bytes := table_a ++ filled 446 0.
Definition device_ab : bytes := filled 512 1 ++ table_ab ++ filled 373 0.
Definition snap_host : VecInput := mkVecInput [device_a; device_ab].

Definition snap_start : InSt VecInput := InSt_new snap_host 0 (filled 512 0) (filled 512 0).

Lemma create_appends_entry_witness :
  exists total out' p l, build_snapshot_table table_a 66 (encoded entry_b) (filled 256 255) = (Ok total, out') /\
    slice out' 0 total = Some p /\ snapshot_table_byte_len p 2 = Ok total /\
    (for_each_snapshot_entry 1 512 2 listing 2 512 [] snap_start).1 = Ok (true, [l; listed entry_b]) /\
    take 2 (se_name (listed entry_b)) = [98; 98].
Proof.
  assert (table_ok table_a) as Ha
    by (split; [apply is_bytesb_true; vm_compute; reflexivity | vm_compute; discriminate]).
  assert (new_entry_ok entry_b) as Hb.
  { unfold new_entry_ok, is_u64, is_u32. cbn -[Z.le u64_max u32_max u16_max].
    repeat split; try (vm_compute; discriminate); apply is_bytesb_true; reflexivity. }
  assert (table_ok (filled 256 255)) as Ho
    by (split; [apply is_bytesb_true; vm_compute; reflexivity | vm_compute; discriminate]).
  destruct (create_appends_entry table_a 1 66 entry_b (filled 67 0) (filled 256 255) Ha ltac:(lia)
    ltac:(vm_compute; reflexivity) Hb ltac:(vm_compute; discriminate) Ho ltac:(vm_compute; discriminate))
    as (m & buf' & new & total & out' & p & Hs & Hn & Hbuild & _ & Hp & Hlen & _ & _ & Hlist).
  assert (new = encoded entry_b) as ->.
  { vm_compute in Hs. injection Hs as <- <-. vm_compute in Hn. injection Hn as <-. vm_compute. reflexivity. }
  assert (p = table_ab) as ->.
  { vm_compute in Hbuild. injection Hbuild as <- <-. vm_compute in Hp. injection Hp as <-. vm_compute. reflexivity. }
  assert (forall dev cap base table, cap * 512 = blen (vi_image snap_host dev) -> 0 <= cap <= 2 -> 0 <= base ->
    base + blen table <= cap * 512 -> slice (vi_image snap_host dev) base (base + blen table) = Some table ->
    stores dev 512 cap base table snap_start) as Hstores.
  { intros dev cap base table Hc Hcap Hbase Hroom Hsl. split; [|by apply vec_ready|done..].
    split; cbn [in_host snap_start InSt_new image VecInput_flat]; unfold MAX_SECTOR_SIZE, u64_max; lia. }
  exists total, out', table_ab, (listed entry_a). split; [exact Hbuild|]. split; [exact Hp|]. split; [exact Hlen|].
  split; [|vm_compute; reflexivity].
  apply (Hlist VecInput _ _ 0 1 512 1 2 0 512 snap_start snap_start [listed entry_a]).
  - apply Hstores; [vm_compute; reflexivity | lia | lia | vm_compute; discriminate | vm_compute; reflexivity].
  - apply Hstores; [vm_compute; reflexivity | lia | lia | vm_compute; discriminate | vm_compute; reflexivity].
  - vm_compute. reflexivity.
Defined.
