(* ===== verification/Repair.v ===== *)
(** The qcow2 repair planners ([src/src/crates/check/src/qcow2.rs] and
    [src/src/crates/check/src/lib.rs]): the safe tier that frees leaked clusters, the
    counting map and the two-way correction of the lossy tier, and the COPIED
    reconciliation that follows it.

    A refcount block, or the counting map, is seen as an array of counters,
    [rc_at].  The closures of the planners are functions of the local index. *)

From stdpp Require Import base numbers list sets gmap.
From Stdlib Require Import ZArith Lia.
From S2P Require Import Prelude Bytes Refcount Qcow2 SnapshotWalk SnapshotProps ExecBytes.

(** ** Definitions *)

Inductive RepairError : Type :=
| RepairRefcountExhausted
| AmbiguousCorruption
| RepairUnsupported
| RepairMisalignedAccess
| RepairParseFailed.

#[global] Instance RepairError_eq_dec : EqDecision RepairError.
Proof. solve_decision. Defined.

(** [From<SnapshotError> for RepairError]. *)
Definition repair_error_from (err : SnapshotError) : RepairError :=
  match err with
  | RefcountExhausted => RepairRefcountExhausted
  | Unsupported | UnsupportedFormat | UnsupportedFeature => RepairUnsupported
  | MisalignedAccess | RefcountOverflow _ => RepairMisalignedAccess
  | ParseFailed | InvalidUtf8 | InvalidConfig | Io | AllocationFailed | NotFound | DuplicateName
  | SnapshotTableFull | L1SizeMismatch => RepairParseFailed
  end.

(** The staged block is the state. *)
Abbreviation RM := (SM bytes RepairError).

Definition rm_read (idx refcount_bits : Z) : RM Z :=
  let! block := sget in
  slift (map_err repair_error_from (read_refcount_in_block block idx refcount_bits)).

Definition rm_set (idx refcount_bits value : Z) : RM unit :=
  let! block := sget in
  let! block' := slift (map_err repair_error_from (set_refcount_in_block block idx refcount_bits value)) in
  sput block'.

Fixpoint reclaim_loop (n : nat) (local_idx refcount_bits : Z) (is_referenced : Z -> bool) (reclaimed : Z) : RM Z :=
  match n with
  | O => sret reclaimed
  | S n' =>
      let! rc := rm_read local_idx refcount_bits in
      if (0 <? rc) && negb (is_referenced local_idx) then
        do! rm_set local_idx refcount_bits 0 in
        reclaim_loop n' (local_idx + 1) refcount_bits is_referenced (as_u32 (reclaimed + 1))
      else reclaim_loop n' (local_idx + 1) refcount_bits is_referenced reclaimed
  end.

Definition reclaim_leaks_in_refblock (entries_in_block refcount_bits : Z) (is_referenced : Z -> bool) : RM Z :=
  reclaim_loop (Z.to_nat entries_in_block) 0 refcount_bits is_referenced 0.

Definition account_reference_in_map (cluster_index refcount_bits : Z) : RM unit :=
  let! cur := rm_read cluster_index refcount_bits in
  match check_refcount_after_addend cur 1 refcount_bits with
  | Ok n => rm_set cluster_index refcount_bits n
  | Err (RefcountOverflow _) => sfail AmbiguousCorruption
  | Err e => sfail (repair_error_from e)
  | Panic => slift Panic
  | OutOfFuel => slift OutOfFuel
  end.

Record RefcountFixTally : Type := mkRefcountFixTally { raised : Z; lowered : Z; freed : Z }.

Fixpoint correct_loop (n : nat) (local_idx refcount_bits : Z) (computed_for : Z -> option Z) (tally : RefcountFixTally)
  : RM RefcountFixTally :=
  match n with
  | O => sret tally
  | S n' =>
      match computed_for local_idx with
      | None => correct_loop n' (local_idx + 1) refcount_bits computed_for tally
      | Some want =>
          let! have := rm_read local_idx refcount_bits in
          if want =? have then correct_loop n' (local_idx + 1) refcount_bits computed_for tally
          else
          do! rm_set local_idx refcount_bits want in
          let tally' :=
            if have <? want then mkRefcountFixTally (as_u32 (raised tally + 1)) (lowered tally) (freed tally)
            else if 0 <? want then mkRefcountFixTally (raised tally) (as_u32 (lowered tally + 1)) (freed tally)
            else mkRefcountFixTally (raised tally) (lowered tally) (as_u32 (freed tally + 1)) in
          correct_loop n' (local_idx + 1) refcount_bits computed_for tally'
      end
  end.

Definition correct_refcounts_in_refblock (entries_in_block refcount_bits : Z) (computed_for : Z -> option Z)
  : RM RefcountFixTally :=
  correct_loop (Z.to_nat entries_in_block) 0 refcount_bits computed_for (mkRefcountFixTally 0 0 0).

(** The COPIED reconciler forwards to the snapshot crate's. *)
Definition reconcile_copied_flags_for_l1 (cluster_bits : Z) (refcount_for_cluster : Z -> option Z) (extended_l2 : bool)
  : SM CopiedSt RepairError Z :=
  fun s => let '(r, s') := update_copied_flags_for_l1 cluster_bits refcount_for_cluster extended_l2 s in
           (map_err repair_error_from r, s').

(** ** The block as an array of counters *)

Definition rc_at (w : Z) (block : bytes) (i : Z) : Z :=
  match read_refcount_in_block block i w with Ok v => v | _ => 0 end.

(** A staged block of counters of width [w], at least [n] of them. *)
Definition counters (w : Z) (block : bytes) (n : Z) : Prop :=
  is_bytes block /\ slice_fits block /\ valid_width w /\ n * w <= 8 * blen block.

Lemma valid_width_pos w : valid_width w -> 1 <= w <= 64.
Proof. unfold valid_width. rewrite !elem_of_cons, elem_of_nil. lia. Qed.

Lemma counters_in w block n i : counters w block n -> 0 <= i < n -> in_block block i w.
Proof. intros (_ & _ & Hw & Hn) Hi. pose proof (valid_width_pos w Hw). split; [lia|nia]. Qed.

Lemma rc_bound w block n i : counters w block n -> 0 <= i < n -> 0 <= rc_at w block i < 2 ^ w.
Proof.
  intros Hc Hi. pose proof (counters_in _ _ _ _ Hc Hi) as Hin. destruct Hc as (Hb & Hf & Hw & _).
  destruct (read_refcount_ok block i w Hb Hf Hw Hin) as (v & Hv & Hvb). unfold rc_at. by rewrite Hv.
Qed.

Lemma wp_rm_read w n i block (Q : Z -> bytes -> Prop) R : counters w block n -> 0 <= i < n ->
  Q (rc_at w block i) block -> wp (rm_read i w) Q R block.
Proof.
  intros Hc Hi HQ. pose proof (counters_in _ _ _ _ Hc Hi) as Hin. destruct Hc as (Hb & Hf & Hw & _).
  destruct (read_refcount_ok block i w Hb Hf Hw Hin) as (v & Hv & _). unfold rc_at in HQ. rewrite Hv in HQ.
  unfold rm_read. do 3 wstep. by rewrite Hv.
Qed.

Lemma wp_rm_set w n i v block (Q : unit -> bytes -> Prop) R : counters w block n -> 0 <= i < n -> 0 <= v < 2 ^ w ->
  (forall block', blen block' = blen block -> counters w block' n ->
     (forall j, in_block block j w -> rc_at w block' j = if j =? i then v else rc_at w block j) -> Q tt block') ->
  wp (rm_set i w v) Q R block.
Proof.
  intros Hc Hi Hv HQ. pose proof (counters_in _ _ _ _ Hc Hi) as Hin. destruct Hc as (Hb & Hf & Hw & Hn).
  destruct (set_refcount_spec block i w v Hb Hf Hw Hin) as (block' & Hset & Hlen & Hb' & Hread).
  unfold rm_set. do 4 wstep. rewrite Hset. cbn [map_err]. wstep. apply HQ; [done | |].
  - unfold counters, slice_fits in *. by rewrite Hlen.
  - intros j Hj. unfold rc_at. rewrite Hread by done. destruct (Z.eqb_spec j i); [by rewrite stored_small|done].
Qed.

(** ** Correction *)

(** How many of the entries [a .. a + n) satisfy a predicate. *)
Definition tally_of (p : Z -> bool) (a : Z) (n : nat) : Z := Z.of_nat (length (filter (fun i => p i = true) (seqZ a (Z.of_nat n)))).

Lemma tally_of_0 p a : tally_of p a 0 = 0.
Proof. done. Qed.

Lemma tally_of_S p a n : tally_of p a (S n) = (if p a then 1 else 0) + tally_of p (a + 1) n.
Proof.
  unfold tally_of. rewrite seqZ_cons by lia. rewrite filter_cons. replace (Z.pred (Z.of_nat (S n))) with (Z.of_nat n) by lia.
  change (Z.succ a) with (a + 1). destruct (p a); case_decide; try done. cbn [length]. lia.
Qed.

Lemma tally_of_bound p n : forall a, 0 <= tally_of p a n <= Z.of_nat n.
Proof. induction n as [|n IH]; intros a; [done|]. rewrite tally_of_S. specialize (IH (a + 1)). destruct (p a); lia. Qed.

Lemma tally_of_ext p q n : forall a, (forall i, a <= i < a + Z.of_nat n -> p i = q i) -> tally_of p a n = tally_of q a n.
Proof.
  induction n as [|n IH]; intros a Hpq; [done|]. rewrite !tally_of_S, (Hpq a) by lia. f_equal. apply IH. intros i Hi. apply Hpq. lia.
Qed.

(** What the walk leaves in entry [i], and which counter it bumps. *)
Definition fixed (computed_for : Z -> option Z) (old i : Z) : Z := default old (computed_for i).
Definition is_raised (f : Z -> option Z) (rc : Z -> Z) (i : Z) : bool :=
  match f i with Some want => rc i <? want | None => false end.
Definition is_lowered (f : Z -> option Z) (rc : Z -> Z) (i : Z) : bool :=
  match f i with Some want => (want <? rc i) && (0 <? want) | None => false end.
Definition is_freed (f : Z -> option Z) (rc : Z -> Z) (i : Z) : bool :=
  match f i with Some want => (want <? rc i) && negb (0 <? want) | None => false end.

Lemma as_u32_small v : 0 <= v <= u32_max -> as_u32 v = v.
Proof. intros. unfold as_u32, u32_max in *. apply Z.mod_small. lia. Qed.

Definition tally_fits (t : RefcountFixTally) (k : nat) : Prop :=
  0 <= raised t /\ 0 <= lowered t /\ 0 <= freed t /\
  raised t + Z.of_nat k <= u32_max /\ lowered t + Z.of_nat k <= u32_max /\ freed t + Z.of_nat k <= u32_max.

(** The window of a walk, one entry on. *)
Lemma window_cons (A B : Z) a j k :
  (if (a <=? j) && (j <? a + Z.of_nat (S k)) then A else B) =
  if j =? a then A else if (a + 1 <=? j) && (j <? a + 1 + Z.of_nat k) then A else B.
Proof.
  destruct (Z.eqb_spec j a), (Z.leb_spec (a + 1) j), (Z.leb_spec a j), (Z.ltb_spec j (a + 1 + Z.of_nat k)), (Z.ltb_spec j (a + Z.of_nat (S k)));
    cbn [andb]; try lia; done.
Qed.

Lemma window_past a k : ((a + 1 <=? a) && (a <? a + 1 + Z.of_nat k)) = false.
Proof. destruct (Z.leb_spec (a + 1) a); [lia|done]. Qed.

(** One entry whose wanted value differs. *)
Definition bump (t : RefcountFixTally) (have want : Z) : RefcountFixTally :=
  if have <? want then mkRefcountFixTally (as_u32 (raised t + 1)) (lowered t) (freed t)
  else if 0 <? want then mkRefcountFixTally (raised t) (as_u32 (lowered t + 1)) (freed t)
  else mkRefcountFixTally (raised t) (lowered t) (as_u32 (freed t + 1)).

Lemma bump_spec t have want k : want <> have -> tally_fits t (S k) ->
  tally_fits (bump t have want) k /\
  raised (bump t have want) = raised t + (if have <? want then 1 else 0) /\
  lowered (bump t have want) = lowered t + (if (want <? have) && (0 <? want) then 1 else 0) /\
  freed (bump t have want) = freed t + (if (want <? have) && negb (0 <? want) then 1 else 0).
Proof.
  intros Hne Ht. unfold tally_fits, bump in *.
  destruct (Z.ltb_spec have want), (Z.ltb_spec want have), (Z.ltb_spec 0 want); cbn [raised lowered freed andb negb];
    rewrite ?as_u32_small by lia; lia.
Qed.

Lemma correct_loop_spec w n f k : forall a t block, counters w block n -> 0 <= a -> a + Z.of_nat k <= n ->
  (forall i v, f i = Some v -> 0 <= v < 2 ^ w) -> tally_fits t k ->
  wp (correct_loop k a w f t)
    (fun t' block' => blen block' = blen block /\ counters w block' n /\
       (forall j, in_block block j w -> rc_at w block' j =
          if (a <=? j) && (j <? a + Z.of_nat k) then fixed f (rc_at w block j) j else rc_at w block j) /\
       raised t' = raised t + tally_of (is_raised f (rc_at w block)) a k /\
       lowered t' = lowered t + tally_of (is_lowered f (rc_at w block)) a k /\
       freed t' = freed t + tally_of (is_freed f (rc_at w block)) a k)
    (fun _ _ => False) block.
Proof.
  induction k as [|k IH]; intros a t block Hc Ha Hk Hf Ht; cbn [correct_loop].
  { wstep. split; [done|]. split; [done|]. split; [|rewrite !tally_of_0; lia].
    intros j _. destruct (Z.leb_spec a j), (Z.ltb_spec j (a + Z.of_nat 0)); try done; lia. }
  rewrite !tally_of_S. unfold is_raised at 1, is_lowered at 1, is_freed at 1.
  assert (tally_fits t k) as Ht' by (unfold tally_fits in *; lia).
  destruct (f a) as [want|] eqn:Hfa.
  2: { eapply wp_mono; [apply (IH (a + 1) t block Hc); lia || done | |done].
       intros t' block' (Hl & Hc' & Hr & Hrest). split; [done|]. split; [done|]. split; [|lia].
       intros j Hj. rewrite (Hr j Hj), window_cons. destruct (Z.eqb_spec j a) as [->|]; [|done].
       rewrite window_past. unfold fixed. by rewrite Hfa. }
  wstep. apply (wp_rm_read w n); [done | lia |]. pose proof (Hf a want Hfa) as Hw.
  destruct (Z.eqb_spec want (rc_at w block a)) as [Heq|Hne].
  - eapply wp_mono; [apply (IH (a + 1) t block Hc); lia || done | |done].
    intros t' block' (Hl & Hc' & Hr & Hrest). split; [done|]. split; [done|].
    split; [|rewrite Heq, Z.ltb_irrefl; cbn [andb]; lia].
    intros j Hj. rewrite (Hr j Hj), window_cons. destruct (Z.eqb_spec j a) as [->|]; [|done].
    rewrite window_past. unfold fixed. by rewrite Hfa.
  - wstep. apply (wp_rm_set w n); [done | lia | done |]. intros b1 Hl1 Hc1 Hr1.
    fold (bump t (rc_at w block a) want). destruct (bump_spec t _ want k Hne Ht) as (Hb & Hb1 & Hb2 & Hb3).
    eapply wp_mono; [apply (IH (a + 1) (bump t (rc_at w block a) want) b1 Hc1); lia || done | |done].
    intros t' block' (Hl & Hc' & Hr & H1 & H2 & H3). split; [lia|]. split; [done|].
    assert (forall i, a + 1 <= i < a + 1 + Z.of_nat k -> rc_at w b1 i = rc_at w block i) as Hsame.
    { intros i Hi. rewrite Hr1 by (apply (counters_in w block n i Hc); lia). destruct (Z.eqb_spec i a); [lia|done]. }
    split.
    + intros j Hj. assert (in_block b1 j w) as Hj1 by (unfold in_block in *; lia).
      rewrite (Hr j Hj1), (Hr1 j Hj), window_cons. destruct (Z.eqb_spec j a) as [->|]; [|done].
      rewrite window_past. unfold fixed. by rewrite Hfa.
    + rewrite H1, H2, H3, Hb1, Hb2, Hb3.
      rewrite (tally_of_ext (is_raised f (rc_at w b1)) (is_raised f (rc_at w block))) by (intros i Hi; unfold is_raised; by rewrite Hsame).
      rewrite (tally_of_ext (is_lowered f (rc_at w b1)) (is_lowered f (rc_at w block))) by (intros i Hi; unfold is_lowered; by rewrite Hsame).
      rewrite (tally_of_ext (is_freed f (rc_at w b1)) (is_freed f (rc_at w block))) by (intros i Hi; unfold is_freed; by rewrite Hsame).
      lia.
Qed.

(** ** Counting *)

Lemma addend_one w cur : valid_width w -> 0 <= cur < 2 ^ w ->
  check_refcount_after_addend cur 1 w = if cur + 1 <? 2 ^ w then Ok (cur + 1) else Err (RefcountOverflow 0).
Proof.
  intros Hw Hc. pose proof (valid_width_pos w Hw) as Hp. unfold check_refcount_after_addend.
  destruct (Z.eqb_spec w 0); [lia|]. cbn [Z.leb Z.compare].
  assert ((if 64 <=? w then u64_max else Z.shiftl 1 w - 1) = 2 ^ w - 1) as ->.
  { destruct (Z.leb_spec 64 w); [replace w with 64 by lia; reflexivity|]. by rewrite Z.shiftl_1_l. }
  assert (2 ^ w - 1 <= u64_max) as Hm.
  { pose proof (Z.pow_le_mono_r 2 w 64 ltac:(lia) ltac:(lia)) as Hle. change (2 ^ 64) with 18446744073709551616 in Hle. unfold u64_max. lia. }
  unfold checked_add. destruct (Z.leb_spec (cur + 1) u64_max), (Z.ltb_spec (cur + 1) (2 ^ w)); cbn [ok_or obind]; try lia; try done;
    destruct (Z.ltb_spec (2 ^ w - 1) (cur + 1)); try lia; done.
Qed.

Lemma account_spec w n i map : counters w map n -> 0 <= i < n ->
  wp (account_reference_in_map i w)
    (fun _ map' => blen map' = blen map /\ counters w map' n /\
       (forall j, 0 <= j < n -> rc_at w map' j = rc_at w map j + if j =? i then 1 else 0))
    (fun e map' => e = AmbiguousCorruption /\ rc_at w map i + 1 = 2 ^ w) map.
Proof.
  intros Hc Hi. unfold account_reference_in_map. wstep. apply (wp_rm_read w n); [done | done |].
  pose proof (rc_bound w map n i Hc Hi) as Hb. pose proof Hc as (_ & _ & Hw & _). rewrite (addend_one w _ Hw Hb).
  destruct (Z.ltb_spec (rc_at w map i + 1) (2 ^ w)); [|wstep; split; [done|lia]].
  apply (wp_rm_set w n); [done | done | lia |]. intros map' Hl Hc' Hr. split; [done|]. split; [done|].
  intros j Hj. rewrite Hr by (by apply (counters_in w map n)). destruct (Z.eqb_spec j i) as [->|]; lia.
Qed.

(** The counting walk: every discovered reference once. *)
Fixpoint account_all (refs : list Z) (refcount_bits : Z) : RM unit :=
  match refs with
  | [] => sret tt
  | i :: rest => do! account_reference_in_map i refcount_bits in account_all rest refcount_bits
  end.

(** The references to cluster [i]. *)
Definition ref_count (refs : list Z) (i : Z) : Z := Z.of_nat (length (filter (fun j => j = i) refs)).

Lemma ref_count_cons r refs i : ref_count (r :: refs) i = (if i =? r then 1 else 0) + ref_count refs i.
Proof.
  unfold ref_count. rewrite filter_cons. destruct (Z.eqb_spec i r) as [->|Hne].
  - rewrite decide_True by done. cbn [length]. lia.
  - rewrite decide_False by congruence. done.
Qed.

Lemma ref_count_nonneg refs i : 0 <= ref_count refs i.
Proof. unfold ref_count. lia. Qed.

Lemma account_all_spec w n refs : forall map, counters w map n -> Forall (fun i => 0 <= i < n) refs ->
  wp (account_all refs w)
    (fun _ map' => counters w map' n /\ forall j, 0 <= j < n -> rc_at w map' j = rc_at w map j + ref_count refs j)
    (fun e _ => e = AmbiguousCorruption /\ exists i, 0 <= i < n /\ 2 ^ w <= rc_at w map i + ref_count refs i) map.
Proof.
  induction refs as [|r refs IH]; intros map Hc Hr; cbn [account_all].
  { wstep. split; [done|]. intros j _. unfold ref_count. cbn. lia. }
  inversion Hr as [|? ? Hr1 Hr2]; subst. wstep.
  eapply wp_mono; [apply (account_spec w n r map Hc Hr1) | |].
  - intros _ m1 (_ & Hc1 & Hm1). eapply wp_mono; [apply (IH m1 Hc1 Hr2) | |].
    + intros _ m2 [Hc2 Hm2]. split; [done|]. intros j Hj. rewrite (Hm2 j Hj), (Hm1 j Hj), ref_count_cons. lia.
    + intros e m2 [-> (i & Hi & Hbig)]. split; [done|]. exists i. split; [done|]. rewrite (Hm1 i Hi) in Hbig. rewrite ref_count_cons. lia.
  - intros e m1 [-> Hfull]. split; [done|]. exists r. split; [done|]. rewrite ref_count_cons, Z.eqb_refl.
    pose proof (ref_count_nonneg refs r). lia.
Qed.

(** A zeroed map. *)
Lemma zero_map w n k : valid_width w -> n * w <= 8 * k -> 0 <= k <= 9223372036854775807 ->
  counters w (filled k 0) n /\ forall i, 0 <= i < n -> rc_at w (filled k 0) i = 0.
Proof.
  intros Hw Hn Hk. pose proof (blen_filled k 0 ltac:(lia)) as Hl.
  assert (counters w (filled k 0) n) as Hc.
  { split; [apply filled_is_bytes; by split|]. unfold slice_fits. rewrite Hl. split; [lia|]. done. }
  split; [done|]. intros i Hi. pose proof (counters_in _ _ _ _ Hc Hi) as Hin. pose proof Hc as (_ & Hf & _ & _).
  destruct (valid_width_cases w Hw) as [Hsub|(m & Hm & ->)]; unfold rc_at.
  - destruct (in_block_sub _ _ _ Hsub Hin) as [Hi0 Hlt]. rewrite read_sub_eq by done.
    assert (0 < 8 / w) as Hper by (rewrite !elem_of_cons in Hsub; destruct Hsub as [->|[->|[->|Hx]]]; [done..|by apply elem_of_nil in Hx]).
    destruct (read_packed_val (filled k 0) i (8 / w) w Hper Hi0 Hlt) as (b & Hb & ->).
    assert (b = 0) as ->; [|unfold get_sub; by rewrite Z.shiftr_0_l, Z.land_0_l].
    unfold byte_at, filled in Hb. destruct (0 <=? i / (8 / w)); [|done]. by apply lookup_replicate in Hb as [-> _].
  - erewrite read_multi_val by done. destruct Hin as [Hi0 Hin]. rewrite Hl in Hin.
    rewrite (slice_filled k 0) by lia. cbn. replace (i * Z.of_nat m + Z.of_nat m - i * Z.of_nat m) with (Z.of_nat m) by lia.
    unfold filled. rewrite Nat2Z.id. clear. induction m as [|m IH]; [done|]. rewrite replicate_S_end, be_val_app, IH. done.
Qed.

(** ** The two tiers *)

(** The computed count of a cluster, read from the map. *)
Definition from_map (w : Z) (map : bytes) (i : Z) : option Z :=
  match read_refcount_in_block map i w with Ok v => Some v | _ => None end.

Lemma from_map_spec w n map i : counters w map n -> 0 <= i < n -> from_map w map i = Some (rc_at w map i).
Proof.
  intros Hc Hi. pose proof (counters_in _ _ _ _ Hc Hi) as Hin. destruct Hc as (Hb & Hf & Hw & _).
  destruct (read_refcount_ok map i w Hb Hf Hw Hin) as (v & Hv & _). unfold from_map, rc_at. by rewrite Hv.
Qed.

Lemma read_bound w block i v : is_bytes block -> slice_fits block -> valid_width w -> in_block block i w ->
  read_refcount_in_block block i w = Ok v -> 0 <= v < 2 ^ w.
Proof. intros Hb Hf Hw Hin Hv. destruct (read_refcount_ok block i w Hb Hf Hw Hin) as (v' & Hv' & ?). congruence. Qed.

(** Only the entries walked are asked for. *)
Lemma correct_loop_ext w f g k : forall a t block, (forall i, a <= i < a + Z.of_nat k -> f i = g i) ->
  correct_loop k a w f t block = correct_loop k a w g t block.
Proof.
  induction k as [|k IH]; intros a t block Hfg; [done|]. cbn [correct_loop]. rewrite (Hfg a) by lia.
  assert (forall t' b, correct_loop k (a + 1) w f t' b = correct_loop k (a + 1) w g t' b) as Hrest
    by (intros t' b; apply IH; intros i Hi; apply Hfg; lia).
  destruct (g a) as [want|]; [|apply Hrest]. unfold sbind. destruct (rm_read a w block) as [[v| | |] b]; try done.
  destruct (want =? v); [apply Hrest|]. destruct (rm_set a w want b) as [[| | |] b']; try done.
Qed.

(** The correction of [n] entries by any counts that fit the width. *)
Lemma correct_spec w n f block : counters w block n -> 0 <= n <= u32_max ->
  (forall i v, f i = Some v -> 0 <= v < 2 ^ w) ->
  exists t block', correct_refcounts_in_refblock n w f block = (Ok t, block') /\ blen block' = blen block /\
    (forall j, in_block block j w -> rc_at w block' j = if (0 <=? j) && (j <? n) then fixed f (rc_at w block j) j else rc_at w block j) /\
    raised t = tally_of (is_raised f (rc_at w block)) 0 (Z.to_nat n) /\
    lowered t = tally_of (is_lowered f (rc_at w block)) 0 (Z.to_nat n) /\
    freed t = tally_of (is_freed f (rc_at w block)) 0 (Z.to_nat n).
Proof.
  intros Hc Hn Hf.
  assert (tally_fits (mkRefcountFixTally 0 0 0) (Z.to_nat n)) as Ht by (unfold tally_fits; cbn [raised lowered freed]; lia).
  pose proof (correct_loop_spec w n f (Z.to_nat n) 0 _ block Hc ltac:(lia) ltac:(lia) Hf Ht) as Hwp.
  unfold wp in Hwp. unfold correct_refcounts_in_refblock.
  destruct (correct_loop (Z.to_nat n) 0 w f (mkRefcountFixTally 0 0 0) block) as [[t|e| |] block']; try done.
  destruct Hwp as (Hl & _ & Hr & H1 & H2 & H3). rewrite Z2Nat.id in Hr by lia. cbn [raised lowered freed] in *.
  exists t, block'. split; [done|]. split; [done|]. split; [exact Hr | lia].
Qed.

Lemma rm_read_run w n i block : counters w block n -> 0 <= i < n -> rm_read i w block = (Ok (rc_at w block i), block).
Proof.
  intros Hc Hi. pose proof (from_map_spec w n block i Hc Hi) as Hf. unfold from_map in Hf. unfold rm_read, sbind, sget, slift, rc_at.
  by destruct (read_refcount_in_block block i w).
Qed.

(** The safe tier is the lossy tier told to free what is unreferenced. *)
Lemma reclaim_loop_correct w n (ref : Z -> bool) k : forall a b c, counters w b n -> 0 <= a -> a + Z.of_nat k <= n ->
  correct_loop k a w (fun i => if ref i then None else Some 0) (mkRefcountFixTally 0 0 c) b =
    match reclaim_loop k a w ref c b with
    | (Ok x, b') => (Ok (mkRefcountFixTally 0 0 x), b')
    | (Err e, b') => (Err e, b')
    | (Panic, b') => (Panic, b')
    | (OutOfFuel, b') => (OutOfFuel, b')
    end.
Proof.
  induction k as [|k IH]; intros a b c Hc Ha Hk; [done|]. cbn [correct_loop reclaim_loop]. pose proof (rc_bound w b n a Hc ltac:(lia)) as Hb.
  unfold sbind. rewrite !(rm_read_run w n) by (done || lia). cbv beta iota.
  destruct (ref a); cbn [negb]; [rewrite andb_false_r; apply IH; done || lia|]. rewrite andb_true_r.
  cbv beta iota. rewrite ?(rm_read_run w n) by (done || lia).
  destruct (Z.ltb_spec 0 (rc_at w b a)), (Z.eqb_spec 0 (rc_at w b a)); try lia; [|apply IH; done || lia].
  pose proof (wp_rm_set w n a 0 b (fun _ b' => counters w b' n) (fun _ _ => False) Hc ltac:(lia) ltac:(lia) ltac:(done)) as Hset.
  unfold wp in Hset. destruct (rm_set a w 0 b) as [[[]| | |] b']; try done.
  destruct (Z.ltb_spec (rc_at w b a) 0); [lia|]. cbn [Z.ltb Z.compare raised lowered freed]. apply IH; done || lia.
Qed.

(** The safe tier on [n] staged entries always returns; it sets to 0 exactly the
    entries in use that nothing references and counts them, never touches a
    referenced entry, and does exactly what the lossy tier does when it is told to
    free the unreferenced entries and nothing else. *)
Theorem reclaim_generalised w n (ref : Z -> bool) block :
  counters w block n -> 0 <= n <= u32_max ->
  exists freed_count block', reclaim_leaks_in_refblock n w ref block = (Ok freed_count, block') /\
    correct_refcounts_in_refblock n w (fun i => if ref i then None else Some 0) block = (Ok (mkRefcountFixTally 0 0 freed_count), block') /\
    blen block' = blen block /\
    (forall j, in_block block j w -> rc_at w block' j = if (j <? n) && negb (ref j) then 0 else rc_at w block j) /\
    freed_count = tally_of (fun i => (0 <? rc_at w block i) && negb (ref i)) 0 (Z.to_nat n).
Proof.
  intros Hc Hn. set (f := fun i => if ref i then None else Some 0). pose proof Hc as (_ & _ & Hw & _).
  assert (forall i v, f i = Some v -> 0 <= v < 2 ^ w) as Hf.
  { intros i v. unfold f. destruct (ref i); [done|]. intros [= <-]. split; [done|]. apply Z.pow_pos_nonneg; [done|].
    pose proof (valid_width_pos w Hw). lia. }
  destruct (correct_spec w n f block Hc Hn Hf) as (t & block' & Hrun & Hl & Hr & H1 & H2 & H3).
  pose proof (reclaim_loop_correct w n ref (Z.to_nat n) 0 block 0 Hc ltac:(lia) ltac:(lia)) as Hloop. fold f in Hloop.
  unfold correct_refcounts_in_refblock in Hrun. rewrite Hloop in Hrun. unfold reclaim_leaks_in_refblock.
  destruct (reclaim_loop (Z.to_nat n) 0 w ref 0 block) as [[x| | |] b1]; cbn [fst snd] in *; try done.
  injection Hrun as <- <-. exists x, b1. split; [done|]. split; [exact Hloop|]. split; [done|]. cbn [freed] in H3. split.
  - intros j Hj. rewrite (Hr j Hj). destruct Hj as [Hj0 _]. destruct (Z.leb_spec 0 j); [|lia]. unfold fixed, f.
    destruct (j <? n), (ref j); done.
  - rewrite H3. apply tally_of_ext. intros i Hi. pose proof (rc_bound w block n i Hc ltac:(lia)). unfold is_freed, f.
    destruct (ref i); cbn [negb]; [by rewrite andb_false_r|]. by rewrite !andb_true_r.
Qed.

(** The COPIED state a reconciliation starts from. *)
Definition copied_pre (s : CopiedSt) : Prop :=
  is_bytes (cp_l1 s) /\ slice_fits (cp_l1 s) /\ blen (cp_l1 s) / 8 <= u32_max /\ tables_ok (cp_l2 s).

Lemma reconcile_spec cb rcf ext s : 0 < cb -> copied_pre s ->
  match reconcile_copied_flags_for_l1 cb rcf ext s with
  | (Ok _, s') => forall i, 0 <= i < blen (cp_l1 s) / 8 -> l1_entry_fixed cb rcf ext s s' i
  | (Err e, _) => e = RepairMisalignedAccess
  | _ => False
  end.
Proof.
  intros Hcb (H1 & H2 & H3 & H4). pose proof (update_copied_spec cb rcf ext s Hcb H1 H2 H3 H4) as Hwp. unfold wp in Hwp.
  unfold reconcile_copied_flags_for_l1. destruct (update_copied_flags_for_l1 cb rcf ext s) as [[|e| |] s']; cbn [map_err]; try done.
  - tauto.
  - by subst e.
Qed.

(** C22: the lossy tier, counting, correcting and reconciling: a counting walk over the
    references of an image either refuses because some cluster is referenced more
    often than the refcount width can say, or the correction always returns and
    leaves every entry of the block equal to the number of references to its
    cluster, with the three tallies exact; a reconciliation that reads those
    refcounts then sets COPIED on an L1 entry iff its table is referenced once. *)
Theorem repair_all_consistent w n k refs block :
  valid_width w -> 0 <= n <= u32_max -> n * w <= 8 * k -> 0 <= k <= 9223372036854775807 ->
  Forall (fun i => 0 <= i < n) refs -> counters w block n ->
  match account_all refs w (filled k 0) with
  | (Err e, _) => e = AmbiguousCorruption /\ exists i, 0 <= i < n /\ 2 ^ w <= ref_count refs i
  | (Ok _, map) =>
      exists t block', correct_refcounts_in_refblock n w (from_map w map) block = (Ok t, block') /\ blen block' = blen block /\
        (forall i, 0 <= i < n -> rc_at w block' i = ref_count refs i) /\
        raised t = tally_of (fun i => rc_at w block i <? ref_count refs i) 0 (Z.to_nat n) /\
        lowered t = tally_of (fun i => (ref_count refs i <? rc_at w block i) && (0 <? ref_count refs i)) 0 (Z.to_nat n) /\
        freed t = tally_of (fun i => (ref_count refs i <? rc_at w block i) && negb (0 <? ref_count refs i)) 0 (Z.to_nat n) /\
        forall cb rcf ext s, 0 < cb -> copied_pre s ->
          (forall host, 0 <= host / 2 ^ cb < n -> rcf host = Some (rc_at w block' (host / 2 ^ cb))) ->
          match reconcile_copied_flags_for_l1 cb rcf ext s with
          | (Ok _, s') => forall i, 0 <= i < blen (cp_l1 s) / 8 ->
              let e := u64_at (cp_l1 s) (i * 8) in
              let table := Z.land e L1_OFFSET_MASK in
              table <> 0 -> 0 <= table / 2 ^ cb < n ->
              u64_at (cp_l1 s') (i * 8) = with_copied e (ref_count refs (table / 2 ^ cb) =? 1)
          | (Err e, _) => e = RepairMisalignedAccess
          | _ => False
          end
  | _ => False
  end.
Proof.
  intros Hw Hn Hnk Hk Hrefs Hc. destruct (zero_map w n k Hw Hnk Hk) as [Hz Hz0].
  pose proof (account_all_spec w n refs _ Hz Hrefs) as Hacc. unfold wp in Hacc.
  destruct (account_all refs w (filled k 0)) as [[u|e| |] map]; try done.
  2: { destruct Hacc as [-> (i & Hi & Hbig)]. rewrite Hz0 in Hbig by done. split; [done|]. exists i. split; [done|]. lia. }
  destruct Hacc as [Hm Hcount].
  assert (forall i, 0 <= i < n -> from_map w map i = Some (ref_count refs i)) as Hfm.
  { intros i Hi. rewrite (from_map_spec w n) by done. f_equal. rewrite Hcount, Hz0 by done. lia. }
  (* entries beyond [n] are not visited *)
  set (f := fun i => if (0 <=? i) && (i <? n) then from_map w map i else None).
  assert (forall i v, f i = Some v -> 0 <= v < 2 ^ w) as Hf.
  { intros i v. unfold f. destruct (Z.leb_spec 0 i), (Z.ltb_spec i n); cbn [andb]; try done. intros Hv.
    rewrite (from_map_spec w n) in Hv by done. injection Hv as <-. by apply (rc_bound w map n). }
  destruct (correct_spec w n f block Hc Hn Hf) as (t & block' & Hrun & Hl & Hr & H1 & H2 & H3).
  assert (correct_refcounts_in_refblock n w f block = correct_refcounts_in_refblock n w (from_map w map) block) as Hext.
  { unfold correct_refcounts_in_refblock. apply correct_loop_ext. intros i Hi. unfold f.
    destruct (Z.leb_spec 0 i), (Z.ltb_spec i n); done || lia. }
  assert (forall i, 0 <= i < 0 + Z.of_nat (Z.to_nat n) -> f i = Some (ref_count refs i)) as Hfi.
  { intros i Hi. unfold f. rewrite <- Hfm by lia. destruct (Z.leb_spec 0 i), (Z.ltb_spec i n); done || lia. }
  assert (forall i, 0 <= i < n -> rc_at w block' i = ref_count refs i) as Hfinal.
  { intros i Hi. rewrite Hr by (by apply (counters_in w block n)). unfold fixed. rewrite Hfi by lia.
    destruct (Z.leb_spec 0 i), (Z.ltb_spec i n); done || lia. }
  exists t, block'. rewrite <- Hext. split; [done|]. split; [done|]. split; [done|].
  split; [rewrite H1; apply tally_of_ext; intros i Hi; unfold is_raised; by rewrite Hfi|].
  split; [rewrite H2; apply tally_of_ext; intros i Hi; unfold is_lowered; by rewrite Hfi|].
  split; [rewrite H3; apply tally_of_ext; intros i Hi; unfold is_freed; by rewrite Hfi|].
  intros cb rcf ext s Hcb Hs Hrcf. pose proof (reconcile_spec cb rcf ext s Hcb Hs) as Hrec.
  destruct (reconcile_copied_flags_for_l1 cb rcf ext s) as [[x|e| |] s']; try done.
  intros i Hi e table Ht Hin. specialize (Hrec i Hi). unfold l1_entry_fixed in Hrec. fold e in Hrec. fold table in Hrec.
  destruct (Z.eqb_spec table 0); [done|]. destruct Hrec as (r & _ & _ & Hrr & He & _).
  rewrite Hrcf, Hfinal in Hrr by done. injection Hrr as <-. done.
Qed.

(** ** Witnesses *)

Definition demo_block : bytes := [0; 1; 0; 1; 0; 5; 0; 0].

Lemma demo_counters : counters 16 demo_block 4.
Proof.
  split; [apply is_bytesb_true; reflexivity|]. split; [vm_compute; discriminate|].
  split; [unfold valid_width; set_solver | vm_compute; discriminate].
Qed.

Lemma repair_all_consistent_witness :
  exists t block', correct_refcounts_in_refblock 4 16 (from_map 16 [0; 1; 0; 2; 0; 0; 0; 1]) demo_block = (Ok t, block') /\
    rc_at 16 block' 1 = 2 /\ rc_at 16 block' 2 = 0 /\ raised t = 2 /\ freed t = 1.
Proof.
  assert (account_all [0; 1; 1; 3] 16 (filled 8 0) = (Ok tt, [0; 1; 0; 2; 0; 0; 0; 1])) as Hacc by (vm_compute; reflexivity).
  assert (valid_width 16) as Hw by (unfold valid_width; set_solver).
  assert (Forall (fun i => 0 <= i < 4) [0; 1; 1; 3]) as Hr by (repeat constructor; lia).
  pose proof (repair_all_consistent 16 4 8 [0; 1; 1; 3] demo_block Hw ltac:(unfold u32_max; lia) ltac:(lia) ltac:(lia) Hr demo_counters) as Hall.
  rewrite Hacc in Hall. destruct Hall as (t & block' & Hrun & _ & Hcnt & Hra & _ & Hfr & _).
  exists t, block'. split; [exact Hrun|]. split; [exact (Hcnt 1 ltac:(lia))|]. split; [exact (Hcnt 2 ltac:(lia))|].
  split; [rewrite Hra | rewrite Hfr]; vm_compute; reflexivity.
Defined.

Lemma reclaim_generalised_witness :
  exists freed_count block', reclaim_leaks_in_refblock 4 16 (fun i => i <? 2) demo_block = (Ok freed_count, block') /\
    freed_count = 1 /\ rc_at 16 block' 2 = 0 /\ rc_at 16 block' 1 = 1.
Proof.
  destruct (reclaim_generalised 16 4 (fun i => i <? 2) demo_block demo_counters ltac:(unfold u32_max; lia))
    as (x & block' & Hrun & _ & _ & Hr & Hx).
  exists x, block'. split; [exact Hrun|]. split; [rewrite Hx; vm_compute; reflexivity|].
  split; [rewrite (Hr 2) by (split; [lia | vm_compute; discriminate]) | rewrite (Hr 1) by (split; [lia | vm_compute; discriminate])]; vm_compute; reflexivity.
Defined.
