(* ===== verification/Header.v ===== *)
(** [QcowHeader::parse] as a function of the fields of a header, and byte patches of a
    header: what the planners that rewrite headers (amend, rebase) are checked
    against.  The patched bytes are parsed again by the same parser every reader
    uses. *)

From stdpp Require Import base numbers list sets option.
From Stdlib Require Import ZArith Lia.
From S2P Require Import Prelude Bytes Refcount Qcow2 SnapshotWalk ExecBytes.

(** ** Fields *)

(** The big-endian 32-bit word at a byte offset. *)
Definition u32_at (buf : bytes) (off : Z) : Z := from_option be_val 0 (slice buf off (off + 4)).

Lemma be_u32_at {E} buf off : 0 <= off -> off + 4 <= blen buf -> be_u32 (E := E) buf off = Ok (u32_at buf off).
Proof.
  intros Ho Hl. unfold be_u32, u32_at. destruct (slice_of buf off (off + 4)) as (s & -> & _); [lia | done |]. done.
Qed.

Lemma u32_at_u32 buf off : is_bytes buf -> is_u32 (u32_at buf off).
Proof.
  intros Hb. unfold u32_at, is_u32, u32_max. destruct (slice buf off (off + 4)) as [s|] eqn:Hs; cbn; [|lia].
  pose proof (be_val_bound s (slice_is_bytes _ _ _ _ Hb Hs)) as Hv. rewrite (slice_blen _ _ _ _ Hs) in Hv.
  replace (off + 4 - off) with 4 in Hv by lia. change (256 ^ 4) with 4294967296 in Hv. lia.
Qed.

Definition byte_or_0 (buf : bytes) (off : Z) : Z := default 0 (byte_at buf off).

(** The header that [parse] would return. *)
Definition header_at (b : bytes) : QcowHeader :=
  let ver := u32_at b VERSION_OFFSET in
  let v3 := 3 <=? ver in
  let order := u32_at b REFCOUNT_ORDER_OFFSET in
  let incompat := if v3 then u64_at b INCOMPATIBLE_FEATURES_OFFSET else 0 in
  let compat := if v3 then u64_at b COMPATIBLE_FEATURES_OFFSET else 0 in
  {| version := ver;
     header_length := if v3 then u32_at b HEADER_LENGTH_OFFSET else V2_HEADER_EXTENSION_OFFSET;
     hdr_cluster_bits := u32_at b CLUSTER_BITS_OFFSET;
     hdr_cluster_size := Z.shiftl 1 (u32_at b CLUSTER_BITS_OFFSET);
     hdr_virtual_size := u64_at b SIZE_OFFSET;
     hdr_l1_size := u32_at b L1_SIZE_OFFSET;
     hdr_l1_table_offset := u64_at b L1_TABLE_OFFSET_OFFSET;
     backing_file_offset := u64_at b BACKING_FILE_OFFSET_OFFSET;
     backing_file_size := u32_at b BACKING_FILE_SIZE_OFFSET;
     crypt_method := u32_at b CRYPT_METHOD_OFFSET;
     hdr_refcount_table_offset := u64_at b REFCOUNT_TABLE_OFFSET_OFFSET;
     hdr_refcount_table_clusters := u32_at b REFCOUNT_TABLE_CLUSTERS_OFFSET;
     hdr_refcount_bits := if v3 then (if order <=? 6 then Z.shiftl 1 order else 16) else 16;
     incompatible_features := incompat;
     compatible_features := compat;
     compression_type := if v3 then byte_or_0 b COMPRESSION_TYPE_OFFSET else 0;
     nb_snapshots := u32_at b NB_SNAPSHOTS_OFFSET;
     snapshots_offset := u64_at b SNAPSHOTS_OFFSET_OFFSET;
     hdr_dirty := nonzero (Z.land incompat INCOMPAT_DIRTY);
     hdr_corrupt := nonzero (Z.land incompat INCOMPAT_CORRUPT);
     has_external_data := nonzero (Z.land incompat INCOMPAT_EXTERNAL_DATA);
     extended_l2 := nonzero (Z.land incompat INCOMPAT_EXTENDED_L2);
     lazy_refcounts := nonzero (Z.land compat COMPAT_LAZY_REFCOUNTS) |}.

(** The conditions [parse] checks. *)
Definition header_valid (h : QcowHeader) : bool :=
  ((version h =? 2) || (version h =? 3)) && ((9 <=? hdr_cluster_bits h) && (hdr_cluster_bits h <=? 21)) &&
  (hdr_l1_size h <=? QCOW2_MAX_L1_SIZE_ENTRIES) &&
  (div_ceil (hdr_virtual_size h)
     (wmul (hdr_cluster_size h) (hdr_cluster_size h / (if extended_l2 h then 16 else 8))) <=? QCOW2_MAX_L1_SIZE_ENTRIES).

Ltac offs := unfold VERSION_OFFSET, REFCOUNT_ORDER_OFFSET, INCOMPATIBLE_FEATURES_OFFSET, COMPATIBLE_FEATURES_OFFSET,
  HEADER_LENGTH_OFFSET, CLUSTER_BITS_OFFSET, SIZE_OFFSET, L1_SIZE_OFFSET, L1_TABLE_OFFSET_OFFSET, BACKING_FILE_OFFSET_OFFSET,
  BACKING_FILE_SIZE_OFFSET, CRYPT_METHOD_OFFSET, REFCOUNT_TABLE_OFFSET_OFFSET, REFCOUNT_TABLE_CLUSTERS_OFFSET,
  NB_SNAPSHOTS_OFFSET, SNAPSHOTS_OFFSET_OFFSET, COMPRESSION_TYPE_OFFSET, V2_HEADER_EXTENSION_OFFSET in *.

Lemma parse_header_at b : 105 <= blen b ->
  parse b = if header_valid (header_at b) then Ok (header_at b) else Err tt.
Proof.
  intros Hl. unfold parse, parse_v3_fields. destruct (Z.ltb_spec (blen b) 105); [lia|].
  destruct (byte_at_Some_iff b COMPRESSION_TYPE_OFFSET) as [_ Hct].
  destruct (Hct ltac:(offs; lia)) as [ct Hbyte]. clear Hct.
  rewrite !be_u32_at, !be_u64_at by (offs; lia). cbn [obind].
  unfold header_valid, header_at. cbv zeta. unfold byte_or_0. rewrite Hbyte.
  cbn [version hdr_cluster_bits hdr_l1_size hdr_virtual_size hdr_cluster_size extended_l2 or_panic obind default from_option id].
  set (ver := u32_at b VERSION_OFFSET).
  destruct (Z.eqb_spec ver 2) as [H2|H2], (Z.eqb_spec ver 3) as [H3|H3]; cbn [negb andb orb]; try done; try lia;
    destruct (Z.leb_spec 3 ver); try lia; cbn [obind];
    destruct ((9 <=? _) && (_ <=? 21)); cbn [negb andb]; try done;
    rewrite !Z.ltb_antisym; destruct (u32_at b L1_SIZE_OFFSET <=? _); cbn [negb andb]; try done;
    destruct (_ <=? _); done.
Qed.

Lemma parse_Ok b h : parse b = Ok h -> 105 <= blen b /\ h = header_at b /\ header_valid h = true.
Proof.
  intros Hp. destruct (decide (105 <= blen b)) as [Hl|Hl].
  - rewrite parse_header_at in Hp by done. destruct (header_valid (header_at b)) eqn:Hv; [|done]. by injection Hp as <-.
  - unfold parse in Hp. destruct (Z.ltb_spec (blen b) 105); [done|lia].
Qed.

(** ** Patches *)

(** A header rewritten by one patch. *)
Lemma u32_at_same buf buf' off : slice buf' off (off + 4) = slice buf off (off + 4) -> u32_at buf' off = u32_at buf off.
Proof. unfold u32_at. by intros ->. Qed.

Lemma u64_at_same buf buf' off : slice buf' off (off + 8) = slice buf off (off + 8) -> u64_at buf' off = u64_at buf off.
Proof. unfold u64_at. by intros ->. Qed.

Lemma u32_at_put buf off v buf' : splice buf off (be_bytes 4 v) = Some buf' -> is_u32 v -> u32_at buf' off = v.
Proof.
  intros Hs Hv. pose proof (slice_splice_eq _ _ _ _ Hs) as He. rewrite blen_be_bytes in He. change (Z.of_nat 4) with 4 in He.
  unfold u32_at. rewrite He. cbn [from_option]. apply be_val_bytes. unfold is_u32, u32_max in Hv. change (256 ^ Z.of_nat 4) with 4294967296. lia.
Qed.

Lemma u64_at_put buf off v buf' : splice buf off (be_bytes 8 v) = Some buf' -> is_u64 v -> u64_at buf' off = v.
Proof.
  intros Hs Hv. pose proof (slice_splice_eq _ _ _ _ Hs) as He. rewrite blen_be_bytes in He. change (Z.of_nat 8) with 8 in He.
  unfold u64_at. rewrite He. cbn [from_option]. apply be_val_bytes. unfold is_u64, u64_max in Hv. change (256 ^ Z.of_nat 8) with 18446744073709551616. lia.
Qed.

(** The patches of a plan, applied in order. *)
Fixpoint apply_writes (file : bytes) (ws : list (Z * bytes)) : option bytes :=
  match ws with
  | [] => Some file
  | (off, src) :: rest => file' ← splice file off src; apply_writes file' rest
  end.

(** Writes within the file go through. *)
Lemma apply_writes_ok file ws : is_bytes file -> Forall (fun w => 0 <= w.1 /\ w.1 + blen w.2 <= blen file /\ is_bytes w.2) ws ->
  exists file', apply_writes file ws = Some file' /\ blen file' = blen file /\ is_bytes file'.
Proof.
  revert file. induction ws as [|[off src] ws IH]; intros file Hb Hws; [by exists file|].
  inversion Hws as [|? ? (Ho & Hl & Hs) Hrest]; subst. cbn [apply_writes].
  destruct (splice_of file off src Ho Hl) as (f1 & Hf1 & Hl1). cbn [fst snd] in *. rewrite Hf1. cbn [mbind option_bind].
  destruct (IH f1) as (file' & Hf & Hlen & Hby); [exact (splice_is_bytes _ _ _ _ Hb Hs Hf1) | by rewrite Hl1|].
  exists file'. rewrite Hlen. by split_and!.
Qed.

Lemma apply_writes_blen file ws file' : apply_writes file ws = Some file' -> blen file' = blen file.
Proof.
  revert file. induction ws as [|[off src] ws IH]; intros file Hf; [by injection Hf as ->|].
  apply bind_Some in Hf as (f1 & Hf1 & Hf). rewrite (IH _ Hf). exact (splice_blen _ _ _ _ Hf1).
Qed.

Lemma apply_writes_app file a b : apply_writes file (a ++ b) = (f1 ← apply_writes file a; apply_writes f1 b).
Proof.
  revert file. induction a as [|[o s] a IH]; intros file; [done|]. cbn [apply_writes app]. destruct (splice file o s) as [f1|]; [|done]. cbn [mbind option_bind]. apply IH.
Qed.

(** A range no write touches. *)
Lemma apply_writes_frame file ws file' a b : apply_writes file ws = Some file' ->
  Forall (fun w => b <= w.1 \/ w.1 + blen w.2 <= a) ws -> slice file' a b = slice file a b.
Proof.
  revert file. induction ws as [|[off src] ws IH]; intros file Hf Hws; [by injection Hf as ->|].
  inversion Hws as [|? ? Hd Hrest]; subst. apply bind_Some in Hf as (f1 & Hf1 & Hf).
  rewrite (IH f1 Hf Hrest). by eapply slice_splice_ne.
Qed.

(** Writes at ascending places: each is there in the end. *)
Fixpoint ascending (lo : Z) (ws : list (Z * bytes)) : Prop :=
  match ws with
  | [] => True
  | (off, src) :: rest => lo <= off /\ ascending (off + blen src) rest
  end.

Lemma ascending_above lo ws : ascending lo ws -> Forall (fun w => lo <= w.1) ws.
Proof.
  revert lo. induction ws as [|[off src] ws IH]; intros lo Ha; [constructor|]. destruct Ha as [Hlo Ha].
  constructor; [done|]. eapply Forall_impl; [|exact (IH _ Ha)]. cbn. intros w Hw. pose proof (blen_nonneg src). lia.
Qed.

Lemma apply_writes_get lo file ws file' off src : ascending lo ws -> apply_writes file ws = Some file' ->
  (off, src) ∈ ws -> slice file' off (off + blen src) = Some src.
Proof.
  revert lo file. induction ws as [|[o s] ws IH]; intros lo file Ha Hf Hin; [by apply elem_of_nil in Hin|].
  apply bind_Some in Hf as (f1 & Hf1 & Hf). destruct Ha as [_ Ha]. apply elem_of_cons in Hin as [[= -> ->]|Hin].
  - rewrite (apply_writes_frame f1 ws file' _ _ Hf); [by eapply slice_splice_eq|].
    eapply Forall_impl; [|exact (ascending_above _ _ Ha)]. cbn. intros w Hw. by left.
  - by apply (IH _ f1 Ha Hf Hin).
Qed.

(** A range inside a prefix. *)
Lemma slice_of_prefix l L p a b : slice l 0 L = Some p -> 0 <= a -> b <= L -> slice l a b = slice p a b.
Proof.
  intros Hp Ha Hb. destruct (decide (a <= b)) as [Hab|Hab].
  - rewrite (slice_slice l 0 L p a b Hp) by lia. by rewrite !Z.add_0_l.
  - unfold slice. destruct (Z.leb_spec a b); [lia|]. by rewrite !andb_false_r.
Qed.

(** Two headers of the same image: everything but the version, the feature words, the
    header length and the place of the backing file name. *)
Record same_image (h h' : QcowHeader) : Prop := {
  si_bits : hdr_cluster_bits h' = hdr_cluster_bits h;
  si_size : hdr_cluster_size h' = hdr_cluster_size h;
  si_vsize : hdr_virtual_size h' = hdr_virtual_size h;
  si_l1 : hdr_l1_size h' = hdr_l1_size h;
  si_l1off : hdr_l1_table_offset h' = hdr_l1_table_offset h;
  si_crypt : crypt_method h' = crypt_method h;
  si_rtoff : hdr_refcount_table_offset h' = hdr_refcount_table_offset h;
  si_rtcl : hdr_refcount_table_clusters h' = hdr_refcount_table_clusters h;
  si_nsnap : nb_snapshots h' = nb_snapshots h;
  si_snapoff : snapshots_offset h' = snapshots_offset h
}.

Lemma same_image_fields f f' :
  (forall a b, 20 <= a -> b <= 72 -> slice f' a b = slice f a b) -> same_image (header_at f) (header_at f').
Proof.
  intros Hs. assert (forall o, 20 <= o <= 68 -> u32_at f' o = u32_at f o) as H4 by (intros o Ho; apply u32_at_same, Hs; lia).
  assert (forall o, 20 <= o <= 64 -> u64_at f' o = u64_at f o) as H8 by (intros o Ho; apply u64_at_same, Hs; lia).
  split; cbn [header_at hdr_cluster_bits hdr_cluster_size hdr_virtual_size hdr_l1_size hdr_l1_table_offset crypt_method
    hdr_refcount_table_offset hdr_refcount_table_clusters nb_snapshots snapshots_offset]; offs;
    rewrite ?H4, ?H8 by lia; done.
Qed.

(** Such a header is as valid as the other when it says the same about extended L2. *)
Lemma same_image_valid h h' : same_image h h' -> extended_l2 h' = extended_l2 h -> version h' = 2 \/ version h' = 3 ->
  header_valid h = true -> header_valid h' = true.
Proof.
  intros [Hb Hs Hvs Hl1 _ _ _ _ _ _] He Hv. unfold header_valid. rewrite He, Hb, Hs, Hvs, Hl1, !andb_true_iff.
  intros [[[_ Hc] Hl] Hd]. split; [split; [split|]|]; try done. apply orb_true_iff. destruct Hv as [->| ->]; auto.
Qed.
