(* ===== verification/Stamp.v ===== *)
(** Structures with a checksum of their own bytes: fields written at ascending places,
    then the checksum over them, whatever the checksum and its byte order.  The VHD and
    VHDX writers are instances. *)

From stdpp Require Import base numbers list sets option.
From Stdlib Require Import ZArith Lia.
From S2P Require Import Prelude Bytes ExecBytes CachedRead Header.

Section stamp.
Context (ck : bytes -> Z) (coff : Z) (enc : Z -> bytes).
Context (Henc : forall v, blen (enc v) = 4 /\ is_bytes (enc v)).
(** The checksum does not depend on its own field. *)
Context (Hck : forall data src data', blen src = 4 -> splice data coff src = Some data' -> ck data' = ck data).

(** [buf'] is [buf] with the writes [ws] and the checksum of the first [len] bytes. *)
Record sealed (buf buf' : bytes) (ws : list (Z * bytes)) (len : Z) : Prop := {
  se_blen : blen buf' = blen buf;
  se_bytes : is_bytes buf';
  se_field off src : (off, src) ∈ ws -> slice buf' off (off + blen src) = Some src;
  se_sum : exists data, slice buf' 0 len = Some data /\ slice buf' coff (coff + 4) = Some (enc (ck data));
  se_frame a b : (b <= coff \/ coff + 4 <= a) -> Forall (fun w => b <= w.1 \/ w.1 + blen w.2 <= a) ws -> slice buf' a b = slice buf a b
}.

(** A write that fits and stays clear of the checksum. *)
Definition clear_write (lim : Z) (w : Z * bytes) : Prop :=
  (w.1 + blen w.2 <= coff \/ coff + 4 <= w.1) /\ w.1 + blen w.2 <= lim /\ is_bytes w.2.

Lemma clear_write_le lim lim' w : lim <= lim' -> clear_write lim w -> clear_write lim' w.
Proof. intros Hl (H1 & H2 & H3). split; [done|]. split; [lia|done]. Qed.

(** Writing the checksum over any prefix that holds the field. *)
Lemma seal_sum b1 len data b2 : 0 <= coff -> coff + 4 <= len -> len <= blen b1 -> slice b1 0 len = Some data ->
  splice b1 coff (enc (ck data)) = Some b2 ->
  exists data2, slice b2 0 len = Some data2 /\ slice b2 coff (coff + 4) = Some (enc (ck data2)).
Proof.
  intros H0 H4 Hlen Hd Hb2. pose proof (splice_blen _ _ _ _ Hb2) as Hl2. pose proof (slice_blen _ _ _ _ Hd) as Hdl.
  destruct (Henc (ck data)) as [Hel _]. destruct (slice_of b2 0 len) as (data2 & Hd2 & Hdl2); [lia | lia |]. exists data2. split; [done|].
  destruct (splice_of data coff (enc (ck data))) as (d3 & Hd3 & Hl3); [lia | lia |].
  assert (data2 = d3) as ->.
  { apply byte_ext; [lia|]. intros i Hi. rewrite (slice_byte _ _ _ _ _ Hd2), (splice_byte _ _ _ _ _ Hb2), (splice_byte _ _ _ _ _ Hd3) by lia.
    rewrite Z.add_0_l. destruct (_ && _); [done|]. by rewrite (slice_byte _ _ _ _ _ Hd) by lia. }
  rewrite (Hck _ _ _ Hel Hd3). pose proof (slice_splice_eq _ _ _ _ Hb2) as Hc. by rewrite Hel in Hc.
Qed.

Lemma seal_ok buf ws len : is_bytes buf -> 0 <= coff -> coff + 4 <= len -> len <= blen buf -> ascending 0 ws ->
  Forall (clear_write (blen buf)) ws ->
  exists buf1 data buf2, apply_writes buf ws = Some buf1 /\ slice buf1 0 len = Some data /\
    splice buf1 coff (enc (ck data)) = Some buf2 /\ blen buf1 = blen buf /\ sealed buf buf2 ws len.
Proof.
  intros Hb H0 H4 Hlen Ha Hws. pose proof (ascending_above _ _ Ha) as Habove.
  destruct (apply_writes_ok buf ws Hb) as (b1 & Hb1 & Hl1 & Hby1).
  { rewrite Forall_forall in *. intros w Hw. destruct (Hws w Hw) as (_ & He & Hbw). specialize (Habove w Hw). cbn in Habove.
    split_and!; [done | lia | done]. }
  destruct (slice_of b1 0 len) as (data & Hd & Hdl); [lia | lia |]. destruct (Henc (ck data)) as [Hel Heb].
  destruct (splice_of b1 coff (enc (ck data))) as (b2 & Hb2 & Hl2); [lia | lia |].
  exists b1, data, b2. split_and!; try done. pose proof (splice_is_bytes _ _ _ _ Hby1 Heb Hb2) as Hby2. split; [lia | done | | |].
  - intros off src Hin. rewrite Forall_forall in Hws. destruct (Hws _ (proj1 (list_elem_of_In _ _) Hin)) as (Hcl & _). cbn in Hcl.
    rewrite (slice_splice_ne _ _ _ _ _ _ Hb2) by lia. by eapply apply_writes_get.
  - eapply seal_sum; [done | done | | exact Hd | exact Hb2]. lia.
  - intros a b Hab Hf. rewrite (slice_splice_ne _ _ _ _ _ _ Hb2) by lia. by eapply apply_writes_frame.
Qed.

End stamp.

(** Side conditions on a literal list of writes. *)
Ltac closed_le := first [ exact I | (vm_compute; discriminate) | (left; vm_compute; discriminate) | (right; vm_compute; discriminate) ].

(** Membership in a literal list. *)
Ltac literal_elem := repeat first [ apply list_elem_of_here | apply list_elem_of_further ].
