(* ===== verification/Ownership.v ===== *)
(** Which image of a differencing chain owns a sector: the walk over the bits of a sector
    bitmap that the VHD and VHDX readers share ([coalesce_ownership_run] is the same text in
    [src/src/crates/vhd/src/lib.rs] and [src/src/crates/vhdx/src/lib.rs]; only the order of
    the bits in a byte differs, so the bit test is a parameter). *)

From stdpp Require Import base numbers list sets option.
From Stdlib Require Import ZArith Lia.
From S2P Require Import Prelude Bytes ExecBytes CachedRead Qcow1.

(** ** Definitions *)

Record SectorOwnershipRun : Type := mkSectorOwnershipRun { child_owned : bool; run_sectors : Z }.

(** [u32::checked_add]. *)
Definition checked_add_u32 (x y : Z) : option Z := if x + y <=? u32_max then Some (x + y) else None.

Section walk.
Context {H : Type} `{InputIo H}.
(** [sector_bit_is_child_owned(bitmap_byte, sector)]. *)
Context (is_owned : Z -> Z -> bool).

(** The [while] loop of [coalesce_ownership_run]; [wanted] turns are enough. *)
Fixpoint ownership_loop (n : nat) (fetch_byte : Z -> SM (InSt H) unit Z) (first_sector wanted bitmap_bytes : Z)
    (owned : bool) (byte_index bitmap_byte sectors : Z) : SM (InSt H) unit SectorOwnershipRun :=
  match n with
  | O => slift OutOfFuel
  | S n' =>
      if wanted <=? sectors then sret (mkSectorOwnershipRun owned sectors)
      else
      let! sector := or_none (checked_add_u32 first_sector sectors) in
      let sector_byte_index := sector / 8 in
      if negb (sector_byte_index =? byte_index) && (bitmap_bytes <=? sector_byte_index)
      then sret (mkSectorOwnershipRun owned sectors)
      else
      let! bitmap_byte := (if negb (sector_byte_index =? byte_index) then fetch_byte sector_byte_index else sret bitmap_byte) in
      if negb (Bool.eqb (is_owned bitmap_byte sector) owned)
      then sret (mkSectorOwnershipRun owned sectors)
      else
      let! sectors := or_none (checked_add_u32 sectors 1) in
      ownership_loop n' fetch_byte first_sector wanted bitmap_bytes owned sector_byte_index bitmap_byte sectors
  end.

Definition coalesce_run (first_sector sector_count sectors_per_bitmap bitmap_bytes : Z)
    (fetch_byte : Z -> SM (InSt H) unit Z) : SM (InSt H) unit SectorOwnershipRun :=
  if (sector_count =? 0) || (bitmap_bytes =? 0) || (sectors_per_bitmap <=? first_sector) then sfail tt
  else
  let! rest := or_none (checked_sub sectors_per_bitmap first_sector) in
  let wanted := Z.min sector_count rest in
  let byte_index := first_sector / 8 in
  if bitmap_bytes <=? byte_index then sfail tt
  else
  let! bitmap_byte := fetch_byte byte_index in
  let owned := is_owned bitmap_byte first_sector in
  ownership_loop (Z.to_nat wanted) fetch_byte first_sector wanted bitmap_bytes owned byte_index bitmap_byte 1.

End walk.

(** ** The run it finds *)

Section owners.
Context (owner : Z -> Z -> bool) (ssz cap : Z) (img : bytes).

(** The owner of sector [s] as the bitmap at [base] says. *)
Definition bit_owner (base s : Z) : option bool :=
  b ← direct_read ssz cap img 1 be_val (base + s / 8); Some (owner b s).

(** A maximal run from [first]: sectors with one owner, stopped by the limit or by a
    sector of the other owner. *)
Definition maximal_run (base first wanted : Z) (r : SectorOwnershipRun) : Prop :=
  1 <= run_sectors r <= wanted /\
  (forall i, 0 <= i < run_sectors r -> bit_owner base (first + i) = Some (child_owned r)) /\
  (run_sectors r = wanted \/ bit_owner base (first + run_sectors r) = Some (negb (child_owned r))).

End owners.

Section bitmaps.
Context {H : Type} `{FlatInput H} (dev ssz cap : Z) (img : bytes).
Context (Hdev : device_ok ssz cap img).
Context (is_owned owner : Z -> Z -> bool) (Howner : forall b s, 0 <= s -> is_owned b s = owner b s).

(** The closure both readers pass: a byte of the bitmap at [base], through the data cache. *)
Definition fetch_bitmap (base byte_index : Z) : SM (InSt H) unit Z :=
  let! byte_offset := or_none (checked_add base byte_index) in
  cached_read CacheB 1 be_val dev byte_offset ssz cap.

Lemma fetch_computes base i : 0 <= base -> 0 <= i -> base + i <= u64_max ->
  computes dev ssz img (fetch_bitmap base i) (direct_read ssz cap img 1 be_val (base + i)).
Proof.
  intros Hbase Hi Hm. eapply computes_some; [by apply checked_add_eq|]. apply computes_read; [done | unfold is_u64; lia | lia].
Qed.

Lemma ownership_loop_yields n base first wanted bytes : 0 <= base -> 0 <= first -> base + bytes <= u64_max ->
  first + wanted <= 8 * bytes -> first + wanted <= u32_max ->
  forall owned bi bb k, 1 <= k <= wanted -> wanted - k < Z.of_nat n ->
  bi = (first + k - 1) / 8 -> direct_read ssz cap img 1 be_val (base + bi) = Some bb ->
  (forall i, 0 <= i < k -> bit_owner owner ssz cap img base (first + i) = Some owned) ->
  yields dev ssz img (ownership_loop is_owned n (fetch_bitmap base) first wanted bytes owned bi bb k)
    (fun r => child_owned r = owned /\ maximal_run owner ssz cap img base first wanted r)
    (exists i, 0 <= i < wanted /\ bit_owner owner ssz cap img base (first + i) = None).
Proof.
  intros Hbase Hfirst Hmax Hgroup Hu. induction n as [|n IH]; intros owned bi bb k Hk Hn Hbi Hbb Hown; [lia|]. cbn [ownership_loop].
  destruct (Z.leb_spec wanted k) as [|Hlt].
  { apply yields_ret. split; [done|]. split; [cbn; lia|]. split; [done|]. left. cbn. lia. }
  eapply yields_some; [unfold checked_add_u32; by rewrite (proj2 (Z.leb_le (first + k) u32_max)) by lia|]. cbv zeta.
  set (j := (first + k) / 8). assert (0 <= j < bytes) as Hj.
  { split; [apply Z.div_pos; lia|]. apply Z.div_lt_upper_bound; lia. }
  rewrite (proj2 (Z.leb_gt bytes j)), andb_false_r by lia.
  assert (yields dev ssz img (if negb (j =? bi) then fetch_bitmap base j else sret bb)
    (fun b => direct_read ssz cap img 1 be_val (base + j) = Some b) (direct_read ssz cap img 1 be_val (base + j) = None)) as Hfetch.
  { destruct (Z.eqb_spec j bi) as [->|]; cbn [negb]; [by apply yields_ret|]. apply fetch_computes; lia. }
  eapply yields_bind; [exact Hfetch | |].
  2:{ intros Hnone. exists k. split; [lia|]. unfold bit_owner. fold j. by rewrite Hnone. }
  intros b Hbj. rewrite Howner by lia.
  assert (bit_owner owner ssz cap img base (first + k) = Some (owner b (first + k))) as Hor by (unfold bit_owner; fold j; by rewrite Hbj).
  destruct (Bool.eqb (owner b (first + k)) owned) eqn:Heq; cbn [negb].
  - apply Bool.eqb_prop in Heq. rewrite Heq in Hor.
    eapply yields_some; [unfold checked_add_u32; by rewrite (proj2 (Z.leb_le (k + 1) u32_max)) by lia|].
    apply IH; [lia | lia | unfold j; f_equal; lia | done |]. intros i Hi. destruct (Z.eqb_spec i k) as [->|]; [done|]. apply Hown. lia.
  - apply yields_ret. split; [done|]. split; [cbn; lia|]. split; [done|]. right. cbn. rewrite Hor. f_equal.
    by destruct (owner b _), owned.
Qed.

(** The run over a bitmap of [bytes] bytes that covers [per] sectors. *)
Lemma coalesce_yields base first count per bytes : 0 <= base -> base + bytes <= u64_max -> 0 <= first -> 0 <= count ->
  per <= 8 * bytes -> per <= u32_max ->
  yields dev ssz img (coalesce_run is_owned first count per bytes (fetch_bitmap base))
    (maximal_run owner ssz cap img base first (Z.min count (per - first)))
    (count = 0 \/ per <= first \/
     exists i, 0 <= i < Z.min count (per - first) /\ bit_owner owner ssz cap img base (first + i) = None).
Proof.
  intros Hbase Hmax Hfirst Hcount Hper Hpu. unfold coalesce_run.
  destruct (Z.eqb_spec count 0) as [->|]; cbn [orb]; [apply yields_fail; by left|].
  destruct (Z.leb_spec per first); [rewrite orb_true_r; apply yields_fail; auto|].
  rewrite (proj2 (Z.eqb_neq bytes 0)) by lia. cbn [orb].
  eapply yields_some; [unfold checked_sub; by rewrite (proj2 (Z.leb_le first per)) by lia|]. cbv zeta. set (wanted := Z.min count _).
  assert (1 <= wanted /\ first + wanted <= per) as [Hw1 Hw2] by (unfold wanted; lia).
  assert (0 <= first / 8 < bytes) as Hj by (split; [apply Z.div_pos; lia | apply Z.div_lt_upper_bound; lia]).
  rewrite (proj2 (Z.leb_gt bytes (first / 8))) by lia.
  eapply yields_bind; [apply fetch_computes; lia | |].
  2:{ intros Hn. right. right. exists 0. split; [lia|]. unfold bit_owner. rewrite Z.add_0_r, Hn. done. }
  intros b Hbyte. rewrite Howner by lia.
  intros s Hs. eapply wp_mono; [eapply (ownership_loop_yields (Z.to_nat wanted) base first wanted bytes); try done; try lia| |].
  - f_equal. lia.
  - intros i Hi. replace i with 0 by lia. unfold bit_owner. by rewrite Z.add_0_r, Hbyte.
  - intros r s' (Hs' & Hr' & _ & Hmr). done.
  - intros [] s' (Hs' & Hf). split; [done|]. intros Hresp. destruct (Hf Hresp) as [? Hex]. auto.
Qed.

End bitmaps.
