(* ===== verification/Amend.v ===== *)
(** The amend planner ([src/src/crates/amend/src/qcow2.rs], types of
    [src/src/crates/amend/src/lib.rs], and [header_extension_area_end] of
    [src/src/crates/qcow2/src/lib.rs]): version and lazy-refcounts changes of a qcow2
    header, planned as byte patches of the first cluster.

    The scratch buffer is the state; a patch that borrows from it is a copy of its
    bytes.  The inline patch array with its count is the list of its valid entries. *)

From stdpp Require Import base numbers list sets option.
From Stdlib Require Import ZArith Lia.
From S2P Require Import Prelude Bytes Refcount Qcow2 SnapshotWalk ExecBytes Qcow2Lookup Header.

(** ** Definitions *)

Inductive AmendError : Type :=
| AmendUnsupportedFormat
| AmendInvalidOption
| DowngradeBlockedFeature
| DowngradeRefcountWidth
| LazyRequiresV3
| AmendParseFailed
| AmendDirty
| ExtensionRelocationUnsupported
| AmendScratchTooSmall
| AmendOverflow.

#[global] Instance AmendError_eq_dec : EqDecision AmendError.
Proof. solve_decision. Defined.

Inductive AmendPatch : Type := AmendWrite (byte_offset : Z) (src : bytes).

Definition MAX_AMEND_PATCHES : Z := 2.

Inductive AmendAction : Type := AmendNoOp | Amended.

Record AmendPlan : Type := mkAmendPlan {
  am_action : AmendAction;
  am_resulting_version : Z;
  am_resulting_lazy : bool;
  am_patches : list AmendPatch
}.

Definition amend_plan_new (action : AmendAction) (version : Z) (lazy : bool) : AmendPlan := mkAmendPlan action version lazy [].

Definition amend_push (plan : AmendPlan) (patch : AmendPatch) : outcome AmendError AmendPlan :=
  if MAX_AMEND_PATCHES <=? Z.of_nat (length (am_patches plan)) then Err AmendScratchTooSmall
  else Ok (mkAmendPlan (am_action plan) (am_resulting_version plan) (am_resulting_lazy plan) (am_patches plan ++ [patch])).

Record Qcow2AmendOpts : Type := mkQcow2AmendOpts {
  ao_header_cluster : bytes;
  ao_cluster_size : Z;
  ao_set_compat : bool;
  ao_target_v3 : bool;
  ao_set_lazy : bool;
  ao_lazy_on : bool
}.

(** The extension walk; every turn moves on by at least 8 bytes. *)
Fixpoint ext_area_loop (fuel : nat) (cluster : bytes) (off : Z) : outcome AmendError (option Z) :=
  match fuel with
  | O => OutOfFuel
  | S fuel' =>
      match checked_add off 8 with
      | None => Ok None
      | Some body =>
          if blen cluster <? body then Ok None
          else
          let? ext_type := be_u32 cluster off in
          let? ext_len := be_u32 cluster (off + 4) in
          if ext_type =? EXT_END then Ok (Some (wadd off 8))
          else
          let padded_len := Z.land (wadd ext_len 7) (not64 7) in
          match (x ← checked_add off 8; checked_add x padded_len) with
          | None => Ok None
          | Some next => if blen cluster <? next then Ok None else ext_area_loop fuel' cluster next
          end
      end
  end.

Definition header_extension_area_end (cluster : bytes) (start : Z) : outcome AmendError (option Z) :=
  ext_area_loop (S (length cluster)) cluster start.

Abbreviation AM := (SM bytes AmendError).

(** [write_be_u32(dst, ..)] and [write_be_u64(dst, ..)] on the first cluster of scratch,
    and a copy into it. *)
Definition aput (cs off : Z) (src : bytes) : AM unit :=
  let! scratch := sget in
  if cs <? off + blen src then slift Panic
  else
  let! scratch' := slift (or_panic (splice scratch off src)) in
  sput scratch'.

Definition DST_FIXED_LEN_V3 : Z := 104.
Definition DST_FIXED_LEN_V2 : Z := V2_HEADER_EXTENSION_OFFSET.
Definition AUTOCLEAR_FEATURES_OFFSET : Z := 88.

(** The end of the tail to relocate: the extension chain and the backing string. *)
Definition meaningful_end (src : bytes) (cluster_size src_ext_start backing_size backing_end : Z) : outcome AmendError Z :=
  let? ext_end := header_extension_area_end src src_ext_start in
  match ext_end with
  | Some e => let m := Z.max e backing_end in
              if cluster_size <? m then Err ExtensionRelocationUnsupported else Ok m
  | None => if backing_size =? 0 then Ok src_ext_start else Err ExtensionRelocationUnsupported
  end.

(** The v3 feature words; none exist on v2. *)
Definition write_features (cluster_size : Z) (header : QcowHeader) (target_version : Z) (target_lazy : bool) : AM unit :=
  if target_version =? 3 then
    do! aput cluster_size INCOMPATIBLE_FEATURES_OFFSET (be_bytes 8 0) in
    do! aput cluster_size COMPATIBLE_FEATURES_OFFSET (be_bytes 8 (if target_lazy then COMPAT_LAZY_REFCOUNTS else 0)) in
    do! aput cluster_size AUTOCLEAR_FEATURES_OFFSET (be_bytes 8 0) in
    do! aput cluster_size REFCOUNT_ORDER_OFFSET (be_bytes 4 (trailing_zeros (hdr_refcount_bits header))) in
    aput cluster_size HEADER_LENGTH_OFFSET (be_bytes 4 DST_FIXED_LEN_V3)
  else sret tt.

(** The target header, built in the first cluster of scratch. *)
Definition build_header (cluster_size : Z) (src : bytes) (header : QcowHeader) (target_version : Z) (target_lazy : bool)
    (src_ext_start mend dst_fixed_len : Z) : AM bytes :=
  do! aput cluster_size 0 (filled cluster_size 0) in
  let! fixed := slift (or_panic (slice src 0 72)) in
  do! aput cluster_size 0 fixed in
  do! aput cluster_size VERSION_OFFSET (be_bytes 4 target_version) in
  do! write_features cluster_size header target_version target_lazy in
  let! tail := slift (or_panic (slice src src_ext_start mend)) in
  do! aput cluster_size dst_fixed_len tail in
  do! (if 0 <? backing_file_size header then
         aput cluster_size BACKING_FILE_OFFSET_OFFSET (be_bytes 8 ((backing_file_offset header + (dst_fixed_len - src_ext_start)) mod 18446744073709551616))
       else sret tt) in
  let! scratch := sget in
  slift (or_panic (slice scratch 0 cluster_size)).

Definition rebuild_cross_version (opts : Qcow2AmendOpts) (header : QcowHeader) (target_version : Z) (target_lazy : bool)
  : AM AmendPlan :=
  let cluster_size := ao_cluster_size opts in
  let src := ao_header_cluster opts in
  let! src_ext_start := slift (if version header =? 2 then Ok V2_HEADER_EXTENSION_OFFSET
                               else be_u32 src HEADER_LENGTH_OFFSET) in
  if (cluster_size <? src_ext_start) || (src_ext_start <? 72) then sfail AmendParseFailed
  else
  let dst_fixed_len := if target_version =? 3 then DST_FIXED_LEN_V3 else DST_FIXED_LEN_V2 in
  let delta := dst_fixed_len - src_ext_start in
  let backing_off := backing_file_offset header in
  let backing_size := backing_file_size header in
  let! backing_end := slift (ok_or (checked_add backing_off backing_size) AmendOverflow) in
  let! mend := slift (meaningful_end src cluster_size src_ext_start backing_size backing_end) in
  if mend <? src_ext_start then sfail ExtensionRelocationUnsupported
  else
  let shifted_end := mend + delta in
  if (shifted_end <? 0) || (cluster_size <? shifted_end) then sfail ExtensionRelocationUnsupported
  else
  let! scratch := sget in
  if blen scratch <? cluster_size then sfail AmendScratchTooSmall
  else
  let! out := build_header cluster_size src header target_version target_lazy src_ext_start mend dst_fixed_len in
  slift (amend_push (amend_plan_new Amended target_version target_lazy) (AmendWrite 0 out)).

Definition plan_amend_qcow2 (opts : Qcow2AmendOpts) : AM AmendPlan :=
  let cluster_size := ao_cluster_size opts in
  if (cluster_size =? 0) || (blen (ao_header_cluster opts) <? cluster_size) then sfail AmendUnsupportedFormat
  else
  let! header := slift (map_err (fun _ => AmendParseFailed) (parse (ao_header_cluster opts))) in
  if hdr_dirty header || hdr_corrupt header then sfail AmendDirty
  else
  let target_version := if ao_set_compat opts then (if ao_target_v3 opts then 3 else 2) else version header in
  let target_lazy := if ao_set_lazy opts then ao_lazy_on opts else lazy_refcounts header in
  if ao_set_lazy opts && ao_lazy_on opts && (target_version =? 2) then sfail LazyRequiresV3
  else
  let downgrade := (version header =? 3) && (target_version =? 2) in
  if downgrade && negb (incompatible_features header =? 0) then sfail DowngradeBlockedFeature
  else if downgrade && negb (hdr_refcount_bits header =? 16) then sfail DowngradeRefcountWidth
  else
  let target_lazy := if downgrade then false else target_lazy in
  if (target_version =? version header) && Bool.eqb target_lazy (lazy_refcounts header) then
    sret (amend_plan_new AmendNoOp target_version target_lazy)
  else if target_version =? version header then
    let new_compat := if target_lazy then Z.lor (compatible_features header) COMPAT_LAZY_REFCOUNTS
                      else Z.land (compatible_features header) (not64 COMPAT_LAZY_REFCOUNTS) in
    let! scratch := sget in
    if blen scratch <? 8 then sfail AmendScratchTooSmall
    else
    do! aput (blen scratch) 0 (be_bytes 8 new_compat) in
    let! scratch := sget in
    let! out := slift (or_panic (slice scratch 0 8)) in
    slift (amend_push (amend_plan_new Amended target_version target_lazy) (AmendWrite COMPATIBLE_FEATURES_OFFSET out))
  else rebuild_cross_version opts header target_version target_lazy.

Lemma amend_push_one action v lazy p : amend_push (amend_plan_new action v lazy) p = Ok (mkAmendPlan action v lazy [p]).
Proof. done. Qed.

(** ** The extension walk *)

(** A chain of header extensions from [off], each with its length rounded up to 8
    bytes, inside the cluster and closed by an end record that ends at [e]. *)
Inductive ext_chain (cluster : bytes) : Z -> Z -> Prop :=
| chain_end off : off + 8 <= blen cluster -> u32_at cluster off = 0 -> ext_chain cluster off (off + 8)
| chain_next off e : off + 8 <= blen cluster -> u32_at cluster off <> 0 ->
    off + 8 + 8 * ((u32_at cluster (off + 4) + 7) / 8) <= blen cluster ->
    ext_chain cluster (off + 8 + 8 * ((u32_at cluster (off + 4) + 7) / 8)) e ->
    ext_chain cluster off e.

(** The end [m] of what a version change must move, from the extension area at
    [start] on: the extension chain and the backing file name; nothing when there
    is no well-formed chain and no name. *)
Definition tail_end (cluster : bytes) (start bsize bend m : Z) : Prop :=
  (exists e, ext_chain cluster start e /\ m = Z.max e bend) \/
  ((forall e, ~ ext_chain cluster start e) /\ bsize = 0 /\ m = start).

Lemma padded_len n : 0 <= n <= u32_max -> Z.land (wadd n 7) (not64 7) = 8 * ((n + 7) / 8).
Proof.
  intros Hn. unfold u32_max in Hn. rewrite wadd_small by (unfold u64_max; lia).
  change (not64 7) with (Z.ldiff (Z.ones 64) (Z.ones 3)).
  rewrite Z.ldiff_land, Z.land_assoc, Z.land_ones, Z.mod_small by lia.
  rewrite <- Z.ldiff_land, Z.ldiff_ones_r, Z.shiftl_mul_pow2, Z.shiftr_div_pow2 by lia.
  change (2 ^ 3) with 8. lia.
Qed.

Lemma ext_area_spec cluster fuel : forall off, slice_fits cluster -> 0 <= off <= blen cluster -> is_bytes cluster ->
  blen cluster - off < Z.of_nat fuel ->
  match ext_area_loop fuel cluster off with
  | Ok (Some e) => off + 8 <= e <= blen cluster /\ ext_chain cluster off e /\
      forall e', ext_chain cluster off e' -> e' = e
  | Ok None => forall e, ~ ext_chain cluster off e
  | _ => False
  end.
Proof.
  unfold slice_fits. induction fuel as [|fuel IH]; intros off Hfit Ho Hb Hf; [lia|]. cbn [ext_area_loop].
  rewrite checked_add_eq by (unfold u64_max; lia). destruct (Z.ltb_spec (blen cluster) (off + 8)).
  { intros e Hc. inversion Hc; lia. }
  rewrite !be_u32_at by lia. cbn [obind]. pose proof (u32_at_u32 cluster (off + 4) Hb) as Hl. unfold is_u32, u32_max in Hl.
  rewrite padded_len by (unfold u32_max; lia). set (p := 8 * _). assert (0 <= p) as Hp by (subst p; pose proof (Z.div_pos (u32_at cluster (off + 4) + 7) 8); lia).
  unfold EXT_END. destruct (Z.eqb_spec (u32_at cluster off) 0) as [H0|H0].
  { rewrite wadd_small by (unfold u64_max; lia). split; [lia|]. split; [by constructor|].
    intros e' Hc. inversion Hc; [done|congruence]. }
  cbn [mbind option_bind]. unfold checked_add. destruct (Z.leb_spec (off + 8 + p) u64_max).
  2:{ intros e Hc. inversion Hc; [congruence|]. fold p in H5. unfold u64_max in *. lia. }
  destruct (Z.ltb_spec (blen cluster) (off + 8 + p)).
  { intros e Hc. inversion Hc; [congruence|]. fold p in H6. lia. }
  specialize (IH (off + 8 + p) Hfit ltac:(lia) Hb ltac:(lia)).
  destruct (ext_area_loop fuel cluster (off + 8 + p)) as [[e|]| | |]; try done.
  - destruct IH as (Hr & Hc & Hu). split; [lia|]. split; [by apply chain_next|].
    intros e' Hc'. inversion Hc'; [congruence|]. by apply Hu.
  - intros e Hc. inversion Hc; [congruence|]. by apply (IH e).
Qed.

Lemma meaningful_end_spec src cs start bsize bend : slice_fits src -> is_bytes src -> 0 <= start <= blen src -> cs <= blen src -> start <= cs ->
  match meaningful_end src cs start bsize bend with
  | Ok m => start <= m <= cs /\ (bsize = 0 \/ bend <= m) /\ tail_end src start bsize bend m /\
      forall m', tail_end src start bsize bend m' -> m' = m
  | Err e => e = ExtensionRelocationUnsupported /\ forall m, tail_end src start bsize bend m -> cs < m
  | _ => False
  end.
Proof.
  intros Hf Hb Hs Hcs Hst. unfold meaningful_end, header_extension_area_end.
  pose proof (ext_area_spec src (S (length src)) start Hf Hs Hb ltac:(unfold blen; lia)) as He.
  destruct (ext_area_loop (S (length src)) src start) as [[e|]| | |]; try done; cbn [obind].
  - destruct He as (Hr & Hc & Hu).
    assert (forall m, tail_end src start bsize bend m -> m = Z.max e bend) as Hm.
    { intros m [(e' & Hc' & ->)|[Hno _]]; [by rewrite (Hu e' Hc')|by destruct (Hno e)]. }
    destruct (Z.ltb_spec cs (Z.max e bend)).
    + split; [done|]. intros m Ht. by rewrite (Hm m Ht).
    + split; [lia|]. split; [lia|]. split; [left; by exists e|done].
  - assert (forall m, tail_end src start bsize bend m -> bsize = 0 /\ m = start) as Hm.
    { intros m [(e' & Hc' & _)|[_ Hno]]; [by destruct (He e')|done]. }
    destruct (Z.eqb_spec bsize 0).
    + split; [lia|]. split; [lia|]. split; [by right|]. intros m Ht. by apply Hm.
    + split; [done|]. intros m Ht. by destruct (Hm m Ht).
Qed.

(** ** The rebuilt header *)

Lemma wp_aput cs off src scratch (Q : unit -> bytes -> Prop) (R : AmendError -> bytes -> Prop) :
  0 <= off -> off + blen src <= cs -> cs <= blen scratch ->
  (forall s', splice scratch off src = Some s' -> blen s' = blen scratch -> Q tt s') -> wp (aput cs off src) Q R scratch.
Proof.
  intros Ho Hl Hcs HQ. destruct (splice_of scratch off src Ho ltac:(lia)) as (s' & Hs & Hlen).
  unfold aput. wstep. wstep. destruct (Z.ltb_spec cs (off + blen src)); [lia|]. do 2 wstep. rewrite Hs. cbn [or_panic]. wstep. by apply HQ.
Qed.

(** What the rebuild leaves in the first [cs] bytes of scratch. *)
Record rebuilt (src : bytes) (h : QcowHeader) (cs target : Z) (lazy : bool) (start mend dfl : Z) (out : bytes) : Prop := {
  rb_bytes : is_bytes out;
  rb_len : blen out = cs;
  rb_fixed : forall a b, 0 <= a -> b <= 72 -> b <= 4 \/ 8 <= a -> b <= 8 \/ 16 <= a \/ backing_file_size h <= 0 -> slice out a b = slice src a b;
  rb_version : u32_at out 4 = target;
  rb_backing : 0 < backing_file_size h -> start <= backing_file_offset h -> u64_at out 8 = backing_file_offset h + (dfl - start);
  rb_tail : slice out dfl (dfl + (mend - start)) = slice src start mend;
  rb_v3 : target = 3 -> u64_at out 72 = 0 /\ u64_at out 80 = (if lazy then 1 else 0) /\
    u32_at out 96 = trailing_zeros (hdr_refcount_bits h) /\ u32_at out 100 = 104
}.

Lemma trailing_zeros_u32 x : is_u32 (trailing_zeros x).
Proof. unfold trailing_zeros. pose proof (trailing_spec false 32 0 x) as [? _]. unfold is_u32, u32_max. lia. Qed.

(** Step through one [aput], keeping its splice. *)
Ltac aput_step Hs Hl := apply wp_aput; [offs; lia | rewrite ?blen_be_bytes; offs; lia | lia |]; let s := fresh "s" in intros s Hs Hl.

(** Read a range back through splices that do not touch it. *)
Ltac thru H := rewrite (slice_splice_ne _ _ _ _ _ _ H) by (rewrite ?blen_be_bytes; offs; lia).

Lemma wp_write_features cs h target lazy s (Q : unit -> bytes -> Prop) R : 72 <= cs -> (target = 3 -> 104 <= cs) -> cs <= blen s ->
  (forall s', blen s' = blen s -> (is_bytes s -> is_bytes s') ->
    (forall a b, b <= 72 \/ 104 <= a -> slice s' a b = slice s a b) ->
    (target = 3 -> u64_at s' 72 = 0 /\ u64_at s' 80 = (if lazy : bool then 1 else 0) /\
       u32_at s' 96 = trailing_zeros (hdr_refcount_bits h) /\ u32_at s' 100 = 104) -> Q tt s') ->
  wp (write_features cs h target lazy) Q R s.
Proof.
  intros Hcs H3 Hl HQ. unfold write_features, AUTOCLEAR_FEATURES_OFFSET, DST_FIXED_LEN_V3. offs. destruct (Z.eqb_spec target 3) as [->|Hne]; [|wstep; apply HQ; [done..|]; intros ->; done].
  specialize (H3 eq_refl). wstep. aput_step Hs1 Hl1. wstep. aput_step Hs2 Hl2. wstep. aput_step Hs3 Hl3. wstep. aput_step Hs4 Hl4. 
  aput_step Hs5 Hl5. apply HQ; [lia | | |].
  - intros Hb. repeat (eapply splice_is_bytes; [|apply be_bytes_is_bytes|eassumption]). done.
  - intros a b Hab. by rewrite (slice_splice_ne _ _ _ _ _ _ Hs5), (slice_splice_ne _ _ _ _ _ _ Hs4), (slice_splice_ne _ _ _ _ _ _ Hs3),
      (slice_splice_ne _ _ _ _ _ _ Hs2), (slice_splice_ne _ _ _ _ _ _ Hs1) by (rewrite blen_be_bytes; lia).
  - intros _.
    assert (u64_at s0 72 = 0) as E1 by (eapply u64_at_put; [exact Hs1 | split; [done | vm_compute; discriminate]]).
    assert (u64_at s1 80 = (if lazy then 1 else 0)) as E2 by (eapply u64_at_put; [exact Hs2 | destruct lazy; split; vm_compute; discriminate]).
    assert (u32_at s3 96 = trailing_zeros (hdr_refcount_bits h)) as E4 by (eapply u32_at_put; [exact Hs4 | apply trailing_zeros_u32]).
    assert (u32_at s4 100 = 104) as E5 by (eapply u32_at_put; [exact Hs5 | split; vm_compute; discriminate]).
    split; [|split; [|split; [|done]]].
    + rewrite <- E1. apply u64_at_same. thru Hs5. thru Hs4. thru Hs3. by thru Hs2.
    + rewrite <- E2. apply u64_at_same. thru Hs5. thru Hs4. by thru Hs3.
    + rewrite <- E4. apply u32_at_same. by thru Hs5.
Qed.

(** The source header a rebuild starts from. *)
Record amend_src (opts : Qcow2AmendOpts) (h : QcowHeader) : Prop := {
  as_bytes : is_bytes (ao_header_cluster opts);
  as_fits : slice_fits (ao_header_cluster opts);
  as_cs : 0 < ao_cluster_size opts <= blen (ao_header_cluster opts);
  as_csu : ao_cluster_size opts <= u32_max;
  as_parse : parse (ao_header_cluster opts) = Ok h
}.

Lemma amend_src_header opts h : amend_src opts h ->
  h = header_at (ao_header_cluster opts) /\ header_valid h = true /\ 105 <= blen (ao_header_cluster opts) /\
  (version h = 2 \/ version h = 3) /\ is_u64 (backing_file_offset h) /\ is_u32 (backing_file_size h) /\
  header_length h = (if version h =? 2 then 72 else u32_at (ao_header_cluster opts) 100) /\ 0 <= header_length h.
Proof.
  intros [Hb _ _ _ Hp]. destruct (parse_Ok _ _ Hp) as (Hl & -> & Hv). split; [done|]. split; [done|]. split; [done|].
  assert (version (header_at (ao_header_cluster opts)) = 2 \/ version (header_at (ao_header_cluster opts)) = 3) as Hver.
  { unfold header_valid in Hv. apply andb_true_iff in Hv as [Hv _]. apply andb_true_iff in Hv as [Hv _]. apply andb_true_iff in Hv as [Hv _].
    apply orb_true_iff in Hv as [Hv|Hv]; apply Z.eqb_eq in Hv; auto. }
  split; [done|]. split; [by apply u64_at_u64|]. split; [by apply u32_at_u32|].
  pose proof (u32_at_u32 (ao_header_cluster opts) 100 Hb) as [? _].
  unfold header_at in *. cbn [version header_length] in *. offs.
  destruct Hver as [Hver|Hver]; rewrite Hver; cbn; lia.
Qed.

Lemma build_header_spec src h cs target lazy start mend dfl scratch :
  is_bytes src -> is_bytes scratch -> 72 <= blen src -> mend <= blen src -> 72 <= start <= mend -> 72 <= dfl -> (target = 3 -> dfl = 104) ->
  dfl + (mend - start) <= cs -> cs <= blen scratch -> cs <= u32_max -> is_u32 target ->
  is_u64 (backing_file_offset h) -> (0 < backing_file_size h -> backing_file_offset h <= mend) ->
  wp (build_header cs src h target lazy start mend dfl)
    (fun out _ => rebuilt src h cs target lazy start mend dfl out) (fun _ _ => False) scratch.
Proof.
  intros Hb Hsb Hl72 Hm Hst Hd72 Hd3 Hend Hcs Hcu Htgt Hbo Hbm. unfold build_header.
  wstep. apply wp_aput; [done | rewrite blen_filled; lia | lia |]. intros s1 Hs1 Hl1.
  destruct (slice_of src 0 72) as (fixed72 & Hf72 & Hfl); [lia | lia |]. wstep. wstep. rewrite Hf72. cbn [or_panic].
  wstep. apply wp_aput; [lia | lia | lia |]. intros s2 Hs2 Hl2.
  wstep. aput_step Hs3 Hl3. rename s into s3. wstep. apply wp_write_features; [lia | lia | lia |]. intros s4 Hl4 Hb4 Hsame4 Hv3.
  destruct (slice_of src start mend) as (tail & Htail & Htl); [lia | lia |]. wstep. wstep. rewrite Htail. cbn [or_panic].
  wstep. apply wp_aput; [lia | lia | lia |]. intros s5 Hs5 Hl5.
  assert (is_bytes s5) as Hb5.
  { apply (splice_is_bytes _ _ _ _ (Hb4 (splice_is_bytes _ _ _ _ (splice_is_bytes _ _ _ _ (splice_is_bytes _ _ _ _ Hsb
      (filled_is_bytes cs 0 ltac:(by split)) Hs1) (slice_is_bytes _ _ _ _ Hb Hf72) Hs2) (be_bytes_is_bytes 4 target) Hs3))
      (slice_is_bytes _ _ _ _ Hb Htail) Hs5). }
  assert (forall a b, 0 <= a -> b <= 72 -> b <= 4 \/ 8 <= a -> slice s5 a b = slice src a b) as Hfix.
  { intros a b Ha Hb' Hdis. thru Hs5. rewrite Hsame4 by lia. thru Hs3. pose proof (slice_splice_eq _ _ _ _ Hs2) as He2.
    rewrite Hfl in He2. change (0 + (72 - 0)) with 72 in He2.
    by rewrite (slice_of_prefix s2 72 fixed72), (slice_of_prefix src 72 fixed72). }
  assert (u32_at s5 4 = target) as Hver.
  { rewrite <- (u32_at_put _ _ _ _ Hs3 Htgt). apply u32_at_same. thru Hs5. by rewrite Hsame4 by (offs; lia). }
  assert (slice s5 dfl (dfl + (mend - start)) = slice src start mend) as Htl5
    by (rewrite Htail, <- Htl; exact (slice_splice_eq _ _ _ _ Hs5)).
  assert (target = 3 -> u64_at s5 72 = 0 /\ u64_at s5 80 = (if lazy then 1 else 0) /\
    u32_at s5 96 = trailing_zeros (hdr_refcount_bits h) /\ u32_at s5 100 = 104) as Hv5.
  { intros H3. destruct (Hv3 H3) as (<- & <- & <- & <-). specialize (Hd3 H3).
    split; [|split; [|split]]; [apply u64_at_same | apply u64_at_same | apply u32_at_same | apply u32_at_same]; by thru Hs5. }
  clear Hs1 Hs2 Hs3 Hs5 Hsame4 Hv3 Hb4.
  assert (forall s6, blen s6 = blen s5 -> is_bytes s6 ->
    (forall a b, b <= 8 \/ 16 <= a \/ backing_file_size h <= 0 -> slice s6 a b = slice s5 a b) ->
    (0 < backing_file_size h -> start <= backing_file_offset h -> u64_at s6 8 = backing_file_offset h + (dfl - start)) ->
    exists out, slice s6 0 cs = Some out /\ rebuilt src h cs target lazy start mend dfl out) as Hdone.
  { intros s6 Hl6 Hb6 Hs6 Hbk. destruct (slice_of s6 0 cs) as (out & Hout & Hol); [lia | lia |]. exists out. split; [done|].
    assert (forall a b, 0 <= a -> b <= cs -> slice out a b = slice s6 a b) as Ho by (intros a b Ha Hb'; by rewrite <- (slice_of_prefix s6 cs out)).
    split.
    - by eapply slice_is_bytes.
    - lia.
    - intros a b Ha Hb' Hd1 Hd2. rewrite Ho, Hs6 by lia. by apply Hfix.
    - rewrite <- Hver. apply u32_at_same. rewrite Ho, Hs6 by lia. done.
    - intros Hpos Hle. rewrite <- (Hbk Hpos Hle). apply u64_at_same. by rewrite Ho by lia.
    - rewrite Ho, Hs6 by lia. done.
    - intros H3. specialize (Hd3 H3). destruct (Hv5 H3) as (<- & <- & <- & <-).
      split; [|split; [|split]]; [apply u64_at_same | apply u64_at_same | apply u32_at_same | apply u32_at_same]; by rewrite Ho, Hs6 by lia. }
  wstep. destruct (Z.ltb_spec 0 (backing_file_size h)) as [Hpos|Hneg].
  - aput_step Hs6 Hl6. destruct (Hdone s) as (out & Hout & Hreb); [lia | by apply (splice_is_bytes _ _ _ _ Hb5 (be_bytes_is_bytes 8 _) Hs6) | | |].
    + intros a b Hab. thru Hs6. done.
    + intros _ Hle. unfold is_u64, u64_max in Hbo.
      assert (0 <= backing_file_offset h + (dfl - start) < 18446744073709551616) as Hr by (specialize (Hbm Hpos); unfold u32_max in Hcu; lia).
      rewrite Z.mod_small in Hs6 by lia. apply (u64_at_put _ _ _ _ Hs6). unfold is_u64, u64_max. lia.
    + do 3 wstep. by rewrite Hout.
  - wstep. destruct (Hdone s5) as (out & Hout & Hreb); [done | done | done | lia |]. do 3 wstep. by rewrite Hout.
Qed.

(** The version and the lazy setting a request asks for. *)
Definition wanted_version (opts : Qcow2AmendOpts) (h : QcowHeader) : Z :=
  if ao_set_compat opts then (if ao_target_v3 opts then 3 else 2) else version h.
Definition wanted_lazy (opts : Qcow2AmendOpts) (h : QcowHeader) : bool :=
  if (version h =? 3) && (wanted_version opts h =? 2) then false
  else if ao_set_lazy opts then ao_lazy_on opts else lazy_refcounts h.

(** The fixed header length the amended header will have. *)
Definition wanted_length (target : Z) : Z := if target =? 3 then 104 else 72.

(** What there is to move, and whether it fits behind the new fixed header. *)
Definition header_tail (opts : Qcow2AmendOpts) (h : QcowHeader) (m : Z) : Prop :=
  tail_end (ao_header_cluster opts) (header_length h) (backing_file_size h)
    (backing_file_offset h + backing_file_size h) m.
Definition tail_fits (opts : Qcow2AmendOpts) (h : QcowHeader) (target m : Z) : Prop :=
  m <= ao_cluster_size opts /\
  wanted_length target + (m - header_length h) <= ao_cluster_size opts.

(** The reasons to refuse. *)
Definition amend_refusal (opts : Qcow2AmendOpts) (h : QcowHeader) (scratch : bytes) (e : AmendError) : Prop :=
  let target := wanted_version opts h in
  let crossing := target <> version h in
  match e with
  | AmendDirty => hdr_dirty h || hdr_corrupt h = true
  | LazyRequiresV3 => ao_set_lazy opts = true /\ ao_lazy_on opts = true /\ target = 2
  | DowngradeBlockedFeature => version h = 3 /\ target = 2 /\ incompatible_features h <> 0
  | DowngradeRefcountWidth => version h = 3 /\ target = 2 /\ hdr_refcount_bits h <> 16
  | AmendScratchTooSmall =>
      crossing /\ blen scratch < ao_cluster_size opts \/
      ~ crossing /\ wanted_lazy opts h <> lazy_refcounts h /\ blen scratch < 8
  | AmendParseFailed => crossing /\ ~ 72 <= header_length h <= ao_cluster_size opts
  | AmendOverflow => crossing /\ u64_max < backing_file_offset h + backing_file_size h
  | ExtensionRelocationUnsupported =>
      crossing /\ forall m, header_tail opts h m -> ~ tail_fits opts h target m
  | AmendUnsupportedFormat | AmendInvalidOption => False
  end.

Lemma rebuild_spec opts h target lazy scratch : amend_src opts h -> is_bytes scratch -> target = 2 \/ target = 3 ->
  target = wanted_version opts h -> target <> version h ->
  wp (rebuild_cross_version opts h target lazy)
    (fun plan _ => exists mend dfl out, plan = mkAmendPlan Amended target lazy [AmendWrite 0 out] /\
       dfl = (if target =? 3 then 104 else 72) /\ 72 <= header_length h <= mend /\ mend <= ao_cluster_size opts /\
       dfl + (mend - header_length h) <= ao_cluster_size opts /\ header_tail opts h mend /\
       backing_file_offset h + backing_file_size h <= u64_max /\ ao_cluster_size opts <= blen scratch /\
       (0 < backing_file_size h -> backing_file_offset h + backing_file_size h <= mend) /\
       rebuilt (ao_header_cluster opts) h (ao_cluster_size opts) target lazy (header_length h) mend dfl out)
    (fun e _ => amend_refusal opts h scratch e) scratch.
Proof.
  intros Hsrc Hsb Htgt Hwant Hcross. destruct (amend_src_header _ _ Hsrc) as (Hh & _ & H105 & Hver & Hbo & Hbs & Hhl & Hhl0).
  destruct Hsrc as [Hb Hfit Hcs Hcsu _]. set (src := ao_header_cluster opts) in *. set (cs := ao_cluster_size opts) in *.
  unfold rebuild_cross_version. fold src cs. wstep. wstep.
  assert ((if version h =? 2 then Ok V2_HEADER_EXTENSION_OFFSET else be_u32 src HEADER_LENGTH_OFFSET) = Ok (E := AmendError) (header_length h)) as ->.
  { rewrite Hhl. destruct (version h =? 2); [done|]. by rewrite be_u32_at by (offs; lia). }
  assert (forall e, match e with
    | AmendParseFailed => ~ 72 <= header_length h <= cs
    | AmendOverflow => u64_max < backing_file_offset h + backing_file_size h
    | ExtensionRelocationUnsupported => forall m, header_tail opts h m -> ~ tail_fits opts h target m
    | AmendScratchTooSmall => blen scratch < cs
    | _ => False end -> amend_refusal opts h scratch e) as Href.
  { unfold amend_refusal. rewrite <- Hwant. by destruct e; auto. }
  unfold header_tail, tail_fits, wanted_length in *. fold src cs in Href |- *.
  set (start := header_length h) in *. clearbody start.
  destruct (Z.ltb_spec cs start); cbn [orb]; [wstep; apply Href; lia|].
  destruct (Z.ltb_spec start 72); [wstep; apply Href; lia|].
  set (dfl := if target =? 3 then DST_FIXED_LEN_V3 else DST_FIXED_LEN_V2).
  assert (dfl = if target =? 3 then 104 else 72) as Hdfl by done.
  assert (72 <= dfl /\ (target = 3 -> dfl = 104)) as [Hd72 Hd3] by (rewrite Hdfl; destruct (Z.eqb_spec target 3); lia).
  clearbody dfl. wstep. wstep.
  unfold checked_add. destruct (Z.leb_spec (backing_file_offset h + backing_file_size h) u64_max) as [Hbe|]; cbn [ok_or]; [|by apply Href].
  wstep. wstep. pose proof (meaningful_end_spec src cs start (backing_file_size h) (backing_file_offset h + backing_file_size h)
    Hfit Hb ltac:(lia) ltac:(lia) ltac:(lia)) as Hme.
  destruct (meaningful_end src cs start _ _) as [mend|e| |]; try done.
  2:{ destruct Hme as [-> Hme]. apply Href. intros m Ht [Hm1 _]. specialize (Hme m Ht). lia. }
  destruct Hme as (Hmr & Hmb & Hte & Htu).
  destruct (Z.ltb_spec mend start); [lia|]. destruct (Z.ltb_spec (mend + (dfl - start)) 0); cbn [orb]; [lia|].
  destruct (Z.ltb_spec cs (mend + (dfl - start))).
  { wstep. apply Href. intros m Ht [_ Hm2]. rewrite (Htu m Ht) in Hm2. rewrite <- Hdfl in Hm2. lia. }
  wstep. wstep. destruct (Z.ltb_spec (blen scratch) cs); [wstep; by apply Href|]. wstep. unfold is_u32 in Hbs.
  eapply wp_mono; [apply build_header_spec; try done; try lia | |done].
  - unfold is_u32, u32_max. lia.
  - intros out s' Hreb. wstep. rewrite amend_push_one. exists mend, dfl, out.
    split; [done|]. split; [done|]. split; [lia|]. split; [lia|]. split; [lia|]. do 3 (split; [done|]). split; [lia|done].
Qed.

(** ** The amended header *)

Definition patch_write (p : AmendPatch) : Z * bytes := match p with AmendWrite off src => (off, src) end.

(** Where the fixed header of an image ends: the declared length, at least 104 on v3. *)
Definition header_end (h : QcowHeader) : Z := if version h =? 2 then 72 else Z.max 104 (header_length h).

(** What an amended header promises about the one it replaces. *)
Record amended_header (file : bytes) (h : QcowHeader) (file' : bytes) (h' : QcowHeader) (plan : AmendPlan) : Prop := {
  ah_parse : parse file' = Ok h';
  ah_version : version h' = am_resulting_version plan;
  ah_lazy : lazy_refcounts h' = am_resulting_lazy plan;
  ah_same : same_image h h';
  ah_width : hdr_refcount_bits h' = hdr_refcount_bits h;
  ah_incompat : incompatible_features h' = incompatible_features h;
  ah_backing_size : backing_file_size h' = backing_file_size h;
  ah_backing : 0 < backing_file_size h -> header_end h <= backing_file_offset h ->
    slice file' (backing_file_offset h') (backing_file_offset h' + backing_file_size h') =
    slice file (backing_file_offset h) (backing_file_offset h + backing_file_size h)
}.

(** A header whose first 72 bytes are kept, but for the version and the backing pointer. *)
Lemma rebuilt_header opts h target lazy mend dfl out : amend_src opts h -> 
  let src := ao_header_cluster opts in
  let cs := ao_cluster_size opts in
  dfl = (if target =? 3 then 104 else 72) -> 72 <= header_length h <= mend -> mend <= cs -> dfl + (mend - header_length h) <= cs ->
  (0 < backing_file_size h -> backing_file_offset h + backing_file_size h <= mend) ->
  target = 2 \/ target = 3 -> incompatible_features h = 0 -> hdr_refcount_bits h = 16 -> (target = 2 -> lazy = false) ->
  rebuilt src h cs target lazy (header_length h) mend dfl out ->
  exists file', splice src 0 out = Some file' /\
    amended_header src h file' (header_at file') (mkAmendPlan Amended target lazy [AmendWrite 0 out]).
Proof.
  intros Hsrc src cs Hdfl Hst Hm Hend Hbm Htgt Hinc Hrb Hlz [Hob Hol Hfix Hver Hback Htail Hv3].
  destruct (amend_src_header _ _ Hsrc) as (Hh & Hvalid & H105 & _ & Hbo & Hbs & Hhl & _).
  destruct Hsrc as [Hb Hfit Hcs Hcsu _]. fold src in Hb, Hfit, Hcs, H105, Hh, Hhl. fold cs in Hcs, Hcsu.
  destruct (splice_of src 0 out) as (file' & Hf & Hfl); [lia | lia |]. exists file'. split; [done|].
  pose proof (slice_splice_eq _ _ _ _ Hf) as Hpre. rewrite Hol, Z.add_0_l in Hpre.
  assert (forall a b, 0 <= a -> b <= cs -> slice file' a b = slice out a b) as Hfo by (intros a b Ha Hb'; by apply slice_of_prefix with cs).
  assert (72 <= dfl) as Hd72 by (rewrite Hdfl; destruct (target =? 3); lia).
  assert (u32_at file' 4 = target) as Hfv by (rewrite <- Hver; apply u32_at_same, Hfo; lia).
  assert (same_image h (header_at file')) as Hsame.
  { rewrite Hh. apply same_image_fields. intros a b Ha Hb'. rewrite Hfo by lia. apply Hfix; lia. }
  assert (backing_file_size (header_at file') = backing_file_size h) as Hbsz.
  { rewrite Hh. cbn [header_at backing_file_size]. offs.
    apply u32_at_same. rewrite Hfo by lia. apply Hfix; lia. }
  assert (incompatible_features (header_at file') = 0 /\ compatible_features (header_at file') = (if lazy then 1 else 0) /\
    hdr_refcount_bits (header_at file') = 16) as (Hi & Hc & Hw).
  { cbn [header_at incompatible_features compatible_features hdr_refcount_bits]. offs. rewrite Hfv. destruct Htgt as [->| ->].
    - by rewrite Hlz.
    - destruct (Hv3 eq_refl) as (E1 & E2 & E3 & _). change (dfl = 104) in Hdfl. change (3 <=? 3) with true. cbv iota.
      assert (u64_at file' 72 = 0) as -> by (rewrite <- E1; apply u64_at_same, Hfo; lia).
      assert (u64_at file' 80 = (if lazy then 1 else 0)) as -> by (rewrite <- E2; apply u64_at_same, Hfo; lia).
      assert (u32_at file' 96 = 4) as -> by (rewrite Hrb in E3; change (trailing_zeros 16) with 4 in E3; rewrite <- E3; apply u32_at_same, Hfo; lia). done. }
  split; try done.
  - rewrite parse_header_at by lia. rewrite (same_image_valid h); [done | done | | | done].
    + change (extended_l2 (header_at file')) with (nonzero (Z.land (incompatible_features (header_at file')) INCOMPAT_EXTENDED_L2)).
      rewrite Hi, Hh. change (extended_l2 (header_at src)) with (nonzero (Z.land (incompatible_features (header_at src)) INCOMPAT_EXTENDED_L2)).
      rewrite <- Hh, Hinc. done.
    + change (version (header_at file')) with (u32_at file' 4). by rewrite Hfv.
  - change (lazy_refcounts (header_at file')) with (nonzero (Z.land (compatible_features (header_at file')) COMPAT_LAZY_REFCOUNTS)).
    rewrite Hc. by destruct lazy.
  - by rewrite Hw.
  - by rewrite Hi.
  - intros Hpos Hle0. rewrite Hbsz. specialize (Hbm Hpos). unfold is_u32 in Hbs.
    assert (header_length h <= backing_file_offset h) as Hle.
    { unfold header_end in Hle0. destruct (Z.eqb_spec (version h) 2) as [E|]; [|lia]. rewrite Hhl in *. lia. }
    assert (backing_file_offset (header_at file') = backing_file_offset h + (dfl - header_length h)) as ->.
    { rewrite <- (Hback Hpos Hle). cbn [header_at backing_file_offset]. offs. apply u64_at_same, Hfo; lia. }
    rewrite Hfo by lia.
    destruct (slice_of src (header_length h) mend) as (tail & Ht & _); [lia | lia |]. rewrite Ht in Htail.
    pose proof (slice_slice out dfl (dfl + (mend - header_length h)) tail (backing_file_offset h - header_length h)
      (backing_file_offset h + backing_file_size h - header_length h) Htail ltac:(lia) ltac:(lia)) as E1.
    pose proof (slice_slice src (header_length h) mend tail (backing_file_offset h - header_length h)
      (backing_file_offset h + backing_file_size h - header_length h) Ht ltac:(lia) ltac:(lia)) as E2.
    rewrite E1 in E2. fold src.
    replace (backing_file_offset h + (dfl - header_length h)) with (dfl + (backing_file_offset h - header_length h)) by lia.
    replace (dfl + (backing_file_offset h - header_length h) + backing_file_size h) with (dfl + (backing_file_offset h + backing_file_size h - header_length h)) by lia.
    rewrite E2. f_equal; lia.
Qed.

(** The lazy bit of the two new compatible words. *)
Lemma lazy_word c (lazy : bool) : is_u64 c ->
  let w := if lazy then Z.lor c COMPAT_LAZY_REFCOUNTS else Z.land c (not64 COMPAT_LAZY_REFCOUNTS) in
  is_u64 w /\ nonzero (Z.land w COMPAT_LAZY_REFCOUNTS) = lazy.
Proof.
  intros Hc. unfold is_u64, u64_max, COMPAT_LAZY_REFCOUNTS, nonzero in *. cbv zeta. destruct lazy.
  - pose proof (Z.add_lor_land c 1) as Hadd. change (Z.land c 1) with (Z.land c (Z.ones 1)) in Hadd. rewrite Z.land_ones in Hadd by lia.
    change (2 ^ 1) with 2 in Hadd. pose proof (Z.div_mod c 2 ltac:(lia)). pose proof (Z.mod_pos_bound c 2 ltac:(lia)).
    split; [lia|]. rewrite Z.land_comm, Z.land_lor_distr_r.
    change (Z.land 1 1) with 1. destruct (Z.eqb_spec (Z.lor (Z.land 1 c) 1) 0) as [E|]; [|done].
    apply Z.lor_eq_0_iff in E. lia.
  - assert (Z.land c (not64 1) = c / 2 * 2) as ->.
    { change (not64 1) with (Z.ldiff (Z.ones 64) (Z.ones 1)). rewrite Z.ldiff_land, Z.land_assoc, Z.land_ones, Z.mod_small by lia.
      by rewrite <- Z.ldiff_land, Z.ldiff_ones_r, Z.shiftl_mul_pow2, Z.shiftr_div_pow2 by lia. }
    pose proof (Z.div_mod c 2 ltac:(lia)). pose proof (Z.mod_pos_bound c 2 ltac:(lia)). split; [lia|].
    change 1 with (Z.ones 1). rewrite Z.land_ones by lia. change (2 ^ 1) with 2. by rewrite Z.mod_mul by lia.
Qed.

Lemma toggled_header opts h target (lazy : bool) w : amend_src opts h -> version h = target -> target = 3 ->
  w = (if lazy then Z.lor (compatible_features h) COMPAT_LAZY_REFCOUNTS
       else Z.land (compatible_features h) (not64 COMPAT_LAZY_REFCOUNTS)) ->
  let src := ao_header_cluster opts in
  exists file', splice src COMPATIBLE_FEATURES_OFFSET (be_bytes 8 w) = Some file' /\ blen file' = blen src /\
    amended_header src h file' (header_at file') (mkAmendPlan Amended target lazy [AmendWrite COMPATIBLE_FEATURES_OFFSET (be_bytes 8 w)]).
Proof.
  intros Hsrc Hver Ht Hw src. destruct (amend_src_header _ _ Hsrc) as (Hh & Hvalid & H105 & _ & Hbo & Hbs & Hhl & _).
  destruct Hsrc as [Hb _ _ _ _]. fold src in Hb, H105, Hh, Hhl.
  assert (is_u64 (compatible_features h)) as Hcu.
  { rewrite Hh. cbn [header_at compatible_features]. destruct (3 <=? _); [by apply u64_at_u64|]. split; vm_compute; discriminate. }
  destruct (lazy_word (compatible_features h) lazy Hcu) as [Hwu Hwl]. rewrite <- Hw in Hwu, Hwl.
  destruct (splice_of src COMPATIBLE_FEATURES_OFFSET (be_bytes 8 w)) as (file' & Hf & Hfl);
    [offs; lia | rewrite blen_be_bytes; offs; lia |]. exists file'. split; [done|]. split; [done|].
  assert (forall a b, b <= 80 \/ 88 <= a -> slice file' a b = slice src a b) as Hs by (intros a b Hab; by thru Hf).
  assert (forall o, o <= 76 \/ 88 <= o -> u32_at file' o = u32_at src o) as H4 by (intros o Ho; apply u32_at_same, Hs; lia).
  assert (forall o, o <= 72 -> u64_at file' o = u64_at src o) as H8 by (intros o Ho; apply u64_at_same, Hs; lia).
  pose proof (u64_at_put _ _ _ _ Hf Hwu) as Hcf.
  assert (u32_at src 4 = 3) as Hv3 by (rewrite Hh in Hver; cbn [header_at version] in Hver; offs; congruence).
  assert (header_length (header_at file') = header_length h) as Hlen.
  { rewrite Hh. cbn [header_at header_length]. offs. by rewrite !H4 by lia. }
  assert (incompatible_features (header_at file') = incompatible_features h) as Hi.
  { rewrite Hh. cbn [header_at incompatible_features]. offs. by rewrite H4, H8 by lia. }
  assert (backing_file_size (header_at file') = backing_file_size h /\ backing_file_offset (header_at file') = backing_file_offset h) as [Hz Ho].
  { rewrite Hh. cbn [header_at backing_file_size backing_file_offset]. offs. by rewrite H4, H8 by lia. }
  assert (same_image h (header_at file')) as Hsame by (rewrite Hh; apply same_image_fields; intros a b Ha Hb'; apply Hs; lia).
  split; try done.
  - rewrite parse_header_at by lia. rewrite (same_image_valid h); [done | done | | | done].
    + change (extended_l2 (header_at file')) with (nonzero (Z.land (incompatible_features (header_at file')) INCOMPAT_EXTENDED_L2)).
      rewrite Hi, Hh. done.
    + right. cbn [header_at version]. offs. by rewrite H4 by lia.
  - cbn [header_at version am_resulting_version]. offs. rewrite H4 by lia. congruence.
  - cbn [header_at lazy_refcounts am_resulting_lazy]. offs. rewrite H4, Hv3, Hcf by lia. done.
  - rewrite Hh. cbn [header_at hdr_refcount_bits]. offs. by rewrite !H4 by lia.
  - intros Hpos Hle. rewrite Ho, Hz. apply Hs. unfold header_end in Hle. rewrite Hver in Hle.
    destruct (Z.eqb_spec target 2); lia.
Qed.

(** What applying a plan achieves. *)
Definition amend_result (opts : Qcow2AmendOpts) (h : QcowHeader) (scratch : bytes) (plan : AmendPlan) : Prop :=
  (forall e, ~ amend_refusal opts h scratch e) /\
  am_resulting_version plan = wanted_version opts h /\ am_resulting_lazy plan = wanted_lazy opts h /\
  exists file', apply_writes (ao_header_cluster opts) (map patch_write (am_patches plan)) = Some file' /\
    blen file' = blen (ao_header_cluster opts) /\
    (forall a b, Z.max 88 (ao_cluster_size opts) <= a -> slice file' a b = slice (ao_header_cluster opts) a b) /\
    amended_header (ao_header_cluster opts) h file' (header_at file') plan /\
    (wanted_version opts h <> version h -> exists m, header_tail opts h m /\
       let n := wanted_length (wanted_version opts h) in
       slice file' n (n + (m - header_length h)) =
       slice (ao_header_cluster opts) (header_length h) m) /\
    (am_patches plan = [] <-> am_action plan = AmendNoOp) /\
    (am_action plan = AmendNoOp <->
       wanted_version opts h = version h /\ wanted_lazy opts h = lazy_refcounts h).

Lemma v2_header b : version (header_at b) = 2 ->
  lazy_refcounts (header_at b) = false /\ incompatible_features (header_at b) = 0 /\ hdr_refcount_bits (header_at b) = 16.
Proof. cbn [header_at version lazy_refcounts incompatible_features hdr_refcount_bits]. intros ->. done. Qed.

(** Nothing to do: the header stays as it is. *)
Lemma unchanged_header opts h : amend_src opts h ->
  amended_header (ao_header_cluster opts) h (ao_header_cluster opts) (header_at (ao_header_cluster opts))
    (amend_plan_new AmendNoOp (version h) (lazy_refcounts h)).
Proof.
  intros Hsrc. destruct (amend_src_header _ _ Hsrc) as (Hh & Hvalid & _). destruct Hsrc as [_ _ _ _ Hp].
  rewrite <- Hh. by split.
Qed.

(** The checks before the header is touched. *)
Record admitted (opts : Qcow2AmendOpts) (h : QcowHeader) : Prop := {
  ad_clean : hdr_dirty h || hdr_corrupt h = false;
  ad_lazy : ~ (ao_set_lazy opts = true /\ ao_lazy_on opts = true /\ wanted_version opts h = 2);
  ad_down : version h = 3 -> wanted_version opts h = 2 ->
    incompatible_features h = 0 /\ hdr_refcount_bits h = 16
}.

(** Nothing to do: no reason to refuse, and the header stays as it is. *)
Lemma unchanged_result opts h scratch : amend_src opts h -> admitted opts h ->
  wanted_version opts h = version h -> wanted_lazy opts h = lazy_refcounts h ->
  amend_result opts h scratch (amend_plan_new AmendNoOp (wanted_version opts h) (wanted_lazy opts h)).
Proof.
  intros Hsrc [Had1 Had2 Had3] Hv Hl. pose proof (amend_src_header _ _ Hsrc) as (_ & _ & _ & Hver & _).
  split; [|split; [done|split; [done|]]].
  { intros e He. unfold amend_refusal in He. rewrite Hv in *.
    destruct e; [done|done|..].
    - destruct He as (E1 & E2 & _). lia.
    - destruct He as (E1 & E2 & _). lia.
    - by apply Had2.
    - destruct He as [He _]. by apply He.
    - congruence.
    - destruct He as [He _]. by apply He.
    - destruct He as [[He _]|(_ & He & _)]; [by apply He|done].
    - destruct He as [He _]. by apply He. }
  exists (ao_header_cluster opts). cbn [am_patches amend_plan_new]. do 3 (split; [done|]).
  split; [rewrite Hv, Hl; by apply unchanged_header|]. split; [done|]. split; [done|]. done.
Qed.

Lemma cross_version_result opts h target lazy scratch : amend_src opts h -> is_bytes scratch ->
  target = 2 \/ target = 3 -> incompatible_features h = 0 -> hdr_refcount_bits h = 16 -> (target = 2 -> lazy = false) ->
  admitted opts h -> target = wanted_version opts h -> lazy = wanted_lazy opts h -> target <> version h ->
  wp (rebuild_cross_version opts h target lazy) (fun plan _ => amend_result opts h scratch plan) (fun e _ => amend_refusal opts h scratch e) scratch.
Proof.
  intros Hsrc Hsb Htgt Hi Hw Hlz [Had1 Had2 Had3] Hwv Hwl Hcross. eapply wp_mono; [by apply rebuild_spec | |done].
  intros plan _ (mend & dfl & out & -> & Hdfl & Hst & Hm & Hend & Htail & Hbe & Hscr & Hbm & Hreb).
  destruct (rebuilt_header opts h target lazy mend dfl out) as (file' & Hf & Ha); try done.
  split; [|split; [done|split; [done|]]].
  { intros e He. unfold amend_refusal in He. rewrite <- Hwv in *. destruct e; [done|done|..].
    - destruct He as (Hv & Ht & Hx). destruct (Had3 Hv Ht). done.
    - destruct He as (Hv & Ht & Hx). destruct (Had3 Hv Ht). done.
    - by apply Had2.
    - destruct He as [_ He]. lia.
    - congruence.
    - destruct He as [_ He]. apply (He mend Htail). unfold tail_fits, wanted_length. rewrite <- Hdfl. lia.
    - destruct He as [[_ He]|[He _]]; [lia|]. by apply He.
    - lia. }
  exists file'. cbn [am_patches map patch_write apply_writes am_resulting_version am_resulting_lazy am_action]. rewrite Hf.
  split; [done|]. split; [by apply splice_blen in Hf|]. split; [|split; [done|split; [|split; [done|]]]].
  - intros a b Hab. destruct Hreb as [_ Hol _ _ _ _ _]. apply (slice_splice_ne _ _ _ _ _ _ Hf). lia.
  - intros _. exists mend. split; [done|]. cbv zeta. rewrite <- Hwv. unfold wanted_length. rewrite <- Hdfl.
    destruct Hreb as [_ Hol _ _ _ Ht _]. rewrite <- Ht. pose proof (slice_splice_eq _ _ _ _ Hf) as Hpre.
    rewrite Hol, Z.add_0_l in Hpre. apply slice_of_prefix with (ao_cluster_size opts); try done.
    + rewrite Hdfl. destruct (target =? 3); lia.
  - rewrite <- Hwv. split; [done|]. intros [? _]. done.
Qed.

Lemma toggle_result opts h target lazy scratch : amend_src opts h -> version h = 3 -> target = version h ->
  admitted opts h -> target = wanted_version opts h -> lazy = wanted_lazy opts h -> lazy <> lazy_refcounts h ->
  let new_compat := if lazy : bool then Z.lor (compatible_features h) COMPAT_LAZY_REFCOUNTS
                    else Z.land (compatible_features h) (not64 COMPAT_LAZY_REFCOUNTS) in
  wp (let! scratch := sget in
      if blen scratch <? 8 then sfail AmendScratchTooSmall
      else
      do! aput (blen scratch) 0 (be_bytes 8 new_compat) in
      let! scratch := sget in
      let! out := slift (or_panic (slice scratch 0 8)) in
      slift (amend_push (amend_plan_new Amended target lazy) (AmendWrite COMPATIBLE_FEATURES_OFFSET out)))
    (fun plan _ => amend_result opts h scratch plan) (fun e _ => amend_refusal opts h scratch e) scratch.
Proof.
  intros Hsrc Hv3 Heq [Had1 Had2 Had3] Hwv Hwl Hne new_compat. do 2 wstep. destruct (Z.ltb_spec (blen scratch) 8).
  { wstep. right. split; [congruence|]. split; [congruence|done]. }
  wstep. apply wp_aput; [lia | rewrite blen_be_bytes; lia | lia |]. intros s1 Hs1 Hl1. wstep. wstep.
  pose proof (slice_splice_eq _ _ _ _ Hs1) as Hsl. rewrite blen_be_bytes in Hsl. wstep. wstep.
  change (slice s1 0 8) with (slice s1 0 (0 + Z.of_nat 8)). rewrite Hsl. cbn [or_panic]. wstep. rewrite amend_push_one.
  destruct (toggled_header opts h target lazy new_compat) as (file' & Hf & Hfl & Ha); [done | done | lia | reflexivity |].
  split; [|split; [done|split; [done|]]].
  { intros e He. unfold amend_refusal in He. rewrite <- Hwv in *.
    destruct e; [done|done|..].
    - destruct He as (_ & Ht & _). lia.
    - destruct He as (_ & Ht & _). lia.
    - by apply Had2.
    - destruct He as [He _]. by apply He.
    - congruence.
    - destruct He as [He _]. by apply He.
    - destruct He as [[He _]|He]; [by apply He|lia].
    - destruct He as [He _]. by apply He. }
  exists file'. cbn [am_patches map patch_write apply_writes]. rewrite Hf.
  split; [done|]. split; [done|]. split; [|split; [done|split; [|split; [done|]]]].
  - intros a b Hab. thru Hf. done.
  - intros Hx. rewrite <- Hwv in Hx. done.
  - split; [done|]. intros [_ Hx]. rewrite <- Hwl in Hx. done.
Qed.

(** C27: on any header that parses, with any request and any scratch buffer, the amend
    planner returns: a plan exactly when none of the reasons to refuse holds, else an
    error whose reason holds (dirty or corrupt; lazy refcounts asked of version 2; a
    downgrade of an image with incompatible features or another refcount width; for
    a version change, a declared header length outside the cluster, a backing name
    past 2^64, an extension area and name that do not fit behind the new fixed
    header, or too little scratch).  A plan, applied to the image, touches only the
    header cluster and gives a header that parses: the requested version and lazy
    setting, the same geometry, refcount width, incompatible features and tables, a
    backing file name that reads as before when it lies behind the fixed header, and,
    on a version change, the extension area copied behind the new fixed header.  It does
    nothing iff version and lazy setting are already as asked.  (The compression type is not among the fields
    kept: [amend_upgrade_garbles_compression_type].) *)
Theorem amend_reparses opts h scratch : amend_src opts h -> is_bytes scratch ->
  match plan_amend_qcow2 opts scratch with
  | (Ok plan, _) => amend_result opts h scratch plan
  | (Err e, _) => amend_refusal opts h scratch e
  | _ => False
  end.
Proof.
  intros Hsrc Hsb. destruct (amend_src_header _ _ Hsrc) as (Hh & Hvalid & H105 & Hver & _).
  enough (wp (plan_amend_qcow2 opts) (fun plan _ => amend_result opts h scratch plan) (fun e _ => amend_refusal opts h scratch e) scratch) as Hwp.
  { unfold wp in Hwp. by destruct (plan_amend_qcow2 opts scratch) as [[| | |] ?]. }
  pose proof Hsrc as [Hb Hfit Hcs Hcsu Hp]. unfold plan_amend_qcow2.
  destruct (Z.eqb_spec (ao_cluster_size opts) 0); [lia|]. destruct (Z.ltb_spec (blen (ao_header_cluster opts)) (ao_cluster_size opts)); [lia|].
  cbn [orb]. wstep. wstep. rewrite Hp. cbn [map_err].
  destruct (hdr_dirty h || hdr_corrupt h) eqn:Hd; [by wstep|].
  fold (wanted_version opts h). set (lazy0 := if ao_set_lazy opts then _ else _).
  assert (wanted_version opts h = 2 \/ wanted_version opts h = 3) as Htgt
    by (unfold wanted_version; destruct (ao_set_compat opts), (ao_target_v3 opts); auto).
  assert (wanted_lazy opts h = if (version h =? 3) && (wanted_version opts h =? 2) then false else lazy0) as Hwl by done.
  assert (ao_set_lazy opts = true -> lazy0 = ao_lazy_on opts) as Hlz by (subst lazy0; by intros ->).
  assert (ao_set_lazy opts = false -> lazy0 = lazy_refcounts h) as Hlz0 by (subst lazy0; by intros ->).
  set (target := wanted_version opts h) in *. clearbody lazy0.
  destruct (ao_set_lazy opts && ao_lazy_on opts && (target =? 2)) eqn:Hlv.
  { wstep. bool_to_prop. done. }
  assert (~ (ao_set_lazy opts = true /\ ao_lazy_on opts = true /\ target = 2)) as Hnol.
  { intros (E1 & E2 & E3). by rewrite E1, E2, E3 in Hlv. }
  assert (target = 2 -> ao_set_lazy opts = true -> ao_lazy_on opts = false) as Hno.
  { intros E1 E2. destruct (ao_lazy_on opts); [|done]. by destruct Hnol. }
  assert (version h = 2 -> lazy_refcounts h = false /\ incompatible_features h = 0 /\ hdr_refcount_bits h = 16) as Hv2
    by (rewrite Hh; apply v2_header).
  assert (target = 2 -> version h <> 3 -> lazy0 = lazy_refcounts h) as Hsame2.
  { intros Ht Hv. destruct (ao_set_lazy opts) eqn:E; [|by apply Hlz0]. rewrite Hlz, Hno by done. symmetry. apply Hv2. lia. }
  destruct ((version h =? 3) && (target =? 2)) eqn:Hdown; cbn [andb].
  { apply andb_true_iff in Hdown as [Hv3%Z.eqb_eq Ht2%Z.eqb_eq].
    destruct (Z.eqb_spec (incompatible_features h) 0); cbn [negb]; [|by wstep].
    destruct (Z.eqb_spec (hdr_refcount_bits h) 16); cbn [negb]; [|by wstep].
    destruct (Z.eqb_spec target (version h)); [lia|]. cbn [andb].
    by apply cross_version_result. }
  assert (admitted opts h) as Had.
  { split; [done|done|]. intros E1 E2. fold target in E2. by rewrite E1, E2 in Hdown. }
  destruct (Z.eqb_spec target (version h)) as [Heq|Hne]; cbn [andb].
  - destruct (Bool.eqb lazy0 (lazy_refcounts h)) eqn:Hl.
    + apply Bool.eqb_prop in Hl. wstep. rewrite <- Hwl. apply unchanged_result; try done. congruence.
    + assert (version h = 3) as Hv3.
      { destruct (decide (version h = 3)) as [|Hn]; [done|]. exfalso. rewrite Hsame2, Bool.eqb_reflx in Hl by lia. done. }
      apply toggle_result; try done. intros E. by rewrite E, Bool.eqb_reflx in Hl.
  - assert (version h = 2) as E by (destruct Hver as [|E]; [done|]; destruct Htgt as [Ht|Ht]; rewrite Ht in *; [by rewrite E in Hdown|lia]).
    destruct (Hv2 E) as (_ & ? & ?). apply cross_version_result; try done. lia.
Qed.

(** ** Witnesses *)

(** A v2 image of 512-byte clusters with a backing-format extension ([0xE2792ACA], [qcow2])
    and the backing file name [base] behind the extensions. *)
Definition v2_cluster : bytes :=
  be_bytes 4 0x514649fb ++ be_bytes 4 2 ++ be_bytes 8 96 ++ be_bytes 4 4 ++ be_bytes 4 9 ++
  be_bytes 8 65536 ++ be_bytes 4 0 ++ be_bytes 4 2 ++ be_bytes 8 1536 ++
  be_bytes 8 512 ++ be_bytes 4 1 ++ be_bytes 4 0 ++ be_bytes 8 0 ++
  be_bytes 4 0xE2792ACA ++ be_bytes 4 5 ++ [113; 99; 111; 119; 50; 0; 0; 0] ++ be_bytes 8 0 ++ [98; 97; 115; 101] ++ filled 412 0.

Definition upgrade_opts : Qcow2AmendOpts := mkQcow2AmendOpts v2_cluster 512 true true false false.

Lemma upgrade_src : exists h, amend_src upgrade_opts h /\ version h = 2 /\ compression_type h = 0 /\ backing_file_size h = 4.
Proof.
  eexists. split; [split; [apply is_bytesb_true; vm_compute; reflexivity | vm_compute; discriminate | split; [done | vm_compute; discriminate] |
    vm_compute; discriminate | vm_compute; reflexivity]|]. done.
Qed.

Lemma amend_reparses_witness : exists h plan s, amend_src upgrade_opts h /\
  plan_amend_qcow2 upgrade_opts (filled 512 0) = (Ok plan, s) /\ amend_result upgrade_opts h (filled 512 0) plan /\ am_resulting_version plan = 3.
Proof.
  destruct upgrade_src as (h & Hsrc & _).
  pose proof (amend_reparses upgrade_opts h (filled 512 0) Hsrc (filled_is_bytes 512 0 ltac:(by split))) as Hr.
  assert (exists plan s, plan_amend_qcow2 upgrade_opts (filled 512 0) = (Ok plan, s)) as (plan & s & E)
    by (do 2 eexists; vm_compute; reflexivity).
  rewrite E in Hr. exists h, plan, s. split; [exact Hsrc|]. split; [exact E|]. split; [exact Hr|].
  destruct Hr as (_ & Hv & _). exact Hv.
Defined.

(** Upgrading a v2 image whose header carries an extension writes a 104-byte fixed
    header, so the extension's first byte lands where [QcowHeader::parse] reads the
    compression type whatever the header length: the amended image parses with
    compression type 226 (the type of no compressor) although it was 0 and the
    compression feature bit stays clear. *)
Theorem amend_upgrade_garbles_compression_type :
  exists h plan s file' h',
    parse v2_cluster = Ok h /\ compression_type h = 0 /\
    plan_amend_qcow2 upgrade_opts (filled 512 0) = (Ok plan, s) /\
    apply_writes v2_cluster (map patch_write (am_patches plan)) = Some file' /\ parse file' = Ok h' /\
    version h' = 3 /\ header_length h' = 104 /\ compression_type h' = 226 /\
    Z.land (incompatible_features h') INCOMPAT_COMPRESSION = 0.
Proof.
  do 5 eexists. split; [vm_compute; reflexivity|]. split; [reflexivity|]. split; [vm_compute; reflexivity|].
  split; [vm_compute; reflexivity|]. split; [vm_compute; reflexivity|]. repeat split.
Qed.
