(* ===== verification/Rebase.v ===== *)
(** The qcow2 rebase planner ([src/src/crates/rebase/src/qcow2.rs], types of
    [src/src/crates/rebase/src/lib.rs]): validation of the overlay, where the new
    backing name goes, and the two patches that put it there.

    The scratch buffer is the state; a patch that borrows from it is a copy of its
    bytes.  The inline patch array with its count is the list of its valid entries. *)

From stdpp Require Import base numbers list sets option.
From Stdlib Require Import ZArith Lia.
From S2P Require Import Prelude Bytes Refcount Qcow2 SnapshotWalk ExecBytes Header.

(** ** Definitions *)

Inductive RebaseError : Type :=
| RebaseUnsupportedFormat
| UnsupportedSubformat
| NewBackingIncompatible
| ExternalDataFile
| LuksUnsupported
| ChainDepth
| RebaseHeaderMismatch
| BackingPathTooLong
| RebaseScratchTooSmall
| OverlayCorrupt
| RebaseRefcountExhausted
| DescriptorTooLarge
| RebaseOverflow
| RebaseParseFailed.

#[global] Instance RebaseError_eq_dec : EqDecision RebaseError.
Proof. solve_decision. Defined.

Inductive RebaseMode : Type := RebaseUnsafe | RebaseSafe.

#[global] Instance RebaseMode_eq_dec : EqDecision RebaseMode.
Proof. solve_decision. Defined.

Inductive RebasePatch : Type :=
| RebaseWrite (byte_offset : Z) (src : bytes)
| RebaseAppend (byte_offset : Z) (src : bytes).

Definition MAX_REBASE_PATCHES : Z := 16.

Record RebasePlan : Type := mkRebasePlan { rp_total_file_size : Z; rp_patches : list RebasePatch }.

Definition rebase_plan_new (total_file_size : Z) : RebasePlan := mkRebasePlan total_file_size [].

(** Every patch passes through here: none reaches past the end of the file. *)
Definition rebase_push (plan : RebasePlan) (patch : RebasePatch) : outcome RebaseError RebasePlan :=
  if MAX_REBASE_PATCHES <=? Z.of_nat (length (rp_patches plan)) then Err RebaseScratchTooSmall
  else
  let '(byte_offset, len) := match patch with RebaseWrite o s | RebaseAppend o s => (o, blen s) end in
  let? fin := ok_or (checked_add byte_offset len) RebaseOverflow in
  if rp_total_file_size plan <? fin then Err RebaseOverflow
  else Ok (mkRebasePlan (rp_total_file_size plan) (rp_patches plan ++ [patch])).

Definition MAX_BACKING_PATH_LEN : Z := 1024.
Definition HEADER_REWRITE_SPAN : Z := 12.
Definition QCOW2_HEADER_LENGTH_V3 : Z := 104.

(** The options the planner consumes; the staged refcount fields are unused. *)
Record Qcow2RebaseOpts : Type := mkQcow2RebaseOpts {
  ro_mode : RebaseMode;
  ro_overlay_header : bytes;
  ro_overlay_file_size : Z;
  ro_new_backing_virtual_size : Z;
  ro_new_backing_path : bytes;
  ro_detach : bool
}.

Record RebaseQcow2SafeContext : Type := mkRebaseQcow2SafeContext {
  rc_overlay_cluster_size : Z;
  rc_overlay_cluster_count : Z;
  rc_overlay_l1_table_offset : Z;
  rc_overlay_l1_size : Z
}.

Inductive Qcow2RebaseOutput : Type :=
| OutUnsafe (plan : RebasePlan)
| OutSafe (context : RebaseQcow2SafeContext) (deferred_metadata : RebasePlan).

Abbreviation RbM := (SM bytes RebaseError).

Definition overlay_virtual_size_required (opts : Qcow2RebaseOpts) (parsed : QcowHeader) : Z :=
  if ro_detach opts then 0 else hdr_virtual_size parsed.

Definition compute_path_target (opts : Qcow2RebaseOpts) (parsed : QcowHeader) (path_len : Z) : outcome RebaseError (Z * Z) :=
  if ro_detach opts then Ok (0, 0)
  else if backing_file_size parsed <? as_u32 path_len then Err BackingPathTooLong
  else if backing_file_offset parsed =? 0 then Err BackingPathTooLong
  else
  let header_end := if 3 <=? version parsed then Z.max (header_length parsed) QCOW2_HEADER_LENGTH_V3
                    else V2_HEADER_EXTENSION_OFFSET in
  let slot_limit := Z.min (hdr_cluster_size parsed) (ro_overlay_file_size opts) in
  let? slot_end := ok_or (checked_add (backing_file_offset parsed) (backing_file_size parsed)) RebaseHeaderMismatch in
  if (backing_file_offset parsed <? header_end) || (slot_limit <? slot_end) then Err RebaseHeaderMismatch
  else Ok (backing_file_offset parsed, as_u32 path_len).

(** Copy into scratch at [off]; the header buffer is its first 12 bytes, the path buffer
    the 1024 after them. *)
Definition rput (off : Z) (src : bytes) : RbM unit :=
  let! scratch := sget in
  let! scratch' := slift (or_panic (splice scratch off src)) in
  sput scratch'.

Definition rget (a b : Z) : RbM bytes :=
  let! scratch := sget in slift (or_panic (slice scratch a b)).

(** The metadata plan both modes build: the path bytes, then the pointer. *)
Definition plan_metadata (opts : Qcow2RebaseOpts) (parsed : QcowHeader) : RbM RebasePlan :=
  let! need := slift (ok_or (checked_add HEADER_REWRITE_SPAN MAX_BACKING_PATH_LEN) RebaseOverflow) in
  let! scratch := sget in
  if blen scratch <? need then sfail RebaseScratchTooSmall
  else
  let path_len := blen (ro_new_backing_path opts) in
  do! (if MAX_BACKING_PATH_LEN <? path_len then slift Panic
       else rput HEADER_REWRITE_SPAN (ro_new_backing_path opts)) in
  let plan := rebase_plan_new (ro_overlay_file_size opts) in
  let! (new_offset, new_size) := slift (compute_path_target opts parsed path_len) in
  let! plan :=
    (if 0 <? new_size then
       let! path := rget HEADER_REWRITE_SPAN (HEADER_REWRITE_SPAN + path_len) in
       slift (rebase_push plan (RebaseWrite new_offset path))
     else sret plan) in
  do! rput 0 (be_bytes 8 new_offset) in
  do! rput 8 (be_bytes 4 new_size) in
  let! hdr := rget 0 HEADER_REWRITE_SPAN in
  slift (rebase_push plan (RebaseWrite BACKING_FILE_OFFSET_OFFSET hdr)).

Definition plan_qcow2_safe (opts : Qcow2RebaseOpts) (parsed : QcowHeader) : RbM Qcow2RebaseOutput :=
  if negb (hdr_refcount_bits parsed =? 16) then sfail RebaseUnsupportedFormat
  else
  let cluster_size := hdr_cluster_size parsed in
  if cluster_size =? 0 then sfail OverlayCorrupt
  else
  let! plan := plan_metadata opts parsed in
  sret (OutSafe (mkRebaseQcow2SafeContext (as_u32 cluster_size) (div_ceil (hdr_virtual_size parsed) cluster_size)
                   (hdr_l1_table_offset parsed) (hdr_l1_size parsed)) plan).

Definition plan_qcow2_unsafe (opts : Qcow2RebaseOpts) (parsed : QcowHeader) : RbM Qcow2RebaseOutput :=
  let! plan := plan_metadata opts parsed in
  sret (OutUnsafe plan).

Definition plan_rebase_qcow2 (opts : Qcow2RebaseOpts) : RbM Qcow2RebaseOutput :=
  let! parsed := slift (map_err (fun _ => RebaseParseFailed) (parse (ro_overlay_header opts))) in
  if hdr_dirty parsed || hdr_corrupt parsed then sfail OverlayCorrupt
  else if has_external_data parsed || nonzero (Z.land (incompatible_features parsed) INCOMPAT_EXTERNAL_DATA) then sfail ExternalDataFile
  else if nonzero (Z.land (incompatible_features parsed) (Z.lor INCOMPAT_DIRTY INCOMPAT_CORRUPT)) then sfail OverlayCorrupt
  else if negb (crypt_method parsed =? 0) then sfail LuksUnsupported
  else
  let min_overlay_size := Z.max (BACKING_FILE_OFFSET_OFFSET + HEADER_REWRITE_SPAN) (header_length parsed) in
  if ro_overlay_file_size opts <? min_overlay_size then sfail OverlayCorrupt
  else
  let path_len := blen (ro_new_backing_path opts) in
  if ro_detach opts && negb (path_len =? 0) then sfail RebaseHeaderMismatch
  else if MAX_BACKING_PATH_LEN <? path_len then sfail BackingPathTooLong
  else if ro_new_backing_virtual_size opts <? overlay_virtual_size_required opts parsed then sfail NewBackingIncompatible
  else
  match ro_mode opts with
  | RebaseUnsafe => plan_qcow2_unsafe opts parsed
  | RebaseSafe => plan_qcow2_safe opts parsed
  end.

(** ** When a rebase is accepted, and what it does *)

(** The conditions, in the order they are checked. *)
Definition rebase_accepts (opts : Qcow2RebaseOpts) (h : QcowHeader) (scratch : bytes) : bool :=
  negb (hdr_dirty h || hdr_corrupt h) && negb (has_external_data h) && (crypt_method h =? 0) &&
  (Z.max 20 (header_length h) <=? ro_overlay_file_size opts) &&
  negb (ro_detach opts && negb (blen (ro_new_backing_path opts) =? 0)) &&
  (blen (ro_new_backing_path opts) <=? 1024) &&
  (ro_detach opts || (hdr_virtual_size h <=? ro_new_backing_virtual_size opts)) &&
  match ro_mode opts with RebaseUnsafe => true | RebaseSafe => hdr_refcount_bits h =? 16 end &&
  (1036 <=? blen scratch) &&
  (ro_detach opts ||
   ((blen (ro_new_backing_path opts) <=? backing_file_size h) && negb (backing_file_offset h =? 0) &&
    ((if version h =? 2 then 72 else Z.max 104 (header_length h)) <=? backing_file_offset h) &&
    (backing_file_offset h + backing_file_size h <=? Z.min (hdr_cluster_size h) (ro_overlay_file_size opts)))).

(** The backing pointer the new header carries. *)
Definition new_offset_of (opts : Qcow2RebaseOpts) (h : QcowHeader) : Z := if ro_detach opts then 0 else backing_file_offset h.

(** The patches of a plan, as writes, in order. *)
Definition rebase_write (p : RebasePatch) : Z * bytes := match p with RebaseWrite o s | RebaseAppend o s => (o, s) end.

(** Exactly these two writes: the name into its slot, when there is one, then the pointer. *)
Definition rebase_writes (opts : Qcow2RebaseOpts) (h : QcowHeader) : list (Z * bytes) :=
  let path := ro_new_backing_path opts in
  (if 0 <? blen path then [(backing_file_offset h, path)] else []) ++
  [(8, be_bytes 8 (new_offset_of opts h) ++ be_bytes 4 (blen path))].

(** What the planner is given: a parsed header of a file at least that long. *)
Record rebase_src (opts : Qcow2RebaseOpts) (h : QcowHeader) : Prop := {
  rs_bytes : is_bytes (ro_overlay_header opts);
  rs_parse : parse (ro_overlay_header opts) = Ok h;
  rs_size : is_u64 (ro_overlay_file_size opts);
  rs_path : is_bytes (ro_new_backing_path opts);
  rs_new : is_u64 (ro_new_backing_virtual_size opts)
}.

Lemma rebase_src_header opts h : rebase_src opts h -> h = header_at (ro_overlay_header opts) /\ header_valid h = true /\
  (version h = 2 \/ version h = 3) /\ is_u64 (backing_file_offset h) /\ is_u32 (backing_file_size h) /\ 0 <= header_length h <= u32_max /\
  1 <= hdr_cluster_size h.
Proof.
  intros [Hb Hp _ _ _]. destruct (parse_Ok _ _ Hp) as (_ & Hh & Hv). split; [done|]. split; [done|].
  pose proof Hv as Hv'. unfold header_valid in Hv'. rewrite !andb_true_iff, orb_true_iff, !Z.eqb_eq, !Z.leb_le in Hv'.
  split; [tauto|]. rewrite Hh. split; [by apply u64_at_u64|]. split; [by apply u32_at_u32|].
  rewrite Hh in Hv'. cbn [header_at hdr_cluster_size hdr_cluster_bits header_length] in *. split.
  - destruct (3 <=? _); [|offs; unfold u32_max; lia]. pose proof (u32_at_u32 (ro_overlay_header opts) HEADER_LENGTH_OFFSET Hb). done.
  - rewrite Z.shiftl_1_l. pose proof (Z.pow_pos_nonneg 2 (u32_at (ro_overlay_header opts) CLUSTER_BITS_OFFSET)). lia.
Qed.

Definition slot_ok (opts : Qcow2RebaseOpts) (h : QcowHeader) : bool :=
  ro_detach opts ||
  ((blen (ro_new_backing_path opts) <=? backing_file_size h) && negb (backing_file_offset h =? 0) &&
   ((if version h =? 2 then 72 else Z.max 104 (header_length h)) <=? backing_file_offset h) &&
   (backing_file_offset h + backing_file_size h <=? Z.min (hdr_cluster_size h) (ro_overlay_file_size opts))).

Lemma compute_path_target_spec opts h : rebase_src opts h -> blen (ro_new_backing_path opts) <= 1024 ->
  (ro_detach opts = true -> blen (ro_new_backing_path opts) = 0) ->
  if slot_ok opts h then compute_path_target opts h (blen (ro_new_backing_path opts)) = Ok (new_offset_of opts h, blen (ro_new_backing_path opts))
  else exists e, compute_path_target opts h (blen (ro_new_backing_path opts)) = Err e.
Proof.
  intros Hsrc Hp Hd. destruct (rebase_src_header _ _ Hsrc) as (_ & _ & Hver & Hbo & Hbs & Hhl & _).
  destruct Hsrc as [_ _ Hfs _ _]. pose proof (blen_nonneg (ro_new_backing_path opts)).
  unfold is_u64, is_u32, u32_max in *. unfold slot_ok, compute_path_target, new_offset_of, as_u32, QCOW2_HEADER_LENGTH_V3. offs.
  rewrite Z.mod_small by lia. destruct (ro_detach opts); cbn [orb]; [by rewrite Hd|].
  destruct (Z.ltb_spec (backing_file_size h) (blen (ro_new_backing_path opts))), (Z.leb_spec (blen (ro_new_backing_path opts)) (backing_file_size h));
    try lia; cbn [andb]; [by eexists|].
  destruct (Z.eqb_spec (backing_file_offset h) 0); cbn [negb andb]; [by eexists|].
  assert ((if 3 <=? version h then Z.max (header_length h) 104 else 72) = (if version h =? 2 then 72 else Z.max 104 (header_length h))) as ->.
  { destruct Hver as [-> | ->]; cbn [Z.leb Z.eqb Z.compare Pos.compare Pos.eqb]; [done|]. apply Z.max_comm. }
  set (he := if version h =? 2 then _ else _). unfold checked_add.
  destruct (Z.leb_spec (backing_file_offset h + backing_file_size h) u64_max) as [|Hbig]; cbn [ok_or obind].
  - rewrite !Z.ltb_antisym. destruct (he <=? backing_file_offset h), (_ <=? Z.min _ _); cbn [negb orb andb]; done || by eexists.
  - destruct (Z.leb_spec (backing_file_offset h + backing_file_size h) (Z.min (hdr_cluster_size h) (ro_overlay_file_size opts))); [lia|].
    rewrite andb_false_r. by eexists.
Qed.

Lemma wp_rput off src scratch (Q : unit -> bytes -> Prop) (R : RebaseError -> bytes -> Prop) :
  0 <= off -> off + blen src <= blen scratch ->
  (forall s', splice scratch off src = Some s' -> blen s' = blen scratch -> Q tt s') -> wp (rput off src) Q R scratch.
Proof.
  intros Ho Hl HQ. destruct (splice_of scratch off src Ho Hl) as (s' & Hs & Hlen).
  unfold rput. do 4 wstep. rewrite Hs. cbn [or_panic]. wstep. by apply HQ.
Qed.

Lemma rebase_push_ok plan o src : Z.of_nat (length (rp_patches plan)) < 16 -> 0 <= o -> o + blen src <= rp_total_file_size plan ->
  rp_total_file_size plan <= u64_max ->
  rebase_push plan (RebaseWrite o src) = Ok (mkRebasePlan (rp_total_file_size plan) (rp_patches plan ++ [RebaseWrite o src])).
Proof.
  intros Hn Ho Hl Hm. unfold rebase_push, MAX_REBASE_PATCHES. destruct (Z.leb_spec 16 (Z.of_nat (length (rp_patches plan)))); [lia|].
  rewrite checked_add_eq by lia. cbn [ok_or obind]. destruct (Z.ltb_spec (rp_total_file_size plan) (o + blen src)); [lia|done].
Qed.

Lemma plan_metadata_spec opts h scratch : rebase_src opts h -> blen (ro_new_backing_path opts) <= 1024 ->
  (ro_detach opts = true -> blen (ro_new_backing_path opts) = 0) -> 20 <= ro_overlay_file_size opts ->
  wp (plan_metadata opts h)
    (fun plan _ => 1036 <= blen scratch /\ slot_ok opts h = true /\ rp_total_file_size plan = ro_overlay_file_size opts /\
       map rebase_write (rp_patches plan) = rebase_writes opts h)
    (fun _ _ => (1036 <=? blen scratch) && slot_ok opts h = false) scratch.
Proof.
  intros Hsrc Hp Hd H20. pose proof (compute_path_target_spec opts h Hsrc Hp Hd) as Hct.
  destruct (rebase_src_header _ _ Hsrc) as (_ & _ & _ & Hbo & Hbs & _). destruct Hsrc as [_ _ [_ Hfs] _ _].
  set (path := ro_new_backing_path opts) in *. pose proof (blen_nonneg path) as Hp0. unfold is_u64, is_u32 in *.
  unfold plan_metadata, HEADER_REWRITE_SPAN, MAX_BACKING_PATH_LEN. fold path. offs. cbv zeta. wstep. wstep.
  change (checked_add 12 1024) with (Some 1036). cbn [ok_or]. wstep. wstep.
  destruct (Z.ltb_spec (blen scratch) 1036), (Z.leb_spec 1036 (blen scratch)); try lia; [by wstep|]. cbn [andb].
  destruct (Z.ltb_spec 1024 (blen path)); [lia|]. wstep. apply wp_rput; [lia | lia |]. intros s1 Hs1 Hl1. wstep. wstep.
  destruct (slot_ok opts h) eqn:Hslot; [|destruct Hct as [e ->]; done]. rewrite Hct.
  assert (0 <= new_offset_of opts h /\ (0 < blen path -> new_offset_of opts h = backing_file_offset h /\ backing_file_offset h + blen path <= ro_overlay_file_size opts)) as [Hno Hnp].
  { unfold slot_ok, new_offset_of in *. fold path in Hslot. destruct (ro_detach opts) eqn:E; cbn [orb] in Hslot; [rewrite Hd by done; lia|].
    rewrite !andb_true_iff, !Z.leb_le in Hslot. lia. }
  set (noff := new_offset_of opts h) in *.
  assert (forall plan s2, blen s2 = blen scratch -> rp_total_file_size plan = ro_overlay_file_size opts -> Z.of_nat (length (rp_patches plan)) < 16 ->
    map rebase_write (rp_patches plan) = (if 0 <? blen path then [(backing_file_offset h, path)] else []) ->
    wp (do! rput 0 (be_bytes 8 noff) in do! rput 8 (be_bytes 4 (blen path)) in let! hdr := rget 0 12 in slift (rebase_push plan (RebaseWrite 8 hdr)))
      (fun plan _ => 1036 <= blen scratch /\ true = true /\ rp_total_file_size plan = ro_overlay_file_size opts /\
         map rebase_write (rp_patches plan) = rebase_writes opts h) (fun _ _ => true = false) s2) as Hrest.
  { intros plan s2 Hl2 Htot Hn Hmap. wstep. apply wp_rput; [lia | rewrite blen_be_bytes; lia |]. intros s3 Hs3 Hl3.
    wstep. apply wp_rput; [lia | rewrite blen_be_bytes; lia |]. intros s4 Hs4 Hl4.
    assert (slice s4 0 12 = Some (be_bytes 8 noff ++ be_bytes 4 (blen path))) as Hhdr.
    { assert (slice s4 0 8 = Some (be_bytes 8 noff)) as Ha.
      { rewrite (slice_splice_ne _ _ _ _ _ _ Hs4) by lia. exact (slice_splice_eq _ _ _ _ Hs3). }
      assert (slice s4 8 12 = Some (be_bytes 4 (blen path))) as Hb by exact (slice_splice_eq _ _ _ _ Hs4).
      exact (slice_join _ _ _ _ _ Ha Hb). }
    wstep. unfold rget. do 3 wstep. rewrite Hhdr. cbn [or_panic]. wstep.
    rewrite rebase_push_ok by (rewrite ?blen_app, ?blen_be_bytes; lia). cbn [rp_total_file_size rp_patches].
    do 3 (split; [done|]). rewrite map_app, Hmap. done. }
  destruct (Z.ltb_spec 0 (blen path)) as [Hpos|Hz].
  - destruct (Hnp Hpos) as [Hn1 Hn2]. wstep. wstep. unfold rget. do 3 wstep.
    pose proof (slice_splice_eq _ _ _ _ Hs1) as Hsl. rewrite Hsl. cbn [or_panic]. wstep.
    rewrite rebase_push_ok by (cbn [rp_patches rp_total_file_size rebase_plan_new length]; lia).
    cbn [rp_total_file_size rp_patches rebase_plan_new app]. apply Hrest; [done | done | done |]. cbn. by rewrite Hn1.
  - wstep. wstep. apply Hrest; done.
Qed.

Definition plan_of (out : Qcow2RebaseOutput) : RebasePlan := match out with OutUnsafe p => p | OutSafe _ p => p end.

(** The file after a rebase. *)
Record rebased (opts : Qcow2RebaseOpts) (h : QcowHeader) (file file' : bytes) : Prop := {
  rd_len : blen file' = blen file;
  rd_parse : parse file' = Ok (header_at file');
  rd_same : same_image h (header_at file');
  rd_version : version (header_at file') = version h;
  rd_width : hdr_refcount_bits (header_at file') = hdr_refcount_bits h;
  rd_incompat : incompatible_features (header_at file') = incompatible_features h;
  rd_compat : compatible_features (header_at file') = compatible_features h;
  rd_offset : backing_file_offset (header_at file') = new_offset_of opts h;
  rd_size : backing_file_size (header_at file') = blen (ro_new_backing_path opts);
  rd_path : ro_detach opts = false ->
    slice file' (new_offset_of opts h) (new_offset_of opts h + blen (ro_new_backing_path opts)) = Some (ro_new_backing_path opts);
  rd_rest : forall a b, b <= 8 \/ 20 <= a ->
    b <= backing_file_offset h \/ backing_file_offset h + backing_file_size h <= a \/ ro_detach opts = true -> slice file' a b = slice file a b
}.

Lemma rebase_apply opts h file : rebase_src opts h -> is_bytes file -> blen file = ro_overlay_file_size opts ->
  slice file 0 (blen (ro_overlay_header opts)) = Some (ro_overlay_header opts) ->
  blen (ro_new_backing_path opts) <= 1024 -> (ro_detach opts = true -> blen (ro_new_backing_path opts) = 0) -> slot_ok opts h = true ->
  exists file', apply_writes file (rebase_writes opts h) = Some file' /\ rebased opts h file file'.
Proof.
  intros Hsrc Hfb Hfl Hpre Hp Hd Hslot. destruct (rebase_src_header _ _ Hsrc) as (Hh & Hvalid & Hver & Hbo & Hbs & Hhl & _).
  destruct Hsrc as [Hb Hparse Hfs Hpb _]. set (path := ro_new_backing_path opts) in *. pose proof (blen_nonneg path) as Hp0.
  destruct (parse_Ok _ _ Hparse) as (H105 & _ & _). pose proof (slice_Some _ _ _ _ Hpre) as (_ & Hpl & _).
  set (he := if version h =? 2 then 72 else Z.max 104 (header_length h)).
  assert (0 < blen path -> ro_detach opts = false) as Hnd by (intros Hpos; destruct (ro_detach opts); [rewrite Hd in Hpos by done; lia|done]).
  assert (ro_detach opts = false -> he <= backing_file_offset h /\ blen path <= backing_file_size h /\
    backing_file_offset h + backing_file_size h <= blen file) as Hsl.
  { intros E. unfold slot_ok in Hslot. rewrite E in Hslot. cbn [orb] in Hslot. fold path he in Hslot. rewrite !andb_true_iff, !Z.leb_le in Hslot. lia. }
  assert (72 <= he) as Hhe by (subst he; destruct (version h =? 2); lia).
  (* the name *)
  assert (exists f1, apply_writes file (if 0 <? blen path then [(backing_file_offset h, path)] else []) = Some f1 /\ blen f1 = blen file /\
    (ro_detach opts = false -> slice f1 (backing_file_offset h) (backing_file_offset h + blen path) = Some path) /\
    (forall a b, b <= backing_file_offset h \/ backing_file_offset h + blen path <= a \/ ro_detach opts = true -> slice f1 a b = slice file a b))
    as (f1 & Ha1 & Hl1 & Hname & Hs1).
  { destruct (Z.ltb_spec 0 (blen path)) as [Hpos|Hz].
    - destruct (Hsl (Hnd Hpos)) as (? & ? & ?). destruct (splice_of file (backing_file_offset h) path) as (f1 & Hf1 & Hl1); [lia | lia |].
      exists f1. cbn [apply_writes]. rewrite Hf1. split; [done|]. split; [done|]. split; [intros _; exact (slice_splice_eq _ _ _ _ Hf1)|].
      intros a b [?|[?|E]]; [apply (slice_splice_ne _ _ _ _ _ _ Hf1); lia..|]. rewrite (Hnd Hpos) in E. done.
    - exists file. split; [done|]. split; [done|]. split; [|done]. intros E. destruct (Hsl E) as (? & ? & ?).
      assert (blen path = 0) as Hz0 by lia. assert (path = []) as -> by (destruct path; [done|]; rewrite blen_cons in Hz0; pose proof (blen_nonneg path); lia).
      change (blen []) with 0. rewrite slice_Some_2 by lia. by rewrite Z.add_0_r, Z.sub_diag. }
  (* the pointer *)
  set (hdr := be_bytes 8 (new_offset_of opts h) ++ be_bytes 4 (blen path)).
  assert (blen hdr = 12) as Hhl12 by (unfold hdr; rewrite blen_app, !blen_be_bytes; lia).
  destruct (splice_of f1 8 hdr) as (f2 & Hf2 & Hl2); [lia | lia |]. exists f2.
  split.
  { unfold rebase_writes. fold path. cbv zeta. clear - Ha1 Hf2. fold hdr.
    destruct (0 <? blen path); cbn [app apply_writes] in *; [destruct (splice file _ path) as [g|]; [|done]; cbn [mbind option_bind] in *; injection Ha1 as ->|
      injection Ha1 as ->]; by rewrite Hf2. }
  assert (forall a b, b <= 8 \/ 20 <= a -> slice f2 a b = slice f1 a b) as Hs2 by (intros a b Hab; apply (slice_splice_ne _ _ _ _ _ _ Hf2); lia).
  assert (forall a b, b <= 8 \/ 20 <= a -> 0 <= a -> b <= he -> b <= 105 -> slice f2 a b = slice (ro_overlay_header opts) a b) as Hfix.
  { intros a b Hab Ha Hbh Hb105. rewrite Hs2 by done. rewrite <- (slice_of_prefix file _ _ a b Hpre) by lia. apply Hs1.
    destruct (ro_detach opts) eqn:E; [auto|]. destruct (Hsl eq_refl). left. lia. }
  assert (u32_at f2 4 = version h) as Hv.
  { rewrite Hh. cbn [header_at version]. offs. apply u32_at_same, Hfix; lia. }
  assert (version h = 3 -> 104 <= he) as H104 by (subst he; intros ->; cbn; lia).
  assert (incompatible_features (header_at f2) = incompatible_features h /\ compatible_features (header_at f2) = compatible_features h /\
    hdr_refcount_bits (header_at f2) = hdr_refcount_bits h) as (Hi & Hc & Hw).
  { rewrite Hh at 1 2 3. cbn [header_at incompatible_features compatible_features hdr_refcount_bits]. offs. rewrite Hv.
    rewrite Hh in Hver, H104. cbn [header_at version] in Hver, H104. offs. rewrite Hh. cbn [header_at version]. offs.
    destruct Hver as [-> | E]; [done|]. rewrite E. specialize (H104 E). cbn [Z.leb Z.compare Pos.compare Pos.compare_cont].
    split; [apply u64_at_same, Hfix; lia|]. split; [apply u64_at_same, Hfix; lia|].
    by rewrite (u32_at_same (ro_overlay_header opts) f2 96) by (apply Hfix; lia). }
  assert (same_image h (header_at f2)) as Hsame by (rewrite Hh; apply same_image_fields; intros a b Ha Hb'; apply Hfix; lia).
  pose proof (slice_splice_eq _ _ _ _ Hf2) as Hh12. rewrite Hhl12 in Hh12. change (8 + 12) with 20 in Hh12.
  assert (is_u64 (new_offset_of opts h)) as Hno by (unfold new_offset_of; destruct (ro_detach opts); [split; vm_compute; discriminate|done]).
  split; try done.
  - lia.
  - rewrite parse_header_at by lia. rewrite (same_image_valid h); [done | done | | | done].
    + change (extended_l2 (header_at f2)) with (nonzero (Z.land (incompatible_features (header_at f2)) INCOMPAT_EXTENDED_L2)).
      rewrite Hi, Hh. done.
    + change (version (header_at f2)) with (u32_at f2 4). by rewrite Hv.
  - change (u64_at f2 8 = new_offset_of opts h). unfold u64_at.
    change 8 with (8 + 0) at 1. change (8 + 8) with (8 + 8). rewrite <- (slice_slice f2 8 20 hdr 0 8 Hh12) by lia.
    unfold hdr. change 8 with (Z.of_nat 8) at 1. rewrite <- (blen_be_bytes 8 (new_offset_of opts h)). rewrite slice_left. cbn [from_option].
    apply be_val_bytes. unfold is_u64, u64_max in Hno. change (256 ^ Z.of_nat 8) with 18446744073709551616. lia.
  - change (u32_at f2 16 = blen path). unfold u32_at. change 16 with (8 + 8) at 1. change (16 + 4) with (8 + 12).
    rewrite <- (slice_slice f2 8 20 hdr 8 12 Hh12) by lia. unfold hdr.
    pose proof (slice_right (be_bytes 8 (new_offset_of opts h)) (be_bytes 4 (blen path)) 0 4 ltac:(lia)) as Hr. rewrite blen_be_bytes in Hr.
    change (Z.of_nat 8 + 0) with 8 in Hr. change (Z.of_nat 8 + 4) with 12 in Hr. rewrite Hr.
    change 4 with (Z.of_nat 4) at 1. rewrite <- (blen_be_bytes 4 (blen path)) at 1. rewrite slice_full. cbn [from_option].
    apply be_val_bytes. change (256 ^ Z.of_nat 4) with 4294967296. lia.
  - intros E. destruct (Hsl E) as (? & ? & ?). unfold new_offset_of. rewrite E. fold path. rewrite Hs2 by lia. by apply Hname.
  - intros a b Hab Hab2. rewrite Hs2 by done. apply Hs1. destruct (ro_detach opts) eqn:E; [auto|]. destruct (Hsl eq_refl) as (? & ? & ?). lia.
Qed.

(** What an accepted rebase does to the file. *)
Definition rebase_result (opts : Qcow2RebaseOpts) (h : QcowHeader) (file : bytes) (out : Qcow2RebaseOutput) : Prop :=
  map rebase_write (rp_patches (plan_of out)) = rebase_writes opts h /\
  (exists file', apply_writes file (map rebase_write (rp_patches (plan_of out))) = Some file' /\ rebased opts h file file') /\
  match out with
  | OutUnsafe _ => ro_mode opts = RebaseUnsafe
  | OutSafe ctx _ => ro_mode opts = RebaseSafe /\
      ctx = mkRebaseQcow2SafeContext (hdr_cluster_size h) (div_ceil (hdr_virtual_size h) (hdr_cluster_size h))
              (hdr_l1_table_offset h) (hdr_l1_size h)
  end.

Lemma cluster_size_u32 h : header_valid h = true -> hdr_cluster_size h = Z.shiftl 1 (hdr_cluster_bits h) -> as_u32 (hdr_cluster_size h) = hdr_cluster_size h.
Proof.
  intros Hv ->. unfold header_valid in Hv. rewrite !andb_true_iff, !Z.leb_le in Hv. rewrite Z.shiftl_1_l.
  pose proof (Z.pow_le_mono_r 2 (hdr_cluster_bits h) 21 ltac:(lia) ltac:(lia)) as Hle. change (2 ^ 21) with 2097152 in Hle.
  pose proof (Z.pow_nonneg 2 (hdr_cluster_bits h) ltac:(lia)). unfold as_u32. apply Z.mod_small. lia.
Qed.

(** C26: on any overlay whose header parses, the rebase planner returns, and accepts
    exactly when the image is clean, unencrypted and self-contained, the new backing
    file is large enough, the new name fits the old slot and the slot lies between
    the header and the end of the first cluster.  An accepted plan writes the name
    before the pointer; applied to the file it changes only the slot and the pointer,
    and the header parses with the new name and everything else as it was.  Safe mode
    reports the overlay's geometry. *)
Theorem rebase_reparses opts h scratch file : rebase_src opts h -> is_bytes file -> blen file = ro_overlay_file_size opts ->
  slice file 0 (blen (ro_overlay_header opts)) = Some (ro_overlay_header opts) ->
  match plan_rebase_qcow2 opts scratch with
  | (Ok out, _) => rebase_accepts opts h scratch = true /\ rebase_result opts h file out
  | (Err _, _) => rebase_accepts opts h scratch = false
  | _ => False
  end.
Proof.
  intros Hsrc Hfb Hfl Hpre. destruct (rebase_src_header _ _ Hsrc) as (Hh & Hvalid & Hver & Hbo & Hbs & Hhl & Hcs).
  enough (wp (plan_rebase_qcow2 opts)
    (fun out _ => rebase_accepts opts h scratch = true /\ rebase_result opts h file out)
    (fun _ _ => rebase_accepts opts h scratch = false) scratch) as Hwp.
  { unfold wp in Hwp. by destruct (plan_rebase_qcow2 opts scratch) as [[| | |] ?]. }
  pose proof Hsrc as [_ Hp _ _ Hnew]. unfold plan_rebase_qcow2. wstep. wstep. rewrite Hp. cbn [map_err].
  assert (has_external_data h = nonzero (Z.land (incompatible_features h) INCOMPAT_EXTERNAL_DATA)) as He by (rewrite Hh; done).
  assert (hdr_dirty h || hdr_corrupt h = false -> nonzero (Z.land (incompatible_features h) (Z.lor INCOMPAT_DIRTY INCOMPAT_CORRUPT)) = false) as Hdc.
  { intros E. apply orb_false_iff in E as [E1 E2]. rewrite Hh in E1, E2. cbn [header_at hdr_dirty hdr_corrupt] in E1, E2.
    apply nonzero_false in E1, E2. apply nonzero_false. rewrite Hh. cbn [header_at incompatible_features]. by rewrite Z.land_lor_distr_r, E1, E2. }
  unfold rebase_accepts. destruct (hdr_dirty h || hdr_corrupt h); cbn [negb andb]; [by wstep|]. rewrite (Hdc eq_refl), <- He.
  destruct (has_external_data h); cbn [negb andb orb]; [by wstep|].
  destruct (crypt_method h =? 0); cbn [negb andb]; [|by wstep].
  change (BACKING_FILE_OFFSET_OFFSET + HEADER_REWRITE_SPAN) with 20. rewrite Z.ltb_antisym.
  destruct (Z.leb_spec (Z.max 20 (header_length h)) (ro_overlay_file_size opts)) as [H20|]; cbn [negb andb]; [|by wstep].
  destruct (ro_detach opts && negb (blen (ro_new_backing_path opts) =? 0)) eqn:Hdp; cbn [negb andb]; [by wstep|].
  assert (ro_detach opts = true -> blen (ro_new_backing_path opts) = 0) as Hd.
  { intros E. rewrite E in Hdp. cbn in Hdp. apply negb_false_iff, Z.eqb_eq in Hdp. done. }
  unfold MAX_BACKING_PATH_LEN. rewrite Z.ltb_antisym.
  destruct (Z.leb_spec (blen (ro_new_backing_path opts)) 1024) as [Hpl|]; cbn [negb andb]; [|by wstep].
  assert ((ro_new_backing_virtual_size opts <? overlay_virtual_size_required opts h) =
    negb (ro_detach opts || (hdr_virtual_size h <=? ro_new_backing_virtual_size opts))) as ->.
  { unfold overlay_virtual_size_required. unfold is_u64 in Hnew. destruct (ro_detach opts); cbn [orb negb]; [apply Z.ltb_ge; lia | apply Z.ltb_antisym]. }
  destruct (ro_detach opts || (hdr_virtual_size h <=? ro_new_backing_virtual_size opts)); cbn [negb andb]; [|by wstep].
  fold (slot_ok opts h).
  pose proof (plan_metadata_spec opts h scratch Hsrc Hpl Hd ltac:(lia)) as Hmeta.
  assert (forall plan, map rebase_write (rp_patches plan) = rebase_writes opts h -> slot_ok opts h = true ->
    exists file', apply_writes file (map rebase_write (rp_patches plan)) = Some file' /\ rebased opts h file file') as Happly.
  { intros plan -> Hslot. by apply rebase_apply. }
  destruct (ro_mode opts) eqn:Hmode; cbn [andb].
  - unfold plan_qcow2_unsafe. wstep. eapply wp_mono; [exact Hmeta | |done].
    intros plan s (H1 & H2 & _ & H4). wstep. split; [rewrite H2, andb_true_r; by apply Z.leb_le|]. split; [done|]. split; [by apply Happly|done].
  - unfold plan_qcow2_safe. destruct (hdr_refcount_bits h =? 16); cbn [negb andb]; [|by wstep].
    destruct (Z.eqb_spec (hdr_cluster_size h) 0); [lia|]. wstep. eapply wp_mono; [exact Hmeta | |done].
    intros plan s (H1 & H2 & _ & H4). wstep. split; [rewrite H2, andb_true_r; by apply Z.leb_le|]. split; [done|]. split; [by apply Happly|].
    split; [done|]. rewrite cluster_size_u32; [done | done |]. rewrite Hh. done.
Qed.

(** ** Witness *)

(** A v3 overlay of 512-byte clusters, its backing name [base] at byte 120. *)
Definition overlay_cluster : bytes :=
  be_bytes 4 0x514649fb ++ be_bytes 4 3 ++ be_bytes 8 120 ++ be_bytes 4 4 ++ be_bytes 4 9 ++
  be_bytes 8 65536 ++ be_bytes 4 0 ++ be_bytes 4 2 ++ be_bytes 8 1536 ++
  be_bytes 8 512 ++ be_bytes 4 1 ++ be_bytes 4 0 ++ be_bytes 8 0 ++ be_bytes 8 0 ++ be_bytes 8 0 ++ be_bytes 8 0 ++
  be_bytes 4 4 ++ be_bytes 4 112 ++ be_bytes 8 0 ++ be_bytes 8 0 ++ [98; 97; 115; 101] ++ filled 388 0.

Definition rebase_opts : Qcow2RebaseOpts := mkQcow2RebaseOpts RebaseSafe overlay_cluster 512 65536 [110; 101; 119] false.

Lemma rebase_reparses_witness : exists h out s, rebase_src rebase_opts h /\
  plan_rebase_qcow2 rebase_opts (filled 1036 0) = (Ok out, s) /\ rebase_result rebase_opts h overlay_cluster out.
Proof.
  assert (exists h, rebase_src rebase_opts h) as [h Hsrc].
  { eexists. split; [apply is_bytesb_true; vm_compute; reflexivity | vm_compute; reflexivity | split; vm_compute; discriminate |
      apply is_bytesb_true; reflexivity | split; vm_compute; discriminate]. }
  assert (is_bytes overlay_cluster) as Hb by (apply is_bytesb_true; vm_compute; reflexivity).
  pose proof (rebase_reparses rebase_opts h (filled 1036 0) overlay_cluster Hsrc Hb ltac:(vm_compute; reflexivity)
    ltac:(vm_compute; reflexivity)) as Hr.
  assert (exists out s, plan_rebase_qcow2 rebase_opts (filled 1036 0) = (Ok out, s)) as (out & s & E)
    by (do 2 eexists; vm_compute; reflexivity).
  rewrite E in Hr. exists h, out, s. split; [exact Hsrc|]. split; [exact E|]. exact (proj2 Hr).
Defined.
