(* ===== verification/BitmapDir.v ===== *)
(** Persistent dirty bitmaps: the directory-entry codec and the table-entry codec of
    [src/src/crates/qcow2/src/bitmap.rs], and the directory operations of
    [src/src/crates/bitmap/src/directory.rs].

    An entry's name is the valid prefix of its inline buffer, so [name_size] is its
    length.  The abstract view of a directory is the list of its raw entries,
    [dir_holds]; entries are packed, each a multiple of 8 bytes long. *)

From stdpp Require Import base numbers list sets option.
From Stdlib Require Import ZArith Lia.
From S2P Require Import Prelude Bytes Refcount SnapshotWalk ExecBytes SnapTable Header.

(** ** Definitions *)

Definition BME_FLAG_IN_USE : Z := 1.
Definition BME_FLAG_AUTO : Z := 2.
Definition BME_RESERVED_FLAGS : Z := 0xFFFFFFFC.
Definition BT_DIRTY_TRACKING_BITMAP : Z := 1.
Definition BME_MIN_GRANULARITY_BITS : Z := 9.
Definition BME_MAX_GRANULARITY_BITS : Z := 31.
Definition BME_MAX_NAME_SIZE : Z := 1023.
Definition QCOW2_MAX_BITMAPS : Z := 65535.
Definition QCOW2_MAX_BITMAP_DIRECTORY_SIZE : Z := 67107840.
Definition BME_TABLE_ENTRY_OFFSET_MASK : Z := 0x00fffffffffffe00.
Definition BME_TABLE_ENTRY_RESERVED_MASK : Z := 0xff000000000001fe.
Definition BME_TABLE_ENTRY_FLAG_ALL_ONES : Z := 1.

Record BitmapDirEntry : Type := mkBitmapDirEntry {
  bitmap_table_offset : Z;
  bitmap_table_size : Z;
  bm_flags : Z;
  bitmap_type : Z;
  granularity_bits : Z;
  bm_extra_data_size : Z;
  bm_name : bytes
}.

#[global] Instance BitmapDirEntry_eq_dec : EqDecision BitmapDirEntry.
Proof. solve_decision. Defined.

Definition is_enabled (e : BitmapDirEntry) : bool := nonzero (Z.land (bm_flags e) BME_FLAG_AUTO).
Definition is_in_use (e : BitmapDirEntry) : bool := nonzero (Z.land (bm_flags e) BME_FLAG_IN_USE).

(** [None] is [Err tt]. *)
Definition parse_bitmap_dir_entry (buf : bytes) : outcome unit (BitmapDirEntry * Z) :=
  if blen buf <? 24 then Err tt
  else
  let? table_offset := be_u64 buf 0 in
  let? table_size := be_u32 buf 8 in
  let? flags := be_u32 buf 12 in
  let? bitmap_type := or_panic (byte_at buf 16) in
  let? granularity_bits := or_panic (byte_at buf 17) in
  let? name_size := be_u16 buf 18 in
  let? extra_data_size := be_u32 buf 20 in
  if nonzero (Z.land flags BME_RESERVED_FLAGS) then Err tt
  else if negb (bitmap_type =? BT_DIRTY_TRACKING_BITMAP) then Err tt
  else if negb (extra_data_size =? 0) then Err tt
  else if (name_size =? 0) || (BME_MAX_NAME_SIZE <? name_size) then Err tt
  else
  let? raw_size := ok_or (x ← checked_add 24 extra_data_size; checked_add x name_size) tt in
  let? entry_size := ok_or (round_up_8 raw_size) tt in
  if blen buf <? entry_size then Err tt
  else
  let? name_off := ok_or (checked_add 24 extra_data_size) tt in
  let? name_end := ok_or (checked_add name_off name_size) tt in
  if blen buf <? name_end then Err tt
  else
  let? name := or_panic (slice buf name_off name_end) in
  Ok (mkBitmapDirEntry table_offset table_size flags bitmap_type granularity_bits extra_data_size name, entry_size).

(** The output is [out[base..]]. *)
Abbreviation DM := (SM bytes unit).

Definition bput (a : Z) (src : bytes) : DM unit :=
  let! out := sget in
  let! out' := slift (or_panic (splice out a src)) in
  sput out'.

Definition serialize_bitmap_dir_entry (e : BitmapDirEntry) (base : Z) : DM Z :=
  let name_size := blen (bm_name e) in
  if BME_MAX_NAME_SIZE <? name_size then sfail tt
  else
  let! raw_size := slift (ok_or (x ← checked_add 24 (bm_extra_data_size e); checked_add x name_size) tt) in
  let! entry_size := slift (ok_or (round_up_8 raw_size) tt) in
  let! out := sget in
  if blen out - base <? entry_size then sfail tt
  else
  do! bput base (be_bytes 8 (bitmap_table_offset e)) in
  do! bput (base + 8) (be_bytes 4 (bitmap_table_size e)) in
  do! bput (base + 12) (be_bytes 4 (bm_flags e)) in
  do! bput (base + 16) [bitmap_type e] in
  do! bput (base + 17) [granularity_bits e] in
  do! bput (base + 18) (be_bytes 2 name_size) in
  do! bput (base + 20) (be_bytes 4 (bm_extra_data_size e)) in
  let! name_off := slift (ok_or (checked_add 24 (bm_extra_data_size e)) tt) in
  let! name_end := slift (ok_or (checked_add name_off name_size) tt) in
  if entry_size <? name_end then sfail tt
  else
  do! bput (base + name_off) (bm_name e) in
  do! bput (base + 24) (filled (name_off - 24) 0) in
  do! bput (base + name_end) (filled (entry_size - name_end) 0) in
  sret entry_size.

Inductive BitmapTableEntry : Type := AllZeroes | AllOnes | Allocated (offset : Z).

Definition validate_bitmap_table_entry (raw : Z) : bool :=
  if nonzero (Z.land raw BME_TABLE_ENTRY_RESERVED_MASK) then false
  else
  let offset := Z.land raw BME_TABLE_ENTRY_OFFSET_MASK in
  negb (negb (offset =? 0) && nonzero (Z.land raw BME_TABLE_ENTRY_FLAG_ALL_ONES)).

Definition decode_bitmap_table_entry (raw : Z) : option BitmapTableEntry :=
  if negb (validate_bitmap_table_entry raw) then None
  else
  let offset := Z.land raw BME_TABLE_ENTRY_OFFSET_MASK in
  if negb (offset =? 0) then Some (Allocated offset)
  else if nonzero (Z.land raw BME_TABLE_ENTRY_FLAG_ALL_ONES) then Some AllOnes
  else Some AllZeroes.

Definition encode_bitmap_table_entry (e : BitmapTableEntry) : Z :=
  match e with
  | AllZeroes => 0
  | AllOnes => BME_TABLE_ENTRY_FLAG_ALL_ONES
  | Allocated off => Z.land off BME_TABLE_ENTRY_OFFSET_MASK
  end.

Definition div_round_up (a b : Z) : Z := if b =? 0 then 0 else sat_add a (b - 1) / b.

Definition granularity_bits_valid (bits : Z) : bool := (BME_MIN_GRANULARITY_BITS <=? bits) && (bits <=? BME_MAX_GRANULARITY_BITS).

Definition bitmap_bytes_needed (virtual_size granularity : Z) : Z :=
  if granularity =? 0 then 0 else div_round_up (div_round_up virtual_size granularity) 8.

Definition bitmap_table_size_entries (serialized_bytes cluster_size : Z) : Z :=
  if cluster_size =? 0 then 0 else div_round_up serialized_bytes cluster_size.

(** The directory. *)

Inductive BitmapError : Type :=
| BmUnsupportedFormat | BmUnsupportedVersion | BmParseFailed | BmHeaderMismatch | BitmapNotFound | BitmapExists | BitmapInUse
| NameTooLong | GranularityRange | TooManyBitmaps | NoSpace | BmWriteFailed | BmReadFailed | BmScratchTooSmall | InternalOverflow
| MergeSourceNotFound | UnsupportedAction | UnsupportedRefcountWidth | IncompatibleMerge.

#[global] Instance BitmapError_eq_dec : EqDecision BitmapError.
Proof. solve_decision. Defined.

Record FoundBitmap : Type := mkFoundBitmap {
  fb_index : Z;
  fb_entry : BitmapDirEntry;
  fb_byte_offset : Z;
  fb_entry_size : Z
}.

(** [dir.get(offset..)] parsed. *)
Definition entry_at (dir : bytes) (offset : Z) : outcome BitmapError (BitmapDirEntry * Z) :=
  let? rest := ok_or (slice dir offset (blen dir)) BmParseFailed in
  map_err (fun _ => BmParseFailed) (parse_bitmap_dir_entry rest).

Fixpoint byte_len_loop (dir : bytes) (n : nat) (offset : Z) : outcome BitmapError Z :=
  match n with
  | O => Ok offset
  | S n' => let? (_, entry_size) := entry_at dir offset in
            let? offset := ok_or (checked_add offset entry_size) BmParseFailed in
            byte_len_loop dir n' offset
  end.

Definition directory_byte_len (dir : bytes) (nb_bitmaps : Z) : outcome BitmapError Z := byte_len_loop dir (Z.to_nat nb_bitmaps) 0.

Fixpoint entry_bounds_loop (dir : bytes) (n : nat) (offset : Z) : outcome BitmapError (Z * Z) :=
  let? (_, entry_size) := entry_at dir offset in
  match n with
  | O => Ok (offset, entry_size)
  | S n' => let? offset := ok_or (checked_add offset entry_size) BmParseFailed in entry_bounds_loop dir n' offset
  end.

Definition entry_bounds (dir : bytes) (nb_bitmaps index : Z) : outcome BitmapError (Z * Z) :=
  if nb_bitmaps <=? index then Err BitmapNotFound else entry_bounds_loop dir (Z.to_nat index) 0.

Fixpoint find_bitmap_loop (dir : bytes) (n : nat) (i offset : Z) (name : bytes) : outcome BitmapError (option FoundBitmap) :=
  match n with
  | O => Ok None
  | S n' =>
      let? (entry, entry_size) := entry_at dir offset in
      if bool_decide (bm_name entry = name) then Ok (Some (mkFoundBitmap i entry offset entry_size))
      else
      let? offset := ok_or (checked_add offset entry_size) BmParseFailed in
      find_bitmap_loop dir n' (i + 1) offset name
  end.

Definition find_bitmap (dir : bytes) (nb_bitmaps : Z) (name : bytes) : outcome BitmapError (option FoundBitmap) :=
  find_bitmap_loop dir (Z.to_nat nb_bitmaps) 0 0 name.

(** The mutators write [out]. *)
Abbreviation BM := (SM bytes BitmapError).

Definition lift_none {A} (e : BitmapError) (m : DM A) : BM A := fun s => let '(r, s') := m s in (map_err (fun _ => e) r, s').

Definition obput (a : Z) (src : bytes) : BM unit := lift_none InternalOverflow (bput a src).

Definition build_directory_with_added (old_dir : bytes) (old_len : Z) (new_entry : BitmapDirEntry) : BM Z :=
  if blen old_dir <? old_len then sfail InternalOverflow
  else
  let! out := sget in
  if blen out <? old_len then sfail BmScratchTooSmall
  else
  let! old := slift (or_panic (slice old_dir 0 old_len)) in
  do! obput 0 old in
  let! appended := lift_none BmParseFailed (serialize_bitmap_dir_entry new_entry old_len) in
  slift (ok_or (checked_add old_len appended) InternalOverflow).

Fixpoint without_loop (dir : bytes) (n : nat) (i remove_index in_offset out_offset : Z) : BM Z :=
  match n with
  | O => sret out_offset
  | S n' =>
      let! (_, entry_size) := slift (entry_at dir in_offset) in
      let! end_in := slift (ok_or (checked_add in_offset entry_size) InternalOverflow) in
      if i =? remove_index then without_loop dir n' (i + 1) remove_index end_in out_offset
      else
      let! end_out := slift (ok_or (checked_add out_offset entry_size) InternalOverflow) in
      let! out := sget in
      if blen out <? end_out then sfail BmScratchTooSmall
      else
      let! e := slift (or_panic (slice dir in_offset end_in)) in
      do! obput out_offset e in
      without_loop dir n' (i + 1) remove_index end_in end_out
  end.

Definition build_directory_without (old_dir : bytes) (old_len nb_bitmaps remove_index : Z) : BM Z :=
  if nb_bitmaps <=? remove_index then sfail BitmapNotFound
  else if blen old_dir <? old_len then sfail InternalOverflow
  else
  let! dir := slift (or_panic (slice old_dir 0 old_len)) in
  without_loop dir (Z.to_nat nb_bitmaps) 0 remove_index 0 0.

(** The replacement goes through a stack buffer of 1048 bytes. *)
Definition serialized (e : BitmapDirEntry) : outcome BitmapError bytes :=
  match serialize_bitmap_dir_entry e 0 (filled 1048 0) with
  | (Ok written, scratch) => or_panic (slice scratch 0 written)
  | (Err _, _) => Err BmParseFailed
  | (Panic, _) => Panic
  | (OutOfFuel, _) => OutOfFuel
  end.

Fixpoint replacing_loop (dir : bytes) (n : nat) (i index in_offset out_offset : Z) (replacement : BitmapDirEntry) : BM Z :=
  match n with
  | O => sret out_offset
  | S n' =>
      let! (_, entry_size) := slift (entry_at dir in_offset) in
      let! end_in := slift (ok_or (checked_add in_offset entry_size) InternalOverflow) in
      let! end_out := slift (ok_or (checked_add out_offset entry_size) InternalOverflow) in
      let! out := sget in
      if blen out <? end_out then sfail BmScratchTooSmall
      else
      do! (if i =? index then
             let! e := slift (serialized replacement) in
             if negb (blen e =? entry_size) then sfail InternalOverflow else obput out_offset e
           else
             let! e := slift (or_panic (slice dir in_offset end_in)) in obput out_offset e) in
      replacing_loop dir n' (i + 1) index end_in end_out replacement
  end.

Definition build_directory_replacing (old_dir : bytes) (old_len nb_bitmaps index : Z) (replacement : BitmapDirEntry) : BM Z :=
  if nb_bitmaps <=? index then sfail BitmapNotFound
  else if blen old_dir <? old_len then sfail InternalOverflow
  else
  let! dir := slift (or_panic (slice old_dir 0 old_len)) in
  replacing_loop dir (Z.to_nat nb_bitmaps) 0 index 0 0 replacement.

(** The header extension that locates the directory. *)
Record BitmapsExtension : Type := mkBitmapsExtension {
  nb_bitmaps : Z;
  bitmap_directory_size : Z;
  bitmap_directory_offset : Z
}.

Definition be_u64_opt (buf : bytes) (off : Z) : outcome unit Z :=
  let? stop := ok_or (checked_add off 8) tt in
  if blen buf <? stop then Err tt else be_u64 buf off.

Definition parse_bitmaps_extension (data : bytes) : outcome unit BitmapsExtension :=
  if blen data <? 24 then Err tt
  else
  let? nb_bitmaps := be_u32 data 0 in
  let? bitmap_directory_size := be_u64_opt data 8 in
  let? bitmap_directory_offset := be_u64_opt data 16 in
  if (nb_bitmaps =? 0) || (QCOW2_MAX_BITMAPS <? nb_bitmaps) then Err tt
  else if QCOW2_MAX_BITMAP_DIRECTORY_SIZE <? bitmap_directory_size then Err tt
  else if (bitmap_directory_offset =? 0) || negb (bitmap_directory_offset mod 8 =? 0) then Err tt
  else Ok (mkBitmapsExtension nb_bitmaps bitmap_directory_size bitmap_directory_offset).

Definition serialize_bitmaps_extension (nb_bitmaps bitmap_directory_size bitmap_directory_offset : Z) : BM Z :=
  let! out := sget in
  if blen out <? 24 then sfail BmScratchTooSmall
  else
  do! obput 0 (be_bytes 4 nb_bitmaps) in
  do! obput 4 (be_bytes 4 0) in
  do! obput 8 (be_bytes 8 bitmap_directory_size) in
  do! obput 16 (be_bytes 8 bitmap_directory_offset) in
  sret 24.

(** ** The entry codec *)

Definition u16_at (buf : bytes) (off : Z) : Z := from_option be_val 0 (slice buf off (off + 2)).

(** The entry a head describes, and its size. *)
Definition entry_of (buf : bytes) : BitmapDirEntry :=
  mkBitmapDirEntry (u64_at buf 0) (u32_at buf 8) (u32_at buf 12) (byte_or_0 buf 16) (byte_or_0 buf 17) (u32_at buf 20)
    (default [] (slice buf 24 (24 + u16_at buf 18))).

Definition size_of (buf : bytes) : Z := round8 (24 + u16_at buf 18).

Definition head_ok (buf : bytes) : bool :=
  negb (nonzero (Z.land (u32_at buf 12) BME_RESERVED_FLAGS)) && (byte_or_0 buf 16 =? 1) && (u32_at buf 20 =? 0) &&
  negb (u16_at buf 18 =? 0) && (u16_at buf 18 <=? 1023).

Lemma u16_at_bound buf off : is_bytes buf -> 0 <= u16_at buf off <= u16_max.
Proof.
  intros Hb. unfold u16_at, u16_max. destruct (slice buf off (off + 2)) as [s|] eqn:Hs; cbn; [|lia].
  pose proof (be_val_bound s (slice_is_bytes _ _ _ _ Hb Hs)) as Hv. rewrite (slice_blen _ _ _ _ Hs) in Hv.
  replace (off + 2 - off) with 2 in Hv by lia. change (256 ^ 2) with 65536 in Hv. lia.
Qed.

Lemma parse_entry_eq buf : is_bytes buf ->
  parse_bitmap_dir_entry buf =
    if (24 <=? blen buf) && head_ok buf && (size_of buf <=? blen buf) then Ok (entry_of buf, size_of buf) else Err tt.
Proof.
  intros Hb. unfold parse_bitmap_dir_entry, head_ok. rewrite Z.ltb_antisym.
  destruct (Z.leb_spec 24 (blen buf)) as [Hl|]; cbn [negb andb]; [|done].
  assert (forall o, 0 <= o < 24 -> byte_at buf o = Some (byte_or_0 buf o)) as Hby.
  { intros o Ho. unfold byte_or_0. destruct (proj2 (byte_at_Some_iff buf o)) as [x ->]; [lia|done]. }
  rewrite be_u64_at, !be_u32_at by lia. rewrite !Hby by lia. cbn [obind or_panic].
  unfold be_u16. destruct (slice_of buf 18 (18 + 2)) as (s & Hs & _); [lia | lia |]. rewrite Hs. cbn [or_panic obind].
  assert (be_val s = u16_at buf 18) as -> by (unfold u16_at; by rewrite Hs).
  pose proof (u16_at_bound buf 18 Hb) as Hn. unfold u16_max in Hn. unfold BT_DIRTY_TRACKING_BITMAP, BME_MAX_NAME_SIZE.
  destruct (nonzero (Z.land (u32_at buf 12) BME_RESERVED_FLAGS)); cbn [negb andb]; [done|].
  destruct (byte_or_0 buf 16 =? 1); cbn [negb andb]; [|done].
  destruct (Z.eqb_spec (u32_at buf 20) 0) as [He|]; cbn [negb andb]; [|done]. rewrite He.
  destruct (u16_at buf 18 =? 0); cbn [negb andb orb]; [done|]. rewrite Z.ltb_antisym.
  destruct (Z.leb_spec (u16_at buf 18) 1023); cbn [negb andb]; [|done].
  change (checked_add 24 0) with (Some 24). cbn [mbind option_bind ok_or obind].
  rewrite !(checked_add_eq 24) by (unfold u64_max; lia). cbn [ok_or obind].
  rewrite round_up_8_eq by (unfold u64_max; lia). cbn [ok_or obind]. fold (size_of buf). rewrite Z.ltb_antisym.
  destruct (Z.leb_spec (size_of buf) (blen buf)) as [Hsz|]; cbn [negb]; [|done].
  pose proof (round8_spec (24 + u16_at buf 18)) as [Hr _]. fold (size_of buf) in Hr.
  destruct (Z.ltb_spec (blen buf) (24 + u16_at buf 18)); [lia|]. unfold entry_of. rewrite He.
  destruct (slice_of buf 24 (24 + u16_at buf 18)) as (nm & -> & _); [lia | lia |]. done.
Qed.

(** [r] is a raw entry that means [e]. *)
Definition raw_entry (r : bytes) (e : BitmapDirEntry) : Prop := is_bytes r /\ parse_bitmap_dir_entry r = Ok (e, blen r).

Lemma raw_entry_iff r e : raw_entry r e <->
  is_bytes r /\ 24 <= blen r /\ head_ok r = true /\ size_of r = blen r /\ e = entry_of r.
Proof.
  unfold raw_entry. split.
  - intros [Hb Hp]. rewrite (parse_entry_eq r Hb) in Hp. destruct (Z.leb_spec 24 (blen r)); [|done]. destruct (head_ok r); [|done].
    destruct (size_of r <=? blen r); [|done]. cbn [andb] in Hp. injection Hp as <- Hs. done.
  - intros (Hb & Hl & Hh & Hs & ->). split; [done|]. rewrite (parse_entry_eq r Hb), Hh, Hs, Z.leb_refl.
    destruct (Z.leb_spec 24 (blen r)); [done|lia].
Qed.

(** The head of a buffer is the head of its prefix. *)
Lemma head_prefix buf r : slice buf 0 (blen r) = Some r -> 24 <= blen r ->
  head_ok buf = head_ok r /\ size_of buf = size_of r /\ (size_of r <= blen r -> head_ok r = true -> entry_of buf = entry_of r).
Proof.
  intros Hs Hl. assert (forall a b, 0 <= a -> b <= blen r -> slice buf a b = slice r a b) as Hsl by (intros a b Ha Hb; by apply slice_of_prefix with (blen r)).
  assert (forall o, 0 <= o -> o + 4 <= blen r -> u32_at buf o = u32_at r o) as H4 by (intros o Ho Hb; apply u32_at_same, Hsl; lia).
  assert (u64_at buf 0 = u64_at r 0) as H8 by (apply u64_at_same, Hsl; lia).
  assert (u16_at buf 18 = u16_at r 18) as H2 by (unfold u16_at; rewrite Hsl by lia; done).
  assert (forall o, 0 <= o < 24 -> byte_or_0 buf o = byte_or_0 r o) as H1.
  { intros o Ho. unfold byte_or_0. pose proof (slice_byte _ _ _ _ o Hs ltac:(lia)) as Hb1. rewrite Z.add_0_l in Hb1. by rewrite Hb1. }
  unfold head_ok, size_of, entry_of. rewrite H2, H8, !H4, !H1 by lia. split; [done|]. split; [done|]. intros Hsz Hh.
  pose proof (round8_spec (24 + u16_at r 18)) as [Hr _]. rewrite Hsl by lia. done.
Qed.

Lemma entry_at_raw dir off r e : is_bytes dir -> 0 <= off -> slice dir off (off + blen r) = Some r -> raw_entry r e ->
  entry_at dir off = Ok (e, blen r).
Proof.
  intros Hb Ho Hs Hr. apply raw_entry_iff in Hr as (Hrb & Hl & Hh & Hsz & ->). pose proof (slice_Some _ _ _ _ Hs) as (? & ? & _).
  unfold entry_at. destruct (slice_of dir off (blen dir)) as (rest & Hrest & Hrl); [lia | lia |]. rewrite Hrest. cbn [ok_or obind].
  assert (slice rest 0 (blen r) = Some r) as Hpre by (rewrite (slice_slice dir off (blen dir) rest 0 (blen r) Hrest) by lia; by rewrite Z.add_0_r).
  destruct (head_prefix rest r Hpre Hl) as (H1 & H2 & H3). rewrite (parse_entry_eq rest (slice_is_bytes _ _ _ _ Hb Hrest)).
  rewrite H1, H2, Hh, Hsz, H3 by (done || lia). destruct (Z.leb_spec 24 (blen rest)); [|lia].
  destruct (Z.leb_spec (blen r) (blen rest)); [done|lia].
Qed.

Lemma entry_at_spec dir off : is_bytes dir -> 0 <= off <= blen dir ->
  match entry_at dir off with
  | Ok (e, n) => exists r, slice dir off (off + n) = Some r /\ raw_entry r e /\ n = blen r
  | Err x => x = BmParseFailed
  | _ => False
  end.
Proof.
  intros Hb Ho. unfold entry_at. destruct (slice_of dir off (blen dir)) as (rest & Hrest & Hrl); [lia | lia |]. rewrite Hrest. cbn [ok_or obind].
  pose proof (slice_is_bytes _ _ _ _ Hb Hrest) as Hrb. rewrite (parse_entry_eq rest Hrb).
  destruct (Z.leb_spec 24 (blen rest)) as [Hl|]; [|done]. destruct (head_ok rest) eqn:Hh; [|done].
  destruct (Z.leb_spec (size_of rest) (blen rest)) as [Hsz|]; [|done]. cbn [andb map_err].
  assert (24 <= size_of rest) as H24.
  { unfold size_of. pose proof (round8_spec (24 + u16_at rest 18)) as [? _]. pose proof (u16_at_bound rest 18 Hrb). lia. }
  destruct (slice_of rest 0 (size_of rest)) as (r & Hr & Hrl2); [lia | lia |]. rewrite Z.sub_0_r in Hrl2. exists r.
  split; [|split; [|done]].
  - rewrite <- Hr. rewrite (slice_slice dir off (blen dir) rest 0 (size_of rest) Hrest) by lia. by rewrite Z.add_0_r.
  - rewrite <- Hrl2 in Hr. destruct (head_prefix rest r Hr ltac:(lia)) as (H1 & H2 & H3).
    apply raw_entry_iff. split; [by eapply slice_is_bytes|]. split; [lia|]. rewrite <- H1. split; [done|]. split; [lia|]. apply H3; [lia|congruence].
Qed.

(** ** Serialising *)

Definition entry_fields (e : BitmapDirEntry) : list (nat * Z) :=
  [(8%nat, bitmap_table_offset e); (4%nat, bitmap_table_size e); (4%nat, bm_flags e); (1%nat, bitmap_type e);
   (1%nat, granularity_bits e); (2%nat, blen (bm_name e)); (4%nat, bm_extra_data_size e)].

Definition entry_size (e : BitmapDirEntry) : Z := round8 (24 + blen (bm_name e)).

(** The bytes of an entry. *)
Definition enc (e : BitmapDirEntry) : bytes :=
  be_fields (entry_fields e) ++ bm_name e ++ filled (entry_size e - (24 + blen (bm_name e))) 0.

(** The entries the parser accepts. *)
Record entry_wf (e : BitmapDirEntry) : Prop := {
  wf_off : is_u64 (bitmap_table_offset e);
  wf_size : is_u32 (bitmap_table_size e);
  wf_flags : is_u32 (bm_flags e);
  wf_reserved : Z.land (bm_flags e) BME_RESERVED_FLAGS = 0;
  wf_type : bitmap_type e = BT_DIRTY_TRACKING_BITMAP;
  wf_gran : is_u8 (granularity_bits e);
  wf_extra : bm_extra_data_size e = 0;
  wf_name : is_bytes (bm_name e);
  wf_name_size : 1 <= blen (bm_name e) <= BME_MAX_NAME_SIZE
}.

Lemma blen_enc e : blen (enc e) = entry_size e.
Proof.
  unfold enc, entry_size. pose proof (round8_spec (24 + blen (bm_name e))) as [? _]. rewrite !blen_app, blen_be_fields, blen_filled by lia.
  change (Z.of_nat (sum_list (map fst (entry_fields e)))) with 24. lia.
Qed.

Lemma be_bytes_1 v : is_u8 v -> be_bytes 1 v = [v].
Proof. intros Hv. unfold is_u8, u8_max in Hv. cbn. rewrite Z.mod_small by lia. done. Qed.

(** A write that continues the last one. *)
Lemma wp_bput_next o0 base p src o (Q : unit -> bytes -> Prop) (R : unit -> bytes -> Prop) :
  splice o0 base p = Some o -> base + blen p + blen src <= blen o0 ->
  (forall o', splice o0 base (p ++ src) = Some o' -> Q tt o') -> wp (bput (base + blen p) src) Q R o.
Proof.
  intros Hp Hl HQ. pose proof (splice_Some _ _ _ _ Hp) as (? & ? & _). pose proof (splice_blen _ _ _ _ Hp). pose proof (blen_nonneg p).
  destruct (splice_of o (base + blen p) src) as (o' & Ho & _); [lia | lia |].
  unfold bput. wstep. wstep. wstep. wstep. rewrite Ho. cbn [or_panic]. wstep. apply HQ. by eapply splice_app.
Qed.

Ltac next_bput H := wstep;
  lazymatch type of H with splice _ ?base ?p = _ =>
    lazymatch goal with |- wp (bput ?a _) _ _ _ =>
      let Hq := fresh "Hq" in assert (a = base + blen p) as Hq by (rewrite ?blen_app, ?blen_be_bytes, ?blen_cons; change (blen []) with 0; lia);
      rewrite Hq; clear Hq end end;
  eapply wp_bput_next; [exact H | rewrite ?blen_app, ?blen_be_bytes, ?blen_cons; change (blen []) with 0; lia |];
  clear H; let o := fresh "o" in intros o H.

Lemma serialize_dir_spec e base out : entry_wf e -> 0 <= base <= blen out ->
  wp (serialize_bitmap_dir_entry e base)
    (fun n out' => n = entry_size e /\ splice out base (enc e) = Some out')
    (fun _ out' => out' = out /\ blen out < base + entry_size e) out.
Proof.
  intros [H1 H2 H3 H4 H5 H6 H7 H8 H9] Hb. unfold serialize_bitmap_dir_entry, BME_MAX_NAME_SIZE in *.
  pose proof (round8_spec (24 + blen (bm_name e))) as [Hr _]. fold (entry_size e) in Hr. rewrite H7.
  destruct (Z.ltb_spec 1023 (blen (bm_name e))); [lia|].
  wstep. wstep. change (checked_add 24 0) with (Some 24). cbn [mbind option_bind].
  rewrite checked_add_eq by (unfold u64_max; lia). cbn [ok_or]. wstep. wstep. rewrite round_up_8_eq by (unfold u64_max; lia). cbn [ok_or].
  fold (entry_size e). wstep. wstep. destruct (Z.ltb_spec (blen out - base) (entry_size e)); [wstep; split; [done|lia]|].
  assert (splice out base [] = Some out) as Hw by (apply splice_nil; lia).
  replace base with (base + blen []) at 1 by (change (blen []) with 0; lia).
  wstep. eapply wp_bput_next; [exact Hw | rewrite blen_be_bytes; change (blen []) with 0; lia |]. clear Hw. intros o Hw. cbn [app] in Hw.
  do 6 next_bput Hw.
  wstep. wstep. cbn [ok_or]. wstep. wstep. rewrite checked_add_eq by (unfold u64_max; lia). cbn [ok_or].
  destruct (Z.ltb_spec (entry_size e) (24 + blen (bm_name e))); [lia|].
  next_bput Hw. change (filled (24 - 24) 0) with (@nil Z).
  wstep. unfold bput at 1. wstep. wstep. wstep. wstep. pose proof (splice_blen _ _ _ _ Hw).
  rewrite splice_nil by (rewrite ?blen_app, ?blen_be_bytes, ?blen_cons; change (blen []) with 0; lia). cbn [or_panic]. wstep.
  pose proof (blen_filled (entry_size e - (24 + blen (bm_name e))) 0 ltac:(lia)) as Hfl.
  next_bput Hw. wstep. split; [done|]. rewrite <- Hw. f_equal. unfold enc, be_fields, entry_fields. cbn [map concat fst snd].
  rewrite H7, (be_bytes_1 (bitmap_type e)), (be_bytes_1 (granularity_bits e)) by (rewrite ?H5; done). by rewrite <- !app_assoc.
Qed.

(** Field [k] of an encoded entry. *)
Lemma enc_slice e fs1 n v fs2 : entry_fields e = fs1 ++ (n, v) :: fs2 ->
  let off := Z.of_nat (sum_list (map fst fs1)) in slice (enc e) off (off + Z.of_nat n) = Some (be_bytes n v).
Proof. intros Hf. unfold enc. rewrite Hf. apply field_slice. Qed.

Lemma enc_head e : entry_wf e ->
  u64_at (enc e) 0 = bitmap_table_offset e /\ u32_at (enc e) 8 = bitmap_table_size e /\ u32_at (enc e) 12 = bm_flags e /\
  byte_or_0 (enc e) 16 = bitmap_type e /\ byte_or_0 (enc e) 17 = granularity_bits e /\
  u16_at (enc e) 18 = blen (bm_name e) /\ u32_at (enc e) 20 = 0.
Proof.
  intros [H1 H2 H3 H4 H5 H6 H7 H8 H9]. unfold is_u64, is_u32, u64_max, u32_max, BME_MAX_NAME_SIZE in *.
  pose proof (enc_slice e [] _ _ _ eq_refl) as F0. pose proof (enc_slice e (take 1 (entry_fields e)) _ _ _ eq_refl) as F1.
  pose proof (enc_slice e (take 2 (entry_fields e)) _ _ _ eq_refl) as F2.
  pose proof (enc_slice e (take 3 (entry_fields e)) _ _ _ eq_refl) as F3. pose proof (enc_slice e (take 4 (entry_fields e)) _ _ _ eq_refl) as F4.
  pose proof (enc_slice e (take 5 (entry_fields e)) _ _ _ eq_refl) as F5. pose proof (enc_slice e (take 6 (entry_fields e)) _ _ _ eq_refl) as F6.
  change (slice (enc e) 0 8 = Some (be_bytes 8 (bitmap_table_offset e))) in F0. change (slice (enc e) 8 12 = Some (be_bytes 4 (bitmap_table_size e))) in F1.
  change (slice (enc e) 12 16 = Some (be_bytes 4 (bm_flags e))) in F2. change (slice (enc e) 16 17 = Some (be_bytes 1 (bitmap_type e))) in F3.
  change (slice (enc e) 17 18 = Some (be_bytes 1 (granularity_bits e))) in F4. change (slice (enc e) 18 20 = Some (be_bytes 2 (blen (bm_name e)))) in F5.
  change (slice (enc e) 20 24 = Some (be_bytes 4 (bm_extra_data_size e))) in F6.
  rewrite (be_bytes_1 (bitmap_type e)) in F3 by (rewrite H5; done). rewrite be_bytes_1 in F4 by done.
  pose proof (slice_byte _ _ _ _ 0 F3 ltac:(lia)) as B3. pose proof (slice_byte _ _ _ _ 0 F4 ltac:(lia)) as B4.
  unfold u64_at, u32_at, u16_at, byte_or_0. change (0 + 8) with 8; change (8 + 4) with 12; change (12 + 4) with 16; change (18 + 2) with 20; change (20 + 4) with 24.
  rewrite F0, F1, F2, F5, F6, H7. cbn [from_option].
  rewrite !be_val_bytes by (change (256 ^ Z.of_nat 8) with 18446744073709551616; change (256 ^ Z.of_nat 4) with 4294967296;
    change (256 ^ Z.of_nat 2) with 65536; lia).
  change (16 + 0) with 16 in B3. change (17 + 0) with 17 in B4. rewrite <- B3, <- B4. done.
Qed.

Lemma enc_bytes e : entry_wf e -> is_bytes (enc e).
Proof.
  intros [H1 H2 H3 H4 H5 H6 H7 H8 H9]. unfold enc, is_bytes. rewrite !Forall_app. split; [|split; [done|by apply filled_is_bytes]].
  unfold be_fields. rewrite Forall_concat, Forall_map. apply Forall_forall. intros f _. apply be_bytes_is_bytes.
Qed.

(** What is serialised is parsed back. *)
Lemma enc_raw e : entry_wf e -> raw_entry (enc e) e.
Proof.
  intros He. destruct (enc_head e He) as (F0 & F1 & F2 & F3 & F4 & F5 & F6). pose proof (enc_bytes e He) as Hb.
  destruct He as [H1 H2 H3 H4 H5 H6 H7 H8 H9]. unfold BME_MAX_NAME_SIZE in *.
  pose proof (round8_spec (24 + blen (bm_name e))) as [Hr _]. fold (entry_size e) in Hr.
  apply raw_entry_iff. rewrite blen_enc. split; [done|]. split; [lia|]. split.
  { unfold head_ok. rewrite F2, F3, F5, F6, H4, H5. cbn. destruct (Z.eqb_spec (blen (bm_name e)) 0), (Z.leb_spec (blen (bm_name e)) 1023); cbn; lia. }
  unfold size_of. rewrite F5. split; [done|]. unfold entry_of. rewrite F0, F1, F2, F3, F4, F5, F6.
  assert (blen (be_fields (entry_fields e)) = 24) as Hf by (rewrite blen_be_fields; done).
  pose proof (slice_right (be_fields (entry_fields e)) (bm_name e ++ filled (entry_size e - (24 + blen (bm_name e))) 0) 0 (blen (bm_name e)) ltac:(lia)) as Hs.
  rewrite Hf, slice_left, Z.add_0_r in Hs. fold (enc e) in Hs. rewrite Hs. destruct e; cbn in *. by rewrite H7.
Qed.

Lemma byte_or_0_u8 r off : is_bytes r -> is_u8 (byte_or_0 r off).
Proof.
  intros Hb. unfold byte_or_0. destruct (byte_at r off) as [x|] eqn:Hx; cbn; [|unfold is_u8, u8_max; lia].
  apply (byte_at_u8 _ _ _ Hb Hx).
Qed.

(** What is parsed is well formed. *)
Lemma raw_wf r e : raw_entry r e -> entry_wf e /\ blen r = entry_size e.
Proof.
  intros Hr. apply raw_entry_iff in Hr as (Hb & Hl & Hh & Hs & ->). pose proof (round8_spec (24 + u16_at r 18)) as [Hrd _].
  unfold head_ok in Hh. rewrite !andb_true_iff, !negb_true_iff in Hh. destruct Hh as [[[[Hh1 Hh2] Hh3] Hh4] Hh5].
  apply Z.eqb_eq in Hh2, Hh3. apply Z.eqb_neq in Hh4. apply Z.leb_le in Hh5. pose proof (u16_at_bound r 18 Hb).
  assert (size_of r = round8 (24 + u16_at r 18)) as Hsz by done.
  destruct (slice_of r 24 (24 + u16_at r 18)) as (nm & Hnm & Hnl); [lia | lia |].
  unfold entry_of, entry_size. rewrite Hnm. cbn [default from_option id bm_name]. replace (blen nm) with (u16_at r 18) by lia.
  split; [|lia]. split; cbn; try done; try (apply u32_at_u32; done); unfold BME_MAX_NAME_SIZE; try lia.
  - by apply u64_at_u64.
  - unfold nonzero in Hh1. by apply negb_false_iff, Z.eqb_eq in Hh1.
  - by apply (byte_or_0_u8 r 17).
  - by apply (slice_is_bytes _ _ _ _ Hb Hnm).
Qed.

(** ** The directory as a list of raw entries *)

(** The first [L] bytes of [dir] are the raw entries [rs], packed. *)
Record dir_is (dir : bytes) (L : Z) (rs : list bytes) : Prop := {
  di_bytes : slice dir 0 L = Some (concat rs);
  di_raw : Forall (fun r => raw_entry r (entry_of r)) rs
}.

(** Its entries. *)
Definition entries (rs : list bytes) : list BitmapDirEntry := map entry_of rs.

(** The length of packed entries. *)
Definition plen (rs : list bytes) : Z := blen (concat rs).

Lemma plen_app rs1 rs2 : plen (rs1 ++ rs2) = plen rs1 + plen rs2.
Proof. unfold plen. by rewrite concat_app, blen_app. Qed.

Lemma plen_cons r rs : plen (r :: rs) = blen r + plen rs.
Proof. unfold plen. cbn [concat]. by rewrite blen_app. Qed.

Lemma plen_nonneg rs : 0 <= plen rs.
Proof. apply blen_nonneg. Qed.

Lemma raw_self r e : raw_entry r e -> raw_entry r (entry_of r) /\ e = entry_of r.
Proof. intros Hr. pose proof Hr as Hr2. apply raw_entry_iff in Hr as (_ & _ & _ & _ & ->). done. Qed.

Lemma raw_parts r : raw_entry r (entry_of r) -> is_bytes r /\ 24 <= blen r.
Proof. intros Hr. apply raw_entry_iff in Hr as (? & ? & _). done. Qed.

Lemma dir_is_len dir L rs : dir_is dir L rs -> L = plen rs /\ 0 <= L <= blen dir.
Proof.
  intros [Hs _]. pose proof (slice_Some _ _ _ _ Hs) as (? & ? & _). pose proof (slice_blen _ _ _ _ Hs). unfold plen. lia.
Qed.

(** The entry after [rs1]. *)
Lemma dir_is_entry dir L rs1 r rs2 : dir_is dir L (rs1 ++ r :: rs2) ->
  raw_entry r (entry_of r) /\ slice dir (plen rs1) (plen rs1 + blen r) = Some r /\ plen rs1 + blen r <= L.
Proof.
  intros Hd. destruct (dir_is_len _ _ _ Hd) as [HL Hb]. destruct Hd as [Hs Hr]. rewrite plen_app, plen_cons in HL.
  pose proof (plen_nonneg rs1). pose proof (plen_nonneg rs2). pose proof (blen_nonneg r).
  split; [apply Forall_app in Hr as [_ Hr]; by inversion Hr|]. split; [|lia].
  rewrite (slice_of_prefix dir L (concat (rs1 ++ r :: rs2)) (plen rs1) (plen rs1 + blen r) Hs) by lia.
  rewrite concat_app. cbn [concat]. pose proof (slice_right (concat rs1) (r ++ concat rs2) 0 (blen r) ltac:(lia)) as Hq.
  rewrite slice_left, Z.add_0_r in Hq. exact Hq.
Qed.

Lemma dir_entry_at dir L rs1 r rs2 : table_ok dir -> dir_is dir L (rs1 ++ r :: rs2) ->
  entry_at dir (plen rs1) = Ok (entry_of r, blen r) /\ checked_add (plen rs1) (blen r) = Some (plen (rs1 ++ [r])).
Proof.
  intros [Hb Hl] Hd. destruct (dir_is_entry _ _ _ _ _ Hd) as (Hr & Hs & HL). destruct (dir_is_len _ _ _ Hd) as [_ HLb].
  pose proof (plen_nonneg rs1). pose proof (blen_nonneg r). split; [by apply entry_at_raw|].
  rewrite checked_add_eq by (unfold u64_max; lia). rewrite plen_app, plen_cons. change (plen []) with 0. f_equal. lia.
Qed.

Lemma byte_len_walk rs2 : forall dir L rs1, table_ok dir -> dir_is dir L (rs1 ++ rs2) ->
  byte_len_loop dir (length rs2) (plen rs1) = Ok L.
Proof.
  induction rs2 as [|r rs2 IH]; intros dir L rs1 Ht Hd; cbn [byte_len_loop length].
  { destruct (dir_is_len _ _ _ Hd) as [-> _]. by rewrite app_nil_r. }
  destruct (dir_entry_at _ _ _ _ _ Ht Hd) as [He Hc]. rewrite He. cbn [obind]. rewrite Hc. cbn [ok_or obind]. apply IH; [done|]. by rewrite <- app_assoc.
Qed.

(** The parser accepts exactly the packed directories. *)
Lemma byte_len_dir dir n L : table_ok dir -> 0 <= n ->
  directory_byte_len dir n = Ok L <-> exists rs, Z.of_nat (length rs) = n /\ dir_is dir L rs.
Proof.
  intros Ht Hn. unfold directory_byte_len. split.
  - enough (forall m rs1 L, dir_is dir (plen rs1) rs1 -> byte_len_loop dir m (plen rs1) = Ok L ->
      exists rs, length rs = m /\ dir_is dir L (rs1 ++ rs)) as Hgen.
    { intros Hl. destruct (Hgen (Z.to_nat n) [] L) as (rs & Hlen & Hd); [|done|].
      - split; [|done]. change (plen []) with 0. rewrite slice_Some_2 by (pose proof (blen_nonneg dir); lia). done.
      - exists rs. split; [lia|done]. }
    induction m as [|m IH]; intros rs1 L' Hd Hl; cbn [byte_len_loop] in Hl.
    { injection Hl as <-. exists []. by rewrite app_nil_r. }
    destruct (dir_is_len _ _ _ Hd) as [_ Hb]. pose proof (entry_at_spec dir (plen rs1) (proj1 Ht) Hb) as He.
    destruct (entry_at dir (plen rs1)) as [[e k]|x| |]; try done. destruct He as (r & Hs & Hr & ->). cbn [obind] in Hl.
    destruct (raw_self _ _ Hr) as [Hr' ->]. pose proof (slice_Some _ _ _ _ Hs) as (? & ? & _). pose proof Ht as [_ Htl].
    rewrite checked_add_eq in Hl by (unfold u64_max; pose proof (blen_nonneg r); lia). cbn [ok_or obind] in Hl.
    assert (plen rs1 + blen r = plen (rs1 ++ [r])) as Hp by (rewrite plen_app, plen_cons; change (plen []) with 0; lia).
    rewrite Hp in Hl. destruct (IH (rs1 ++ [r]) L') as (rs & Hlen & Hd2); [|done|].
    + destruct Hd as [Hd1 Hd2]. split; [|apply Forall_app; split; [done|]; by apply Forall_singleton].
      rewrite <- Hp, concat_app. cbn. rewrite app_nil_r. by apply slice_join with (plen rs1).
    + exists (r :: rs). split; [cbn; lia|]. by rewrite <- app_assoc in Hd2.
  - intros (rs & Hlen & Hd). replace (Z.to_nat n) with (length rs) by lia. by apply (byte_len_walk rs dir L []).
Qed.

(** ** Looking up *)

(** The first entry with a name, and what [find_bitmap] reports of it. *)
Definition named (name : bytes) (rs : list bytes) : option (nat * bytes) := list_find (fun r => bm_name (entry_of r) = name) rs.

Definition found_at (i off : Z) (rs : list bytes) (kr : nat * bytes) : FoundBitmap :=
  mkFoundBitmap (i + Z.of_nat kr.1) (entry_of kr.2) (off + plen (take kr.1 rs)) (blen kr.2).

Lemma find_walk rs2 : forall dir L rs1 i name, table_ok dir -> dir_is dir L (rs1 ++ rs2) ->
  find_bitmap_loop dir (length rs2) i (plen rs1) name = Ok (found_at i (plen rs1) rs2 <$> named name rs2).
Proof.
  induction rs2 as [|r rs2 IH]; intros dir L rs1 i name Ht Hd; cbn [find_bitmap_loop length]; [done|].
  destruct (dir_entry_at _ _ _ _ _ Ht Hd) as [He Hc]. rewrite He. cbn [obind]. unfold named. cbn [list_find].
  case_bool_decide as Hn; destruct (decide (bm_name (entry_of r) = name)) as [?|?]; try done.
  - unfold found_at. cbn. by rewrite !Z.add_0_r.
  - rewrite Hc. cbn [ok_or obind].
    rewrite (IH dir L (rs1 ++ [r]) (i + 1) name Ht) by (by rewrite <- app_assoc). fold (named name rs2).
    destruct (named name rs2) as [[k r']|]; cbn; [|done]. unfold found_at. cbn. f_equal. f_equal. f_equal; [lia|].
    rewrite plen_app, !plen_cons. change (plen []) with 0. lia.
Qed.

Lemma find_dir dir L rs name : table_ok dir -> dir_is dir L rs ->
  find_bitmap dir (Z.of_nat (length rs)) name = Ok (found_at 0 0 rs <$> named name rs).
Proof. intros Ht Hd. unfold find_bitmap. rewrite Nat2Z.id. by apply (find_walk rs dir L []). Qed.

Lemma bounds_dir dir L rs (k : nat) r : table_ok dir -> dir_is dir L rs -> rs !! k = Some r ->
  entry_bounds dir (Z.of_nat (length rs)) (Z.of_nat k) = Ok (plen (take k rs), blen r).
Proof.
  intros Ht Hd Hk. pose proof (lookup_lt_Some _ _ _ Hk). unfold entry_bounds.
  destruct (Z.leb_spec (Z.of_nat (length rs)) (Z.of_nat k)); [lia|]. rewrite Nat2Z.id.
  enough (forall rs2 rs1 j, rs = rs1 ++ rs2 -> rs2 !! j = Some r -> entry_bounds_loop dir j (plen rs1) = Ok (plen (rs1 ++ take j rs2), blen r)) as Hgen
    by (apply (Hgen rs []); done).
  clear k Hk H H0. induction rs2 as [|r2 rs2 IH]; intros rs1 j -> Hj; [done|].
  destruct (dir_entry_at _ _ _ _ _ Ht Hd) as [He Hc]. destruct j as [|j]; cbn [entry_bounds_loop]; rewrite He; cbn [obind].
  - injection Hj as ->. cbn. by rewrite app_nil_r.
  - rewrite Hc. cbn [ok_or obind]. rewrite (IH (rs1 ++ [r2]) j) by (done || by rewrite <- app_assoc). cbn. by rewrite <- app_assoc.
Qed.

(** ** Rebuilding *)

Lemma wp_obput a src out (Q : unit -> bytes -> Prop) (R : BitmapError -> bytes -> Prop) :
  0 <= a -> a + blen src <= blen out ->
  (forall out', splice out a src = Some out' -> blen out' = blen out -> Q tt out') -> wp (obput a src) Q R out.
Proof.
  intros Ha Hl HQ. destruct (splice_of out a src Ha Hl) as (out' & Ho & Hlen).
  unfold obput, lift_none, wp, bput, sbind, sget, slift, sput. rewrite Ho. cbn. by apply HQ.
Qed.

(** [obput] after the packed entries [kept] makes them [kept ++ [r]]. *)
Lemma wp_obput_pack kept r out (Q : unit -> bytes -> Prop) (R : BitmapError -> bytes -> Prop) :
  slice out 0 (plen kept) = Some (concat kept) -> plen kept + blen r <= blen out ->
  (forall out', slice out' 0 (plen (kept ++ [r])) = Some (concat (kept ++ [r])) -> blen out' = blen out -> (is_bytes out -> is_bytes r -> is_bytes out') ->
     Q tt out') -> wp (obput (plen kept) r) Q R out.
Proof.
  intros Hk Hl HQ. pose proof (plen_nonneg kept). apply wp_obput; [lia | done |]. intros out' Hs Hlen. apply HQ; [|done|].
  - rewrite plen_app, plen_cons, concat_app. change (plen []) with 0. cbn [concat]. rewrite app_nil_r, Z.add_0_r.
    apply slice_join with (plen kept); [|by apply slice_splice_eq with out]. by rewrite (slice_splice_ne _ _ _ _ _ _ Hs) by lia.
  - intros Hb Hr. by apply (splice_is_bytes _ _ _ _ Hb Hr Hs).
Qed.

Lemma wp_lift_none {A} (x : BitmapError) (m : DM A) (Q : A -> bytes -> Prop) (R : BitmapError -> bytes -> Prop) s :
  wp m Q (fun _ => R x) s -> wp (lift_none x m) Q R s.
Proof. unfold wp, lift_none. destruct (m s) as [[a|e| |] s']; cbn; done. Qed.

Lemma add_dir dir L rs e out : table_ok dir -> is_bytes out -> dir_is dir L rs -> entry_wf e ->
  wp (build_directory_with_added dir L e)
    (fun n out' => dir_is out' n (rs ++ [enc e]) /\ blen out' = blen out /\ is_bytes out')
    (fun x _ => blen out < plen (rs ++ [enc e]) /\ x = if blen out <? L then BmScratchTooSmall else BmParseFailed) out.
Proof.
  intros [Hb Hl] Ho Hd He. destruct (dir_is_len _ _ _ Hd) as [HL HLb]. destruct Hd as [Hs Hr].
  assert (plen (rs ++ [enc e]) = L + entry_size e) as Hp by (rewrite plen_app, plen_cons, blen_enc; change (plen []) with 0; lia).
  assert (0 < entry_size e) as Hes by (unfold entry_size; pose proof (round8_spec (24 + blen (bm_name e))); pose proof (blen_nonneg (bm_name e)); lia).
  assert (entry_size e <= 1048) as Hes2.
  { unfold entry_size. pose proof (wf_name_size e He) as Hn. unfold BME_MAX_NAME_SIZE in Hn.
    unfold round8. pose proof (Z.div_le_mono (24 + blen (bm_name e) + 7) 1054 8 ltac:(lia) ltac:(lia)) as Hd8. change (1054 / 8) with 131 in Hd8. lia. }
  unfold build_directory_with_added. destruct (Z.ltb_spec (blen dir) L); [lia|]. wstep. wstep.
  destruct (Z.ltb_spec (blen out) L); [wstep; split; [lia|done]|]. wstep. wstep. rewrite Hs. cbn [or_panic].
  wstep. change 0 with (plen []). assert (blen (concat rs) = L) as Hcl by (unfold plen in HL; lia).
  apply wp_obput; [done | change (plen []) with 0; lia |]. intros o1 Ho1 Hl1.
  pose proof (slice_splice_eq _ _ _ _ Ho1) as He1. rewrite Hcl in He1. change (plen [] + L) with L in He1. change (plen []) with 0 in *.
  assert (is_bytes o1) as Hb1 by (apply (splice_is_bytes _ _ _ _ Ho (slice_is_bytes _ _ _ _ Hb Hs) Ho1)).
  wstep. apply wp_lift_none. eapply wp_mono; [apply (serialize_dir_spec e L o1 He); lia | |].
  - cbn beta. intros n o2 [-> Ho2]. wstep. rewrite checked_add_eq by (unfold u64_max; lia). cbn [ok_or].
    split; [|split; [by rewrite (splice_blen _ _ _ _ Ho2)|by apply (splice_is_bytes _ _ _ _ Hb1 (enc_bytes e He) Ho2)]].
    split; [|apply Forall_app; split; [done|]; apply Forall_singleton; by destruct (raw_self _ _ (enc_raw e He)) as [? _]].
    rewrite concat_app. cbn [concat]. rewrite app_nil_r. apply slice_join with L.
    + by rewrite (slice_splice_ne _ _ _ _ _ _ Ho2) by lia.
    + rewrite <- (blen_enc e). by apply slice_splice_eq with o1.
  - cbn beta. intros _ o2 [-> Hlt]. split; [lia|done].
Qed.

(** The entries left when entry [r] is dropped from [todo], whose first is entry [i]. *)
Definition dropped (i r : Z) (todo : list bytes) : list bytes := if i <=? r then delete (Z.to_nat (r - i)) todo else todo.

Lemma dropped_cons i r e todo : dropped i r (e :: todo) = if i =? r then todo else e :: dropped (i + 1) r todo.
Proof.
  unfold dropped. destruct (Z.leb_spec i r), (Z.eqb_spec i r), (Z.leb_spec (i + 1) r); try lia; try done.
  - subst. by rewrite Z.sub_diag.
  - by replace (Z.to_nat (r - i)) with (S (Z.to_nat (r - (i + 1)))) by lia.
Qed.

(** The compaction loop, having kept [kept] of the entries [past]. *)
Lemma without_walk todo : forall dir L past kept i r out, table_ok dir -> is_bytes out -> dir_is dir L (past ++ todo) ->
  slice out 0 (plen kept) = Some (concat kept) -> plen kept <= plen past -> 0 <= i ->
  wp (without_loop dir (length todo) i r (plen past) (plen kept))
    (fun n out' => n = plen (kept ++ dropped i r todo) /\ slice out' 0 n = Some (concat (kept ++ dropped i r todo)) /\
       blen out' = blen out /\ is_bytes out')
    (fun x _ => x = BmScratchTooSmall /\ blen out < plen (kept ++ dropped i r todo)) out.
Proof.
  induction todo as [|e todo IH]; intros dir L past kept i r out Ht Ho Hd Hk Hkp Hi; cbn [without_loop length].
  { wstep. assert (dropped i r [] = []) as -> by (unfold dropped; by destruct (i <=? r)). by rewrite app_nil_r. }
  destruct (dir_entry_at _ _ _ _ _ Ht Hd) as [He Hc]. destruct (dir_is_entry _ _ _ _ _ Hd) as (Hr & Hs & HL).
  destruct (dir_is_len _ _ _ Hd) as [_ HLb]. pose proof (raw_parts e Hr) as [Hrb Hr24]. pose proof Ht as [_ Htl].
  pose proof (slice_Some _ _ _ _ Hk) as (? & ? & _). pose proof (plen_nonneg kept). pose proof (plen_nonneg past).
  assert (plen (past ++ [e]) = plen past + blen e) as Hpe by (rewrite plen_app, plen_cons; change (plen []) with 0; lia).
  assert (plen (kept ++ [e]) = plen kept + blen e) as Hke by (rewrite plen_app, plen_cons; change (plen []) with 0; lia).
  replace (past ++ e :: todo) with ((past ++ [e]) ++ todo) in Hd by (by rewrite <- app_assoc).
  wstep. wstep. rewrite He. wstep. wstep. rewrite Hc. cbn [ok_or]. rewrite dropped_cons.
  destruct (Z.eqb_spec i r) as [->|Hne].
  - pose proof (IH dir L (past ++ [e]) kept (r + 1) r out Ht Ho Hd Hk ltac:(lia) ltac:(lia)) as IHr.
    unfold dropped in IHr. destruct (Z.leb_spec (r + 1) r); [lia|]. exact IHr.
  - wstep. wstep. rewrite checked_add_eq by (unfold u64_max; lia). cbn [ok_or]. wstep. wstep.
    destruct (Z.ltb_spec (blen out) (plen kept + blen e)) as [Hsm|Hsm].
    { wstep. split; [done|]. rewrite plen_app, plen_cons. pose proof (plen_nonneg (dropped (i + 1) r todo)). lia. }
    wstep. wstep. rewrite Hpe, Hs. cbn [or_panic]. wstep. apply wp_obput_pack; [done | done |]. intros o1 Hk1 Hl1 Hb1.
    rewrite <- Hpe, <- Hke. eapply wp_mono; [apply (IH dir L (past ++ [e]) (kept ++ [e]) (i + 1) r o1 Ht (Hb1 Ho Hrb) Hd Hk1); lia | |].
    + cbn beta. rewrite <- app_assoc. cbn [app]. intros n o2 (? & ? & ? & ?). split_and!; try done. lia.
    + cbn beta. rewrite <- app_assoc. cbn [app]. intros x o2 [? ?]. split; [done|lia].
Qed.

Lemma without_dir dir L rs (k : nat) out : table_ok dir -> is_bytes out -> dir_is dir L rs -> (k < length rs)%nat ->
  wp (build_directory_without dir L (Z.of_nat (length rs)) (Z.of_nat k))
    (fun n out' => dir_is out' n (delete k rs) /\ blen out' = blen out /\ is_bytes out')
    (fun x _ => x = BmScratchTooSmall /\ blen out < plen (delete k rs)) out.
Proof.
  intros Ht Ho Hd Hk. unfold build_directory_without. destruct (Z.leb_spec (Z.of_nat (length rs)) (Z.of_nat k)); [lia|].
  destruct (dir_is_len _ _ _ Hd) as [HL HLb]. destruct (Z.ltb_spec (blen dir) L); [lia|].
  wstep. wstep. pose proof Hd as [Hs Hr]. rewrite Hs. cbn [or_panic]. rewrite Nat2Z.id.
  assert (dir_is (concat rs) L rs) as Hd' by (split; [unfold plen in HL; rewrite HL; apply slice_full|done]).
  assert (table_ok (concat rs)) as Ht'.
  { destruct Ht as [Hb Hl]. split; [by apply (slice_is_bytes _ _ _ _ Hb Hs)|]. unfold plen in HL. lia. }
  assert (dropped 0 (Z.of_nat k) rs = delete k rs) as Hdr.
  { unfold dropped. destruct (Z.leb_spec 0 (Z.of_nat k)); [|lia]. by rewrite Z.sub_0_r, Nat2Z.id. }
  eapply wp_mono; [apply (without_walk rs (concat rs) L [] [] 0 (Z.of_nat k) out Ht' Ho Hd'); try done | |].
  - change (plen []) with 0. rewrite slice_Some_2 by (pose proof (blen_nonneg out); lia). done.
  - cbn beta. cbn [app]. rewrite Hdr. intros n o (-> & Hsl & ? & ?). split; [|done]. split; [done|]. by apply Forall_delete.
  - cbn beta. cbn [app]. by rewrite Hdr.
Qed.

Lemma entry_size_bound e : entry_wf e -> 25 <= entry_size e <= 1048.
Proof.
  intros He. unfold entry_size. pose proof (wf_name_size e He) as Hn. unfold BME_MAX_NAME_SIZE in Hn.
  pose proof (round8_spec (24 + blen (bm_name e))) as [? _]. unfold round8 in *.
  pose proof (Z.div_le_mono (24 + blen (bm_name e) + 7) 1054 8 ltac:(lia) ltac:(lia)) as Hd8. change (1054 / 8) with 131 in Hd8. lia.
Qed.

Lemma serialized_eq e : entry_wf e -> serialized e = Ok (enc e).
Proof.
  intros He. pose proof (entry_size_bound e He). pose proof (blen_filled 1048 0 ltac:(lia)) as Hf.
  pose proof (serialize_dir_spec e 0 (filled 1048 0) He ltac:(lia)) as Hs.
  unfold serialized, wp in *. destruct (serialize_bitmap_dir_entry e 0 (filled 1048 0)) as [[n|x| |] o]; [|lia|done|done].
  destruct Hs as [-> Hs]. apply slice_splice_eq in Hs. rewrite Z.add_0_l, blen_enc in Hs. by rewrite Hs.
Qed.

(** The entries when entry [k] of [todo], whose first is entry [i], is replaced. *)
Definition swapped (i k : Z) (r : bytes) (todo : list bytes) : list bytes := if i <=? k then <[Z.to_nat (k - i) := r]> todo else todo.

Lemma swapped_cons i k r e todo : swapped i k r (e :: todo) = (if i =? k then r else e) :: swapped (i + 1) k r todo.
Proof.
  unfold swapped. destruct (Z.leb_spec i k), (Z.eqb_spec i k), (Z.leb_spec (i + 1) k); try lia; try done.
  - subst. by rewrite Z.sub_diag.
  - by replace (Z.to_nat (k - i)) with (S (Z.to_nat (k - (i + 1)))) by lia.
Qed.

Lemma replacing_walk todo : forall dir L past kept i k e out, table_ok dir -> is_bytes out -> dir_is dir L (past ++ todo) ->
  slice out 0 (plen kept) = Some (concat kept) -> plen kept = plen past -> 0 <= i -> entry_wf e ->
  (i <= k -> forall r, todo !! Z.to_nat (k - i) = Some r -> blen r = entry_size e) ->
  wp (replacing_loop dir (length todo) i k (plen past) (plen kept) e)
    (fun n out' => n = plen (kept ++ swapped i k (enc e) todo) /\ slice out' 0 n = Some (concat (kept ++ swapped i k (enc e) todo)) /\
       blen out' = blen out /\ is_bytes out')
    (fun x _ => x = BmScratchTooSmall /\ blen out < plen (kept ++ swapped i k (enc e) todo)) out.
Proof.
  induction todo as [|r todo IH]; intros dir L past kept i k e out Ht Ho Hd Hk Hkp Hi Hwf Hsz; cbn [replacing_loop length].
  { wstep. assert (swapped i k (enc e) [] = []) as -> by (unfold swapped; by destruct (i <=? k)). by rewrite app_nil_r. }
  destruct (dir_entry_at _ _ _ _ _ Ht Hd) as [He Hc]. destruct (dir_is_entry _ _ _ _ _ Hd) as (Hr & Hs & HL).
  destruct (dir_is_len _ _ _ Hd) as [_ HLb]. pose proof (raw_parts r Hr) as [Hrb Hr24]. pose proof Ht as [_ Htl].
  pose proof (plen_nonneg past). set (r' := if i =? k then enc e else r).
  assert (blen r' = blen r) as Hr'.
  { unfold r'. destruct (Z.eqb_spec i k) as [->|]; [|done]. rewrite blen_enc. symmetry. apply Hsz; [lia|]. by rewrite Z.sub_diag. }
  assert (is_bytes r') as Hrb' by (unfold r'; destruct (i =? k); [by apply enc_bytes|done]).
  assert (plen (past ++ [r]) = plen past + blen r) as Hpe by (rewrite plen_app, plen_cons; change (plen []) with 0; lia).
  assert (plen (kept ++ [r']) = plen past + blen r) as Hke by (rewrite plen_app, plen_cons; change (plen []) with 0; lia).
  replace (past ++ r :: todo) with ((past ++ [r]) ++ todo) in Hd by (by rewrite <- app_assoc).
  wstep. wstep. rewrite He. wstep. wstep. rewrite Hc. cbn [ok_or]. wstep. wstep. rewrite Hkp, Hc. cbn [ok_or]. wstep. wstep.
  rewrite swapped_cons. fold r'. pose proof (plen_nonneg (swapped (i + 1) k (enc e) todo)).
  destruct (Z.ltb_spec (blen out) (plen (past ++ [r]))) as [Hsm|Hsm]; [wstep; split; [done|]; rewrite plen_app, plen_cons; lia|].
  wstep. match goal with |- wp ?m ?Q ?R out => enough (wp (obput (plen past) r') Q R out) as Hput end.
  { destruct (Z.eqb_spec i k) as [Hik|Hik].
    - wstep. wstep. rewrite (serialized_eq e Hwf). assert (r' = enc e) as Hre by (unfold r'; by destruct (Z.eqb_spec i k)).
      rewrite <- Hre, Hr', Z.eqb_refl. exact Hput.
    - assert (slice dir (plen past) (plen (past ++ [r])) = Some r) as Hs' by (by rewrite Hpe).
      wstep. wstep. rewrite Hs'. cbn [or_panic]. assert (r' = r) as Hre by (unfold r'; by destruct (Z.eqb_spec i k)).
      replace (obput (plen past) r) with (obput (plen past) r') by (by rewrite Hre). exact Hput. }
  rewrite <- Hkp. apply wp_obput_pack; [done | lia |]. intros o1 Hk1 Hl1 Hb1. rewrite Hke, <- Hpe in Hk1.
  replace (plen (past ++ [r])) with (plen (kept ++ [r'])) at 2 by lia.
  eapply wp_mono; [apply (IH dir L (past ++ [r]) (kept ++ [r']) (i + 1) k e o1 Ht (Hb1 Ho Hrb') Hd); try done; try lia | |].
  - by rewrite Hke, <- Hpe.
  - intros Hle r2 Hr2. apply Hsz; [lia|]. by replace (Z.to_nat (k - i)) with (S (Z.to_nat (k - (i + 1)))) by lia.
  - cbn beta. rewrite <- app_assoc. cbn [app]. intros n o2 (? & ? & ? & ?). split_and!; try done. lia.
  - cbn beta. rewrite <- app_assoc. cbn [app]. intros x o2 [? ?]. split; [done|lia].
Qed.

Lemma replacing_dir dir L rs (k : nat) r e out : table_ok dir -> is_bytes out -> dir_is dir L rs -> rs !! k = Some r ->
  entry_wf e -> bm_name e = bm_name (entry_of r) ->
  wp (build_directory_replacing dir L (Z.of_nat (length rs)) (Z.of_nat k) e)
    (fun n out' => dir_is out' n (<[k := enc e]> rs) /\ n = L /\ blen out' = blen out /\ is_bytes out')
    (fun x _ => x = BmScratchTooSmall /\ blen out < L) out.
Proof.
  intros Ht Ho Hd Hk He Hn. pose proof (lookup_lt_Some _ _ _ Hk) as Hlt. unfold build_directory_replacing.
  destruct (Z.leb_spec (Z.of_nat (length rs)) (Z.of_nat k)); [lia|].
  destruct (dir_is_len _ _ _ Hd) as [HL HLb]. destruct (Z.ltb_spec (blen dir) L); [lia|].
  wstep. wstep. pose proof Hd as [Hs Hr]. rewrite Hs. cbn [or_panic]. rewrite Nat2Z.id.
  assert (dir_is (concat rs) L rs) as Hd' by (split; [unfold plen in HL; rewrite HL; apply slice_full|done]).
  assert (table_ok (concat rs)) as Ht'.
  { destruct Ht as [Hb Hl]. split; [by apply (slice_is_bytes _ _ _ _ Hb Hs)|]. unfold plen in HL. lia. }
  assert (swapped 0 (Z.of_nat k) (enc e) rs = <[k := enc e]> rs) as Hsw.
  { unfold swapped. destruct (Z.leb_spec 0 (Z.of_nat k)); [|lia]. by rewrite Z.sub_0_r, Nat2Z.id. }
  assert (blen r = entry_size e) as Hsz.
  { rewrite Forall_lookup in Hr. destruct (raw_wf _ _ (Hr k r Hk)) as [_ ->]. unfold entry_size. by rewrite Hn. }
  assert (plen (<[k := enc e]> rs) = L) as Hpl.
  { pose proof (take_drop_middle rs k r Hk) as Hsplit. rewrite <- Hsplit in HL.
    rewrite insert_take_drop by done. rewrite plen_app, plen_cons in HL |- *. rewrite blen_enc. lia. }
  eapply wp_mono; [apply (replacing_walk rs (concat rs) L [] [] 0 (Z.of_nat k) e out Ht' Ho Hd'); try done | |].
  - change (plen []) with 0. rewrite slice_Some_2 by (pose proof (blen_nonneg out); lia). done.
  - intros _ r2. rewrite Z.sub_0_r, Nat2Z.id, Hk. by intros [= <-].
  - cbn beta. cbn [app]. rewrite Hsw, Hpl. intros n o (-> & Hsl & ? & ?). split; [|done]. split; [done|].
    apply Forall_insert; [done|]. by destruct (raw_self _ _ (enc_raw e He)).
  - cbn beta. cbn [app]. by rewrite Hsw, Hpl.
Qed.

Lemma entry_of_enc e : entry_wf e -> entry_of (enc e) = e.
Proof. intros He. by destruct (raw_self _ _ (enc_raw e He)) as [_ ?]. Qed.

(** The entries of a rebuilt directory. *)
Lemma entries_insert rs k e : entry_wf e -> entries (<[k := enc e]> rs) = <[k := e]> (entries rs).
Proof. intros He. unfold entries. etransitivity; [apply (list_fmap_insert entry_of)|]. by rewrite entry_of_enc. Qed.

Lemma entries_snoc rs e : entry_wf e -> entries (rs ++ [enc e]) = entries rs ++ [e].
Proof. intros He. unfold entries. rewrite map_app. cbn [map]. by rewrite entry_of_enc. Qed.

Lemma entries_delete rs k : entries (delete k rs) = delete k (entries rs).
Proof. apply (list_fmap_delete entry_of). Qed.

(** ** The header extension *)

(** A serialised extension is parsed back, when its fields are the ones a parser
    accepts. *)
Lemma extension_roundtrip nb sz off out : 24 <= blen out -> 0 < nb <= QCOW2_MAX_BITMAPS -> 0 <= sz <= QCOW2_MAX_BITMAP_DIRECTORY_SIZE ->
  is_u64 off -> off <> 0 -> off mod 8 = 0 ->
  wp (serialize_bitmaps_extension nb sz off)
    (fun n out' => n = 24 /\ blen out' = blen out /\ parse_bitmaps_extension out' = Ok (mkBitmapsExtension nb sz off)) (fun _ _ => False) out.
Proof.
  intros Hl Hnb Hsz Hoff Hnz H8. unfold serialize_bitmaps_extension, QCOW2_MAX_BITMAPS, QCOW2_MAX_BITMAP_DIRECTORY_SIZE, is_u64 in *.
  wstep. wstep. destruct (Z.ltb_spec (blen out) 24); [lia|].
  wstep. apply wp_obput; [lia | rewrite blen_be_bytes; lia |]. intros o1 W1 L1.
  wstep. apply wp_obput; [lia | rewrite blen_be_bytes; lia |]. intros o2 W2 L2.
  wstep. apply wp_obput; [lia | rewrite blen_be_bytes; lia |]. intros o3 W3 L3.
  wstep. apply wp_obput; [lia | rewrite blen_be_bytes; lia |]. intros o4 W4 L4. wstep. split; [done|]. split; [lia|].
  assert (u32_at o4 0 = nb) as V1.
  { rewrite (u32_at_same o3 o4), (u32_at_same o2 o3), (u32_at_same o1 o2); [apply u32_at_put with out; [done|unfold is_u32, u32_max; lia] | ..];
      eapply slice_splice_ne; eauto; rewrite blen_be_bytes; lia. }
  assert (u64_at o4 8 = sz) as V2.
  { rewrite (u64_at_same o3 o4); [apply u64_at_put with o2; [done|unfold is_u64, u64_max; lia]|]. eapply slice_splice_ne; eauto. rewrite ?blen_be_bytes. lia. }
  assert (u64_at o4 16 = off) as V3 by (apply u64_at_put with o3; done).
  unfold parse_bitmaps_extension, be_u64_opt. destruct (Z.ltb_spec (blen o4) 24); [lia|].
  rewrite be_u32_at, V1 by lia. change (checked_add 8 8) with (Some 16). change (checked_add 16 8) with (Some 24). cbn [ok_or obind].
  destruct (Z.ltb_spec (blen o4) 16); [lia|]. destruct (Z.ltb_spec (blen o4) 24); [lia|]. rewrite !be_u64_at, V2, V3 by lia. cbn [obind].
  unfold QCOW2_MAX_BITMAPS, QCOW2_MAX_BITMAP_DIRECTORY_SIZE.
  destruct (Z.eqb_spec nb 0); [lia|]. destruct (Z.ltb_spec 65535 nb); [lia|]. destruct (Z.ltb_spec 67107840 sz); [lia|].
  destruct (Z.eqb_spec off 0); [lia|]. rewrite H8. done.
Qed.
