(* ===== verification/BitmapAction.v ===== *)
(** The bitmap actions of [src/src/crates/bitmap/src/action.rs] and the merge planner of
    [src/src/crates/bitmap/src/merge.rs].

    An action reads the old directory, writes the new one to [out_dir] and changes the
    staged refcount blocks and the allocation cursor; the three mutable buffers are the
    state, [ActSt].  The theorems follow a directory through the actions, say what
    happens to every refcount, and give a merged table entry its meaning as bits. *)

From stdpp Require Import base numbers list sets option.
From Stdlib Require Import ZArith Lia.
From S2P Require Import Prelude Bytes Refcount SnapshotWalk ExecBytes SnapTable Header BitmapDir.

(** ** Definitions *)

Definition SUPPORTED_REFCOUNT_BITS : Z := 16.
Definition MAX_TABLE_CLUSTERS : Z := 8.

Record BitmapGeometry : Type := mkBitmapGeometry {
  g_cluster_size : Z;
  g_cluster_bits : Z;
  g_refcount_bits : Z;
  g_virtual_size : Z;
  g_refblock_count : Z;
  g_host_refblocks_start : Z
}.

Record ActionOutcome : Type := mkActionOutcome {
  new_dir_len : Z;
  new_nb_bitmaps : Z;
  extension_now_present : bool;
  table_clusters_to_zero : list Z;
  num_table_clusters_to_zero : Z;
  freed_table_offset : Z;
  freed_table_size : Z;
  zero_freed_table : bool
}.

Definition map_alloc_err (err : SnapshotError) : BitmapError :=
  match err with
  | Unsupported => UnsupportedRefcountWidth
  | RefcountExhausted | AllocationFailed => NoSpace
  | InvalidConfig | MisalignedAccess => InternalOverflow
  | _ => BmParseFailed
  end.

Definition entries_per_refblock (geom : BitmapGeometry) : outcome BitmapError Z :=
  if (g_cluster_size geom =? 0) || (g_refcount_bits geom =? 0) then Err InternalOverflow
  else
  ok_or (bits ← checked_mul (g_cluster_size geom) 8;
         let e := bits / g_refcount_bits geom in if negb (e =? 0) then Some e else None) InternalOverflow.

Definition refblock_byte_range_for_cluster (host_offset : Z) (geom : BitmapGeometry) : outcome BitmapError (Z * Z * Z) :=
  let? epr := entries_per_refblock geom in
  if host_offset <? g_host_refblocks_start geom then Err InternalOverflow
  else
  let rel := host_offset - g_host_refblocks_start geom in
  if negb (rel mod g_cluster_size geom =? 0) then Err InternalOverflow
  else
  let cluster_index := rel / g_cluster_size geom in
  let rb_slot := cluster_index / epr in
  let entry_local := cluster_index mod epr in
  if g_refblock_count geom <=? rb_slot then Err InternalOverflow
  else
  let? start := ok_or (checked_mul rb_slot (g_cluster_size geom)) InternalOverflow in
  let? stop := ok_or (checked_add start (g_cluster_size geom)) InternalOverflow in
  Ok (start, stop, entry_local).

Definition set_cluster_refcount (refblocks : bytes) (host_offset value : Z) (geom : BitmapGeometry) : outcome BitmapError bytes :=
  let? (start, stop, entry_local) := refblock_byte_range_for_cluster host_offset geom in
  let? block := ok_or (slice refblocks start stop) InternalOverflow in
  let? block' := map_err map_alloc_err (set_refcount_in_block block entry_local (g_refcount_bits geom) value) in
  or_panic (splice refblocks start block').

Definition table_cluster_count (table_size cluster_size : Z) : outcome BitmapError Z :=
  if cluster_size =? 0 then Err InternalOverflow
  else
  let? bs := ok_or (checked_mul table_size 8) InternalOverflow in
  Ok (div_ceil bs cluster_size).

(** The [&mut] parameters of an action. *)
Record ActSt : Type := mkActSt { act_alloc : AllocSt; act_out : bytes }.

Abbreviation AM := (SM ActSt BitmapError).

Definition on_out {A} (m : BM A) : AM A :=
  fun s => let '(r, out) := m (act_out s) in (r, mkActSt (act_alloc s) out).

Definition on_alloc {A} (m : SM AllocSt SnapshotError A) : AM A :=
  fun s => let '(r, a) := m (act_alloc s) in (map_err map_alloc_err r, mkActSt a (act_out s)).

Definition set_blocks (b : bytes) : AM unit :=
  smod (fun s => mkActSt (mkAllocSt b (as_cursor (act_alloc s))) (act_out s)).

(** The host offsets of the zero list. *)
Fixpoint zero_list (n : nat) (i table_offset cluster_size : Z) : outcome BitmapError (list Z) :=
  match n with
  | O => Ok []
  | S n' =>
      let? slot := ok_or (checked_add table_offset (wmul i cluster_size)) InternalOverflow in
      let? rest := zero_list n' (i + 1) table_offset cluster_size in
      Ok (slot :: rest)
  end.

Definition action_add (old_dir : bytes) (old_len nb_bitmaps : Z) (name : bytes) (granularity_bits : Z) (geom : BitmapGeometry) : AM ActionOutcome :=
  if negb (g_refcount_bits geom =? SUPPORTED_REFCOUNT_BITS) then sfail UnsupportedRefcountWidth
  else if (blen name =? 0) || (BME_MAX_NAME_SIZE <? blen name) then sfail NameTooLong
  else if negb (granularity_bits_valid granularity_bits) then sfail GranularityRange
  else if QCOW2_MAX_BITMAPS <=? nb_bitmaps then sfail TooManyBitmaps
  else
  let! found := slift (find_bitmap old_dir nb_bitmaps name) in
  match found with
  | Some _ => sfail BitmapExists
  | None =>
      let! granularity := slift (if granularity_bits <? 64 then Ok (shl64 1 granularity_bits) else Err InternalOverflow) in
      let bytes_needed := bitmap_bytes_needed (g_virtual_size geom) granularity in
      let table_entries := bitmap_table_size_entries bytes_needed (g_cluster_size geom) in
      let! count := slift (table_cluster_count (as_u32 table_entries) (g_cluster_size geom)) in
      let table_clusters := Z.max count 1 in
      if MAX_TABLE_CLUSTERS <? table_clusters then sfail NoSpace
      else if u32_max <? table_entries then sfail InternalOverflow
      else
      let! table_offset :=
        on_alloc (alloc_contiguous_clusters_in_refblocks (g_cluster_size geom) (g_refcount_bits geom) (g_refblock_count geom)
                    (g_host_refblocks_start geom) table_clusters) in
      let entry := mkBitmapDirEntry table_offset (as_u32 table_entries) BME_FLAG_AUTO BT_DIRTY_TRACKING_BITMAP granularity_bits 0 name in
      let! new_len := on_out (build_directory_with_added old_dir old_len entry) in
      let! zs := slift (zero_list (Z.to_nat table_clusters) 0 table_offset (g_cluster_size geom)) in
      sret (mkActionOutcome new_len (nb_bitmaps + 1) true (zs ++ filled (MAX_TABLE_CLUSTERS - table_clusters) 0) table_clusters 0 0 false)
  end.

(** Every table cluster maps into the staged blocks. *)
Fixpoint check_table (n : nat) (i table_offset : Z) (geom : BitmapGeometry) : outcome BitmapError unit :=
  match n with
  | O => Ok tt
  | S n' =>
      let? host := ok_or (checked_add table_offset (wmul i (g_cluster_size geom))) InternalOverflow in
      let? _ := refblock_byte_range_for_cluster host geom in
      check_table n' (i + 1) table_offset geom
  end.

Fixpoint free_table (n : nat) (i table_offset : Z) (geom : BitmapGeometry) : AM unit :=
  match n with
  | O => sret tt
  | S n' =>
      let host := wadd table_offset (wmul i (g_cluster_size geom)) in
      let! s := sget in
      let! b := slift (set_cluster_refcount (as_blocks (act_alloc s)) host 0 geom) in
      do! set_blocks b in
      free_table n' (i + 1) table_offset geom
  end.

Definition action_remove (old_dir : bytes) (old_len nb_bitmaps : Z) (name : bytes) (geom : BitmapGeometry) : AM ActionOutcome :=
  if negb (g_refcount_bits geom =? SUPPORTED_REFCOUNT_BITS) then sfail UnsupportedRefcountWidth
  else
  let! found := slift (find_bitmap old_dir nb_bitmaps name) in
  let! found := slift (ok_or found BitmapNotFound) in
  let entry := fb_entry found in
  let! table_clusters := slift (table_cluster_count (bitmap_table_size entry) (g_cluster_size geom)) in
  do! slift (check_table (Z.to_nat table_clusters) 0 (bitmap_table_offset entry) geom) in
  do! free_table (Z.to_nat table_clusters) 0 (bitmap_table_offset entry) geom in
  let! new_len := on_out (build_directory_without old_dir old_len nb_bitmaps (fb_index found)) in
  let new_nb := nb_bitmaps - 1 in
  sret (mkActionOutcome new_len new_nb (negb (new_nb =? 0)) (filled 8 0) 0 (bitmap_table_offset entry) (bitmap_table_size entry) false).

Definition action_clear (old_dir : bytes) (old_len nb_bitmaps : Z) (name : bytes) (geom : BitmapGeometry) : AM ActionOutcome :=
  if negb (g_refcount_bits geom =? SUPPORTED_REFCOUNT_BITS) then sfail UnsupportedRefcountWidth
  else
  let! found := slift (find_bitmap old_dir nb_bitmaps name) in
  let! found := slift (ok_or found BitmapNotFound) in
  if is_in_use (fb_entry found) then sfail BitmapInUse
  else
  let entry := fb_entry found in
  let! table_clusters := slift (table_cluster_count (bitmap_table_size entry) (g_cluster_size geom)) in
  do! slift (check_table (Z.to_nat table_clusters) 0 (bitmap_table_offset entry) geom) in
  let! expected := slift (directory_byte_len old_dir nb_bitmaps) in
  if negb (old_len =? expected) then sfail InternalOverflow
  else if blen old_dir <? old_len then sfail InternalOverflow
  else
  let! s := sget in
  if blen (act_out s) <? old_len then sfail BmScratchTooSmall
  else
  let! old := slift (or_panic (slice old_dir 0 old_len)) in
  do! on_out (obput 0 old) in
  sret (mkActionOutcome old_len nb_bitmaps true (filled 8 0) 0 (bitmap_table_offset entry) (bitmap_table_size entry) true).

(** The enable and disable actions take no refcount blocks. *)
Definition set_auto_flag (old_dir : bytes) (old_len nb_bitmaps : Z) (name : bytes) (enable : bool) : BM ActionOutcome :=
  let! found := slift (find_bitmap old_dir nb_bitmaps name) in
  let! found := slift (ok_or found BitmapNotFound) in
  let e := fb_entry found in
  if is_in_use e then sfail BitmapInUse
  else
  let flags := if enable then Z.lor (bm_flags e) BME_FLAG_AUTO else Z.land (bm_flags e) (Z.lxor BME_FLAG_AUTO u32_max) in
  let replacement := mkBitmapDirEntry (bitmap_table_offset e) (bitmap_table_size e) flags (bitmap_type e) (granularity_bits e)
                       (bm_extra_data_size e) (bm_name e) in
  let! new_len := build_directory_replacing old_dir old_len nb_bitmaps (fb_index found) replacement in
  sret (mkActionOutcome new_len nb_bitmaps true (filled 8 0) 0 0 0 false).

Definition action_enable (old_dir : bytes) (old_len nb_bitmaps : Z) (name : bytes) : BM ActionOutcome :=
  set_auto_flag old_dir old_len nb_bitmaps name true.
Definition action_disable (old_dir : bytes) (old_len nb_bitmaps : Z) (name : bytes) : BM ActionOutcome :=
  set_auto_flag old_dir old_len nb_bitmaps name false.

(** Merging. *)

Record MergeSpec : Type := mkMergeSpec {
  ms_dest : FoundBitmap;
  ms_source : FoundBitmap;
  ms_table_size : Z;
  ms_granularity_bits : Z;
  ms_self_merge : bool
}.

Definition merge_validate (dir : bytes) (nb_bitmaps : Z) (dest_name source_name : bytes) : outcome BitmapError MergeSpec :=
  let? dest := find_bitmap dir nb_bitmaps dest_name in
  let? dest := ok_or dest BitmapNotFound in
  let? source := find_bitmap dir nb_bitmaps source_name in
  let? source := ok_or source MergeSourceNotFound in
  if is_in_use (fb_entry dest) then Err BitmapInUse
  else if is_in_use (fb_entry source) then Err BitmapInUse
  else if negb (granularity_bits (fb_entry dest) =? granularity_bits (fb_entry source)) then Err IncompatibleMerge
  else if negb (bitmap_table_size (fb_entry dest) =? bitmap_table_size (fb_entry source)) then Err IncompatibleMerge
  else
  Ok (mkMergeSpec dest source (bitmap_table_size (fb_entry dest)) (granularity_bits (fb_entry dest)) (bool_decide (dest_name = source_name))).

Definition or_bitmap_data (dst src : bytes) : outcome BitmapError bytes :=
  if negb (blen dst =? blen src) then Err InternalOverflow else Ok (zip_with Z.lor dst src).

Inductive MergeClusterAction : Type := Skip | CopyAllOnes | OrIntoExisting | AllocDestFromSource.

Definition merge_cluster_action (source_entry dest_entry : Z) : outcome BitmapError MergeClusterAction :=
  let? source := ok_or (decode_bitmap_table_entry source_entry) BmParseFailed in
  let? dest := ok_or (decode_bitmap_table_entry dest_entry) BmParseFailed in
  Ok match source, dest with
     | AllZeroes, _ => Skip
     | _, AllOnes => Skip
     | AllOnes, _ => CopyAllOnes
     | Allocated _, AllZeroes => AllocDestFromSource
     | Allocated _, Allocated _ => OrIntoExisting
     end.

(** ** Table clusters in the staged blocks *)

(** The geometry describes the staged blocks: [n] blocks of 16-bit refcounts, [epr]
    each, every cluster addressable. *)
Record geom_ok (g : BitmapGeometry) (blocks : bytes) (epr : Z) : Prop := {
  go_bits : g_refcount_bits g = SUPPORTED_REFCOUNT_BITS;
  go_blocks : staged_blocks blocks (g_cluster_size g) epr (g_refblock_count g);
  go_base : 0 <= g_host_refblocks_start g;
  go_cs : g_cluster_size g * 8 <= u64_max;
  go_total : g_refblock_count g * epr + MAX_TABLE_CLUSTERS <= u64_max;
  go_host : g_refblock_count g * epr * g_cluster_size g + g_host_refblocks_start g <= u64_max;
  go_vsize : is_u64 (g_virtual_size g)
}.

(** The clusters the staged blocks count, and where cluster [i] is. *)
Definition clusters (g : BitmapGeometry) (epr : Z) : Z := g_refblock_count g * epr.
Definition host_of (g : BitmapGeometry) (i : Z) : Z := i * g_cluster_size g + g_host_refblocks_start g.

Lemma geom_epr g b epr : geom_ok g b epr -> entries_per_refblock g = Ok epr.
Proof.
  intros [H1 [? ? Hcs He ? ?] ? H2 ? ? ?]. unfold entries_per_refblock. rewrite H1. unfold SUPPORTED_REFCOUNT_BITS.
  destruct (Z.eqb_spec (g_cluster_size g) 0); [lia|]. cbn [orb]. change (16 =? 0) with false. cbn [orb].
  rewrite checked_mul_eq by lia. cbn [mbind option_bind].
  assert (g_cluster_size g * 8 / 16 = epr) as -> by (rewrite Hcs; rewrite <- (Z.div_mul epr 16) at 2 by lia; f_equal; lia).
  destruct (Z.eqb_spec epr 0); [lia|done].
Qed.

Lemma range_of_cluster g b epr i : geom_ok g b epr -> 0 <= i < clusters g epr ->
  refblock_byte_range_for_cluster (host_of g i) g = Ok (i / epr * g_cluster_size g, i / epr * g_cluster_size g + g_cluster_size g, i mod epr).
Proof.
  intros Hg Hi. unfold refblock_byte_range_for_cluster. rewrite (geom_epr g b epr Hg). cbn [obind]. unfold clusters, host_of in *.
  pose proof Hg as [_ [Hb Hf Hcs He Hn Hlen] H1 H2 H3 H4 _]. unfold slice_fits in Hf.
  destruct (block_of_entry _ epr _ i Hcs He Hi) as (H5 & H6 & H7 & H8).
  destruct (Z.ltb_spec (i * g_cluster_size g + g_host_refblocks_start g) (g_host_refblocks_start g)); [nia|].
  replace (i * g_cluster_size g + g_host_refblocks_start g - g_host_refblocks_start g) with (i * g_cluster_size g) by lia.
  rewrite Z.mod_mul by lia. cbn [Z.eqb negb]. rewrite Z.div_mul by lia.
  assert (i / epr < g_refblock_count g) by (apply Z.div_lt_upper_bound; lia).
  destruct (Z.leb_spec (g_refblock_count g) (i / epr)); [lia|].
  rewrite checked_mul_eq by (unfold u64_max; lia). cbn [ok_or obind].
  rewrite checked_add_eq by (unfold u64_max; lia). done.
Qed.

(** The entries of [s, s + count) are zeroed. *)
Definition released (blocks blocks' : bytes) (total s count : Z) : Prop :=
  forall i, 0 <= i < total -> entry blocks' i = if (s <=? i) && (i <? s + count) then 0 else entry blocks i.

Lemma set_cluster_spec g b epr i : geom_ok g b epr -> 0 <= i < clusters g epr ->
  exists b', set_cluster_refcount b (host_of g i) 0 g = Ok b' /\ geom_ok g b' epr /\
    forall j, 0 <= j < clusters g epr -> entry b' j = if j =? i then 0 else entry b j.
Proof.
  intros Hg Hi. unfold set_cluster_refcount. rewrite (range_of_cluster g b epr i Hg Hi). cbn [obind].
  pose proof Hg as [H0 H1 H2 H3 H4 H5 H6]. rewrite H0. unfold SUPPORTED_REFCOUNT_BITS.
  destruct (set_in_blocks b _ epr _ i 0 H1 Hi) as (blk & blk' & b' & -> & Hset & Hsp & Hsp2). cbn [ok_or obind]. rewrite Hset.
  cbn [map_err obind]. rewrite Hsp. exists b'. split; [done|].
  split; [split; try done; eapply (entry_splice b i 0 b' _ epr _ i H1 Hi); [unfold u16_max; lia | lia | done]|].
  intros j Hj. eapply (entry_splice b i 0 b' _ epr _ j H1 Hj); [unfold u16_max; lia | lia | done].
Qed.

(** The offset of table cluster [i] of the table at cluster [f]. *)
Lemma host_add g b epr f i : geom_ok g b epr -> 0 <= f -> 0 <= i -> f + i < clusters g epr ->
  wmul i (g_cluster_size g) = i * g_cluster_size g /\ host_of g f + i * g_cluster_size g = host_of g (f + i) /\
  0 <= host_of g (f + i) <= u64_max.
Proof.
  intros [_ [Hb Hf Hcs He Hn Hlen] H1 H2 H3 H4 _] H5 H6 H7. unfold host_of, clusters in *.
  assert ((f + i) * g_cluster_size g <= g_refblock_count g * epr * g_cluster_size g) by (apply Z.mul_le_mono_nonneg_r; lia).
  split; [apply wmul_small; nia|]. split; [lia|]. nia.
Qed.

Lemma check_table_ok g b epr f n : forall i, geom_ok g b epr -> 0 <= f -> 0 <= i -> f + i + Z.of_nat n <= clusters g epr ->
  check_table n i (host_of g f) g = Ok tt.
Proof.
  induction n as [|n IH]; intros i Hg Hf Hi Hle; cbn [check_table]; [done|].
  destruct (host_add g b epr f i Hg Hf Hi ltac:(lia)) as (-> & He & Hmax).
  rewrite checked_add_eq by lia. cbn [ok_or obind]. rewrite He, (range_of_cluster g b epr) by (done || lia). cbn [obind].
  apply IH; (done || lia).
Qed.

Lemma free_table_spec g epr f n : forall i s, geom_ok g (as_blocks (act_alloc s)) epr -> 0 <= f -> 0 <= i ->
  f + i + Z.of_nat n <= clusters g epr ->
  exists b', free_table n i (host_of g f) g s = (Ok tt, mkActSt (mkAllocSt b' (as_cursor (act_alloc s))) (act_out s)) /\
    geom_ok g b' epr /\ released (as_blocks (act_alloc s)) b' (clusters g epr) (f + i) (Z.of_nat n).
Proof.
  induction n as [|n IH]; intros i s Hg Hf Hi Hle; cbn [free_table].
  { exists (as_blocks (act_alloc s)). split; [by destruct s as [[? ?] ?]|]. split; [done|]. intros j Hj.
    destruct (Z.leb_spec (f + i) j), (Z.ltb_spec j (f + i + Z.of_nat 0)); done || lia. }
  destruct (host_add g _ epr f i Hg Hf Hi ltac:(lia)) as (-> & He & Hmax).
  rewrite wadd_small by lia. rewrite He. unfold sbind at 1, sget. cbv beta iota.
  destruct (set_cluster_spec g _ epr (f + i) Hg ltac:(lia)) as (b1 & Hset & Hg1 & Hent). unfold sbind at 1, slift. rewrite Hset.
  unfold sbind at 1, set_blocks, smod. cbv beta iota.
  destruct (IH (i + 1) (mkActSt (mkAllocSt b1 (as_cursor (act_alloc s))) (act_out s))) as (b2 & Hrun & Hg2 & Hrel); [done | done | lia | lia |].
  exists b2. split; [exact Hrun|]. split; [done|]. intros j Hj. rewrite (Hrel j Hj). cbn [act_alloc as_blocks]. rewrite (Hent j Hj).
  destruct (Z.leb_spec (f + (i + 1)) j), (Z.ltb_spec j (f + (i + 1) + Z.of_nat n)), (Z.leb_spec (f + i) j),
    (Z.ltb_spec j (f + i + Z.of_nat (S n))), (Z.eqb_spec j (f + i)); done || lia.
Qed.

Lemma zero_list_ok g b epr f n : forall i, geom_ok g b epr -> 0 <= f -> 0 <= i -> f + i + Z.of_nat n <= clusters g epr ->
  zero_list n i (host_of g f) (g_cluster_size g) = Ok (map (host_of g) (seqZ (f + i) (Z.of_nat n))).
Proof.
  induction n as [|n IH]; intros i Hg Hf Hi Hle; cbn [zero_list]; [done|].
  destruct (host_add g b epr f i Hg Hf Hi ltac:(lia)) as (-> & He & Hmax).
  rewrite checked_add_eq by lia. cbn [ok_or obind]. rewrite He, (IH (i + 1)) by (done || lia). cbn [obind].
  rewrite (seqZ_cons (f + i)) by lia. cbn [map]. do 4 f_equal; lia.
Qed.

(** ** Adding *)

Lemma wp_on_out {A} (m : BM A) (Q : A -> ActSt -> Prop) (R : BitmapError -> ActSt -> Prop) s :
  wp m (fun a out => Q a (mkActSt (act_alloc s) out)) (fun x out => R x (mkActSt (act_alloc s) out)) (act_out s) -> wp (on_out m) Q R s.
Proof. unfold wp, on_out. destruct (m (act_out s)) as [[a|e| |] out]; done. Qed.

(** The table of a new bitmap: its entries, its clusters, and its directory entry. *)
Definition table_entries_of (g : BitmapGeometry) (gb : Z) : Z :=
  bitmap_table_size_entries (bitmap_bytes_needed (g_virtual_size g) (2 ^ gb)) (g_cluster_size g).
Definition table_clusters_of (g : BitmapGeometry) (gb : Z) : Z := Z.max (div_ceil (table_entries_of g gb * 8) (g_cluster_size g)) 1.
Definition new_entry (g : BitmapGeometry) (gb : Z) (name : bytes) (f : Z) : BitmapDirEntry :=
  mkBitmapDirEntry (host_of g f) (table_entries_of g gb) BME_FLAG_AUTO BT_DIRTY_TRACKING_BITMAP gb 0 name.

Definition names (rs : list bytes) : list bytes := map bm_name (entries rs).

Record cursor_ok (epr : Z) (c : AllocCursor) : Prop := {
  co_rb : 0 <= next_refblock c;
  co_entry : 0 <= next_entry_in_refblock c;
  co_start : cursor_start epr c + MAX_TABLE_CLUSTERS <= u64_max
}.

(** What a successful add does: a run of free clusters is claimed for the table and
    the enabled, empty bitmap is appended. *)
Record added (g : BitmapGeometry) (epr gb : Z) (name : bytes) (rs : list bytes) (s : ActSt) (o : ActionOutcome) (s' : ActSt) (f : Z) : Prop := {
  ad_run : 0 <= f /\ f + table_clusters_of g gb <= clusters g epr;
  ad_few : table_clusters_of g gb <= MAX_TABLE_CLUSTERS;
  ad_free : free_run (as_blocks (act_alloc s)) f (table_clusters_of g gb);
  ad_claimed : claimed (as_blocks (act_alloc s)) (as_blocks (act_alloc s')) (clusters g epr) f (table_clusters_of g gb);
  ad_geom : geom_ok g (as_blocks (act_alloc s')) epr;
  ad_dir : dir_is (act_out s') (new_dir_len o) (rs ++ [enc (new_entry g gb name f)]);
  ad_wf : entry_wf (new_entry g gb name f);
  ad_buf : blen (act_out s') = blen (act_out s) /\ is_bytes (act_out s');
  ad_count : new_nb_bitmaps o = Z.of_nat (length rs) + 1;
  ad_zero : table_clusters_to_zero o = map (host_of g) (seqZ f (table_clusters_of g gb)) ++ filled (MAX_TABLE_CLUSTERS - table_clusters_of g gb) 0 /\
            num_table_clusters_to_zero o = table_clusters_of g gb
}.

(** Why an add is refused. *)
Inductive add_refused (g : BitmapGeometry) (epr gb : Z) (name : bytes) (rs : list bytes) (s : ActSt) : BitmapError -> Prop :=
| ref_name : ~ 1 <= blen name <= BME_MAX_NAME_SIZE -> add_refused g epr gb name rs s NameTooLong
| ref_gran : ~ BME_MIN_GRANULARITY_BITS <= gb <= BME_MAX_GRANULARITY_BITS -> add_refused g epr gb name rs s GranularityRange
| ref_many : QCOW2_MAX_BITMAPS <= Z.of_nat (length rs) -> add_refused g epr gb name rs s TooManyBitmaps
| ref_exists : name ∈ names rs -> add_refused g epr gb name rs s BitmapExists
| ref_huge x : u32_max < table_entries_of g gb -> x = NoSpace \/ x = InternalOverflow -> add_refused g epr gb name rs s x
| ref_clusters : MAX_TABLE_CLUSTERS < table_clusters_of g gb -> add_refused g epr gb name rs s NoSpace
| ref_full : (forall f, cursor_start epr (as_cursor (act_alloc s)) <= f -> f + table_clusters_of g gb <= clusters g epr ->
                ~ free_run (as_blocks (act_alloc s)) f (table_clusters_of g gb)) -> add_refused g epr gb name rs s NoSpace.

(** A failure after the allocation: the output cannot hold the new directory, and the
    clusters stay claimed. *)
Record add_stranded (g : BitmapGeometry) (epr gb : Z) (name : bytes) (L : Z) (s : ActSt) (x : BitmapError) (s' : ActSt) : Prop := {
  st_small : blen (act_out s) < L + round8 (24 + blen name);
  st_error : x = if blen (act_out s) <? L then BmScratchTooSmall else BmParseFailed;
  st_claimed : exists f, free_run (as_blocks (act_alloc s)) f (table_clusters_of g gb) /\ 0 <= f /\ f + table_clusters_of g gb <= clusters g epr /\
    claimed (as_blocks (act_alloc s)) (as_blocks (act_alloc s')) (clusters g epr) f (table_clusters_of g gb)
}.

Lemma named_None name rs : named name rs = None <-> name ∉ names rs.
Proof.
  unfold named. rewrite list_find_None, Forall_forall. unfold names, entries. rewrite map_map. split.
  - intros Hf Hin. apply list_elem_of_In, in_map_iff in Hin as (r & <- & Hr). by apply (Hf r Hr).
  - intros Hn r Hr Heq. apply Hn, list_elem_of_In, in_map_iff. by exists r.
Qed.

Lemma div_round_up_nonneg a b : 0 <= a -> 0 < b -> 0 <= div_round_up a b.
Proof. intros Ha Hb. unfold div_round_up, sat_add, u64_max. destruct (b =? 0); [lia|]. apply Z.div_pos; lia. Qed.

Lemma div_round_up_pos a b : 1 <= a -> 0 < b <= u64_max -> 1 <= div_round_up a b.
Proof.
  intros Ha Hb. unfold div_round_up, sat_add. destruct (Z.eqb_spec b 0); [lia|]. apply Z.div_le_lower_bound; lia.
Qed.

Lemma table_entries_eq g gb : g_cluster_size g <> 0 -> 0 <= gb ->
  table_entries_of g gb = div_round_up (div_round_up (div_round_up (g_virtual_size g) (2 ^ gb)) 8) (g_cluster_size g).
Proof.
  intros Hcs Hgb. unfold table_entries_of, bitmap_table_size_entries, bitmap_bytes_needed.
  destruct (Z.eqb_spec (g_cluster_size g) 0); [done|]. destruct (Z.eqb_spec (2 ^ gb) 0); [lia|done].
Qed.

Lemma table_entries_nonneg g b epr gb : geom_ok g b epr -> 0 <= gb -> 0 <= table_entries_of g gb.
Proof.
  intros [_ [_ _ Hcs He _ _] _ _ _ _ Hv] Hgb. unfold is_u64 in Hv. rewrite table_entries_eq by lia.
  repeat apply div_round_up_nonneg; lia.
Qed.

(** A table of a non-empty image has an entry, so its clusters are exactly its bytes'. *)
Lemma table_entries_pos g b epr gb : geom_ok g b epr -> 0 <= gb <= 31 -> 0 < g_virtual_size g -> 1 <= table_entries_of g gb.
Proof.
  intros [_ [_ _ Hcs He _ _] _ Hc8 _ _ _] Hgb Hv. rewrite table_entries_eq by lia.
  assert (2 ^ gb <= 2 ^ 31) by (apply Z.pow_le_mono_r; lia). change (2 ^ 31) with 2147483648 in *.
  repeat apply div_round_up_pos; unfold u64_max in *; lia.
Qed.

Lemma table_entries_zero g b epr gb : geom_ok g b epr -> 0 <= gb <= 31 -> g_virtual_size g = 0 -> table_entries_of g gb = 0.
Proof.
  intros [_ [_ _ Hcs He _ _] _ Hc8 _ _ _] Hgb Hv. assert (forall b, 0 < b <= u64_max -> div_round_up 0 b = 0) as H0.
  { intros b' Hb. unfold div_round_up, sat_add. destruct (b' =? 0); [done|]. rewrite Z.min_l by lia. apply Z.div_small. lia. }
  assert (2 ^ gb <= 2 ^ 31) by (apply Z.pow_le_mono_r; lia). change (2 ^ 31) with 2147483648 in *.
  rewrite table_entries_eq by lia. rewrite Hv, !H0 by (unfold u64_max in *; lia). done.
Qed.

Lemma clusters_pos g b epr gb : geom_ok g b epr -> 0 <= gb <= 31 -> 0 < g_virtual_size g ->
  table_clusters_of g gb = div_ceil (table_entries_of g gb * 8) (g_cluster_size g).
Proof.
  intros Hg Hgb Hv. pose proof (table_entries_pos g b epr gb Hg Hgb Hv) as Hp. destruct Hg as [_ [_ _ Hcs He _ _] _ _ _ _ _].
  unfold table_clusters_of. destruct (div_ceil_spec (table_entries_of g gb * 8) (g_cluster_size g)) as [H1 _]; [lia|]. nia.
Qed.

Lemma cluster_count_eq sz g b epr : geom_ok g b epr -> 0 <= sz <= u32_max ->
  table_cluster_count sz (g_cluster_size g) = Ok (div_ceil (sz * 8) (g_cluster_size g)).
Proof.
  intros [_ [_ _ Hcs He _ _] _ _ _ _ _] Hs. unfold table_cluster_count. destruct (Z.eqb_spec (g_cluster_size g) 0); [lia|].
  rewrite checked_mul_eq by (unfold u32_max, u64_max in *; lia). done.
Qed.

Lemma granularity_bits_valid_iff gb : granularity_bits_valid gb = true <-> 9 <= gb <= 31.
Proof.
  unfold granularity_bits_valid, BME_MIN_GRANULARITY_BITS, BME_MAX_GRANULARITY_BITS. rewrite andb_true_iff, !Z.leb_le. done.
Qed.

Lemma new_entry_wf g b epr gb name f : geom_ok g b epr -> 9 <= gb <= 31 -> is_bytes name -> 1 <= blen name <= BME_MAX_NAME_SIZE ->
  table_entries_of g gb <= u32_max -> 0 <= f < clusters g epr -> entry_wf (new_entry g gb name f).
Proof.
  intros Hg Hgb Hn Hnl He Hf. pose proof (table_entries_nonneg g b epr gb Hg ltac:(lia)).
  destruct (host_add g b epr f 0 Hg ltac:(lia) ltac:(lia) ltac:(lia)) as (_ & Hh & Hmax). rewrite Z.add_0_r in Hmax.
  split; cbn [new_entry bitmap_table_offset bitmap_table_size bm_flags bitmap_type granularity_bits bm_extra_data_size bm_name]; try done.
  unfold is_u8, u8_max. lia.
Qed.

(** The allocation of a table. *)
Lemma wp_alloc g epr count s (Q : Z -> ActSt -> Prop) (R : BitmapError -> ActSt -> Prop) :
  geom_ok g (as_blocks (act_alloc s)) epr -> cursor_ok epr (as_cursor (act_alloc s)) -> 0 < count <= MAX_TABLE_CLUSTERS ->
  (forall f s1, 0 <= f -> f + count <= clusters g epr -> free_run (as_blocks (act_alloc s)) f count ->
     claimed (as_blocks (act_alloc s)) (as_blocks (act_alloc s1)) (clusters g epr) f count -> geom_ok g (as_blocks (act_alloc s1)) epr ->
     act_out s1 = act_out s -> Q (host_of g f) s1) ->
  ((forall f, cursor_start epr (as_cursor (act_alloc s)) <= f -> f + count <= clusters g epr -> ~ free_run (as_blocks (act_alloc s)) f count) ->
     R NoSpace s) ->
  wp (on_alloc (alloc_contiguous_clusters_in_refblocks (g_cluster_size g) SUPPORTED_REFCOUNT_BITS (g_refblock_count g)
                  (g_host_refblocks_start g) count)) Q R s.
Proof.
  intros Hg [Hc1 Hc2 Hc3] Hcnt HQ HR. pose proof Hg as [G1 G2 G3 G4 G5 G6 G7].
  pose proof (sb_epr _ _ _ _ G2) as Hepr. unfold MAX_TABLE_CLUSTERS in *.
  pose proof (alloc_contiguous_spec (act_alloc s) (g_cluster_size g) epr (g_refblock_count g) (g_host_refblocks_start g) count) as Ha.
  specialize (Ha ltac:(split; done || lia)). cbv zeta in Ha. unfold wp, on_alloc, SUPPORTED_REFCOUNT_BITS.
  destruct (alloc_contiguous_clusters_in_refblocks (g_cluster_size g) 16 (g_refblock_count g) (g_host_refblocks_start g) count (act_alloc s)) as [[h|x| |] a];
    try done; cbn [map_err].
  - destruct Ha as [[(f & Hf1 & Hf2 & -> & Hf3 & _ & Hf4 & _)] Hsb]. fold (host_of g f).
    assert (0 <= f) by (unfold cursor_start in *; nia).
    apply HQ; done.
  - destruct Ha as (-> & -> & Hno). destruct s as [a o]. by apply HR.
Qed.

Lemma add_spec g epr gb name dir L rs s :
  geom_ok g (as_blocks (act_alloc s)) epr -> cursor_ok epr (as_cursor (act_alloc s)) -> table_ok dir -> dir_is dir L rs ->
  is_bytes name -> is_bytes (act_out s) ->
  wp (action_add dir L (Z.of_nat (length rs)) name gb g)
    (fun o s' => 1 <= blen name <= BME_MAX_NAME_SIZE /\ 9 <= gb <= 31 /\ (name ∉ names rs) /\ exists f, added g epr gb name rs s o s' f)
    (fun x s' => (s' = s /\ add_refused g epr gb name rs s x) \/ add_stranded g epr gb name L s x s') s.
Proof.
  intros Hg Hc Ht Hd Hn Ho. unfold action_add. rewrite (go_bits _ _ _ Hg). unfold SUPPORTED_REFCOUNT_BITS at 1.
  change (16 =? SUPPORTED_REFCOUNT_BITS) with true. cbn [negb].
  destruct (Z.eqb_spec (blen name) 0) as [Hn0|Hn0]; cbn [orb]; [wstep; left; split; [done|]; apply ref_name; lia|].
  destruct (Z.ltb_spec BME_MAX_NAME_SIZE (blen name)) as [Hn1|Hn1]; [wstep; left; split; [done|]; apply ref_name; lia|].
  pose proof (blen_nonneg name). destruct (granularity_bits_valid gb) eqn:Hgb; cbn [negb].
  2:{ wstep. left. split; [done|]. apply ref_gran. intros Hgb2. apply granularity_bits_valid_iff in Hgb2. congruence. }
  apply granularity_bits_valid_iff in Hgb.
  destruct (Z.leb_spec QCOW2_MAX_BITMAPS (Z.of_nat (length rs))); [wstep; left; split; [done|]; by apply ref_many|].
  wstep. wstep. rewrite (find_dir dir L rs name Ht Hd). destruct (named name rs) as [[k r]|] eqn:Hnm; cbn [fmap option_fmap option_map].
  { wstep. left. split; [done|]. apply ref_exists. destruct (decide (name ∈ names rs)) as [|Hni]; [done|].
    apply named_None in Hni. congruence. }
  apply named_None in Hnm. wstep. wstep. destruct (Z.ltb_spec gb 64); [|lia].
  assert (shl64 1 gb = 2 ^ gb) as Hsh.
  { unfold shl64. rewrite Z.shiftl_1_l. apply Z.mod_small. split; [lia|]. pose proof (Z.pow_le_mono_r 2 gb 31 ltac:(lia) ltac:(lia)). change (2 ^ 31) with 2147483648 in *. lia. }
  rewrite Hsh. cbv zeta. fold (table_entries_of g gb). set (te := table_entries_of g gb).
  pose proof (table_entries_nonneg g _ epr gb Hg ltac:(lia)) as Hte. fold te in Hte.
  assert (0 <= as_u32 te <= u32_max) as Hu by (unfold as_u32, u32_max; pose proof (Z.mod_pos_bound te 4294967296 ltac:(lia)); lia).
  wstep. wstep. rewrite (cluster_count_eq (as_u32 te) g _ epr Hg Hu). cbv beta iota zeta.
  destruct (Z.ltb_spec u32_max te) as [Hbig|Hsmall].
  { destruct (Z.ltb_spec MAX_TABLE_CLUSTERS (Z.max (div_ceil (as_u32 te * 8) (g_cluster_size g)) 1)); wstep; left;
      (split; [done|]); eapply ref_huge; [done | by left | done | by right]. }
  assert (as_u32 te = te) as Hte32 by (unfold as_u32, u32_max in *; apply Z.mod_small; lia). rewrite Hte32.
  change (Z.max (div_ceil (te * 8) (g_cluster_size g)) 1) with (table_clusters_of g gb). assert (1 <= table_clusters_of g gb) as Htc by (unfold table_clusters_of; lia).
  destruct (Z.ltb_spec MAX_TABLE_CLUSTERS (table_clusters_of g gb)) as [Hm|Hm]; [wstep; left; split; [done|]; by apply ref_clusters|].
  wstep. apply wp_alloc with epr; [done | done | lia | | intros Hno; left; split; [done|]; by apply ref_full].
  intros f s1 Hf0 Hf1 Hfree Hcl Hg1 Hos. 
  change (mkBitmapDirEntry (host_of g f) te BME_FLAG_AUTO BT_DIRTY_TRACKING_BITMAP gb 0 name) with (new_entry g gb name f).
  pose proof (new_entry_wf g _ epr gb name f Hg Hgb Hn ltac:(lia) Hsmall ltac:(lia)) as Hwf.
  wstep. apply wp_on_out. rewrite Hos. eapply wp_mono; [apply (add_dir dir L rs _ (act_out s) Ht Ho Hd Hwf) | |].
  - cbn beta. intros nl out (Hd2 & Hl2 & Hb2). wstep. wstep.
    pose proof (zero_list_ok g _ epr f (Z.to_nat (table_clusters_of g gb)) 0 Hg Hf0 ltac:(lia) ltac:(lia)) as Hz.
    rewrite Z2Nat.id, Z.add_0_r in Hz by lia. rewrite Hz. wstep. split; [lia|]. split; [done|]. split; [done|]. exists f. split; done.
  - cbn beta. intros x out [Hlt ->]. right. destruct (dir_is_len _ _ _ Hd) as [HL _].
    rewrite plen_app, plen_cons, blen_enc, <- HL in Hlt. change (plen []) with 0 in Hlt. unfold entry_size in Hlt.
    cbn [new_entry bm_name] in Hlt. split; [lia | done | by exists f].
Qed.

(** ** Removing, clearing *)

(** The table of an entry starts at cluster [f] and lies in the clusters the blocks
    count. *)
Record table_in (g : BitmapGeometry) (epr : Z) (e : BitmapDirEntry) (f : Z) : Prop := {
  ti_off : bitmap_table_offset e = host_of g f;
  ti_lo : 0 <= f;
  ti_hi : f + div_ceil (bitmap_table_size e * 8) (g_cluster_size g) <= clusters g epr
}.

Lemma named_lookup name rs k r : named name rs = Some (k, r) -> rs !! k = Some r /\ bm_name (entry_of r) = name.
Proof. intros (Hk & Hn & _)%list_find_Some. done. Qed.

Lemma table_count g b epr e : geom_ok g b epr -> entry_wf e ->
  table_cluster_count (bitmap_table_size e) (g_cluster_size g) = Ok (div_ceil (bitmap_table_size e * 8) (g_cluster_size g)) /\
  0 <= div_ceil (bitmap_table_size e * 8) (g_cluster_size g).
Proof.
  intros Hg He. pose proof (wf_size e He) as Hs. split; [by apply (cluster_count_eq _ g b epr)|].
  destruct Hg as [_ [_ _ Hcs Hep _ _] _ _ _ _ _]. unfold is_u32 in Hs. apply div_ceil_nonneg; lia.
Qed.

Lemma remove_spec g epr name dir L rs k r f s :
  geom_ok g (as_blocks (act_alloc s)) epr -> table_ok dir -> dir_is dir L rs -> is_bytes (act_out s) ->
  named name rs = Some (k, r) -> table_in g epr (entry_of r) f ->
  wp (action_remove dir L (Z.of_nat (length rs)) name g)
    (fun o s' => dir_is (act_out s') (new_dir_len o) (delete k rs) /\ geom_ok g (as_blocks (act_alloc s')) epr /\
       released (as_blocks (act_alloc s)) (as_blocks (act_alloc s')) (clusters g epr) f
         (div_ceil (bitmap_table_size (entry_of r) * 8) (g_cluster_size g)) /\
       as_cursor (act_alloc s') = as_cursor (act_alloc s) /\ blen (act_out s') = blen (act_out s) /\
       new_nb_bitmaps o = Z.of_nat (length rs) - 1 /\ extension_now_present o = negb (Z.of_nat (length rs) =? 1) /\
       freed_table_offset o = bitmap_table_offset (entry_of r) /\ freed_table_size o = bitmap_table_size (entry_of r))
    (fun x _ => x = BmScratchTooSmall /\ blen (act_out s) < plen (delete k rs)) s.
Proof.
  intros Hg Ht Hd Ho Hnm [Hto Hlo Hhi]. destruct (named_lookup _ _ _ _ Hnm) as [Hk _]. pose proof (lookup_lt_Some _ _ _ Hk) as Hlt.
  assert (entry_wf (entry_of r)) as Hwf by (destruct Hd as [_ Hr]; rewrite Forall_lookup in Hr; by destruct (raw_wf _ _ (Hr k r Hk))).
  destruct (table_count g _ epr _ Hg Hwf) as [Htc Hnn].
  unfold action_remove. rewrite (go_bits _ _ _ Hg). change (SUPPORTED_REFCOUNT_BITS =? SUPPORTED_REFCOUNT_BITS) with true. cbn [negb].
  wstep. wstep. rewrite (find_dir dir L rs name Ht Hd), Hnm. cbn [fmap option_fmap option_map]. wstep. wstep. cbn [ok_or found_at fb_entry fb_index fst snd].
  wstep. wstep. rewrite Htc. set (n := div_ceil (bitmap_table_size (entry_of r) * 8) (g_cluster_size g)) in *.
  wstep. wstep. rewrite Hto, (check_table_ok g _ epr f (Z.to_nat n) 0 Hg) by lia. wstep.
  destruct (free_table_spec g epr f (Z.to_nat n) 0 s Hg Hlo ltac:(lia) ltac:(lia)) as (b' & Hrun & Hg' & Hrel).
  rewrite Z2Nat.id, Z.add_0_r in Hrel by lia. unfold wp at 1. rewrite Hrun. wstep. apply wp_on_out. cbn [act_out act_alloc].
  eapply wp_mono; [apply (without_dir dir L rs k (act_out s) Ht Ho Hd Hlt) | |done].
  cbn beta. intros nl out (Hd2 & Hl2 & Hb2). wstep. split_and!; try done.
  cbn [extension_now_present]. f_equal. destruct (Z.eqb_spec (Z.of_nat (length rs) - 1) 0), (Z.eqb_spec (Z.of_nat (length rs)) 1); lia || done.
Qed.

Lemma absent_refused g b epr name dir L rs s : geom_ok g b epr -> table_ok dir -> dir_is dir L rs -> name ∉ names rs ->
  action_remove dir L (Z.of_nat (length rs)) name g s = (Err BitmapNotFound, s) /\
  action_clear dir L (Z.of_nat (length rs)) name g s = (Err BitmapNotFound, s) /\
  forall enable, set_auto_flag dir L (Z.of_nat (length rs)) name enable (act_out s) = (Err BitmapNotFound, act_out s).
Proof.
  intros Hg Ht Hd Hn. apply named_None in Hn. unfold action_remove, action_clear, set_auto_flag. rewrite (go_bits _ _ _ Hg).
  change (SUPPORTED_REFCOUNT_BITS =? SUPPORTED_REFCOUNT_BITS) with true. cbn [negb]. unfold sbind, slift.
  rewrite (find_dir dir L rs name Ht Hd), Hn. done.
Qed.

Lemma clear_spec g epr name dir L rs k r f s :
  geom_ok g (as_blocks (act_alloc s)) epr -> table_ok dir -> dir_is dir L rs -> is_bytes (act_out s) ->
  named name rs = Some (k, r) -> table_in g epr (entry_of r) f ->
  wp (action_clear dir L (Z.of_nat (length rs)) name g)
    (fun o s' => act_alloc s' = act_alloc s /\ dir_is (act_out s') (new_dir_len o) rs /\ new_nb_bitmaps o = Z.of_nat (length rs) /\
       is_in_use (entry_of r) = false /\ zero_freed_table o = true /\
       freed_table_offset o = bitmap_table_offset (entry_of r) /\ freed_table_size o = bitmap_table_size (entry_of r))
    (fun x s' => s' = s /\ (x = BitmapInUse /\ is_in_use (entry_of r) = true \/ x = BmScratchTooSmall /\ blen (act_out s) < L)) s.
Proof.
  intros Hg Ht Hd Ho Hnm [Hto Hlo Hhi]. destruct (named_lookup _ _ _ _ Hnm) as [Hk _].
  assert (entry_wf (entry_of r)) as Hwf by (destruct Hd as [_ Hr]; rewrite Forall_lookup in Hr; by destruct (raw_wf _ _ (Hr k r Hk))).
  destruct (table_count g _ epr _ Hg Hwf) as [Htc Hnn]. destruct (dir_is_len _ _ _ Hd) as [HL HLb].
  unfold action_clear. rewrite (go_bits _ _ _ Hg). change (SUPPORTED_REFCOUNT_BITS =? SUPPORTED_REFCOUNT_BITS) with true. cbn [negb].
  wstep. wstep. rewrite (find_dir dir L rs name Ht Hd), Hnm. cbn [fmap option_fmap option_map]. wstep. wstep. cbn [ok_or found_at fb_entry fb_index fst snd].
  destruct (is_in_use (entry_of r)) eqn:Hu; [wstep; auto|].
  wstep. wstep. rewrite Htc. set (n := div_ceil (bitmap_table_size (entry_of r) * 8) (g_cluster_size g)) in *.
  wstep. wstep. rewrite Hto, (check_table_ok g _ epr f (Z.to_nat n) 0 Hg) by lia. wstep. wstep.
  rewrite (proj2 (byte_len_dir dir (Z.of_nat (length rs)) L Ht ltac:(lia))) by (by exists rs). rewrite Z.eqb_refl. cbn [negb].
  destruct (Z.ltb_spec (blen dir) L); [lia|]. wstep. wstep. destruct (Z.ltb_spec (blen (act_out s)) L); [wstep; auto|].
  pose proof Hd as [Hs Hr]. wstep. wstep. rewrite Hs. cbn [or_panic]. wstep. apply wp_on_out. unfold plen in HL.
  apply wp_obput; [done | lia |]. intros out' Hsp Hl. wstep. cbn. split_and!; try done.
  split; [|done]. apply slice_splice_eq in Hsp. rewrite Z.add_0_l, <- HL in Hsp. done.
Qed.

(** ** Enabling, disabling *)

(** A parsed entry has no flag but the two known ones. *)
Lemma flags_small e : entry_wf e -> 0 <= bm_flags e < 4.
Proof.
  intros He. pose proof (wf_flags e He) as Hu. pose proof (wf_reserved e He) as Hr. unfold is_u32, u32_max in Hu.
  assert (bm_flags e = Z.land (bm_flags e) 3) as Heq.
  { rewrite <- (Z.lor_0_r (Z.land (bm_flags e) 3)), <- Hr, <- Z.land_lor_distr_r.
    change (Z.lor 3 BME_RESERVED_FLAGS) with (Z.ones 32). rewrite Z.land_ones by lia. symmetry. apply Z.mod_small. lia. }
  change 3 with (Z.ones 2) in Heq. rewrite Z.land_ones in Heq by lia. change (2 ^ 2) with 4 in Heq.
  pose proof (Z.mod_pos_bound (bm_flags e) 4 ltac:(lia)). lia.
Qed.

(** The entry with the auto flag set as asked. *)
Definition with_auto (enable : bool) (e : BitmapDirEntry) : BitmapDirEntry :=
  mkBitmapDirEntry (bitmap_table_offset e) (bitmap_table_size e)
    (if enable then Z.lor (bm_flags e) BME_FLAG_AUTO else Z.land (bm_flags e) (Z.lxor BME_FLAG_AUTO u32_max))
    (bitmap_type e) (granularity_bits e) (bm_extra_data_size e) (bm_name e).

Lemma with_auto_spec enable e : entry_wf e ->
  entry_wf (with_auto enable e) /\ is_enabled (with_auto enable e) = enable /\ is_in_use (with_auto enable e) = is_in_use e /\
  (is_enabled e = enable -> with_auto enable e = e).
Proof.
  intros He. pose proof (flags_small e He) as Hf. destruct He as [? ? ? ? ? ? ? ? ?], e as [off sz fl ty gr ex nm]; cbn in *.
  assert (fl = 0 \/ fl = 1 \/ fl = 2 \/ fl = 3) as Hc by lia.
  destruct Hc as [->|[->|[->| ->]]], enable; (split; [split; done|]); (split; [done|]); (split; [done|]); done.
Qed.

Lemma set_auto_spec name dir L rs k r enable out :
  table_ok dir -> dir_is dir L rs -> is_bytes out -> named name rs = Some (k, r) ->
  wp (set_auto_flag dir L (Z.of_nat (length rs)) name enable)
    (fun o out' => dir_is out' L (<[k := enc (with_auto enable (entry_of r))]> rs) /\ new_dir_len o = L /\
       new_nb_bitmaps o = Z.of_nat (length rs) /\ is_in_use (entry_of r) = false /\ is_bytes out' /\ blen out' = blen out)
    (fun x _ => x = BitmapInUse /\ is_in_use (entry_of r) = true \/ x = BmScratchTooSmall /\ blen out < L) out.
Proof.
  intros Ht Hd Ho Hnm. destruct (named_lookup _ _ _ _ Hnm) as [Hk _].
  assert (entry_wf (entry_of r)) as Hwf by (destruct Hd as [_ Hr]; rewrite Forall_lookup in Hr; by destruct (raw_wf _ _ (Hr k r Hk))).
  destruct (with_auto_spec enable _ Hwf) as (Hwf' & _). unfold set_auto_flag.
  wstep. wstep. rewrite (find_dir dir L rs name Ht Hd), Hnm. cbn [fmap option_fmap option_map]. wstep. wstep. cbn [ok_or found_at fb_entry fb_index fst snd].
  destruct (is_in_use (entry_of r)) eqn:Hu; [wstep; auto|]. cbv zeta. fold (with_auto enable (entry_of r)). wstep.
  eapply wp_mono; [apply (replacing_dir dir L rs k r _ out Ht Ho Hd Hk Hwf'); done | |].
  - cbn beta. intros n o (Hd2 & -> & ? & ?). wstep. split_and!; try done.
  - cbn beta. auto.
Qed.

(** ** Validating a merge *)

(** A merge is accepted exactly for two bitmaps of the directory, neither in use, of
    one granularity and one table size. *)
Lemma merge_validate_spec dir L rs dn sn : table_ok dir -> dir_is dir L rs ->
  match merge_validate dir (Z.of_nat (length rs)) dn sn with
  | Ok m => exists kd rd ks rsrc, named dn rs = Some (kd, rd) /\ named sn rs = Some (ks, rsrc) /\
      ms_dest m = found_at 0 0 rs (kd, rd) /\ ms_source m = found_at 0 0 rs (ks, rsrc) /\
      is_in_use (entry_of rd) = false /\ is_in_use (entry_of rsrc) = false /\
      ms_granularity_bits m = granularity_bits (entry_of rd) /\ ms_granularity_bits m = granularity_bits (entry_of rsrc) /\
      ms_table_size m = bitmap_table_size (entry_of rd) /\ ms_table_size m = bitmap_table_size (entry_of rsrc) /\
      (ms_self_merge m = true <-> dn = sn)
  | Err x => x = BitmapNotFound /\ (dn ∉ names rs) \/ x = MergeSourceNotFound /\ (sn ∉ names rs) \/ x = BitmapInUse \/ x = IncompatibleMerge
  | _ => False
  end.
Proof.
  intros Ht Hd. unfold merge_validate. rewrite !(find_dir dir L rs _ Ht Hd). cbn [obind].
  destruct (named dn rs) as [[kd rd]|] eqn:Hdn; cbn [fmap option_fmap option_map ok_or obind]; [|left; split; [done|by apply named_None]].
  destruct (named sn rs) as [[ks rsrc]|] eqn:Hsn; cbn [fmap option_fmap option_map ok_or obind]; [|right; left; split; [done|by apply named_None]].
  cbn [found_at fb_entry fst snd]. destruct (is_in_use (entry_of rd)) eqn:Hu1; [auto|]. destruct (is_in_use (entry_of rsrc)) eqn:Hu2; [auto|].
  destruct (Z.eqb_spec (granularity_bits (entry_of rd)) (granularity_bits (entry_of rsrc))) as [Hg|]; cbn [negb]; [|auto].
  destruct (Z.eqb_spec (bitmap_table_size (entry_of rd)) (bitmap_table_size (entry_of rsrc))) as [Hz|]; cbn [negb]; [|auto].
  exists kd, rd, ks, rsrc. split_and!; try done. cbn. apply bool_decide_eq_true.
Qed.

(** A new name is found at the end. *)
Lemma named_snoc name rs e : name ∉ names rs -> entry_wf e -> bm_name e = name -> named name (rs ++ [enc e]) = Some (length rs, enc e).
Proof.
  intros Hn He Hnm. apply named_None in Hn. unfold named in *. apply list_find_Some. split; [|split].
  - by apply list_lookup_middle.
  - by rewrite entry_of_enc.
  - intros j y Hj Hlt. rewrite lookup_app_l in Hj by done. rewrite list_find_None, Forall_lookup in Hn. by apply (Hn j).
Qed.

(** ** Theorems *)

(** C24: what [action_add] does on every branch.  Either it is refused for a reason of
    the documented list with the refcount blocks, the cursor and the output as they
    were, or the output buffer is too small for the new directory, and then the
    table's clusters stay claimed; otherwise the name was valid and new, a run of clusters that were free is claimed for the table and
    listed for zeroing, no other refcount changes, and the new directory is the old
    raw entries followed by one enabled, empty bitmap that [find_bitmap] finds at the
    end. *)
Theorem add_appends_bitmap g epr gb name dir L rs s :
  geom_ok g (as_blocks (act_alloc s)) epr -> cursor_ok epr (as_cursor (act_alloc s)) -> table_ok dir -> dir_is dir L rs ->
  is_bytes name -> is_bytes (act_out s) -> slice_fits (act_out s) ->
  match action_add dir L (Z.of_nat (length rs)) name gb g s with
  | (Ok o, s') => (name ∉ names rs) /\ exists f, added g epr gb name rs s o s' f /\
      find_bitmap (act_out s') (new_nb_bitmaps o) name =
        Ok (Some (mkFoundBitmap (Z.of_nat (length rs)) (new_entry g gb name f) L (round8 (24 + blen name))))
  | (Err x, s') => (s' = s /\ add_refused g epr gb name rs s x) \/ add_stranded g epr gb name L s x s'
  | _ => False
  end.
Proof.
  intros Hg Hc Ht Hd Hn Ho Hfit. pose proof (add_spec g epr gb name dir L rs s Hg Hc Ht Hd Hn Ho) as Hadd. unfold wp in Hadd.
  destruct (action_add dir L (Z.of_nat (length rs)) name gb g s) as [[o|x| |] s']; try done.
  destruct Hadd as (_ & _ & Hni & f & Ha). split; [done|]. exists f. split; [done|].
  destruct Ha as [_ _ _ _ _ Hd' Hwf [Hb1 Hb2] Hcnt _].
  assert (table_ok (act_out s')) as Ht' by (split; [done|]; unfold slice_fits in Hfit; lia).
  rewrite Hcnt. replace (Z.of_nat (length rs) + 1) with (Z.of_nat (length (rs ++ [enc (new_entry g gb name f)]))) by (rewrite length_app; cbn; lia).
  rewrite (find_dir _ _ _ name Ht' Hd'). rewrite (named_snoc name rs _ Hni Hwf) by done. cbn [fmap option_fmap option_map]. unfold found_at. cbn [fst snd].
  rewrite !Z.add_0_l, take_app_length, blen_enc, entry_of_enc by done. destruct (dir_is_len _ _ _ Hd) as [-> _]. done.
Qed.

Lemma new_table_in g b epr gb name f : geom_ok g b epr -> 9 <= gb <= 31 -> 0 < g_virtual_size g -> 0 <= f ->
  f + table_clusters_of g gb <= clusters g epr -> table_in g epr (new_entry g gb name f) f.
Proof. intros Hg Hgb Hv Hf Hhi. split; [done | done |]. cbn [new_entry bitmap_table_size]. rewrite <- (clusters_pos g b epr gb Hg) by lia. done. Qed.

(** Removing the bitmap just added: the directory is back, and the clusters the entry
    counts are released. *)
Lemma remove_after_add g epr gb name dir L rs s o s1 f out2 : table_ok dir -> dir_is dir L rs -> slice_fits (act_out s) ->
  name ∉ names rs -> added g epr gb name rs s o s1 f -> table_in g epr (new_entry g gb name f) f -> is_bytes out2 -> L <= blen out2 ->
  exists o2 s2,
    action_remove (act_out s1) (new_dir_len o) (new_nb_bitmaps o) name g (mkActSt (act_alloc s1) out2) = (Ok o2, s2) /\
    new_nb_bitmaps o2 = Z.of_nat (length rs) /\ new_dir_len o2 = L /\ slice (act_out s2) 0 L = slice dir 0 L /\
    freed_table_size o2 = table_entries_of g gb /\
    released (as_blocks (act_alloc s1)) (as_blocks (act_alloc s2)) (clusters g epr) f (div_ceil (table_entries_of g gb * 8) (g_cluster_size g)).
Proof.
  intros Ht Hd Hfit Hni [[Hf0 Hf1] _ Hfree Hcl Hg1 Hd1 Hwf [Hb1 Hb2] Hcnt _] Hti Ho2 Hl2.
  assert (table_ok (act_out s1)) as Ht1 by (split; [done|]; unfold slice_fits in Hfit; lia).
  set (e := new_entry g gb name f) in *. pose proof (named_snoc name rs e Hni Hwf eq_refl) as Hnm.
  assert (entry_of (enc e) = e) as Heo by (by apply entry_of_enc). rewrite <- Heo in Hti.
  pose proof (remove_spec g epr name _ _ _ _ _ f (mkActSt (act_alloc s1) out2) Hg1 Ht1 Hd1 Ho2 Hnm Hti) as Hrem. unfold wp in Hrem.
  rewrite delete_middle, app_nil_r, length_app in Hrem. cbn [length act_alloc act_out] in Hrem. rewrite Hcnt.
  replace (Z.of_nat (length rs) + 1) with (Z.of_nat (length rs + 1)) by lia. destruct (dir_is_len _ _ _ Hd) as [HL _].
  destruct (action_remove (act_out s1) (new_dir_len o) (Z.of_nat (length rs + 1)) name g (mkActSt (act_alloc s1) out2)) as [[o2|x| |] s2];
    [|lia|done|done].
  destruct Hrem as (Hd2 & _ & Hrel & _ & _ & Hnb & _ & _ & Hfs). exists o2, s2. destruct (dir_is_len _ _ _ Hd2) as [HL2 _].
  assert (new_dir_len o2 = L) as HLL by lia. rewrite HLL in Hd2. rewrite Heo in Hrel, Hfs.
  split_and!; try done; [lia|]. by rewrite (di_bytes _ _ _ Hd2), (di_bytes _ _ _ Hd).
Qed.

(** C25: on an image of non-zero size, adding a bitmap and removing it again gives back
    the directory byte for byte, the count, and every refcount; the remove cannot
    fail when its output buffer holds the old directory. *)
Theorem add_remove_roundtrip g epr gb name dir L rs s o s1 out2 :
  geom_ok g (as_blocks (act_alloc s)) epr -> cursor_ok epr (as_cursor (act_alloc s)) -> table_ok dir -> dir_is dir L rs ->
  is_bytes name -> is_bytes (act_out s) -> slice_fits (act_out s) -> 0 < g_virtual_size g ->
  action_add dir L (Z.of_nat (length rs)) name gb g s = (Ok o, s1) -> is_bytes out2 -> L <= blen out2 ->
  exists o2 s2,
    action_remove (act_out s1) (new_dir_len o) (new_nb_bitmaps o) name g (mkActSt (act_alloc s1) out2) = (Ok o2, s2) /\
    new_nb_bitmaps o2 = Z.of_nat (length rs) /\ new_dir_len o2 = L /\ slice (act_out s2) 0 L = slice dir 0 L /\
    forall i, 0 <= i < clusters g epr -> entry (as_blocks (act_alloc s2)) i = entry (as_blocks (act_alloc s)) i.
Proof.
  intros Hg Hc Ht Hd Hn Ho Hfit Hv Hrun Ho2 Hl2. pose proof (add_spec g epr gb name dir L rs s Hg Hc Ht Hd Hn Ho) as Hadd.
  unfold wp in Hadd. rewrite Hrun in Hadd. destruct Hadd as (_ & Hgb & Hni & f & Ha). pose proof Ha as [[Hf0 Hf1] _ Hfree Hcl _ _ _ _ _ _].
  pose proof (new_table_in g _ epr gb name f Hg Hgb Hv Hf0 Hf1) as Hti.
  destruct (remove_after_add g epr gb name dir L rs s o s1 f out2 Ht Hd Hfit Hni Ha Hti Ho2 Hl2) as (o2 & s2 & Hrem & Hnb & HL & Hsl & _ & Hrel).
  exists o2, s2. split_and!; try done. intros i Hi. rewrite (Hrel i Hi), (Hcl i Hi), <- (clusters_pos g _ epr gb Hg ltac:(lia) Hv).
  destruct (Z.leb_spec f i), (Z.ltb_spec i (f + table_clusters_of g gb)); cbn [andb]; try done. symmetry. apply Hfree. lia.
Qed.

(** On an image of size zero the round trip loses a cluster: [action_add] claims one
    for the empty table, but the entry records no table entries, so [action_remove]
    frees none; the bitmap is gone and its cluster still has refcount 1. *)
Theorem zero_size_remove_leaks g epr gb name dir L rs s o s1 out2 :
  geom_ok g (as_blocks (act_alloc s)) epr -> cursor_ok epr (as_cursor (act_alloc s)) -> table_ok dir -> dir_is dir L rs ->
  is_bytes name -> is_bytes (act_out s) -> slice_fits (act_out s) -> g_virtual_size g = 0 ->
  action_add dir L (Z.of_nat (length rs)) name gb g s = (Ok o, s1) -> is_bytes out2 -> L <= blen out2 ->
  exists o2 s2 f,
    action_remove (act_out s1) (new_dir_len o) (new_nb_bitmaps o) name g (mkActSt (act_alloc s1) out2) = (Ok o2, s2) /\
    slice (act_out s2) 0 (new_dir_len o2) = slice dir 0 L /\ freed_table_size o2 = 0 /\
    0 <= f < clusters g epr /\ entry (as_blocks (act_alloc s)) f = 0 /\ entry (as_blocks (act_alloc s2)) f = 1.
Proof.
  intros Hg Hc Ht Hd Hn Ho Hfit Hv Hrun Ho2 Hl2. pose proof (add_spec g epr gb name dir L rs s Hg Hc Ht Hd Hn Ho) as Hadd.
  unfold wp in Hadd. rewrite Hrun in Hadd. destruct Hadd as (_ & Hgb & Hni & f & Ha). pose proof Ha as [[Hf0 Hf1] _ Hfree Hcl _ _ _ _ _ _].
  pose proof (table_entries_zero g _ epr gb Hg ltac:(lia) Hv) as Hte. pose proof (go_blocks _ _ _ Hg) as [_ _ Hcs Hep _ _].
  assert (div_ceil (table_entries_of g gb * 8) (g_cluster_size g) = 0) as Hdc
    by (rewrite Hte; unfold div_ceil; by rewrite Z.mod_0_l, Z.div_0_l by lia).
  assert (table_clusters_of g gb = 1) as Htc by (unfold table_clusters_of; by rewrite Hdc).
  assert (table_in g epr (new_entry g gb name f) f) as Hti by (split; [done | done | cbn [new_entry bitmap_table_size]; rewrite Hdc; lia]).
  destruct (remove_after_add g epr gb name dir L rs s o s1 f out2 Ht Hd Hfit Hni Ha Hti Ho2 Hl2) as (o2 & s2 & Hrem & _ & HL & Hsl & Hfs & Hrel).
  exists o2, s2, f. split; [done|]. split; [by rewrite HL|]. split; [lia|]. split; [lia|].
  split; [apply Hfree; lia|]. rewrite (Hrel f ltac:(lia)), (Hcl f ltac:(lia)), Hdc, Htc.
  destruct (Z.leb_spec f f), (Z.ltb_spec f (f + 0)), (Z.ltb_spec f (f + 1)); cbn [andb]; done || lia.
Qed.

(** Enabling and disabling rewrite one flag: the bitmap asked for is enabled
    exactly when asked, every other entry keeps its raw bytes, every other field of
    the entry is unchanged, and asking for the state a bitmap is already in changes no
    entry.  A bitmap in use is refused; nothing else is, unless the output is shorter
    than the directory. *)
Theorem set_auto_flag_toggles name dir L rs k r enable out :
  table_ok dir -> dir_is dir L rs -> is_bytes out -> named name rs = Some (k, r) ->
  match set_auto_flag dir L (Z.of_nat (length rs)) name enable out with
  | (Ok o, out') => exists rs', dir_is out' (new_dir_len o) rs' /\ new_dir_len o = L /\ new_nb_bitmaps o = Z.of_nat (length rs') /\
      (forall j, j <> k -> rs' !! j = rs !! j) /\ entries rs' = <[k := with_auto enable (entry_of r)]> (entries rs) /\
      is_enabled (with_auto enable (entry_of r)) = enable /\ (is_enabled (entry_of r) = enable -> entries rs' = entries rs)
  | (Err x, _) => x = BitmapInUse /\ is_in_use (entry_of r) = true \/ x = BmScratchTooSmall /\ blen out < L
  | _ => False
  end.
Proof.
  intros Ht Hd Ho Hnm. pose proof (set_auto_spec name dir L rs k r enable out Ht Hd Ho Hnm) as Hs. unfold wp in Hs.
  destruct (set_auto_flag dir L (Z.of_nat (length rs)) name enable out) as [[o|x| |] out']; try done.
  destruct (named_lookup _ _ _ _ Hnm) as [Hk _]. destruct Hs as (Hd2 & -> & Hnb & _).
  assert (entry_wf (entry_of r)) as Hwf by (destruct Hd as [_ Hr]; rewrite Forall_lookup in Hr; by destruct (raw_wf _ _ (Hr k r Hk))).
  destruct (with_auto_spec enable _ Hwf) as (Hwf' & Hen & _ & Hsame). eexists. split; [exact Hd2|]. rewrite length_insert.
  split_and!; try done; [intros j Hj; by rewrite list_lookup_insert_ne | by apply entries_insert |].
  intros Hq. rewrite entries_insert by done. rewrite (Hsame Hq). apply list_insert_id. unfold entries.
  etransitivity; [apply (list_lookup_fmap entry_of)|]. by rewrite Hk.
Qed.

(** ** Witnesses *)

Definition wit_geom (vsize : Z) : BitmapGeometry := mkBitmapGeometry 16 4 16 vsize 2 0.
Definition wit_blocks : bytes := [0; 1; 0; 1; 0; 1] ++ filled 26 0.
Definition wit_entry : BitmapDirEntry := mkBitmapDirEntry 32 1 0 1 16 0 [97].
Definition wit_dir : bytes := enc wit_entry.
Definition wit_state : ActSt := mkActSt (mkAllocSt wit_blocks AllocCursor_default) (filled 80 0).
Definition wit_added (vsize : Z) : outcome BitmapError ActionOutcome * ActSt := action_add wit_dir 32 1 [98; 99] 9 (wit_geom vsize) wit_state.
Definition wit_outcome (vsize : Z) : ActionOutcome :=
  match (wit_added vsize).1 with Ok o => o | _ => mkActionOutcome 0 0 false [] 0 0 0 false end.

Lemma wit_geom_ok vsize : is_u64 vsize -> geom_ok (wit_geom vsize) wit_blocks 8.
Proof.
  intros Hv. split; try done. split; try done. apply is_bytesb_true. vm_compute. reflexivity.
Qed.

Lemma wit_cursor_ok : cursor_ok 8 AllocCursor_default.
Proof. by split. Qed.

Lemma wit_entry_wf : entry_wf wit_entry.
Proof. split; try done. apply is_bytesb_true. vm_compute. reflexivity. Qed.

Lemma wit_dir_is : table_ok wit_dir /\ dir_is wit_dir 32 [enc wit_entry].
Proof.
  split; [split; [apply enc_bytes, wit_entry_wf | done]|]. split; [vm_compute; reflexivity|].
  apply Forall_singleton. by destruct (raw_self _ _ (enc_raw _ wit_entry_wf)).
Qed.

Lemma wit_bytes : is_bytes [98; 99] /\ is_bytes (filled 80 0) /\ slice_fits (filled 80 0).
Proof. split; [apply is_bytesb_true; done|]. split; [by apply filled_is_bytes | done]. Qed.

Lemma add_appends_bitmap_witness :
  match action_add wit_dir 32 1 [98; 99] 9 (wit_geom 1000) wit_state with
  | (Ok o, s') => exists f, added (wit_geom 1000) 8 9 [98; 99] [enc wit_entry] wit_state o s' f
  | _ => False
  end.
Proof.
  pose proof (add_appends_bitmap (wit_geom 1000) 8 9 [98; 99] wit_dir 32 [enc wit_entry] wit_state (wit_geom_ok 1000 ltac:(done)) wit_cursor_ok
    (proj1 wit_dir_is) (proj2 wit_dir_is) (proj1 wit_bytes) (proj1 (proj2 wit_bytes)) (proj2 (proj2 wit_bytes))) as H.
  change (Z.of_nat (length [enc wit_entry])) with 1 in H.
  assert (exists o s', action_add wit_dir 32 1 [98; 99] 9 (wit_geom 1000) wit_state = (Ok o, s')) as (o & s' & Hrun)
    by (exists (wit_outcome 1000), (wit_added 1000).2; vm_compute; reflexivity).
  rewrite Hrun in *. destruct H as (_ & f & Ha & _). exists f. exact Ha.
Defined.

Lemma add_remove_roundtrip_witness :
  exists o2 s2, action_remove (act_out (wit_added 1000).2) (new_dir_len (wit_outcome 1000)) (new_nb_bitmaps (wit_outcome 1000)) [98; 99] (wit_geom 1000)
    (mkActSt (act_alloc (wit_added 1000).2) (filled 80 0)) = (Ok o2, s2) /\ slice (act_out s2) 0 32 = slice wit_dir 0 32.
Proof.
  destruct (add_remove_roundtrip (wit_geom 1000) 8 9 [98; 99] wit_dir 32 [enc wit_entry] wit_state (wit_outcome 1000) (wit_added 1000).2 (filled 80 0)
    (wit_geom_ok 1000 ltac:(done)) wit_cursor_ok (proj1 wit_dir_is) (proj2 wit_dir_is) (proj1 wit_bytes) (proj1 (proj2 wit_bytes)) (proj2 (proj2 wit_bytes))
    ltac:(done) ltac:(vm_compute; reflexivity) (proj1 (proj2 wit_bytes)) ltac:(done)) as (o2 & s2 & H1 & _ & _ & H2 & _).
  exists o2, s2. split; [exact H1 | exact H2].
Defined.

Lemma zero_size_remove_leaks_witness :
  exists o2 s2 f, action_remove (act_out (wit_added 0).2) (new_dir_len (wit_outcome 0)) (new_nb_bitmaps (wit_outcome 0)) [98; 99] (wit_geom 0)
    (mkActSt (act_alloc (wit_added 0).2) (filled 80 0)) = (Ok o2, s2) /\ entry wit_blocks f = 0 /\ entry (as_blocks (act_alloc s2)) f = 1.
Proof.
  destruct (zero_size_remove_leaks (wit_geom 0) 8 9 [98; 99] wit_dir 32 [enc wit_entry] wit_state (wit_outcome 0) (wit_added 0).2 (filled 80 0)
    (wit_geom_ok 0 ltac:(done)) wit_cursor_ok (proj1 wit_dir_is) (proj2 wit_dir_is) (proj1 wit_bytes) (proj1 (proj2 wit_bytes)) (proj2 (proj2 wit_bytes))
    ltac:(done) ltac:(vm_compute; reflexivity) (proj1 (proj2 wit_bytes)) ltac:(done)) as (o2 & s2 & f & H1 & _ & _ & _ & H2 & H3).
  exists o2, s2, f. split; [exact H1|]. split; [exact H2 | exact H3].
Defined.

Lemma set_auto_flag_toggles_witness :
  match set_auto_flag wit_dir 32 1 [97] true (filled 80 0) with
  | (Ok o, out') => exists rs', dir_is out' 32 rs' /\ entries rs' = [with_auto true (entry_of (enc wit_entry))]
  | _ => False
  end.
Proof.
  pose proof (set_auto_flag_toggles [97] wit_dir 32 [enc wit_entry] 0 (enc wit_entry) true (filled 80 0)
    (proj1 wit_dir_is) (proj2 wit_dir_is) (proj1 (proj2 wit_bytes)) ltac:(vm_compute; reflexivity)) as H.
  change (Z.of_nat (length [enc wit_entry])) with 1 in H.
  destruct (set_auto_flag wit_dir 32 1 [97] true (filled 80 0)) as [[o|x| |] out'] eqn:Hrun; vm_compute in Hrun; try discriminate Hrun.
  destruct H as (rs' & Hd & HL & _ & _ & He & _). rewrite HL in Hd. exists rs'. split; [exact Hd | exact He].
Defined.
