(* ===== verification/RangeIo.v ===== *)
(** * Byte ranges over the call table

    The guest operations read and write byte ranges of a sector-addressed device with small
    helpers of their own (for instance [read_input_byte_range] of
    [src/src/operations/bitmap/src/main.rs] and [read_byte_range] of
    [src/src/operations/resize/src/main.rs]).  They share a turn of the loop with the step
    executor and check neither the sector size nor the end of the range.  On a working
    device they read and write the bytes of the disk. *)

From stdpp Require Import base numbers list sets option.
From Stdlib Require Import ZArith Lia.
From S2P Require Import Prelude Bytes Refcount Qcow2 WriteTypes Exec ExecSpec ExecBytes.

(** ** Definitions *)

Section guest.
Context {D : Type} `{DeviceIo D}.

Fixpoint range_read_loop (fuel : nat) (dev : TargetDevice) (ssz done cur : Z) : SM (RdSt D) ExecCause unit :=
  match fuel with
  | O => slift OutOfFuel
  | S fuel' =>
      let! s := sget in
      if done <? blen (rd_dst s) then
        let take := Z.min (ssz - cur mod ssz) (blen (rd_dst s) - done) in
        do! read_turn dev ssz done cur take in
        range_read_loop fuel' dev ssz (wadd done take) (wadd cur take)
      else sret tt
  end.

(** Every turn moves at least one byte. *)
Definition read_range (dev : TargetDevice) (ssz byte_offset : Z) : SM (RdSt D) ExecCause unit :=
  let! s := sget in
  if blen (rd_dst s) =? 0 then sret tt
  else if ssz =? 0 then slift Panic
  else range_read_loop (S (Z.to_nat (blen (rd_dst s)))) dev ssz 0 byte_offset.

Fixpoint range_write_loop (fuel : nat) (dev : TargetDevice) (ssz : Z) (src : bytes) (done cur : Z) : SM (WrSt D) ExecCause unit :=
  match fuel with
  | O => slift OutOfFuel
  | S fuel' =>
      if done <? blen src then
        let take := Z.min (ssz - cur mod ssz) (blen src - done) in
        do! write_turn dev ssz src done cur take in
        range_write_loop fuel' dev ssz src (wadd done take) (wadd cur take)
      else sret tt
  end.

Definition write_range (dev : TargetDevice) (ssz byte_offset : Z) (src : bytes) : SM (WrSt D) ExecCause unit :=
  if blen src =? 0 then sret tt
  else if ssz =? 0 then slift Panic
  else range_write_loop (S (Z.to_nat (blen src))) dev ssz src 0 byte_offset.
End guest.

(** ** On a working device *)

Section io.
Context {D : Type} `{FlatDisk D}.

Lemma or_panic_Some {E A} (o : option A) (a : A) : or_panic (E := E) o = Ok a -> o = Some a.
Proof. destruct o; cbn; congruence. Qed.

Lemma read_turn_len dev ssz dn cur take (s s1 : RdSt D) : read_turn dev ssz dn cur take s = (Ok tt, s1) ->
  blen (rd_dst s1) = blen (rd_dst s).
Proof.
  unfold read_turn, sbind, sget, slift, sput. intros Hr.
  destruct ((cur mod ssz =? 0) && (take =? ssz)).
  - destruct (slice (rd_dst s) dn (wadd dn ssz)) as [sub|]; [|done]. cbn [or_panic] in Hr.
    destruct (read_sector dev (cur / ssz) sub (rd_dev s)) as [[ok sub'] d']. destruct (splice (rd_dst s) dn sub') as [dst'|] eqn:Hs; [|done].
    cbn [or_panic] in Hr. destruct ok; [|done]. injection Hr as <-. cbn. by apply splice_blen in Hs.
  - destruct (slice (rd_rmw s) 0 ssz) as [sub|]; [|done]. cbn [or_panic] in Hr.
    destruct (read_sector dev (cur / ssz) sub (rd_dev s)) as [[ok sub'] d']. destruct (splice (rd_rmw s) 0 sub') as [rmw'|]; [|done].
    cbn [or_panic] in Hr. destruct ok; [|done]. destruct (slice sub' (cur mod ssz) (cur mod ssz + take)) as [seg|]; [|done]. cbn [or_panic] in Hr.
    destruct (splice (rd_dst s) dn seg) as [dst'|] eqn:Hs; [|done]. injection Hr as <-. cbn. by apply splice_blen in Hs.
Qed.

(** Where the range is addressable the helper is the executor's loop. *)
Lemma read_range_sim fuel : forall dev ssz dn cur (s : RdSt D) Q R, 0 < ssz -> 0 <= dn -> 0 <= cur ->
  blen (rd_dst s) <= u64_max -> cur + (blen (rd_dst s) - dn) <= u64_max ->
  wp (read_loop fuel dev ssz dn cur) Q R s -> wp (range_read_loop fuel dev ssz dn cur) Q R s.
Proof.
  induction fuel as [|fuel IH]; intros dev ssz dn cur s Q R Hssz Hd Hc Hn Hle Hw; [done|].
  cbn [read_loop range_read_loop] in *. unfold wp, sbind, sget in *. destruct (Z.ltb_spec dn (blen (rd_dst s))) as [Hlt|]; [|done].
  pose proof (Z.mod_pos_bound cur ssz Hssz).
  set (take := Z.min (ssz - cur mod ssz) (blen (rd_dst s) - dn)) in *. assert (0 < take <= blen (rd_dst s) - dn) as Htk by lia.
  destruct (read_turn dev ssz dn cur take s) as [[[]|x| |] s1] eqn:Hr; try done.
  pose proof (read_turn_len _ _ _ _ _ _ _ Hr) as Hl. unfold slift in Hw. rewrite checked_add_eq in Hw by lia. cbn [ok_or] in Hw.
  rewrite (wadd_small cur take) by lia. rewrite (wadd_small dn take) in * by lia.
  apply (IH dev ssz (dn + take) (cur + take) s1 Q R); try done; lia.
Qed.

Lemma write_range_sim fuel : forall dev ssz src dn cur (s : WrSt D) Q R, 0 < ssz -> 0 <= dn -> 0 <= cur ->
  blen src <= u64_max -> cur + (blen src - dn) <= u64_max ->
  wp (write_loop fuel dev ssz src dn cur) Q R s -> wp (range_write_loop fuel dev ssz src dn cur) Q R s.
Proof.
  induction fuel as [|fuel IH]; intros dev ssz src dn cur s Q R Hssz Hd Hc Hn Hle Hw; [done|].
  cbn [write_loop range_write_loop] in *. unfold wp, sbind in *. destruct (Z.ltb_spec dn (blen src)) as [Hlt|]; [|done].
  pose proof (Z.mod_pos_bound cur ssz Hssz).
  set (take := Z.min (ssz - cur mod ssz) (blen src - dn)) in *. assert (0 < take <= blen src - dn) as Htk by lia.
  destruct (write_turn dev ssz src dn cur take s) as [[[]|x| |] s1] eqn:Hr; try done.
  unfold slift in Hw. rewrite checked_add_eq in Hw by lia. cbn [ok_or] in Hw.
  rewrite (wadd_small cur take) by lia. rewrite (wadd_small dn take) in * by lia.
  apply (IH dev ssz src (dn + take) (cur + take) s1 Q R); try done; lia.
Qed.

(** A device that works, with a bounce buffer for a sector. *)
Record io_ok (dev : TargetDevice) (ssz : Z) (d : D) (rmw : bytes) : Prop := {
  io_healthy : healthy d;
  io_ssz : sector_size d dev = ssz;
  io_rmw : ssz <= blen rmw
}.

Lemma io_size dev ssz d rmw : io_ok dev ssz d rmw -> 0 < ssz /\ blen (disk_of (contents d) dev) <= u64_max.
Proof. intros [Hh Hs _]. destruct (fd_healthy_size _ dev Hh) as (? & _ & ?). by rewrite Hs in *. Qed.

Lemma read_range_ok dev ssz off d buf rmw b : io_ok dev ssz d rmw -> slice (disk_of (contents d) dev) off (off + blen buf) = Some b ->
  exists d' rmw', read_range dev ssz off (mkRdSt d buf rmw) = (Ok tt, mkRdSt d' b rmw') /\ healthy d' /\ contents d' = contents d /\
    (forall v, sector_size d' v = sector_size d v) /\ blen rmw' = blen rmw.
Proof.
  intros Hok Hs. destruct (io_size _ _ _ _ Hok) as [Hssz Hcl]. destruct Hok as [Hh Hz Hr].
  pose proof (slice_Some _ _ _ _ Hs) as (? & ? & _). pose proof (slice_blen _ _ _ _ Hs) as Hlb. pose proof (blen_nonneg buf).
  pose proof (read_bytes_spec dev off (mkRdSt d buf rmw) ltac:(lia) ltac:(cbn [rd_dst]; lia)) as Hw.
  cbn [rd_dst rd_dev rd_rmw] in Hw. unfold spec_disk_read in Hw. rewrite Hs in Hw. unfold wp, read_bytes, read_range, sbind, sget in *. cbn [rd_dst rd_dev rd_rmw] in *.
  destruct (Z.eqb_spec (blen buf) 0) as [E0|].
  { exists d, rmw. split_and!; try done. unfold sret. do 2 f_equal. unfold blen in *. rewrite (proj1 (length_zero_iff_nil buf)), (proj1 (length_zero_iff_nil b)); done || lia. }
  rewrite Hz in Hw. destruct (Z.eqb_spec ssz 0); [lia|]. destruct (Z.ltb_spec (blen rmw) ssz); [lia|]. cbn [orb] in Hw.
  assert (wp (range_read_loop (S (Z.to_nat (blen buf))) dev ssz 0 off)
    (fun _ s' => rd_frame (mkRdSt d buf rmw) s' /\ Some b = Some (rd_dst s') /\ (healthy d -> healthy (rd_dev s')))
    (fun _ _ => False) (mkRdSt d buf rmw)) as Hw2.
  { apply read_range_sim; cbn [rd_dst]; try lia. unfold wp.
    destruct (read_loop (S (Z.to_nat (blen buf))) dev ssz 0 off (mkRdSt d buf rmw)) as [[[]|x| |] s1]; try done.
    destruct Hw as [_ Hno]. apply Hno. split; [done|]. split; [lia|]. by eexists. }
  unfold wp in Hw2. destruct (range_read_loop (S (Z.to_nat (blen buf))) dev ssz 0 off (mkRdSt d buf rmw)) as [[[]|x| |] [d' b' rmw']]; try done.
  destruct Hw2 as (([Hc1 Hs1] & _ & Hr1) & [= <-] & Hh1). cbn [rd_dev rd_rmw] in *. exists d', rmw'. split_and!; try done; by apply Hh1.
Qed.

Lemma write_range_ok dev ssz off src d rmw c' : io_ok dev ssz d rmw -> splice (disk_of (contents d) dev) off src = Some c' ->
  exists d' rmw', write_range dev ssz off src (mkWrSt d rmw) = (Ok tt, mkWrSt d' rmw') /\ healthy d' /\ contents d' = set_disk dev c' (contents d) /\
    (forall v, sector_size d' v = sector_size d v) /\ blen rmw' = blen rmw.
Proof.
  intros Hok Hs. destruct (io_size _ _ _ _ Hok) as [Hssz Hcl]. destruct Hok as [Hh Hz Hr].
  pose proof (splice_Some _ _ _ _ Hs) as (? & ? & _). pose proof (blen_nonneg src).
  pose proof (write_bytes_spec dev off src (mkWrSt d rmw) ltac:(lia) ltac:(lia)) as Hw.
  cbn [wr_dev wr_rmw] in Hw. unfold spec_disk_write in Hw. rewrite Hs in Hw. cbn [mbind option_bind] in Hw. unfold wp, write_bytes, write_range in *.
  destruct (Z.eqb_spec (blen src) 0) as [E0|].
  { exists d, rmw. assert (src = []) as -> by (apply length_zero_iff_nil; unfold blen in *; lia).
    rewrite splice_nil in Hs by (change (blen []) with 0 in *; lia). injection Hs as <-. rewrite set_disk_self. by split_and!. }
  unfold sbind, sget in Hw. cbn [wr_dev wr_rmw] in Hw. rewrite Hz in Hw. destruct (Z.eqb_spec ssz 0); [lia|]. destruct (Z.ltb_spec (blen rmw) ssz); [lia|]. cbn [orb] in Hw.
  assert (wp (range_write_loop (S (Z.to_nat (blen src))) dev ssz src 0 off)
    (fun _ s' => wr_sizes (mkWrSt d rmw) s' /\ Some (set_disk dev c' (contents d)) = Some (contents (wr_dev s')) /\ (healthy d -> healthy (wr_dev s')))
    (fun _ _ => False) (mkWrSt d rmw)) as Hw2.
  { apply write_range_sim; try lia. unfold wp.
    destruct (write_loop (S (Z.to_nat (blen src))) dev ssz src 0 off (mkWrSt d rmw)) as [[[]|x| |] s1]; try done.
    destruct Hw as (_ & _ & Hno). apply Hno. split; [done|]. split; [lia|]. by eexists. }
  unfold wp in Hw2. destruct (range_write_loop (S (Z.to_nat (blen src))) dev ssz src 0 off (mkWrSt d rmw)) as [[[]|x| |] [d' rmw']]; try done.
  destruct Hw2 as ([Hs1 Hr1] & [= Hc1] & Hh1). cbn [wr_dev wr_rmw] in *. exists d', rmw'. split_and!; try done; by apply Hh1.
Qed.
End io.
