(* ===== verification/BitmapMerge.v ===== *)
(** The guest side of a bitmap merge ([src/src/operations/bitmap/src/main.rs]): the
    byte-range helpers over the call table's sector I/O, and [merge_one_source], which
    ORs one bitmap into another, table entry by table entry, on the image itself.

    A result code is the [BitmapError] it is the code of; the device is Input0.  The
    theorem is about the meaning of the two tables as bits: what every table entry
    stands for before and after, with the refcount discipline that keeps the clusters
    of the image apart. *)

From stdpp Require Import base numbers list sets option.
From Stdlib Require Import ZArith Lia.
From S2P Require Import Prelude Bytes Refcount Qcow2 SnapshotWalk WriteTypes Exec ExecSpec ExecBytes RangeIo SnapTable Header BitmapDir BitmapAction.

(** ** Definitions *)

(** [From<BitmapError> for u32]. *)
Definition BitmapError_code (err : BitmapError) : Z :=
  match err with
  | BmUnsupportedFormat => 1
  | BmUnsupportedVersion => 2
  | BmParseFailed => 3
  | BmHeaderMismatch => 4
  | BitmapNotFound => 5
  | BitmapExists => 6
  | BitmapInUse => 7
  | NameTooLong => 8
  | GranularityRange => 9
  | TooManyBitmaps => 10
  | NoSpace => 11
  | BmWriteFailed => 12
  | BmReadFailed => 13
  | BmScratchTooSmall => 14
  | InternalOverflow => 15
  | MergeSourceNotFound => 16
  | UnsupportedAction => 17
  | UnsupportedRefcountWidth => 18
  | IncompatibleMerge => 19
  end.

Section guest.
Context {D : Type} `{DeviceIo D}.

(** The byte-range helpers on Input0; [false] is an [Err]. *)
Definition read_input_byte_range (ssz byte_offset : Z) : SM (RdSt D) ExecCause unit := read_range Input0 ssz byte_offset.

Definition write_input_byte_range (ssz byte_offset : Z) (src : bytes) : SM (WrSt D) ExecCause unit := write_range Input0 ssz byte_offset src.

(** The memory a merge works on: the device, the bounce sector, the staged refcount
    blocks with the cursor, and the two cluster buffers. *)
Record MgSt : Type := mkMgSt {
  mg_dev : D;
  mg_rmw : bytes;
  mg_alloc : AllocSt;
  mg_data_a : bytes;
  mg_data_b : bytes
}.

Abbreviation MM := (SM MgSt BitmapError).

(** A read into [dst]; the buffer it leaves is the result. *)
Definition mread (ssz off : Z) (dst : bytes) : MM bytes :=
  fun s =>
    let '(r, s') := read_input_byte_range ssz off (mkRdSt (mg_dev s) dst (mg_rmw s)) in
    (map_err (fun _ => BmReadFailed) (let? _ := r in Ok (rd_dst s')),
     mkMgSt (rd_dev s') (rd_rmw s') (mg_alloc s) (mg_data_a s) (mg_data_b s)).

Definition mwrite (ssz off : Z) (src : bytes) : MM unit :=
  fun s =>
    let '(r, s') := write_input_byte_range ssz off src (mkWrSt (mg_dev s) (mg_rmw s)) in
    (map_err (fun _ => BmWriteFailed) r, mkMgSt (wr_dev s') (wr_rmw s') (mg_alloc s) (mg_data_a s) (mg_data_b s)).

(** Reads into [DATA_A] and [DATA_B]. *)
Definition read_data_a (ssz off : Z) : MM unit :=
  fun s =>
    let '(r, s') := read_input_byte_range ssz off (mkRdSt (mg_dev s) (mg_data_a s) (mg_rmw s)) in
    (map_err (fun _ => BmReadFailed) r, mkMgSt (rd_dev s') (rd_rmw s') (mg_alloc s) (rd_dst s') (mg_data_b s)).

Definition read_data_b (ssz off : Z) : MM unit :=
  fun s =>
    let '(r, s') := read_input_byte_range ssz off (mkRdSt (mg_dev s) (mg_data_b s) (mg_rmw s)) in
    (map_err (fun _ => BmReadFailed) r, mkMgSt (rd_dev s') (rd_rmw s') (mg_alloc s) (mg_data_a s) (rd_dst s')).

Definition mset_blocks (b : bytes) : MM unit :=
  smod (fun s => mkMgSt (mg_dev s) (mg_rmw s) (mkAllocSt b (as_cursor (mg_alloc s))) (mg_data_a s) (mg_data_b s)).

(** The guest's own [entries_per_refblock]. *)
Definition guest_epr (cluster_size : Z) : Z := wmul cluster_size 8 / 16.

Definition rb_lookup (cluster_size epr refblock_count host_offset : Z) : option (Z * Z) :=
  let cluster_index := host_offset / cluster_size in
  let rb_slot := cluster_index / epr in
  let entry_local := cluster_index mod epr in
  if refblock_count <=? rb_slot then None else Some (wmul rb_slot cluster_size, entry_local).

Definition alloc_err_to_code (e : SnapshotError) : BitmapError :=
  match e with
  | RefcountExhausted => NoSpace
  | Unsupported => UnsupportedRefcountWidth
  | _ => InternalOverflow
  end.

Definition alloc_offset (raw : Z) : outcome BitmapError Z :=
  match decode_bitmap_table_entry raw with
  | Some (Allocated off) => Ok off
  | _ => Err InternalOverflow
  end.

(** [set_refcount_in_block] of a freed data cluster. *)
Definition free_data_cluster (cluster_size refblock_count off : Z) : MM unit :=
  let! (rb_start, entry_local) := slift (ok_or (rb_lookup cluster_size (guest_epr cluster_size) refblock_count off) InternalOverflow) in
  let! s := sget in
  let! block := slift (ok_or (slice (as_blocks (mg_alloc s)) rb_start (wadd rb_start cluster_size)) InternalOverflow) in
  let! block' := slift (map_err (fun _ => InternalOverflow) (set_refcount_in_block block entry_local 16 0)) in
  let! blocks' := slift (or_panic (splice (as_blocks (mg_alloc s)) rb_start block')) in
  mset_blocks blocks'.

Definition mg_allocate (cluster_size refblock_count host_refblocks_start : Z) : MM Z :=
  fun s =>
    let '(r, a) := alloc_contiguous_clusters_in_refblocks cluster_size 16 refblock_count host_refblocks_start 1 (mg_alloc s) in
    (map_err alloc_err_to_code r, mkMgSt (mg_dev s) (mg_rmw s) a (mg_data_a s) (mg_data_b s)).

(** What one index does once its two words are read. *)
Definition merge_apply (ssz cluster_size refblock_count host_refblocks_start dst_word_off src_raw dst_raw : Z) (action : MergeClusterAction) : MM unit :=
  match action with
  | Skip => sret tt
  | CopyAllOnes =>
      do! (match decode_bitmap_table_entry dst_raw with
           | Some (Allocated off) => free_data_cluster cluster_size refblock_count off
           | _ => sret tt
           end) in
      mwrite ssz dst_word_off (be_bytes 8 (encode_bitmap_table_entry AllOnes))
  | OrIntoExisting =>
      let! src_off := slift (alloc_offset src_raw) in
      let! dst_off := slift (alloc_offset dst_raw) in
      do! read_data_a ssz src_off in
      do! read_data_b ssz dst_off in
      let! s := sget in
      let! b := slift (or_bitmap_data (mg_data_b s) (mg_data_a s)) in
      do! smod (fun s => mkMgSt (mg_dev s) (mg_rmw s) (mg_alloc s) (mg_data_a s) b) in
      mwrite ssz dst_off b
  | AllocDestFromSource =>
      let! src_off := slift (alloc_offset src_raw) in
      let! new_off := mg_allocate cluster_size refblock_count host_refblocks_start in
      do! read_data_a ssz src_off in
      let! s := sget in
      do! mwrite ssz new_off (mg_data_a s) in
      mwrite ssz dst_word_off (be_bytes 8 (encode_bitmap_table_entry (Allocated new_off)))
  end.

Fixpoint merge_loop (n : nat) (i ssz cluster_size refblock_count host_refblocks_start source_table_offset dest_table_offset : Z) : MM unit :=
  match n with
  | O => sret tt
  | S n' =>
      let! byte_i := slift (ok_or (checked_mul i 8) InternalOverflow) in
      let! src_word_off := slift (ok_or (checked_add source_table_offset byte_i) InternalOverflow) in
      let! dst_word_off := slift (ok_or (checked_add dest_table_offset byte_i) InternalOverflow) in
      let! src_buf := mread ssz src_word_off (filled 8 0) in
      let! dst_buf := mread ssz dst_word_off (filled 8 0) in
      let src_raw := be_val src_buf in
      let dst_raw := be_val dst_buf in
      let! action := slift (merge_cluster_action src_raw dst_raw) in
      do! merge_apply ssz cluster_size refblock_count host_refblocks_start dst_word_off src_raw dst_raw action in
      merge_loop n' (i + 1) ssz cluster_size refblock_count host_refblocks_start source_table_offset dest_table_offset
  end.

Definition merge_one_source (ssz cluster_size refblock_count host_refblocks_start source_table_offset dest_table_offset table_size : Z) : MM unit :=
  merge_loop (Z.to_nat table_size) 0 ssz cluster_size refblock_count host_refblocks_start source_table_offset dest_table_offset.

End guest.
Arguments MgSt D : clear implicits.

(** ** Reads and writes of a merge *)

Section io.
Context {D : Type} `{FlatDisk D}.

(** The state of a merge over a working device: the image is the bytes [c]. *)
Record mg_ok (ssz cs : Z) (c : bytes) (a : AllocSt) (s : MgSt D) : Prop := {
  mo_healthy : healthy (mg_dev s);
  mo_ssz : sector_size (mg_dev s) Input0 = ssz;
  mo_rmw : ssz <= blen (mg_rmw s);
  mo_file : disk_of (contents (mg_dev s)) Input0 = c;
  mo_alloc : mg_alloc s = a;
  mo_data_a : blen (mg_data_a s) = cs;
  mo_data_b : blen (mg_data_b s) = cs
}.

(** What a read of [n] bytes leaves. *)
Lemma read_range_spec ssz cs c a s off (buf b : bytes) : mg_ok ssz cs c a s -> slice c off (off + blen buf) = Some b ->
  exists d' rmw', read_input_byte_range ssz off (mkRdSt (mg_dev s) buf (mg_rmw s)) = (Ok tt, mkRdSt d' b rmw') /\
    forall da db, blen da = cs -> blen db = cs -> mg_ok ssz cs c a (mkMgSt d' rmw' a da db).
Proof.
  intros [Hh Hz Hr Hf Ha Hda Hdb] Hs. destruct (read_range_ok Input0 ssz off (mg_dev s) buf (mg_rmw s) b) as (d' & rmw' & Hrd & Hh' & Hc & Hs1 & Hl); [by split | by rewrite Hf|].
  exists d', rmw'. split; [done|]. intros da db Hda' Hdb'. split; cbn; try done; [by rewrite Hs1 | lia | by rewrite Hc].
Qed.

Lemma write_range_spec ssz cs c a s off src c' : mg_ok ssz cs c a s -> splice c off src = Some c' ->
  exists d' rmw', write_input_byte_range ssz off src (mkWrSt (mg_dev s) (mg_rmw s)) = (Ok tt, mkWrSt d' rmw') /\
    mg_ok ssz cs c' a (mkMgSt d' rmw' a (mg_data_a s) (mg_data_b s)).
Proof.
  intros [Hh Hz Hr Hf Ha Hda Hdb] Hs. destruct (write_range_ok Input0 ssz off src (mg_dev s) (mg_rmw s) c') as (d' & rmw' & Hrd & Hh' & Hc & Hs1 & Hl); [by split | by rewrite Hf|].
  exists d', rmw'. split; [done|]. split; cbn; try done; [by rewrite Hs1 | lia | by rewrite Hc].
Qed.

Lemma wp_mread ssz cs c a s off (buf b : bytes) (Q : bytes -> MgSt D -> Prop) (R : BitmapError -> MgSt D -> Prop) :
  mg_ok ssz cs c a s -> 0 < blen buf -> slice c off (off + blen buf) = Some b ->
  (forall s', mg_ok ssz cs c a s' -> Q b s') -> wp (mread ssz off buf) Q R s.
Proof.
  intros Hok Hn Hs HQ. destruct (read_range_spec ssz cs c a s off buf b Hok Hs) as (d' & rmw' & Hr & Hok').
  unfold wp, mread. rewrite Hr. cbn. apply HQ. destruct Hok as [_ _ _ _ -> ? ?]. by apply Hok'.
Qed.

Lemma wp_read_a ssz cs c a s off b (Q : unit -> MgSt D -> Prop) (R : BitmapError -> MgSt D -> Prop) :
  mg_ok ssz cs c a s -> 0 < cs -> slice c off (off + cs) = Some b ->
  (forall s', mg_ok ssz cs c a s' -> mg_data_a s' = b -> Q tt s') -> wp (read_data_a ssz off) Q R s.
Proof.
  intros Hok Hn Hs HQ. pose proof Hok as [_ _ _ _ Ha Hda Hdb].
  destruct (read_range_spec ssz cs c a s off (mg_data_a s) b Hok ltac:(by rewrite Hda)) as (d' & rmw' & Hr & Hok').
  unfold wp, read_data_a. rewrite Hr. cbn [map_err rd_dev rd_rmw rd_dst]. apply HQ; [|done]. rewrite Ha. apply Hok'; [|done].
  apply slice_blen in Hs. lia.
Qed.

Lemma wp_read_b ssz cs c a s off b (Q : unit -> MgSt D -> Prop) (R : BitmapError -> MgSt D -> Prop) :
  mg_ok ssz cs c a s -> 0 < cs -> slice c off (off + cs) = Some b ->
  (forall s', mg_ok ssz cs c a s' -> mg_data_a s' = mg_data_a s -> mg_data_b s' = b -> Q tt s') -> wp (read_data_b ssz off) Q R s.
Proof.
  intros Hok Hn Hs HQ. pose proof Hok as [_ _ _ _ Ha Hda Hdb].
  destruct (read_range_spec ssz cs c a s off (mg_data_b s) b Hok ltac:(by rewrite Hdb)) as (d' & rmw' & Hr & Hok').
  unfold wp, read_data_b. rewrite Hr. cbn [map_err rd_dev rd_rmw rd_dst]. apply HQ; [|done|done]. rewrite Ha. apply Hok'; [done|].
  apply slice_blen in Hs. lia.
Qed.

Lemma wp_mwrite ssz cs c a s off src c' (Q : unit -> MgSt D -> Prop) (R : BitmapError -> MgSt D -> Prop) :
  mg_ok ssz cs c a s -> 0 < blen src -> splice c off src = Some c' ->
  (forall s', mg_ok ssz cs c' a s' -> Q tt s') -> wp (mwrite ssz off src) Q R s.
Proof.
  intros Hok Hn Hs HQ. destruct (write_range_spec ssz cs c a s off src c' Hok Hs) as (d' & rmw' & Hr & Hok').
  unfold wp, mwrite. rewrite Hr. cbn. apply HQ. by destruct Hok as [_ _ _ _ -> _ _].
Qed.

Lemma mg_ok_alloc ssz cs c a s a' : mg_ok ssz cs c a s -> mg_ok ssz cs c a' (mkMgSt (mg_dev s) (mg_rmw s) a' (mg_data_a s) (mg_data_b s)).
Proof. intros [? ? ? ? ? ? ?]. by split. Qed.

(** ** Refcounts *)

(** The staged blocks of an image whose first cluster is the header: [nb] blocks of
    [epr] counts, whole clusters of at least a sector's worth, addressable by a table
    entry. *)
Record mg_geom (cs epr nb : Z) (a : AllocSt) : Prop := {
  gg_blocks : staged_blocks (as_blocks a) cs epr nb;
  gg_512 : cs mod 512 = 0;
  gg_cs : cs * 8 <= u64_max;
  gg_rb : 0 <= next_refblock (as_cursor a);
  gg_entry : 0 <= next_entry_in_refblock (as_cursor a);
  gg_start : cursor_start epr (as_cursor a) + 1 <= u64_max;
  gg_total : nb * epr + 1 <= u64_max;
  gg_host : nb * epr * cs <= 2 ^ 56
}.

Lemma wp_mg_allocate ssz cs epr nb c a s (Q : Z -> MgSt D -> Prop) (R : BitmapError -> MgSt D -> Prop) :
  mg_ok ssz cs c a s -> mg_geom cs epr nb a ->
  (forall f a' s', mg_ok ssz cs c a' s' -> mg_geom cs epr nb a' -> 0 <= f < nb * epr -> entry (as_blocks a) f = 0 ->
     (forall k, 0 <= k < nb * epr -> entry (as_blocks a') k = if k =? f then 1 else entry (as_blocks a) k) -> Q (f * cs) s') ->
  (R NoSpace s) -> wp (mg_allocate cs nb 0) Q R s.
Proof.
  intros Hok Hg HQ HR. pose proof Hok as [_ _ _ _ Ha _ _]. pose proof Hg as [Hb H512 Hcs Hrb Hen Hst Htot Hhost].
  pose proof (sb_epr _ _ _ _ Hb) as Hepr. change (2 ^ 56) with 72057594037927936 in Hhost.
  pose proof (alloc_contiguous_spec a cs epr nb 0 1) as Hal. specialize (Hal ltac:(split; done || unfold u64_max in *; lia)). cbv zeta in Hal.
  unfold wp, mg_allocate. rewrite Ha.
  destruct (alloc_contiguous_clusters_in_refblocks cs 16 nb 0 1 a) as [[h|x| |] a']; try done; cbn [map_err].
  - destruct Hal as [[(f & Hf1 & Hf2 & -> & Hf3 & _ & Hf4 & Hcur)] Hsb]. assert (0 <= f) by (unfold cursor_start in *; nia).
    rewrite Z.add_0_r. apply (HQ f a'); [by apply mg_ok_alloc with a | | lia | apply Hf3; lia |].
    + pose proof (Z.div_mod (f + 1) epr ltac:(lia)). pose proof (Z.mod_pos_bound (f + 1) epr ltac:(lia)). pose proof (Z.div_pos (f + 1) epr ltac:(lia) ltac:(lia)).
      split; try done; rewrite Hcur; cbn; try lia. unfold cursor_start. cbn. lia.
    + intros k Hk. rewrite (Hf4 k Hk). destruct (Z.leb_spec f k), (Z.ltb_spec k (f + 1)), (Z.eqb_spec k f); done || lia.
  - destruct Hal as (-> & -> & _). destruct s; cbn in *. by rewrite <- Ha.
Qed.

Lemma wp_free ssz cs epr nb c a s k (Q : unit -> MgSt D -> Prop) (R : BitmapError -> MgSt D -> Prop) :
  mg_ok ssz cs c a s -> mg_geom cs epr nb a -> 0 <= k < nb * epr ->
  (forall a' s', mg_ok ssz cs c a' s' -> mg_geom cs epr nb a' ->
     (forall j, 0 <= j < nb * epr -> entry (as_blocks a') j = if j =? k then 0 else entry (as_blocks a) j) -> Q tt s') ->
  wp (free_data_cluster cs nb (k * cs)) Q R s.
Proof.
  intros Hok Hg Hk HQ. pose proof Hok as [_ _ _ _ Ha _ _]. pose proof Hg as [Hb H512 Hcs Hrb Hen Hst Htot Hhost].
  pose proof Hb as [Hby Hfit Hcse Hepr Hn Hlen]. unfold slice_fits in Hfit.
  assert (guest_epr cs = epr) as He.
  { unfold guest_epr. rewrite wmul_small by lia. rewrite Hcse. rewrite <- (Z.div_mul epr 16) at 2 by lia. f_equal. lia. }
  destruct (block_of_entry cs epr nb k Hcse Hepr Hk) as (H5 & H6 & H7 & H8).
  unfold free_data_cluster, rb_lookup. rewrite He, Z.div_mul by lia.
  assert (k / epr < nb) by (apply Z.div_lt_upper_bound; lia). destruct (Z.leb_spec nb (k / epr)); [lia|].
  wstep. wstep. rewrite wmul_small by (unfold u64_max; lia). cbn [ok_or]. wstep. wstep. rewrite wadd_small by (unfold u64_max; lia). rewrite Ha.
  destruct (set_in_blocks (as_blocks a) cs epr nb k 0 Hb Hk) as (blk & blk' & b' & Hsl & Hset & Hsp & Hsp2).
  wstep. wstep. rewrite Hsl. cbn [ok_or]. wstep. wstep. rewrite Hset. cbn [map_err]. wstep. wstep. rewrite Hsp. cbn [or_panic].
  unfold mset_blocks. wstep. rewrite Ha. apply (HQ (mkAllocSt b' (as_cursor a))); [by apply mg_ok_alloc with a | |].
  - split; try done. cbn. by eapply (entry_splice _ k 0 b' cs epr nb k Hb Hk); [unfold u16_max; lia | lia |].
  - intros j Hj. cbn. by eapply (entry_splice _ k 0 b' cs epr nb j Hb Hj); [unfold u16_max; lia | lia |].
Qed.

End io.

(** ** Tables and clusters of an image *)

Section image.
Variables (cs n s0 t0 : Z).
Hypothesis cs_pos : 0 < cs.
Hypothesis n_nonneg : 0 <= n.

Definition tc : Z := div_ceil (n * 8) cs.

(** Cluster [k] holds a part of the table that starts at cluster [x]. *)
Definition in_tab (x k : Z) : Prop := x <= k < x + tc.

(** Entry [i] of that table, and cluster [k]. *)
Definition word (c : bytes) (x i : Z) : Z := u64_at c (x * cs + i * 8).
Definition clu (c : bytes) (k : Z) : option bytes := slice c (k * cs) (k * cs + cs).

Lemma word_inside x i : 0 <= i < n -> x * cs <= x * cs + i * 8 /\ x * cs + i * 8 + 8 <= (x + tc) * cs.
Proof. intros Hi. destruct (div_ceil_spec (n * 8) cs cs_pos) as [Hd _]. fold tc in Hd. split; [lia|]. rewrite Z.mul_add_distr_r. lia. Qed.

Lemma outside_tab x k : ~ in_tab x k -> k * cs + cs <= x * cs \/ (x + tc) * cs <= k * cs.
Proof.
  unfold in_tab. intros Hk. destruct (decide (k < x)); [left|right].
  - replace (k * cs + cs) with ((k + 1) * cs) by lia. apply Z.mul_le_mono_nonneg_r; lia.
  - apply Z.mul_le_mono_nonneg_r; lia.
Qed.

(** Writing entry [i] of one table. *)
Lemma put_word c c' i v : splice c (t0 * cs + i * 8) (be_bytes 8 v) = Some c' -> 0 <= i < n -> is_u64 v ->
  s0 + tc <= t0 \/ t0 + tc <= s0 ->
  (forall j, 0 <= j < n -> word c' t0 j = if j =? i then v else word c t0 j) /\
  (forall j, 0 <= j < n -> word c' s0 j = word c s0 j) /\ (forall k, ~ in_tab t0 k -> clu c' k = clu c k).
Proof.
  intros Hs Hi Hv Hdis. pose proof (word_inside t0 i Hi). split; [|split].
  - intros j Hj. unfold word. destruct (Z.eqb_spec j i) as [->|]; [by apply u64_at_put with c|].
    apply u64_at_same. apply (slice_splice_ne _ _ _ _ _ _ Hs). rewrite blen_be_bytes. lia.
  - intros j Hj. unfold word. pose proof (word_inside s0 j Hj). apply u64_at_same. apply (slice_splice_ne _ _ _ _ _ _ Hs).
    rewrite blen_be_bytes. destruct Hdis.
    + assert ((s0 + tc) * cs <= t0 * cs) by (apply Z.mul_le_mono_nonneg_r; lia). lia.
    + assert ((t0 + tc) * cs <= s0 * cs) by (apply Z.mul_le_mono_nonneg_r; lia). lia.
  - intros k Hk. apply outside_tab in Hk. apply (slice_splice_ne _ _ _ _ _ _ Hs). rewrite blen_be_bytes. lia.
Qed.

(** Writing a cluster that belongs to neither table. *)
Lemma put_clu c c' k b : splice c (k * cs) b = Some c' -> blen b = cs -> ~ in_tab s0 k -> ~ in_tab t0 k ->
  (forall x j, x = s0 \/ x = t0 -> 0 <= j < n -> word c' x j = word c x j) /\
  (forall j, clu c' j = if j =? k then Some b else clu c j).
Proof.
  intros Hs Hb Hk1 Hk2. split.
  - intros x j Hx Hj. pose proof (word_inside x j Hj). apply u64_at_same. apply (slice_splice_ne _ _ _ _ _ _ Hs).
    assert (~ in_tab x k) as Hk by (by destruct Hx as [->| ->]). apply outside_tab in Hk. lia.
  - intros j. unfold clu. destruct (Z.eqb_spec j k) as [->|].
    + apply slice_splice_eq in Hs. by rewrite Hb in Hs.
    + apply (slice_splice_ne _ _ _ _ _ _ Hs). rewrite Hb. destruct (decide (j < k)); [left|right].
      * replace (j * cs + cs) with ((j + 1) * cs) by lia. apply Z.mul_le_mono_nonneg_r; lia.
      * replace (k * cs + cs) with ((k + 1) * cs) by lia. apply Z.mul_le_mono_nonneg_r; lia.
Qed.

(** The bits a table entry stands for. *)
Definition bits (c : bytes) (w : Z) : option bytes :=
  match decode_bitmap_table_entry w with
  | Some AllZeroes => Some (filled cs 0)
  | Some AllOnes => Some (filled cs 255)
  | Some (Allocated o) => clu c (o / cs)
  | None => None
  end.

Definition or_bits (x y : option bytes) : option bytes := a ← x; b ← y; Some (zip_with Z.lor a b).

Lemma zip_lor_same (f : Z) (l : bytes) m : length l = m -> Forall (fun b => Z.lor b f = f) l -> zip_with Z.lor l (replicate m f) = replicate m f.
Proof. revert l. induction m as [|m IH]; intros [|b l] Hl Hf; try done; cbn in *. inversion Hf; subst. f_equal; [done|]. apply IH; [lia|done]. Qed.

Lemma zip_lor_zero (l : bytes) m : length l = m -> zip_with Z.lor l (replicate m 0) = l.
Proof. revert l. induction m as [|m IH]; intros [|b l] Hl; try done; cbn in *. rewrite Z.lor_0_r. f_equal. apply IH. lia. Qed.

Lemma zip_lor_comm (a b : bytes) : zip_with Z.lor a b = zip_with Z.lor b a.
Proof. revert b. induction a as [|x a IH]; intros [|y b]; try done. cbn. by rewrite Z.lor_comm, IH. Qed.

Lemma lor_255 b : is_u8 b -> Z.lor b 255 = 255.
Proof.
  intros Hb. unfold is_u8, u8_max in Hb. apply Z.bits_inj'. intros k Hk. rewrite Z.lor_spec. change 255 with (Z.ones 8).
  destruct (decide (k < 8)); [by rewrite Z.ones_spec_low, orb_true_r by lia|]. rewrite Z.ones_spec_high by lia. rewrite orb_false_r.
  destruct (decide (b = 0)) as [->|]; [by rewrite Z.bits_0|]. apply Z.bits_above_log2; [lia|]. apply Z.log2_lt_pow2; [lia|].
  assert (2 ^ 8 <= 2 ^ k) by (apply Z.pow_le_mono_r; lia). change (2 ^ 8) with 256 in *. lia.
Qed.

Lemma zip_lor_bytes (a b : bytes) : is_bytes a -> is_bytes b -> is_bytes (zip_with Z.lor a b).
Proof.
  revert b. induction a as [|x a IH]; intros [|y b] Ha Hb; try done. cbn. inversion Ha as [|? ? Hx Ha']; inversion Hb as [|? ? Hy Hb']; subst.
  constructor; [|by apply IH]. unfold is_u8, u8_max in *. split; [apply Z.lor_nonneg; lia|].
  assert (Z.lor x y < 2 ^ 8) as Hlt; [|change (2 ^ 8) with 256 in Hlt; lia].
  destruct (decide (Z.lor x y = 0)) as [->|Hnz]; [done|]. apply Z.log2_lt_pow2; [pose proof (proj2 (Z.lor_nonneg x y) ltac:(lia)); lia|].
  rewrite Z.log2_lor by lia. apply Z.max_lub_lt.
  - destruct (decide (x = 0)) as [->|]; [done|]. apply Z.log2_lt_pow2; [lia|]. change (2 ^ 8) with 256. lia.
  - destruct (decide (y = 0)) as [->|]; [done|]. apply Z.log2_lt_pow2; [lia|]. change (2 ^ 8) with 256. lia.
Qed.

(** The bits an entry stands for are a cluster of bytes. *)
Definition cluster_bits (x : option bytes) : Prop := exists b, x = Some b /\ blen b = cs /\ is_bytes b.

Lemma or_bits_zero x : cluster_bits x -> or_bits x (Some (filled cs 0)) = x.
Proof. intros (b & -> & Hl & _). unfold or_bits, filled. cbn. rewrite zip_lor_zero; [done|]. unfold blen in Hl. lia. Qed.

Lemma or_bits_ones x : cluster_bits x -> or_bits x (Some (filled cs 255)) = Some (filled cs 255).
Proof.
  intros (b & -> & Hl & Hb). unfold or_bits, filled. cbn. rewrite zip_lor_same; [done | unfold blen in Hl; lia |].
  eapply Forall_impl; [|exact Hb]. intros v. apply lor_255.
Qed.

Lemma or_bits_comm x y : or_bits x y = or_bits y x.
Proof. destruct x, y; try done. cbn. by rewrite zip_lor_comm. Qed.

End image.

(** ** One entry at a time *)

Lemma decode_allocated x : 0 < x < 2 ^ 56 -> x mod 512 = 0 ->
  encode_bitmap_table_entry (Allocated x) = x /\ decode_bitmap_table_entry x = Some (Allocated x).
Proof.
  intros Hx Hm. pose proof (L1_mask_id x ltac:(lia) Hm) as Hid. change L1_OFFSET_MASK with BME_TABLE_ENTRY_OFFSET_MASK in Hid.
  split; [done|]. unfold decode_bitmap_table_entry, validate_bitmap_table_entry.
  assert (forall m, Z.land BME_TABLE_ENTRY_OFFSET_MASK m = 0 -> Z.land x m = 0) as Hz
    by (intros m Hm0; by rewrite <- Hid, <- Z.land_assoc, Hm0, Z.land_0_r).
  rewrite (Hz BME_TABLE_ENTRY_RESERVED_MASK), (Hz BME_TABLE_ENTRY_FLAG_ALL_ONES) by done. rewrite Hid. cbn [nonzero Z.eqb negb andb].
  rewrite andb_false_r. cbn [negb]. destruct (Z.eqb_spec x 0); [lia|done].
Qed.

Lemma slice_None_of l x y : blen l < y -> slice l x y = None.
Proof. intros Hy. destruct (slice l x y) as [b|] eqn:Hs; [|done]. apply slice_Some in Hs. lia. Qed.

Section merge.
Context {D : Type} `{FlatDisk D}.
Variables (ssz cs epr nb n s0 t0 : Z).

Local Abbreviation total := (nb * epr).

(** A table entry that means something, and whose cluster is counted and in no table. *)
Definition entry_good (a : AllocSt) (w : Z) : Prop :=
  match decode_bitmap_table_entry w with
  | None => False
  | Some (Allocated o) =>
      exists k, o = k * cs /\ 0 < k < total /\ entry (as_blocks a) k <> 0 /\ ~ in_tab cs n s0 k /\ ~ in_tab cs n t0 k
  | Some _ => True
  end.

(** The two bitmaps of an image [c] with the counts [a]: their tables and their data
    clusters are in use, every cluster in one role. *)
Record minv (c : bytes) (a : AllocSt) : Prop := {
  mi_geom : mg_geom cs epr nb a;
  mi_bytes : is_bytes c;
  mi_file : total * cs <= blen c;
  mi_zero : entry (as_blocks a) 0 <> 0;
  mi_range : 0 <= s0 /\ s0 + tc cs n <= total /\ 0 <= t0 /\ t0 + tc cs n <= total;
  mi_disj : s0 + tc cs n <= t0 \/ t0 + tc cs n <= s0;
  mi_tabs : forall k, in_tab cs n s0 k \/ in_tab cs n t0 k -> entry (as_blocks a) k <> 0;
  mi_src : forall i, 0 <= i < n -> entry_good a (word cs c s0 i);
  mi_dst : forall i, 0 <= i < n -> entry_good a (word cs c t0 i);
  mi_apart : forall i j o, 0 <= i < n -> 0 <= j < n -> decode_bitmap_table_entry (word cs c s0 i) = Some (Allocated o) ->
    decode_bitmap_table_entry (word cs c t0 j) <> Some (Allocated o);
  mi_inj : forall i j o, 0 <= i < n -> 0 <= j < n -> decode_bitmap_table_entry (word cs c t0 i) = Some (Allocated o) ->
    decode_bitmap_table_entry (word cs c t0 j) = Some (Allocated o) -> i = j
}.

(** The destination owns cluster [k]. *)
Definition dst_owns (c : bytes) (k : Z) : Prop := exists j, 0 <= j < n /\ decode_bitmap_table_entry (word cs c t0 j) = Some (Allocated (k * cs)).

(** The entries of [lo, hi) are merged, and nothing else has changed. *)
Record merged (lo hi : Z) (c : bytes) (a : AllocSt) (c' : bytes) (a' : AllocSt) : Prop := {
  me_inv : minv c' a';
  me_bits : forall j, 0 <= j < n -> bits cs c' (word cs c' t0 j) =
    if (lo <=? j) && (j <? hi) then or_bits (bits cs c (word cs c t0 j)) (bits cs c (word cs c s0 j)) else bits cs c (word cs c t0 j);
  me_src : forall j, 0 <= j < n -> word cs c' s0 j = word cs c s0 j /\ bits cs c' (word cs c s0 j) = bits cs c (word cs c s0 j);
  me_frame : forall k, 0 <= k < total -> entry (as_blocks a) k <> 0 -> ~ in_tab cs n t0 k -> ~ dst_owns c k ->
    clu cs c' k = clu cs c k /\ entry (as_blocks a') k = entry (as_blocks a) k;
  me_owns : forall k, entry (as_blocks a) k <> 0 -> ~ dst_owns c k -> ~ dst_owns c' k
}.

Lemma minv_cs c a : minv c a -> 0 < cs /\ 0 < epr.
Proof. intros Hi. destruct (gg_blocks _ _ _ _ (mi_geom _ _ Hi)) as [_ _ ? ? _ _]. lia. Qed.

Lemma good_alloc a w o : 0 < cs -> entry_good a w -> decode_bitmap_table_entry w = Some (Allocated o) ->
  o = o / cs * cs /\ 0 < o / cs < total /\ entry (as_blocks a) (o / cs) <> 0 /\ ~ in_tab cs n s0 (o / cs) /\ ~ in_tab cs n t0 (o / cs).
Proof. intros Hcs Hg Hd. unfold entry_good in Hg. rewrite Hd in Hg. destruct Hg as (k & -> & ? & ? & ? & ?). rewrite Z.div_mul by lia. done. Qed.

Lemma owned_good c a k : minv c a -> dst_owns c k -> 0 < k < total /\ ~ in_tab cs n s0 k /\ ~ in_tab cs n t0 k /\ entry (as_blocks a) k <> 0.
Proof.
  intros Hi (j & Hj & Hd). destruct (minv_cs _ _ Hi) as [Hcs _].
  destruct (good_alloc a _ _ Hcs (mi_dst _ _ Hi j Hj) Hd) as (_ & ? & ? & ? & ?). rewrite Z.div_mul in * by lia. done.
Qed.

Lemma merged_trans lo mid hi c a c1 a1 c2 a2 : lo <= mid <= hi -> merged lo mid c a c1 a1 -> merged mid hi c1 a1 c2 a2 -> merged lo hi c a c2 a2.
Proof.
  intros Hlm [I1 B1 S1 F1 O1] [I2 B2 S2 F2 O2]. split; [done | | | |].
  - intros j Hj. rewrite (B2 j Hj). destruct (S1 j Hj) as [Hw Hb]. rewrite Hw, Hb, (B1 j Hj).
    destruct (Z.leb_spec mid j), (Z.ltb_spec j hi), (Z.leb_spec lo j), (Z.ltb_spec j mid); cbn [andb]; try lia; done.
  - intros j Hj. destruct (S1 j Hj) as [Hw1 Hb1], (S2 j Hj) as [Hw2 Hb2]. rewrite Hw1 in Hw2, Hb2. split; congruence.
  - intros k Hk He Ht Ho. destruct (F1 k Hk He Ht Ho) as [Hc1 He1].
    destruct (F2 k Hk) as [Hc2 He2]; [congruence | done | by apply O1 |]. split; congruence.
  - intros k He Ho Ho2. destruct (owned_good _ _ _ I2 Ho2) as (Hk & _ & Ht & _).
    destruct (F1 k ltac:(lia) He Ht Ho) as [_ He1]. apply (O2 k); [congruence | by apply O1 | done].
Qed.

Lemma clu_some c a k : minv c a -> 0 <= k < total -> cluster_bits cs (clu cs c k).
Proof.
  intros Hi Hk. destruct (minv_cs _ _ Hi) as [Hcs _]. pose proof (mi_file _ _ Hi). unfold clu.
  destruct (slice_of c (k * cs) (k * cs + cs)) as (b & Hb & Hl); [nia | nia |]. exists b. rewrite Hb. split; [done|]. split; [lia|].
  apply (slice_is_bytes _ _ _ _ (mi_bytes _ _ Hi) Hb).
Qed.

Lemma good_bits c a w : minv c a -> entry_good a w -> cluster_bits cs (bits cs c w).
Proof.
  intros Hi Hg. destruct (minv_cs _ _ Hi) as [Hcs _]. unfold bits, entry_good in *. destruct (decode_bitmap_table_entry w) as [[| |o]|]; [| | |done].
  - eexists. split; [done|]. split; [by apply blen_filled; lia | by apply filled_is_bytes].
  - eexists. split; [done|]. split; [by apply blen_filled; lia | by apply filled_is_bytes].
  - destruct Hg as (k & -> & ? & _). rewrite Z.div_mul by lia. eapply clu_some; [done|lia].
Qed.

(** The bits of an entry depend only on the cluster it names. *)
Lemma bits_frame c c' a w : 0 < cs -> entry_good a w ->
  (forall o, decode_bitmap_table_entry w = Some (Allocated o) -> clu cs c' (o / cs) = clu cs c (o / cs)) -> bits cs c' w = bits cs c w.
Proof. intros Hcs Hg Hf. unfold bits. destruct (decode_bitmap_table_entry w) as [[| |o]|]; try done. by apply Hf. Qed.

(** Nothing to do. *)
Lemma merge_skip c a i : minv c a -> 0 <= i < n -> merge_cluster_action (word cs c s0 i) (word cs c t0 i) = Ok Skip ->
  merged i (i + 1) c a c a.
Proof.
  intros Hi Hin Hact. destruct (minv_cs _ _ Hi) as [Hcs _]. split; try done. intros j Hj. destruct (Z.leb_spec i j), (Z.ltb_spec j (i + 1)); cbn [andb]; try done.
  assert (j = i) as -> by lia. pose proof (good_bits _ _ _ Hi (mi_src _ _ Hi i Hin)) as Hs. pose proof (good_bits _ _ _ Hi (mi_dst _ _ Hi i Hin)) as Hd.
  unfold merge_cluster_action in Hact. unfold bits in Hs, Hd |- *.
  destruct (decode_bitmap_table_entry (word cs c s0 i)) as [[| |so]|], (decode_bitmap_table_entry (word cs c t0 i)) as [[| |o]|]; try done;
    cbn [ok_or obind] in Hact; try discriminate Hact;
    first [by rewrite or_bits_zero | by rewrite or_bits_ones | by rewrite or_bits_comm, or_bits_ones].
Qed.

(** What keeps the invariant: the clusters of the tables and of the source keep their
    counts, and an entry of the destination is an old one or names a cluster that was
    free. *)
Lemma minv_change c a c' a' : minv c a -> mg_geom cs epr nb a' -> is_bytes c' -> blen c' = blen c ->
  (forall j, 0 <= j < n -> word cs c' s0 j = word cs c s0 j) ->
  (forall k, 0 <= k < total -> entry (as_blocks a) k <> 0 -> ~ dst_owns c k -> entry (as_blocks a') k <> 0) ->
  (forall j, 0 <= j < n -> entry_good a' (word cs c' t0 j)) ->
  (forall j o, 0 <= j < n -> decode_bitmap_table_entry (word cs c' t0 j) = Some (Allocated o) ->
     decode_bitmap_table_entry (word cs c t0 j) = Some (Allocated o) \/ entry (as_blocks a) (o / cs) = 0) ->
  (forall i j o, 0 <= i < n -> 0 <= j < n -> decode_bitmap_table_entry (word cs c' t0 i) = Some (Allocated o) ->
     decode_bitmap_table_entry (word cs c' t0 j) = Some (Allocated o) -> i = j) ->
  minv c' a'.
Proof.
  intros Hi Hg Hb Hl Hs Hent Hd Hold Hinj. destruct (minv_cs _ _ Hi) as [Hcs Hep]. pose proof (mi_range _ _ Hi) as Hr.
  assert (forall k, in_tab cs n s0 k \/ in_tab cs n t0 k -> entry (as_blocks a') k <> 0) as Htabs.
  { intros k Hk. apply Hent; [unfold in_tab in Hk; lia | by apply (mi_tabs _ _ Hi) |].
    intros Ho. destruct (owned_good _ _ _ Hi Ho) as (_ & ? & ? & _). tauto. }
  split; try done; try (destruct Hi; done).
  - rewrite Hl. apply (mi_file _ _ Hi).
  - assert (0 < total) as Htot.
    { destruct (decide (0 < total)) as [|Hn]; [done|]. destruct (mi_zero _ _ Hi). unfold entry.
      destruct (gg_blocks _ _ _ _ (mi_geom _ _ Hi)) as [_ _ Hc2 _ ? Hbl]. rewrite (slice_None_of (as_blocks a)) by nia. done. }
    apply Hent; [lia | apply (mi_zero _ _ Hi) |]. intros Ho. destruct (owned_good _ _ _ Hi Ho). lia.
  - intros j Hj. rewrite (Hs j Hj). pose proof (mi_src _ _ Hi j Hj) as Hgood. unfold entry_good in *.
    destruct (decode_bitmap_table_entry (word cs c s0 j)) as [[| |o]|] eqn:Hdec; try done.
    destruct Hgood as (k & -> & Hk & He & Ht1 & Ht2). exists k. split_and!; try done; try lia. apply Hent; [lia | done |].
    intros (j' & Hj' & Hd'). by apply (mi_apart _ _ Hi j j' (k * cs) Hj Hj' Hdec).
  - intros i j o Hin Hj. rewrite (Hs i Hin). intros Hsrc Hdst. destruct (Hold j o Hj Hdst) as [Ho|Hz].
    + by apply (mi_apart _ _ Hi i j o Hin Hj Hsrc).
    + by destruct (good_alloc a _ _ Hcs (mi_src _ _ Hi i Hin) Hsrc) as (_ & _ & He & _).
Qed.

Lemma in_range_one i j : (i <=? j) && (j <? i + 1) = (j =? i).
Proof. destruct (Z.leb_spec i j), (Z.ltb_spec j (i + 1)), (Z.eqb_spec j i); lia || done. Qed.

(** The source is all ones: the entry becomes the sentinel, its cluster is freed. *)
Lemma merge_ones c a i c' a' : minv c a -> 0 <= i < n -> decode_bitmap_table_entry (word cs c s0 i) = Some AllOnes ->
  splice c (t0 * cs + i * 8) (be_bytes 8 1) = Some c' -> mg_geom cs epr nb a' ->
  (forall k, 0 <= k < total -> entry (as_blocks a') k = entry (as_blocks a) k \/
     decode_bitmap_table_entry (word cs c t0 i) = Some (Allocated (k * cs))) ->
  merged i (i + 1) c a c' a'.
Proof.
  intros Hi Hin Hsrc Hw Hg Hent. destruct (minv_cs _ _ Hi) as [Hcs Hep].
  destruct (put_word cs n s0 t0 Hcs c c' i 1 Hw Hin ltac:(done) (mi_disj _ _ Hi)) as (Wd & Ws & Wc).
  assert (decode_bitmap_table_entry 1 = Some AllOnes) as H1 by done.
  assert (forall j o, 0 <= j < n -> decode_bitmap_table_entry (word cs c' t0 j) = Some (Allocated o) ->
    j <> i /\ decode_bitmap_table_entry (word cs c t0 j) = Some (Allocated o)) as Hold.
  { intros j o Hj. rewrite (Wd j Hj). destruct (Z.eqb_spec j i); [by rewrite H1|done]. }
  assert (minv c' a') as Hi'.
  { apply (minv_change c a); try done.
    - apply (splice_is_bytes _ _ _ _ (mi_bytes _ _ Hi) (be_bytes_is_bytes 8 1) Hw).
    - by apply splice_blen in Hw.
    - intros k Hk He Ho. destruct (Hent k Hk) as [->|Hal]; [done|]. destruct Ho. by exists i.
    - intros j Hj. rewrite (Wd j Hj). destruct (Z.eqb_spec j i) as [|Hne]; [by unfold entry_good; rewrite H1|].
      pose proof (mi_dst _ _ Hi j Hj) as Hgood. unfold entry_good in *.
      destruct (decode_bitmap_table_entry (word cs c t0 j)) as [[| |o]|] eqn:Hdec; try done.
      destruct Hgood as (k & -> & Hk & He & Ht1 & Ht2). exists k. split_and!; try done; try lia.
      destruct (Hent k ltac:(lia)) as [->|Hal]; [done|]. by destruct Hne, (mi_inj _ _ Hi j i (k * cs) Hj Hin Hdec Hal).
    - intros j o Hj Hdec. left. by apply Hold.
    - intros i' j' o Hi1 Hj1 Hd1 Hd2. apply (mi_inj _ _ Hi i' j' o Hi1 Hj1); by apply Hold. }
  split; [done | | | |].
  - intros j Hj. rewrite in_range_one, (Wd j Hj). destruct (Z.eqb_spec j i) as [->|Hne].
    + pose proof (good_bits _ _ _ Hi (mi_dst _ _ Hi i Hin)) as Hd. unfold bits at 1 3. rewrite H1, Hsrc. by rewrite or_bits_ones.
    + apply (bits_frame c c' a); [done | by apply (mi_dst _ _ Hi) |]. intros o Ho. apply Wc.
      by destruct (good_alloc a _ _ Hcs (mi_dst _ _ Hi j Hj) Ho) as (_ & _ & _ & _ & ?).
  - intros j Hj. split; [by apply Ws|]. apply (bits_frame c c' a); [done | by apply (mi_src _ _ Hi) |]. intros o Ho. apply Wc.
    by destruct (good_alloc a _ _ Hcs (mi_src _ _ Hi j Hj) Ho) as (_ & _ & _ & _ & ?).
  - intros k Hk He Ht Ho. split; [by apply Wc|]. destruct (Hent k Hk) as [->|Hal]; [done|]. destruct Ho. by exists i.
  - intros k _ Ho (j & Hj & Hdec). apply Ho. exists j. split; [done|]. by apply Hold.
Qed.

(** Both have data: the destination's cluster becomes the OR. *)
Lemma merge_or c a i so o sb db c' : minv c a -> 0 <= i < n ->
  decode_bitmap_table_entry (word cs c s0 i) = Some (Allocated so) -> decode_bitmap_table_entry (word cs c t0 i) = Some (Allocated o) ->
  slice c so (so + cs) = Some sb -> slice c o (o + cs) = Some db -> splice c o (zip_with Z.lor db sb) = Some c' ->
  merged i (i + 1) c a c' a.
Proof.
  intros Hi Hin Hsrc Hdst Hsb Hdb Hw. destruct (minv_cs _ _ Hi) as [Hcs Hep].
  destruct (good_alloc a _ _ Hcs (mi_src _ _ Hi i Hin) Hsrc) as (Hso & _ & _ & _ & _).
  destruct (good_alloc a _ _ Hcs (mi_dst _ _ Hi i Hin) Hdst) as (Ho & Hk & He & Ht1 & Ht2). set (k := o / cs) in *.
  assert (clu cs c (so / cs) = Some sb) as Hcs1 by (unfold clu; by rewrite <- Hso). assert (clu cs c k = Some db) as Hcd by (unfold clu; by rewrite <- Ho).
  pose proof (slice_blen _ _ _ _ Hsb) as Hl1. pose proof (slice_blen _ _ _ _ Hdb) as Hl2.
  assert (blen (zip_with Z.lor db sb) = cs) as Hlz by (unfold blen in *; rewrite length_zip_with; lia).
  rewrite Ho in Hw. destruct (put_clu cs n s0 t0 Hcs c c' k _ Hw Hlz Ht1 Ht2) as [Ww Wc].
  assert (minv c' a) as Hi'.
  { apply (minv_change c a); try done.
    - apply (mi_geom _ _ Hi).
    - apply (splice_is_bytes _ _ _ _ (mi_bytes _ _ Hi)) in Hw; [done|]. apply zip_lor_bytes; by eapply slice_is_bytes; [apply (mi_bytes _ _ Hi)|].
    - by apply splice_blen in Hw.
    - intros j Hj. apply Ww; auto.
    - intros j Hj. rewrite Ww by auto. by apply (mi_dst _ _ Hi).
    - intros j o' Hj. rewrite Ww by auto. auto.
    - intros i' j' o' Hi1 Hj1. rewrite !Ww by auto. by apply (mi_inj _ _ Hi). }
  split; [done | | | |].
  - intros j Hj. rewrite in_range_one, Ww by auto. destruct (Z.eqb_spec j i) as [->|Hne].
    + unfold bits. rewrite Hdst, Hsrc. fold k. rewrite (Wc k), Z.eqb_refl, Hcd, Hcs1. done.
    + apply (bits_frame c c' a); [done | by apply (mi_dst _ _ Hi) |]. intros o' Ho'. rewrite Wc.
      destruct (good_alloc a _ _ Hcs (mi_dst _ _ Hi j Hj) Ho') as (Heq & _). destruct (Z.eqb_spec (o' / cs) k) as [Hek|]; [|done].
      rewrite Hek, <- Ho in Heq. rewrite Heq in Ho'. by destruct Hne, (mi_inj _ _ Hi j i o Hj Hin Ho' Hdst).
  - intros j Hj. split; [apply Ww; auto|]. apply (bits_frame c c' a); [done | by apply (mi_src _ _ Hi) |]. intros o' Ho'. rewrite Wc.
    destruct (good_alloc a _ _ Hcs (mi_src _ _ Hi j Hj) Ho') as (Heq & _). destruct (Z.eqb_spec (o' / cs) k) as [Hek|]; [|done].
    rewrite Hek, <- Ho in Heq. rewrite Heq in Ho'. by destruct (mi_apart _ _ Hi j i o Hj Hin Ho').
  - intros k' Hk' He' Ht' Ho'. split; [|done]. rewrite Wc. destruct (Z.eqb_spec k' k) as [->|]; [|done]. destruct Ho'. exists i. by rewrite <- Ho.
  - intros k' _ Ho' (j & Hj & Hdec). apply Ho'. exists j. rewrite Ww in Hdec by auto. done.
Qed.

(** A free cluster is in no role. *)
Lemma free_apart c a f : minv c a -> 0 <= f < total -> entry (as_blocks a) f = 0 ->
  0 < f /\ ~ in_tab cs n s0 f /\ ~ in_tab cs n t0 f /\ ~ dst_owns c f /\
  forall j o, 0 <= j < n -> decode_bitmap_table_entry (word cs c s0 j) = Some (Allocated o) \/
    decode_bitmap_table_entry (word cs c t0 j) = Some (Allocated o) -> o / cs <> f.
Proof.
  intros Hi Hf He. destruct (minv_cs _ _ Hi) as [Hcs Hep]. pose proof (mi_zero _ _ Hi). split_and!.
  - destruct (decide (f = 0)) as [->|]; [done|lia].
  - intros Ht. by apply (mi_tabs _ _ Hi f); [left|].
  - intros Ht. by apply (mi_tabs _ _ Hi f); [right|].
  - intros Ho. by destruct (owned_good _ _ _ Hi Ho) as (_ & _ & _ & ?).
  - intros j o Hj [Hd|Hd] <-.
    + by destruct (good_alloc a _ _ Hcs (mi_src _ _ Hi j Hj) Hd) as (_ & _ & ? & _).
    + by destruct (good_alloc a _ _ Hcs (mi_dst _ _ Hi j Hj) Hd) as (_ & _ & ? & _).
Qed.

(** The view after such a copy. *)
Lemma alloc_merged c a i so sb f a' c' : minv c a -> 0 <= i < n -> 0 < f < total -> entry (as_blocks a) f = 0 ->
  ~ in_tab cs n s0 f -> ~ in_tab cs n t0 f -> ~ dst_owns c f ->
  decode_bitmap_table_entry (word cs c s0 i) = Some (Allocated so) -> decode_bitmap_table_entry (word cs c t0 i) = Some AllZeroes ->
  clu cs c (so / cs) = Some sb -> blen sb = cs -> decode_bitmap_table_entry (f * cs) = Some (Allocated (f * cs)) ->
  mg_geom cs epr nb a' -> is_bytes c' -> blen c' = blen c ->
  (forall k, 0 <= k < total -> entry (as_blocks a') k = if k =? f then 1 else entry (as_blocks a) k) ->
  (forall j, 0 <= j < n -> word cs c' t0 j = if j =? i then f * cs else word cs c t0 j) ->
  (forall j, 0 <= j < n -> word cs c' s0 j = word cs c s0 j) ->
  (forall k, ~ in_tab cs n t0 k -> clu cs c' k = if k =? f then Some sb else clu cs c k) ->
  merged i (i + 1) c a c' a'.
Proof.
  intros Hi Hin Hf He Ht1 Ht2 Hno Hsrc Hdst Hcsb Hlb Hdec Hg Hb' Hl' Hent Wd Ws Wc. destruct (minv_cs _ _ Hi) as [Hcs Hep].
  destruct (free_apart _ _ f Hi ltac:(lia) He) as (_ & _ & _ & _ & Hne). assert (f * cs / cs = f) as Hdiv by (apply Z.div_mul; lia).
  assert (forall j o, 0 <= j < n -> decode_bitmap_table_entry (word cs c' t0 j) = Some (Allocated o) ->
    (j = i /\ o = f * cs) \/ (j <> i /\ decode_bitmap_table_entry (word cs c t0 j) = Some (Allocated o) /\ o <> f * cs)) as Hold.
  { intros j o Hj. rewrite (Wd j Hj). destruct (Z.eqb_spec j i); [rewrite Hdec; intros [= <-]; auto|]. intros Hd. right. split_and!; try done.
    intros ->. by apply (Hne j (f * cs) Hj); [right|]. }
  assert (minv c' a') as Hi'.
  { apply (minv_change c a); try done.
    - intros k Hk Hk0 _. rewrite (Hent k Hk). by destruct (k =? f).
    - intros j Hj. rewrite (Wd j Hj). destruct (Z.eqb_spec j i) as [->|].
      + unfold entry_good. rewrite Hdec. exists f. split_and!; try done; try lia. rewrite (Hent f ltac:(lia)), Z.eqb_refl. done.
      + pose proof (mi_dst _ _ Hi j Hj) as Hgood. unfold entry_good in *.
        destruct (decode_bitmap_table_entry (word cs c t0 j)) as [[| |o]|]; try done.
        destruct Hgood as (k & -> & Hk & Hk0 & ? & ?). exists k. split_and!; try done; try lia. rewrite (Hent k ltac:(lia)). by destruct (k =? f).
    - intros j o Hj Hd. destruct (Hold j o Hj Hd) as [[_ ->]|(_ & ? & _)]; [right; by rewrite Hdiv | by left].
    - intros i' j' o Hi1 Hj1 Hd1 Hd2. destruct (Hold i' o Hi1 Hd1) as [[-> ->]|(? & Hd1' & ?)], (Hold j' _ Hj1 Hd2) as [[-> ?]|(? & Hd2' & ?)]; try done.
      by apply (mi_inj _ _ Hi i' j' o). }
  split; [done | | | |].
  - intros j Hj. rewrite in_range_one, (Wd j Hj). destruct (Z.eqb_spec j i) as [->|].
    + unfold bits. rewrite Hdec, Hdst, Hsrc, Hdiv, (Wc f Ht2), Z.eqb_refl, Hcsb. rewrite or_bits_comm, (or_bits_zero cs Hcs); [done|].
      rewrite <- Hcsb. eapply clu_some; [done|]. destruct (good_alloc a _ _ Hcs (mi_src _ _ Hi i Hin) Hsrc) as (_ & ? & _). lia.
    + apply (bits_frame c c' a); [done | by apply (mi_dst _ _ Hi) |]. intros o Ho.
      destruct (good_alloc a _ _ Hcs (mi_dst _ _ Hi j Hj) Ho) as (_ & _ & _ & _ & Htab). rewrite (Wc _ Htab).
      destruct (Z.eqb_spec (o / cs) f); [|done]. by destruct (Hne j o Hj (or_intror Ho)).
  - intros j Hj. split; [by apply Ws|]. apply (bits_frame c c' a); [done | by apply (mi_src _ _ Hi) |]. intros o Ho.
    destruct (good_alloc a _ _ Hcs (mi_src _ _ Hi j Hj) Ho) as (_ & _ & _ & _ & Htab). rewrite (Wc _ Htab).
    destruct (Z.eqb_spec (o / cs) f); [|done]. by destruct (Hne j o Hj (or_introl Ho)).
  - intros k Hk Hk0 Ht Ho. rewrite (Wc k Ht), (Hent k Hk). destruct (Z.eqb_spec k f) as [->|]; [done|]. done.
  - intros k Hk0 Ho (j & Hj & Hd). destruct (Hold j _ Hj Hd) as [[_ Heq]|(_ & Hd' & _)]; [|apply Ho; by exists j].
    assert (k = f) as -> by nia. done.
Qed.

(** Only the source has data: it is copied to a cluster that was free. *)
Lemma merge_alloc c a i so sb f a' c1 c' : minv c a -> 0 <= i < n ->
  decode_bitmap_table_entry (word cs c s0 i) = Some (Allocated so) -> decode_bitmap_table_entry (word cs c t0 i) = Some AllZeroes ->
  slice c so (so + cs) = Some sb -> 0 <= f < total -> entry (as_blocks a) f = 0 -> mg_geom cs epr nb a' ->
  (forall k, 0 <= k < total -> entry (as_blocks a') k = if k =? f then 1 else entry (as_blocks a) k) ->
  splice c (f * cs) sb = Some c1 -> splice c1 (t0 * cs + i * 8) (be_bytes 8 (encode_bitmap_table_entry (Allocated (f * cs)))) = Some c' ->
  merged i (i + 1) c a c' a'.
Proof.
  intros Hi Hin Hsrc Hdst Hsb Hf He Hg Hent Hw1 Hw2. destruct (minv_cs _ _ Hi) as [Hcs Hep].
  destruct (free_apart _ _ _ Hi Hf He) as (Hf0 & Ht1 & Ht2 & Hno & Hne). pose proof (slice_blen _ _ _ _ Hsb) as Hlb.
  destruct (good_alloc a _ _ Hcs (mi_src _ _ Hi i Hin) Hsrc) as (Hso & _ & _ & _ & _).
  assert (clu cs c (so / cs) = Some sb) as Hcsb by (unfold clu; by rewrite <- Hso).
  destruct (decode_allocated (f * cs)) as [Henc Hdec].
  { pose proof (gg_host _ _ _ _ Hg). nia. }
  { rewrite Z.mul_mod, (gg_512 _ _ _ _ Hg), Z.mul_0_r, Z.mod_0_l by lia. done. }
  rewrite Henc in Hw2. assert (is_u64 (f * cs)) as Hu.
  { unfold is_u64, u64_max. pose proof (gg_host _ _ _ _ Hg) as Hh. change (2 ^ 56) with 72057594037927936 in Hh. nia. }
  destruct (put_clu cs n s0 t0 Hcs c c1 f sb Hw1 ltac:(lia) Ht1 Ht2) as [Ww Wc1].
  destruct (put_word cs n s0 t0 Hcs c1 c' i (f * cs) Hw2 Hin Hu (mi_disj _ _ Hi)) as (Wd & Ws & Wc2).
  assert (forall j, 0 <= j < n -> word cs c' t0 j = if j =? i then f * cs else word cs c t0 j) as Wd'
    by (intros j Hj; rewrite (Wd j Hj), Ww by auto; done).
  assert (forall j, 0 <= j < n -> word cs c' s0 j = word cs c s0 j) as Ws' by (intros j Hj; rewrite (Ws j Hj), Ww by auto; done).
  assert (forall k, ~ in_tab cs n t0 k -> clu cs c' k = if k =? f then Some sb else clu cs c k) as Wc by (intros k Hk; by rewrite Wc2, Wc1).
  apply (alloc_merged c a i so sb f a' c'); try done; try lia.
  2:{ apply splice_blen in Hw1, Hw2. congruence. }
  apply (splice_is_bytes c1 _ _ _ (splice_is_bytes _ _ _ _ (mi_bytes _ _ Hi) (slice_is_bytes _ _ _ _ (mi_bytes _ _ Hi) Hsb) Hw1) (be_bytes_is_bytes 8 (f * cs)) Hw2).
Qed.

(** ** The guest's loop *)

Lemma clu_slice c a o : minv c a -> 0 < cs -> o = o / cs * cs -> 0 <= o / cs < total -> exists b, slice c o (o + cs) = Some b /\ blen b = cs.
Proof.
  intros Hi Hcs Ho Hk. destruct (clu_some c a (o / cs) Hi Hk) as (b & Hb & Hl & _). unfold clu in Hb. rewrite <- Ho in Hb. by exists b.
Qed.

Lemma splice_word c a i v : minv c a -> 0 <= i < n -> exists c', splice c (t0 * cs + i * 8) (be_bytes 8 v) = Some c'.
Proof.
  intros Hi Hin. destruct (minv_cs _ _ Hi) as [Hcs _]. pose proof (mi_range _ _ Hi). pose proof (mi_file _ _ Hi).
  destruct (word_inside cs n Hcs t0 i Hin) as [_ Hw]. assert ((t0 + tc cs n) * cs <= total * cs) by (apply Z.mul_le_mono_nonneg_r; lia).
  destruct (splice_of c (t0 * cs + i * 8) (be_bytes 8 v)) as (c' & Hc' & _); [nia | rewrite blen_be_bytes; lia |]. by exists c'.
Qed.

Lemma merge_apply_spec c a s i act : mg_ok ssz cs c a s -> minv c a -> 0 <= i < n ->
  merge_cluster_action (word cs c s0 i) (word cs c t0 i) = Ok act ->
  wp (merge_apply ssz cs nb 0 (t0 * cs + i * 8) (word cs c s0 i) (word cs c t0 i) act)
    (fun _ s' => exists c' a', mg_ok ssz cs c' a' s' /\ merged i (i + 1) c a c' a') (fun x _ => x = NoSpace) s.
Proof.
  intros Hok Hi Hin Hact. destruct (minv_cs _ _ Hi) as [Hcs Hep]. pose proof (mi_geom _ _ Hi) as Hg.
  assert (act = Skip \/ act <> Skip) as [->|Hns] by (destruct act; auto).
  { unfold merge_apply. wstep. exists c, a. split; [done|]. by apply merge_skip. }
  pose proof (mi_src _ _ Hi i Hin) as Hgs. pose proof (mi_dst _ _ Hi i Hin) as Hgd. unfold merge_cluster_action in Hact.
  destruct (splice_word c a i 1 Hi Hin) as [c1 Hc1].
  destruct (decode_bitmap_table_entry (word cs c s0 i)) as [[| |so]|] eqn:Es, (decode_bitmap_table_entry (word cs c t0 i)) as [[| |o]|] eqn:Ed;
    try done; cbn [ok_or obind] in Hact; injection Hact as <-; try done; unfold merge_apply, alloc_offset; rewrite ?Es, ?Ed.
  - wstep. wstep. eapply wp_mwrite; [exact Hok | by rewrite blen_be_bytes | exact Hc1 |]. intros s' Hok'. exists c1, a. split; [done|].
    apply merge_ones; auto.
  - destruct (good_alloc a _ _ Hcs Hgd Ed) as (Ho & Hk & _). rewrite Ho. wstep.
    eapply wp_free; [exact Hok | exact Hg | lia |]. intros a' s' Hok' Hg' Hent.
    eapply wp_mwrite; [exact Hok' | by rewrite blen_be_bytes | exact Hc1 |]. intros s2 Hok2. exists c1, a'. split; [done|].
    apply merge_ones; try done. intros k Hk'. rewrite (Hent k Hk'). destruct (Z.eqb_spec k (o / cs)) as [->|]; [right; by rewrite Ed, <- Ho | by left].
  - destruct (good_alloc a _ _ Hcs Hgs Es) as (Hso & Hsk & _). destruct (clu_slice c a so Hi Hcs Hso ltac:(lia)) as (sb & Hsb & Hlb).
    wstep. wstep. wstep. eapply wp_mg_allocate; [exact Hok | exact Hg | | done]. intros f a' s1 Hok1 Hg1 Hf Hf0 Hent.
    wstep. eapply wp_read_a; [exact Hok1 | done | exact Hsb |]. intros s2 Hok2 Hda. wstep. wstep. rewrite Hda.
    destruct (splice_of c (f * cs) sb) as (c2 & Hc2 & Hl2); [nia | pose proof (mi_file _ _ Hi); nia |].
    wstep. eapply wp_mwrite; [exact Hok2 | lia | exact Hc2 |]. intros s3 Hok3.
    destruct (splice_of c2 (t0 * cs + i * 8) (be_bytes 8 (encode_bitmap_table_entry (Allocated (f * cs))))) as (c3 & Hc3 & _).
    { by apply splice_Some in Hc1 as (? & _). } { apply splice_Some in Hc1 as (_ & Hl & _). rewrite blen_be_bytes in *. lia. }
    eapply wp_mwrite; [exact Hok3 | by rewrite blen_be_bytes | exact Hc3 |]. intros s4 Hok4. exists c3, a'. split; [done|].
    by apply (merge_alloc c a i so sb f a' c2 c3).
  - destruct (good_alloc a _ _ Hcs Hgs Es) as (Hso & Hsk & _). destruct (clu_slice c a so Hi Hcs Hso ltac:(lia)) as (sb & Hsb & Hlb).
    destruct (good_alloc a _ _ Hcs Hgd Ed) as (Ho & Hk & _). destruct (clu_slice c a o Hi Hcs Ho ltac:(lia)) as (db & Hdb & Hld).
    wstep. wstep. wstep. wstep. wstep. eapply wp_read_a; [exact Hok | done | exact Hsb |]. intros s1 Hok1 Hda.
    wstep. eapply wp_read_b; [exact Hok1 | done | exact Hdb |]. intros s2 Hok2 Hda2 Hdb2. wstep. wstep. wstep. wstep. unfold or_bitmap_data.
    rewrite Hdb2, Hda2, Hda, Hld, Hlb, Z.eqb_refl. cbn [negb]. wstep. wstep.
    assert (blen (zip_with Z.lor db sb) = cs) as Hlz by (unfold blen in *; rewrite length_zip_with; lia).
    destruct (splice_of c o (zip_with Z.lor db sb)) as (c2 & Hc2 & _); [nia | apply slice_Some in Hdb; lia |].
    eapply wp_mwrite; [| lia | exact Hc2 |]; [destruct Hok2; split; done|]. intros s3 Hok3. exists c2, a. split; [done|].
    by apply (merge_or c a i so o sb db c2).
Qed.

Lemma merged_refl lo c a : minv c a -> merged lo lo c a c a.
Proof. intros Hi. split; try done. intros j Hj. destruct (Z.leb_spec lo j), (Z.ltb_spec j lo); cbn [andb]; done || lia. Qed.

Lemma read_word c a x i : minv c a -> 0 <= i < n -> x = s0 \/ x = t0 ->
  checked_mul i 8 = Some (i * 8) /\ checked_add (x * cs) (i * 8) = Some (x * cs + i * 8) /\
  exists b, slice c (x * cs + i * 8) (x * cs + i * 8 + 8) = Some b /\ be_val b = word cs c x i.
Proof.
  intros Hi Hin Hx. destruct (minv_cs _ _ Hi) as [Hcs _]. pose proof (mi_range _ _ Hi). pose proof (mi_file _ _ Hi).
  pose proof (gg_host _ _ _ _ (mi_geom _ _ Hi)) as Hh. change (2 ^ 56) with 72057594037927936 in Hh.
  destruct (word_inside cs n Hcs x i Hin) as [_ Hw]. assert ((x + tc cs n) * cs <= total * cs) by (apply Z.mul_le_mono_nonneg_r; lia).
  assert (0 <= x * cs) by nia. split; [apply checked_mul_eq; unfold u64_max; lia|]. split; [apply checked_add_eq; unfold u64_max; lia|].
  destruct (slice_of c (x * cs + i * 8) (x * cs + i * 8 + 8)) as (b & Hb & _); [lia | lia |]. exists b. split; [done|].
  unfold word, u64_at. by rewrite Hb.
Qed.

Lemma merge_loop_spec m : forall i c a s, mg_ok ssz cs c a s -> minv c a -> 0 <= i -> i + Z.of_nat m <= n ->
  wp (merge_loop m i ssz cs nb 0 (s0 * cs) (t0 * cs))
    (fun _ s' => exists c' a', mg_ok ssz cs c' a' s' /\ merged i (i + Z.of_nat m) c a c' a') (fun x _ => x = NoSpace) s.
Proof.
  induction m as [|m IH]; intros i c a s Hok Hi Hi0 Hle; cbn [merge_loop].
  { wstep. exists c, a. split; [done|]. rewrite Z.add_0_r. by apply merged_refl. }
  destruct (read_word c a s0 i Hi ltac:(lia) (or_introl eq_refl)) as (Hm & Has & sb & Hsb & Hsv).
  destruct (read_word c a t0 i Hi ltac:(lia) (or_intror eq_refl)) as (_ & Hat & db & Hdb & Hdv).
  wstep. wstep. rewrite Hm. cbn [ok_or]. wstep. wstep. rewrite Has. cbn [ok_or]. wstep. wstep. rewrite Hat. cbn [ok_or].
  wstep. eapply wp_mread; [exact Hok | done | exact Hsb |]. intros s1 Hok1.
  wstep. eapply wp_mread; [exact Hok1 | done | exact Hdb |]. intros s2 Hok2. rewrite Hsv, Hdv.
  assert (exists act, merge_cluster_action (word cs c s0 i) (word cs c t0 i) = Ok act) as [act Hact].
  { pose proof (mi_src _ _ Hi i ltac:(lia)) as Hgs. pose proof (mi_dst _ _ Hi i ltac:(lia)) as Hgd. unfold entry_good in Hgs, Hgd. unfold merge_cluster_action.
    destruct (decode_bitmap_table_entry (word cs c s0 i)) as [e1|], (decode_bitmap_table_entry (word cs c t0 i)) as [e2|]; try done. by eexists. }
  wstep. wstep. rewrite Hact. wstep. eapply wp_mono; [apply (merge_apply_spec c a s2 i act Hok2 Hi ltac:(lia) Hact) | |done].
  cbn beta. intros _ s3 (c1 & a1 & Hok3 & Hm1).
  eapply wp_mono; [apply (IH (i + 1) c1 a1 s3 Hok3 (me_inv _ _ _ _ _ _ Hm1)); lia | |done].
  cbn beta. intros _ s4 (c2 & a2 & Hok4 & Hm2). exists c2, a2. split; [done|].
  replace (i + Z.of_nat (S m)) with (i + 1 + Z.of_nat m) by lia. by eapply merged_trans; [|exact Hm1|exact Hm2]; lia.
Qed.
End merge.

(** ** Theorems *)

(** C23: a merge on a working device ORs the bitmaps.  Given an image in which the two
    tables and the data clusters they name are counted and each has one role, the guest
    loop either returns, or runs out of free clusters; it never panics and no other
    error is possible.  When it returns, every entry of the destination table stands
    for the OR of what both entries stood for, the source table and its bits are as
    they were, every other cluster in use keeps its bytes and its count, and the image
    again satisfies the discipline. *)
Theorem merge_ors_source {D} `{FlatDisk D} ssz cs epr nb n s0 t0 c a (s : MgSt D) :
  mg_ok ssz cs c a s -> minv cs epr nb n s0 t0 c a -> 0 <= n ->
  match merge_one_source ssz cs nb 0 (s0 * cs) (t0 * cs) n s with
  | (Ok _, s') => exists c' a', mg_ok ssz cs c' a' s' /\ minv cs epr nb n s0 t0 c' a' /\
      (forall j, 0 <= j < n ->
         bits cs c' (word cs c' t0 j) = or_bits (bits cs c (word cs c t0 j)) (bits cs c (word cs c s0 j)) /\
         word cs c' s0 j = word cs c s0 j /\ bits cs c' (word cs c' s0 j) = bits cs c (word cs c s0 j)) /\
      (forall k, 0 <= k < nb * epr -> entry (as_blocks a) k <> 0 -> ~ in_tab cs n t0 k -> ~ dst_owns cs n t0 c k ->
         clu cs c' k = clu cs c k /\ entry (as_blocks a') k = entry (as_blocks a) k)
  | (Err x, _) => x = NoSpace
  | _ => False
  end.
Proof.
  intros Hok Hi Hn. pose proof (merge_loop_spec ssz cs epr nb n s0 t0 (Z.to_nat n) 0 c a s Hok Hi ltac:(lia) ltac:(lia)) as Hw.
  unfold merge_one_source, wp in *. destruct (merge_loop (Z.to_nat n) 0 ssz cs nb 0 (s0 * cs) (t0 * cs) s) as [[[]|x| |] s']; try done.
  destruct Hw as (c' & a' & Hok' & [Hi' Hb Hs Hf _]). exists c', a'. split; [done|]. split; [done|]. split; [|done].
  intros j Hj. destruct (Hs j Hj) as [Hw Hb']. rewrite Hw. split; [|done]. rewrite (Hb j Hj).
  destruct (Z.leb_spec 0 j), (Z.ltb_spec j (0 + Z.of_nat (Z.to_nat n))); cbn [andb]; done || lia.
Qed.

(** ** Witness *)

(** Clusters of 512 bytes: 3 and 4 hold the tables, 5 the source's data, 6 the
    destination's. *)
Definition wit_file : bytes :=
  filled 1536 0 ++ (be_bytes 8 2560 ++ be_bytes 8 1 ++ filled 496 0) ++ (be_bytes 8 0 ++ be_bytes 8 3072 ++ filled 496 0) ++
  filled 512 9 ++ filled 512 4 ++ filled 127488 0.
Definition wit_counts : AllocSt := mkAllocSt (concat (replicate 7 [0; 1]) ++ filled 498 0) AllocCursor_default.
Definition wit_merge : MgSt VecDisk :=
  mkMgSt (mkVecDisk (mkDisks wit_file []) 512 512 true) (filled 512 0) wit_counts (filled 512 0) (filled 512 0).

Lemma wit_entries a : as_blocks a = as_blocks wit_counts -> forall k, 0 <= k < 7 -> entry (as_blocks a) k <> 0.
Proof.
  intros -> k Hk. assert (k = 0 \/ k = 1 \/ k = 2 \/ k = 3 \/ k = 4 \/ k = 5 \/ k = 6) as Hc by lia.
  destruct Hc as [->|[->|[->|[->|[->|[->| ->]]]]]]; vm_compute; discriminate.
Qed.

Lemma wit_minv : minv 512 256 1 2 3 4 wit_file wit_counts.
Proof.
  assert (word 512 wit_file 3 0 = 2560) as W0 by (vm_compute; reflexivity). assert (word 512 wit_file 3 1 = 1) as W1 by (vm_compute; reflexivity).
  assert (word 512 wit_file 4 0 = 0) as W2 by (vm_compute; reflexivity). assert (word 512 wit_file 4 1 = 3072) as W3 by (vm_compute; reflexivity).
  assert (tc 512 2 = 1) as Ht by done. assert (forall i, 0 <= i < 2 -> i = 0 \/ i = 1) as H01 by lia.
  assert (decode_bitmap_table_entry 2560 = Some (Allocated 2560)) as D1 by done. assert (decode_bitmap_table_entry 3072 = Some (Allocated 3072)) as D2 by done.
  assert (decode_bitmap_table_entry 0 = Some AllZeroes) as D3 by done. assert (decode_bitmap_table_entry 1 = Some AllOnes) as D4 by done.
  split.
  - split; [|vm_compute; congruence..]. split; [|vm_compute; congruence..]. apply is_bytesb_true. vm_compute. reflexivity.
  - apply is_bytesb_true. vm_compute. reflexivity.
  - vm_compute. discriminate.
  - apply wit_entries; [reflexivity | lia].
  - rewrite Ht. clear. lia.
  - rewrite Ht. clear. lia.
  - unfold in_tab. rewrite Ht. intros k Hk. apply wit_entries; [reflexivity | clear -Hk; lia].
  - intros i Hi. unfold entry_good, in_tab. rewrite Ht. destruct (H01 i Hi) as [->| ->]; rewrite ?W0, ?W1, ?D1, ?D4; [|done].
    exists 5. split_and!; try (clear; lia). apply wit_entries; [reflexivity | clear; lia].
  - intros i Hi. unfold entry_good, in_tab. rewrite Ht. destruct (H01 i Hi) as [->| ->]; rewrite ?W2, ?W3, ?D2, ?D3; [done|].
    exists 6. split_and!; try (clear; lia). apply wit_entries; [reflexivity | clear; lia].
  - intros i j o Hi Hj. destruct (H01 i Hi) as [->| ->], (H01 j Hj) as [->| ->]; rewrite ?W0, ?W1, ?W2, ?W3, ?D1, ?D2, ?D3, ?D4; congruence.
  - intros i j o Hi Hj. destruct (H01 i Hi) as [->| ->], (H01 j Hj) as [->| ->]; rewrite ?W0, ?W1, ?W2, ?W3, ?D1, ?D2, ?D3, ?D4; congruence.
Qed.

Lemma wit_mg_ok : mg_ok 512 512 wit_file wit_counts wit_merge.
Proof.
  split; try reflexivity. intros []; split_and!; vm_compute; congruence.
Qed.

Lemma merge_ors_source_witness :
  match merge_one_source 512 512 1 0 1536 2048 2 wit_merge with
  | (Ok _, s') => exists c' a', mg_ok 512 512 c' a' s' /\ forall j, 0 <= j < 2 ->
      bits 512 c' (word 512 c' 4 j) = or_bits (bits 512 wit_file (word 512 wit_file 4 j)) (bits 512 wit_file (word 512 wit_file 3 j))
  | _ => False
  end.
Proof.
  pose proof (merge_ors_source 512 512 256 1 2 3 4 wit_file wit_counts wit_merge wit_mg_ok wit_minv ltac:(lia)) as H.
  change (3 * 512) with 1536 in H. change (4 * 512) with 2048 in H.
  assert ((merge_one_source 512 512 1 0 1536 2048 2 wit_merge).1 = Ok tt) as Hrun by (vm_compute; reflexivity).
  destruct (merge_one_source 512 512 1 0 1536 2048 2 wit_merge) as [r s']. cbn [fst] in Hrun. rewrite Hrun in H |- *.
  destruct H as (c' & a' & Hok & _ & Hb & _). exists c', a'. split; [exact Hok|]. intros j Hj. exact (proj1 (Hb j Hj)).
Defined.
