(* ===== verification/Create.v ===== *)
(** Layout and builders of a fresh qcow2 image
    ([src/src/crates/qcow2/src/create.rs]).

    [compute_layout] places header, L1 table, refcount table, refcount blocks and, for
    the preallocating modes, L2 tables and data; the [build_*] functions fill a buffer
    with one of these structures.  A builder takes the caller's buffer and returns the
    populated slice, the buffer's first bytes: the rest of the buffer is not touched,
    and every byte of the slice is written.

    The sizes of the refcount structures depend on themselves.  The source iterates
    at most sixteen times and does not look whether it converged; the first part of
    the file proves that it always does, on the least solution. *)

From stdpp Require Import base numbers list sets option.
From Stdlib Require Import ZArith Lia.
From S2P Require Import Prelude Bytes Refcount Qcow2 SnapshotWalk ExecBytes Header.

(** ** Definitions *)

Inductive Preallocation : Type := Off | Metadata | Falloc | Full.

Definition populates_data_metadata (p : Preallocation) : bool :=
  match p with Off => false | _ => true end.

Definition MIN_CLUSTER_BITS : Z := 9.
Definition MAX_CLUSTER_BITS : Z := 21.
Definition REFCOUNT_FIXED_POINT_ITERATIONS : nat := 16.
Definition EXT_END_LEN : Z := 8.

Inductive Qcow2CreateError : Type :=
| InvalidVirtualSize
| InvalidClusterBits
| InvalidRefcountBits
| Overflow
| BufferTooSmall
| BackingMetadataTooLarge
| PreallocationUnsupported.

Record Qcow2Layout : Type := mkQcow2Layout {
  ly_cluster_bits : Z;
  ly_cluster_size : Z;
  ly_virtual_size : Z;
  ly_refcount_bits : Z;
  ly_extended_l2 : bool;
  ly_preallocation : Preallocation;
  ly_l1_entries : Z;
  ly_l1_size_bytes : Z;
  ly_l1_clusters : Z;
  ly_l1_offset : Z;
  ly_refcount_table_offset : Z;
  ly_refcount_table_clusters : Z;
  ly_refcount_block_count : Z;
  ly_refcount_blocks_base_offset : Z;
  ly_l2_clusters : Z;
  ly_l2_base_offset : Z;
  ly_data_clusters : Z;
  ly_data_base_offset : Z;
  ly_total_clusters : Z;
  ly_total_file_size : Z
}.

(** The loop that sizes the refcount table and blocks, with its early exit; the pair
    is [(reftable_clusters, refblock_count)]. *)
Fixpoint refcount_loop (rounds : nat) (used entries_per_refblock cluster_size : Z)
    (reftable_clusters refblock_count : Z) : Z * Z :=
  match rounds with
  | O => (reftable_clusters, refblock_count)
  | S rounds' =>
      let total := wadd (wadd used reftable_clusters) refblock_count in
      let new_refblock_count := div_ceil total entries_per_refblock in
      let new_reftable_clusters := div_ceil (wmul new_refblock_count 8) cluster_size in
      if (new_refblock_count =? refblock_count) && (new_reftable_clusters =? reftable_clusters)
      then (reftable_clusters, refblock_count)
      else refcount_loop rounds' used entries_per_refblock cluster_size new_reftable_clusters new_refblock_count
  end.

Definition valid_refcount_bits (bits : Z) : bool :=
  bool_decide (bits ∈ [1; 2; 4; 8; 16; 32; 64]).

Definition compute_layout (virtual_size cluster_bits refcount_bits : Z) (extended_l2 : bool)
    (preallocation : Preallocation) : outcome Qcow2CreateError Qcow2Layout :=
  if virtual_size =? 0 then Err InvalidVirtualSize
  else if negb ((MIN_CLUSTER_BITS <=? cluster_bits) && (cluster_bits <=? MAX_CLUSTER_BITS)) then Err InvalidClusterBits
  else if negb (valid_refcount_bits refcount_bits) then Err InvalidRefcountBits
  else if extended_l2 && populates_data_metadata preallocation then Err PreallocationUnsupported
  else
  let cluster_size := shl64 1 cluster_bits in
  let l2_entry_size := if extended_l2 then 16 else 8 in
  let entries_per_l2 := cluster_size / l2_entry_size in
  let? l2_coverage := ok_or (checked_mul cluster_size entries_per_l2) Overflow in
  let? padded_size := ok_or (checked_add virtual_size (wsub l2_coverage 1)) Overflow in
  let? l1_entries_u64 := udiv padded_size l2_coverage in
  if QCOW2_MAX_L1_SIZE_ENTRIES <? l1_entries_u64 then Err InvalidVirtualSize
  else
  let l1_entries := as_u32 l1_entries_u64 in
  let? l1_size_bytes := ok_or (checked_mul l1_entries 8) Overflow in
  let l1_clusters := Z.max (div_ceil l1_size_bytes cluster_size) 1 in
  let l1_offset := cluster_size in
  let '(l2_clusters, data_clusters) :=
    if populates_data_metadata preallocation then (l1_entries, div_ceil virtual_size cluster_size) else (0, 0) in
  let used_clusters_before_refcount := wadd (wadd (wadd 1 l1_clusters) l2_clusters) data_clusters in
  let entries_per_refblock := wmul cluster_size 8 / refcount_bits in
  let '(reftable_clusters, refblock_count) :=
    refcount_loop REFCOUNT_FIXED_POINT_ITERATIONS used_clusters_before_refcount entries_per_refblock cluster_size 1 1 in
  let refcount_table_offset := wmul (wadd 1 l1_clusters) cluster_size in
  let refcount_blocks_base_offset := wadd refcount_table_offset (wmul reftable_clusters cluster_size) in
  let l2_base_offset := wadd refcount_blocks_base_offset (wmul refblock_count cluster_size) in
  let data_base_offset := wadd l2_base_offset (wmul l2_clusters cluster_size) in
  let total_clusters :=
    wadd (wadd (wadd (wadd (wadd 1 l1_clusters) reftable_clusters) refblock_count) l2_clusters) data_clusters in
  let total_file_size := wmul total_clusters cluster_size in
  Ok {| ly_cluster_bits := cluster_bits; ly_cluster_size := cluster_size; ly_virtual_size := virtual_size;
        ly_refcount_bits := refcount_bits; ly_extended_l2 := extended_l2; ly_preallocation := preallocation;
        ly_l1_entries := l1_entries; ly_l1_size_bytes := l1_size_bytes; ly_l1_clusters := l1_clusters;
        ly_l1_offset := l1_offset; ly_refcount_table_offset := refcount_table_offset;
        ly_refcount_table_clusters := reftable_clusters; ly_refcount_block_count := refblock_count;
        ly_refcount_blocks_base_offset := refcount_blocks_base_offset; ly_l2_clusters := l2_clusters;
        ly_l2_base_offset := l2_base_offset; ly_data_clusters := data_clusters;
        ly_data_base_offset := data_base_offset; ly_total_clusters := total_clusters;
        ly_total_file_size := total_file_size |}.

Definition QCOW2_MAGIC : Z := 0x514649fb.
Definition QCOW2_VERSION_3 : Z := 3.
Definition QCOW2_HEADER_LENGTH_V3 : Z := 104.
Definition EXT_END : Z := 0.
Definition EXT_BACKING_FORMAT : Z := 0xE2792ACA.
Definition EXT_ENCRYPT_HEADER : Z := 0x0537BE77.

Record BuildHeaderOptions : Type := mkBuildHeaderOptions {
  bh_layout : Qcow2Layout;
  bh_backing_file : option bytes;
  bh_backing_format : option bytes;
  bh_lazy_refcounts : bool;
  bh_luks_header : option (Z * Z)
}.

(** A sequence of [write_be_u32], [write_be_u64] and [copy_from_slice]. *)
Definition put {E} (hdr : bytes) (ws : list (Z * bytes)) : outcome E bytes := or_panic (apply_writes hdr ws).

(** The fixed v3 header. *)
Definition fixed_fields (opts : BuildHeaderOptions) : list (Z * bytes) :=
  let l := bh_layout opts in
  [ (0, be_bytes 4 QCOW2_MAGIC);
    (4, be_bytes 4 QCOW2_VERSION_3);
    (20, be_bytes 4 (ly_cluster_bits l));
    (24, be_bytes 8 (ly_virtual_size l));
    (32, be_bytes 4 (match bh_luks_header opts with Some _ => 2 | None => 0 end));
    (36, be_bytes 4 (ly_l1_entries l));
    (40, be_bytes 8 (ly_l1_offset l));
    (48, be_bytes 8 (ly_refcount_table_offset l));
    (56, be_bytes 4 (as_u32 (ly_refcount_table_clusters l)));
    (72, be_bytes 8 (if ly_extended_l2 l then INCOMPAT_EXTENDED_L2 else 0));
    (80, be_bytes 8 (if bh_lazy_refcounts opts then COMPAT_LAZY_REFCOUNTS else 0));
    (96, be_bytes 4 (trailing_zeros (ly_refcount_bits l)));
    (100, be_bytes 4 QCOW2_HEADER_LENGTH_V3) ].

(** The two extensions and the terminator; each step gives the header and the offset
    after it. *)
Definition put_backing_format (cluster_size : Z) (format : option bytes) (hdr : bytes) (ext_off : Z)
  : outcome Qcow2CreateError (bytes * Z) :=
  match format with
  | None => Ok (hdr, ext_off)
  | Some fmt =>
      let padded := Z.land (wadd (blen fmt) 7) (not64 7) in
      if cluster_size <? wadd (wadd ext_off 8) padded then Err BackingMetadataTooLarge
      else
      let? hdr := put hdr [ (ext_off, be_bytes 4 EXT_BACKING_FORMAT);
                            (wadd ext_off 4, be_bytes 4 (as_u32 (blen fmt)));
                            (wadd ext_off 8, fmt) ] in
      Ok (hdr, wadd ext_off (wadd 8 padded))
  end.

Definition put_luks_header (cluster_size : Z) (luks : option (Z * Z)) (hdr : bytes) (ext_off : Z)
  : outcome Qcow2CreateError (bytes * Z) :=
  match luks with
  | None => Ok (hdr, ext_off)
  | Some (luks_off, luks_len) =>
      if cluster_size <? wadd (wadd ext_off 8) 16 then Err BackingMetadataTooLarge
      else
      let? hdr := put hdr [ (ext_off, be_bytes 4 EXT_ENCRYPT_HEADER);
                            (wadd ext_off 4, be_bytes 4 16);
                            (wadd ext_off 8, be_bytes 8 luks_off);
                            (wadd ext_off 16, be_bytes 8 luks_len) ] in
      Ok (hdr, wadd ext_off (wadd 8 16))
  end.

Definition put_ext_end (cluster_size : Z) (hdr : bytes) (ext_off : Z) : outcome Qcow2CreateError (bytes * Z) :=
  if cluster_size <? wadd ext_off EXT_END_LEN then Err BackingMetadataTooLarge
  else
  let? hdr := put hdr [ (ext_off, be_bytes 4 EXT_END); (wadd ext_off 4, be_bytes 4 0) ] in
  Ok (hdr, wadd ext_off EXT_END_LEN).

Definition put_backing_file (cluster_size : Z) (backing : option bytes) (hdr : bytes) (ext_off : Z)
  : outcome Qcow2CreateError bytes :=
  match backing with
  | None => Ok hdr
  | Some path =>
      if cluster_size <? wadd ext_off (blen path) then Err BackingMetadataTooLarge
      else put hdr [ (ext_off, path); (8, be_bytes 8 ext_off); (16, be_bytes 4 (as_u32 (blen path))) ]
  end.

Definition build_header (buf : bytes) (opts : BuildHeaderOptions) : outcome Qcow2CreateError bytes :=
  let cluster_size := ly_cluster_size (bh_layout opts) in
  if blen buf <? cluster_size then Err BufferTooSmall
  else
  let hdr := filled cluster_size 0 in
  let? hdr := put hdr (fixed_fields opts) in
  let? (hdr, ext_off) := put_backing_format cluster_size (bh_backing_format opts) hdr QCOW2_HEADER_LENGTH_V3 in
  let? (hdr, ext_off) := put_luks_header cluster_size (bh_luks_header opts) hdr ext_off in
  let? (hdr, ext_off) := put_ext_end cluster_size hdr ext_off in
  put_backing_file cluster_size (bh_backing_file opts) hdr ext_off.

(** [for i in start..start + n { write_be_u64(slice, i * 8, entry(i)) }]. *)
Fixpoint fill_entries (n : nat) (i : Z) (entry : Z -> Z) (slice : bytes) : outcome Qcow2CreateError bytes :=
  match n with
  | O => Ok slice
  | S n' =>
      let? slice := write_be_u64 slice (wmul i 8) (entry i) in
      fill_entries n' (wadd i 1) entry slice
  end.

Definition build_l1_table (buf : bytes) (layout : Qcow2Layout) : outcome Qcow2CreateError bytes :=
  let needed := wmul (ly_l1_clusters layout) (ly_cluster_size layout) in
  if blen buf <? needed then Err BufferTooSmall
  else
  let slice := filled needed 0 in
  if populates_data_metadata (ly_preallocation layout) then
    fill_entries (Z.to_nat (ly_l1_entries layout)) 0
      (fun i => Z.lor (wadd (ly_l2_base_offset layout) (wmul i (ly_cluster_size layout))) OFLAG_COPIED) slice
  else Ok slice.

Definition build_l2_table (buf : bytes) (layout : Qcow2Layout) (l1_index : Z) : outcome Qcow2CreateError bytes :=
  let needed := ly_cluster_size layout in
  if blen buf <? needed then Err BufferTooSmall
  else
  let slice := filled needed 0 in
  if negb (populates_data_metadata (ly_preallocation layout)) then Ok slice
  else if ly_extended_l2 layout then Err PreallocationUnsupported
  else if ly_l1_entries layout <=? l1_index then Ok slice
  else
  let entries_per_l2 := ly_cluster_size layout / 8 in
  let first_virtual_cluster := wmul l1_index entries_per_l2 in
  if ly_data_clusters layout <=? first_virtual_cluster then Ok slice
  else
  let remaining := wsub (ly_data_clusters layout) first_virtual_cluster in
  let entries_in_table := if remaining <? entries_per_l2 then remaining else entries_per_l2 in
  fill_entries (Z.to_nat entries_in_table) 0
    (fun local => Z.lor (wadd (ly_data_base_offset layout)
                              (wmul (wadd first_virtual_cluster local) (ly_cluster_size layout))) OFLAG_COPIED) slice.

Definition build_refcount_table (buf : bytes) (layout : Qcow2Layout) : outcome Qcow2CreateError bytes :=
  let needed := wmul (ly_refcount_table_clusters layout) (ly_cluster_size layout) in
  if blen buf <? needed then Err BufferTooSmall
  else
  fill_entries (Z.to_nat (ly_refcount_block_count layout)) 0
    (fun i => wadd (ly_refcount_blocks_base_offset layout) (wmul i (ly_cluster_size layout))) (filled needed 0).

(** [block[byte] |= bits << shift]. *)
Definition or_byte (block : bytes) (byte bits : Z) : outcome Qcow2CreateError bytes :=
  let? b := or_panic (byte_at block byte) in or_panic (set_byte block byte (Z.lor b bits)).

Definition write_be_u16_local (val : Z) : bytes := [as_u8 (Z.shiftr val 8); as_u8 val].

Definition set_refcount_to_one (block : bytes) (idx refcount_bits : Z) : outcome Qcow2CreateError bytes :=
  match refcount_bits with
  | 1 => or_byte block (idx / 8) (Z.shiftl 1 (idx mod 8))
  | 2 => or_byte block (idx / 4) (Z.shiftl 1 (2 * (idx mod 4)))
  | 4 => or_byte block (idx / 2) (Z.shiftl 1 (if is_multiple_of idx 2 then 0 else 4))
  | 8 => or_panic (set_byte block idx 1)
  | 16 => or_panic (splice block (wmul idx 2) (write_be_u16_local 1))
  | 32 => write_be_u32 block (wmul idx 4) 1
  | 64 => write_be_u64 block (wmul idx 8) 1
  | _ => Panic
  end.

Fixpoint set_ones (n : nat) (local refcount_bits : Z) (slice : bytes) : outcome Qcow2CreateError bytes :=
  match n with
  | O => Ok slice
  | S n' =>
      let? slice := set_refcount_to_one slice local refcount_bits in
      set_ones n' (wadd local 1) refcount_bits slice
  end.

Definition build_refcount_block (buf : bytes) (layout : Qcow2Layout) (block_index : Z) : outcome Qcow2CreateError bytes :=
  let needed := ly_cluster_size layout in
  if blen buf <? needed then Err BufferTooSmall
  else
  let slice := filled needed 0 in
  let? entries_per_block := udiv (wmul (ly_cluster_size layout) 8) (ly_refcount_bits layout) in
  let first_entry := wmul block_index entries_per_block in
  if ly_total_clusters layout <=? first_entry then Ok slice
  else
  let remaining := wsub (ly_total_clusters layout) first_entry in
  let entries_in_block := if remaining <? entries_per_block then remaining else entries_per_block in
  set_ones (Z.to_nat entries_in_block) 0 (ly_refcount_bits layout) slice.

(** ** The refcount fixed point *)

(** Blocks and table clusters that cover [used] clusters and themselves. *)
Record fixed_point (used epr cs rt rb : Z) : Prop := {
  fp_blocks : rb = div_ceil (used + rt + rb) epr;
  fp_table : rt = div_ceil (rb * 8) cs
}.

(** Any sizes that are large enough. *)
Definition covers (used epr cs rt rb : Z) : Prop :=
  used + rt + rb <= rb * epr /\ rb * 8 <= rt * cs.

Section loop.
Context (used epr cs : Z).
Context (Hused : 1 <= used <= 2 ^ 57) (Hepr : 64 <= epr <= 2 ^ 24) (Hcs : 512 <= cs <= 2 ^ 21).

(** The table clusters of [rb] blocks, the clusters of everything, the next round. *)
Definition table_of (rb : Z) : Z := div_ceil (rb * 8) cs.
Definition total_of (rb : Z) : Z := used + table_of rb + rb.
Definition next_blocks (rb : Z) : Z := div_ceil (total_of rb) epr.

(** Growth by [k] whole divisors moves the quotient by at most [k]. *)
Lemma div_ceil_step x y d k : 0 < d -> y <= x + k * d -> div_ceil y d <= div_ceil x d + k.
Proof. intros Hd Hk. apply div_ceil_le; [done|]. destruct (div_ceil_spec x d Hd). nia. Qed.

Lemma next_mono x y : x <= y -> next_blocks x <= next_blocks y.
Proof.
  intros Hxy. unfold next_blocks, total_of, table_of. apply div_ceil_mono; [lia|].
  pose proof (div_ceil_mono (x * 8) (y * 8) cs ltac:(lia) ltac:(lia)). lia.
Qed.

Lemma total_step x d : 0 <= d -> total_of (x + d) <= total_of x + 2 * d.
Proof.
  intros Hd. unfold total_of, table_of.
  pose proof (div_ceil_step (x * 8) ((x + d) * 8) cs d ltac:(lia) ltac:(nia)). lia.
Qed.

(** Far from the fixed point the distance shrinks by a factor of 32. *)
Lemma next_contracts x d k : 0 <= d -> d <= 32 * k -> next_blocks (x + d) <= next_blocks x + k.
Proof.
  intros Hd Hk. unfold next_blocks. pose proof (total_step x d Hd). apply div_ceil_step; [lia|]. nia.
Qed.

Definition blocks_iter (n : nat) : Z := Nat.iter n next_blocks 1.

Lemma iter_S n : blocks_iter (S n) = next_blocks (blocks_iter n).
Proof. done. Qed.

Lemma iter_mono n : blocks_iter n <= blocks_iter (S n).
Proof.
  induction n as [|n IH]; [|rewrite (iter_S n), (iter_S (S n)); by apply next_mono].
  rewrite iter_S. change (blocks_iter 0) with 1. unfold next_blocks, total_of, table_of.
  destruct (div_ceil_spec (used + div_ceil (1 * 8) cs + 1) epr ltac:(lia)) as [Hge _].
  pose proof (div_ceil_nonneg (1 * 8) cs ltac:(lia) ltac:(lia)). nia.
Qed.

Lemma iter_pos n : 1 <= blocks_iter n.
Proof. induction n as [|n IH]; [done|]. pose proof (iter_mono n). lia. Qed.

Lemma iter_step n k : blocks_iter (S n) - blocks_iter n <= 32 * k -> blocks_iter (S (S n)) - blocks_iter (S n) <= k.
Proof.
  intros Hk. rewrite (iter_S (S n)). pose proof (iter_mono n) as Hm.
  pose proof (next_contracts (blocks_iter n) (blocks_iter (S n) - blocks_iter n) k ltac:(lia) Hk) as Hc.
  rewrite Zplus_minus in Hc. rewrite <- (iter_S n) in Hc. lia.
Qed.

Lemma iter_shrinks k n : blocks_iter (S n) - blocks_iter n <= 32 ^ Z.of_nat k -> blocks_iter (S (n + k)) - blocks_iter (n + k) <= 1.
Proof.
  revert n. induction k as [|k IH]; intros n Hk; [by rewrite Nat.add_0_r|].
  rewrite Nat2Z.inj_succ, Z.pow_succ_r in Hk by lia. apply iter_step in Hk.
  replace (n + S k)%nat with (S n + k)%nat by lia. by apply IH.
Qed.

Lemma iter_first : blocks_iter 1 - blocks_iter 0 <= 32 ^ Z.of_nat 11.
Proof.
  rewrite iter_S. change (blocks_iter 0) with 1. unfold next_blocks, total_of, table_of.
  assert (div_ceil (1 * 8) cs <= 1) by (apply div_ceil_le; lia).
  assert (div_ceil (used + div_ceil (1 * 8) cs + 1) epr <= 2 ^ 55); [|change (32 ^ Z.of_nat 11) with (2 ^ 55); lia].
  apply div_ceil_le; [lia|]. change (2 ^ 57) with 144115188075855872 in *. change (2 ^ 55) with 36028797018963968. nia.
Qed.

(** From a distance of one the next round is the last but one: the clusters added fit
    the block that was just added for them. *)
Lemma iter_settles n : blocks_iter (S n) - blocks_iter n <= 1 -> blocks_iter (S (S (S n))) = blocks_iter (S (S n)).
Proof.
  intros H1. pose proof (iter_mono n). pose proof (iter_step n 1 ltac:(lia)) as H2.
  pose proof (iter_mono (S n)). pose proof (iter_mono (S (S n))).
  destruct (decide (blocks_iter (S (S n)) = blocks_iter (S n))) as [He|Hne].
  { by rewrite (iter_S (S (S n))), He, <- iter_S. }
  apply Z.le_antisymm; [|done]. rewrite (iter_S (S (S n))). unfold next_blocks. apply div_ceil_le; [lia|].
  pose proof (total_step (blocks_iter n) (blocks_iter (S n) - blocks_iter n) ltac:(lia)) as Ht1.
  pose proof (total_step (blocks_iter (S n)) (blocks_iter (S (S n)) - blocks_iter (S n)) ltac:(lia)) as Ht2.
  rewrite Zplus_minus in Ht1, Ht2.
  destruct (div_ceil_spec (total_of (blocks_iter n)) epr ltac:(lia)) as [Hge _].
  change (div_ceil (total_of (blocks_iter n)) epr) with (blocks_iter (S n)) in Hge. nia.
Qed.

Lemma iter_fixed : blocks_iter 14 = blocks_iter 13.
Proof. apply (iter_settles 11). apply (iter_shrinks 11 0). apply iter_first. Qed.

(** Below every sizes that cover themselves. *)
Lemma iter_least n rt rb : 1 <= rb -> covers used epr cs rt rb -> blocks_iter n <= rb.
Proof.
  intros Hrb [Hc Ht]. induction n as [|n IH]; [done|]. rewrite iter_S. unfold next_blocks. apply div_ceil_le; [lia|].
  unfold total_of. assert (table_of (blocks_iter n) <= rt); [|lia].
  unfold table_of. apply div_ceil_le; [lia|]. lia.
Qed.

Lemma iter_bound n : blocks_iter n <= used / 62 + 1.
Proof.
  pose proof (Z.div_pos used 62 ltac:(lia) ltac:(lia)). pose proof (Z.mul_succ_div_gt used 62 ltac:(lia)).
  apply (iter_least n (used / 62 + 1)); [lia|]. split; nia.
Qed.

(** In numbers, for the bounds of the machine arithmetic. *)
Lemma iter_small n : 1 <= blocks_iter n <= 2 ^ 52.
Proof.
  pose proof (iter_pos n). pose proof (iter_bound n). pose proof (Z.div_le_upper_bound used 62 (2 ^ 52 - 1) ltac:(lia)).
  change (2 ^ 57) with 144115188075855872 in *. change (2 ^ 52) with 4503599627370496 in *. lia.
Qed.

Lemma table_of_bound rb : 0 <= rb -> 0 <= table_of rb <= rb.
Proof.
  intros Hrb. unfold table_of. split; [apply div_ceil_nonneg; lia | apply div_ceil_le; nia].
Qed.

Lemma table_of_1 : table_of 1 = 1.
Proof.
  unfold table_of. pose proof (div_ceil_le (1 * 8) cs 1 ltac:(lia) ltac:(lia)).
  destruct (div_ceil_spec (1 * 8) cs ltac:(lia)). nia.
Qed.

(** The loop of the source follows the iteration. *)
Lemma loop_iter rounds n : blocks_iter (S (n + rounds)) = blocks_iter (n + rounds) ->
  let '(rt, rb) := refcount_loop rounds used epr cs (table_of (blocks_iter n)) (blocks_iter n) in
  fixed_point used epr cs rt rb /\ rb = blocks_iter (n + rounds) /\ rt = table_of rb.
Proof.
  revert n. induction rounds as [|rounds IH]; intros n Hfix; cbn [refcount_loop].
  - rewrite Nat.add_0_r in *. split; [|done]. split; [|done].
    rewrite <- Hfix at 1. done.
  - pose proof (iter_small n) as Hb. pose proof (iter_small (S n)) as Hb'. change (2 ^ 52) with 4503599627370496 in *.
    change (2 ^ 57) with 144115188075855872 in *. pose proof (table_of_bound (blocks_iter n) ltac:(lia)).
    rewrite !wadd_small by (rewrite ?wadd_small by (unfold u64_max; lia); unfold u64_max; lia).
    change (div_ceil (used + table_of (blocks_iter n) + blocks_iter n) epr) with (blocks_iter (S n)).
    rewrite wmul_small by (unfold u64_max; lia). change (div_ceil (blocks_iter (S n) * 8) cs) with (table_of (blocks_iter (S n))).
    destruct (Z.eqb_spec (blocks_iter (S n)) (blocks_iter n)) as [He|Hne]; cbn [andb].
    + rewrite He, Z.eqb_refl.
      assert (forall m, blocks_iter (n + m) = blocks_iter n) as Hst.
      { intros m. induction m as [|m IHm]; [by rewrite Nat.add_0_r|]. rewrite Nat.add_succ_r, iter_S, IHm. exact He. }
      rewrite Hst. split; [|done]. split; [|done]. rewrite <- He at 1. done.
    + rewrite <- Nat.add_succ_comm in *. apply (IH (S n)). done.
Qed.

Lemma refcount_loop_fixed rounds : (13 <= rounds)%nat ->
  let '(rt, rb) := refcount_loop rounds used epr cs 1 1 in
  fixed_point used epr cs rt rb /\ 1 <= rb <= used / 62 + 1 /\ 1 <= rt <= rb /\
  (forall rt' rb', 1 <= rb' -> covers used epr cs rt' rb' -> rt <= rt' /\ rb <= rb').
Proof.
  intros Hr. assert (forall m, blocks_iter (13 + m) = blocks_iter 13) as Hst.
  { intros m. induction m as [|m IHm]; [done|]. rewrite Nat.add_succ_r, iter_S, IHm. exact iter_fixed. }
  pose proof (loop_iter rounds 0) as Hl. rewrite Nat.add_0_l in Hl. change (blocks_iter 0) with 1 in Hl. rewrite table_of_1 in Hl.
  destruct (refcount_loop rounds used epr cs 1 1) as [rt rb]. destruct Hl as (Hf & -> & ->).
  { replace rounds with (13 + (rounds - 13))%nat by lia. rewrite <- Nat.add_succ_r. by rewrite !Hst. }
  split; [done|]. pose proof (iter_pos rounds). pose proof (iter_bound rounds). split; [done|]. split.
  - split; [|apply table_of_bound; lia]. rewrite <- table_of_1. apply div_ceil_mono; lia.
  - intros rt' rb' Hp Hc. pose proof (iter_least rounds rt' rb' Hp Hc) as Hle. split; [|done].
    destruct Hc as [_ Ht]. apply div_ceil_le; lia.
Qed.

End loop.

(** ** The layout *)

(** The entries of an L2 table and the guest bytes it covers. *)
Definition l2_entries_of (bits : Z) (ext : bool) : Z := 2 ^ bits / (if ext then 16 else 8).
Definition l2_coverage_of (bits : Z) (ext : bool) : Z := 2 ^ bits * l2_entries_of bits ext.

(** The requests that have a layout. *)
Record creatable (vs bits rbits : Z) (ext : bool) (p : Preallocation) : Prop := {
  cr_size : 0 < vs;
  cr_bits : 9 <= bits <= 21;
  cr_rbits : valid_width rbits;
  cr_ext : ext && populates_data_metadata p = false;
  cr_l1 : div_ceil vs (l2_coverage_of bits ext) <= QCOW2_MAX_L1_SIZE_ENTRIES
}.

(** What the fields of a layout are. *)
Record layout_ok (l : Qcow2Layout) : Prop := {
  lo_request : creatable (ly_virtual_size l) (ly_cluster_bits l) (ly_refcount_bits l) (ly_extended_l2 l) (ly_preallocation l);
  lo_vs : is_u64 (ly_virtual_size l);
  lo_cs : ly_cluster_size l = 2 ^ ly_cluster_bits l;
  lo_l1 : ly_l1_entries l = div_ceil (ly_virtual_size l) (l2_coverage_of (ly_cluster_bits l) (ly_extended_l2 l));
  lo_l1c : ly_l1_clusters l = div_ceil (ly_l1_entries l * 8) (ly_cluster_size l);
  lo_l1_off : ly_l1_offset l = ly_cluster_size l;
  lo_rt_off : ly_refcount_table_offset l = ly_l1_offset l + ly_l1_clusters l * ly_cluster_size l;
  lo_rb_off : ly_refcount_blocks_base_offset l = ly_refcount_table_offset l + ly_refcount_table_clusters l * ly_cluster_size l;
  lo_l2_off : ly_l2_base_offset l = ly_refcount_blocks_base_offset l + ly_refcount_block_count l * ly_cluster_size l;
  lo_data_off : ly_data_base_offset l = ly_l2_base_offset l + ly_l2_clusters l * ly_cluster_size l;
  lo_l2c : ly_l2_clusters l = if populates_data_metadata (ly_preallocation l) then ly_l1_entries l else 0;
  lo_data : ly_data_clusters l =
    if populates_data_metadata (ly_preallocation l) then div_ceil (ly_virtual_size l) (ly_cluster_size l) else 0;
  lo_total : ly_total_clusters l = 1 + ly_l1_clusters l + ly_refcount_table_clusters l + ly_refcount_block_count l
                                   + ly_l2_clusters l + ly_data_clusters l;
  lo_file : ly_total_file_size l = ly_total_clusters l * ly_cluster_size l;
  lo_end : ly_total_file_size l = ly_data_base_offset l + ly_data_clusters l * ly_cluster_size l;
  lo_fixed : fixed_point (1 + ly_l1_clusters l + ly_l2_clusters l + ly_data_clusters l)
               (ly_cluster_size l * 8 / ly_refcount_bits l) (ly_cluster_size l)
               (ly_refcount_table_clusters l) (ly_refcount_block_count l)
}.

(** The ranges of the numbers of a layout. *)
Record layout_bounds (l : Qcow2Layout) : Prop := {
  lb_cs : 512 <= ly_cluster_size l <= 2 ^ 21;
  lb_l1 : 1 <= ly_l1_entries l <= 2 ^ 22;
  lb_l1c : 1 <= ly_l1_clusters l <= 2 ^ 17;
  lb_rt : 1 <= ly_refcount_table_clusters l <= ly_refcount_block_count l;
  lb_rb : 1 <= ly_refcount_block_count l <= 2 ^ 36;
  lb_l2 : 0 <= ly_l2_clusters l <= 2 ^ 22;
  lb_data : 0 <= ly_data_clusters l <= 2 ^ 40;
  lb_file : ly_total_file_size l < 2 ^ 63
}.

Lemma cluster_size_pow bits : 9 <= bits <= 21 -> shl64 1 bits = 2 ^ bits /\ 512 <= 2 ^ bits <= 2 ^ 21.
Proof.
  intros Hb. assert (2 ^ bits <= 2 ^ 21) by (apply Z.pow_le_mono_r; lia).
  assert (2 ^ 9 <= 2 ^ bits) as Hlo by (apply Z.pow_le_mono_r; lia). change (2 ^ 9) with 512 in Hlo. split; [|done].
  unfold shl64. rewrite Z.shiftl_1_l. apply Z.mod_small. change (2 ^ 21) with 2097152 in *. lia.
Qed.

Lemma l2_entries_bounds bits ext : 9 <= bits <= 21 -> 32 <= l2_entries_of bits ext <= 2 ^ 18.
Proof.
  intros Hb. destruct (cluster_size_pow bits Hb) as [_ [Hlo Hhi]]. unfold l2_entries_of.
  change (2 ^ 21) with 2097152 in Hhi. change (2 ^ 18) with 262144.
  destruct ext; (split; [apply Z.div_le_lower_bound; lia | apply Z.div_le_upper_bound; lia]).
Qed.

Lemma valid_refcount_bits_spec bits : valid_refcount_bits bits = true <-> valid_width bits.
Proof. unfold valid_refcount_bits, valid_width. by rewrite bool_decide_eq_true. Qed.

Lemma valid_width_range w : valid_width w -> 1 <= w <= 64.
Proof.
  unfold valid_width. rewrite !elem_of_cons. intros Hw. destruct_or! Hw; subst; try lia. by apply elem_of_nil in Hw.
Qed.

Lemma entries_per_block_bounds cs w : 512 <= cs <= 2 ^ 21 -> valid_width w -> 64 <= cs * 8 / w <= 2 ^ 24.
Proof.
  intros Hcs Hw%valid_width_range. change (2 ^ 21) with 2097152 in Hcs. change (2 ^ 24) with 16777216.
  split; [apply Z.div_le_lower_bound; lia | apply Z.div_le_upper_bound; nia].
Qed.

Lemma div_ceil_add x y : 0 < y -> (x + (y - 1)) / y = div_ceil x y.
Proof.
  intros Hy. destruct (div_ceil_spec x y Hy) as [Hge Hlt].
  apply Z.le_antisymm.
  - apply Z.lt_succ_r, Z.div_lt_upper_bound; nia.
  - apply Z.div_le_lower_bound; nia.
Qed.

(** The clusters of the guest's disk fit the L2 tables. *)
Lemma data_clusters_le vs bits ext : 9 <= bits <= 21 ->
  div_ceil vs (2 ^ bits) <= div_ceil vs (l2_coverage_of bits ext) * l2_entries_of bits ext.
Proof.
  intros Hb. destruct (cluster_size_pow bits Hb) as [_ Hcs]. pose proof (l2_entries_bounds bits ext Hb).
  apply div_ceil_le; [lia|]. unfold l2_coverage_of.
  destruct (div_ceil_spec vs (2 ^ bits * l2_entries_of bits ext) ltac:(nia)) as [Hge _]. nia.
Qed.

(** The clusters the refcount structures have to cover besides themselves. *)
Lemma used_bounds vs bits ext p l1 l1c l2c dc : 9 <= bits <= 21 -> 0 < vs ->
  l1 = div_ceil vs (l2_coverage_of bits ext) -> l1 <= QCOW2_MAX_L1_SIZE_ENTRIES ->
  l1c = div_ceil (l1 * 8) (2 ^ bits) ->
  l2c = (if populates_data_metadata p then l1 else 0) ->
  dc = (if populates_data_metadata p then div_ceil vs (2 ^ bits) else 0) ->
  1 <= l1 <= 2 ^ 22 /\ 1 <= l1c <= 2 ^ 17 /\ 0 <= l2c <= 2 ^ 22 /\ 0 <= dc <= 2 ^ 40.
Proof.
  intros Hb Hvs Hl1 Hmax Hl1c Hl2c Hdc. destruct (cluster_size_pow bits Hb) as [_ Hcs].
  pose proof (l2_entries_bounds bits ext Hb) as Hepl. unfold QCOW2_MAX_L1_SIZE_ENTRIES in Hmax.
  pose proof (data_clusters_le vs bits ext Hb) as Hd. rewrite <- Hl1 in Hd.
  destruct (div_ceil_spec vs (l2_coverage_of bits ext) ltac:(unfold l2_coverage_of; nia)) as [Hge _]. rewrite <- Hl1 in Hge.
  assert (1 <= l1) as Hlo by (unfold l2_coverage_of in Hge; nia).
  destruct (div_ceil_spec (l1 * 8) (2 ^ bits) ltac:(lia)) as [Hcg Hcl]. rewrite <- Hl1c in Hcg, Hcl.
  pose proof (div_ceil_nonneg vs (2 ^ bits) ltac:(lia) ltac:(lia)) as Hd0.
  change (2 ^ 18) with 262144 in *. change (2 ^ 21) with 2097152 in *. change (2 ^ 22) with 4194304.
  change (2 ^ 17) with 131072. change (2 ^ 40) with 1099511627776.
  split; [lia|]. split; [nia|]. destruct (populates_data_metadata p); subst l2c dc; nia.
Qed.

Lemma compute_layout_spec vs bits rbits ext p : is_u64 vs -> is_u32 bits -> is_u32 rbits ->
  match compute_layout vs bits rbits ext p with
  | Ok l => layout_ok l /\ layout_bounds l /\ (ly_virtual_size l, ly_cluster_bits l, ly_refcount_bits l) = (vs, bits, rbits) /\
            ly_extended_l2 l = ext /\ ly_preallocation l = p /\
            (forall rt rb, 1 <= rb ->
               covers (1 + ly_l1_clusters l + ly_l2_clusters l + ly_data_clusters l)
                 (ly_cluster_size l * 8 / rbits) (ly_cluster_size l) rt rb ->
               ly_refcount_table_clusters l <= rt /\ ly_refcount_block_count l <= rb)
  | Err _ => ~ creatable vs bits rbits ext p
  | _ => False
  end.
Proof.
  intros Hvs Hbu Hru. unfold compute_layout, MIN_CLUSTER_BITS, MAX_CLUSTER_BITS.
  destruct (Z.eqb_spec vs 0) as [->|Hvs0]; [by intros [? _ _ _ _]|].
  destruct (negb _) eqn:Hb; [intros [_ ? _ _ _]; bool_to_prop; lia|]. bool_to_prop.
  destruct (valid_refcount_bits rbits) eqn:Hw; cbn [negb];
    [|intros [_ _ Hw' _ _]; apply valid_refcount_bits_spec in Hw'; congruence].
  apply valid_refcount_bits_spec in Hw.
  destruct (ext && populates_data_metadata p) eqn:Hep; [intros [_ _ _ ? _]; congruence|].
  destruct (cluster_size_pow bits ltac:(lia)) as [-> Hcs]. pose proof (l2_entries_bounds bits ext ltac:(lia)) as Hepl.
  cbv zeta. change (2 ^ bits / (if ext then 16 else 8)) with (l2_entries_of bits ext).
  set (cs := 2 ^ bits) in *. set (epl := l2_entries_of bits ext) in *.
  assert (0 < cs * epl <= 2 ^ 39) as Hcov.
  { change (2 ^ 21) with 2097152 in *. change (2 ^ 18) with 262144 in *. change (2 ^ 39) with 549755813888. nia. }
  change (2 ^ 39) with 549755813888 in Hcov. unfold is_u64, is_u32 in *.
  rewrite checked_mul_eq by (unfold u64_max; lia). cbn [ok_or obind]. rewrite wsub_small by (unfold u64_max; lia).
  change (cs * epl) with (l2_coverage_of bits ext) in *. set (cov := l2_coverage_of bits ext) in *.
  destruct (checked_add vs (cov - 1)) as [pad|] eqn:Hpad; cbn [ok_or obind].
  2:{ intros [_ _ _ _ Hl1]. fold cov in Hl1. destruct (div_ceil_spec vs cov ltac:(lia)) as [Hge _].
      assert (u64_max < vs + (cov - 1)) by (unfold checked_add in Hpad; destruct (Z.leb_spec (vs + (cov - 1)) u64_max); done || lia).
      unfold QCOW2_MAX_L1_SIZE_ENTRIES, u64_max in *. nia. }
  apply checked_add_Some in Hpad as [-> Hpm].
  unfold udiv. rewrite (proj2 (Z.eqb_neq cov 0)) by lia. cbn [obind]. rewrite div_ceil_add by lia.
  destruct (Z.ltb_spec QCOW2_MAX_L1_SIZE_ENTRIES (div_ceil vs cov)) as [Hbig|Hl1max]; [intros [_ _ _ _ Hx]; fold cov in Hx; lia|].
  destruct (used_bounds vs bits ext p _ _ _ _ ltac:(lia) ltac:(lia) eq_refl Hl1max eq_refl eq_refl eq_refl) as (Hl1 & Hl1c & Hl2c & Hdc).
  fold cov cs in Hl1, Hl1c, Hl2c, Hdc. set (l1 := div_ceil vs cov) in *.
  assert (as_u32 l1 = l1) as -> by (apply Z.mod_small; change (2 ^ 22) with 4194304 in *; lia).
  rewrite checked_mul_eq by (change (2 ^ 22) with 4194304 in *; unfold u64_max; lia). cbn [ok_or obind].
  rewrite Z.max_l by lia. set (l1c := div_ceil (l1 * 8) cs) in *.
  set (pp := populates_data_metadata p) in *.
  replace (if pp then (l1, div_ceil vs cs) else (0, 0)) with (if pp then l1 else 0, if pp then div_ceil vs cs else 0) by by destruct pp.
  set (l2c := if pp then l1 else 0) in *. set (dc := if pp then div_ceil vs cs else 0) in *.
  assert (wadd (wadd (wadd 1 l1c) l2c) dc = 1 + l1c + l2c + dc) as ->.
  { change (2 ^ 17) with 131072 in *. change (2 ^ 22) with 4194304 in *. change (2 ^ 40) with 1099511627776 in *.
    by rewrite (wadd_small 1 l1c), (wadd_small (1 + l1c) l2c), (wadd_small (1 + l1c + l2c) dc) by (unfold u64_max; lia). }
  rewrite (wmul_small cs 8) by (change (2 ^ 21) with 2097152 in *; unfold u64_max; lia).
  pose proof (entries_per_block_bounds cs rbits Hcs Hw) as Hepr.
  pose proof (refcount_loop_fixed (1 + l1c + l2c + dc) (cs * 8 / rbits) cs) as Hloop.
  specialize (Hloop ltac:(change (2 ^ 17) with 131072 in *; change (2 ^ 22) with 4194304 in *;
    change (2 ^ 40) with 1099511627776 in *; change (2 ^ 57) with 144115188075855872; lia) Hepr Hcs
    REFCOUNT_FIXED_POINT_ITERATIONS ltac:(unfold REFCOUNT_FIXED_POINT_ITERATIONS; lia)).
  destruct (refcount_loop _ _ _ _ 1 1) as [rt rb]. destruct Hloop as (Hfix & Hrb & Hrt & Hleast).
  assert (rb <= 2 ^ 36) as Hrb36.
  { etrans; [apply Hrb|]. change (2 ^ 36) with (68719476735 + 1). apply Z.add_le_mono_r, Z.div_le_upper_bound; [lia|].
    change (2 ^ 17) with 131072 in *. change (2 ^ 22) with 4194304 in *. change (2 ^ 40) with 1099511627776 in *. lia. }
  assert (0 <= (1 + l1c + rt + rb + l2c + dc) * cs < 2 ^ 63) as Hfile.
  { change (2 ^ 17) with 131072 in *. change (2 ^ 22) with 4194304 in *. change (2 ^ 40) with 1099511627776 in *.
    change (2 ^ 36) with 68719476736 in *. change (2 ^ 21) with 2097152 in *. change (2 ^ 63) with 9223372036854775808. nia. }
  change (2 ^ 63) with 9223372036854775808 in Hfile.
  assert (0 <= l1c * cs /\ 0 <= rt * cs /\ 0 <= rb * cs /\ 0 <= l2c * cs /\ 0 <= dc * cs) as Hparts by (split_and!; apply Z.mul_nonneg_nonneg; lia).
  assert (1 + l1c + rt + rb + l2c + dc <= (1 + l1c + rt + rb + l2c + dc) * cs) as Htot
    by (rewrite <- (Z.mul_1_r (1 + l1c + rt + rb + l2c + dc)) at 1; apply Z.mul_le_mono_nonneg_l; lia).
  rewrite !(wadd_small 1 l1c), !(wmul_small (1 + l1c) cs), !(wmul_small rt cs), !(wmul_small rb cs), !(wmul_small l2c cs)
    by (unfold u64_max; lia).
  assert (wadd ((1 + l1c) * cs) (rt * cs) = (1 + l1c) * cs + rt * cs) as -> by (apply wadd_small; unfold u64_max; lia).
  rewrite (wadd_small ((1 + l1c) * cs + rt * cs) (rb * cs)) by (unfold u64_max; lia).
  rewrite (wadd_small ((1 + l1c) * cs + rt * cs + rb * cs) (l2c * cs)) by (unfold u64_max; lia).
  assert (wadd (wadd (wadd (wadd (1 + l1c) rt) rb) l2c) dc = 1 + l1c + rt + rb + l2c + dc) as ->
    by (by rewrite (wadd_small (1 + l1c) rt), (wadd_small (1 + l1c + rt) rb), (wadd_small (1 + l1c + rt + rb) l2c),
          (wadd_small (1 + l1c + rt + rb + l2c) dc) by (unfold u64_max; lia)).
  rewrite (wmul_small _ cs) by (unfold u64_max; lia).
  cbn. split; [|split; [|split_and!; done]].
  - constructor; cbn; try done; try lia. constructor; try done; lia.
  - constructor; cbn; try done; lia.
Qed.

(** ** Properties *)

(** C33: [compute_layout] returns for every request, without a panic.  It accepts
    exactly the requests within the limits, and then header, L1 table, refcount table,
    refcount blocks, L2 tables and data follow one another without gap or overlap up
    to the end of the file, which stays below 2^63.  The sixteen rounds always reach a
    fixed point: the refcount blocks have an entry for every cluster of the file,
    their own and the refcount table's included, the last block is needed, the table
    has room for all of them, and no smaller table or number of blocks covers the
    image. *)
Theorem layout_self_covering (vs bits rbits : Z) (ext : bool) (p : Preallocation) :
  is_u64 vs -> is_u32 bits -> is_u32 rbits ->
  match compute_layout vs bits rbits ext p with
  | Ok l =>
      creatable vs bits rbits ext p /\ layout_ok l /\ ly_total_file_size l < 2 ^ 63 /\
      (let epb := ly_cluster_size l * 8 / rbits in
       ly_total_clusters l <= ly_refcount_block_count l * epb /\
       (ly_refcount_block_count l - 1) * epb < ly_total_clusters l /\
       ly_refcount_block_count l * 8 <= ly_refcount_table_clusters l * ly_cluster_size l /\
       forall rt rb, 1 <= rb -> covers (1 + ly_l1_clusters l + ly_l2_clusters l + ly_data_clusters l) epb (ly_cluster_size l) rt rb ->
         ly_refcount_table_clusters l <= rt /\ ly_refcount_block_count l <= rb)
  | Err _ => ~ creatable vs bits rbits ext p
  | _ => False
  end.
Proof.
  intros Hvs Hb Hr. pose proof (compute_layout_spec vs bits rbits ext p Hvs Hb Hr) as Hs.
  destruct (compute_layout vs bits rbits ext p) as [l| | |]; [|done..]. destruct Hs as (Hl & Hbd & [= E1 E2 E3] & E4 & E5 & Hleast).
  pose proof (lo_request l Hl) as Hq. rewrite E1, E2, E3, E4, E5 in Hq. split; [done|]. split; [done|]. split; [apply (lb_file l Hbd)|].
  destruct (lo_fixed l Hl) as [Hf1 Hf2]. rewrite E3 in Hf1. pose proof (entries_per_block_bounds _ _ (lb_cs l Hbd) (cr_rbits _ _ _ _ _ Hq)) as He.
  cbv zeta. set (epb := ly_cluster_size l * 8 / rbits) in *. pose proof (lb_cs l Hbd).
  destruct (div_ceil_spec (1 + ly_l1_clusters l + ly_l2_clusters l + ly_data_clusters l + ly_refcount_table_clusters l + ly_refcount_block_count l)
    epb ltac:(lia)) as [Hg1 Hg2]. rewrite <- Hf1 in Hg1, Hg2.
  destruct (div_ceil_spec (ly_refcount_block_count l * 8) (ly_cluster_size l) ltac:(lia)) as [Hg3 _]. rewrite <- Hf2 in Hg3.
  rewrite (lo_total l Hl). split_and!; [lia | lia | lia | exact Hleast].
Qed.

(** A preallocated image of 1 GiB with 512-byte clusters and 64-bit refcounts. *)
Definition big_layout : Qcow2Layout :=
  mkQcow2Layout 9 512 1073741824 64 false Metadata 32768 262144 512 512 262656 529 33825 533504 32768 17851904 2097152 34629120
    2164787 1108370944.

Lemma layout_self_covering_witness :
  compute_layout 1073741824 9 64 false Metadata = Ok big_layout /\
  (ly_refcount_block_count big_layout - 1) * 64 < ly_total_clusters big_layout <= ly_refcount_block_count big_layout * 64.
Proof.
  assert (compute_layout 1073741824 9 64 false Metadata = Ok big_layout) as E by (vm_compute; reflexivity). split; [exact E|].
  pose proof (layout_self_covering 1073741824 9 64 false Metadata ltac:(by split) ltac:(by split) ltac:(by split)) as Hs.
  rewrite E in Hs. destruct Hs as (_ & _ & _ & H1 & H2 & _). change (ly_cluster_size big_layout * 8 / 64) with 64 in H1, H2.
  split; [exact H2|exact H1].
Defined.
