(* ===== verification/CreateProps.v ===== *)
(** What the builders of [Create] put into the structures of a fresh image: the fixed
    header and its parse, the entries of the L1, L2 and refcount tables, and the
    packed refcounts of every width. *)

From stdpp Require Import base numbers list sets option.
From Stdlib Require Import ZArith Lia.
From S2P Require Import Prelude Bytes Refcount Qcow2 SnapshotWalk ExecBytes Header Create.

(** ** Tables of 64-bit entries *)

Lemma u64_at_filled n off : 0 <= off -> off + 8 <= n -> u64_at (filled n 0) off = 0.
Proof. intros Ho Hn. unfold u64_at. rewrite slice_filled by lia. by replace (off + 8 - off) with 8 by lia. Qed.

Lemma fill_entries_spec n i entry s : is_bytes s -> slice_fits s -> 0 <= i -> (i + Z.of_nat n) * 8 <= blen s ->
  (forall j, i <= j < i + Z.of_nat n -> is_u64 (entry j)) ->
  exists s', fill_entries n i entry s = Ok s' /\ is_bytes s' /\ blen s' = blen s /\
    forall j, 0 <= j -> (j + 1) * 8 <= blen s ->
      u64_at s' (8 * j) = if (i <=? j) && (j <? i + Z.of_nat n) then entry j else u64_at s (8 * j).
Proof.
  revert i s. induction n as [|n IH]; intros i s Hb Hf Hi Hl He; cbn [fill_entries].
  - exists s. split_and!; try done. intros j _ _. destruct (Z.leb_spec i j), (Z.ltb_spec j (i + Z.of_nat 0)); done || lia.
  - unfold slice_fits in Hf. rewrite wmul_small, wadd_small by (unfold u64_max; lia). unfold write_be_u64.
    destruct (splice_of s (i * 8) (be_bytes 8 (entry i))) as (s1 & Hs1 & Hl1); [lia | rewrite blen_be_bytes; lia|].
    rewrite Hs1. cbn [or_panic obind].
    destruct (IH (i + 1) s1) as (s' & -> & Hb' & Hl' & Hr); unfold slice_fits; try lia.
    { by eapply splice_is_bytes; [exact Hb | apply be_bytes_is_bytes|]. }
    { intros j Hj. apply He. lia. }
    exists s'. split_and!; [done | done | lia|]. intros j Hj Hjl. rewrite Hr by lia.
    destruct (Z.leb_spec (i + 1) j), (Z.ltb_spec j (i + 1 + Z.of_nat n)), (Z.leb_spec i j), (Z.ltb_spec j (i + Z.of_nat (S n)));
      cbn [andb]; try lia; try done.
    + apply u64_at_same. eapply slice_splice_ne; [exact Hs1|]. rewrite blen_be_bytes. lia.
    + replace j with i by lia. rewrite (Z.mul_comm 8 i). eapply u64_at_put; [exact Hs1|]. apply He. lia.
    + apply u64_at_same. eapply slice_splice_ne; [exact Hs1|]. rewrite blen_be_bytes. lia.
Qed.

(** A table that starts out zero. *)
Lemma fill_table n entry size : 0 <= size <= 9223372036854775807 -> Z.of_nat n * 8 <= size ->
  (forall j, 0 <= j < Z.of_nat n -> is_u64 (entry j)) ->
  exists s', fill_entries n 0 entry (filled size 0) = Ok s' /\ is_bytes s' /\ blen s' = size /\
    forall j, 0 <= j -> (j + 1) * 8 <= size ->
      u64_at s' (8 * j) = if j <? Z.of_nat n then entry j else 0.
Proof.
  intros Hs Hn He. destruct (fill_entries_spec n 0 entry (filled size 0)) as (s' & Hf & Hb & Hl & Hr).
  - by apply filled_is_bytes.
  - unfold slice_fits. rewrite blen_filled; lia.
  - done.
  - rewrite blen_filled; lia.
  - intros j Hj. apply He. lia.
  - rewrite blen_filled in Hl, Hr by lia. exists s'. split_and!; try done. intros j Hj Hjl. rewrite Hr by lia.
    rewrite Z.add_0_l, u64_at_filled by lia. destruct (Z.leb_spec 0 j); [done|lia].
Qed.

(** ** Refcount blocks *)

Lemma sub_width w : w ∈ [1; 2; 4] -> valid_width w /\ 0 < 8 / w /\ 1 < 2 ^ w.
Proof.
  intros Hw. unfold valid_width.
  rewrite !elem_of_cons in *. destruct_or! Hw; subst; try (split; [tauto|done]). by apply elem_of_nil in Hw.
Qed.

Lemma zero_refcount n w idx : valid_width w -> 0 <= n <= 9223372036854775807 -> in_block (filled n 0) idx w ->
  read_refcount_in_block (filled n 0) idx w = Ok 0.
Proof.
  intros Hw Hn Hin. assert (is_bytes (filled n 0)) as Hb by by apply filled_is_bytes.
  assert (slice_fits (filled n 0)) as Hf by (unfold slice_fits; rewrite blen_filled; lia).
  destruct (valid_width_cases w Hw) as [Hs|(k & Hk & ->)].
  - destruct (in_block_sub _ _ _ Hs Hin) as [Hidx Hlt]. rewrite read_sub_eq by done.
    destruct (sub_width w Hs) as (_ & Hper & _).
    destruct (read_packed_val (filled n 0) idx (8 / w) w Hper Hidx Hlt) as (b & Hbyte & ->).
    assert (b = 0) as ->; [|unfold get_sub; by rewrite Z.shiftr_0_l, Z.land_0_l].
    unfold byte_at in Hbyte. destruct (0 <=? _); [|done]. by apply lookup_replicate in Hbyte as [-> _].
  - erewrite read_multi_val by done. destruct Hin as [Hidx Hin]. rewrite blen_filled in Hin by lia.
    rewrite slice_filled by nia. cbn. f_equal. rewrite Z.add_simpl_l. unfold filled. rewrite Nat2Z.id.
    clear. unfold be_val. induction k as [|k IH]; [done|]. exact IH.
Qed.

(** Setting one bit of a packed entry that is zero stores a one. *)
Definition or_one_check (w : Z) : bool :=
  forallb (fun b => forallb (fun i =>
    negb (get_sub w b i =? 0) || (Z.lor b (Z.shiftl 1 (w * i)) =? put_sub w b i 1)) (seqZ 0 (8 / w))) (seqZ 0 256).

Lemma or_one_check_ok : forallb or_one_check [1; 2; 4] = true.
Proof. vm_compute. reflexivity. Qed.

Lemma or_one_put w b i : w ∈ [1; 2; 4] -> is_u8 b -> 0 <= i < 8 / w -> get_sub w b i = 0 ->
  Z.lor b (Z.shiftl 1 (w * i)) = put_sub w b i 1.
Proof.
  intros Hw Hb Hi Hz. pose proof or_one_check_ok as Hc. rewrite forallb_forall in Hc.
  specialize (Hc w ltac:(by apply list_elem_of_In)). unfold or_one_check in Hc. unfold is_u8, u8_max in Hb.
  pose proof (forallb_seqZ _ _ _ Hc b ltac:(lia)) as Hc1. cbv beta in Hc1.
  pose proof (forallb_seqZ _ _ _ Hc1 i ltac:(lia)) as Hc2. cbv beta in Hc2.
  rewrite Hz in Hc2. by apply Z.eqb_eq in Hc2.
Qed.

(** The builder's sub-byte writer agrees with the shared accessor on free entries. *)
Lemma or_byte_set block idx w : is_bytes block -> w ∈ [1; 2; 4] -> in_block block idx w ->
  read_refcount_in_block block idx w = Ok 0 ->
  exists b, set_refcount_in_block block idx w 1 = Ok b /\
            or_byte block (idx / (8 / w)) (Z.shiftl 1 (w * (idx mod (8 / w)))) = Ok b.
Proof.
  intros Hb Hw Hin Hz. destruct (in_block_sub _ _ _ Hw Hin) as [Hidx Hlt]. rewrite read_sub_eq in Hz by done.
  destruct (sub_width w Hw) as (Hvw & Hper & Hpow).
  destruct (read_packed_val block idx (8 / w) w Hper Hidx Hlt) as (b & Hbyte & Hr). rewrite Hr in Hz. injection Hz as Hz.
  pose proof (Z.mod_pos_bound idx (8 / w) Hper) as Hm. pose proof (byte_at_u8 _ _ _ Hb Hbyte) as Hb8.
  pose proof (or_one_put w b (idx mod (8 / w)) Hw Hb8 Hm Hz) as Hput.
  destruct (set_sub_write block idx w 1) as (b' & Hset & (b0 & Hb0 & Hw1)); [done..|].
  exists b'. split; [done|]. unfold or_byte. rewrite Hbyte. cbn [or_panic obind]. rewrite Hput.
  rewrite Hbyte in Hb0. injection Hb0 as <-.
  rewrite (stored_small w 1 Hvw ltac:(lia)) in Hw1. unfold set_byte. by rewrite Hw1.
Qed.

Lemma set_one_set block idx w : is_bytes block -> slice_fits block -> valid_width w -> in_block block idx w ->
  read_refcount_in_block block idx w = Ok 0 ->
  exists b, set_refcount_in_block block idx w 1 = Ok b /\ set_refcount_to_one block idx w = Ok b.
Proof.
  intros Hb Hf Hw Hin Hz. destruct (valid_width_cases w Hw) as [Hs|(n & Hn & ->)].
  - destruct (or_byte_set block idx w Hb Hs Hin Hz) as (b & Hset & Hor). exists b. split; [done|].
    rewrite !elem_of_cons in Hs. destruct_or! Hs; subst; [| | |by apply elem_of_nil in Hs]; cbn [set_refcount_to_one].
    + change (8 / 1) with 8 in Hor. by rewrite Z.mul_1_l in Hor.
    + exact Hor.
    + change (8 / 4) with 2 in Hor. unfold is_multiple_of. change (2 =? 0) with false. cbv iota.
      pose proof (Z.mod_pos_bound idx 2 ltac:(lia)). destruct (Z.eqb_spec (idx mod 2) 0) as [E|E].
      * by rewrite E in Hor.
      * by replace (idx mod 2) with 1 in Hor by lia.
  - destruct (set_refcount_spec block idx _ 1 Hb Hf Hw Hin) as (b & Hset & _). exists b. split; [done|].
    rewrite (set_multi_val block idx n _ 1 Hn eq_refl Hf Hin) in Hset. destruct Hin as [Hidx Hin]. unfold slice_fits in Hf.
    destruct (splice block (idx * Z.of_nat n) (be_bytes n 1)) as [b'|] eqn:Hsp; [|done]. injection Hset as ->.
    rewrite !elem_of_cons in Hn. destruct_or! Hn; subst; [| | | |by apply elem_of_nil in Hn].
    + change (set_refcount_to_one block idx (8 * Z.of_nat 1)) with (or_panic (E := Qcow2CreateError) (splice block idx [1])).
      rewrite Z.mul_1_r in Hsp. change (be_bytes 1 1) with [1] in Hsp. by rewrite Hsp.
    + change (set_refcount_to_one block idx (8 * Z.of_nat 2)) with (or_panic (E := Qcow2CreateError) (splice block (wmul idx 2) (be_bytes 2 1))).
      rewrite wmul_small by (unfold u64_max; lia). exact (f_equal or_panic Hsp).
    + change (set_refcount_to_one block idx (8 * Z.of_nat 4)) with (or_panic (E := Qcow2CreateError) (splice block (wmul idx 4) (be_bytes 4 1))).
      rewrite wmul_small by (unfold u64_max; lia). exact (f_equal or_panic Hsp).
    + change (set_refcount_to_one block idx (8 * Z.of_nat 8)) with (or_panic (E := Qcow2CreateError) (splice block (wmul idx 8) (be_bytes 8 1))).
      rewrite wmul_small by (unfold u64_max; lia). exact (f_equal or_panic Hsp).
Qed.

(** The claim loop turns a run of free entries into ones. *)
Lemma set_ones_spec n i w s : is_bytes s -> 8 * blen s <= u64_max -> valid_width w -> 0 <= i -> (i + Z.of_nat n) * w <= 8 * blen s ->
  (forall j, i <= j < i + Z.of_nat n -> read_refcount_in_block s j w = Ok 0) ->
  exists s', set_ones n i w s = Ok s' /\ is_bytes s' /\ blen s' = blen s /\
    forall j, in_block s j w -> read_refcount_in_block s' j w =
      if (i <=? j) && (j <? i + Z.of_nat n) then Ok 1 else read_refcount_in_block s j w.
Proof.
  intros Hb Hf Hw. pose proof (valid_width_range w Hw) as Hw1. revert i s Hb Hf.
  induction n as [|n IH]; intros i s Hb Hf Hi Hl Hz; cbn [set_ones].
  - exists s. split_and!; try done. intros j _. destruct (Z.leb_spec i j), (Z.ltb_spec j (i + Z.of_nat 0)); done || lia.
  - assert (in_block s i w) as Hin by (split; [done|nia]).
    assert (slice_fits s) as Hfs by (unfold slice_fits, u64_max in *; lia).
    destruct (set_one_set s i w Hb Hfs Hw Hin (Hz i ltac:(lia))) as (s1 & Hset & ->). cbn [obind].
    destruct (set_refcount_spec s i w 1 Hb Hfs Hw Hin) as (s1' & Hset' & Hl1 & Hb1 & Hr1).
    rewrite Hset in Hset'. injection Hset' as <-. rewrite wadd_small by nia.
    destruct (IH (i + 1) s1 Hb1) as (s' & -> & Hb' & Hl' & Hr); try lia; try nia.
    { intros j Hj. rewrite Hr1 by (split; nia). destruct (Z.eqb_spec j i); [lia|]. apply Hz. lia. }
    exists s'. split_and!; [done | done | lia|]. intros j Hj. rewrite Hr, Hr1 by (unfold in_block in *; rewrite ?Hl1; done).
    destruct (Z.eqb_spec j i) as [->|Hne].
    + destruct (Z.leb_spec (i + 1) i), (Z.leb_spec i i), (Z.ltb_spec i (i + Z.of_nat (S n))); try lia. cbn [andb].
      f_equal. apply stored_small; [done|]. split; [lia|]. apply (Z.lt_le_trans _ (2 ^ 1)); [done|]. apply Z.pow_le_mono_r; lia.
    + destruct (Z.leb_spec (i + 1) j), (Z.ltb_spec j (i + 1 + Z.of_nat n)), (Z.leb_spec i j), (Z.ltb_spec j (i + Z.of_nat (S n)));
        done || lia.
Qed.

(** ** The builders on a layout *)

Lemma copied_u64 x : 0 <= x < 2 ^ 63 -> is_u64 (Z.lor x OFLAG_COPIED).
Proof.
  intros Hx. pose proof (lor_low_add 1 x 63 ltac:(lia) Hx) as H.
  change (Z.shiftl 1 63) with OFLAG_COPIED in H. rewrite Z.lor_comm, H. change (2 ^ 63) with 9223372036854775808 in *.
  unfold is_u64, u64_max. lia.
Qed.

Section built.
Context (l : Qcow2Layout) (Hl : layout_ok l) (Hbd : layout_bounds l).

Definition epb : Z := ly_cluster_size l * 8 / ly_refcount_bits l.
Definition epl : Z := ly_cluster_size l / 8.

Lemma offsets_bound : 0 <= ly_l1_offset l <= ly_refcount_table_offset l /\
  ly_refcount_table_offset l <= ly_refcount_blocks_base_offset l <= ly_l2_base_offset l /\
  ly_l2_base_offset l <= ly_data_base_offset l <= ly_total_file_size l /\ ly_total_file_size l < 9223372036854775808.
Proof.
  pose proof Hbd as [Hcs H1 H1c Hrt Hrb H2 Hd Hf]. change (2 ^ 63) with 9223372036854775808 in Hf.
  rewrite (lo_end l Hl), (lo_data_off l Hl), (lo_l2_off l Hl), (lo_rb_off l Hl), (lo_rt_off l Hl), (lo_l1_off l Hl) in *.
  assert (0 <= ly_l1_clusters l * ly_cluster_size l) by (apply Z.mul_nonneg_nonneg; lia).
  assert (0 <= ly_refcount_table_clusters l * ly_cluster_size l) by (apply Z.mul_nonneg_nonneg; lia).
  assert (0 <= ly_refcount_block_count l * ly_cluster_size l) by (apply Z.mul_nonneg_nonneg; lia).
  assert (0 <= ly_l2_clusters l * ly_cluster_size l) by (apply Z.mul_nonneg_nonneg; lia).
  assert (0 <= ly_data_clusters l * ly_cluster_size l) by (apply Z.mul_nonneg_nonneg; lia).
  lia.
Qed.

(** Cluster [i] of a region of [n] clusters from [base] ends inside the file. *)
Lemma region_bound base n i : base + n * ly_cluster_size l <= ly_total_file_size l -> 0 <= base -> 0 <= i < n ->
  0 <= i * ly_cluster_size l /\ base + i * ly_cluster_size l + ly_cluster_size l <= ly_total_file_size l.
Proof.
  intros Hn Hb Hi. pose proof (lb_cs l Hbd). split; [apply Z.mul_nonneg_nonneg; lia|].
  assert ((i + 1) * ly_cluster_size l <= n * ly_cluster_size l) by (apply Z.mul_le_mono_nonneg_r; lia). lia.
Qed.

Lemma blocks_region : ly_refcount_blocks_base_offset l + ly_refcount_block_count l * ly_cluster_size l <= ly_total_file_size l.
Proof. pose proof offsets_bound. rewrite <- (lo_l2_off l Hl). lia. Qed.

Lemma l2_region : ly_l2_base_offset l + ly_l2_clusters l * ly_cluster_size l <= ly_total_file_size l.
Proof. pose proof offsets_bound. rewrite <- (lo_data_off l Hl). lia. Qed.

Lemma data_region : ly_data_base_offset l + ly_data_clusters l * ly_cluster_size l <= ly_total_file_size l.
Proof. rewrite <- (lo_end l Hl). lia. Qed.

Lemma build_refcount_table_spec buf : ly_refcount_table_clusters l * ly_cluster_size l <= blen buf ->
  exists t, build_refcount_table buf l = Ok t /\ is_bytes t /\ blen t = ly_refcount_table_clusters l * ly_cluster_size l /\
    forall j, 0 <= j -> (j + 1) * 8 <= blen t ->
      u64_at t (8 * j) = if j <? ly_refcount_block_count l
                         then ly_refcount_blocks_base_offset l + j * ly_cluster_size l else 0.
Proof.
  intros Hbuf. pose proof offsets_bound as Ho. pose proof blocks_region as Hreg. pose proof Hbd as [Hcs _ _ Hrt Hrb _ _ _].
  assert (ly_refcount_table_clusters l * ly_cluster_size l <= ly_total_file_size l) as Hsz.
  { pose proof (lo_rb_off l Hl). lia. }
  assert (0 <= ly_refcount_table_clusters l * ly_cluster_size l) by (apply Z.mul_nonneg_nonneg; lia).
  assert (ly_refcount_block_count l * 8 <= ly_refcount_table_clusters l * ly_cluster_size l) as Hfit.
  { destruct (lo_fixed l Hl) as [_ Ht]. destruct (div_ceil_spec (ly_refcount_block_count l * 8) (ly_cluster_size l) ltac:(lia)) as [Hge _].
    rewrite <- Ht in Hge. lia. }
  unfold build_refcount_table. rewrite (wmul_small (ly_refcount_table_clusters l)) by (unfold u64_max; lia).
  destruct (Z.ltb_spec (blen buf) (ly_refcount_table_clusters l * ly_cluster_size l)); [lia|].
  assert (forall j, 0 <= j < ly_refcount_block_count l ->
    wadd (ly_refcount_blocks_base_offset l) (wmul j (ly_cluster_size l)) = ly_refcount_blocks_base_offset l + j * ly_cluster_size l /\
    is_u64 (ly_refcount_blocks_base_offset l + j * ly_cluster_size l)) as He.
  { intros j Hj. destruct (region_bound _ _ j Hreg ltac:(lia) Hj). unfold is_u64.
    rewrite wmul_small, wadd_small by (unfold u64_max; lia). split; [done|]. unfold u64_max. lia. }
  destruct (fill_table (Z.to_nat (ly_refcount_block_count l))
    (fun i => wadd (ly_refcount_blocks_base_offset l) (wmul i (ly_cluster_size l)))
    (ly_refcount_table_clusters l * ly_cluster_size l)) as (t & Hf & Hb & Hlen & Hr); [lia | lia| |].
  { intros j Hj. cbv beta. destruct (He j ltac:(lia)) as [-> Hu]. done. }
  exists t. rewrite Hf. split_and!; try done. intros j Hj Hjl. rewrite Hr, Z2Nat.id by lia.
  destruct (Z.ltb_spec j (ly_refcount_block_count l)); [|done]. by apply He.
Qed.

Lemma build_l1_table_spec buf : ly_l1_clusters l * ly_cluster_size l <= blen buf ->
  exists t, build_l1_table buf l = Ok t /\ is_bytes t /\ blen t = ly_l1_clusters l * ly_cluster_size l /\
    forall j, 0 <= j -> (j + 1) * 8 <= blen t ->
      u64_at t (8 * j) = if j <? ly_l2_clusters l
                         then Z.lor (ly_l2_base_offset l + j * ly_cluster_size l) OFLAG_COPIED else 0.
Proof.
  intros Hbuf. pose proof offsets_bound as Ho. pose proof l2_region as Hreg. pose proof Hbd as [Hcs H1 H1c _ _ H2 _ _].
  assert (ly_l1_clusters l * ly_cluster_size l <= ly_total_file_size l) as Hsz by (pose proof (lo_rt_off l Hl); lia).
  assert (0 <= ly_l1_clusters l * ly_cluster_size l) by (apply Z.mul_nonneg_nonneg; lia).
  assert (ly_l1_entries l * 8 <= ly_l1_clusters l * ly_cluster_size l) as Hfit.
  { destruct (div_ceil_spec (ly_l1_entries l * 8) (ly_cluster_size l) ltac:(lia)) as [Hge _].
    rewrite <- (lo_l1c l Hl) in Hge. lia. }
  unfold build_l1_table. rewrite (wmul_small (ly_l1_clusters l)) by (unfold u64_max; lia).
  destruct (Z.ltb_spec (blen buf) (ly_l1_clusters l * ly_cluster_size l)); [lia|].
  pose proof (lo_l2c l Hl) as Hl2c. destruct (populates_data_metadata (ly_preallocation l)).
  - assert (forall j, 0 <= j < ly_l1_entries l ->
      wadd (ly_l2_base_offset l) (wmul j (ly_cluster_size l)) = ly_l2_base_offset l + j * ly_cluster_size l /\
      0 <= ly_l2_base_offset l + j * ly_cluster_size l < 2 ^ 63) as He.
    { intros j Hj. rewrite <- Hl2c in Hj. destruct (region_bound _ _ j Hreg ltac:(lia) Hj).
      rewrite wmul_small, wadd_small by (unfold u64_max; lia). split; [done|]. change (2 ^ 63) with 9223372036854775808. lia. }
    destruct (fill_table (Z.to_nat (ly_l1_entries l))
      (fun i => Z.lor (wadd (ly_l2_base_offset l) (wmul i (ly_cluster_size l))) OFLAG_COPIED)
      (ly_l1_clusters l * ly_cluster_size l)) as (t & Hf & Hb & Hlen & Hr); [lia | lia| |].
    { intros j Hj. cbv beta. destruct (He j ltac:(lia)) as [-> Hu]. by apply copied_u64. }
    exists t. rewrite Hf. split_and!; try done. intros j Hj Hjl. rewrite Hr, Z2Nat.id by lia. rewrite Hl2c.
    destruct (Z.ltb_spec j (ly_l1_entries l)); [|done]. by destruct (He j ltac:(lia)) as [-> _].
  - exists (filled (ly_l1_clusters l * ly_cluster_size l) 0). rewrite blen_filled by lia.
    split_and!; [done | by apply filled_is_bytes | done|]. intros j Hj Hjl. rewrite u64_at_filled by lia.
    destruct (Z.ltb_spec j (ly_l2_clusters l)); [lia|done].
Qed.

(** The guest's clusters of L2 table [i]. *)
Lemma build_l2_table_spec buf i : ly_cluster_size l <= blen buf -> 0 <= i < ly_l2_clusters l ->
  exists t, build_l2_table buf l i = Ok t /\ is_bytes t /\ blen t = ly_cluster_size l /\
    forall j, 0 <= j < epl ->
      u64_at t (8 * j) = if i * epl + j <? ly_data_clusters l
                         then Z.lor (ly_data_base_offset l + (i * epl + j) * ly_cluster_size l) OFLAG_COPIED else 0.
Proof.
  intros Hbuf Hi. pose proof offsets_bound as Ho. pose proof data_region as Hreg. pose proof Hbd as [Hcs H1 _ _ _ H2 Hd _].
  unfold build_l2_table. destruct (Z.ltb_spec (blen buf) (ly_cluster_size l)); [lia|].
  pose proof (lo_l2c l Hl) as Hl2c. pose proof (cr_ext _ _ _ _ _ (lo_request l Hl)) as Hext.
  destruct (populates_data_metadata (ly_preallocation l)); [|lia]. rewrite andb_true_r in Hext. rewrite Hext. cbn [negb].
  destruct (Z.leb_spec (ly_l1_entries l) i); [lia|]. fold epl.
  change (2 ^ 21) with 2097152 in Hcs. change (2 ^ 22) with 4194304 in *. change (2 ^ 40) with 1099511627776 in Hd.
  assert (0 < epl <= 262144) as Hepl.
  { unfold epl. split; [apply Z.div_str_pos; lia | apply Z.div_le_upper_bound; lia]. }
  assert (epl * 8 <= ly_cluster_size l) as Hfit by (unfold epl; pose proof (Z.mul_div_le (ly_cluster_size l) 8 ltac:(lia)); lia).
  assert (0 <= i * epl <= 4194304 * 262144) as Hfirst by (split; [apply Z.mul_nonneg_nonneg; lia | apply Z.mul_le_mono_nonneg; lia]).
  rewrite (wmul_small i epl) by (unfold u64_max; lia). set (first := i * epl) in *.
  destruct (Z.leb_spec (ly_data_clusters l) first).
  { exists (filled (ly_cluster_size l) 0). rewrite blen_filled by lia. split_and!; [done | by apply filled_is_bytes | done|].
    intros j Hj. rewrite u64_at_filled by lia. destruct (Z.ltb_spec (first + j) (ly_data_clusters l)); [lia|done]. }
  rewrite (wsub_small _ first) by (unfold u64_max; lia).
  set (n := if ly_data_clusters l - first <? epl then ly_data_clusters l - first else epl).
  assert (0 <= n <= epl /\ forall j, 0 <= j < epl -> j < n <-> first + j < ly_data_clusters l) as [Hn Hjn].
  { unfold n. destruct (Z.ltb_spec (ly_data_clusters l - first) epl); split; intros; lia. }
  assert (forall j, 0 <= j < n ->
    wadd (ly_data_base_offset l) (wmul (wadd first j) (ly_cluster_size l)) = ly_data_base_offset l + (first + j) * ly_cluster_size l /\
    0 <= ly_data_base_offset l + (first + j) * ly_cluster_size l < 2 ^ 63) as He.
  { intros j Hj. assert (0 <= first + j < ly_data_clusters l) as Hc by (split; [lia|]; apply Hjn; lia).
    destruct (region_bound _ _ (first + j) Hreg ltac:(lia) Hc). rewrite (wadd_small first j) by (unfold u64_max; lia).
    rewrite wmul_small, wadd_small by (unfold u64_max; lia). split; [done|]. change (2 ^ 63) with 9223372036854775808. lia. }
  destruct (fill_table (Z.to_nat n)
    (fun j => Z.lor (wadd (ly_data_base_offset l) (wmul (wadd first j) (ly_cluster_size l))) OFLAG_COPIED)
    (ly_cluster_size l)) as (t & Hf & Hb & Hlen & Hr); [lia | lia| |].
  { intros j Hj. cbv beta. destruct (He j ltac:(lia)) as [-> Hu]. by apply copied_u64. }
  exists t. rewrite Hf. split_and!; try done. intros j Hj. rewrite Hr, Z2Nat.id by lia.
  destruct (Z.ltb_spec j n) as [Hlt|Hge], (Z.ltb_spec (first + j) (ly_data_clusters l)) as [Hlt'|Hge']; try done.
  - by destruct (He j ltac:(lia)) as [-> _].
  - apply (Hjn j Hj) in Hlt. lia.
  - apply (Hjn j Hj) in Hlt'. lia.
Qed.

Lemma epb_bounds : 64 <= epb <= 16777216 /\ epb * ly_refcount_bits l <= 8 * ly_cluster_size l /\ 1 <= ly_refcount_bits l <= 64.
Proof.
  pose proof (cr_rbits _ _ _ _ _ (lo_request l Hl)) as Hw. pose proof (valid_width_range _ Hw) as Hr.
  split; [exact (entries_per_block_bounds _ _ (lb_cs l Hbd) Hw)|]. split; [|done].
  unfold epb. pose proof (Z.mul_div_le (ly_cluster_size l * 8) (ly_refcount_bits l) ltac:(lia)). lia.
Qed.

(** The blocks have an entry for every cluster. *)
Lemma blocks_cover : ly_total_clusters l <= ly_refcount_block_count l * epb.
Proof.
  destruct (lo_fixed l Hl) as [Hf _]. destruct (epb_bounds) as (He & _).
  destruct (div_ceil_spec (1 + ly_l1_clusters l + ly_l2_clusters l + ly_data_clusters l + ly_refcount_table_clusters l + ly_refcount_block_count l)
    epb ltac:(lia)) as [Hge _]. unfold epb in Hge at 1. rewrite <- Hf in Hge. rewrite (lo_total l Hl). lia.
Qed.

Lemma build_refcount_block_spec buf k : ly_cluster_size l <= blen buf -> 0 <= k < ly_refcount_block_count l ->
  exists b, build_refcount_block buf l k = Ok b /\ is_bytes b /\ blen b = ly_cluster_size l /\
    forall j, 0 <= j < epb ->
      read_refcount_in_block b j (ly_refcount_bits l) = Ok (if k * epb + j <? ly_total_clusters l then 1 else 0).
Proof.
  intros Hbuf Hk. destruct epb_bounds as (He & Hfit & Hw). pose proof Hbd as [Hcs H1 H1c Hrt Hrb H2 Hd _].
  pose proof (lo_total l Hl) as Htot. change (2 ^ 21) with 2097152 in Hcs. change (2 ^ 36) with 68719476736 in *.
  change (2 ^ 22) with 4194304 in *. change (2 ^ 40) with 1099511627776 in Hd. change (2 ^ 17) with 131072 in *.
  unfold build_refcount_block. destruct (Z.ltb_spec (blen buf) (ly_cluster_size l)); [lia|].
  rewrite (wmul_small _ 8) by (unfold u64_max; lia). unfold udiv. rewrite (proj2 (Z.eqb_neq (ly_refcount_bits l) 0)) by lia.
  cbn [obind]. fold epb.
  assert (0 <= k * epb <= 68719476736 * 16777216) as Hfirst by (split; [apply Z.mul_nonneg_nonneg; lia | apply Z.mul_le_mono_nonneg; lia]).
  rewrite (wmul_small k epb) by (unfold u64_max; lia). set (first := k * epb) in *.
  assert (forall j, 0 <= j < epb -> in_block (filled (ly_cluster_size l) 0) j (ly_refcount_bits l)) as Hin.
  { intros j Hj. split; [lia|]. rewrite blen_filled by lia. nia. }
  pose proof (cr_rbits _ _ _ _ _ (lo_request l Hl)) as Hvw.
  destruct (Z.leb_spec (ly_total_clusters l) first).
  { exists (filled (ly_cluster_size l) 0). rewrite blen_filled by lia. split_and!; [done | by apply filled_is_bytes | done|].
    intros j Hj. rewrite zero_refcount by (try apply Hin; done || lia).
    destruct (Z.ltb_spec (first + j) (ly_total_clusters l)); [lia|done]. }
  rewrite (wsub_small _ first) by (unfold u64_max; lia).
  set (n := if ly_total_clusters l - first <? epb then ly_total_clusters l - first else epb).
  assert (0 <= n <= epb /\ forall j, 0 <= j < epb -> j < n <-> first + j < ly_total_clusters l) as [Hn Hjn].
  { unfold n. destruct (Z.ltb_spec (ly_total_clusters l - first) epb); split; intros; lia. }
  destruct (set_ones_spec (Z.to_nat n) 0 (ly_refcount_bits l) (filled (ly_cluster_size l) 0)) as (b & Hs & Hb & Hlen & Hr).
  - by apply filled_is_bytes.
  - rewrite blen_filled; unfold u64_max; lia.
  - done.
  - done.
  - rewrite blen_filled by lia. rewrite Z2Nat.id, Z.add_0_l by lia.
    apply (Z.le_trans _ (epb * ly_refcount_bits l)); [apply Z.mul_le_mono_nonneg_r; lia | done].
  - intros j Hj. apply zero_refcount; [done | lia|]. apply Hin. lia.
  - rewrite blen_filled in Hlen by lia. exists b. split_and!; try done. intros j Hj. rewrite Hr by by apply Hin.
    rewrite Z.add_0_l, Z2Nat.id by lia. destruct (Z.leb_spec 0 j); [|lia]. cbn [andb].
    rewrite zero_refcount by (try apply Hin; done || lia).
    destruct (Z.ltb_spec j n) as [Hlt|Hge], (Z.ltb_spec (first + j) (ly_total_clusters l)) as [Hlt'|Hge']; try done.
    + apply (Hjn j Hj) in Hlt. lia.
    + apply (Hjn j Hj) in Hlt'. lia.
Qed.

End built.
