(* ===== verification/CreateHeader.v ===== *)
(** The header cluster of a fresh image ([build_header] of
    [src/src/crates/qcow2/src/create.rs]) and what the parser reads back from it. *)

From stdpp Require Import base numbers list sets option.
From Stdlib Require Import ZArith Lia.
From S2P Require Import Prelude Bytes Refcount Qcow2 SnapshotWalk ExecBytes Header SnapTable Create CreateProps.

(** ** Fields *)

Lemma u32_get f off v : slice f off (off + blen (be_bytes 4 v)) = Some (be_bytes 4 v) -> is_u32 v -> u32_at f off = v.
Proof.
  rewrite blen_be_bytes. change (Z.of_nat 4) with 4. intros Hs Hv. unfold u32_at. rewrite Hs. cbn [from_option].
  apply be_val_bytes. unfold is_u32, u32_max in Hv. change (256 ^ Z.of_nat 4) with 4294967296. lia.
Qed.

Lemma u64_get f off v : slice f off (off + blen (be_bytes 8 v)) = Some (be_bytes 8 v) -> is_u64 v -> u64_at f off = v.
Proof.
  rewrite blen_be_bytes. change (Z.of_nat 8) with 8. intros Hs Hv. unfold u64_at. rewrite Hs. cbn [from_option].
  apply be_val_bytes. unfold is_u64, u64_max in Hv. change (256 ^ Z.of_nat 8) with 18446744073709551616. lia.
Qed.

Lemma u32_at_filled n off : 0 <= off -> off + 4 <= n -> u32_at (filled n 0) off = 0.
Proof. intros Ho Hn. unfold u32_at. rewrite slice_filled by lia. by replace (off + 4 - off) with 4 by lia. Qed.

Lemma fixed_ascending opts : ascending 0 (fixed_fields opts).
Proof. unfold fixed_fields. cbn [ascending]. rewrite !blen_be_bytes. repeat (split; [lia|]). done. Qed.

Lemma fixed_ranges opts : Forall (fun w => (0 <= w.1 /\ w.1 + blen w.2 <= 8 \/ 20 <= w.1 /\ w.1 + blen w.2 <= 104) /\ is_bytes w.2)
  (fixed_fields opts).
Proof.
  unfold fixed_fields. repeat (apply Forall_cons_2; [cbn [fst snd]; rewrite blen_be_bytes; split; [lia | apply be_bytes_is_bytes]|]).
  apply Forall_nil_2.
Qed.

(** ** Extensions *)

(** Bytes each part takes after the fixed header. *)
Definition format_len (opts : BuildHeaderOptions) : Z :=
  match bh_backing_format opts with Some fmt => 8 + round8 (blen fmt) | None => 0 end.
Definition luks_len (opts : BuildHeaderOptions) : Z :=
  match bh_luks_header opts with Some _ => 24 | None => 0 end.
Definition path_offset (opts : BuildHeaderOptions) : Z := 104 + format_len opts + luks_len opts + 8.
Definition path_len (opts : BuildHeaderOptions) : Z := from_option blen 0 (bh_backing_file opts).

(** The first byte after the fixed header: of the first extension, or of the
    terminator. *)
Definition first_ext_byte (opts : BuildHeaderOptions) : Z :=
  match bh_backing_format opts, bh_luks_header opts with
  | Some _, _ => 226
  | None, Some _ => 5
  | None, None => 0
  end.

(** [hdr'] is [hdr] with bytes written only from [ext] on. *)
Record extended (hdr hdr' : bytes) (ext : Z) : Prop := {
  ex_len : blen hdr' = blen hdr;
  ex_bytes : is_bytes hdr';
  ex_frame : forall a b, b <= ext -> slice hdr' a b = slice hdr a b
}.

(** The word at the start of an extension and its first byte. *)
Definition word_at (hdr : bytes) (ext v : Z) : Prop := slice hdr ext (ext + blen (be_bytes 4 v)) = Some (be_bytes 4 v).

Lemma word_first_byte hdr ext v : word_at hdr ext v -> byte_at hdr ext = byte_at (be_bytes 4 v) 0.
Proof.
  intros Hw. unfold word_at in Hw. rewrite blen_be_bytes in Hw. rewrite (slice_byte _ _ _ _ 0 Hw) by lia. f_equal. lia.
Qed.

(** An extension: ascending writes from [ext] on that fit the header. *)
Lemma put_extends hdr ext v ws : is_bytes hdr -> 0 <= ext -> ascending ext ((ext, be_bytes 4 v) :: ws) ->
  Forall (fun w => w.1 + blen w.2 <= blen hdr /\ is_bytes w.2) ((ext, be_bytes 4 v) :: ws) ->
  exists hdr', put (E := Qcow2CreateError) hdr ((ext, be_bytes 4 v) :: ws) = Ok hdr' /\ extended hdr hdr' ext /\ word_at hdr' ext v.
Proof.
  intros Hb H0 Ha Hws. pose proof (ascending_above _ _ Ha) as Habove. set (l := _ :: ws) in *.
  destruct (apply_writes_ok hdr l Hb) as (hdr' & Hp & Hl & Hb').
  { rewrite Forall_forall in *. intros w Hw. specialize (Hws w Hw). specialize (Habove w Hw). split_and!; try apply Hws. cbn in *. lia. }
  exists hdr'. unfold put. rewrite Hp. split; [done|]. split.
  - split; try done. intros a b Hab. eapply apply_writes_frame; [exact Hp|].
    eapply Forall_impl; [|exact Habove]. cbn. intros w Hw. left. lia.
  - eapply apply_writes_get; [exact Ha | exact Hp | by apply list_elem_of_here].
Qed.

Ltac ext_writes :=
  first [ progress (cbn [ascending]; rewrite ?blen_be_bytes); repeat (split; [lia|]); exact I
        | repeat (apply Forall_cons_2; [cbn [fst snd]; rewrite ?blen_be_bytes; split; [lia | assumption || apply be_bytes_is_bytes]|]);
          apply Forall_nil_2 ].

Section extensions.
Context (cs : Z) (Hcs : 512 <= cs <= 2097152).

Lemma put_backing_format_spec fmt hdr ext : is_bytes hdr -> blen hdr = cs -> 104 <= ext <= cs -> is_bytes fmt -> slice_fits fmt ->
  if ext + 8 + round8 (blen fmt) <=? cs then
    exists hdr', put_backing_format cs (Some fmt) hdr ext = Ok (hdr', ext + (8 + round8 (blen fmt))) /\
                 extended hdr hdr' ext /\ word_at hdr' ext EXT_BACKING_FORMAT
  else put_backing_format cs (Some fmt) hdr ext = Err BackingMetadataTooLarge.
Proof.
  intros Hb Hl He Hbf Hf. unfold put_backing_format, slice_fits in *. pose proof (blen_nonneg fmt).
  destruct (round8_spec (blen fmt)) as [Hr _].
  rewrite (wadd_small (blen fmt) 7) by (unfold u64_max; lia). rewrite land_not7 by (unfold u64_max; lia).
  change ((blen fmt + 7) / 8 * 8) with (round8 (blen fmt)). set (r := round8 (blen fmt)) in *.
  rewrite (wadd_small ext 8), (wadd_small (ext + 8) r), (wadd_small ext 4), (wadd_small 8 r), (wadd_small ext (8 + r)) by (unfold u64_max; lia).
  destruct (Z.leb_spec (ext + 8 + r) cs), (Z.ltb_spec cs (ext + 8 + r)); try lia; [|done].
  edestruct (put_extends hdr ext) as (hdr' & -> & Hx & Hword); [done | lia | ext_writes | rewrite Hl; ext_writes|].
  cbn [obind]. by exists hdr'.
Qed.

Lemma put_luks_header_spec lo ln hdr ext : is_bytes hdr -> blen hdr = cs -> 104 <= ext <= cs ->
  if ext + 24 <=? cs then
    exists hdr', put_luks_header cs (Some (lo, ln)) hdr ext = Ok (hdr', ext + 24) /\
                 extended hdr hdr' ext /\ word_at hdr' ext EXT_ENCRYPT_HEADER
  else put_luks_header cs (Some (lo, ln)) hdr ext = Err BackingMetadataTooLarge.
Proof.
  intros Hb Hl He. unfold put_luks_header. change (wadd 8 16) with 24.
  rewrite (wadd_small ext 8), (wadd_small (ext + 8) 16), (wadd_small ext 4), (wadd_small ext 16), (wadd_small ext 24) by (unfold u64_max; lia).
  destruct (Z.leb_spec (ext + 24) cs), (Z.ltb_spec cs (ext + 8 + 16)); try lia; [|done].
  edestruct (put_extends hdr ext) as (hdr' & -> & Hx & Hword); [done | lia | ext_writes | rewrite Hl; ext_writes|].
  cbn [obind]. by exists hdr'.
Qed.

Lemma put_ext_end_spec hdr ext : is_bytes hdr -> blen hdr = cs -> 104 <= ext <= cs ->
  if ext + 8 <=? cs then
    exists hdr', put_ext_end cs hdr ext = Ok (hdr', ext + 8) /\ extended hdr hdr' ext /\ word_at hdr' ext EXT_END
  else put_ext_end cs hdr ext = Err BackingMetadataTooLarge.
Proof.
  intros Hb Hl He. unfold put_ext_end, EXT_END_LEN.
  rewrite (wadd_small ext 8), (wadd_small ext 4) by (unfold u64_max; lia).
  destruct (Z.leb_spec (ext + 8) cs), (Z.ltb_spec cs (ext + 8)); try lia; [|done].
  edestruct (put_extends hdr ext) as (hdr' & -> & Hx & Hword); [done | lia | ext_writes | rewrite Hl; ext_writes|].
  cbn [obind]. by exists hdr'.
Qed.

End extensions.

Lemma extended_refl h ext : is_bytes h -> extended h h ext.
Proof. by split. Qed.

Lemma extended_trans h1 h2 h3 e e' : extended h1 h2 e -> extended h2 h3 e' -> e <= e' -> extended h1 h3 e.
Proof.
  intros [L1 B1 F1] [L2 B2 F2] Hle. split; [congruence | done|]. intros a b Hb. rewrite F2 by lia. by apply F1.
Qed.

Lemma word_kept h h' e e' v : word_at h e v -> extended h h' e' -> e + 4 <= e' -> word_at h' e v.
Proof. intros Hw [_ _ F] He. unfold word_at. rewrite F; [exact Hw|]. rewrite blen_be_bytes. lia. Qed.

(** The fields of a layout the header is built from. *)
Record header_fields_ok (l : Qcow2Layout) : Prop := {
  hf_bits : 9 <= ly_cluster_bits l <= 21;
  hf_cs : ly_cluster_size l = 2 ^ ly_cluster_bits l;
  hf_width : valid_width (ly_refcount_bits l);
  hf_vs : is_u64 (ly_virtual_size l);
  hf_l1 : 0 <= ly_l1_entries l <= QCOW2_MAX_L1_SIZE_ENTRIES;
  hf_needed : div_ceil (ly_virtual_size l) (l2_coverage_of (ly_cluster_bits l) (ly_extended_l2 l)) <= QCOW2_MAX_L1_SIZE_ENTRIES;
  hf_l1_offset : is_u64 (ly_l1_offset l);
  hf_table_offset : is_u64 (ly_refcount_table_offset l);
  hf_table : is_u32 (ly_refcount_table_clusters l)
}.

Lemma layout_header_fields l : layout_ok l -> layout_bounds l -> header_fields_ok l.
Proof.
  intros Hl Hbd. destruct (offsets_bound _ Hl Hbd) as (O1 & O2 & O3 & O4). pose proof Hbd as [Bcs Bl1 _ Brt Brb _ _ _].
  destruct (lo_request _ Hl) as [_ Hbits Hwid _ Hmax].
  change (2 ^ 22) with 4194304 in Bl1. change (2 ^ 36) with 68719476736 in Brb. change (2 ^ 21) with 2097152 in Bcs.
  split; [done | by apply lo_cs | done | by apply lo_vs | rewrite (lo_l1 _ Hl) in *; unfold QCOW2_MAX_L1_SIZE_ENTRIES in *; lia
         | exact Hmax | unfold is_u64, u64_max; lia | unfold is_u64, u64_max; lia|].
  destruct (lo_fixed _ Hl) as [_ Ht].
  pose proof (div_ceil_le (ly_refcount_block_count l * 8) (ly_cluster_size l) 1073741824 ltac:(lia) ltac:(nia)) as Hub.
  rewrite <- Ht in Hub. unfold is_u32, u32_max. lia.
Qed.

(** The byte strings a caller passes. *)
Record opts_ok (opts : BuildHeaderOptions) : Prop := {
  oo_layout : header_fields_ok (bh_layout opts);
  oo_path : forall p, bh_backing_file opts = Some p -> is_bytes p /\ slice_fits p;
  oo_format : forall f, bh_backing_format opts = Some f -> is_bytes f /\ slice_fits f
}.

Section header.
Context (opts : BuildHeaderOptions) (Ho : opts_ok opts).

Definition hcs : Z := ly_cluster_size (bh_layout opts).

Lemma hcs_bounds : 512 <= hcs <= 2097152.
Proof.
  unfold hcs. rewrite (hf_cs _ (oo_layout _ Ho)). exact (proj2 (cluster_size_pow _ (hf_bits _ (oo_layout _ Ho)))).
Qed.

(** The three extension steps, after the fixed header. *)
Definition put_extensions (hdr : bytes) : outcome Qcow2CreateError (bytes * Z) :=
  let? (hdr, ext_off) := put_backing_format hcs (bh_backing_format opts) hdr QCOW2_HEADER_LENGTH_V3 in
  let? (hdr, ext_off) := put_luks_header hcs (bh_luks_header opts) hdr ext_off in
  put_ext_end hcs hdr ext_off.

Lemma lens_nonneg : 0 <= format_len opts /\ 0 <= luks_len opts /\ 0 <= path_len opts.
Proof.
  unfold format_len, luks_len, path_len. split_and!; destruct_or?; try (destruct (bh_luks_header opts); lia).
  - destruct (bh_backing_format opts) as [f|]; [|lia]. destruct (round8_spec (blen f)). pose proof (blen_nonneg f). lia.
  - destruct (bh_backing_file opts); cbn; [apply blen_nonneg|lia].
Qed.

(** One step: [len] bytes from [ext] on whose first word is [v], or an error. *)
Definition step (m : outcome Qcow2CreateError (bytes * Z)) (hdr : bytes) (ext len v : Z) : Prop :=
  if ext + len <=? hcs then
    exists hdr', m = Ok (hdr', ext + len) /\ extended hdr hdr' ext /\ (0 < len -> 8 <= len /\ word_at hdr' ext v)
  else m = Err BackingMetadataTooLarge.

Lemma step_none hdr ext v : is_bytes hdr -> ext <= hcs -> step (Ok (hdr, ext)) hdr ext 0 v.
Proof.
  intros Hb He. unfold step. rewrite Z.add_0_r. destruct (Z.leb_spec ext hcs); [|lia].
  exists hdr. split; [done|]. split; [by apply extended_refl|lia].
Qed.

Lemma step_bind m k hdr ext l1 v1 l2 v2 : blen hdr = hcs -> 0 <= l1 -> 0 <= l2 -> step m hdr ext l1 v1 ->
  (forall h, is_bytes h -> blen h = hcs -> ext + l1 <= hcs -> step (k h (ext + l1)) h (ext + l1) l2 v2) ->
  step (let? (h, e) := m in k h e) hdr ext (l1 + l2) (if l1 =? 0 then v2 else v1).
Proof.
  intros Hl H1 H2 Hm Hk. unfold step in *. rewrite Z.add_assoc.
  destruct (Z.leb_spec (ext + l1) hcs) as [Hf|Hf]; [|subst m; destruct (Z.leb_spec (ext + l1 + l2) hcs); [lia|done]].
  destruct Hm as (h1 & -> & Hx & Hw). cbn [obind].
  specialize (Hk h1 (ex_bytes _ _ _ Hx) ltac:(rewrite (ex_len _ _ _ Hx); done) Hf).
  destruct (Z.leb_spec (ext + l1 + l2) hcs); [|done]. destruct Hk as (h2 & Hk & Hx2 & Hw2). exists h2. split; [done|].
  split; [eapply extended_trans; [exact Hx | exact Hx2 | lia]|]. intros Hpos. destruct (Z.eqb_spec l1 0) as [->|].
  - rewrite Z.add_0_r in *. by apply Hw2.
  - destruct (Hw ltac:(lia)) as [H8 Hw1]. split; [lia|]. eapply word_kept; [exact Hw1 | exact Hx2 | lia].
Qed.

Lemma format_step hdr ext : is_bytes hdr -> blen hdr = hcs -> 104 <= ext <= hcs ->
  step (put_backing_format hcs (bh_backing_format opts) hdr ext) hdr ext (format_len opts) EXT_BACKING_FORMAT.
Proof.
  intros Hb Hl He. unfold format_len. destruct (bh_backing_format opts) as [f|] eqn:Ef; [|by apply step_none; [|lia]].
  destruct (oo_format _ Ho f Ef) as [Hbf Hff]. destruct (round8_spec (blen f)) as [Hr _]. pose proof (blen_nonneg f).
  pose proof (put_backing_format_spec hcs hcs_bounds f hdr ext Hb Hl He Hbf Hff) as Hs.
  unfold step. rewrite Z.add_assoc. destruct (_ <=? _); [|done]. destruct Hs as (h1 & -> & ? & ?). exists h1. split_and!; try done.
  - by rewrite Z.add_assoc.
  - intros _. split; [lia|done].
Qed.

Lemma luks_step hdr ext : is_bytes hdr -> blen hdr = hcs -> 104 <= ext <= hcs ->
  step (put_luks_header hcs (bh_luks_header opts) hdr ext) hdr ext (luks_len opts) EXT_ENCRYPT_HEADER.
Proof.
  intros Hb Hl He. unfold luks_len. destruct (bh_luks_header opts) as [[lo ln]|]; [|by apply step_none; [|lia]].
  pose proof (put_luks_header_spec hcs hcs_bounds lo ln hdr ext Hb Hl He) as Hs.
  unfold step. destruct (_ <=? _); [|done]. destruct Hs as (h1 & -> & ? & ?). by exists h1.
Qed.

Lemma end_step hdr ext : is_bytes hdr -> blen hdr = hcs -> 104 <= ext <= hcs ->
  step (put_ext_end hcs hdr ext) hdr ext 8 EXT_END.
Proof.
  intros Hb Hl He. pose proof (put_ext_end_spec hcs hcs_bounds hdr ext Hb Hl He) as Hs.
  unfold step. destruct (_ <=? _); [|done]. destruct Hs as (h1 & -> & ? & ?). by exists h1.
Qed.

Lemma put_extensions_spec hdr : is_bytes hdr -> blen hdr = hcs ->
  if path_offset opts <=? hcs then
    exists hdr', put_extensions hdr = Ok (hdr', path_offset opts) /\ extended hdr hdr' 104 /\
                 byte_at hdr' 104 = Some (first_ext_byte opts)
  else put_extensions hdr = Err BackingMetadataTooLarge.
Proof.
  intros Hb Hl. pose proof hcs_bounds as Hcs. pose proof lens_nonneg as (Hf0 & Hl0 & _).
  assert (step (put_extensions hdr) hdr 104 (format_len opts + (luks_len opts + 8))
    (if format_len opts =? 0 then if luks_len opts =? 0 then EXT_END else EXT_ENCRYPT_HEADER else EXT_BACKING_FORMAT)) as Hs.
  { apply (step_bind _ (fun h e => let? (h, e) := put_luks_header hcs (bh_luks_header opts) h e in put_ext_end hcs h e)); try lia.
    - apply format_step; [done | done | lia].
    - intros h1 Hb1 Hl1 Hf1. apply (step_bind _ (put_ext_end hcs)); try lia.
      + apply luks_step; [done | done | lia].
      + intros h2 Hb2 Hl2 Hf2. apply end_step; [done | done | lia]. }
  unfold step in Hs. replace (104 + (format_len opts + (luks_len opts + 8))) with (path_offset opts) in Hs by (unfold path_offset; lia).
  destruct (_ <=? _); [|done]. destruct Hs as (h & -> & Hx & Hw). exists h. split; [done|]. split; [done|].
  destruct (Hw ltac:(lia)) as [_ Hword]. apply word_first_byte in Hword. rewrite Hword. unfold first_ext_byte, format_len, luks_len.
  destruct (bh_backing_format opts) as [f|].
  - destruct (round8_spec (blen f)) as [Hr _]. pose proof (blen_nonneg f). destruct (Z.eqb_spec (8 + round8 (blen f)) 0); [lia|done].
  - by destruct (bh_luks_header opts).
Qed.

(** The backing path, and the two fields that say where it is. *)
Lemma put_backing_file_spec hdr : is_bytes hdr -> blen hdr = hcs -> path_offset opts <= hcs ->
  if path_offset opts + path_len opts <=? hcs then
    exists h, put_backing_file hcs (bh_backing_file opts) hdr (path_offset opts) = Ok h /\ blen h = hcs /\ is_bytes h /\
      (forall a b, b <= 8 \/ 20 <= a /\ b <= path_offset opts -> slice h a b = slice hdr a b) /\
      (match bh_backing_file opts with
       | Some p => u64_at h 8 = path_offset opts /\ u32_at h 16 = blen p /\
                   slice h (path_offset opts) (path_offset opts + blen p) = Some p
       | None => h = hdr
       end)
  else put_backing_file hcs (bh_backing_file opts) hdr (path_offset opts) = Err BackingMetadataTooLarge.
Proof.
  intros Hb Hl Hfit. pose proof hcs_bounds as Hcs. pose proof lens_nonneg as (Hf0 & Hl0 & Hp0).
  assert (112 <= path_offset opts) as Hpo by (unfold path_offset; lia). unfold path_len in *.
  destruct (bh_backing_file opts) as [p|] eqn:Ep; cbn [from_option put_backing_file] in *.
  2:{ rewrite Z.add_0_r. destruct (Z.leb_spec (path_offset opts) hcs); [|lia]. by exists hdr. }
  destruct (oo_path _ Ho p Ep) as [Hbp Hfp]. unfold slice_fits in Hfp.
  rewrite wadd_small by (unfold u64_max; lia).
  destruct (Z.leb_spec (path_offset opts + blen p) hcs), (Z.ltb_spec hcs (path_offset opts + blen p)); try lia; [|done].
  assert (as_u32 (blen p) = blen p) as -> by (apply Z.mod_small; lia). unfold put. cbn [apply_writes].
  destruct (splice_of hdr (path_offset opts) p) as (h1 & E1 & L1); [lia | lia|]. rewrite E1. cbn [mbind option_bind].
  destruct (splice_of h1 8 (be_bytes 8 (path_offset opts))) as (h2 & E2 & L2); [lia | rewrite blen_be_bytes; lia|]. rewrite E2. cbn [mbind option_bind].
  destruct (splice_of h2 16 (be_bytes 4 (blen p))) as (h3 & E3 & L3); [lia | rewrite blen_be_bytes; lia|]. rewrite E3. cbn [mbind option_bind or_panic].
  exists h3. split; [done|]. split; [lia|]. split.
  { eapply splice_is_bytes; [|apply be_bytes_is_bytes | exact E3]. eapply splice_is_bytes; [|apply be_bytes_is_bytes | exact E2].
    exact (splice_is_bytes _ _ _ _ Hb Hbp E1). }
  split; [|split_and!].
  - intros a b Hab. rewrite (slice_splice_ne _ _ _ _ _ _ E3) by (rewrite blen_be_bytes; lia).
    rewrite (slice_splice_ne _ _ _ _ _ _ E2) by (rewrite blen_be_bytes; lia). apply (slice_splice_ne _ _ _ _ _ _ E1). lia.
  - rewrite (u64_at_same h2 h3 8) by (apply (slice_splice_ne _ _ _ _ _ _ E3); lia).
    apply (u64_at_put _ _ _ _ E2). unfold is_u64, u64_max. lia.
  - apply (u32_at_put _ _ _ _ E3). unfold is_u32, u32_max. lia.
  - rewrite (slice_splice_ne _ _ _ _ _ _ E3) by (rewrite blen_be_bytes; lia).
    rewrite (slice_splice_ne _ _ _ _ _ _ E2) by (rewrite blen_be_bytes; lia). apply (slice_splice_eq _ _ _ _ E1).
Qed.

(** The header as the parser reads the builder's output.  Two fields do not follow the
    request: the version is always 3, and the compression type is the byte at offset 104,
    which belongs to the first extension when there is one. *)
Definition created_header : QcowHeader :=
  let l := bh_layout opts in
  {| version := 3;
     header_length := 104;
     hdr_cluster_bits := ly_cluster_bits l;
     hdr_cluster_size := ly_cluster_size l;
     hdr_virtual_size := ly_virtual_size l;
     hdr_l1_size := ly_l1_entries l;
     hdr_l1_table_offset := ly_l1_offset l;
     backing_file_offset := match bh_backing_file opts with Some _ => path_offset opts | None => 0 end;
     backing_file_size := path_len opts;
     crypt_method := match bh_luks_header opts with Some _ => 2 | None => 0 end;
     hdr_refcount_table_offset := ly_refcount_table_offset l;
     hdr_refcount_table_clusters := ly_refcount_table_clusters l;
     hdr_refcount_bits := ly_refcount_bits l;
     incompatible_features := if ly_extended_l2 l then INCOMPAT_EXTENDED_L2 else 0;
     compatible_features := if bh_lazy_refcounts opts then COMPAT_LAZY_REFCOUNTS else 0;
     compression_type := first_ext_byte opts;
     nb_snapshots := 0;
     snapshots_offset := 0;
     hdr_dirty := false;
     hdr_corrupt := false;
     has_external_data := false;
     extended_l2 := ly_extended_l2 l;
     lazy_refcounts := bh_lazy_refcounts opts |}.

Lemma refcount_order_back w : valid_width w ->
  is_u32 (trailing_zeros w) /\ trailing_zeros w <= 6 /\ Z.shiftl 1 (trailing_zeros w) = w.
Proof.
  intros Hw. assert (forallb (fun w => (0 <=? trailing_zeros w) && (trailing_zeros w <=? 6) && (Z.shiftl 1 (trailing_zeros w) =? w))
    [1; 2; 4; 8; 16; 32; 64] = true) as Hall by (vm_compute; reflexivity).
  rewrite forallb_forall in Hall. specialize (Hall w ltac:(by apply list_elem_of_In)). bool_to_prop.
  split; [unfold is_u32, u32_max; lia | done].
Qed.

Lemma created_valid : header_valid created_header = true.
Proof.
  pose proof (oo_layout _ Ho) as Hl. pose proof (hf_bits _ Hl) as Hbits. pose proof (hf_needed _ Hl) as Hmax. pose proof (hf_l1 _ Hl).
  destruct (cluster_size_pow _ Hbits) as [_ Hcs]. pose proof (l2_entries_bounds _ (ly_extended_l2 (bh_layout opts)) Hbits) as Hepl.
  unfold header_valid, created_header.
  cbn [version hdr_cluster_bits hdr_l1_size hdr_virtual_size hdr_cluster_size extended_l2]. rewrite (hf_cs _ Hl).
  change (2 ^ ly_cluster_bits (bh_layout opts) / (if ly_extended_l2 (bh_layout opts) then 16 else 8))
    with (l2_entries_of (ly_cluster_bits (bh_layout opts)) (ly_extended_l2 (bh_layout opts))).
  change (2 ^ 21) with 2097152 in Hcs. change (2 ^ 18) with 262144 in Hepl.
  rewrite wmul_small by (unfold u64_max; nia). unfold l2_coverage_of in *.
  lia.
Qed.

(** A header cluster whose fields are the requested ones. *)
Lemma header_at_created h :
  (forall w, w ∈ fixed_fields opts -> slice h w.1 (w.1 + blen w.2) = Some w.2) ->
  slice h 60 64 = Some (filled 4 0) -> slice h 64 72 = Some (filled 8 0) -> byte_at h 104 = Some (first_ext_byte opts) ->
  (match bh_backing_file opts with
   | Some p => u64_at h 8 = path_offset opts /\ u32_at h 16 = blen p
   | None => u64_at h 8 = 0 /\ u32_at h 16 = 0
   end) ->
  header_at h = created_header.
Proof.
  intros Hw H60 H64 H104 Hpath. pose proof (oo_layout _ Ho) as Hl. destruct Hl as [Hbits Hcsz Hwid Hvs Hl1 _ Ho1 Ho2 Hrtu].
  destruct (refcount_order_back _ Hwid) as (Hz & Hz6 & Hback). unfold QCOW2_MAX_L1_SIZE_ENTRIES in Hl1.
  assert (as_u32 (ly_refcount_table_clusters (bh_layout opts)) = ly_refcount_table_clusters (bh_layout opts)) as Hrt32.
  { apply Z.mod_small. unfold is_u32, u32_max in Hrtu. lia. }
  assert (forall off v, (off, be_bytes 4 v) ∈ fixed_fields opts -> is_u32 v -> u32_at h off = v) as G4
    by (intros off v Hin; apply u32_get; exact (Hw _ Hin)).
  assert (forall off v, (off, be_bytes 8 v) ∈ fixed_fields opts -> is_u64 v -> u64_at h off = v) as G8
    by (intros off v Hin; apply u64_get; exact (Hw _ Hin)).
  unfold fixed_fields in G4, G8. rewrite Hrt32 in G4, G8. unfold header_at, created_header. offs.
  rewrite (G4 4 3), (G4 20 (ly_cluster_bits (bh_layout opts))), (G8 24 (ly_virtual_size (bh_layout opts))),
    (G4 32 (match bh_luks_header opts with Some _ => 2 | None => 0 end)), (G4 36 (ly_l1_entries (bh_layout opts))),
    (G8 40 (ly_l1_offset (bh_layout opts))), (G8 48 (ly_refcount_table_offset (bh_layout opts))),
    (G4 56 (ly_refcount_table_clusters (bh_layout opts))),
    (G8 72 (if ly_extended_l2 (bh_layout opts) then INCOMPAT_EXTENDED_L2 else 0)),
    (G8 80 (if bh_lazy_refcounts opts then COMPAT_LAZY_REFCOUNTS else 0)),
    (G4 96 (trailing_zeros (ly_refcount_bits (bh_layout opts)))), (G4 100 104)
    by (first [ by repeat first [apply list_elem_of_here | apply list_elem_of_further] | done
              | unfold is_u32, is_u64, u32_max, u64_max; lia
              | by destruct (bh_luks_header opts) | by destruct (ly_extended_l2 (bh_layout opts)) | by destruct (bh_lazy_refcounts opts) ]).
  change (3 <=? 3) with true. cbv iota. rewrite (proj2 (Z.leb_le _ _) Hz6), Hback.
  assert (u32_at h 60 = 0) as -> by (unfold u32_at; change (60 + 4) with 64; by rewrite H60).
  assert (u64_at h 64 = 0) as -> by (unfold u64_at; change (64 + 8) with 72; by rewrite H64).
  unfold byte_or_0. rewrite H104. rewrite Z.shiftl_1_l, <- Hcsz. unfold path_len.
  destruct (bh_backing_file opts) as [p|]; destruct Hpath as [-> ->];
    cbn [from_option]; by destruct (ly_extended_l2 (bh_layout opts)), (bh_lazy_refcounts opts).
Qed.

(** The fixed header on a zeroed cluster. *)
Lemma put_fixed : exists h, put (E := Qcow2CreateError) (filled hcs 0) (fixed_fields opts) = Ok h /\ blen h = hcs /\ is_bytes h /\
  (forall w, w ∈ fixed_fields opts -> slice h w.1 (w.1 + blen w.2) = Some w.2) /\
  slice h 8 20 = Some (filled 12 0) /\ slice h 60 64 = Some (filled 4 0) /\ slice h 64 72 = Some (filled 8 0).
Proof.
  pose proof hcs_bounds as Hcs. pose proof (fixed_ranges opts) as Hr.
  destruct (apply_writes_ok (filled hcs 0) (fixed_fields opts)) as (h & Hp & Hl & Hb); [by apply filled_is_bytes | |].
  { eapply Forall_impl; [|exact Hr]. cbn. rewrite blen_filled by lia. intros w [Hw Hbw]. split_and!; try done; lia. }
  rewrite blen_filled in Hl by lia. exists h. unfold put. rewrite Hp. split_and!; try done.
  - intros [off src] Hin. by apply (apply_writes_get 0 (filled hcs 0) (fixed_fields opts)); [apply fixed_ascending| |].
  - rewrite (apply_writes_frame _ _ _ 8 20 Hp); [by rewrite slice_filled by lia|].
    eapply Forall_impl; [|exact Hr]. cbn. intros w [Hw _]. lia.
  - rewrite (apply_writes_frame _ _ _ 60 64 Hp); [by rewrite slice_filled by lia|]. unfold fixed_fields.
    repeat (apply Forall_cons_2; [cbn [fst snd]; rewrite blen_be_bytes; lia|]). apply Forall_nil_2.
  - rewrite (apply_writes_frame _ _ _ 64 72 Hp); [by rewrite slice_filled by lia|]. unfold fixed_fields.
    repeat (apply Forall_cons_2; [cbn [fst snd]; rewrite blen_be_bytes; lia|]). apply Forall_nil_2.
Qed.

Lemma build_header_unfold buf : hcs <= blen buf ->
  build_header buf opts = let? hdr := put (filled hcs 0) (fixed_fields opts) in
                          let? (hdr, ext_off) := put_extensions hdr in
                          put_backing_file hcs (bh_backing_file opts) hdr ext_off.
Proof.
  intros Hbuf. unfold build_header, put_extensions, hcs in *. destruct (Z.ltb_spec (blen buf) (ly_cluster_size (bh_layout opts))); [lia|].
  destruct (put _ _); [|done..]. cbn [obind]. destruct (put_backing_format _ _ _ _) as [[h e]| | |]; [|done..]. cbn [obind].
  by destruct (put_luks_header _ _ _ _) as [[h' e']| | |].
Qed.

Lemma created_header_spec buf : hcs <= blen buf ->
  if path_offset opts + path_len opts <=? hcs then
    exists h, build_header buf opts = Ok h /\ blen h = hcs /\ is_bytes h /\ header_at h = created_header /\
              slice h (path_offset opts) (path_offset opts + path_len opts) = Some (default [] (bh_backing_file opts))
  else build_header buf opts = Err BackingMetadataTooLarge.
Proof.
  intros Hbuf. pose proof hcs_bounds as Hcs. pose proof lens_nonneg as (Hf0 & Hl0 & Hp0). rewrite build_header_unfold by done.
  destruct put_fixed as (h0 & -> & L0 & B0 & F0 & G8 & G60 & G64). cbn [obind].
  pose proof (put_extensions_spec h0 B0 L0) as He. destruct (Z.leb_spec (path_offset opts) hcs).
  2:{ rewrite He. destruct (Z.leb_spec (path_offset opts + path_len opts) hcs); [lia|done]. }
  destruct He as (h1 & -> & Hx & H104). cbn [obind].
  pose proof (put_backing_file_spec h1 (ex_bytes _ _ _ Hx) ltac:(rewrite (ex_len _ _ _ Hx); done) ltac:(done)) as Hp.
  destruct (_ <=? _); [|done]. destruct Hp as (h & -> & Hl & Hb & Hframe & Hpath).
  assert (112 <= path_offset opts) as Hpo by (unfold path_offset; lia).
  assert (forall a b, b <= 8 \/ 20 <= a /\ b <= 104 -> slice h a b = slice h0 a b) as Hkeep.
  { intros a b Hab. rewrite Hframe by lia. apply (ex_frame _ _ _ Hx). lia. }
  exists h. split; [done|]. split; [done|]. split; [done|]. split.
  - apply header_at_created.
    + intros w Hw. rewrite Hkeep; [by apply F0|]. pose proof (fixed_ranges opts) as Hr. rewrite Forall_forall in Hr.
      destruct (Hr w (proj1 (list_elem_of_In _ _) Hw)) as [Hrange _]. lia.
    + by rewrite Hkeep by lia.
    + by rewrite Hkeep by lia.
    + destruct (slice_of h1 104 105) as (s1 & Hs1 & _); [lia | rewrite (ex_len _ _ _ Hx); lia|].
      pose proof Hs1 as Hs. rewrite <- Hframe in Hs by lia. rewrite <- H104. transitivity (byte_at s1 0).
      * symmetry. exact (slice_byte _ _ _ _ 0 Hs ltac:(lia)).
      * exact (slice_byte _ _ _ _ 0 Hs1 ltac:(lia)).
    + destruct (bh_backing_file opts); [by destruct Hpath as (? & ? & ?)|]. subst h.
      assert (slice h1 8 20 = Some (filled 12 0)) as H8 by (rewrite (ex_frame _ _ _ Hx) by lia; done).
      split; [unfold u64_at|unfold u32_at].
      * pose proof (slice_slice h1 8 20 _ 0 8 H8 ltac:(lia) ltac:(lia)) as E. change (8 + 0) with 8 in E. by rewrite <- E.
      * pose proof (slice_slice h1 8 20 _ 8 12 H8 ltac:(lia) ltac:(lia)) as E. change (8 + 8) with 16 in E. change (8 + 12) with (16 + 4) in E. by rewrite <- E.
  - unfold path_len in *. destruct (bh_backing_file opts) as [p|]; cbn [from_option default id] in *; [by destruct Hpath as (_ & _ & ?)|].
    rewrite Z.add_0_r, slice_Some_2 by lia. f_equal. by rewrite Z.sub_diag.
Qed.

End header.

(** ** Properties *)

(** The header cluster [build_header] writes for any computed layout is accepted by
    [QcowHeader::parse] exactly when extensions and backing path fit the cluster, and
    parses to the request: geometry, tables, refcount width, feature bits, crypt
    method, no snapshots, the backing name at its recorded place.  The one exception
    is the compression type, which the parser takes from byte 104: the byte of the
    first extension, so an image created with a backing format parses with type 226
    and not 0. *)
Theorem created_header_reparses (buf : bytes) (opts : BuildHeaderOptions) :
  opts_ok opts -> ly_cluster_size (bh_layout opts) <= blen buf ->
  if path_offset opts + path_len opts <=? ly_cluster_size (bh_layout opts) then
    exists h, build_header buf opts = Ok h /\ blen h = ly_cluster_size (bh_layout opts) /\ parse h = Ok (created_header opts) /\
              slice h (path_offset opts) (path_offset opts + path_len opts) = Some (default [] (bh_backing_file opts)) /\
              (compression_type (created_header opts) = 0 <-> bh_backing_format opts = None /\ bh_luks_header opts = None)
  else build_header buf opts = Err BackingMetadataTooLarge.
Proof.
  intros Ho Hbuf. pose proof (created_header_spec opts Ho buf Hbuf) as Hs. fold (hcs opts).
  destruct (_ <=? _); [|done]. destruct Hs as (h & Hh & Hl & Hb & Hat & Hp). exists h. split; [done|]. split; [done|].
  pose proof (hcs_bounds opts Ho). rewrite parse_header_at by lia. rewrite Hat, created_valid by done.
  split; [done|]. split; [done|]. cbn [compression_type created_header]. unfold first_ext_byte.
  destruct (bh_backing_format opts), (bh_luks_header opts); split; try done; by intros [? ?].
Qed.

(** A 1 MiB image with a backing file of format raw. *)
Definition demo_layout : Qcow2Layout :=
  match compute_layout 1048576 9 16 false Off with Ok l => l | _ => mkQcow2Layout 0 0 0 0 false Off 0 0 0 0 0 0 0 0 0 0 0 0 0 0 end.

Definition demo_opts : BuildHeaderOptions := mkBuildHeaderOptions demo_layout (Some [98; 46; 105]) (Some [114; 97; 119]) true None.

Lemma demo_opts_ok : opts_ok demo_opts.
Proof.
  pose proof (compute_layout_spec 1048576 9 16 false Off ltac:(by split) ltac:(by split) ltac:(by split)) as Hs.
  change (compute_layout 1048576 9 16 false Off) with (@Ok Qcow2CreateError _ demo_layout) in Hs. destruct Hs as (Hl & Hb & _).
  split; [by apply layout_header_fields | |]; intros x [= <-]; (split; [apply is_bytesb_true; reflexivity | vm_compute; discriminate]).
Qed.

Lemma created_header_reparses_witness :
  exists h, build_header (filled 512 7) demo_opts = Ok h /\ parse h = Ok (created_header demo_opts) /\
            compression_type (created_header demo_opts) = 226.
Proof.
  pose proof (created_header_reparses (filled 512 7) demo_opts demo_opts_ok) as Hr.
  specialize (Hr ltac:(vm_compute; discriminate)). change (path_offset demo_opts + path_len demo_opts <=? _) with true in Hr.
  cbv iota in Hr. destruct Hr as (h & Hh & _ & Hp & _). exists h. split; [exact Hh|]. split; [exact Hp|]. reflexivity.
Defined.
