(* ===== verification/CreatePlan.v ===== *)
(** The metadata plan of a fresh qcow2 image ([plan_qcow2] of
    [src/src/crates/create/src/lib.rs]) and the L2 tables the guest streams after it
    ([emit_qcow2_l2_and_extend] of [src/src/operations/create/src/main.rs]), with what
    a reader finds in the image they make. *)

From stdpp Require Import base numbers list sets option.
From Stdlib Require Import ZArith Lia.
From S2P Require Import Prelude Bytes Refcount Qcow2 SnapshotWalk ExecBytes Header CachedRead Qcow2Lookup Create CreateProps CreateHeader.

(** ** Definitions *)

Inductive ImageFormat : Type :=
| FmtUnknown | FmtRaw | FmtQcow2 | FmtVmdk4 | FmtVmdk3 | FmtVhd | FmtVhdx | FmtQcow1 | FmtVdi | FmtQed | FmtIso | FmtLuks
| FmtVmdkDescriptor | FmtParallels | FmtBochs | FmtCloop | FmtDmg.

#[global] Instance ImageFormat_eq_dec : EqDecision ImageFormat.
Proof. solve_decision. Defined.

Definition MAX_BACKING_FILE_LEN : Z := 1024.
Definition MAX_METADATA_WRITES : Z := 96.

Inductive CreateError : Type :=
| CeInvalidVirtualSize
| CeInvalidClusterSize
| CeInvalidBlockSize
| CeInvalidGrainSize
| CeInvalidSubformat
| CeBackingFileTooLong
| CeBackingFileUnsupported
| CeParentNameTooLong
| CeParentPathNotRepresentable
| CeOverflow
| CeScratchTooSmall
| CePreallocationUnsupported.

Record BackingRef : Type := mkBackingRef { br_path : bytes; br_format : option ImageFormat }.

(** [MetadataWrite]: byte offset and bytes. *)
Definition MetadataWrite : Type := Z * bytes.

(** The inline array of writes is the list of those pushed. *)
Record MetadataPlan : Type := mkMetadataPlan {
  total_metadata_bytes : Z;
  minimum_file_size : Z;
  mp_writes : list MetadataWrite
}.

Definition MetadataPlan_new : MetadataPlan := mkMetadataPlan 0 0 [].

Definition push (plan : MetadataPlan) (w : MetadataWrite) : outcome CreateError MetadataPlan :=
  if MAX_METADATA_WRITES <=? Z.of_nat (length (mp_writes plan)) then Err CeScratchTooSmall
  else
  let len := blen w.2 in
  let? write_end := ok_or (checked_add w.1 len) CeOverflow in
  let? total := ok_or (checked_add (total_metadata_bytes plan) len) CeOverflow in
  Ok (mkMetadataPlan total (if minimum_file_size plan <? write_end then write_end else minimum_file_size plan)
        (mp_writes plan ++ [w])).

Record Qcow2CreateOpts : Type := mkQcow2CreateOpts {
  qo_virtual_size : Z;
  qo_cluster_size : Z;
  qo_refcount_bits : Z;
  qo_extended_l2 : bool;
  qo_lazy_refcounts : bool;
  qo_compat_v3 : bool;
  qo_backing : option BackingRef;
  qo_preallocation : Preallocation
}.

(** The ASCII names of the formats. *)
Definition image_format_name_bytes (fmt : ImageFormat) : bytes :=
  match fmt with
  | FmtRaw => [114; 97; 119]
  | FmtQcow2 => [113; 99; 111; 119; 50]
  | FmtVmdk4 | FmtVmdk3 | FmtVmdkDescriptor => [118; 109; 100; 107]
  | FmtVhd => [118; 112; 99]
  | FmtVhdx => [118; 104; 100; 120]
  | FmtQcow1 => [113; 99; 111; 119]
  | FmtVdi => [118; 100; 105]
  | FmtQed => [113; 101; 100]
  | FmtIso => [105; 115; 111]
  | FmtLuks => [108; 117; 107; 115]
  | FmtParallels => [112; 97; 114; 97; 108; 108; 101; 108; 115]
  | FmtBochs => [98; 111; 99; 104; 115]
  | FmtCloop => [99; 108; 111; 111; 112]
  | FmtDmg => [100; 109; 103]
  | FmtUnknown => []
  end.

Definition map_qcow2_error (e : Qcow2CreateError) : CreateError :=
  match e with
  | InvalidVirtualSize => CeInvalidVirtualSize
  | InvalidClusterBits => CeInvalidClusterSize
  | InvalidRefcountBits => CeInvalidVirtualSize
  | Overflow => CeOverflow
  | BufferTooSmall => CeScratchTooSmall
  | BackingMetadataTooLarge => CeBackingFileTooLong
  | PreallocationUnsupported => CePreallocationUnsupported
  end.

(** The loop over the refcount blocks: each is built in its own cluster of the
    combined region. *)
Fixpoint build_refblocks (n : nat) (block_index : Z) (layout : Qcow2Layout) (combined : bytes) : outcome CreateError bytes :=
  match n with
  | O => Ok combined
  | S n' =>
      let start := wmul block_index (ly_cluster_size layout) in
      let stop := wadd start (ly_cluster_size layout) in
      let? region := or_panic (slice combined start stop) in
      let? block := map_err map_qcow2_error (build_refcount_block region layout block_index) in
      let? combined := or_panic (splice combined start block) in
      build_refblocks n' (wadd block_index 1) layout combined
  end.

Definition cluster_size_ok (cluster_size : Z) : bool :=
  negb ((cluster_size =? 0) || negb (is_power_of_two cluster_size) || (cluster_size <? 512) || (Z.shiftl 2 20 <? cluster_size)).

Definition backing_path (opts : Qcow2CreateOpts) : outcome CreateError (option bytes) :=
  match qo_backing opts with
  | Some b => if MAX_BACKING_FILE_LEN <? blen (br_path b) then Err CeBackingFileTooLong else Ok (Some (br_path b))
  | None => Ok None
  end.

Definition backing_format_bytes (opts : Qcow2CreateOpts) : option bytes :=
  match qo_backing opts with Some b => image_format_name_bytes <$> br_format b | None => None end.

Definition plan_qcow2 (opts : Qcow2CreateOpts) (scratch : bytes) : outcome CreateError MetadataPlan :=
  if negb (cluster_size_ok (qo_cluster_size opts)) then Err CeInvalidClusterSize
  else
  let? layout := map_err map_qcow2_error
    (compute_layout (qo_virtual_size opts) (trailing_zeros (qo_cluster_size opts)) (qo_refcount_bits opts)
       (qo_extended_l2 opts) (qo_preallocation opts)) in
  let? path := backing_path opts in
  let cluster_size := ly_cluster_size layout in
  let header_bytes := cluster_size in
  let l1_bytes := wmul (ly_l1_clusters layout) cluster_size in
  let reftable_bytes := wmul (ly_refcount_table_clusters layout) cluster_size in
  let refblock_bytes_total := wmul (ly_refcount_block_count layout) cluster_size in
  let total_needed := wadd (wadd (wadd header_bytes l1_bytes) reftable_bytes) refblock_bytes_total in
  if blen scratch <? total_needed then Err CeScratchTooSmall
  else
  let? header_region := or_panic (slice scratch 0 header_bytes) in
  let? l1_region := or_panic (slice scratch header_bytes (header_bytes + l1_bytes)) in
  let? reftable_region := or_panic (slice scratch (header_bytes + l1_bytes) (header_bytes + l1_bytes + reftable_bytes)) in
  let? refblocks_region := or_panic (slice scratch (header_bytes + l1_bytes + reftable_bytes) (blen scratch)) in
  let? header_slice := map_err map_qcow2_error
    (build_header header_region
       (mkBuildHeaderOptions layout path (backing_format_bytes opts) (qo_lazy_refcounts opts) None)) in
  let? l1_slice := map_err map_qcow2_error (build_l1_table l1_region layout) in
  let? reftable_slice := map_err map_qcow2_error (build_refcount_table reftable_region layout) in
  let? plan := push MetadataPlan_new (0, header_slice) in
  let? plan := push plan (ly_l1_offset layout, l1_slice) in
  let? plan := push plan (ly_refcount_table_offset layout, reftable_slice) in
  let? combined := or_panic (slice refblocks_region 0 refblock_bytes_total) in
  let? combined := build_refblocks (Z.to_nat (ly_refcount_block_count layout)) 0 layout combined in
  let? plan := push plan (ly_refcount_blocks_base_offset layout, combined) in
  if populates_data_metadata (qo_preallocation opts)
  then Ok (mkMetadataPlan (total_metadata_bytes plan) (ly_total_file_size layout) (mp_writes plan))
  else Ok plan.

(** The loop of [emit_qcow2_l2_and_extend]: the L2 tables the guest writes after the
    plan, one cluster each, built in the same buffer. *)
Fixpoint l2_writes (n : nat) (l1_index : Z) (layout : Qcow2Layout) (l2_buf : bytes) : outcome CreateError (list MetadataWrite) :=
  match n with
  | O => Ok []
  | S n' =>
      let? table := map_err map_qcow2_error (build_l2_table l2_buf layout l1_index) in
      let byte_offset := wadd (ly_l2_base_offset layout) (wmul l1_index (ly_cluster_size layout)) in
      let? rest := l2_writes n' (wadd l1_index 1) layout table in
      Ok ((byte_offset, table) :: rest)
  end.

(** What the guest writes after the plan of a preallocated image: the L2 tables, then a
    zero sector at the end of the file.  An error is [None] in the source. *)
Definition emit_qcow2_l2_and_extend (opts : Qcow2CreateOpts) (l2_buf : bytes) (output_sector_size file_size_after : Z)
  : outcome CreateError (list MetadataWrite) :=
  if populates_data_metadata (qo_preallocation opts) then
    let? layout := map_err map_qcow2_error
      (compute_layout (qo_virtual_size opts) (trailing_zeros (qo_cluster_size opts)) (qo_refcount_bits opts)
         (qo_extended_l2 opts) (qo_preallocation opts)) in
    let? tables := l2_writes (Z.to_nat (ly_l1_entries layout)) 0 layout l2_buf in
    if 0 <? file_size_after then
      Ok (tables ++ [(wsub file_size_after output_sector_size, filled output_sector_size 0)])
    else Ok tables
  else Ok [].

(** ** Cluster sizes *)

Lemma cluster_size_ok_spec x : 0 <= x -> cluster_size_ok x = true ->
  9 <= trailing_zeros x <= 21 /\ 2 ^ trailing_zeros x = x.
Proof.
  intros Hx Hok. unfold cluster_size_ok, is_power_of_two in Hok. bool_to_prop. change (Z.shiftl 2 20) with 2097152 in *.
  assert (x = 2 ^ Z.log2 x) as Hp by (apply power_of_two_log; lia).
  assert (9 <= Z.log2 x <= 21) as Hr.
  { split; [apply Z.log2_le_pow2; [lia|]; change (2 ^ 9) with 512; lia|]. apply Z.lt_succ_r, Z.log2_lt_pow2; [lia|].
    change (2 ^ Z.succ 21) with 4194304. lia. }
  assert (forallb (fun n => trailing_zeros (2 ^ n) =? n) (seqZ 9 13) = true) as Hall by (vm_compute; reflexivity).
  pose proof (forallb_seqZ _ _ _ Hall (Z.log2 x) ltac:(lia)) as Htz. cbv beta in Htz. apply Z.eqb_eq in Htz.
  rewrite <- Hp in Htz. rewrite Htz. by split.
Qed.

(** ** Refcount blocks *)

Section plan.
Context (l : Qcow2Layout) (Hl : layout_ok l) (Hbd : layout_bounds l).

(** Refcount block [k] says 1 for the clusters of the image and 0 beyond. *)
Definition block_counts (k : Z) (b : bytes) : Prop :=
  forall j, 0 <= j < epb l ->
    read_refcount_in_block b j (ly_refcount_bits l) = Ok (if k * epb l + j <? ly_total_clusters l then 1 else 0).

Lemma build_refblocks_spec n i comb : is_bytes comb -> 0 <= i -> i + Z.of_nat n <= ly_refcount_block_count l ->
  (i + Z.of_nat n) * ly_cluster_size l <= blen comb ->
  exists c', build_refblocks n i l comb = Ok c' /\ is_bytes c' /\ blen c' = blen comb /\
    (forall a b, b <= i * ly_cluster_size l -> slice c' a b = slice comb a b) /\
    forall k, i <= k < i + Z.of_nat n ->
      exists b, slice c' (k * ly_cluster_size l) (k * ly_cluster_size l + ly_cluster_size l) = Some b /\ block_counts k b.
Proof.
  pose proof (lb_cs l Hbd) as Hcs. pose proof (lb_rb l Hbd) as Hrb. change (2 ^ 21) with 2097152 in Hcs. change (2 ^ 36) with 68719476736 in Hrb.
  revert i comb. induction n as [|n IH]; intros i comb Hb Hi Hn Hlen; cbn [build_refblocks].
  { exists comb. split_and!; try done. intros k Hk. lia. }
  assert (0 <= i * ly_cluster_size l <= 68719476736 * 2097152) as Hst
    by (split; [apply Z.mul_nonneg_nonneg; lia | apply Z.mul_le_mono_nonneg; lia]).
  assert (i * ly_cluster_size l + ly_cluster_size l <= blen comb) as Hfit.
  { apply (Z.le_trans _ ((i + 1) * ly_cluster_size l)); [lia|]. apply (Z.le_trans _ ((i + Z.of_nat (S n)) * ly_cluster_size l)); [|done].
    apply Z.mul_le_mono_nonneg_r; lia. }
  rewrite wmul_small, (wadd_small (i * ly_cluster_size l)), (wadd_small i 1) by (unfold u64_max; lia).
  destruct (slice_of comb (i * ly_cluster_size l) (i * ly_cluster_size l + ly_cluster_size l)) as (reg & Hreg & Hrl); [lia | done|].
  rewrite Hreg. cbn [or_panic obind].
  destruct (build_refcount_block_spec l Hl Hbd reg i ltac:(lia) ltac:(lia)) as (blk & -> & Hbb & Hbl & Hcount). cbn [map_err obind].
  destruct (splice_of comb (i * ly_cluster_size l) blk) as (c1 & Hs & Hl1); [lia | rewrite Hbl; lia|]. rewrite Hs. cbn [or_panic obind].
  destruct (IH (i + 1) c1) as (c' & -> & Hb' & Hl' & Hfr & Hk); [exact (splice_is_bytes _ _ _ _ Hb Hbb Hs) | lia | lia | lia |].
  exists c'. split; [done|]. split; [done|]. split; [lia|]. split.
  - intros a b Hab. rewrite Hfr by lia. apply (slice_splice_ne _ _ _ _ _ _ Hs). lia.
  - intros k Hkr. destruct (decide (k = i)) as [->|Hne]; [|apply Hk; lia]. exists blk. split; [|done].
    rewrite Hfr by lia. pose proof (slice_splice_eq _ _ _ _ Hs) as He. by rewrite Hbl in He.
Qed.

(** L2 tables. *)
Definition l2_points (i : Z) (t : bytes) : Prop :=
  blen t = ly_cluster_size l /\ is_bytes t /\
  forall j, 0 <= j < epl l ->
    u64_at t (8 * j) = if i * epl l + j <? ly_data_clusters l
                       then Z.lor (ly_data_base_offset l + (i * epl l + j) * ly_cluster_size l) OFLAG_COPIED else 0.

Lemma l2_writes_spec n i buf : ly_cluster_size l <= blen buf -> 0 <= i -> i + Z.of_nat n <= ly_l2_clusters l ->
  exists ws, l2_writes n i l buf = Ok ws /\
    (exists ts, length ts = n /\
      ws = imap (fun k t => (ly_l2_base_offset l + (i + Z.of_nat k) * ly_cluster_size l, t)) ts /\
      forall k t, ts !! k = Some t -> l2_points (i + Z.of_nat k) t).
Proof.
  pose proof (lb_cs l Hbd) as Hcs. pose proof (lb_l2 l Hbd) as Hl2. pose proof (offsets_bound l Hl Hbd) as Ho.
  pose proof (l2_region l Hl Hbd) as Hreg. change (2 ^ 21) with 2097152 in Hcs. change (2 ^ 22) with 4194304 in Hl2.
  revert i buf. induction n as [|n IH]; intros i buf Hbuf Hi Hn; cbn [l2_writes].
  { exists []. split; [done|]. exists []. split_and!; try done. }
  destruct (build_l2_table_spec l Hl Hbd buf i Hbuf ltac:(lia)) as (t & -> & Hbt & Hlt & Hpt). cbn [map_err obind].
  destruct (region_bound l Hbd _ _ i Hreg ltac:(lia) ltac:(lia)) as [Hr1 Hr2].
  rewrite (wmul_small i), (wadd_small i 1), (wadd_small (ly_l2_base_offset l)) by (unfold u64_max; lia).
  destruct (IH (i + 1) t) as (ws & -> & ts & Hlen & -> & Hts); [lia | lia | lia |]. cbn [obind].
  eexists. split; [done|]. exists (t :: ts). split; [cbn; lia|]. split.
  - rewrite imap_cons. f_equal; [f_equal; lia|]. apply imap_ext. intros k t' _. cbn. f_equal. lia.
  - intros [|k] t' Hk.
    + injection Hk as <-. rewrite Z.add_0_r. by split_and!.
    + replace (i + Z.of_nat (S k)) with (i + 1 + Z.of_nat k) by lia. by apply Hts.
Qed.

End plan.

(** ** The plan *)

Definition header_opts (opts : Qcow2CreateOpts) (l : Qcow2Layout) : BuildHeaderOptions :=
  mkBuildHeaderOptions l (br_path <$> qo_backing opts) (backing_format_bytes opts) (qo_lazy_refcounts opts) None.

Record request_ok (opts : Qcow2CreateOpts) : Prop := {
  rq_size : is_u64 (qo_virtual_size opts);
  rq_cluster : is_u32 (qo_cluster_size opts);
  rq_bits : is_u8 (qo_refcount_bits opts);
  rq_path : forall b, qo_backing opts = Some b -> is_bytes (br_path b) /\ slice_fits (br_path b)
}.

(** The clusters of a plan: header, L1 table, refcount table and blocks. *)
Definition plan_clusters (l : Qcow2Layout) : Z :=
  1 + ly_l1_clusters l + ly_refcount_table_clusters l + ly_refcount_block_count l.

(** The requests that get a plan, with their layout. *)
Record accepts (opts : Qcow2CreateOpts) (scratch_len : Z) (l : Qcow2Layout) : Prop := {
  ac_cluster : cluster_size_ok (qo_cluster_size opts) = true;
  ac_layout : compute_layout (qo_virtual_size opts) (trailing_zeros (qo_cluster_size opts)) (qo_refcount_bits opts)
                (qo_extended_l2 opts) (qo_preallocation opts) = Ok l;
  ac_path : path_len (header_opts opts l) <= MAX_BACKING_FILE_LEN;
  ac_fits : path_offset (header_opts opts l) + path_len (header_opts opts l) <= ly_cluster_size l;
  ac_scratch : plan_clusters l * ly_cluster_size l <= scratch_len
}.

(** What the four writes of a plan hold. *)
Record plan_holds (opts : Qcow2CreateOpts) (l : Qcow2Layout) (plan : MetadataPlan) (h t1 rt rb : bytes) : Prop := {
  ph_writes : mp_writes plan = [ (0, h); (ly_l1_offset l, t1); (ly_refcount_table_offset l, rt); (ly_refcount_blocks_base_offset l, rb) ];
  ph_size : minimum_file_size plan = ly_total_file_size l;
  ph_bytes : total_metadata_bytes plan = plan_clusters l * ly_cluster_size l;
  ph_header : header_at h = created_header (header_opts opts l) /\ blen h = ly_cluster_size l /\ is_bytes h;
  ph_path : slice h (path_offset (header_opts opts l)) (path_offset (header_opts opts l) + path_len (header_opts opts l)) =
            Some (default [] (bh_backing_file (header_opts opts l)));
  ph_l1 : blen t1 = ly_l1_clusters l * ly_cluster_size l /\ is_bytes t1 /\
    forall j, 0 <= j -> (j + 1) * 8 <= blen t1 ->
      u64_at t1 (8 * j) = if j <? ly_l2_clusters l then Z.lor (ly_l2_base_offset l + j * ly_cluster_size l) OFLAG_COPIED else 0;
  ph_rt : blen rt = ly_refcount_table_clusters l * ly_cluster_size l /\ is_bytes rt /\
    forall j, 0 <= j -> (j + 1) * 8 <= blen rt ->
      u64_at rt (8 * j) = if j <? ly_refcount_block_count l then ly_refcount_blocks_base_offset l + j * ly_cluster_size l else 0;
  ph_rb : blen rb = ly_refcount_block_count l * ly_cluster_size l /\ is_bytes rb /\
    forall k, 0 <= k < ly_refcount_block_count l ->
      exists b, slice rb (k * ly_cluster_size l) (k * ly_cluster_size l + ly_cluster_size l) = Some b /\ block_counts l k b
}.

Lemma request_opts_ok opts l : request_ok opts -> layout_ok l -> layout_bounds l -> opts_ok (header_opts opts l).
Proof.
  intros Hr Hl Hb. split; [by apply layout_header_fields | |].
  - intros p Hp. cbn in Hp. destruct (qo_backing opts) as [b|] eqn:Eb; [|done]. injection Hp as <-. by apply (rq_path _ Hr).
  - intros f Hf. cbn in Hf. unfold backing_format_bytes in Hf. destruct (qo_backing opts) as [b|]; [|done].
    destruct (br_format b) as [fmt|]; [|done]. injection Hf as <-.
    destruct fmt; (split; [apply is_bytesb_true; reflexivity | vm_compute; discriminate]).
Qed.

(** The four pushes. *)
Lemma push_spec plan w : Z.of_nat (length (mp_writes plan)) < MAX_METADATA_WRITES ->
  w.1 + blen w.2 <= u64_max -> total_metadata_bytes plan + blen w.2 <= u64_max ->
  push plan w = Ok (mkMetadataPlan (total_metadata_bytes plan + blen w.2)
    (Z.max (minimum_file_size plan) (w.1 + blen w.2)) (mp_writes plan ++ [w])).
Proof.
  intros Hn He Ht. unfold push. destruct (Z.leb_spec MAX_METADATA_WRITES (Z.of_nat (length (mp_writes plan)))); [lia|].
  rewrite checked_add_eq by done. cbn [ok_or obind]. rewrite checked_add_eq by done. cbn [ok_or obind].
  do 2 f_equal. destruct (Z.ltb_spec (minimum_file_size plan) (w.1 + blen w.2)); lia.
Qed.

Lemma backing_path_spec opts l :
  backing_path opts = if path_len (header_opts opts l) <=? MAX_BACKING_FILE_LEN then Ok (br_path <$> qo_backing opts) else Err CeBackingFileTooLong.
Proof.
  unfold backing_path, path_len. cbn [bh_backing_file header_opts]. destruct (qo_backing opts) as [b|]; cbn; [|done].
  fold (blen (br_path b)). destruct (Z.ltb_spec MAX_BACKING_FILE_LEN (blen (br_path b))), (Z.leb_spec (blen (br_path b)) MAX_BACKING_FILE_LEN); done || lia.
Qed.

Section planned.
Context (opts : Qcow2CreateOpts) (scratch : bytes) (l : Qcow2Layout).
Context (Hreq : request_ok opts) (Hsb : is_bytes scratch) (Hl : layout_ok l) (Hbd : layout_bounds l).

Abbreviation cs := (ly_cluster_size l).

(** The regions of the scratch buffer. *)
Lemma plan_numbers : 0 < cs /\ 0 < ly_l1_clusters l * cs /\ 0 < ly_refcount_table_clusters l * cs /\ 0 < ly_refcount_block_count l * cs /\
  plan_clusters l * cs = cs + ly_l1_clusters l * cs + ly_refcount_table_clusters l * cs + ly_refcount_block_count l * cs /\
  plan_clusters l * cs <= ly_total_file_size l < 9223372036854775808.
Proof.
  pose proof (offsets_bound l Hl Hbd) as Ho. pose proof Hbd as [Bcs _ B1 Brt Brb _ _ _].
  split; [lia|]. split; [apply Z.mul_pos_pos; lia|]. split; [apply Z.mul_pos_pos; lia|]. split; [apply Z.mul_pos_pos; lia|].
  unfold plan_clusters. split; [lia|]. pose proof (lo_l2_off l Hl). pose proof (lo_rb_off l Hl). pose proof (lo_rt_off l Hl).
  pose proof (lo_l1_off l Hl). lia.
Qed.

(** From the layout on. *)
Definition plan_body (path : option bytes) : outcome CreateError MetadataPlan :=
  let header_bytes := cs in
  let l1_bytes := ly_l1_clusters l * cs in
  let reftable_bytes := ly_refcount_table_clusters l * cs in
  let refblock_bytes_total := ly_refcount_block_count l * cs in
  let? header_region := or_panic (slice scratch 0 header_bytes) in
  let? l1_region := or_panic (slice scratch header_bytes (header_bytes + l1_bytes)) in
  let? reftable_region := or_panic (slice scratch (header_bytes + l1_bytes) (header_bytes + l1_bytes + reftable_bytes)) in
  let? refblocks_region := or_panic (slice scratch (header_bytes + l1_bytes + reftable_bytes) (blen scratch)) in
  let? header_slice := map_err map_qcow2_error
    (build_header header_region (mkBuildHeaderOptions l path (backing_format_bytes opts) (qo_lazy_refcounts opts) None)) in
  let? l1_slice := map_err map_qcow2_error (build_l1_table l1_region l) in
  let? reftable_slice := map_err map_qcow2_error (build_refcount_table reftable_region l) in
  let? plan := push MetadataPlan_new (0, header_slice) in
  let? plan := push plan (ly_l1_offset l, l1_slice) in
  let? plan := push plan (ly_refcount_table_offset l, reftable_slice) in
  let? combined := or_panic (slice refblocks_region 0 refblock_bytes_total) in
  let? combined := build_refblocks (Z.to_nat (ly_refcount_block_count l)) 0 l combined in
  let? plan := push plan (ly_refcount_blocks_base_offset l, combined) in
  if populates_data_metadata (qo_preallocation opts)
  then Ok (mkMetadataPlan (total_metadata_bytes plan) (ly_total_file_size l) (mp_writes plan))
  else Ok plan.

Lemma plan_body_spec : plan_clusters l * cs <= blen scratch -> ly_preallocation l = qo_preallocation opts ->
  if path_offset (header_opts opts l) + path_len (header_opts opts l) <=? cs
  then exists plan h t1 rt rb, plan_body (br_path <$> qo_backing opts) = Ok plan /\ plan_holds opts l plan h t1 rt rb
  else plan_body (br_path <$> qo_backing opts) = Err CeBackingFileTooLong.
Proof.
  intros Hfit Hpre. destruct plan_numbers as (P0 & P1 & P2 & P3 & Psum & Pmax). unfold plan_body. cbv zeta.
  pose proof (request_opts_ok opts l Hreq Hl Hbd) as Hoo.
  destruct (slice_of scratch 0 cs) as (r0 & -> & L0); [lia | lia|].
  destruct (slice_of scratch cs (cs + ly_l1_clusters l * cs)) as (r1 & -> & L1); [lia | lia|].
  destruct (slice_of scratch (cs + ly_l1_clusters l * cs) (cs + ly_l1_clusters l * cs + ly_refcount_table_clusters l * cs)) as (r2 & -> & L2); [lia | lia|].
  destruct (slice_of scratch (cs + ly_l1_clusters l * cs + ly_refcount_table_clusters l * cs) (blen scratch)) as (r3 & E3 & L3); [lia | lia|].
  rewrite E3. cbn [or_panic obind].
  pose proof (created_header_spec (header_opts opts l) Hoo r0 ltac:(unfold hcs; cbn [bh_layout header_opts]; lia)) as Hh. unfold hcs in Hh.
  cbn [bh_layout header_opts] in Hh. fold (header_opts opts l) in Hh. change (mkBuildHeaderOptions l _ _ _ None) with (header_opts opts l).
  destruct (_ <=? _); [|by rewrite Hh]. destruct Hh as (h & -> & Lh & Bh & Hat & Hpath). cbn [map_err obind].
  destruct (build_l1_table_spec l Hl Hbd r1 ltac:(lia)) as (t1 & -> & B1 & Lt1 & R1). cbn [map_err obind].
  destruct (build_refcount_table_spec l Hl Hbd r2 ltac:(lia)) as (rt & -> & B2 & Lt2 & R2). cbn [map_err obind].
  pose proof (lo_l1_off l Hl) as O1. pose proof (lo_rt_off l Hl) as O2. pose proof (lo_rb_off l Hl) as O3. pose proof (lo_l2_off l Hl) as O4.
  rewrite push_spec by (cbn; unfold u64_max; fold (blen h); lia || done). cbn [obind].
  rewrite push_spec by (cbn [mp_writes MetadataPlan_new app length fst snd total_metadata_bytes]; unfold u64_max, MAX_METADATA_WRITES; lia). cbn [obind].
  rewrite push_spec by (cbn [mp_writes MetadataPlan_new app length fst snd total_metadata_bytes]; unfold u64_max, MAX_METADATA_WRITES; lia). cbn [obind].
  destruct (slice_of r3 0 (ly_refcount_block_count l * cs)) as (c0 & Ec & Lc); [lia | lia|]. rewrite Ec. cbn [or_panic obind].
  assert (is_bytes c0) as Bc by (eapply slice_is_bytes; [|exact Ec]; by eapply slice_is_bytes; [|exact E3]).
  pose proof (lb_rb l Hbd) as Hrb.
  destruct (build_refblocks_spec l Hl Hbd (Z.to_nat (ly_refcount_block_count l)) 0 c0 Bc) as (c & -> & B4 & L4 & _ & R4); [lia | lia | lia|].
  cbn [obind]. rewrite push_spec by (cbn [mp_writes MetadataPlan_new app length fst snd total_metadata_bytes]; unfold u64_max, MAX_METADATA_WRITES; lia). cbn [obind].
  cbn [mp_writes MetadataPlan_new app fst snd total_metadata_bytes minimum_file_size].
  assert (forall plan, mp_writes plan = [(0, h); (ly_l1_offset l, t1); (ly_refcount_table_offset l, rt); (ly_refcount_blocks_base_offset l, c)] ->
    minimum_file_size plan = ly_total_file_size l -> total_metadata_bytes plan = plan_clusters l * cs -> plan_holds opts l plan h t1 rt c) as Hall.
  { intros plan Hw Hm Ht. split; try done; split_and!; try done; [lia|]. intros k Hk. apply R4. lia. }
  pose proof (lo_l2c l Hl) as Hl2c. pose proof (lo_data l Hl) as Hdc. pose proof (lo_end l Hl) as Hend. pose proof (lo_data_off l Hl) as Hdo.
  rewrite Hpre in Hl2c, Hdc. destruct (populates_data_metadata (qo_preallocation opts)); eexists _, h, t1, rt, c; (split; [reflexivity|]);
    apply Hall; cbn; try done; fold (blen h) (blen t1) (blen rt) (blen c); lia.
Qed.

End planned.

Lemma plan_qcow2_spec opts scratch : request_ok opts -> is_bytes scratch ->
  match plan_qcow2 opts scratch with
  | Ok plan => exists l h t1 rt rb, accepts opts (blen scratch) l /\ layout_ok l /\ layout_bounds l /\ plan_holds opts l plan h t1 rt rb
  | Err _ => forall l, ~ accepts opts (blen scratch) l
  | _ => False
  end.
Proof.
  intros Hreq Hsb. unfold plan_qcow2. destruct (cluster_size_ok (qo_cluster_size opts)) eqn:Hcs; cbn [negb].
  2:{ intros l [Hc _ _ _ _]. congruence. }
  destruct (rq_cluster _ Hreq) as [Hc0 _]. destruct (cluster_size_ok_spec _ Hc0 Hcs) as [Htz _].
  pose proof (compute_layout_spec (qo_virtual_size opts) (trailing_zeros (qo_cluster_size opts)) (qo_refcount_bits opts)
    (qo_extended_l2 opts) (qo_preallocation opts) (rq_size _ Hreq) ltac:(unfold is_u32, u32_max; lia)
    ltac:(destruct (rq_bits _ Hreq); unfold u8_max, is_u32, u32_max in *; lia)) as Hlay.
  destruct (compute_layout _ _ _ _ _) as [l|e| |] eqn:El; cbn [map_err obind]; [|intros l [_ Hx _ _ _]; congruence|done|done].
  destruct Hlay as (Hl & Hbd & _ & _ & Hpre & _). destruct (plan_numbers l Hl Hbd) as (P0 & P1 & P2 & P3 & Psum & Pmax).
  rewrite (backing_path_spec opts l). destruct (Z.leb_spec (path_len (header_opts opts l)) MAX_BACKING_FILE_LEN) as [Hpl|Hpl]; cbn [obind].
  2:{ intros l' [_ Hx Hy _ _]. rewrite El in Hx. injection Hx as <-. lia. }
  rewrite (wmul_small (ly_l1_clusters l)), (wmul_small (ly_refcount_table_clusters l)), (wmul_small (ly_refcount_block_count l)) by (unfold u64_max; lia).
  rewrite (wadd_small (ly_cluster_size l)) by (unfold u64_max; lia).
  rewrite (wadd_small (ly_cluster_size l + ly_l1_clusters l * ly_cluster_size l)) by (unfold u64_max; lia).
  rewrite wadd_small by (unfold u64_max; lia). rewrite <- Psum.
  destruct (Z.ltb_spec (blen scratch) (plan_clusters l * ly_cluster_size l)) as [Hsmall|Hfit].
  { intros l' [_ Hx _ _ Hy]. rewrite El in Hx. injection Hx as <-. lia. }
  pose proof (plan_body_spec opts scratch l Hreq Hsb Hl Hbd Hfit Hpre) as Hb. unfold plan_body in Hb. cbv zeta in Hb.
  destruct (Z.leb_spec (path_offset (header_opts opts l) + path_len (header_opts opts l)) (ly_cluster_size l)).
  - destruct Hb as (plan & h & t1 & rt & rb & -> & Hp). exists l, h, t1, rt, rb. by split_and!.
  - rewrite Hb. intros l' [_ Hx _ Hy _]. rewrite El in Hx. injection Hx as <-. lia.
Qed.

(** ** The image *)

(** The writes of the guest, in order: the plan, then the L2 tables. *)
Definition guest_writes (plan : MetadataPlan) (tables : list MetadataWrite) : list MetadataWrite := mp_writes plan ++ tables.

(** The image on the file the host truncated to the plan's size. *)
Definition created_image (plan : MetadataPlan) (tables : list MetadataWrite) : option bytes :=
  apply_writes (filled (minimum_file_size plan) 0) (guest_writes plan tables).

(** The refcount of cluster [c], as a reader finds it: through the refcount table the
    header names. *)
Definition image_refcount (img : bytes) (h : QcowHeader) (c : Z) : outcome SnapshotError Z :=
  let per_block := hdr_cluster_size h * 8 / hdr_refcount_bits h in
  let block := u64_at img (hdr_refcount_table_offset h + 8 * (c / per_block)) in
  let? b := or_panic (slice img block (block + hdr_cluster_size h)) in
  read_refcount_in_block b (c mod per_block) (hdr_refcount_bits h).

(** Fields inside a region of the image. *)
Lemma u64_at_region img a n r off : slice img a (a + n) = Some r -> 0 <= off -> off + 8 <= n -> u64_at img (a + off) = u64_at r off.
Proof.
  intros Hs Ho Hn. unfold u64_at. rewrite (slice_slice _ _ _ _ off (off + 8) Hs) by lia. by rewrite Z.add_assoc.
Qed.

Lemma u32_at_region img a n r off : slice img a (a + n) = Some r -> 0 <= off -> off + 4 <= n -> u32_at img (a + off) = u32_at r off.
Proof.
  intros Hs Ho Hn. unfold u32_at. rewrite (slice_slice _ _ _ _ off (off + 4) Hs) by lia. by rewrite Z.add_assoc.
Qed.

Lemma header_at_prefix img n h : slice img 0 n = Some h -> 105 <= n -> header_at img = header_at h.
Proof.
  intros Hs Hn. assert (forall o, 0 <= o <= 101 -> u32_at img o = u32_at h o) as H4
    by (intros o Ho; exact (u32_at_region img 0 n h o Hs ltac:(lia) ltac:(lia))).
  assert (forall o, 0 <= o <= 97 -> u64_at img o = u64_at h o) as H8
    by (intros o Ho; exact (u64_at_region img 0 n h o Hs ltac:(lia) ltac:(lia))).
  assert (byte_or_0 img 104 = byte_or_0 h 104) as H1
    by (unfold byte_or_0; f_equal; symmetry; exact (slice_byte _ _ _ _ 104 Hs ltac:(lia))).
  unfold header_at. offs. rewrite !H4, !H8, H1 by lia. done.
Qed.

Section image.
Context (opts : Qcow2CreateOpts) (l : Qcow2Layout) (plan : MetadataPlan) (h t1 rt rb : bytes) (tables : list bytes).
Context (Hl : layout_ok l) (Hbd : layout_bounds l) (Hreq : request_ok opts) (Hp : plan_holds opts l plan h t1 rt rb).
Context (Ht : length tables = Z.to_nat (ly_l2_clusters l)) (Hpts : forall k t, tables !! k = Some t -> l2_points l (Z.of_nat k) t).

Definition table_writes (base : Z) (ts : list bytes) : list MetadataWrite :=
  imap (fun k t => (base + Z.of_nat k * ly_cluster_size l, t)) ts.

Lemma table_writes_cons base t ts : table_writes base (t :: ts) = (base, t) :: table_writes (base + ly_cluster_size l) ts.
Proof.
  unfold table_writes. rewrite imap_cons. f_equal; [by rewrite Z.add_0_r|]. apply imap_ext. intros k x _. cbn. f_equal. lia.
Qed.

Lemma table_writes_ok base ts : (forall t, t ∈ ts -> blen t = ly_cluster_size l /\ is_bytes t) ->
  ascending base (table_writes base ts) /\
  Forall (fun w => base <= w.1 /\ w.1 + blen w.2 <= base + Z.of_nat (length ts) * ly_cluster_size l /\ is_bytes w.2) (table_writes base ts).
Proof.
  pose proof (lb_cs l Hbd). revert base. induction ts as [|t ts IH]; intros base Hts; [by split|].
  rewrite table_writes_cons. destruct (Hts t ltac:(apply list_elem_of_here)) as [Hlen Hb].
  destruct (IH (base + ly_cluster_size l)) as [Ha Hf]; [intros t' Hin; apply Hts; by apply list_elem_of_further|].
  cbn [ascending length]. rewrite Hlen. split; [by split|]. rewrite Nat2Z.inj_succ. constructor.
  - cbn [fst snd]. rewrite Hlen. assert (0 <= Z.of_nat (length ts) * ly_cluster_size l) by (apply Z.mul_nonneg_nonneg; lia). split_and!; [lia | lia | done].
  - eapply Forall_impl; [|exact Hf]. cbn. intros w (Hw1 & Hw2 & Hw3). split_and!; [lia | lia | done].
Qed.

Lemma all_tables t : t ∈ tables -> blen t = ly_cluster_size l /\ is_bytes t.
Proof. intros Hin. apply list_elem_of_lookup in Hin as [k Hk]. destruct (Hpts k t Hk) as (? & ? & _). done. Qed.

(** The writes tile the file up to the data region. *)
Lemma writes_tile :
  let ws := guest_writes plan (table_writes (ly_l2_base_offset l) tables) in
  ascending 0 ws /\ Forall (fun w => 0 <= w.1 /\ w.1 + blen w.2 <= ly_data_base_offset l /\ is_bytes w.2) ws.
Proof.
  cbv zeta. destruct Hp as [Hw _ _ (_ & Lh & Bh) _ (L1 & B1 & _) (L2 & B2 & _) (L3 & B3 & _)].
  destruct (table_writes_ok (ly_l2_base_offset l) tables all_tables) as [Ha Hf].
  pose proof (offsets_bound l Hl Hbd) as Ho. pose proof (lo_l1_off l Hl) as O1. pose proof (lo_rt_off l Hl) as O2.
  pose proof (lo_rb_off l Hl) as O3. pose proof (lo_l2_off l Hl) as O4. pose proof (lo_data_off l Hl) as O5. pose proof (lb_cs l Hbd).
  unfold guest_writes. rewrite Hw. cbn [app]. split.
  - cbn [ascending]. rewrite Lh, L1, L2, L3. split; [lia|]. split; [lia|]. split; [lia|]. split; [lia|].
    by replace (ly_refcount_blocks_base_offset l + ly_refcount_block_count l * ly_cluster_size l) with (ly_l2_base_offset l) by lia.
  - do 4 (apply Forall_cons_2; [cbn [fst snd]; rewrite ?Lh, ?L1, ?L2, ?L3; split_and!; [lia | lia | done]|]).
    pose proof (lb_l2 l Hbd). eapply Forall_impl; [|exact Hf]. cbn. intros w (Hw1 & Hw2 & Hw3). rewrite Ht, Z2Nat.id in Hw2 by lia.
    split_and!; [lia | lia | done].
Qed.

Lemma image_exists : exists img, created_image plan (table_writes (ly_l2_base_offset l) tables) = Some img /\
  blen img = ly_total_file_size l /\ is_bytes img /\
  (forall off src, (off, src) ∈ guest_writes plan (table_writes (ly_l2_base_offset l) tables) -> slice img off (off + blen src) = Some src).
Proof.
  destruct writes_tile as [Ha Hf]. pose proof (offsets_bound l Hl Hbd) as Ho. unfold created_image. rewrite (ph_size _ _ _ _ _ _ _ Hp).
  destruct (apply_writes_ok (filled (ly_total_file_size l) 0) (guest_writes plan (table_writes (ly_l2_base_offset l) tables))) as (img & Hi & Hlen & Hb).
  - by apply filled_is_bytes.
  - rewrite blen_filled by lia. eapply Forall_impl; [|exact Hf]. cbn. intros w (? & ? & ?).
    pose proof (lo_end l Hl). pose proof (lb_data l Hbd). pose proof (lb_cs l Hbd).
    assert (0 <= ly_data_clusters l * ly_cluster_size l) by (apply Z.mul_nonneg_nonneg; lia). split_and!; [lia | lia | done].
  - rewrite blen_filled in Hlen by lia. exists img. split_and!; try done. intros off src Hin.
    exact (apply_writes_get 0 _ _ _ off src Ha Hi Hin).
Qed.

(** The zero sector at the end of a preallocated image falls on data that was never
    written. *)
Lemma tail_kept img osz : created_image plan (table_writes (ly_l2_base_offset l) tables) = Some img ->
  1 <= ly_data_clusters l -> 0 < osz <= ly_cluster_size l ->
  created_image plan (table_writes (ly_l2_base_offset l) tables ++ [(ly_total_file_size l - osz, filled osz 0)]) = Some img.
Proof.
  intros Hi Hd Ho. destruct writes_tile as [_ Hf]. pose proof (offsets_bound l Hl Hbd) as Hoff. pose proof (lo_end l Hl) as He.
  assert (ly_cluster_size l <= ly_data_clusters l * ly_cluster_size l) by nia.
  pose proof (apply_writes_blen _ _ _ Hi) as Hlen. unfold created_image, guest_writes in *.
  rewrite (ph_size _ _ _ _ _ _ _ Hp) in *. rewrite blen_filled in Hlen by lia.
  assert (slice img (ly_total_file_size l - osz) (ly_total_file_size l) = Some (filled osz 0)) as Hz.
  { rewrite (apply_writes_frame _ _ _ _ _ Hi).
    - rewrite slice_filled by lia. do 2 f_equal. lia.
    - eapply Forall_impl; [|exact Hf]. cbn. intros w (_ & Hw & _). lia. }
  rewrite app_assoc, apply_writes_app, Hi. cbn [mbind option_bind apply_writes].
  destruct (splice_of img (ly_total_file_size l - osz) (filled osz 0)) as (img' & Hs & _); [lia | rewrite blen_filled by lia; lia|].
  rewrite Hs. cbn [mbind option_bind]. f_equal. apply (splice_slice_id _ _ _ _ Hs). rewrite blen_filled by lia.
  by replace (ly_total_file_size l - osz + osz) with (ly_total_file_size l) by lia.
Qed.

End image.
