(* ===== verification/CreateImage.v ===== *)
(** A created image as its readers see it: the header parses, with the fields of the
    request but for the version and the compression type, every cluster of the file and
    no other is in use once, and every guest offset looks up as unallocated or, in a preallocated image, as its own data cluster. *)

From stdpp Require Import base numbers list sets option.
From Stdlib Require Import ZArith Lia.
From S2P Require Import Prelude Bytes Refcount Qcow2 SnapshotWalk ExecBytes Header CachedRead Qcow2Lookup Create CreateProps CreateHeader CreatePlan.

(** ** Entries *)

Lemma aligned_land x m : 0 <= x < 2 ^ 56 -> x mod 512 = 0 -> Z.land L2_OFFSET_MASK m = 0 -> Z.land x m = 0.
Proof.
  intros Hx Hm Hmask. rewrite <- (L1_mask_id x Hx Hm). change L1_OFFSET_MASK with L2_OFFSET_MASK.
  by rewrite <- Z.land_assoc, Hmask, Z.land_0_r.
Qed.

Lemma copied_offset x : 0 <= x < 2 ^ 56 -> x mod 512 = 0 -> Z.land (Z.lor x OFLAG_COPIED) L2_OFFSET_MASK = x.
Proof.
  intros Hx Hm. rewrite Z.land_lor_distr_l. change (Z.land OFLAG_COPIED L2_OFFSET_MASK) with 0.
  rewrite Z.lor_0_r. exact (L1_mask_id x Hx Hm).
Qed.

(** An entry the builder writes is a standard cluster. *)
Lemma classify_copied st x guest : st_extended_l2 st = false -> has_data_file st = false ->
  0 < x < 2 ^ 56 -> x mod 512 = 0 -> classify_l2_entry st (Z.lor x OFLAG_COPIED) 0 guest = ClStandard x.
Proof.
  intros He Hd Hx Hm. unfold classify_l2_entry. rewrite He, Hd. unfold data_file_entry_violation. cbn [negb].
  assert (cluster_type (Z.lor x OFLAG_COPIED) false false = CtNormal) as Hct.
  { unfold cluster_type. rewrite (copied_offset x) by lia. rewrite !Z.land_lor_distr_l.
    rewrite (aligned_land x OFLAG_COMPRESSED), (aligned_land x QCOW_OFLAG_ZERO) by (done || lia).
    change (nonzero (Z.lor 0 (Z.land OFLAG_COPIED OFLAG_COMPRESSED))) with false.
    change (nonzero (Z.lor 0 (Z.land OFLAG_COPIED QCOW_OFLAG_ZERO))) with false. cbn [andb].
    destruct (Z.eqb_spec x 0); [lia|done]. }
  unfold subcluster_range, subcluster_type. rewrite Hct. cbn. by rewrite (copied_offset x) by lia.
Qed.

(** ** Reading the image *)

Section reads.
Context (ssz cap : Z) (img : bytes).
Context (Hssz : ssz mod 512 = 0) (Hpos : 0 < ssz) (Hcap : cap * ssz = blen img).

Lemma ssz_multiple : exists q, ssz = 512 * q /\ 0 < q.
Proof. exists (ssz / 512). pose proof (Z.div_mod ssz 512 ltac:(lia)). lia. Qed.

Lemma direct_u64 off : 0 <= off -> off mod 8 = 0 -> off + 8 <= blen img ->
  direct_read ssz cap img 8 be_val off = Some (u64_at img off).
Proof.
  intros Ho Hm Hl. destruct ssz_multiple as (q & Hq & Hq0). unfold direct_read, u64_at.
  pose proof (Z.mod_pos_bound off ssz Hpos) as Hb. pose proof (Z.div_mod off ssz ltac:(lia)) as Hdm.
  assert ((off mod ssz) mod 8 = 0) as Hm8.
  { rewrite Hq. replace (512 * q) with (8 * (64 * q)) by lia. rewrite Z.rem_mul_r by lia.
    rewrite Hm, Z.add_0_l, Z.mul_comm. apply Z.mod_mul. lia. }
  pose proof (Z.div_mod (off mod ssz) 8 ltac:(lia)) as Hdm8.
  assert (off / ssz < cap) by (apply Z.div_lt_upper_bound; lia).
  destruct (Z.leb_spec (off mod ssz + 8) ssz), (Z.ltb_spec (off / ssz) cap); try lia.
  cbn [andb]. destruct (slice_of img off (off + 8)) as (s & -> & _); [lia | lia|]. done.
Qed.

Lemma direct_u32_header off : 0 <= off -> off + 4 <= 512 -> 512 <= blen img ->
  direct_read ssz cap img 4 be_val off = Some (u32_at img off).
Proof.
  intros Ho H512 Hl. destruct ssz_multiple as (q & Hq & Hq0). unfold direct_read, u32_at.
  rewrite Z.mod_small, Z.div_small by lia. assert (0 < cap) by nia.
  destruct (Z.leb_spec (off + 4) ssz), (Z.ltb_spec 0 cap); try lia. cbn [andb].
  destruct (slice_of img off (off + 4)) as (s & -> & _); [lia | lia|]. done.
Qed.

End reads.

(** ** The created image *)

Section image.
Context (opts : Qcow2CreateOpts) (l : Qcow2Layout) (plan : MetadataPlan) (h t1 rt rb : bytes) (tables : list bytes) (img : bytes).
Context (Hl : layout_ok l) (Hbd : layout_bounds l) (Hreq : request_ok opts) (Hp : plan_holds opts l plan h t1 rt rb).
Context (Ht : length tables = Z.to_nat (ly_l2_clusters l)) (Hpts : forall k t, tables !! k = Some t -> l2_points l (Z.of_nat k) t).
Context (Hlen : blen img = ly_total_file_size l).
Context (Himg : forall off src, (off, src) ∈ guest_writes plan (table_writes l (ly_l2_base_offset l) tables) ->
                slice img off (off + blen src) = Some src).

Abbreviation cs := (ly_cluster_size l).
Abbreviation hdr := (created_header (header_opts opts l)).

(** The four structures of the plan. *)
Lemma img_structures : slice img 0 cs = Some h /\
  slice img (ly_l1_offset l) (ly_l1_offset l + ly_l1_clusters l * cs) = Some t1 /\
  slice img (ly_refcount_table_offset l) (ly_refcount_table_offset l + ly_refcount_table_clusters l * cs) = Some rt /\
  slice img (ly_refcount_blocks_base_offset l) (ly_refcount_blocks_base_offset l + ly_refcount_block_count l * cs) = Some rb.
Proof.
  destruct Hp as [Hw _ _ (_ & Lh & _) _ (L1 & _ & _) (L2 & _ & _) (L3 & _ & _)]. unfold guest_writes in Himg. rewrite Hw in Himg.
  rewrite <- L1, <- L2, <- L3, <- Lh. change (blen h) with (0 + blen h). split_and!; apply Himg; cbn [app];
    repeat first [apply list_elem_of_here | apply list_elem_of_further].
Qed.

Lemma img_parse : parse img = Ok hdr.
Proof.
  destruct img_structures as (Hh & _). pose proof (lb_cs l Hbd). pose proof (slice_Some _ _ _ _ Hh) as (_ & Hle & _).
  rewrite parse_header_at by lia. rewrite (header_at_prefix _ _ _ Hh) by lia. destruct (ph_header _ _ _ _ _ _ _ Hp) as (-> & _).
  by rewrite (created_valid _ (request_opts_ok opts l Hreq Hl Hbd)).
Qed.

Lemma img_refcount c : 0 <= c < ly_refcount_block_count l * epb l ->
  image_refcount img hdr c = Ok (if c <? ly_total_clusters l then 1 else 0).
Proof.
  intros Hc. destruct img_structures as (_ & _ & Hrt & Hrb). destruct (epb_bounds l Hl Hbd) as (He & _).
  destruct (ph_rt _ _ _ _ _ _ _ Hp) as (Lrt & _ & Rrt). destruct (ph_rb _ _ _ _ _ _ _ Hp) as (Lrb & _ & Rrb).
  assert (0 <= c / epb l < ly_refcount_block_count l) as Hk
    by (split; [apply Z.div_pos; lia | apply Z.div_lt_upper_bound; lia]).
  assert ((c / epb l + 1) * 8 <= blen rt) as Hfit.
  { rewrite Lrt. destruct (lo_fixed l Hl) as [_ Hf]. pose proof (lb_cs l Hbd).
    destruct (div_ceil_spec (ly_refcount_block_count l * 8) cs ltac:(lia)) as [Hge _]. rewrite <- Hf in Hge. lia. }
  unfold image_refcount. cbn [hdr_cluster_size hdr_refcount_bits hdr_refcount_table_offset created_header header_opts bh_layout].
  change (cs * 8 / ly_refcount_bits l) with (epb l).
  rewrite (u64_at_region _ _ _ _ (8 * (c / epb l)) Hrt) by lia. rewrite Rrt by lia.
  destruct (Z.ltb_spec (c / epb l) (ly_refcount_block_count l)); [|lia].
  destruct (Rrb (c / epb l) Hk) as (b & Hb & Hcount). pose proof (slice_Some _ _ _ _ Hb) as (Hb1 & Hb2 & _).
  rewrite (slice_slice _ _ _ _ _ _ Hrb) in Hb by lia. rewrite <- Z.add_assoc, Hb. cbn [or_panic obind].
  pose proof (Z.mod_pos_bound c (epb l) ltac:(lia)) as Hm. rewrite Hcount by lia.
  pose proof (Z.div_mod c (epb l) ltac:(lia)) as Hdm.
  by replace (c / epb l * epb l + c mod epb l) with c by lia.
Qed.

(** ** Lookups *)

Context (ssz cap dev : Z) (Hssz : ssz mod 512 = 0) (Hpos : 0 < ssz) (Hcap : cap * ssz = blen img).

(** The state a reader opens. *)
Definition opened : Qcow2State :=
  mkQcow2State dev cs (ly_cluster_bits l) (ly_l1_entries l) (ly_l1_offset l)
    (if ly_extended_l2 l then INCOMPAT_EXTENDED_L2 else 0) (u32_at img 104 / 2 ^ 24) 0 0 0 (ly_extended_l2 l).

Lemma img_open : init_ref dev ssz cap img = Some opened.
Proof.
  destruct img_structures as (Hh & _). pose proof (lb_cs l Hbd) as Hcs. pose proof (offsets_bound l Hl Hbd) as Ho.
  pose proof (header_at_prefix _ _ _ Hh ltac:(lia)) as Hat. destruct (ph_header _ _ _ _ _ _ _ Hp) as (Hch & _). rewrite Hch in Hat.
  pose proof (slice_Some _ _ _ _ Hh) as (_ & Hle & _).
  assert (512 <= blen img) as Hbig by lia.
  assert (forall o, 0 <= o -> o + 4 <= 512 -> direct_read ssz cap img 4 be_val o = Some (u32_at img o)) as R4
    by (intros o Ho1 Ho2; by apply direct_u32_header).
  assert (forall o, 0 <= o -> o mod 8 = 0 -> o + 8 <= 512 -> direct_read ssz cap img 8 be_val o = Some (u64_at img o)) as R8
    by (intros o Ho1 Ho2 Ho3; apply direct_u64; try done; lia).
  assert (u32_at img 4 = 3) as F4 by exact (f_equal version Hat).
  assert (u32_at img 20 = ly_cluster_bits l) as F20 by exact (f_equal hdr_cluster_bits Hat).
  assert (u32_at img 32 = 0) as F32 by exact (f_equal crypt_method Hat).
  assert (u32_at img 36 = ly_l1_entries l) as F36 by exact (f_equal hdr_l1_size Hat).
  assert (u64_at img 40 = ly_l1_offset l) as F40 by exact (f_equal hdr_l1_table_offset Hat).
  assert (u64_at img 72 = if ly_extended_l2 l then INCOMPAT_EXTENDED_L2 else 0) as F72.
  { pose proof (f_equal incompatible_features Hat) as Hf. cbn [incompatible_features created_header header_opts bh_layout header_at] in Hf.
    offs. by rewrite F4 in Hf. }
  pose proof (cr_bits _ _ _ _ _ (lo_request l Hl)) as Hbits. pose proof (lo_l1_off l Hl) as O1. pose proof (lo_rt_off l Hl) as O2.
  assert (ly_l1_entries l * 8 <= ly_l1_clusters l * cs) as Hfit.
  { destruct (div_ceil_spec (ly_l1_entries l * 8) cs ltac:(lia)) as [Hge _]. rewrite <- (lo_l1c l Hl) in Hge. lia. }
  pose proof (lb_l1 l Hbd) as Hl1e. unfold init_ref, rd32, rd64. offs. rewrite !R4, !R8 by lia || done. rewrite F4, F20, F32, F36, F40, F72. cbn [mbind option_bind Z.eqb Pos.eqb negb andb].
  destruct (Z.leb_spec 9 (ly_cluster_bits l)), (Z.leb_spec (ly_cluster_bits l) 21); try lia. cbn [negb andb].
  change (3 <=? 3) with true. cbv iota.
  rewrite Hcap, Hlen. destruct (Z.eqb_spec (ly_l1_offset l) 0); [lia|].
  destruct (Z.ltb_spec (ly_total_file_size l) (ly_l1_offset l + ly_l1_entries l * 8)); [lia|].
  destruct (Z.leb_spec (ly_total_file_size l) (ly_l1_offset l)); [lia|]. cbn [orb]. unfold opened. rewrite (lo_cs l Hl).
  by destruct (ly_extended_l2 l).
Qed.

Lemma cs_multiple : exists q, cs = 512 * q /\ 0 < q.
Proof.
  pose proof (cr_bits _ _ _ _ _ (lo_request l Hl)) as Hbits. exists (2 ^ (ly_cluster_bits l - 9)). split; [|lia].
  rewrite (lo_cs l Hl). change 512 with (2 ^ 9). rewrite <- Z.pow_add_r by lia. f_equal. lia.
Qed.

(** Every offset of the layout is a multiple of the cluster size. *)
Lemma layout_aligned : (exists a, ly_l1_offset l = a * cs) /\ (exists b, ly_l2_base_offset l = b * cs) /\
  (exists d, ly_data_base_offset l = d * cs).
Proof.
  rewrite (lo_data_off l Hl), (lo_l2_off l Hl), (lo_rb_off l Hl), (lo_rt_off l Hl), (lo_l1_off l Hl). split_and!.
  - exists 1. lia.
  - exists (1 + ly_l1_clusters l + ly_refcount_table_clusters l + ly_refcount_block_count l). lia.
  - exists (1 + ly_l1_clusters l + ly_refcount_table_clusters l + ly_refcount_block_count l + ly_l2_clusters l). lia.
Qed.

Lemma clusters_aligned k : (k * cs) mod 512 = 0 /\ (k * cs) mod 8 = 0.
Proof.
  destruct cs_multiple as (q & -> & _).
  replace (k * (512 * q)) with (k * q * 512) at 1 by lia. replace (k * (512 * q)) with (k * q * 64 * 8) by lia.
  split; apply Z.mod_mul; lia.
Qed.

Lemma img_table i : 0 <= i < ly_l2_clusters l ->
  exists t, slice img (ly_l2_base_offset l + i * cs) (ly_l2_base_offset l + i * cs + cs) = Some t /\ l2_points l i t.
Proof.
  intros Hi. destruct (tables !! Z.to_nat i) as [t|] eqn:Et; [|apply lookup_ge_None in Et; lia].
  pose proof (Hpts _ _ Et) as Hpt. rewrite Z2Nat.id in Hpt by lia. exists t. split; [|done]. destruct Hpt as (Ltab & _ & _).
  replace (ly_l2_base_offset l + i * cs + cs) with (ly_l2_base_offset l + i * cs + blen t) by lia. apply Himg. unfold guest_writes. apply elem_of_app. right. apply elem_of_lookup_imap.
  exists (Z.to_nat i), t. split; [by rewrite Z2Nat.id by lia|done].
Qed.

(** The cluster index and its L1 index are in range. *)
Lemma guest_in_range voff : 0 <= voff < ly_virtual_size l ->
  let n := l2_entries_of (ly_cluster_bits l) (ly_extended_l2 l) in
  0 <= voff / cs < div_ceil (ly_virtual_size l) cs /\ 0 <= voff / cs / n < ly_l1_entries l /\ 0 < n.
Proof.
  intros Hv n. pose proof (lb_cs l Hbd) as Hcs. pose proof (cr_bits _ _ _ _ _ (lo_request l Hl)) as Hbits.
  pose proof (l2_entries_bounds (ly_cluster_bits l) (ly_extended_l2 l) Hbits) as Hn. fold n in Hn.
  destruct (div_ceil_spec (ly_virtual_size l) cs ltac:(lia)) as [Hg1 _].
  destruct (div_ceil_spec (ly_virtual_size l) (cs * n) ltac:(nia)) as [Hg2 _].
  assert (0 <= voff / cs) by (apply Z.div_pos; lia). split; [split; [done|]; apply Z.div_lt_upper_bound; lia|]. split; [|lia].
  split; [apply Z.div_pos; lia|]. rewrite Z.div_div by lia. apply Z.div_lt_upper_bound; [nia|].
  rewrite (lo_l1 l Hl). unfold l2_coverage_of. fold n. rewrite <- (lo_cs l Hl). lia.
Qed.

(** Where a guest offset is. *)
Definition expected_lookup (voff : Z) : ClusterLookup :=
  if populates_data_metadata (ly_preallocation l) then ClStandard (ly_data_base_offset l + voff / cs * cs) else ClUnallocated.

(** The L1 entry of a guest offset. *)
Lemma img_l1_entry i : 0 <= i < ly_l1_entries l ->
  direct_read ssz cap img 8 be_val (ly_l1_offset l + 8 * i) =
    Some (if populates_data_metadata (ly_preallocation l) then Z.lor (ly_l2_base_offset l + i * cs) OFLAG_COPIED else 0).
Proof.
  intros Hi. destruct img_structures as (_ & Hl1 & _). pose proof (lb_cs l Hbd) as Hcs. pose proof (offsets_bound l Hl Hbd) as Ho.
  destruct (ph_l1 _ _ _ _ _ _ _ Hp) as (L1 & _ & R1). pose proof (slice_Some _ _ _ _ Hl1) as (_ & Hend & _).
  assert ((i + 1) * 8 <= blen t1) as Hfit.
  { rewrite L1. destruct (div_ceil_spec (ly_l1_entries l * 8) cs ltac:(lia)) as [Hge _]. rewrite <- (lo_l1c l Hl) in Hge. lia. }
  destruct layout_aligned as ((a & Ha) & _ & _). destruct (clusters_aligned a) as [_ Hm8].
  rewrite direct_u64 by (done || lia || (rewrite Ha, (Z.mul_comm 8), Z.mod_add by lia; done)). f_equal.
  rewrite (u64_at_region _ _ _ _ (8 * i) Hl1) by lia. rewrite R1 by lia. pose proof (lo_l2c l Hl) as Hl2c.
  destruct (populates_data_metadata (ly_preallocation l)); destruct (Z.ltb_spec i (ly_l2_clusters l)); try lia; done.
Qed.

Lemma img_lookup voff : 0 <= voff < ly_virtual_size l ->
  (populates_data_metadata (ly_preallocation l) = true -> ly_total_file_size l <= 2 ^ 56) ->
  cluster_ref opened ssz cap img voff = Some (expected_lookup voff).
Proof.
  intros Hv H56. pose proof (lb_cs l Hbd) as Hcs. pose proof (offsets_bound l Hl Hbd) as Ho.
  destruct (guest_in_range voff Hv) as (Hc & Hi & Hn). unfold cluster_ref. cbn [cluster_bits l1_size l1_table_offset opened st_extended_l2].
  change (entries_per_l2 opened) with (l2_entries_of (ly_cluster_bits l) (ly_extended_l2 l)). rewrite <- (lo_cs l Hl).
  set (n := l2_entries_of (ly_cluster_bits l) (ly_extended_l2 l)) in *. set (c := voff / cs) in *.
  destruct (Z.leb_spec (ly_l1_entries l) (c / n)); [lia|]. rewrite img_l1_entry by done. cbn [mbind option_bind]. unfold expected_lookup. fold c.
  pose proof (lo_l2c l Hl) as Hl2c. pose proof (lo_data l Hl) as Hdc. pose proof (cr_ext _ _ _ _ _ (lo_request l Hl)) as Hext.
  destruct (populates_data_metadata (ly_preallocation l)); [|done]. rewrite andb_true_r in Hext. specialize (H56 eq_refl).
  destruct layout_aligned as (_ & (b & Hb) & (d & Hd)). pose proof (lo_l2_off l Hl) as O4. pose proof (lb_rb l Hbd) as Hrb.
  assert (0 < ly_refcount_block_count l * cs) by (apply Z.mul_pos_pos; lia).
  destruct (region_bound l Hbd _ _ (c / n) (l2_region l Hl Hbd) ltac:(lia) ltac:(lia)) as [Hi0 Hi1].
  destruct (region_bound l Hbd _ _ c (data_region l Hl) ltac:(lia) ltac:(lia)) as [Hc0 Hc1].
  change (2 ^ 56) with 72057594037927936 in H56.
  rewrite copied_offset; [|change (2 ^ 56) with 72057594037927936; lia | rewrite Hb, <- Z.mul_add_distr_r; apply clusters_aligned].
  destruct (Z.eqb_spec (ly_l2_base_offset l + c / n * cs) 0); [lia|].
  destruct (Z.leb_spec (cap * ssz) (ly_l2_base_offset l + c / n * cs)); [lia|].
  assert (n = epl l) as Hne by (unfold n, l2_entries_of, epl; by rewrite Hext, (lo_cs l Hl)). rewrite Hne in *.
  change (entry_size opened) with (if ly_extended_l2 l then 16 else 8). rewrite Hext.
  pose proof (Z.mod_pos_bound c (epl l) ltac:(lia)) as Hm.
  assert (epl l * 8 <= cs) as Hepl by (unfold epl; pose proof (Z.mul_div_le cs 8 ltac:(lia)); lia).
  destruct (img_table (c / epl l) ltac:(lia)) as (t & Hts & (Ltab & _ & Rt)).
  rewrite direct_u64; [|done | done | done | lia | | rewrite Hlen; lia].
  2:{ rewrite Hb, <- Z.mul_add_distr_r, Z.mod_add by lia. apply clusters_aligned. }
  cbn [mbind option_bind]. rewrite (Z.mul_comm (c mod epl l) 8). rewrite (u64_at_region _ _ _ _ (8 * (c mod epl l)) Hts) by lia.
  rewrite Rt by lia. pose proof (Z.div_mod c (epl l) ltac:(lia)) as Hdm.
  replace (c / epl l * epl l + c mod epl l) with c by lia. destruct (Z.ltb_spec c (ly_data_clusters l)); [|lia].
  f_equal. apply classify_copied.
  - done.
  - unfold has_data_file, opened. cbn [st_incompatible_features]. by rewrite Hext.
  - change (2 ^ 56) with 72057594037927936. lia.
  - rewrite Hd, <- Z.mul_add_distr_r. apply clusters_aligned.
Qed.

End image.

(** The lookup does not depend on the encryption pointer. *)
Lemma cluster_ref_drop st ssz cap img v : cluster_ref st ssz cap img v = cluster_ref (drop_luks st) ssz cap img v.
Proof. done. Qed.

Lemma lookups_map st0 st ssz cap img (f : Z -> ClusterLookup) voffs answers : st0 = drop_luks st ->
  (forall v, v ∈ voffs -> cluster_ref st0 ssz cap img v = Some (f v)) ->
  mapM (cluster_ref st ssz cap img) voffs = Some answers -> answers = map f voffs.
Proof.
  intros -> Hf Hm. revert answers Hm. induction voffs as [|v voffs IH]; intros answers Hm; [by injection Hm as <-|].
  cbn [mapM] in Hm. rewrite cluster_ref_drop, Hf in Hm by apply list_elem_of_here. cbn [mbind option_bind] in Hm.
  apply bind_Some in Hm as (rest & Hrest & Hm). injection Hm as <-. cbn [map]. f_equal.
  apply IH; [|done]. intros v' Hv'. apply Hf. by apply list_elem_of_further.
Qed.

(** The fields of an accepted layout are those of the request. *)
Lemma accepted_layout opts n l : request_ok opts -> accepts opts n l ->
  ly_cluster_size l = qo_cluster_size opts /\ ly_virtual_size l = qo_virtual_size opts /\ ly_preallocation l = qo_preallocation opts /\
  ly_refcount_bits l = qo_refcount_bits opts /\ ly_extended_l2 l = qo_extended_l2 opts.
Proof.
  intros Hreq Ha. destruct (rq_cluster _ Hreq) as [Hc0 _]. destruct (cluster_size_ok_spec _ Hc0 (ac_cluster _ _ _ Ha)) as [Htz Hpow].
  pose proof (compute_layout_spec (qo_virtual_size opts) (trailing_zeros (qo_cluster_size opts)) (qo_refcount_bits opts)
    (qo_extended_l2 opts) (qo_preallocation opts) (rq_size _ Hreq) ltac:(unfold is_u32, u32_max; lia)
    ltac:(destruct (rq_bits _ Hreq); unfold u8_max, is_u32, u32_max in *; lia)) as Hlay.
  rewrite (ac_layout _ _ _ Ha) in Hlay. destruct Hlay as (Hl & _ & [= E1 E2 E3] & E4 & E5 & _).
  by rewrite (lo_cs l Hl), E1, E2, E3, E4, E5.
Qed.

(** ** The header against the request *)

(** The header [hd] of an image answers the request.  The last two fields are where it
    does not follow it: the version is 3 whatever [qo_compat_v3] says, and with a
    backing format the parser takes the first byte of the format extension for the
    compression type, 226 instead of zlib's 0. *)
Record answers_request (opts : Qcow2CreateOpts) (img : bytes) (hd : QcowHeader) : Prop := {
  ar_size : hdr_virtual_size hd = qo_virtual_size opts;
  ar_cluster : hdr_cluster_size hd = qo_cluster_size opts;
  ar_bits : hdr_refcount_bits hd = qo_refcount_bits opts;
  ar_ext : extended_l2 hd = qo_extended_l2 opts;
  ar_lazy : lazy_refcounts hd = qo_lazy_refcounts opts;
  ar_plain : crypt_method hd = 0 /\ nb_snapshots hd = 0 /\ hdr_dirty hd = false /\ hdr_corrupt hd = false /\
             has_external_data hd = false;
  ar_backing : match qo_backing opts with
               | Some b => slice img (backing_file_offset hd) (backing_file_offset hd + backing_file_size hd) = Some (br_path b)
               | None => backing_file_offset hd = 0 /\ backing_file_size hd = 0
               end;
  ar_version : version hd = 3;
  ar_compression : compression_type hd = match qo_backing opts ≫= br_format with Some _ => 226 | None => 0 end
}.

Lemma created_answers opts n l plan h t1 rt rb img : request_ok opts -> accepts opts n l -> layout_ok l -> layout_bounds l ->
  plan_holds opts l plan h t1 rt rb -> slice img 0 (ly_cluster_size l) = Some h ->
  answers_request opts img (created_header (header_opts opts l)).
Proof.
  intros Hreq Ha Hl Hbd Hp Hh. destruct (accepted_layout opts n l Hreq Ha) as (Ecs & Evs & _ & Eb & Ee).
  constructor; cbn [created_header header_opts bh_layout hdr_virtual_size hdr_cluster_size hdr_refcount_bits extended_l2
    lazy_refcounts bh_lazy_refcounts crypt_method bh_luks_header nb_snapshots hdr_dirty hdr_corrupt has_external_data
    backing_file_offset backing_file_size version compression_type bh_backing_file]; try done.
  - pose proof (ph_path _ _ _ _ _ _ _ Hp) as Hpath. pose proof (ac_fits _ _ _ Ha) as Hfit.
    destruct (lens_nonneg (header_opts opts l)) as (? & ? & ?).
    destruct (qo_backing opts) as [b|] eqn:Eb0; cbn [fmap option_fmap option_map] in *.
    + rewrite (slice_slice _ _ _ _ _ _ Hh) in Hpath by (unfold path_offset in *; lia). rewrite !Z.add_0_l in Hpath.
      rewrite Hpath. cbn. by rewrite Eb0.
    + unfold path_len. cbn [header_opts bh_backing_file]. by rewrite Eb0.
  - unfold first_ext_byte. cbn [header_opts bh_backing_format bh_luks_header]. unfold backing_format_bytes.
    destruct (qo_backing opts) as [b|]; [|done]. cbn. by destruct (br_format b).
Qed.

(** The image the guest's writes give. *)
Lemma emitted_image opts l plan h t1 rt rb n l2_buf osz : request_ok opts -> accepts opts n l -> layout_ok l -> layout_bounds l ->
  plan_holds opts l plan h t1 rt rb -> ly_cluster_size l <= blen l2_buf -> 0 < osz <= ly_cluster_size l ->
  exists tables extra img,
    emit_qcow2_l2_and_extend opts l2_buf osz (minimum_file_size plan) = Ok extra /\ created_image plan extra = Some img /\
    length tables = Z.to_nat (ly_l2_clusters l) /\ (forall k t, tables !! k = Some t -> l2_points l (Z.of_nat k) t) /\
    blen img = ly_total_file_size l /\ is_bytes img /\
    (forall off src, (off, src) ∈ guest_writes plan (table_writes l (ly_l2_base_offset l) tables) -> slice img off (off + blen src) = Some src).
Proof.
  intros Hreq Ha Hl Hbd Hp Hbuf Hosz. destruct (accepted_layout opts n l Hreq Ha) as (_ & Evs & Epre & _).
  destruct (l2_writes_spec l Hl Hbd (Z.to_nat (ly_l2_clusters l)) 0 l2_buf ltac:(lia) ltac:(lia) ltac:(pose proof (lb_l2 l Hbd); lia))
    as (ws & Hws & tables & Ht & -> & Hpts).
  assert (forall k t, tables !! k = Some t -> l2_points l (Z.of_nat k) t) as Hpts' by (intros k t Hk; by apply (Hpts k t)).
  destruct (image_exists opts l plan h t1 rt rb tables Hl Hbd Hp Ht Hpts') as (img & Hi & Hlen & Hb & Hin).
  pose proof (offsets_bound l Hl Hbd) as Ho. pose proof (lb_cs l Hbd) as Hcs. pose proof (lo_l1_off l Hl).
  unfold emit_qcow2_l2_and_extend. rewrite <- Epre. pose proof (lo_l2c l Hl) as Hl2. pose proof (lo_data l Hl) as Hd.
  destruct (populates_data_metadata (ly_preallocation l)) eqn:Ep.
  - rewrite Epre, (ac_layout _ _ _ Ha). cbn [map_err obind]. rewrite <- Hl2, Hws. cbn [obind].
    rewrite (ph_size _ _ _ _ _ _ _ Hp). destruct (Z.ltb_spec 0 (ly_total_file_size l)); [|lia].
    rewrite wsub_small by (unfold u64_max; lia).
    pose proof (cr_size _ _ _ _ _ (lo_request l Hl)) as Hvs. destruct (div_ceil_spec (ly_virtual_size l) (ly_cluster_size l) ltac:(lia)) as [Hge _].
    eexists tables, _, img. split; [done|]. split; [|done].
    apply (tail_kept opts l plan h t1 rt rb tables Hl Hbd Hp Ht Hpts'); [done | nia | done].
  - exists tables, [], img. split; [done|]. rewrite Hl2 in Ht. destruct tables; [|done]. rewrite Hl2. done.
Qed.

(** ** Properties *)

(** C32: [plan_qcow2] returns for every request and scratch buffer, without a panic: a
    plan exactly when the cluster size, the layout and the backing name are within
    the limits, the name fits the header cluster and the scratch buffer holds the
    metadata.  The plan is four writes that tile the file from byte 0 to the end of
    the refcount blocks, and its minimum file size is the layout's file size also
    without preallocation, as the builder asserts. *)
Theorem qcow2_plan_exact (opts : Qcow2CreateOpts) (scratch : bytes) :
  request_ok opts -> is_bytes scratch ->
  match plan_qcow2 opts scratch with
  | Ok plan =>
      exists l h t1 rt rb, accepts opts (blen scratch) l /\
        mp_writes plan = [ (0, h); (blen h, t1); (blen h + blen t1, rt); (blen h + blen t1 + blen rt, rb) ] /\
        blen h + blen t1 + blen rt + blen rb = plan_clusters l * ly_cluster_size l /\
        total_metadata_bytes plan = plan_clusters l * ly_cluster_size l /\
        minimum_file_size plan = ly_total_file_size l
  | Err _ => forall l, ~ accepts opts (blen scratch) l
  | _ => False
  end.
Proof.
  intros Hreq Hsb. pose proof (plan_qcow2_spec opts scratch Hreq Hsb) as Hs. destruct (plan_qcow2 opts scratch) as [plan| | |]; [|done..].
  destruct Hs as (l & h & t1 & rt & rb & Ha & Hl & Hbd & [Hw Hm Ht (_ & Lh & _) _ (L1 & _) (L2 & _) (L3 & _)]).
  exists l, h, t1, rt, rb. split; [done|]. rewrite Hw, L1, L2, L3, Lh. unfold plan_clusters in *.
  rewrite (lo_rb_off l Hl), (lo_rt_off l Hl), (lo_l1_off l Hl). split_and!; [done | lia | done | done].
Qed.

(** C31: What a reader finds in a created image.  The plan of an accepted request,
    together with what the guest writes after it for a preallocating one (the L2
    tables, and a zero sector at the end of the file, of at most a cluster), applied
    to the file of the planned size, gives an image whose header parses, with the
    size, cluster size, refcount width, extended-L2 and lazy-refcount bits and backing
    name of the request, no encryption and no snapshots ([answers_request]).  The
    compat option and the compression type are the exceptions: the version is always 3, and
    with a backing format the header parses with compression type 226.  In the image
    every cluster of the file has refcount 1 and every other cluster the refcount blocks
    cover has 0; and the qcow2 reader, opened on any sector size and with any cache
    contents, finds every offset of the virtual disk unallocated, or, with
    preallocation, in the data cluster of its own (file offsets beyond the 2^56 an
    entry can hold aside). *)
Theorem created_image_reads {H : Type} `{FlatInput H} (opts : Qcow2CreateOpts) (scratch l2_buf : bytes) (plan : MetadataPlan) (osz : Z) :
  request_ok opts -> is_bytes scratch -> plan_qcow2 opts scratch = Ok plan -> qo_cluster_size opts <= blen l2_buf ->
  0 < osz <= qo_cluster_size opts ->
  exists l extra img hd,
    accepts opts (blen scratch) l /\
    emit_qcow2_l2_and_extend opts l2_buf osz (minimum_file_size plan) = Ok extra /\
    created_image plan extra = Some img /\
    parse img = Ok hd /\ answers_request opts img hd /\
    ly_total_clusters l <= ly_refcount_block_count l * epb l /\
    (forall c, 0 <= c < ly_refcount_block_count l * epb l ->
       image_refcount img hd c = Ok (if c <? ly_total_clusters l then 1 else 0)) /\
    forall dev ssz cap voffs (s : InSt H),
      device_ok ssz cap img -> ssz mod 512 = 0 -> cap * ssz = blen img -> reader_ok dev ssz img s ->
      Forall (fun v => 0 <= v < qo_virtual_size opts) voffs ->
      (populates_data_metadata (qo_preallocation opts) = true -> ly_total_file_size l <= 2 ^ 56) ->
      wp (open_and_lookup (init dev ssz cap) ssz cap voffs)
        (fun r _ => snd r = map (expected_lookup l) voffs) (fun _ _ => ~ responsive (in_host s)) s.
Proof.
  intros Hreq Hsb Hplan Hbuf Hosz. pose proof (plan_qcow2_spec opts scratch Hreq Hsb) as Hs. rewrite Hplan in Hs.
  destruct Hs as (l & h & t1 & rt & rb & Ha & Hl & Hbd & Hp).
  destruct (accepted_layout opts _ l Hreq Ha) as (Ecs & Evs & Epre & _).
  destruct (emitted_image opts l plan h t1 rt rb _ l2_buf osz Hreq Ha Hl Hbd Hp ltac:(lia) ltac:(lia))
    as (tables & extra & img & Hex & Hi & Ht & Hpts' & Hlen & Hb & Hin).
  exists l, extra, img, (created_header (header_opts opts l)). split; [done|]. split; [done|]. split; [done|].
  split; [by eapply (img_parse opts l plan h t1 rt rb tables img)|].
  split; [by eapply created_answers; [..|eapply (img_structures opts l plan h t1 rt rb tables img)]|].
  split; [by apply blocks_cover|]. split; [by intros; eapply (img_refcount opts l plan h t1 rt rb tables img)|].
  intros dev ssz cap voffs s Hdev Hssz Hcap Hrd Hvs H56. pose proof (do_ssz _ _ _ Hdev) as Hz. rewrite <- Evs in Hvs. rewrite <- Epre in H56.
  pose proof (lo_vs l Hl) as Hvu. unfold is_u64 in Hvu.
  assert (init_ref dev ssz cap img = Some (opened l img dev)) as Hopen by (eapply (img_open opts l plan h t1 rt rb tables img); done || lia).
  assert (forall v, 0 <= v < ly_virtual_size l -> cluster_ref (opened l img dev) ssz cap img v = Some (expected_lookup l v)) as Hlook
    by (intros v Hv; eapply (img_lookup opts l plan h t1 rt rb tables img); done || lia).
  eapply wp_mono; [apply (qcow2_lookups_spec dev ssz cap img voffs s Hdev Hb); [|exact Hrd]| |].
  - eapply Forall_impl; [|exact Hvs]. cbn. unfold is_u64. intros v Hv. lia.
  - intros [st answers] s' (Hst & _ & Hm). cbn [fst snd] in *. rewrite Hopen in Hst.
    assert (opened l img dev = drop_luks st) as Hst' by congruence.
    apply (lookups_map (opened l img dev) st ssz cap img); [done | | done]. intros v Hv. apply Hlook. rewrite Forall_forall in Hvs. by apply Hvs, list_elem_of_In.
  - intros ? s' Hfail Hresp. destruct (Hfail Hresp) as [Hn|(st & v & Hst & Hv & Hn)]; [congruence|].
    assert (opened l img dev = drop_luks st) as Hst' by congruence. rewrite cluster_ref_drop, <- Hst' in Hn.
    rewrite Forall_forall in Hvs. rewrite Hlook in Hn; [done|]. by apply Hvs, list_elem_of_In.
Qed.

(** A preallocated 4 KiB image on 512-byte clusters. *)
Definition demo_request : Qcow2CreateOpts := mkQcow2CreateOpts 4096 512 16 false false true None Metadata.

Lemma demo_request_ok : request_ok demo_request.
Proof. constructor; [by split | by split | by split | intros b Hb; discriminate Hb]. Qed.

Lemma qcow2_plan_exact_witness :
  exists plan l, plan_qcow2 demo_request (filled 2048 7) = Ok plan /\ accepts demo_request 2048 l /\ minimum_file_size plan = ly_total_file_size l.
Proof.
  pose proof (qcow2_plan_exact demo_request (filled 2048 7) demo_request_ok (filled_is_bytes 2048 7 ltac:(by split))) as Hs.
  assert (exists plan, plan_qcow2 demo_request (filled 2048 7) = Ok plan) as [plan E] by (eexists; vm_compute; reflexivity).
  rewrite E in Hs. destruct Hs as (l & h & t1 & rt & rb & Ha & _ & _ & _ & Hm). exists plan, l. split; [exact E|]. split; [exact Ha|exact Hm].
Defined.

Lemma demo_device img : blen img = 6656 -> device_ok 512 13 img.
Proof. intros Hl. constructor; rewrite ?Hl; unfold MAX_SECTOR_SIZE, u64_max; lia. Qed.

Lemma created_image_reads_witness :
  exists plan l extra img hd,
    plan_qcow2 demo_request (filled 2048 7) = Ok plan /\ created_image plan extra = Some img /\
    parse img = Ok hd /\ answers_request demo_request img hd /\ expected_lookup l 700 = ClStandard 3072 /\
    wp (open_and_lookup (init 0 512 13) 512 13 [700]) (fun r _ => snd r = map (expected_lookup l) [700])
      (fun _ _ => ~ responsive (mkVecInput [img])) (InSt_new (mkVecInput [img]) 0 (filled 512 0) (filled 512 0)).
Proof.
  assert (exists plan, plan_qcow2 demo_request (filled 2048 7) = Ok plan /\ minimum_file_size plan = 6656) as (plan & E & Hmin)
    by (eexists; split; [vm_compute; reflexivity | reflexivity]).
  destruct (created_image_reads (H := VecInput) demo_request (filled 2048 7) (filled 512 0) plan 512 demo_request_ok
    (filled_is_bytes 2048 7 ltac:(by split)) E ltac:(vm_compute; discriminate) ltac:(vm_compute; split; [reflexivity | discriminate]))
    as (l & extra & img & hd & Ha & Ht & Hi & Hp & Hans & _ & _ & Hr).
  clear Ht. pose proof (apply_writes_blen _ _ _ Hi) as Hlen. rewrite Hmin in Hlen. change (blen (filled 6656 0)) with 6656 in Hlen.
  pose proof (ac_layout _ _ _ Ha) as El. vm_compute in El. injection El as El.
  exists plan, l, extra, img, hd. split; [exact E|]. split; [exact Hi|]. split; [exact Hp|]. split; [exact Hans|]. split; [rewrite <- El; reflexivity|].
  apply Hr.
  - exact (demo_device img Hlen).
  - reflexivity.
  - rewrite Hlen. reflexivity.
  - apply (vec_ready (mkVecInput [img])); clear; vm_compute; discriminate.
  - clear. constructor; [change (0 <= 700 < 4096); lia | constructor].
  - clear - El. intros _. rewrite <- El. vm_compute. discriminate.
Defined.
