(* ===== verification/Utf16.v ===== *)
(** UTF-16 and UTF-8 ([utf16_to_utf8], [utf8_to_utf16] and the field helpers of
    [src/src/shared/src/lib.rs]), with the strings they transcode.  A [&str] is the list of
    its [char]s; its bytes are their UTF-8 encodings. *)

From stdpp Require Import base numbers list sets option.
From Stdlib Require Import ZArith Lia.
From S2P Require Import Prelude Bytes ExecBytes CachedRead.

(** ** Definitions *)

(** [char]: a Unicode scalar value. *)
Definition is_char (c : Z) : bool := ((0 <=? c) && (c <? 0xD800)) || ((0xDFFF <? c) && (c <=? 0x10FFFF)).

(** The encoding of one scalar, as [utf16_to_utf8] writes it by hand. *)
Definition utf8_bytes (scalar : Z) : bytes :=
  if scalar <? 0x80 then [as_u8 scalar]
  else if scalar <? 0x800 then
    [Z.lor 0xC0 (as_u8 (Z.shiftr scalar 6)); Z.lor 0x80 (as_u8 (Z.land scalar 0x3F))]
  else if scalar <? 0x10000 then
    [Z.lor 0xE0 (as_u8 (Z.shiftr scalar 12)); Z.lor 0x80 (as_u8 (Z.land (Z.shiftr scalar 6) 0x3F));
     Z.lor 0x80 (as_u8 (Z.land scalar 0x3F))]
  else
    [Z.lor 0xF0 (as_u8 (Z.shiftr scalar 18)); Z.lor 0x80 (as_u8 (Z.land (Z.shiftr scalar 12) 0x3F));
     Z.lor 0x80 (as_u8 (Z.land (Z.shiftr scalar 6) 0x3F)); Z.lor 0x80 (as_u8 (Z.land scalar 0x3F))].

(** [str::as_bytes]. *)
Definition str_bytes (s : list Z) : bytes := concat (map utf8_bytes s).

(** [char::encode_utf16]. *)
Definition encode_utf16 (c : Z) : list Z :=
  if c <? 0x10000 then [c] else [0xD800 + Z.shiftr (c - 0x10000) 10; 0xDC00 + Z.land (c - 0x10000) 0x3FF].

Definition unit_at (src : bytes) (big_endian : bool) (off : Z) : outcome unit Z :=
  if big_endian then be_u16 src off else le_u16 src off.

(** One scalar into [dst] at [out]. *)
Definition put_scalar (scalar out : Z) : SM bytes unit Z :=
  let enc := utf8_bytes scalar in
  let! e := slift (ok_or (checked_add out (blen enc)) tt) in
  let! dst := sget in
  if blen dst <? e then sfail tt
  else
  let! dst' := slift (or_panic (splice dst out enc)) in
  do! sput dst' in
  sret e.

(** The [match unit]: the scalar a code unit starts, and where the next one is. *)
Definition next_scalar (src : bytes) (big_endian : bool) (u i : Z) : outcome unit (Z * Z) :=
  if (0xD800 <=? u) && (u <=? 0xDBFF) then
    if blen src <=? i then Err tt
    else
    let? low := unit_at src big_endian i in
    if negb ((0xDC00 <=? low) && (low <=? 0xDFFF)) then Err tt
    else Ok (0x10000 + Z.lor (Z.shiftl (u - 0xD800) 10) (low - 0xDC00), i + 2)
  else if (0xDC00 <=? u) && (u <=? 0xDFFF) then Err tt
  else Ok (u, i).

(** The [while] loop; every turn consumes a code unit. *)
Fixpoint utf16_loop (n : nat) (src : bytes) (big_endian : bool) (i out : Z) : SM bytes unit Z :=
  match n with
  | O => slift OutOfFuel
  | S n' =>
      if blen src <=? i then sret out
      else
      let! u := slift (unit_at src big_endian i) in
      let i := i + 2 in
      if u =? 0 then sret out
      else
      let! (scalar, i) := slift (next_scalar src big_endian u i) in
      let! out := put_scalar scalar out in
      utf16_loop n' src big_endian i out
  end.

Definition utf16_to_utf8 (src : bytes) (big_endian : bool) : SM bytes unit Z :=
  if negb (is_multiple_of (blen src) 2) then sfail tt
  else utf16_loop (S (length src)) src big_endian 0 0.

Definition utf16_encode_refuse (written : Z) : SM bytes unit Z :=
  let! dst := sget in
  let! dst' := slift (or_panic (splice dst 0 (filled written 0))) in
  do! sput dst' in
  sfail tt.

(** The inner loop over the code units of one [char]. *)
Fixpoint put_units (units : list Z) (big_endian : bool) (out : Z) : SM bytes unit Z :=
  match units with
  | [] => sret out
  | u :: rest =>
      match checked_add out 2 with
      | None => utf16_encode_refuse out
      | Some e =>
          let! dst := sget in
          if blen dst <? e then utf16_encode_refuse out
          else
          let! dst' := slift (or_panic (splice dst out (if big_endian then be_bytes 2 u else le_bytes 2 u))) in
          do! sput dst' in
          put_units rest big_endian e
      end
  end.

Fixpoint utf8_to_utf16_loop (s : list Z) (big_endian : bool) (out : Z) : SM bytes unit Z :=
  match s with
  | [] => sret out
  | ch :: rest =>
      let! out := put_units (encode_utf16 ch) big_endian out in
      utf8_to_utf16_loop rest big_endian out
  end.

Definition utf8_to_utf16 (s : list Z) (big_endian : bool) : SM bytes unit Z := utf8_to_utf16_loop s big_endian 0.

(** [str::from_utf8]: every character in its shortest form, no surrogates. *)
Definition is_cont (b : Z) : bool := (0x80 <=? b) && (b <=? 0xBF).

Fixpoint from_utf8 (l : bytes) : option (list Z) :=
  match l with
  | [] => Some []
  | a :: l1 =>
      if a <? 0x80 then cons a <$> from_utf8 l1
      else
      match l1 with
      | b :: l2 =>
          if (0xC0 <=? a) && (a <? 0xE0) then
            let c := (a - 0xC0) * 64 + (b - 0x80) in
            if is_cont b && (0x80 <=? c) then cons c <$> from_utf8 l2 else None
          else
          match l2 with
          | d :: l3 =>
              if (0xE0 <=? a) && (a <? 0xF0) then
                let c := (a - 0xE0) * 4096 + (b - 0x80) * 64 + (d - 0x80) in
                if is_cont b && is_cont d && (0x800 <=? c) && is_char c then cons c <$> from_utf8 l3 else None
              else
              match l3 with
              | e :: l4 =>
                  let c := (a - 0xF0) * 262144 + (b - 0x80) * 4096 + (d - 0x80) * 64 + (e - 0x80) in
                  if (0xF0 <=? a) && is_cont b && is_cont d && is_cont e && (0x10000 <=? c) && is_char c
                  then cons c <$> from_utf8 l4 else None
              | [] => None
              end
          | [] => None
          end
      | [] => None
      end
  end.

(** The bounded decode of [decode_utf16_field_nul_terminated]: [dst\[..bound\]] is decoded
    into even when the result is refused. *)
Definition decode_utf16_field_nul_terminated (src : bytes) (big_endian : bool) : SM bytes unit bool :=
  let! dst := sget in
  if blen dst =? 0 then sret false
  else
  let bound := blen dst - 1 in
  let! part := slift (or_panic (slice dst 0 bound)) in
  let '(r, part') := utf16_to_utf8 src big_endian part in
  let! dst' := slift (or_panic (splice dst 0 part')) in
  do! sput dst' in
  match r with
  | Ok len =>
      if 0 <? len then
        let! dst'' := slift (or_panic (set_byte dst' len 0)) in
        do! sput dst'' in sret true
      else sret false
  | Err _ => sret false
  | Panic => slift Panic
  | OutOfFuel => slift OutOfFuel
  end.

(** ** The encodings, by arithmetic *)

Lemma cont_bits x : 0 <= x < 64 -> Z.lor 0x80 (as_u8 x) = 128 + x.
Proof. intros Hx. unfold as_u8. rewrite Z.mod_small by lia. apply (lor_low 128 x 6); [lia | done | lia]. Qed.

Lemma land_63 x : Z.land x 0x3F = x mod 64.
Proof. change 0x3F with (Z.ones 6). by rewrite Z.land_ones by lia. Qed.

Lemma utf8_bytes_arith c : 0 <= c <= 0x10FFFF ->
  utf8_bytes c =
    if c <? 0x80 then [c]
    else if c <? 0x800 then [192 + c / 64; 128 + c mod 64]
    else if c <? 0x10000 then [224 + c / 4096; 128 + (c / 64) mod 64; 128 + c mod 64]
    else [240 + c / 262144; 128 + (c / 4096) mod 64; 128 + (c / 64) mod 64; 128 + c mod 64].
Proof.
  intros Hc. unfold utf8_bytes. rewrite !land_63, !Z.shiftr_div_pow2 by lia.
  change (2 ^ 6) with 64. change (2 ^ 12) with 4096. change (2 ^ 18) with 262144.
  pose proof (Z.mod_pos_bound c 64 ltac:(lia)). pose proof (Z.mod_pos_bound (c / 64) 64 ltac:(lia)). pose proof (Z.mod_pos_bound (c / 4096) 64 ltac:(lia)).
  destruct (Z.ltb_spec c 0x80); [unfold as_u8; by rewrite Z.mod_small by lia|].
  destruct (Z.ltb_spec c 0x800).
  { rewrite cont_bits by lia. unfold as_u8. assert (0 <= c / 64 < 32) by (split; [apply Z.div_pos | apply Z.div_lt_upper_bound]; lia).
    rewrite (Z.mod_small (c / 64) 256) by lia. by rewrite (lor_low 192 _ 6) by lia || done. }
  destruct (Z.ltb_spec c 0x10000).
  { rewrite !cont_bits by lia. unfold as_u8. assert (0 <= c / 4096 < 16) by (split; [apply Z.div_pos | apply Z.div_lt_upper_bound]; lia).
    rewrite (Z.mod_small (c / 4096) 256) by lia. by rewrite (lor_low 224 _ 5) by lia || done. }
  rewrite !cont_bits by lia. unfold as_u8. assert (0 <= c / 262144 < 8) by (split; [apply Z.div_pos | apply Z.div_lt_upper_bound]; lia).
  rewrite (Z.mod_small (c / 262144) 256) by lia. by rewrite (lor_low 240 _ 4) by lia || done.
Qed.

Lemma is_char_spec c : is_char c = true <-> (0 <= c < 0xD800 \/ 0xDFFF < c <= 0x10FFFF).
Proof.
  unfold is_char. destruct (Z.leb_spec 0 c), (Z.ltb_spec c 0xD800), (Z.ltb_spec 0xDFFF c), (Z.leb_spec c 0x10FFFF); cbn; split; done || lia.
Qed.

Definition all_chars (s : list Z) : Prop := Forall (fun c => is_char c = true) s.

Lemma char_range c : is_char c = true -> 0 <= c <= 0x10FFFF.
Proof. intros Hc%is_char_spec. lia. Qed.

Lemma utf8_bytes_ok c : 0 <= c <= 0x10FFFF -> is_bytes (utf8_bytes c) /\ 1 <= blen (utf8_bytes c) <= 4.
Proof.
  intros Hc. rewrite utf8_bytes_arith by done.
  pose proof (Z.mod_pos_bound c 64 ltac:(lia)). pose proof (Z.mod_pos_bound (c / 64) 64 ltac:(lia)). pose proof (Z.mod_pos_bound (c / 4096) 64 ltac:(lia)).
  assert (0 <= c / 262144 < 8) by (split; [apply Z.div_pos | apply Z.div_lt_upper_bound]; lia).
  destruct (Z.ltb_spec c 0x80); [|destruct (Z.ltb_spec c 0x800); [|destruct (Z.ltb_spec c 0x10000)]].
  - split; [|done]. repeat (apply Forall_cons_2; [unfold is_u8, u8_max; lia|]). apply Forall_nil_2.
  - assert (0 <= c / 64 < 32) by (split; [apply Z.div_pos | apply Z.div_lt_upper_bound]; lia).
    split; [|done]. repeat (apply Forall_cons_2; [unfold is_u8, u8_max; lia|]). apply Forall_nil_2.
  - assert (0 <= c / 4096 < 16) by (split; [apply Z.div_pos | apply Z.div_lt_upper_bound]; lia).
    split; [|done]. repeat (apply Forall_cons_2; [unfold is_u8, u8_max; lia|]). apply Forall_nil_2.
  - split; [|done]. repeat (apply Forall_cons_2; [unfold is_u8, u8_max; lia|]). apply Forall_nil_2.
Qed.

Lemma str_bytes_cons c s : str_bytes (c :: s) = utf8_bytes c ++ str_bytes s.
Proof. done. Qed.

Lemma str_bytes_ok s : Forall (fun c => 0 <= c <= 0x10FFFF) s -> is_bytes (str_bytes s).
Proof. induction 1 as [|c s Hc _ IH]; [constructor|]. rewrite str_bytes_cons. apply Forall_app_2; [by apply utf8_bytes_ok | done]. Qed.

(** Decoding an encoded string. *)
Lemma from_utf8_char c l : is_char c = true -> from_utf8 (utf8_bytes c ++ l) = cons c <$> from_utf8 l.
Proof.
  intros Hc. pose proof (char_range c Hc) as Hr. rewrite utf8_bytes_arith by done.
  pose proof (Z.mod_pos_bound c 64 ltac:(lia)). pose proof (Z.mod_pos_bound (c / 64) 64 ltac:(lia)). pose proof (Z.mod_pos_bound (c / 4096) 64 ltac:(lia)).
  pose proof (Z.div_mod c 64 ltac:(lia)) as D1. pose proof (Z.div_mod (c / 64) 64 ltac:(lia)) as D2. pose proof (Z.div_mod (c / 4096) 64 ltac:(lia)) as D3.
  rewrite (Z.div_div c 64 64) in D2 by lia. rewrite (Z.div_div c 4096 64) in D3 by lia. change (64 * 64) with 4096 in D2. change (4096 * 64) with 262144 in D3.
  assert (forall x, 0 <= x < 64 -> is_cont (128 + x) = true) as Hcont by (intros x Hx; unfold is_cont; apply andb_true_iff; lia).
  destruct (Z.ltb_spec c 0x80) as [|H80]; [|destruct (Z.ltb_spec c 0x800) as [|H800]; [|destruct (Z.ltb_spec c 0x10000) as [|H10000]]]; cbn [app from_utf8].
  - by rewrite (proj2 (Z.ltb_lt c 128)) by lia.
  - assert (0 <= c / 64 < 32) by (split; [apply Z.div_pos | apply Z.div_lt_upper_bound]; lia).
    rewrite (proj2 (Z.ltb_ge (192 + c / 64) 128)), (proj2 (Z.leb_le 192 (192 + c / 64))), (proj2 (Z.ltb_lt (192 + c / 64) 224)) by lia. cbn [andb].
    replace ((192 + c / 64 - 192) * 64 + (128 + c mod 64 - 128)) with c by lia. rewrite Hcont by lia.
    by rewrite (proj2 (Z.leb_le 128 c)) by lia.
  - assert (0 <= c / 4096 < 16) by (split; [apply Z.div_pos | apply Z.div_lt_upper_bound]; lia).
    rewrite (proj2 (Z.ltb_ge (224 + c / 4096) 128)), (proj2 (Z.leb_le 192 (224 + c / 4096))), (proj2 (Z.ltb_ge (224 + c / 4096) 224)), (proj2 (Z.leb_le 224 (224 + c / 4096))), (proj2 (Z.ltb_lt (224 + c / 4096) 240)) by lia. cbn [andb].
    replace ((224 + c / 4096 - 224) * 4096 + (128 + (c / 64) mod 64 - 128) * 64 + (128 + c mod 64 - 128)) with c by lia.
    rewrite !Hcont, Hc by lia. by rewrite (proj2 (Z.leb_le 0x800 c)) by lia.
  - assert (0 <= c / 262144 < 8) by (split; [apply Z.div_pos | apply Z.div_lt_upper_bound]; lia).
    rewrite (proj2 (Z.ltb_ge (240 + c / 262144) 128)), (proj2 (Z.leb_le 192 (240 + c / 262144))), (proj2 (Z.ltb_ge (240 + c / 262144) 224)), (proj2 (Z.leb_le 224 (240 + c / 262144))), (proj2 (Z.ltb_ge (240 + c / 262144) 240)), (proj2 (Z.leb_le 240 (240 + c / 262144))) by lia. cbn [andb].
    replace ((240 + c / 262144 - 240) * 262144 + (128 + (c / 4096) mod 64 - 128) * 4096 + (128 + (c / 64) mod 64 - 128) * 64 + (128 + c mod 64 - 128)) with c by lia.
    rewrite !Hcont, Hc by lia. by rewrite (proj2 (Z.leb_le 0x10000 c)) by lia.
Qed.

Lemma from_utf8_str s : all_chars s -> from_utf8 (str_bytes s) = Some s.
Proof. induction 1 as [|c s Hc _ IH]; [done|]. rewrite str_bytes_cons, from_utf8_char by done. by rewrite IH. Qed.

Lemma is_cont_spec b : is_cont b = true -> 128 <= b <= 191.
Proof. unfold is_cont. intros Hb. bool_to_prop. lia. Qed.

(** The shortest form of a character is unique. *)
Lemma from_utf8_sound n l s : (length l < n)%nat -> is_bytes l -> from_utf8 l = Some s -> all_chars s /\ str_bytes s = l.
Proof.
  revert l s. induction n as [|n IH]; intros l s Hn Hb Hs; [lia|]. destruct l as [|a l1]; [injection Hs as <-; by split; [constructor|]|].
  apply Forall_cons_1 in Hb as [Ha Hb1]. unfold is_u8, u8_max in Ha. cbn [length] in Hn.
  assert (forall c l' s', (length l' < n)%nat -> is_bytes l' -> cons c <$> from_utf8 l' = Some s' -> is_char c = true ->
    exists t, s' = c :: t /\ all_chars s' /\ str_bytes s' = utf8_bytes c ++ l') as Hstep.
  { intros c l' s' Hl' Hb' (t & Ht & ->)%fmap_Some Hc. destruct (IH l' t Hl' Hb' Ht) as [Hat Hst]. exists t.
    split; [done|]. split; [by constructor|]. by rewrite str_bytes_cons, Hst. }
  cbn [from_utf8] in Hs. destruct (Z.ltb_spec a 128).
  { destruct (Hstep a l1 s ltac:(lia) Hb1 Hs) as (t & _ & Hall & ->); [apply is_char_spec; lia|]. split; [done|].
    rewrite utf8_bytes_arith by lia. by rewrite (proj2 (Z.ltb_lt a 128)) by lia. }
  destruct l1 as [|b l2]; [done|]. apply Forall_cons_1 in Hb1 as [Hbb Hb2]. cbn [length] in Hn.
  destruct (Z.leb_spec 192 a), (Z.ltb_spec a 224); cbn [andb] in Hs.
  1:{ set (c := (a - 192) * 64 + (b - 128)) in *. destruct (is_cont b) eqn:Hcb; [|done]. apply is_cont_spec in Hcb. cbn [andb] in Hs.
    destruct (Z.leb_spec 128 c); [|done]. destruct (Hstep c l2 s ltac:(lia) Hb2 Hs) as (t & _ & Hall & ->); [apply is_char_spec; lia|]. split; [done|].
    rewrite utf8_bytes_arith by lia. rewrite (proj2 (Z.ltb_ge c 128)), (proj2 (Z.ltb_lt c 2048)) by lia.
    rewrite <- (Z.div_unique c 64 (a - 192) (b - 128)), <- (Z.mod_unique c 64 (a - 192) (b - 128)) by lia. cbn [app]. repeat f_equal; lia. }
  all: destruct l2 as [|d l3]; [done|]; apply Forall_cons_1 in Hb2 as [Hd Hb3]; cbn [length] in Hn;
    destruct (Z.leb_spec 224 a), (Z.ltb_spec a 240); cbn [andb] in Hs; try lia.
  1:{ set (c := (a - 224) * 4096 + (b - 128) * 64 + (d - 128)) in *. destruct (is_cont b) eqn:Hcb; [|done]. destruct (is_cont d) eqn:Hcd; [|done].
    apply is_cont_spec in Hcb, Hcd. cbn [andb] in Hs. destruct (Z.leb_spec 2048 c); [|done]. destruct (is_char c) eqn:Hc; [|done]. cbn [andb] in Hs.
    destruct (Hstep c l3 s ltac:(lia) Hb3 Hs Hc) as (t & _ & Hall & ->). split; [done|].
    rewrite utf8_bytes_arith by lia. rewrite (proj2 (Z.ltb_ge c 128)), (proj2 (Z.ltb_ge c 2048)), (proj2 (Z.ltb_lt c 65536)) by lia.
    rewrite <- (Z.div_unique c 4096 (a - 224) ((b - 128) * 64 + (d - 128))) by lia.
    rewrite <- (Z.div_unique c 64 ((a - 224) * 64 + (b - 128)) (d - 128)), <- (Z.mod_unique c 64 ((a - 224) * 64 + (b - 128)) (d - 128)) by lia.
    rewrite <- (Z.mod_unique ((a - 224) * 64 + (b - 128)) 64 (a - 224) (b - 128)) by lia. cbn [app]. repeat f_equal; lia. }
  all: destruct l3 as [|e l4]; [done|]; apply Forall_cons_1 in Hb3 as [He Hb4]; cbn [length] in Hn;
    set (c := (a - 240) * 262144 + (b - 128) * 4096 + (d - 128) * 64 + (e - 128)) in *;
    destruct (Z.leb_spec 240 a); cbn [andb] in Hs; [|done || lia]; try (exfalso; lia).
  destruct (is_cont b) eqn:Hcb; [|done]. destruct (is_cont d) eqn:Hcd; [|done]. destruct (is_cont e) eqn:Hce; [|done].
  apply is_cont_spec in Hcb, Hcd, Hce. cbn [andb] in Hs. destruct (Z.leb_spec 65536 c); [|done]. destruct (is_char c) eqn:Hc; [|done]. cbn [andb] in Hs.
  destruct (Hstep c l4 s ltac:(lia) Hb4 Hs Hc) as (t & _ & Hall & ->). split; [done|]. apply char_range in Hc.
  rewrite utf8_bytes_arith by lia. rewrite (proj2 (Z.ltb_ge c 128)), (proj2 (Z.ltb_ge c 2048)), (proj2 (Z.ltb_ge c 65536)) by lia.
  rewrite <- (Z.div_unique c 262144 (a - 240) ((b - 128) * 4096 + (d - 128) * 64 + (e - 128))) by lia.
  rewrite <- (Z.div_unique c 4096 ((a - 240) * 64 + (b - 128)) ((d - 128) * 64 + (e - 128))) by lia.
  rewrite <- (Z.div_unique c 64 ((a - 240) * 4096 + (b - 128) * 64 + (d - 128)) (e - 128)), <- (Z.mod_unique c 64 ((a - 240) * 4096 + (b - 128) * 64 + (d - 128)) (e - 128)) by lia.
  rewrite <- (Z.mod_unique ((a - 240) * 64 + (b - 128)) 64 (a - 240) (b - 128)) by lia.
  rewrite <- (Z.mod_unique ((a - 240) * 4096 + (b - 128) * 64 + (d - 128)) 64 ((a - 240) * 64 + (b - 128)) (d - 128)) by lia.
  cbn [app]. repeat f_equal; lia.
Qed.

Lemma from_utf8_Some l s : is_bytes l -> from_utf8 l = Some s -> all_chars s /\ str_bytes s = l.
Proof. apply (from_utf8_sound (S (length l))). lia. Qed.

(** ** Code units *)

(** The code units of a buffer; an odd last byte is not one. *)
Fixpoint units_of (big_endian : bool) (l : bytes) : list Z :=
  match l with
  | a :: b :: rest => (if big_endian then 256 * a + b else a + 256 * b) :: units_of big_endian rest
  | _ => []
  end.

Definition is_high (u : Z) : bool := (0xD800 <=? u) && (u <=? 0xDBFF).
Definition is_low (u : Z) : bool := (0xDC00 <=? u) && (u <=? 0xDFFF).

(** The string a sequence of code units spells, up to a NUL. *)
Fixpoint chars_of (us : list Z) : option (list Z) :=
  match us with
  | [] => Some []
  | u :: rest =>
      if u =? 0 then Some []
      else if is_high u then
        match rest with
        | low :: rest' => if is_low low then cons (0x10000 + (u - 0xD800) * 1024 + (low - 0xDC00)) <$> chars_of rest' else None
        | [] => None
        end
      else if is_low u then None
      else cons u <$> chars_of rest
  end.

Lemma pair_split (l : bytes) i : 0 <= i -> i + 2 <= blen l ->
  exists a b, drop (Z.to_nat i) l = a :: b :: drop (Z.to_nat (i + 2)) l /\ slice l i (i + 2) = Some [a; b].
Proof.
  intros Hi Hl. unfold blen in Hl. destruct (drop (Z.to_nat i) l) as [|a [|b rest]] eqn:Hd.
  1-2: apply (f_equal length) in Hd; rewrite length_drop in Hd; cbn in Hd; lia.
  exists a, b. assert (drop (Z.to_nat (i + 2)) l = rest) as ->.
  { replace (Z.to_nat (i + 2)) with (Z.to_nat i + 2)%nat by lia. rewrite <- drop_drop, Hd. done. }
  split; [done|]. rewrite slice_Some_2 by (unfold blen; lia). rewrite Hd. by replace (Z.to_nat (i + 2 - i)) with 2%nat by lia.
Qed.

(** Reading the next unit. *)
Lemma unit_step src be i : is_bytes src -> 0 <= i -> i + 2 <= blen src ->
  exists u, unit_at src be i = Ok u /\ 0 <= u <= 65535 /\
    units_of be (drop (Z.to_nat i) src) = u :: units_of be (drop (Z.to_nat (i + 2)) src).
Proof.
  intros Hb Hi Hl. destruct (pair_split src i Hi Hl) as (a & b & Hd & Hs). pose proof (slice_is_bytes _ _ _ _ Hb Hs) as Hab.
  apply Forall_cons_1 in Hab as [Ha Hab]. apply Forall_cons_1 in Hab as [Hbb _]. unfold is_u8, u8_max in *.
  exists (if be then 256 * a + b else a + 256 * b). rewrite Hd. cbn [units_of]. unfold unit_at, be_u16, le_u16. rewrite Hs.
  destruct be; cbn [or_panic obind].
  - split; [f_equal; unfold be_val; cbn; lia|]. split; [lia|done].
  - split; [f_equal; unfold le_val; cbn; lia|]. split; [lia|done].
Qed.

(** What a decode leaves in [dst]: the encoding of [s] from [out] on. *)
Record decoded (dst dst' : bytes) (out : Z) (s : list Z) : Prop := {
  dc_blen : blen dst' = blen dst;
  dc_fits : out + blen (str_bytes s) <= blen dst;
  dc_text : slice dst' out (out + blen (str_bytes s)) = Some (str_bytes s);
  dc_frame a b : (b <= out \/ out + blen (str_bytes s) <= a) -> slice dst' a b = slice dst a b
}.

Lemma decoded_nil dst out : 0 <= out <= blen dst -> decoded dst dst out [].
Proof.
  intros Ho. constructor; [done | change (blen (str_bytes [])) with 0; lia | | done]. change (str_bytes []) with ([] : bytes). change (blen []) with 0. rewrite Z.add_0_r.
  rewrite slice_Some_2 by lia. by rewrite Z.sub_diag.
Qed.

Lemma decoded_cons dst dst1 dst2 out c s : 0 <= out -> splice dst out (utf8_bytes c) = Some dst1 ->
  decoded dst1 dst2 (out + blen (utf8_bytes c)) s -> decoded dst dst2 out (c :: s).
Proof.
  intros Ho Hs [Hl Hf Ht Hfr]. pose proof (splice_blen _ _ _ _ Hs) as Hl1. pose proof (blen_nonneg (utf8_bytes c)). pose proof (blen_nonneg (str_bytes s)).
  constructor; rewrite ?str_bytes_cons, ?blen_app in *.
  - lia.
  - lia.
  - rewrite Z.add_assoc. pose proof (Hfr out (out + blen (utf8_bytes c)) ltac:(lia)) as Hpre. rewrite (slice_splice_eq _ _ _ _ Hs) in Hpre.
    destruct (slice_of dst2 out (out + blen (utf8_bytes c) + blen (str_bytes s))) as (u & Hu & Hul); [lia | lia |]. rewrite Hu. f_equal.
    rewrite <- (slice_halves u (blen (utf8_bytes c)) (utf8_bytes c) (str_bytes s)); [done | lia | |].
    + rewrite (slice_slice _ _ _ _ _ _ Hu) by lia. by rewrite Z.add_0_r.
    + rewrite (slice_slice _ _ _ _ _ _ Hu) by lia. rewrite <- Ht. f_equal. lia.
  - intros a b Hab. rewrite Hfr by lia. apply (slice_splice_ne _ _ _ _ _ _ Hs). lia.
Qed.

Lemma put_scalar_wp c out dst : 0 <= c <= 0x10FFFF -> 0 <= out <= blen dst -> blen dst <= u64_max - 4 ->
  wp (put_scalar c out)
    (fun e dst' => e = out + blen (utf8_bytes c) /\ e <= blen dst /\ splice dst out (utf8_bytes c) = Some dst')
    (fun _ dst' => dst' = dst /\ blen dst < out + blen (utf8_bytes c)) dst.
Proof.
  intros Hc Ho Hd. destruct (utf8_bytes_ok c Hc) as [_ Hl]. unfold put_scalar. do 2 wstep. rewrite checked_add_eq by lia. cbn [ok_or]. do 2 wstep.
  destruct (Z.ltb_spec (blen dst) (out + blen (utf8_bytes c))); [by wstep|]. do 2 wstep.
  destruct (splice_of dst out (utf8_bytes c)) as (dst' & Hs & _); [lia | lia |]. rewrite Hs. cbn [or_panic]. do 3 wstep. done.
Qed.

(** The refusals: malformed, or too long for [dst]. *)
Definition refuses (dst : bytes) (out : Z) (us : list Z) : Prop :=
  forall s, chars_of us = Some s -> blen dst < out + blen (str_bytes s).

(** A string without NULs. *)
Definition is_text (s : list Z) : Prop := Forall (fun c => is_char c = true /\ c <> 0) s.

(** [m] decodes the units [us] into [dst] at [out]. *)
Definition decodes (m : SM bytes unit Z) (dst : bytes) (out : Z) (us : list Z) : Prop :=
  wp m (fun e dst' => exists s, chars_of us = Some s /\ is_text s /\ e = out + blen (str_bytes s) /\ decoded dst dst' out s)
    (fun _ dst' => blen dst' = blen dst /\ refuses dst out us) dst.

Lemma decodes_nil dst out us : 0 <= out <= blen dst -> chars_of us = Some [] -> decodes (sret out) dst out us.
Proof.
  intros Ho Hus. unfold decodes. wstep. exists []. split; [done|]. split; [apply Forall_nil_2|]. split; [|by apply decoded_nil].
  change (blen (str_bytes [])) with 0. lia.
Qed.

Lemma decodes_fail dst out us : chars_of us = None -> decodes (sfail tt) dst out us.
Proof. intros Hus. unfold decodes. wstep. split; [done|]. intros s Hs. congruence. Qed.

(** One character, then the rest. *)
Lemma decodes_char c k dst out us us' : is_char c = true -> c <> 0 -> 0 <= out <= blen dst -> blen dst <= u64_max - 4 ->
  chars_of us = cons c <$> chars_of us' ->
  (forall out' dst1, 0 <= out' <= blen dst1 -> blen dst1 = blen dst -> decodes (k out') dst1 out' us') ->
  decodes (sbind (put_scalar c out) k) dst out us.
Proof.
  intros Hc Hc0 Ho Hd Hus Hk. pose proof (char_range c Hc) as Hcr. destruct (utf8_bytes_ok c Hcr) as [_ Hcl]. unfold decodes. wstep.
  assert (forall s, chars_of us = Some s -> exists t, s = c :: t /\ chars_of us' = Some t) as Hinv.
  { intros s Hs. rewrite Hus in Hs. apply fmap_Some in Hs as (t & Ht & ->). by exists t. }
  eapply wp_mono; [by apply put_scalar_wp | |].
  - intros e dst1 (-> & He & Hsp). pose proof (splice_blen _ _ _ _ Hsp) as Hl1.
    eapply wp_mono; [exact (Hk (out + blen (utf8_bytes c)) dst1 ltac:(lia) Hl1) | |].
    + intros e2 dst2 (t & Ht & Hall & -> & Hdec). exists (c :: t). rewrite str_bytes_cons, blen_app, Hus, Ht.
      split; [done|]. split; [by apply Forall_cons_2|]. split; [lia|]. eapply decoded_cons; [lia | exact Hsp | exact Hdec].
    + intros [] dst2 (Hl2 & Href). split; [lia|]. intros s Hs. destruct (Hinv s Hs) as (t & -> & Ht). specialize (Href t Ht).
      rewrite str_bytes_cons, blen_app. lia.
  - intros [] dst' (-> & Hover). split; [done|]. intros s Hs. destruct (Hinv s Hs) as (t & -> & Ht).
    rewrite str_bytes_cons, blen_app. pose proof (blen_nonneg (str_bytes t)). lia.
Qed.

Lemma even_room a i : a mod 2 = 0 -> i mod 2 = 0 -> i < a -> i + 2 <= a.
Proof. intros Ha Hi Hlt. pose proof (Z.div_mod a 2 ltac:(lia)). pose proof (Z.div_mod i 2 ltac:(lia)). lia. Qed.

Lemma even_next i : i mod 2 = 0 -> (i + 2) mod 2 = 0.
Proof. intros Hi. replace (i + 2) with (i + 1 * 2) by lia. by rewrite Z.mod_add by lia. Qed.

Lemma surrogate_scalar u low : is_high u = true -> is_low low = true ->
  0x10000 + Z.lor (Z.shiftl (u - 0xD800) 10) (low - 0xDC00) = 0x10000 + (u - 0xD800) * 1024 + (low - 0xDC00) /\
  is_char (0x10000 + (u - 0xD800) * 1024 + (low - 0xDC00)) = true.
Proof.
  unfold is_high, is_low. intros Hu Hl. bool_to_prop. rewrite lor_low_add by (change (2 ^ 10) with 1024; lia). change (2 ^ 10) with 1024.
  split; [lia|]. apply is_char_spec. lia.
Qed.

Lemma next_scalar_spec src be u i : is_bytes src -> blen src mod 2 = 0 -> 0 <= i <= blen src -> i mod 2 = 0 -> 0 < u <= 65535 ->
  let us := units_of be (drop (Z.to_nat i) src) in
  match next_scalar src be u i with
  | Ok (c, j) => is_char c = true /\ c <> 0 /\ i <= j <= blen src /\ j mod 2 = 0 /\
                 chars_of (u :: us) = cons c <$> chars_of (units_of be (drop (Z.to_nat j) src))
  | Err _ => chars_of (u :: us) = None
  | Panic | OutOfFuel => False
  end.
Proof.
  intros Hb Heven Hi Hi2 Hu us. unfold next_scalar. fold (is_high u). fold (is_low u). cbn [chars_of]. rewrite (proj2 (Z.eqb_neq u 0)) by lia.
  destruct (is_high u) eqn:Hhi.
  - destruct (Z.leb_spec (blen src) i) as [He|Hl2]; [unfold us; by rewrite drop_ge by (unfold blen in *; lia)|].
    pose proof (even_room _ _ Heven Hi2 Hl2) as Hi5. destruct (unit_step src be i Hb ltac:(lia) Hi5) as (low & Hlow & Hlr & Hus2).
    unfold us. rewrite Hus2, Hlow. cbn [obind]. fold (is_low low). destruct (is_low low) eqn:Hlo; cbn [negb]; [|done].
    destruct (surrogate_scalar u low Hhi Hlo) as [Heq Hch]. rewrite Heq. unfold is_high, is_low in Hhi, Hlo. bool_to_prop.
    split_and!; [done | lia | lia | lia | by apply even_next | done].
  - destruct (is_low u) eqn:Hlo; [done|]. split_and!; [|lia | lia | lia | done | done].
    unfold is_high, is_low in Hhi, Hlo. apply is_char_spec. bool_to_prop. lia.
Qed.

Lemma utf16_loop_wp n src be : is_bytes src -> blen src mod 2 = 0 -> forall i out dst,
  0 <= i <= blen src -> i mod 2 = 0 -> blen src - i < 2 * Z.of_nat n -> 0 <= out <= blen dst -> blen dst <= u64_max - 4 ->
  decodes (utf16_loop n src be i out) dst out (units_of be (drop (Z.to_nat i) src)).
Proof.
  intros Hb Heven. induction n as [|n IH]; intros i out dst Hi Hi2 Hn Ho Hd; [lia|]. cbn [utf16_loop].
  destruct (Z.leb_spec (blen src) i) as [Hend|Hlt].
  { apply decodes_nil; [done|]. by rewrite drop_ge by (unfold blen in *; lia). }
  pose proof (even_room _ _ Heven Hi2 Hlt) as Hi3. pose proof (even_next i Hi2) as Hi4.
  destruct (unit_step src be i Hb ltac:(lia) Hi3) as (u & Hu & Hur & Hus). rewrite Hus.
  unfold decodes. do 2 wstep. rewrite Hu. destruct (Z.eqb_spec u 0) as [->|Hu0]; [by apply decodes_nil|].
  pose proof (next_scalar_spec src be u (i + 2) Hb Heven ltac:(lia) Hi4 ltac:(lia)) as Hnext. cbv zeta in Hnext. do 2 wstep.
  destruct (next_scalar src be u (i + 2)) as [[c j]|[]| |]; [|split; [done|]; intros s Hs; congruence|done|done].
  destruct Hnext as (Hc & Hc0 & Hj & Hj2 & Heq).
  apply (decodes_char c _ dst out _ _ Hc Hc0 Ho Hd Heq). intros out' dst1 Ho' Hl1. apply IH; done || lia.
Qed.

Lemma utf16_to_utf8_decodes src be dst : is_bytes src -> blen src mod 2 = 0 -> blen dst <= u64_max - 4 ->
  decodes (utf16_to_utf8 src be) dst 0 (units_of be src).
Proof.
  intros Hb He Hd. unfold utf16_to_utf8. rewrite (proj2 (is_multiple_of_spec (blen src) 2 ltac:(lia)) He). cbn [negb].
  pose proof (blen_nonneg src). pose proof (blen_nonneg dst).
  apply (utf16_loop_wp (S (length src)) src be Hb He 0 0 dst); done || unfold blen in *; lia.
Qed.

(** ** Sizes *)

(** The UTF-8 form takes at most half as much again as the UTF-16 form. *)
Lemma chars_of_size us s : Forall (fun u => 0 <= u <= 65535) us -> chars_of us = Some s -> blen (str_bytes s) <= 3 * Z.of_nat (length us).
Proof.
  assert (forall n us s, (length us < n)%nat -> Forall (fun u => 0 <= u <= 65535) us -> chars_of us = Some s -> blen (str_bytes s) <= 3 * Z.of_nat (length us)) as Hall;
    [|by apply (Hall (S (length us))); lia].
  clear us s. induction n as [|n IH]; intros us s Hn Hu Hs; [lia|]. destruct us as [|u us]; [injection Hs as <-; done|].
  apply Forall_cons_1 in Hu as [Hu Hus]. cbn [chars_of] in Hs. cbn [length] in *.
  destruct (Z.eqb_spec u 0); [injection Hs as <-; change (blen (str_bytes [])) with 0; lia|].
  destruct (is_high u) eqn:Hhi.
  - destruct us as [|low us]; [done|]. apply Forall_cons_1 in Hus as [Hlow Hus]. cbn [length] in *. destruct (is_low low) eqn:Hlo; [|done].
    apply fmap_Some in Hs as (t & Ht & ->). rewrite str_bytes_cons, blen_app. specialize (IH us t ltac:(lia) Hus Ht).
    destruct (surrogate_scalar u low Hhi Hlo) as [_ Hch]. destruct (utf8_bytes_ok _ (char_range _ Hch)) as [_ Hl]. lia.
  - destruct (is_low u) eqn:Hlo; [done|]. apply fmap_Some in Hs as (t & Ht & ->). rewrite str_bytes_cons, blen_app.
    specialize (IH us t ltac:(lia) Hus Ht). assert (blen (utf8_bytes u) <= 3); [|lia].
    rewrite utf8_bytes_arith by lia. destruct (u <? 128); [done|]. destruct (u <? 2048); [done|]. by rewrite (proj2 (Z.ltb_lt u 65536)) by lia.
Qed.

Lemma units_of_facts be src : is_bytes src -> Forall (fun u => 0 <= u <= 65535) (units_of be src) /\ 2 * Z.of_nat (length (units_of be src)) <= blen src.
Proof.
  assert (forall n src, (length src < n)%nat -> is_bytes src -> Forall (fun u => 0 <= u <= 65535) (units_of be src) /\ 2 * Z.of_nat (length (units_of be src)) <= blen src) as Hall;
    [|by apply (Hall (S (length src))); lia].
  clear src. induction n as [|n IH]; intros src Hn Hb; [lia|]. destruct src as [|a [|b rest]]; [by split | by split|].
  apply Forall_cons_1 in Hb as [Ha Hb]. apply Forall_cons_1 in Hb as [Hbb Hb]. unfold is_u8, u8_max in Ha, Hbb. cbn [length] in Hn.
  destruct (IH rest ltac:(lia) Hb) as [H1 H2]. cbn [units_of length]. rewrite !blen_cons. split; [|lia]. apply Forall_cons_2; [destruct be; lia | done].
Qed.

(** ** Encoding *)

Definition unit_bytes (be : bool) (u : Z) : bytes := if be then be_bytes 2 u else le_bytes 2 u.
Definition units_bytes (be : bool) (us : list Z) : bytes := concat (map (unit_bytes be) us).

Lemma blen_unit_bytes be u : blen (unit_bytes be u) = 2.
Proof. destruct be; [apply (blen_be_bytes 2) | apply (blen_le_bytes 2)]. Qed.

Lemma blen_units_bytes be us : blen (units_bytes be us) = 2 * Z.of_nat (length us).
Proof.
  induction us as [|u us IH]; [done|]. change (units_bytes be (u :: us)) with (unit_bytes be u ++ units_bytes be us).
  rewrite blen_app, blen_unit_bytes, IH. cbn [length]. lia.
Qed.

(** Zeroing a longer prefix forgets what was written. *)
Lemma splice_forget l a x l1 w l2 : splice l a x = Some l1 -> a + blen x <= w -> splice l1 0 (filled w 0) = Some l2 -> splice l 0 (filled w 0) = Some l2.
Proof.
  intros H1 Hw H2. pose proof (splice_blen _ _ _ _ H1) as L1. pose proof (splice_blen _ _ _ _ H2) as L2.
  pose proof (splice_Some _ _ _ _ H1) as (Ha & _ & _). pose proof (splice_Some _ _ _ _ H2) as (_ & Hf & _). pose proof (blen_nonneg x).
  destruct (splice_of l 0 (filled w 0)) as (l3 & H3 & L3); [lia | lia |]. rewrite H3. f_equal. apply byte_ext; [lia|].
  intros i Hi. rewrite (splice_byte _ _ _ _ _ H3), (splice_byte _ _ _ _ _ H2), (splice_byte _ _ _ _ _ H1). rewrite blen_filled by lia.
  destruct (Z.leb_spec 0 i), (Z.ltb_spec i (0 + w)), (Z.leb_spec a i), (Z.ltb_spec i (a + blen x)); cbn [andb]; try lia; done.
Qed.

Lemma put_units_wp us be out dst : 0 <= out <= blen dst -> blen dst <= u64_max - 4 ->
  wp (put_units us be out)
    (fun e dst' => e = out + 2 * Z.of_nat (length us) /\ splice dst out (units_bytes be us) = Some dst')
    (fun _ dst' => blen dst < out + 2 * Z.of_nat (length us) /\ exists w, out <= w <= blen dst /\ splice dst 0 (filled w 0) = Some dst') dst.
Proof.
  revert out dst. induction us as [|u us IH]; intros out dst Ho Hd; cbn [put_units].
  { wstep. cbn [length]. split; [lia|]. change (units_bytes be []) with ([] : bytes). by apply splice_nil. }
  rewrite checked_add_eq by lia. do 2 wstep. change (units_bytes be (u :: us)) with (unit_bytes be u ++ units_bytes be us). cbn [length].
  destruct (Z.ltb_spec (blen dst) (out + 2)).
  - unfold utf16_encode_refuse. do 4 wstep. destruct (splice_of dst 0 (filled out 0)) as (dst' & Hs & _); [lia | rewrite blen_filled; lia |]. rewrite Hs. cbn [or_panic].
    do 3 wstep. split; [lia|]. exists out. split; [lia|done].
  - do 2 wstep. fold (unit_bytes be u). destruct (splice_of dst out (unit_bytes be u)) as (dst1 & Hs & Hl); [lia | rewrite blen_unit_bytes; lia |]. rewrite Hs. cbn [or_panic].
    do 2 wstep. pose proof (blen_unit_bytes be u) as Hub. eapply wp_mono; [apply (IH (out + 2) dst1); lia | |].
    + intros e dst' (-> & Hs'). split; [lia|]. eapply splice_app; [exact Hs|]. by rewrite Hub.
    + intros [] dst' (Hover & w & Hw & Hs'). split; [lia|]. exists w. split; [lia|]. eapply splice_forget; [exact Hs | lia | exact Hs'].
Qed.

(** The code units of a string. *)
Definition str_units (s : list Z) : list Z := concat (map encode_utf16 s).

Lemma refuse_eq w dst : utf16_encode_refuse w dst = match splice dst 0 (filled w 0) with Some d => (Err tt, d) | None => (Panic, dst) end.
Proof. unfold utf16_encode_refuse, sbind, sget, slift, sput, sfail. destruct (splice dst 0 (filled w 0)); reflexivity. Qed.

Lemma put_units_app us1 us2 be out dst : put_units (us1 ++ us2) be out dst = (let! e := put_units us1 be out in put_units us2 be e) dst.
Proof.
  assert (forall w d k, (let! e := utf16_encode_refuse w in k e : SM bytes unit Z) d = utf16_encode_refuse w d) as Hrefuse.
  { intros w d k. unfold sbind. rewrite refuse_eq. by destruct (splice d 0 (filled w 0)). }
  revert out dst. induction us1 as [|u us1 IH]; intros out dst; [done|]. cbn [app put_units]. destruct (checked_add out 2) as [e|]; [|by rewrite Hrefuse].
  transitivity (if blen dst <? e then utf16_encode_refuse out dst
                else match splice dst out (if be then be_bytes 2 u else le_bytes 2 u) with
                     | Some d => put_units (us1 ++ us2) be e d | None => (Panic, dst) end).
  - unfold sbind, sget, slift, sput. destruct (_ <? e); [done|]. by destruct (splice dst out _).
  - unfold sbind at 1, sget. unfold sbind at 1. destruct (_ <? e); [rewrite refuse_eq; by destruct (splice dst 0 _)|].
    unfold sbind, slift, sput. destruct (splice dst out _) as [d|]; cbn [or_panic]; [|done]. rewrite IH. done.
Qed.

Lemma utf8_to_utf16_eq s be out dst : utf8_to_utf16_loop s be out dst = put_units (str_units s) be out dst.
Proof.
  revert out dst. induction s as [|c s IH]; intros out dst; [done|]. cbn [utf8_to_utf16_loop].
  change (str_units (c :: s)) with (encode_utf16 c ++ str_units s). rewrite put_units_app. unfold sbind.
  destruct (put_units (encode_utf16 c) be out dst) as [[e| | |] d]; try done.
Qed.

Lemma utf8_to_utf16_wp s be dst : blen dst <= u64_max - 4 ->
  wp (utf8_to_utf16 s be)
    (fun n dst' => n = blen (units_bytes be (str_units s)) /\ splice dst 0 (units_bytes be (str_units s)) = Some dst')
    (fun _ dst' => blen dst < blen (units_bytes be (str_units s)) /\ exists w, 0 <= w <= blen dst /\ splice dst 0 (filled w 0) = Some dst') dst.
Proof.
  intros Hd. pose proof (blen_nonneg dst). rewrite blen_units_bytes. unfold wp, utf8_to_utf16. rewrite utf8_to_utf16_eq.
  exact (put_units_wp (str_units s) be 0 dst ltac:(lia) Hd).
Qed.

(** ** The round trip *)

Lemma units_of_bytes be us rest : Forall (fun u => 0 <= u <= 65535) us -> units_of be (units_bytes be us ++ rest) = us ++ units_of be rest.
Proof.
  induction 1 as [|u us Hu _ IH]; [done|]. change (units_bytes be (u :: us)) with (unit_bytes be u ++ units_bytes be us).
  rewrite <- app_assoc. assert (exists a b, unit_bytes be u = [a; b] /\ (if be then 256 * a + b else a + 256 * b) = u) as (a & b & -> & Hab).
  { unfold unit_bytes, le_bytes. destruct be; cbn [be_bytes app rev]; eexists _, _; (split; [reflexivity|]);
      rewrite (Z.mod_small (u / 256)) by (split; [apply Z.div_pos | apply Z.div_lt_upper_bound]; lia); pose proof (Z.div_mod u 256); lia. }
  cbn [app units_of]. rewrite Hab, IH. done.
Qed.

Lemma encode_utf16_units c : is_char c = true -> c <> 0 -> forall rest,
  Forall (fun u => 0 <= u <= 65535) (encode_utf16 c) /\ chars_of (encode_utf16 c ++ rest) = cons c <$> chars_of rest.
Proof.
  intros Hc Hc0 rest. unfold encode_utf16. pose proof (proj1 (is_char_spec c) Hc) as Hr. destruct (Z.ltb_spec c 0x10000).
  - split; [by apply Forall_singleton; lia|]. cbn [app chars_of]. rewrite (proj2 (Z.eqb_neq c 0)) by lia. unfold is_high, is_low.
    destruct (Z.leb_spec 0xD800 c), (Z.leb_spec c 0xDBFF), (Z.leb_spec 0xDC00 c), (Z.leb_spec c 0xDFFF); cbn [andb]; try lia; done.
  - set (x := c - 0x10000). assert (0 <= x < 1048576) as Hx by (unfold x; lia).
    rewrite Z.shiftr_div_pow2 by lia. change (2 ^ 10) with 1024. change 0x3FF with (Z.ones 10). rewrite Z.land_ones by lia. change (2 ^ 10) with 1024.
    pose proof (Z.div_mod x 1024 ltac:(lia)). pose proof (Z.mod_pos_bound x 1024 ltac:(lia)).
    assert (0 <= x / 1024 < 1024) by (split; [apply Z.div_pos | apply Z.div_lt_upper_bound]; lia).
    split; [repeat (apply Forall_cons_2; [lia|]); apply Forall_nil_2|]. cbn [app chars_of]. rewrite (proj2 (Z.eqb_neq _ 0)) by lia.
    assert (is_high (0xD800 + x / 1024) = true) as -> by (unfold is_high; apply andb_true_iff; lia).
    assert (is_low (0xDC00 + x mod 1024) = true) as -> by (unfold is_low; apply andb_true_iff; lia).
    f_equal. f_equal. unfold x in *. lia.
Qed.

Lemma str_units_chars s : is_text s -> Forall (fun u => 0 <= u <= 65535) (str_units s) /\ chars_of (str_units s) = Some s.
Proof.
  induction 1 as [|c s [Hc Hc0] _ [IH1 IH2]]; [split; [apply Forall_nil_2|done]|]. change (str_units (c :: s)) with (encode_utf16 c ++ str_units s).
  destruct (encode_utf16_units c Hc Hc0 (str_units s)) as [H1 H2]. split; [by apply Forall_app_2|]. by rewrite H2, IH2.
Qed.

Lemma units_bytes_ok be us : is_bytes (units_bytes be us).
Proof. unfold units_bytes. apply Forall_concat, Forall_map, Forall_true. intros u. destruct be; [apply be_bytes_is_bytes | apply le_bytes_is_bytes]. Qed.

Lemma units_bytes_even be us : blen (units_bytes be us) mod 2 = 0.
Proof. rewrite blen_units_bytes, Z.mul_comm. apply Z.mod_mul. lia. Qed.

(** Decoding what the encoder writes. *)
Lemma decode_encoded s be dst : is_text s -> blen dst <= u64_max - 4 -> blen (str_bytes s) <= blen dst ->
  exists dst', utf16_to_utf8 (units_bytes be (str_units s)) be dst = (Ok (blen (str_bytes s)), dst') /\
               slice dst' 0 (blen (str_bytes s)) = Some (str_bytes s).
Proof.
  intros Ht Hdst Hfit. destruct (str_units_chars s Ht) as [Hu Hch].
  pose proof (utf16_to_utf8_decodes _ be dst (units_bytes_ok be (str_units s)) (units_bytes_even be _) Hdst) as Hdec. unfold decodes, wp in Hdec.
  pose proof (units_of_bytes be (str_units s) [] Hu) as Hback. rewrite !app_nil_r in Hback. rewrite Hback in Hdec.
  destruct (utf16_to_utf8 _ be dst) as [[m|[]| |] dst']; [| |done|done].
  - destruct Hdec as (s' & Hs' & _ & -> & Hd). rewrite Hch in Hs'. injection Hs' as <-. exists dst'. split; [done|]. exact (dc_text _ _ _ _ Hd).
  - destruct Hdec as (_ & Href). specialize (Href s Hch). lia.
Qed.

(** ** Properties *)

(** C40: Decoding any bytes as UTF-16 of either byte order into any buffer never panics.  It
    succeeds exactly when the length is even, every surrogate up to the first NUL is paired
    and the text fits; then the buffer starts with the UTF-8 form of exactly those
    characters (valid UTF-8, no NUL) and the rest of it is unchanged.  A buffer of half as
    many bytes again as the input always fits, so there a refusal means malformed input. *)
Theorem utf16_decode_exact (src dst : bytes) (big_endian : bool) :
  is_bytes src -> blen dst <= u64_max - 4 ->
  wp (utf16_to_utf8 src big_endian)
    (fun n dst' => blen src mod 2 = 0 /\
       exists s, chars_of (units_of big_endian src) = Some s /\ is_text s /\ from_utf8 (str_bytes s) = Some s /\
                 n = blen (str_bytes s) /\ decoded dst dst' 0 s)
    (fun _ dst' => blen dst' = blen dst /\
       (blen src mod 2 <> 0 \/ refuses dst 0 (units_of big_endian src)) /\
       (blen src mod 2 = 0 -> 3 * blen src <= 2 * blen dst -> chars_of (units_of big_endian src) = None)) dst.
Proof.
  intros Hb Hd. destruct (decide (blen src mod 2 = 0)) as [He|Ho].
  - eapply wp_mono; [by apply utf16_to_utf8_decodes | |].
    + intros n dst' (s & Hs & Ht & -> & Hdec). split; [done|]. exists s. split_and!; try done.
      apply from_utf8_str. eapply Forall_impl; [|exact Ht]. by intros c [].
    + intros [] dst' (Hl & Href). split; [done|]. split; [by right|]. intros _ Hroom.
      destruct (chars_of (units_of big_endian src)) as [s|] eqn:Hs; [|done]. specialize (Href s Hs).
      destruct (units_of_facts big_endian src Hb) as [Hu Hlen]. pose proof (chars_of_size _ s Hu Hs). lia.
  - unfold utf16_to_utf8. destruct (is_multiple_of (blen src) 2) eqn:Hm; [apply is_multiple_of_spec in Hm; [done|lia]|].
    cbn [negb]. wstep. split; [done|]. split; [by left|done].
Qed.

(** "A", U+1F600 and a NUL, little endian. *)
Lemma utf16_decode_exact_witness :
  utf16_to_utf8 [0x41; 0; 0x3D; 0xD8; 0; 0xDE; 0; 0] false (filled 6 7) = (Ok 5, [0x41; 0xF0; 0x9F; 0x98; 0x80; 7]) /\
  wp (utf16_to_utf8 [0x41; 0; 0x3D; 0xD8; 0; 0xDE; 0; 0] false)
    (fun n dst' => blen [0x41; 0; 0x3D; 0xD8; 0; 0xDE; 0; 0] mod 2 = 0 /\
       exists s, chars_of (units_of false [0x41; 0; 0x3D; 0xD8; 0; 0xDE; 0; 0]) = Some s /\ is_text s /\
                 from_utf8 (str_bytes s) = Some s /\ n = blen (str_bytes s) /\ decoded (filled 6 7) dst' 0 s)
    (fun _ dst' => blen dst' = blen (filled 6 7) /\
       (blen [0x41; 0; 0x3D; 0xD8; 0; 0xDE; 0; 0] mod 2 <> 0 \/ refuses (filled 6 7) 0 (units_of false [0x41; 0; 0x3D; 0xD8; 0; 0xDE; 0; 0])) /\
       (blen [0x41; 0; 0x3D; 0xD8; 0; 0xDE; 0; 0] mod 2 = 0 -> 3 * blen [0x41; 0; 0x3D; 0xD8; 0; 0xDE; 0; 0] <= 2 * blen (filled 6 7) ->
        chars_of (units_of false [0x41; 0; 0x3D; 0xD8; 0; 0xDE; 0; 0]) = None)) (filled 6 7).
Proof.
  split; [vm_compute; reflexivity|]. apply (utf16_decode_exact [0x41; 0; 0x3D; 0xD8; 0; 0xDE; 0; 0] (filled 6 7) false).
  - apply is_bytesb_true. reflexivity.
  - vm_compute. discriminate.
Defined.

(** Encoding a string without NULs as UTF-16 in either byte order and decoding it gives
    the same UTF-8 bytes back, in any buffer they fit.  The encoder fails exactly when the
    text does not fit its buffer, and then leaves nothing of it behind: some prefix is
    zeroed and the rest untouched. *)
Theorem utf16_roundtrip (s : list Z) (big_endian : bool) (buf dst : bytes) :
  is_text s -> is_bytes buf -> blen buf <= u64_max - 4 -> blen dst <= u64_max - 4 ->
  match utf8_to_utf16 s big_endian buf with
  | (Ok n, buf') =>
      exists text, slice buf' 0 n = Some text /\ blen text mod 2 = 0 /\
        (blen (str_bytes s) <= blen dst ->
         exists dst', utf16_to_utf8 text big_endian dst = (Ok (blen (str_bytes s)), dst') /\
                      slice dst' 0 (blen (str_bytes s)) = Some (str_bytes s))
  | (Err _, buf') => blen buf < 2 * Z.of_nat (length (str_units s)) /\
      exists w, 0 <= w <= blen buf /\ splice buf 0 (filled w 0) = Some buf'
  | _ => False
  end.
Proof.
  intros Ht Hb Hbuf Hdst. pose proof (utf8_to_utf16_wp s big_endian buf Hbuf) as Henc. unfold wp in Henc.
  destruct (utf8_to_utf16 s big_endian buf) as [[n|[]| |] buf']; [|by rewrite <- (blen_units_bytes big_endian)|done|done].
  destruct Henc as (-> & Hsp). exists (units_bytes big_endian (str_units s)). pose proof (slice_splice_eq _ _ _ _ Hsp) as Hsl. rewrite Z.add_0_l in Hsl.
  split; [done|]. split; [apply units_bytes_even|]. intros Hfit. by apply decode_encoded.
Qed.

Lemma utf16_roundtrip_witness :
  utf8_to_utf16 [0x41; 0x1F600] true (filled 6 7) = (Ok 6, [0; 0x41; 0xD8; 0x3D; 0xDE; 0]) /\
  exists text, slice [0; 0x41; 0xD8; 0x3D; 0xDE; 0] 0 6 = Some text /\ blen text mod 2 = 0 /\
    (blen (str_bytes [0x41; 0x1F600]) <= blen (filled 9 0) ->
     exists dst', utf16_to_utf8 text true (filled 9 0) = (Ok (blen (str_bytes [0x41; 0x1F600])), dst') /\
                  slice dst' 0 (blen (str_bytes [0x41; 0x1F600])) = Some (str_bytes [0x41; 0x1F600])).
Proof.
  split; [vm_compute; reflexivity|].
  apply (utf16_roundtrip [0x41; 0x1F600] true (filled 6 7) (filled 9 0)).
  - repeat (apply Forall_cons_2; [split; [reflexivity | discriminate]|]). apply Forall_nil_2.
  - apply is_bytesb_true. reflexivity.
  - vm_compute. discriminate.
  - vm_compute. discriminate.
Defined.

(** A refused field has been decoded into all the same: "A" and half a surrogate pair. *)
Example refused_field_is_overwritten :
  decode_utf16_field_nul_terminated [0x41; 0; 0x3D; 0xD8] false (filled 4 9) = (Ok false, [0x41; 9; 9; 9]).
Proof. vm_compute. reflexivity. Qed.
