(* ===== verification/Vhdx.v ===== *)
(** The geometry of a VHDX file ([src/src/crates/vhdx/src/lib.rs]): where a writer
    places the regions ([layout]), how payload and sector bitmap entries interleave in
    the block allocation table, the entries of a fixed image ([fill_fixed_bat]) and the
    ownership bits of a differencing one. *)

From stdpp Require Import base numbers list sets option.
From Stdlib Require Import ZArith Lia.
From S2P Require Import Prelude Bytes ExecBytes CachedRead.

(** ** Definitions *)

Definition PAYLOAD_BLOCK_NOT_PRESENT : Z := 0.
Definition PAYLOAD_BLOCK_UNDEFINED : Z := 1.
Definition PAYLOAD_BLOCK_ZERO : Z := 2.
Definition PAYLOAD_BLOCK_UNMAPPED : Z := 3.
Definition PAYLOAD_BLOCK_FULLY_PRESENT : Z := 6.
Definition PAYLOAD_BLOCK_PARTIALLY_PRESENT : Z := 7.
Definition SB_BLOCK_PRESENT : Z := 6.
Definition SB_BLOCK_SIZE : Z := 1048576.
Definition BAT_ENTRY_OFFSET_MASK : Z := 0xFFFFFFFFFFF00000.
Definition BAT_ENTRY_STATE_MASK : Z := 7.
Definition MB_ALIGN : Z := 1048576.
Definition MAX_VIRTUAL_SIZE : Z := 70368744177664.
Definition LOG_OFFSET : Z := 1048576.
Definition LOG_LENGTH : Z := 1048576.
Definition BAT_OFFSET : Z := LOG_OFFSET + LOG_LENGTH.
Definition METADATA_REGION_LENGTH : Z := 1048576.
Definition LOGICAL_SECTOR_SIZE : Z := 512.
Definition PHYSICAL_SECTOR_SIZE : Z := LOGICAL_SECTOR_SIZE.
Definition FIXED_DATA_GAP : Z := 5 * MB_ALIGN.

(** [u32::try_from]. *)
Definition try_u32 (x : Z) : option Z := if x <=? u32_max then Some x else None.

(** [checked_div]. *)
Definition checked_div (x y : Z) : option Z := if y =? 0 then None else Some (x / y).

(** [checked_sub]. *)
Definition checked_sub (x y : Z) : option Z := if y <=? x then Some (x - y) else None.

Definition is_valid_metadata_block_size (block_size : Z) : bool :=
  is_power_of_two block_size && ((1048576 <=? block_size) && (block_size <=? 268435456)).

Definition differencing_bat_entry_count (total_payload_blocks chunk_ratio : Z) : option Z :=
  if chunk_ratio =? 0 then None
  else group ← checked_add chunk_ratio 1; checked_mul (div_ceil total_payload_blocks chunk_ratio) group.

Definition bat_entry_count (total_payload_blocks chunk_ratio : Z) (has_parent : bool) : option Z :=
  if has_parent then differencing_bat_entry_count total_payload_blocks chunk_ratio
  else if total_payload_blocks =? 0 then Some 0
  else if chunk_ratio =? 0 then Some total_payload_blocks
  else
    before ← checked_sub total_payload_blocks 1;
    sb_entries ← checked_div before chunk_ratio;
    checked_add total_payload_blocks sb_entries.

(** [(total_bat_entries, chunk_ratio, total_payload_blocks)]. *)
Definition calculate_bat_layout (virtual_disk_size block_size logical_sector_size : Z) (has_parent : bool)
  : option (Z * Z * Z) :=
  let total_blocks_u64 := div_ceil virtual_disk_size block_size in
  let chunk_ratio_u64 := wmul (Z.shiftl 1 23) logical_sector_size / block_size in
  total_blocks ← try_u32 total_blocks_u64;
  chunk_ratio ← try_u32 chunk_ratio_u64;
  count ← bat_entry_count total_blocks_u64 chunk_ratio has_parent;
  total_bat_entries ← try_u32 count;
  Some (total_bat_entries, chunk_ratio, total_blocks).

Definition default_block_size (virtual_size : Z) : Z :=
  let MIB := 1048576 in
  if Z.shiftl 32 40 <? virtual_size then 64 * MIB
  else if Z.shiftl 100 30 <? virtual_size then 32 * MIB
  else if Z.shiftl 1 30 <? virtual_size then 16 * MIB
  else 8 * MIB.

Inductive LayoutError : Type := LeInvalidBlockSize | LeTooLarge | LeOverflow.

Record VhdxLayout : Type := mkVhdxLayout {
  vl_virtual_size : Z;
  vl_block_size : Z;
  vl_chunk_ratio : Z;
  vl_payload_blocks : Z;
  vl_bat_entries : Z;
  vl_log_offset : Z;
  vl_log_length : Z;
  vl_bat_offset : Z;
  vl_bat_region_len : Z;
  vl_metadata_offset : Z;
  vl_metadata_region_len : Z;
  vl_data_start : Z;
  vl_fixed_data_start : Z;
  vl_fixed_file_length : Z;
  vl_logical_sector_size : Z;
  vl_physical_sector_size : Z
}.

Definition layout (virtual_size block_size : Z) (has_parent : bool) : outcome LayoutError VhdxLayout :=
  let? virtual_size := ok_or (checked_next_multiple_of virtual_size LOGICAL_SECTOR_SIZE) LeTooLarge in
  if MAX_VIRTUAL_SIZE <? virtual_size then Err LeTooLarge
  else
  let block_size := if block_size =? 0 then default_block_size virtual_size else block_size in
  if negb (is_valid_metadata_block_size block_size) then Err LeInvalidBlockSize
  else
  let? (bat_entries, chunk_ratio, payload_blocks) :=
    ok_or (calculate_bat_layout virtual_size block_size LOGICAL_SECTOR_SIZE has_parent) LeOverflow in
  let? bat_bytes := ok_or (checked_mul bat_entries 8) LeOverflow in
  let? rounded := ok_or (checked_next_multiple_of bat_bytes MB_ALIGN) LeOverflow in
  let? bat_region_len := ok_or (try_u32 (Z.max rounded MB_ALIGN)) LeOverflow in
  let? metadata_offset := ok_or (checked_add BAT_OFFSET bat_region_len) LeOverflow in
  let? data_start := ok_or (checked_add metadata_offset METADATA_REGION_LENGTH) LeOverflow in
  let? fixed_data_start := ok_or (checked_add metadata_offset FIXED_DATA_GAP) LeOverflow in
  let? fixed_file_length := ok_or (checked_add fixed_data_start virtual_size) LeOverflow in
  Ok {| vl_virtual_size := virtual_size; vl_block_size := block_size; vl_chunk_ratio := chunk_ratio;
        vl_payload_blocks := payload_blocks; vl_bat_entries := bat_entries; vl_log_offset := LOG_OFFSET;
        vl_log_length := LOG_LENGTH; vl_bat_offset := BAT_OFFSET; vl_bat_region_len := bat_region_len;
        vl_metadata_offset := metadata_offset; vl_metadata_region_len := METADATA_REGION_LENGTH;
        vl_data_start := data_start; vl_fixed_data_start := fixed_data_start;
        vl_fixed_file_length := fixed_file_length; vl_logical_sector_size := LOGICAL_SECTOR_SIZE;
        vl_physical_sector_size := PHYSICAL_SECTOR_SIZE |}.

(** *** The fixed BAT *)

Inductive FixedBlockState : Type := FbZero | FbFullyPresent.

Inductive BatFillError : Type := UnalignedBuffer | PastRegion | DegenerateChunkRatio | BfOverflow.

Definition build_bat_entry (state file_offset : Z) : Z :=
  Z.lor (Z.land file_offset BAT_ENTRY_OFFSET_MASK) (Z.land state BAT_ENTRY_STATE_MASK).

(** The entry at one index. *)
Definition fixed_bat_entry (l : VhdxLayout) (state : FixedBlockState) (group index : Z) : outcome BatFillError Z :=
  if vl_bat_entries l <=? index then Ok 0
  else
  let position_in_group := index mod group in
  if position_in_group =? vl_chunk_ratio l then Ok 0
  else
  let? payload_block := ok_or (checked_sub index (index / group)) BfOverflow in
  let? offset := ok_or (bytes ← checked_mul payload_block (vl_block_size l); checked_add bytes (vl_fixed_data_start l)) BfOverflow in
  Ok (match state with
      | FbZero => PAYLOAD_BLOCK_ZERO
      | FbFullyPresent => build_bat_entry PAYLOAD_BLOCK_FULLY_PRESENT offset
      end).

(** The loop over the slots of the buffer: slot [k] takes entry [index]. *)
Fixpoint fill_slots (n : nat) (l : VhdxLayout) (state : FixedBlockState) (group k index : Z)
  : SM bytes BatFillError unit :=
  match n with
  | O => sret tt
  | S n' =>
      let! entry := slift (fixed_bat_entry l state group index) in
      let! buf := sget in
      let! buf' := slift (or_panic (splice buf (8 * k) (le_bytes 8 entry))) in
      do! sput buf' in
      fill_slots n' l state group (k + 1) (index + 1)
  end.

Definition fill_fixed_bat (l : VhdxLayout) (state : FixedBlockState) (first_entry : Z) : SM bytes BatFillError unit :=
  let! out := sget in
  if negb (is_multiple_of (blen out) 8) then sfail UnalignedBuffer
  else
  let count := blen out / 8 in
  let capacity := vl_bat_region_len l / 8 in
  let! last := slift (ok_or (checked_add first_entry count) BfOverflow) in
  if capacity <? last then sfail PastRegion
  else if vl_chunk_ratio l =? 0 then sfail DegenerateChunkRatio
  else
  let! group := slift (ok_or (checked_add (vl_chunk_ratio l) 1) BfOverflow) in
  let! _ := slift (ok_or (bytes ← checked_mul (vl_bat_entries l) (vl_block_size l); checked_add bytes (vl_fixed_data_start l)) BfOverflow) in
  fill_slots (Z.to_nat (last - first_entry)) l state group 0 first_entry.

(** ** The geometry *)

(** The entries of the BAT: one per payload block and one sector bitmap entry after
    every whole group that more payload blocks follow; a differencing image has whole
    groups only. *)
Definition entries_of (has_parent : bool) (payload ratio : Z) : Z :=
  if has_parent then div_ceil payload ratio * (ratio + 1) else payload + (payload - 1) / ratio.

Record geometry (l : VhdxLayout) (has_parent : bool) : Prop := {
  ge_size : 0 <= vl_virtual_size l <= MAX_VIRTUAL_SIZE /\ vl_virtual_size l mod 512 = 0;
  ge_block : is_valid_metadata_block_size (vl_block_size l) = true;
  ge_ratio : vl_chunk_ratio l * vl_block_size l = 2 ^ 32 /\ 16 <= vl_chunk_ratio l <= 4096;
  ge_payload : vl_payload_blocks l = div_ceil (vl_virtual_size l) (vl_block_size l);
  ge_entries : vl_bat_entries l = if vl_payload_blocks l =? 0 then 0 else entries_of has_parent (vl_payload_blocks l) (vl_chunk_ratio l);
  ge_region : vl_bat_region_len l = Z.max (div_ceil (vl_bat_entries l * 8) MB_ALIGN * MB_ALIGN) MB_ALIGN;
  ge_bat : vl_bat_offset l = vl_log_offset l + vl_log_length l;
  ge_metadata : vl_metadata_offset l = vl_bat_offset l + vl_bat_region_len l;
  ge_data : vl_data_start l = vl_metadata_offset l + vl_metadata_region_len l;
  ge_fixed : vl_fixed_data_start l = vl_metadata_offset l + 5 * MB_ALIGN;
  ge_length : vl_fixed_file_length l = vl_fixed_data_start l + vl_virtual_size l;
  ge_consts : vl_log_offset l = MB_ALIGN /\ vl_log_length l = MB_ALIGN /\ vl_metadata_region_len l = MB_ALIGN;
  ge_sectors : vl_logical_sector_size l = 512 /\ vl_physical_sector_size l = 512
}.

Lemma valid_block_size_spec bs : 0 <= bs -> is_valid_metadata_block_size bs = true ->
  exists k, 20 <= k <= 28 /\ bs = 2 ^ k.
Proof.
  intros Hb Hv. unfold is_valid_metadata_block_size in Hv. apply andb_true_iff in Hv as [Hp Hr]. bool_to_prop.
  apply is_power_of_two_spec in Hp; [|done]. exists (Z.log2 bs). split; [|done].
  split; [apply Z.log2_le_pow2; [lia|]; change (2 ^ 20) with 1048576; lia|].
  apply Z.lt_succ_r, Z.log2_lt_pow2; [lia|]. change (2 ^ Z.succ 28) with 536870912. lia.
Qed.

Lemma ratio_of_block k : 20 <= k <= 28 -> 2 ^ 32 / 2 ^ k * 2 ^ k = 2 ^ 32 /\ 16 <= 2 ^ 32 / 2 ^ k <= 4096 /\ 1048576 <= 2 ^ k <= 268435456.
Proof.
  intros Hk. assert (2 ^ 32 / 2 ^ k = 2 ^ (32 - k)) as -> by (rewrite Z.pow_sub_r by lia; done).
  rewrite <- Z.pow_add_r by lia. split; [f_equal; lia|].
  pose proof (Z.pow_le_mono_r 2 4 (32 - k) ltac:(lia) ltac:(lia)). pose proof (Z.pow_le_mono_r 2 (32 - k) 12 ltac:(lia) ltac:(lia)).
  pose proof (Z.pow_le_mono_r 2 20 k ltac:(lia) ltac:(lia)). pose proof (Z.pow_le_mono_r 2 k 28 ltac:(lia) ltac:(lia)). lia.
Qed.

Lemma default_block_valid vs : is_valid_metadata_block_size (default_block_size vs) = true.
Proof. unfold default_block_size. repeat destruct (_ <? _); reflexivity. Qed.

Lemma div_ceil_zero d : 0 < d -> div_ceil 0 d = 0.
Proof. intros Hd. unfold div_ceil. rewrite Z.mod_0_l, Z.div_0_l by lia. done. Qed.

(** The BAT of an image within the size limit is small. *)
Lemma entries_bound hp n c : 0 < n <= 67108864 -> 16 <= c <= 4096 -> 0 < entries_of hp n c <= 75501568.
Proof.
  intros Hn Hc. unfold entries_of. destruct hp.
  - destruct (div_ceil_spec n c ltac:(lia)) as [H1 H2]. assert (1 <= div_ceil n c) by nia. nia.
  - pose proof (Z.div_pos (n - 1) c ltac:(lia) ltac:(lia)). pose proof (Z.mul_div_le (n - 1) c ltac:(lia)). nia.
Qed.

Lemma bat_entry_count_spec hp n c : 0 <= n <= 67108864 -> 16 <= c <= 4096 ->
  bat_entry_count n c hp = Some (if n =? 0 then 0 else entries_of hp n c).
Proof.
  intros Hn Hc. unfold bat_entry_count, differencing_bat_entry_count, entries_of. rewrite (proj2 (Z.eqb_neq c 0)) by lia.
  destruct (Z.eqb_spec n 0) as [->|Hne].
  - destruct hp; [|done]. rewrite checked_add_eq by (unfold u64_max; lia). cbn [mbind option_bind].
    rewrite div_ceil_zero by lia. done.
  - pose proof (entries_bound hp n c ltac:(lia) Hc) as Hb. unfold entries_of in Hb. destruct hp.
    + rewrite checked_add_eq by (unfold u64_max; lia). cbn [mbind option_bind]. apply checked_mul_eq. unfold u64_max. lia.
    + unfold checked_sub, checked_div. destruct (Z.leb_spec 1 n); [|lia]. cbn [mbind option_bind].
      rewrite (proj2 (Z.eqb_neq c 0)) by lia. cbn [mbind option_bind]. apply checked_add_eq. unfold u64_max. lia.
Qed.

Lemma layout_spec vs bs hp : is_u64 vs -> is_u32 bs ->
  let rounded := div_ceil vs 512 * 512 in
  match layout vs bs hp with
  | Ok l => geometry l hp /\ vl_virtual_size l = rounded /\ vl_block_size l = (if bs =? 0 then default_block_size rounded else bs)
  | Err LeTooLarge => MAX_VIRTUAL_SIZE < rounded
  | Err LeInvalidBlockSize => rounded <= MAX_VIRTUAL_SIZE /\ bs <> 0 /\ is_valid_metadata_block_size bs = false
  | Err LeOverflow | Panic | OutOfFuel => False
  end.
Proof.
  intros Hvs Hbs rounded. unfold is_u64, is_u32 in *. unfold layout, LOGICAL_SECTOR_SIZE.
  pose proof (next_multiple_spec vs 512 ltac:(lia) ltac:(lia)) as Hnext. fold rounded in Hnext.
  destruct (checked_next_multiple_of vs 512) as [r|]; cbn [ok_or obind].
  2:{ unfold MAX_VIRTUAL_SIZE, u64_max in *. lia. }
  destruct Hnext as [-> _]. destruct (Z.ltb_spec MAX_VIRTUAL_SIZE rounded) as [|Hmax]; [done|].
  pose proof (div_ceil_nonneg vs 512 ltac:(lia) ltac:(lia)) as Hr0.
  set (b := if bs =? 0 then default_block_size rounded else bs).
  destruct (is_valid_metadata_block_size b) eqn:Hv; cbn [negb].
  2:{ unfold b in Hv. destruct (Z.eqb_spec bs 0) as [->|]; [by rewrite default_block_valid in Hv|done]. }
  assert (0 <= b) as Hb0 by (unfold b, default_block_size; destruct (bs =? 0); [|lia]; repeat destruct (_ <? _); lia).
  destruct (valid_block_size_spec b Hb0 Hv) as (k & Hk & Hbk). destruct (ratio_of_block k Hk) as (Hr1 & Hr2 & Hr3).
  unfold calculate_bat_layout. change (wmul (Z.shiftl 1 23) 512) with (2 ^ 32). rewrite <- Hbk in Hr1, Hr2, Hr3.
  set (c := 2 ^ 32 / b) in *. set (n := div_ceil rounded b).
  assert (0 <= rounded) as Hrd by (unfold rounded; lia).
  assert (0 <= n <= 67108864) as Hn.
  { unfold n. split; [apply div_ceil_nonneg; lia|]. apply div_ceil_le; [lia|]. unfold MAX_VIRTUAL_SIZE in Hmax. lia. }
  assert (try_u32 n = Some n) as -> by (unfold try_u32, u32_max; destruct (Z.leb_spec n 4294967295); done || lia).
  assert (try_u32 c = Some c) as -> by (unfold try_u32, u32_max; destruct (Z.leb_spec c 4294967295); done || lia).
  cbn [mbind option_bind]. rewrite (bat_entry_count_spec hp n c Hn Hr2). cbn [mbind option_bind].
  set (e := if n =? 0 then 0 else entries_of hp n c).
  assert (0 <= e <= 75501568) as He by (unfold e; destruct (Z.eqb_spec n 0); [lia|]; pose proof (entries_bound hp n c ltac:(lia) Hr2); lia).
  assert (try_u32 e = Some e) as -> by (unfold try_u32, u32_max; destruct (Z.leb_spec e 4294967295); done || lia).
  cbn [mbind option_bind ok_or obind]. rewrite checked_mul_eq by (unfold u64_max; lia). cbn [ok_or obind].
  pose proof (next_multiple_spec (e * 8) MB_ALIGN ltac:(unfold MB_ALIGN; lia) ltac:(lia)) as Hbat.
  destruct (div_ceil_spec (e * 8) MB_ALIGN ltac:(unfold MB_ALIGN; lia)) as [_ Hbu].
  destruct (checked_next_multiple_of (e * 8) MB_ALIGN) as [q|]; cbn [ok_or obind].
  2:{ unfold MB_ALIGN, u64_max in *. lia. }
  destruct Hbat as [-> _]. set (len := Z.max (div_ceil (e * 8) MB_ALIGN * MB_ALIGN) MB_ALIGN).
  assert (MB_ALIGN <= len <= 605061120) as Hlen by (unfold len, MB_ALIGN in *; lia).
  unfold MB_ALIGN in Hlen. assert (try_u32 len = Some len) as -> by (unfold try_u32, u32_max; destruct (Z.leb_spec len 4294967295); done || lia).
  unfold BAT_OFFSET, LOG_OFFSET, LOG_LENGTH, METADATA_REGION_LENGTH, FIXED_DATA_GAP, MB_ALIGN, MAX_VIRTUAL_SIZE in *.
  cbn [ok_or obind]. repeat (rewrite checked_add_eq by (unfold u64_max; lia); cbn [ok_or obind]).
  split; [|done]. constructor; cbn; try done; try lia.
  unfold MAX_VIRTUAL_SIZE. split; [lia|]. unfold rounded. apply Z.mod_mul. lia.
Qed.

(** The sizes a geometry allows. *)
Lemma geometry_bounds l hp : geometry l hp ->
  1048576 <= vl_block_size l <= 268435456 /\ vl_block_size l mod 1048576 = 0 /\
  0 <= vl_payload_blocks l <= 67108864 /\ 0 <= vl_bat_entries l <= 75501568 /\
  vl_bat_entries l * 8 <= vl_bat_region_len l /\ vl_bat_region_len l mod 1048576 = 0 /\
  1048576 <= vl_bat_region_len l <= 605061120.
Proof.
  intros [(Hs & _) Hb (Hr & Hr16) Hp He Hg _ _ _ _ _ _].
  assert (0 <= vl_block_size l) as Hb0 by nia.
  destruct (valid_block_size_spec _ Hb0 Hb) as (k & Hk & Hbk). destruct (ratio_of_block k Hk) as (_ & _ & Hk3).
  rewrite <- Hbk in Hk3. unfold MAX_VIRTUAL_SIZE, MB_ALIGN in *.
  assert (0 <= vl_payload_blocks l <= 67108864) as Hn.
  { rewrite Hp. split; [apply div_ceil_nonneg; lia|]. apply div_ceil_le; lia. }
  assert (0 <= vl_bat_entries l <= 75501568) as Hn'.
  { rewrite He. destruct (Z.eqb_spec (vl_payload_blocks l) 0); [lia|].
    pose proof (entries_bound hp (vl_payload_blocks l) (vl_chunk_ratio l)). lia. }
  destruct (div_ceil_spec (vl_bat_entries l * 8) 1048576 ltac:(lia)) as [Hd1 Hd2].
  split_and!; try lia.
  - rewrite Hbk. replace k with (k - 20 + 20) by lia. rewrite Z.pow_add_r by lia. apply Z.mod_mul. lia.
  - rewrite Hg. destruct (Z.max_spec (div_ceil (vl_bat_entries l * 8) 1048576 * 1048576) 1048576) as [[_ ->]|[_ ->]]; [done|].
    apply Z.mod_mul. lia.
Qed.

(** *** The interleaving *)

(** Where the readers look payload block [p] up. *)
Definition bat_index (c p : Z) : Z := p + p / c.

Lemma bat_index_group c p : 0 < c -> 0 <= p ->
  bat_index c p / (c + 1) = p / c /\ bat_index c p mod (c + 1) = p mod c.
Proof.
  intros Hc Hp. unfold bat_index. pose proof (Z.div_mod p c ltac:(lia)) as Hd. pose proof (Z.mod_pos_bound p c Hc) as Hm.
  set (q := p / c) in *. set (r := p mod c) in *. split.
  - symmetry. apply (Z.div_unique _ _ _ r); lia.
  - symmetry. apply (Z.mod_unique _ _ q); lia.
Qed.

Lemma bat_index_inverse c j : 0 < c -> 0 <= j -> j mod (c + 1) <> c ->
  0 <= j - j / (c + 1) /\ bat_index c (j - j / (c + 1)) = j.
Proof.
  intros Hc Hj Hn. pose proof (Z.div_mod j (c + 1) ltac:(lia)) as Hd. pose proof (Z.mod_pos_bound j (c + 1) ltac:(lia)) as Hm.
  pose proof (Z.div_pos j (c + 1) ltac:(lia) ltac:(lia)). unfold bat_index.
  set (q := j / (c + 1)) in *. set (r := j mod (c + 1)) in *.
  split; [nia|]. rewrite <- (Z.div_unique (j - q) c q r); lia.
Qed.

Lemma bat_index_mono c p p' : 0 < c -> p < p' -> bat_index c p < bat_index c p'.
Proof. intros Hc Hp. unfold bat_index. pose proof (Z.div_le_mono p p' c Hc ltac:(lia)). lia. Qed.

(** Every payload block has an entry, and without a parent the last entry is the last
    payload block's. *)
Lemma bat_index_entries hp n c : 0 < n -> 0 < c ->
  (forall p, 0 <= p < n -> bat_index c p < entries_of hp n c) /\
  (hp = false -> bat_index c (n - 1) = entries_of hp n c - 1).
Proof.
  intros Hn Hc. unfold entries_of, bat_index. split; [|intros ->; lia]. intros p Hp. destruct hp.
  - destruct (div_ceil_spec n c Hc) as [H1 _]. pose proof (Z.mul_div_le p c Hc).
    pose proof (Z.div_lt_upper_bound p c (div_ceil n c) Hc ltac:(lia)). nia.
  - pose proof (Z.div_le_mono p (n - 1) c Hc ltac:(lia)). lia.
Qed.

(** ** The fixed BAT *)

(** Entry [j] of a fixed image's BAT. *)
Definition fixed_bat_ref (l : VhdxLayout) (state : FixedBlockState) (j : Z) : Z :=
  if (vl_bat_entries l <=? j) || (j mod (vl_chunk_ratio l + 1) =? vl_chunk_ratio l) then 0
  else match state with
       | FbZero => 2
       | FbFullyPresent => vl_fixed_data_start l + (j - j / (vl_chunk_ratio l + 1)) * vl_block_size l + 6
       end.

Lemma land_offset_mask x : is_u64 x -> x mod 1048576 = 0 -> Z.land x BAT_ENTRY_OFFSET_MASK = x.
Proof.
  intros Hx Hm. change BAT_ENTRY_OFFSET_MASK with (Z.ldiff (Z.ones 64) (Z.ones 20)).
  assert (Z.land x (Z.ones 64) = x) as Hl.
  { rewrite Z.land_ones by lia. apply Z.mod_small. unfold is_u64, u64_max in Hx. change (2 ^ 64) with 18446744073709551616. lia. }
  assert (Z.land x (Z.ones 20) = 0) as Ho by (rewrite Z.land_ones by lia; exact Hm).
  apply Z.bits_inj. intros i. pose proof (f_equal (fun y => Z.testbit y i) Hl) as Hl'. pose proof (f_equal (fun y => Z.testbit y i) Ho) as Ho'.
  cbv beta in Hl', Ho'. rewrite Z.bits_0 in Ho'. rewrite Z.land_spec in Hl', Ho'. rewrite Z.land_spec, Z.ldiff_spec.
  destruct (Z.testbit x i), (Z.testbit (Z.ones 64) i), (Z.testbit (Z.ones 20) i); done.
Qed.

Lemma build_bat_entry_eq state off : is_u64 off -> off mod 1048576 = 0 -> 0 <= state <= 7 ->
  build_bat_entry state off = off + state.
Proof.
  intros Ho Hm Hs. unfold build_bat_entry. rewrite (land_offset_mask off Ho Hm).
  assert (Z.land state BAT_ENTRY_STATE_MASK = state) as ->.
  { change BAT_ENTRY_STATE_MASK with (Z.ones 3). rewrite Z.land_ones by lia. apply Z.mod_small. lia. }
  apply (lor_low off state 20); [lia | exact Hm | lia].
Qed.

Lemma fixed_bat_entry_spec l st j : geometry l false -> 0 <= j ->
  fixed_bat_entry l st (vl_chunk_ratio l + 1) j = Ok (fixed_bat_ref l st j) /\ is_u64 (fixed_bat_ref l st j).
Proof.
  intros Hg Hj. destruct (geometry_bounds l false Hg) as (Hb & Hbm & Hp & He & _ & Hlm & Hl).
  unfold fixed_bat_entry, fixed_bat_ref. destruct (Z.leb_spec (vl_bat_entries l) j) as [|Hlt]; cbn [orb]; [by split|].
  destruct (Z.eqb_spec (j mod (vl_chunk_ratio l + 1)) (vl_chunk_ratio l)) as [|Hne]; [by split|].
  destruct (ge_ratio l false Hg) as [_ Hr].
  pose proof (Z.div_pos j (vl_chunk_ratio l + 1) ltac:(lia) ltac:(lia)) as Hq0.
  pose proof (Z.div_le_upper_bound j (vl_chunk_ratio l + 1) j ltac:(lia) ltac:(nia)) as Hq1.
  unfold checked_sub. destruct (Z.leb_spec (j / (vl_chunk_ratio l + 1)) j); [|lia]. cbn [ok_or obind].
  set (q := j - j / (vl_chunk_ratio l + 1)) in *.
  assert (0 <= q * vl_block_size l <= 75501568 * 268435456) as Hqb by nia.
  assert (vl_fixed_data_start l = 2097152 + vl_bat_region_len l + 5242880) as Hfs.
  { rewrite (ge_fixed l _ Hg), (ge_metadata l _ Hg), (ge_bat l _ Hg). destruct (ge_consts l _ Hg) as (-> & -> & _). done. }
  rewrite checked_mul_eq by (unfold u64_max; lia). cbn [mbind option_bind].
  rewrite checked_add_eq by (unfold u64_max; lia). cbn [ok_or obind].
  assert ((q * vl_block_size l + vl_fixed_data_start l) mod 1048576 = 0) as Hal.
  { apply Z.mod_divide in Hbm as [x Hx]; [|lia]. apply Z.mod_divide in Hlm as [y Hy]; [|lia].
    apply Z.mod_divide; [lia|]. exists (q * x + (2 + y + 5)). lia. }
  destruct st; [by split|]. rewrite build_bat_entry_eq by (done || unfold is_u64, u64_max, PAYLOAD_BLOCK_FULLY_PRESENT; lia).
  unfold PAYLOAD_BLOCK_FULLY_PRESENT. split; [f_equal; lia | unfold is_u64, u64_max; lia].
Qed.

Lemma fill_slots_spec n l st : geometry l false -> forall k index buf, 0 <= k -> 0 <= index ->
  8 * (k + Z.of_nat n) <= blen buf ->
  wp (fill_slots n l st (vl_chunk_ratio l + 1) k index)
    (fun _ buf' => blen buf' = blen buf /\ (is_bytes buf -> is_bytes buf') /\ (forall a b, b <= 8 * k -> slice buf' a b = slice buf a b) /\
       forall i, 0 <= i < Z.of_nat n ->
         slice buf' (8 * (k + i)) (8 * (k + i) + 8) = Some (le_bytes 8 (fixed_bat_ref l st (index + i))))
    (fun _ _ => False) buf.
Proof.
  intros Hg. induction n as [|n IH]; intros k index buf Hk Hi Hlen; cbn [fill_slots].
  { wstep. split_and!; [done | done | done |]. intros i Hi'. lia. }
  destruct (fixed_bat_entry_spec l st index Hg Hi) as [He _]. do 2 wstep. rewrite He. do 4 wstep.
  assert (is_Some (splice buf (8 * k) (le_bytes 8 (fixed_bat_ref l st index)))) as [buf' Hs]
    by (apply splice_is_Some; rewrite blen_le_bytes; lia).
  rewrite Hs. cbn [or_panic]. do 2 wstep. pose proof (splice_blen _ _ _ _ Hs) as Hl'.
  eapply wp_mono; [apply IH; lia | | by intros]. intros _ buf2 (Hl2 & Hby & Hlow & Hnew). split_and!; [lia| | |].
  - intros Hb. apply Hby. exact (splice_is_bytes _ _ _ _ Hb (le_bytes_is_bytes _ _) Hs).
  - intros a b Hb. rewrite Hlow by lia. apply (slice_splice_ne _ _ _ _ _ _ Hs). rewrite blen_le_bytes. lia.
  - intros i Hir. destruct (Z.eqb_spec i 0) as [->|Hne].
    + rewrite !Z.add_0_r, Hlow by lia. pose proof (slice_splice_eq _ _ _ _ Hs) as Hq. rewrite blen_le_bytes in Hq. exact Hq.
    + replace (k + i) with (k + 1 + (i - 1)) by lia. replace (index + i) with (index + 1 + (i - 1)) by lia. apply Hnew. lia.
Qed.

(** ** Properties *)

(** [layout] is total and never reports an arithmetic overflow: it refuses exactly
    the sizes above 64 TiB and the block sizes that are not powers of two between 1 and
    256 MiB, and otherwise places the log, the BAT, the metadata and the data region in
    that order, each on a MiB boundary and each starting where the one before ends.  The
    BAT region is the least number of whole MiB (at least one) that holds every entry;
    the payload blocks just cover the disk; payload block [p] has its entry at
    [p + p / chunk_ratio], inside the table and never on a sector bitmap slot, and
    without a parent the last payload block has the last entry. *)
Theorem vhdx_layout_exact (virtual_size block_size : Z) (has_parent : bool) :
  is_u64 virtual_size -> is_u32 block_size ->
  let rounded := div_ceil virtual_size 512 * 512 in
  match layout virtual_size block_size has_parent with
  | Ok l =>
      rounded <= MAX_VIRTUAL_SIZE /\ vl_virtual_size l = rounded /\
      vl_block_size l = (if block_size =? 0 then default_block_size rounded else block_size) /\
      is_valid_metadata_block_size (vl_block_size l) = true /\
      vl_log_offset l = MB_ALIGN /\ vl_bat_offset l = vl_log_offset l + vl_log_length l /\
      vl_metadata_offset l = vl_bat_offset l + vl_bat_region_len l /\
      vl_data_start l = vl_metadata_offset l + vl_metadata_region_len l /\ vl_data_start l < vl_fixed_data_start l /\
      Forall (fun off => off mod MB_ALIGN = 0)
        [vl_bat_offset l; vl_metadata_offset l; vl_data_start l; vl_fixed_data_start l] /\
      vl_bat_entries l * 8 <= vl_bat_region_len l /\
      (vl_bat_region_len l = MB_ALIGN \/ vl_bat_region_len l < vl_bat_entries l * 8 + MB_ALIGN) /\
      (vl_payload_blocks l - 1) * vl_block_size l < vl_virtual_size l <= vl_payload_blocks l * vl_block_size l /\
      (forall p, 0 <= p < vl_payload_blocks l ->
         bat_index (vl_chunk_ratio l) p < vl_bat_entries l /\
         bat_index (vl_chunk_ratio l) p mod (vl_chunk_ratio l + 1) <> vl_chunk_ratio l) /\
      (has_parent = false -> 0 < vl_payload_blocks l ->
         bat_index (vl_chunk_ratio l) (vl_payload_blocks l - 1) = vl_bat_entries l - 1) /\
      vl_fixed_file_length l = vl_fixed_data_start l + vl_virtual_size l
  | Err LeTooLarge => MAX_VIRTUAL_SIZE < rounded
  | Err LeInvalidBlockSize => rounded <= MAX_VIRTUAL_SIZE /\ block_size <> 0 /\ is_valid_metadata_block_size block_size = false
  | Err LeOverflow | Panic | OutOfFuel => False
  end.
Proof.
  intros Hvs Hbs rounded. pose proof (layout_spec virtual_size block_size has_parent Hvs Hbs) as Hspec. cbv zeta in Hspec. fold rounded in Hspec.
  destruct (layout virtual_size block_size has_parent) as [l|[]| |]; try exact Hspec.
  destruct Hspec as (Hg & Hv & Hb). destruct (geometry_bounds l has_parent Hg) as (Hbb & _ & Hp & _ & Hfit & Hlm & _).
  pose proof Hg as [(Hs & _) Hvb (_ & Hr) Hpay Hent Hreg Hbat Hmeta Hdata Hfix Hlen (Hlo & Hll & Hml)].
  pose proof (div_ceil_spec (vl_virtual_size l) (vl_block_size l) ltac:(lia)) as [Hc1 Hc2]. rewrite <- Hpay in Hc1, Hc2.
  destruct (div_ceil_spec (vl_bat_entries l * 8) MB_ALIGN ltac:(unfold MB_ALIGN; lia)) as [_ Hd2].
  assert (0 < vl_payload_blocks l -> vl_bat_entries l = entries_of has_parent (vl_payload_blocks l) (vl_chunk_ratio l)) as Hent'
    by (intros; rewrite Hent; destruct (Z.eqb_spec (vl_payload_blocks l) 0); done || lia).
  pose proof (fun H => bat_index_entries has_parent (vl_payload_blocks l) (vl_chunk_ratio l) H ltac:(lia)) as Hidx.
  unfold MB_ALIGN in *. split_and!; try done; try lia.
  - apply Z.mod_divide in Hlm as [y Hy]; [|lia].
    repeat constructor; (apply Z.mod_divide; [lia|]); [exists 2 | exists (2 + y) | exists (3 + y) | exists (7 + y)]; lia.
  - intros p Hpr. rewrite Hent' by lia. split; [apply Hidx; lia|].
    destruct (bat_index_group (vl_chunk_ratio l) p ltac:(lia) ltac:(lia)) as [_ ->].
    pose proof (Z.mod_pos_bound p (vl_chunk_ratio l) ltac:(lia)). lia.
  - intros -> Hpos. rewrite Hent' by lia. apply Hidx; done || lia.
Qed.

(** A 10 GiB image: 640 blocks of 16 MiB, two sector bitmap slots. *)
Definition demo_vhdx_layout : VhdxLayout :=
  mkVhdxLayout 10737418240 16777216 256 640 642 1048576 1048576 2097152 1048576 3145728 1048576 4194304 8388608
    10745806848 512 512.

Lemma vhdx_layout_exact_witness :
  layout 10737417900 0 false = Ok demo_vhdx_layout /\
  vl_bat_entries demo_vhdx_layout * 8 <= vl_bat_region_len demo_vhdx_layout /\
  bat_index (vl_chunk_ratio demo_vhdx_layout) 639 = 641.
Proof.
  assert (layout 10737417900 0 false = Ok demo_vhdx_layout) as He by (vm_compute; reflexivity).
  split; [exact He|].
  pose proof (vhdx_layout_exact 10737417900 0 false ltac:(unfold is_u64, u64_max; lia) ltac:(unfold is_u32, u32_max; lia)) as Ht.
  cbv zeta in Ht. rewrite He in Ht. destruct Ht as (_ & _ & _ & _ & _ & _ & _ & _ & _ & _ & Hfit & _ & _ & _ & Hlast & _).
  split; [exact Hfit|]. exact (Hlast eq_refl eq_refl).
Defined.

(** What a fixed image's BAT must hold at an index: the block that the readers look up
    there, and zero in a sector bitmap slot or in the padding of the region. *)
Definition fixed_entry_at (l : VhdxLayout) (state : FixedBlockState) (j e : Z) : Prop :=
  (forall p, 0 <= p < vl_payload_blocks l -> j = bat_index (vl_chunk_ratio l) p ->
     e = match state with
         | FbZero => PAYLOAD_BLOCK_ZERO
         | FbFullyPresent => vl_fixed_data_start l + p * vl_block_size l + PAYLOAD_BLOCK_FULLY_PRESENT
         end) /\
  ((forall p, 0 <= p < vl_payload_blocks l -> j <> bat_index (vl_chunk_ratio l) p) -> e = 0).

Lemma fixed_bat_ref_spec l st j : geometry l false -> 0 <= j -> fixed_entry_at l st j (fixed_bat_ref l st j).
Proof.
  intros Hg Hj. destruct (ge_ratio l _ Hg) as [_ Hr]. destruct (geometry_bounds l false Hg) as (_ & _ & Hp & _).
  pose proof (ge_entries l _ Hg) as He. set (c := vl_chunk_ratio l) in *. unfold fixed_entry_at, fixed_bat_ref. fold c. split.
  - intros p Hpr ->. destruct (Z.eqb_spec (vl_payload_blocks l) 0) as [|Hn]; [lia|].
    destruct (bat_index_entries false (vl_payload_blocks l) c ltac:(lia) ltac:(lia)) as [Hlt _]. specialize (Hlt p Hpr).
    destruct (bat_index_group c p ltac:(lia) ltac:(lia)) as [Hq Hm]. rewrite Hq, Hm.
    pose proof (Z.mod_pos_bound p c ltac:(lia)). rewrite (proj2 (Z.leb_gt _ _)) by lia. rewrite (proj2 (Z.eqb_neq _ _)) by lia.
    cbn [orb]. unfold bat_index. replace (p + p / c - p / c) with p by lia. by destruct st.
  - intros Hnone. destruct (Z.leb_spec (vl_bat_entries l) j) as [|Hlt]; [done|].
    destruct (Z.eqb_spec (j mod (c + 1)) c) as [|Hne]; [done|]. exfalso.
    destruct (bat_index_inverse c j ltac:(lia) Hj Hne) as [Hq0 Hq]. set (q := j - j / (c + 1)) in *.
    apply (Hnone q); [|done]. split; [done|]. destruct (Z.eqb_spec (vl_payload_blocks l) 0) as [|Hn]; [lia|].
    destruct (bat_index_entries false (vl_payload_blocks l) c ltac:(lia) ltac:(lia)) as [_ Hlast]. specialize (Hlast eq_refl).
    destruct (Z.lt_ge_cases q (vl_payload_blocks l)) as [|Hge]; [done|].
    pose proof (bat_index_mono c (vl_payload_blocks l - 1) q ltac:(lia) ltac:(lia)). lia.
Qed.

Lemma fill_fixed_bat_wp l state first_entry out : geometry l false -> is_u64 first_entry ->
  wp (fill_fixed_bat l state first_entry)
    (fun _ out' => blen out' = blen out /\ (is_bytes out -> is_bytes out') /\ blen out mod 8 = 0 /\ first_entry + blen out / 8 <= vl_bat_region_len l / 8 /\
       forall i, 0 <= i < blen out / 8 -> slice out' (8 * i) (8 * i + 8) = Some (le_bytes 8 (fixed_bat_ref l state (first_entry + i))))
    (fun err out' => out' = out /\
       match err with
       | UnalignedBuffer => blen out mod 8 <> 0
       | PastRegion => vl_bat_region_len l / 8 < first_entry + blen out / 8
       | BfOverflow => u64_max < first_entry + blen out / 8
       | DegenerateChunkRatio => False
       end) out.
Proof.
  intros Hg Hf. destruct (ge_ratio l _ Hg) as [_ Hr].
  destruct (geometry_bounds l false Hg) as (Hbb & _ & _ & He & _ & _ & Hl).
  assert (vl_fixed_data_start l <= 2097152 + 605061120 + 5242880) as Hfs.
  { rewrite (ge_fixed l _ Hg), (ge_metadata l _ Hg), (ge_bat l _ Hg). destruct (ge_consts l _ Hg) as (-> & -> & _). unfold MB_ALIGN. lia. }
  assert (vl_bat_entries l * vl_block_size l <= 75501568 * 268435456) as Heb by nia.
  pose proof (blen_nonneg out) as Hbl. unfold fill_fixed_bat. do 2 wstep.
  destruct (is_multiple_of (blen out) 8) eqn:Hm; cbn [negb].
  2:{ wstep. split; [done|]. intros Hm'. apply is_multiple_of_spec in Hm'; [congruence|lia]. }
  apply is_multiple_of_spec in Hm; [|lia]. pose proof (Z.div_pos (blen out) 8 ltac:(lia) ltac:(lia)). do 2 wstep.
  destruct (checked_add first_entry (blen out / 8)) as [e|] eqn:Hadd; cbn [ok_or].
  2:{ split; [done|]. unfold checked_add in Hadd. destruct (Z.leb_spec (first_entry + blen out / 8) u64_max); done. }
  apply checked_add_Some in Hadd as [-> _]. destruct (Z.ltb_spec (vl_bat_region_len l / 8) (first_entry + blen out / 8)); [by wstep|].
  rewrite (proj2 (Z.eqb_neq _ _)) by lia. do 2 wstep. rewrite checked_add_eq by (unfold u64_max; lia). cbn [ok_or].
  do 2 wstep. rewrite checked_mul_eq by (unfold u64_max; lia). cbn [mbind option_bind]. rewrite checked_add_eq by (unfold u64_max; lia). cbn [ok_or].
  pose proof (Z.mul_div_le (blen out) 8 ltac:(lia)). unfold is_u64 in Hf.
  replace (first_entry + blen out / 8 - first_entry) with (blen out / 8) by lia.
  eapply wp_mono; [apply (fill_slots_spec _ l state Hg 0 first_entry out); lia | | by intros]. cbv beta.
  intros _ out' (Hlen & Hby & _ & Hnew). split_and!; [done | done | done | done |]. intros i Hi. specialize (Hnew i ltac:(lia)). by rewrite Z.add_0_l in Hnew.
Qed.

(** Filling any buffer of a fixed image's BAT never panics; it fails exactly for a
    buffer that is not a whole number of entries, one that reaches past the BAT region,
    or an entry number that overflows, and then leaves the buffer as it was.  Otherwise
    the entry it writes for index [j] depends on [j] alone: the index at which the
    readers look up payload block [p] holds [p]'s state and place,
    [fixed_data_start + p * block_size], and every other index holds zero. *)
Theorem fixed_bat_exact (virtual_size block_size first_entry : Z) (l : VhdxLayout) (state : FixedBlockState) (out : bytes) :
  is_u64 virtual_size -> is_u32 block_size -> is_u64 first_entry ->
  layout virtual_size block_size false = Ok l ->
  wp (fill_fixed_bat l state first_entry)
    (fun _ out' => blen out' = blen out /\ blen out mod 8 = 0 /\ first_entry + blen out / 8 <= vl_bat_region_len l / 8 /\
       forall i, 0 <= i < blen out / 8 ->
         exists e, le_u64 (E := unit) out' (8 * i) = Ok e /\ fixed_entry_at l state (first_entry + i) e)
    (fun err out' => out' = out /\
       match err with
       | UnalignedBuffer => blen out mod 8 <> 0
       | PastRegion => vl_bat_region_len l / 8 < first_entry + blen out / 8
       | BfOverflow => u64_max < first_entry + blen out / 8
       | DegenerateChunkRatio => False
       end) out.
Proof.
  intros Hvs Hbs Hf Hlay. pose proof (layout_spec virtual_size block_size false Hvs Hbs) as Hspec. cbv zeta in Hspec. rewrite Hlay in Hspec.
  destruct Hspec as (Hg & _ & _). eapply wp_mono; [by apply fill_fixed_bat_wp | | by intros]. cbv beta. unfold is_u64 in Hf.
  intros _ out' (Hlen & _ & Hmod & Hb & Hnew). split_and!; [done | done | done |]. intros i Hi. exists (fixed_bat_ref l state (first_entry + i)).
  destruct (fixed_bat_entry_spec l state (first_entry + i) Hg ltac:(lia)) as [_ Hu].
  split; [|apply fixed_bat_ref_spec; [done|lia]]. unfold le_u64. rewrite Hnew by done. cbn [or_panic obind]. f_equal.
  apply le_val_le_bytes. change (256 ^ Z.of_nat 8) with 18446744073709551616. unfold is_u64, u64_max in Hu. lia.
Qed.

Lemma fixed_bat_exact_witness :
  (fill_fixed_bat demo_vhdx_layout FbFullyPresent 255 (filled 24 9)).2 =
    le_bytes 8 (8388608 + 255 * 16777216 + 6) ++ le_bytes 8 0 ++ le_bytes 8 (8388608 + 256 * 16777216 + 6) /\
  fixed_entry_at demo_vhdx_layout FbFullyPresent 257 (8388608 + 256 * 16777216 + 6).
Proof.
  split; [vm_compute; reflexivity|].
  pose proof (fixed_bat_exact 10737417900 0 255 demo_vhdx_layout FbFullyPresent (filled 24 9) ltac:(unfold is_u64, u64_max; lia)
    ltac:(unfold is_u32, u32_max; lia) ltac:(unfold is_u64, u64_max; lia) ltac:(vm_compute; reflexivity)) as Ht.
  unfold wp in Ht.
  assert (fill_fixed_bat demo_vhdx_layout FbFullyPresent 255 (filled 24 9) =
    (Ok tt, le_bytes 8 (8388608 + 255 * 16777216 + 6) ++ le_bytes 8 0 ++ le_bytes 8 (8388608 + 256 * 16777216 + 6))) as Hf
    by (vm_compute; reflexivity).
  rewrite Hf in Ht. destruct Ht as (_ & _ & _ & Hall).
  destruct (Hall 2) as (e & He & Hat); [split; [discriminate | reflexivity]|].
  vm_compute in He. injection He as <-. exact Hat.
Defined.
