(* ===== verification/VhdxMeta.v ===== *)
(** The structures at the front of a VHDX file ([src/src/crates/vhdx/src/lib.rs]): the
    CRC-32C that guards them, the header, the region table and the metadata region, each
    with the code that writes it and the code that reads it. *)

From stdpp Require Import base numbers list sets option.
From Stdlib Require Import ZArith Lia.
From S2P Require Import Prelude Bytes ExecBytes CachedRead Header Stamp Vhdx.

(** ** Definitions *)

(** *** CRC-32C *)

Definition CRC32C_POLY : Z := 0x82F63B78.

(** One round of the inner loop of the table's initialiser. *)
Definition crc_bit (crc : Z) : Z :=
  if negb (Z.land crc 1 =? 0) then Z.lxor (Z.shiftr crc 1) CRC32C_POLY else Z.shiftr crc 1.

Definition CRC32C_TABLE : list Z := map (fun i => Nat.iter 8 crc_bit (Z.of_nat i)) (seq 0 256).

(** [CRC32C_TABLE[(crc ^ b) & 0xFF] ^ (crc >> 8)]; the masked index is in the table. *)
Definition crc_byte (crc b : Z) : Z :=
  Z.lxor (nth (Z.to_nat (Z.land (Z.lxor crc b) 0xFF)) CRC32C_TABLE 0) (Z.shiftr crc 8).

(** The bytes with the checksum field as zeros. *)
Definition without_field (data : bytes) (checksum_offset : Z) : bytes :=
  imap (fun i b => if (checksum_offset <=? Z.of_nat i) && (Z.of_nat i <? wadd checksum_offset 4) then 0 else b) data.

Definition compute_crc32c (data : bytes) (checksum_offset : Z) : Z :=
  Z.lxor (foldl crc_byte 0xFFFFFFFF (without_field data checksum_offset)) 0xFFFFFFFF.

(** *** The header *)

Definition HEADER1_OFFSET : Z := 0x10000.
Definition HEADER2_OFFSET : Z := 0x20000.
Definition REGION_TABLE1_OFFSET : Z := 0x30000.
Definition HEADER_SIGNATURE : Z := 0x64616568.
Definition REGION_TABLE_SIGNATURE : Z := 0x69676572.
Definition METADATA_TABLE_SIGNATURE : Z := 0x617461646174656D.
Definition HEADER_SIZE : Z := 4096.
Definition HEADER_CHECKSUM_OFFSET : Z := 4.
Definition HEADER_SEQUENCE_NUMBER_OFFSET : Z := 8.
Definition HEADER_FILE_WRITE_GUID_OFFSET : Z := 16.
Definition HEADER_DATA_WRITE_GUID_OFFSET : Z := 32.
Definition HEADER_LOG_GUID_OFFSET : Z := 48.
Definition HEADER_VERSION_OFFSET : Z := 66.
Definition HEADER_LOG_LENGTH_OFFSET : Z := 68.
Definition HEADER_LOG_OFFSET_OFFSET : Z := 72.
Definition VHDX_VERSION : Z := 1.

Record VhdxHeader : Type := mkVhdxHeader {
  vh_signature : Z;
  vh_checksum : Z;
  vh_sequence_number : Z;
  vh_data_write_guid : bytes;
  vh_log_guid : bytes;
  vh_log_length : Z;
  vh_log_offset : Z
}.

Definition VhdxHeader_parse (buf : bytes) : outcome unit VhdxHeader :=
  if blen buf <? HEADER_SIZE then Err tt
  else
  let? signature := le_u32 buf 0 in
  if negb (signature =? HEADER_SIGNATURE) then Err tt
  else
  let? checksum := le_u32 buf HEADER_CHECKSUM_OFFSET in
  let? data := or_panic (slice buf 0 HEADER_SIZE) in
  let computed := compute_crc32c data HEADER_CHECKSUM_OFFSET in
  if negb (checksum =? computed) then Err tt
  else
  let? sequence_number := le_u64 buf HEADER_SEQUENCE_NUMBER_OFFSET in
  let? data_write_guid := or_panic (slice buf HEADER_DATA_WRITE_GUID_OFFSET (HEADER_DATA_WRITE_GUID_OFFSET + 16)) in
  let? log_guid := or_panic (slice buf HEADER_LOG_GUID_OFFSET (HEADER_LOG_GUID_OFFSET + 16)) in
  let? log_length := le_u32 buf HEADER_LOG_LENGTH_OFFSET in
  let? log_offset := le_u64 buf HEADER_LOG_OFFSET_OFFSET in
  Ok (mkVhdxHeader signature checksum sequence_number data_write_guid log_guid log_length log_offset).

(** The writes of [build_header] before the checksum, in order. *)
Definition header_fields (sequence_number : Z) : list (Z * bytes) :=
  [(0, le_bytes 4 HEADER_SIGNATURE);
   (HEADER_SEQUENCE_NUMBER_OFFSET, le_bytes 8 sequence_number);
   (HEADER_FILE_WRITE_GUID_OFFSET, le_bytes 8 sequence_number);
   (HEADER_FILE_WRITE_GUID_OFFSET + 8, [1]);
   (HEADER_DATA_WRITE_GUID_OFFSET, le_bytes 8 sequence_number);
   (HEADER_DATA_WRITE_GUID_OFFSET + 8, [2]);
   (HEADER_VERSION_OFFSET, le_bytes 2 VHDX_VERSION);
   (HEADER_LOG_LENGTH_OFFSET, le_bytes 4 LOG_LENGTH);
   (HEADER_LOG_OFFSET_OFFSET, le_bytes 8 LOG_OFFSET)].

Definition build_header (buf : bytes) (sequence_number : Z) : outcome unit bytes :=
  let? buf := or_panic (apply_writes buf (header_fields sequence_number)) in
  let? data := or_panic (slice buf 0 HEADER_SIZE) in
  let checksum := compute_crc32c data HEADER_CHECKSUM_OFFSET in
  or_panic (splice buf HEADER_CHECKSUM_OFFSET (le_bytes 4 checksum)).

(** *** The region table *)

Definition REGION_TABLE_HEADER_SIZE : Z := 16.
Definition REGION_TABLE_ENTRY_SIZE : Z := 32.
Definition REGION_TABLE_CHECKSUM_OFFSET : Z := 4.
Definition REGION_TABLE_ENTRY_COUNT_OFFSET : Z := 8.
Definition MAX_REGION_TABLE_ENTRIES : Z := 2047.

Definition BAT_REGION_GUID : bytes :=
  [0x66; 0x77; 0xC2; 0x2D; 0x23; 0xF6; 0x00; 0x42; 0x9D; 0x64; 0x11; 0x5E; 0x9B; 0xFD; 0x4A; 0x08].
Definition METADATA_REGION_GUID : bytes :=
  [0x06; 0xA2; 0x7C; 0x8B; 0x90; 0x47; 0x9A; 0x4B; 0xB8; 0xFE; 0x57; 0x5F; 0x05; 0x0F; 0x88; 0x6E].

Record VhdxRegionEntry : Type := mkVhdxRegionEntry {
  re_guid : bytes;
  re_file_offset : Z;
  re_length : Z;
  re_required : Z
}.

(** The loop over the entries, from entry [i] on; the last entry of each kind wins. *)
Fixpoint scan_regions (n : nat) (buf : bytes) (i : Z) (bat metadata : option VhdxRegionEntry)
  : outcome unit (option VhdxRegionEntry * option VhdxRegionEntry) :=
  match n with
  | O => Ok (bat, metadata)
  | S n' =>
      let off := REGION_TABLE_HEADER_SIZE + i * REGION_TABLE_ENTRY_SIZE in
      if blen buf <? off + REGION_TABLE_ENTRY_SIZE then Ok (bat, metadata)
      else
      let? guid := or_panic (slice buf off (off + 16)) in
      let? file_offset := le_u64 buf (off + 16) in
      let? length := le_u32 buf (off + 24) in
      let? required := le_u32 buf (off + 28) in
      let entry := mkVhdxRegionEntry guid file_offset length required in
      if bool_decide (guid = BAT_REGION_GUID) then scan_regions n' buf (i + 1) (Some entry) metadata
      else if bool_decide (guid = METADATA_REGION_GUID) then scan_regions n' buf (i + 1) bat (Some entry)
      else scan_regions n' buf (i + 1) bat metadata
  end.

Definition parse_region_table (buf : bytes) : outcome unit (VhdxRegionEntry * VhdxRegionEntry * Z) :=
  if blen buf <? REGION_TABLE_HEADER_SIZE then Err tt
  else
  let? sig := le_u32 buf 0 in
  if negb (sig =? REGION_TABLE_SIGNATURE) then Err tt
  else
  let? checksum := le_u32 buf REGION_TABLE_CHECKSUM_OFFSET in
  let crc_len := if 65536 <=? blen buf then 65536 else blen buf in
  let? data := or_panic (slice buf 0 crc_len) in
  let computed := compute_crc32c data REGION_TABLE_CHECKSUM_OFFSET in
  if negb (checksum =? computed) then Err tt
  else
  let? entry_count := le_u32 buf REGION_TABLE_ENTRY_COUNT_OFFSET in
  if MAX_REGION_TABLE_ENTRIES <? entry_count then Err tt
  else
  let? (bat, metadata) := scan_regions (Z.to_nat (Z.min entry_count 8)) buf 0 None None in
  match bat, metadata with
  | Some bat_entry, Some metadata_entry => Ok (bat_entry, metadata_entry, entry_count)
  | _, _ => Err tt
  end.

Definition region_fields (bat_offset bat_length metadata_offset metadata_length : Z) : list (Z * bytes) :=
  let required := 0 in
  let e0 := REGION_TABLE_HEADER_SIZE in
  let e1 := e0 + REGION_TABLE_ENTRY_SIZE in
  [(0, le_bytes 4 REGION_TABLE_SIGNATURE);
   (REGION_TABLE_ENTRY_COUNT_OFFSET, le_bytes 4 2);
   (e0, BAT_REGION_GUID); (e0 + 16, le_bytes 8 bat_offset); (e0 + 24, le_bytes 4 bat_length); (e0 + 28, le_bytes 4 required);
   (e1, METADATA_REGION_GUID); (e1 + 16, le_bytes 8 metadata_offset); (e1 + 24, le_bytes 4 metadata_length); (e1 + 28, le_bytes 4 required)].

Definition build_region_table (buf : bytes) (bat_offset bat_length metadata_offset metadata_length : Z) : outcome unit bytes :=
  let? buf := or_panic (apply_writes buf (region_fields bat_offset bat_length metadata_offset metadata_length)) in
  let crc_len := if 65536 <=? blen buf then 65536 else blen buf in
  let? data := or_panic (slice buf 0 crc_len) in
  let checksum := compute_crc32c data REGION_TABLE_CHECKSUM_OFFSET in
  or_panic (splice buf REGION_TABLE_CHECKSUM_OFFSET (le_bytes 4 checksum)).

(** *** The metadata region *)

Definition METADATA_TABLE_HEADER_SIZE : Z := 32.
Definition METADATA_TABLE_ENTRY_SIZE : Z := 32.
Definition METADATA_TABLE_ENTRY_COUNT_OFFSET : Z := 10.
Definition MAX_METADATA_TABLE_ENTRIES : Z := 2047.
Definition METADATA_ITEMS_MIN_OFFSET : Z := 0x10000.
Definition METADATA_ITEMS_LEN : Z := 40.

Definition FILE_PARAMETERS_GUID : bytes :=
  [0x37; 0x67; 0xA1; 0xCA; 0x36; 0xFA; 0x43; 0x4D; 0xB3; 0xB6; 0x33; 0xF0; 0xAA; 0x44; 0xE7; 0x6B].
Definition VIRTUAL_DISK_SIZE_GUID : bytes :=
  [0x24; 0x42; 0xA5; 0x2F; 0x1B; 0xCD; 0x76; 0x48; 0xB2; 0x11; 0x5D; 0xBE; 0xD8; 0x3B; 0xF4; 0xB8].
Definition LOGICAL_SECTOR_SIZE_GUID : bytes :=
  [0x1D; 0xBF; 0x41; 0x81; 0x6F; 0xA9; 0x09; 0x47; 0xBA; 0x47; 0xF2; 0x33; 0xA8; 0xFA; 0xAB; 0x5F].
Definition PHYSICAL_SECTOR_SIZE_GUID : bytes :=
  [0xC7; 0x48; 0xA3; 0xCD; 0x5D; 0x44; 0x71; 0x44; 0x9C; 0xC9; 0xE9; 0x88; 0x52; 0x51; 0xC5; 0x56].
Definition PAGE_83_DATA_GUID : bytes :=
  [0xAB; 0x12; 0xCA; 0xBE; 0xE6; 0xB2; 0x23; 0x45; 0x93; 0xEF; 0xC3; 0x09; 0xE0; 0x00; 0xC7; 0x46].
Definition PARENT_LOCATOR_GUID : bytes :=
  [0x2D; 0x5F; 0xD3; 0xA8; 0x0B; 0xB3; 0x4D; 0x45; 0xAB; 0xF7; 0xD3; 0xD8; 0x48; 0x34; 0xAB; 0x0C].

Definition METADATA_ENTRY_IS_VIRTUAL_DISK : Z := Z.shiftl 1 1.
Definition METADATA_ENTRY_IS_REQUIRED : Z := Z.shiftl 1 2.
Definition FILE_PARAMETERS_LEAVE_BLOCKS_ALLOCATED : Z := Z.shiftl 1 0.
Definition FILE_PARAMETERS_HAS_PARENT : Z := Z.shiftl 1 1.

(** Offsets found so far; [MetadataItemLocations] when the four required ones are there. *)
Record ItemOffsets : Type := mkItemOffsets {
  io_file_parameters : option Z;
  io_virtual_disk_size : option Z;
  io_logical_sector_size : option Z;
  io_physical_sector_size : option Z;
  io_parent_locator : option (Z * Z)
}.

Record MetadataItemLocations : Type := mkMetadataItemLocations {
  mi_file_parameters : Z;
  mi_virtual_disk_size : Z;
  mi_logical_sector_size : Z;
  mi_physical_sector_size : Z;
  mi_parent_locator : option (Z * Z)
}.

(** The chain of GUID tests for one entry. *)
Definition note_item (table : bytes) (entry_start : Z) (guid : bytes) (item_offset : Z) (o : ItemOffsets) : outcome unit ItemOffsets :=
  let '(mkItemOffsets fp vs ls ps pl) := o in
  if bool_decide (guid = FILE_PARAMETERS_GUID) then Ok (mkItemOffsets (Some item_offset) vs ls ps pl)
  else if bool_decide (guid = VIRTUAL_DISK_SIZE_GUID) then Ok (mkItemOffsets fp (Some item_offset) ls ps pl)
  else if bool_decide (guid = LOGICAL_SECTOR_SIZE_GUID) then Ok (mkItemOffsets fp vs (Some item_offset) ps pl)
  else if bool_decide (guid = PHYSICAL_SECTOR_SIZE_GUID) then Ok (mkItemOffsets fp vs ls (Some item_offset) pl)
  else if bool_decide (guid = PARENT_LOCATOR_GUID) then
    let? len := le_u32 table (entry_start + 20) in Ok (mkItemOffsets fp vs ls ps (Some (item_offset, len)))
  else Ok o.

Fixpoint scan_items (n : nat) (table : bytes) (i : Z) (o : ItemOffsets) : outcome unit ItemOffsets :=
  match n with
  | O => Ok o
  | S n' =>
      let entry_start := METADATA_TABLE_HEADER_SIZE + i * METADATA_TABLE_ENTRY_SIZE in
      if blen table <? entry_start + METADATA_TABLE_ENTRY_SIZE then Ok o
      else
      let? guid := or_panic (slice table entry_start (entry_start + 16)) in
      let? item_offset := le_u32 table (entry_start + 16) in
      let? o' := note_item table entry_start guid item_offset o in
      scan_items n' table (i + 1) o'
  end.

Definition locate_metadata_items (table : bytes) : outcome unit MetadataItemLocations :=
  if blen table <? METADATA_TABLE_HEADER_SIZE then Err tt
  else
  let? sig := le_u64 table 0 in
  if negb (sig =? METADATA_TABLE_SIGNATURE) then Err tt
  else
  let? entry_count := le_u16 table METADATA_TABLE_ENTRY_COUNT_OFFSET in
  if MAX_METADATA_TABLE_ENTRIES <? entry_count then Err tt
  else
  let? o := scan_items (Z.to_nat (Z.min entry_count 32)) table 0 (mkItemOffsets None None None None None) in
  let? fp := ok_or (io_file_parameters o) tt in
  let? vs := ok_or (io_virtual_disk_size o) tt in
  let? ls := ok_or (io_logical_sector_size o) tt in
  let? ps := ok_or (io_physical_sector_size o) tt in
  Ok (mkMetadataItemLocations fp vs ls ps (io_parent_locator o)).

Record VhdxMetadataItems : Type := mkVhdxMetadataItems {
  vm_block_size : Z;
  vm_has_parent : bool;
  vm_leave_blocks_allocated : bool;
  vm_virtual_disk_size : Z;
  vm_virtual_disk_size_offset : Z;
  vm_logical_sector_size : Z;
  vm_physical_sector_size : Z
}.

(** The [item] closure. *)
Definition item_start (region : bytes) (offset len : Z) : outcome unit Z :=
  let? e := ok_or (checked_add offset len) tt in
  if (METADATA_ITEMS_MIN_OFFSET <=? offset) && (e <=? blen region) then Ok offset else Err tt.

Definition sector_size_ok (s : Z) : bool := (s =? 512) || (s =? 4096).

Definition parse_metadata_region (region : bytes) : outcome unit VhdxMetadataItems :=
  let? items := locate_metadata_items region in
  let? fp := item_start region (mi_file_parameters items) 8 in
  let? block_size := le_u32 region fp in
  let? fp_flags := le_u32 region (fp + 4) in
  let has_parent := negb (Z.land fp_flags FILE_PARAMETERS_HAS_PARENT =? 0) in
  let leave_blocks_allocated := negb (Z.land fp_flags FILE_PARAMETERS_LEAVE_BLOCKS_ALLOCATED =? 0) in
  if negb (is_valid_metadata_block_size block_size) then Err tt
  else
  let? vs := item_start region (mi_virtual_disk_size items) 8 in
  let? virtual_disk_size := le_u64 region vs in
  let? ls := item_start region (mi_logical_sector_size items) 4 in
  let? logical_sector_size := le_u32 region ls in
  let? ps := item_start region (mi_physical_sector_size items) 4 in
  let? physical_sector_size := le_u32 region ps in
  if negb (sector_size_ok logical_sector_size) || negb (sector_size_ok physical_sector_size) then Err tt
  else Ok (mkVhdxMetadataItems block_size has_parent leave_blocks_allocated virtual_disk_size
             (mi_virtual_disk_size items) logical_sector_size physical_sector_size).

Definition ITEM_FILE_PARAMETERS : Z := 0.
Definition ITEM_VIRTUAL_DISK_SIZE : Z := 8.
Definition ITEM_PAGE_83_DATA : Z := 16.
Definition ITEM_LOGICAL_SECTOR_SIZE : Z := 32.
Definition ITEM_PHYSICAL_SECTOR_SIZE : Z := 36.

Definition VIRTUAL_DISK_ITEM : Z := Z.lor METADATA_ENTRY_IS_REQUIRED METADATA_ENTRY_IS_VIRTUAL_DISK.

(** GUID, offset in the item data, length and flags. *)
Definition BUILT_METADATA_ITEMS : list (bytes * Z * Z * Z) :=
  [(FILE_PARAMETERS_GUID, ITEM_FILE_PARAMETERS, 8, METADATA_ENTRY_IS_REQUIRED);
   (VIRTUAL_DISK_SIZE_GUID, ITEM_VIRTUAL_DISK_SIZE, 8, VIRTUAL_DISK_ITEM);
   (PAGE_83_DATA_GUID, ITEM_PAGE_83_DATA, 16, VIRTUAL_DISK_ITEM);
   (LOGICAL_SECTOR_SIZE_GUID, ITEM_LOGICAL_SECTOR_SIZE, 4, VIRTUAL_DISK_ITEM);
   (PHYSICAL_SECTOR_SIZE_GUID, ITEM_PHYSICAL_SECTOR_SIZE, 4, VIRTUAL_DISK_ITEM)].

(** The writes for table entry [i]. *)
Definition item_entry (i : nat) (item : bytes * Z * Z * Z) : list (Z * bytes) :=
  let '(guid, offset, length, flags) := item in
  let e := METADATA_TABLE_HEADER_SIZE + Z.of_nat i * METADATA_TABLE_ENTRY_SIZE in
  [(e, guid); (e + 16, le_bytes 4 (METADATA_ITEMS_MIN_OFFSET + offset)); (e + 20, le_bytes 4 length); (e + 24, le_bytes 4 flags)].

Definition metadata_fields : list (Z * bytes) :=
  (0, le_bytes 8 METADATA_TABLE_SIGNATURE) ::
  (METADATA_TABLE_ENTRY_COUNT_OFFSET, le_bytes 2 (Z.of_nat (length BUILT_METADATA_ITEMS))) ::
  concat (imap item_entry BUILT_METADATA_ITEMS).

Definition item_fields (block_size virtual_disk_size logical_sector_size physical_sector_size : Z)
    (leave_blocks_allocated has_parent : bool) : list (Z * bytes) :=
  let flags := 0 in
  let flags := if leave_blocks_allocated then Z.lor flags FILE_PARAMETERS_LEAVE_BLOCKS_ALLOCATED else flags in
  let flags := if has_parent then Z.lor flags FILE_PARAMETERS_HAS_PARENT else flags in
  [(ITEM_FILE_PARAMETERS, le_bytes 4 block_size);
   (ITEM_FILE_PARAMETERS + 4, le_bytes 4 flags);
   (ITEM_VIRTUAL_DISK_SIZE, le_bytes 8 virtual_disk_size);
   (ITEM_PAGE_83_DATA, le_bytes 8 virtual_disk_size);
   (ITEM_PAGE_83_DATA + 8, le_bytes 4 block_size);
   (ITEM_PAGE_83_DATA + 12, [0x56; 0x48; 0x44; 0x58]);
   (ITEM_LOGICAL_SECTOR_SIZE, le_bytes 4 logical_sector_size);
   (ITEM_PHYSICAL_SECTOR_SIZE, le_bytes 4 physical_sector_size)].

Definition build_metadata_items (items : bytes) (block_size virtual_disk_size logical_sector_size physical_sector_size : Z)
    (leave_blocks_allocated has_parent : bool) : outcome unit bytes :=
  or_panic (apply_writes items (item_fields block_size virtual_disk_size logical_sector_size physical_sector_size
                                  leave_blocks_allocated has_parent)).

Definition build_metadata (buf : bytes) (block_size virtual_disk_size logical_sector_size physical_sector_size : Z)
    (leave_blocks_allocated has_parent : bool) : outcome unit (bytes * Z) :=
  let items_base := METADATA_ITEMS_MIN_OFFSET in
  let? buf := or_panic (apply_writes buf metadata_fields) in
  let? buf := match slice buf items_base (items_base + METADATA_ITEMS_LEN) with
              | Some items =>
                  let? items' := build_metadata_items items block_size virtual_disk_size logical_sector_size
                                   physical_sector_size leave_blocks_allocated has_parent in
                  or_panic (splice buf items_base items')
              | None => Ok buf
              end in
  Ok (buf, items_base + METADATA_ITEMS_LEN).

(** ** CRC-32C *)

(** The reflected polynomial division, bit by bit. *)
Definition crc_ref (data : bytes) : Z :=
  Z.lxor (foldl (fun crc b => Nat.iter 8 crc_bit (Z.lxor crc b)) 0xFFFFFFFF data) 0xFFFFFFFF.

Lemma crc_bit_alt x : crc_bit x = Z.lxor (Z.shiftr x 1) (if Z.testbit x 0 then CRC32C_POLY else 0).
Proof.
  unfold crc_bit. change 1 with (Z.ones 1) at 1. rewrite Z.land_ones by lia. change (2 ^ 1) with 2.
  rewrite <- Z.bit0_mod. destruct (Z.testbit x 0); cbn; [done|]. by rewrite Z.lxor_0_r.
Qed.

Lemma crc_bit_lxor x y : crc_bit (Z.lxor x y) = Z.lxor (crc_bit x) (crc_bit y).
Proof.
  rewrite !crc_bit_alt, Z.lxor_spec, Z.shiftr_lxor. set (p := CRC32C_POLY). apply Z.bits_inj. intros i.
  destruct (Z.testbit x 0), (Z.testbit y 0); cbn [xorb]; rewrite ?Z.lxor_spec, ?Z.bits_0;
    destruct (Z.testbit (Z.shiftr x 1) i), (Z.testbit (Z.shiftr y 1) i), (Z.testbit p i); done.
Qed.

Lemma crc_bits_lxor n x y : Nat.iter n crc_bit (Z.lxor x y) = Z.lxor (Nat.iter n crc_bit x) (Nat.iter n crc_bit y).
Proof. induction n as [|n IH]; [done|]. rewrite !Nat.iter_succ, IH. apply crc_bit_lxor. Qed.

(** A value whose low bits are clear is only shifted. *)
Lemma crc_bits_shiftl n x : Nat.iter n crc_bit (Z.shiftl x (Z.of_nat n)) = x.
Proof.
  revert x. induction n as [|n IH]; intros x; [apply Z.shiftl_0_r|]. rewrite Nat.iter_succ_r, crc_bit_alt.
  rewrite Z.shiftl_spec_low by lia. rewrite Z.lxor_0_r, Z.shiftr_shiftl_l by lia.
  replace (Z.of_nat (S n) - 1) with (Z.of_nat n) by lia. apply IH.
Qed.

Lemma low_high x n : 0 <= n -> x = Z.lxor (Z.land x (Z.ones n)) (Z.shiftl (Z.shiftr x n) n).
Proof.
  intros Hn. apply Z.bits_inj'. intros i Hi. rewrite Z.lxor_spec, Z.land_spec.
  destruct (Z.lt_ge_cases i n).
  - rewrite Z.ones_spec_low, Z.shiftl_spec_low by lia. by destruct (Z.testbit x i).
  - rewrite Z.ones_spec_high, Z.shiftl_spec, Z.shiftr_spec by lia. replace (i - n + n) with i by lia.
    by rewrite andb_false_r.
Qed.

Lemma crc_table_lookup k : 0 <= k < 256 -> nth (Z.to_nat k) CRC32C_TABLE 0 = Nat.iter 8 crc_bit k.
Proof.
  intros Hk. unfold CRC32C_TABLE.
  rewrite (nth_indep _ 0 (Nat.iter 8 crc_bit (Z.of_nat 0))) by (rewrite length_map, length_seq; lia).
  rewrite (map_nth (fun i => Nat.iter 8 crc_bit (Z.of_nat i))). rewrite seq_nth by lia. f_equal. lia.
Qed.

(** A table step is eight bit steps. *)
Lemma crc_byte_bits crc b : is_u8 b -> crc_byte crc b = Nat.iter 8 crc_bit (Z.lxor crc b).
Proof.
  intros Hb. unfold crc_byte. unfold is_u8, u8_max in Hb. rewrite (low_high (Z.lxor crc b) 8) at 2 by lia. change (Z.ones 8) with 0xFF.
  rewrite crc_bits_lxor, (crc_bits_shiftl 8). rewrite crc_table_lookup.
  - f_equal. rewrite Z.shiftr_lxor. rewrite (Z.shiftr_div_pow2 b) by lia. change (2 ^ 8) with 256.
    by rewrite (Z.div_small b 256), Z.lxor_0_r by lia.
  - change 0xFF with (Z.ones 8). rewrite Z.land_ones by lia. apply Z.mod_pos_bound. lia.
Qed.

Lemma without_field_blen data off : blen (without_field data off) = blen data.
Proof. unfold without_field, blen. by rewrite length_imap. Qed.

Lemma without_field_bytes data off : is_bytes data -> is_bytes (without_field data off).
Proof.
  intros Hb. unfold without_field. apply Forall_lookup_2. intros i b Hi. rewrite list_lookup_imap in Hi.
  destruct (data !! i) as [c|] eqn:Hc; cbn in Hi; [|done]. injection Hi as <-.
  destruct (_ && _); [done|]. by eapply Forall_lookup_1 in Hc.
Qed.

Lemma crc_fold data crc : is_bytes data -> foldl crc_byte crc data = foldl (fun c b => Nat.iter 8 crc_bit (Z.lxor c b)) crc data.
Proof.
  intros Hb. revert crc. induction Hb as [|b l Hb _ IH]; intros crc; [done|]. cbn [foldl].
  by rewrite (crc_byte_bits crc b Hb), IH.
Qed.

Lemma compute_crc32c_ref data off : is_bytes data -> compute_crc32c data off = crc_ref (without_field data off).
Proof. intros Hb. unfold compute_crc32c, crc_ref. by rewrite crc_fold by (by apply without_field_bytes). Qed.

(** *** Bounds *)

Lemma lxor_bound a b k : 0 <= k -> 0 <= a < 2 ^ k -> 0 <= b < 2 ^ k -> 0 <= Z.lxor a b < 2 ^ k.
Proof.
  intros Hk Ha Hb. assert (Z.lxor a b = Z.lxor a b mod 2 ^ k) as ->; [|apply Z.mod_pos_bound; lia].
  rewrite <- Z.land_ones by lia. apply Z.bits_inj'. intros i Hi. rewrite Z.land_spec, Z.lxor_spec.
  destruct (Z.lt_ge_cases i k); [by rewrite Z.ones_spec_low, andb_true_r by lia|].
  rewrite Z.ones_spec_high, andb_false_r by lia.
  assert (forall x, 0 <= x < 2 ^ k -> Z.testbit x i = false) as Hz.
  { intros x Hx. rewrite <- (Z.mod_small x (2 ^ k) Hx). apply Z.mod_pow2_bits_high. lia. }
  by rewrite (Hz a Ha), (Hz b Hb).
Qed.

Lemma crc_table_u32 : Forall is_u32 CRC32C_TABLE.
Proof.
  apply Forall_forall. assert (forallb (fun x => (0 <=? x) && (x <=? u32_max)) CRC32C_TABLE = true) as H by (vm_compute; reflexivity).
  rewrite forallb_forall in H. intros x Hx. specialize (H x Hx). bool_to_prop. unfold is_u32. lia.
Qed.

Lemma crc_fold_u32 data crc : 0 <= crc < 2 ^ 32 -> 0 <= foldl crc_byte crc data < 2 ^ 32.
Proof.
  revert crc. induction data as [|b l IH]; intros crc Hc; [done|]. cbn [foldl]. apply IH. unfold crc_byte. apply lxor_bound; [lia| |].
  - destruct (nth_in_or_default (Z.to_nat (Z.land (Z.lxor crc b) 0xFF)) CRC32C_TABLE 0) as [Hin| ->]; [|lia].
    pose proof crc_table_u32 as Ht. rewrite Forall_forall in Ht. specialize (Ht _ Hin).
    unfold is_u32, u32_max in Ht. lia.
  - rewrite Z.shiftr_div_pow2 by lia. split; [apply Z.div_pos; lia|]. apply Z.div_lt_upper_bound; lia.
Qed.

Lemma compute_crc32c_u32 data off : is_u32 (compute_crc32c data off).
Proof.
  unfold compute_crc32c. pose proof (lxor_bound (foldl crc_byte 0xFFFFFFFF (without_field data off)) 0xFFFFFFFF 32
    ltac:(lia) (crc_fold_u32 _ 0xFFFFFFFF ltac:(lia)) ltac:(lia)). unfold is_u32, u32_max. lia.
Qed.

(** The checksum field itself does not count. *)
Lemma crc_splice data off src data' : 0 <= off -> off + 4 <= u64_max -> blen src = 4 -> splice data off src = Some data' ->
  compute_crc32c data' off = compute_crc32c data off.
Proof.
  intros H0 Hm Hs Hsp. pose proof (splice_blen _ _ _ _ Hsp) as Hl. unfold compute_crc32c. f_equal. f_equal.
  apply byte_ext; [by rewrite !without_field_blen|]. intros i Hi. rewrite without_field_blen in Hi.
  assert (forall d, blen d = blen data -> byte_at (without_field d off) i = if (off <=? i) && (i <? off + 4) then Some 0 else byte_at d i) as Hat.
  { intros d Hd. unfold byte_at, without_field, blen in *. rewrite (proj2 (Z.leb_le 0 i)), list_lookup_imap by lia.
    destruct (lookup_lt_is_Some_2 d (Z.to_nat i)) as [b Hb]; [lia|]. rewrite Hb. cbn [fmap option_fmap option_map from_option].
    rewrite wadd_small, Z2Nat.id by lia. by destruct (_ && _). }
  rewrite !Hat by done. destruct (Z.leb_spec off i), (Z.ltb_spec i (off + 4)); cbn [andb]; try done;
    rewrite (splice_byte _ _ _ _ _ Hsp), Hs; destruct (Z.leb_spec off i), (Z.ltb_spec i (off + 4)); try lia; done.
Qed.

(** ** Fields *)

Section fields.
Context {E : Type}.

Lemma le_u16_get f off v : slice f off (off + blen (le_bytes 2 v)) = Some (le_bytes 2 v) -> 0 <= v <= 65535 -> le_u16 (E := E) f off = Ok v.
Proof.
  rewrite blen_le_bytes. intros Hs Hv. unfold le_u16. change (Z.of_nat 2) with 2 in Hs. rewrite Hs. cbn [or_panic obind]. f_equal.
  apply le_val_le_bytes. change (256 ^ Z.of_nat 2) with 65536. lia.
Qed.

Lemma le_u32_get f off v : slice f off (off + blen (le_bytes 4 v)) = Some (le_bytes 4 v) -> is_u32 v -> le_u32 (E := E) f off = Ok v.
Proof.
  rewrite blen_le_bytes. intros Hs Hv. unfold le_u32. change (Z.of_nat 4) with 4 in Hs. rewrite Hs. cbn [or_panic obind]. f_equal.
  apply le_val_le_bytes. unfold is_u32, u32_max in Hv. change (256 ^ Z.of_nat 4) with 4294967296. lia.
Qed.

Lemma le_u64_get f off v : slice f off (off + blen (le_bytes 8 v)) = Some (le_bytes 8 v) -> is_u64 v -> le_u64 (E := E) f off = Ok v.
Proof.
  rewrite blen_le_bytes. intros Hs Hv. unfold le_u64. change (Z.of_nat 8) with 8 in Hs. rewrite Hs. cbn [or_panic obind]. f_equal.
  apply le_val_le_bytes. unfold is_u64, u64_max in Hv. change (256 ^ Z.of_nat 8) with 18446744073709551616. lia.
Qed.

End fields.

(** A structure with its checksum: fields written at ascending places clear of the
    checksum, then the checksum of the first [len] bytes at 4. *)
Record stamped (buf buf' : bytes) (ws : list (Z * bytes)) (len : Z) : Prop := {
  st_blen : blen buf' = blen buf;
  st_bytes : is_bytes buf';
  st_field off src : (off, src) ∈ ws -> slice buf' off (off + blen src) = Some src;
  st_crc : exists data, slice buf' 0 len = Some data /\ le_u32 (E := unit) buf' 4 = Ok (compute_crc32c data 4);
  st_frame a b : (b <= 4 \/ 8 <= a) -> Forall (fun w => b <= w.1 \/ w.1 + blen w.2 <= a) ws -> slice buf' a b = slice buf a b
}.

(** Each write ends at or before 4, or starts at or after 8. *)
Definition clear_of_crc (w : Z * bytes) : Prop := w.1 + blen w.2 <= 4 \/ 8 <= w.1.

Lemma stamp_ok buf ws len : is_bytes buf -> 8 <= len <= blen buf -> ascending 0 ws ->
  Forall (fun w => clear_of_crc w /\ w.1 + blen w.2 <= len /\ is_bytes w.2) ws ->
  exists buf1 data buf2, apply_writes buf ws = Some buf1 /\ slice buf1 0 len = Some data /\
    splice buf1 4 (le_bytes 4 (compute_crc32c data 4)) = Some buf2 /\ blen buf1 = blen buf /\ stamped buf buf2 ws len.
Proof.
  intros Hb Hlen Ha Hws.
  destruct (seal_ok (fun d => compute_crc32c d 4) 4 (le_bytes 4)) with (buf := buf) (ws := ws) (len := len)
    as (b1 & data & b2 & H1 & H2 & H3 & H4 & [Sl Sb Sf (d & Hd & Hs) Sfr]); try done; try lia.
  - intros v. split; [apply (blen_le_bytes 4) | apply le_bytes_is_bytes].
  - intros d src d' Hs Hsp. apply (crc_splice d 4 src); [lia | unfold u64_max; lia | done | done].
  - eapply Forall_impl; [|exact Hws]. intros w (Hc & Hw & Hbw). unfold clear_of_crc in Hc. split; [lia|]. split; [lia|done].
  - exists b1, data, b2. split_and!; try done. split; [done | done | done | | done]. exists d. split; [done|].
    apply le_u32_get; [exact Hs | apply compute_crc32c_u32].
Qed.

Ltac literal_ascending := cbn [ascending app concat imap]; rewrite ?blen_le_bytes; repeat split; closed_le.

Ltac literal_writes :=
  repeat (apply Forall_cons_2; [unfold clear_of_crc; cbn [fst snd]; rewrite ?blen_le_bytes;
    split_and?; first [ apply le_bytes_is_bytes | (apply is_bytesb_true; reflexivity) | closed_le ]|]);
  apply Forall_nil_2.

(** ** The header *)

Lemma header_stamp buf seq : is_bytes buf -> HEADER_SIZE <= blen buf ->
  exists buf', build_header buf seq = Ok buf' /\ stamped buf buf' (header_fields seq) HEADER_SIZE.
Proof.
  intros Hb Hl. unfold HEADER_SIZE in *.
  destruct (stamp_ok buf (header_fields seq) 4096 Hb) as (b1 & data & b2 & H1 & H2 & H3 & _ & Hst); [lia | | |].
  - unfold header_fields. literal_ascending.
  - unfold header_fields. literal_writes.
  - exists b2. unfold build_header, HEADER_SIZE, HEADER_CHECKSUM_OFFSET. rewrite H1. cbn [or_panic obind]. rewrite H2. cbn [or_panic obind]. by rewrite H3.
Qed.

(** The literal lists of writes. *)
Ltac red_writes := cbv [header_fields region_fields item_fields].

(** Read the next field, which [Hf] says a literal list of writes holds. *)
Ltac field_u16 Hf off v := rewrite (le_u16_get _ off v) by first [ done | apply Hf; red_writes; literal_elem ]; cbn [obind].
Ltac field_u32 Hf off v := rewrite (le_u32_get _ off v) by first [ done | apply Hf; red_writes; literal_elem ]; cbn [obind].
Ltac field_u64 Hf off v := rewrite (le_u64_get _ off v) by first [ done | apply Hf; red_writes; literal_elem ]; cbn [obind].

Lemma header_parses buf buf' seq : is_u64 seq -> HEADER_SIZE <= blen buf -> stamped buf buf' (header_fields seq) HEADER_SIZE ->
  exists crc dguid, VhdxHeader_parse buf' = Ok (mkVhdxHeader HEADER_SIGNATURE crc seq dguid
    (from_option id [] (slice buf 48 64)) LOG_LENGTH LOG_OFFSET).
Proof.
  intros Hseq Hl Hst. pose proof (st_blen _ _ _ _ Hst) as Hlen. unfold VhdxHeader_parse, HEADER_SIZE in *.
  destruct (Z.ltb_spec (blen buf') 4096); [lia|].
  assert (forall off src, (off, src) ∈ header_fields seq -> slice buf' off (off + blen src) = Some src) as Hf by apply (st_field _ _ _ _ Hst).
  field_u32 Hf 0 HEADER_SIGNATURE. rewrite Z.eqb_refl. cbn [negb].
  destruct (st_crc _ _ _ _ Hst) as (data & Hd & Hc). change HEADER_CHECKSUM_OFFSET with 4. rewrite Hc. cbn [obind]. rewrite Hd. cbn [or_panic obind].
  rewrite Z.eqb_refl. cbn [negb].
  field_u64 Hf HEADER_SEQUENCE_NUMBER_OFFSET seq.
  change (HEADER_DATA_WRITE_GUID_OFFSET + 16) with 48. change HEADER_DATA_WRITE_GUID_OFFSET with 32.
  change (HEADER_LOG_GUID_OFFSET + 16) with 64. change HEADER_LOG_GUID_OFFSET with 48.
  destruct (slice_of buf' 32 48) as (dg & -> & _); [lia | lia |]. cbn [or_panic obind].
  destruct (slice_of buf 48 64) as (lg & Hlg & _); [lia | lia |].
  rewrite (st_frame _ _ _ _ Hst 48 64), Hlg; [|lia|]. 2:{ unfold header_fields. literal_writes. }
  cbn [or_panic obind from_option].
  field_u32 Hf HEADER_LOG_LENGTH_OFFSET LOG_LENGTH.
  field_u64 Hf HEADER_LOG_OFFSET_OFFSET LOG_OFFSET.
  by exists (compute_crc32c data 4), dg.
Qed.

(** ** The region table *)

Definition crc_span (buf : bytes) : Z := if 65536 <=? blen buf then 65536 else blen buf.

Lemma region_stamp buf bo bl mo ml : is_bytes buf -> 80 <= blen buf ->
  exists buf', build_region_table buf bo bl mo ml = Ok buf' /\ stamped buf buf' (region_fields bo bl mo ml) (crc_span buf).
Proof.
  intros Hb Hl. assert (80 <= crc_span buf <= blen buf) as Hsp by (unfold crc_span; destruct (Z.leb_spec 65536 (blen buf)); lia).
  destruct (stamp_ok buf (region_fields bo bl mo ml) (crc_span buf) Hb) as (b1 & data & b2 & H1 & H2 & H3 & Hl1 & Hst); [lia | | |].
  - unfold region_fields. literal_ascending.
  - assert (Forall (fun w => clear_of_crc w /\ w.1 + blen w.2 <= 80 /\ is_bytes w.2) (region_fields bo bl mo ml)) as Hw by (unfold region_fields; literal_writes).
    eapply Forall_impl; [|exact Hw]. cbn. intros w (? & ? & ?). split_and!; [done | lia | done].
  - exists b2. unfold build_region_table, REGION_TABLE_CHECKSUM_OFFSET. rewrite H1. cbn [or_panic obind]. rewrite Hl1.
    fold (crc_span buf). rewrite H2. cbn [or_panic obind]. by rewrite H3.
Qed.

(** A region entry of the table a writer builds. *)
Lemma region_parses buf buf' bo bl mo ml : is_u64 bo -> is_u32 bl -> is_u64 mo -> is_u32 ml -> 80 <= blen buf ->
  stamped buf buf' (region_fields bo bl mo ml) (crc_span buf) ->
  parse_region_table buf' = Ok (mkVhdxRegionEntry BAT_REGION_GUID bo bl 0, mkVhdxRegionEntry METADATA_REGION_GUID mo ml 0, 2).
Proof.
  intros Hbo Hbl Hmo Hml Hl Hst. pose proof (st_blen _ _ _ _ Hst) as Hlen. unfold parse_region_table. rewrite Hlen.
  change REGION_TABLE_HEADER_SIZE with 16. destruct (Z.ltb_spec (blen buf) 16); [lia|].
  assert (forall off src, (off, src) ∈ region_fields bo bl mo ml -> slice buf' off (off + blen src) = Some src) as Hf by apply (st_field _ _ _ _ Hst).
  field_u32 Hf 0 REGION_TABLE_SIGNATURE. rewrite Z.eqb_refl. cbn [negb].
  destruct (st_crc _ _ _ _ Hst) as (data & Hd & Hc). change REGION_TABLE_CHECKSUM_OFFSET with 4. rewrite Hc. cbn [obind].
  fold (crc_span buf). rewrite Hd. cbn [or_panic obind]. rewrite Z.eqb_refl. cbn [negb].
  field_u32 Hf REGION_TABLE_ENTRY_COUNT_OFFSET 2.
  change (MAX_REGION_TABLE_ENTRIES <? 2) with false. change (Z.to_nat (Z.min 2 8)) with 2%nat. cbn [scan_regions].
  change (0 + 1) with 1. change (REGION_TABLE_HEADER_SIZE + 0 * REGION_TABLE_ENTRY_SIZE) with 16.
  change (REGION_TABLE_HEADER_SIZE + 1 * REGION_TABLE_ENTRY_SIZE) with 48.
  change REGION_TABLE_ENTRY_SIZE with 32. rewrite Hlen.
  destruct (Z.ltb_spec (blen buf) (16 + 32)); [lia|]. destruct (Z.ltb_spec (blen buf) (48 + 32)); [lia|].
  change (slice buf' 16 (16 + 16)) with (slice buf' 16 (16 + blen BAT_REGION_GUID)). rewrite (Hf 16) by (red_writes; literal_elem). cbn [or_panic obind].
  field_u64 Hf (16 + 16) bo.
  field_u32 Hf (16 + 24) bl.
  field_u32 Hf (16 + 28) 0.
  change (bool_decide (BAT_REGION_GUID = BAT_REGION_GUID)) with true.
  change (slice buf' 48 (48 + 16)) with (slice buf' 48 (48 + blen METADATA_REGION_GUID)). rewrite (Hf 48) by (red_writes; literal_elem). cbn [or_panic obind].
  field_u64 Hf (48 + 16) mo.
  field_u32 Hf (48 + 24) ml.
  field_u32 Hf (48 + 28) 0.
  change (bool_decide (METADATA_REGION_GUID = BAT_REGION_GUID)) with false.
  by change (bool_decide (METADATA_REGION_GUID = METADATA_REGION_GUID)) with true.
Qed.

(** ** The metadata region *)

(** The region [build_metadata] leaves behind. *)
Record metadata_built (buf buf' : bytes) (items : list (Z * bytes)) : Prop := {
  mb_blen : blen buf' = blen buf;
  mb_bytes : is_bytes buf';
  mb_table off src : (off, src) ∈ metadata_fields -> slice buf' off (off + blen src) = Some src;
  mb_item off src : (off, src) ∈ items -> slice buf' (65536 + off) (65536 + off + blen src) = Some src
}.

Lemma metadata_ascending : ascending 0 metadata_fields.
Proof. vm_compute. repeat split; discriminate. Qed.

Lemma metadata_writes : Forall (fun w => w.1 + blen w.2 <= 192 /\ is_bytes w.2) metadata_fields.
Proof.
  apply Forall_forall. assert (forallb (fun w => (w.1 + blen w.2 <=? 192) && is_bytesb w.2) metadata_fields = true) as Hf by (vm_compute; reflexivity).
  rewrite forallb_forall in Hf. intros w Hw. specialize (Hf w Hw). apply andb_true_iff in Hf as [H1 H2]. split; [lia | by apply is_bytesb_true].
Qed.

Lemma metadata_ok buf bs vs ls ps leave parent : is_bytes buf -> 65576 <= blen buf ->
  exists buf', build_metadata buf bs vs ls ps leave parent = Ok (buf', 65576) /\
    metadata_built buf buf' (item_fields bs vs ls ps leave parent).
Proof.
  intros Hb Hl. destruct (apply_writes_ok buf metadata_fields Hb) as (b1 & Hb1 & Hl1 & Hby1).
  { pose proof metadata_writes as Hw. pose proof (ascending_above _ _ metadata_ascending) as Ha. rewrite Forall_forall in *.
    intros w Hin. destruct (Hw w Hin). specialize (Ha w Hin). cbn in Ha. split_and!; [done | lia | done]. }
  destruct (slice_of b1 65536 65576) as (it & Hit & Hitl); [lia | lia |]. pose proof (slice_is_bytes _ _ _ _ Hby1 Hit) as Hitb.
  set (ws := item_fields bs vs ls ps leave parent).
  assert (ascending 0 ws) as Hasc by (unfold ws; red_writes; literal_ascending).
  destruct (apply_writes_ok it ws Hitb) as (it' & Hit' & Hitl' & Hitb').
  { rewrite Hitl. unfold ws. red_writes. literal_writes. }
  destruct (splice_of b1 65536 it') as (b2 & Hb2 & Hl2); [lia | lia |].
  exists b2. unfold build_metadata, build_metadata_items. rewrite Hb1. cbn [or_panic obind].
  change METADATA_ITEMS_MIN_OFFSET with 65536. change (65536 + METADATA_ITEMS_LEN) with 65576. rewrite Hit. fold ws. rewrite Hit'. cbn [or_panic obind].
  rewrite Hb2. cbn [or_panic obind]. split; [done|]. split; [lia | exact (splice_is_bytes _ _ _ _ Hby1 Hitb' Hb2) | |].
  - intros off src Hin. pose proof metadata_writes as Hw. rewrite Forall_forall in Hw. destruct (Hw _ (proj1 (list_elem_of_In _ _) Hin)) as [Hsm _]. cbn in Hsm.
    rewrite (slice_splice_ne _ _ _ _ _ _ Hb2) by lia. by apply (apply_writes_get _ _ _ _ _ _ metadata_ascending Hb1).
  - intros off src Hin. pose proof (apply_writes_get _ _ _ _ _ _ Hasc Hit' Hin) as Hget. pose proof (slice_splice_eq _ _ _ _ Hb2) as Hall.
    pose proof (slice_Some _ _ _ _ Hget) as (? & ? & _).
    rewrite <- Hget. replace (65536 + off + blen src) with (65536 + (off + blen src)) by lia. symmetry. apply (slice_slice _ _ _ _ _ _ Hall); lia.
Qed.

(** The fields of the table, read from its first [L] bytes. *)
Definition holds_table (table : bytes) : Prop :=
  192 <= blen table /\ forall off src, (off, src) ∈ metadata_fields -> slice table off (off + blen src) = Some src.

(** The same without the count, which a parent locator changes. *)
Definition holds_entries (table : bytes) : Prop :=
  192 <= blen table /\ forall off src, (off, src) ∈ metadata_fields -> off <> 10 -> slice table off (off + blen src) = Some src.

Lemma scan_item_step n table i o guid item_offset : holds_entries table -> 0 <= i < 5 -> blen guid = 16 -> is_u32 item_offset ->
  (32 + i * 32, guid) ∈ metadata_fields -> (32 + i * 32 + 16, le_bytes 4 item_offset) ∈ metadata_fields ->
  scan_items (S n) table i o =
  (let? o' := note_item table (32 + i * 32) guid item_offset o in scan_items n table (i + 1) o').
Proof.
  intros [Hl Hf] Hi Hg Ho Hin1 Hin2. cbn [scan_items]. unfold METADATA_TABLE_HEADER_SIZE, METADATA_TABLE_ENTRY_SIZE.
  destruct (Z.ltb_spec (blen table) (32 + i * 32 + 32)); [lia|].
  pose proof (Hf _ _ Hin1 ltac:(lia)) as Hs. rewrite Hg in Hs. rewrite Hs. cbn [or_panic obind].
  by rewrite (le_u32_get table _ item_offset (Hf _ _ Hin2 ltac:(lia)) Ho).
Qed.

Ltac table_elem := vm_compute; literal_elem.

Ltac scan_item guid off :=
  rewrite (scan_item_step _ _ _ _ guid off) by first [ assumption | reflexivity | lia | done | table_elem ];
  unfold note_item;
  repeat match goal with |- context [bool_decide (guid = ?h)] =>
    let b := eval vm_compute in (bool_decide (guid = h)) in change (bool_decide (guid = h)) with b end; cbn [obind].

(** The five built-in entries. *)
Lemma scan_built n table : holds_entries table ->
  scan_items (5 + n) table 0 (mkItemOffsets None None None None None) =
  scan_items n table 5 (mkItemOffsets (Some 65536) (Some 65544) (Some 65568) (Some 65572) None).
Proof.
  intros Ht. change (5 + n)%nat with (S (S (S (S (S n))))).
  scan_item FILE_PARAMETERS_GUID 65536. scan_item VIRTUAL_DISK_SIZE_GUID 65544. scan_item PAGE_83_DATA_GUID 65552.
  scan_item LOGICAL_SECTOR_SIZE_GUID 65568. scan_item PHYSICAL_SECTOR_SIZE_GUID 65572. done.
Qed.

(** A table of [5 + n] entries. *)
Lemma locate_of_count n table : holds_entries table -> (n <= 27)%nat -> slice table 10 12 = Some (le_bytes 2 (5 + Z.of_nat n)) ->
  locate_metadata_items table =
  (let? o := scan_items n table 5 (mkItemOffsets (Some 65536) (Some 65544) (Some 65568) (Some 65572) None) in
   let? fp := ok_or (io_file_parameters o) tt in
   let? vs := ok_or (io_virtual_disk_size o) tt in
   let? ls := ok_or (io_logical_sector_size o) tt in
   let? ps := ok_or (io_physical_sector_size o) tt in
   Ok (mkMetadataItemLocations fp vs ls ps (io_parent_locator o))).
Proof.
  intros Ht Hn Hc. pose proof Ht as [Hl Hf]. unfold locate_metadata_items. change METADATA_TABLE_HEADER_SIZE with 32.
  destruct (Z.ltb_spec (blen table) 32); [lia|].
  rewrite (le_u64_get table 0 METADATA_TABLE_SIGNATURE) by first [done | apply Hf; [table_elem | lia]]. cbn [obind]. rewrite Z.eqb_refl. cbn [negb].
  rewrite (le_u16_get table METADATA_TABLE_ENTRY_COUNT_OFFSET (5 + Z.of_nat n)) by first [exact Hc | lia]. cbn [obind].
  unfold MAX_METADATA_TABLE_ENTRIES. destruct (Z.ltb_spec 2047 (5 + Z.of_nat n)); [lia|].
  replace (Z.to_nat (Z.min (5 + Z.of_nat n) 32)) with (5 + n)%nat by lia. by rewrite scan_built.
Qed.

Lemma table_located table : holds_table table ->
  locate_metadata_items table = Ok (mkMetadataItemLocations 65536 65544 65568 65572 None).
Proof.
  intros [Hl Hf]. rewrite (locate_of_count 0); [done | split; [done|]; intros off src Hin _; by apply Hf | lia|].
  apply (Hf 10 (le_bytes 2 5)). table_elem.
Qed.

Lemma table_of_region buf buf' items L table : metadata_built buf buf' items -> 192 <= L -> slice buf' 0 L = Some table -> holds_table table.
Proof.
  intros Hm HL Ht. pose proof (slice_blen _ _ _ _ Ht) as Hl. split; [lia|]. intros off src Hin.
  pose proof (mb_table _ _ _ Hm off src Hin) as Hs. rewrite <- Hs. symmetry.
  pose proof metadata_writes as Hw. rewrite Forall_forall in Hw. destruct (Hw _ (proj1 (list_elem_of_In _ _) Hin)) as [Hsm _].
  cbn in Hsm. apply slice_Some in Hs as (? & _ & _). apply (slice_of_prefix _ _ _ _ _ Ht); lia.
Qed.

(** The arguments the metadata can hold. *)
Record metadata_args (bs vs ls ps : Z) : Prop := {
  ma_block : is_valid_metadata_block_size bs = true;
  ma_size : is_u64 vs;
  ma_logical : sector_size_ok ls = true;
  ma_physical : sector_size_ok ps = true
}.

Lemma valid_block_u32 bs : is_valid_metadata_block_size bs = true -> is_u32 bs.
Proof. intros Hv. unfold is_valid_metadata_block_size in Hv. bool_to_prop. unfold is_u32, u32_max. lia. Qed.

Lemma sector_size_u32 s : sector_size_ok s = true -> is_u32 s.
Proof. unfold sector_size_ok. intros Hs. bool_to_prop. unfold is_u32, u32_max. lia. Qed.

(** The File Parameters flags. *)
Definition file_flags (leave parent : bool) : Z := (if leave then 1 else 0) + (if parent then 2 else 0).

Lemma metadata_reparses buf buf' bs vs ls ps leave parent : metadata_args bs vs ls ps -> 65576 <= blen buf ->
  metadata_built buf buf' (item_fields bs vs ls ps leave parent) ->
  parse_metadata_region buf' = Ok (mkVhdxMetadataItems bs parent leave vs 65544 ls ps).
Proof.
  intros [Hbs Hvs Hls Hps] Hl Hm. pose proof (mb_blen _ _ _ Hm) as Hl'. unfold parse_metadata_region.
  rewrite table_located by (eapply (table_of_region _ _ _ (blen buf')); [done | lia | apply slice_full]). cbn [obind].
  cbn [mi_file_parameters mi_virtual_disk_size mi_logical_sector_size mi_physical_sector_size].
  assert (forall off len, 65536 <= off -> off + len <= 65576 -> item_start buf' off len = Ok off) as Hitem.
  { intros off len H1 H2. unfold item_start, METADATA_ITEMS_MIN_OFFSET. rewrite checked_add_eq by (unfold u64_max; lia). cbn [ok_or obind].
    by rewrite (proj2 (Z.leb_le 65536 off)), (proj2 (Z.leb_le (off + len) (blen buf'))) by lia. }
  pose proof (mb_item _ _ _ Hm) as Hf.
  assert ((4, le_bytes 4 (file_flags leave parent)) ∈ item_fields bs vs ls ps leave parent) as Hflags
    by (clear; red_writes; destruct leave, parent; literal_elem).
  rewrite !Hitem by lia. cbn [obind].
  rewrite (le_u32_get buf' 65536 bs (Hf 0 _ ltac:(red_writes; literal_elem)) (valid_block_u32 bs Hbs)). cbn [obind].
  rewrite (le_u32_get buf' (65536 + 4) (file_flags leave parent) (Hf 4 _ Hflags) ltac:(by destruct leave, parent)).
  cbn [obind]. rewrite Hbs. cbn [negb].
  rewrite (le_u64_get buf' 65544 vs (Hf 8 _ ltac:(red_writes; literal_elem)) Hvs). cbn [obind].
  rewrite (le_u32_get buf' 65568 ls (Hf 32 _ ltac:(red_writes; literal_elem)) (sector_size_u32 ls Hls)). cbn [obind].
  rewrite (le_u32_get buf' 65572 ps (Hf 36 _ ltac:(red_writes; literal_elem)) (sector_size_u32 ps Hps)). cbn [obind].
  rewrite Hls, Hps. cbn [negb orb]. by destruct leave, parent.
Qed.

(** ** Properties *)

(** The table-driven [compute_crc32c] is the bit-by-bit reflected CRC-32C of the data
    with the checksum field as zeros, for every input and field position; the result is a
    32-bit value, and rewriting the field does not change it. *)
Theorem vhdx_crc_exact (data src data' : bytes) (checksum_offset : Z) :
  is_bytes data ->
  compute_crc32c data checksum_offset = crc_ref (without_field data checksum_offset) /\
  is_u32 (compute_crc32c data checksum_offset) /\
  (blen src = 4 -> 0 <= checksum_offset <= u64_max - 4 -> splice data checksum_offset src = Some data' ->
   compute_crc32c data' checksum_offset = compute_crc32c data checksum_offset).
Proof.
  intros Hb. split_and!; [by apply compute_crc32c_ref | apply compute_crc32c_u32 |].
  intros Hs Ho Hsp. eapply crc_splice; [lia | lia | exact Hs | exact Hsp].
Qed.

(** The check value of CRC-32C. *)
Lemma vhdx_crc_exact_witness :
  compute_crc32c [49; 50; 51; 52; 53; 54; 55; 56; 57] u64_max = 0xE3069283 /\
  compute_crc32c [49; 50; 51; 52; 53; 54; 55; 56; 57] 3 = compute_crc32c [49; 50; 51; 0; 0; 0; 0; 56; 57] 3 /\
  crc_ref [49; 50; 51; 0; 0; 0; 0; 56; 57] = compute_crc32c [49; 50; 51; 52; 53; 54; 55; 56; 57] 3.
Proof.
  split; [vm_compute; reflexivity|].
  destruct (vhdx_crc_exact [49; 50; 51; 0; 0; 0; 0; 56; 57] [52; 53; 54; 55] [49; 50; 51; 52; 53; 54; 55; 56; 57] 3) as (Href & _ & Hsame).
  { apply is_bytesb_true. reflexivity. }
  specialize (Hsame eq_refl ltac:(unfold u64_max; lia) eq_refl). split; [exact Hsame|]. rewrite Hsame, Href. reflexivity.
Defined.

(** The three structures a writer puts at the front of a VHDX file read back: in any
    buffers that are large enough, the header parses with the sequence number and the log
    region it was built with, the region table with the places and lengths of both
    regions, the metadata region with every parameter and flag.  The builders write only
    their own fields, so a header keeps the log GUID the buffer held. *)
Theorem vhdx_structures_reparse (hbuf rbuf mbuf : bytes) (seq bo bl mo ml bs vs ls ps : Z) (leave parent : bool) :
  is_bytes hbuf -> is_bytes rbuf -> is_bytes mbuf -> 4096 <= blen hbuf -> 80 <= blen rbuf -> 65576 <= blen mbuf ->
  is_u64 seq -> is_u64 bo -> is_u32 bl -> is_u64 mo -> is_u32 ml -> metadata_args bs vs ls ps ->
  exists hbuf' rbuf' mbuf' crc dguid,
    build_header hbuf seq = Ok hbuf' /\
    VhdxHeader_parse hbuf' = Ok (mkVhdxHeader HEADER_SIGNATURE crc seq dguid (from_option id [] (slice hbuf 48 64)) LOG_LENGTH LOG_OFFSET) /\
    build_region_table rbuf bo bl mo ml = Ok rbuf' /\
    parse_region_table rbuf' = Ok (mkVhdxRegionEntry BAT_REGION_GUID bo bl 0, mkVhdxRegionEntry METADATA_REGION_GUID mo ml 0, 2) /\
    build_metadata mbuf bs vs ls ps leave parent = Ok (mbuf', 65576) /\
    parse_metadata_region mbuf' = Ok (mkVhdxMetadataItems bs parent leave vs 65544 ls ps).
Proof.
  intros Hh Hr Hm Hlh Hlr Hlm Hseq Hbo Hbl Hmo Hml Hargs.
  destruct (header_stamp hbuf seq Hh Hlh) as (hbuf' & Hh' & Hhs). destruct (header_parses hbuf hbuf' seq Hseq Hlh Hhs) as (crc & dguid & Hhp).
  destruct (region_stamp rbuf bo bl mo ml Hr Hlr) as (rbuf' & Hr' & Hrs).
  pose proof (region_parses rbuf rbuf' bo bl mo ml Hbo Hbl Hmo Hml Hlr Hrs) as Hrp.
  destruct (metadata_ok mbuf bs vs ls ps leave parent Hm Hlm) as (mbuf' & Hm' & Hmb).
  pose proof (metadata_reparses mbuf mbuf' bs vs ls ps leave parent Hargs Hlm Hmb) as Hmp.
  by exists hbuf', rbuf', mbuf', crc, dguid.
Qed.

(** A fixed image's parameters, in zeroed buffers. *)
Lemma vhdx_structures_reparse_witness :
  exists hbuf' rbuf' mbuf' crc dguid,
    build_header (filled 4096 0) 7 = Ok hbuf' /\
    VhdxHeader_parse hbuf' = Ok (mkVhdxHeader HEADER_SIGNATURE crc 7 dguid (from_option id [] (slice (filled 4096 0) 48 64)) LOG_LENGTH LOG_OFFSET) /\
    build_region_table (filled 512 0) 2097152 1048576 3145728 1048576 = Ok rbuf' /\
    parse_region_table rbuf' = Ok (mkVhdxRegionEntry BAT_REGION_GUID 2097152 1048576 0, mkVhdxRegionEntry METADATA_REGION_GUID 3145728 1048576 0, 2) /\
    build_metadata (filled 65576 0) 16777216 10737418240 512 4096 true false = Ok (mbuf', 65576) /\
    parse_metadata_region mbuf' = Ok (mkVhdxMetadataItems 16777216 false true 10737418240 65544 512 4096).
Proof.
  apply (vhdx_structures_reparse (filled 4096 0) (filled 512 0) (filled 65576 0) 7 2097152 1048576 3145728 1048576
           16777216 10737418240 512 4096 true false).
  1-3: apply filled_is_bytes; unfold is_u8, u8_max; lia.
  1-3: rewrite blen_filled; lia.
  1-5: unfold is_u64, is_u32, u64_max, u32_max; lia.
  constructor; reflexivity || (unfold is_u64, u64_max; lia).
Defined.
