(* ===== verification/VhdxLocator.v ===== *)
(** The parent locator of a differencing VHDX ([src/src/crates/vhdx/src/lib.rs]): the
    metadata item that names the parent, as [build_parent_locator] writes it and
    [parse_parent_locator] reads it. *)

From stdpp Require Import base numbers list sets option.
From Stdlib Require Import ZArith Lia.
From S2P Require Import Prelude Bytes ExecBytes CachedRead Utf16 Header Stamp Vhdx VhdxMeta.

(** ** Definitions *)

(** [br"parent_linkage"] and the path keys, in ASCII. *)
Definition KEY_PARENT_LINKAGE : bytes := [112; 97; 114; 101; 110; 116; 95; 108; 105; 110; 107; 97; 103; 101].
Definition KEY_RELATIVE_PATH : bytes := [114; 101; 108; 97; 116; 105; 118; 101; 95; 112; 97; 116; 104].
Definition KEY_VOLUME_PATH : bytes := [118; 111; 108; 117; 109; 101; 95; 112; 97; 116; 104].
Definition KEY_ABSOLUTE_WIN32_PATH : bytes :=
  [97; 98; 115; 111; 108; 117; 116; 101; 95; 119; 105; 110; 51; 50; 95; 112; 97; 116; 104].

Definition VHDX_PARENT_LOCATOR_TYPE_GUID : bytes :=
  [0xB7; 0xEF; 0x4A; 0xB0; 0x9E; 0xD1; 0x81; 0x4A; 0xB7; 0x89; 0x25; 0xB8; 0xE9; 0x44; 0x59; 0x13].

Definition PARENT_LOCATOR_HEADER_SIZE : Z := 20.
Definition PARENT_LOCATOR_ENTRY_SIZE : Z := 12.
Definition MAX_PARENT_LOCATOR_ENTRIES : Z := 8.
Definition MAX_PARENT_LOCATOR_KEY_UTF16_BYTES : Z := 64.
Definition MAX_PARENT_LOCATOR_VALUE_UTF16_BYTES : Z := 520.
Definition MAX_PARENT_LOCATOR_KEY_UTF8 : Z := MAX_PARENT_LOCATOR_KEY_UTF16_BYTES * 3 / 2.
Definition MAX_PARENT_LOCATOR_VALUE_UTF8 : Z := MAX_PARENT_LOCATOR_VALUE_UTF16_BYTES * 3 / 2.

Inductive VhdxParentLocatorDefect : Type :=
| EntryCountExceedsItem | EntryCountExceedsCapacity | KeyOutOfBounds | ValueOutOfBounds | KeyTooLong | ValueTooLong
| KeyUndecodable | ValueUndecodable | DuplicateKey.

(** [key] and [value] are the decoded bytes, empty when there are none. *)
Record VhdxParentLocatorEntry : Type := mkLocatorEntry {
  le_key_offset : Z;
  le_value_offset : Z;
  le_key_length : Z;
  le_value_length : Z;
  le_defect : option VhdxParentLocatorDefect;
  le_key : bytes;
  le_value : bytes
}.

Record VhdxParentLocator : Type := mkLocator {
  lo_type : bytes;
  lo_reserved : Z;
  lo_key_value_count : Z;
  lo_defect : option VhdxParentLocatorDefect;
  lo_entries : list VhdxParentLocatorEntry
}.

Definition note_defect (d : option VhdxParentLocatorDefect) (new : VhdxParentLocatorDefect) : option VhdxParentLocatorDefect :=
  match d with None => Some new | Some _ => d end.

(** [utf16_to_utf8] into a fresh array of [cap] bytes: the bytes it wrote. *)
Definition decode_string (src : bytes) (cap : Z) : outcome unit bytes :=
  let '(r, dst) := utf16_to_utf8 src false (filled cap 0) in
  let? n := r in or_panic (slice dst 0 n).

(** One string of an entry: bounds, length, text. *)
Definition locator_string (item : bytes) (offset length max_utf16 max_utf8 : Z) (out_of_bounds too_long undecodable : VhdxParentLocatorDefect)
  : outcome VhdxParentLocatorDefect bytes :=
  match checked_add offset length with
  | Some e =>
      if e <=? blen item then
        if max_utf16 <? length then Err too_long
        else
        let? src := or_panic (slice item offset e) in
        match decode_string src max_utf8 with
        | Ok b => Ok b
        | Err _ => Err undecodable
        | Panic => Panic
        | OutOfFuel => OutOfFuel
        end
      else Err out_of_bounds
  | None => Err out_of_bounds
  end.

(** [VhdxParentLocatorEntry::new] and [decode_entry_strings]: the key is resolved first, so
    it survives a defect of the value. *)
Definition decode_entry (item : bytes) (ko vo kl vl : Z) : outcome unit VhdxParentLocatorEntry :=
  match locator_string item ko kl MAX_PARENT_LOCATOR_KEY_UTF16_BYTES MAX_PARENT_LOCATOR_KEY_UTF8 KeyOutOfBounds KeyTooLong KeyUndecodable with
  | Ok key =>
      match locator_string item vo vl MAX_PARENT_LOCATOR_VALUE_UTF16_BYTES MAX_PARENT_LOCATOR_VALUE_UTF8 ValueOutOfBounds ValueTooLong ValueUndecodable with
      | Ok value => Ok (mkLocatorEntry ko vo kl vl None key value)
      | Err d => Ok (mkLocatorEntry ko vo kl vl (Some d) key [])
      | Panic => Panic
      | OutOfFuel => OutOfFuel
      end
  | Err d => Ok (mkLocatorEntry ko vo kl vl (Some d) [] [])
  | Panic => Panic
  | OutOfFuel => OutOfFuel
  end.

(** The mark on a repeated key. *)
Definition mark_duplicate (previous : list VhdxParentLocatorEntry) (e : VhdxParentLocatorEntry) : VhdxParentLocatorEntry :=
  match le_defect e with
  | Some _ => e
  | None =>
      if (0 <? blen (le_key e)) && existsb (fun p => (0 <? blen (le_key p)) && bool_decide (le_key p = le_key e)) previous
      then mkLocatorEntry (le_key_offset e) (le_value_offset e) (le_key_length e) (le_value_length e) (Some DuplicateKey) (le_key e) (le_value e)
      else e
  end.

(** The loop over the entries; [i] counts them. *)
Fixpoint parse_entries (n : nat) (item : bytes) (i : Z) (entries : list VhdxParentLocatorEntry) : outcome unit (list VhdxParentLocatorEntry) :=
  match n with
  | O => Ok entries
  | S n' =>
      let entry_start := i * PARENT_LOCATOR_ENTRY_SIZE + PARENT_LOCATOR_HEADER_SIZE in
      if blen item <? entry_start + PARENT_LOCATOR_ENTRY_SIZE then Ok entries
      else
      let? ko := le_u32 item entry_start in
      let? vo := le_u32 item (entry_start + 4) in
      let? kl := le_u16 item (entry_start + 8) in
      let? vl := le_u16 item (entry_start + 10) in
      let? e := decode_entry item ko vo kl vl in
      parse_entries n' item (i + 1) (entries ++ [mark_duplicate entries e])
  end.

Definition parse_parent_locator (item : bytes) : outcome unit VhdxParentLocator :=
  if blen item <? PARENT_LOCATOR_HEADER_SIZE then Err tt
  else
  let? locator_type := or_panic (slice item 0 16) in
  let? reserved := le_u16 item 16 in
  let? key_value_count := le_u16 item 18 in
  let entries_that_fit := (blen item - PARENT_LOCATOR_HEADER_SIZE) / PARENT_LOCATOR_ENTRY_SIZE in
  let usable := key_value_count in
  let '(defect, usable) := if entries_that_fit <? usable then (note_defect None EntryCountExceedsItem, entries_that_fit) else (None, usable) in
  let '(defect, usable) := if MAX_PARENT_LOCATOR_ENTRIES <? usable then (note_defect defect EntryCountExceedsCapacity, MAX_PARENT_LOCATOR_ENTRIES) else (defect, usable) in
  let? entries := parse_entries (Z.to_nat usable) item 0 [] in
  Ok (mkLocator locator_type reserved key_value_count defect entries).

Definition is_vhdx_locator_type (l : VhdxParentLocator) : bool := bool_decide (lo_type l = VHDX_PARENT_LOCATOR_TYPE_GUID).

Definition find_key (l : VhdxParentLocator) (key : bytes) : option VhdxParentLocatorEntry :=
  find (fun e => bool_decide (le_key e = key)) (lo_entries l).

Definition value_of (l : VhdxParentLocator) (key : bytes) : option bytes :=
  e ← find_key l key; match le_defect e with Some _ => None | None => Some (le_value e) end.

Definition preferred_path_with_convention (l : VhdxParentLocator) : option (bytes * bool) :=
  match value_of l KEY_RELATIVE_PATH with
  | Some relative => Some (relative, true)
  | None =>
      match value_of l KEY_ABSOLUTE_WIN32_PATH with
      | Some p => Some (p, false)
      | None => (fun p => (p, false)) <$> value_of l KEY_VOLUME_PATH
      end
  end.

(** [linkage_matches]: ASCII letters compare without their case. *)
Definition to_ascii_lowercase (b : Z) : Z := if (65 <=? b) && (b <=? 90) then b + 32 else b.

Definition eq_ignore_ascii_case (a b : bytes) : bool := bool_decide (map to_ascii_lowercase a = map to_ascii_lowercase b).

Definition linkage_matches (l : VhdxParentLocator) (expected : bytes) : bool :=
  match value_of l KEY_PARENT_LINKAGE with Some linkage => eq_ignore_ascii_case linkage expected | None => false end.

(** [posix_relative_path]: into [out], which must hold the value. *)
Definition posix_relative_path (value : bytes) (out_len : Z) : option bytes :=
  let body := match value with 46 :: 92 :: rest => rest | _ => value end in
  if blen body =? 0 then None
  else if out_len <? blen body then None
  else Some (map (fun b => if b =? 92 then 47 else b) body).

(** *** Building *)

Inductive VhdxBuildError : Type := VbBufferTooSmall | VbPathTooLong | VbPathEmpty | VbUnknownKey.

Definition GUID_STRING_LEN : Z := 38.

Definition HEX : bytes := [48; 49; 50; 51; 52; 53; 54; 55; 56; 57; 97; 98; 99; 100; 101; 102].

Definition hex_pair (byte : Z) : bytes :=
  [nth (Z.to_nat (Z.shiftr byte 4)) HEX 0; nth (Z.to_nat (Z.land byte 0x0f)) HEX 0].

Definition PAIRS : list (Z * Z) :=
  [(3, 1); (2, 3); (1, 5); (0, 7); (5, 10); (4, 12); (7, 15); (6, 17); (8, 20); (9, 22); (10, 25); (11, 27); (12, 29); (13, 31); (14, 33); (15, 35)].

Definition render_guid_braced (guid : bytes) : outcome VhdxBuildError bytes :=
  let? pairs := or_panic (mapM (fun '(src, dst) => b ← byte_at guid src; Some (dst, hex_pair b)) PAIRS) in
  or_panic (apply_writes (filled GUID_STRING_LEN 45) ([(0, [123]); (GUID_STRING_LEN - 1, [125])] ++ pairs)).

(** The bytes [write_ascii_utf16le] puts at the front of [room] bytes. *)
Definition write_ascii_utf16le (room : Z) (src : bytes) : bytes :=
  concat (map (fun b => [b; 0]) (take (Z.to_nat (room / 2)) src)).

(** The places of the parts of an item, relative to it. *)
Record LocatorPlan : Type := mkLocatorPlan {
  lp_linkage_key_off : Z;
  lp_path_key_off : Z;
  lp_linkage_value_off : Z;
  lp_path_value_off : Z;
  lp_item_len : Z
}.

Definition locator_plan (path_key : bytes) (value_len : Z) : LocatorPlan :=
  let linkage_key_len := blen KEY_PARENT_LINKAGE * 2 in
  let linkage_value_len := GUID_STRING_LEN * 2 in
  let path_key_len := blen path_key * 2 in
  let entry_path := PARENT_LOCATOR_HEADER_SIZE + PARENT_LOCATOR_ENTRY_SIZE in
  let linkage_key_off := entry_path + PARENT_LOCATOR_ENTRY_SIZE in
  let path_key_off := linkage_key_off + linkage_key_len in
  let linkage_value_off := path_key_off + path_key_len in
  let path_value_off := linkage_value_off + linkage_value_len in
  mkLocatorPlan linkage_key_off path_key_off linkage_value_off path_value_off (path_value_off + value_len).

(** The writes into the item, in order. *)
Definition locator_fields (p : LocatorPlan) (path_key linkage value : bytes) : list (Z * bytes) :=
  let e0 := PARENT_LOCATOR_HEADER_SIZE in
  let e1 := e0 + PARENT_LOCATOR_ENTRY_SIZE in
  [(0, VHDX_PARENT_LOCATOR_TYPE_GUID); (16, le_bytes 2 0); (18, le_bytes 2 2);
   (e0, le_bytes 4 (as_u32 (lp_linkage_key_off p))); (e0 + 4, le_bytes 4 (as_u32 (lp_linkage_value_off p)));
   (e0 + 8, le_bytes 2 (as_u16 (blen KEY_PARENT_LINKAGE * 2))); (e0 + 10, le_bytes 2 (as_u16 (GUID_STRING_LEN * 2)));
   (e1, le_bytes 4 (as_u32 (lp_path_key_off p))); (e1 + 4, le_bytes 4 (as_u32 (lp_path_value_off p)));
   (e1 + 8, le_bytes 2 (as_u16 (blen path_key * 2))); (e1 + 10, le_bytes 2 (as_u16 (blen value)));
   (lp_linkage_key_off p, write_ascii_utf16le (lp_path_key_off p - lp_linkage_key_off p) KEY_PARENT_LINKAGE);
   (lp_path_key_off p, write_ascii_utf16le (lp_linkage_value_off p - lp_path_key_off p) path_key);
   (lp_linkage_value_off p, write_ascii_utf16le (lp_path_value_off p - lp_linkage_value_off p) linkage);
   (lp_path_value_off p, value)].

(** The table entry and, last, the count. *)
Definition locator_table_entry (e item_offset item_len entry_count : Z) : list (Z * bytes) :=
  [(e, PARENT_LOCATOR_GUID); (e + 16, le_bytes 4 item_offset); (e + 20, le_bytes 4 (as_u32 item_len)); (e + 24, le_bytes 4 4);
   (e + 28, le_bytes 4 0); (METADATA_TABLE_ENTRY_COUNT_OFFSET, le_bytes 2 (as_u16 (entry_count + 1)))].

Definition build_parent_locator (item_offset : Z) (parent_data_write_guid path_key : bytes) (path_value : list Z)
  : SM bytes VhdxBuildError Z :=
  if negb (bool_decide (path_key = KEY_RELATIVE_PATH)) && negb (bool_decide (path_key = KEY_ABSOLUTE_WIN32_PATH)) then sfail VbUnknownKey
  else if bool_decide (path_value = []) then sfail VbPathEmpty
  else
  let '(encoded, value_utf16) := utf8_to_utf16 path_value false (filled MAX_PARENT_LOCATOR_VALUE_UTF16_BYTES 0) in
  let! value_len := slift (match encoded with Ok n => Ok n | Err _ => Err VbPathTooLong | Panic => Panic | OutOfFuel => OutOfFuel end) in
  let! linkage := slift (render_guid_braced parent_data_write_guid) in
  let p := locator_plan path_key value_len in
  let! metadata := sget in
  if blen metadata <? METADATA_TABLE_HEADER_SIZE then sfail VbBufferTooSmall
  else
  let! entry_count := slift (le_u16 metadata METADATA_TABLE_ENTRY_COUNT_OFFSET) in
  let table_entry_off := METADATA_TABLE_HEADER_SIZE + entry_count * METADATA_TABLE_ENTRY_SIZE in
  let item_end := item_offset + lp_item_len p in
  if (blen metadata <? item_end) || (blen metadata <? table_entry_off + METADATA_TABLE_ENTRY_SIZE) ||
     (item_offset <? table_entry_off + METADATA_TABLE_ENTRY_SIZE) then sfail VbBufferTooSmall
  else
  let! item := slift (or_panic (slice metadata item_offset item_end)) in
  let! value := slift (or_panic (slice value_utf16 0 value_len)) in
  let! item' := slift (or_panic (apply_writes item (locator_fields p path_key linkage value))) in
  let! metadata := slift (or_panic (splice metadata item_offset item')) in
  let! metadata := slift (or_panic (apply_writes metadata (locator_table_entry table_entry_off item_offset (lp_item_len p) entry_count))) in
  do! sput metadata in
  sret (lp_item_len p).

(** ** Reading *)

Lemma decode_string_returns src cap : is_bytes src -> 0 <= cap <= 65536 ->
  match decode_string src cap with Ok _ | Err _ => True | Panic | OutOfFuel => False end.
Proof.
  intros Hb Hc. unfold decode_string. assert (blen (filled cap 0) = cap) as Hl by (apply blen_filled; lia).
  destruct (decide (blen src mod 2 = 0)) as [He|Ho].
  - pose proof (utf16_to_utf8_decodes src false (filled cap 0) Hb He ltac:(rewrite Hl; unfold u64_max; lia)) as Hdec. unfold decodes, wp in Hdec.
    destruct (utf16_to_utf8 src false (filled cap 0)) as [[n|[]| |] dst]; cbn [obind]; try done.
    destruct Hdec as (s & _ & _ & -> & Hd). by rewrite (dc_text _ _ _ _ Hd).
  - unfold utf16_to_utf8. destruct (is_multiple_of (blen src) 2) eqn:Hm; [apply is_multiple_of_spec in Hm; [done|lia]|]. done.
Qed.

Lemma locator_string_returns item o l m16 m8 a b c : is_bytes item -> 0 <= o -> 0 <= l -> 0 <= m8 <= 65536 ->
  match locator_string item o l m16 m8 a b c with Ok _ | Err _ => True | Panic | OutOfFuel => False end.
Proof.
  intros Hb Ho Hl Hm. unfold locator_string. destruct (checked_add o l) as [e|] eqn:Ha; [|done]. apply checked_add_Some in Ha as [-> _].
  destruct (Z.leb_spec (o + l) (blen item)); [|done]. destruct (m16 <? l); [done|].
  destruct (slice_of item o (o + l)) as (src & Hs & _); [lia | lia |]. rewrite Hs. cbn [or_panic obind].
  pose proof (decode_string_returns src m8 (slice_is_bytes _ _ _ _ Hb Hs) Hm) as Hd. by destruct (decode_string src m8).
Qed.

Lemma le_u16_read {E} buf off : is_bytes buf -> 0 <= off -> off + 2 <= blen buf ->
  exists v, le_u16 (E := E) buf off = Ok v /\ 0 <= v <= 65535.
Proof.
  intros Hb Ho Hl. unfold le_u16. destruct (slice_of buf off (off + 2)) as (s & Hs & Hsl); [lia | lia |].
  rewrite Hs. cbn [or_panic obind]. eexists. split; [done|]. pose proof (le_val_bound s (slice_is_bytes _ _ _ _ Hb Hs)) as Hv. rewrite Hsl in Hv.
  replace (off + 2 - off) with 2 in Hv by lia. change (256 ^ 2) with 65536 in Hv. lia.
Qed.

Lemma decode_entry_returns item ko vo kl vl : is_bytes item -> 0 <= ko -> 0 <= vo -> 0 <= kl -> 0 <= vl ->
  exists e, decode_entry item ko vo kl vl = Ok e.
Proof.
  intros Hb Hko Hvo Hkl Hvl. unfold decode_entry.
  pose proof (locator_string_returns item ko kl MAX_PARENT_LOCATOR_KEY_UTF16_BYTES MAX_PARENT_LOCATOR_KEY_UTF8 KeyOutOfBounds KeyTooLong KeyUndecodable Hb Hko Hkl ltac:(done)) as H1.
  pose proof (locator_string_returns item vo vl MAX_PARENT_LOCATOR_VALUE_UTF16_BYTES MAX_PARENT_LOCATOR_VALUE_UTF8 ValueOutOfBounds ValueTooLong ValueUndecodable Hb Hvo Hvl ltac:(done)) as H2.
  destruct (locator_string item ko kl _ _ _ _ _); try done; [|by eexists]. destruct (locator_string item vo vl _ _ _ _ _); try done; by eexists.
Qed.

Lemma parse_entries_returns n item i es : is_bytes item -> 0 <= i -> exists es', parse_entries n item i es = Ok es'.
Proof.
  intros Hb. revert i es. induction n as [|n IH]; intros i es Hi; [by eexists|]. cbn [parse_entries]. unfold PARENT_LOCATOR_ENTRY_SIZE, PARENT_LOCATOR_HEADER_SIZE.
  destruct (Z.ltb_spec (blen item) (i * 12 + 20 + 12)); [by eexists|].
  destruct (le_u32_read (E := unit) item (i * 12 + 20) Hb) as (ko & -> & Hko); [lia | lia |].
  destruct (le_u32_read (E := unit) item (i * 12 + 20 + 4) Hb) as (vo & -> & Hvo); [lia | lia |].
  destruct (le_u16_read (E := unit) item (i * 12 + 20 + 8) Hb) as (kl & -> & Hkl); [lia | lia |].
  destruct (le_u16_read (E := unit) item (i * 12 + 20 + 10) Hb) as (vl & -> & Hvl); [lia | lia |]. cbn [obind]. unfold is_u32 in *.
  destruct (decode_entry_returns item ko vo kl vl Hb) as (e & ->); [lia | lia | lia | lia |]. cbn [obind]. apply IH. lia.
Qed.

Lemma parse_locator_returns item : is_bytes item -> 20 <= blen item -> exists l, parse_parent_locator item = Ok l.
Proof.
  intros Hb Hl. unfold parse_parent_locator, PARENT_LOCATOR_HEADER_SIZE. destruct (Z.ltb_spec (blen item) 20); [lia|].
  destruct (slice_of item 0 16) as (t & -> & _); [lia | lia |]. cbn [or_panic obind].
  destruct (le_u16_read (E := unit) item 16 Hb) as (r & -> & _); [lia | lia |]. cbn [obind].
  destruct (le_u16_read (E := unit) item 18 Hb) as (c & -> & _); [lia | lia |]. cbn [obind].
  destruct (_ <? c); destruct (MAX_PARENT_LOCATOR_ENTRIES <? _);
    match goal with |- context [parse_entries ?n item 0 []] => destruct (parse_entries_returns n item 0 [] Hb ltac:(lia)) as (es & ->) end;
    cbn [obind]; by eexists.
Qed.

(** ** Text *)

(** ASCII without NUL is its own UTF-8 and UTF-16. *)
Definition is_ascii (s : list Z) : Prop := Forall (fun c => 0 < c < 128) s.

Lemma ascii_text s : is_ascii s -> is_text s /\ str_bytes s = s /\ str_units s = s.
Proof.
  induction 1 as [|c s Hc _ (IH1 & IH2 & IH3)]; [split_and!; [apply Forall_nil_2 | done | done]|].
  split_and!.
  - apply Forall_cons_2; [|done]. split; [apply is_char_spec|]; lia.
  - rewrite str_bytes_cons, IH2, utf8_bytes_arith by lia. by rewrite (proj2 (Z.ltb_lt c 128)) by lia.
  - change (str_units (c :: s)) with (encode_utf16 c ++ str_units s). rewrite IH3. unfold encode_utf16. by rewrite (proj2 (Z.ltb_lt c 65536)) by lia.
Qed.

Lemma ascii_utf16 room s : is_ascii s -> 2 * blen s <= room -> write_ascii_utf16le room s = units_bytes false s.
Proof.
  intros Hs Hr. unfold write_ascii_utf16le. rewrite take_ge by (unfold blen in Hr; pose proof (Z.div_mod room 2); pose proof (Z.mod_pos_bound room 2); lia).
  unfold units_bytes. f_equal. apply map_ext_Forall. eapply Forall_impl; [|exact Hs]. cbv beta. intros c Hc. unfold unit_bytes, le_bytes. cbn [be_bytes rev app].
  rewrite (Z.div_small c 256), Z.mod_small by lia. done.
Qed.

Lemma string_read item off len s m16 m8 a b c : is_text s -> 0 <= off ->
  slice item off (off + len) = Some (units_bytes false (str_units s)) -> len <= m16 -> 3 * m16 <= 2 * m8 -> m8 <= 65536 -> blen item <= u64_max ->
  locator_string item off len m16 m8 a b c = Ok (str_bytes s).
Proof.
  intros Ht Ho Hs Hl Hm H8 Hi. pose proof (slice_Some _ _ _ _ Hs) as (Hr & Hb & _). pose proof (slice_blen _ _ _ _ Hs) as Hlen.
  unfold locator_string. rewrite checked_add_eq by lia. rewrite (proj2 (Z.leb_le (off + len) (blen item))), (proj2 (Z.ltb_ge m16 len)) by lia.
  rewrite Hs. cbn [or_panic obind]. destruct (str_units_chars s Ht) as [Hu Hc]. pose proof (chars_of_size _ _ Hu Hc) as Hsz. rewrite blen_units_bytes in Hlen.
  unfold decode_string. assert (blen (filled m8 0) = m8) as Hfl by (apply blen_filled; lia).
  destruct (decode_encoded s false (filled m8 0) Ht) as (dst & -> & Hd); [rewrite Hfl; unfold u64_max; lia | rewrite Hfl; lia|]. cbn [obind]. by rewrite Hd.
Qed.

(** ** The rendered GUID *)

Lemma apply_writes_Forall (P : Z -> Prop) file ws file' : apply_writes file ws = Some file' -> Forall P file -> Forall (fun w => Forall P w.2) ws -> Forall P file'.
Proof.
  revert file. induction ws as [|[off src] ws IH]; intros file Hf Hp Hws; [by injection Hf as <-|].
  apply Forall_cons_1 in Hws as [Hsrc Hws]. apply bind_Some in Hf as (f1 & Hf1 & Hf). apply (IH f1 Hf); [|done].
  apply splice_Some in Hf1 as (_ & _ & ->). cbn in Hsrc. apply Forall_app_2; [by apply Forall_take|]. apply Forall_app_2; [done | by apply Forall_drop].
Qed.

Lemma hex_pair_ascii b : is_u8 b -> is_ascii (hex_pair b).
Proof.
  intros Hb. unfold is_u8, u8_max in Hb. assert (forall k, 0 <= k < 16 -> 0 < nth (Z.to_nat k) HEX 0 < 128) as Hh.
  { intros k Hk. assert (Forall (fun c => 0 < c < 128) HEX) as Hall by (repeat (apply Forall_cons_2; [lia|]); apply Forall_nil_2).
    rewrite Forall_forall in Hall. apply Hall, nth_In. cbn. lia. }
  unfold hex_pair. repeat (apply Forall_cons_2; [apply Hh|]); [| |apply Forall_nil_2].
  - rewrite Z.shiftr_div_pow2 by lia. split; [apply Z.div_pos | apply Z.div_lt_upper_bound]; lia.
  - change 0x0f with (Z.ones 4). rewrite Z.land_ones by lia. apply Z.mod_pos_bound. lia.
Qed.

Lemma render_guid_ok guid : is_bytes guid -> blen guid = 16 ->
  exists link, render_guid_braced guid = Ok link /\ blen link = 38 /\ is_ascii link.
Proof.
  intros Hb Hl. unfold render_guid_braced. set (f := fun '(src, dst) => _).
  assert (Forall (fun sd => 0 <= sd.1 < 16 /\ 0 <= sd.2 /\ sd.2 + 2 <= 38) PAIRS) as Hp by (repeat (apply Forall_cons_2; [cbn; lia|]); apply Forall_nil_2).
  assert (forall sd, 0 <= sd.1 < 16 /\ 0 <= sd.2 /\ sd.2 + 2 <= 38 -> exists b, f sd = Some (sd.2, hex_pair b) /\ is_u8 b) as Hf.
  { intros [s d] (Hs & _). cbn in Hs. destruct (proj2 (byte_at_Some_iff guid s) ltac:(lia)) as [b Hbs]. exists b. split; [|by eapply byte_at_u8]. unfold f. by rewrite Hbs. }
  assert (exists pairs, mapM f PAIRS = Some pairs /\ Forall (fun w => 0 <= w.1 /\ w.1 + blen w.2 <= 38 /\ is_ascii w.2) pairs) as (pairs & -> & Hws).
  { clear -Hp Hf. induction Hp as [|sd l Hsd _ (ps & Hps & Hws)]; [exists []; split; [done | apply Forall_nil_2]|]. destruct (Hf sd Hsd) as (b & Hb & Hu).
    exists ((sd.2, hex_pair b) :: ps). cbn [mapM]. rewrite Hb, Hps. split; [done|]. apply Forall_cons_2; [|done]. cbn [fst snd]. split; [lia|]. split; [|by apply hex_pair_ascii].
    change (blen (hex_pair b)) with 2. lia. }
  cbn [or_panic obind].
  assert (forall l, is_ascii l -> is_bytes l) as Hab by (intros l Hla; eapply Forall_impl; [|exact Hla]; unfold is_u8, u8_max; cbv beta; lia).
  assert (is_ascii (filled GUID_STRING_LEN 45)) as Hfill by (apply Forall_replicate; lia).
  set (ws := _ ++ pairs). assert (Forall (fun w => 0 <= w.1 /\ w.1 + blen w.2 <= 38 /\ is_ascii w.2) ws) as Hall.
  { apply Forall_app_2; [|done]. repeat (apply Forall_cons_2; [cbn [fst snd]; split; [done|]; split; [vm_compute; discriminate|]; apply Forall_cons_2; [lia | apply Forall_nil_2]|]).
    apply Forall_nil_2. }
  destruct (apply_writes_ok (filled GUID_STRING_LEN 45) ws (Hab _ Hfill)) as (link & Hlk & Hll & _).
  { eapply Forall_impl; [|exact Hall]. cbv beta. intros w (? & ? & ?). split_and!; [done | | by apply Hab]. rewrite blen_filled by done. unfold GUID_STRING_LEN. lia. }
  exists link. rewrite Hlk. split; [done|]. split; [by rewrite Hll, blen_filled|].
  eapply apply_writes_Forall; [exact Hlk | exact Hfill |]. eapply Forall_impl; [|exact Hall]. by intros w (_ & _ & ?).
Qed.

(** ** The item *)

Record locator_args (path_key : bytes) (link : bytes) (path : list Z) (value : bytes) : Prop := {
  la_key : path_key = KEY_RELATIVE_PATH \/ path_key = KEY_ABSOLUTE_WIN32_PATH;
  la_link : blen link = 38 /\ is_ascii link;
  la_text : is_text path;
  la_value : value = units_bytes false (str_units path) /\ blen value <= 520
}.

Lemma path_key_facts k : k = KEY_RELATIVE_PATH \/ k = KEY_ABSOLUTE_WIN32_PATH -> is_ascii k /\ 13 <= blen k <= 19 /\ k <> KEY_PARENT_LINKAGE.
Proof.
  intros [-> | ->]; (split; [repeat (apply Forall_cons_2; [lia|]); apply Forall_nil_2|]); (split; [split; vm_compute; discriminate | discriminate]).
Qed.

Section item.
Context (k link : bytes) (path : list Z) (value : bytes) (Hargs : locator_args k link path value).

Abbreviation plan := (locator_plan k (blen value)).
Abbreviation fields := (locator_fields plan k link value).

Lemma linkage_ascii : is_ascii KEY_PARENT_LINKAGE.
Proof. repeat (apply Forall_cons_2; [lia|]). apply Forall_nil_2. Qed.

(** The fields with every offset computed. *)
Lemma fields_eq : lp_item_len plan = 148 + 2 * blen k + blen value /\
  fields = [(0, VHDX_PARENT_LOCATOR_TYPE_GUID); (16, le_bytes 2 0); (18, le_bytes 2 2);
    (20, le_bytes 4 44); (24, le_bytes 4 (72 + 2 * blen k)); (28, le_bytes 2 28); (30, le_bytes 2 76);
    (32, le_bytes 4 72); (36, le_bytes 4 (148 + 2 * blen k)); (40, le_bytes 2 (2 * blen k)); (42, le_bytes 2 (blen value));
    (44, units_bytes false KEY_PARENT_LINKAGE); (72, units_bytes false k); (72 + 2 * blen k, units_bytes false link); (148 + 2 * blen k, value)].
Proof.
  pose proof Hargs as [Hk [Hl Hla] _ [_ Hv]]. destruct (path_key_facts k Hk) as (Hka & Hkl & _). pose proof (blen_nonneg value).
  unfold locator_plan, locator_fields. cbn [lp_linkage_key_off lp_path_key_off lp_linkage_value_off lp_path_value_off lp_item_len].
  change (PARENT_LOCATOR_HEADER_SIZE + PARENT_LOCATOR_ENTRY_SIZE + PARENT_LOCATOR_ENTRY_SIZE) with 44.
  change (blen KEY_PARENT_LINKAGE * 2) with 28. change (44 + 28) with 72. change (GUID_STRING_LEN * 2) with 76. replace (blen k * 2) with (2 * blen k) by lia.
  replace (72 + 2 * blen k + 76) with (148 + 2 * blen k) by lia. split; [done|].
  rewrite (ascii_utf16 _ KEY_PARENT_LINKAGE linkage_ascii) by (change (blen KEY_PARENT_LINKAGE) with 14; lia).
  rewrite (ascii_utf16 _ k Hka), (ascii_utf16 _ link Hla) by lia. unfold as_u32, as_u16. rewrite !Z.mod_small by lia. done.
Qed.

Lemma fields_ok item : is_bytes item -> blen item = lp_item_len plan ->
  exists item', apply_writes item fields = Some item' /\ blen item' = blen item /\ is_bytes item' /\
    forall off src, (off, src) ∈ fields -> slice item' off (off + blen src) = Some src.
Proof.
  intros Hb Hl. pose proof Hargs as [Hk [Hll Hla] _ [Hveq Hv]]. destruct (path_key_facts k Hk) as (Hka & Hkl & _). pose proof (blen_nonneg value).
  destruct fields_eq as [Hlen Hfe]. rewrite Hlen in Hl.
  assert (blen (units_bytes false k) = 2 * blen k) as B1 by (rewrite blen_units_bytes; unfold blen; lia).
  assert (blen (units_bytes false link) = 76) as B2 by (rewrite blen_units_bytes; unfold blen in *; lia).
  assert (blen (units_bytes false KEY_PARENT_LINKAGE) = 28) as B3 by reflexivity.
  assert (ascending 0 fields) as Hasc.
  { rewrite Hfe. cbn [ascending]. rewrite !blen_le_bytes, B1, B2, B3. change (blen VHDX_PARENT_LOCATOR_TYPE_GUID) with 16. split_and!; try exact I; lia. }
  assert (Forall (fun w => w.1 + blen w.2 <= blen item /\ is_bytes w.2) fields) as Hw.
  { rewrite Hfe, Hl. assert (is_bytes value) as Hvb by (rewrite Hveq; apply units_bytes_ok).
    repeat (apply Forall_cons_2; [cbn [fst snd]; rewrite ?blen_le_bytes, ?B1, ?B2, ?B3; change (blen VHDX_PARENT_LOCATOR_TYPE_GUID) with 16; (split; [lia|]);
      first [ apply le_bytes_is_bytes | apply units_bytes_ok | exact Hvb | (apply is_bytesb_true; reflexivity) ]|]). apply Forall_nil_2. }
  pose proof (ascending_above _ _ Hasc) as Habove. destruct (apply_writes_ok item fields Hb) as (item' & Hi & Hil & Hib).
  { rewrite Forall_forall in *. intros w Hin. specialize (Hw w Hin). specialize (Habove w Hin). cbn in Habove. tauto. }
  exists item'. split_and!; try done. intros off src Hin. by eapply apply_writes_get.
Qed.

(** The two entries a reader finds. *)
Definition built_locator : VhdxParentLocator :=
  mkLocator VHDX_PARENT_LOCATOR_TYPE_GUID 0 2 None
    [mkLocatorEntry 44 (72 + 2 * blen k) 28 76 None KEY_PARENT_LINKAGE link;
     mkLocatorEntry 72 (148 + 2 * blen k) (2 * blen k) (blen value) None k (str_bytes path)].

Lemma item_parses item : blen item = lp_item_len plan -> (forall off src, (off, src) ∈ fields -> slice item off (off + blen src) = Some src) ->
  parse_parent_locator item = Ok built_locator.
Proof.
  intros Hl Hf. pose proof Hargs as [Hk [Hll Hla] Htext [Hveq Hv]]. destruct (path_key_facts k Hk) as (Hka & Hkl & Hkne). pose proof (blen_nonneg value).
  destruct fields_eq as [Hlen Hfe]. rewrite Hlen in Hl. rewrite Hfe in Hf.
  assert (blen (units_bytes false k) = 2 * blen k) as B1 by (rewrite blen_units_bytes; unfold blen; lia).
  assert (blen (units_bytes false link) = 76) as B2 by (rewrite blen_units_bytes; unfold blen in *; lia).
  destruct (ascii_text k Hka) as (Tk & Sk & Uk). destruct (ascii_text link Hla) as (Tl & Sl & Ul). destruct (ascii_text _ linkage_ascii) as (Tp & Sp & Up).
  unfold parse_parent_locator, PARENT_LOCATOR_HEADER_SIZE, PARENT_LOCATOR_ENTRY_SIZE. destruct (Z.ltb_spec (blen item) 20); [lia|].
  change (slice item 0 16) with (slice item 0 (0 + blen VHDX_PARENT_LOCATOR_TYPE_GUID)). rewrite (Hf 0) by literal_elem. cbn [or_panic obind].
  rewrite (le_u16_get item 16 0) by first [lia | apply Hf; literal_elem]. cbn [obind].
  rewrite (le_u16_get item 18 2) by first [lia | apply Hf; literal_elem]. cbn [obind].
  assert (2 <= (blen item - 20) / 12) as Hfit by (apply Z.div_le_lower_bound; lia).
  rewrite (proj2 (Z.ltb_ge _ 2)) by lia. change (MAX_PARENT_LOCATOR_ENTRIES <? 2) with false. cbn iota.
  change (Z.to_nat 2) with 2%nat. cbn [parse_entries]. change (0 + 1) with 1. change (0 * PARENT_LOCATOR_ENTRY_SIZE + PARENT_LOCATOR_HEADER_SIZE) with 20.
  change (1 * PARENT_LOCATOR_ENTRY_SIZE + PARENT_LOCATOR_HEADER_SIZE) with 32. change PARENT_LOCATOR_ENTRY_SIZE with 12.
  destruct (Z.ltb_spec (blen item) (20 + 12)); [lia|]. destruct (Z.ltb_spec (blen item) (32 + 12)); [lia|].
  change (20 + 4) with 24. change (20 + 8) with 28. change (20 + 10) with 30. change (32 + 4) with 36. change (32 + 8) with 40. change (32 + 10) with 42.
  rewrite (le_u32_get item 20 44) by first [done | apply Hf; literal_elem]. cbn [obind].
  rewrite (le_u32_get item 24 (72 + 2 * blen k)) by first [unfold is_u32, u32_max; lia | apply Hf; literal_elem]. cbn [obind].
  rewrite (le_u16_get item 28 28) by first [lia | apply Hf; literal_elem]. cbn [obind].
  rewrite (le_u16_get item 30 76) by first [lia | apply Hf; literal_elem]. cbn [obind].
  assert (exists e, decode_entry item 44 (72 + 2 * blen k) 28 76 = e) as [e0 He0] by (by eexists). rewrite He0.
  unfold decode_entry in He0. rewrite (string_read item 44 28 KEY_PARENT_LINKAGE) in He0;
    [|done|done|rewrite Up; exact (Hf 44 (units_bytes false KEY_PARENT_LINKAGE) ltac:(literal_elem))|done|done|done|unfold u64_max; lia].
  rewrite (string_read item (72 + 2 * blen k) 76 link) in He0;
    [|done|lia|rewrite Ul; replace (72 + 2 * blen k + 76) with (72 + 2 * blen k + blen (units_bytes false link)) by lia; apply (Hf (72 + 2 * blen k)); literal_elem|done|done|done|unfold u64_max; lia].
  rewrite Sp, Sl in He0. subst e0. cbn [obind].
  rewrite (le_u32_get item 32 72) by first [done | apply Hf; literal_elem]. cbn [obind].
  rewrite (le_u32_get item 36 (148 + 2 * blen k)) by first [unfold is_u32, u32_max; lia | apply Hf; literal_elem]. cbn [obind].
  rewrite (le_u16_get item 40 (2 * blen k)) by first [lia | apply Hf; literal_elem]. cbn [obind].
  rewrite (le_u16_get item 42 (blen value)) by first [lia | apply Hf; literal_elem]. cbn [obind].
  assert (exists e, decode_entry item 72 (148 + 2 * blen k) (2 * blen k) (blen value) = e) as [e1 He1] by (by eexists). rewrite He1.
  unfold decode_entry in He1. rewrite (string_read item 72 (2 * blen k) k) in He1;
    [|done|done|rewrite Uk; replace (72 + 2 * blen k) with (72 + blen (units_bytes false k)) by lia; apply (Hf 72); literal_elem|unfold MAX_PARENT_LOCATOR_KEY_UTF16_BYTES; lia|done|done|unfold u64_max; lia].
  rewrite (string_read item (148 + 2 * blen k) (blen value) path) in He1;
    [|done|lia|rewrite <-Hveq; apply (Hf (148 + 2 * blen k)); literal_elem|unfold MAX_PARENT_LOCATOR_VALUE_UTF16_BYTES; lia|done|done|unfold u64_max; lia].
  rewrite Sk in He1. subst e1. cbn [obind app mark_duplicate le_defect le_key existsb].
  rewrite (bool_decide_eq_false_2 (KEY_PARENT_LINKAGE = k)) by congruence. rewrite !andb_false_r. cbn [existsb orb]. done.
Qed.

End item.

(** ** The table entry *)

Lemma apply_writes_last file ws w file' : apply_writes file (ws ++ [w]) = Some file' ->
  exists f1, apply_writes file ws = Some f1 /\ splice f1 w.1 w.2 = Some file'.
Proof.
  revert file. induction ws as [|[o s] ws IH]; intros file Hf; cbn [apply_writes app] in *.
  - destruct w as [o s]. apply bind_Some in Hf as (f1 & Hf1 & [= <-]). by exists file.
  - apply bind_Some in Hf as (f1 & Hf1 & Hf). destruct (IH f1 Hf) as (f2 & H2 & Hs). exists f2. by rewrite Hf1.
Qed.

(** A table entry that names an item of [len] bytes at [off]. *)
Definition entry_names (metadata : bytes) (e off len : Z) : Prop :=
  slice metadata e (e + 16) = Some PARENT_LOCATOR_GUID /\ slice metadata (e + 16) (e + 20) = Some (le_bytes 4 off) /\
  slice metadata (e + 20) (e + 24) = Some (le_bytes 4 len) /\ slice metadata (e + 24) (e + 28) = Some (le_bytes 4 4) /\
  slice metadata (e + 28) (e + 32) = Some (le_bytes 4 0).

Lemma table_entry_ok m e off len count : is_bytes m -> 32 <= e -> e + 32 <= blen m -> 0 <= len <= u32_max ->
  exists m', apply_writes m (locator_table_entry e off len count) = Some m' /\ blen m' = blen m /\ is_bytes m' /\
    entry_names m' e off len /\ slice m' 10 12 = Some (le_bytes 2 (as_u16 (count + 1))) /\
    (forall a b, (b <= e \/ e + 32 <= a) -> (b <= 10 \/ 12 <= a) -> slice m' a b = slice m a b).
Proof.
  intros Hb He Hl Hlen. set (ws := locator_table_entry e off len count).
  assert (Forall (fun w => ((e <= w.1 /\ w.1 + blen w.2 <= e + 32) \/ (w.1 = 10 /\ blen w.2 = 2)) /\ is_bytes w.2) ws) as Hw.
  { repeat (apply Forall_cons_2; [cbn [fst snd]; rewrite ?blen_le_bytes; change (blen PARENT_LOCATOR_GUID) with 16; (split; [unfold METADATA_TABLE_ENTRY_COUNT_OFFSET; lia|]);
      first [apply le_bytes_is_bytes | (apply is_bytesb_true; reflexivity)]|]). apply Forall_nil_2. }
  destruct (apply_writes_ok m ws Hb) as (m' & Hm & Hml & Hmb).
  { eapply Forall_impl; [|exact Hw]. cbv beta. intros w ([?|?] & ?); split_and!; try done; lia. }
  exists m'. split; [done|]. split; [done|]. split; [done|].
  change ws with ([(e, PARENT_LOCATOR_GUID); (e + 16, le_bytes 4 off); (e + 20, le_bytes 4 (as_u32 len)); (e + 24, le_bytes 4 4); (e + 28, le_bytes 4 0)]
    ++ [(10, le_bytes 2 (as_u16 (count + 1)))]) in Hm. pose proof Hm as Hall. apply apply_writes_last in Hm as (m1 & Hm1 & Hc). cbn [fst snd] in Hc.
  set (es := [(e, PARENT_LOCATOR_GUID); _; _; _; _]) in *.
  assert (ascending 0 es) as Hasc.
  { cbn [ascending es]. rewrite !blen_le_bytes. change (blen PARENT_LOCATOR_GUID) with 16. split_and!; try exact I; lia. }
  assert (forall o s, (o, s) ∈ es -> slice m' o (o + blen s) = Some s) as Hget.
  { intros o s Hin. pose proof (ascending_above _ _ Hasc) as Hab. rewrite Forall_forall in Hw.
    rewrite (slice_splice_ne m1 10 _ m' o (o + blen s) Hc); [by eapply apply_writes_get|]. rewrite blen_le_bytes. right.
    apply list_elem_of_In in Hin. repeat (destruct Hin as [[= <- <-]|Hin]; [lia|]). destruct Hin. }
  split; [|split].
  - assert (forall o s z, (o, s) ∈ es -> z = o + blen s -> slice m' o z = Some s) as Hgz by (intros o s z Hin ->; by apply Hget).
    assert (as_u32 len = len) as Hal by (unfold as_u32; apply Z.mod_small; unfold u32_max in Hlen; lia).
    unfold entry_names. split_and!; apply Hgz; rewrite ?blen_le_bytes; change (blen PARENT_LOCATOR_GUID) with 16;
      first [lia | subst es; rewrite Hal; literal_elem].
  - rewrite <- (slice_splice_eq _ _ _ _ Hc). by rewrite blen_le_bytes.
  - intros a b Hd1 Hd2. apply (apply_writes_frame _ _ _ a b Hall). eapply Forall_impl; [|exact Hw]. cbv beta. intros w ([?|?] & _); lia.
Qed.

(** ** The builder *)

(** What an accepted call leaves. *)
Record located (metadata metadata' : bytes) (off n : Z) (k link : bytes) (path : list Z) : Prop := {
  lc_item : exists item, slice metadata' off (off + n) = Some item /\ parse_parent_locator item = Ok (built_locator k link path (units_bytes false (str_units path)));
  lc_entry : exists count, le_u16 (E := unit) metadata 10 = Ok count /\ entry_names metadata' (32 + 32 * count) off n /\
    32 + 32 * count + 32 <= off /\ slice metadata' 10 12 = Some (le_bytes 2 (as_u16 (count + 1))) /\
    forall a b, b <= off \/ off + n <= a -> b <= 32 + 32 * count \/ 32 + 32 * count + 32 <= a -> b <= 10 \/ 12 <= a ->
      slice metadata' a b = slice metadata a b;
  lc_size : blen metadata' = blen metadata;
  lc_bytes : is_bytes metadata'
}.

(** What a refused call says. *)
Definition locator_refused (metadata : bytes) (off : Z) (k : bytes) (path : list Z) (e : VhdxBuildError) : Prop :=
  let n := 148 + 2 * blen k + 2 * Z.of_nat (length (str_units path)) in
  match e with
  | VbUnknownKey => k <> KEY_RELATIVE_PATH /\ k <> KEY_ABSOLUTE_WIN32_PATH
  | VbPathEmpty => path = []
  | VbPathTooLong => 520 < 2 * Z.of_nat (length (str_units path))
  | VbBufferTooSmall => 2 * Z.of_nat (length (str_units path)) <= 520 /\
      (blen metadata < 32 \/
       exists count, le_u16 (E := unit) metadata 10 = Ok count /\ (blen metadata < off + n \/ blen metadata < 32 + 32 * count + 32 \/ off < 32 + 32 * count + 32))
  end.

Lemma value_read s m : splice (filled 520 0) 0 s = Some m -> slice m 0 (blen s) = Some s.
Proof. intros Hs. exact (slice_splice_eq _ _ _ _ Hs). Qed.

Lemma le_u16_of {E} l off v : slice l off (off + 2) = Some (le_bytes 2 v) -> 0 <= v < 65536 -> le_u16 (E := E) l off = Ok v.
Proof. intros Hs Hv. unfold le_u16. rewrite Hs. cbn [or_panic obind]. by rewrite le_val_le_bytes. Qed.

Lemma build_locator_wp off guid k path metadata : is_bytes metadata -> is_bytes guid -> blen guid = 16 -> 0 <= off -> is_text path ->
  wp (build_parent_locator off guid k path)
    (fun n metadata' => exists link, render_guid_braced guid = Ok link /\ (k = KEY_RELATIVE_PATH \/ k = KEY_ABSOLUTE_WIN32_PATH) /\
       2 * Z.of_nat (length (str_units path)) <= 520 /\ n = 148 + 2 * blen k + 2 * Z.of_nat (length (str_units path)) /\ located metadata metadata' off n k link path)
    (fun e metadata' => metadata' = metadata /\ locator_refused metadata off k path e) metadata.
Proof.
  intros Hb Hg Hgl Hoff Ht. unfold build_parent_locator. destruct (_ && _) eqn:Hkey.
  { apply wp_fail. split; [done|]. apply andb_prop in Hkey as [H1%negb_true_iff H2%negb_true_iff]. by apply bool_decide_eq_false in H1, H2. }
  assert (k = KEY_RELATIVE_PATH \/ k = KEY_ABSOLUTE_WIN32_PATH) as Hk.
  { apply andb_false_iff in Hkey as [H1%negb_false_iff|H1%negb_false_iff]; apply bool_decide_eq_true in H1; tauto. }
  clear Hkey. destruct (bool_decide (path = [])) eqn:Hpe; [apply wp_fail; by apply bool_decide_eq_true in Hpe|]. clear Hpe.
  pose proof (utf8_to_utf16_wp path false (filled 520 0) ltac:(by vm_compute)) as Henc. unfold wp in Henc.
  change (filled MAX_PARENT_LOCATOR_VALUE_UTF16_BYTES 0) with (filled 520 0).
  destruct (utf8_to_utf16 path false (filled 520 0)) as [[vn|[]| |] vbuf]; [| |done|done].
  2: { apply wp_bind, wp_lift. destruct Henc as [Hlong _]. rewrite blen_units_bytes in Hlong. split; [done|]. cbn. change (blen (filled 520 0)) with 520 in Hlong. lia. }
  destruct Henc as [-> Hvs]. apply wp_bind, wp_lift. set (value := units_bytes false (str_units path)) in *.
  destruct (render_guid_ok guid Hg Hgl) as (link & Hlink & Hll & Hla). apply wp_bind, wp_lift. rewrite Hlink. apply wp_bind, wp_get.
  assert (blen value <= 520) as Hv by (apply splice_Some in Hvs as (_ & Hv & _); exact Hv).
  assert (locator_args k link path value) as Hargs by (constructor; done).
  destruct (fields_eq k link path value Hargs) as [Hlen _]. rewrite !Hlen. unfold METADATA_TABLE_HEADER_SIZE, METADATA_TABLE_ENTRY_SIZE, METADATA_TABLE_ENTRY_COUNT_OFFSET.
  assert (blen value = 2 * Z.of_nat (length (str_units path))) as Hvl by apply blen_units_bytes.
  destruct (Z.ltb_spec (blen metadata) 32) as [Hsm|Hsm]; [apply wp_fail; split; [done|]; split; [lia | by left]|].
  destruct (le_u16_read (E := VhdxBuildError) metadata 10 Hb) as (count & Hc & Hcr); [lia | lia |]. apply wp_bind, wp_lift. rewrite Hc.
  assert (le_u16 (E := unit) metadata 10 = Ok count) as Hc' by (unfold le_u16 in *; destruct (slice metadata 10 (10 + 2)); [cbn [or_panic obind] in *; congruence | done]).
  pose proof (path_key_facts k Hk) as (_ & Hkl & _). pose proof (blen_nonneg value).
  destruct (_ || _) eqn:Hfit.
  { apply wp_fail. split; [done|]. split; [lia|]. right. exists count. split; [done|]. rewrite <- Hvl. repeat (apply orb_true_iff in Hfit as [Hfit|Hfit]); apply Z.ltb_lt in Hfit; lia. }
  apply orb_false_iff in Hfit as [[H1 H2]%orb_false_iff H3]. apply Z.ltb_ge in H1, H2, H3.
  destruct (slice_of metadata off (off + (148 + 2 * blen k + blen value))) as (item & Hi & Hil); [lia | lia |]. apply wp_bind, wp_lift. rewrite Hi. cbn [or_panic].
  apply wp_bind, wp_lift. rewrite (value_read _ _ Hvs). cbn [or_panic]. apply wp_bind, wp_lift.
  destruct (fields_ok k link path value Hargs item (slice_is_bytes _ _ _ _ Hb Hi)) as (item' & Hi' & Hil' & Hib' & Hget); [rewrite Hlen; lia|]. rewrite Hi'. cbn [or_panic].
  destruct (splice_of metadata off item') as (m1 & Hm1 & Hm1l); [lia | lia |]. apply wp_bind, wp_lift. rewrite Hm1. cbn [or_panic]. apply wp_bind, wp_lift.
  replace (32 + count * 32) with (32 + 32 * count) in * by lia.
  destruct (table_entry_ok m1 (32 + 32 * count) off (148 + 2 * blen k + blen value) count) as (m2 & Hm2 & Hm2l & Hm2b & Hnames & Hcnt & Hfr);
    [exact (splice_is_bytes _ _ _ _ Hb Hib' Hm1) | lia | lia | unfold u32_max; lia |]. rewrite Hm2. cbn [or_panic]. apply wp_bind, wp_put, wp_ret.
  exists link. split; [done|]. split; [done|]. split; [lia|]. split; [lia|]. split.
  - exists item'. replace (off + (148 + 2 * blen k + blen value)) with (off + blen item') by lia. rewrite Hfr by lia.
    split; [by eapply slice_splice_eq|]. apply (item_parses k link path value Hargs); [rewrite Hlen, Hil', Hil; lia | done].
  - exists count. split; [done|]. split; [done|]. split; [done|]. split; [done|].
    intros a b Hd1 Hd2 Hd3. rewrite (Hfr a b) by tauto. apply (slice_splice_ne _ _ _ _ _ _ Hm1). lia.
  - by rewrite Hm2l.
  - done.
Qed.

(** What the reader's queries answer on a built locator. *)
Lemma built_locator_queries k link path value : k = KEY_RELATIVE_PATH \/ k = KEY_ABSOLUTE_WIN32_PATH ->
  let l := built_locator k link path value in
  is_vhdx_locator_type l = true /\ value_of l KEY_PARENT_LINKAGE = Some link /\ linkage_matches l link = true /\
  preferred_path_with_convention l = Some (str_bytes path, bool_decide (k = KEY_RELATIVE_PATH)).
Proof.
  intros Hk. cbv zeta. split; [by apply bool_decide_eq_true_2|]. split; [done|]. split; [by apply bool_decide_eq_true_2|].
  destruct Hk as [-> | ->]; reflexivity.
Qed.

(** A parent locator that the writer appends to a metadata region is the one a reader
    finds.  For any region, offset, parent GUID, key and path without NUL, the call either
    refuses for the reason it names, leaving the region as it was, or writes an item that
    parses without a defect, is of the VHDX locator type, links to the rendered GUID and
    prefers exactly the path given; the next slot of the table names it, the count has
    grown by one, and no byte outside the item, that slot and the count has changed. *)
Theorem locator_roundtrip (metadata guid k : bytes) (off : Z) (path : list Z) :
  is_bytes metadata -> is_bytes guid -> blen guid = 16 -> is_u32 off -> is_text path ->
  match build_parent_locator off guid k path metadata with
  | (Ok n, metadata') => exists link l, render_guid_braced guid = Ok link /\ located metadata metadata' off n k link path /\
      n = 148 + 2 * blen k + 2 * Z.of_nat (length (str_units path)) /\
      (exists item, slice metadata' off (off + n) = Some item /\ parse_parent_locator item = Ok l) /\
      lo_defect l = None /\ Forall (fun e => le_defect e = None) (lo_entries l) /\
      is_vhdx_locator_type l = true /\ linkage_matches l link = true /\
      preferred_path_with_convention l = Some (str_bytes path, bool_decide (k = KEY_RELATIVE_PATH))
  | (Err e, metadata') => metadata' = metadata /\ locator_refused metadata off k path e
  | _ => False
  end.
Proof.
  intros Hb Hg Hgl Hoff Ht. pose proof (build_locator_wp off guid k path metadata Hb Hg Hgl ltac:(unfold is_u32 in Hoff; lia) Ht) as Hwp. unfold wp in Hwp.
  destruct (build_parent_locator off guid k path metadata) as [[n|e| |] metadata']; try done.
  destruct Hwp as (link & Hl & Hk & _ & Hn & Hloc). destruct (built_locator_queries k link path (units_bytes false (str_units path)) Hk) as (Q1 & _ & Q2 & Q3).
  exists link, (built_locator k link path (units_bytes false (str_units path))). split_and!; try done; [exact (lc_item _ _ _ _ _ _ _ Hloc)|].
  repeat (apply Forall_cons_2; [done|]). apply Forall_nil_2.
Qed.

(** [.\] and a non-BMP character, in a small region. *)
Lemma locator_roundtrip_witness :
  match build_parent_locator 96 (filled 16 0xAB) KEY_RELATIVE_PATH [46; 92; 0x1F600] (filled 300 0) with
  | (Ok n, metadata') => n = 182 /\ exists link l, render_guid_braced (filled 16 0xAB) = Ok link /\
      (exists item, slice metadata' 96 (96 + n) = Some item /\ parse_parent_locator item = Ok l) /\
      preferred_path_with_convention l = Some ([46; 92; 0xF0; 0x9F; 0x98; 0x80], true)
  | _ => False
  end.
Proof.
  pose proof (locator_roundtrip (filled 300 0) (filled 16 0xAB) KEY_RELATIVE_PATH 96 [46; 92; 0x1F600]) as H.
  do 5 (specialize (H ltac:(first [reflexivity | (apply is_bytesb_true; reflexivity) | (unfold is_u32, u32_max; lia)
    | (repeat (apply Forall_cons_2; [split; [reflexivity | lia]|]); apply Forall_nil_2)]))).
  set (r := build_parent_locator _ _ _ _ _) in *.
  assert (exists n m, r = (Ok n, m)) as (n & m & Hr) by (exists 182; eexists; vm_compute; reflexivity). rewrite Hr in *.
  destruct H as (link & l & Hl & _ & Hn & Hi & _ & _ & _ & _ & Hp). split; [exact Hn|]. exists link, l. split_and!; [exact Hl | exact Hi | exact Hp].
Defined.
