(* ===== verification/VhdxReader.v ===== *)
(** Reading a VHDX image ([src/src/crates/vhdx/src/lib.rs]): [VhdxState::init], the cached
    BAT lookup with its refusal of blocks that lie on the image's own structures, and the
    sector bitmaps that say which sectors of a partially present block a differencing
    child owns. *)

From stdpp Require Import base numbers list sets option.
From Stdlib Require Import ZArith Lia.
From S2P Require Import Prelude Bytes ExecBytes CachedRead Header Ownership Vhdx VhdxMeta.

(** ** Definitions *)

Definition ranges_overlap (offset len region_offset region_len : Z) : bool :=
  if (len =? 0) || (region_len =? 0) then false
  else match checked_add offset len with
       | None => true
       | Some e =>
           match checked_add region_offset region_len with
           | None => true
           | Some region_end => (offset <? region_end) && (region_offset <? e)
           end
       end.

Inductive VhdxBlockLookup : Type :=
| NotPresent
| ZeroBlock
| Present (host_byte_offset : Z)
| PartiallyPresent (host_byte_offset block_bytes_remaining : Z).

#[global] Instance VhdxBlockLookup_eq_dec : EqDecision VhdxBlockLookup.
Proof. solve_decision. Defined.

Record SectorBitmapLookup : Type := mkSectorBitmapLookup { bitmap_host_offset : Z; sector_in_group : Z }.

(** The fields of [VhdxState] that a lookup never changes; [regions] is the populated
    front of the array. *)
Record VhdxState : Type := mkVhdxState {
  device_idx : Z;
  block_size : Z;
  virtual_disk_size : Z;
  logical_sector_size : Z;
  bat_offset : Z;
  total_bat_entries : Z;
  chunk_ratio : Z;
  sb_bat_entry_bound : Z;
  regions : list (Z * Z);
  has_parent : bool
}.

Definition block_overlaps_a_declared_region (st : VhdxState) (offset len : Z) : bool :=
  existsb (fun r => ranges_overlap offset len (fst r) (snd r)) (regions st).

(** The [match state] of [block_lookup]. *)
Definition payload_verdict (st : VhdxState) (bat_entry virtual_offset : Z) : option VhdxBlockLookup :=
  let state := Z.land bat_entry BAT_ENTRY_STATE_MASK in
  let file_offset := Z.land bat_entry BAT_ENTRY_OFFSET_MASK in
  let intra_block_offset := virtual_offset mod block_size st in
  if (state =? PAYLOAD_BLOCK_NOT_PRESENT) || (state =? PAYLOAD_BLOCK_UNDEFINED) || (state =? PAYLOAD_BLOCK_UNMAPPED)
  then Some NotPresent
  else if state =? PAYLOAD_BLOCK_ZERO then Some ZeroBlock
  else if state =? PAYLOAD_BLOCK_FULLY_PRESENT then
    if file_offset =? 0 then None
    else if block_overlaps_a_declared_region st file_offset (block_size st) then None
    else host ← checked_add file_offset intra_block_offset; Some (Present host)
  else if state =? PAYLOAD_BLOCK_PARTIALLY_PRESENT then
    if negb (has_parent st) then None
    else if file_offset =? 0 then None
    else if block_overlaps_a_declared_region st file_offset (block_size st) then None
    else
      host ← checked_add file_offset intra_block_offset;
      remaining ← checked_sub (block_size st) intra_block_offset;
      Some (PartiallyPresent host remaining)
  else None.

Definition sector_bit_is_child_owned (bitmap_byte sector : Z) : bool :=
  let bit := sector mod 8 in
  Z.land (Z.shiftr bitmap_byte bit) 1 =? 1.

Definition sb_bat_index (block_index chunk_ratio : Z) : option Z :=
  group ← checked_div block_index chunk_ratio;
  per_group ← checked_add chunk_ratio 1;
  first ← checked_mul group per_group;
  checked_add first chunk_ratio.

Definition sector_in_chunk_group (virtual_offset block_size chunk_ratio logical_sector_size : Z) : option Z :=
  block ← checked_div virtual_offset block_size;
  group ← checked_div block chunk_ratio;
  blocks ← checked_mul group chunk_ratio;
  group_first_byte ← checked_mul blocks block_size;
  offset_in_group ← checked_sub virtual_offset group_first_byte;
  sector ← checked_div offset_in_group logical_sector_size;
  try_u32 sector.

Definition sectors_per_chunk_group (st : VhdxState) : option Z :=
  bytes ← checked_mul (chunk_ratio st) (block_size st);
  sectors ← checked_div bytes (logical_sector_size st);
  if sectors =? 0 then None else try_u32 sectors.

Section reader.
Context {H : Type} `{InputIo H}.

Definition read_u64_le_cached (c : CacheId) : Z -> Z -> Z -> Z -> SM (InSt H) unit Z := cached_read c 8 le_val.
Definition read_u8_cached (c : CacheId) : Z -> Z -> Z -> Z -> SM (InSt H) unit Z := cached_read c 1 be_val.

Definition block_lookup (st : VhdxState) (sector_size input_capacity virtual_offset : Z) : SM (InSt H) unit VhdxBlockLookup :=
  let! block_index := slift (udiv virtual_offset (block_size st)) in
  let total_payload_blocks := div_ceil (virtual_disk_size st) (block_size st) in
  if total_payload_blocks <=? block_index then sret NotPresent
  else
  let! sb_entries_before := slift (udiv block_index (chunk_ratio st)) in
  let bat_index := wadd block_index sb_entries_before in
  let bat_byte_offset := wadd (bat_offset st) (wmul bat_index 8) in
  let! bat_entry := read_u64_le_cached CacheA (device_idx st) bat_byte_offset sector_size input_capacity in
  or_none (payload_verdict st bat_entry virtual_offset).

Definition sector_bitmap_lookup (st : VhdxState) (sector_size input_capacity virtual_offset : Z)
  : SM (InSt H) unit SectorBitmapLookup :=
  let! block_index := or_none (checked_div virtual_offset (block_size st)) in
  let! sb_index := or_none (sb_bat_index block_index (chunk_ratio st)) in
  if sb_bat_entry_bound st <=? sb_index then sfail tt
  else
  let! bytes := or_none (checked_mul sb_index 8) in
  let! bat_byte_offset := or_none (checked_add (bat_offset st) bytes) in
  let! bat_entry := read_u64_le_cached CacheA (device_idx st) bat_byte_offset sector_size input_capacity in
  let state := Z.land bat_entry BAT_ENTRY_STATE_MASK in
  let file_offset := Z.land bat_entry BAT_ENTRY_OFFSET_MASK in
  if negb (state =? SB_BLOCK_PRESENT) then sfail tt
  else if file_offset =? 0 then sfail tt
  else if block_overlaps_a_declared_region st file_offset SB_BLOCK_SIZE then sfail tt
  else
  let! sector := or_none (sector_in_chunk_group virtual_offset (block_size st) (chunk_ratio st) (logical_sector_size st)) in
  sret (mkSectorBitmapLookup file_offset sector).

(** The walk of [Ownership], with the least significant bit first. *)
Definition coalesce_ownership_run (first_sector sector_count sectors_per_group bitmap_bytes : Z)
    (fetch_byte : Z -> SM (InSt H) unit Z) : SM (InSt H) unit SectorOwnershipRun :=
  coalesce_run sector_bit_is_child_owned first_sector sector_count sectors_per_group bitmap_bytes fetch_byte.

Definition read_sector_bitmap_run (st : VhdxState) (bitmap_host_offset first_sector sector_count sector_size input_capacity : Z)
  : SM (InSt H) unit SectorOwnershipRun :=
  let! sectors_per_group := or_none (sectors_per_chunk_group st) in
  coalesce_ownership_run first_sector sector_count sectors_per_group SB_BLOCK_SIZE
    (fun byte_index =>
       let! byte_offset := or_none (checked_add bitmap_host_offset byte_index) in
       read_u8_cached CacheB (device_idx st) byte_offset sector_size input_capacity).

End reader.

(** ** The lookup *)

(** What [init] establishes, on a device whose BAT can be addressed. *)
Record state_ok (st : VhdxState) (ssz : Z) : Prop := {
  so_block : is_valid_metadata_block_size (block_size st) = true;
  so_size : is_u64 (virtual_disk_size st);
  so_logical : sector_size_ok (logical_sector_size st) = true;
  so_ratio : chunk_ratio st = 8388608 * logical_sector_size st / block_size st;
  so_entries : total_bat_entries st =
    let n := div_ceil (virtual_disk_size st) (block_size st) in if n =? 0 then 0 else entries_of false n (chunk_ratio st);
  so_bat : 0 <= bat_offset st /\ bat_offset st + 8 * total_bat_entries st <= u64_max;
  so_bound : 0 <= sb_bat_entry_bound st /\ bat_offset st + 8 * sb_bat_entry_bound st <= u64_max;
  so_regions : Forall (fun r => is_u64 (fst r) /\ is_u32 (snd r)) (regions st)
}.

(** The lookup on the bytes of the image: no cache, no overflow. *)
Definition block_ref (st : VhdxState) (ssz cap : Z) (img : bytes) (voff : Z) : option VhdxBlockLookup :=
  let p := voff / block_size st in
  if div_ceil (virtual_disk_size st) (block_size st) <=? p then Some NotPresent
  else
    entry ← direct_read ssz cap img 8 le_val (bat_offset st + 8 * bat_index (chunk_ratio st) p);
    payload_verdict st entry voff.

Lemma ratio_bounds st ssz : state_ok st ssz ->
  1048576 <= block_size st <= 268435456 /\ 16 <= chunk_ratio st <= 32768 /\ chunk_ratio st * block_size st = 8388608 * logical_sector_size st /\
  (logical_sector_size st = 512 \/ logical_sector_size st = 4096).
Proof.
  intros Hok. pose proof (so_block _ _ Hok) as Hb. pose proof (so_logical _ _ Hok) as Hl. pose proof (so_ratio _ _ Hok) as Hr.
  pose proof (valid_block_u32 _ Hb) as Hb32. unfold is_u32 in Hb32.
  destruct (valid_block_size_spec (block_size st) ltac:(lia) Hb) as (k & Hk & Hbk).
  assert (logical_sector_size st = 512 \/ logical_sector_size st = 4096) as Hls by (unfold sector_size_ok in Hl; bool_to_prop; lia).
  assert (1048576 <= block_size st <= 268435456) as Hbb.
  { rewrite Hbk. pose proof (Z.pow_le_mono_r 2 20 k ltac:(lia) ltac:(lia)). pose proof (Z.pow_le_mono_r 2 k 28 ltac:(lia) ltac:(lia)). lia. }
  assert (exists m, 32 <= m <= 35 /\ 8388608 * logical_sector_size st = 2 ^ m) as (m & Hm & Hpow)
    by (destruct Hls as [-> | ->]; [exists 32 | exists 35]; split; lia || reflexivity).
  assert (chunk_ratio st = 2 ^ (m - k)) as Hrk by (rewrite Hr, Hpow, Hbk, Z.pow_sub_r by lia; done).
  pose proof (Z.pow_le_mono_r 2 4 (m - k) ltac:(lia) ltac:(lia)). pose proof (Z.pow_le_mono_r 2 (m - k) 15 ltac:(lia) ltac:(lia)).
  split_and!; try lia. rewrite Hpow, Hrk, Hbk, <- Z.pow_add_r by lia. f_equal. lia.
Qed.

Section correct.
Context {H : Type} `{FlatInput H} (dev ssz cap : Z) (img : bytes).
Context (Hdev : device_ok ssz cap img) (Hb : is_bytes img).

Lemma vhdx_block_computes st voff : state_ok st ssz -> device_idx st = dev -> is_u64 voff ->
  computes dev ssz img (block_lookup st ssz cap voff) (block_ref st ssz cap img voff).
Proof.
  intros Hok Hdx Hv. destruct (ratio_bounds st ssz Hok) as (Hbs & Hc & _ & _). pose proof (so_entries _ _ Hok) as He.
  pose proof (so_bat _ _ Hok) as Hbat. pose proof (so_size _ _ Hok) as Hsz.
  unfold block_lookup, block_ref. unfold is_u64 in *. rewrite Hdx. cbv zeta in He.
  eapply computes_ok; [unfold udiv; rewrite (proj2 (Z.eqb_neq (block_size st) 0)) by lia; reflexivity|]. cbv zeta.
  set (p := voff / block_size st). set (n := div_ceil (virtual_disk_size st) (block_size st)) in *.
  apply computes_if; intros Hlt; [apply computes_ret|]. bool_to_prop.
  assert (0 <= p) as Hp by (apply Z.div_pos; lia).
  eapply computes_ok; [unfold udiv; rewrite (proj2 (Z.eqb_neq (chunk_ratio st) 0)) by lia; reflexivity|]. cbv zeta.
  destruct (Z.eqb_spec n 0); [lia|].
  destruct (bat_index_entries false n (chunk_ratio st) ltac:(lia) ltac:(lia)) as [Hidx _]. specialize (Hidx p ltac:(lia)). rewrite <- He in Hidx.
  assert (0 <= p / chunk_ratio st) as Hq by (apply Z.div_pos; lia). unfold bat_index in *.
  rewrite (wadd_small p (p / chunk_ratio st)) by lia.
  unfold wmul. rewrite (Z.mod_small ((p + p / chunk_ratio st) * 8)) by (unfold u64_max in *; lia).
  rewrite (wadd_small (bat_offset st)) by lia. rewrite (Z.mul_comm _ 8).
  apply computes_bind; [apply computes_read; [done | unfold is_u64; lia | lia]|].
  intros entry _. apply computes_or_none.
Qed.

End correct.

#[global] Program Instance Vhdx_format : LookupFormat VhdxState VhdxBlockLookup := {
  lf_device := device_idx;
  lf_lookup H _ := block_lookup;
  lf_ref := block_ref;
  lf_ok := state_ok
}.
Next Obligation. intros. by apply vhdx_block_computes. Qed.

(** *** What a verdict means *)

Lemma ranges_overlap_false o l ro rl : ranges_overlap o l ro rl = false <->
  l = 0 \/ rl = 0 \/ o + l <= u64_max /\ ro + rl <= u64_max /\ (o + l <= ro \/ ro + rl <= o).
Proof.
  unfold ranges_overlap, checked_add. destruct (Z.eqb_spec l 0), (Z.eqb_spec rl 0); cbn [orb]; try (split; [lia | done]).
  destruct (Z.leb_spec (o + l) u64_max); [|split; [done | lia]].
  destruct (Z.leb_spec (ro + rl) u64_max); [|split; [done | lia]].
  destruct (Z.ltb_spec o (ro + rl)), (Z.ltb_spec ro (o + l)); cbn [andb]; split; done || lia.
Qed.

Lemma state_bits e : 0 <= Z.land e BAT_ENTRY_STATE_MASK < 8.
Proof. change BAT_ENTRY_STATE_MASK with (Z.ones 3). rewrite Z.land_ones by lia. apply Z.mod_pos_bound. lia. Qed.

Lemma offset_bits e : is_u64 e -> 0 <= Z.land e BAT_ENTRY_OFFSET_MASK <= u64_max /\ Z.land e BAT_ENTRY_OFFSET_MASK = e / 1048576 * 1048576.
Proof.
  intros He. unfold is_u64 in He. assert (Z.land e BAT_ENTRY_OFFSET_MASK = e / 1048576 * 1048576) as Heq.
  { change BAT_ENTRY_OFFSET_MASK with (Z.ldiff (Z.ones 64) (Z.ones 20)).
    replace (Z.land e (Z.ldiff (Z.ones 64) (Z.ones 20))) with (Z.ldiff (Z.land e (Z.ones 64)) (Z.ones 20))
      by (apply Z.bits_inj; intros i; rewrite !Z.ldiff_spec, !Z.land_spec, !Z.ldiff_spec; by destruct (Z.testbit e i), (Z.testbit (Z.ones 64) i)).
    rewrite Z.land_ones, Z.mod_small by (unfold u64_max in He; lia). rewrite Z.ldiff_ones_r, Z.shiftr_div_pow2, Z.shiftl_mul_pow2 by lia. done. }
  split; [|done]. rewrite Heq. pose proof (Z.mul_div_le e 1048576 ltac:(lia)). pose proof (Z.div_pos e 1048576). lia.
Qed.

(** ** Sector bitmaps *)

Lemma checked_div_eq x y : 0 < y -> checked_div x y = Some (x / y).
Proof. intros Hy. unfold checked_div. by rewrite (proj2 (Z.eqb_neq y 0)) by lia. Qed.

(** The bitmap entry of a group is the slot after its payload entries. *)
Lemma sb_bat_index_eq p c : 0 <= p -> 16 <= c <= 32768 -> p <= 17592186044416 ->
  sb_bat_index p c = Some (p / c * (c + 1) + c).
Proof.
  intros Hp Hc Hmax. unfold sb_bat_index. rewrite checked_div_eq by lia. cbn [mbind option_bind].
  pose proof (Z.mul_div_le p c ltac:(lia)). pose proof (Z.div_pos p c ltac:(lia) ltac:(lia)).
  assert (p / c * (c + 1) <= 17592186044416 * 32769) by nia.
  rewrite checked_add_eq by (unfold u64_max; lia). cbn [mbind option_bind].
  rewrite checked_mul_eq by (unfold u64_max; lia). cbn [mbind option_bind]. apply checked_add_eq. unfold u64_max. lia.
Qed.

(** Sectors are numbered from the start of the chunk. *)
Lemma sector_in_chunk_eq voff bs c ls : is_u64 voff -> 0 < bs -> 0 < c -> 0 < ls -> c * bs / ls <= u32_max ->
  sector_in_chunk_group voff bs c ls = Some (voff mod (c * bs) / ls).
Proof.
  intros Hv Hbs Hc Hls Hfit. unfold is_u64 in Hv. unfold sector_in_chunk_group. rewrite checked_div_eq by lia. cbn [mbind option_bind].
  rewrite checked_div_eq by lia. cbn [mbind option_bind]. rewrite Z.div_div by lia. rewrite (Z.mul_comm bs c).
  pose proof (Z.div_mod voff (c * bs) ltac:(lia)) as Hdm. pose proof (Z.mod_pos_bound voff (c * bs) ltac:(lia)) as Hm.
  pose proof (Z.div_pos voff (c * bs) ltac:(lia) ltac:(lia)). set (g := voff / (c * bs)) in *. set (r := voff mod (c * bs)) in *.
  rewrite checked_mul_eq by nia. cbn [mbind option_bind]. rewrite checked_mul_eq by nia. cbn [mbind option_bind].
  unfold checked_sub. destruct (Z.leb_spec (g * c * bs) voff); [|lia]. cbn [mbind option_bind].
  replace (voff - g * c * bs) with r by lia. rewrite checked_div_eq by lia. cbn [mbind option_bind].
  unfold try_u32. assert (r / ls <= c * bs / ls) by (apply Z.div_le_mono; lia). by rewrite (proj2 (Z.leb_le (r / ls) u32_max)) by lia.
Qed.

(** The bitmap of a chunk on the bytes of the image. *)
Definition bitmap_ref (st : VhdxState) (ssz cap : Z) (img : bytes) (voff : Z) : option SectorBitmapLookup :=
  let c := chunk_ratio st in
  let slot := voff / block_size st / c * (c + 1) + c in
  if sb_bat_entry_bound st <=? slot then None
  else
    entry ← direct_read ssz cap img 8 le_val (bat_offset st + slot * 8);
    let file_offset := entry / 1048576 * 1048576 in
    if negb (entry mod 8 =? 6) || (file_offset =? 0) || block_overlaps_a_declared_region st file_offset 1048576 then None
    else Some (mkSectorBitmapLookup file_offset (voff mod (c * block_size st) / logical_sector_size st)).

(** Which sectors of a chunk the child owns: bit [s mod 8] of byte [s / 8]. *)
Definition low_bit_first (b s : Z) : bool := Z.testbit b (s mod 8).

Lemma sector_bit_testbit b s : 0 <= s -> sector_bit_is_child_owned b s = low_bit_first b s.
Proof.
  intros Hs. unfold low_bit_first, sector_bit_is_child_owned. pose proof (Z.mod_pos_bound s 8 ltac:(lia)).
  change 1 with (Z.ones 1) at 1. rewrite Z.land_ones by lia. change (2 ^ 1) with 2. rewrite <- Z.bit0_mod, Z.shiftr_spec by lia.
  rewrite Z.add_0_l. by destruct (Z.testbit b (s mod 8)).
Qed.

Section bitmaps.
Context {H : Type} `{FlatInput H} (dev ssz cap : Z) (img : bytes).
Context (Hdev : device_ok ssz cap img) (Hb : is_bytes img).

Lemma vhdx_bitmap_computes st voff : state_ok st ssz -> device_idx st = dev -> is_u64 voff ->
  computes dev ssz img (sector_bitmap_lookup st ssz cap voff) (bitmap_ref st ssz cap img voff).
Proof.
  intros Hok Hdx Hv. destruct (ratio_bounds st ssz Hok) as (Hbs & Hc & Hcb & Hls). pose proof (so_bound _ _ Hok) as Hbat. destruct (so_bat _ _ Hok) as [Hbat0 _].
  unfold sector_bitmap_lookup, bitmap_ref. unfold is_u64 in Hv. rewrite Hdx. cbv zeta.
  eapply computes_some; [apply checked_div_eq; lia|].
  assert (0 <= voff / block_size st <= 17592186044416) as Hp.
  { split; [apply Z.div_pos; lia|]. apply Z.div_le_upper_bound; [lia|]. unfold u64_max in Hv. nia. }
  eapply computes_some; [apply sb_bat_index_eq; lia|].
  set (slot := _ * (chunk_ratio st + 1) + chunk_ratio st).
  assert (0 <= slot) as Hslot by (unfold slot; pose proof (Z.div_pos (voff / block_size st) (chunk_ratio st)); nia).
  apply computes_if; intros Hlt; [apply computes_fail|]. bool_to_prop.
  eapply computes_some; [apply checked_mul_eq; lia|]. eapply computes_some; [apply checked_add_eq; lia|].
  apply computes_bind; [apply computes_read; [done | unfold is_u64; lia | lia]|].
  intros entry He. pose proof (direct_read_bound _ _ _ _ _ _ _ Hb le_val_bound He) as Hent. change (256 ^ 8) with 18446744073709551616 in Hent.
  destruct (offset_bits entry ltac:(unfold is_u64, u64_max; lia)) as [_ ->].
  assert (Z.land entry BAT_ENTRY_STATE_MASK = entry mod 8) as -> by (change BAT_ENTRY_STATE_MASK with (Z.ones 3); rewrite Z.land_ones by lia; done).
  change SB_BLOCK_PRESENT with 6. change SB_BLOCK_SIZE with 1048576.
  destruct (negb _); [apply computes_fail|]. cbn [orb]. destruct (_ =? 0); [apply computes_fail|]. cbn [orb].
  destruct (block_overlaps_a_declared_region _ _ _); [apply computes_fail|].
  eapply computes_some; [apply sector_in_chunk_eq; [done | lia | lia | lia |]|apply computes_ret].
  rewrite Hcb. rewrite Z.div_mul by lia. unfold u32_max. lia.
Qed.

End bitmaps.

(** ** Properties *)

(** For a differencing child whose chunk bitmap is at [base], [read_sector_bitmap_run]
    answers exactly what the bits say, for any cache contents and without panic, overflow
    or running out of fuel: the run starts at [first], every sector of it has the owner
    reported (a set bit is the child's, least significant bit first), and it ends only at
    the requested count, the end of the 2^23 sectors of the chunk, or a sector with the
    other owner.  Without read errors it fails only for an empty or misplaced request or
    an unreadable bitmap byte. *)
Theorem vhdx_ownership_run {H : Type} `{FlatInput H} (ssz cap : Z) (img : bytes) (st : VhdxState) (base first count : Z) :
  device_ok ssz cap img -> is_bytes img -> state_ok st ssz ->
  0 <= base -> base + 1048576 <= u64_max -> 0 <= first -> 0 <= count ->
  yields (device_idx st) ssz img (read_sector_bitmap_run st base first count ssz cap)
    (maximal_run low_bit_first ssz cap img base first (Z.min count (8388608 - first)))
    (count = 0 \/ 8388608 <= first \/
     exists i, 0 <= i < Z.min count (8388608 - first) /\ bit_owner low_bit_first ssz cap img base (first + i) = None).
Proof.
  intros Hdev Hb Hok Hbase Hmax Hfirst Hcount. destruct (ratio_bounds st ssz Hok) as (Hbs & Hc & Hcb & Hls).
  unfold read_sector_bitmap_run. eapply (yields_some _ _ _ _ 8388608).
  { unfold sectors_per_chunk_group. rewrite checked_mul_eq by (unfold u64_max; lia). cbn [mbind option_bind]. rewrite Hcb.
    rewrite checked_div_eq by lia. cbn [mbind option_bind]. by rewrite Z.div_mul by lia. }
  apply (coalesce_yields (device_idx st) ssz cap img Hdev _ low_bit_first sector_bit_testbit base first count 8388608 SB_BLOCK_SIZE);
    unfold SB_BLOCK_SIZE, u32_max; lia.
Qed.

(** Sectors 4 to 7 of a chunk are the child's, then the parent's follow. *)
Definition demo_bitmap_device : InSt VecInput :=
  InSt_new (mkVecInput [240 :: filled 511 0]) 0 (filled 512 0) (filled 512 0).

Definition demo_child : VhdxState := mkVhdxState 0 1048576 0 512 0 0 4096 0 [] true.

Lemma vhdx_ownership_run_witness :
  (read_sector_bitmap_run demo_child 0 4 100 512 1 demo_bitmap_device).1 = Ok (mkSectorOwnershipRun true 4) /\
  yields 0 512 (240 :: filled 511 0) (H := VecInput) (read_sector_bitmap_run demo_child 0 4 100 512 1)
    (maximal_run low_bit_first 512 1 (240 :: filled 511 0) 0 4 (Z.min 100 (8388608 - 4)))
    (100 = 0 \/ 8388608 <= 4 \/
     exists i, 0 <= i < Z.min 100 (8388608 - 4) /\ bit_owner low_bit_first 512 1 (240 :: filled 511 0) 0 (4 + i) = None).
Proof.
  split; [vm_compute; reflexivity|].
  apply (vhdx_ownership_run 512 1 (240 :: filled 511 0) demo_child 0 4 100).
  - constructor; try split; vm_compute; discriminate || reflexivity.
  - apply is_bytesb_true. vm_compute. reflexivity.
  - constructor; try split; try constructor; vm_compute; discriminate || reflexivity.
  - lia.
  - unfold u64_max. lia.
  - lia.
  - lia.
Defined.
