(* ===== verification/VhdxInit.v ===== *)
(** Opening a VHDX image ([VhdxState::init] of [src/src/crates/vhdx/src/lib.rs]): the
    active header, the region table, the metadata items and the geometry they give. *)

From stdpp Require Import base numbers list sets option.
From Stdlib Require Import ZArith Lia.
From S2P Require Import Prelude Bytes Refcount Qcow2 ExecBytes CachedRead Utf16 Header Ownership Vhdx VhdxMeta VhdxLocator VhdxReader.

(** ** Definitions *)

Definition MAX_PARENT_LOCATOR_ITEM : Z := 4096.

Inductive VhdxParentLocatorNotStaged : Type :=
| ItemTooShort | ItemOutsideMetadataRegion | ItemExceedsParserBound | ItemOutsideInput | ReadFailed | ImageClaimsNoParent.

Inductive VhdxParentLocatorState : Type :=
| LocatorAbsent
| NotStaged (item_offset item_length : Z) (reason : VhdxParentLocatorNotStaged)
| Parsed (locator : VhdxParentLocator).

Record VhdxMetadata : Type := mkVhdxMetadata {
  md_block_size : Z;
  md_virtual_disk_size : Z;
  md_logical_sector_size : Z;
  md_physical_sector_size : Z;
  md_has_parent : bool;
  md_leave_blocks_allocated : bool;
  md_parent_locator : VhdxParentLocatorState
}.

Definition plan_parent_locator_staging (item_offset item_length metadata_length : Z) : outcome VhdxParentLocatorNotStaged Z :=
  if item_length <? PARENT_LOCATOR_HEADER_SIZE then Err ItemTooShort
  else if item_offset <? METADATA_ITEMS_MIN_OFFSET then Err ItemOutsideMetadataRegion
  else match checked_add_u32 item_offset item_length with
       | Some e =>
           if e <=? metadata_length then
             if MAX_PARENT_LOCATOR_ITEM <? item_length then Err ItemExceedsParserBound else Ok item_length
           else Err ItemOutsideMetadataRegion
       | None => Err ItemOutsideMetadataRegion
       end.

(** The scan of the region table entries in [init]: every entry's place and length, and
    the last BAT and metadata entries. *)
Fixpoint scan_region_sector (n : nat) (rt_buffer : bytes) (rt_off sector_size i : Z)
    (bat metadata : option (Z * Z)) (regions : list (Z * Z))
  : outcome unit (option (Z * Z) * option (Z * Z) * list (Z * Z)) :=
  match n with
  | O => Ok (bat, metadata, regions)
  | S n' =>
      let eoff := rt_off + REGION_TABLE_HEADER_SIZE + i * REGION_TABLE_ENTRY_SIZE in
      if sector_size <? eoff + REGION_TABLE_ENTRY_SIZE then Ok (bat, metadata, regions)
      else
      let? guid := or_panic (slice rt_buffer eoff (eoff + 16)) in
      let? entry_offset := le_u64 rt_buffer (eoff + 16) in
      let? entry_length := le_u32 rt_buffer (eoff + 24) in
      let regions := regions ++ [(entry_offset, entry_length)] in
      if bool_decide (guid = BAT_REGION_GUID)
      then scan_region_sector n' rt_buffer rt_off sector_size (i + 1) (Some (entry_offset, entry_length)) metadata regions
      else if bool_decide (guid = METADATA_REGION_GUID)
      then scan_region_sector n' rt_buffer rt_off sector_size (i + 1) bat (Some (entry_offset, entry_length)) regions
      else scan_region_sector n' rt_buffer rt_off sector_size (i + 1) bat metadata regions
  end.

(** The geometry of [init] once the metadata is known. *)
Definition geometry_of (device bat_offset bat_length : Z) (regions : list (Z * Z)) (md : VhdxMetadata) : option VhdxState :=
  if negb (md_logical_sector_size md =? 512) && negb (md_logical_sector_size md =? 4096) then None
  else
  let chunk_ratio := wmul (Z.shiftl 1 23) (md_logical_sector_size md) / md_block_size md in
  if chunk_ratio =? 0 then None
  else
  let total_blocks := div_ceil (md_virtual_disk_size md) (md_block_size md) in
  chunk_ratio_u32 ← try_u32 chunk_ratio;
  total_bat_entries ← bat_entry_count total_blocks chunk_ratio_u32 false;
  total_bat_entries_u32 ← try_u32 total_bat_entries;
  needed_bat_bytes ← checked_mul total_bat_entries 8;
  if bat_length <? needed_bat_bytes then None
  else
  sb_bat_entry_bound ← (if md_has_parent md then
                          padded ← differencing_bat_entry_count total_blocks chunk_ratio_u32;
                          try_u32 (Z.min padded (bat_length / 8))
                        else Some total_bat_entries_u32);
  Some (mkVhdxState device (md_block_size md) (md_virtual_disk_size md) (md_logical_sector_size md) bat_offset
          total_bat_entries_u32 chunk_ratio_u32 sb_bat_entry_bound regions (md_has_parent md)).

Section init.
Context {H : Type} `{InputIo H}.

Section device.
Context (device sector_size input_capacity : Z).

(** The capacity test, the read and the byte count, as every read of [init] has them. *)
Definition fetch_sector (sector : Z) (buf : bytes) : SM (InSt H) unit bytes :=
  if input_capacity <=? sector then sfail tt
  else
  let! (ok, buf) := read_into device sector buf sector_size in
  if (ok : bool) then do! smod (count_read sector_size) in sret buf else sfail tt.

Fixpoint header_loop (n : nat) (header_offset start_sector s : Z) (header_buf sector_buf : bytes) (bytes_copied : Z)
  : SM (InSt H) unit bytes :=
  match n with
  | O => sret header_buf
  | S n' =>
      let! sector_buf := fetch_sector (wadd start_sector s) sector_buf in
      let copy_start := if s =? 0 then header_offset mod sector_size else 0 in
      let copy_end := Z.min sector_size (copy_start + (HEADER_SIZE - bytes_copied)) in
      let copy_len := copy_end - copy_start in
      let! part := slift (or_panic (slice sector_buf copy_start copy_end)) in
      let! header_buf := slift (or_panic (splice header_buf bytes_copied part)) in
      let bytes_copied := bytes_copied + copy_len in
      if HEADER_SIZE <=? bytes_copied then sret header_buf
      else header_loop n' header_offset start_sector (s + 1) header_buf sector_buf bytes_copied
  end.

Definition read_header (header_offset : Z) : SM (InSt H) unit VhdxHeader :=
  let! start_sector := slift (udiv header_offset sector_size) in
  let sectors_needed := div_ceil HEADER_SIZE sector_size in
  let! header_buf := header_loop (Z.to_nat sectors_needed) header_offset start_sector 0
                       (filled HEADER_SIZE 0) (filled MAX_SECTOR_SIZE 0) 0 in
  slift (VhdxHeader_parse header_buf).

Definition read_active_header : SM (InSt H) unit VhdxHeader :=
  let! header1 := attempt (read_header HEADER1_OFFSET) in
  let! header2 := attempt (read_header HEADER2_OFFSET) in
  match header1, header2 with
  | Some h1, Some h2 => if vh_sequence_number h2 <=? vh_sequence_number h1 then sret h1 else sret h2
  | Some h1, None => sret h1
  | None, Some h2 => sret h2
  | None, None => sfail tt
  end.

(** One metadata item of [width] bytes, into the shared buffer. *)
Definition read_item (abs_offset width : Z) (buffer : bytes) : SM (InSt H) unit (bytes * Z) :=
  let! sector := slift (udiv abs_offset sector_size) in
  let! off := slift (urem abs_offset sector_size) in
  if sector_size <? off + width then sfail tt
  else
  let! buffer := fetch_sector sector buffer in
  sret (buffer, off).

(** The staging loop; every turn copies at least one byte. *)
Fixpoint stage_loop (n : nat) (item_start item_len copied : Z) (item buffer : bytes)
  : SM (InSt H) unit (VhdxParentLocatorNotStaged + bytes) :=
  match n with
  | O => slift OutOfFuel
  | S n' =>
      if item_len <=? copied then sret (inr item)
      else
      match checked_add item_start copied with
      | None => sret (inl ItemOutsideInput)
      | Some position =>
          let sector := position / sector_size in
          let offset_in_sector := position mod sector_size in
          if input_capacity <=? sector then sret (inl ItemOutsideInput)
          else
          let! (ok, buffer) := read_into device sector buffer sector_size in
          if negb (ok : bool) then sret (inl ReadFailed)
          else
          do! smod (count_read sector_size) in
          let available := sector_size - offset_in_sector in
          let remaining := item_len - copied in
          let take := if available <? remaining then available else remaining in
          let! part := slift (or_panic (slice buffer offset_in_sector (offset_in_sector + take))) in
          let! item := slift (or_panic (splice item copied part)) in
          stage_loop n' item_start item_len (copied + take) item buffer
      end
  end.

Definition stage_parent_locator (metadata_offset item_offset item_length metadata_length : Z) (buffer : bytes)
  : SM (InSt H) unit VhdxParentLocatorState :=
  let declined := NotStaged item_offset item_length in
  if (sector_size =? 0) || (MAX_SECTOR_SIZE <? sector_size) then sret (declined ReadFailed)
  else
  match plan_parent_locator_staging item_offset item_length metadata_length with
  | Ok item_len =>
      match checked_add metadata_offset item_offset with
      | None => sret (declined ItemOutsideInput)
      | Some item_start =>
          let! r := stage_loop (S (Z.to_nat item_len)) item_start item_len 0 (filled MAX_PARENT_LOCATOR_ITEM 0) buffer in
          match r with
          | inl reason => sret (declined reason)
          | inr item =>
              let! bytes := slift (or_panic (slice item 0 item_len)) in
              match parse_parent_locator bytes with
              | Ok locator => sret (Parsed locator)
              | Err _ => sret (declined ItemTooShort)
              | Panic => slift Panic
              | OutOfFuel => slift OutOfFuel
              end
          end
      end
  | Err reason => sret (declined reason)
  | Panic => slift Panic
  | OutOfFuel => slift OutOfFuel
  end.

Definition parse_metadata (metadata_offset metadata_length : Z) : SM (InSt H) unit VhdxMetadata :=
  let! table_sector := slift (udiv metadata_offset sector_size) in
  let! table_off := slift (urem metadata_offset sector_size) in
  let! buffer := fetch_sector table_sector (filled MAX_SECTOR_SIZE 0) in
  let! table := slift (or_panic (slice buffer table_off sector_size)) in
  let! items := slift (locate_metadata_items table) in
  let! (buffer, fp) := read_item (wadd metadata_offset (mi_file_parameters items)) 8 buffer in
  let! block_size := slift (le_u32 buffer fp) in
  let! fp_flags := slift (le_u32 buffer (fp + 4)) in
  let has_parent := negb (Z.land fp_flags FILE_PARAMETERS_HAS_PARENT =? 0) in
  let leave_blocks_allocated := negb (Z.land fp_flags FILE_PARAMETERS_LEAVE_BLOCKS_ALLOCATED =? 0) in
  if negb (is_valid_metadata_block_size block_size) then sfail tt
  else
  let! (buffer, vs) := read_item (wadd metadata_offset (mi_virtual_disk_size items)) 8 buffer in
  let! virtual_disk_size := slift (le_u64 buffer vs) in
  let! (buffer, ls) := read_item (wadd metadata_offset (mi_logical_sector_size items)) 4 buffer in
  let! logical_sector_size := slift (le_u32 buffer ls) in
  let! (buffer, ps) := read_item (wadd metadata_offset (mi_physical_sector_size items)) 4 buffer in
  let! physical_sector_size := slift (le_u32 buffer ps) in
  let! parent_locator :=
    match mi_parent_locator items with
    | None => sret LocatorAbsent
    | Some (offset, length) =>
        if has_parent then stage_parent_locator metadata_offset offset length metadata_length buffer
        else sret (NotStaged offset length ImageClaimsNoParent)
    end in
  sret (mkVhdxMetadata block_size virtual_disk_size logical_sector_size physical_sector_size has_parent
          leave_blocks_allocated parent_locator).

(** [init] from the region table sector on. *)
Definition open_regions (actual_size : Z) (rt_buffer : bytes) (rt_off : Z) : SM (InSt H) unit VhdxState :=
  let! sig := slift (le_u32 rt_buffer rt_off) in
  if negb (sig =? REGION_TABLE_SIGNATURE) then sfail tt
  else
  let! entry_count := slift (le_u32 rt_buffer (rt_off + REGION_TABLE_ENTRY_COUNT_OFFSET)) in
  if MAX_REGION_TABLE_ENTRIES <? entry_count then sfail tt
  else
  let! (bat, metadata, regions) :=
    slift (scan_region_sector (Z.to_nat (Z.min entry_count 8)) rt_buffer rt_off sector_size 0 None None []) in
  match bat, metadata with
  | Some (bat_offset, bat_length), Some (metadata_offset, metadata_length) =>
      if (actual_size <=? bat_offset) || (actual_size <=? metadata_offset) then sfail tt
      else
      let! md := parse_metadata metadata_offset metadata_length in
      or_none (geometry_of device bat_offset bat_length regions md)
  | _, _ => sfail tt
  end.

Definition init : SM (InSt H) unit VhdxState :=
  let! actual_size := or_none (checked_mul input_capacity sector_size) in
  if actual_size <? REGION_TABLE1_OFFSET + 65536 then sfail tt
  else
  let! _ := read_active_header in
  let! region_table_sector := slift (udiv REGION_TABLE1_OFFSET sector_size) in
  let! rt_buffer := fetch_sector region_table_sector (filled MAX_SECTOR_SIZE 0) in
  let! rt_off := slift (urem REGION_TABLE1_OFFSET sector_size) in
  open_regions actual_size rt_buffer rt_off.

End device.
End init.

(** ** Opening on the bytes of the image *)

Definition ok_of {E A} (o : outcome E A) : option A := match o with Ok a => Some a | _ => None end.

Section reference.
Context (dev ssz cap : Z) (img : bytes).

Definition header_at (off : Z) : option VhdxHeader := buf ← slice img off (off + 4096); ok_of (VhdxHeader_parse buf).

(** The bytes of an item that does not cross a sector. *)
Definition item_at (abs width : Z) : option bytes :=
  if (abs mod ssz + width <=? ssz) && (abs / ssz <? cap) then slice img abs (abs + width) else None.

(** The parameters of the image; whether a locator could be staged does not matter here. *)
Definition metadata_ref (mo : Z) : option VhdxMetadata :=
  table ← (if mo / ssz <? cap then slice img mo ((mo / ssz + 1) * ssz) else None);
  items ← ok_of (locate_metadata_items table);
  fp ← item_at (mo + mi_file_parameters items) 8;
  let bs := le_val (take 4 fp) in
  let flags := le_val (drop 4 fp) in
  if negb (is_valid_metadata_block_size bs) then None
  else
  vs ← item_at (mo + mi_virtual_disk_size items) 8;
  ls ← item_at (mo + mi_logical_sector_size items) 4;
  ps ← item_at (mo + mi_physical_sector_size items) 4;
  Some (mkVhdxMetadata bs (le_val vs) (le_val ls) (le_val ps) (Z.testbit flags 1) (Z.testbit flags 0) LocatorAbsent).

(** The image as its region table [rt] describes it. *)
Definition regions_ref (rt : bytes) : option VhdxState :=
  sig ← ok_of (le_u32 (E := unit) rt 0);
  if negb (sig =? REGION_TABLE_SIGNATURE) then None
  else
  count ← ok_of (le_u32 (E := unit) rt 8);
  if MAX_REGION_TABLE_ENTRIES <? count then None
  else
  '(bat, metadata, regions) ← ok_of (scan_region_sector (Z.to_nat (Z.min count 8)) rt 0 ssz 0 None None []);
  match bat, metadata with
  | Some (bo, bl), Some (mo, _) =>
      if (cap * ssz <=? bo) || (cap * ssz <=? mo) then None
      else md ← metadata_ref mo; geometry_of dev bo bl regions md
  | _, _ => None
  end.

Definition init_ref : option VhdxState :=
  if cap * ssz <? 262144 then None
  else
  match header_at HEADER1_OFFSET, header_at HEADER2_OFFSET with
  | None, None => None
  | _, _ => rt ← slice img REGION_TABLE1_OFFSET (REGION_TABLE1_OFFSET + ssz); regions_ref rt
  end.

End reference.

Definition forget (md : VhdxMetadata) : VhdxMetadata :=
  mkVhdxMetadata (md_block_size md) (md_virtual_disk_size md) (md_logical_sector_size md) (md_physical_sector_size md)
    (md_has_parent md) (md_leave_blocks_allocated md) LocatorAbsent.

(** A sector size is a power of two between 512 and 65536. *)
Definition sector_pow (ssz : Z) : Prop := exists k, 9 <= k <= 16 /\ ssz = 2 ^ k.

Lemma sector_pow_divides ssz k : sector_pow ssz -> (65536 * k) mod ssz = 0.
Proof.
  intros (j & Hj & ->). change 65536 with (2 ^ 16). replace 16 with (16 - j + j) by lia. rewrite Z.pow_add_r by lia.
  replace (2 ^ (16 - j) * 2 ^ j * k) with (2 ^ (16 - j) * k * 2 ^ j) by lia. apply Z.mod_mul. pose proof (Z.pow_pos_nonneg 2 j). lia.
Qed.

Lemma sector_pow_cases ssz : sector_pow ssz -> 512 <= ssz <= 65536 /\ (4096 mod ssz = 0 \/ 4096 < ssz).
Proof.
  intros (j & Hj & ->). pose proof (Z.pow_le_mono_r 2 9 j ltac:(lia) ltac:(lia)). pose proof (Z.pow_le_mono_r 2 j 16 ltac:(lia) ltac:(lia)).
  split; [lia|]. destruct (Z.le_gt_cases j 12); [left|right].
  - change 4096 with (2 ^ 12). replace 12 with (12 - j + j) by lia. rewrite Z.pow_add_r by lia. apply Z.mod_mul. lia.
  - pose proof (Z.pow_lt_mono_r 2 12 j ltac:(lia) ltac:(lia) ltac:(lia)). lia.
Qed.

(** A buffer that holds a sector in its first bytes. *)
Record holds_sector (ssz : Z) (img buf : bytes) (sector : Z) : Prop := {
  hs_blen : blen buf = MAX_SECTOR_SIZE;
  hs_bytes : is_bytes buf;
  hs_slice a b : 0 <= a <= b -> b <= ssz -> slice buf a b = slice img (sector * ssz + a) (sector * ssz + b)
}.

Lemma le_u32_slice {E} buf img o o' s : slice buf o (o + 4) = slice img o' (o' + 4) -> slice img o' (o' + 4) = Some s ->
  le_u32 (E := E) buf o = Ok (le_val s).
Proof. intros H1 H2. unfold le_u32. by rewrite H1, H2. Qed.

Lemma scan_ext ssz b b' n : (forall a e, 0 <= a <= e -> e <= ssz -> slice b a e = slice b' a e) ->
  forall i bat md rs, 0 <= i -> scan_region_sector n b 0 ssz i bat md rs = scan_region_sector n b' 0 ssz i bat md rs.
Proof.
  intros Hs. induction n as [|n IH]; intros i bat md rs Hi; [done|]. cbn [scan_region_sector].
  unfold REGION_TABLE_HEADER_SIZE, REGION_TABLE_ENTRY_SIZE. destruct (Z.ltb_spec ssz (0 + 16 + i * 32 + 32)); [done|].
  unfold le_u64, le_u32. rewrite !Hs by lia. destruct (slice b' _ _) as [g|]; cbn [or_panic obind]; [|done].
  destruct (slice b' _ (_ + 8)) as [o|]; cbn [or_panic obind]; [|done]. destruct (slice b' _ (_ + 4)) as [l|]; cbn [or_panic obind]; [|done].
  destruct (bool_decide _); [apply IH; lia|]. destruct (bool_decide _); apply IH; lia.
Qed.

Lemma scan_total ssz b n : is_bytes b -> ssz <= blen b -> forall i bat md rs, 0 <= i ->
  Forall (fun r => is_u64 r.1 /\ is_u32 r.2) rs ->
  (forall e, bat = Some e -> is_u64 e.1 /\ is_u32 e.2) -> (forall e, md = Some e -> is_u64 e.1 /\ is_u32 e.2) ->
  exists bat' md' rs', scan_region_sector n b 0 ssz i bat md rs = Ok (bat', md', rs') /\
    Forall (fun r => is_u64 r.1 /\ is_u32 r.2) rs' /\
    (forall e, bat' = Some e -> is_u64 e.1 /\ is_u32 e.2) /\ (forall e, md' = Some e -> is_u64 e.1 /\ is_u32 e.2).
Proof.
  intros Hb Hl. induction n as [|n IH]; intros i bat md rs Hi Hrs Hbat Hmd; [by exists bat, md, rs|]. cbn [scan_region_sector].
  unfold REGION_TABLE_HEADER_SIZE, REGION_TABLE_ENTRY_SIZE. destruct (Z.ltb_spec ssz (0 + 16 + i * 32 + 32)); [by exists bat, md, rs|].
  destruct (slice_of b (0 + 16 + i * 32) (0 + 16 + i * 32 + 16)) as (g & -> & _); [lia | lia |]. cbn [or_panic obind].
  destruct (le_u64_read (E := unit) b (0 + 16 + i * 32 + 16) Hb) as (o & -> & Ho); [lia | lia |]. cbn [obind].
  destruct (le_u32_read (E := unit) b (0 + 16 + i * 32 + 24) Hb) as (l & -> & Hlen); [lia | lia |]. cbn [obind].
  assert (Forall (fun r => is_u64 r.1 /\ is_u32 r.2) (rs ++ [(o, l)])) as Hrs' by (apply Forall_app_2; [done|]; by apply Forall_singleton).
  assert (forall e, Some (o, l) = Some e -> is_u64 e.1 /\ is_u32 e.2) as Hnew by (by intros ? [= <-]).
  destruct (bool_decide _); [apply IH; done || lia|]. destruct (bool_decide _); apply IH; done || lia.
Qed.

Section correct.
Context {H : Type} `{FlatInput H} (dev ssz cap : Z) (img : bytes).
Context (Hdev : device_ok ssz cap img) (Hb : is_bytes img).

Lemma fetch_yields sector buf : 0 <= sector -> blen buf = MAX_SECTOR_SIZE -> is_bytes buf ->
  yields dev ssz img (fetch_sector dev ssz cap sector buf)
    (fun b => sector < cap /\ holds_sector ssz img b sector) (cap <= sector).
Proof.
  intros Hsec Hlen Hbuf. pose proof (do_ssz _ _ _ Hdev) as Hz. unfold fetch_sector.
  destruct (Z.leb_spec cap sector); [by apply yields_fail|]. intros s Hs.
  assert (sector * ssz + ssz <= blen img) as Hin by (pose proof (do_size _ _ _ Hdev); nia).
  wstep. eapply wp_mono; [apply (wp_read_into dev ssz cap img Hdev sector buf s Hs); lia | |done].
  intros [ok b] s1 (h & -> & Hs1 & Hbl & Hyes & Hno & Hresp). cbn [fst snd] in *. destruct ok.
  - do 3 wstep. destruct (Hyes eq_refl) as [Hsl Hrest].
    destruct (slice_of img (sector * ssz) (sector * ssz + ssz)) as (sec & Hsec' & Hsl'); [lia | lia |]. rewrite Hsec' in Hsl. symmetry in Hsl.
    destruct (slice_of buf ssz (blen buf)) as (rest & Hrs & _); [lia | lia |]. rewrite Hrs, Hlen, <- Hlen, <- Hbl in Hrest.
    split_and!; [by apply reader_ok_count | intros Hr; by apply Hresp | done |]. constructor; [lia | |].
    + rewrite <- (slice_halves b ssz sec rest ltac:(lia) Hsl Hrest). apply Forall_app_2; [exact (slice_is_bytes _ _ _ _ Hb Hsec') | exact (slice_is_bytes _ _ _ _ Hbuf Hrs)].
    + intros x y Hxy Hy. pose proof (slice_slice _ _ _ _ x y Hsl ltac:(lia) ltac:(lia)) as E1. rewrite !Z.add_0_l in E1.
      pose proof (slice_slice _ _ _ _ x y Hsec' ltac:(lia) ltac:(lia)) as E2. by rewrite <- E1, <- E2.
  - wstep. split; [done|]. intros Hr. destruct (Hresp Hr) as [_ Hh]. by specialize (Hh Hin).
Qed.

(** *** The headers *)

Context (Hpow : sector_pow ssz).

(** Before its last turn the loop has copied whole sectors. *)
Lemma header_loop_small n off s hb sb : off mod ssz = 0 -> 0 <= off -> 4096 mod ssz = 0 -> off + 4096 <= cap * ssz ->
  0 <= s -> s * ssz < 4096 -> Z.of_nat n * ssz = 4096 - s * ssz ->
  blen hb = 4096 -> is_bytes hb -> blen sb = MAX_SECTOR_SIZE -> is_bytes sb -> slice hb 0 (s * ssz) = slice img off (off + s * ssz) ->
  yields dev ssz img (header_loop dev ssz cap n off (off / ssz) s hb sb (s * ssz))
    (fun b => slice img off (off + 4096) = Some b) False.
Proof.
  intros Hal Hoff H4 Hfit. pose proof (do_ssz _ _ _ Hdev) as Hz. pose proof (do_size _ _ _ Hdev) as Hsize. pose proof (do_len _ _ _ Hdev) as Hlen.
  pose proof (Z.div_mod off ssz ltac:(lia)) as Hdm. rewrite Hal, Z.add_0_r in Hdm.
  assert (4096 = ssz * (4096 / ssz)) as Hq by (pose proof (Z.div_mod 4096 ssz ltac:(lia)); lia).
  revert s hb sb. induction n as [|n IH]; intros s hb sb Hs Hlt Hn Hhl Hhb Hsl Hsb Hpre; [lia|]. cbn [header_loop].
  assert (s + 1 <= 4096 / ssz) as Hs1 by nia.
  assert ((s + 1) * ssz <= 4096) as Hs2 by nia.
  assert (off / ssz + s < cap) as Hcap by nia.
  pose proof (Z.div_pos off ssz ltac:(lia) ltac:(lia)) as Hd0.
  assert (cap <= u64_max) as Hcm by apply (do_cap _ _ _ Hdev). rewrite wadd_small by lia.
  eapply yields_bind; [apply (fetch_yields (off / ssz + s) sb); done || lia | |lia]. intros b (_ & Hbs). cbv zeta.
  assert ((if s =? 0 then off mod ssz else 0) = 0) as -> by (destruct (s =? 0); done). unfold HEADER_SIZE.
  assert (Z.min ssz (0 + (4096 - s * ssz)) = ssz) as -> by lia.
  rewrite Z.sub_0_r. pose proof (hs_blen _ _ _ _ Hbs) as Hbl.
  destruct (slice_of b 0 ssz) as (part & Hp & Hpl); [lia | unfold MAX_SECTOR_SIZE in *; lia |]. intros st Hst. do 2 wstep. rewrite Hp. cbn [or_panic]. do 2 wstep.
  destruct (splice_of hb (s * ssz) part) as (hb' & Hh' & Hhl'); [lia | lia |]. rewrite Hh'. cbn [or_panic].
  pose proof (slice_is_bytes _ _ _ _ (hs_bytes _ _ _ _ Hbs) Hp) as Hpb. pose proof (splice_is_bytes _ _ _ _ Hhb Hpb Hh') as Hhb'.
  assert (slice hb' 0 ((s + 1) * ssz) = slice img off (off + (s + 1) * ssz)) as Hnew.
  { destruct (slice_of hb' 0 ((s + 1) * ssz)) as (u & Hu & Hul); [lia | lia |].
    destruct (slice_of img off (off + (s + 1) * ssz)) as (v & Hv & Hvl); [lia | lia |]. rewrite Hu, Hv. f_equal. apply byte_ext; [lia|].
    intros i Hi. rewrite (slice_byte _ _ _ _ _ Hu), (slice_byte _ _ _ _ _ Hv), Z.add_0_l, (splice_byte _ _ _ _ _ Hh') by lia.
    destruct (Z.leb_spec (s * ssz) i), (Z.ltb_spec i (s * ssz + blen part)); cbn [andb]; try lia.
    - rewrite (slice_byte _ _ _ _ _ Hp) by lia. pose proof (hs_slice _ _ _ _ Hbs 0 ssz ltac:(lia) ltac:(lia)) as Hss. rewrite Hp in Hss. symmetry in Hss.
      rewrite <- (slice_byte _ _ _ _ _ Hp) by lia. rewrite (slice_byte _ _ _ _ _ Hss) by lia. f_equal. lia.
    - destruct (slice_of hb 0 (s * ssz)) as (w & Hw & _); [lia | lia |]. rewrite Hw in Hpre. symmetry in Hpre.
      transitivity (byte_at w i); [rewrite (slice_byte _ _ _ _ _ Hw) by lia; f_equal; lia | by rewrite (slice_byte _ _ _ _ _ Hpre) by lia]. }
  destruct (Z.leb_spec 4096 (s * ssz + ssz)).
  - wstep. split_and!; [done | done |]. replace ((s + 1) * ssz) with 4096 in Hnew by lia. rewrite <- Hnew, <- Hhl, <- Hhl'. apply slice_full.
  - replace (s * ssz + ssz) with ((s + 1) * ssz) by lia. apply IH; try done; try lia. by apply (hs_bytes _ _ _ _ Hbs).
Qed.

(** A header inside one large sector. *)
Lemma header_loop_large off hb sb : off mod ssz = 0 -> 0 <= off -> 4096 < ssz -> off + 4096 <= cap * ssz ->
  blen hb = 4096 -> blen sb = MAX_SECTOR_SIZE -> is_bytes sb ->
  yields dev ssz img (header_loop dev ssz cap 1 off (off / ssz) 0 hb sb 0)
    (fun b => slice img off (off + 4096) = Some b) False.
Proof.
  intros Hal Hoff Hbig Hfit Hhl Hsl Hsb. pose proof (do_ssz _ _ _ Hdev) as Hz. pose proof (Z.div_mod off ssz ltac:(lia)) as Hdm. rewrite Hal, Z.add_0_r in Hdm.
  pose proof (Z.div_pos off ssz ltac:(lia) ltac:(lia)) as Hd0. cbn [header_loop]. pose proof (do_size _ _ _ Hdev) as Hsize.
  assert (off / ssz < cap) as Hcap by nia. pose proof (do_cap _ _ _ Hdev) as Hcm. rewrite wadd_small by lia. rewrite Z.add_0_r.
  eapply yields_bind; [apply (fetch_yields (off / ssz) sb); done || lia | |lia]. intros b (_ & Hbs). cbv zeta. cbn [Z.eqb]. rewrite Hal.
  unfold HEADER_SIZE. assert (Z.min ssz (0 + (4096 - 0)) = 4096) as -> by lia. intros st Hst.
  pose proof (hs_blen _ _ _ _ Hbs) as Hbl. destruct (slice_of b 0 4096) as (part & Hp & Hpl); [lia | rewrite Hbl; unfold MAX_SECTOR_SIZE in *; lia |].
  do 2 wstep. rewrite Hp. cbn [or_panic]. do 2 wstep. destruct (splice_of hb 0 part) as (hb' & Hh' & Hhl'); [lia | lia |]. rewrite Hh'. cbn [or_panic].
  change (4096 <=? 0 + (4096 - 0)) with true. cbn iota. wstep. split_and!; [done | done |].
  pose proof (hs_slice _ _ _ _ Hbs 0 4096 ltac:(lia) ltac:(lia)) as Hss. rewrite Hp, Z.add_0_r in Hss.
  replace (off / ssz * ssz) with off in Hss by lia. rewrite <- Hss. pose proof (slice_splice_eq _ _ _ _ Hh') as He. rewrite Z.add_0_l, Hpl in He. change (4096 - 0) with 4096 in He.
  rewrite <- He, <- Hhl, <- Hhl'. apply slice_full.
Qed.

Lemma header_parse_returns buf : is_bytes buf -> match VhdxHeader_parse buf with Ok _ | Err _ => True | Panic | OutOfFuel => False end.
Proof.
  intros Hbb. unfold VhdxHeader_parse, HEADER_SIZE. destruct (Z.ltb_spec (blen buf) 4096); [done|].
  buf_field Hbb. destruct (negb _); [done|]. buf_field Hbb. destruct (slice_of buf 0 4096) as (d & -> & _); [lia | lia |]. cbn [or_panic obind].
  destruct (negb _); [done|]. buf_field Hbb.
  destruct (slice_of buf HEADER_DATA_WRITE_GUID_OFFSET (HEADER_DATA_WRITE_GUID_OFFSET + 16)) as (g & -> & _); [done | unfold HEADER_DATA_WRITE_GUID_OFFSET, HEADER_LOG_GUID_OFFSET; lia |]. cbn [or_panic obind].
  destruct (slice_of buf HEADER_LOG_GUID_OFFSET (HEADER_LOG_GUID_OFFSET + 16)) as (g' & -> & _); [done | unfold HEADER_DATA_WRITE_GUID_OFFSET, HEADER_LOG_GUID_OFFSET; lia |]. cbn [or_panic obind].
  by do 2 buf_field Hbb.
Qed.

Lemma read_header_computes off k : off = 65536 * k -> 0 <= k -> off + 65536 <= cap * ssz ->
  computes dev ssz img (read_header dev ssz cap off) (header_at img off).
Proof.
  intros Hoff Hk Hfit. pose proof (do_ssz _ _ _ Hdev) as Hz. destruct (sector_pow_cases ssz Hpow) as [Hr Hcases].
  pose proof (sector_pow_divides ssz k Hpow) as Hal. rewrite <- Hoff in Hal. unfold read_header.
  eapply computes_ok; [unfold udiv; rewrite (proj2 (Z.eqb_neq ssz 0)) by lia; reflexivity|]. cbv zeta. unfold HEADER_SIZE, header_at.
  assert (blen (filled 4096 0) = 4096) as Hfl by (apply blen_filled; lia).
  assert (blen (filled MAX_SECTOR_SIZE 0) = MAX_SECTOR_SIZE) as Hfs by (apply blen_filled; unfold MAX_SECTOR_SIZE; lia).
  assert (is_bytes (filled 4096 0)) as Hfb by (apply filled_is_bytes; unfold is_u8, u8_max; lia).
  assert (is_bytes (filled MAX_SECTOR_SIZE 0)) as Hfsb by (apply filled_is_bytes; unfold is_u8, u8_max; lia).
  set (z := filled 4096 0) in *. set (zs := filled MAX_SECTOR_SIZE 0) in *. clearbody z zs.
  assert (yields dev ssz img (header_loop dev ssz cap (Z.to_nat (div_ceil 4096 ssz)) off (off / ssz) 0 z zs 0)
    (fun b => slice img off (off + 4096) = Some b) False) as Hloop.
  { destruct Hcases as [Hdvd|Hbig].
    - replace 0 with (0 * ssz) at 2 by lia. pose proof (Z.div_mod 4096 ssz ltac:(lia)). unfold div_ceil. rewrite Hdvd. cbn [Z.eqb].
      apply header_loop_small; try done; try lia.
      rewrite Z.mul_0_l, Z.add_0_r. rewrite !slice_Some_2 by (pose proof (do_size _ _ _ Hdev); lia). by rewrite !Z.sub_diag.
    - assert (div_ceil 4096 ssz = 1) as ->.
      { unfold div_ceil. rewrite Z.mod_small, Z.div_small by lia. done. }
      apply header_loop_large; done || lia. }
  eapply yields_bind; [exact Hloop | |done]. intros buf Hbuf. rewrite Hbuf. cbn [mbind option_bind].
  pose proof (header_parse_returns buf (slice_is_bytes _ _ _ _ Hb Hbuf)) as Hp. intros s Hs. wstep.
  destruct (VhdxHeader_parse buf) as [h|[]| |]; done.
Qed.

Lemma active_header_yields : 262144 <= cap * ssz ->
  yields dev ssz img (read_active_header dev ssz cap)
    (fun h => header_at img HEADER1_OFFSET = Some h \/ header_at img HEADER2_OFFSET = Some h)
    (header_at img HEADER1_OFFSET = None /\ header_at img HEADER2_OFFSET = None).
Proof.
  intros Hcap s Hs. unfold read_active_header. wstep.
  eapply wp_mono; [apply wp_attempt; [apply (read_header_computes _ 1); done || (unfold HEADER1_OFFSET; lia) | done] | |done].
  intros o1 s1 (Hs1 & Hr1 & Ho1 & Hn1). wstep.
  eapply wp_mono; [apply wp_attempt; [apply (read_header_computes _ 2); done || (unfold HEADER2_OFFSET; lia) | done] | |done].
  intros o2 s2 (Hs2 & Hr2 & Ho2 & Hn2).
  assert (responsive (in_host s) -> responsive (in_host s2)) as Hr by tauto.
  destruct o1 as [h1|], o2 as [h2|].
  - specialize (Ho1 h1 eq_refl). specialize (Ho2 h2 eq_refl). destruct (_ <=? _); wstep; (split; [exact Hs2|]); (split; [exact Hr|]); [by left | by right].
  - specialize (Ho1 h1 eq_refl). wstep. split; [exact Hs2|]. split; [exact Hr|]. by left.
  - specialize (Ho2 h2 eq_refl). wstep. split; [exact Hs2|]. split; [exact Hr|]. by right.
  - wstep. split; [exact Hs2|]. intros Hh. split; [exact (Hr Hh)|]. split; [exact (Hn1 eq_refl Hh) | exact (Hn2 eq_refl (Hr1 Hh))].
Qed.

(** *** The metadata *)

Lemma read_item_yields abs w buf : is_u64 abs -> 0 <= w <= 8 -> blen buf = MAX_SECTOR_SIZE -> is_bytes buf ->
  yields dev ssz img (read_item dev ssz cap abs w buf)
    (fun r => blen r.1 = MAX_SECTOR_SIZE /\ is_bytes r.1 /\
              exists x, item_at ssz cap img abs w = Some x /\ slice r.1 r.2 (r.2 + w) = Some x)
    (item_at ssz cap img abs w = None).
Proof.
  intros Ha Hw Hl Hbuf. pose proof (do_ssz _ _ _ Hdev) as Hz. unfold is_u64 in Ha. unfold read_item, item_at, udiv, urem.
  rewrite (proj2 (Z.eqb_neq ssz 0)) by lia. pose proof (Z.mod_pos_bound abs ssz ltac:(lia)) as Hm. pose proof (Z.div_pos abs ssz ltac:(lia) ltac:(lia)).
  pose proof (Z.div_mod abs ssz ltac:(lia)) as Hdm. do 2 (eapply yields_ok; [reflexivity|]).
  destruct (Z.ltb_spec ssz (abs mod ssz + w)), (Z.leb_spec (abs mod ssz + w) ssz); try lia; cbn [andb]; [by apply yields_fail|].
  eapply yields_bind; [apply fetch_yields; done || lia | |].
  - intros b (Hlt & [Hbl Hbb Hsl]). rewrite (proj2 (Z.ltb_lt _ _)) by lia. apply yields_ret. cbn [fst snd]. split; [done|]. split; [done|].
    assert (abs / ssz * ssz + ssz <= blen img) as Hin by (pose proof (do_size _ _ _ Hdev); nia).
    destruct (slice_of img abs (abs + w)) as (x & Hx & _); [lia | lia |]. exists x. split; [done|]. rewrite Hsl, <- Hx by lia. f_equal; lia.
  - intros Hge. by rewrite (proj2 (Z.ltb_ge _ _)) by lia.
Qed.

Lemma stage_loop_returns n start len copied item buf : 0 <= start -> 0 <= copied <= len -> len <= blen item -> len - copied < Z.of_nat n ->
  blen buf = MAX_SECTOR_SIZE -> is_bytes item ->
  yields dev ssz img (stage_loop dev ssz cap n start len copied item buf) (fun r => forall x, r = inr x -> blen x = blen item /\ is_bytes x) False.
Proof.
  intros Hst. pose proof (do_ssz _ _ _ Hdev) as Hz. revert copied item buf. induction n as [|n IH]; intros copied item buf Hc Hl Hn Hb0 Hib; [lia|]. cbn [stage_loop].
  destruct (Z.leb_spec len copied); [apply yields_ret; by intros ? [= ->]|].
  unfold checked_add. destruct (_ <=? u64_max); [|by apply yields_ret].
  pose proof (Z.mod_pos_bound (start + copied) ssz ltac:(lia)) as Hm. pose proof (Z.div_pos (start + copied) ssz ltac:(lia) ltac:(lia)).
  set (pos := start + copied) in *. cbv zeta. destruct (Z.leb_spec cap (pos / ssz)) as [|Hpc]; [by apply yields_ret|]. intros s Hs. wstep.
  eapply wp_mono; [apply (wp_read_into dev ssz cap img Hdev (pos / ssz) buf s Hs); lia | |done].
  intros [ok b] s1 (h & -> & Hs1 & Hbl & Hyes & _ & Hresp). cbn [fst snd] in *. destruct ok; cbn [negb].
  2:{ wstep. split; [done|]. split; [by intros Hr; apply Hresp | by intros]. }
  do 4 wstep. set (t := if _ <? _ then _ else _). assert (0 < t /\ t <= len - copied /\ pos mod ssz + t <= ssz) as Ht
    by (unfold t; destruct (Z.ltb_spec (ssz - pos mod ssz) (len - copied)); lia).
  destruct (slice_of b (pos mod ssz) (pos mod ssz + t)) as (part & Hp & Hpl); [lia | lia |]. rewrite Hp. cbn [or_panic]. do 2 wstep.
  destruct (splice_of item copied part) as (item' & Hi & Hil); [lia | lia |]. rewrite Hi. cbn [or_panic].
  assert (is_bytes part) as Hpb.
  { destruct (Hyes eq_refl) as [Hsec _]. destruct (slice_of b 0 ssz) as (sec & Hsb & _); [lia | lia |]. rewrite Hsb in Hsec.
    pose proof (slice_is_bytes _ _ _ _ Hb Hsec) as Hsecb. pose proof (slice_slice _ _ _ _ (pos mod ssz) (pos mod ssz + t) Hsb ltac:(lia) ltac:(lia)) as Hps.
    rewrite !Z.add_0_l, Hp in Hps. exact (slice_is_bytes _ _ _ _ Hsecb Hps). }
  eapply wp_mono; [apply (IH (copied + t) item' b); [lia | lia | lia | lia | exact (splice_is_bytes _ _ _ _ Hib Hpb Hi) | by apply reader_ok_count] | |].
  - intros r s2 (Hs2 & Hr2 & Hx). split; [done|]. split; [intros Hr; apply Hr2; by apply Hresp|]. intros x Hxr. rewrite <- Hil. by apply Hx.
  - intros [] s2 (Hs2 & Hf). split; [done|]. intros Hr. destruct Hf as [_ []]. by apply Hresp.
Qed.

Lemma stage_returns mo off len mlen buf : 0 <= mo -> 0 <= off -> blen buf = MAX_SECTOR_SIZE ->
  yields dev ssz img (stage_parent_locator dev ssz cap mo off len mlen buf) (fun _ => True) False.
Proof.
  intros Hmo Hoff Hl. pose proof (do_ssz _ _ _ Hdev) as Hz. unfold stage_parent_locator. destruct (_ || _); [by apply yields_ret|].
  unfold plan_parent_locator_staging. destruct (Z.ltb_spec len PARENT_LOCATOR_HEADER_SIZE); [by apply yields_ret|].
  unfold PARENT_LOCATOR_HEADER_SIZE in *. destruct (_ <? METADATA_ITEMS_MIN_OFFSET); [by apply yields_ret|].
  destruct (checked_add_u32 off len) as [e|]; [|by apply yields_ret]. destruct (e <=? mlen); [|by apply yields_ret].
  destruct (Z.ltb_spec MAX_PARENT_LOCATOR_ITEM len) as [|Hmax]; [by apply yields_ret|].
  destruct (checked_add mo off) as [start|] eqn:Hadd; [|by apply yields_ret]. apply checked_add_Some in Hadd as [-> _].
  assert (blen (filled MAX_PARENT_LOCATOR_ITEM 0) = MAX_PARENT_LOCATOR_ITEM) as Hfl by (apply blen_filled; unfold MAX_PARENT_LOCATOR_ITEM; lia).
  assert (is_bytes (filled MAX_PARENT_LOCATOR_ITEM 0)) as Hfb by (apply filled_is_bytes; unfold is_u8, u8_max; lia).
  set (z := filled MAX_PARENT_LOCATOR_ITEM 0) in *. clearbody z.
  eapply yields_bind; [apply stage_loop_returns; try done; lia | |by intros []]. intros [reason|item] Hr; [by apply yields_ret|].
  destruct (Hr item eq_refl) as [Hrl Hrb]. intros s Hs. do 2 wstep. destruct (slice_of item 0 len) as (b & Hbs & Hbl); [lia | lia |]. rewrite Hbs. cbn [or_panic].
  destruct (parse_locator_returns b (slice_is_bytes _ _ _ _ Hrb Hbs)) as (l & ->); [lia|]. by wstep.
Qed.

(** The offsets a table names are 32-bit values. *)
Lemma scan_items_returns n table i o : is_bytes table -> 0 <= i ->
  let ok o := (forall x, io_file_parameters o = Some x -> is_u32 x) /\ (forall x, io_virtual_disk_size o = Some x -> is_u32 x) /\
    (forall x, io_logical_sector_size o = Some x -> is_u32 x) /\ (forall x, io_physical_sector_size o = Some x -> is_u32 x) /\
    (forall x, io_parent_locator o = Some x -> is_u32 x.1) in
  ok o -> exists o', scan_items n table i o = Ok o' /\ ok o'.
Proof.
  intros Ht Hi ok Hok. revert i o Hi Hok. induction n as [|n IH]; intros i o Hi Hok; [by exists o|]. cbn [scan_items].
  unfold METADATA_TABLE_HEADER_SIZE, METADATA_TABLE_ENTRY_SIZE. destruct (Z.ltb_spec (blen table) (32 + i * 32 + 32)); [by exists o|].
  destruct (slice_of table (32 + i * 32) (32 + i * 32 + 16)) as (g & -> & _); [lia | lia |]. cbn [or_panic obind].
  destruct (le_u32_read (E := unit) table (32 + i * 32 + 16) Ht) as (v & -> & Hv); [lia | lia |]. cbn [obind].
  assert (exists o', note_item table (32 + i * 32) g v o = Ok o' /\ ok o') as (o' & -> & Ho').
  { unfold note_item. destruct o as [a b c d e]. cbn in Hok. destruct Hok as (O1 & O2 & O3 & O4 & O5).
    do 4 (destruct (bool_decide _); [eexists; split; [done|]; unfold ok; cbn; naive_solver|]).
    destruct (bool_decide _); [|by eexists].
    destruct (le_u32_read (E := unit) table (32 + i * 32 + 20) Ht) as (w & -> & Hw); [lia | lia |]. cbn [obind].
    eexists; split; [done|]. unfold ok; cbn. naive_solver. }
  cbn [obind]. apply IH; [lia | done].
Qed.

Lemma locate_returns table : is_bytes table ->
  match locate_metadata_items table with
  | Ok l => is_u32 (mi_file_parameters l) /\ is_u32 (mi_virtual_disk_size l) /\ is_u32 (mi_logical_sector_size l) /\
            is_u32 (mi_physical_sector_size l) /\ (forall x, mi_parent_locator l = Some x -> is_u32 x.1)
  | Err _ => True
  | Panic | OutOfFuel => False
  end.
Proof.
  intros Ht. unfold locate_metadata_items. destruct (Z.ltb_spec (blen table) METADATA_TABLE_HEADER_SIZE) as [|Hl]; [done|].
  unfold METADATA_TABLE_HEADER_SIZE in Hl. buf_field Ht. destruct (negb _); [done|].
  unfold le_u16. destruct (slice_of table METADATA_TABLE_ENTRY_COUNT_OFFSET (METADATA_TABLE_ENTRY_COUNT_OFFSET + 2)) as (c & -> & _);
    [done | unfold METADATA_TABLE_ENTRY_COUNT_OFFSET; lia |]. cbn [or_panic obind]. destruct (_ <? le_val c); [done|].
  destruct (scan_items_returns (Z.to_nat (Z.min (le_val c) 32)) table 0 (mkItemOffsets None None None None None) Ht ltac:(lia))
    as (o & -> & O1 & O2 & O3 & O4 & O5); [by split_and!|]. cbn [obind].
  destruct (io_file_parameters o) as [x1|]; [|done]. destruct (io_virtual_disk_size o) as [x2|]; [|done].
  destruct (io_logical_sector_size o) as [x3|]; [|done]. destruct (io_physical_sector_size o) as [x4|]; [|done]. cbn [ok_or obind].
  cbn. split_and!; auto.
Qed.

Lemma item_u32 buf off w x : is_bytes buf -> slice buf off (off + w) = Some x -> 0 <= off -> w = 4 -> le_u32 (E := unit) buf off = Ok (le_val x) /\ is_u32 (le_val x).
Proof.
  intros Hbb Hx Ho ->. pose proof (slice_Some _ _ _ _ Hx) as (_ & Hl & _). destruct (le_u32_read (E := unit) buf off Hbb Ho Hl) as (v & Hv & Hu).
  unfold le_u32 in *. rewrite Hx in *. cbn [or_panic obind] in *. injection Hv as <-. done.
Qed.

Lemma item_u64 buf off w x : is_bytes buf -> slice buf off (off + w) = Some x -> 0 <= off -> w = 8 -> le_u64 (E := unit) buf off = Ok (le_val x) /\ is_u64 (le_val x).
Proof.
  intros Hbb Hx Ho ->. pose proof (slice_Some _ _ _ _ Hx) as (_ & Hl & _). destruct (le_u64_read (E := unit) buf off Hbb Ho Hl) as (v & Hv & Hu).
  unfold le_u64 in *. rewrite Hx in *. cbn [or_panic obind] in *. injection Hv as <-. done.
Qed.

Lemma slice_offset_nonneg buf off w x : slice buf off w = Some x -> 0 <= off.
Proof. intros (? & _ & _)%slice_Some. lia. Qed.

Lemma halves_of x : blen x = 8 -> slice x 0 4 = Some (take 4 x) /\ slice x 4 8 = Some (drop 4 x).
Proof.
  intros Hl. rewrite !slice_Some_2 by lia. change (Z.to_nat 0) with 0%nat. change (Z.to_nat (4 - 0)) with 4%nat. change (Z.to_nat 4) with 4%nat.
  change (Z.to_nat (8 - 4)) with 4%nat. rewrite drop_0. split; [done|]. f_equal. apply take_ge. rewrite length_drop. unfold blen in Hl. lia.
Qed.

(** Read one metadata item on both sides. *)
Ltac next_item b o Hl Hbb x Hx Hs :=
  eapply yields_bind; [apply read_item_yields; [unfold is_u64; lia | lia | assumption | assumption] | |by intros ->];
  intros [b o] (Hl & Hbb & x & Hx & Hs); cbn [fst snd] in Hl, Hbb, Hs; rewrite Hx; cbn [mbind option_bind].

Lemma parse_metadata_yields mo ml : 0 <= mo < cap * ssz -> cap * ssz + 4294967296 <= u64_max ->
  yields dev ssz img (parse_metadata dev ssz cap mo ml)
    (fun md => metadata_ref ssz cap img mo = Some (forget md) /\ is_valid_metadata_block_size (md_block_size md) = true /\
               is_u64 (md_virtual_disk_size md) /\ is_u32 (md_logical_sector_size md))
    (metadata_ref ssz cap img mo = None).
Proof.
  intros Hmo Hbig. pose proof (do_ssz _ _ _ Hdev) as Hz. unfold parse_metadata, metadata_ref, udiv, urem. rewrite (proj2 (Z.eqb_neq ssz 0)) by lia.
  pose proof (Z.mod_pos_bound mo ssz ltac:(lia)) as Hm. pose proof (Z.div_pos mo ssz ltac:(lia) ltac:(lia)). pose proof (Z.div_mod mo ssz ltac:(lia)) as Hdm.
  assert (mo / ssz < cap) as Hcap by (apply Z.div_lt_upper_bound; lia). rewrite (proj2 (Z.ltb_lt _ _) Hcap).
  assert (blen (filled MAX_SECTOR_SIZE 0) = MAX_SECTOR_SIZE) as Hfs by (apply blen_filled; unfold MAX_SECTOR_SIZE; lia).
  assert (is_bytes (filled MAX_SECTOR_SIZE 0)) as Hfsb by (apply filled_is_bytes; unfold is_u8, u8_max; lia).
  set (zs := filled MAX_SECTOR_SIZE 0) in *. clearbody zs. do 2 (eapply yields_ok; [reflexivity|]).
  eapply yields_bind; [apply (fetch_yields (mo / ssz) zs); done | |lia]. intros b0 (_ & [Hl0 Hb0 Hs0]).
  assert ((mo / ssz + 1) * ssz <= blen img) as Hin by (pose proof (do_size _ _ _ Hdev); nia).
  destruct (slice_of img mo ((mo / ssz + 1) * ssz)) as (table & Htab & _); [lia | lia |]. rewrite Htab. cbn [mbind option_bind].
  assert (slice b0 (mo mod ssz) ssz = Some table) as Htab' by (rewrite Hs0, <- Htab by lia; f_equal; lia).
  eapply yields_ok; [by rewrite Htab'|]. pose proof (locate_returns table (slice_is_bytes _ _ _ _ Hb0 Htab')) as Hloc.
  destruct (locate_metadata_items table) as [items|[]| |]; [|by apply yields_err|done|done]. cbn [ok_of mbind option_bind].
  destruct Hloc as (I1 & I2 & I3 & I4 & I5). unfold is_u32, u32_max in I1, I2, I3, I4. eapply yields_ok; [reflexivity|].
  rewrite !wadd_small by lia.
  next_item b1 o1 Hl1 Hb1 x1 Hx1 Hs1.
  pose proof (slice_offset_nonneg _ _ _ _ Hs1) as Ho1. pose proof (slice_blen _ _ _ _ Hs1) as Hxl. replace (o1 + 8 - o1) with 8 in Hxl by lia.
  destruct (halves_of x1 Hxl) as [Hlo Hhi]. rewrite (slice_slice _ _ _ _ 0 4 Hs1), Z.add_0_r in Hlo by lia. rewrite (slice_slice _ _ _ _ 4 8 Hs1) in Hhi by lia.
  destruct (item_u32 b1 o1 4 (take 4 x1) Hb1 Hlo Ho1 eq_refl) as [Hv1 _].
  replace (o1 + 8) with (o1 + 4 + 4) in Hhi by lia. destruct (item_u32 b1 (o1 + 4) 4 (drop 4 x1) Hb1 Hhi ltac:(lia) eq_refl) as [Hf1 _].
  eapply yields_ok; [exact Hv1|]. eapply yields_ok; [exact Hf1|]. cbv zeta.
  change (negb (Z.land (le_val (drop 4 x1)) FILE_PARAMETERS_HAS_PARENT =? 0)) with (nonzero (Z.land (le_val (drop 4 x1)) (Z.shiftl 1 1))).
  change (negb (Z.land (le_val (drop 4 x1)) FILE_PARAMETERS_LEAVE_BLOCKS_ALLOCATED =? 0)) with (nonzero (Z.land (le_val (drop 4 x1)) (Z.shiftl 1 0))).
  rewrite !land_bit by lia. destruct (is_valid_metadata_block_size _) eqn:Hbs; cbn [negb]; [|by apply yields_fail].
  next_item b2 o2 Hl2 Hb2 x2 Hx2 Hs2.
  destruct (item_u64 b2 o2 8 x2 Hb2 Hs2 (slice_offset_nonneg _ _ _ _ Hs2) eq_refl) as [Hv2 Hu2]. eapply yields_ok; [exact Hv2|].
  next_item b3 o3 Hl3 Hb3 x3 Hx3 Hs3.
  destruct (item_u32 b3 o3 4 x3 Hb3 Hs3 (slice_offset_nonneg _ _ _ _ Hs3) eq_refl) as [Hv3 Hu3]. eapply yields_ok; [exact Hv3|].
  next_item b4 o4 Hl4 Hb4 x4 Hx4 Hs4.
  destruct (item_u32 b4 o4 4 x4 Hb4 Hs4 (slice_offset_nonneg _ _ _ _ Hs4) eq_refl) as [Hv4 _]. eapply yields_ok; [exact Hv4|].
  eapply (yields_bind _ _ _ _ _ (fun _ => True) False); [| |by intros []].
  - destruct (mi_parent_locator items) as [[off len]|]; [|by apply yields_ret]. destruct (Z.testbit _ 1); [|by apply yields_ret].
    specialize (I5 _ eq_refl). unfold is_u32 in I5. cbn in I5. apply stage_returns; [lia | lia | done].
  - intros loc _. apply yields_ret. by split_and!.
Qed.

(** *** The geometry *)

Lemma plain_entry_count n c : 0 <= n <= 17592186044416 -> 16 <= c ->
  bat_entry_count n c false = Some (if n =? 0 then 0 else entries_of false n c).
Proof.
  intros Hn Hc. unfold bat_entry_count, entries_of. destruct (Z.eqb_spec n 0); [done|]. rewrite (proj2 (Z.eqb_neq c 0)) by lia.
  unfold checked_sub. destruct (Z.leb_spec 1 n); [|lia]. cbn [mbind option_bind]. rewrite checked_div_eq by lia. cbn [mbind option_bind].
  apply checked_add_eq. pose proof (Z.div_le_upper_bound (n - 1) c (n - 1) ltac:(lia) ltac:(nia)). unfold u64_max. lia.
Qed.

Lemma geometry_of_ok bo bl rs md st : geometry_of dev bo bl rs md = Some st ->
  is_valid_metadata_block_size (md_block_size md) = true -> is_u64 (md_virtual_disk_size md) -> is_u32 (md_logical_sector_size md) ->
  0 <= bo -> is_u32 bl -> bo + 4294967296 <= u64_max -> Forall (fun r => is_u64 r.1 /\ is_u32 r.2) rs ->
  state_ok st ssz /\ device_idx st = dev.
Proof.
  intros Hg Hbs Hvs Hls Hbo Hbl Hbig Hrs. unfold geometry_of in Hg.
  assert (sector_size_ok (md_logical_sector_size md) = true) as Hsec.
  { unfold sector_size_ok. destruct (_ =? 512), (_ =? 4096); done. }
  destruct (_ && _); [done|]. unfold is_u32, is_u64, u32_max in *.
  assert (wmul (Z.shiftl 1 23) (md_logical_sector_size md) = 8388608 * md_logical_sector_size md) as Hw.
  { apply wmul_small. change (Z.shiftl 1 23) with 8388608. unfold u64_max. lia. }
  rewrite Hw in Hg. set (c := 8388608 * md_logical_sector_size md / md_block_size md) in *. cbv zeta in Hg.
  destruct (Z.eqb_spec c 0); [done|]. apply bind_Some in Hg as (c' & Hc' & Hg). unfold try_u32 in Hc'. destruct (_ <=? u32_max); [|done]. injection Hc' as <-.
  apply bind_Some in Hg as (tot & Htot & Hg). apply bind_Some in Hg as (tot' & Htot' & Hg). unfold try_u32 in Htot'. destruct (_ <=? u32_max); [|done]. injection Htot' as <-.
  apply bind_Some in Hg as (need & Hneed & Hg). apply checked_mul_Some in Hneed as [-> _]. destruct (Z.ltb_spec bl (tot * 8)) as [|Hfit]; [done|].
  apply bind_Some in Hg as (sb & Hsb & [= <-]).
  destruct (valid_block_size_spec (md_block_size md)) as (k & Hk & Hbk); [pose proof (valid_block_u32 _ Hbs) as Hu; unfold is_u32 in Hu; lia | done |].
  pose proof (ratio_of_block k Hk) as (_ & _ & Hbr). rewrite <- Hbk in Hbr.
  assert (0 <= div_ceil (md_virtual_disk_size md) (md_block_size md) <= 17592186044416) as Hn.
  { split; [apply div_ceil_nonneg; lia|]. apply div_ceil_le; [lia|]. unfold u64_max in *. lia. }
  assert (16 <= c) as Hc16.
  { apply Z.div_le_lower_bound; [lia|]. unfold sector_size_ok in Hsec. bool_to_prop. lia. }
  rewrite plain_entry_count in Htot by lia. injection Htot as Htot.
  assert (0 <= tot) as Ht0.
  { rewrite <- Htot. destruct (Z.eqb_spec (div_ceil (md_virtual_disk_size md) (md_block_size md)) 0); [lia|]. unfold entries_of.
    pose proof (Z.div_pos (div_ceil (md_virtual_disk_size md) (md_block_size md) - 1) c). lia. }
  assert (0 <= sb /\ 8 * sb <= bl) as [Hsb0 Hsb8].
  { destruct (md_has_parent md); [|injection Hsb as <-; lia]. apply bind_Some in Hsb as (pad & Hpad & Hsb). unfold try_u32 in Hsb.
    destruct (_ <=? u32_max); [|done]. injection Hsb as <-. pose proof (Z.mul_div_le bl 8 ltac:(lia)). pose proof (Z.div_pos bl 8).
    unfold differencing_bat_entry_count in Hpad. destruct (c =? 0); [done|]. apply bind_Some in Hpad as (g & Hg & Hpad).
    apply checked_add_Some in Hg as [-> _]. apply checked_mul_Some in Hpad as [-> _].
    pose proof (div_ceil_nonneg (div_ceil (md_virtual_disk_size md) (md_block_size md)) c). nia. }
  split; [|done]. constructor; cbn; try done; try lia.
Qed.

Lemma either_some {A B} (a1 a2 : option A) (x : option B) h : a1 = Some h \/ a2 = Some h ->
  match a1, a2 with None, None => None | _, _ => x end = x.
Proof. destruct a1, a2; intros [|]; done. Qed.

(** The region table, once its sector is in the buffer. *)
Lemma regions_yields buf rt sec : cap * ssz + 4294967296 <= u64_max -> holds_sector ssz img buf sec ->
  slice img REGION_TABLE1_OFFSET (REGION_TABLE1_OFFSET + ssz) = Some rt -> (forall a b, 0 <= a <= b -> b <= ssz -> slice buf a b = slice rt a b) ->
  yields dev ssz img (open_regions dev ssz cap (cap * ssz) buf 0)
    (fun st => regions_ref dev ssz cap img rt = Some st /\ state_ok st ssz /\ device_idx st = dev) (regions_ref dev ssz cap img rt = None).
Proof.
  intros Hbig [Hbl Hbb _] Hrt Hsame. destruct (sector_pow_cases ssz Hpow) as [Hr _]. pose proof (slice_blen _ _ _ _ Hrt) as Hrl.
  pose proof (slice_is_bytes _ _ _ _ Hb Hrt) as Hrb. unfold open_regions, regions_ref. change (0 + REGION_TABLE_ENTRY_COUNT_OFFSET) with 8.
  destruct (le_u32_read (E := unit) rt 0 Hrb) as (sig & Hsig & _); [lia | lia |].
  destruct (le_u32_read (E := unit) rt 8 Hrb) as (cnt & Hcnt & Hcu); [lia | lia |].
  assert (forall o, 0 <= o -> o + 4 <= ssz -> le_u32 (E := unit) buf o = le_u32 rt o) as Hle by (intros o Ho0 Ho4; unfold le_u32; by rewrite Hsame by lia).
  rewrite Hsig. cbn [ok_of mbind option_bind]. eapply yields_ok; [rewrite Hle by lia; exact Hsig|].
  destruct (negb _); [by apply yields_fail|]. rewrite Hcnt. cbn [ok_of mbind option_bind]. eapply yields_ok; [rewrite Hle by lia; exact Hcnt|].
  destruct (_ <? cnt); [by apply yields_fail|]. rewrite (scan_ext ssz buf rt _ Hsame) by lia.
  destruct (scan_total ssz rt (Z.to_nat (Z.min cnt 8)) Hrb ltac:(lia) 0 None None [] ltac:(lia) ltac:(constructor) ltac:(done) ltac:(done))
    as (bat & md & rs & -> & Hrs & Hbat & Hmd).
  eapply yields_ok; [reflexivity|]. cbn [ok_of mbind option_bind].
  destruct bat as [[bo bl]|]; [|by apply yields_fail]. destruct md as [[mo ml]|]; [|by apply yields_fail].
  destruct (Hbat _ eq_refl) as [Hbo Hbl2]. destruct (Hmd _ eq_refl) as [Hmo _]. cbn in Hbo, Hbl2, Hmo. unfold is_u64 in Hbo, Hmo.
  destruct (Z.leb_spec (cap * ssz) bo); [by apply yields_fail|]. destruct (Z.leb_spec (cap * ssz) mo); [by apply yields_fail|]. cbn [orb].
  eapply yields_bind; [apply parse_metadata_yields; lia | |by intros ->]. intros m (Hm & Hbs & Hvs & Hls). rewrite Hm. cbn [mbind option_bind].
  change (geometry_of dev bo bl rs (forget m)) with (geometry_of dev bo bl rs m).
  destruct (geometry_of dev bo bl rs m) as [st|] eqn:Hg.
  - intros s Hs. unfold or_none. wstep. cbn [ok_or]. split; [done|]. split; [done|]. split; [done|]. eapply geometry_of_ok; try done; lia.
  - intros s Hs. unfold or_none. wstep. cbn [ok_or]. done.
Qed.

Lemma init_yields : cap * ssz + 4294967296 <= u64_max ->
  yields dev ssz img (init dev ssz cap)
    (fun st => init_ref dev ssz cap img = Some st /\ state_ok st ssz /\ device_idx st = dev) (init_ref dev ssz cap img = None).
Proof.
  intros Hbig. destruct (sector_pow_cases ssz Hpow) as [Hr _]. unfold init, init_ref. eapply yields_some; [apply checked_mul_eq; lia|].
  change (REGION_TABLE1_OFFSET + 65536) with 262144. destruct (Z.ltb_spec (cap * ssz) 262144) as [|Hcap]; [by apply yields_fail|].
  pose proof (active_header_yields Hcap) as Hact. revert Hact. generalize (header_at img HEADER1_OFFSET) (header_at img HEADER2_OFFSET). intros a1 a2 Hact.
  eapply yields_bind; [exact Hact | |by intros [-> ->]]. intros h Hh. rewrite (either_some _ _ _ _ Hh). unfold udiv, urem.
  rewrite (proj2 (Z.eqb_neq ssz 0)) by lia. eapply yields_ok; [reflexivity|].
  assert (blen (filled MAX_SECTOR_SIZE 0) = MAX_SECTOR_SIZE) as Hfs by (apply blen_filled; unfold MAX_SECTOR_SIZE; lia).
  assert (is_bytes (filled MAX_SECTOR_SIZE 0)) as Hfsb by (apply filled_is_bytes; unfold is_u8, u8_max; lia).
  set (zs := filled MAX_SECTOR_SIZE 0) in *. clearbody zs.
  pose proof (sector_pow_divides ssz 3 Hpow) as Hal. change (65536 * 3) with REGION_TABLE1_OFFSET in Hal.
  pose proof (Z.div_mod REGION_TABLE1_OFFSET ssz ltac:(lia)) as Hdm. rewrite Hal, Z.add_0_r in Hdm. pose proof (do_size _ _ _ Hdev) as Hsize.
  assert (0 <= REGION_TABLE1_OFFSET / ssz < cap) as Hsec.
  { split; [apply Z.div_pos; unfold REGION_TABLE1_OFFSET; lia|]. apply Z.div_lt_upper_bound; [lia|]. unfold REGION_TABLE1_OFFSET. lia. }
  eapply yields_bind; [apply (fetch_yields (REGION_TABLE1_OFFSET / ssz) zs); done || lia | |lia]. intros buf (_ & Hhs).
  eapply yields_ok; [reflexivity|]. rewrite Hal.
  destruct (slice_of img REGION_TABLE1_OFFSET (REGION_TABLE1_OFFSET + ssz)) as (rt & Hrt & _); [unfold REGION_TABLE1_OFFSET; lia | unfold REGION_TABLE1_OFFSET; lia |].
  rewrite Hrt. cbn [mbind option_bind]. eapply regions_yields; [done | exact Hhs | exact Hrt |].
  intros a b Hab Hbz. rewrite (hs_slice _ _ _ _ Hhs) by lia. rewrite (slice_slice _ _ _ _ a b Hrt) by lia. f_equal; lia.
Qed.

End correct.
