(* ===== verification/VhdxSpec.v ===== *)
(** What a VHDX image is, from its bytes: the header, the region table, the metadata items
    and the geometry they give ([vhdx_disk]), and what an entry of the block allocation
    table says of its block ([block_says]).  Written from the format, with its literal
    offsets, signatures, GUIDs and states, and not from the reader; the reader is shown to
    agree with it.

    Two limits of the reader are part of the description: only the first eight entries of
    the region table count, and of the metadata table only the first 32 entries that lie in
    the sector the table starts in. *)

From stdpp Require Import base numbers list sets option.
From Stdlib Require Import ZArith Lia.
From S2P Require Import Prelude Bytes ExecBytes CachedRead Header Vhdx VhdxMeta VhdxReader VhdxInit.

(** ** The format *)

(** A little-endian field of [n] bytes. *)
Definition le_at (img : bytes) (off n : Z) : option Z := le_val <$> slice img off (off + n).

(** A GUID in the mixed byte order of the format. *)
Definition guid (d1 d2 d3 d4 : Z) : bytes := le_bytes 4 d1 ++ le_bytes 2 d2 ++ le_bytes 2 d3 ++ be_bytes 8 d4.

(** CRC-32C, bit by bit: the reflected division by the Castagnoli polynomial. *)
Definition crc32c_bit (x : Z) : Z := Z.lxor (Z.shiftr x 1) (if Z.testbit x 0 then 0x82F63B78 else 0).

Definition crc32c (data : bytes) : Z :=
  Z.lxor (foldl (fun crc b => Nat.iter 8 crc32c_bit (Z.lxor crc b)) 0xFFFFFFFF data) 0xFFFFFFFF.

(** A header: 4096 bytes that start with head and carry the checksum of themselves, with
    the field as zero. *)
Definition valid_header (img : bytes) (off : Z) : bool :=
  match slice img off (off + 4096) with
  | Some h => bool_decide (le_at h 0 4 = Some 0x64616568) &&
              bool_decide (le_at h 4 4 = Some (crc32c (take 4 h ++ [0; 0; 0; 0] ++ drop 8 h)))
  | None => false
  end.

(** The last of the entries with a GUID. *)
Definition with_guid {A} (g : bytes) (l : list (bytes * A)) : option A := snd <$> list.last (filter (fun e => e.1 = g) l).

(** The region table at 192 KiB: regi, a count, and entries of a GUID, a place and a
    length. *)
Definition region_entry (img : bytes) (i : Z) : option (bytes * (Z * Z)) :=
  let o := 196608 + 16 + 32 * i in
  g ← slice img o (o + 16);
  offset ← le_at img (o + 16) 8;
  length ← le_at img (o + 24) 4;
  Some (g, (offset, length)).

Definition region_entries (img : bytes) : option (list (bytes * (Z * Z))) :=
  sig ← le_at img 196608 4;
  count ← le_at img 196616 4;
  if (sig =? 0x69676572) && (count <=? 2047) then mapM (region_entry img) (seqZ 0 (Z.min count 8)) else None.

Definition bat_guid : bytes := guid 0x2DC27766 0xF623 0x4200 0x9D64115E9BFD4A08.
Definition metadata_guid : bytes := guid 0x8B7CA206 0x4790 0x4B9A 0xB8FE575F050F886E.

(** The metadata table at [mo]: metadata, a count, and entries of a GUID and a place in
    the region. *)
Definition metadata_entry (img : bytes) (mo i : Z) : option (bytes * Z) :=
  let o := mo + 32 + 32 * i in
  g ← slice img o (o + 16);
  offset ← le_at img (o + 16) 4;
  Some (g, offset).

Definition metadata_entries (ssz : Z) (img : bytes) (mo : Z) : option (list (bytes * Z)) :=
  let room := ssz - mo mod ssz in
  if room <? 32 then None
  else
  sig ← le_at img mo 8;
  count ← le_at img (mo + 10) 2;
  if (sig =? 0x617461646174656D) && (count <=? 2047)
  then mapM (metadata_entry img mo) (seqZ 0 (Z.min (Z.min count 32) (room / 32 - 1))) else None.

Definition file_parameters_guid : bytes := guid 0xCAA16737 0xFA36 0x4D43 0xB3B633F0AA44E76B.
Definition virtual_disk_size_guid : bytes := guid 0x2FA54224 0xCD1B 0x4876 0xB2115DBED83BF4B8.
Definition logical_sector_size_guid : bytes := guid 0x8141BF1D 0xA96F 0x4709 0xBA47F233A8FAAB5F.
Definition physical_sector_size_guid : bytes := guid 0xCDA348C7 0x445D 0x4471 0x9CC9E9885251C556.

(** An item of [n] bytes, inside one sector of the device. *)
Definition metadata_item (ssz cap : Z) (img : bytes) (mo : Z) (items : list (bytes * Z)) (g : bytes) (n : Z) : option Z :=
  o ← with_guid g items; direct_read ssz cap img n le_val (mo + o).

(** The geometry: blocks of a power of two from 1 to 256 MiB, logical sectors of 512 or
    4096 bytes, chunks of 2^23 sectors with a bitmap entry between them, and a table that
    holds every entry.  [params] is the block size, then 32 flag bits, the second of which
    is that of a child. *)
Definition image_geometry (dev bo bl : Z) (rs : list (Z * Z)) (params size lss : Z) : option VhdxState :=
  let bs := params mod 2 ^ 32 in
  let parent := Z.testbit params 33 in
  let ratio := 2 ^ 23 * lss / bs in
  let n := div_ceil size bs in
  let entries := if n =? 0 then 0 else n + (n - 1) / ratio in
  if existsb (fun k => bs =? 2 ^ k) (seqZ 20 9) && ((lss =? 512) || (lss =? 4096)) && (entries <=? u32_max) && (8 * entries <=? bl)
  then Some (mkVhdxState dev bs size lss bo entries ratio
               (if parent then Z.min (div_ceil n ratio * (ratio + 1)) (bl / 8) else entries) rs parent)
  else None.

(** The image of the bytes [img] on [cap] sectors of [ssz] bytes. *)
Definition vhdx_disk (dev ssz cap : Z) (img : bytes) : option VhdxState :=
  if (cap * ssz <? 262144) || negb (valid_header img 65536 || valid_header img 131072) then None
  else
  es ← region_entries img;
  '(bo, bl) ← with_guid bat_guid es;
  '(mo, _) ← with_guid metadata_guid es;
  if (cap * ssz <=? bo) || (cap * ssz <=? mo) then None
  else
  items ← metadata_entries ssz img mo;
  params ← metadata_item ssz cap img mo items file_parameters_guid 8;
  size ← metadata_item ssz cap img mo items virtual_disk_size_guid 8;
  lss ← metadata_item ssz cap img mo items logical_sector_size_guid 4;
  _ ← metadata_item ssz cap img mo items physical_sector_size_guid 4;
  image_geometry dev bo bl (map snd es) params size lss.

(** A block of the file may lie at [off]: not on the file identifier, and clear of every
    region that is not empty. *)
Definition placed (st : VhdxState) (off : Z) : Prop :=
  0 < off /\
  Forall (fun r => snd r = 0 \/
            off + block_size st <= u64_max /\ fst r + snd r <= u64_max /\
            (off + block_size st <= fst r \/ fst r + snd r <= off)) (regions st).

(** What the entry [e] of a block says of the guest offset [voff] in it: its low three bits
    are the state (not present 0, undefined 1, zero 2, unmapped 3, fully present 6,
    partially present 7), its high bits the megabyte of the block. *)
Inductive block_says (st : VhdxState) (e voff : Z) : VhdxBlockLookup -> Prop :=
| says_absent : e mod 8 = 0 \/ e mod 8 = 1 \/ e mod 8 = 3 -> block_says st e voff NotPresent
| says_zero : e mod 8 = 2 -> block_says st e voff ZeroBlock
| says_present off :
    e mod 8 = 6 -> off = 1048576 * (e / 1048576) -> placed st off -> off + voff mod block_size st <= u64_max ->
    block_says st e voff (Present (off + voff mod block_size st))
| says_partial off :
    e mod 8 = 7 -> has_parent st = true -> off = 1048576 * (e / 1048576) -> placed st off ->
    off + voff mod block_size st <= u64_max ->
    block_says st e voff (PartiallyPresent (off + voff mod block_size st) (block_size st - voff mod block_size st)).

(** The place of the entry of a guest offset: one bitmap entry follows each chunk. *)
Definition entry_place (st : VhdxState) (voff : Z) : Z :=
  let p := voff / block_size st in bat_offset st + 8 * (p + p / chunk_ratio st).

(** The answer for a guest offset: past the end of the disk there is nothing. *)
Inductive vhdx_answer (st : VhdxState) (img : bytes) (voff : Z) : VhdxBlockLookup -> Prop :=
| past_end : virtual_disk_size st <= voff / block_size st * block_size st -> vhdx_answer st img voff NotPresent
| in_disk e r :
    voff / block_size st * block_size st < virtual_disk_size st ->
    le_at img (entry_place st voff) 8 = Some e -> block_says st e voff r -> vhdx_answer st img voff r.

(** ** The reader agrees *)

Definition or_old {A} (new old : option A) : option A := match new with Some x => Some x | None => old end.

Lemma with_guid_cons {A} g (e : bytes * A) es :
  with_guid g (e :: es) = or_old (with_guid g es) (if decide (e.1 = g) then Some e.2 else None).
Proof.
  unfold with_guid. rewrite filter_cons. destruct (decide (e.1 = g)); [rewrite list.last_cons|]; by destruct (list.last (filter _ es)).
Qed.

Lemma or_old_assoc {A} (a b c : option A) : or_old (or_old a b) c = or_old a (or_old b c).
Proof. by destruct a. Qed.

(** A field of a buffer that is a piece of the image. *)
Lemma le_at_buf img off n buf k w : slice img off (off + n) = Some buf -> 0 <= k -> 0 <= w -> k + w <= n ->
  exists x, slice buf k (k + w) = Some x /\ slice img (off + k) (off + k + w) = Some x /\ le_at img (off + k) w = Some (le_val x).
Proof.
  intros Hs Hk Hw Hn. pose proof (slice_blen _ _ _ _ Hs). destruct (slice_of buf k (k + w)) as (x & Hx & _); [lia | lia |].
  exists x. split; [done|]. pose proof Hx as Hx'. rewrite (slice_slice _ _ _ _ k (k + w) Hs) in Hx' by lia. rewrite Z.add_assoc in Hx'.
  split; [done|]. unfold le_at. by rewrite Hx'.
Qed.

(** *** The header *)

Lemma crc32c_ref data : crc_ref data = crc32c data.
Proof.
  assert (forall n x, Nat.iter n crc_bit x = Nat.iter n crc32c_bit x) as Hiter.
  { induction n as [|n IH]; intros x; [done|]. cbn [Nat.iter nat_rect]. unfold Nat.iter in IH. rewrite IH. apply crc_bit_alt. }
  unfold crc_ref, crc32c. f_equal. generalize 0xFFFFFFFF. induction data as [|b data IH]; intros c; [done|]. cbn [foldl].
  by rewrite IH, Hiter.
Qed.

Lemma without_checksum h : 8 <= blen h -> without_field h 4 = take 4 h ++ [0; 0; 0; 0] ++ drop 8 h.
Proof.
  intros Hl. unfold blen in Hl. apply list_eq. intros i. unfold without_field. rewrite list_lookup_imap.
  replace (wadd 4 4) with 8 by reflexivity.
  destruct (decide (i < 4)%nat) as [?|Hi4].
  { rewrite lookup_app_l by (rewrite length_take; lia). rewrite lookup_take_lt by lia.
    destruct (lookup_lt_is_Some_2 h i) as [b ->]; [lia|]. cbn. by destruct (Z.leb_spec 4 (Z.of_nat i)); [lia|]. }
  rewrite lookup_app_r by (rewrite length_take; lia). rewrite length_take, Nat.min_l by lia.
  destruct (decide (i < 8)%nat) as [?|Hi8].
  - destruct (lookup_lt_is_Some_2 h i) as [b ->]; [lia|]. cbn [fmap option_fmap option_map].
    destruct (Z.leb_spec 4 (Z.of_nat i)), (Z.ltb_spec (Z.of_nat i) 8); try lia. cbn [andb].
    assert (i = 4 \/ i = 5 \/ i = 6 \/ i = 7)%nat as [-> | [-> | [-> | ->]]] by lia; done.
  - rewrite lookup_app_r by (cbn; lia). rewrite lookup_drop. cbn [length]. replace (8 + (i - 4 - 4))%nat with i by lia.
    destruct (h !! i); [|done]. cbn. destruct (Z.leb_spec 4 (Z.of_nat i)), (Z.ltb_spec (Z.of_nat i) 8); cbn; lia || done.
Qed.

Lemma header_at_valid img off : is_bytes img -> header_at img off <> None <-> valid_header img off = true.
Proof.
  intros Hb. unfold header_at, valid_header. destruct (slice img off (off + 4096)) as [h|] eqn:Hs; cbn [mbind option_bind]; [|split; [intros []|]; done].
  pose proof (slice_blen _ _ _ _ Hs) as Hl. pose proof (slice_is_bytes _ _ _ _ Hb Hs) as Hhb.
  unfold VhdxHeader_parse, HEADER_SIZE. destruct (Z.ltb_spec (blen h) 4096); [lia|]. unfold HEADER_CHECKSUM_OFFSET, HEADER_SIGNATURE.
  assert (slice h 0 (0 + 4096) = Some h) as Hfull by (rewrite <- (slice_full h); f_equal; lia).
  unfold le_u32, le_u64. destruct (le_at_buf h 0 4096 h 0 4 Hfull) as (s0 & Hs0 & _ & H0); [lia..|].
  destruct (le_at_buf h 0 4096 h 4 4 Hfull) as (s4 & Hs4 & _ & H4); [lia..|]. change (0 + 0) with 0 in H0. change (0 + 4) with 4 in *.
  rewrite H0, H4, Hs0, Hs4. change (slice h 0 4096) with (slice h 0 (0 + 4096)). rewrite Hfull. cbn [or_panic obind].
  rewrite compute_crc32c_ref, crc32c_ref, without_checksum by (done || lia).
  destruct (Z.eqb_spec (le_val s0) 0x64616568) as [->|Hne]; cbn [negb ok_of].
  2:{ rewrite bool_decide_false by congruence. done. }
  rewrite bool_decide_true by done. cbn [andb].
  destruct (Z.eqb_spec (le_val s4) (crc32c (take 4 h ++ [0; 0; 0; 0] ++ drop 8 h))) as [He|Hne]; cbn [negb ok_of].
  2:{ rewrite bool_decide_false by congruence. done. }
  rewrite bool_decide_true by congruence.
  unfold HEADER_SEQUENCE_NUMBER_OFFSET, HEADER_DATA_WRITE_GUID_OFFSET, HEADER_LOG_GUID_OFFSET, HEADER_LOG_LENGTH_OFFSET, HEADER_LOG_OFFSET_OFFSET.
  repeat match goal with |- context [or_panic (slice h ?a ?b)] =>
    let x := fresh "x" in let Hx := fresh "Hx" in destruct (slice_of h a b) as (x & Hx & _); [lia | lia |]; rewrite Hx; clear Hx; cbn [or_panic obind] end.
  done.
Qed.

(** *** The region table *)

Lemma region_guids : BAT_REGION_GUID = bat_guid /\ METADATA_REGION_GUID = metadata_guid /\ bat_guid <> metadata_guid.
Proof. split; [vm_compute; reflexivity|]. split; [vm_compute; reflexivity|]. vm_compute. discriminate. Qed.

Lemma region_entry_at img rt ssz i : 512 <= ssz -> slice img 196608 (196608 + ssz) = Some rt -> 0 <= i < 8 ->
  exists g o l, region_entry img i = Some (g, (le_val o, le_val l)) /\
    slice rt (16 + i * 32) (16 + i * 32 + 16) = Some g /\
    slice rt (16 + i * 32 + 16) (16 + i * 32 + 16 + 8) = Some o /\ slice rt (16 + i * 32 + 24) (16 + i * 32 + 24 + 4) = Some l.
Proof.
  intros Hz Hrt Hi. destruct (le_at_buf img 196608 ssz rt (16 + i * 32) 16 Hrt) as (g & Hg & Hgi & _); [lia..|].
  destruct (le_at_buf img 196608 ssz rt (16 + i * 32 + 16) 8 Hrt) as (o & Ho & _ & Hoi); [lia..|].
  destruct (le_at_buf img 196608 ssz rt (16 + i * 32 + 24) 4 Hrt) as (l & Hl & _ & Hli); [lia..|].
  exists g, o, l. split; [|done]. unfold region_entry. cbv zeta.
  replace (196608 + 16 + 32 * i) with (196608 + (16 + i * 32)) by lia. rewrite Hgi. cbn [mbind option_bind].
  replace (196608 + (16 + i * 32) + 16) with (196608 + (16 + i * 32 + 16)) by lia. rewrite Hoi. cbn [mbind option_bind].
  replace (196608 + (16 + i * 32) + 24) with (196608 + (16 + i * 32 + 24)) by lia. by rewrite Hli.
Qed.

Lemma scan_region_entries img rt ssz : 512 <= ssz -> slice img 196608 (196608 + ssz) = Some rt ->
  forall n i bat md rs, 0 <= i -> i + Z.of_nat n <= 8 ->
  exists es, mapM (region_entry img) (seqZ i (Z.of_nat n)) = Some es /\
    scan_region_sector n rt 0 ssz i bat md rs =
      Ok (or_old (with_guid bat_guid es) bat, or_old (with_guid metadata_guid es) md, rs ++ map snd es).
Proof.
  intros Hz Hrt. destruct region_guids as (Hbat & Hmd & Hne). induction n as [|n IH]; intros i bat md rs Hi Hn.
  { exists []. split; [done|]. cbn. by rewrite app_nil_r. }
  destruct (region_entry_at img rt ssz i Hz Hrt ltac:(lia)) as (g & o & l & He & Hg & Ho & Hl).
  rewrite seqZ_cons by lia. replace (Z.pred (Z.of_nat (S n))) with (Z.of_nat n) by lia. change (Z.succ i) with (i + 1).
  cbn [scan_region_sector mapM]. unfold REGION_TABLE_HEADER_SIZE, REGION_TABLE_ENTRY_SIZE, le_u64, le_u32. rewrite !Z.add_0_l.
  destruct (Z.ltb_spec ssz (16 + i * 32 + 32)); [lia|]. rewrite Hg, Ho, Hl, He. cbn [or_panic obind mbind option_bind].
  rewrite Hbat, Hmd. set (e := (g, (le_val o, le_val l)) : bytes * (Z * Z)).
  set (b' := if decide (g = bat_guid) then Some (le_val o, le_val l) else bat).
  set (m' := if decide (g = metadata_guid) then Some (le_val o, le_val l) else md).
  destruct (IH (i + 1) b' m' (rs ++ [(le_val o, le_val l)])) as (es & Hes & Hscan); [lia | lia |].
  exists (e :: es). rewrite Hes. split; [done|]. rewrite !with_guid_cons, !or_old_assoc. change (e.1) with g. change (e.2) with (le_val o, le_val l).
  cbn [map]. change (snd e) with (le_val o, le_val l). 
  replace (rs ++ (le_val o, le_val l) :: map snd es) with ((rs ++ [(le_val o, le_val l)]) ++ map snd es) by (by rewrite <- app_assoc).
  unfold b', m' in *. clear b' m' Hes IH. revert Hne Hscan. clear. generalize bat_guid metadata_guid. intros bg mg Hne Hscan.
  destruct (decide (g = bg)) as [Eb|Eb].
  - rewrite bool_decide_true by exact Eb. destruct (decide (g = mg)) as [Em|Em]; [destruct Hne; congruence|exact Hscan].
  - rewrite bool_decide_false by exact Eb. destruct (decide (g = mg)) as [Em|Em].
    + rewrite bool_decide_true by exact Em. exact Hscan.
    + rewrite bool_decide_false by exact Em. exact Hscan.
Qed.

(** *** The metadata table *)

Lemma item_guids : FILE_PARAMETERS_GUID = file_parameters_guid /\ VIRTUAL_DISK_SIZE_GUID = virtual_disk_size_guid /\
  LOGICAL_SECTOR_SIZE_GUID = logical_sector_size_guid /\ PHYSICAL_SECTOR_SIZE_GUID = physical_sector_size_guid /\
  (file_parameters_guid <> virtual_disk_size_guid /\ file_parameters_guid <> logical_sector_size_guid /\
   file_parameters_guid <> physical_sector_size_guid) /\
  (virtual_disk_size_guid <> logical_sector_size_guid /\ virtual_disk_size_guid <> physical_sector_size_guid) /\
  logical_sector_size_guid <> physical_sector_size_guid.
Proof. split_and!; vm_compute; reflexivity || discriminate. Qed.

(** The four places found, as updates of those found before. *)
Definition found (es : list (bytes * Z)) (o o' : ItemOffsets) : Prop :=
  io_file_parameters o' = or_old (with_guid file_parameters_guid es) (io_file_parameters o) /\
  io_virtual_disk_size o' = or_old (with_guid virtual_disk_size_guid es) (io_virtual_disk_size o) /\
  io_logical_sector_size o' = or_old (with_guid logical_sector_size_guid es) (io_logical_sector_size o) /\
  io_physical_sector_size o' = or_old (with_guid physical_sector_size_guid es) (io_physical_sector_size o).

Lemma found_cons e es o o1 o' : found [e] o o1 -> found es o1 o' -> found (e :: es) o o'.
Proof.
  intros (A1 & A2 & A3 & A4) (B1 & B2 & B3 & B4). unfold found. rewrite !with_guid_cons, !or_old_assoc.
  rewrite B1, B2, B3, B4, A1, A2, A3, A4, !with_guid_cons. done.
Qed.

Lemma note_item_found table start g x o len : slice table (start + 20) (start + 20 + 4) = Some len ->
  exists o', note_item table start g x o = Ok o' /\ found [(g, x)] o o'.
Proof.
  intros Hlen. unfold note_item, le_u32, found. destruct o as [fp vs ls ps pl]. rewrite Hlen. cbn [or_panic obind]. rewrite !with_guid_cons. cbn [fst snd].
  change (with_guid ?g []) with (@None Z). cbn [or_old].
  destruct item_guids as (-> & -> & -> & -> & Hnd). revert Hnd.
  generalize file_parameters_guid virtual_disk_size_guid logical_sector_size_guid physical_sector_size_guid PARENT_LOCATOR_GUID.
  intros a b c d l ((? & ? & ?) & (? & ?) & ?).
  repeat case_bool_decide; repeat case_decide; try congruence; eexists; split; reflexivity || (cbn; done).
Qed.

Lemma metadata_entry_at img mo table room i : slice img mo (mo + room) = Some table -> 0 <= i -> 32 + i * 32 + 32 <= room ->
  exists g x l, metadata_entry img mo i = Some (g, le_val x) /\
    slice table (32 + i * 32) (32 + i * 32 + 16) = Some g /\ slice table (32 + i * 32 + 16) (32 + i * 32 + 16 + 4) = Some x /\
    slice table (32 + i * 32 + 20) (32 + i * 32 + 20 + 4) = Some l.
Proof.
  intros Ht Hi Hfit. destruct (le_at_buf img mo room table (32 + i * 32) 16 Ht) as (g & Hg & Hgi & _); [lia..|].
  destruct (le_at_buf img mo room table (32 + i * 32 + 16) 4 Ht) as (x & Hx & _ & Hxi); [lia..|].
  destruct (le_at_buf img mo room table (32 + i * 32 + 20) 4 Ht) as (l & Hl & _ & _); [lia..|].
  exists g, x, l. split; [|done]. unfold metadata_entry. cbv zeta.
  replace (mo + 32 + 32 * i) with (mo + (32 + i * 32)) by lia. rewrite Hgi. cbn [mbind option_bind].
  replace (mo + (32 + i * 32) + 16) with (mo + (32 + i * 32 + 16)) by lia. by rewrite Hxi.
Qed.

Lemma scan_metadata_entries img mo table room : slice img mo (mo + room) = Some table -> 0 <= room ->
  forall n i o, 0 <= i ->
  exists es o', mapM (metadata_entry img mo) (seqZ i (Z.min (Z.of_nat n) (room / 32 - 1 - i))) = Some es /\
    scan_items n table i o = Ok o' /\ found es o o'.
Proof.
  intros Ht Hroom. pose proof (slice_blen _ _ _ _ Ht) as Hl. pose proof (Z.div_mod room 32 ltac:(lia)). pose proof (Z.mod_pos_bound room 32 ltac:(lia)).
  induction n as [|n IH]; intros i o Hi.
  { exists [], o. rewrite seqZ_nil by lia. done. }
  cbn [scan_items]. unfold METADATA_TABLE_HEADER_SIZE, METADATA_TABLE_ENTRY_SIZE. destruct (Z.ltb_spec (blen table) (32 + i * 32 + 32)).
  { exists [], o. rewrite seqZ_nil by lia. done. }
  destruct (metadata_entry_at img mo table room i Ht Hi ltac:(lia)) as (g & x & l & He & Hg & Hx & Hlen).
  unfold le_u32. rewrite Hg, Hx. cbn [or_panic obind]. destruct (note_item_found table (32 + i * 32) g (le_val x) o l Hlen) as (o1 & -> & Hf). cbn [obind].
  destruct (IH (i + 1) o1 ltac:(lia)) as (es & o' & Hes & Hscan & Hf'). exists ((g, le_val x) :: es), o'.
  rewrite seqZ_cons by lia. change (Z.succ i) with (i + 1).
  replace (Z.pred (Z.of_nat (S n) `min` (room / 32 - 1 - i))) with (Z.of_nat n `min` (room / 32 - 1 - (i + 1))) by lia.
  cbn [mapM]. rewrite He. cbn [mbind option_bind]. rewrite Hes. split; [done|]. split; [done|]. by eapply found_cons.
Qed.

Lemma direct_read_item ssz cap img w abs : direct_read ssz cap img w le_val abs = le_val <$> item_at ssz cap img abs w.
Proof. unfold direct_read, item_at. by destruct (_ && _). Qed.

(** The places the code finds are those of the entries. *)
Lemma locate_entries ssz img mo table : is_bytes img -> 0 < ssz -> slice img mo (mo + (ssz - mo mod ssz)) = Some table ->
  exists pl, ok_of (locate_metadata_items table) =
    (es ← metadata_entries ssz img mo;
     fp ← with_guid file_parameters_guid es;
     vs ← with_guid virtual_disk_size_guid es;
     ls ← with_guid logical_sector_size_guid es;
     ps ← with_guid physical_sector_size_guid es;
     Some (mkMetadataItemLocations fp vs ls ps pl)).
Proof.
  intros Hb Hz Ht. pose proof (slice_blen _ _ _ _ Ht) as Hl. unfold locate_metadata_items, metadata_entries. cbv zeta.
  set (room := ssz - mo mod ssz) in *. pose proof (Z.mod_pos_bound mo ssz Hz). unfold METADATA_TABLE_HEADER_SIZE, METADATA_TABLE_SIGNATURE,
    METADATA_TABLE_ENTRY_COUNT_OFFSET, MAX_METADATA_TABLE_ENTRIES. replace (blen table) with room by lia.
  destruct (Z.ltb_spec room 32); [by exists None|]. unfold le_u64, le_u16.
  destruct (le_at_buf img mo room table 0 8 Ht) as (s0 & Hs0 & _ & L0); [lia..|]. destruct (le_at_buf img mo room table 10 2 Ht) as (s1 & Hs1 & Hi1 & L1); [lia..|].
  rewrite Z.add_0_r in L0. rewrite Hs0, Hs1, L0, L1. cbn [or_panic obind mbind option_bind].
  pose proof (le_val_bound s1 (slice_is_bytes _ _ _ _ Hb Hi1)) as Hv1.
  destruct (le_val s0 =? 0x617461646174656D); cbn [negb andb]; [|by exists None].
  destruct (Z.ltb_spec 2047 (le_val s1)), (Z.leb_spec (le_val s1) 2047); try lia; [by exists None|].
  destruct (scan_metadata_entries img mo table room Ht ltac:(lia) (Z.to_nat (Z.min (le_val s1) 32)) 0 (mkItemOffsets None None None None None) ltac:(lia))
    as (es & o' & Hes & -> & (F1 & F2 & F3 & F4)). rewrite Z.sub_0_r, Z2Nat.id in Hes by lia. rewrite Hes. cbn [obind mbind option_bind].
  exists (io_parent_locator o'). cbn [io_file_parameters io_virtual_disk_size io_logical_sector_size io_physical_sector_size] in *. rewrite F1, F2, F3, F4.
  assert (forall x : option Z, or_old x None = x) as Hnone by (by intros []). rewrite !Hnone.
  destruct (with_guid file_parameters_guid es); [|done]. cbn [ok_or obind mbind option_bind].
  destruct (with_guid virtual_disk_size_guid es); [|done]. cbn [ok_or obind mbind option_bind].
  destruct (with_guid logical_sector_size_guid es); [|done]. cbn [ok_or obind mbind option_bind].
  by destruct (with_guid physical_sector_size_guid es).
Qed.

(** *** The geometry *)

Lemma le_val_app l l' : le_val (l ++ l') = le_val l + 256 ^ blen l * le_val l'.
Proof.
  induction l as [|b l IH]; [change (blen []) with 0; change (256 ^ 0) with 1; change (le_val ([] ++ l')) with (le_val l'); change (le_val []) with 0; lia|].
  change (le_val ((b :: l) ++ l')) with (b + 256 * le_val (l ++ l')). change (le_val (b :: l)) with (b + 256 * le_val l).
  rewrite IH, blen_cons, Z.pow_add_r by (pose proof (blen_nonneg l); lia). lia.
Qed.

Lemma block_sizes bs : 0 <= bs -> is_valid_metadata_block_size bs = existsb (fun k => bs =? 2 ^ k) (seqZ 20 9).
Proof.
  intros Hbs. destruct (is_valid_metadata_block_size bs) eqn:Hv.
  - destruct (valid_block_size_spec bs Hbs Hv) as (k & Hk & ->). symmetry. apply existsb_exists. exists k.
    split; [apply list_elem_of_In, elem_of_seqZ; lia | apply Z.eqb_refl].
  - symmetry. apply not_true_is_false. intros (k & Hk & He%Z.eqb_eq)%existsb_exists. apply list_elem_of_In, elem_of_seqZ in Hk.
    subst bs. assert (is_valid_metadata_block_size (2 ^ k) = true); [|congruence].
    assert (k = 20 \/ k = 21 \/ k = 22 \/ k = 23 \/ k = 24 \/ k = 25 \/ k = 26 \/ k = 27 \/ k = 28) as Hc by lia.
    repeat destruct Hc as [->|Hc]; try subst k; reflexivity.
Qed.

Lemma geometry_agrees dev bo bl rs params size lss ps leave loc : is_u64 params -> is_u64 size -> is_u32 lss -> is_u32 bl ->
  is_valid_metadata_block_size (params mod 2 ^ 32) = true ->
  geometry_of dev bo bl rs (mkVhdxMetadata (params mod 2 ^ 32) size lss ps (Z.testbit params 33) leave loc) = image_geometry dev bo bl rs params size lss.
Proof.
  intros Hp Hs Hls Hbl Hbs. unfold geometry_of, image_geometry. cbv zeta. cbn [md_block_size md_virtual_disk_size md_logical_sector_size md_has_parent].
  assert (0 <= params mod 2 ^ 32) as Hbs0 by (apply Z.mod_pos_bound; lia). set (bs := params mod 2 ^ 32) in *. clearbody bs.
  rewrite <- block_sizes, Hbs by done. cbn [andb]. unfold is_u32, is_u64, u32_max in *.
  assert (wmul (Z.shiftl 1 23) lss = 2 ^ 23 * lss) as -> by (apply wmul_small; change (Z.shiftl 1 23) with 8388608; unfold u64_max; lia).
  rewrite <- negb_orb. destruct ((lss =? 512) || (lss =? 4096)) eqn:Hor; cbn [negb andb]; [|done].
  assert (lss = 512 \/ lss = 4096) as Hl by (bool_to_prop; lia). clear Hor Hls.
  destruct (valid_block_size_spec bs Hbs0 Hbs) as (k & Hk & Hbk). pose proof (ratio_of_block k Hk) as (_ & _ & Hbr). rewrite <- Hbk in Hbr.
  assert (16 <= 2 ^ 23 * lss / bs <= 32768) as Hc.
  { change (2 ^ 23) with 8388608. split; [apply Z.div_le_lower_bound; lia | apply Z.div_le_upper_bound; lia]. }
  set (c := 2 ^ 23 * lss / bs) in *. clearbody c. destruct (Z.eqb_spec c 0) as [?|_]; [lia|].
  assert (0 <= div_ceil size bs <= 17592186044416) as Hn.
  { split; [apply div_ceil_nonneg; lia|]. apply div_ceil_le; [lia|]. unfold u64_max in *. lia. }
  set (n := div_ceil size bs) in *. clearbody n. unfold try_u32, u32_max. rewrite (proj2 (Z.leb_le c 4294967295)) by lia. cbn [mbind option_bind].
  rewrite plain_entry_count by lia. cbn [mbind option_bind]. unfold entries_of. set (tot := if n =? 0 then 0 else n + (n - 1) / c).
  assert (0 <= tot <= 2 * 17592186044416) as Htot.
  { unfold tot. destruct (Z.eqb_spec n 0) as [?|?]; [lia|]. pose proof (Z.div_pos (n - 1) c ltac:(lia) ltac:(lia)).
    pose proof (Z.div_le_upper_bound (n - 1) c (n - 1) ltac:(lia) ltac:(nia)). lia. }
  clearbody tot. destruct (Z.leb_spec tot 4294967295); cbn [mbind option_bind andb]; [|done].
  rewrite checked_mul_eq by (unfold u64_max; lia). cbn [mbind option_bind]. rewrite (Z.mul_comm 8).
  destruct (Z.ltb_spec bl (tot * 8)), (Z.leb_spec (tot * 8) bl); try lia; [done|].
  destruct (Z.testbit params 33); [|done]. unfold differencing_bat_entry_count. destruct (Z.eqb_spec c 0) as [?|_]; [lia|].
  rewrite checked_add_eq by (unfold u64_max; lia). cbn [mbind option_bind].
  assert (0 <= div_ceil n c * (c + 1) <= 17592186044416 * 32769) as Hpad.
  { assert (0 <= div_ceil n c <= n) by (split; [apply div_ceil_nonneg; lia | apply div_ceil_le; [lia | nia]]). nia. }
  rewrite checked_mul_eq by (unfold u64_max; lia). cbn [mbind option_bind].
  assert (bl / 8 <= bl) by (apply Z.div_le_upper_bound; lia). by rewrite (proj2 (Z.leb_le _ 4294967295)) by lia.
Qed.

Lemma item_at_bound ssz cap img abs w x : is_bytes img -> 0 <= w -> item_at ssz cap img abs w = Some x -> blen x = w /\ is_bytes x /\ 0 <= le_val x < 256 ^ w.
Proof.
  intros Hb Hw Hi. unfold item_at in Hi. destruct (_ && _); [|done]. pose proof (slice_blen _ _ _ _ Hi) as Hl. pose proof (slice_is_bytes _ _ _ _ Hb Hi) as Hx.
  split; [lia|]. split; [done|]. pose proof (le_val_bound x Hx) as Hv. rewrite Hl in Hv. by replace (abs + w - abs) with w in Hv by lia.
Qed.

(** The two halves of the file parameters. *)
Lemma parameter_halves fp : is_bytes fp -> blen fp = 8 ->
  le_val (take 4 fp) = le_val fp mod 2 ^ 32 /\ (forall i, 0 <= i -> Z.testbit (le_val (drop 4 fp)) i = Z.testbit (le_val fp) (i + 32)).
Proof.
  intros Hb Hl. unfold blen in Hl. pose proof (le_val_app (take 4 fp) (drop 4 fp)) as Happ. rewrite take_drop in Happ.
  assert (blen (take 4 fp) = 4) as Hl4 by (unfold blen; rewrite length_take; lia). rewrite Hl4 in Happ. change (256 ^ 4) with (2 ^ 32) in Happ.
  pose proof (le_val_bound (take 4 fp) (Forall_take _ _ _ Hb)) as Hlo. rewrite Hl4 in Hlo. change (256 ^ 4) with (2 ^ 32) in Hlo. split.
  - rewrite Happ, Z.mul_comm, Z.mod_add, Z.mod_small by lia. done.
  - intros i Hi. rewrite <- Z.div_pow2_bits by lia. rewrite Happ, Z.mul_comm, Z.div_add, Z.div_small by lia. done.
Qed.

Lemma metadata_agrees dev ssz cap img bo bl rs mo : is_bytes img -> device_ok ssz cap img -> 0 <= mo < cap * ssz -> is_u32 bl ->
  (md ← metadata_ref ssz cap img mo; geometry_of dev bo bl rs md) =
  (items ← metadata_entries ssz img mo;
   params ← metadata_item ssz cap img mo items file_parameters_guid 8;
   size ← metadata_item ssz cap img mo items virtual_disk_size_guid 8;
   lss ← metadata_item ssz cap img mo items logical_sector_size_guid 4;
   _ ← metadata_item ssz cap img mo items physical_sector_size_guid 4;
   image_geometry dev bo bl rs params size lss).
Proof.
  intros Hb [Hz Hcap Hsize Hlen] Hmo Hbl. unfold metadata_ref, metadata_item.
  pose proof (Z.div_mod mo ssz ltac:(lia)) as Hdm. pose proof (Z.mod_pos_bound mo ssz ltac:(lia)) as Hm.
  assert (mo / ssz < cap) as Hk by (apply Z.div_lt_upper_bound; lia). rewrite (proj2 (Z.ltb_lt _ _) Hk).
  assert ((mo / ssz + 1) * ssz <= cap * ssz) as Hend by (apply Z.mul_le_mono_nonneg_r; lia).
  replace ((mo / ssz + 1) * ssz) with (mo + (ssz - mo mod ssz)) by lia.
  destruct (slice_of img mo (mo + (ssz - mo mod ssz))) as (table & Ht & _); [lia | lia |]. rewrite Ht. cbn [mbind option_bind].
  destruct (locate_entries ssz img mo table Hb ltac:(lia) Ht) as (pl & ->).
  destruct (metadata_entries ssz img mo) as [es|]; [|done]. cbn [mbind option_bind].
  destruct (with_guid file_parameters_guid es) as [ofp|]; [|done]. cbn [mbind option_bind]. rewrite direct_read_item.
  destruct (with_guid virtual_disk_size_guid es) as [ovs|]; cbn [mbind option_bind]; [|by destruct (le_val <$> _)]. rewrite direct_read_item.
  destruct (with_guid logical_sector_size_guid es) as [ols|]; cbn [mbind option_bind]; [|by destruct (le_val <$> _), (le_val <$> _)]. rewrite direct_read_item.
  destruct (with_guid physical_sector_size_guid es) as [ops|]; cbn [mbind option_bind]; [|by destruct (le_val <$> _), (le_val <$> _), (le_val <$> _)].
  rewrite direct_read_item. cbn [mi_file_parameters mi_virtual_disk_size mi_logical_sector_size mi_physical_sector_size].
  destruct (item_at ssz cap img (mo + ofp) 8) as [fp|] eqn:Efp; [|done]. cbn [mbind option_bind fmap option_fmap option_map].
  destruct (item_at_bound ssz cap img (mo + ofp) 8 fp Hb ltac:(lia) Efp) as (Lfp & Bfp & Vfp). destruct (parameter_halves fp Bfp Lfp) as [Hlo Hhi].
  destruct (item_at ssz cap img (mo + ovs) 8) as [vs|] eqn:Evs; cbn [mbind option_bind fmap option_fmap option_map]; [|by destruct (negb _)].
  destruct (item_at ssz cap img (mo + ols) 4) as [ls|] eqn:Els; cbn [mbind option_bind fmap option_fmap option_map]; [|by destruct (negb _)].
  destruct (item_at ssz cap img (mo + ops) 4) as [ps|] eqn:Eps; cbn [mbind option_bind fmap option_fmap option_map]; [|by destruct (negb _)].
  destruct (item_at_bound ssz cap img (mo + ovs) 8 vs Hb ltac:(lia) Evs) as (_ & _ & Vvs). destruct (item_at_bound ssz cap img (mo + ols) 4 ls Hb ltac:(lia) Els) as (_ & _ & Vls).
  change (256 ^ 8) with 18446744073709551616 in *. change (256 ^ 4) with 4294967296 in *.
  rewrite Hlo, !Hhi by lia. destruct (is_valid_metadata_block_size (le_val fp mod 2 ^ 32)) eqn:Hv; cbn [negb mbind option_bind].
  - apply geometry_agrees; unfold is_u64, is_u32, u64_max, u32_max in *; done || lia.
  - unfold image_geometry. cbv zeta. rewrite <- block_sizes, Hv by (apply Z.mod_pos_bound; lia). done.
Qed.

Lemma regions_agree dev ssz cap img rt : is_bytes img -> device_ok ssz cap img -> 512 <= ssz ->
  slice img 196608 (196608 + ssz) = Some rt ->
  regions_ref dev ssz cap img rt =
  (es ← region_entries img;
   '(bo, bl) ← with_guid bat_guid es;
   '(mo, _) ← with_guid metadata_guid es;
   if (cap * ssz <=? bo) || (cap * ssz <=? mo) then None
   else
   items ← metadata_entries ssz img mo;
   params ← metadata_item ssz cap img mo items file_parameters_guid 8;
   size ← metadata_item ssz cap img mo items virtual_disk_size_guid 8;
   lss ← metadata_item ssz cap img mo items logical_sector_size_guid 4;
   _ ← metadata_item ssz cap img mo items physical_sector_size_guid 4;
   image_geometry dev bo bl (map snd es) params size lss).
Proof.
  intros Hb Hdev Hz Hrt. pose proof (slice_blen _ _ _ _ Hrt) as Hrl. pose proof (slice_is_bytes _ _ _ _ Hb Hrt) as Hrb.
  unfold regions_ref, region_entries, le_u32, REGION_TABLE_SIGNATURE, MAX_REGION_TABLE_ENTRIES.
  destruct (le_at_buf img 196608 ssz rt 0 4 Hrt) as (s0 & Hs0 & _ & L0); [lia..|]. destruct (le_at_buf img 196608 ssz rt 8 4 Hrt) as (s8 & Hs8 & Hi8 & L8); [lia..|].
  change (196608 + 0) with 196608 in L0. change (196608 + 8) with 196616 in *. rewrite Hs0, Hs8, L0, L8. cbn [or_panic obind ok_of mbind option_bind].
  pose proof (le_val_bound s8 (slice_is_bytes _ _ _ _ Hb Hi8)) as Hv8.
  destruct (le_val s0 =? 0x69676572); cbn [negb andb]; [|done].
  destruct (Z.ltb_spec 2047 (le_val s8)), (Z.leb_spec (le_val s8) 2047); try lia; [done|].
  destruct (scan_region_entries img rt ssz Hz Hrt (Z.to_nat (Z.min (le_val s8) 8)) 0 None None [] ltac:(lia) ltac:(lia)) as (es & Hes & Hscan).
  destruct (scan_total ssz rt (Z.to_nat (Z.min (le_val s8) 8)) Hrb ltac:(lia) 0 None None [] ltac:(lia) ltac:(constructor) ltac:(done) ltac:(done))
    as (b' & m' & r' & Hscan' & _ & Hbat & Hmd). rewrite Hscan in Hscan'. injection Hscan' as <- <- <-.
  rewrite Z2Nat.id in Hes by lia. rewrite Hscan, Hes. cbn [ok_of mbind option_bind app] in *.
  assert (forall x : option (Z * Z), or_old x None = x) as Hnone by (by intros []). rewrite !Hnone in *.
  destruct (with_guid bat_guid es) as [[bo bl]|]; [|done]. destruct (with_guid metadata_guid es) as [[mo ml]|]; [|done]. cbn [mbind option_bind].
  destruct (Hbat _ eq_refl) as [_ Hbl]. destruct (Hmd _ eq_refl) as [Hmo _]. cbn in Hbl, Hmo. unfold is_u64 in Hmo.
  destruct (_ <=? bo); [done|]. destruct (Z.leb_spec (cap * ssz) mo); [done|]. cbn [orb]. by apply metadata_agrees; [| |lia|].
Qed.

(** The image the reader opens is the one the bytes describe. *)
Lemma vhdx_init_ref_disk dev ssz cap img : is_bytes img -> device_ok ssz cap img -> sector_pow ssz ->
  init_ref dev ssz cap img = vhdx_disk dev ssz cap img.
Proof.
  intros Hb Hdev Hpow. destruct (sector_pow_cases ssz Hpow) as [Hz _]. pose proof Hdev as [_ Hcap Hsize Hlen].
  unfold init_ref, vhdx_disk. destruct (Z.ltb_spec (cap * ssz) 262144) as [|Hbig]; [done|]. cbn [orb].
  change HEADER1_OFFSET with 65536. change HEADER2_OFFSET with 131072. change REGION_TABLE1_OFFSET with 196608.
  destruct (slice_of img 196608 (196608 + ssz)) as (rt & Hrt & _); [lia | lia |]. rewrite Hrt. cbn [mbind option_bind].
  rewrite (regions_agree dev ssz cap img rt Hb Hdev ltac:(lia) Hrt).
  pose proof (header_at_valid img 65536 Hb) as H1. pose proof (header_at_valid img 131072 Hb) as H2.
  destruct (header_at img 65536), (header_at img 131072).
  - rewrite (proj1 H1) by done. done.
  - rewrite (proj1 H1) by done. done.
  - rewrite (proj1 H2), orb_true_r by done. done.
  - destruct (valid_header img 65536); [by destruct (proj2 H1)|]. destruct (valid_header img 131072); [by destruct (proj2 H2)|]. done.
Qed.

(** *** The entries *)

Lemma entry_bits e : is_u64 e -> Z.land e BAT_ENTRY_STATE_MASK = e mod 8 /\ Z.land e BAT_ENTRY_OFFSET_MASK = 1048576 * (e / 1048576).
Proof.
  intros He. split; [change BAT_ENTRY_STATE_MASK with (Z.ones 3); by rewrite Z.land_ones by lia|].
  destruct (offset_bits e He) as [_ ->]. lia.
Qed.

Lemma placed_iff st off : 0 <= off -> 0 < block_size st -> placed st off <->
  (off =? 0) = false /\ block_overlaps_a_declared_region st off (block_size st) = false.
Proof.
  intros Ho Hbs. unfold placed, block_overlaps_a_declared_region.
  assert (Forall (fun r => snd r = 0 \/ off + block_size st <= u64_max /\ fst r + snd r <= u64_max /\
            (off + block_size st <= fst r \/ fst r + snd r <= off)) (regions st) <->
          existsb (fun r => ranges_overlap off (block_size st) (fst r) (snd r)) (regions st) = false) as Hall.
  { induction (regions st) as [|r rs IH]; [split; constructor|]. cbn [existsb]. rewrite Forall_cons_iff, orb_false_iff, IH, ranges_overlap_false.
    intuition lia. }
  rewrite Hall. destruct (Z.eqb_spec off 0); intuition (done || lia).
Qed.

(** What the code makes of an entry is what it says. *)
Lemma verdict_says st e voff r : 0 < block_size st -> is_u64 e -> payload_verdict st e voff = Some r <-> block_says st e voff r.
Proof.
  intros Hbs He. destruct (entry_bits e He) as [Hst Hoff]. unfold payload_verdict. rewrite Hst, Hoff. cbv zeta.
  unfold PAYLOAD_BLOCK_NOT_PRESENT, PAYLOAD_BLOCK_UNDEFINED, PAYLOAD_BLOCK_UNMAPPED, PAYLOAD_BLOCK_ZERO, PAYLOAD_BLOCK_FULLY_PRESENT, PAYLOAD_BLOCK_PARTIALLY_PRESENT.
  pose proof (Z.mod_pos_bound voff (block_size st) Hbs) as Hm. pose proof (Z.mod_pos_bound e 8 ltac:(lia)) as Hm8. unfold is_u64 in He.
  assert (0 <= 1048576 * (e / 1048576)) as Ho0 by (pose proof (Z.div_pos e 1048576 ltac:(lia) ltac:(lia)); lia).
  pose proof (placed_iff st (1048576 * (e / 1048576)) Ho0 Hbs) as Hpl. set (off := 1048576 * (e / 1048576)) in *. set (x := voff mod block_size st) in *.
  destruct (Z.eqb_spec (e mod 8) 0), (Z.eqb_spec (e mod 8) 1), (Z.eqb_spec (e mod 8) 3); try lia; cbn [orb].
  1-3: split; [intros [= <-]; apply says_absent; lia | inversion 1; subst; done || lia].
  destruct (Z.eqb_spec (e mod 8) 2); [split; [intros [= <-]; by apply says_zero | inversion 1; subst; done || lia]|].
  destruct (Z.eqb_spec (e mod 8) 6).
  { split.
    - destruct (off =? 0) eqn:E0; [done|]. destruct (block_overlaps_a_declared_region _ _ _) eqn:Eo; [done|].
      intros (h & (-> & Hle)%checked_add_Some & [= <-])%bind_Some. apply (says_present st e voff off); [done | done | by apply Hpl | done].
    - inversion 1 as [| |o' _ Ho' Hp' Hle|]; subst; try lia. destruct (proj1 Hpl Hp') as [-> ->]. fold off x in Hle. rewrite checked_add_eq by lia. done. }
  destruct (Z.eqb_spec (e mod 8) 7).
  { split.
    - destruct (has_parent st) eqn:Ep; cbn [negb]; [|done]. destruct (off =? 0) eqn:E0; [done|].
      destruct (block_overlaps_a_declared_region _ _ _) eqn:Eo; [done|].
      intros (h & (-> & Hle)%checked_add_Some & (rest & Hrest & [= <-])%bind_Some)%bind_Some.
      unfold checked_sub in Hrest. rewrite (proj2 (Z.leb_le x (block_size st))) in Hrest by lia. injection Hrest as <-.
      apply (says_partial st e voff off); [done | done | done | by apply Hpl | done].
    - inversion 1 as [| | |o' _ Ep Ho' Hp' Hle]; subst; try lia. rewrite Ep. destruct (proj1 Hpl Hp') as [-> ->]. fold off x in Hle. cbn [negb].
      rewrite checked_add_eq by lia. cbn [mbind option_bind]. unfold checked_sub. rewrite (proj2 (Z.leb_le x (block_size st))) by lia. done. }
  split; [done|]. inversion 1; subst; lia.
Qed.

(** A lookup on the bytes gives the answer, or there is none. *)
Lemma block_ref_answer st ssz cap img voff : is_bytes img -> device_ok ssz cap img -> state_ok st ssz -> is_u64 voff ->
  match block_ref st ssz cap img voff with
  | Some r => vhdx_answer st img voff r
  | None =>
      voff / block_size st * block_size st < virtual_disk_size st /\
      (ssz < entry_place st voff mod ssz + 8 \/ cap <= entry_place st voff / ssz \/
       exists e, le_at img (entry_place st voff) 8 = Some e /\ forall r, ~ block_says st e voff r)
  end.
Proof.
  intros Hb Hdev Hok Hv. destruct (ratio_bounds st ssz Hok) as (Hbs & Hc & _). unfold is_u64 in Hv.
  unfold block_ref. cbv zeta. set (p := voff / block_size st). pose proof (Z.div_pos voff (block_size st) ltac:(lia) ltac:(lia)) as Hp. fold p in Hp.
  destruct (div_ceil_spec (virtual_disk_size st) (block_size st) ltac:(lia)) as [Hge Hlt].
  destruct (Z.leb_spec (div_ceil (virtual_disk_size st) (block_size st)) p) as [Hpast|Hin].
  { apply past_end. fold p. nia. }
  assert (p * block_size st < virtual_disk_size st) as Hin' by nia. unfold entry_place. cbv zeta. fold p.
  change (bat_index (chunk_ratio st) p) with (p + p / chunk_ratio st). set (o := bat_offset st + 8 * (p + p / chunk_ratio st)).
  assert (0 <= o) as Ho by (destruct (so_bat _ _ Hok); pose proof (Z.div_pos p (chunk_ratio st) ltac:(lia) ltac:(lia)); lia).
  destruct (direct_read ssz cap img 8 le_val o) as [e|] eqn:He; cbn [mbind option_bind].
  - pose proof (direct_read_bound _ _ _ _ _ _ _ Hb le_val_bound He) as Hbd. change (256 ^ 8) with 18446744073709551616 in Hbd.
    assert (le_at img o 8 = Some e) as Hat by (unfold direct_read in He; by destruct (_ && _)).
    pose proof (fun r => verdict_says st e voff r ltac:(lia) ltac:(unfold is_u64, u64_max; lia)) as Hver.
    destruct (payload_verdict st e voff) as [r|].
    + apply (in_disk st img voff e); [done | done | by apply Hver].
    + split; [done|]. right. right. exists e. split; [done|]. intros r Hr. by apply Hver in Hr.
  - split; [done|]. destruct (direct_read_None ssz cap img 8 le_val o Hdev Ho ltac:(lia) He) as [?|?]; [by left | by right; left].
Qed.

(** Where the lookup answers, none of the reasons to fail holds. *)
Lemma block_ref_valid st ssz cap img voff r : is_bytes img -> state_ok st ssz -> is_u64 voff ->
  block_ref st ssz cap img voff = Some r -> voff / block_size st * block_size st < virtual_disk_size st ->
  entry_place st voff mod ssz + 8 <= ssz /\ entry_place st voff / ssz < cap /\
  exists e, le_at img (entry_place st voff) 8 = Some e /\ block_says st e voff r.
Proof.
  intros Hb Hok Hv Hr Hin. destruct (ratio_bounds st ssz Hok) as (Hbs & _). unfold block_ref in Hr. cbv zeta in Hr.
  destruct (div_ceil_spec (virtual_disk_size st) (block_size st) ltac:(lia)) as [Hge _].
  destruct (Z.leb_spec (div_ceil (virtual_disk_size st) (block_size st)) (voff / block_size st)); [nia|].
  apply bind_Some in Hr as (e & He & Hr). change (direct_read ssz cap img 8 le_val (entry_place st voff) = Some e) in He.
  pose proof (direct_read_bound _ _ _ _ _ _ _ Hb le_val_bound He) as Hbd. change (256 ^ 8) with 18446744073709551616 in Hbd.
  unfold direct_read in He. destruct (Z.leb_spec (entry_place st voff mod ssz + 8) ssz), (Z.ltb_spec (entry_place st voff / ssz) cap); try done.
  split; [done|]. split; [done|]. exists e. split; [done|]. apply verdict_says; [lia | unfold is_u64, u64_max; lia | done].
Qed.
