(* ===== verification/VhdxOpen.v ===== *)
(** What a reader gets from a VHDX image: opening it and looking blocks up, on any bytes. *)

From stdpp Require Import base numbers list sets option.
From Stdlib Require Import ZArith Lia.
From S2P Require Import Prelude Bytes ExecBytes CachedRead Header Vhdx VhdxMeta VhdxReader VhdxInit VhdxSpec.

(** Opening and looking up, by the reference. *)
Lemma vhdx_lookups_spec {H : Type} `{FlatInput H} (dev ssz cap : Z) (img : bytes) (voffs : list Z) (s : InSt H) :
  device_ok ssz cap img -> is_bytes img -> sector_pow ssz -> cap * ssz + 4294967296 <= u64_max -> Forall is_u64 voffs ->
  reader_ok dev ssz img s ->
  wp (open_and_lookup (init dev ssz cap) ssz cap voffs)
    (fun r _ => init_ref dev ssz cap img = Some (fst r) /\ state_ok (fst r) ssz /\ mapM (block_ref (fst r) ssz cap img) voffs = Some (snd r))
    (fun _ _ => responsive (in_host s) ->
       init_ref dev ssz cap img = None \/
       exists st voff, init_ref dev ssz cap img = Some st /\ state_ok st ssz /\ voff ∈ voffs /\ block_ref st ssz cap img voff = None) s.
Proof.
  intros Hdev Hb Hpow Hbig Hvs Hs.
  eapply wp_mono; [apply (opened_lookups _ (fun st => init_ref dev ssz cap img = Some st /\ state_ok st ssz /\ device_idx st = dev)
    (init_ref dev ssz cap img = None) dev ssz cap img); try done | |].
  - by apply init_yields.
  - by intros st (_ & ? & ?).
  - intros [st bs] _ ((Hi & Hok & _) & _ & Hm). by split_and!.
  - intros ? ? Hfail Hresp. destruct (Hfail Hresp) as [Hn|(st & voff & (Hst & Hok & _) & _ & Hin & _ & Hn)]; [by left|right]. by exists st, voff.
Qed.

(** ** Properties *)

(** C35: Opening a VHDX image and looking up any sequence of guest offsets, on a flat device
    and whatever the two sector caches hold, never panics, overflows or runs out of fuel.
    It opens the image the bytes describe ([vhdx_disk], written from the format: a header
    with its checksum, the BAT and metadata regions by their GUIDs among the first eight
    entries of the region table, the metadata items by theirs, the geometry), and gives
    each guest offset the answer of its BAT entry ([vhdx_answer]): nothing past the end of
    the disk and for the states not present, undefined and unmapped, zeros for the zero
    state, the place in the file for a present block, which is clear of the file identifier
    and of the regions recorded, and a partial block only in a child.  Without read errors it
    fails only where the bytes describe no image, or where the entry of a guest offset
    of the disk is not inside one sector of the device or says nothing valid: an undefined
    state, a partial block without a parent, or a block at zero or on a recorded region. *)
Theorem vhdx_reads_exact {H : Type} `{FlatInput H} (dev ssz cap : Z) (img : bytes) (voffs : list Z) (s : InSt H) :
  device_ok ssz cap img -> is_bytes img -> sector_pow ssz -> cap * ssz + 4294967296 <= u64_max -> Forall is_u64 voffs ->
  reader_ok dev ssz img s ->
  wp (open_and_lookup (init dev ssz cap) ssz cap voffs)
    (fun r _ => vhdx_disk dev ssz cap img = Some (fst r) /\ Forall2 (vhdx_answer (fst r) img) voffs (snd r))
    (fun _ _ => responsive (in_host s) ->
       vhdx_disk dev ssz cap img = None \/
       exists st voff, vhdx_disk dev ssz cap img = Some st /\ voff ∈ voffs /\
         voff / block_size st * block_size st < virtual_disk_size st /\
         (ssz < entry_place st voff mod ssz + 8 \/ cap <= entry_place st voff / ssz \/
          exists e, le_at img (entry_place st voff) 8 = Some e /\ forall r, ~ block_says st e voff r)) s.
Proof.
  intros Hdev Hb Hpow Hbig Hvs Hs. pose proof (vhdx_init_ref_disk dev ssz cap img Hb Hdev Hpow) as Hdisk.
  eapply wp_mono; [by apply (vhdx_lookups_spec dev ssz cap img) | |].
  - intros [st bs] _ (Hi & Hok & Hm). cbn [fst snd] in *. rewrite <- Hdisk. split; [done|]. apply mapM_Some in Hm. clear Hs.
    induction Hm as [|v b vs bs Hvb _ IH]; [constructor|]. inversion Hvs as [|? ? Hv Hvs']; subst.
    constructor; [|by apply IH]. pose proof (block_ref_answer st ssz cap img v Hb Hdev Hok Hv) as Ha. by rewrite Hvb in Ha.
  - intros ? ? Hfail Hresp. rewrite <- Hdisk. destruct (Hfail Hresp) as [Hn|(st & voff & Hst & Hok & Hin & Hn)]; [by left|right].
    rewrite Forall_forall in Hvs. pose proof (Hvs voff (proj1 (list_elem_of_In _ _) Hin)) as Hv.
    pose proof (block_ref_answer st ssz cap img voff Hb Hdev Hok Hv) as Ha. rewrite Hn in Ha. by exists st, voff.
Qed.
