(* ===== verification/VhdxPlan.v ===== *)
(** The metadata plan of a fresh VHDX image ([plan_vhdx] of
    [src/src/crates/create/src/lib.rs]) and the BAT the guest streams for a fixed one
    ([emit_vhdx_fixed_bat] of [src/src/operations/create/src/main.rs]). *)

From stdpp Require Import base numbers list sets option.
From Stdlib Require Import ZArith Lia.
From S2P Require Import Prelude Bytes ExecBytes CachedRead Utf16 Header Create CreatePlan Vhdx VhdxMeta VhdxLocator.

(** ** Definitions *)

Definition REGION_TABLE2_OFFSET : Z := 0x40000.
Definition FILE_IDENTIFIER_SIGNATURE : Z := 0x656C_6966_7864_6876.

(** The bytes [instar], each followed by a zero. *)
Definition build_file_identifier (buf : bytes) : outcome unit bytes :=
  or_panic (apply_writes buf ((0, le_bytes 8 FILE_IDENTIFIER_SIGNATURE) ::
    imap (fun i ch => (8 + Z.of_nat i * 2, [ch; 0])) [105; 110; 115; 116; 97; 114])).

Inductive VhdxSubformat : Type := VsDynamic | VsFixed.

Record VhdxCreateOpts : Type := mkVhdxCreateOpts {
  vo_virtual_size : Z;
  vo_block_size : Z;
  vo_subformat : VhdxSubformat;
  vo_block_state_zero : bool;
  vo_backing : option BackingRef;
  vo_parent_data_write_guid : bytes
}.

Record FixedVhdxPlan : Type := mkFixedVhdxPlan {
  fp_layout : VhdxLayout;
  fp_state : FixedBlockState;
  fp_bat_bytes : Z;
  fp_file_length : Z
}.

Record VhdxPlan : Type := mkVhdxPlan { vp_metadata : MetadataPlan; vp_fixed : option FixedVhdxPlan }.

Definition map_vhdx_build_error (e : VhdxBuildError) : CreateError :=
  match e with
  | VbPathTooLong => CeParentNameTooLong
  | VbPathEmpty | VbUnknownKey => CeBackingFileUnsupported
  | VbBufferTooSmall => CeScratchTooSmall
  end.

Definition map_vhdx_layout_error (e : LayoutError) : CreateError :=
  match e with
  | LeInvalidBlockSize => CeInvalidBlockSize
  | LeTooLarge => CeInvalidVirtualSize
  | LeOverflow => CeOverflow
  end.

(** The bytes [.] and [\]. *)
Definition WINDOWS_RELATIVE_PREFIX : bytes := [46; 92].

(** The loop that consumes every leading [./] and the separators one exposes. *)
Fixpoint strip_dot_slash (rest : bytes) (consumed_dot_slash : bool) : bytes :=
  match rest with
  | 46 :: 47 :: tail => strip_dot_slash tail true
  | 47 :: tail => if consumed_dot_slash then strip_dot_slash tail consumed_dot_slash else rest
  | _ => rest
  end.

(** The loop that substitutes and collapses separators: the bytes it writes. *)
Fixpoint substitute_separators (rest : bytes) (previous_was_separator : bool) : bytes :=
  match rest with
  | [] => []
  | byte :: rest' =>
      let is_separator := byte =? 47 in
      if is_separator && previous_was_separator then substitute_separators rest' previous_was_separator
      else (if is_separator then 92 else byte) :: substitute_separators rest' is_separator
  end.

Definition windows_relative_parent_path (path : list Z) (buf_len : Z) : outcome CreateError (list Z) :=
  let bytes := str_bytes path in
  if existsb (fun b => b =? 92) bytes then Err CeParentPathNotRepresentable
  else
  let rest := strip_dot_slash bytes false in
  if bool_decide (rest = []) then Err CeBackingFileUnsupported
  else
  let prefix_len := blen WINDOWS_RELATIVE_PREFIX in
  let? longest_possible := ok_or (checked_add prefix_len (blen rest)) CeParentNameTooLong in
  if buf_len <? longest_possible then Err CeParentNameTooLong
  else
  ok_or (from_utf8 (WINDOWS_RELATIVE_PREFIX ++ substitute_separators rest false)) CeParentNameTooLong.

(** The path key and the value written under it. *)
Definition locator_path (path : list Z) : outcome CreateError (bytes * list Z) :=
  if bool_decide (head (str_bytes path) = Some 47) then Ok (KEY_ABSOLUTE_WIN32_PATH, path)
  else
  let? normalised := windows_relative_parent_path path MAX_PARENT_LOCATOR_VALUE_UTF8 in
  Ok (KEY_RELATIVE_PATH, normalised).

Definition vhdx_parent_path (backing : option BackingRef) : outcome CreateError (option (list Z)) :=
  match backing with
  | Some b =>
      if MAX_BACKING_FILE_LEN <? blen (br_path b) then Err CeBackingFileTooLong
      else let? path := ok_or (from_utf8 (br_path b)) CeBackingFileUnsupported in Ok (Some path)
  | None => Ok None
  end.

(** A builder that cannot fail. *)
Definition infallible {E A} (o : outcome unit A) : outcome E A :=
  match o with Ok a => Ok a | OutOfFuel => OutOfFuel | Err _ | Panic => Panic end.

Definition FILE_ID_LEN : Z := 4096.
Definition REGION_TABLE_LEN : Z := 65536.

(** The parent locator, when there is a parent. *)
Definition append_locator (metadata_region : bytes) (metadata_items_end : Z) (guid : bytes) (parent_path : option (list Z))
  : outcome CreateError bytes :=
  match parent_path with
  | None => Ok metadata_region
  | Some path =>
      let? (path_key, path_value) := locator_path path in
      let '(r, metadata_region) := build_parent_locator (as_u32 metadata_items_end) guid path_key path_value metadata_region in
      let? _ := map_err map_vhdx_build_error r in
      Ok metadata_region
  end.

(** The structures, each built in a region of the scratch buffer that is first filled with
    zeros, and their six writes. *)
Definition vhdx_structures (geometry : VhdxLayout) (fixed : bool) (guid : bytes) (parent_path : option (list Z)) : outcome CreateError MetadataPlan :=
  let? file_id_region := infallible (build_file_identifier (filled FILE_ID_LEN 0)) in
  let? header1_region := infallible (VhdxMeta.build_header (filled HEADER_SIZE 0) 1) in
  let? header2_region := infallible (VhdxMeta.build_header (filled HEADER_SIZE 0) 2) in
  let? rt_region := infallible (build_region_table (filled REGION_TABLE_LEN 0) (vl_bat_offset geometry)
    (vl_bat_region_len geometry) (vl_metadata_offset geometry) (vl_metadata_region_len geometry)) in
  let? (metadata_region, metadata_items_end) := infallible (build_metadata (filled (vl_metadata_region_len geometry) 0)
    (vl_block_size geometry) (vl_virtual_size geometry) (vl_logical_sector_size geometry)
    (vl_physical_sector_size geometry) fixed (bool_decide (is_Some parent_path))) in
  let? metadata_region := append_locator metadata_region metadata_items_end guid parent_path in
  let? plan := push MetadataPlan_new (0, file_id_region) in
  let? plan := push plan (HEADER1_OFFSET, header1_region) in
  let? plan := push plan (HEADER2_OFFSET, header2_region) in
  let? plan := push plan (REGION_TABLE1_OFFSET, rt_region) in
  let? plan := push plan (REGION_TABLE2_OFFSET, rt_region) in
  push plan (vl_metadata_offset geometry, metadata_region).

Definition plan_vhdx (opts : VhdxCreateOpts) (scratch_len : Z) : outcome CreateError VhdxPlan :=
  if vo_virtual_size opts =? 0 then Err CeInvalidVirtualSize
  else
  let fixed := match vo_subformat opts with VsDynamic => false | VsFixed => true end in
  if fixed && bool_decide (is_Some (vo_backing opts)) then Err CeBackingFileUnsupported
  else
  let? parent_path := vhdx_parent_path (vo_backing opts) in
  let? geometry := map_err map_vhdx_layout_error
    (layout (vo_virtual_size opts) (vo_block_size opts) (bool_decide (is_Some parent_path))) in
  let total_scratch_needed := FILE_ID_LEN + HEADER_SIZE + HEADER_SIZE + REGION_TABLE_LEN + vl_metadata_region_len geometry in
  if scratch_len <? total_scratch_needed then Err CeScratchTooSmall
  else
  let? plan := vhdx_structures geometry fixed (vo_parent_data_write_guid opts) parent_path in
  let? fixed_plan :=
    if fixed then
      let? bat_bytes := ok_or (checked_mul (vl_bat_entries geometry) 8) CeOverflow in
      Ok (Some (mkFixedVhdxPlan geometry (if vo_block_state_zero opts then FbZero else FbFullyPresent) bat_bytes
                  (vl_fixed_file_length geometry)))
    else Ok None in
  Ok (mkVhdxPlan plan fixed_plan).

Definition parent_format_matches (target detected hint : ImageFormat) : bool :=
  match target with
  | FmtVhd | FmtVhdx =>
      if negb (bool_decide (detected = target)) then false
      else bool_decide (hint = FmtUnknown) || bool_decide (hint = detected)
  | _ => true
  end.

Definition footer_fallback_applies (detected hint : ImageFormat) : bool :=
  match detected with
  | FmtVhd => true
  | FmtRaw => bool_decide (hint = FmtUnknown) || bool_decide (hint = FmtVhd)
  | _ => false
  end.

(** The loop of [emit_vhdx_fixed_bat]: the writes of the BAT, a slot at a time through the
    same buffer.  Every turn writes at least one byte. *)
Fixpoint bat_writes (fuel : nat) (fixed : FixedVhdxPlan) (total written : Z) (slot : bytes) : outcome unit (list MetadataWrite) :=
  match fuel with
  | O => OutOfFuel
  | S fuel' =>
      if written <? total then
        let len := Z.min (total - written) MAX_SECTOR_SIZE in
        let? buf := or_panic (slice slot 0 len) in
        let first_entry := written / 8 in
        let '(r, buf) := fill_fixed_bat (fp_layout fixed) (fp_state fixed) first_entry buf in
        let? _ := map_err (fun _ => tt) r in
        let? slot := or_panic (splice slot 0 buf) in
        let? byte_offset := ok_or (checked_add (vl_bat_offset (fp_layout fixed)) written) tt in
        let? written := ok_or (checked_add written len) tt in
        let? rest := bat_writes fuel' fixed total written slot in
        Ok ((byte_offset, buf) :: rest)
      else Ok []
  end.

(** [emit_vhdx_fixed_bat] up to the sector writes: the checks on the device, then the loop. *)
Definition emit_vhdx_fixed_bat (fixed : FixedVhdxPlan) (sector_size output_capacity : Z) (slot : bytes) : outcome unit (list MetadataWrite) :=
  if sector_size =? 0 then Err tt
  else if negb (MAX_SECTOR_SIZE mod sector_size =? 0) then Err tt
  else
  let? device_bytes := ok_or (checked_mul output_capacity sector_size) tt in
  if device_bytes <? fp_file_length fixed then Err tt
  else
  let? total := ok_or (checked_next_multiple_of (fp_bat_bytes fixed) sector_size) tt in
  bat_writes (S (Z.to_nat total)) fixed total 0 slot.

(** ** The relative path *)

(** The pieces between separators; those that name something. *)
Fixpoint pieces (cur l : bytes) : list bytes :=
  match l with
  | [] => [cur]
  | b :: l' => if b =? 47 then cur :: pieces [] l' else pieces (cur ++ [b]) l'
  end.

Definition path_names (p : bytes) : list bytes := filter (fun piece => piece <> [] /\ piece <> [46]) (pieces [] p).

Lemma path_names_cons_sep l : path_names (47 :: l) = path_names l.
Proof. unfold path_names. cbn [pieces]. change (47 =? 47) with true. cbn iota. apply filter_cons_False. tauto. Qed.

Lemma path_names_dot l : path_names (46 :: 47 :: l) = path_names l.
Proof. unfold path_names. cbn [pieces app]. change (46 =? 47) with false. change (47 =? 47) with true. cbn iota. apply filter_cons_False. tauto. Qed.

Lemma strip_cases l c : strip_dot_slash l c = l \/
  (exists t, l = 46 :: 47 :: t /\ strip_dot_slash l c = strip_dot_slash t true) \/
  (exists t, l = 47 :: t /\ c = true /\ strip_dot_slash l c = strip_dot_slash t true).
Proof.
  destruct l as [|a l]; [by left|]. destruct (decide (a = 47)) as [->|H47].
  { destruct c; [right; right; by exists l | by left]. }
  destruct (decide (a = 46)) as [->|H46].
  - destruct l as [|b l]; [by left|]. destruct (decide (b = 47)) as [->|Hb]; [right; left; by exists l|]. left. cbn [strip_dot_slash].
    destruct b as [|p|p]; try done. repeat (destruct p as [p|p|]; try done).
  - left. cbn [strip_dot_slash]. destruct a as [|p|p]; try done. repeat (destruct p as [p|p|]; try done).
Qed.

Lemma strip_names l c : path_names (strip_dot_slash l c) = path_names l.
Proof.
  revert c. induction l as [l IH] using (induction_ltof1 _ length); unfold ltof in IH. intros c.
  destruct (strip_cases l c) as [->|[(t & -> & ->)|(t & -> & -> & ->)]]; [done | |].
  - rewrite path_names_dot. apply IH. cbn. lia.
  - rewrite path_names_cons_sep. apply IH. cbn. lia.
Qed.

Lemma strip_shorter l c : (length (strip_dot_slash l c) <= length l)%nat.
Proof.
  revert c. induction l as [l IH] using (induction_ltof1 _ length); unfold ltof in IH. intros c.
  destruct (strip_cases l c) as [->|[(t & -> & ->)|(t & -> & _ & ->)]]; [done | |]; (etrans; [apply IH|]; cbn; lia).
Qed.

(** Nothing absolute comes out. *)
Lemma strip_relative l c : (c = false -> head l <> Some 47) -> head (strip_dot_slash l c) <> Some 47.
Proof.
  revert c. induction l as [l IH] using (induction_ltof1 _ length); unfold ltof in IH. intros c Hc.
  destruct (strip_cases l c) as [He|[(t & -> & ->)|(t & -> & -> & ->)]]; [|apply IH; [cbn; lia | done]|apply IH; [cbn; lia | done]].
  destruct c; [|rewrite He; by apply Hc]. destruct l as [|a l]; [done|]. intros Ha. rewrite He in Ha. injection Ha as ->. cbn [strip_dot_slash] in He.
  pose proof (strip_shorter l true) as Hle. rewrite He in Hle. cbn in Hle. lia.
Qed.

(** What the substitution leaves once [\] is read as [/]. *)
Fixpoint collapse (l : bytes) (prev : bool) : bytes :=
  match l with
  | [] => []
  | b :: l' => if (b =? 47) && prev then collapse l' prev else b :: collapse l' (b =? 47)
  end.

Lemma substitute_posix l prev : ~ 92 ∈ l -> map (fun b => if b =? 92 then 47 else b) (substitute_separators l prev) = collapse l prev.
Proof.
  revert prev. induction l as [|b l IH]; intros prev Hn; [done|]. apply not_elem_of_cons in Hn as [Hb Hn]. cbn [substitute_separators collapse].
  destruct (Z.eqb_spec b 47) as [->|H47]; cbn [andb].
  - destruct prev; [by apply IH|]. cbn [map]. change (92 =? 92) with true. cbn iota. by rewrite IH.
  - cbn [map]. destruct (Z.eqb_spec b 92) as [->|]; [done|]. by rewrite IH.
Qed.

Lemma collapse_names l prev cur : (prev = true -> cur = []) ->
  filter (fun piece : bytes => piece <> [] /\ piece <> [46]) (pieces cur (collapse l prev)) = filter (fun piece => piece <> [] /\ piece <> [46]) (pieces cur l).
Proof.
  revert prev cur. induction l as [|b l IH]; intros prev cur Hc; [done|]. cbn [collapse pieces].
  destruct (Z.eqb_spec b 47) as [->|H47]; cbn [andb].
  - destruct prev; [|cbn [pieces]; change (47 =? 47) with true; cbn iota; rewrite !filter_cons, IH by done; done].
    rewrite (Hc eq_refl), (filter_cons_False _ [] _) by tauto. by apply IH.
  - cbn [pieces]. destruct (Z.eqb_spec b 47); [done|]. by apply IH.
Qed.

(** Both loops on the bytes of a string. *)
Lemma utf8_bytes_high c : is_char c = true -> 128 <= c -> Forall (fun b => 128 <= b) (utf8_bytes c) /\ utf8_bytes c <> [].
Proof.
  intros Hc Hh. pose proof (char_range c Hc) as Hr. rewrite utf8_bytes_arith by done. destruct (Z.ltb_spec c 128); [lia|].
  pose proof (Z.mod_pos_bound c 64 ltac:(lia)). pose proof (Z.mod_pos_bound (c / 64) 64 ltac:(lia)). pose proof (Z.mod_pos_bound (c / 4096) 64 ltac:(lia)).
  assert (0 <= c / 64) by (apply Z.div_pos; lia). assert (0 <= c / 4096) by (apply Z.div_pos; lia). assert (0 <= c / 262144) by (apply Z.div_pos; lia).
  repeat case_match; (split; [|done]); repeat (apply Forall_cons_2; [lia|]); apply Forall_nil_2.
Qed.

Lemma str_bytes_head s b t : all_chars s -> str_bytes s = b :: t -> b < 128 -> exists s', s = b :: s' /\ t = str_bytes s' /\ all_chars s'.
Proof.
  intros Hs He Hb. destruct s as [|c s]; [done|]. apply Forall_cons_1 in Hs as [Hc Hs]. rewrite str_bytes_cons in He. pose proof (char_range c Hc) as Hr.
  destruct (Z.lt_ge_cases c 128) as [Hl|Hh].
  - rewrite utf8_bytes_arith, (proj2 (Z.ltb_lt c 128)) in He by lia. injection He as -> <-. by exists s.
  - destruct (utf8_bytes_high c Hc Hh) as [Hf Hn]. destruct (utf8_bytes c) as [|h hs]; [done|]. injection He as -> _. apply Forall_cons_1 in Hf as [? _]. lia.
Qed.

Lemma str_bytes_ascii a s : 0 <= a < 128 -> str_bytes (a :: s) = a :: str_bytes s.
Proof. intros Ha. rewrite str_bytes_cons, utf8_bytes_arith by lia. by rewrite (proj2 (Z.ltb_lt a 128)) by lia. Qed.

Lemma strip_str s c : all_chars s -> strip_dot_slash (str_bytes s) c = str_bytes (strip_dot_slash s c).
Proof.
  revert c. induction s as [s IH] using (induction_ltof1 _ length); unfold ltof in IH. intros c Hs.
  destruct (strip_cases (str_bytes s) c) as [He|[(t & Ht & He)|(t & Ht & -> & He)]].
  - rewrite He. destruct (strip_cases s c) as [->|[(t & -> & Hst)|(t & -> & -> & Hst)]]; [done | |].
    + rewrite !str_bytes_ascii in He by lia. cbn [strip_dot_slash] in He. pose proof (strip_shorter (str_bytes t) true) as Hle. rewrite He in Hle. cbn in Hle. lia.
    + rewrite !str_bytes_ascii in He by lia. cbn [strip_dot_slash] in He. pose proof (strip_shorter (str_bytes t) true) as Hle. rewrite He in Hle. cbn in Hle. lia.
  - destruct (str_bytes_head s _ _ Hs Ht) as (s1 & -> & Ht1 & Hs1); [lia|]. symmetry in Ht1. destruct (str_bytes_head s1 _ _ Hs1 Ht1) as (s2 & -> & -> & Hs2); [lia|].
    rewrite He. cbn [strip_dot_slash]. apply IH; [cbn; lia | done].
  - destruct (str_bytes_head s _ _ Hs Ht) as (s1 & -> & -> & Hs1); [lia|]. rewrite He. cbn [strip_dot_slash]. apply IH; [cbn; lia | done].
Qed.

Lemma substitute_high hs rest prev : Forall (fun b => 128 <= b) hs -> hs <> [] ->
  substitute_separators (hs ++ rest) prev = hs ++ substitute_separators rest false.
Proof.
  intros Hf. revert prev. induction Hf as [|b hs Hb Hf IH]; intros prev Hn; [done|]. cbn [app substitute_separators].
  destruct (Z.eqb_spec b 47); [lia|]. cbn [andb]. f_equal. destruct hs; [done|]. by apply IH.
Qed.

Lemma substitute_str s prev : all_chars s -> substitute_separators (str_bytes s) prev = str_bytes (substitute_separators s prev).
Proof.
  intros Hs. revert prev. induction Hs as [|c s Hc Hs IH]; intros prev; [done|]. pose proof (char_range c Hc) as Hr. cbn [substitute_separators].
  destruct (Z.lt_ge_cases c 128) as [Hl|Hh].
  - rewrite str_bytes_ascii by lia. cbn [substitute_separators]. destruct (_ && _); [apply IH|].
    destruct (c =? 47); rewrite str_bytes_ascii by lia; by rewrite IH.
  - destruct (utf8_bytes_high c Hc Hh) as [Hf Hn]. rewrite str_bytes_cons, substitute_high by done. destruct (Z.eqb_spec c 47); [lia|]. cbn [andb].
    by rewrite str_bytes_cons, IH.
Qed.

(** Decoded text is text. *)
Lemma from_utf8_text l s : is_bytes l -> ~ 0 ∈ l -> from_utf8 l = Some s -> is_text s /\ str_bytes s = l.
Proof.
  intros Hb Hz Hs. destruct (from_utf8_Some l s Hb Hs) as [Hc <-]. split; [|done]. apply Forall_forall. intros c Hin.
  split; [unfold all_chars in Hc; rewrite Forall_forall in Hc; by apply Hc|]. intros ->. apply Hz. clear -Hin.
  induction s as [|c s IH]; [done|]. rewrite str_bytes_cons. apply elem_of_app. destruct Hin as [->|Hin]; [left; by vm_compute; left | right; by apply IH].
Qed.

Lemma strip_Forall (P : Z -> Prop) l c : Forall P l -> Forall P (strip_dot_slash l c).
Proof.
  revert c. induction l as [l IH] using (induction_ltof1 _ length); unfold ltof in IH. intros c Hf.
  destruct (strip_cases l c) as [->|[(t & -> & ->)|(t & -> & _ & ->)]]; [done | |].
  - apply Forall_cons_1 in Hf as [_ Hf]. apply Forall_cons_1 in Hf as [_ Hf]. apply IH; [cbn; lia | done].
  - apply Forall_cons_1 in Hf as [_ Hf]. apply IH; [cbn; lia | done].
Qed.

Lemma substitute_Forall (P : Z -> Prop) l prev : P 92 -> Forall P l -> Forall P (substitute_separators l prev).
Proof.
  intros H92 Hf. revert prev. induction Hf as [|b l Hb Hf IH]; intros prev; [apply Forall_nil_2|]. cbn [substitute_separators].
  destruct (_ && _); [apply IH|]. apply Forall_cons_2; [by destruct (b =? 47) | apply IH].
Qed.

(** The path a parent is recorded by: an absolute one as typed; a relative one in the
    Windows convention, naming the same file when read back. *)
Definition path_recorded (path : list Z) (k : bytes) (v : list Z) : Prop :=
  is_text v /\ v <> [] /\
  ((k = KEY_ABSOLUTE_WIN32_PATH /\ v = path /\ head (str_bytes path) = Some 47) \/
   (k = KEY_RELATIVE_PATH /\ head (str_bytes path) <> Some 47 /\
    exists back, posix_relative_path (str_bytes v) (blen (str_bytes v)) = Some back /\ head back <> Some 47 /\
      path_names back = path_names (str_bytes path))).

Definition path_refused (path : list Z) (e : CreateError) : Prop :=
  head (str_bytes path) <> Some 47 /\
  match e with
  | CeParentPathNotRepresentable => 92 ∈ str_bytes path
  | CeBackingFileUnsupported => strip_dot_slash (str_bytes path) false = []
  | CeParentNameTooLong => 778 < blen (strip_dot_slash (str_bytes path) false)
  | _ => False
  end.

Lemma text_chars s : is_text s -> all_chars s.
Proof. intros Hs. eapply Forall_impl; [|exact Hs]. by intros c []. Qed.

Lemma locator_path_spec path : is_text path -> blen (str_bytes path) <= u64_max - 2 ->
  match locator_path path with
  | Ok (k, v) => path_recorded path k v
  | Err e => path_refused path e
  | _ => False
  end.
Proof.
  intros Ht Hlen. pose proof (text_chars _ Ht) as Hch. unfold locator_path.
  case_bool_decide as Hab.
  { split_and!; [done | | left; by split_and!]. intros ->. done. }
  unfold windows_relative_parent_path. destruct (existsb _ _) eqn:H92.
  { split; [done|]. apply existsb_exists in H92 as (b & Hin & ->%Z.eqb_eq). by apply list_elem_of_In. }
  assert (~ 92 ∈ str_bytes path) as Hno.
  { intros Hin. apply list_elem_of_In in Hin. rewrite <- not_true_iff_false in H92. apply H92. apply existsb_exists. by exists 92. }
  set (rest := strip_dot_slash (str_bytes path) false). case_bool_decide as Hrest; [by split|].
  assert (blen rest <= blen (str_bytes path)) as Hsh by (pose proof (strip_shorter (str_bytes path) false) as Hss; fold rest in Hss; unfold blen; lia). pose proof (blen_nonneg rest).
  change (blen WINDOWS_RELATIVE_PREFIX) with 2. rewrite checked_add_eq by lia. cbn [ok_or obind].
  change MAX_PARENT_LOCATOR_VALUE_UTF8 with 780. destruct (Z.ltb_spec 780 (2 + blen rest)); [cbn [obind]; split; [done|]; change (778 < blen rest); lia|].
  set (r := strip_dot_slash path false). assert (is_text r) as Hr by (by apply strip_Forall). assert (rest = str_bytes r) as Hrr by (by apply strip_str).
  set (v := 46 :: 92 :: substitute_separators r false).
  assert (is_text v) as Hv.
  { apply Forall_cons_2; [by split; [apply is_char_spec|]; lia|]. apply Forall_cons_2; [by split; [apply is_char_spec|]; lia|].
    apply substitute_Forall; [split; [reflexivity | lia] | done]. }
  assert (WINDOWS_RELATIVE_PREFIX ++ substitute_separators rest false = str_bytes v) as Hvb.
  { unfold v. rewrite !str_bytes_ascii by lia. rewrite Hrr, substitute_str by (by apply text_chars). done. }
  rewrite Hvb, (from_utf8_str v) by (by apply text_chars). cbn [ok_or obind]. split_and!; [done | done | right]. split_and!; [done | done|].
  assert (~ 92 ∈ rest) as Hnr.
  { assert (Forall (fun b => b <> 92) rest) as Hf. { apply strip_Forall, Forall_forall. intros b Hin ->. apply Hno. by apply list_elem_of_In. }
    rewrite Forall_forall in Hf. intros Hin. apply (Hf 92); [by apply list_elem_of_In | done]. }
  exists (collapse rest false). split; [|split].
  - rewrite <- Hvb. unfold posix_relative_path. cbn [WINDOWS_RELATIVE_PREFIX app].
    destruct (Z.eqb_spec (blen (substitute_separators rest false)) 0) as [He|He].
    { exfalso. destruct rest as [|b rest']; [done|]. cbn [substitute_separators] in He. rewrite andb_false_r in He. unfold blen in He. cbn in He. lia. }
    destruct (Z.ltb_spec (blen (46 :: 92 :: substitute_separators rest false)) (blen (substitute_separators rest false))) as [Hlt|_]; [unfold blen in Hlt; cbn in Hlt; lia|].
    by rewrite substitute_posix.
  - pose proof (strip_relative (str_bytes path) false ltac:(done)) as Hrel. fold rest in Hrel. destruct rest as [|b rest']; [done|].
    cbn [collapse]. rewrite andb_false_r. exact Hrel.
  - unfold path_names. rewrite (collapse_names rest false []) by done. apply strip_names.
Qed.

(** ** The metadata region of a plan *)

(** The region as a reader finds it: the built-in entries and items, the count and, in a
    child, the locator. *)
Record region_holds (md : bytes) (l : VhdxLayout) (leave : bool) (locator : option (bytes * bytes * list Z)) : Prop := {
  rh_blen : blen md = MB_ALIGN;
  rh_bytes : is_bytes md;
  rh_entries : forall off src, (off, src) ∈ metadata_fields -> off <> 10 -> slice md off (off + blen src) = Some src;
  rh_items : forall off src,
    (off, src) ∈ item_fields (vl_block_size l) (vl_virtual_size l) (vl_logical_sector_size l) (vl_physical_sector_size l) leave (bool_decide (is_Some locator)) ->
    slice md (65536 + off) (65536 + off + blen src) = Some src;
  rh_count : slice md 10 12 = Some (le_bytes 2 (match locator with Some _ => 6 | None => 5 end));
  rh_locator : forall k link path, locator = Some (k, link, path) -> exists n item, 0 <= n <= 65536 /\ entry_names md 192 65576 n /\
    slice md 65576 (65576 + n) = Some item /\ parse_parent_locator item = Ok (built_locator k link path (units_bytes false (str_units path)))
}.

Lemma metadata_field_bounds off src : (off, src) ∈ metadata_fields -> 0 <= off /\ off + blen src <= 192 /\ (off <> 10 -> off + blen src <= 10 \/ 12 <= off).
Proof.
  intros Hin. apply list_elem_of_In in Hin.
  assert (forallb (fun w => (0 <=? w.1) && (w.1 + blen w.2 <=? 192) && ((w.1 =? 10) || (w.1 + blen w.2 <=? 10) || (12 <=? w.1))) metadata_fields = true) as Hall by (vm_compute; reflexivity).
  rewrite forallb_forall in Hall. specialize (Hall _ Hin). cbn [fst snd] in Hall. bool_to_prop. lia.
Qed.

Lemma item_field_bounds bs vs ls ps leave parent off src : (off, src) ∈ item_fields bs vs ls ps leave parent -> 0 <= off /\ off + blen src <= 40.
Proof.
  intros Hin. apply list_elem_of_In in Hin. unfold item_fields in Hin. destruct leave, parent;
    repeat (destruct Hin as [[= <- <-]|Hin]; [rewrite ?blen_le_bytes; vm_compute; split; discriminate|]); destruct Hin.
Qed.

Lemma locator_item_bound md off k path : ~ locator_refused md off k path VbPathTooLong -> (k = KEY_RELATIVE_PATH \/ k = KEY_ABSOLUTE_WIN32_PATH) ->
  0 <= 148 + 2 * blen k + 2 * Z.of_nat (length (str_units path)) <= 706.
Proof. intros Hn Hk. cbn in Hn. destruct (path_key_facts k Hk) as (_ & Hkl & _). unfold blen in *. lia. Qed.

Section region.
Context (l : VhdxLayout) (leave : bool) (md0 : bytes).

Abbreviation items parent := (item_fields (vl_block_size l) (vl_virtual_size l) (vl_logical_sector_size l) (vl_physical_sector_size l) leave parent).

Context (buf : bytes) (Hbuf : blen buf = MB_ALIGN).

Lemma built_region : metadata_built buf md0 (items false) -> region_holds md0 l leave None.
Proof.
  intros Hm. split; [by rewrite (mb_blen _ _ _ Hm) | exact (mb_bytes _ _ _ Hm) | | exact (mb_item _ _ _ Hm) | | done].
  - intros off src Hin _. by apply (mb_table _ _ _ Hm).
  - apply (mb_table _ _ _ Hm 10 (le_bytes 2 5)). table_elem.
Qed.

(** A child's region, by the locator's theorem. *)
Lemma appended_region guid path : is_bytes guid -> blen guid = 16 -> is_text path -> blen (str_bytes path) <= u64_max - 2 ->
  metadata_built buf md0 (items true) ->
  match append_locator md0 65576 guid (Some path) with
  | Ok md => exists k link v, locator_path path = Ok (k, v) /\ render_guid_braced guid = Ok link /\ path_recorded path k v /\
      region_holds md l leave (Some (k, link, v))
  | Err e => locator_path path = Err e \/
      exists k v, locator_path path = Ok (k, v) /\ 520 < 2 * Z.of_nat (length (str_units v)) /\ e = CeParentNameTooLong
  | _ => False
  end.
Proof.
  intros Hg Hgl Ht Hpl Hm. unfold append_locator. pose proof (locator_path_spec path Ht Hpl) as Hlp.
  destruct (locator_path path) as [[k v]|e| |]; [|by left|done|done]. cbn [obind]. pose proof Hlp as (Hvt & Hvn & Hk).
  assert (k = KEY_RELATIVE_PATH \/ k = KEY_ABSOLUTE_WIN32_PATH) as Hkey by tauto. change (as_u32 65576) with 65576.
  pose proof (mb_blen _ _ _ Hm) as Hl. rewrite Hbuf in Hl. unfold MB_ALIGN in Hl.
  pose proof (build_locator_wp 65576 guid k v md0 (mb_bytes _ _ _ Hm) Hg Hgl ltac:(lia) Hvt) as Hw. unfold wp in Hw.
  assert (le_u16 (E := unit) md0 10 = Ok 5) as H5 by (apply le_u16_of; [|lia]; apply (mb_table _ _ _ Hm 10 (le_bytes 2 5)); table_elem).
  pose proof (path_key_facts k Hkey) as (_ & Hkl & _).
  destruct (build_parent_locator 65576 guid k v md0) as [[n|e| |] md]; [| |done|done].
  - destruct Hw as (link & Hlink & _ & Hsh & Hn & [Hit Hen Hsz Hby]). cbn [map_err obind]. exists k, link, v. split; [done|]. split; [done|]. split; [done|].
    destruct Hen as (count & Hc & Hnames & _ & Hc' & Hfr). rewrite H5 in Hc. injection Hc as <-. change (32 + 32 * 5) with 192 in *. change (192 + 32) with 224 in Hfr.
    destruct Hit as (item & Hi & Hp). split; try done; try (by rewrite Hsz).
    + intros off src Hin Hne. rewrite <- (mb_table _ _ _ Hm off src Hin). destruct (metadata_field_bounds off src Hin) as (? & ? & ?). apply Hfr; lia.
    + intros off src Hin. rewrite bool_decide_eq_true_2 in Hin by done. rewrite <- (mb_item _ _ _ Hm off src Hin).
      destruct (item_field_bounds _ _ _ _ _ _ _ _ Hin). apply Hfr; lia.
    + intros k' link' v' [= <- <- <-]. exists n, item. split_and!; try done; lia.
  - right. destruct Hw as [-> Hr]. cbn [map_err obind]. exists k, v. split; [done|]. destruct e; cbn [locator_refused] in Hr; try done; [|tauto..].
    destruct Hr as (Hs & [?|(c & Hc & Hb)]); [lia|]. rewrite H5 in Hc. injection Hc as <-. unfold blen in Hb, Hkl, Hl. lia.
Qed.
End region.

(** ** The plan *)

Definition is_fixed (opts : VhdxCreateOpts) : bool := match vo_subformat opts with VsDynamic => false | VsFixed => true end.

Record vhdx_request_ok (opts : VhdxCreateOpts) : Prop := {
  vr_size : is_u64 (vo_virtual_size opts);
  vr_block : is_u32 (vo_block_size opts);
  vr_guid : is_bytes (vo_parent_data_write_guid opts) /\ blen (vo_parent_data_write_guid opts) = 16;
  vr_path : forall b, vo_backing opts = Some b -> is_bytes (br_path b) /\ ~ 0 ∈ br_path b
}.

(** What the locator of a child says. *)
Definition locator_for (opts : VhdxCreateOpts) (parent : option (list Z)) (locator : option (bytes * bytes * list Z)) : Prop :=
  match parent, locator with
  | None, None => True
  | Some path, Some (k, link, v) => render_guid_braced (vo_parent_data_write_guid opts) = Ok link /\ path_recorded path k v
  | _, _ => False
  end.

(** The structures as a reader finds them. *)
Record structures_hold (l : VhdxLayout) (leave : bool) (locator : option (bytes * bytes * list Z)) (plan : MetadataPlan) (fid h1 h2 rt md : bytes) : Prop := {
  vp_writes : mp_writes plan = [(0, fid); (65536, h1); (131072, h2); (196608, rt); (262144, rt); (vl_metadata_offset l, md)];
  vp_sizes : minimum_file_size plan = vl_data_start l /\ total_metadata_bytes plan = 143360 + MB_ALIGN;
  vp_fid : blen fid = 4096 /\ is_bytes fid /\ slice fid 0 8 = Some (le_bytes 8 FILE_IDENTIFIER_SIGNATURE);
  vp_header1 : stamped (filled 4096 0) h1 (header_fields 1) 4096;
  vp_header2 : stamped (filled 4096 0) h2 (header_fields 2) 4096;
  vp_table : stamped (filled 65536 0) rt
    (region_fields (vl_bat_offset l) (vl_bat_region_len l) (vl_metadata_offset l) (vl_metadata_region_len l)) 65536;
  vp_region : region_holds md l leave locator
}.

(** What a fixed image needs beside them. *)
Definition fixed_rest (opts : VhdxCreateOpts) (l : VhdxLayout) : option FixedVhdxPlan :=
  if is_fixed opts then
    Some (mkFixedVhdxPlan l (if vo_block_state_zero opts then FbZero else FbFullyPresent) (vl_bat_entries l * 8) (vl_fixed_file_length l))
  else None.

(** The refusals. *)
Definition vhdx_plan_refused (opts : VhdxCreateOpts) (scratch_len : Z) (e : CreateError) : Prop :=
  (vo_virtual_size opts = 0 /\ e = CeInvalidVirtualSize) \/
  (is_fixed opts = true /\ vo_backing opts <> None /\ e = CeBackingFileUnsupported) \/
  vhdx_parent_path (vo_backing opts) = Err e \/
  (exists parent, vhdx_parent_path (vo_backing opts) = Ok parent /\
     ((exists le, layout (vo_virtual_size opts) (vo_block_size opts) (bool_decide (is_Some parent)) = Err le /\ e = map_vhdx_layout_error le) \/
      (scratch_len < 77824 + MB_ALIGN /\ e = CeScratchTooSmall) \/
      (exists path, parent = Some path /\ (locator_path path = Err e \/
         exists k v, locator_path path = Ok (k, v) /\ 520 < 2 * Z.of_nat (length (str_units v)) /\ e = CeParentNameTooLong)))).

Lemma parent_path_text opts path : vhdx_request_ok opts -> vhdx_parent_path (vo_backing opts) = Ok (Some path) ->
  is_text path /\ blen (str_bytes path) <= u64_max - 2.
Proof.
  intros Hr Hp. unfold vhdx_parent_path in Hp. destruct (vo_backing opts) as [b|] eqn:Hb; [|done]. destruct (vr_path _ Hr b Hb) as [Hby Hz].
  destruct (Z.ltb_spec MAX_BACKING_FILE_LEN (blen (br_path b))) as [|Hl]; [done|]. unfold MAX_BACKING_FILE_LEN in Hl.
  destruct (from_utf8 (br_path b)) as [s|] eqn:Hs; [|done]. injection Hp as <-. destruct (from_utf8_text _ _ Hby Hz Hs) as [Ht ->]. split; [done|]. unfold u64_max. lia.
Qed.

Lemma file_identifier_ok : exists fid, build_file_identifier (filled 4096 0) = Ok fid /\ blen fid = 4096 /\ is_bytes fid /\
  slice fid 0 8 = Some (le_bytes 8 FILE_IDENTIFIER_SIGNATURE).
Proof.
  unfold build_file_identifier. set (ws := _ :: imap _ _). assert (is_bytes (filled 4096 0)) as Hz by (apply filled_is_bytes; unfold is_u8, u8_max; lia).
  assert (ascending 0 ws) as Hasc by (vm_compute; repeat split; discriminate).
  destruct (apply_writes_ok (filled 4096 0) ws Hz) as (fid & Hf & Hl & Hb).
  { rewrite blen_filled by lia. apply Forall_forall. intros w Hin.
    assert (forallb (fun w => (0 <=? w.1) && (w.1 + blen w.2 <=? 4096) && is_bytesb w.2) ws = true) as Hall by (vm_compute; reflexivity).
    rewrite forallb_forall in Hall. specialize (Hall w Hin). apply andb_prop in Hall as [Hall Hw]. apply is_bytesb_true in Hw. bool_to_prop. lia || done. }
  exists fid. rewrite Hf. split; [done|]. split; [by rewrite Hl, blen_filled|]. split; [done|].
  apply (apply_writes_get 0 _ ws fid 0 (le_bytes 8 FILE_IDENTIFIER_SIGNATURE) Hasc Hf). apply list_elem_of_here.
Qed.

Lemma stamped_size buf buf' ws n len : stamped buf buf' ws len -> blen buf = n -> blen buf' = n.
Proof. intros Hs <-. exact (st_blen _ _ _ _ Hs). Qed.

(** The six pushes. *)
Lemma push_all l fid h1 h2 rt md hp : geometry l hp -> blen fid = 4096 -> blen h1 = 4096 -> blen h2 = 4096 -> blen rt = 65536 -> blen md = MB_ALIGN ->
  (let? plan := push MetadataPlan_new (0, fid) in
   let? plan := push plan (HEADER1_OFFSET, h1) in
   let? plan := push plan (HEADER2_OFFSET, h2) in
   let? plan := push plan (REGION_TABLE1_OFFSET, rt) in
   let? plan := push plan (REGION_TABLE2_OFFSET, rt) in
   push plan (vl_metadata_offset l, md)) =
  Ok (mkMetadataPlan (143360 + MB_ALIGN) (vl_data_start l)
        [(0, fid); (65536, h1); (131072, h2); (196608, rt); (262144, rt); (vl_metadata_offset l, md)]).
Proof.
  intros Hg H1 H2 H3 H4 H5. destruct (geometry_bounds l hp Hg) as (_ & _ & _ & _ & _ & _ & Hr).
  pose proof (ge_metadata _ _ Hg) as Hmo. pose proof (ge_data _ _ Hg) as Hd. pose proof (ge_bat _ _ Hg) as Hbo. destruct (ge_consts _ _ Hg) as (C1 & C2 & C3).
  unfold MB_ALIGN in *. unfold HEADER1_OFFSET, HEADER2_OFFSET, REGION_TABLE1_OFFSET, REGION_TABLE2_OFFSET.
  repeat (rewrite push_spec by (cbn [mp_writes minimum_file_size total_metadata_bytes MetadataPlan_new length app fst snd]; unfold MAX_METADATA_WRITES, u64_max; lia);
    cbn [obind mp_writes minimum_file_size total_metadata_bytes MetadataPlan_new app fst snd]).
  rewrite H1, H2, H3, H4, H5. do 2 f_equal. lia.
Qed.

(** The structures in terms of what the builders return. *)
Lemma structures_compose l fixed guid parent fid h1 h2 rt md0 mend :
  build_file_identifier (filled FILE_ID_LEN 0) = Ok fid -> VhdxMeta.build_header (filled HEADER_SIZE 0) 1 = Ok h1 ->
  VhdxMeta.build_header (filled HEADER_SIZE 0) 2 = Ok h2 ->
  build_region_table (filled REGION_TABLE_LEN 0) (vl_bat_offset l) (vl_bat_region_len l) (vl_metadata_offset l) (vl_metadata_region_len l) = Ok rt ->
  build_metadata (filled (vl_metadata_region_len l) 0) (vl_block_size l) (vl_virtual_size l) (vl_logical_sector_size l) (vl_physical_sector_size l) fixed
    (bool_decide (is_Some parent)) = Ok (md0, mend) ->
  vhdx_structures l fixed guid parent =
  (let? md := append_locator md0 mend guid parent in
   let? plan := push MetadataPlan_new (0, fid) in
   let? plan := push plan (HEADER1_OFFSET, h1) in
   let? plan := push plan (HEADER2_OFFSET, h2) in
   let? plan := push plan (REGION_TABLE1_OFFSET, rt) in
   let? plan := push plan (REGION_TABLE2_OFFSET, rt) in
   push plan (vl_metadata_offset l, md)).
Proof. intros E0 E1 E2 E3 E4. unfold vhdx_structures. rewrite E0, E1, E2, E3, E4. exact eq_refl. Qed.

Lemma structures_spec opts l parent : vhdx_request_ok opts -> vhdx_parent_path (vo_backing opts) = Ok parent -> geometry l (bool_decide (is_Some parent)) ->
  match vhdx_structures l (is_fixed opts) (vo_parent_data_write_guid opts) parent with
  | Ok plan => exists locator fid h1 h2 rt md, locator_for opts parent locator /\ structures_hold l (is_fixed opts) locator plan fid h1 h2 rt md
  | Err e => exists path, parent = Some path /\ (locator_path path = Err e \/
      exists k v, locator_path path = Ok (k, v) /\ 520 < 2 * Z.of_nat (length (str_units v)) /\ e = CeParentNameTooLong)
  | _ => False
  end.
Proof.
  intros Hr Hpp Hg. pose proof (ge_consts _ _ Hg) as (_ & _ & Hml). destruct file_identifier_ok as (fid & E0 & Hfid).
  assert (forall n, is_bytes (filled n 0)) as Hz by (intros n; apply filled_is_bytes; unfold is_u8, u8_max; lia).
  destruct (header_stamp (filled 4096 0) 1 (Hz _)) as (h1 & E1 & Hh1); [rewrite blen_filled; unfold HEADER_SIZE; lia|].
  destruct (header_stamp (filled 4096 0) 2 (Hz _)) as (h2 & E2 & Hh2); [rewrite blen_filled; unfold HEADER_SIZE; lia|].
  destruct (region_stamp (filled 65536 0) (vl_bat_offset l) (vl_bat_region_len l) (vl_metadata_offset l) (vl_metadata_region_len l) (Hz _)) as (rt & E3 & Hrt);
    [rewrite blen_filled; lia|].
  assert (crc_span (filled 65536 0) = 65536) as Hspan by (unfold crc_span; rewrite blen_filled by lia; exact eq_refl). rewrite Hspan in Hrt.
  assert (blen (filled (vl_metadata_region_len l) 0) = MB_ALIGN) as Hzl by (rewrite Hml; apply blen_filled; unfold MB_ALIGN; lia).
  destruct (metadata_ok (filled (vl_metadata_region_len l) 0) (vl_block_size l) (vl_virtual_size l) (vl_logical_sector_size l) (vl_physical_sector_size l) (is_fixed opts)
    (bool_decide (is_Some parent)) (Hz _)) as (md0 & E4 & Hmd); [rewrite Hzl; unfold MB_ALIGN; lia|].
  rewrite (structures_compose l (is_fixed opts) (vo_parent_data_write_guid opts) parent fid h1 h2 rt md0 65576 E0 E1 E2 E3 E4).
  clear E0 E1 E2 E3 E4. pose proof (stamped_size _ _ _ _ _ Hh1 (blen_filled 4096 0 ltac:(lia))) as Hl1.
  pose proof (stamped_size _ _ _ _ _ Hh2 (blen_filled 4096 0 ltac:(lia))) as Hl2. pose proof (stamped_size _ _ _ _ _ Hrt (blen_filled 65536 0 ltac:(lia))) as Hlrt.
  revert Hzl Hmd. generalize (filled (vl_metadata_region_len l) 0). intros zeros Hzl Hmd.
  assert (match append_locator md0 65576 (vo_parent_data_write_guid opts) parent with
          | Ok md => exists locator, locator_for opts parent locator /\ region_holds md l (is_fixed opts) locator
          | Err e => exists path, parent = Some path /\ (locator_path path = Err e \/
              exists k v, locator_path path = Ok (k, v) /\ 520 < 2 * Z.of_nat (length (str_units v)) /\ e = CeParentNameTooLong)
          | _ => False end) as Hal.
  { destruct parent as [path|]; [|exists None; split; [exact I | exact (built_region l (is_fixed opts) md0 zeros Hzl Hmd)]].
    destruct (parent_path_text opts path Hr Hpp) as [Ht Htl]. destruct (vr_guid _ Hr) as [Hgb Hgl].
    pose proof (appended_region l (is_fixed opts) md0 zeros Hzl _ path Hgb Hgl Ht Htl Hmd) as Ha.
    destruct (append_locator md0 65576 _ (Some path)) as [md|e| |]; [|exists path; split; [exact eq_refl | exact Ha]|exact Ha|exact Ha].
    destruct Ha as (k & link & v & _ & Hlk & Hrec & Hreg). exists (Some (k, link, v)). split; [split; [exact Hlk | exact Hrec] | exact Hreg]. }
  destruct (append_locator md0 65576 _ parent) as [md|e| |]; [|exact Hal|exact Hal|exact Hal]; cbn [obind].
  destruct Hal as (locator & Hlf & Hreg).
  rewrite (push_all l fid h1 h2 rt md _ Hg (proj1 Hfid) Hl1 Hl2 Hlrt (rh_blen _ _ _ _ Hreg)).
  exists locator, fid, h1, h2, rt, md. split; [exact Hlf|].
  split; [exact eq_refl | split; exact eq_refl | exact Hfid | exact Hh1 | exact Hh2 | exact Hrt | exact Hreg].
Qed.

#[local] Opaque vhdx_structures.

Lemma plan_vhdx_spec opts scratch_len : vhdx_request_ok opts ->
  match plan_vhdx opts scratch_len with
  | Ok plan => exists parent locator l fid h1 h2 rt md,
      vhdx_parent_path (vo_backing opts) = Ok parent /\ layout (vo_virtual_size opts) (vo_block_size opts) (bool_decide (is_Some parent)) = Ok l /\
      vo_virtual_size opts <> 0 /\ (is_fixed opts = true -> parent = None) /\ 77824 + MB_ALIGN <= scratch_len /\ vp_fixed plan = fixed_rest opts l /\
      locator_for opts parent locator /\ structures_hold l (is_fixed opts) locator (vp_metadata plan) fid h1 h2 rt md
  | Err e => vhdx_plan_refused opts scratch_len e
  | _ => False
  end.
Proof.
  intros Hr. unfold plan_vhdx. fold (is_fixed opts). destruct (Z.eqb_spec (vo_virtual_size opts) 0) as [|Hvs]; [by left|].
  destruct (is_fixed opts && _) eqn:Hfb.
  { right. left. apply andb_prop in Hfb as [Hf Hb]. apply bool_decide_eq_true in Hb. destruct Hb as [b ->]. done. }
  destruct (vhdx_parent_path (vo_backing opts)) as [parent|e| |] eqn:Hpp; cbn [obind]; [| right; right; left; done | |].
  2-3: unfold vhdx_parent_path in Hpp; destruct (vo_backing opts) as [b|]; [destruct (_ <? _); [done|]; destruct (from_utf8 _); done | done].
  pose proof (layout_spec (vo_virtual_size opts) (vo_block_size opts) (bool_decide (is_Some parent)) (vr_size _ Hr) (vr_block _ Hr)) as Hl. cbv zeta in Hl.
  destruct (layout _ _ _) as [l|le| |] eqn:Hlay; [| |done|done]; cbn [map_err obind].
  2: { right. right. right. exists parent. split; [done|]. left. by exists le. }
  destruct Hl as (Hg & _). pose proof (ge_consts _ _ Hg) as (_ & _ & Hml).
  assert (FILE_ID_LEN + HEADER_SIZE + HEADER_SIZE + REGION_TABLE_LEN + vl_metadata_region_len l = 77824 + MB_ALIGN) as -> by (by rewrite Hml).
  destruct (Z.ltb_spec scratch_len (77824 + MB_ALIGN)) as [Hs|Hs].
  { right. right. right. exists parent. split; [done|]. right. left. done. }
  pose proof (structures_spec opts l parent Hr Hpp Hg) as Hst. destruct (vhdx_structures _ _ _ _) as [mp|e| |]; [| |done|done]; cbn [obind].
  2: { right. right. right. exists parent. split; [done|]. right. right. exact Hst. }
  destruct Hst as (locator & fid & h1 & h2 & rt & md & Hlf & Hst). destruct (geometry_bounds l _ Hg) as (_ & _ & _ & Hbe & _).
  rewrite checked_mul_eq by (unfold u64_max; lia). cbn [ok_or obind].
  assert (is_fixed opts = true -> parent = None) as Hfp.
  { intros Hf. rewrite Hf in Hfb. cbn [andb] in Hfb. apply bool_decide_eq_false in Hfb. destruct (vo_backing opts) as [b|]; [|cbn in Hpp; congruence].
    exfalso. apply Hfb. by eexists. }
  destruct (is_fixed opts) eqn:Hf; exists parent, locator, l, fid, h1, h2, rt, md; unfold fixed_rest; rewrite Hf; split_and!; done.
Qed.
