(* ===== verification/VhdxImage.v ===== *)
(** The VHDX images [instar create] makes, as its own reader finds them: the plan's writes
    and, for a fixed image, the streamed BAT, applied to a file of zeros. *)

From stdpp Require Import base numbers list sets option.
From Stdlib Require Import ZArith Lia.
From S2P Require Import Prelude Bytes ExecBytes CachedRead Utf16 Header Stamp Create CreatePlan Vhdx VhdxMeta VhdxLocator VhdxReader VhdxInit VhdxSpec VhdxOpen VhdxPlan.

(** ** The streamed BAT *)

Section bat.
Context (l : VhdxLayout) (Hg : geometry l false) (state : FixedBlockState) (bat_bytes file_length : Z).

Abbreviation fixed := (mkFixedVhdxPlan l state bat_bytes file_length).

(** [m'] is [m] with the BAT entries between the bytes [from] and [upto] filled in. *)
Record bat_filled (m m' : bytes) (from upto : Z) : Prop := {
  bf_blen : blen m' = blen m;
  bf_bytes : is_bytes m -> is_bytes m';
  bf_frame a b : b <= vl_bat_offset l + from \/ vl_bat_offset l + upto <= a -> slice m' a b = slice m a b;
  bf_entry j : from <= 8 * j -> 8 * j + 8 <= upto ->
    slice m' (vl_bat_offset l + 8 * j) (vl_bat_offset l + 8 * j + 8) = Some (le_bytes 8 (fixed_bat_ref l state j))
}.

Lemma bat_offset_eq : vl_bat_offset l = 2097152.
Proof. rewrite (ge_bat _ _ Hg). destruct (ge_consts _ _ Hg) as (-> & -> & _). done. Qed.

Lemma bat_writes_spec total : 0 <= total <= vl_bat_region_len l -> total mod 8 = 0 ->
  forall fuel written slot, blen slot = 65536 -> is_bytes slot -> 0 <= written <= total -> written mod 8 = 0 -> total - written < Z.of_nat fuel ->
  exists ws, bat_writes fuel fixed total written slot = Ok ws /\
    forall m, vl_bat_offset l + total <= blen m -> exists m', apply_writes m ws = Some m' /\ bat_filled m m' written total.
Proof.
  intros Htot Htm. destruct (geometry_bounds l false Hg) as (_ & _ & _ & _ & _ & _ & Hr). pose proof bat_offset_eq as Hbo.
  induction fuel as [|fuel IH]; intros written slot Hsl Hsb Hw Hwm Hf; [lia|]. cbn [bat_writes]. destruct (Z.ltb_spec written total) as [Hlt|Hge].
  2: { exists []. split; [done|]. intros m Hm. exists m. split; [done|]. split; [done | done | done |]. intros j H1 H2. lia. }
  set (len := Z.min (total - written) MAX_SECTOR_SIZE). unfold MAX_SECTOR_SIZE in len.
  assert (len mod 8 = 0 /\ 8 <= len <= 65536 /\ written + len <= total) as (Hlm & Hlr & Hle).
  { assert ((total - written) mod 8 = 0) as Hd by (rewrite Zminus_mod, Htm, Hwm; done). pose proof (Z.div_mod (total - written) 8 ltac:(lia)) as Hdm.
    unfold len. destruct (Z.min_spec (total - written) 65536) as [[? ->]|[? ->]]; split_and!; try done; lia. }
  destruct (slice_of slot 0 len) as (buf & Hbuf & Hbl); [lia | lia |]. rewrite Hbuf. cbn [or_panic obind]. cbn [fp_layout fp_state].
  assert (blen buf = len) as Hbl' by lia.
  pose proof (fill_fixed_bat_wp l state (written / 8) buf Hg) as Hfill. unfold wp in Hfill.
  assert (is_u64 (written / 8)) as Hu by (unfold is_u64, u64_max; split; [apply Z.div_pos | apply Z.div_le_upper_bound]; lia). specialize (Hfill Hu).
  pose proof (Z.div_mod written 8 ltac:(lia)) as Hdw. pose proof (Z.div_mod len 8 ltac:(lia)) as Hdl. rewrite Hbl' in Hfill.
  assert (written / 8 + len / 8 <= vl_bat_region_len l / 8) as Hreg by (apply Z.div_le_lower_bound; lia).
  destruct (fill_fixed_bat l state (written / 8) buf) as [[[]|e| |] buf'].
  2: { destruct Hfill as [_ He]. destruct e; try done; try lia. unfold is_u64, u64_max in *. lia. }
  2-3: done.
  destruct Hfill as (Hbl2 & Hby & _ & _ & Hent). cbn [map_err obind].
  destruct (splice_of slot 0 buf') as (slot' & Hs & Hsl'); [lia | lia |]. rewrite Hs. cbn [or_panic obind].
  rewrite checked_add_eq by (unfold u64_max; lia). cbn [ok_or obind]. rewrite checked_add_eq by (unfold u64_max; lia). cbn [ok_or obind].
  specialize (Hby (slice_is_bytes _ _ _ _ Hsb Hbuf)).
  destruct (IH (written + len) slot') as (ws & Hws & Hap); [lia | exact (splice_is_bytes _ _ _ _ Hsb Hby Hs) | lia | | lia |].
  { rewrite Zplus_mod, Hwm, Hlm. done. }
  change (written + Z.min (total - written) MAX_SECTOR_SIZE) with (written + len) in Hws. rewrite Hws. cbn [obind]. eexists. split; [done|].
  intros m Hm. cbn [apply_writes]. destruct (splice_of m (vl_bat_offset l + written) buf') as (m1 & Hm1 & Hl1); [lia | lia |]. rewrite Hm1. cbn [mbind option_bind].
  destruct (Hap m1 ltac:(lia)) as (m2 & Hm2 & [B1 B2 B3 B4]). exists m2. split; [done|]. split.
  - lia.
  - intros Hb. apply B2. exact (splice_is_bytes _ _ _ _ Hb Hby Hm1).
  - intros a b Hab. rewrite B3 by lia. apply (slice_splice_ne _ _ _ _ _ _ Hm1). lia.
  - intros j H1 H2. destruct (Z.le_gt_cases (written + len) (8 * j)) as [Hj|Hj]; [by apply B4|].
    assert (8 * j + 8 <= written + len) as Hj2 by lia. rewrite B3 by lia.
    pose proof (slice_splice_eq _ _ _ _ Hm1) as Heq. replace (vl_bat_offset l + 8 * j) with (vl_bat_offset l + written + 8 * (j - written / 8)) by lia.
    rewrite <- (Z.add_assoc (vl_bat_offset l + written)), <- (slice_slice _ _ _ _ (8 * (j - written / 8)) (8 * (j - written / 8) + 8) Heq) by lia.
    rewrite Hent by lia. do 3 f_equal. lia.
Qed.

End bat.

(** ** Opening a created image *)

(** What an image must hold for the reader to open it. *)
Record image_holds (l : VhdxLayout) (img h1 rt md : bytes) : Prop := {
  ih_bytes : is_bytes img;
  ih_size : vl_data_start l <= blen img;
  ih_header : slice img 65536 69632 = Some h1;
  ih_table : slice img 196608 262144 = Some rt;
  ih_region : slice img (vl_metadata_offset l) (vl_data_start l) = Some md
}.

(** The state the reader opens it with. *)
Definition opened (l : VhdxLayout) (dev : Z) (parent : bool) : VhdxState :=
  let n := vl_payload_blocks l in
  let entries := if n =? 0 then 0 else entries_of false n (vl_chunk_ratio l) in
  mkVhdxState dev (vl_block_size l) (vl_virtual_size l) 512 (vl_bat_offset l) entries (vl_chunk_ratio l)
    (if parent then Z.min (div_ceil n (vl_chunk_ratio l) * (vl_chunk_ratio l + 1)) (vl_bat_region_len l / 8) else entries)
    [(vl_bat_offset l, vl_bat_region_len l); (vl_metadata_offset l, vl_metadata_region_len l)] parent.

Lemma entries_of_le n c : 0 < n -> 0 < c -> entries_of false n c <= entries_of true n c.
Proof.
  intros Hn Hc. destruct (bat_index_entries true n c Hn Hc) as [H1 _]. destruct (bat_index_entries false n c Hn Hc) as [_ H2].
  specialize (H1 (n - 1) ltac:(lia)). specialize (H2 eq_refl). lia.
Qed.

Lemma try_u32_eq x : x <= u32_max -> try_u32 x = Some x.
Proof. intros Hx. unfold try_u32. by rewrite (proj2 (Z.leb_le x u32_max) Hx). Qed.

Lemma geometry_opens l dev hp leave : geometry l hp ->
  geometry_of dev (vl_bat_offset l) (vl_bat_region_len l) [(vl_bat_offset l, vl_bat_region_len l); (vl_metadata_offset l, vl_metadata_region_len l)]
    (mkVhdxMetadata (vl_block_size l) (vl_virtual_size l) 512 512 hp leave LocatorAbsent) = Some (opened l dev hp).
Proof.
  intros Hg. destruct (geometry_bounds l hp Hg) as (Hb & _ & Hp & He & Hfit & _ & Hr). destruct (ge_ratio _ _ Hg) as [Hc Hcr].
  unfold geometry_of. cbn [md_logical_sector_size md_block_size md_virtual_disk_size md_has_parent]. change (negb (512 =? 512)) with false. cbn [andb].
  change (wmul (Z.shiftl 1 23) 512) with (2 ^ 32). rewrite <- Hc, Z.div_mul by lia. rewrite (proj2 (Z.eqb_neq (vl_chunk_ratio l) 0)) by lia.
  rewrite <- (ge_payload _ _ Hg). rewrite (try_u32_eq (vl_chunk_ratio l)) by (unfold u32_max; lia). cbn [mbind option_bind].
  rewrite bat_entry_count_spec by lia. cbn [mbind option_bind]. set (n := vl_payload_blocks l) in *. set (c := vl_chunk_ratio l) in *.
  set (entries := if n =? 0 then 0 else entries_of false n c).
  assert (0 <= entries <= 75501568 /\ entries * 8 <= vl_bat_region_len l) as [Hen Hefit].
  { unfold entries. rewrite (ge_entries _ _ Hg) in Hfit. fold n c in Hfit. destruct (Z.eqb_spec n 0); [lia|].
    pose proof (entries_bound false n c ltac:(lia) ltac:(lia)). split; [lia|]. destruct hp; [|done]. pose proof (entries_of_le n c ltac:(lia) ltac:(lia)). lia. }
  rewrite (try_u32_eq entries) by (unfold u32_max; lia). cbn [mbind option_bind].
  rewrite checked_mul_eq by (unfold u64_max; lia). cbn [mbind option_bind]. destruct (Z.ltb_spec (vl_bat_region_len l) (entries * 8)); [lia|].
  destruct hp; [|done]. unfold differencing_bat_entry_count. rewrite (proj2 (Z.eqb_neq c 0)) by lia.
  rewrite checked_add_eq by (unfold u64_max; lia). cbn [mbind option_bind].
  assert (0 <= div_ceil n c <= 67108864) as Hdc by (destruct (div_ceil_spec n c ltac:(lia)); split; nia).
  rewrite checked_mul_eq by (unfold u64_max; nia). cbn [mbind option_bind]. 
  assert (vl_bat_region_len l / 8 <= u32_max) as Hr8 by (apply Z.div_le_upper_bound; unfold u32_max; lia).
  by rewrite try_u32_eq by lia.
Qed.

Section open.
Context (l : VhdxLayout) (leave : bool) (locator : option (bytes * bytes * list Z)) (img h1 rt md : bytes).
Abbreviation hp := (bool_decide (is_Some locator)).
Context (Hg : geometry l hp) (Hi : image_holds l img h1 rt md) (Hreg : region_holds md l leave locator).
Context (ssz cap : Z) (Hpow : sector_pow ssz) (Hcap : vl_data_start l <= cap * ssz).

Lemma place_facts : vl_metadata_offset l mod ssz = 0 /\ vl_data_start l = vl_metadata_offset l + 1048576 /\ 3145728 <= vl_metadata_offset l <= 608174080 /\ 512 <= ssz <= 65536.
Proof.
  destruct (sector_pow_cases ssz Hpow) as [Hs _]. destruct (geometry_bounds l hp Hg) as (_ & _ & _ & _ & _ & Hm & Hr).
  rewrite (ge_data _ _ Hg), (ge_metadata _ _ Hg), (ge_bat _ _ Hg). destruct (ge_consts _ _ Hg) as (-> & -> & ->). unfold MB_ALIGN.
  pose proof (Z.div_mod (vl_bat_region_len l) 1048576 ltac:(lia)) as Hd. split_and!; try lia.
  replace (1048576 + 1048576 + vl_bat_region_len l) with (65536 * (32 + 16 * (vl_bat_region_len l / 1048576))) by lia. by apply sector_pow_divides.
Qed.

Lemma region_slice a b : 0 <= a <= b -> b <= 1048576 -> slice img (vl_metadata_offset l + a) (vl_metadata_offset l + b) = slice md a b.
Proof.
  intros Ha Hb. destruct place_facts as (_ & Hd & _). symmetry. apply (slice_slice _ _ _ _ _ _ (ih_region _ _ _ _ _ Hi)); lia.
Qed.

(** An item of the metadata, inside its sector. *)
Lemma item_found o off w src : o = 65536 + off -> 0 <= off -> off + w <= 40 -> blen src = w -> slice md (65536 + off) (65536 + off + w) = Some src ->
  item_at ssz cap img (vl_metadata_offset l + o) w = Some src.
Proof.
  intros -> Ho Hw Hl Hs. destruct place_facts as (Hm & Hd & Hr & Hz). unfold item_at. pose proof (blen_nonneg src).
  assert ((vl_metadata_offset l + (65536 + off)) mod ssz = off) as Hmod.
  { replace (vl_metadata_offset l + (65536 + off)) with (off + (vl_metadata_offset l + 65536 * 1)) by lia.
    rewrite Zplus_mod, (Zplus_mod (vl_metadata_offset l)), Hm, (sector_pow_divides ssz 1 Hpow). change (0 + 0) with 0. rewrite Zmod_0_l, Z.add_0_r, Z.mod_mod by lia.
    apply Z.mod_small. lia. }
  rewrite Hmod, (proj2 (Z.leb_le (off + w) ssz)) by lia.
  assert ((vl_metadata_offset l + (65536 + off)) / ssz < cap) as Hlt by (apply Z.div_lt_upper_bound; lia).
  rewrite (proj2 (Z.ltb_lt _ cap) Hlt). cbn [andb]. rewrite <- Z.add_assoc, region_slice by lia. by rewrite <- Hs.
Qed.

Lemma table_slice : exists table, slice img (vl_metadata_offset l) ((vl_metadata_offset l / ssz + 1) * ssz) = Some table /\ slice md 0 ssz = Some table.
Proof.
  destruct place_facts as (Hm & Hd & Hr & Hz). pose proof (rh_blen _ _ _ _ Hreg) as Hl. unfold MB_ALIGN in Hl.
  destruct (slice_of md 0 ssz) as (t & Ht & _); [lia | lia |]. exists t. split; [|done].
  replace ((vl_metadata_offset l / ssz + 1) * ssz) with (vl_metadata_offset l + ssz) by (pose proof (Z.div_mod (vl_metadata_offset l) ssz ltac:(lia)); lia).
  rewrite <- Ht. rewrite <- (region_slice 0 ssz) by lia. by rewrite Z.add_0_r.
Qed.

Lemma items_located table : slice md 0 ssz = Some table ->
  exists pl, locate_metadata_items table = Ok (mkMetadataItemLocations 65536 65544 65568 65572 pl) /\ (locator = None -> pl = None) /\
    (forall k link path, locator = Some (k, link, path) -> exists n item, pl = Some (65576, n) /\ slice md 65576 (65576 + n) = Some item /\
       parse_parent_locator item = Ok (built_locator k link path (units_bytes false (str_units path)))).
Proof.
  intros Ht. destruct place_facts as (_ & _ & _ & Hz). pose proof (slice_blen _ _ _ _ Ht) as Hl.
  assert (forall a b, 0 <= a <= b -> b <= ssz -> slice table a b = slice md a b) as Hsl.
  { intros a b Hab Hb. pose proof (slice_slice _ _ _ _ a b Ht Hab ltac:(lia)) as Hs. by rewrite !Z.add_0_l in Hs. }
  assert (holds_entries table) as He.
  { split; [lia|]. intros off src Hin Hne. rewrite <- (rh_entries _ _ _ _ Hreg off src Hin Hne). destruct (metadata_field_bounds off src Hin) as (? & ? & _).
    pose proof (blen_nonneg src). apply Hsl; lia. }
  pose proof (rh_count _ _ _ _ Hreg) as Hc. rewrite <- Hsl in Hc by lia.
  destruct locator as [[[k link] path]|] eqn:El.
  - destruct (rh_locator _ _ _ _ Hreg k link path eq_refl) as (n & item & Hn & (N1 & N2 & N3 & _) & Hit & Hp).
    exists (Some (65576, n)). rewrite (locate_of_count 1 table He ltac:(lia) Hc). split; [|split; [done|]].
    2: { intros k' link' path' [= <- <- <-]. exists n, item. by split_and!. }
    cbn [scan_items]. unfold METADATA_TABLE_HEADER_SIZE, METADATA_TABLE_ENTRY_SIZE. change (32 + 5 * 32) with 192. change (192 + 32) with 224. change (192 + 16) with 208.
    change (192 + 16) with 208 in N1. destruct (Z.ltb_spec (blen table) 224); [lia|]. rewrite (Hsl 192 208), N1 by lia. cbn [or_panic obind].
    rewrite (le_u32_get table 208 65576) by first [unfold is_u32, u32_max; lia | (rewrite blen_le_bytes, Hsl by lia; exact N2)]. cbn [obind].
    unfold note_item. repeat match goal with |- context [bool_decide (PARENT_LOCATOR_GUID = ?h)] =>
      let b := eval vm_compute in (bool_decide (PARENT_LOCATOR_GUID = h)) in change (bool_decide (PARENT_LOCATOR_GUID = h)) with b end. cbn iota.
    change (192 + 20) with 212. rewrite (le_u32_get table 212 n) by first [unfold is_u32, u32_max; lia | (rewrite blen_le_bytes, Hsl by lia; exact N3)].
    cbn [obind ok_or io_file_parameters io_virtual_disk_size io_logical_sector_size io_physical_sector_size io_parent_locator]. done.
  - exists None. rewrite (locate_of_count 0 table He ltac:(lia) Hc). split_and!; done.
Qed.

Lemma metadata_opens :
  metadata_ref ssz cap img (vl_metadata_offset l) = Some (mkVhdxMetadata (vl_block_size l) (vl_virtual_size l) 512 512 hp leave LocatorAbsent).
Proof.
  destruct place_facts as (Hm & Hd & Hr & Hz). destruct table_slice as (table & Ht & Htm). destruct (items_located table Htm) as (pl & Hloc & _).
  unfold metadata_ref. assert (vl_metadata_offset l / ssz < cap) as Hlt by (apply Z.div_lt_upper_bound; lia). rewrite (proj2 (Z.ltb_lt _ cap) Hlt), Ht. cbn [mbind option_bind].
  rewrite Hloc. cbn [ok_of mbind option_bind mi_file_parameters mi_virtual_disk_size mi_logical_sector_size mi_physical_sector_size].
  destruct (ge_sectors _ _ Hg) as [Hls Hps]. pose proof (rh_items _ _ _ _ Hreg) as Hit. rewrite Hls, Hps in Hit.
  assert (slice md 65536 65544 = Some (le_bytes 4 (vl_block_size l) ++ le_bytes 4 (file_flags leave hp))) as Hfp.
  { pose proof (rh_blen _ _ _ _ Hreg) as Hmdl. unfold MB_ALIGN in Hmdl. destruct (slice_of md 65536 65544) as (s & Hs & Hsl); [lia | lia |]. rewrite Hs. f_equal.
    symmetry. apply (slice_halves s 4); [lia | |].
    - rewrite (slice_slice _ _ _ _ 0 4 Hs) by lia. apply (Hit 0 (le_bytes 4 (vl_block_size l))). red_writes. literal_elem.
    - rewrite (slice_slice _ _ _ _ 4 (blen s) Hs) by lia. replace (65536 + blen s) with (65536 + 4 + blen (le_bytes 4 (file_flags leave hp))) by (rewrite blen_le_bytes; lia).
      apply (Hit 4). red_writes. destruct leave, hp; literal_elem. }
  rewrite (item_found 65536 0 8 (le_bytes 4 (vl_block_size l) ++ le_bytes 4 (file_flags leave hp))) by first [lia | (rewrite blen_app, !blen_le_bytes; lia) | exact Hfp].
  cbn [mbind option_bind]. rewrite take_app_length', drop_app_length' by (apply Nat2Z.inj; exact (eq_sym (blen_le_bytes 4 (vl_block_size l)))).
  pose proof (ge_block _ _ Hg) as Hbv. pose proof (valid_block_u32 _ Hbv) as Hb32. unfold is_u32, u32_max in Hb32.
  assert (0 <= file_flags leave hp <= 3) as Hfl by (unfold file_flags; destruct leave, hp; lia).
  rewrite (le_val_le_bytes 4 (vl_block_size l)), (le_val_le_bytes 4 (file_flags leave hp)) by (change (256 ^ Z.of_nat 4) with 4294967296; lia).
  rewrite Hbv. cbn [negb]. pose proof (ge_size _ _ Hg) as [Hvs _]. unfold MAX_VIRTUAL_SIZE in Hvs.
  rewrite (item_found 65544 8 8 (le_bytes 8 (vl_virtual_size l))) by first [lia | apply blen_le_bytes | (apply (Hit 8 (le_bytes 8 (vl_virtual_size l))); red_writes; literal_elem)].
  cbn [mbind option_bind].
  rewrite (item_found 65568 32 4 (le_bytes 4 512)) by first [lia | apply blen_le_bytes | (apply (Hit 32 (le_bytes 4 512)); red_writes; literal_elem)]. cbn [mbind option_bind].
  rewrite (item_found 65572 36 4 (le_bytes 4 512)) by first [lia | apply blen_le_bytes | (apply (Hit 36 (le_bytes 4 512)); red_writes; literal_elem)]. cbn [mbind option_bind].
  rewrite (le_val_le_bytes 8 (vl_virtual_size l)) by (change (256 ^ Z.of_nat 8) with 18446744073709551616; lia). change (le_val (le_bytes 4 512)) with 512.
  do 2 f_equal; destruct leave, hp; done.
Qed.

Context (Hrt : stamped (filled 65536 0) rt (region_fields (vl_bat_offset l) (vl_bat_region_len l) (vl_metadata_offset l) (vl_metadata_region_len l)) 65536)
  (Hh1 : stamped (filled 4096 0) h1 (header_fields 1) 4096).

Lemma image_opens dev : init_ref dev ssz cap img = Some (opened l dev hp).
Proof.
  destruct place_facts as (Hm & Hd & Hr & Hz). unfold init_ref. destruct (Z.ltb_spec (cap * ssz) 262144); [lia|].
  assert (exists hdr, header_at img HEADER1_OFFSET = Some hdr) as [hdr ->].
  { unfold header_at, HEADER1_OFFSET. change (0x10000 + 4096) with 69632. rewrite (ih_header _ _ _ _ _ Hi). cbn [mbind option_bind].
    destruct (header_parses (filled 4096 0) h1 1) as (crc & dg & ->); [unfold is_u64, u64_max; lia | unfold HEADER_SIZE; rewrite blen_filled; lia | exact Hh1 |]. by eexists. }
  assert (blen rt = 65536) as Hrl by exact (stamped_size _ _ _ _ _ Hrt (blen_filled 65536 0 ltac:(lia))).
  destruct (slice_of rt 0 ssz) as (rt0 & Hrt0 & Hl0); [lia | lia |].
  assert (slice img REGION_TABLE1_OFFSET (REGION_TABLE1_OFFSET + ssz) = Some rt0) as ->.
  { rewrite <- Hrt0. unfold REGION_TABLE1_OFFSET. symmetry. rewrite (slice_slice _ _ _ _ 0 ssz (ih_table _ _ _ _ _ Hi)) by lia. by rewrite Z.add_0_r. }
  cbn [mbind option_bind]. enough (regions_ref dev ssz cap img rt0 = Some (opened l dev hp)) as He by (by destruct (header_at img HEADER2_OFFSET)).
  assert (forall off src, (off, src) ∈ region_fields (vl_bat_offset l) (vl_bat_region_len l) (vl_metadata_offset l) (vl_metadata_region_len l) ->
    slice rt0 off (off + blen src) = Some src) as Hf.
  { intros off src Hin. pose proof (st_field _ _ _ _ Hrt off src Hin) as Hs. rewrite <- Hs. symmetry. apply (slice_of_prefix _ _ _ _ _ Hrt0); [by apply slice_Some in Hs as [? _]; lia|].
    assert (off + blen src <= 80); [|lia]. apply list_elem_of_In in Hin. cbv [region_fields] in Hin.
    repeat (destruct Hin as [[= <- <-]|Hin]; [rewrite ?blen_le_bytes; vm_compute; discriminate|]). destruct Hin. }
  clear Hrt Hh1. pose proof (geometry_bounds l hp Hg) as (_ & _ & _ & _ & _ & _ & Hbl). pose proof (ge_bat _ _ Hg) as Hbo. destruct (ge_consts _ _ Hg) as (C1 & C2 & C3).
  rewrite C1, C2 in Hbo. unfold MB_ALIGN in Hbo, C3. 
  unfold regions_ref. rewrite (le_u32_get rt0 0 REGION_TABLE_SIGNATURE) by first [done | apply Hf; red_writes; literal_elem]. cbn [ok_of mbind option_bind].
  rewrite Z.eqb_refl. cbn [negb]. rewrite (le_u32_get rt0 8 2) by first [done | apply Hf; red_writes; literal_elem]. cbn [ok_of mbind option_bind].
  change (MAX_REGION_TABLE_ENTRIES <? 2) with false. cbn iota. change (Z.to_nat (Z.min 2 8)) with 2%nat. cbn [scan_region_sector].
  unfold REGION_TABLE_HEADER_SIZE, REGION_TABLE_ENTRY_SIZE. change (0 + 16 + 0 * 32) with 16. change (0 + 16 + (0 + 1) * 32) with 48.
  destruct (Z.ltb_spec ssz (16 + 32)); [lia|]. destruct (Z.ltb_spec ssz (48 + 32)); [lia|].
  change (16 + 16) with 32. change (16 + 24) with 40. change (48 + 16) with 64. change (48 + 24) with 72.
  pose proof (Hf 16 BAT_REGION_GUID ltac:(red_writes; literal_elem)) as HG1. change (16 + blen BAT_REGION_GUID) with 32 in HG1.
  pose proof (Hf 48 METADATA_REGION_GUID ltac:(red_writes; literal_elem)) as HG2. change (48 + blen METADATA_REGION_GUID) with 64 in HG2.
  rewrite HG1, HG2. cbn [or_panic obind].
  rewrite (le_u64_get rt0 32 (vl_bat_offset l)) by first [unfold is_u64, u64_max; lia | apply Hf; red_writes; literal_elem]. cbn [obind].
  rewrite (le_u32_get rt0 40 (vl_bat_region_len l)) by first [unfold is_u32, u32_max; lia | apply Hf; red_writes; literal_elem]. cbn [obind].
  rewrite (bool_decide_eq_true_2 (BAT_REGION_GUID = BAT_REGION_GUID)) by done.
  rewrite (le_u64_get rt0 64 (vl_metadata_offset l)) by first [unfold is_u64, u64_max; lia | apply Hf; red_writes; literal_elem]. cbn [obind].
  rewrite (le_u32_get rt0 72 (vl_metadata_region_len l)) by first [unfold is_u32, u32_max; lia | apply Hf; red_writes; literal_elem]. cbn [obind].
  change (bool_decide (METADATA_REGION_GUID = BAT_REGION_GUID)) with false. rewrite (bool_decide_eq_true_2 (METADATA_REGION_GUID = METADATA_REGION_GUID)) by done.
  cbn [ok_of mbind option_bind app]. rewrite (proj2 (Z.leb_gt (cap * ssz) (vl_bat_offset l))), (proj2 (Z.leb_gt (cap * ssz) (vl_metadata_offset l))) by lia. cbn [orb].
  rewrite metadata_opens. cbn [mbind option_bind]. by apply geometry_opens.
Qed.

End open.

(** ** Looking blocks up *)

(** Where a created image says a guest offset is. *)
Definition expected_block (l : VhdxLayout) (rest : option FixedVhdxPlan) (voff : Z) : VhdxBlockLookup :=
  match rest with
  | None => NotPresent
  | Some f => match fp_state f with FbZero => ZeroBlock | FbFullyPresent => Present (vl_fixed_data_start l + voff) end
  end.

(** The BAT of the image, entry by entry. *)
Definition bat_of (l : VhdxLayout) (rest : option FixedVhdxPlan) (j : Z) : Z :=
  match rest with None => 0 | Some f => fixed_bat_ref l (fp_state f) j end.

Lemma full_entry_verdict l dev hp p voff : geometry l hp -> 0 <= voff < vl_virtual_size l -> p = voff / vl_block_size l ->
  payload_verdict (opened l dev hp) (vl_fixed_data_start l + p * vl_block_size l + PAYLOAD_BLOCK_FULLY_PRESENT) voff = Some (Present (vl_fixed_data_start l + voff)).
Proof.
  intros Hg Hv ->. destruct (geometry_bounds l hp Hg) as (Hb & Hbm & _ & _ & _ & Hrm & Hr). pose proof (ge_size _ _ Hg) as [Hvs _]. unfold MAX_VIRTUAL_SIZE in Hvs.
  pose proof (ge_fixed _ _ Hg) as Hfx. pose proof (ge_metadata _ _ Hg) as Hmo. pose proof (ge_bat _ _ Hg) as Hbo. destruct (ge_consts _ _ Hg) as (C1 & C2 & C3).
  rewrite C1, C2 in Hbo. unfold MB_ALIGN in *. pose proof (Z.div_mod voff (vl_block_size l) ltac:(lia)) as Hdm. pose proof (Z.mod_pos_bound voff (vl_block_size l) ltac:(lia)) as Hm.
  set (p := voff / vl_block_size l) in *. assert (0 <= p) as Hp by (apply Z.div_pos; lia).
  set (x := vl_fixed_data_start l + p * vl_block_size l). assert (x mod 1048576 = 0) as Hxm.
  { unfold x. rewrite Zplus_mod, Z.mul_mod, Hbm, Z.mul_0_r, Hfx, Hmo, Hbo by lia. change (0 mod 1048576) with 0. rewrite Z.add_0_r, Z.mod_mod by lia.
    pose proof (Z.div_mod (vl_bat_region_len l) 1048576 ltac:(lia)) as Hd. replace (1048576 + 1048576 + vl_bat_region_len l + 5 * 1048576)
      with ((7 + vl_bat_region_len l / 1048576) * 1048576) by lia. apply Z.mod_mul. lia. }
  assert (7340032 <= x <= 71000000000000) as Hxr by (unfold x; lia).
  unfold payload_verdict. change PAYLOAD_BLOCK_FULLY_PRESENT with 6. cbn [block_size opened].
  assert (Z.land (x + 6) BAT_ENTRY_STATE_MASK = 6) as ->.
  { change BAT_ENTRY_STATE_MASK with (Z.ones 3). rewrite Z.land_ones by lia. pose proof (Z.div_mod x 1048576 ltac:(lia)) as Hd.
    replace (x + 6) with (6 + (131072 * (x / 1048576)) * 2 ^ 3) by (change (2 ^ 3) with 8; lia). rewrite Z.mod_add by lia. done. }
  destruct (offset_bits (x + 6)) as [_ ->]; [unfold is_u64, u64_max; lia|].
  assert ((x + 6) / 1048576 * 1048576 = x) as ->.
  { pose proof (Z.div_mod x 1048576 ltac:(lia)) as Hd. rewrite <- (Z.div_unique (x + 6) 1048576 (x / 1048576) 6) by lia. lia. }
  change (_ || _ || _) with false. change (6 =? PAYLOAD_BLOCK_ZERO) with false. change (6 =? 6) with true. cbn iota.
  destruct (Z.eqb_spec x 0); [lia|].
  assert (block_overlaps_a_declared_region (opened l dev hp) x (vl_block_size l) = false) as ->.
  { unfold block_overlaps_a_declared_region. cbn [regions opened existsb fst snd]. rewrite C3.
    rewrite !(proj2 (ranges_overlap_false _ _ _ _)) by (right; right; unfold u64_max; lia). done. }
  rewrite checked_add_eq by (unfold u64_max; lia). cbn [mbind option_bind]. do 2 f_equal. unfold x. lia.
Qed.

Lemma sector_pow_8 ssz : sector_pow ssz -> ssz mod 8 = 0.
Proof. intros (k & Hk & ->). replace k with (k - 3 + 3) by lia. rewrite Z.pow_add_r by lia. apply Z.mod_mul. lia. Qed.

Section lookup.
Context (l : VhdxLayout) (hp : bool) (Hg : geometry l hp) (rest : option FixedVhdxPlan) (Hrest : rest <> None -> hp = false).
Context (img : bytes) (ssz cap : Z) (Hpow : sector_pow ssz) (Hcap : vl_data_start l <= cap * ssz).
Context (Hbat : forall j, 0 <= j < vl_bat_entries l ->
  slice img (vl_bat_offset l + 8 * j) (vl_bat_offset l + 8 * j + 8) = Some (le_bytes 8 (bat_of l rest j))).

Lemma block_found dev voff : 0 <= voff < vl_virtual_size l -> block_ref (opened l dev hp) ssz cap img voff = Some (expected_block l rest voff).
Proof.
  intros Hv. destruct (geometry_bounds l hp Hg) as (Hb & _ & Hp & He & Hbf & _ & Hr). destruct (ge_ratio _ _ Hg) as [_ Hc]. destruct (sector_pow_cases ssz Hpow) as [Hz _].
  pose proof (ge_bat _ _ Hg) as Hbo. pose proof (ge_metadata _ _ Hg) as Hmo. pose proof (ge_data _ _ Hg) as Hds. destruct (ge_consts _ _ Hg) as (C1 & C2 & C3).
  rewrite C1, C2 in Hbo. rewrite C3 in Hds. unfold MB_ALIGN in *.
  unfold block_ref. cbn [block_size virtual_disk_size bat_offset chunk_ratio opened]. rewrite <- (ge_payload _ _ Hg). set (p := voff / vl_block_size l).
  assert (0 <= p) as Hp0 by (apply Z.div_pos; lia).
  assert (p < vl_payload_blocks l) as Hpn.
  { rewrite (ge_payload _ _ Hg). destruct (div_ceil_spec (vl_virtual_size l) (vl_block_size l) ltac:(lia)) as [Hdc _]. apply Z.div_lt_upper_bound; lia. }
  rewrite (proj2 (Z.leb_gt _ p)) by lia. set (j := bat_index (vl_chunk_ratio l) p).
  assert (0 <= j < vl_bat_entries l) as Hj.
  { split; [unfold j, bat_index; pose proof (Z.div_pos p (vl_chunk_ratio l) ltac:(lia) ltac:(lia)); lia|]. rewrite (ge_entries _ _ Hg), (proj2 (Z.eqb_neq _ 0)) by lia.
    apply (bat_index_entries hp (vl_payload_blocks l) (vl_chunk_ratio l)); lia. }
  unfold direct_read.
  assert ((vl_bat_offset l + 8 * j) mod ssz + 8 <= ssz) as Hin.
  { pose proof (sector_pow_8 ssz Hpow) as H8. pose proof (Z.div_mod ssz 8 ltac:(lia)) as D1. rewrite H8, Z.add_0_r in D1. rewrite D1.
    replace (vl_bat_offset l + 8 * j) with (8 * (262144 + j)) by lia. rewrite Zmult_mod_distr_l. pose proof (Z.mod_pos_bound (262144 + j) (ssz / 8) ltac:(lia)). lia. }
  rewrite (proj2 (Z.leb_le _ _) Hin). assert ((vl_bat_offset l + 8 * j) / ssz < cap) as Hlt by (apply Z.div_lt_upper_bound; lia).
  rewrite (proj2 (Z.ltb_lt _ _) Hlt). cbn [andb]. rewrite (Hbat j Hj). cbn [fmap option_fmap option_map mbind option_bind].
  unfold bat_of, expected_block. destruct rest as [f|]; [|done]. destruct hp; [by specialize (Hrest ltac:(done))|].
  destruct (fixed_bat_entry_spec l (fp_state f) j Hg ltac:(lia)) as [_ Hu]. unfold is_u64, u64_max in Hu.
  rewrite le_val_le_bytes by (change (256 ^ Z.of_nat 8) with 18446744073709551616; lia).
  destruct (fixed_bat_ref_spec l (fp_state f) j Hg ltac:(lia)) as [Hent _]. rewrite (Hent p ltac:(lia) eq_refl).
  destruct (fp_state f); [done|]. by apply full_entry_verdict.
Qed.
End lookup.

(** ** The image *)

(** The writes of the BAT: none for a dynamic image. *)
Definition bat_stream (plan : VhdxPlan) (sector_size output_capacity : Z) (slot : bytes) : outcome unit (list MetadataWrite) :=
  match vp_fixed plan with Some f => emit_vhdx_fixed_bat f sector_size output_capacity slot | None => Ok [] end.

(** The length the host gives the file. *)
Definition created_length (plan : VhdxPlan) : Z :=
  match vp_fixed plan with Some f => fp_file_length f | None => minimum_file_size (vp_metadata plan) end.

(** The file after the BAT and the metadata writes. *)
Definition created_vhdx (plan : VhdxPlan) (bat : list MetadataWrite) (size : Z) : option bytes :=
  apply_writes (filled size 0) (bat ++ mp_writes (vp_metadata plan)).

Lemma filled_slice n a b : 0 <= a <= b -> b <= n -> slice (filled n 0) a b = Some (filled (b - a) 0).
Proof.
  intros Hab Hb. rewrite slice_Some_2 by (rewrite ?blen_filled; lia). f_equal. unfold filled. rewrite drop_replicate, take_replicate. f_equal. lia.
Qed.

Lemma bat_total l hp ssz : geometry l hp -> sector_pow ssz ->
  exists total, checked_next_multiple_of (vl_bat_entries l * 8) ssz = Some total /\ vl_bat_entries l * 8 <= total <= vl_bat_region_len l /\ total mod 8 = 0.
Proof.
  intros Hg Hpow. destruct (geometry_bounds l hp Hg) as (_ & _ & _ & He & Hbf & Hm & Hr). destruct (sector_pow_cases ssz Hpow) as [Hz _].
  pose proof (next_multiple_spec (vl_bat_entries l * 8) ssz ltac:(lia) ltac:(lia)) as Hn. destruct (div_ceil_spec (vl_bat_entries l * 8) ssz ltac:(lia)) as [D1 D2].
  assert (div_ceil (vl_bat_entries l * 8) ssz * ssz <= vl_bat_region_len l) as Hle.
  { pose proof (Z.div_mod (vl_bat_region_len l) 1048576 ltac:(lia)) as Hd. pose proof (sector_pow_divides ssz (16 * (vl_bat_region_len l / 1048576)) Hpow) as Hdv.
    replace (65536 * (16 * (vl_bat_region_len l / 1048576))) with (vl_bat_region_len l) in Hdv by lia. pose proof (Z.div_mod (vl_bat_region_len l) ssz ltac:(lia)) as Hk.
    assert (div_ceil (vl_bat_entries l * 8) ssz <= vl_bat_region_len l / ssz); [|nia]. nia. }
  destruct (checked_next_multiple_of _ _) as [t|]; [|unfold u64_max in Hn; lia]. exists t. destruct Hn as [-> _]. split_and!; [done | lia | lia |].
  rewrite Z.mul_mod, (sector_pow_8 ssz Hpow), Z.mul_0_r by lia. done.
Qed.

Lemma bat_stream_spec opts l hp plan ssz cap slot : geometry l hp -> (is_fixed opts = true -> hp = false) -> vp_fixed plan = fixed_rest opts l ->
  sector_pow ssz -> cap * ssz <= u64_max -> created_length plan <= cap * ssz -> blen slot = 65536 -> is_bytes slot -> vl_data_start l <= cap * ssz ->
  exists bat, bat_stream plan ssz cap slot = Ok bat /\
    exists m, apply_writes (filled (cap * ssz) 0) bat = Some m /\ blen m = cap * ssz /\ is_bytes m /\
      forall j, 0 <= j < vl_bat_entries l ->
        slice m (vl_bat_offset l + 8 * j) (vl_bat_offset l + 8 * j + 8) = Some (le_bytes 8 (bat_of l (vp_fixed plan) j)).
Proof.
  intros Hg Hfix Hvf Hpow Hc64 Hlen Hsl Hsb Hds. destruct (geometry_bounds l hp Hg) as (_ & _ & _ & He & Hbf & Hm & Hr). destruct (sector_pow_cases ssz Hpow) as [Hz _].
  pose proof (ge_bat _ _ Hg) as Hbo. pose proof (ge_metadata _ _ Hg) as Hmo. pose proof (ge_data _ _ Hg) as Hdst. destruct (ge_consts _ _ Hg) as (C1 & C2 & C3).
  rewrite C1, C2 in Hbo. rewrite C3 in Hdst. unfold MB_ALIGN in *.
  assert (is_bytes (filled (cap * ssz) 0)) as Hzb by (apply filled_is_bytes; unfold is_u8, u8_max; lia).
  assert (blen (filled (cap * ssz) 0) = cap * ssz) as Hzl by (apply blen_filled; lia).
  unfold bat_stream, created_length in *. rewrite Hvf in *. unfold fixed_rest in *. destruct (is_fixed opts) eqn:Hf.
  - specialize (Hfix eq_refl). subst hp. set (f := mkFixedVhdxPlan _ _ _ _) in *. unfold emit_vhdx_fixed_bat. cbn [fp_file_length fp_bat_bytes f].
    rewrite (proj2 (Z.eqb_neq ssz 0)) by lia. unfold MAX_SECTOR_SIZE. pose proof (sector_pow_divides ssz 1 Hpow) as Hd. rewrite Z.mul_1_r in Hd. rewrite Hd, Z.eqb_refl. cbn [negb].
    rewrite checked_mul_eq by lia. cbn [ok_or obind]. destruct (Z.ltb_spec (cap * ssz) (vl_fixed_file_length l)); [cbn [fp_file_length f] in Hlen; lia|].
    destruct (bat_total l false ssz Hg Hpow) as (total & -> & Ht & Htm). cbn [ok_or obind].
    destruct (bat_writes_spec l Hg (fp_state f) (fp_bat_bytes f) (fp_file_length f) total ltac:(lia) Htm (S (Z.to_nat total)) 0 slot Hsl Hsb) as (ws & Hws & Hap); [lia | done | lia |].
    change (bat_writes (S (Z.to_nat total)) f total 0 slot = Ok ws) in Hws. rewrite Hws. exists ws. split; [done|].
    destruct (Hap (filled (cap * ssz) 0) ltac:(lia)) as (m & Hmw & [B1 B2 _ B4]). exists m. split_and!; [done | lia | by apply B2 |]. intros j Hj. apply B4; lia.
  - exists []. split; [done|]. exists (filled (cap * ssz) 0). split_and!; [done | done | done |]. intros j Hj. rewrite filled_slice by lia.
    replace (vl_bat_offset l + 8 * j + 8 - (vl_bat_offset l + 8 * j)) with 8 by lia. done.
Qed.

Lemma structures_written l hp leave locator mp fid h1 h2 rt md m : geometry l hp -> structures_hold l leave locator mp fid h1 h2 rt md ->
  is_bytes m -> vl_data_start l <= blen m ->
  exists img, apply_writes m (mp_writes mp) = Some img /\ blen img = blen m /\ image_holds l img h1 rt md /\
    forall a b, 1048576 <= a -> b <= vl_metadata_offset l -> slice img a b = slice m a b.
Proof.
  intros Hg [Hw _ (Hfl & Hfb & _) Hh1 Hh2 Hrt Hreg] Hb Hsz. pose proof (ge_bat _ _ Hg) as Hbo. pose proof (ge_metadata _ _ Hg) as Hmo. pose proof (ge_data _ _ Hg) as Hd.
  destruct (ge_consts _ _ Hg) as (C1 & C2 & C3). destruct (geometry_bounds l hp Hg) as (_ & _ & _ & _ & _ & _ & Hr). rewrite C1, C2 in Hbo. rewrite C3 in Hd.
  pose proof (rh_blen _ _ _ _ Hreg) as Hml. unfold MB_ALIGN in *.
  assert (blen h1 = 4096) as L1 by exact (stamped_size _ _ _ _ _ Hh1 (blen_filled 4096 0 ltac:(lia))).
  assert (blen h2 = 4096) as L2 by exact (stamped_size _ _ _ _ _ Hh2 (blen_filled 4096 0 ltac:(lia))).
  assert (blen rt = 65536) as L3 by exact (stamped_size _ _ _ _ _ Hrt (blen_filled 65536 0 ltac:(lia))).
  pose proof (st_bytes _ _ _ _ Hh1) as B1. pose proof (st_bytes _ _ _ _ Hh2) as B2. pose proof (st_bytes _ _ _ _ Hrt) as B3. pose proof (rh_bytes _ _ _ _ Hreg) as B4.
  clear Hh1 Hh2 Hrt Hreg. rewrite Hw. set (ws := [(0, fid); _; _; _; _; _]).
  assert (ascending 0 ws) as Hasc by (cbn [ascending ws]; rewrite Hfl, L1, L2, L3; split_and!; try exact I; lia).
  assert (Forall (fun w => 0 <= w.1 /\ w.1 + blen w.2 <= blen m /\ is_bytes w.2 /\ (w.1 + blen w.2 <= 1048576 \/ vl_metadata_offset l <= w.1)) ws) as Hall.
  { repeat (apply Forall_cons_2; [cbn [fst snd]; rewrite ?Hfl, ?L1, ?L2, ?L3, ?Hml; split_and!; assumption || lia|]). apply Forall_nil_2. }
  destruct (apply_writes_ok m ws Hb) as (img & Hi & Hil & Hib); [eapply Forall_impl; [|exact Hall]; by intros w (? & ? & ? & _)|].
  exists img. split; [exact Hi|]. split; [exact Hil|].
  assert (forall off src z, (off, src) ∈ ws -> z = off + blen src -> slice img off z = Some src) as Hget by (intros off src z Hin ->; by eapply apply_writes_get).
  split; [split; [exact Hib | lia | apply Hget; [literal_elem | lia] | apply Hget; [literal_elem | lia] | apply Hget; [literal_elem | lia]]|].
  intros a b Ha Hab. apply (apply_writes_frame _ _ _ a b Hi). eapply Forall_impl; [|exact Hall]. cbv beta. intros w (_ & _ & _ & ?). lia.
Qed.

Lemma locator_same opts parent locator : locator_for opts parent locator -> bool_decide (is_Some locator) = bool_decide (is_Some parent).
Proof. unfold locator_for. destruct parent, locator as [[[k link] v]|]; done. Qed.

Lemma data_in_file opts l plan hp leave locator fid h1 h2 rt md : geometry l hp -> vp_fixed plan = fixed_rest opts l ->
  structures_hold l leave locator (vp_metadata plan) fid h1 h2 rt md -> vl_data_start l <= created_length plan.
Proof.
  intros Hg Hvf Hst. unfold created_length. rewrite Hvf. unfold fixed_rest. destruct (is_fixed opts); [|by rewrite (proj1 (vp_sizes _ _ _ _ _ _ _ _ _ Hst))].
  cbn [fp_file_length]. rewrite (ge_length _ _ Hg), (ge_fixed _ _ Hg), (ge_data _ _ Hg). destruct (ge_consts _ _ Hg) as (_ & _ & ->). pose proof (ge_size _ _ Hg) as [? _].
  unfold MB_ALIGN. lia.
Qed.

(** ** Properties *)

(** The locator of a created child, in the file. *)
Definition child_names_parent (l : VhdxLayout) (img : bytes) (opts : VhdxCreateOpts) (path : list Z) : Prop :=
  exists k link v n item lo, render_guid_braced (vo_parent_data_write_guid opts) = Ok link /\ path_recorded path k v /\
    slice img (vl_metadata_offset l + 65576) (vl_metadata_offset l + 65576 + n) = Some item /\ parse_parent_locator item = Ok lo /\
    lo_defect lo = None /\ is_vhdx_locator_type lo = true /\ linkage_matches lo link = true /\
    preferred_path_with_convention lo = Some (str_bytes v, bool_decide (k = KEY_RELATIVE_PATH)).

Lemma child_named opts l hp leave locator path img h1 rt md : geometry l hp -> image_holds l img h1 rt md -> region_holds md l leave locator ->
  locator_for opts (Some path) locator -> child_names_parent l img opts path.
Proof.
  intros Hg Hi Hreg Hlf. destruct locator as [[[k link] v]|]; [|done]. destruct Hlf as [Hlink Hrec].
  destruct (rh_locator _ _ _ _ Hreg k link v eq_refl) as (n & item & Hn & _ & Hs & Hp).
  assert (k = KEY_RELATIVE_PATH \/ k = KEY_ABSOLUTE_WIN32_PATH) as Hk by (destruct Hrec as (_ & _ & [(-> & _)|(-> & _)]); tauto).
  destruct (built_locator_queries k link v (units_bytes false (str_units v)) Hk) as (Q1 & _ & Q2 & Q3).
  exists k, link, v, n, item, (built_locator k link v (units_bytes false (str_units v))). split; [done|]. split; [done|]. split; [|by split_and!].
  rewrite <- Hs. pose proof (slice_Some _ _ _ _ Hs) as (_ & Hle & _). rewrite (rh_blen _ _ _ _ Hreg) in Hle.
  pose proof (ge_data _ _ Hg) as Hd. destruct (ge_consts _ _ Hg) as (_ & _ & C3). rewrite C3 in Hd. rewrite <- Z.add_assoc. symmetry.
  apply (slice_slice _ _ _ _ _ _ (ih_region _ _ _ _ _ Hi)); lia.
Qed.

(** A created image on the bytes. *)
Lemma created_vhdx_image opts scratch_len plan ssz cap slot :
  vhdx_request_ok opts -> plan_vhdx opts scratch_len = Ok plan -> sector_pow ssz -> cap * ssz + 4294967296 <= u64_max ->
  created_length plan <= cap * ssz -> blen slot = 65536 -> is_bytes slot ->
  exists l parent bat img,
    layout (vo_virtual_size opts) (vo_block_size opts) (bool_decide (is_Some parent)) = Ok l /\ vhdx_parent_path (vo_backing opts) = Ok parent /\
    bat_stream plan ssz cap slot = Ok bat /\ created_vhdx plan bat (cap * ssz) = Some img /\
    (forall path, parent = Some path -> child_names_parent l img opts path) /\ is_bytes img /\ blen img = cap * ssz /\
    forall dev, init_ref dev ssz cap img = Some (opened l dev (bool_decide (is_Some parent))) /\
      forall v, 0 <= v < vo_virtual_size opts ->
        block_ref (opened l dev (bool_decide (is_Some parent))) ssz cap img v = Some (expected_block l (vp_fixed plan) v).
Proof.
  intros Hr Hplan Hpow Hbig Hlen Hsl Hsb. pose proof (plan_vhdx_spec opts scratch_len Hr) as Hs. rewrite Hplan in Hs.
  destruct Hs as (parent & locator & l & fid & h1 & h2 & rt & md & Hpp & Hlay & _ & Hfp & _ & Hvf & Hlf & Hst).
  pose proof (layout_spec (vo_virtual_size opts) (vo_block_size opts) (bool_decide (is_Some parent)) (vr_size _ Hr) (vr_block _ Hr)) as Hl. cbv zeta in Hl. rewrite Hlay in Hl.
  destruct Hl as (Hg & Hvs & _). pose proof (locator_same opts parent locator Hlf) as Hsame. pose proof (data_in_file opts l plan _ _ _ _ _ _ _ _ Hg Hvf Hst) as Hdl.
  assert (is_fixed opts = true -> bool_decide (is_Some parent) = false) as Hfix by (intros Hf; by rewrite (Hfp Hf)).
  destruct (bat_stream_spec opts l _ plan ssz cap slot Hg Hfix Hvf Hpow ltac:(lia) Hlen Hsl Hsb ltac:(lia)) as (bat & Hbs & m & Hm & Hml & Hmb & Hent).
  destruct (structures_written l _ _ _ _ _ _ _ _ _ m Hg Hst Hmb ltac:(lia)) as (img & Himg & Hil & Hih & Hframe).
  exists l, parent, bat, img. split; [done|]. split; [done|]. split; [done|]. split; [unfold created_vhdx; rewrite apply_writes_app, Hm; exact Himg|].
  split; [intros path ->; eapply child_named; [exact Hg | exact Hih | exact (vp_region _ _ _ _ _ _ _ _ _ Hst) | exact Hlf]|].
  split; [exact (ih_bytes _ _ _ _ _ Hih)|]. split; [lia|]. intros dev. rewrite <- Hsame in *. destruct (div_ceil_spec (vo_virtual_size opts) 512 ltac:(lia)) as [Hround _].
  split; [exact (image_opens l (is_fixed opts) locator img h1 rt md Hg Hih (vp_region _ _ _ _ _ _ _ _ _ Hst) ssz cap Hpow ltac:(lia)
      (vp_table _ _ _ _ _ _ _ _ _ Hst) (vp_header1 _ _ _ _ _ _ _ _ _ Hst) dev)|].
  intros v Hv. apply block_found; try done; try lia.
  - intros Hne. apply Hfix. rewrite Hvf in Hne. unfold fixed_rest in Hne. by destruct (is_fixed opts).
  - intros j Hj. rewrite Hframe; [by apply Hent | |]; pose proof (ge_bat _ _ Hg); pose proof (ge_metadata _ _ Hg); destruct (ge_consts _ _ Hg) as (C1 & C2 & _);
      destruct (geometry_bounds l _ Hg) as (_ & _ & _ & _ & ? & _ & _); unfold MB_ALIGN in *; lia.
Qed.

Lemma device_of ssz cap img : sector_pow ssz -> 0 <= cap -> cap * ssz <= u64_max -> blen img = cap * ssz -> device_ok ssz cap img.
Proof. intros Hpow Hc Hb Hl. destruct (sector_pow_cases ssz Hpow) as [Hz _]. split; [unfold MAX_SECTOR_SIZE; lia | split; [lia|nia] | lia | lia]. Qed.

Lemma mapM_expected {A B} (f : A -> option B) (g : A -> B) xs ys : (forall x, x ∈ xs -> f x = Some (g x)) -> mapM f xs = Some ys -> ys = map g xs.
Proof.
  intros Hf Hm. apply mapM_Some in Hm. induction Hm as [|x y xs ys Hxy _ IH]; [done|]. rewrite (Hf x) in Hxy by apply list_elem_of_here. injection Hxy as <-. cbn [map]. f_equal.
  apply IH. intros z Hz. apply Hf. by apply list_elem_of_further.
Qed.

(** C34: What a reader finds in a created VHDX.  A plan's structures, after the streamed BAT
    of a fixed image, written to a file of the planned length, make an image that this
    reader opens on any sector size with the planned geometry, a parent exactly when one
    was asked for, and finds every offset of the disk unallocated, zero, or, in a fixed
    image with present blocks, at its own place after the data start.  A child names its
    parent: the locator in its metadata parses without a defect, links to the GUID given,
    and its path reads back to the same names. *)
Theorem created_vhdx_reads {H : Type} `{FlatInput H} (opts : VhdxCreateOpts) (scratch_len : Z) (plan : VhdxPlan) (ssz cap : Z) (slot : bytes) :
  vhdx_request_ok opts -> plan_vhdx opts scratch_len = Ok plan -> sector_pow ssz -> 0 <= cap -> cap * ssz + 4294967296 <= u64_max ->
  created_length plan <= cap * ssz -> blen slot = 65536 -> is_bytes slot ->
  exists l parent bat img,
    layout (vo_virtual_size opts) (vo_block_size opts) (bool_decide (is_Some parent)) = Ok l /\ vhdx_parent_path (vo_backing opts) = Ok parent /\
    bat_stream plan ssz cap slot = Ok bat /\ created_vhdx plan bat (cap * ssz) = Some img /\
    (forall path, parent = Some path -> child_names_parent l img opts path) /\
    forall dev voffs (s : InSt H), reader_ok dev ssz img s -> Forall (fun v => 0 <= v < vo_virtual_size opts) voffs ->
      wp (open_and_lookup (init dev ssz cap) ssz cap voffs)
        (fun r _ => fst r = opened l dev (bool_decide (is_Some parent)) /\ snd r = map (expected_block l (vp_fixed plan)) voffs)
        (fun _ _ => ~ responsive (in_host s)) s.
Proof.
  intros Hr Hplan Hpow Hc0 Hbig Hlen Hsl Hsb.
  destruct (created_vhdx_image opts scratch_len plan ssz cap slot Hr Hplan Hpow Hbig Hlen Hsl Hsb) as (l & parent & bat & img & Hlay & Hpp & Hbs & Himg & Hch & Hib & Hil & Hread).
  exists l, parent, bat, img. split_and!; try done. intros dev voffs s Hrd Hvoffs. destruct (Hread dev) as [Hopen Hlook]. rewrite Forall_forall in Hvoffs.
  assert (forall v, v ∈ voffs -> 0 <= v < vo_virtual_size opts) as Hin by (intros v Hv; by apply Hvoffs, list_elem_of_In).
  eapply wp_mono; [apply (vhdx_lookups_spec dev ssz cap img voffs s (device_of ssz cap img Hpow Hc0 ltac:(lia) Hil) Hib Hpow Hbig); [|exact Hrd]| |].
  - apply Forall_forall. intros v Hv. specialize (Hvoffs v Hv). pose proof (vr_size _ Hr). unfold is_u64 in *. lia.
  - intros [st answers] _ (Hst & _ & Hmp). cbn [fst snd] in *. rewrite Hopen in Hst. injection Hst as <-. split; [done|].
    apply (mapM_expected _ _ _ _ (fun v Hv => Hlook v (Hin v Hv)) Hmp).
  - intros ? ? Hfail Hresp. destruct (Hfail Hresp) as [Hn|(st & v & Hst & _ & Hv & Hn)]; [congruence|]. rewrite Hopen in Hst. injection Hst as <-. rewrite (Hlook v (Hin v Hv)) in Hn. done.
Qed.

(** A fixed image of three blocks, present. *)
Definition demo_vhdx_request : VhdxCreateOpts := mkVhdxCreateOpts 3145728 1048576 VsFixed false None (filled 16 0).

Definition demo_fixed_layout : VhdxLayout :=
  mkVhdxLayout 3145728 1048576 4096 3 3 1048576 1048576 2097152 1048576 3145728 1048576 4194304 8388608 11534336 512 512.

Lemma demo_vhdx_request_ok : vhdx_request_ok demo_vhdx_request.
Proof.
  constructor; [unfold is_u64, u64_max; cbn; lia | unfold is_u32, u32_max; cbn; lia | split; [apply is_bytesb_true; reflexivity | reflexivity] | intros b Hb; discriminate Hb].
Qed.

Lemma demo_vhdx_plan : exists plan, plan_vhdx demo_vhdx_request 2000000 = Ok plan /\
  vp_fixed plan = Some (mkFixedVhdxPlan demo_fixed_layout FbFullyPresent 24 11534336).
Proof.
  pose proof (plan_vhdx_spec demo_vhdx_request 2000000 demo_vhdx_request_ok) as Hs.
  assert (layout 3145728 1048576 false = Ok demo_fixed_layout) as Hlay by reflexivity.
  destruct (plan_vhdx demo_vhdx_request 2000000) as [plan|e| |]; [| |destruct Hs|destruct Hs].
  - exists plan. split; [exact eq_refl|]. destruct Hs as (parent & locator & l & fid & h1 & h2 & rt & md & Hpp & Hl & _ & _ & _ & Hvf & _).
    cbn in Hpp. injection Hpp as <-. cbn [vo_virtual_size vo_block_size demo_vhdx_request] in Hl. change (bool_decide (is_Some None)) with false in Hl.
    rewrite Hlay in Hl. injection Hl as <-. rewrite Hvf. reflexivity.
  - exfalso. destruct Hs as [[Hz _]|[(_ & Hb & _)|[Hp|(parent & Hp & Hs)]]]; [discriminate Hz | by apply Hb | discriminate Hp |]. cbn in Hp. injection Hp as <-.
    cbn [vo_virtual_size vo_block_size demo_vhdx_request] in Hs. change (bool_decide (is_Some None)) with false in Hs. rewrite Hlay in Hs.
    destruct Hs as [(le & Hle & _)|[[Hlt _]|(path & Hpath & _)]]; [discriminate Hle | unfold MB_ALIGN in Hlt; lia | discriminate Hpath].
Qed.

Lemma sector_pow_512 : sector_pow 512.
Proof. exists 9. split; [lia | reflexivity]. Qed.

Lemma created_vhdx_reads_witness :
  exists plan bat img, plan_vhdx demo_vhdx_request 2000000 = Ok plan /\ created_vhdx plan bat 11534336 = Some img /\
    wp (open_and_lookup (init 0 512 22528) 512 22528 [0; 3145727]) (fun r _ => snd r = [Present 8388608; Present 11534335])
      (fun _ _ => ~ responsive (mkVecInput [img])) (InSt_new (mkVecInput [img]) 0 (filled 512 0) (filled 512 0)).
Proof.
  destruct demo_vhdx_plan as (plan & Hplan & Hvf).
  destruct (created_vhdx_reads (H := VecInput) demo_vhdx_request 2000000 plan 512 22528 (filled 65536 0) demo_vhdx_request_ok Hplan sector_pow_512 ltac:(lia) ltac:(unfold u64_max; lia)
    ltac:(unfold created_length; rewrite Hvf; cbn [fp_file_length]; lia) (blen_filled 65536 0 ltac:(lia)) (filled_is_bytes 65536 0 ltac:(unfold is_u8, u8_max; lia)))
    as (l & parent & bat & img & Hl & Hp & _ & Hi & _ & Hread).
  cbn in Hp. injection Hp as <-. assert (layout 3145728 1048576 false = Ok demo_fixed_layout) as Hlay by reflexivity.
  cbn [vo_virtual_size vo_block_size demo_vhdx_request] in Hl. change (bool_decide (is_Some None)) with false in Hl. rewrite Hlay in Hl. injection Hl as <-.
  exists plan, bat, img. split; [exact Hplan|]. split; [exact Hi|].
  eapply wp_mono; [apply Hread | intros r _ [_ Hr]; rewrite Hr, Hvf; reflexivity | intros ? ? Hn; exact Hn].
  - apply (vec_ready (mkVecInput [img])); clear; vm_compute; discriminate.
  - clear. constructor; [change (0 <= 0 < 3145728); lia | constructor; [change (0 <= 3145727 < 3145728); lia | constructor]].
Defined.

(** The theorem on reading any image, at that one. *)
Lemma vhdx_reads_exact_witness :
  exists img st, vhdx_disk 0 512 22528 img = Some st /\
    wp (open_and_lookup (init 0 512 22528) 512 22528 [1048576])
      (fun r _ => fst r = st /\ Forall2 (vhdx_answer st img) [1048576] (snd r))
      (fun _ _ => ~ responsive (mkVecInput [img])) (InSt_new (mkVecInput [img]) 0 (filled 512 0) (filled 512 0)).
Proof.
  destruct demo_vhdx_plan as (plan & Hplan & Hvf).
  destruct (created_vhdx_image demo_vhdx_request 2000000 plan 512 22528 (filled 65536 0) demo_vhdx_request_ok Hplan sector_pow_512 ltac:(unfold u64_max; lia)
    ltac:(unfold created_length; rewrite Hvf; cbn [fp_file_length]; lia) (blen_filled 65536 0 ltac:(lia)) (filled_is_bytes 65536 0 ltac:(unfold is_u8, u8_max; lia)))
    as (l & parent & bat & img & Hl & Hp & _ & Hi & _ & Hb & Hlen & Hread).
  cbn in Hp. injection Hp as <-. assert (layout 3145728 1048576 false = Ok demo_fixed_layout) as Hlay by reflexivity.
  cbn [vo_virtual_size vo_block_size demo_vhdx_request] in Hl. change (bool_decide (is_Some None)) with false in Hl. rewrite Hlay in Hl. injection Hl as <-.
  destruct (Hread 0) as [Hopen Hlook]. clear Hread. specialize (Hlook 1048576 ltac:(change (0 <= 1048576 < 3145728); lia)). rewrite Hvf in Hlook.
  change (bool_decide (is_Some None)) with false in Hopen, Hlook.
  pose proof (device_of 512 22528 img sector_pow_512 ltac:(lia) ltac:(unfold u64_max; lia) Hlen) as Hdev.
  rewrite (vhdx_init_ref_disk 0 512 22528 img Hb Hdev sector_pow_512) in Hopen.
  exists img, (opened demo_fixed_layout 0 false). split; [exact Hopen|].
  eapply wp_mono; [apply (vhdx_reads_exact 0 512 22528 img [1048576]) | |].
  - exact Hdev.
  - exact Hb.
  - exact sector_pow_512.
  - unfold u64_max. lia.
  - constructor; [unfold is_u64, u64_max; lia | constructor].
  - apply (vec_ready (mkVecInput [img])); clear; vm_compute; discriminate.
  - intros [st bs] _ (Hst & Hm). cbn [fst snd] in *. rewrite Hopen in Hst. injection Hst as <-. split; [reflexivity | exact Hm].
  - intros ? ? Hf Hr. destruct (Hf Hr) as [Hn|(st & v & Hst & Hv & Hin & Hn)]; [congruence|]. apply list_elem_of_singleton in Hv. subst v.
    rewrite Hopen in Hst. injection Hst as <-.
    assert (state_ok (opened demo_fixed_layout 0 false) 512) as Hok
      by (constructor; try split; repeat constructor; vm_compute; discriminate || reflexivity).
    destruct (block_ref_valid (opened demo_fixed_layout 0 false) 512 22528 img 1048576 _ Hb Hok ltac:(unfold is_u64, u64_max; lia) Hlook Hin)
      as (H1 & H2 & e1 & He & Hsays). destruct Hn as [?|[?|(e2 & He' & Hno)]]; [lia | lia |].
    rewrite He in He'. injection He' as <-. exact (Hno _ Hsays).
Defined.
