(* ===== verification/VhdGeometry.v ===== *)
(** The disk geometry of VHD images ([src/src/crates/vhd/src/lib.rs]): the cylinder, head
    and sector counts of a size, the upward search for a size that they cover, and the
    geometry a footer declares. *)

From stdpp Require Import base numbers list.
From Stdlib Require Import ZArith Lia.
From S2P Require Import Prelude.

(** ** Definitions *)

Definition VHD_MAX_SECTORS : Z := 65535 * 16 * 255.

(** Cylinders, heads and sectors per track. *)
Definition Chs : Type := Z * Z * Z.

Definition calculate_geometry (total_sectors : Z) : Chs :=
  let total_sectors := Z.min total_sectors VHD_MAX_SECTORS in
  if 65535 * 16 * 63 <=? total_sectors then
    let cyl_times_heads := total_sectors / 255 in
    (as_u16 (cyl_times_heads / 16), 16, 255)
  else
  let sectors_per_track := 17 in
  let cyl_times_heads := total_sectors / sectors_per_track in
  let heads := div_ceil cyl_times_heads 1024 in
  let heads := if heads <? 4 then 4 else heads in
  let '(sectors_per_track, heads, cyl_times_heads) :=
    if (wmul heads 1024 <=? cyl_times_heads) || (16 <? heads)
    then (31, 16, total_sectors / 31)
    else (sectors_per_track, heads, cyl_times_heads) in
  let '(sectors_per_track, heads, cyl_times_heads) :=
    if wmul heads 1024 <=? cyl_times_heads
    then (63, 16, total_sectors / 63)
    else (sectors_per_track, heads, cyl_times_heads) in
  (as_u16 (cyl_times_heads / heads), as_u8 heads, as_u8 sectors_per_track).

Definition compute_vhd_geometry (size : Z) : Chs := calculate_geometry (size / 512).

(** [geometry.0 as u64 * geometry.1 as u64 * geometry.2 as u64]. *)
Definition chs_product (g : Chs) : Z := let '(c, h, s) := g in wmul (wmul c h) s.

(** The [while] loop of [chs_covering_search]. *)
Fixpoint covering_loop {E} (n : nat) (requested candidate : Z) (geometry : Chs) : outcome E Chs :=
  match n with
  | O => OutOfFuel
  | S n' =>
      if chs_product geometry <? requested
      then covering_loop n' requested (wadd candidate 1) (calculate_geometry candidate)
      else Ok geometry
  end.

(** A floor geometry misses its sector count by less than 4080 sectors (16 heads of 255),
    so 4080 turns and the final test are enough. *)
Definition SEARCH_TURNS : nat := Z.to_nat 4081.

Definition chs_covering_search {E} (requested : Z) : outcome E Chs :=
  covering_loop SEARCH_TURNS requested requested (0, 0, 0).

Definition chs_rounded_size {E} (size : Z) : outcome E Z :=
  if size =? 0 then Ok 0
  else
  let requested := Z.min (div_ceil size 512) VHD_MAX_SECTORS in
  let? g := chs_covering_search requested in
  let product := chs_product g in
  Ok (if product =? VHD_MAX_SECTORS then wmul requested 512 else wmul product 512).

Definition chs_rounded_geometry {E} (size : Z) : outcome E Chs :=
  if size =? 0 then Ok (0, 0, 0)
  else chs_covering_search (Z.min (div_ceil size 512) VHD_MAX_SECTORS).

Definition footer_geometry {E} (current_size : Z) : outcome E Chs :=
  let? rounded := chs_rounded_size current_size in
  if rounded =? current_size then chs_rounded_geometry current_size
  else Ok (compute_vhd_geometry current_size).

(** ** The floor geometry *)

(** Fields that fit the footer's widths. *)
Definition chs_ok (g : Chs) : Prop :=
  let '(c, h, s) := g in 0 <= c <= u16_max /\ 0 <= h <= 16 /\ 0 <= s <= u8_max.

Lemma chs_product_eq c h s : chs_ok (c, h, s) -> chs_product (c, h, s) = c * h * s.
Proof.
  intros (Hc & Hh & Hs). unfold u16_max, u8_max in *. unfold chs_product.
  assert (0 <= c * h <= 1048560) as Hch by nia. assert (0 <= c * h * s <= 267382800) as Hp by nia.
  rewrite (wmul_small c h), wmul_small; unfold u64_max; lia.
Qed.

(** Rounding a sector count down to whole cylinders. *)
Lemma floor_cylinders t spt heads : 0 <= t -> 0 < spt -> 0 < heads ->
  t - heads * spt < t / spt / heads * heads * spt <= t /\ 0 <= t / spt / heads.
Proof.
  intros Ht Hs Hh. pose proof (Z.div_mod t spt ltac:(lia)). pose proof (Z.mod_pos_bound t spt Hs).
  pose proof (Z.div_mod (t / spt) heads ltac:(lia)). pose proof (Z.mod_pos_bound (t / spt) heads Hh).
  split; [nia|]. apply Z.div_pos; [apply Z.div_pos|]; lia.
Qed.

(** What any choice of heads and sectors per track the ladder makes gives. *)
Lemma cast_cylinders t spt heads : 0 <= t -> 17 <= spt <= 255 -> 4 <= heads <= 16 -> t / spt / heads <= 65535 ->
  let g := (as_u16 (t / spt / heads), as_u8 heads, as_u8 spt) in
  chs_ok g /\ t - 4080 < chs_product g <= t.
Proof.
  intros Ht Hs Hh Hc. cbv zeta. destruct (floor_cylinders t spt heads) as [Hp H0]; [lia | lia | lia |].
  unfold as_u16, as_u8. rewrite !Z.mod_small by lia.
  assert (chs_ok (t / spt / heads, heads, spt)) as Hok by (unfold chs_ok, u16_max, u8_max; lia).
  split; [done|]. rewrite chs_product_eq by done. split; [|lia]. nia.
Qed.

Lemma below_cylinders t spt heads : 0 <= t -> 0 < spt -> 0 < heads -> t / spt < heads * 65536 -> t / spt / heads <= 65535.
Proof. intros Ht Hs Hh Hlt. apply Z.lt_succ_r. apply Z.div_lt_upper_bound; lia. Qed.

(** Sectors that the geometry of [c] addresses. *)
Definition addressed (c : Z) : Z := chs_product (calculate_geometry c).

Lemma geometry_floor total : 0 <= total ->
  chs_ok (calculate_geometry total) /\
  Z.min total VHD_MAX_SECTORS - 4080 < addressed total <= Z.min total VHD_MAX_SECTORS.
Proof.
  intros Ht. unfold addressed, calculate_geometry. set (t := Z.min total VHD_MAX_SECTORS).
  assert (0 <= t <= VHD_MAX_SECTORS) as Hb by (unfold t, VHD_MAX_SECTORS; lia). clearbody t. unfold VHD_MAX_SECTORS in Hb.
  destruct (Z.leb_spec (65535 * 16 * 63) t) as [|Hlt].
  { apply (cast_cylinders t 255 16); [lia | lia | lia |]. do 2 (apply Z.div_le_upper_bound; [lia|]). lia. }
  set (cth := t / 17). assert (0 <= cth) as H0 by (apply Z.div_pos; lia).
  assert (0 <= t / 31 /\ 0 <= t / 63 < 65535 * 16) as [H31 H63].
  { split; [apply Z.div_pos; lia|]. split; [apply Z.div_pos; lia | apply Z.div_lt_upper_bound; lia]. }
  assert (cth <= 3885898) as Hcu by (apply Z.div_le_upper_bound; lia).
  pose proof (div_ceil_nonneg cth 1024 ltac:(lia) H0) as Hd0.
  pose proof (div_ceil_le cth 1024 4000 ltac:(lia) ltac:(lia)) as Hd1.
  set (heads := if div_ceil cth 1024 <? 4 then 4 else div_ceil cth 1024).
  assert (4 <= heads <= 4000) as Hh by (unfold heads; destruct (Z.ltb_spec (div_ceil cth 1024) 4); lia).
  clearbody heads. rewrite (wmul_small heads 1024) by (unfold u64_max; lia).
  destruct (Z.leb_spec (heads * 1024) cth), (Z.ltb_spec 16 heads); cbn [orb]; rewrite ?wmul_small by (unfold u64_max; lia);
    match goal with |- context [?x <=? ?y] => destruct (Z.leb_spec x y) end;
    apply cast_cylinders; try lia; apply below_cylinders; unfold cth in *; lia.
Qed.

(** At the ceiling nothing is lost. *)
Lemma geometry_ceiling total : VHD_MAX_SECTORS <= total -> addressed total = VHD_MAX_SECTORS.
Proof. intros Ht. unfold addressed, calculate_geometry. by rewrite Z.min_r by lia. Qed.

(** ** The upward search *)

(** The first sector count from [req] on whose geometry covers [req]. *)
Record least_cover (req c : Z) : Prop := {
  lc_range : req <= c < req + 4080;
  lc_covers : req <= addressed c;
  lc_least c' : req <= c' < c -> addressed c' < req
}.

Lemma least_cover_unique req c1 c2 : least_cover req c1 -> least_cover req c2 -> c1 = c2.
Proof.
  intros [R1 C1 L1] [R2 C2 L2]. destruct (Z.lt_trichotomy c1 c2) as [?|[?|?]]; [|done|].
  - specialize (L2 c1 ltac:(lia)). lia.
  - specialize (L1 c2 ltac:(lia)). lia.
Qed.

(** 4079 sectors on, the geometry covers the request. *)
Lemma covered_in_reach req : 0 < req <= VHD_MAX_SECTORS -> req <= addressed (req + 4079).
Proof.
  intros Hr. destruct (Z.le_gt_cases VHD_MAX_SECTORS (req + 4079)).
  - rewrite geometry_ceiling by done. lia.
  - destruct (geometry_floor (req + 4079)) as [_ Hf]; lia.
Qed.

Lemma covering_loop_least {E} n req : 0 < req <= VHD_MAX_SECTORS -> forall cand g, req <= cand <= req + 4079 ->
  chs_product g < req -> (forall c', req <= c' < cand -> addressed c' < req) -> req + 4081 - cand <= Z.of_nat n ->
  exists c, least_cover req c /\ covering_loop (E := E) n req cand g = Ok (calculate_geometry c).
Proof.
  intros Hr. induction n as [|n IH]; intros cand g Hc Hg Hrej Hn; [lia|]. cbn [covering_loop].
  rewrite (proj2 (Z.ltb_lt _ _) Hg). rewrite wadd_small by (unfold VHD_MAX_SECTORS, u64_max in *; lia).
  destruct (Z.le_gt_cases req (addressed cand)) as [Hcov|Hnot].
  - exists cand. split; [constructor; [lia | done | done]|]. destruct n as [|n]; [lia|]. cbn [covering_loop].
    fold (addressed cand). by rewrite (proj2 (Z.ltb_ge _ _) Hcov).
  - assert (cand <> req + 4079) as Hne by (intros ->; pose proof (covered_in_reach req Hr); lia).
    apply IH; [lia | by fold (addressed cand) | | lia]. intros c' Hc'. destruct (Z.eq_dec c' cand) as [->|]; [lia|]. apply Hrej. lia.
Qed.

Lemma search_least {E} req : 0 < req <= VHD_MAX_SECTORS ->
  exists c, least_cover req c /\ chs_covering_search (E := E) req = Ok (calculate_geometry c).
Proof.
  intros Hr. apply covering_loop_least; [done | lia | | lia |].
  - change (chs_product (0, 0, 0)) with 0. lia.
  - unfold SEARCH_TURNS. lia.
Qed.

(** Searching again from what the geometry addresses ends at the same candidate: every
    sector count in between was rejected already. *)
Lemma least_cover_again req c : 0 < req <= VHD_MAX_SECTORS -> least_cover req c -> least_cover (addressed c) c.
Proof.
  intros Hr [Hc Hcov Hleast]. destruct (geometry_floor c ltac:(lia)) as [_ Hf]. constructor.
  - destruct (Z.le_gt_cases VHD_MAX_SECTORS c); [|lia].
    rewrite geometry_ceiling in Hcov |- * by done. lia.
  - done.
  - intros c' Hc'. specialize (Hleast c' ltac:(lia)). lia.
Qed.

(** The sectors of a request, up to the ceiling. *)
Definition requested_sectors (size : Z) : Z := Z.min (div_ceil size 512) VHD_MAX_SECTORS.

Lemma requested_range size : 0 < size -> 0 < requested_sectors size <= VHD_MAX_SECTORS.
Proof.
  intros Hs. destruct (div_ceil_spec size 512 ltac:(lia)). unfold requested_sectors, VHD_MAX_SECTORS. lia.
Qed.

(** What the two rounding functions return for a size above 0. *)
Lemma rounded_at {E F} size : 0 < size ->
  exists c, least_cover (requested_sectors size) c /\
    chs_rounded_geometry (E := F) size = Ok (calculate_geometry c) /\
    chs_rounded_size (E := E) size =
      Ok (512 * (if addressed c =? VHD_MAX_SECTORS then requested_sectors size else addressed c)).
Proof.
  intros Hs. pose proof (requested_range size Hs) as Hr. destruct (search_least (E := E) _ Hr) as (c & Hc & He).
  destruct (search_least (E := F) _ Hr) as (c2 & Hc2 & Hf). rewrite (least_cover_unique _ _ _ Hc2 Hc) in Hf.
  exists c. split; [done|]. unfold chs_rounded_geometry, chs_rounded_size. fold (requested_sectors size).
  rewrite (proj2 (Z.eqb_neq size 0)), He, Hf by lia. split; [done|]. cbn [obind]. fold (addressed c).
  pose proof (lc_range _ _ Hc). destruct (geometry_floor c ltac:(lia)) as [_ Hp]. pose proof (lc_covers _ _ Hc). unfold VHD_MAX_SECTORS in *.
  destruct (_ =? _); rewrite wmul_small by (unfold u64_max; lia); f_equal; lia.
Qed.

Lemma whole_sectors n : div_ceil (512 * n) 512 = n.
Proof. destruct (div_ceil_spec (512 * n) 512 ltac:(lia)). lia. Qed.

(** The rounded size of the rounded size, and its geometry. *)
Lemma rounded_again {E} size c : 0 < size -> least_cover (requested_sectors size) c ->
  let r := 512 * (if addressed c =? VHD_MAX_SECTORS then requested_sectors size else addressed c) in
  0 < r /\ chs_rounded_size (E := E) r = Ok r /\ chs_rounded_geometry (E := E) r = Ok (calculate_geometry c).
Proof.
  intros Hs Hc. pose proof (requested_range size Hs) as Hr. pose proof (lc_range _ _ Hc). pose proof (lc_covers _ _ Hc).
  destruct (geometry_floor c ltac:(lia)) as [_ Hp]. cbv zeta. set (n := if _ =? _ then _ else _).
  assert (0 < n <= VHD_MAX_SECTORS) as Hn by (unfold n; destruct (_ =? _); lia).
  assert (requested_sectors (512 * n) = n) as Hreq by (unfold requested_sectors; rewrite whole_sectors; lia).
  assert (least_cover n c) as Hcn by (unfold n; destruct (_ =? _); [done | by apply (least_cover_again (requested_sectors size))]).
  destruct (rounded_at (E := E) (F := E) (512 * n) ltac:(lia)) as (c2 & Hc2 & Hg & Hz). rewrite Hreq in Hc2, Hz.
  rewrite (least_cover_unique _ _ _ Hc2 Hcn) in Hg, Hz. split; [lia|]. split; [|done]. rewrite Hz. f_equal. f_equal.
  unfold n. by destruct (_ =? _).
Qed.

(** ** Properties *)

(** C38: Rounding any size to a disk geometry terminates within 4080 candidates and gives the
    geometry of the first one that covers the request.  Up to the ceiling of 65535
    cylinders the rounded size covers the request and exceeds it by less than 4080 sectors;
    beyond it the size is the ceiling.  The geometry fits the footer's fields and addresses
    exactly the rounded size, except at the ceiling where it addresses more.  The rounded
    size is a fixed point whose footer carries that same geometry, so writing the footer
    from the declared size alone loses nothing.  For any size, the footer's geometry covers
    a size that is a fixed point and never addresses more than any other. *)
Theorem chs_rounding_exact {E} (size : Z) : is_u64 size ->
  exists r g gf,
    chs_rounded_size (E := E) size = Ok r /\ chs_rounded_geometry (E := E) size = Ok g /\ chs_ok g /\
    (size <= 512 * VHD_MAX_SECTORS -> size <= r < size + 512 * 4080) /\
    (512 * VHD_MAX_SECTORS < size -> r = 512 * VHD_MAX_SECTORS) /\
    (512 * chs_product g = r \/ chs_product g = VHD_MAX_SECTORS /\ r = 512 * requested_sectors size) /\
    (0 < size -> exists c, least_cover (requested_sectors size) c /\ g = calculate_geometry c) /\
    chs_rounded_size (E := E) r = Ok r /\ footer_geometry (E := E) r = Ok g /\
    footer_geometry (E := E) size = Ok gf /\ chs_ok gf /\
    (r = size -> size <= 512 * chs_product gf) /\ (r <> size -> 512 * chs_product gf <= size).
Proof.
  intros Hs. unfold is_u64 in Hs. destruct (Z.eq_dec size 0) as [->|].
  { exists 0, (0, 0, 0), (0, 0, 0). unfold VHD_MAX_SECTORS. split_and!; try done; try lia. by left. }
  destruct (rounded_at (E := E) (F := E) size ltac:(lia)) as (c & Hc & Hg & Hz).
  destruct (rounded_again (E := E) size c ltac:(lia) Hc) as (Hr0 & Hrz & Hrg). set (r := 512 * _) in *.
  pose proof (requested_range size ltac:(lia)) as Hreq. pose proof (lc_range _ _ Hc). pose proof (lc_covers _ _ Hc).
  destruct (geometry_floor c ltac:(lia)) as [Hok Hp]. destruct (div_ceil_spec size 512 ltac:(lia)) as [Hd1 Hd2].
  destruct (geometry_floor (size / 512)) as [Hok2 Hp2]; [apply Z.div_pos; lia|].
  pose proof (Z.mul_div_le size 512 ltac:(lia)).
  exists r, (calculate_geometry c), (if r =? size then calculate_geometry c else calculate_geometry (size / 512)).
  assert (forall n, footer_geometry (E := E) n = let? z := chs_rounded_size n in if z =? n then chs_rounded_geometry n else Ok (calculate_geometry (n / 512))) as Hft by done.
  rewrite !Hft, Hz, Hrz, Hg. cbn [obind]. rewrite Z.eqb_refl, Hrg. fold (addressed c).
  assert (512 * requested_sectors size <= r <= 512 * addressed c) as Hrr by (unfold r; destruct (Z.eqb_spec (addressed c) VHD_MAX_SECTORS); lia).
  unfold requested_sectors in *. split_and!; try done.
  - intros Hsz. assert (div_ceil size 512 <= VHD_MAX_SECTORS) by (apply div_ceil_le; lia). lia.
  - lia.
  - unfold r. destruct (Z.eqb_spec (addressed c) VHD_MAX_SECTORS); [by right | by left].
  - by exists c.
  - by destruct (r =? size).
  - by destruct (r =? size).
  - intros ->. rewrite Z.eqb_refl. fold (addressed c). lia.
  - intros Hne. rewrite (proj2 (Z.eqb_neq _ _) Hne). fold (addressed (size / 512)). lia.
Qed.

(** 53433856 bytes: 877 cylinders of 7 heads of 17 sectors, where the floor geometry,
    1023 cylinders of 6 heads, would address 17 sectors less. *)
Lemma chs_rounding_exact_witness :
  footer_geometry (E := unit) 53433856 = Ok (877, 7, 17) /\ compute_vhd_geometry 53433856 = (1023, 6, 17) /\
  exists r g gf,
    chs_rounded_size (E := unit) 53433856 = Ok r /\ chs_rounded_geometry (E := unit) 53433856 = Ok g /\ chs_ok g /\
    (53433856 <= 512 * VHD_MAX_SECTORS -> 53433856 <= r < 53433856 + 512 * 4080) /\
    (512 * VHD_MAX_SECTORS < 53433856 -> r = 512 * VHD_MAX_SECTORS) /\
    (512 * chs_product g = r \/ chs_product g = VHD_MAX_SECTORS /\ r = 512 * requested_sectors 53433856) /\
    (0 < 53433856 -> exists c, least_cover (requested_sectors 53433856) c /\ g = calculate_geometry c) /\
    chs_rounded_size (E := unit) r = Ok r /\ footer_geometry (E := unit) r = Ok g /\
    footer_geometry (E := unit) 53433856 = Ok gf /\ chs_ok gf /\
    (r = 53433856 -> 53433856 <= 512 * chs_product gf) /\ (r <> 53433856 -> 512 * chs_product gf <= 53433856).
Proof.
  split; [vm_compute; reflexivity|]. split; [vm_compute; reflexivity|].
  apply (chs_rounding_exact 53433856). unfold is_u64, u64_max. lia.
Defined.
