(* ===== verification/Vhd.v ===== *)
(** The structures of a VHD file ([src/src/crates/vhd/src/lib.rs]): the footer and the
    dynamic header, with the code that writes and the code that reads them, their
    checksum, and the search for the footer in the last sector of a device. *)

From stdpp Require Import base numbers list sets option.
From Stdlib Require Import ZArith Lia.
From S2P Require Import Prelude Bytes ExecBytes CachedRead Header Stamp VhdGeometry.

(** ** Definitions *)

Definition FOOTER_SIZE : Z := 512.
Definition FOOTER_COOKIE_OFFSET : Z := 0.
Definition FOOTER_FEATURES_OFFSET : Z := 8.
Definition FOOTER_FORMAT_VERSION_OFFSET : Z := 12.
Definition FOOTER_DATA_OFFSET_OFFSET : Z := 16.
Definition FOOTER_TIMESTAMP_OFFSET : Z := 24.
Definition FOOTER_CREATOR_APP_OFFSET : Z := 28.
Definition FOOTER_CREATOR_VERSION_OFFSET : Z := 32.
Definition FOOTER_CREATOR_HOST_OFFSET : Z := 36.
Definition FOOTER_ORIGINAL_SIZE_OFFSET : Z := 40.
Definition FOOTER_CURRENT_SIZE_OFFSET : Z := 48.
Definition FOOTER_GEOMETRY_OFFSET : Z := 56.
Definition FOOTER_DISK_TYPE_OFFSET : Z := 60.
Definition FOOTER_CHECKSUM_OFFSET : Z := 64.
Definition FOOTER_UUID_OFFSET : Z := 68.
Definition FOOTER_SAVED_STATE_OFFSET : Z := 84.

Definition DYNAMIC_HEADER_SIZE : Z := 1024.
Definition DYN_COOKIE_OFFSET : Z := 0.
Definition DYN_DATA_OFFSET_OFFSET : Z := 8.
Definition DYN_TABLE_OFFSET_OFFSET : Z := 16.
Definition DYN_HEADER_VERSION_OFFSET : Z := 24.
Definition DYN_MAX_TABLE_ENTRIES_OFFSET : Z := 28.
Definition DYN_BLOCK_SIZE_OFFSET : Z := 32.
Definition DYN_CHECKSUM_OFFSET : Z := 36.

Definition VHD_COOKIE : Z := 0x636f6e6563746978.
Definition CXSPARSE_COOKIE : Z := 0x6378737061727365.
Definition VHD_VERSION_1_0 : Z := 0x00010000.
Definition DISK_TYPE_FIXED : Z := 2.
Definition DISK_TYPE_DYNAMIC : Z := 3.
Definition DISK_TYPE_DIFFERENCING : Z := 4.
Definition BAT_UNALLOCATED : Z := 0xFFFFFFFF.
Definition FEATURES_RESERVED : Z := 2.

Record VhdFooter : Type := mkVhdFooter {
  cookie : Z;
  features : Z;
  format_version : Z;
  data_offset : Z;
  timestamp : Z;
  original_size : Z;
  current_size : Z;
  cylinders : Z;
  heads : Z;
  sectors_per_track : Z;
  disk_type : Z;
  checksum : Z;
  uuid : bytes
}.

Definition VhdFooter_parse (buf : bytes) : outcome unit VhdFooter :=
  if blen buf <? FOOTER_SIZE then Err tt
  else
  let? cookie := be_u64 buf FOOTER_COOKIE_OFFSET in
  if negb (cookie =? VHD_COOKIE) then Err tt
  else
  let? features := be_u32 buf FOOTER_FEATURES_OFFSET in
  let? format_version := be_u32 buf FOOTER_FORMAT_VERSION_OFFSET in
  let? data_offset := be_u64 buf FOOTER_DATA_OFFSET_OFFSET in
  let? timestamp := be_u32 buf FOOTER_TIMESTAMP_OFFSET in
  let? original_size := be_u64 buf FOOTER_ORIGINAL_SIZE_OFFSET in
  let? current_size := be_u64 buf FOOTER_CURRENT_SIZE_OFFSET in
  let? cylinders := be_u16 buf FOOTER_GEOMETRY_OFFSET in
  let? heads := or_panic (byte_at buf (FOOTER_GEOMETRY_OFFSET + 2)) in
  let? sectors_per_track := or_panic (byte_at buf (FOOTER_GEOMETRY_OFFSET + 3)) in
  let? disk_type := be_u32 buf FOOTER_DISK_TYPE_OFFSET in
  let? checksum := be_u32 buf FOOTER_CHECKSUM_OFFSET in
  let? uuid := or_panic (slice buf FOOTER_UUID_OFFSET (FOOTER_UUID_OFFSET + 16)) in
  Ok (mkVhdFooter cookie features format_version data_offset timestamp original_size current_size
        cylinders heads sectors_per_track disk_type checksum uuid).

(** The loop of [find_footer_offset], [slot] counting down. *)
Fixpoint footer_slot (slot : nat) (last_sector : bytes) : outcome unit Z :=
  match slot with
  | O => Err tt
  | S slot' =>
      let offset := Z.of_nat slot' * FOOTER_SIZE in
      match slice last_sector offset (offset + FOOTER_SIZE) with
      | Some candidate =>
          let? cookie := be_u64 candidate FOOTER_COOKIE_OFFSET in
          if cookie =? VHD_COOKIE then Ok offset else footer_slot slot' last_sector
      | None => footer_slot slot' last_sector
      end
  end.

Definition find_footer_offset (last_sector : bytes) : outcome unit Z :=
  footer_slot (Z.to_nat (blen last_sector / FOOTER_SIZE)) last_sector.

Definition parse_last_sector (last_sector : bytes) : outcome unit VhdFooter :=
  let? offset := find_footer_offset last_sector in
  let? tail := ok_or (slice last_sector offset (blen last_sector)) tt in
  VhdFooter_parse tail.

Record VhdDynamicHeader : Type := mkVhdDynamicHeader {
  dyn_cookie : Z;
  table_offset : Z;
  header_version : Z;
  max_table_entries : Z;
  block_size : Z;
  dyn_checksum : Z
}.

Definition VhdDynamicHeader_parse (buf : bytes) : outcome unit VhdDynamicHeader :=
  if blen buf <? DYNAMIC_HEADER_SIZE then Err tt
  else
  let? cookie := be_u64 buf DYN_COOKIE_OFFSET in
  if negb (cookie =? CXSPARSE_COOKIE) then Err tt
  else
  let? table_offset := be_u64 buf DYN_TABLE_OFFSET_OFFSET in
  let? header_version := be_u32 buf DYN_HEADER_VERSION_OFFSET in
  let? max_table_entries := be_u32 buf DYN_MAX_TABLE_ENTRIES_OFFSET in
  let? block_size := be_u32 buf DYN_BLOCK_SIZE_OFFSET in
  let? checksum := be_u32 buf DYN_CHECKSUM_OFFSET in
  Ok (mkVhdDynamicHeader cookie table_offset header_version max_table_entries block_size checksum).

(** The loop of [compute_checksum], from byte [i] on. *)
Fixpoint checksum_loop (buf : bytes) (i checksum_offset sum : Z) : Z :=
  match buf with
  | [] => sum
  | b :: rest =>
      checksum_loop rest (i + 1) checksum_offset
        (if (checksum_offset <=? i) && (i <? wadd checksum_offset 4) then sum else as_u32 (sum + b))
  end.

Definition compute_checksum (buf : bytes) (checksum_offset : Z) : Z :=
  Z.lxor (checksum_loop buf 0 checksum_offset 0) u32_max.

(** The writes of [build_footer] before the checksum, in order. *)
Definition footer_fields (current_size disk_type data_offset : Z) (uuid : bytes) (g : Chs) : list (Z * bytes) :=
  let '(cyl, heads, spt) := g in
  [(FOOTER_COOKIE_OFFSET, be_bytes 8 VHD_COOKIE);
   (FOOTER_FEATURES_OFFSET, be_bytes 4 FEATURES_RESERVED);
   (FOOTER_FORMAT_VERSION_OFFSET, be_bytes 4 VHD_VERSION_1_0);
   (FOOTER_DATA_OFFSET_OFFSET, be_bytes 8 data_offset);
   (FOOTER_TIMESTAMP_OFFSET, be_bytes 4 0);
   (FOOTER_CREATOR_APP_OFFSET, [0x71]);
   (FOOTER_CREATOR_APP_OFFSET + 1, [0x65]);
   (FOOTER_CREATOR_APP_OFFSET + 2, [0x6d]);
   (FOOTER_CREATOR_APP_OFFSET + 3, [0x32]);
   (FOOTER_CREATOR_VERSION_OFFSET, be_bytes 4 0x00010000);
   (FOOTER_CREATOR_HOST_OFFSET, be_bytes 4 0x5769326B);
   (FOOTER_ORIGINAL_SIZE_OFFSET, be_bytes 8 current_size);
   (FOOTER_CURRENT_SIZE_OFFSET, be_bytes 8 current_size);
   (FOOTER_GEOMETRY_OFFSET, be_bytes 2 cyl);
   (FOOTER_GEOMETRY_OFFSET + 2, [heads]);
   (FOOTER_GEOMETRY_OFFSET + 3, [spt]);
   (FOOTER_DISK_TYPE_OFFSET, be_bytes 4 disk_type);
   (FOOTER_UUID_OFFSET, uuid);
   (FOOTER_SAVED_STATE_OFFSET, [0])].

Definition build_footer (buf : bytes) (current_size disk_type data_offset : Z) (uuid : bytes) : outcome unit bytes :=
  let? g := footer_geometry current_size in
  let? buf := or_panic (apply_writes buf (footer_fields current_size disk_type data_offset uuid g)) in
  let checksum := compute_checksum buf FOOTER_CHECKSUM_OFFSET in
  write_be_u32 buf FOOTER_CHECKSUM_OFFSET checksum.

(** The writes of [build_dynamic_header] before the checksum, in order. *)
Definition dynamic_fields (table_offset max_table_entries block_size : Z) : list (Z * bytes) :=
  [(DYN_COOKIE_OFFSET, be_bytes 8 CXSPARSE_COOKIE);
   (DYN_DATA_OFFSET_OFFSET, be_bytes 8 0xFFFFFFFFFFFFFFFF);
   (DYN_TABLE_OFFSET_OFFSET, be_bytes 8 table_offset);
   (DYN_HEADER_VERSION_OFFSET, be_bytes 4 VHD_VERSION_1_0);
   (DYN_MAX_TABLE_ENTRIES_OFFSET, be_bytes 4 max_table_entries);
   (DYN_BLOCK_SIZE_OFFSET, be_bytes 4 block_size)].

Definition build_dynamic_header (buf : bytes) (table_offset max_table_entries block_size : Z) : outcome unit bytes :=
  let? buf := or_panic (apply_writes buf (dynamic_fields table_offset max_table_entries block_size)) in
  let checksum := compute_checksum buf DYN_CHECKSUM_OFFSET in
  write_be_u32 buf DYN_CHECKSUM_OFFSET checksum.

(** ** The checksum *)

(** The sum of the bytes outside the field. *)
Fixpoint sum_outside (buf : bytes) (i off : Z) : Z :=
  match buf with
  | [] => 0
  | b :: rest => (if (off <=? i) && (i <? off + 4) then 0 else b) + sum_outside rest (i + 1) off
  end.

Lemma checksum_loop_sum buf i off sum : 0 <= off <= u64_max - 4 -> is_u32 sum ->
  checksum_loop buf i off sum = as_u32 (sum + sum_outside buf i off).
Proof.
  intros Hoff. revert i sum.
  induction buf as [|b buf IH]; intros i sum Hs; cbn [checksum_loop sum_outside].
  { unfold as_u32, is_u32, u32_max in *. by rewrite Z.add_0_r, Z.mod_small by lia. }
  rewrite wadd_small by lia. unfold as_u32 in *. destruct (_ && _); rewrite IH; [by rewrite Z.add_0_l | done | |].
  - by rewrite Zplus_mod_idemp_l, Z.add_assoc.
  - unfold is_u32, u32_max. pose proof (Z.mod_pos_bound (sum + b) 4294967296 ltac:(lia)). lia.
Qed.

(** The checksum: the complement of the sum, in 32 bits. *)
Lemma compute_checksum_sum buf off : 0 <= off <= u64_max - 4 ->
  compute_checksum buf off = u32_max - sum_outside buf 0 off mod 4294967296.
Proof.
  intros Hoff. unfold compute_checksum. rewrite checksum_loop_sum by (unfold is_u32, u32_max; lia).
  rewrite Z.add_0_l. unfold as_u32. pose proof (Z.mod_pos_bound (sum_outside buf 0 off) 4294967296 ltac:(lia)) as Hm.
  set (s := _ mod 4294967296) in *. change u32_max with (Z.ones 32).
  assert (Z.lxor s (Z.ones 32) + s = Z.ones 32) as Hsum; [|lia].
  rewrite Z.add_nocarry_lxor.
  - by rewrite Z.lxor_assoc, (Z.lxor_comm (Z.ones 32)), <- Z.lxor_assoc, Z.lxor_nilpotent, Z.lxor_0_l.
  - apply Z.bits_inj'. intros n Hn. rewrite Z.land_spec, Z.lxor_spec, Z.bits_0. rewrite Z.testbit_ones_nonneg by lia.
    destruct (Z.ltb_spec n 32).
    + by destruct (Z.testbit s n).
    + rewrite (Z.bits_above_log2 s n); [done | lia |]. destruct (Z.eq_dec s 0) as [->|]; [cbn; lia|].
      apply Z.log2_lt_pow2; [lia|]. assert (2 ^ 32 <= 2 ^ n) by (apply Z.pow_le_mono_r; lia). lia.
Qed.

Lemma compute_checksum_u32 buf off : 0 <= off <= u64_max - 4 -> is_u32 (compute_checksum buf off).
Proof.
  intros Hoff. rewrite compute_checksum_sum by done. unfold is_u32, u32_max.
  pose proof (Z.mod_pos_bound (sum_outside buf 0 off) 4294967296 ltac:(lia)). lia.
Qed.

(** The field itself does not count. *)
Lemma sum_outside_ext l l' i off : length l = length l' ->
  (forall j, ~ off <= i + Z.of_nat j < off + 4 -> l !! j = l' !! j) -> sum_outside l i off = sum_outside l' i off.
Proof.
  revert l' i. induction l as [|b l IH]; intros [|b' l'] i Hlen Heq; try discriminate; [done|]. cbn [sum_outside].
  injection Hlen as Hlen. f_equal.
  - destruct (Z.leb_spec off i), (Z.ltb_spec i (off + 4)); cbn [andb]; try done; (specialize (Heq 0%nat ltac:(lia)); by injection Heq).
  - apply IH; [done|]. intros j Hj. apply (Heq (S j)). lia.
Qed.

Lemma checksum_splice buf off src buf' : 0 <= off <= u64_max - 4 -> blen src = 4 -> splice buf off src = Some buf' ->
  compute_checksum buf' off = compute_checksum buf off.
Proof.
  intros Hoff Hs Hsp. rewrite !compute_checksum_sum by done. do 2 f_equal. pose proof (splice_blen _ _ _ _ Hsp) as Hl.
  apply sum_outside_ext; [unfold blen in Hl; lia|]. intros j Hj. pose proof (splice_byte _ _ _ _ (Z.of_nat j) Hsp) as Hb.
  unfold byte_at in Hb. rewrite (proj2 (Z.leb_le 0 _)), Nat2Z.id, Hs in Hb by lia. rewrite Hb.
  destruct (Z.leb_spec off (Z.of_nat j)), (Z.ltb_spec (Z.of_nat j) (off + 4)); cbn [andb]; try done; lia.
Qed.

(** ** Fields *)

Section fields.
Context {E : Type}.

Lemma be_get n f off v : slice f off (off + blen (be_bytes n v)) = Some (be_bytes n v) -> 0 <= v < 256 ^ Z.of_nat n ->
  (let? l := or_panic (slice f off (off + Z.of_nat n)) in Ok (be_val l)) = Ok (E := E) v.
Proof. rewrite blen_be_bytes. intros -> Hv. cbn [or_panic obind]. by rewrite be_val_bytes. Qed.

Lemma be_u16_get f off v : slice f off (off + blen (be_bytes 2 v)) = Some (be_bytes 2 v) -> is_u16 v -> be_u16 (E := E) f off = Ok v.
Proof. intros Hs Hv. unfold is_u16, u16_max in Hv. apply (be_get 2); [done|]. change (256 ^ Z.of_nat 2) with 65536. lia. Qed.

Lemma be_u32_get f off v : slice f off (off + blen (be_bytes 4 v)) = Some (be_bytes 4 v) -> is_u32 v -> be_u32 (E := E) f off = Ok v.
Proof. intros Hs Hv. unfold is_u32, u32_max in Hv. apply (be_get 4); [done|]. change (256 ^ Z.of_nat 4) with 4294967296. lia. Qed.

Lemma be_u64_get f off v : slice f off (off + blen (be_bytes 8 v)) = Some (be_bytes 8 v) -> is_u64 v -> be_u64 (E := E) f off = Ok v.
Proof. intros Hs Hv. unfold is_u64, u64_max in Hv. apply (be_get 8); [done|]. change (256 ^ Z.of_nat 8) with 18446744073709551616. lia. Qed.

Lemma byte_get f off v : slice f off (off + blen [v]) = Some [v] -> byte_at f off = Some v.
Proof. intros Hs. pose proof (slice_byte _ _ _ _ 0 Hs ltac:(change (blen [v]) with 1; lia)) as Hb. rewrite Z.add_0_r in Hb. by rewrite <- Hb. Qed.

End fields.

(** A structure sealed with the VHD checksum at [coff]. *)
Definition vhd_sealed (coff : Z) : bytes -> bytes -> list (Z * bytes) -> Z -> Prop :=
  sealed (fun d => compute_checksum d coff) coff (be_bytes 4).

Lemma vhd_seal coff buf ws len : is_bytes buf -> 0 <= coff <= u64_max - 4 -> coff + 4 <= len -> len <= blen buf ->
  ascending 0 ws -> Forall (clear_write coff (blen buf)) ws ->
  exists buf1 data buf2, apply_writes buf ws = Some buf1 /\ slice buf1 0 len = Some data /\
    write_be_u32 (E := unit) buf1 coff (compute_checksum data coff) = Ok buf2 /\ blen buf1 = blen buf /\
    vhd_sealed coff buf buf2 ws len.
Proof.
  intros Hb H0 H4 Hl Ha Hw.
  destruct (seal_ok (fun d => compute_checksum d coff) coff (be_bytes 4)) with (buf := buf) (ws := ws) (len := len)
    as (b1 & data & b2 & E1 & E2 & E3 & E4 & Hs); try done; try lia.
  - intros v. split; [apply (blen_be_bytes 4) | apply be_bytes_is_bytes].
  - intros d src d' Hs Hsp. by apply (checksum_splice d coff src).
  - exists b1, data, b2. unfold write_be_u32. rewrite E3. split_and!; done.
Qed.

(** A sealed structure stores the checksum of its first [len] bytes. *)
Lemma sealed_sum coff buf buf' ws len : 0 <= coff <= u64_max - 4 -> vhd_sealed coff buf buf' ws len ->
  exists data, slice buf' 0 len = Some data /\ be_u32 (E := unit) buf' coff = Ok (compute_checksum data coff).
Proof.
  intros Hc Hs. destruct (se_sum _ _ _ _ _ _ _ Hs) as (data & Hd & He). exists data. split; [done|].
  apply be_u32_get; [|by apply compute_checksum_u32]. by rewrite (blen_be_bytes 4).
Qed.

(** The checksum of the specification: the one's complement, in 32 bits, of the sum of the
    bytes of the structure of [len] bytes with the field at [coff] as zero. *)
Definition byte_sum (l : bytes) : Z := foldr Z.add 0 l.

Definition valid_checksum (buf : bytes) (coff len : nat) : Z :=
  u32_max - (byte_sum (take coff buf) + byte_sum (take (len - (coff + 4)) (drop (coff + 4) buf))) mod 2 ^ 32.

Lemma byte_sum_app l l' : byte_sum (l ++ l') = byte_sum l + byte_sum l'.
Proof. induction l as [|b l IH]; cbn [app byte_sum foldr]; [done|]. fold (byte_sum (l ++ l')) (byte_sum l). lia. Qed.

Lemma sum_outside_app l l' i off : sum_outside (l ++ l') i off = sum_outside l i off + sum_outside l' (i + blen l) off.
Proof.
  revert i. induction l as [|b l IH]; intros i; cbn [sum_outside app].
  - change (blen []) with 0. by rewrite Z.add_0_r.
  - rewrite IH, blen_cons, !Z.add_assoc. done.
Qed.

(** Bytes that all lie outside, or inside, the field. *)
Lemma sum_outside_clear l i off : i + blen l <= off \/ off + 4 <= i -> sum_outside l i off = byte_sum l.
Proof.
  revert i. induction l as [|b l IH]; intros i Hi; [done|]. rewrite blen_cons in Hi. pose proof (blen_nonneg l).
  cbn [sum_outside]. rewrite IH by lia. destruct (Z.leb_spec off i), (Z.ltb_spec i (off + 4)); cbn [andb]; try lia; done.
Qed.

Lemma sum_outside_field l i off : off <= i -> i + blen l <= off + 4 -> sum_outside l i off = 0.
Proof.
  revert i. induction l as [|b l IH]; intros i H1 H2; [done|]. rewrite blen_cons in H2. pose proof (blen_nonneg l).
  cbn [sum_outside]. rewrite IH by lia. destruct (Z.leb_spec off i), (Z.ltb_spec i (off + 4)); cbn [andb]; lia.
Qed.

Lemma compute_checksum_valid buf (coff : nat) : Z.of_nat coff + 4 <= blen buf -> Z.of_nat coff <= u64_max - 4 ->
  compute_checksum buf (Z.of_nat coff) = valid_checksum buf coff (length buf).
Proof.
  intros Hl Hc. rewrite compute_checksum_sum by lia. unfold valid_checksum. change (2 ^ 32) with 4294967296. do 2 f_equal.
  unfold blen in Hl. rewrite (take_ge (drop _ _)) by (rewrite length_drop; lia).
  rewrite <- (take_drop coff buf) at 1. rewrite sum_outside_app, sum_outside_clear by (unfold blen; rewrite length_take; lia). f_equal.
  rewrite <- (take_drop 4 (drop coff buf)), drop_drop. rewrite sum_outside_app.
  rewrite sum_outside_field, sum_outside_clear; unfold blen; rewrite ?length_take, ?length_drop; lia.
Qed.

(** Side conditions on literal lists of big-endian writes. *)
Ltac vhd_ascending := cbn [ascending]; rewrite ?blen_be_bytes; repeat split; closed_le.

Ltac vhd_writes Hl :=
  repeat (apply Forall_cons_2; [split; [|split]; cbn [fst snd]; rewrite ?blen_be_bytes;
    [ closed_le | refine (Z.le_trans _ _ _ _ Hl); vm_compute; discriminate
    | first [ apply be_bytes_is_bytes | assumption | (apply is_bytesb_true; reflexivity) ] ]|]);
  apply Forall_nil_2.

(** Read a field that [Hf] says a literal list of writes holds. *)
Ltac vhd_field Hf lem :=
  rewrite lem by first [ (apply Hf; literal_elem) | assumption | (split; vm_compute; discriminate) ]; cbn [or_panic obind].

(** ** The footer *)

Lemma footer_geometry_ok {E} size : is_u64 size -> exists g, footer_geometry (E := E) size = Ok g /\ chs_ok g.
Proof.
  intros Hs. unfold is_u64 in Hs. unfold footer_geometry. destruct (Z.eq_dec size 0) as [->|]; [by exists (0, 0, 0)|].
  destruct (rounded_at (E := E) (F := E) size ltac:(lia)) as (c & Hc & Hg & Hz). rewrite Hz. cbn [obind].
  destruct (_ =? size); [rewrite Hg|]; eexists; (split; [reflexivity|]); apply geometry_floor.
  - pose proof (lc_range _ _ Hc). pose proof (requested_range size ltac:(lia)). lia.
  - apply Z.div_pos; lia.
Qed.

Lemma chs_bytes c h s : chs_ok (c, h, s) -> is_u16 c /\ is_bytes [h] /\ is_bytes [s].
Proof.
  intros (Hc & Hh & Hs). split; [done|]. unfold u8_max in *.
  split; (apply Forall_cons_2; [unfold is_u8, u8_max; lia | apply Forall_nil_2]).
Qed.

Lemma build_footer_seals buf size dt doff uid : is_bytes buf -> FOOTER_SIZE <= blen buf -> is_u64 size ->
  is_bytes uid -> blen uid = 16 ->
  exists g buf', footer_geometry (E := unit) size = Ok g /\ chs_ok g /\ build_footer buf size dt doff uid = Ok buf' /\
    vhd_sealed FOOTER_CHECKSUM_OFFSET buf buf' (footer_fields size dt doff uid g) (blen buf).
Proof.
  intros Hb Hl Hs Hu Hul. destruct (footer_geometry_ok (E := unit) size Hs) as ([[c h] s] & Hg & Hok).
  destruct (chs_bytes c h s Hok) as (_ & Hh & Hsp).
  unfold FOOTER_SIZE in Hl. destruct (vhd_seal FOOTER_CHECKSUM_OFFSET buf (footer_fields size dt doff uid (c, h, s)) (blen buf) Hb)
    as (b1 & data & b2 & E1 & E2 & E3 & E4 & Hse).
  - by vm_compute.
  - change (FOOTER_CHECKSUM_OFFSET + 4) with 68. lia.
  - lia.
  - unfold footer_fields. cbn [ascending]. rewrite Hul, ?blen_be_bytes. repeat split; closed_le.
  - unfold footer_fields. repeat (apply Forall_cons_2; [split; [|split]; cbn [fst snd]; rewrite ?blen_be_bytes, ?Hul;
      [ closed_le | refine (Z.le_trans _ _ _ _ Hl); vm_compute; discriminate
      | first [ apply be_bytes_is_bytes | assumption | (apply is_bytesb_true; reflexivity) ] ]|]). apply Forall_nil_2.
  - exists (c, h, s), b2. split; [done|]. split; [done|]. split; [|done]. unfold build_footer. rewrite Hg. cbn [obind].
    rewrite E1. cbn [or_panic obind]. rewrite <- E4, slice_full in E2. injection E2 as <-. exact E3.
Qed.

Lemma footer_reparses buf buf' size dt doff uid c h s : FOOTER_SIZE <= blen buf -> is_u64 size -> is_u32 dt -> is_u64 doff ->
  blen uid = 16 -> chs_ok (c, h, s) ->
  vhd_sealed FOOTER_CHECKSUM_OFFSET buf buf' (footer_fields size dt doff uid (c, h, s)) (blen buf) ->
  VhdFooter_parse buf' =
    Ok (mkVhdFooter VHD_COOKIE FEATURES_RESERVED VHD_VERSION_1_0 doff 0 size size c h s dt (compute_checksum buf' FOOTER_CHECKSUM_OFFSET) uid).
Proof.
  intros Hl Hs Hdt Hdo Hu Hok Hse. destruct (chs_bytes c h s Hok) as (Hc & _ & _).
  pose proof (se_blen _ _ _ _ _ _ _ Hse) as Hlen. pose proof (se_field _ _ _ _ _ _ _ Hse) as Hf. unfold footer_fields in Hf.
  destruct (sealed_sum FOOTER_CHECKSUM_OFFSET _ _ _ _ ltac:(by vm_compute) Hse) as (data & Hd & Hck). rewrite <- Hlen, slice_full in Hd. injection Hd as <-.
  unfold VhdFooter_parse. unfold FOOTER_SIZE in *. destruct (Z.ltb_spec (blen buf') 512); [lia|].
  vhd_field Hf (be_u64_get (E := unit) buf' FOOTER_COOKIE_OFFSET VHD_COOKIE). rewrite Z.eqb_refl. cbn [negb].
  vhd_field Hf (be_u32_get (E := unit) buf' FOOTER_FEATURES_OFFSET FEATURES_RESERVED).
  vhd_field Hf (be_u32_get (E := unit) buf' FOOTER_FORMAT_VERSION_OFFSET VHD_VERSION_1_0).
  vhd_field Hf (be_u64_get (E := unit) buf' FOOTER_DATA_OFFSET_OFFSET doff).
  vhd_field Hf (be_u32_get (E := unit) buf' FOOTER_TIMESTAMP_OFFSET 0).
  vhd_field Hf (be_u64_get (E := unit) buf' FOOTER_ORIGINAL_SIZE_OFFSET size).
  vhd_field Hf (be_u64_get (E := unit) buf' FOOTER_CURRENT_SIZE_OFFSET size).
  vhd_field Hf (be_u16_get (E := unit) buf' FOOTER_GEOMETRY_OFFSET c).
  vhd_field Hf (byte_get buf' (FOOTER_GEOMETRY_OFFSET + 2) h).
  vhd_field Hf (byte_get buf' (FOOTER_GEOMETRY_OFFSET + 3) s).
  vhd_field Hf (be_u32_get (E := unit) buf' FOOTER_DISK_TYPE_OFFSET dt).
  rewrite Hck. cbn [obind]. pose proof (Hf FOOTER_UUID_OFFSET uid ltac:(literal_elem)) as Huid. rewrite Hu in Huid. by rewrite Huid.
Qed.

(** ** The dynamic header *)

Lemma build_dynamic_seals buf toff entries bs : is_bytes buf -> DYNAMIC_HEADER_SIZE <= blen buf ->
  exists buf', build_dynamic_header buf toff entries bs = Ok buf' /\
    vhd_sealed DYN_CHECKSUM_OFFSET buf buf' (dynamic_fields toff entries bs) (blen buf).
Proof.
  intros Hb Hl. unfold DYNAMIC_HEADER_SIZE in Hl.
  destruct (vhd_seal DYN_CHECKSUM_OFFSET buf (dynamic_fields toff entries bs) (blen buf) Hb) as (b1 & data & b2 & E1 & E2 & E3 & E4 & Hse).
  - by vm_compute.
  - change (DYN_CHECKSUM_OFFSET + 4) with 40. lia.
  - lia.
  - unfold dynamic_fields. vhd_ascending.
  - unfold dynamic_fields. vhd_writes Hl.
  - exists b2. split; [|done]. unfold build_dynamic_header. rewrite E1. cbn [or_panic obind].
    rewrite <- E4, slice_full in E2. injection E2 as <-. exact E3.
Qed.

(** Any header that holds the fields parses, whatever its checksum. *)
Lemma dynamic_parses buf toff entries bs ck : DYNAMIC_HEADER_SIZE <= blen buf -> is_u64 toff -> is_u32 entries -> is_u32 bs ->
  (forall off src, (off, src) ∈ dynamic_fields toff entries bs -> slice buf off (off + blen src) = Some src) ->
  be_u32 (E := unit) buf DYN_CHECKSUM_OFFSET = Ok ck ->
  VhdDynamicHeader_parse buf = Ok (mkVhdDynamicHeader CXSPARSE_COOKIE toff VHD_VERSION_1_0 entries bs ck).
Proof.
  intros Hl Ht He Hbs Hf Hck. unfold VhdDynamicHeader_parse. unfold DYNAMIC_HEADER_SIZE, dynamic_fields in *.
  destruct (Z.ltb_spec (blen buf) 1024); [lia|].
  vhd_field Hf (be_u64_get (E := unit) buf DYN_COOKIE_OFFSET CXSPARSE_COOKIE). rewrite Z.eqb_refl. cbn [negb].
  vhd_field Hf (be_u64_get (E := unit) buf DYN_TABLE_OFFSET_OFFSET toff).
  vhd_field Hf (be_u32_get (E := unit) buf DYN_HEADER_VERSION_OFFSET VHD_VERSION_1_0).
  vhd_field Hf (be_u32_get (E := unit) buf DYN_MAX_TABLE_ENTRIES_OFFSET entries).
  vhd_field Hf (be_u32_get (E := unit) buf DYN_BLOCK_SIZE_OFFSET bs).
  by rewrite Hck.
Qed.

(** ** The footer in the last sector *)

Definition cookie_at (l : bytes) (off : Z) : Prop := be_u64 (E := unit) l off = Ok VHD_COOKIE.

Lemma footer_slot_spec n l : 512 * Z.of_nat n <= blen l ->
  match footer_slot n l with
  | Ok off => exists k, off = 512 * k /\ 0 <= k < Z.of_nat n /\ cookie_at l off /\
                        forall k', k < k' < Z.of_nat n -> ~ cookie_at l (512 * k')
  | Err _ => forall k', 0 <= k' < Z.of_nat n -> ~ cookie_at l (512 * k')
  | _ => False
  end.
Proof.
  induction n as [|n IH]; intros Hl; cbn [footer_slot]; [intros k'; lia|]. unfold FOOTER_SIZE.
  destruct (slice_of l (Z.of_nat n * 512) (Z.of_nat n * 512 + 512)) as (cand & Hc & Hcl); [lia | lia |]. cbv zeta. rewrite Hc.
  destruct (slice_of cand 0 8) as (w & Hw & _); [lia | lia |].
  assert (be_u64 (E := unit) l (512 * Z.of_nat n) = Ok (be_val w)) as Hat.
  { unfold be_u64. rewrite (slice_slice _ _ _ _ 0 8 Hc) in Hw by lia.
    replace (512 * Z.of_nat n) with (Z.of_nat n * 512 + 0) by lia.
    replace (Z.of_nat n * 512 + 0 + 8) with (Z.of_nat n * 512 + 8) by lia. by rewrite Hw. }
  unfold be_u64 at 1. change (FOOTER_COOKIE_OFFSET + 8) with 8. change FOOTER_COOKIE_OFFSET with 0. rewrite Hw. cbn [or_panic obind].
  destruct (Z.eqb_spec (be_val w) VHD_COOKIE) as [Heq|Hne].
  - exists (Z.of_nat n). split; [lia|]. split; [lia|]. split; [|intros; lia].
    unfold cookie_at. rewrite (Z.mul_comm _ 512), Hat, Heq. done.
  - assert (~ cookie_at l (512 * Z.of_nat n)) as Hno by (unfold cookie_at; rewrite Hat; congruence).
    specialize (IH ltac:(lia)). destruct (footer_slot n l) as [off|[]| |]; [| |done|done].
    + destruct IH as (k & -> & Hk & Hck & Hlast). exists k. split; [done|]. split; [lia|]. split; [done|].
      intros k' Hk'. destruct (Z.eq_dec k' (Z.of_nat n)) as [->|]; [done|]. apply Hlast. lia.
    + intros k' Hk'. destruct (Z.eq_dec k' (Z.of_nat n)) as [->|]; [done|]. apply IH. lia.
Qed.

(** Zeros hold no cookie. *)
Lemma zeros_no_cookie l off a b : a <= off -> off + 8 <= b -> slice l a b = Some (filled (b - a) 0) -> ~ cookie_at l off.
Proof.
  intros Ha Hb Hs Hc. unfold cookie_at, be_u64 in Hc.
  pose proof (slice_slice _ _ _ _ (off - a) (off - a + 8) Hs ltac:(lia) ltac:(lia)) as Hz.
  rewrite slice_filled in Hz by lia. replace (a + (off - a)) with off in Hz by lia. replace (a + (off - a + 8)) with (off + 8) in Hz by lia.
  rewrite <- Hz in Hc. replace (off - a + 8 - (off - a)) with 8 in Hc by lia. discriminate Hc.
Qed.

(** Only the first 512 bytes matter to the footer. *)
Lemma footer_prefix l p : slice l 0 512 = Some p -> VhdFooter_parse l = VhdFooter_parse p.
Proof.
  intros Hp. pose proof (proj1 (slice_is_Some l 0 512) ltac:(by rewrite Hp)) as [_ Hl]. pose proof (slice_blen _ _ _ _ Hp) as Hpl.
  assert (forall a b, 0 <= a -> b <= 512 -> slice l a b = slice p a b) as Hs by (intros; by apply (slice_of_prefix l 512 p)).
  assert (forall i, 0 <= i < 512 -> byte_at l i = byte_at p i) as Hby by (intros i Hi; by rewrite (slice_byte _ _ _ _ i Hp) by lia).
  unfold VhdFooter_parse, be_u64, be_u32, be_u16. unfold FOOTER_SIZE. rewrite !Hs by (vm_compute; discriminate).
  rewrite !Hby by by vm_compute. rewrite (proj2 (Z.ltb_ge _ _)) by lia. rewrite (proj2 (Z.ltb_ge (blen p) 512)) by lia. done.
Qed.

Lemma footer_has_cookie l f : VhdFooter_parse l = Ok f -> cookie_at l 0.
Proof.
  unfold VhdFooter_parse, cookie_at. destruct (_ <? _); [done|]. change FOOTER_COOKIE_OFFSET with 0.
  destruct (be_u64 l 0) as [c|[]| |]; [|done|done|done]. cbn [obind]. by destruct (Z.eqb_spec c VHD_COOKIE) as [->|].
Qed.

Lemma footer_total l : 512 <= blen l -> cookie_at l 0 -> exists f, VhdFooter_parse l = Ok f.
Proof.
  intros Hl Hc. unfold VhdFooter_parse. unfold FOOTER_SIZE. rewrite (proj2 (Z.ltb_ge _ _)) by lia. unfold cookie_at in Hc.
  change FOOTER_COOKIE_OFFSET with 0. rewrite Hc. cbn [obind]. rewrite Z.eqb_refl. cbn [negb].
  assert (forall a n, 0 <= a -> 0 <= n -> a + n <= 512 -> exists s, slice l a (a + n) = Some s) as Hs.
  { intros a n Ha Hn He. destruct (slice_of l a (a + n)) as (s & Hs & _); [lia | lia |]. by exists s. }
  unfold be_u64, be_u32, be_u16.
  repeat lazymatch goal with
  | |- context [or_panic (slice l ?a (?a + ?n))] =>
      let s := fresh "s" in let H := fresh "H" in
      destruct (Hs a n) as [s H]; [by vm_compute | by vm_compute | by vm_compute | rewrite H; clear H; cbn [or_panic obind]]
  | |- context [or_panic (byte_at l ?i)] =>
      let v := fresh "v" in let H := fresh "H" in
      destruct (proj2 (byte_at_Some_iff l i)) as [v H];
      [split; [by vm_compute | eapply Z.lt_le_trans; [|exact Hl]; by vm_compute] | rewrite H; clear H; cbn [or_panic obind]]
  end.
  by eexists.
Qed.

(** What the search in a sector finds: the last slot with the cookie. *)
Lemma find_footer_spec l :
  match find_footer_offset l with
  | Ok off => exists k, off = 512 * k /\ 0 <= k < blen l / 512 /\ cookie_at l off /\
                        forall k', k < k' < blen l / 512 -> ~ cookie_at l (512 * k')
  | Err _ => forall k', 0 <= k' < blen l / 512 -> ~ cookie_at l (512 * k')
  | _ => False
  end.
Proof.
  pose proof (blen_nonneg l) as H0. pose proof (Z.div_pos (blen l) 512 H0 ltac:(lia)) as Hd.
  pose proof (footer_slot_spec (Z.to_nat (blen l / 512)) l) as Hs. rewrite Z2Nat.id in Hs by lia.
  apply Hs. apply Z.mul_div_le. lia.
Qed.

(** The bytes from a slot of the sector on. *)
Lemma slot_tail l k : 0 <= k < blen l / 512 ->
  exists t, slice l (512 * k) (blen l) = Some t /\ 512 <= blen t /\ (cookie_at l (512 * k) -> cookie_at t 0).
Proof.
  intros Hk. pose proof (Z.mul_div_le (blen l) 512 ltac:(lia)).
  destruct (slice_of l (512 * k) (blen l)) as (t & Ht & Htl); [lia | lia |]. exists t. split; [done|]. split; [lia|].
  unfold cookie_at, be_u64. rewrite (slice_slice _ _ _ _ 0 (0 + 8) Ht) by lia. rewrite Z.add_0_r. by rewrite Z.add_0_l.
Qed.

(** The three parts of a last sector: file bytes, the footer, padding. *)
Lemma tail_sector_shape body foot pad : blen foot = 512 -> 0 <= pad ->
  let l := body ++ foot ++ filled pad 0 in
  blen l = blen body + 512 + pad /\
  slice l (blen body) (blen l) = Some (foot ++ filled pad 0) /\
  slice l (blen body + 512) (blen l) = Some (filled (blen l - (blen body + 512)) 0).
Proof.
  intros Hfoot Hpad l. assert (blen l = blen body + 512 + pad) as Hl by (unfold l; rewrite !blen_app, blen_filled by done; lia).
  split; [done|]. split.
  - pose proof (slice_right body (foot ++ filled pad 0) 0 (blen (foot ++ filled pad 0)) ltac:(lia)) as Hr.
    rewrite slice_full, Z.add_0_r, <- blen_app in Hr. exact Hr.
  - pose proof (slice_right (body ++ foot) (filled pad 0) 0 (blen (filled pad 0)) ltac:(lia)) as Hr.
    rewrite slice_full, Z.add_0_r, <- blen_app, <- app_assoc in Hr. fold l in Hr. rewrite blen_app, Hfoot in Hr. rewrite Hr.
    f_equal. f_equal. lia.
Qed.

Lemma tail_sector_parses body foot pad f : blen body mod 512 = 0 -> blen foot = 512 -> 0 <= pad -> pad mod 512 = 0 ->
  VhdFooter_parse foot = Ok f -> parse_last_sector (body ++ foot ++ filled pad 0) = Ok f.
Proof.
  intros Hbody Hfoot Hpad Hpm Hf. destruct (tail_sector_shape body foot pad Hfoot Hpad) as (Hl & Htail & Hzero). set (l := body ++ _) in *.
  pose proof (Z.div_mod (blen body) 512 ltac:(lia)) as HB. pose proof (Z.div_pos (blen body) 512 (blen_nonneg body) ltac:(lia)) as Hkf.
  set (kf := blen body / 512) in *. pose proof (Z.div_mod pad 512 ltac:(lia)) as HP. pose proof (Z.div_pos pad 512 Hpad ltac:(lia)).
  assert (blen l / 512 = kf + 1 + pad / 512) as Hn by (symmetry; apply Z.div_unique with 0; lia).
  assert (blen body = 512 * kf) as Hbk by lia. rewrite Hbk in Htail, Hzero.
  assert (slice (foot ++ filled pad 0) 0 512 = Some foot) as Hpre by (rewrite <- Hfoot; apply slice_left).
  assert (cookie_at l (512 * kf)) as Hck.
  { pose proof (footer_has_cookie _ _ Hf) as Hc0. unfold cookie_at, be_u64 in *. change (0 + 8) with 8 in Hc0.
    rewrite <- (slice_of_prefix _ 512 foot 0 8 Hpre) in Hc0 by lia. rewrite (slice_slice _ _ _ _ 0 8 Htail) in Hc0 by lia.
    by rewrite Z.add_0_r in Hc0. }
  unfold parse_last_sector. pose proof (find_footer_spec l) as Hfs. destruct (find_footer_offset l) as [off|[]| |]; [| |done|done].
  2:{ destruct (Hfs kf ltac:(lia) Hck). }
  destruct Hfs as (k & -> & Hk & Hcookie & Hlast). cbn [obind]. assert (k = kf) as ->.
  { destruct (Z.lt_trichotomy k kf) as [Hlt|[->|Hgt]]; [|done|].
    - destruct (Hlast kf ltac:(lia) Hck).
    - destruct (zeros_no_cookie l (512 * k) (512 * kf + 512) (blen l) ltac:(lia) ltac:(lia) Hzero Hcookie). }
  rewrite Htail. cbn [ok_or obind]. by rewrite (footer_prefix _ _ Hpre).
Qed.

(** Writes past which a structure is untouched. *)
Ltac writes_below Hab :=
  repeat (apply Forall_cons_2; [right; cbn [fst snd]; rewrite ?blen_be_bytes; refine (Z.le_trans _ _ _ _ Hab); vm_compute; discriminate|]);
  apply Forall_nil_2.

(** ** Properties *)

(** C39: The footer and the dynamic header this program writes into buffers of their size
    (512 and 1024 bytes) read back with the values they were written with, whatever the
    buffers held before: the footer's size, type, header offset and identity, its geometry
    (that of [footer_geometry]), and the dynamic header's block table and block size.  The
    checksum each reads back with is the valid one: the one's complement of the sum of the
    structure's bytes with the checksum field as zero, in 32 bits.  Nothing past the fields
    is touched. *)
Theorem vhd_structures_roundtrip (fbuf dbuf uid : bytes) (size dt doff toff entries bs : Z) :
  is_bytes fbuf -> length fbuf = 512%nat -> is_u64 size -> is_u32 dt -> is_u64 doff -> is_bytes uid -> blen uid = 16 ->
  is_bytes dbuf -> length dbuf = 1024%nat -> is_u64 toff -> is_u32 entries -> is_u32 bs ->
  (exists c h s fbuf', footer_geometry (E := unit) size = Ok (c, h, s) /\ build_footer fbuf size dt doff uid = Ok fbuf' /\
     VhdFooter_parse fbuf' = Ok (mkVhdFooter VHD_COOKIE FEATURES_RESERVED VHD_VERSION_1_0 doff 0 size size c h s dt
       (valid_checksum fbuf' 64 512) uid) /\
     length fbuf' = 512%nat /\ forall a b, 85 <= a -> slice fbuf' a b = slice fbuf a b) /\
  (exists dbuf', build_dynamic_header dbuf toff entries bs = Ok dbuf' /\
     VhdDynamicHeader_parse dbuf' = Ok (mkVhdDynamicHeader CXSPARSE_COOKIE toff VHD_VERSION_1_0 entries bs
       (valid_checksum dbuf' 36 1024)) /\
     length dbuf' = 1024%nat /\ forall a b, 40 <= a -> slice dbuf' a b = slice dbuf a b).
Proof.
  intros Hb Hl Hs Hdt Hdo Hu Hul Hdb Hdl Ht He Hbs.
  assert (FOOTER_SIZE <= blen fbuf) as Hl' by (unfold FOOTER_SIZE, blen; lia).
  assert (DYNAMIC_HEADER_SIZE <= blen dbuf) as Hdl' by (unfold DYNAMIC_HEADER_SIZE, blen; lia). split.
  - destruct (build_footer_seals fbuf size dt doff uid Hb Hl' Hs Hu Hul) as ([[c h] s] & buf' & Hg & Hok & Hbuild & Hse).
    pose proof (se_blen _ _ _ _ _ _ _ Hse) as Hlen. assert (length buf' = 512%nat) as Hlen' by (unfold blen in Hlen; lia).
    exists c, h, s, buf'. split; [done|]. split; [done|]. split.
    { rewrite <- Hlen', <- compute_checksum_valid by (unfold blen, u64_max; lia). by eapply footer_reparses. }
    split; [done|]. intros a b Hab. apply (se_frame _ _ _ _ _ _ _ Hse).
    + change (FOOTER_CHECKSUM_OFFSET + 4) with 68. lia.
    + unfold footer_fields. repeat (apply Forall_cons_2; [right; cbn [fst snd]; rewrite ?blen_be_bytes, ?Hul; refine (Z.le_trans _ _ _ _ Hab); vm_compute; discriminate|]). apply Forall_nil_2.
  - destruct (build_dynamic_seals dbuf toff entries bs Hdb Hdl') as (buf' & Hbuild & Hse).
    pose proof (se_blen _ _ _ _ _ _ _ Hse) as Hlen. assert (length buf' = 1024%nat) as Hlen' by (unfold blen in Hlen; lia).
    destruct (sealed_sum DYN_CHECKSUM_OFFSET _ _ _ _ ltac:(by vm_compute) Hse) as (data & Hd & Hck).
    rewrite <- Hlen, slice_full in Hd. injection Hd as <-.
    exists buf'. split; [done|]. split.
    { rewrite <- Hlen', <- compute_checksum_valid by (unfold blen, u64_max; lia).
      apply dynamic_parses; try done; [by rewrite Hlen | exact (se_field _ _ _ _ _ _ _ Hse)]. }
    split; [done|]. intros a b Hab. apply (se_frame _ _ _ _ _ _ _ Hse).
    + change (DYN_CHECKSUM_OFFSET + 4) with 40. lia.
    + unfold dynamic_fields. writes_below Hab.
Qed.

(** A dynamic disk of 1 GiB and its header. *)
Definition demo_uuid : bytes := be_bytes 16 0x0123456789abcdef0123456789abcdef.

Lemma vhd_structures_roundtrip_witness :
  (exists c h s fbuf', footer_geometry (E := unit) 1073741824 = Ok (c, h, s) /\ build_footer (filled 512 0) 1073741824 3 512 demo_uuid = Ok fbuf' /\
     VhdFooter_parse fbuf' = Ok (mkVhdFooter VHD_COOKIE FEATURES_RESERVED VHD_VERSION_1_0 512 0 1073741824 1073741824 c h s 3
       (valid_checksum fbuf' 64 512) demo_uuid) /\
     length fbuf' = 512%nat /\ forall a b, 85 <= a -> slice fbuf' a b = slice (filled 512 0) a b) /\
  (exists dbuf', build_dynamic_header (filled 1024 0) 1536 512 2097152 = Ok dbuf' /\
     VhdDynamicHeader_parse dbuf' = Ok (mkVhdDynamicHeader CXSPARSE_COOKIE 1536 VHD_VERSION_1_0 512 2097152
       (valid_checksum dbuf' 36 1024)) /\
     length dbuf' = 1024%nat /\ forall a b, 40 <= a -> slice dbuf' a b = slice (filled 1024 0) a b).
Proof.
  apply (vhd_structures_roundtrip (filled 512 0) (filled 1024 0) demo_uuid 1073741824 3 512 1536 512 2097152).
  - apply filled_is_bytes. by vm_compute.
  - vm_compute. reflexivity.
  - by vm_compute.
  - by vm_compute.
  - by vm_compute.
  - apply be_bytes_is_bytes.
  - reflexivity.
  - apply filled_is_bytes. by vm_compute.
  - vm_compute. reflexivity.
  - by vm_compute.
  - by vm_compute.
  - by vm_compute.
Defined.

(** Finding the footer by its cookie in a device's last sector, whose size is a multiple of
    512 and where the file may end early: when the file's last 512 bytes are a footer, that
    footer is the one parsed, whatever the bytes of the file before it hold (an image can
    carry cookies of its own, and a small file the copy at its start) and however much of the
    sector is padding.  A refusal means that no 512-byte slot of the sector starts with the
    cookie. *)
Theorem vhd_footer_located (body foot : bytes) (pad : Z) (f : VhdFooter) (sector : bytes) :
  blen body mod 512 = 0 -> blen foot = 512 -> 0 <= pad -> pad mod 512 = 0 -> VhdFooter_parse foot = Ok f ->
  parse_last_sector (body ++ foot ++ filled pad 0) = Ok f /\
  match parse_last_sector sector with
  | Ok _ => exists k, 0 <= k < blen sector / 512 /\ cookie_at sector (512 * k)
  | Err _ => forall k, 0 <= k < blen sector / 512 -> ~ cookie_at sector (512 * k)
  | _ => False
  end.
Proof.
  intros Hbody Hfoot Hpad Hpm Hf. split; [by apply tail_sector_parses|].
  unfold parse_last_sector. pose proof (find_footer_spec sector) as Hfs. destruct (find_footer_offset sector) as [off|[]| |]; [|done|done|done].
  destruct Hfs as (k & -> & Hk & Hcookie & _). cbn [obind]. destruct (slot_tail sector k Hk) as (t & Ht & Htl & Htc).
  rewrite Ht. cbn [ok_or obind]. destruct (footer_total t Htl (Htc Hcookie)) as [g ->]. by exists k.
Qed.

(** A fixed disk of one sector holding a cookie of its own, on a device of 4096-byte sectors. *)
Definition demo_fixed : bytes :=
  match build_footer (filled 512 0) 512 DISK_TYPE_FIXED u64_max demo_uuid with Ok b => b | _ => [] end.

Definition demo_fixed_footer : VhdFooter :=
  match VhdFooter_parse demo_fixed with Ok f => f | _ => mkVhdFooter 0 0 0 0 0 0 0 0 0 0 0 0 [] end.

Lemma vhd_footer_located_witness :
  parse_last_sector (demo_fixed ++ demo_fixed ++ filled 3072 0) = Ok demo_fixed_footer /\
  match parse_last_sector (filled 4096 0) with
  | Ok _ => exists k, 0 <= k < blen (filled 4096 0) / 512 /\ cookie_at (filled 4096 0) (512 * k)
  | Err _ => forall k, 0 <= k < blen (filled 4096 0) / 512 -> ~ cookie_at (filled 4096 0) (512 * k)
  | _ => False
  end.
Proof.
  apply (vhd_footer_located demo_fixed demo_fixed 3072 demo_fixed_footer (filled 4096 0)).
  - vm_compute. reflexivity.
  - vm_compute. reflexivity.
  - lia.
  - reflexivity.
  - vm_compute. reflexivity.
Defined.
