(* ===== verification/VhdReader.v ===== *)
(** The VHD reader ([src/src/crates/vhd/src/lib.rs]): opening a fixed, dynamic or
    differencing image, the block lookup through its allocation table, and the sector
    bitmaps that say which image of a chain owns a sector. *)

From stdpp Require Import base numbers list sets option.
From Stdlib Require Import ZArith Lia.
From S2P Require Import Prelude Bytes ExecBytes CachedRead Qcow1 Header Stamp Ownership Vhdx VhdGeometry Vhd.

(** ** Definitions *)

Inductive BlockLookup : Type :=
| Unallocated
| Allocated (host_byte_offset : Z).

#[global] Instance BlockLookup_eq_dec : EqDecision BlockLookup.
Proof. solve_decision. Defined.

Inductive DifferencingBlockLookup : Type :=
| DiffUnallocated
| DiffAllocated (host_byte_offset bitmap_host_offset sector_in_block : Z).

(** The fields of [VhdState] that never change; its caches are in [InSt]: the allocation
    table through the first, bitmaps through the second. *)
Record VhdState : Type := mkVhdState {
  device_idx : Z;
  st_disk_type : Z;
  st_block_size : Z;
  block_data_offset : Z;
  st_max_table_entries : Z;
  st_table_offset : Z;
  st_current_size : Z
}.

Definition sector_bit_is_child_owned (bitmap_byte sector_in_block : Z) : bool :=
  let bit := 7 - sector_in_block mod 8 in
  Z.land (Z.shiftr bitmap_byte bit) 1 =? 1.

Definition init_fixed (footer : VhdFooter) (device : Z) : VhdState :=
  mkVhdState device DISK_TYPE_FIXED 0 0 0 0 (current_size footer).

Definition is_fixed (st : VhdState) : bool := st_disk_type st =? DISK_TYPE_FIXED.

Definition sectors_per_block (st : VhdState) : Z := st_block_size st / 512.

(** [(sectors_per_block.div_ceil(8) + 511) & !511] on [u32]. *)
Definition bitmap_size (block_size : Z) : Z :=
  Z.land (as_u32 (div_ceil (block_size / 512) 8 + 511)) (Z.lxor 511 u32_max).

(** [u64::checked_rem]. *)
Definition checked_rem (x y : Z) : option Z := if y =? 0 then None else Some (x mod y).

Section reader.
Context {H : Type} `{InputIo H}.

Definition read_u32_be_cached (c : CacheId) : Z -> Z -> Z -> Z -> SM (InSt H) unit Z := cached_read c 4 be_val.
Definition read_u8_cached (c : CacheId) : Z -> Z -> Z -> Z -> SM (InSt H) unit Z := cached_read c 1 be_val.

(** The 1024 bytes of the dynamic header, from one sector or two. *)
Definition read_dynamic_header (device sector_size input_capacity dyn_byte_offset : Z) : SM (InSt H) unit bytes :=
  let! dyn_sector := slift (udiv dyn_byte_offset sector_size) in
  let! dyn_off_in_sector := slift (urem dyn_byte_offset sector_size) in
  let! dyn_buf := fetch_into device dyn_sector sector_size (filled MAX_SECTOR_SIZE 0) in
  let dyn_available := wsub sector_size dyn_off_in_sector in
  if DYNAMIC_HEADER_SIZE <=? dyn_available then
    slift (or_panic (slice dyn_buf dyn_off_in_sector (dyn_off_in_sector + DYNAMIC_HEADER_SIZE)))
  else
  let! part := slift (or_panic (slice dyn_buf dyn_off_in_sector sector_size)) in
  let! dyn_header_bytes := slift (or_panic (splice (filled DYNAMIC_HEADER_SIZE 0) 0 part)) in
  let next_sector := wadd dyn_sector 1 in
  if input_capacity <=? next_sector then sfail tt
  else
  let! dyn_buf := fetch_into device next_sector sector_size dyn_buf in
  let remaining := wsub DYNAMIC_HEADER_SIZE dyn_available in
  let! part := slift (or_panic (slice dyn_buf 0 remaining)) in
  slift (or_panic (splice dyn_header_bytes dyn_available part)).

(** The validation of the dynamic header and the state it gives. *)
Definition dynamic_state (device actual_size : Z) (footer : VhdFooter) (dyn_header : VhdDynamicHeader) : option VhdState :=
  if block_size dyn_header =? 0 then None
  else if negb (Z.land (block_size dyn_header) (block_size dyn_header - 1) =? 0) then None
  else if max_table_entries dyn_header =? 0 then None
  else if actual_size <=? table_offset dyn_header then None
  else
  bat_size_bytes ← checked_mul (max_table_entries dyn_header) 4;
  bat_end ← checked_add (table_offset dyn_header) bat_size_bytes;
  if actual_size <? bat_end then None
  else Some (mkVhdState device (disk_type footer) (block_size dyn_header) (bitmap_size (block_size dyn_header))
               (max_table_entries dyn_header) (table_offset dyn_header) (current_size footer)).

(** [init] once a footer was found at the start. *)
Definition init_from (device sector_size input_capacity : Z) (footer : VhdFooter) : SM (InSt H) unit VhdState :=
  if disk_type footer =? DISK_TYPE_FIXED then sret (init_fixed footer device)
  else if negb (disk_type footer =? DISK_TYPE_DYNAMIC) && negb (disk_type footer =? DISK_TYPE_DIFFERENCING) then sfail tt
  else
  let dyn_byte_offset := data_offset footer in
  let! actual_size := or_none (checked_mul input_capacity sector_size) in
  if actual_size <=? dyn_byte_offset then sfail tt
  else
  let! dyn_header_bytes := read_dynamic_header device sector_size input_capacity dyn_byte_offset in
  let! dyn_header := slift (VhdDynamicHeader_parse dyn_header_bytes) in
  or_none (dynamic_state device actual_size footer dyn_header).

Definition init (device sector_size input_capacity : Z) : SM (InSt H) unit VhdState :=
  let! first_sector := fetch_into device 0 sector_size (filled MAX_SECTOR_SIZE 0) in
  match VhdFooter_parse first_sector with
  | Ok footer => init_from device sector_size input_capacity footer
  | Err _ =>
      let! last_sector_idx := or_none (checked_sub input_capacity 1) in
      let! last_sector := fetch_into device last_sector_idx sector_size (filled MAX_SECTOR_SIZE 0) in
      let! footer := slift (VhdFooter_parse last_sector) in
      sret (init_fixed footer device)
  | Panic => slift Panic
  | OutOfFuel => slift OutOfFuel
  end.

Definition block_lookup (st : VhdState) (sector_size input_capacity virtual_offset : Z) : SM (InSt H) unit BlockLookup :=
  if is_fixed st then sret (Allocated virtual_offset)
  else
  let! block_idx := slift (udiv virtual_offset (st_block_size st)) in
  if st_max_table_entries st <=? block_idx then sret Unallocated
  else
  let! four := or_none (checked_mul block_idx 4) in
  let! bat_byte_offset := or_none (checked_add (st_table_offset st) four) in
  let! bat_entry := read_u32_be_cached CacheA (device_idx st) bat_byte_offset sector_size input_capacity in
  if bat_entry =? BAT_UNALLOCATED then sret Unallocated
  else
  let! block_host_offset := or_none (checked_mul bat_entry 512) in
  let! data_start := or_none (checked_add block_host_offset (block_data_offset st)) in
  let! intra_block_offset := slift (urem virtual_offset (st_block_size st)) in
  sret (Allocated (wadd data_start intra_block_offset)).

Definition differencing_block_lookup (st : VhdState) (sector_size input_capacity virtual_offset : Z)
  : SM (InSt H) unit DifferencingBlockLookup :=
  if is_fixed st then sfail tt
  else if block_data_offset st =? 0 then sfail tt
  else
  let! block_idx := or_none (checked_div virtual_offset (st_block_size st)) in
  if st_max_table_entries st <=? block_idx then sret DiffUnallocated
  else
  let! four := or_none (checked_mul block_idx 4) in
  let! bat_byte_offset := or_none (checked_add (st_table_offset st) four) in
  let! bat_entry := read_u32_be_cached CacheA (device_idx st) bat_byte_offset sector_size input_capacity in
  if bat_entry =? BAT_UNALLOCATED then sret DiffUnallocated
  else
  let! bitmap_host_offset := or_none (checked_mul bat_entry 512) in
  let! data_start := or_none (checked_add bitmap_host_offset (block_data_offset st)) in
  let! intra_block_offset := or_none (checked_rem virtual_offset (st_block_size st)) in
  let! host_byte_offset := or_none (checked_add data_start intra_block_offset) in
  let! sector_in_block := or_none (try_u32 (intra_block_offset / 512)) in
  sret (DiffAllocated host_byte_offset bitmap_host_offset sector_in_block).

(** The walk of [Ownership], with the most significant bit first. *)
Definition coalesce_ownership_run (first_sector sector_count sectors_per_block bitmap_bytes : Z)
    (fetch_byte : Z -> SM (InSt H) unit Z) : SM (InSt H) unit SectorOwnershipRun :=
  coalesce_run sector_bit_is_child_owned first_sector sector_count sectors_per_block bitmap_bytes fetch_byte.

Definition read_sector_bitmap_run (st : VhdState) (bitmap_host_offset first_sector sector_count sector_size input_capacity : Z)
  : SM (InSt H) unit SectorOwnershipRun :=
  if is_fixed st then sfail tt
  else
  coalesce_ownership_run first_sector sector_count (sectors_per_block st) (block_data_offset st)
    (fun byte_index =>
       let! byte_offset := or_none (checked_add bitmap_host_offset byte_index) in
       read_u8_cached CacheB (device_idx st) byte_offset sector_size input_capacity).

End reader.

(** ** The parsers *)





(** ** Opening *)








Section opening.
Context {H : Type} `{FlatInput H} (dev ssz cap : Z) (img : bytes).
Context (Hdev : device_ok ssz cap img) (Hb : is_bytes img) (H512 : 512 <= ssz).









End opening.

(** ** The lookups *)

(** What [init] establishes of a dynamic image. *)
Record dynamic_ok (st : VhdState) : Prop := {
  dy_block : 0 < st_block_size st <= u32_max;
  dy_power : st_block_size st = 2 ^ Z.log2 (st_block_size st);
  dy_data : block_data_offset st = bitmap_size (st_block_size st);
  dy_bitmap : block_data_offset st mod 512 = 0 /\ st_block_size st / 512 <= 8 * block_data_offset st;
  dy_entries : 0 < st_max_table_entries st <= u32_max;
  dy_table : 0 <= st_table_offset st /\ st_table_offset st + 4 * st_max_table_entries st <= u64_max
}.

Definition state_ok (st : VhdState) (ssz : Z) : Prop := is_fixed st = true \/ is_fixed st = false /\ dynamic_ok st.

Lemma bitmap_size_eq bs : 0 < bs <= u32_max -> 0 <= bs / 512 <= 8388607 /\
  bitmap_size bs = (div_ceil (bs / 512) 8 + 511) / 512 * 512.
Proof.
  intros Hbs. unfold u32_max in Hbs. unfold bitmap_size.
  assert (0 <= bs / 512 <= 8388607) as Hspb by (split; [apply Z.div_pos; lia | apply Z.lt_succ_r, Z.div_lt_upper_bound; lia]).
  split; [done|]. destruct (div_ceil_spec (bs / 512) 8 ltac:(lia)) as [Hc1 Hc2].
  pose proof (div_ceil_nonneg (bs / 512) 8 ltac:(lia) ltac:(lia)) as Hc0.
  set (c := div_ceil (bs / 512) 8) in *. assert (as_u32 (c + 511) = c + 511) as -> by (apply Z.mod_small; lia).
  change (Z.lxor 511 u32_max) with (Z.ldiff (Z.ones 32) (Z.ones 9)).
  rewrite Z.ldiff_land, Z.land_assoc, Z.land_ones, Z.mod_small by lia.
  rewrite <- Z.ldiff_land, Z.ldiff_ones_r by lia. rewrite Z.shiftl_mul_pow2, Z.shiftr_div_pow2 by lia. done.
Qed.

(** The bitmap in front of a block: whole sectors, a bit for each sector of the block. *)
Lemma bitmap_size_spec bs : 0 < bs <= u32_max ->
  bitmap_size bs mod 512 = 0 /\ bs / 512 <= 8 * bitmap_size bs /\ 0 <= bitmap_size bs <= 1049087.
Proof.
  intros Hbs. destruct (bitmap_size_eq bs Hbs) as [Hspb ->].
  destruct (div_ceil_spec (bs / 512) 8 ltac:(lia)) as [Hc1 Hc2]. pose proof (div_ceil_nonneg (bs / 512) 8 ltac:(lia) ltac:(lia)) as Hc0.
  set (c := div_ceil (bs / 512) 8) in *.
  pose proof (Z.div_mod (c + 511) 512 ltac:(lia)). pose proof (Z.mod_pos_bound (c + 511) 512 ltac:(lia)).
  split; [apply Z.mod_mul; lia|]. lia.
Qed.

(** The entry of a block on the bytes of the image. *)
Definition bat_entry (st : VhdState) (ssz cap : Z) (img : bytes) (b : Z) : option Z :=
  direct_read ssz cap img 4 be_val (st_table_offset st + 4 * b).

(** The lookup on the bytes of the image: no cache, no overflow check. *)
Definition block_ref (st : VhdState) (ssz cap : Z) (img : bytes) (voff : Z) : option BlockLookup :=
  if is_fixed st then Some (Allocated voff)
  else
    let b := voff / st_block_size st in
    if st_max_table_entries st <=? b then Some Unallocated
    else
      entry ← bat_entry st ssz cap img b;
      Some (if entry =? 0xFFFFFFFF then Unallocated
            else Allocated (512 * entry + block_data_offset st + voff mod st_block_size st)).

(** The lookup of a chain reader, on the bytes of the image. *)
Definition differencing_ref (st : VhdState) (ssz cap : Z) (img : bytes) (voff : Z) : option DifferencingBlockLookup :=
  if is_fixed st || (block_data_offset st =? 0) then None
  else
    let b := voff / st_block_size st in
    if st_max_table_entries st <=? b then Some DiffUnallocated
    else
      entry ← bat_entry st ssz cap img b;
      Some (if entry =? 0xFFFFFFFF then DiffUnallocated
            else DiffAllocated (512 * entry + block_data_offset st + voff mod st_block_size st) (512 * entry)
                   (voff mod st_block_size st / 512)).

Definition high_bit_first (b s : Z) : bool := Z.testbit b (7 - s mod 8).

Lemma sector_bit_high b s : 0 <= s -> sector_bit_is_child_owned b s = high_bit_first b s.
Proof.
  intros Hs. unfold sector_bit_is_child_owned, high_bit_first. pose proof (Z.mod_pos_bound s 8 ltac:(lia)).
  change 1 with (Z.ones 1) at 1. rewrite Z.land_ones by lia. change (2 ^ 1) with 2. rewrite <- Z.bit0_mod, Z.shiftr_spec by lia.
  rewrite Z.add_0_l. by destruct (Z.testbit b _).
Qed.

Section lookups.
Context {H : Type} `{FlatInput H} (dev ssz cap : Z) (img : bytes).
Context (Hdev : device_ok ssz cap img) (Hb : is_bytes img).

(** Both lookups read the entry the same way. *)
Lemma entry_computes st b (B : Type) (k : Z -> SM (InSt H) unit B) rk : dynamic_ok st -> device_idx st = dev ->
  0 <= b < st_max_table_entries st ->
  (forall e, 0 <= e <= u32_max -> bat_entry st ssz cap img b = Some e -> computes dev ssz img (k e) (rk e)) ->
  computes dev ssz img
    (let! four := or_none (checked_mul b 4) in
     let! bat_byte_offset := or_none (checked_add (st_table_offset st) four) in
     let! e := read_u32_be_cached CacheA (device_idx st) bat_byte_offset ssz cap in k e)
    (bat_entry st ssz cap img b ≫= rk).
Proof.
  intros [_ _ _ _ He [Ht0 Ht]] Hdx Hlt Hk. unfold u32_max in *. rewrite Hdx.
  eapply computes_some; [apply checked_mul_eq; unfold u64_max in *; lia|].
  eapply computes_some; [apply checked_add_eq; lia|]. unfold bat_entry. rewrite (Z.mul_comm 4).
  apply computes_bind; [apply computes_read; [done | unfold is_u64; lia | lia]|].
  intros e Hent. pose proof (direct_read_bound _ _ _ _ _ _ _ Hb be_val_bound Hent) as Hbd. change (256 ^ 4) with 4294967296 in Hbd.
  apply Hk; [lia|]. unfold bat_entry. by rewrite (Z.mul_comm 4).
Qed.

Lemma vhd_block_computes st voff : state_ok st ssz -> device_idx st = dev -> is_u64 voff ->
  computes dev ssz img (block_lookup st ssz cap voff) (block_ref st ssz cap img voff).
Proof.
  intros Hst Hdx Hv. unfold block_lookup, block_ref. unfold is_u64 in Hv.
  destruct Hst as [->|[-> Hok]]; [apply computes_ret|]. destruct (bitmap_size_spec _ (dy_block _ Hok)) as (_ & _ & Hbm). rewrite <- (dy_data _ Hok) in Hbm.
  pose proof (dy_block _ Hok) as Hbs. pose proof (dy_entries _ Hok) as Hen. unfold u32_max in *.
  eapply computes_ok; [unfold udiv; rewrite (proj2 (Z.eqb_neq (st_block_size st) 0)) by lia; reflexivity|]. cbv zeta.
  pose proof (Z.div_pos voff (st_block_size st) ltac:(lia) ltac:(lia)). pose proof (Z.mod_pos_bound voff (st_block_size st) ltac:(lia)).
  apply computes_if; intros Hlt; [apply computes_ret|]. bool_to_prop. apply entry_computes; [done | done | lia |].
  intros e He _. unfold u32_max in He. unfold BAT_UNALLOCATED. destruct (e =? 0xFFFFFFFF); [apply computes_ret|].
  eapply computes_some; [apply checked_mul_eq; unfold u64_max; lia|]. eapply computes_some; [apply checked_add_eq; unfold u64_max; lia|].
  eapply computes_ok; [unfold urem; rewrite (proj2 (Z.eqb_neq (st_block_size st) 0)) by lia; reflexivity|].
  rewrite wadd_small by (unfold u64_max; lia). rewrite (Z.mul_comm e). apply computes_ret.
Qed.

Lemma vhd_differencing_computes st voff : state_ok st ssz -> device_idx st = dev -> is_u64 voff ->
  computes dev ssz img (differencing_block_lookup st ssz cap voff) (differencing_ref st ssz cap img voff).
Proof.
  intros Hst Hdx Hv. unfold differencing_block_lookup, differencing_ref. unfold is_u64 in Hv.
  destruct Hst as [->|[-> Hok]]; [apply computes_fail|]. cbn [orb]. destruct (bitmap_size_spec _ (dy_block _ Hok)) as (_ & _ & Hbm).
  rewrite <- (dy_data _ Hok) in Hbm. pose proof (dy_block _ Hok) as Hbs. pose proof (dy_entries _ Hok) as Hen. unfold u32_max in *.
  apply computes_if; intros _; [apply computes_fail|].
  eapply computes_some; [unfold checked_div; rewrite (proj2 (Z.eqb_neq (st_block_size st) 0)) by lia; reflexivity|]. cbv zeta.
  pose proof (Z.div_pos voff (st_block_size st) ltac:(lia) ltac:(lia)). pose proof (Z.mod_pos_bound voff (st_block_size st) ltac:(lia)) as Hm.
  apply computes_if; intros Hlt; [apply computes_ret|]. bool_to_prop. apply entry_computes; [done | done | lia |].
  intros e He _. unfold u32_max in He. unfold BAT_UNALLOCATED. destruct (e =? 0xFFFFFFFF); [apply computes_ret|].
  eapply computes_some; [apply checked_mul_eq; unfold u64_max; lia|]. eapply computes_some; [apply checked_add_eq; unfold u64_max; lia|].
  eapply computes_some; [unfold checked_rem; rewrite (proj2 (Z.eqb_neq (st_block_size st) 0)) by lia; reflexivity|].
  eapply computes_some; [apply checked_add_eq; unfold u64_max; lia|].
  assert (voff mod st_block_size st / 512 <= u32_max) by (apply Z.div_le_upper_bound; unfold u32_max; lia).
  eapply computes_some; [unfold try_u32; rewrite (proj2 (Z.leb_le _ _)) by done; reflexivity|].
  rewrite (Z.mul_comm e). apply computes_ret.
Qed.

End lookups.

#[global] Program Instance Vhd_format : LookupFormat VhdState BlockLookup := {
  lf_device := device_idx;
  lf_lookup H _ := block_lookup;
  lf_ref := block_ref;
  lf_ok := state_ok
}.
Next Obligation. intros. by apply vhd_block_computes. Qed.




(** ** What a VHD image is *)


















(** ** Properties *)


(** A dynamic disk of two 512-byte blocks, the first unallocated and the second at sector 9. *)
Definition demo_dynamic : bytes :=
  match build_footer (filled 512 0) 1024 DISK_TYPE_DYNAMIC 512 demo_uuid, build_dynamic_header (filled 1024 0) 1536 2 512 with
  | Ok f, Ok h => f ++ h ++ be_bytes 4 BAT_UNALLOCATED ++ be_bytes 4 9 ++ filled 504 0
  | _, _ => []
  end.



(** A block with a bitmap is whole sectors. *)
Lemma block_sectors st : dynamic_ok st -> block_data_offset st <> 0 -> st_block_size st = 512 * sectors_per_block st.
Proof.
  intros Hok Hd. rewrite (dy_data _ Hok) in Hd. pose proof (dy_block _ Hok) as Hbs. unfold sectors_per_block.
  assert (512 <= st_block_size st) as H512.
  { destruct (Z.le_gt_cases 512 (st_block_size st)); [done|]. destruct Hd. unfold bitmap_size. by rewrite Z.div_small by lia. }
  pose proof (dy_power _ Hok) as Hp. set (k := Z.log2 (st_block_size st)) in *.
  assert (9 <= k) as Hk by (apply Z.log2_le_pow2; lia).
  assert (st_block_size st = 512 * 2 ^ (k - 9)) as He.
  { rewrite Hp. change 512 with (2 ^ 9). rewrite <- Z.pow_add_r by lia. f_equal. lia. }
  clearbody k. rewrite He, (Z.mul_comm 512 (2 ^ (k - 9))), Z.div_mul by lia. lia.
Qed.

(** C37: On a dynamic or differencing image the lookup of a chain reader answers as read from the
    bytes of the image, and for an allocated block it agrees with the plain lookup on where the
    data is: the block's bitmap, then whole sectors, then the offset in the sector.  The
    ownership run read from that bitmap is the maximal run of sectors from the one looked up
    that have one owner (a set bit is this file's, most significant bit first), clipped to the
    request and to the block; without read errors it fails only for an empty request or a
    bitmap byte the device cannot supply. *)
Theorem vhd_ownership_exact {H : Type} `{FlatInput H} (ssz cap : Z) (img : bytes) (st : VhdState) (voff count : Z) :
  device_ok ssz cap img -> is_bytes img -> state_ok st ssz -> is_fixed st = false -> is_u64 voff -> 0 <= count ->
  computes (device_idx st) ssz img (differencing_block_lookup st ssz cap voff) (differencing_ref st ssz cap img voff) /\
  forall host bitmap sector, differencing_ref st ssz cap img voff = Some (DiffAllocated host bitmap sector) ->
    block_ref st ssz cap img voff = Some (Allocated host) /\
    host = bitmap + block_data_offset st + 512 * sector + voff mod 512 /\ 0 <= sector < sectors_per_block st /\
    yields (device_idx st) ssz img (read_sector_bitmap_run st bitmap sector count ssz cap)
      (maximal_run high_bit_first ssz cap img bitmap sector (Z.min count (sectors_per_block st - sector)))
      (count = 0 \/
       exists i, 0 <= i < Z.min count (sectors_per_block st - sector) /\ bit_owner high_bit_first ssz cap img bitmap (sector + i) = None).
Proof.
  intros Hdev Hb Hst Hfx Hv Hcount. split; [by apply vhd_differencing_computes|].
  destruct Hst as [Hbad|[_ Hok]]; [congruence|]. intros host bitmap sector Href. unfold differencing_ref in Href. rewrite Hfx in Href. cbn [orb] in Href.
  destruct (Z.eqb_spec (block_data_offset st) 0) as [|Hd]; [done|]. cbv zeta in Href.
  destruct (st_max_table_entries st <=? voff / st_block_size st) eqn:Hlt; [done|].
  apply bind_Some in Href as (e & He & Hr). destruct (e =? 0xFFFFFFFF) eqn:Hun; [done|]. injection Hr as <- <- <-.
  pose proof (block_sectors st Hok Hd) as Hbs. pose proof (dy_block _ Hok) as Hbp. pose proof (dy_bitmap _ Hok) as [_ Hbits]. unfold is_u64 in Hv.
  destruct (bitmap_size_spec _ Hbp) as (_ & _ & Hbm). rewrite <- (dy_data _ Hok) in Hbm.
  pose proof (Z.mod_pos_bound voff (st_block_size st) ltac:(lia)) as Hm. set (x := voff mod st_block_size st) in *.
  assert (x mod 512 = voff mod 512) as Hx by (apply Z.mod_mod_divide; exists (sectors_per_block st); lia).
  pose proof (Z.div_mod x 512 ltac:(lia)) as Hdm. assert (0 <= x / 512 < sectors_per_block st) as Hsec.
  { split; [apply Z.div_pos; lia | apply Z.div_lt_upper_bound; lia]. }
  split; [unfold block_ref; rewrite Hfx; cbv zeta; rewrite Hlt, He; cbn [mbind option_bind]; by rewrite Hun|]. split; [lia|]. split; [done|].
  assert (0 <= e <= u32_max) as Heu.
  { pose proof (direct_read_bound _ _ _ _ _ _ _ Hb be_val_bound He) as Hbd. change (256 ^ 4) with 4294967296 in Hbd. unfold u32_max. lia. }
  unfold read_sector_bitmap_run. rewrite Hfx. unfold u32_max in *. intros s Hs.
  eapply wp_mono; [apply (coalesce_yields (device_idx st) ssz cap img Hdev _ high_bit_first sector_bit_high (512 * e) (x / 512) count (sectors_per_block st) (block_data_offset st));
    unfold sectors_per_block, u64_max, u32_max in *; done || lia | done |].
  intros [] s' (Hs' & Hf). split; [done|]. intros Hresp. destruct (Hf Hresp) as (Hr & [?|[?|?]]); [auto | lia | auto].
Qed.

(** The same disk as a child: the bitmap of its second block is the sector at 9, whose first
    byte says that the block's one sector is the child's. *)
Definition demo_child : bytes := demo_dynamic ++ filled 2560 0 ++ (128 :: filled 511 0).

Definition demo_child_state : VhdState := mkVhdState 0 4 512 512 2 1536 1024.

Lemma vhd_ownership_exact_witness :
  differencing_ref demo_child_state 512 10 demo_child 600 = Some (DiffAllocated 5208 4608 0) /\
  (read_sector_bitmap_run demo_child_state 4608 0 8 512 10 (InSt_new (mkVecInput [demo_child]) 0 (filled 512 0) (filled 512 0))).1 =
    Ok (mkSectorOwnershipRun true 1) /\
  computes (H := VecInput) 0 512 demo_child (differencing_block_lookup demo_child_state 512 10 600) (differencing_ref demo_child_state 512 10 demo_child 600) /\
  forall host bitmap sector, differencing_ref demo_child_state 512 10 demo_child 600 = Some (DiffAllocated host bitmap sector) ->
    block_ref demo_child_state 512 10 demo_child 600 = Some (Allocated host) /\
    host = bitmap + block_data_offset demo_child_state + 512 * sector + 600 mod 512 /\ 0 <= sector < sectors_per_block demo_child_state /\
    yields (H := VecInput) 0 512 demo_child (read_sector_bitmap_run demo_child_state bitmap sector 8 512 10)
      (maximal_run high_bit_first 512 10 demo_child bitmap sector (Z.min 8 (sectors_per_block demo_child_state - sector)))
      (8 = 0 \/ exists i, 0 <= i < Z.min 8 (sectors_per_block demo_child_state - sector) /\
                          bit_owner high_bit_first 512 10 demo_child bitmap (sector + i) = None).
Proof.
  split; [vm_compute; reflexivity|]. split; [vm_compute; reflexivity|].
  apply (vhd_ownership_exact 512 10 demo_child demo_child_state 600 8).
  - constructor; try split; vm_compute; discriminate || reflexivity.
  - apply is_bytesb_true. vm_compute. reflexivity.
  - right. split; [reflexivity|]. constructor; try split; vm_compute; discriminate || reflexivity.
  - reflexivity.
  - split; vm_compute; discriminate.
  - lia.
Defined.

(** A fixed disk of one sector on a device of 4096-byte sectors: its footer is in the only
    sector, but not at the start of it, where [init] looks, and the image is refused.  The
    footer is found by [parse_last_sector]. *)
Definition demo_large : bytes := filled 512 0 ++ demo_fixed ++ filled 3072 0.

Lemma fixed_refused_on_large_sectors :
  (init 0 4096 1 (InSt_new (mkVecInput [demo_large]) 0 (filled 4096 0) (filled 4096 0))).1 = Err tt /\
  parse_last_sector demo_large = Ok demo_fixed_footer.
Proof. split; vm_compute; reflexivity. Qed.
