(* ===== verification/Measure.v ===== *)
(** * Predicting the size of an output image

    The measure crate ([crates/measure/src/lib.rs]): for a summary of a source image and
    the options of a target format, the size of the file that converting the source would
    write, with only the allocated units ([mo_required]) and with all of them
    ([mo_fully_allocated]).  The calculators work on [u64] with a check at every step;
    here they are compared with the same formulas over unbounded integers, and with the
    layouts that creating an image uses ([Create.compute_layout], [Vhdx.layout]). *)

From stdpp Require Import base list.
From Stdlib Require Import ZArith Lia.
From S2P Require Import Prelude Bytes Refcount Create CreatePlan Vhdx.

(** ** Data *)

(** [AllocationSummary] of the shared crate. *)
Record AllocationSummary : Type := mkAllocationSummary {
  as_virtual_size : Z;
  as_allocated_bytes : Z;
  as_target_units_with_data : Z
}.

Definition clamp (virtual_size allocated_bytes target_units_with_data : Z) : AllocationSummary :=
  {| as_virtual_size := virtual_size; as_allocated_bytes := Z.min allocated_bytes virtual_size;
     as_target_units_with_data := target_units_with_data |}.

Record MeasureOutput : Type := mkMeasureOutput {
  mo_required : Z;
  mo_fully_allocated : Z
}.

Inductive MeasureError : Type := MeOverflow | MeInvalidOption | MeInvalidSize | MeTooLarge.

Definition MeasureResult : Type := outcome MeasureError MeasureOutput.

Inductive MeasurePreallocation : Type := MpOff | MpMetadata | MpFalloc | MpFull.

Inductive VmdkSubformat : Type := MonolithicSparse | StreamOptimized | MonolithicFlat.

Inductive VhdSubformat : Type := VhdDynamic | VhdFixed.

Inductive VhdxSubformat : Type := VhdxDynamic | VhdxFixed.

(** [compress] and [lazy_refcounts] are accepted and ignored. *)
Record Qcow2Opts : Type := mkQcow2Opts {
  qo_cluster_size : Z;
  qo_refcount_bits : Z;
  qo_extended_l2 : bool;
  qo_lazy_refcounts : bool;
  qo_compat_v3 : bool;
  qo_compress : bool;
  qo_preallocation : MeasurePreallocation;
  qo_luks_header_overhead : option Z
}.

Record VmdkOpts : Type := mkVmdkOpts { vmo_subformat : VmdkSubformat; vmo_grain_size : Z }.
Record VhdOpts : Type := mkVhdOpts { vho_subformat : VhdSubformat; vho_block_size : Z }.
Record VhdxOpts : Type := mkVhdxOpts { vxo_subformat : VhdxSubformat; vxo_block_size : Z }.

Definition DEFAULT_NUM_GTES_PER_GT : Z := 512.
Definition DESC_SECTORS : Z := 20.
Definition FOOTER_SIZE : Z := 512.
Definition DYNAMIC_HEADER_SIZE : Z := 1024.
Definition MEASURE_MAX_SECTOR_SIZE : Z := 65536.

(** ** Checked arithmetic *)

Definition try_new (required fully_allocated : Z) : MeasureResult :=
  let? _ := ok_or (checked_add required fully_allocated) MeOverflow in
  Ok {| mo_required := required; mo_fully_allocated := fully_allocated |}.

Definition ceil_div (a b : Z) : outcome MeasureError Z :=
  if a =? 0 then Ok 0
  else let? q := udiv (a - 1) b in Ok (wadd q 1).

Fixpoint sum_from (total : Z) (parts : list Z) : outcome MeasureError Z :=
  match parts with
  | [] => Ok total
  | p :: rest => let? total := ok_or (checked_add total p) MeOverflow in sum_from total rest
  end.

Definition checked_sum (parts : list Z) : outcome MeasureError Z := sum_from 0 parts.

Definition round_up_u64 (a b : Z) : outcome MeasureError Z :=
  if b =? 0 then Err MeOverflow
  else if a =? 0 then Ok 0
  else
  let remainder := a mod b in
  if remainder =? 0 then Ok a
  else ok_or (checked_add a (b - remainder)) MeOverflow.

Definition mul_or_overflow (a b : Z) : outcome MeasureError Z := ok_or (checked_mul a b) MeOverflow.
Definition add_or_overflow (a b : Z) : outcome MeasureError Z := ok_or (checked_add a b) MeOverflow.

(** ** Raw *)

Definition measure_raw (virtual_size : Z) : MeasureResult := try_new virtual_size virtual_size.

(** ** qcow2 *)

(** The rounds of the fixed point; running out of them is an error. *)
Fixpoint layout_rounds (rounds : nat) (used_clusters entries_per_refblock cluster_size : Z)
    (reftable_clusters refblock_count : Z) : outcome MeasureError (Z * Z) :=
  match rounds with
  | O => Err MeOverflow
  | S rounds' =>
      let? total := add_or_overflow used_clusters reftable_clusters in
      let? total := add_or_overflow total refblock_count in
      let? new_refblock_count := ceil_div total entries_per_refblock in
      let? new_reftable_bytes := mul_or_overflow new_refblock_count 8 in
      let? new_reftable_clusters := ceil_div new_reftable_bytes cluster_size in
      if (new_refblock_count =? refblock_count) && (new_reftable_clusters =? reftable_clusters)
      then Ok (reftable_clusters, refblock_count)
      else layout_rounds rounds' used_clusters entries_per_refblock cluster_size new_reftable_clusters new_refblock_count
  end.

Definition calculate_refcount_layout (used_clusters cluster_size refcount_bits : Z)
  : outcome MeasureError (Z * Z * Z) :=
  let? bits_per_cluster := mul_or_overflow cluster_size 8 in
  let? entries_per_refblock := udiv bits_per_cluster refcount_bits in
  if entries_per_refblock =? 0 then Err MeInvalidOption
  else
  let? (reftable_clusters, refblock_count) :=
    layout_rounds 16 used_clusters entries_per_refblock cluster_size 1 1 in
  let? total := add_or_overflow used_clusters reftable_clusters in
  let? total := add_or_overflow total refblock_count in
  Ok (reftable_clusters, refblock_count, total).

(** The units that hold data: the scanner's count, or the allocated bytes in units. *)
Definition units_required (s : AllocationSummary) (unit_size : Z) : outcome MeasureError Z :=
  if negb (as_target_units_with_data s =? 0) then Ok (as_target_units_with_data s)
  else ceil_div (as_allocated_bytes s) unit_size.

Definition measure_qcow2 (s : AllocationSummary) (opts : Qcow2Opts) : MeasureResult :=
  if (qo_cluster_size opts <? 512) || (2 * 1024 * 1024 <? qo_cluster_size opts) || negb (is_power_of_two (qo_cluster_size opts))
  then Err MeInvalidOption
  else if negb (valid_refcount_bits (qo_refcount_bits opts)) then Err MeInvalidOption
  else if qo_extended_l2 opts && negb (qo_compat_v3 opts) then Err MeInvalidOption
  else if Z.shiftl 1 63 <? as_virtual_size s then Err MeInvalidSize
  else if as_virtual_size s <? as_allocated_bytes s then Err MeInvalidSize
  else
  let cluster_size := qo_cluster_size opts in
  let l2_entry_size := if qo_extended_l2 opts then 16 else 8 in
  let entries_per_l2 := cluster_size / l2_entry_size in
  let? l2_coverage := mul_or_overflow cluster_size entries_per_l2 in
  let? l1_entries := if as_virtual_size s =? 0 then Ok 0 else ceil_div (as_virtual_size s) l2_coverage in
  let? l1_size_bytes := mul_or_overflow l1_entries 8 in
  let? l1_clusters := if l1_entries =? 0 then Ok 0 else ceil_div l1_size_bytes cluster_size in
  let l2_clusters_full := l1_entries in
  let l2_clusters_required := l2_clusters_full in
  let? data_clusters_required := units_required s cluster_size in
  let? data_clusters_full := if as_virtual_size s =? 0 then Ok 0 else ceil_div (as_virtual_size s) cluster_size in
  let? luks_clusters :=
    match qo_luks_header_overhead opts with
    | Some n => if 0 <? n then ceil_div n cluster_size else Ok 0
    | None => Ok 0
    end in
  let? used_clusters_full := checked_sum [1; l1_clusters; l2_clusters_full; data_clusters_full; luks_clusters] in
  let? (reftable_clusters, refblock_count, _) :=
    calculate_refcount_layout used_clusters_full cluster_size (qo_refcount_bits opts) in
  let? required_clusters :=
    checked_sum [1; l1_clusters; l2_clusters_required; luks_clusters; data_clusters_required; reftable_clusters; refblock_count] in
  let? full_clusters :=
    checked_sum [1; l1_clusters; l2_clusters_full; luks_clusters; data_clusters_full; reftable_clusters; refblock_count] in
  let? required := mul_or_overflow required_clusters cluster_size in
  let? fully_allocated := mul_or_overflow full_clusters cluster_size in
  let required :=
    match qo_preallocation opts with
    | MpOff | MpMetadata => required
    | MpFalloc | MpFull => fully_allocated
    end in
  try_new required fully_allocated.

(** ** VMDK *)

Definition vmdk_grain_data_start : outcome MeasureError Z :=
  let? desc_bytes := mul_or_overflow DESC_SECTORS 512 in
  add_or_overflow 512 desc_bytes.

Definition measure_vmdk_monolithic_sparse
    (grain_size allocated_grains_required allocated_grains_full num_gd_entries gt_bytes gd_bytes : Z) : MeasureResult :=
  let? grain_data_start := vmdk_grain_data_start in
  let? gt_padded := round_up_u64 gt_bytes 512 in
  let? all_gts := mul_or_overflow num_gd_entries gt_padded in
  let? gd_rounded := round_up_u64 gd_bytes 512 in
  let gd_padded := Z.max gd_rounded 512 in
  let? grains_bytes_required := mul_or_overflow allocated_grains_required grain_size in
  let? required := checked_sum [grain_data_start; grains_bytes_required; all_gts; gd_padded] in
  let? grains_bytes_full := mul_or_overflow allocated_grains_full grain_size in
  let? fully_allocated := checked_sum [grain_data_start; grains_bytes_full; all_gts; gd_padded] in
  try_new required fully_allocated.

Definition measure_vmdk_stream_optimized
    (grain_size allocated_grains_required allocated_grains_full num_gd_entries gt_bytes gd_bytes : Z) : MeasureResult :=
  let? grain_data_start := vmdk_grain_data_start in
  let? per_grain_cost := add_or_overflow grain_size 512 in
  let? gt_padded := round_up_u64 gt_bytes 512 in
  let gt_marker_cost := 512 in
  let? per_gt_cost := add_or_overflow gt_marker_cost gt_padded in
  let? all_gts_cost := mul_or_overflow num_gd_entries per_gt_cost in
  let? gd_rounded := round_up_u64 gd_bytes 512 in
  let gd_data_padded := Z.max gd_rounded 512 in
  let? gd_cost := add_or_overflow 512 gd_data_padded in
  let footer_tail := 3 * 512 in
  let max_sector_size := MEASURE_MAX_SECTOR_SIZE in
  let? grains_cost_required := mul_or_overflow allocated_grains_required per_grain_cost in
  let? pre_footer_required := checked_sum [grain_data_start; grains_cost_required; all_gts_cost; gd_cost] in
  let? with_tail := add_or_overflow pre_footer_required footer_tail in
  let? required := round_up_u64 with_tail max_sector_size in
  let? grains_cost_full := mul_or_overflow allocated_grains_full per_grain_cost in
  let? pre_footer_full := checked_sum [grain_data_start; grains_cost_full; all_gts_cost; gd_cost] in
  let? with_tail := add_or_overflow pre_footer_full footer_tail in
  let? fully_allocated := round_up_u64 with_tail max_sector_size in
  try_new required fully_allocated.

Definition measure_vmdk_sparse_or_stream (s : AllocationSummary) (opts : VmdkOpts) (grain_size : Z) : MeasureResult :=
  let gtes_per_gt := DEFAULT_NUM_GTES_PER_GT in
  let? gt_bytes := mul_or_overflow gtes_per_gt 4 in
  let? capacity_sectors := ceil_div (as_virtual_size s) 512 in
  let grain_size_sectors := grain_size / 512 in
  let? total_grains := ceil_div capacity_sectors grain_size_sectors in
  let? num_gd_entries := ceil_div total_grains gtes_per_gt in
  let? gd_bytes := mul_or_overflow num_gd_entries 4 in
  let? allocated_grains_required := units_required s grain_size in
  let allocated_grains_full := total_grains in
  match vmo_subformat opts with
  | MonolithicSparse =>
      measure_vmdk_monolithic_sparse grain_size allocated_grains_required allocated_grains_full num_gd_entries gt_bytes gd_bytes
  | StreamOptimized =>
      measure_vmdk_stream_optimized grain_size allocated_grains_required allocated_grains_full num_gd_entries gt_bytes gd_bytes
  | MonolithicFlat => Panic
  end.

Definition measure_vmdk_flat (s : AllocationSummary) : MeasureResult :=
  let? total := add_or_overflow 512 (as_virtual_size s) in
  try_new total total.

Definition measure_vmdk (s : AllocationSummary) (opts : VmdkOpts) : MeasureResult :=
  let grain_size := vmo_grain_size opts in
  if negb ((4096 <=? grain_size) && (grain_size <=? 65536)) || negb (is_power_of_two (vmo_grain_size opts)) then Err MeInvalidOption
  else if as_virtual_size s <? as_allocated_bytes s then Err MeInvalidSize
  else
  match vmo_subformat opts with
  | MonolithicSparse | StreamOptimized => measure_vmdk_sparse_or_stream s opts grain_size
  | MonolithicFlat => measure_vmdk_flat s
  end.

(** ** VHD *)

Definition measure_vhd_fixed (s : AllocationSummary) : MeasureResult :=
  let? data_size := round_up_u64 (as_virtual_size s) 512 in
  let? total := add_or_overflow data_size FOOTER_SIZE in
  try_new total total.

Definition measure_vhd_dynamic (s : AllocationSummary) (block_size : Z) : MeasureResult :=
  let leading_footer := FOOTER_SIZE in
  let dyn_header := DYNAMIC_HEADER_SIZE in
  let? bat_entries := ceil_div (as_virtual_size s) block_size in
  let? bat_bytes := mul_or_overflow bat_entries 4 in
  let? bat_padded := round_up_u64 bat_bytes 512 in
  let bitmap_bits := block_size / 512 in
  let? bitmap_bytes_raw := ceil_div bitmap_bits 8 in
  let? sector_bitmap := round_up_u64 bitmap_bytes_raw 512 in
  let? block_overhead := add_or_overflow sector_bitmap block_size in
  let? allocated_blocks_required := units_required s block_size in
  let allocated_blocks_full := bat_entries in
  let? data_required := mul_or_overflow allocated_blocks_required block_overhead in
  let? required := checked_sum [leading_footer; dyn_header; bat_padded; data_required; FOOTER_SIZE] in
  let? data_full := mul_or_overflow allocated_blocks_full block_overhead in
  let? fully_allocated := checked_sum [leading_footer; dyn_header; bat_padded; data_full; FOOTER_SIZE] in
  try_new required fully_allocated.

Definition measure_vhd (s : AllocationSummary) (opts : VhdOpts) : MeasureResult :=
  if as_virtual_size s <? as_allocated_bytes s then Err MeInvalidSize
  else
  match vho_subformat opts with
  | VhdFixed => measure_vhd_fixed s
  | VhdDynamic =>
      let bs := vho_block_size opts in
      let min_bs := 512 * 1024 in
      let max_bs := 2 * 1024 * 1024 * 1024 in
      if (bs <? min_bs) || (max_bs <? bs) || negb (is_power_of_two (vho_block_size opts)) then Err MeInvalidOption
      else measure_vhd_dynamic s bs
  end.

(** ** VHDX *)

Definition measure_vhdx_fixed (geometry : VhdxLayout) : MeasureResult :=
  try_new (vl_fixed_file_length geometry) (vl_fixed_file_length geometry).

Definition map_layout_error (r : outcome LayoutError VhdxLayout) : outcome MeasureError VhdxLayout :=
  match r with
  | Ok l => Ok l
  | Err LeInvalidBlockSize => Err MeInvalidOption
  | Err LeTooLarge => Err MeTooLarge
  | Err LeOverflow => Err MeOverflow
  | Panic => Panic
  | OutOfFuel => OutOfFuel
  end.

Definition measure_vhdx (s : AllocationSummary) (opts : VhdxOpts) : MeasureResult :=
  let? geometry := map_layout_error (layout (as_virtual_size s) (vxo_block_size opts) false) in
  if as_virtual_size s <? as_allocated_bytes s then Err MeInvalidSize
  else
  match vxo_subformat opts with
  | VhdxFixed => measure_vhdx_fixed geometry
  | VhdxDynamic =>
      let bs := vl_block_size geometry in
      let total_payload_blocks := vl_payload_blocks geometry in
      let mb_align := MB_ALIGN in
      let payload_start := vl_data_start geometry in
      let? block_alloc := round_up_u64 bs mb_align in
      let? allocated_blocks_required := units_required s bs in
      let allocated_blocks_full := total_payload_blocks in
      let? payload_required := mul_or_overflow allocated_blocks_required block_alloc in
      let? payload_full := mul_or_overflow allocated_blocks_full block_alloc in
      let? required := add_or_overflow payload_start payload_required in
      let? fully_allocated := add_or_overflow payload_start payload_full in
      try_new required fully_allocated
  end.

(** ** The guest operation *)

(** [MeasureConfig], less its padding. *)
Record MeasureConfig : Type := mkMeasureConfig {
  mc_magic : Z;
  mc_target_format : Z;
  mc_flags : Z;
  mc_sector_size : Z;
  mc_virtual_size_override : Z;
  mc_qcow2_cluster_size : Z;
  mc_qcow2_refcount_bits : Z;
  mc_vmdk_subformat : Z;
  mc_vmdk_grain_size : Z;
  mc_vhd_subformat : Z;
  mc_block_size : Z;
  mc_luks_header_overhead : Z
}.

Definition MEASURE_CONFIG_MAGIC : Z := 0x4D454153.
Definition FLAG_EXTENDED_L2 : Z := Z.shiftl 1 0.
Definition FLAG_LAZY_REFCOUNTS : Z := Z.shiftl 1 1.
Definition FLAG_COMPAT_V3 : Z := Z.shiftl 1 2.
Definition FLAG_COMPRESS : Z := Z.shiftl 1 3.
Definition PREALLOC_MASK : Z := Z.shiftl 3 4.
Definition PREALLOC_METADATA : Z := Z.shiftl 1 4.
Definition PREALLOC_FALLOC : Z := Z.shiftl 2 4.
Definition PREALLOC_FULL : Z := Z.shiftl 3 4.
Definition FLAG_VHDX_FIXED : Z := Z.shiftl 1 6.

Definition flag_set (c : MeasureConfig) (flag : Z) : bool := nonzero (Z.land (mc_flags c) flag).

Definition mc_preallocation (c : MeasureConfig) : Z := Z.land (mc_flags c) PREALLOC_MASK.

Definition vhdx_fixed (c : MeasureConfig) : bool := flag_set c FLAG_VHDX_FIXED.

Definition image_format_from_u32 (v : Z) : ImageFormat :=
  match v with
  | 1 => FmtRaw | 2 => FmtQcow2 | 3 => FmtVmdk4 | 4 => FmtVmdk3 | 5 => FmtVhd | 6 => FmtVhdx | 7 => FmtQcow1 | 8 => FmtVdi
  | 9 => FmtQed | 10 => FmtIso | 11 => FmtLuks | 12 => FmtVmdkDescriptor | 13 => FmtParallels | 14 => FmtBochs
  | 15 => FmtCloop | 16 => FmtDmg
  | _ => FmtUnknown
  end.

(** A field of zero selects the default. *)
Definition or_default (v d : Z) : Z := if v =? 0 then d else v.

Definition qcow2_opts_from (c : MeasureConfig) : Qcow2Opts :=
  {| qo_cluster_size := or_default (mc_qcow2_cluster_size c) 65536;
     qo_refcount_bits := or_default (mc_qcow2_refcount_bits c) 16;
     qo_extended_l2 := flag_set c FLAG_EXTENDED_L2;
     qo_lazy_refcounts := flag_set c FLAG_LAZY_REFCOUNTS;
     qo_compat_v3 := flag_set c FLAG_COMPAT_V3 || (mc_flags c =? 0);
     qo_compress := flag_set c FLAG_COMPRESS;
     qo_preallocation :=
       if mc_preallocation c =? PREALLOC_METADATA then MpMetadata
       else if mc_preallocation c =? PREALLOC_FALLOC then MpFalloc
       else if mc_preallocation c =? PREALLOC_FULL then MpFull
       else MpOff;
     qo_luks_header_overhead := if mc_luks_header_overhead c =? 0 then None else Some (mc_luks_header_overhead c) |}.

Definition vmdk_opts_from (c : MeasureConfig) : VmdkOpts :=
  {| vmo_subformat := match mc_vmdk_subformat c with 1 => StreamOptimized | 2 => MonolithicFlat | _ => MonolithicSparse end;
     vmo_grain_size := or_default (mc_vmdk_grain_size c) 65536 |}.

Definition vhd_opts_from (c : MeasureConfig) : VhdOpts :=
  {| vho_subformat := match mc_vhd_subformat c with 1 => VhdFixed | _ => VhdDynamic end;
     vho_block_size := or_default (mc_block_size c) (2 * 1024 * 1024) |}.

Definition vhdx_block_size_for (c : MeasureConfig) (virtual_size : Z) : Z :=
  if negb (mc_block_size c =? 0) then mc_block_size c else default_block_size virtual_size.

Definition target_unit_size_for (c : MeasureConfig) (virtual_size : Z) : Z :=
  match image_format_from_u32 (mc_target_format c) with
  | FmtQcow2 => qo_cluster_size (qcow2_opts_from c)
  | FmtVmdk4 => vmo_grain_size (vmdk_opts_from c)
  | FmtVhd => match vho_subformat (vhd_opts_from c) with VhdFixed => 0 | VhdDynamic => vho_block_size (vhd_opts_from c) end
  | FmtVhdx => vhdx_block_size_for c virtual_size
  | _ => 0
  end.

(** Step 2 of [_start]: the calculator of the target. *)
Definition measure_target (c : MeasureConfig) (summary : AllocationSummary) (unit : Z) : MeasureResult :=
  match image_format_from_u32 (mc_target_format c) with
  | FmtRaw => measure_raw (as_virtual_size summary)
  | FmtQcow2 => measure_qcow2 summary (qcow2_opts_from c)
  | FmtVmdk4 => measure_vmdk summary (vmdk_opts_from c)
  | FmtVhd => measure_vhd summary (vhd_opts_from c)
  | FmtVhdx =>
      measure_vhdx summary {| vxo_subformat := if vhdx_fixed c then VhdxFixed else VhdxDynamic; vxo_block_size := unit |}
  | _ => Err MeInvalidOption
  end.

(** The result message ([MeasureResult] of the shared crate). *)
Record MeasureMessage : Type := mkMeasureMessage {
  mm_target_format : Z;
  mm_required : Z;
  mm_fully_allocated : Z;
  mm_resolved_unit_size : Z;
  mm_error : Z
}.

Definition ERROR_OK : Z := 0.
Definition ERROR_OVERFLOW : Z := 1.
Definition ERROR_INVALID_OPTION : Z := 2.
Definition ERROR_INVALID_SIZE : Z := 3.
Definition ERROR_TOO_LARGE : Z := 5.

Definition map_error (e : MeasureError) : Z :=
  match e with
  | MeOverflow => ERROR_OVERFLOW
  | MeInvalidOption => ERROR_INVALID_OPTION
  | MeInvalidSize => ERROR_INVALID_SIZE
  | MeTooLarge => ERROR_TOO_LARGE
  end.

Definition send_error_result (target error : Z) : MeasureMessage :=
  {| mm_target_format := target; mm_required := 0; mm_fully_allocated := 0; mm_resolved_unit_size := 0; mm_error := error |}.

(** The message of a result; [None] where the guest panicked. *)
Definition send_result (target unit : Z) (out : MeasureResult) : option MeasureMessage :=
  match out with
  | Ok o => Some {| mm_target_format := target; mm_required := mo_required o; mm_fully_allocated := mo_fully_allocated o;
                    mm_resolved_unit_size := unit; mm_error := ERROR_OK |}
  | Err e => Some (send_error_result target (map_error e))
  | Panic | OutOfFuel => None
  end.

(** [_start]: the message it sends and the success flag it completes with.  The scan of
    the source is a parameter: the summary and the unit it counted in, or an error code. *)
Definition start (c : MeasureConfig) (detect_and_scan : Z + AllocationSummary * Z) : option (MeasureMessage * bool) :=
  let sector_size_ok := (512 <=? mc_sector_size c) && (mc_sector_size c <=? MEASURE_MAX_SECTOR_SIZE) && is_power_of_two (mc_sector_size c) in
  if negb (mc_magic c =? MEASURE_CONFIG_MAGIC) || negb sector_size_ok then
    msg ← send_result 0 0 (Err MeInvalidOption); Some (msg, false)
  else
  let scanned :=
    if negb (mc_virtual_size_override c =? 0) then
      inr ({| as_virtual_size := mc_virtual_size_override c; as_allocated_bytes := 0; as_target_units_with_data := 0 |},
           target_unit_size_for c (mc_virtual_size_override c))
    else detect_and_scan in
  match scanned with
  | inl scan_error => Some (send_error_result (mc_target_format c) scan_error, false)
  | inr (summary, unit) =>
      let out := measure_target c summary unit in
      msg ← send_result (mc_target_format c) unit out;
      Some (msg, match out with Ok _ => true | _ => false end)
  end.
