(* ===== verification/MeasureProps.v ===== *)
(** * What the measure crate predicts

    The calculators of [Measure] equal their formulas over unbounded integers, with an
    overflow reported exactly when a size does not fit; the guest's message is sound; and
    the predicted sizes are those of the files that image creation lays out. *)

From stdpp Require Import base list.
From Stdlib Require Import ZArith Lia.
From S2P Require Import Prelude Bytes Refcount Create CreatePlan Vhdx Measure.

(** ** The formulas *)

(** The units that hold data, and the sizes as functions of the number of units. *)
Definition units (s : AllocationSummary) (u : Z) : Z :=
  if as_target_units_with_data s =? 0 then div_ceil (as_allocated_bytes s) u else as_target_units_with_data s.

Definition padded (x u : Z) : Z := div_ceil x u * u.

(** What a calculator returns for the sizes of [n] units and of all [total] of them; the
    former is computed even where the latter is reported for both. *)
Definition predicted (n total : Z) (size : Z -> Z) (dense : bool) : MeasureResult :=
  let required := if dense then size total else size n in
  if (size n <=? u64_max) && (required + size total <=? u64_max)
  then Ok {| mo_required := required; mo_fully_allocated := size total |}
  else Err MeOverflow.

Section qcow2_sizes.
Context (o : Qcow2Opts) (vs : Z).

Definition q_cs : Z := qo_cluster_size o.
Definition q_l1 : Z := div_ceil vs (q_cs * (q_cs / (if qo_extended_l2 o then 16 else 8))).
Definition q_l1_clusters : Z := div_ceil (q_l1 * 8) q_cs.
Definition q_data : Z := div_ceil vs q_cs.
Definition q_luks : Z := match qo_luks_header_overhead o with Some n => div_ceil n q_cs | None => 0 end.
Definition q_used : Z := 1 + q_l1_clusters + q_l1 + q_data + q_luks.
Definition q_refcounts : Z * Z := refcount_loop 16 q_used (q_cs * 8 / qo_refcount_bits o) q_cs 1 1.

Definition qcow2_size (n : Z) : Z := (1 + q_l1_clusters + q_l1 + q_luks + n + q_refcounts.1 + q_refcounts.2) * q_cs.
End qcow2_sizes.

Definition vmdk_grains (vs g : Z) : Z := div_ceil (div_ceil vs 512) (g / 512).
Definition vmdk_tables (vs g : Z) : Z := div_ceil (vmdk_grains vs g) 512.
Definition vmdk_directory (vs g : Z) : Z := Z.max (padded (vmdk_tables vs g * 4) 512) 512.

Definition sparse_size (vs g n : Z) : Z := 10752 + n * g + vmdk_tables vs g * 2048 + vmdk_directory vs g.

(** Every grain and table has a marker sector; the end of the file is aligned. *)
Definition stream_size (vs g n : Z) : Z :=
  padded (10752 + n * (g + 512) + vmdk_tables vs g * 2560 + (512 + vmdk_directory vs g) + 1536) 65536.

Definition vhd_blocks (vs bs : Z) : Z := div_ceil vs bs.

(** Two footers, the dynamic header, the table, and a bitmap with every block. *)
Definition vhd_size (vs bs n : Z) : Z :=
  512 + 1024 + padded (vhd_blocks vs bs * 4) 512 + n * (padded (div_ceil (bs / 512) 8) 512 + bs) + 512.

Definition vhdx_size (l : VhdxLayout) (n : Z) : Z := vl_data_start l + n * vl_block_size l.

(** A summary of [u64] fields. *)
Record summary_ok (s : AllocationSummary) : Prop := {
  so_size : is_u64 (as_virtual_size s);
  so_alloc : is_u64 (as_allocated_bytes s);
  so_units : is_u64 (as_target_units_with_data s)
}.

(** ** Checked arithmetic *)

(** A value that has to fit. *)
Definition fits (v : Z) : outcome MeasureError Z := if v <=? u64_max then Ok v else Err MeOverflow.

Lemma add_fits a b : add_or_overflow a b = fits (a + b).
Proof. unfold add_or_overflow, checked_add, fits. by destruct (_ <=? _). Qed.

Lemma mul_fits a b : mul_or_overflow a b = fits (a * b).
Proof. unfold mul_or_overflow, checked_mul, fits. by destruct (_ <=? _). Qed.

Lemma fits_ok v : v <= u64_max -> fits v = Ok v.
Proof. intros Hv. unfold fits. by rewrite (proj2 (Z.leb_le _ _) Hv). Qed.

Lemma ceil_div_eq a b : is_u64 a -> 0 < b -> ceil_div a b = Ok (div_ceil a b).
Proof.
  intros Ha Hb. unfold ceil_div, is_u64, u64_max in *. destruct (Z.eqb_spec a 0) as [->|Hne]; [by rewrite div_ceil_zero|].
  unfold udiv. rewrite (proj2 (Z.eqb_neq b 0)) by lia. cbn [obind]. pose proof (Z.div_pos (a - 1) b ltac:(lia) Hb).
  assert ((a - 1) / b <= a - 1) by (apply Z.div_le_upper_bound; nia). rewrite wadd_small by (unfold u64_max; lia). f_equal.
  destruct (div_ceil_spec a b Hb) as [Hge Hlt]. pose proof (Z.mul_div_le (a - 1) b Hb). pose proof (Z.mul_succ_div_gt (a - 1) b Hb). nia.
Qed.

Lemma padded_bounds x u : 0 < u -> x <= padded x u < x + u.
Proof. intros Hu. unfold padded. destruct (div_ceil_spec x u Hu). nia. Qed.

Lemma padded_mono x y u : 0 < u -> x <= y -> padded x u <= padded y u.
Proof. intros Hu Hxy. unfold padded. pose proof (div_ceil_mono x y u Hu Hxy). nia. Qed.

Lemma round_up_fits a b : is_u64 a -> 0 < b -> round_up_u64 a b = fits (padded a b).
Proof.
  intros [Ha Hm] Hb. unfold round_up_u64, padded, div_ceil. rewrite (proj2 (Z.eqb_neq b 0)) by lia.
  destruct (Z.eqb_spec a 0) as [->|Hne].
  { rewrite Z.mod_0_l, Z.div_0_l by lia. cbn. by rewrite fits_ok by (unfold u64_max; lia). }
  pose proof (Z.div_mod a b ltac:(lia)) as Hd. destruct (Z.eqb_spec (a mod b) 0) as [Hz|Hz].
  - replace (a / b * b) with a by lia. by rewrite fits_ok.
  - replace ((a / b + 1) * b) with (a + (b - a mod b)) by lia. apply add_fits.
Qed.

(** A sum fits when it fits at the end. *)
Lemma sum_fits total parts : is_u64 total -> Forall (fun p => 0 <= p) parts -> sum_from total parts = fits (total + foldr Z.add 0 parts).
Proof.
  intros Ht Hp. revert total Ht. induction Hp as [|p rest H0 Hrest IH]; intros total Ht; cbn [sum_from foldr].
  - rewrite Z.add_0_r, fits_ok; [done|apply Ht].
  - assert (0 <= foldr Z.add 0 rest) by (clear - Hrest; induction Hrest; cbn; lia).
    unfold checked_add. destruct (Z.leb_spec (total + p) u64_max) as [Hl|Hl]; cbn [ok_or obind].
    + rewrite IH by (unfold is_u64 in *; lia). f_equal. lia.
    + unfold fits. destruct (Z.leb_spec (total + (p + foldr Z.add 0 rest)) u64_max); [lia|done].
Qed.

(** A checked step of a calculator: its overflow is an overflow of the prediction. *)
Lemma fits_step a (k : Z -> MeasureResult) n total (size : Z -> Z) (dense : bool) :
  (a <= size n \/ a <= (if dense then size total else size n) + size total) ->
  (a <= u64_max -> k a = predicted n total size dense) ->
  obind (fits a) k = predicted n total size dense.
Proof.
  intros Ha Hk. unfold fits. destruct (Z.leb_spec a u64_max) as [Hl|Hl]; cbn [obind]; [by apply Hk|].
  unfold predicted. destruct (Z.leb_spec (size n) u64_max), (Z.leb_spec ((if dense then size total else size n) + size total) u64_max); try done.
  lia.
Qed.

Lemma try_new_predicted n total (size : Z -> Z) (dense : bool) : size n <= u64_max ->
  try_new (if dense then size total else size n) (size total) = predicted n total size dense.
Proof.
  intros Hn. unfold try_new, predicted, checked_add. rewrite (proj2 (Z.leb_le (size n) _) Hn). cbn [andb].
  by destruct (_ <=? _).
Qed.

Lemma units_eq s u : summary_ok s -> 0 < u -> units_required s u = Ok (units s u).
Proof.
  intros [_ Ha _] Hu. unfold units_required, units. destruct (as_target_units_with_data s =? 0); cbn [negb]; [by apply ceil_div_eq|done].
Qed.

Lemma div_ceil_u64 x u : is_u64 x -> 0 < u -> 0 <= div_ceil x u <= x.
Proof. intros [Hx _] Hu. split; [by apply div_ceil_nonneg | apply div_ceil_le; nia]. Qed.

Lemma units_nonneg s u : summary_ok s -> 0 < u -> is_u64 (units s u).
Proof.
  intros [_ Ha Hn] Hu. unfold units. destruct (_ =? 0); [|done]. pose proof (div_ceil_u64 _ u Ha Hu). unfold is_u64 in *. lia.
Qed.

(** ** VMDK, VHD and VHDX *)

(** The head of a calculator as a value that has to fit. *)
Ltac measure_head :=
  lazymatch goal with
  | |- obind (add_or_overflow ?a ?b) _ = _ => rewrite (add_fits a b)
  | |- obind (mul_or_overflow ?a ?b) _ = _ => rewrite (mul_fits a b)
  | |- obind (round_up_u64 ?a ?b) _ = _ => rewrite (round_up_fits a b) by (unfold is_u64, u64_max in *; lia)
  | |- obind (checked_sum ?l) _ = _ =>
      unfold checked_sum at 1; rewrite (sum_fits 0 l) by (first [ done | repeat constructor; lia ]); cbn [foldr]
  end.

(** A step that always fits, and one whose overflow is that of the prediction. *)
Ltac measure_small := measure_head; rewrite fits_ok by (unfold u64_max; lia); cbn [obind].
Ltac measure_step := measure_head; apply fits_step; [cbn beta iota; lia|]; intros ?.

Lemma pow2_multiple g k : 0 <= k -> 2 ^ k <= g -> is_power_of_two g = true -> g / 2 ^ k * 2 ^ k = g /\ 0 < g / 2 ^ k.
Proof.
  intros Hk Hg Hp. pose proof (Z.pow_pos_nonneg 2 k ltac:(lia) Hk). apply is_power_of_two_spec in Hp; [|lia].
  assert (k <= Z.log2 g) by (apply Z.log2_le_pow2; lia).
  split; [|apply Z.div_str_pos; lia]. rewrite Hp at 2. rewrite Hp at 1.
  rewrite <- (Z.sub_add k (Z.log2 g)) at 1 2. rewrite Z.pow_add_r by lia. by rewrite Z.div_mul by lia.
Qed.

Section vmdk.
Context (vs g n total : Z).
Context (Hn : is_u64 n) (Htotal : is_u64 total) (Hg : 4096 <= g <= 65536) (Ht : 0 <= vmdk_tables vs g <= 2 ^ 44).

Lemma vmdk_facts : 0 <= n * g /\ 0 <= total * g /\ 0 <= n * (g + 512) /\ 0 <= total * (g + 512) /\
  vmdk_tables vs g * 4 <= padded (vmdk_tables vs g * 4) 512 < vmdk_tables vs g * 4 + 512 /\
  512 <= vmdk_directory vs g <= vmdk_tables vs g * 4 + 512.
Proof.
  unfold is_u64 in *. split_and!; try (apply Z.mul_nonneg_nonneg; lia); try (apply padded_bounds; lia); unfold vmdk_directory; [lia|].
  pose proof (padded_bounds (vmdk_tables vs g * 4) 512 ltac:(lia)). lia.
Qed.

Lemma sparse_eq :
  measure_vmdk_monolithic_sparse g n total (vmdk_tables vs g) 2048 (vmdk_tables vs g * 4)
  = predicted n total (sparse_size vs g) false.
Proof using Hn Htotal Hg Ht.
  unfold measure_vmdk_monolithic_sparse. change vmdk_grain_data_start with (@Ok MeasureError Z 10752).
  destruct vmdk_facts as (F1 & F2 & F3 & F4 & F5 & F6). change (2 ^ 44) with 17592186044416 in Ht.
  cbn [obind]. change (round_up_u64 2048 512) with (@Ok MeasureError Z 2048). cbn [obind].
  unfold is_u64, u64_max in *. do 2 measure_small. unfold sparse_size. fold (vmdk_directory vs g). do 4 measure_step.
  rewrite <- (try_new_predicted n total (fun n => 10752 + n * g + vmdk_tables vs g * 2048 + vmdk_directory vs g) false) by lia.
  f_equal; lia.
Qed.

Lemma stream_eq :
  measure_vmdk_stream_optimized g n total (vmdk_tables vs g) 2048 (vmdk_tables vs g * 4)
  = predicted n total (stream_size vs g) false.
Proof using Hn Htotal Hg Ht.
  unfold measure_vmdk_stream_optimized. change vmdk_grain_data_start with (@Ok MeasureError Z 10752).
  destruct vmdk_facts as (F1 & F2 & F3 & F4 & F5 & F6). change (2 ^ 44) with 17592186044416 in Ht.
  cbn [obind]. unfold is_u64, u64_max in *. measure_small. change (round_up_u64 2048 512) with (@Ok MeasureError Z 2048). cbn [obind].
  do 3 measure_small. cbv zeta. fold (vmdk_directory vs g). measure_small.
  assert (forall m, 10752 + m * (g + 512) + vmdk_tables vs g * 2560 + (512 + vmdk_directory vs g) + 1536 <= stream_size vs g m) as Hs
    by (intros m; unfold stream_size; apply padded_bounds; lia).
  pose proof (Hs n) as Hsn. pose proof (Hs total) as Hst. clear Hs. unfold MEASURE_MAX_SECTOR_SIZE.
  do 3 measure_step.
  replace (0 + (10752 + (n * (g + 512) + (vmdk_tables vs g * (512 + 2048) + (512 + vmdk_directory vs g + 0)))) + 3 * 512)
    with (10752 + n * (g + 512) + vmdk_tables vs g * 2560 + (512 + vmdk_directory vs g) + 1536) in * by lia.
  measure_head. fold (stream_size vs g n) in *. apply fits_step; [by left|]. intros ?. do 3 measure_step.
  replace (0 + (10752 + (total * (g + 512) + (vmdk_tables vs g * (512 + 2048) + (512 + vmdk_directory vs g + 0)))) + 3 * 512)
    with (10752 + total * (g + 512) + vmdk_tables vs g * 2560 + (512 + vmdk_directory vs g) + 1536) in * by lia.
  measure_head. fold (stream_size vs g total) in *. apply fits_step; [lia|]. intros ?.
  by apply (try_new_predicted n total (stream_size vs g) false).
Qed.
End vmdk.

Lemma vmdk_tables_bound vs g : is_u64 vs -> 4096 <= g -> 0 < g / 512 ->
  is_u64 (div_ceil vs 512) /\ is_u64 (vmdk_grains vs g) /\ 0 <= vmdk_tables vs g <= 2 ^ 44.
Proof.
  intros [H0 H1] Hg Hd. unfold vmdk_tables, vmdk_grains, is_u64, u64_max in *. change (2 ^ 44) with 17592186044416.
  assert (8 <= g / 512) by (apply Z.div_le_lower_bound; lia).
  assert (0 <= div_ceil vs 512 <= 36028797018963968) by (split; [apply div_ceil_nonneg; lia | apply div_ceil_le; lia]).
  assert (0 <= div_ceil (div_ceil vs 512) (g / 512) <= 4503599627370496) by (split; [apply div_ceil_nonneg; lia | apply div_ceil_le; nia]).
  split_and!; try lia; [apply div_ceil_nonneg; lia | apply div_ceil_le; lia].
Qed.

Lemma vmdk_eq s o : summary_ok s -> is_u32 (vmo_grain_size o) ->
  let g := vmo_grain_size o in let vs := as_virtual_size s in
  measure_vmdk s o =
    if negb ((4096 <=? g) && (g <=? 65536)) || negb (is_power_of_two g) then Err MeInvalidOption
    else if vs <? as_allocated_bytes s then Err MeInvalidSize
    else match vmo_subformat o with
         | MonolithicSparse => predicted (units s g) (vmdk_grains vs g) (sparse_size vs g) false
         | StreamOptimized => predicted (units s g) (vmdk_grains vs g) (stream_size vs g) false
         | MonolithicFlat => predicted 0 0 (fun _ => 512 + vs) false
         end.
Proof.
  intros Hs Hgu g vs. unfold measure_vmdk. fold g vs. destruct (negb _ || negb _) eqn:Hopt; [done|].
  destruct (vs <? as_allocated_bytes s) eqn:Hsz; [done|]. bool_to_prop.
  destruct (pow2_multiple g 9 ltac:(lia) ltac:(change (2 ^ 9) with 512; lia) ltac:(done)) as [_ Hg]. change (2 ^ 9) with 512 in Hg.
  destruct (vmdk_tables_bound vs g (so_size s Hs) ltac:(lia) Hg) as (Hcap & Hgr & Htab).
  destruct (vmo_subformat o) eqn:Hsub.
  3:{ unfold measure_vmdk_flat. fold vs. measure_head. apply fits_step; [left; lia|]. intros Hf.
      by apply (try_new_predicted 0 0 (fun _ => 512 + vs) false). }
  all: unfold measure_vmdk_sparse_or_stream; fold vs; rewrite Hsub; unfold DEFAULT_NUM_GTES_PER_GT; cbv zeta;
    change (mul_or_overflow 512 4) with (@Ok MeasureError Z 2048); cbn [obind];
    rewrite (ceil_div_eq vs 512) by (first [lia | apply (so_size s Hs)]); cbn [obind]; rewrite ceil_div_eq by done; cbn [obind];
    fold (vmdk_grains vs g); rewrite ceil_div_eq by (done || lia); cbn [obind]; fold (vmdk_tables vs g);
    rewrite mul_fits, fits_ok by (change (2 ^ 44) with 17592186044416 in Htab; unfold u64_max; lia); cbn [obind];
    rewrite (units_eq s g Hs) by lia; cbn [obind].
  - apply sparse_eq; try done. apply units_nonneg; [done|lia].
  - apply stream_eq; try done. apply units_nonneg; [done|lia].
Qed.

Lemma vhd_eq s o : summary_ok s -> is_u32 (vho_block_size o) ->
  let bs := vho_block_size o in let vs := as_virtual_size s in
  measure_vhd s o =
    if vs <? as_allocated_bytes s then Err MeInvalidSize
    else match vho_subformat o with
         | VhdFixed => predicted 0 0 (fun _ => padded vs 512 + 512) false
         | VhdDynamic =>
             if (bs <? 524288) || (2147483648 <? bs) || negb (is_power_of_two bs) then Err MeInvalidOption
             else predicted (units s bs) (vhd_blocks vs bs) (vhd_size vs bs) false
         end.
Proof.
  intros Hs Hbu bs vs. unfold measure_vhd. fold bs vs. destruct (vs <? _); [done|]. pose proof (so_size s Hs) as Hvs. fold vs in Hvs.
  destruct (vho_subformat o).
  2:{ unfold measure_vhd_fixed. fold vs. measure_head. unfold is_u64 in Hvs. pose proof (padded_bounds vs 512 ltac:(lia)).
      unfold FOOTER_SIZE. do 1 (apply fits_step; [left; lia|]; intros ?). measure_step.
      by apply (try_new_predicted 0 0 (fun _ => padded vs 512 + 512) false). }
  cbv zeta. change (512 * 1024) with 524288. change (2 * 1024 * 1024 * 1024) with 2147483648.
  destruct (_ || _ || _) eqn:Hopt; [done|]. bool_to_prop. unfold measure_vhd_dynamic. fold vs.
  rewrite (ceil_div_eq vs bs) by (done || lia). cbn [obind]. fold (vhd_blocks vs bs).
  assert (0 <= vhd_blocks vs bs <= 2 ^ 45) as Hb.
  { unfold is_u64, u64_max in Hvs. change (2 ^ 45) with 35184372088832. split; [apply div_ceil_nonneg; lia | apply div_ceil_le; lia]. }
  change (2 ^ 45) with 35184372088832 in Hb. measure_small. pose proof (padded_bounds (vhd_blocks vs bs * 4) 512 ltac:(lia)) as Hp.
  measure_small. assert (0 <= bs / 512 <= bs) as Hd by (split; [apply Z.div_pos; lia | apply Z.div_le_upper_bound; lia]).
  rewrite (ceil_div_eq (bs / 512) 8) by (unfold is_u64, u64_max; lia). cbn [obind].
  set (bm := div_ceil (bs / 512) 8). assert (0 <= bm <= bs).
  { unfold bm. split; [apply div_ceil_nonneg; lia | apply div_ceil_le; lia]. }
  pose proof (padded_bounds bm 512 ltac:(lia)). do 2 measure_small. rewrite (units_eq s bs Hs) by lia. cbn [obind].
  pose proof (units_nonneg s bs Hs ltac:(lia)) as [Hu _]. unfold FOOTER_SIZE, DYNAMIC_HEADER_SIZE.
  assert (0 <= units s bs * (padded bm 512 + bs) /\ 0 <= vhd_blocks vs bs * (padded bm 512 + bs)) as [Hm1 Hm2]
    by (split; apply Z.mul_nonneg_nonneg; lia).
  unfold vhd_size. fold bm. do 4 measure_step.
  rewrite <- (try_new_predicted _ _ (fun n => 512 + 1024 + padded (vhd_blocks vs bs * 4) 512 + n * (padded bm 512 + bs) + 512) false) by lia.
  f_equal; lia.
Qed.

Lemma vhdx_eq s o : summary_ok s -> is_u32 (vxo_block_size o) ->
  measure_vhdx s o =
    match layout (as_virtual_size s) (vxo_block_size o) false with
    | Ok l =>
        if as_virtual_size s <? as_allocated_bytes s then Err MeInvalidSize
        else match vxo_subformat o with
             | VhdxFixed => predicted 0 0 (fun _ => vl_fixed_file_length l) false
             | VhdxDynamic => predicted (units s (vl_block_size l)) (vl_payload_blocks l) (vhdx_size l) false
             end
    | Err LeTooLarge => Err MeTooLarge
    | _ => Err MeInvalidOption
    end.
Proof.
  intros Hs Hbu. unfold measure_vhdx. pose proof (layout_spec _ _ false (so_size s Hs) Hbu) as Hl.
  destruct (layout (as_virtual_size s) (vxo_block_size o) false) as [l|[]| |]; try done. destruct Hl as (Hg & _). cbn [map_layout_error obind].
  destruct (_ <? _); [done|]. destruct (geometry_bounds l false Hg) as (Hb & Hbm & Hpb & _ & _ & _ & Hreg).
  destruct Hg as [(Hs0 & _) _ _ _ _ _ Hg1 Hg2 Hg3 Hg4 Hg5 (Hg6 & Hg7 & Hg8)]. unfold MB_ALIGN, MAX_VIRTUAL_SIZE in *.
  destruct (vxo_subformat o).
  2:{ apply (try_new_predicted 0 0 (fun _ => vl_fixed_file_length l) false). unfold u64_max. lia. }
  assert (padded (vl_block_size l) 1048576 = vl_block_size l) as Hpad.
  { pose proof (Z.div_mod (vl_block_size l) 1048576 ltac:(lia)). unfold padded, div_ceil. rewrite Hbm, Z.eqb_refl. lia. }
  cbv zeta. unfold MB_ALIGN. measure_head. rewrite Hpad, fits_ok by (unfold u64_max; lia). cbn [obind].
  rewrite (units_eq s _ Hs) by lia. cbn [obind]. pose proof (units_nonneg s (vl_block_size l) Hs ltac:(lia)) as [Hu _].
  assert (0 <= units s (vl_block_size l) * vl_block_size l /\ 0 <= vl_payload_blocks l * vl_block_size l) as [Hm1 Hm2]
    by (split; apply Z.mul_nonneg_nonneg; lia).
  unfold vhdx_size. do 4 measure_step.
  by apply (try_new_predicted _ _ (fun n => vl_data_start l + n * vl_block_size l) false).
Qed.

(** ** qcow2 *)

Section rounds.
Context (used epr cs : Z).
Context (Hused : 1 <= used <= 2 ^ 57) (Hepr : 64 <= epr <= 2 ^ 24) (Hcs : 512 <= cs <= 2 ^ 21).
#[local] Abbreviation iter := (blocks_iter used epr cs).

(** Where the iteration settles, the checked rounds are those of image creation. *)
Lemma layout_rounds_eq rounds n : (exists m, (m < rounds)%nat /\ iter (S (n + m)) = iter (n + m)) ->
  layout_rounds rounds used epr cs (table_of cs (iter n)) (iter n) = Ok (refcount_loop rounds used epr cs (table_of cs (iter n)) (iter n)).
Proof using Hused Hepr Hcs.
  revert n. induction rounds as [|rounds IH]; intros n (m & Hm & Hfix); [lia|]. cbn [layout_rounds refcount_loop].
  pose proof (iter_small used epr cs Hused Hepr Hcs n) as Hb. pose proof (iter_small used epr cs Hused Hepr Hcs (S n)) as Hb'.
  change (2 ^ 52) with 4503599627370496 in *. change (2 ^ 57) with 144115188075855872 in *.
  pose proof (table_of_bound cs Hcs (iter n) ltac:(lia)) as Ht.
  rewrite !add_fits, fits_ok by (unfold u64_max; lia). cbn [obind]. rewrite add_fits, fits_ok by (unfold u64_max; lia). cbn [obind].
  rewrite !wadd_small by (rewrite ?wadd_small by (unfold u64_max; lia); unfold u64_max; lia).
  rewrite ceil_div_eq by (unfold is_u64, u64_max; lia). cbn [obind].
  change (div_ceil (used + table_of cs (iter n) + iter n) epr) with (iter (S n)).
  rewrite mul_fits, fits_ok by (unfold u64_max; lia). cbn [obind]. rewrite ceil_div_eq by (unfold is_u64, u64_max; lia). cbn [obind].
  rewrite wmul_small by (unfold u64_max; lia). change (div_ceil (iter (S n) * 8) cs) with (table_of cs (iter (S n))).
  destruct (_ && _) eqn:Heq; [done|]. apply (IH (S n)). destruct m as [|m].
  - rewrite Nat.add_0_r in Hfix. rewrite Hfix, !Z.eqb_refl in Heq. done.
  - exists m. split; [lia|]. by rewrite Nat.add_succ_comm.
Qed.

Lemma refcount_layout_eq bits : valid_width bits -> epr = cs * 8 / bits ->
  calculate_refcount_layout used cs bits =
    let '(rt, rb) := refcount_loop 16 used epr cs 1 1 in Ok (rt, rb, used + rt + rb).
Proof using Hused Hepr Hcs.
  intros Hw%valid_width_range He. unfold calculate_refcount_layout. change (2 ^ 21) with 2097152 in Hcs.
  rewrite mul_fits, fits_ok by (unfold u64_max; lia). cbn [obind]. unfold udiv. rewrite (proj2 (Z.eqb_neq bits 0)) by lia. cbn [obind].
  rewrite <- He, (proj2 (Z.eqb_neq epr 0)) by lia.
  pose proof (layout_rounds_eq 16 0) as Hr. change (blocks_iter used epr cs 0) with 1 in Hr. rewrite table_of_1 in Hr by (done || lia).
  rewrite Hr by (exists 13%nat; split; [lia|]; apply iter_fixed; done || lia). cbn [obind].
  pose proof (refcount_loop_fixed used epr cs Hused Hepr Hcs 16 ltac:(lia)) as Hf. destruct (refcount_loop 16 used epr cs 1 1) as [rt rb].
  destruct Hf as (_ & Hrb & Hrt & _). pose proof (Z.div_le_upper_bound used 62 (2 ^ 52 - 1) ltac:(lia)).
  change (2 ^ 57) with 144115188075855872 in *. change (2 ^ 52) with 4503599627370496 in *.
  rewrite !add_fits, fits_ok by (unfold u64_max; lia). cbn [obind]. rewrite add_fits, fits_ok by (unfold u64_max; lia). done.
Qed.
End rounds.

Definition q_bad_options (o : Qcow2Opts) : bool :=
  (qo_cluster_size o <? 512) || (2097152 <? qo_cluster_size o) || negb (is_power_of_two (qo_cluster_size o)) ||
  negb (valid_refcount_bits (qo_refcount_bits o)) || (qo_extended_l2 o && negb (qo_compat_v3 o)).

Definition q_dense (o : Qcow2Opts) : bool :=
  match qo_preallocation o with MpOff | MpMetadata => false | MpFalloc | MpFull => true end.

(** The ranges of the parts. *)
Lemma q_bounds o vs : 512 <= q_cs o <= 2097152 -> 0 <= vs <= 2 ^ 63 ->
  (forall n, qo_luks_header_overhead o = Some n -> is_u64 n) ->
  32 <= q_cs o / (if qo_extended_l2 o then 16 else 8) <= 262144 /\
  0 <= q_l1 o vs <= 2 ^ 49 /\ 0 <= q_l1_clusters o vs <= 2 ^ 49 /\ 0 <= q_data o vs <= 2 ^ 54 /\ 0 <= q_luks o <= 2 ^ 55 /\
  1 <= q_used o vs <= 2 ^ 57.
Proof.
  intros Hcs Hvs Hluks.
  assert (32 <= q_cs o / (if qo_extended_l2 o then 16 else 8) <= 262144) as Hepl
    by (destruct (qo_extended_l2 o); (split; [apply Z.div_le_lower_bound; lia | apply Z.div_le_upper_bound; lia])).
  set (epl := q_cs o / (if qo_extended_l2 o then 16 else 8)) in *.
  change (2 ^ 63) with 9223372036854775808 in Hvs. change (2 ^ 49) with 562949953421312. change (2 ^ 54) with 18014398509481984.
  change (2 ^ 55) with 36028797018963968. change (2 ^ 57) with 144115188075855872.
  assert (16384 <= q_cs o * epl) by nia.
  assert (0 <= q_l1 o vs <= 562949953421312) by (unfold q_l1; split; [apply div_ceil_nonneg; lia | apply div_ceil_le; fold epl; nia]).
  assert (0 <= q_l1_clusters o vs <= 562949953421312) by (unfold q_l1_clusters; split; [apply div_ceil_nonneg; lia | apply div_ceil_le; nia]).
  assert (0 <= q_data o vs <= 18014398509481984) by (unfold q_data; split; [apply div_ceil_nonneg; lia | apply div_ceil_le; nia]).
  assert (0 <= q_luks o <= 36028797018963968).
  { unfold q_luks. destruct (qo_luks_header_overhead o) as [n|]; [|lia]. specialize (Hluks n eq_refl). unfold is_u64, u64_max in Hluks.
    split; [apply div_ceil_nonneg; lia | apply div_ceil_le; nia]. }
  unfold q_used. lia.
Qed.

Lemma ceil_div_if a b : is_u64 a -> 0 < b -> (if a =? 0 then Ok 0 else ceil_div a b) = Ok (div_ceil a b).
Proof. intros Ha Hb. rewrite ceil_div_eq by done. destruct (Z.eqb_spec a 0) as [->|]; [by rewrite div_ceil_zero|done]. Qed.

Lemma q_luks_eq o : 0 < q_cs o -> (forall n, qo_luks_header_overhead o = Some n -> is_u64 n) ->
  match qo_luks_header_overhead o with Some n => if 0 <? n then ceil_div n (q_cs o) else Ok 0 | None => Ok 0 end = Ok (q_luks o).
Proof.
  intros Hcs Hl. unfold q_luks. destruct (qo_luks_header_overhead o) as [n|]; [|done]. specialize (Hl n eq_refl).
  destruct (Z.ltb_spec 0 n); [by apply ceil_div_eq|]. unfold is_u64 in Hl. replace n with 0 by lia. by rewrite div_ceil_zero.
Qed.

Lemma qcow2_eq s o : summary_ok s -> (forall n, qo_luks_header_overhead o = Some n -> is_u64 n) ->
  let vs := as_virtual_size s in
  measure_qcow2 s o =
    if q_bad_options o then Err MeInvalidOption
    else if (2 ^ 63 <? vs) || (vs <? as_allocated_bytes s) then Err MeInvalidSize
    else predicted (units s (q_cs o)) (q_data o vs) (qcow2_size o vs) (q_dense o).
Proof.
  intros Hs Hluks vs. unfold measure_qcow2, q_bad_options. fold vs. change (2 * 1024 * 1024) with 2097152. change (Z.shiftl 1 63) with (2 ^ 63).
  destruct (_ || _ || negb (is_power_of_two _)) eqn:Ho1; cbn [orb]; [done|]. destruct (valid_refcount_bits _) eqn:Hw; cbn [negb orb]; [|done].
  destruct (qo_extended_l2 o && _); [done|]. destruct (Z.ltb_spec (2 ^ 63) vs) as [|Hmax]; cbn [orb]; [done|].
  destruct (vs <? as_allocated_bytes s); [done|]. bool_to_prop. apply valid_refcount_bits_spec in Hw. fold (q_cs o) in *.
  pose proof (so_size s Hs) as Hvs. fold vs in Hvs. pose proof Hvs as [Hv0 _].
  destruct (q_bounds o vs ltac:(lia) ltac:(lia) Hluks) as (Hepl & Hl1 & Hl1c & Hdata & Hlk & Hused).
  change (2 ^ 49) with 562949953421312 in *. change (2 ^ 54) with 18014398509481984 in *. change (2 ^ 55) with 36028797018963968 in *.
  cbv zeta. set (epl := q_cs o / (if qo_extended_l2 o then 16 else 8)) in *.
  assert (0 < q_cs o * epl <= u64_max) by (unfold u64_max; nia). measure_head. rewrite fits_ok by lia. cbn [obind].
  rewrite ceil_div_if by (done || lia). cbn [obind]. change (div_ceil vs (q_cs o * epl)) with (q_l1 o vs). measure_small.
  assert ((if q_l1 o vs =? 0 then Ok 0 else ceil_div (q_l1 o vs * 8) (q_cs o)) = @Ok MeasureError Z (q_l1_clusters o vs)) as ->.
  { unfold q_l1_clusters. destruct (Z.eqb_spec (q_l1 o vs) 0) as [->|]; [by rewrite div_ceil_zero by lia|].
    apply ceil_div_eq; [unfold is_u64, u64_max; lia | lia]. }
  cbn [obind]. rewrite (units_eq s (q_cs o) Hs) by lia. cbn [obind]. rewrite ceil_div_if by (done || lia). cbn [obind]. fold (q_data o vs).
  rewrite q_luks_eq by (done || lia). cbn [obind]. pose proof (units_nonneg s (q_cs o) Hs ltac:(lia)) as [Hu _].
  assert (512 <= q_cs o <= 2 ^ 21) as Hcs by (change (2 ^ 21) with 2097152; lia).
  pose proof (entries_per_block_bounds _ _ Hcs Hw) as Hepr.
  measure_small.
  replace (0 + (1 + (q_l1_clusters o vs + (q_l1 o vs + (q_data o vs + (q_luks o + 0)))))) with (q_used o vs) by (unfold q_used; lia).
  rewrite (refcount_layout_eq _ (q_cs o * 8 / qo_refcount_bits o) _ Hused Hepr Hcs _ Hw eq_refl).
  pose proof (refcount_loop_fixed _ _ _ Hused Hepr Hcs 16 ltac:(lia)) as Hf.
  assert (q_refcounts o vs = refcount_loop 16 (q_used o vs) (q_cs o * 8 / qo_refcount_bits o) (q_cs o) 1 1) as Hq by done.
  destruct (refcount_loop 16 _ _ _ 1 1) as [rt rb]. destruct Hf as (_ & Hrb & Hrt & _). cbn [obind].
  unfold qcow2_size. rewrite Hq. cbn [fst snd]. set (meta := 1 + q_l1_clusters o vs + q_l1 o vs + q_luks o).
  assert (1 <= meta) by (unfold meta; lia).
  assert (forall n, 0 <= n -> meta + n + rt + rb <= (meta + n + rt + rb) * q_cs o) as Hge by (intros; nia).
  pose proof (Hge _ Hu) as Hgu. pose proof (Hge (q_data o vs) ltac:(lia)) as Hgd. clear Hge.
  assert (0 <= (meta + units s (q_cs o) + rt + rb) * q_cs o) by nia.
  assert (0 <= (meta + q_data o vs + rt + rb) * q_cs o) by nia.
  measure_head. replace (0 + _) with (meta + units s (q_cs o) + rt + rb) by (unfold meta; lia).
  apply fits_step; [left; lia|]. intros Hfit3.
  measure_head. replace (0 + _) with (meta + q_data o vs + rt + rb) by (unfold meta; lia).
  apply fits_step; [right; destruct (q_dense o); lia|]. intros Hfit4.
  measure_head. apply fits_step; [left; lia|]. intros Hfit5.
  measure_head. apply fits_step; [right; destruct (q_dense o); lia|]. intros Hfit6.
  rewrite <- (try_new_predicted _ _ (fun n => (meta + n + rt + rb) * q_cs o) (q_dense o)) by done.
  f_equal. unfold q_dense. by destruct (qo_preallocation o).
Qed.

(** ** Consequences *)

Lemma div_ceil_nested x a b : 0 < a -> 0 < b -> div_ceil (div_ceil x a) b = div_ceil x (a * b).
Proof.
  intros Ha Hb. destruct (div_ceil_spec x a Ha) as [H1 H2]. destruct (div_ceil_spec (div_ceil x a) b Hb) as [H3 H4].
  destruct (div_ceil_spec x (a * b) ltac:(nia)) as [H5 H6].
  apply Z.le_antisymm; (apply div_ceil_le; [nia|]); [|nia]. apply div_ceil_le; [lia|nia].
Qed.

(** The scanner never counts more units than there are. *)
Definition count_ok (s : AllocationSummary) (u : Z) : Prop := as_target_units_with_data s <= div_ceil (as_virtual_size s) u.

Lemma units_le s u : 0 < u -> as_allocated_bytes s <= as_virtual_size s -> count_ok s u -> units s u <= div_ceil (as_virtual_size s) u.
Proof. intros Hu Ha Hc. unfold units. destruct (_ =? 0); [by apply div_ceil_mono|done]. Qed.

(** What a successful prediction tells. *)
Definition sound (r : MeasureResult) : Prop :=
  match r with
  | Ok out => 0 <= mo_required out <= mo_fully_allocated out /\ mo_required out + mo_fully_allocated out <= u64_max
  | Err _ => True
  | _ => False
  end.

Lemma predicted_sound n total (size : Z -> Z) dense : 0 <= size n <= size total -> sound (predicted n total size dense).
Proof.
  intros Hs. unfold predicted. destruct (_ && _) eqn:H; [|done]. bool_to_prop. cbn. destruct dense; lia.
Qed.

Lemma raw_sound vs : 0 <= vs -> sound (measure_raw vs).
Proof.
  intros Hv. unfold measure_raw, try_new, checked_add. destruct (Z.leb_spec (vs + vs) u64_max); cbn; [lia|done].
Qed.

Lemma qcow2_sound s o : summary_ok s -> (forall n, qo_luks_header_overhead o = Some n -> is_u64 n) ->
  (512 <= q_cs o -> count_ok s (q_cs o)) -> sound (measure_qcow2 s o).
Proof.
  intros Hs Hl Hc. rewrite qcow2_eq by done. unfold q_bad_options. destruct (_ || _ || _ || _ || _) eqn:Ho; [done|].
  destruct ((2 ^ 63 <? _) || _) eqn:Hz; [done|]. bool_to_prop. fold (q_cs o) in *. apply predicted_sound. pose proof (so_size s Hs) as [Hv0 _].
  destruct (q_bounds o (as_virtual_size s) ltac:(lia) ltac:(lia) Hl) as (_ & Hl1 & Hl1c & Hdata & Hlk & Hused).
  pose proof (units_le s (q_cs o) ltac:(lia) ltac:(lia) (Hc ltac:(lia))) as Hu. pose proof (units_nonneg s (q_cs o) Hs ltac:(lia)) as [Hu0 _].
  fold (q_data o (as_virtual_size s)) in Hu. assert (512 <= q_cs o <= 2 ^ 21) as Hcs by (change (2 ^ 21) with 2097152; lia).
  match goal with H : valid_refcount_bits _ = true |- _ => apply valid_refcount_bits_spec in H as Hw end.
  pose proof (refcount_loop_fixed _ _ _ Hused (entries_per_block_bounds _ _ Hcs Hw) Hcs 16 ltac:(lia)) as Hf.
  unfold qcow2_size, q_refcounts. destruct (refcount_loop _ _ _ _ _ _) as [rt rb]. cbn [fst snd]. destruct Hf as (_ & Hrb & Hrt & _).
  split; [apply Z.mul_nonneg_nonneg; lia | apply Z.mul_le_mono_nonneg_r; lia].
Qed.

Lemma vmdk_sound s o : summary_ok s -> is_u32 (vmo_grain_size o) ->
  (0 < vmo_grain_size o -> count_ok s (vmo_grain_size o)) -> sound (measure_vmdk s o).
Proof.
  intros Hs Hgu Hc. rewrite vmdk_eq by done. set (g := vmo_grain_size o) in *. destruct (_ || _) eqn:Ho; [done|].
  destruct (_ <? _) eqn:Hz; [done|]. bool_to_prop. pose proof (so_size s Hs) as Hvs. pose proof Hvs as [Hv0 _].
  destruct (pow2_multiple g 9 ltac:(lia) ltac:(change (2 ^ 9) with 512; lia) ltac:(done)) as [Hg9 Hg]. change (2 ^ 9) with 512 in Hg9, Hg.
  pose proof (units_le s g ltac:(lia) ltac:(lia) (Hc ltac:(lia))) as Hu. pose proof (units_nonneg s g Hs ltac:(lia)) as [Hu0 _].
  assert (vmdk_grains (as_virtual_size s) g = div_ceil (as_virtual_size s) g) as He.
  { unfold vmdk_grains. rewrite div_ceil_nested by lia. f_equal. lia. }
  destruct (vmdk_tables_bound _ g Hvs ltac:(lia) Hg) as (_ & _ & Htab). rewrite <- He in Hu. clear He.
  assert (0 <= vmdk_directory (as_virtual_size s) g) by (unfold vmdk_directory; lia).
  destruct (vmo_subformat o); apply predicted_sound; [| |lia].
  - unfold sparse_size. split; [|apply Z.add_le_mono_r, Z.add_le_mono_r, Z.add_le_mono_l, Z.mul_le_mono_nonneg_r; lia].
    pose proof (Z.mul_nonneg_nonneg (units s g) g). lia.
  - unfold stream_size. split.
    + etrans; [|apply padded_bounds; lia]. pose proof (Z.mul_nonneg_nonneg (units s g) (g + 512)). lia.
    + apply padded_mono; [lia|]. apply Z.add_le_mono_r, Z.add_le_mono_r, Z.add_le_mono_r, Z.add_le_mono_l, Z.mul_le_mono_nonneg_r; lia.
Qed.

Lemma vhd_sound s o : summary_ok s -> is_u32 (vho_block_size o) ->
  (vho_subformat o = VhdDynamic -> 0 < vho_block_size o -> count_ok s (vho_block_size o)) -> sound (measure_vhd s o).
Proof.
  intros Hs Hbu Hc. rewrite vhd_eq by done. set (bs := vho_block_size o) in *. destruct (_ <? as_allocated_bytes s) eqn:Hz; [done|].
  pose proof (so_size s Hs) as [Hv0 _]. destruct (vho_subformat o).
  2:{ apply predicted_sound. pose proof (padded_bounds (as_virtual_size s) 512 ltac:(lia)). lia. }
  destruct (_ || _ || _) eqn:Ho; [done|]. bool_to_prop.
  pose proof (units_le s bs ltac:(lia) ltac:(lia) (Hc eq_refl ltac:(lia))) as Hu. pose proof (units_nonneg s bs Hs ltac:(lia)) as [Hu0 _].
  fold (vhd_blocks (as_virtual_size s) bs) in Hu. apply predicted_sound. unfold vhd_size.
  pose proof (padded_bounds (vhd_blocks (as_virtual_size s) bs * 4) 512 ltac:(lia)).
  pose proof (padded_bounds (div_ceil (bs / 512) 8) 512 ltac:(lia)).
  pose proof (div_ceil_nonneg (bs / 512) 8 ltac:(lia) ltac:(apply Z.div_pos; lia)).
  set (b := padded (div_ceil (bs / 512) 8) 512 + bs) in *. pose proof (Z.mul_nonneg_nonneg (units s bs) b).
  pose proof (Z.mul_le_mono_nonneg_r (units s bs) (vhd_blocks (as_virtual_size s) bs) b). lia.
Qed.

Lemma vhdx_sound s o : summary_ok s -> is_u32 (vxo_block_size o) -> vxo_block_size o <> 0 ->
  count_ok s (vxo_block_size o) -> sound (measure_vhdx s o).
Proof.
  intros Hs Hbu Hne Hc. rewrite vhdx_eq by done. pose proof (layout_spec _ _ false (so_size s Hs) Hbu) as Hl.
  destruct (layout _ _ false) as [l|[]| |]; try done. destruct (_ <? _) eqn:Hz; [done|]. bool_to_prop.
  destruct Hl as (Hg & Hlv & Hlb). rewrite (proj2 (Z.eqb_neq _ 0) Hne) in Hlb.
  destruct (geometry_bounds l false Hg) as (Hb & Hbm & Hpb & _ & _ & _ & Hreg). pose proof (ge_payload l false Hg) as Hpay.
  destruct Hg as [(Hs0 & _) _ _ _ _ _ Hg1 Hg2 Hg3 Hg4 Hg5 (Hg6 & Hg7 & Hg8)]. unfold MB_ALIGN, MAX_VIRTUAL_SIZE in *.
  destruct (vxo_subformat o); apply predicted_sound; [|lia]. rewrite <- Hlb in *.
  pose proof (units_le s (vl_block_size l) ltac:(lia) ltac:(lia) Hc) as Hu. pose proof (units_nonneg s (vl_block_size l) Hs ltac:(lia)) as [Hu0 _].
  assert (div_ceil (as_virtual_size s) (vl_block_size l) <= vl_payload_blocks l) as Hle.
  { rewrite Hpay, Hlv. apply div_ceil_mono; [lia|]. destruct (div_ceil_spec (as_virtual_size s) 512); lia. }
  unfold vhdx_size. pose proof (Z.mul_nonneg_nonneg (units s (vl_block_size l)) (vl_block_size l)).
  pose proof (Z.mul_le_mono_nonneg_r (units s (vl_block_size l)) (vl_payload_blocks l) (vl_block_size l)). lia.
Qed.

(** A configuration whose fields have the widths of the wire structure. *)
Record config_ok (c : MeasureConfig) : Prop := {
  co_cluster : is_u32 (mc_qcow2_cluster_size c);
  co_grain : is_u32 (mc_vmdk_grain_size c);
  co_block : is_u32 (mc_block_size c);
  co_size : is_u64 (mc_virtual_size_override c);
  co_luks : is_u64 (mc_luks_header_overhead c)
}.

(** A scan of the source: its fields fit, and it counted the units of the target. *)
Definition scan_ok (c : MeasureConfig) (scanned : Z + AllocationSummary * Z) : Prop :=
  match scanned with
  | inl e => e <> ERROR_OK
  | inr (s, u) => summary_ok s /\ u = target_unit_size_for c (as_virtual_size s) /\ (0 < u -> count_ok s u)
  end.

Lemma or_default_u32 v d : is_u32 v -> 0 < d <= u32_max -> 0 < or_default v d /\ is_u32 (or_default v d).
Proof. intros Hv Hd. unfold or_default, is_u32 in *. destruct (Z.eqb_spec v 0); lia. Qed.

Lemma target_sound c s u : config_ok c -> scan_ok c (inr (s, u)) -> sound (measure_target c s u).
Proof.
  intros [Hcl Hgr Hbl _ Hlk] (Hs & Hu & Hc). unfold measure_target, target_unit_size_for in *.
  destruct (image_format_from_u32 (mc_target_format c)); try done.
  - apply raw_sound, Hs.
  - apply qcow2_sound; [done| |].
    + intros n. cbn. destruct (_ =? 0); [done|]. by intros [= <-].
    + intros Hcs. unfold q_cs in *. rewrite <- Hu in Hcs |- *. apply Hc. lia.
  - apply vmdk_sound; [done|by apply or_default_u32|]. intros Hg. rewrite <- Hu in Hg |- *. by apply Hc.
  - apply vhd_sound; [done|by apply or_default_u32|]. intros Hd Hb. rewrite Hd in Hu. rewrite <- Hu in Hb |- *. by apply Hc.
  - assert (0 < u /\ is_u32 u) as [Hu0 Huu].
    { rewrite Hu. unfold vhdx_block_size_for. destruct (Z.eqb_spec (mc_block_size c) 0); cbn [negb]; [|unfold is_u32 in *; lia].
      unfold default_block_size, is_u32, u32_max. repeat destruct (_ <? _); lia. }
    apply vhdx_sound; [done|done|cbn; lia|cbn; auto].
Qed.

(** ** Properties *)

(** C18: The calculators are their formulas over unbounded integers.  For any summary and
    options of machine width, [measure_qcow2], [measure_vmdk], [measure_vhd] and
    [measure_vhdx] never panic and never run out of rounds: bad options and sizes are
    refused in the order of the checks, and otherwise the result is the size of the
    required units and of all units as the format lays them out, with the refcount
    structures at the fixed point that image creation computes.  [Overflow] is reported
    exactly when a size, or the sum of the two, does not fit 64 bits, whatever
    intermediate step detects it. *)
Theorem measure_sizes_exact (s : AllocationSummary) :
  summary_ok s ->
  let vs := as_virtual_size s in
  (forall o, (forall n, qo_luks_header_overhead o = Some n -> is_u64 n) ->
     measure_qcow2 s o =
       if q_bad_options o then Err MeInvalidOption
       else if (2 ^ 63 <? vs) || (vs <? as_allocated_bytes s) then Err MeInvalidSize
       else predicted (units s (q_cs o)) (q_data o vs) (qcow2_size o vs) (q_dense o)) /\
  (forall o, is_u32 (vmo_grain_size o) ->
     let g := vmo_grain_size o in
     measure_vmdk s o =
       if negb ((4096 <=? g) && (g <=? 65536)) || negb (is_power_of_two g) then Err MeInvalidOption
       else if vs <? as_allocated_bytes s then Err MeInvalidSize
       else match vmo_subformat o with
            | MonolithicSparse => predicted (units s g) (vmdk_grains vs g) (sparse_size vs g) false
            | StreamOptimized => predicted (units s g) (vmdk_grains vs g) (stream_size vs g) false
            | MonolithicFlat => predicted 0 0 (fun _ => 512 + vs) false
            end) /\
  (forall o, is_u32 (vho_block_size o) ->
     let bs := vho_block_size o in
     measure_vhd s o =
       if vs <? as_allocated_bytes s then Err MeInvalidSize
       else match vho_subformat o with
            | VhdFixed => predicted 0 0 (fun _ => padded vs 512 + 512) false
            | VhdDynamic =>
                if (bs <? 524288) || (2147483648 <? bs) || negb (is_power_of_two bs) then Err MeInvalidOption
                else predicted (units s bs) (vhd_blocks vs bs) (vhd_size vs bs) false
            end) /\
  (forall o, is_u32 (vxo_block_size o) ->
     measure_vhdx s o =
       match layout vs (vxo_block_size o) false with
       | Ok l =>
           if vs <? as_allocated_bytes s then Err MeInvalidSize
           else match vxo_subformat o with
                | VhdxFixed => predicted 0 0 (fun _ => vl_fixed_file_length l) false
                | VhdxDynamic => predicted (units s (vl_block_size l)) (vl_payload_blocks l) (vhdx_size l) false
                end
       | Err LeTooLarge => Err MeTooLarge
       | _ => Err MeInvalidOption
       end).
Proof.
  intros Hs vs. split_and!; intros o Ho; [by apply qcow2_eq | by apply vmdk_eq | by apply vhd_eq | by apply vhdx_eq].
Qed.

(** The message of the measure operation.  Whatever the configuration and the source,
    provided the scan counted no more target units than there are, the guest sends one
    message and does not panic; it completes successfully exactly when the error code of
    the message is zero, a failing message carries no sizes, and the sizes of a
    successful one satisfy required <= fully allocated and have a sum that fits 64
    bits. *)
Theorem measure_message_sound (c : MeasureConfig) (scanned : Z + AllocationSummary * Z) :
  config_ok c -> scan_ok c scanned ->
  exists msg success, start c scanned = Some (msg, success) /\
    (success = true <-> mm_error msg = ERROR_OK) /\
    (success = true -> mm_target_format msg = mc_target_format c /\
       0 <= mm_required msg <= mm_fully_allocated msg /\ mm_required msg + mm_fully_allocated msg <= u64_max) /\
    (success = false -> mm_required msg = 0 /\ mm_fully_allocated msg = 0).
Proof.
  intros Hc Hscan. unfold start. destruct (negb (mc_magic c =? _) || _); [eexists _, _; split; [done|]; cbn; done|].
  set (scanned' := if negb (mc_virtual_size_override c =? 0) then _ else scanned).
  assert (scan_ok c scanned') as Hok.
  { unfold scanned'. destruct (Z.eqb_spec (mc_virtual_size_override c) 0) as [|Hne]; cbn [negb]; [done|].
    pose proof (co_size c Hc) as Hsz. unfold is_u64 in Hsz. split; [by constructor|]. split; [done|].
    intros Hu. unfold count_ok. cbn [as_target_units_with_data as_virtual_size]. apply div_ceil_nonneg; lia. }
  clearbody scanned'. clear Hscan. destruct scanned' as [e|[s u]].
  { eexists _, _. split; [done|]. cbn in *. split; [|done]. split; [done|]. intros He. by destruct Hok. }
  pose proof (target_sound c s u Hc Hok) as Hs. destruct (measure_target c s u) as [out|e| |]; try done; cbn [send_result mbind option_bind].
  - eexists _, _. split; [done|]. split; [done|]. split; [|done]. intros _. split; [done|]. exact Hs.
  - eexists _, _. split; [done|]. split; [|done]. split; [done|]. by destruct e.
Qed.

Definition demo_config : MeasureConfig :=
  mkMeasureConfig MEASURE_CONFIG_MAGIC 2 0 65536 1073741824 0 0 0 0 0 0 0.

Lemma measure_message_sound_witness :
  config_ok demo_config /\ scan_ok demo_config (inl ERROR_INVALID_SIZE) /\
  start demo_config (inl ERROR_INVALID_SIZE) = Some (mkMeasureMessage 2 393216 1074135040 65536 0, true) /\
  exists msg success, start demo_config (inl ERROR_INVALID_SIZE) = Some (msg, success) /\
    (success = true <-> mm_error msg = ERROR_OK) /\
    (success = true -> mm_target_format msg = mc_target_format demo_config /\
       0 <= mm_required msg <= mm_fully_allocated msg /\ mm_required msg + mm_fully_allocated msg <= u64_max) /\
    (success = false -> mm_required msg = 0 /\ mm_fully_allocated msg = 0).
Proof.
  assert (config_ok demo_config) as Hc by (constructor; cbn; unfold is_u32, is_u64, u32_max, u64_max; lia).
  assert (scan_ok demo_config (inl ERROR_INVALID_SIZE)) as Hs by done.
  split; [done|]. split; [done|]. split; [vm_compute; reflexivity|]. by apply (measure_message_sound demo_config).
Defined.

Lemma measure_sizes_exact_witness :
  summary_ok (mkAllocationSummary 1073741824 3000000 0) /\
  measure_vhd (mkAllocationSummary 1073741824 3000000 0) (mkVhdOpts VhdDynamic 2097152) = Ok (mkMeasureOutput 4199424 1074008064).
Proof.
  assert (summary_ok (mkAllocationSummary 1073741824 3000000 0)) as Hs by (constructor; cbn; unfold is_u64, u64_max; lia).
  split; [done|]. destruct (measure_sizes_exact _ Hs) as (_ & _ & Hv & _).
  etrans; [apply (Hv (mkVhdOpts VhdDynamic 2097152)); cbn; unfold is_u32, u32_max; lia | vm_compute; reflexivity].
Defined.

(** A layout that covers a larger use covers a smaller one. *)
Lemma fixed_covers used used' epr cs rt rb : 0 < epr -> 0 < cs -> used' <= used -> fixed_point used epr cs rt rb -> covers used' epr cs rt rb.
Proof.
  intros He Hc Hu [Hb Ht]. unfold covers. destruct (div_ceil_spec (used + rt + rb) epr He) as [H1 _].
  destruct (div_ceil_spec (rb * 8) cs Hc) as [H2 _]. rewrite <- Hb in H1. rewrite <- Ht in H2. lia.
Qed.

(** The options that describe a layout of image creation. *)
Definition opts_for (l : Qcow2Layout) (p : MeasurePreallocation) : Qcow2Opts :=
  mkQcow2Opts (ly_cluster_size l) (ly_refcount_bits l) (ly_extended_l2 l) false true false p None.

Lemma pow2_is_power k : 0 <= k -> is_power_of_two (2 ^ k) = true.
Proof.
  intros Hk. pose proof (Z.pow_pos_nonneg 2 k ltac:(lia) Hk). unfold is_power_of_two. apply andb_true_iff. split; [by apply nonzero_true; lia|].
  apply Z.eqb_eq. rewrite Z.sub_1_r, <- Z.ones_equiv, Z.land_ones by done. apply Z_mod_same_full.
Qed.

Section layout_prediction.
Context (l : Qcow2Layout) (Hok : layout_ok l) (Hbd : layout_bounds l) (p : MeasurePreallocation).
Context (Hleast : forall rt rb, 1 <= rb ->
  covers (1 + ly_l1_clusters l + ly_l2_clusters l + ly_data_clusters l) (ly_cluster_size l * 8 / ly_refcount_bits l) (ly_cluster_size l) rt rb ->
  ly_refcount_table_clusters l <= rt /\ ly_refcount_block_count l <= rb).
#[local] Abbreviation o := (opts_for l p).
#[local] Abbreviation vs := (ly_virtual_size l).

Lemma opts_accepted : q_bad_options o = false.
Proof using Hok Hbd.
  pose proof (lb_cs l Hbd) as Hcs. change (2 ^ 21) with 2097152 in Hcs. destruct (lo_request l Hok) as [_ Hb Hw _ _].
  unfold q_bad_options. cbn [opts_for qo_cluster_size qo_refcount_bits qo_extended_l2 qo_compat_v3 negb].
  rewrite (proj2 (valid_refcount_bits_spec _) Hw), andb_false_r. rewrite (lo_cs l Hok) at 3. rewrite pow2_is_power by lia.
  destruct (Z.ltb_spec (ly_cluster_size l) 512), (Z.ltb_spec 2097152 (ly_cluster_size l)); done || lia.
Qed.

Lemma parts_of_layout : 0 < vs <= 2 ^ 61 /\ q_l1 o vs = ly_l1_entries l /\ q_l1_clusters o vs = ly_l1_clusters l /\ 0 <= q_data o vs <= 2 ^ 40.
Proof using Hok Hbd.
  destruct (lo_request l Hok) as [Hv Hb _ _ Hl1]. pose proof (lo_l1 l Hok) as El1.
  assert (q_l1 o vs = ly_l1_entries l) as E.
  { rewrite El1. unfold q_l1, l2_coverage_of, l2_entries_of, q_cs. cbn [opts_for qo_cluster_size qo_extended_l2]. by rewrite (lo_cs l Hok). }
  assert (q_data o vs = div_ceil vs (2 ^ ly_cluster_bits l)) as Ed by (unfold q_data, q_cs; cbn; by rewrite (lo_cs l Hok)).
  destruct (used_bounds vs (ly_cluster_bits l) (ly_extended_l2 l) Full _ _ _ _ Hb Hv eq_refl Hl1 eq_refl eq_refl eq_refl) as (_ & _ & _ & Hd).
  cbn [populates_data_metadata] in Hd. rewrite <- Ed in Hd. split_and!; [done| |done| |apply Hd|apply Hd].
  - destruct (cluster_size_pow _ Hb) as [_ Hcs]. destruct (div_ceil_spec vs (2 ^ ly_cluster_bits l) ltac:(lia)) as [Hge _]. rewrite <- Ed in Hge.
    change (2 ^ 61) with (2 ^ 40 * 2 ^ 21). nia.
  - unfold q_l1_clusters. rewrite E, (lo_l1c l Hok). done.
Qed.

Lemma refcounts_of_layout :
  0 <= (q_refcounts o vs).1 <= 2 ^ 36 /\ 0 <= (q_refcounts o vs).2 <= 2 ^ 36 /\
  ly_refcount_table_clusters l <= (q_refcounts o vs).1 /\ ly_refcount_block_count l <= (q_refcounts o vs).2 /\
  (populates_data_metadata (ly_preallocation l) = true ->
     (q_refcounts o vs).1 <= ly_refcount_table_clusters l /\ (q_refcounts o vs).2 <= ly_refcount_block_count l).
Proof using Hok Hbd Hleast.
  destruct parts_of_layout as (_ & E1 & E2 & Hd). destruct (lo_request l Hok) as [_ _ Hw _ _].
  pose proof (lb_l1 l Hbd) as B1. pose proof (lb_l1c l Hbd) as B2. pose proof (lb_cs l Hbd) as Hcs.
  pose proof (entries_per_block_bounds _ _ Hcs Hw) as Hepr.
  change (2 ^ 22) with 4194304 in *. change (2 ^ 17) with 131072 in *. change (2 ^ 40) with 1099511627776 in *. change (2 ^ 36) with 68719476736.
  assert (q_used o vs = 1 + ly_l1_clusters l + ly_l1_entries l + q_data o vs) as Hu by (unfold q_used; rewrite E1, E2; cbn; lia).
  assert (1 <= q_used o vs <= 2 ^ 57) as Hub by (change (2 ^ 57) with 144115188075855872; lia).
  pose proof (refcount_loop_fixed _ _ _ Hub Hepr Hcs 16 ltac:(lia)) as Hf.
  assert (refcount_loop 16 (q_used o vs) (ly_cluster_size l * 8 / ly_refcount_bits l) (ly_cluster_size l) 1 1 = q_refcounts o vs) as Hq
    by (unfold q_refcounts; change (q_cs o) with (ly_cluster_size l); cbn [opts_for qo_refcount_bits]; reflexivity).
  rewrite Hq in Hf.
  destruct (q_refcounts o vs) as [rt rb]. cbn [fst snd]. destruct Hf as (Hfix & Hrb & Hrt & Hmin).
  assert (q_used o vs / 62 <= 68719476735) by (apply Z.div_le_upper_bound; lia).
  assert (populates_data_metadata (ly_preallocation l) = true -> ly_l2_clusters l = ly_l1_entries l /\ ly_data_clusters l = q_data o vs) as Hpop.
  { intros Hp. rewrite (lo_l2c l Hok), (lo_data l Hok), Hp. done. }
  assert (ly_l2_clusters l <= ly_l1_entries l /\ ly_data_clusters l <= q_data o vs) as Hle.
  { rewrite (lo_l2c l Hok), (lo_data l Hok). destruct (populates_data_metadata _); [done|lia]. }
  destruct (Hleast rt rb ltac:(lia)) as [Hl1 Hl2]; [eapply fixed_covers; [lia|lia| |apply Hfix]; lia|].
  split_and!; try lia. intros Hp. destruct (Hpop Hp) as [P1 P2]. apply Hmin; [pose proof (lb_rb l Hbd); lia|].
  eapply fixed_covers; [lia|lia| |apply (lo_fixed l Hok)]. lia.
Qed.

Lemma layout_predicted (s : AllocationSummary) : summary_ok s -> as_virtual_size s = vs -> as_allocated_bytes s <= vs ->
  count_ok s (ly_cluster_size l) ->
  exists out, measure_qcow2 s o = Ok out /\ ly_total_file_size l <= mo_fully_allocated out /\
    (populates_data_metadata (ly_preallocation l) = true -> mo_fully_allocated out = ly_total_file_size l) /\
    (populates_data_metadata (ly_preallocation l) = false -> ly_total_file_size l <= mo_required out).
Proof using Hok Hbd Hleast.
  intros Hs Ev Ha Hc. destruct parts_of_layout as (Hv & E1 & E2 & Hd). destruct refcounts_of_layout as (R1 & R2 & R3 & R4 & R5).
  rewrite qcow2_eq by done. rewrite opts_accepted, Ev. change (2 ^ 61) with 2305843009213693952 in Hv. change (2 ^ 63) with 9223372036854775808.
  destruct (Z.ltb_spec 9223372036854775808 vs); [lia|]. destruct (Z.ltb_spec vs (as_allocated_bytes s)); [lia|]. cbn [orb].
  change (q_cs o) with (ly_cluster_size l). pose proof (lb_cs l Hbd) as Hcs. change (2 ^ 21) with 2097152 in Hcs.
  pose proof (units_le s (ly_cluster_size l) ltac:(lia) ltac:(lia) Hc) as Hu. pose proof (units_nonneg s (ly_cluster_size l) Hs ltac:(lia)) as [Hu0 _].
  rewrite Ev in Hu. change (div_ceil vs (ly_cluster_size l)) with (q_data o vs) in Hu.
  pose proof (lb_l1 l Hbd) as B1. pose proof (lb_l1c l Hbd) as B2.
  assert (forall n, qcow2_size o vs n = (1 + ly_l1_clusters l + ly_l1_entries l + n + (q_refcounts o vs).1 + (q_refcounts o vs).2) * ly_cluster_size l) as Hsize
    by (intros n; unfold qcow2_size; rewrite E1, E2; change (q_luks o) with 0; change (q_cs o) with (ly_cluster_size l); f_equal; lia).
  set (n := units s (ly_cluster_size l)) in *. set (rt := (q_refcounts o vs).1) in *. set (rb := (q_refcounts o vs).2) in *.
  change (2 ^ 22) with 4194304 in *. change (2 ^ 17) with 131072 in *. change (2 ^ 40) with 1099511627776 in *. change (2 ^ 36) with 68719476736 in *.
  assert (0 <= qcow2_size o vs n <= qcow2_size o vs (q_data o vs)) as Hmono
    by (rewrite !Hsize; split; [apply Z.mul_nonneg_nonneg; lia | apply Z.mul_le_mono_nonneg_r; lia]).
  assert (qcow2_size o vs (q_data o vs) <= 2 ^ 62) as Hbig.
  { rewrite Hsize. change (2 ^ 62) with (2199023255552 * 2097152). apply Z.mul_le_mono_nonneg; lia. }
  change (2 ^ 62) with 4611686018427387904 in Hbig. pose proof (lo_total l Hok) as Et. pose proof (lo_file l Hok) as Ef.
  pose proof (lo_l2c l Hok) as L2. pose proof (lo_data l Hok) as Ld. change (div_ceil vs (ly_cluster_size l)) with (q_data o vs) in Ld.
  unfold predicted. destruct (Z.leb_spec (qcow2_size o vs n) u64_max); [|unfold u64_max in *; lia].
  destruct (Z.leb_spec ((if q_dense o then qcow2_size o vs (q_data o vs) else qcow2_size o vs n) + qcow2_size o vs (q_data o vs)) u64_max);
    [|unfold u64_max in *; destruct (q_dense o); lia].
  eexists. split; [done|]. cbn [mo_fully_allocated mo_required andb]. destruct (populates_data_metadata (ly_preallocation l)).
  - destruct (R5 eq_refl). assert (ly_total_file_size l = qcow2_size o vs (q_data o vs)) as -> by (rewrite Ef, Et, Hsize; f_equal; lia). done.
  - assert (ly_total_file_size l <= qcow2_size o vs n) by (rewrite Ef, Et, Hsize; apply Z.mul_le_mono_nonneg_r; lia). destruct (q_dense o); split_and!; try done; lia.
Qed.
End layout_prediction.

(** C17: Measuring predicts creating.  For every qcow2 layout that image creation accepts,
    measuring an image of the same size and options succeeds, for any allocation within
    the image, and its [fully_allocated] is exactly the size of the preallocated file
    creation would write; a file created without preallocation is never larger than
    [required].  For VHDX the prediction of a fixed image is the length the fixed layout
    has, and that of an empty dynamic image is the end of its metadata. *)
Theorem measure_predicts_create (s : AllocationSummary) :
  summary_ok s -> as_allocated_bytes s <= as_virtual_size s ->
  (forall bits rbits ext pre l p, is_u32 bits -> is_u32 rbits ->
     compute_layout (as_virtual_size s) bits rbits ext pre = Ok l -> count_ok s (ly_cluster_size l) ->
     exists out, measure_qcow2 s (opts_for l p) = Ok out /\ ly_total_file_size l <= mo_fully_allocated out /\
       (populates_data_metadata pre = true -> mo_fully_allocated out = ly_total_file_size l) /\
       (populates_data_metadata pre = false -> ly_total_file_size l <= mo_required out)) /\
  (forall bs l, is_u32 bs -> layout (as_virtual_size s) bs false = Ok l ->
     measure_vhdx s (mkVhdxOpts VhdxFixed bs) = Ok (mkMeasureOutput (vl_fixed_file_length l) (vl_fixed_file_length l)) /\
     (as_allocated_bytes s = 0 -> as_target_units_with_data s = 0 ->
        exists out, measure_vhdx s (mkVhdxOpts VhdxDynamic bs) = Ok out /\ mo_required out = vl_data_start l)).
Proof.
  intros Hs Ha. split.
  - intros bits rbits ext pre l p Hb Hr Hl Hc. pose proof (compute_layout_spec _ bits rbits ext pre (so_size s Hs) Hb Hr) as Hspec.
    rewrite Hl in Hspec. destruct Hspec as (Hok & Hbd & [= E1 E2 E3] & E4 & <- & Hleast). rewrite <- E3 in Hleast.
    apply layout_predicted; try done. lia.
  - intros bs l Hb Hl. rewrite !vhdx_eq by done. cbn [vxo_block_size vxo_subformat]. rewrite Hl.
    pose proof (layout_spec _ bs false (so_size s Hs) Hb) as Hspec. rewrite Hl in Hspec. destruct Hspec as (Hg & _).
    destruct (geometry_bounds l false Hg) as (B1 & _ & B2 & _ & _ & _ & B3).
    destruct Hg as [(Hs0 & _) _ _ _ _ _ Hg1 Hg2 Hg3 Hg4 Hg5 (Hg6 & Hg7 & Hg8)]. unfold MB_ALIGN, MAX_VIRTUAL_SIZE in *.
    destruct (Z.ltb_spec (as_virtual_size s) (as_allocated_bytes s)); [lia|]. unfold predicted, vhdx_size, u64_max. split.
    + destruct (Z.leb_spec (vl_fixed_file_length l) 18446744073709551615); [|lia].
      destruct (Z.leb_spec (vl_fixed_file_length l + vl_fixed_file_length l) 18446744073709551615); [done|lia].
    + intros Ha0 Hn0. assert (units s (vl_block_size l) = 0) as -> by (unfold units; rewrite Hn0, Ha0; cbn; apply div_ceil_zero; lia).
      destruct (Z.leb_spec (vl_data_start l + 0 * vl_block_size l) 18446744073709551615); [|lia].
      destruct (Z.leb_spec (vl_data_start l + 0 * vl_block_size l + (vl_data_start l + vl_payload_blocks l * vl_block_size l)) 18446744073709551615); [|nia].
      eexists. split; [done|]. cbn. lia.
Qed.

Lemma measure_predicts_create_witness :
  summary_ok (mkAllocationSummary 1073741824 0 0) /\
  exists l out, compute_layout 1073741824 16 16 false Full = Ok l /\
    measure_qcow2 (mkAllocationSummary 1073741824 0 0) (opts_for l MpOff) = Ok out /\ mo_fully_allocated out = ly_total_file_size l.
Proof.
  assert (summary_ok (mkAllocationSummary 1073741824 0 0)) as Hs by (constructor; cbn; unfold is_u64, u64_max; lia).
  split; [done|]. destruct (measure_predicts_create _ Hs ltac:(cbn; lia)) as [Hq _].
  destruct (compute_layout 1073741824 16 16 false Full) as [l| | |] eqn:Hl; [|vm_compute in Hl; discriminate Hl..].
  destruct (Hq 16 16 false Full l MpOff ltac:(unfold is_u32, u32_max; lia) ltac:(unfold is_u32, u32_max; lia) Hl) as (out & H1 & _ & H2 & _).
  { assert (ly_cluster_size l = 65536) as -> by (vm_compute in Hl; injection Hl as <-; reflexivity). vm_compute. discriminate. }
  exists l, out. split; [done|]. split; [done|]. by apply H2.
Defined.
