(* ===== verification/Resize.v ===== *)
(** * Resizing a qcow2 image in place

    The resize planner ([crates/resize/src/lib.rs] and [crates/resize/src/qcow2.rs]): it
    turns the staged metadata of an image and a new virtual size into an ordered list of
    patches.  Growing keeps the header and, where the L1 table or the refcount structures
    no longer suffice, appends new ones at the end of the file, patches refcount blocks,
    switches the header over and then releases the old tables; shrinking discards the
    clusters above the new end.  All the bytes of a plan live in one scratch buffer, in
    ranges the planner carves front to back. *)

From stdpp Require Import base list.
From Stdlib Require Import ZArith Lia.
From S2P Require Import Prelude Bytes Refcount Qcow2 Create.

(** ** Data *)

Inductive ResizeError : Type :=
| InvalidNewVirtualSize | ShrinkWithoutFlag | ShrinkBelowAllocated | UnsupportedFormat | UnsupportedSubformat
| UnsupportedShrink | RzOverflow | RzScratchTooSmall | RzPreallocationUnsupported | RequiresCheckFirst | HeaderMismatch
| RzParseFailed | BitmapsPresent | FixedVhdx.

Inductive ResizeAction : Type := Grow | Shrink | NoOp.

Inductive ResizePatch : Type :=
| PWrite (byte_offset : Z) (b : bytes)
| PAppend (byte_offset : Z) (b : bytes)
| PZeroFill (byte_offset len : Z).

Definition MAX_RESIZE_PATCHES : Z := 128.

(** The used part of the patch array. *)
Record ResizePlan : Type := mkResizePlan {
  rp_total_file_size : Z;
  rp_action : ResizeAction;
  rp_patches : list ResizePatch
}.

Definition plan_new (action : ResizeAction) (total_file_size : Z) : ResizePlan :=
  {| rp_total_file_size := total_file_size; rp_action := action; rp_patches := [] |}.

Definition plan_push (p : ResizePlan) (patch : ResizePatch) : outcome ResizeError ResizePlan :=
  if MAX_RESIZE_PATCHES <=? Z.of_nat (length (rp_patches p)) then Err RzScratchTooSmall
  else Ok {| rp_total_file_size := rp_total_file_size p; rp_action := rp_action p; rp_patches := rp_patches p ++ [patch] |}.

Inductive RzPreallocation : Type := RzOff | RzMetadata | RzFalloc | RzFull.

Record RawResizeOpts : Type := mkRawResizeOpts {
  rw_current_virtual_size : Z;
  rw_new_virtual_size : Z;
  rw_preallocation : RzPreallocation
}.

Record Qcow2ResizeOpts : Type := mkQcow2ResizeOpts {
  current_virtual_size : Z;
  new_virtual_size : Z;
  rz_cluster_size : Z;
  rz_refcount_bits : Z;
  rz_extended_l2 : bool;
  rz_preallocation : RzPreallocation;
  allow_shrink : bool;
  existing_l1_bytes : bytes;
  existing_refcount_table_bytes : bytes;
  existing_refcount_block_bytes : bytes;
  existing_refcount_block_indices : list Z;
  current_file_size : Z;
  current_l1_entries : Z;
  current_l1_table_offset : Z;
  current_refcount_table_offset : Z;
  current_refcount_table_clusters : Z;
  current_incompatible_features : Z;
  current_autoclear_features : Z;
  rz_backing_file : option bytes;
  rz_backing_format : option bytes;
  rz_lazy_refcounts : bool;
  existing_l2_bytes : bytes;
  existing_l2_indices : list Z
}.

Inductive Qcow2GrowAction : Type := HeaderOnly | L1Grow | L1AndRefcountGrow.

Definition QCOW2_MAX_REQUIRED_BLOCKS : Z := 16.

Record Qcow2GrowQueryResult : Type := mkQcow2GrowQueryResult {
  gq_action : Qcow2GrowAction;
  gq_required_blocks : list Z
}.

(** ** Raw *)

Definition plan_resize_raw (opts : RawResizeOpts) : outcome ResizeError ResizePlan :=
  if rw_new_virtual_size opts =? 0 then Err InvalidNewVirtualSize
  else
  let action :=
    if rw_new_virtual_size opts =? rw_current_virtual_size opts then NoOp
    else if rw_current_virtual_size opts <? rw_new_virtual_size opts then Grow
    else Shrink in
  Ok (plan_new action (rw_new_virtual_size opts)).

(** ** Helpers *)

Definition validate_incompat (features : Z) : outcome ResizeError unit :=
  let KNOWN := Z.lor INCOMPAT_DIRTY (Z.lor INCOMPAT_CORRUPT (Z.lor INCOMPAT_EXTERNAL_DATA
                 (Z.lor INCOMPAT_COMPRESSION INCOMPAT_EXTENDED_L2))) in
  if nonzero (Z.land features (not64 KNOWN)) then Err UnsupportedFormat
  else if nonzero (Z.land features (Z.lor INCOMPAT_EXTERNAL_DATA INCOMPAT_COMPRESSION)) then Err UnsupportedFormat
  else if nonzero (Z.land features (Z.lor INCOMPAT_DIRTY INCOMPAT_CORRUPT)) then Err RequiresCheckFirst
  else Ok tt.

Definition RZ_AUTOCLEAR_BITMAPS_BIT : Z := 1.

Definition validate_no_bitmaps (autoclear_features : Z) : outcome ResizeError unit :=
  if nonzero (Z.land autoclear_features RZ_AUTOCLEAR_BITMAPS_BIT) then Err BitmapsPresent else Ok tt.

Definition cluster_bits_from (cluster_size : Z) : outcome ResizeError Z :=
  if (cluster_size =? 0) || negb (is_power_of_two cluster_size) then Err InvalidNewVirtualSize
  else
  let bits := trailing_zeros cluster_size in
  if negb ((9 <=? bits) && (bits <=? 21)) then Err InvalidNewVirtualSize else Ok bits.

Definition map_qcow2_create_err (e : Qcow2CreateError) : ResizeError :=
  match e with
  | InvalidVirtualSize | InvalidClusterBits | InvalidRefcountBits => InvalidNewVirtualSize
  | Overflow => RzOverflow
  | BufferTooSmall | BackingMetadataTooLarge => RzScratchTooSmall
  | PreallocationUnsupported => RzPreallocationUnsupported
  end.

(** The [while i + 8 <= len] loop; a turn per entry. *)
Fixpoint count_blocks_from (n : nat) (table : bytes) (i count : Z) : outcome ResizeError Z :=
  match n with
  | O => OutOfFuel
  | S n' =>
      if blen table <? i + 8 then Ok count
      else
      let? entry := be_u64 table i in
      count_blocks_from n' table (i + 8) (if nonzero entry then count + 1 else count)
  end.

Definition count_existing_refcount_blocks (table : bytes) : outcome ResizeError Z :=
  count_blocks_from (S (length table)) table 0 0.

Definition block_offset_in_file (table : bytes) (idx : Z) : outcome ResizeError Z :=
  let off := wmul idx 8 in
  if blen table <? wadd off 8 then Err RzScratchTooSmall
  else
  let? entry := be_u64 table off in
  if entry =? 0 then Err HeaderMismatch else Ok entry.

Definition decide_action (current_l1 current_table_clusters current_blocks target_l1 target_table_clusters target_blocks : Z) : Qcow2GrowAction :=
  let l1_grows := current_l1 <? target_l1 in
  let refcount_grows := (current_blocks <? target_blocks) || (current_table_clusters <? target_table_clusters) in
  match l1_grows, refcount_grows with
  | false, false => HeaderOnly
  | true, false => L1Grow
  | _, true => L1AndRefcountGrow
  end.

(** The [loop] that sizes the appended structures. *)
Fixpoint append_loop (fuel : nat) (file_size cluster_size entries_per_refblock new_l1_size_bytes current_rt_clusters
    existing_block_count block_count table_clusters : Z) : outcome ResizeError (Z * Z * Z) :=
  match fuel with
  | O => OutOfFuel
  | S fuel' =>
      let table_grows := current_rt_clusters <? table_clusters in
      let new_table_bytes := if table_grows then wmul table_clusters cluster_size else 0 in
      let new_blocks_delta := sat_sub block_count existing_block_count in
      let new_blocks_bytes := wmul new_blocks_delta cluster_size in
      let total_file_size := wadd (wadd (wadd file_size new_l1_size_bytes) new_table_bytes) new_blocks_bytes in
      let? new_total_clusters := udiv total_file_size cluster_size in
      let needed_block_count := Z.max (div_ceil new_total_clusters entries_per_refblock) (Z.max existing_block_count 1) in
      let needed_table_clusters := Z.max (div_ceil (wmul needed_block_count 8) cluster_size) current_rt_clusters in
      if (needed_block_count =? block_count) && (needed_table_clusters =? table_clusters)
      then Ok (block_count, table_clusters, new_total_clusters)
      else append_loop fuel' file_size cluster_size entries_per_refblock new_l1_size_bytes current_rt_clusters
             existing_block_count needed_block_count needed_table_clusters
  end.

Definition APPEND_FUEL : nat := 64.

Definition compute_append_requirements (file_size cluster_size refcount_bits target_l1_clusters
    refcount_table_clusters existing_block_count : Z) : outcome ResizeError (Z * Z * Z) :=
  let? entries_per_refblock := udiv (wmul cluster_size 8) refcount_bits in
  let new_l1_size_bytes := wmul target_l1_clusters cluster_size in
  let current_rt_clusters := Z.max refcount_table_clusters 1 in
  append_loop APPEND_FUEL file_size cluster_size entries_per_refblock new_l1_size_bytes current_rt_clusters
    existing_block_count (Z.max existing_block_count 1) current_rt_clusters.

(** ** Staging *)

(** The scratch buffer, the next free staging offset, and the slots of a planner. *)
Record Staged (A : Type) : Type := mkStaged { sg_scratch : bytes; sg_next : Z; sg_slots : A }.
Arguments mkStaged {A} _ _ _.
Arguments sg_scratch {A} _.
Arguments sg_next {A} _.
Arguments sg_slots {A} _.

Definition upd_scratch {A} (b : bytes) (s : Staged A) : Staged A := mkStaged b (sg_next s) (sg_slots s).
Definition upd_slots {A} (x : A) (s : Staged A) : Staged A := mkStaged (sg_scratch s) (sg_next s) x.

Section staging.
Context {A : Type} (opts : Qcow2ResizeOpts) (cluster_size : Z).

(** [scratch[off..off + len].copy_from_slice(src)]. *)
Definition scratch_put (off : Z) (src : bytes) : SM (Staged A) ResizeError unit :=
  let! s := sget in
  let! b := slift (or_panic (splice (sg_scratch s) off src)) in
  sput (upd_scratch b s).

(** [&scratch[off..off + len]]. *)
Definition scratch_get (off len : Z) : SM (Staged A) ResizeError bytes :=
  let! s := sget in
  slift (or_panic (slice (sg_scratch s) off (off + len))).

Definition allocate_staging : SM (Staged A) ResizeError Z :=
  let! s := sget in
  let off := sg_next s in
  let e := off + cluster_size in
  if blen (sg_scratch s) <? e then sfail RzScratchTooSmall
  else
  do! sput (mkStaged (sg_scratch s) e (sg_slots s)) in
  sret off.

(** The position of an index in a list. *)
Fixpoint index_of (i : Z) (l : list Z) (x : Z) : option Z :=
  match l with
  | [] => None
  | y :: rest => if y =? x then Some i else index_of (i + 1) rest x
  end.

Definition ensure_block_staged (block_idx off : Z) : SM (Staged A) ResizeError unit :=
  match index_of 0 (existing_refcount_block_indices opts) block_idx with
  | Some i =>
      let src_off := i * cluster_size in
      let src_end := src_off + cluster_size in
      if blen (existing_refcount_block_bytes opts) <? src_end then sfail RzScratchTooSmall
      else
      let! src := slift (or_panic (slice (existing_refcount_block_bytes opts) src_off src_end)) in
      scratch_put off src
  | None => sfail RzScratchTooSmall
  end.

(** [set_refcount(&mut scratch[off..off + cluster_size], local_idx, bits, value)]. *)
Definition set_refcount (off local_idx value : Z) : SM (Staged A) ResizeError unit :=
  let! block := scratch_get off cluster_size in
  let! block' := slift (map_err (fun _ => InvalidNewVirtualSize)
                          (set_refcount_in_block block local_idx (rz_refcount_bits opts) value)) in
  scratch_put off block'.
End staging.

(** *** Slots of the L1-only growth *)

Record BlockSlot : Type := mkBlockSlot {
  bs_block_idx : Z;
  bs_increment_off : Z;
  bs_final_off : Z;
  bs_has_increment : bool;
  bs_has_decrement : bool
}.

Fixpoint find_block_slot (blocks : list BlockSlot) (idx : Z) : option nat :=
  match blocks with
  | [] => None
  | b :: rest => if bs_block_idx b =? idx then Some 0%nat else S <$> find_block_slot rest idx
  end.

Definition MAX_BLOCKS_TOUCHED : Z := 16.

Section block_slots.
Context (opts : Qcow2ResizeOpts) (cluster_size : Z).

Definition push_block (b : BlockSlot) : SM (Staged (list BlockSlot)) ResizeError unit :=
  smod (fun s => upd_slots (sg_slots s ++ [b]) s).

Definition set_block (i : nat) (b : BlockSlot) : SM (Staged (list BlockSlot)) ResizeError unit :=
  smod (fun s => upd_slots (<[i := b]> (sg_slots s)) s).

Definition stage_increment (block_idx local_idx : Z) : SM (Staged (list BlockSlot)) ResizeError unit :=
  let! s := sget in
  match (i ← find_block_slot (sg_slots s) block_idx; b ← sg_slots s !! i; Some (i, b)) with
  | Some (i, b) =>
      if bs_has_increment b then
        do! set_refcount opts cluster_size (bs_increment_off b) local_idx 1 in
        if bs_has_decrement b then set_refcount opts cluster_size (bs_final_off b) local_idx 1 else sret tt
      else
        let! inc_off := allocate_staging cluster_size in
        do! ensure_block_staged opts cluster_size block_idx inc_off in
        do! set_refcount opts cluster_size inc_off local_idx 1 in
        do! set_refcount opts cluster_size (bs_final_off b) local_idx 1 in
        set_block i (mkBlockSlot (bs_block_idx b) inc_off (bs_final_off b) true (bs_has_decrement b))
  | None =>
      if MAX_BLOCKS_TOUCHED <=? Z.of_nat (length (sg_slots s)) then sfail RzScratchTooSmall
      else
      let! off := allocate_staging cluster_size in
      do! ensure_block_staged opts cluster_size block_idx off in
      do! set_refcount opts cluster_size off local_idx 1 in
      push_block (mkBlockSlot block_idx off off true false)
  end.

Definition stage_decrement (block_idx local_idx : Z) : SM (Staged (list BlockSlot)) ResizeError unit :=
  let! s := sget in
  match (i ← find_block_slot (sg_slots s) block_idx; b ← sg_slots s !! i; Some (i, b)) with
  | Some (i, b) =>
      if bs_has_decrement b then set_refcount opts cluster_size (bs_final_off b) local_idx 0
      else
        let! foff := allocate_staging cluster_size in
        let! src := scratch_get (bs_increment_off b) cluster_size in
        do! scratch_put foff src in
        do! set_refcount opts cluster_size foff local_idx 0 in
        set_block i (mkBlockSlot (bs_block_idx b) (bs_increment_off b) foff (bs_has_increment b) true)
  | None =>
      if MAX_BLOCKS_TOUCHED <=? Z.of_nat (length (sg_slots s)) then sfail RzScratchTooSmall
      else
      let! off := allocate_staging cluster_size in
      do! ensure_block_staged opts cluster_size block_idx off in
      do! set_refcount opts cluster_size off local_idx 0 in
      push_block (mkBlockSlot block_idx off off false true)
  end.
End block_slots.

(** [for c in first..first + n]. *)
Fixpoint for_clusters {S} (n : nat) (c : Z) (body : Z -> SM S ResizeError unit) : SM S ResizeError unit :=
  match n with
  | O => sret tt
  | S n' => do! body c in for_clusters n' (c + 1) body
  end.

(** *** The header *)

(** The layout the header is built from; the fields it does not read are zero. *)
Definition header_layout (opts : Qcow2ResizeOpts) (cluster_bits virtual_size l1_entries l1_offset table_offset table_clusters : Z) : Qcow2Layout :=
  let cluster_size := rz_cluster_size opts in
  let l1_size_bytes := wmul l1_entries 8 in
  {| ly_cluster_bits := cluster_bits; ly_cluster_size := cluster_size; ly_virtual_size := virtual_size;
     ly_refcount_bits := rz_refcount_bits opts; ly_extended_l2 := rz_extended_l2 opts; ly_preallocation := Off;
     ly_l1_entries := l1_entries; ly_l1_size_bytes := l1_size_bytes;
     ly_l1_clusters := Z.max (div_ceil l1_size_bytes cluster_size) 1; ly_l1_offset := l1_offset;
     ly_refcount_table_offset := table_offset; ly_refcount_table_clusters := table_clusters;
     ly_refcount_block_count := 0; ly_refcount_blocks_base_offset := 0; ly_l2_clusters := 0; ly_l2_base_offset := 0;
     ly_data_clusters := 0; ly_data_base_offset := 0; ly_total_clusters := 0; ly_total_file_size := 0 |}.

(** [cluster_bits_from(..).expect(..)]. *)
Definition bits_or_panic (opts : Qcow2ResizeOpts) : outcome ResizeError Z :=
  match cluster_bits_from (rz_cluster_size opts) with Ok b => Ok b | _ => Panic end.

Definition synthetic_current_layout (opts : Qcow2ResizeOpts) (new_size : Z) : outcome ResizeError Qcow2Layout :=
  let? bits := bits_or_panic opts in
  Ok (header_layout opts bits new_size (current_l1_entries opts) (current_l1_table_offset opts)
        (current_refcount_table_offset opts) (current_refcount_table_clusters opts)).

Definition synthetic_layout_after_l1_grow (opts : Qcow2ResizeOpts) (new_size new_l1_entries new_l1_offset : Z) : outcome ResizeError Qcow2Layout :=
  let? bits := bits_or_panic opts in
  Ok (header_layout opts bits new_size new_l1_entries new_l1_offset
        (current_refcount_table_offset opts) (current_refcount_table_clusters opts)).

Definition resize_header (opts : Qcow2ResizeOpts) (l : Qcow2Layout) : BuildHeaderOptions :=
  {| bh_layout := l; bh_backing_file := rz_backing_file opts; bh_backing_format := rz_backing_format opts;
     bh_lazy_refcounts := rz_lazy_refcounts opts; bh_luks_header := None |}.

(** Building the header at the front of the scratch buffer; the length of the bytes. *)
Definition put_header {A} (opts : Qcow2ResizeOpts) (l : Qcow2Layout) : SM (Staged A) ResizeError Z :=
  let! header_buf := scratch_get 0 (rz_cluster_size opts) in
  let! h := slift (map_err map_qcow2_create_err (build_header header_buf (resize_header opts l))) in
  do! scratch_put 0 h in
  sret (blen h).

Definition plan_header_only (opts : Qcow2ResizeOpts) : SM (Staged unit) ResizeError ResizePlan :=
  let! s := sget in
  if blen (sg_scratch s) <? rz_cluster_size opts then sfail RzScratchTooSmall
  else
  let! l := slift (synthetic_current_layout opts (new_virtual_size opts)) in
  let! len := put_header opts l in
  let! header_bytes := scratch_get 0 len in
  slift (plan_push (plan_new Grow (current_file_size opts)) (PWrite 0 header_bytes)).

(** The new L1 region: the old entries and zeros. *)
Definition put_l1 {A} (opts : Qcow2ResizeOpts) (l1_off region_bytes : Z) : SM (Staged A) ResizeError unit :=
  let copy_len := Z.min (blen (existing_l1_bytes opts)) (wmul (current_l1_entries opts) 8) in
  do! scratch_put l1_off (filled region_bytes 0) in
  let! src := slift (or_panic (slice (existing_l1_bytes opts) 0 copy_len)) in
  let! l1_buf := scratch_get l1_off region_bytes in
  let! l1_buf' := slift (or_panic (splice l1_buf 0 src)) in
  scratch_put l1_off l1_buf'.

(** The loop that pushes the patches of the slots that are selected. *)
Fixpoint push_slots {A} (opts : Qcow2ResizeOpts) (scratch : bytes) (idx off : A -> Z) (sel : A -> bool) (slots : list A)
    (plan : ResizePlan) : outcome ResizeError ResizePlan :=
  match slots with
  | [] => Ok plan
  | b :: rest =>
      if sel b then
        let? file_off := block_offset_in_file (existing_refcount_table_bytes opts) (idx b) in
        let? src := or_panic (slice scratch (off b) (off b + rz_cluster_size opts)) in
        let? plan := plan_push plan (PWrite file_off src) in
        push_slots opts scratch idx off sel rest plan
      else push_slots opts scratch idx off sel rest plan
  end.

(** ** Growing the L1 table *)

(** The clusters of an L1 table of so many entries. *)
Definition l1_clusters_of (entries cluster_size : Z) : Z := Z.max (div_ceil (wmul entries 8) cluster_size) 1.

Definition plan_l1_grow (opts : Qcow2ResizeOpts) (target_layout : Qcow2Layout) : SM (Staged (list BlockSlot)) ResizeError ResizePlan :=
  let cluster_size := rz_cluster_size opts in
  let new_l1_entries := ly_l1_entries target_layout in
  let new_l1_clusters := l1_clusters_of new_l1_entries cluster_size in
  let new_l1_region_bytes := wmul new_l1_clusters cluster_size in
  let new_l1_first_cluster := current_file_size opts / cluster_size in
  let old_l1_first_cluster := current_l1_table_offset opts / cluster_size in
  let old_l1_clusters := l1_clusters_of (current_l1_entries opts) cluster_size in
  let! entries_per_refblock := slift (udiv (wmul cluster_size 8) (rz_refcount_bits opts)) in
  let l1_off := cluster_size in
  let l1_end := l1_off + new_l1_region_bytes in
  let! s := sget in
  if blen (sg_scratch s) <? l1_end then sfail RzScratchTooSmall
  else
  do! put_l1 opts l1_off new_l1_region_bytes in
  do! smod (fun s => mkStaged (sg_scratch s) l1_end []) in
  do! for_clusters (Z.to_nat new_l1_clusters) new_l1_first_cluster (fun c =>
        stage_increment opts cluster_size (c / entries_per_refblock) (c mod entries_per_refblock)) in
  do! for_clusters (Z.to_nat old_l1_clusters) old_l1_first_cluster (fun c =>
        stage_decrement opts cluster_size (c / entries_per_refblock) (c mod entries_per_refblock)) in
  let! header_layout := slift (synthetic_layout_after_l1_grow opts (new_virtual_size opts) new_l1_entries (current_file_size opts)) in
  let! header_bytes_len := put_header opts header_layout in
  let total_file_size := wadd (current_file_size opts) new_l1_region_bytes in
  let! s := sget in
  let scratch := sg_scratch s in
  slift
    (let? l1_bytes := or_panic (slice scratch l1_off l1_end) in
     let? plan := plan_push (plan_new Grow total_file_size) (PAppend (current_file_size opts) l1_bytes) in
     let? plan := push_slots opts scratch bs_block_idx bs_increment_off bs_has_increment (sg_slots s) plan in
     let? header_bytes := or_panic (slice scratch 0 header_bytes_len) in
     let? plan := plan_push plan (PWrite 0 header_bytes) in
     push_slots opts scratch bs_block_idx bs_final_off bs_has_decrement (sg_slots s) plan).

(** ** Growing the L1 table and the refcount structures *)

(** Slots of (block index, scratch offset). *)
Fixpoint find_slot_off (slots : list (Z * Z)) (idx : Z) : option Z :=
  match slots with
  | [] => None
  | (i, off) :: rest => if i =? idx then Some off else find_slot_off rest idx
  end.

Definition MAX_OVERLAP_BLOCKS : Z := 4.
Definition MAX_CLEANUP_BLOCKS : Z := 8.
Definition MAX_DISCARD_REFBLOCKS : Z := 64.

(** The overlap and cleanup slots of a refcount growth. *)
Record GrowSlots : Type := mkGrowSlots { gs_overlap : list (Z * Z); gs_cleanup : list (Z * Z) }.

Section grow_slots.
Context (opts : Qcow2ResizeOpts) (cluster_size entries_per_refblock : Z).

(** The body of the overlap loop. *)
Definition stage_overlap (c : Z) : SM (Staged GrowSlots) ResizeError unit :=
  let block_idx := c / entries_per_refblock in
  let local_idx := c mod entries_per_refblock in
  let! s := sget in
  let! off :=
    match find_slot_off (gs_overlap (sg_slots s)) block_idx with
    | Some off => sret off
    | None =>
        if MAX_OVERLAP_BLOCKS <=? Z.of_nat (length (gs_overlap (sg_slots s))) then sfail RzScratchTooSmall
        else
        let! new_off := allocate_staging cluster_size in
        do! ensure_block_staged opts cluster_size block_idx new_off in
        do! smod (fun s => upd_slots (mkGrowSlots (gs_overlap (sg_slots s) ++ [(block_idx, new_off)]) (gs_cleanup (sg_slots s))) s) in
        sret new_off
    end in
  set_refcount opts cluster_size off local_idx 1.

Definition stage_cleanup_decrement (c : Z) : SM (Staged GrowSlots) ResizeError unit :=
  let block_idx := c / entries_per_refblock in
  let local_idx := c mod entries_per_refblock in
  let! s := sget in
  let! off :=
    match find_slot_off (gs_cleanup (sg_slots s)) block_idx with
    | Some off => sret off
    | None =>
        if MAX_CLEANUP_BLOCKS <=? Z.of_nat (length (gs_cleanup (sg_slots s))) then sfail RzScratchTooSmall
        else
        let! new_off := allocate_staging cluster_size in
        do! match find_slot_off (gs_overlap (sg_slots s)) block_idx with
            | Some src_off => let! src := scratch_get src_off cluster_size in scratch_put new_off src
            | None => ensure_block_staged opts cluster_size block_idx new_off
            end in
        do! smod (fun s => upd_slots (mkGrowSlots (gs_overlap (sg_slots s)) (gs_cleanup (sg_slots s) ++ [(block_idx, new_off)])) s) in
        sret new_off
    end in
  set_refcount opts cluster_size off local_idx 0.
End grow_slots.

(** The entries of the new blocks in the refcount table. *)
Fixpoint table_entries (n : nat) (i existing_block_count blocks_offset cluster_size : Z) (table : bytes) : outcome ResizeError bytes :=
  match n with
  | O => Ok table
  | S n' =>
      let entry_off := wmul (wadd existing_block_count i) 8 in
      if blen table <? entry_off + 8 then Err RzScratchTooSmall
      else
      let? table := write_be_u64 table entry_off (wadd blocks_offset (wmul i cluster_size)) in
      table_entries n' (i + 1) existing_block_count blocks_offset cluster_size table
  end.

(** The refcounts of one new block: 1 below the end of the file. *)
Fixpoint block_entries (n : nat) (j first_cluster new_total_clusters refcount_bits : Z) (block : bytes) : outcome ResizeError bytes :=
  match n with
  | O => Ok block
  | S n' =>
      let? block :=
        if first_cluster + j <? new_total_clusters
        then map_err (fun _ => InvalidNewVirtualSize) (set_refcount_in_block block j refcount_bits 1)
        else Ok block in
      block_entries n' (j + 1) first_cluster new_total_clusters refcount_bits block
  end.

Fixpoint new_blocks (n : nat) (i existing_block_count entries_per_refblock new_total_clusters refcount_bits cluster_size : Z) (blocks : bytes)
  : outcome ResizeError bytes :=
  match n with
  | O => Ok blocks
  | S n' =>
      let? block := or_panic (slice blocks (i * cluster_size) ((i + 1) * cluster_size)) in
      let first_cluster := wmul (wadd existing_block_count i) entries_per_refblock in
      let? block := block_entries (Z.to_nat entries_per_refblock) 0 first_cluster new_total_clusters refcount_bits block in
      let? blocks := or_panic (splice blocks (i * cluster_size) block) in
      new_blocks n' (i + 1) existing_block_count entries_per_refblock new_total_clusters refcount_bits cluster_size blocks
  end.

(** Where the appended regions go. *)
Record AppendLayout : Type := mkAppendLayout {
  al_l1_clusters : Z;
  al_l1_bytes : Z;
  al_table_clusters : Z;
  al_delta : Z;
  al_relocates : bool;
  al_in_place : bool;
  al_l1_offset : Z;
  al_table_offset : Z;
  al_table_bytes : Z;
  al_blocks_offset : Z;
  al_blocks_bytes : Z;
  al_total : Z;
  al_effective_table_offset : Z
}.

Definition append_layout (opts : Qcow2ResizeOpts) (target_layout : Qcow2Layout) (existing_block_count : Z) : outcome ResizeError AppendLayout :=
  let cluster_size := rz_cluster_size opts in
  let new_l1_clusters := l1_clusters_of (ly_l1_entries target_layout) cluster_size in
  let new_l1_size_bytes := wmul new_l1_clusters cluster_size in
  let current_rt_clusters := current_refcount_table_clusters opts in
  let? (effective_block_count, effective_table_clusters, _) :=
    compute_append_requirements (current_file_size opts) cluster_size (rz_refcount_bits opts) new_l1_clusters
      current_rt_clusters existing_block_count in
  let new_block_count_delta := sat_sub effective_block_count existing_block_count in
  let table_relocates := current_rt_clusters <? effective_table_clusters in
  let table_updates_in_place := negb table_relocates && (0 <? new_block_count_delta) in
  let new_l1_offset := current_file_size opts in
  let new_refcount_table_offset := wadd new_l1_offset new_l1_size_bytes in
  let new_refcount_table_size_bytes := if table_relocates then wmul effective_table_clusters cluster_size else 0 in
  let new_refcount_blocks_offset := wadd new_refcount_table_offset new_refcount_table_size_bytes in
  let new_refcount_blocks_size_bytes := wmul new_block_count_delta cluster_size in
  Ok {| al_l1_clusters := new_l1_clusters; al_l1_bytes := new_l1_size_bytes; al_table_clusters := effective_table_clusters;
        al_delta := new_block_count_delta; al_relocates := table_relocates; al_in_place := table_updates_in_place;
        al_l1_offset := new_l1_offset; al_table_offset := new_refcount_table_offset;
        al_table_bytes := new_refcount_table_size_bytes; al_blocks_offset := new_refcount_blocks_offset;
        al_blocks_bytes := new_refcount_blocks_size_bytes;
        al_total := wadd new_refcount_blocks_offset new_refcount_blocks_size_bytes;
        al_effective_table_offset := if table_relocates then new_refcount_table_offset else current_refcount_table_offset opts |}.

(** The refcount table region, staged where it is written at all. *)
Definition put_table (opts : Qcow2ResizeOpts) (al : AppendLayout) (existing_block_count table_off staging_bytes : Z)
  : SM (Staged GrowSlots) ResizeError unit :=
  do! scratch_put table_off (filled staging_bytes 0) in
  let! table_buf := scratch_get table_off staging_bytes in
  let copy_len := Z.min (blen (existing_refcount_table_bytes opts)) (blen table_buf) in
  let! src := slift (or_panic (slice (existing_refcount_table_bytes opts) 0 copy_len)) in
  let! table_buf := slift (or_panic (splice table_buf 0 src)) in
  let! table_buf := slift (table_entries (Z.to_nat (al_delta al)) 0 existing_block_count (al_blocks_offset al) (rz_cluster_size opts) table_buf) in
  scratch_put table_off table_buf.

Definition push_if (b : bool) (patch : outcome ResizeError ResizePatch) (plan : ResizePlan) : outcome ResizeError ResizePlan :=
  if b then let? x := patch in plan_push plan x else Ok plan.

Definition plan_l1_and_refcount_grow (opts : Qcow2ResizeOpts) (target_layout : Qcow2Layout) (existing_block_count : Z)
  : SM (Staged GrowSlots) ResizeError ResizePlan :=
  let cluster_size := rz_cluster_size opts in
  let! entries_per_refblock := slift (udiv (wmul cluster_size 8) (rz_refcount_bits opts)) in
  let! al := slift (append_layout opts target_layout existing_block_count) in
  let! new_total_clusters := slift (udiv (al_total al) cluster_size) in
  let rt_staging_bytes := if al_relocates al || al_in_place al then wmul (al_table_clusters al) cluster_size else 0 in
  let l1_off := cluster_size in
  let l1_end := wadd l1_off (al_l1_bytes al) in
  let table_off := l1_end in
  let table_end := wadd table_off rt_staging_bytes in
  let blocks_off := table_end in
  let blocks_end := wadd blocks_off (al_blocks_bytes al) in
  let! s := sget in
  if blen (sg_scratch s) <? blocks_end then sfail RzScratchTooSmall
  else
  do! put_l1 opts l1_off (al_l1_bytes al) in
  do! (if al_relocates al || al_in_place al then put_table opts al existing_block_count table_off rt_staging_bytes else sret tt) in
  do! scratch_put blocks_off (filled (al_blocks_bytes al) 0) in
  let! blocks_buf := scratch_get blocks_off (al_blocks_bytes al) in
  let! blocks_buf := slift (new_blocks (Z.to_nat (al_delta al)) 0 existing_block_count entries_per_refblock new_total_clusters
                              (rz_refcount_bits opts) cluster_size blocks_buf) in
  do! scratch_put blocks_off blocks_buf in
  let! bits := slift (bits_or_panic opts) in
  let! header_bytes_len := put_header opts (header_layout opts bits (new_virtual_size opts) (ly_l1_entries target_layout)
                             (al_l1_offset al) (al_effective_table_offset al) (al_table_clusters al)) in
  do! smod (fun s => mkStaged (sg_scratch s) blocks_end (mkGrowSlots [] [])) in
  let overlap_first := current_file_size opts / cluster_size in
  let overlap_last_excl := Z.min (wmul existing_block_count entries_per_refblock) new_total_clusters in
  do! for_clusters (Z.to_nat (overlap_last_excl - overlap_first)) overlap_first (stage_overlap opts cluster_size entries_per_refblock) in
  let old_l1_first := current_l1_table_offset opts / cluster_size in
  let old_l1_clusters := l1_clusters_of (current_l1_entries opts) cluster_size in
  do! for_clusters (Z.to_nat old_l1_clusters) old_l1_first (stage_cleanup_decrement opts cluster_size entries_per_refblock) in
  do! (if al_relocates al then
         for_clusters (Z.to_nat (current_refcount_table_clusters opts)) (current_refcount_table_offset opts / cluster_size)
           (stage_cleanup_decrement opts cluster_size entries_per_refblock)
       else sret tt) in
  let! s := sget in
  let scratch := sg_scratch s in
  slift
    (let? l1_bytes := or_panic (slice scratch l1_off l1_end) in
     let? plan := plan_push (plan_new Grow (al_total al)) (PAppend (al_l1_offset al) l1_bytes) in
     let? plan := push_if (al_relocates al)
                    (let? b := or_panic (slice scratch table_off table_end) in Ok (PAppend (al_table_offset al) b)) plan in
     let? plan := push_if (0 <? al_delta al)
                    (let? b := or_panic (slice scratch blocks_off blocks_end) in Ok (PAppend (al_blocks_offset al) b)) plan in
     let? plan := push_if (al_in_place al)
                    (let? b := or_panic (slice scratch table_off table_end) in Ok (PWrite (current_refcount_table_offset opts) b)) plan in
     let? plan := push_slots opts scratch fst snd (fun _ => true) (gs_overlap (sg_slots s)) plan in
     let? header_bytes := or_panic (slice scratch 0 header_bytes_len) in
     let? plan := plan_push plan (PWrite 0 header_bytes) in
     push_slots opts scratch fst snd (fun _ => true) (gs_cleanup (sg_slots s)) plan).

(** ** Shrinking *)

Definition lookup_l2 (opts : Qcow2ResizeOpts) (l1_index cluster_size : Z) : outcome ResizeError bytes :=
  match index_of 0 (existing_l2_indices opts) l1_index with
  | Some i =>
      let off := i * cluster_size in
      let e := off + cluster_size in
      if blen (existing_l2_bytes opts) <? e then Err RzScratchTooSmall
      else or_panic (slice (existing_l2_bytes opts) off e)
  | None => Err RzScratchTooSmall
  end.

Section discard.
Context (opts : Qcow2ResizeOpts) (cluster_size entries_per_refblock l2_entry_size : Z).

(** The closure [decrement_cluster]. *)
Definition decrement_cluster (host_offset : Z) : SM (Staged (list (Z * Z))) ResizeError unit :=
  let cluster_idx := host_offset / cluster_size in
  let block_idx := cluster_idx / entries_per_refblock in
  let local_idx := cluster_idx mod entries_per_refblock in
  let! s := sget in
  let! off :=
    match find_slot_off (sg_slots s) block_idx with
    | Some off => sret off
    | None =>
        if MAX_DISCARD_REFBLOCKS <=? Z.of_nat (length (sg_slots s)) then sfail RzScratchTooSmall
        else
        let! new_off := allocate_staging cluster_size in
        do! ensure_block_staged opts cluster_size block_idx new_off in
        do! smod (fun s => upd_slots (sg_slots s ++ [(block_idx, new_off)]) s) in
        sret new_off
    end in
  set_refcount opts cluster_size off local_idx 0.

(** With a boundary, only the entries whose guest offset is past it. *)
Fixpoint walk_l2_for_discard (n : nat) (j : Z) (l2_bytes : bytes) (boundary : option (Z * Z)) : SM (Staged (list (Z * Z))) ResizeError unit :=
  match n with
  | O => sret tt
  | S n' =>
      let entry_off := j * l2_entry_size in
      if blen l2_bytes <? entry_off + 8 then sfail RzScratchTooSmall
      else
      let! l2e := slift (be_u64 l2_bytes entry_off) in
      let below := match boundary with
                   | Some (base_virtual, new_size) => wadd base_virtual (wmul j cluster_size) <? new_size
                   | None => false
                   end in
      do! (if l2e =? 0 then sret tt
           else if below then sret tt
           else if negb (allow_shrink opts) then sfail ShrinkBelowAllocated
           else decrement_cluster (Z.land l2e L2_OFFSET_MASK)) in
      walk_l2_for_discard n' (j + 1) l2_bytes boundary
  end.

(** The L1 entries wholly above the new size. *)
Fixpoint discard_l1 (n : nat) (i l1_off l1_len entries_per_l2 : Z) : SM (Staged (list (Z * Z))) ResizeError unit :=
  match n with
  | O => sret tt
  | S n' =>
      let! l1_entry := slift (be_u64 (existing_l1_bytes opts) (i * 8)) in
      do! (if l1_entry =? 0 then sret tt
           else
           let l2_host := Z.land l1_entry L2_OFFSET_MASK in
           let! l2_bytes := slift (lookup_l2 opts i cluster_size) in
           do! walk_l2_for_discard (Z.to_nat entries_per_l2) 0 l2_bytes None in
           do! decrement_cluster l2_host in
           let! l1_buf := scratch_get l1_off l1_len in
           let! l1_buf := slift (write_be_u64 l1_buf (i * 8) 0) in
           scratch_put l1_off l1_buf) in
      discard_l1 n' (i + 1) l1_off l1_len entries_per_l2
  end.

(** Zeroing an entry of the staged straddling table. *)
Definition zero_entry (staged_off entry_off : Z) : SM (Staged (list (Z * Z))) ResizeError unit :=
  let! staged := scratch_get staged_off cluster_size in
  let! staged := slift (write_be_u64 staged entry_off 0) in
  let! staged := slift (if l2_entry_size =? 16 then write_be_u64 staged (entry_off + 8) 0 else Ok staged) in
  scratch_put staged_off staged.

(** The entries of the straddling table; whether one was zeroed. *)
Fixpoint straddle_entries (n : nat) (j base_virtual new_size staged_off : Z) (l2_bytes : bytes) (emit : bool)
  : SM (Staged (list (Z * Z))) ResizeError bool :=
  match n with
  | O => sret emit
  | S n' =>
      let entry_off := j * l2_entry_size in
      let! l2e := slift (be_u64 l2_bytes entry_off) in
      let v_start := wadd base_virtual (wmul j cluster_size) in
      let! emit :=
        if v_start <? new_size then sret emit
        else if l2e =? 0 then
          do! zero_entry staged_off entry_off in sret true
        else
          do! decrement_cluster (Z.land l2e L2_OFFSET_MASK) in
          do! zero_entry staged_off entry_off in
          sret true in
      straddle_entries n' (j + 1) base_virtual new_size staged_off l2_bytes emit
  end.
End discard.

(** [.any(|i| be_u64(existing_l1_bytes, i * 8) != 0)]. *)
Fixpoint any_l1 (n : nat) (i : Z) (l1 : bytes) : outcome ResizeError bool :=
  match n with
  | O => Ok false
  | S n' => let? e := be_u64 l1 (i * 8) in if nonzero e then Ok true else any_l1 n' (i + 1) l1
  end.

Definition plan_shrink (opts : Qcow2ResizeOpts) : SM (Staged (list (Z * Z))) ResizeError ResizePlan :=
  let cluster_size := rz_cluster_size opts in
  let! cluster_bits := slift (cluster_bits_from cluster_size) in
  let new_size := new_virtual_size opts / cluster_size * cluster_size in
  if new_size <? cluster_size then sfail InvalidNewVirtualSize
  else
  let l2_entry_size := if rz_extended_l2 opts then 16 else 8 in
  let entries_per_l2 := cluster_size / l2_entry_size in
  let l2_coverage := wmul cluster_size entries_per_l2 in
  let! entries_per_refblock := slift (udiv (wmul cluster_size 8) (rz_refcount_bits opts)) in
  let first_discarded_l1_idx := as_u32 (div_ceil new_size l2_coverage) in
  let straddle_l1_idx := if is_multiple_of new_size l2_coverage then None else Some (as_u32 (new_size / l2_coverage)) in
  let old_l1_clusters := l1_clusters_of (current_l1_entries opts) cluster_size in
  let l1_region_bytes := wmul old_l1_clusters cluster_size in
  let l1_off := cluster_size in
  let l1_end := l1_off + l1_region_bytes in
  let straddle_l2_off := l1_end in
  let straddle_l2_end := straddle_l2_off + cluster_size in
  let! s := sget in
  if blen (sg_scratch s) <? straddle_l2_end then sfail RzScratchTooSmall
  else
  do! smod (fun s => mkStaged (sg_scratch s) straddle_l2_end []) in
  do! put_l1 opts l1_off l1_region_bytes in
  let discarded := Z.to_nat (current_l1_entries opts - first_discarded_l1_idx) in
  do! discard_l1 opts cluster_size entries_per_refblock l2_entry_size discarded first_discarded_l1_idx l1_off l1_region_bytes entries_per_l2 in
  let! straddle_emit :=
    match straddle_l1_idx with
    | None => sret false
    | Some i =>
        let! l1_entry := slift (be_u64 (existing_l1_bytes opts) (i * 8)) in
        if l1_entry =? 0 then sret false
        else
        let! l2_bytes := slift (lookup_l2 opts i cluster_size) in
        do! scratch_put straddle_l2_off l2_bytes in
        straddle_entries opts cluster_size entries_per_refblock l2_entry_size (Z.to_nat entries_per_l2) 0
          (wmul i l2_coverage) new_size straddle_l2_off l2_bytes false
    end in
  let! header_bytes_len := put_header opts (header_layout opts cluster_bits new_size (current_l1_entries opts)
                             (current_l1_table_offset opts) (current_refcount_table_offset opts) (current_refcount_table_clusters opts)) in
  let! s := sget in
  let scratch := sg_scratch s in
  slift
    (let? plan := match straddle_emit, straddle_l1_idx with
                  | true, Some i =>
                      let? l1_entry := be_u64 (existing_l1_bytes opts) (i * 8) in
                      let? b := or_panic (slice scratch straddle_l2_off straddle_l2_end) in
                      plan_push (plan_new Shrink (current_file_size opts)) (PWrite (Z.land l1_entry L2_OFFSET_MASK) b)
                  | _, _ => Ok (plan_new Shrink (current_file_size opts))
                  end in
     let? l1_changed := if first_discarded_l1_idx <? current_l1_entries opts
                        then any_l1 discarded first_discarded_l1_idx (existing_l1_bytes opts) else Ok false in
     let? plan := push_if l1_changed
                    (let? b := or_panic (slice scratch l1_off l1_end) in Ok (PWrite (current_l1_table_offset opts) b)) plan in
     let? plan := push_slots opts scratch fst snd (fun _ => true) (sg_slots s) plan in
     let? header_bytes := or_panic (slice scratch 0 header_bytes_len) in
     plan_push plan (PWrite 0 header_bytes)).

(** ** The pre-pass query *)

Record Qcow2ResizeGrowQuery : Type := mkQcow2ResizeGrowQuery {
  q_cluster_size : Z;
  q_refcount_bits : Z;
  q_extended_l2 : bool;
  q_current_virtual_size : Z;
  q_new_virtual_size : Z;
  q_current_file_size : Z;
  q_current_l1_entries : Z;
  q_current_l1_table_offset : Z;
  q_current_refcount_table_offset : Z;
  q_current_refcount_table_clusters : Z;
  q_current_incompatible_features : Z;
  q_current_autoclear_features : Z;
  q_preallocation : RzPreallocation;
  q_allow_shrink : bool;
  q_existing_refcount_table_bytes : bytes
}.

(** [RequiredBlocks::add]: distinct indices, in order, at most sixteen. *)
Definition required_add (block_idx : Z) : SM (list Z) ResizeError unit :=
  let! l := sget in
  if existsb (Z.eqb block_idx) l then sret tt
  else if QCOW2_MAX_REQUIRED_BLOCKS <=? Z.of_nat (length l) then sfail RzScratchTooSmall
  else sput (l ++ [block_idx]).

Section query.
Context (q : Qcow2ResizeGrowQuery) (target_l1_entries entries_per_refblock : Z).

Definition add_l1_growth_blocks : SM (list Z) ResizeError unit :=
  let cluster_size := q_cluster_size q in
  let new_l1_clusters := l1_clusters_of target_l1_entries cluster_size in
  let new_l1_first_cluster := q_current_file_size q / cluster_size in
  let old_l1_first_cluster := q_current_l1_table_offset q / cluster_size in
  let old_l1_clusters := l1_clusters_of (q_current_l1_entries q) cluster_size in
  do! for_clusters (Z.to_nat new_l1_clusters) new_l1_first_cluster (fun c => required_add (c / entries_per_refblock)) in
  for_clusters (Z.to_nat old_l1_clusters) old_l1_first_cluster (fun c => required_add (c / entries_per_refblock)).

Definition add_l1_and_refcount_growth_blocks (existing_block_count : Z) : SM (list Z) ResizeError unit :=
  let cluster_size := q_cluster_size q in
  let new_l1_clusters := l1_clusters_of target_l1_entries cluster_size in
  let new_l1_offset := q_current_file_size q in
  let current_rt_clusters := q_current_refcount_table_clusters q in
  let! (effective_block_count, effective_table_clusters, _) :=
    slift (compute_append_requirements (q_current_file_size q) cluster_size (q_refcount_bits q) new_l1_clusters
             current_rt_clusters existing_block_count) in
  let table_relocates := current_rt_clusters <? effective_table_clusters in
  let new_refcount_table_offset := wadd new_l1_offset (wmul new_l1_clusters cluster_size) in
  let new_refcount_table_size := if table_relocates then wmul effective_table_clusters cluster_size else 0 in
  let new_refcount_blocks_offset := wadd new_refcount_table_offset new_refcount_table_size in
  let new_block_count_delta := sat_sub effective_block_count existing_block_count in
  let total_file_size := wadd new_refcount_blocks_offset (wmul new_block_count_delta cluster_size) in
  let new_total_clusters := total_file_size / cluster_size in
  let overlap_first := q_current_file_size q / cluster_size in
  let overlap_last_excl := Z.min (wmul existing_block_count entries_per_refblock) new_total_clusters in
  do! for_clusters (Z.to_nat (overlap_last_excl - overlap_first)) overlap_first (fun c => required_add (c / entries_per_refblock)) in
  let old_l1_first := q_current_l1_table_offset q / cluster_size in
  let old_l1_clusters := l1_clusters_of (q_current_l1_entries q) cluster_size in
  do! for_clusters (Z.to_nat old_l1_clusters) old_l1_first (fun c => required_add (c / entries_per_refblock)) in
  if table_relocates then
    for_clusters (Z.to_nat (q_current_refcount_table_clusters q)) (q_current_refcount_table_offset q / cluster_size)
      (fun c => required_add (c / entries_per_refblock))
  else sret tt.
End query.

Definition prealloc_is (p q : RzPreallocation) : bool :=
  match p, q with
  | RzOff, RzOff | RzMetadata, RzMetadata | RzFalloc, RzFalloc | RzFull, RzFull => true
  | _, _ => false
  end.

(** [checked_next_multiple_of]. *)
Definition aligned_file_size (file_size cluster_size : Z) : outcome ResizeError Z :=
  ok_or (checked_next_multiple_of file_size cluster_size) HeaderMismatch.

(** The effective refcount requirements of a growth. *)
Definition effective_requirements (target : Qcow2Layout) (file_size cluster_size refcount_bits current_l1 current_table existing : Z)
  : outcome ResizeError (Z * Z) :=
  if current_l1 <? ly_l1_entries target then
    let? (bc, tc, _) := compute_append_requirements file_size cluster_size refcount_bits
                          (l1_clusters_of (ly_l1_entries target) cluster_size) current_table existing in
    Ok (bc, tc)
  else Ok (ly_refcount_block_count target, ly_refcount_table_clusters target).

Definition compute_grow_query (q0 : Qcow2ResizeGrowQuery) : outcome ResizeError Qcow2GrowQueryResult :=
  if q_new_virtual_size q0 =? 0 then Err InvalidNewVirtualSize
  else
  let? _ := validate_incompat (q_current_incompatible_features q0) in
  let? _ := validate_no_bitmaps (q_current_autoclear_features q0) in
  if q_new_virtual_size q0 <? q_current_virtual_size q0 then
    if negb (q_allow_shrink q0) then Err ShrinkWithoutFlag else Err UnsupportedShrink
  else if prealloc_is (q_preallocation q0) RzMetadata then Err RzPreallocationUnsupported
  else if q_extended_l2 q0 && negb (prealloc_is (q_preallocation q0) RzOff) then Err RzPreallocationUnsupported
  else
  let? cluster_bits := cluster_bits_from (q_cluster_size q0) in
  let cluster_size := q_cluster_size q0 in
  let? file_size := aligned_file_size (q_current_file_size q0) cluster_size in
  let q := mkQcow2ResizeGrowQuery (q_cluster_size q0) (q_refcount_bits q0) (q_extended_l2 q0) (q_current_virtual_size q0)
             (q_new_virtual_size q0) file_size (q_current_l1_entries q0) (q_current_l1_table_offset q0)
             (q_current_refcount_table_offset q0) (q_current_refcount_table_clusters q0) (q_current_incompatible_features q0)
             (q_current_autoclear_features q0) (q_preallocation q0) (q_allow_shrink q0) (q_existing_refcount_table_bytes q0) in
  if q_new_virtual_size q =? q_current_virtual_size q then Ok (mkQcow2GrowQueryResult HeaderOnly [])
  else
  let? target := map_err map_qcow2_create_err
                   (compute_layout (q_new_virtual_size q) cluster_bits (q_refcount_bits q) (q_extended_l2 q) Off) in
  let? existing := count_existing_refcount_blocks (q_existing_refcount_table_bytes q) in
  let? (blocks, table) := effective_requirements target (q_current_file_size q) cluster_size (q_refcount_bits q)
                            (q_current_l1_entries q) (q_current_refcount_table_clusters q) existing in
  let action := decide_action (q_current_l1_entries q) (q_current_refcount_table_clusters q) existing
                  (ly_l1_entries target) table blocks in
  let? entries_per_refblock := udiv (wmul cluster_size 8) (q_refcount_bits q) in
  let '(r, required) :=
    match action with
    | HeaderOnly => (Ok tt, [])
    | L1Grow => add_l1_growth_blocks q (ly_l1_entries target) entries_per_refblock []
    | L1AndRefcountGrow => add_l1_and_refcount_growth_blocks q (ly_l1_entries target) entries_per_refblock existing []
    end in
  let? _ := r in
  Ok (mkQcow2GrowQueryResult action required).

(** ** The entry point *)

Definition with_file_size (opts : Qcow2ResizeOpts) (n : Z) : Qcow2ResizeOpts :=
  mkQcow2ResizeOpts (current_virtual_size opts) (new_virtual_size opts) (rz_cluster_size opts) (rz_refcount_bits opts)
    (rz_extended_l2 opts) (rz_preallocation opts) (allow_shrink opts) (existing_l1_bytes opts)
    (existing_refcount_table_bytes opts) (existing_refcount_block_bytes opts) (existing_refcount_block_indices opts) n
    (current_l1_entries opts) (current_l1_table_offset opts) (current_refcount_table_offset opts)
    (current_refcount_table_clusters opts) (current_incompatible_features opts) (current_autoclear_features opts)
    (rz_backing_file opts) (rz_backing_format opts) (rz_lazy_refcounts opts) (existing_l2_bytes opts) (existing_l2_indices opts).

Definition run_planner {A} (m : SM (Staged A) ResizeError ResizePlan) (slots : A) (scratch : bytes) : outcome ResizeError ResizePlan :=
  (m (mkStaged scratch 0 slots)).1.

Definition plan_grow (opts : Qcow2ResizeOpts) (scratch : bytes) : outcome ResizeError ResizePlan :=
  if new_virtual_size opts =? 0 then Err InvalidNewVirtualSize
  else
  let? _ := validate_incompat (current_incompatible_features opts) in
  let? _ := validate_no_bitmaps (current_autoclear_features opts) in
  if new_virtual_size opts <? current_virtual_size opts then
    if negb (allow_shrink opts) then Err ShrinkWithoutFlag else run_planner (plan_shrink opts) [] scratch
  else if new_virtual_size opts =? current_virtual_size opts then Ok (plan_new NoOp (current_file_size opts))
  else if prealloc_is (rz_preallocation opts) RzMetadata then Err RzPreallocationUnsupported
  else if rz_extended_l2 opts && negb (prealloc_is (rz_preallocation opts) RzOff) then Err RzPreallocationUnsupported
  else
  let? cluster_bits := cluster_bits_from (rz_cluster_size opts) in
  let? file_size := aligned_file_size (current_file_size opts) (rz_cluster_size opts) in
  let aligned_opts := with_file_size opts file_size in
  let? target := map_err map_qcow2_create_err
                   (compute_layout (new_virtual_size opts) cluster_bits (rz_refcount_bits opts) (rz_extended_l2 opts) Off) in
  let? existing := count_existing_refcount_blocks (existing_refcount_table_bytes opts) in
  let? (blocks, table) := effective_requirements target file_size (rz_cluster_size opts) (rz_refcount_bits opts)
                            (current_l1_entries opts) (current_refcount_table_clusters opts) existing in
  match decide_action (current_l1_entries opts) (current_refcount_table_clusters opts) existing (ly_l1_entries target) table blocks with
  | HeaderOnly => run_planner (plan_header_only opts) tt scratch
  | L1Grow => run_planner (plan_l1_grow aligned_opts target) [] scratch
  | L1AndRefcountGrow => run_planner (plan_l1_and_refcount_grow aligned_opts target existing) (mkGrowSlots [] []) scratch
  end.

(** The capacity the host gives the device: room for what a resize appends. *)
Definition capacity_hint (file_size virtual_size : Z) : Z := Z.max (sat_mul (Z.max file_size virtual_size) 2) (2 ^ 30).
