(* ===== verification/ResizeSize.v ===== *)
(** * Sizing the appended structures of a resize

    The [loop] of [compute_append_requirements] has no bound of its own.  It is a monotone
    iteration whose step shrinks its distance to the fixed point, so it ends after a
    number of rounds that does not depend on the image, with the least refcount blocks and
    table that cover the file with them appended. *)

From stdpp Require Import base list.
From Stdlib Require Import ZArith Lia.
From S2P Require Import Prelude Bytes Refcount Qcow2 Create Resize.

(** ** Rounding iterations *)

(** [step x] is the quotient, rounded up, of a function that grows at most twice as fast
    as its argument, and at least [low]. *)
Section iteration.
Context (T : Z -> Z) (epr low : Z) (Hepr : 64 <= epr).
Context (Hmono : forall x y, x <= y -> T x <= T y) (Hslope : forall x d, 0 <= d -> T (x + d) <= T x + 2 * d).

Definition rstep (x : Z) : Z := Z.max (div_ceil (T x) epr) low.
Definition riter (n : nat) (x : Z) : Z := Nat.iter n rstep x.

Lemma rstep_mono x y : x <= y -> rstep x <= rstep y.
Proof using Hepr Hmono. intros Hxy. unfold rstep. pose proof (div_ceil_mono (T x) (T y) epr ltac:(lia) (Hmono x y Hxy)). lia. Qed.

Lemma rstep_contracts x d k : 0 <= d -> d <= 32 * k -> rstep (x + d) <= rstep x + k.
Proof using Hepr Hslope.
  intros Hd Hk. unfold rstep. pose proof (Hslope x d Hd).
  assert (div_ceil (T (x + d)) epr <= div_ceil (T x) epr + k); [|lia].
  apply div_ceil_le; [lia|]. destruct (div_ceil_spec (T x) epr ltac:(lia)) as [Hge _]. nia.
Qed.

Lemma riter_S n x : riter (S n) x = rstep (riter n x).
Proof. done. Qed.

Lemma riter_shift n x : riter n (rstep x) = riter (S n) x.
Proof. unfold riter. induction n as [|n IH]; [done|]. change (rstep (Nat.iter n rstep (rstep x)) = rstep (Nat.iter (S n) rstep x)). by rewrite IH. Qed.

Lemma riter_up n x : x <= rstep x -> riter n x <= riter (S n) x.
Proof using Hepr Hmono. intros Hx. induction n as [|n IH]; [done|]. rewrite (riter_S n), (riter_S (S n)). by apply rstep_mono. Qed.

Lemma riter_shrinks k x : x <= rstep x -> rstep x - x <= 32 ^ Z.of_nat k -> riter (S k) x - riter k x <= 1.
Proof using Hepr Hmono Hslope.
  revert x. induction k as [|k IH]; intros x Hx Hk; [done|].
  rewrite Nat2Z.inj_succ, Z.pow_succ_r in Hk by lia. rewrite <- (riter_shift (S k) x), <- (riter_shift k x). apply IH; [by apply rstep_mono|].
  pose proof (rstep_contracts x (rstep x - x) (32 ^ Z.of_nat k) ltac:(lia) ltac:(lia)) as Hc. rewrite Zplus_minus in Hc. lia.
Qed.

(** From a distance of one, the turn after the next is the last. *)
Lemma rstep_settles x : x <= rstep x -> rstep x - x <= 1 -> riter 3 x = riter 2 x.
Proof using Hepr Hmono Hslope.
  intros Hx H1. pose proof (riter_up 1 x Hx) as U1. pose proof (riter_up 2 x Hx) as U2.
  destruct (decide (riter 2 x = riter 1 x)) as [He|Hne].
  { rewrite (riter_S 2), He. done. }
  pose proof (rstep_contracts x (rstep x - x) 1 ltac:(lia) ltac:(lia)) as C. rewrite Zplus_minus in C.
  change (riter 1 x) with (rstep x) in *. change (riter 2 x) with (rstep (rstep x)) in *. change (riter 3 x) with (rstep (rstep (rstep x))) in *.
  set (y := rstep x) in *. assert (rstep y = y + 1) as Hy by lia. rewrite Hy in *. apply Z.le_antisymm; [|lia].
  assert (div_ceil (T x) epr <= y /\ low <= y) as [Hq Hlow] by (unfold y, rstep; lia).
  unfold rstep. apply Z.max_lub; [|lia]. apply div_ceil_le; [lia|].
  destruct (div_ceil_spec (T x) epr ltac:(lia)) as [Hge _].
  pose proof (Hslope x (y - x) ltac:(lia)) as S1. rewrite Zplus_minus in S1. pose proof (Hslope y 1 ltac:(lia)) as S2. nia.
Qed.

Lemma riter_fixed k x : x <= rstep x -> rstep x - x <= 32 ^ Z.of_nat k -> rstep (riter (k + 2) x) = riter (k + 2) x.
Proof using Hepr Hmono Hslope.
  intros Hx Hk. pose proof (riter_shrinks k x Hx Hk) as Hs. pose proof (riter_up k x Hx) as Hu.
  pose proof (rstep_settles (riter k x) Hu ltac:(rewrite <- riter_S; lia)) as Hf.
  replace (riter (k + 2) x) with (riter 2 (riter k x)); [exact Hf|]. unfold riter. rewrite <- Nat.iter_add. f_equal. lia.
Qed.

(** Every argument that its step does not exceed is above the iteration. *)
Lemma riter_least n x y : x <= y -> rstep y <= y -> riter n x <= y.
Proof using Hepr Hmono. intros Hxy Hy. induction n as [|n IH]; [done|]. rewrite riter_S. etrans; [|exact Hy]. by apply rstep_mono. Qed.

Lemma riter_stays n m x : rstep (riter n x) = riter n x -> riter (n + m) x = riter n x.
Proof. intros H. induction m as [|m IH]; [by rewrite Nat.add_0_r|]. by rewrite Nat.add_succ_r, riter_S, IH. Qed.
End iteration.

(** ** The requirements of an append *)

Section append.
Context (fs cs epr L rt0 E : Z).
Context (Hcs : 512 <= cs <= 2 ^ 21) (Hepr : 64 <= epr) (Hfs : 0 <= fs <= 2 ^ 61) (Hal : fs mod cs = 0).
Context (HL : 0 <= L <= 2 ^ 22) (Hrt : 1 <= rt0 <= u32_max) (HE : 0 <= E) (Hcap : E * 8 <= rt0 * cs).

(** The clusters of the file and the new L1 table; the table clusters that [b] blocks
    need, and the clusters of the file with everything appended. *)
Definition base_clusters : Z := fs / cs + L.
Definition table_for (b : Z) : Z := Z.max (div_ceil (b * 8) cs) rt0.
Definition appended_table (b : Z) : Z := if rt0 <? table_for b then table_for b else 0.
Definition file_clusters (b : Z) : Z := base_clusters + appended_table b + Z.max (b - E) 0.
Definition low_blocks : Z := Z.max E 1.
Definition needed_blocks (b : Z) : Z := rstep file_clusters epr low_blocks b.
Definition nth_blocks (n : nat) : Z := Nat.iter n needed_blocks low_blocks.

Lemma table_for_mono x y : x <= y -> table_for x <= table_for y.
Proof using Hcs. intros Hxy. unfold table_for. pose proof (div_ceil_mono (x * 8) (y * 8) cs ltac:(lia) ltac:(lia)). lia. Qed.

Lemma table_for_slope x d : 0 <= d -> table_for (x + d) <= table_for x + d.
Proof using Hcs.
  intros Hd. unfold table_for. assert (div_ceil ((x + d) * 8) cs <= div_ceil (x * 8) cs + d); [|lia].
  apply div_ceil_le; [lia|]. destruct (div_ceil_spec (x * 8) cs ltac:(lia)). nia.
Qed.

Lemma table_for_low : table_for low_blocks = rt0.
Proof using Hcs Hrt Hcap.
  unfold table_for, low_blocks. assert (div_ceil (Z.max E 1 * 8) cs <= rt0); [|lia]. apply div_ceil_le; [lia|].
  destruct (Z.max_spec E 1) as [[_ ->]|[_ ->]]; nia.
Qed.

Lemma file_clusters_mono x y : x <= y -> file_clusters x <= file_clusters y.
Proof using Hcs Hrt.
  intros Hxy. unfold file_clusters, appended_table. pose proof (table_for_mono x y Hxy).
  destruct (Z.ltb_spec rt0 (table_for x)), (Z.ltb_spec rt0 (table_for y)); lia.
Qed.

Lemma needed_mono x y : x <= y -> needed_blocks x <= needed_blocks y.
Proof using Hcs Hrt Hepr. apply rstep_mono; [done|]. exact file_clusters_mono. Qed.

(** The file without and with a table that moves. *)
Definition T0 (b : Z) : Z := base_clusters + Z.max (b - E) 0.
Definition T1 (b : Z) : Z := base_clusters + table_for b + Z.max (b - E) 0.

Lemma T0_mono x y : x <= y -> T0 x <= T0 y. Proof. unfold T0. lia. Qed.
Lemma T0_slope x d : 0 <= d -> T0 (x + d) <= T0 x + 2 * d. Proof. unfold T0. lia. Qed.
Lemma T1_mono x y : x <= y -> T1 x <= T1 y.
Proof using Hcs. intros Hxy. unfold T1. pose proof (table_for_mono x y Hxy). lia. Qed.
Lemma T1_slope x d : 0 <= d -> T1 (x + d) <= T1 x + 2 * d.
Proof using Hcs. intros Hd. unfold T1. pose proof (table_for_slope x d Hd). lia. Qed.

Lemma file_clusters_T0 b : table_for b = rt0 -> file_clusters b = T0 b.
Proof. intros Hb. unfold file_clusters, appended_table, T0. rewrite Hb, Z.ltb_irrefl. lia. Qed.
Lemma file_clusters_T1 b : rt0 < table_for b -> file_clusters b = T1 b.
Proof. intros Hb. unfold file_clusters, appended_table, T1. by rewrite (proj2 (Z.ltb_lt _ _) Hb). Qed.

Lemma base_bounds : 0 <= base_clusters <= 2 ^ 53.
Proof using Hcs Hfs HL.
  unfold base_clusters. pose proof (Z.div_pos fs cs ltac:(lia) ltac:(lia)).
  assert (fs / cs <= 2 ^ 52); [|change (2 ^ 53) with (2 ^ 52 + 2 ^ 52); change (2 ^ 22) with 4194304 in *; change (2 ^ 52) with 4503599627370496; lia].
  apply Z.div_le_upper_bound; [lia|]. change (2 ^ 61) with 2305843009213693952 in *. change (2 ^ 52) with 4503599627370496. nia.
Qed.

(** No iterate passes this. *)
Definition most_blocks : Z := E + base_clusters + rt0 + 3.

Lemma most_blocks_step : needed_blocks most_blocks <= most_blocks /\ low_blocks <= most_blocks <= 2 ^ 54.
Proof using Hcs Hepr Hfs HL Hrt HE Hcap.
  pose proof base_bounds as Hb. unfold u32_max in Hrt. change (2 ^ 21) with 2097152 in *. change (2 ^ 53) with 9007199254740992 in *.
  change (2 ^ 54) with 18014398509481984.
  assert (rt0 * cs <= 4294967295 * 2097152) by (apply Z.mul_le_mono_nonneg; lia).
  split; [|unfold most_blocks, low_blocks; lia].
  unfold needed_blocks, rstep. apply Z.max_lub; [|unfold most_blocks, low_blocks; lia]. apply div_ceil_le; [lia|].
  assert (0 <= most_blocks) by (unfold most_blocks; lia).
  assert (table_for most_blocks <= rt0 + most_blocks) as Ht.
  { unfold table_for. assert (div_ceil (most_blocks * 8) cs <= most_blocks); [|lia]. apply div_ceil_le; nia. }
  unfold file_clusters, appended_table. assert (most_blocks - E = base_clusters + rt0 + 3) by (unfold most_blocks; lia).
  assert (base_clusters + rt0 + 3 <= most_blocks) by (unfold most_blocks; lia).
  destruct (rt0 <? table_for most_blocks); nia.
Qed.

Lemma nth_blocks_up n : nth_blocks n <= nth_blocks (S n).
Proof using Hcs Hrt Hepr.
  apply (riter_up file_clusters epr low_blocks Hepr file_clusters_mono). unfold rstep. lia.
Qed.

Lemma nth_blocks_bounds n : low_blocks <= nth_blocks n <= most_blocks.
Proof using Hcs Hepr Hfs HL Hrt HE Hcap.
  destruct most_blocks_step as (Hs & Hl & _). split.
  - induction n as [|n IH]; [done|]. pose proof (nth_blocks_up n). lia.
  - by apply (riter_least file_clusters epr low_blocks Hepr file_clusters_mono).
Qed.

Lemma iter_agree (T : Z -> Z) n x : (forall m, (m < n)%nat -> file_clusters (riter T epr low_blocks m x) = T (riter T epr low_blocks m x)) ->
  riter file_clusters epr low_blocks n x = riter T epr low_blocks n x.
Proof.
  induction n as [|n IH]; intros Hag; [done|]. rewrite !riter_S, IH by (intros m Hm; apply Hag; lia). unfold rstep. by rewrite Hag by lia.
Qed.

(** The iteration is at its fixed point after 26 rounds. *)
Lemma nth_blocks_fixed : exists n, (n <= 26)%nat /\ needed_blocks (nth_blocks n) = nth_blocks n.
Proof using Hcs Hepr Hfs HL Hrt HE Hcap.
  destruct most_blocks_step as (Hs & Hlm & Hm). change (2 ^ 54) with 18014398509481984 in Hm.
  set (y n := riter T0 epr low_blocks n low_blocks).
  assert (low_blocks <= rstep T0 epr low_blocks low_blocks) as H0 by (unfold rstep; lia).
  assert (forall n, y n <= nth_blocks n) as Hle.
  { intros n. induction n as [|n IH]; [done|]. unfold y. rewrite riter_S. fold (y n). change (nth_blocks (S n)) with (needed_blocks (nth_blocks n)).
    etrans; [apply (rstep_mono T0 epr low_blocks Hepr T0_mono), IH|]. unfold needed_blocks, rstep.
    assert (T0 (nth_blocks n) <= file_clusters (nth_blocks n)) as Ht.
    { unfold T0, file_clusters, appended_table. destruct (Z.ltb_spec rt0 (table_for (nth_blocks n))); lia. }
    pose proof (div_ceil_mono _ _ epr ltac:(lia) Ht). lia. }
  assert (forall n, y n <= most_blocks) as Hym by (intros n; etrans; [apply Hle|apply nth_blocks_bounds]).
  assert (rstep T0 epr low_blocks (y 13%nat) = y 13%nat) as Hfix.
  { apply (riter_fixed T0 epr low_blocks Hepr T0_mono T0_slope 11); [done|]. change (32 ^ Z.of_nat 11) with 36028797018963968.
    specialize (Hym 1%nat). unfold y in Hym. rewrite riter_S in Hym. change (riter T0 epr low_blocks 0 low_blocks) with low_blocks in Hym.
    unfold low_blocks in *. lia. }
  assert (forall n, y n <= y (n + 1)%nat) as Hyup.
  { intros n. rewrite Nat.add_1_r. apply (riter_up T0 epr low_blocks Hepr T0_mono). done. }
  destruct (decide (table_for (y 13%nat) = rt0)) as [Hr|Hr].
  - assert (forall n, (n <= 13)%nat -> y n <= y 13%nat) as Hy13.
    { intros n Hn. replace 13%nat with (n + (13 - n))%nat by lia. generalize (13 - n)%nat as k. intros k. induction k as [|k IH]; [by rewrite Nat.add_0_r|].
      etrans; [exact IH|]. rewrite Nat.add_succ_r, <- Nat.add_1_r. apply Hyup. }
    assert (forall n, (n <= 13)%nat -> file_clusters (y n) = T0 (y n)) as Hag.
    { intros n Hn. apply file_clusters_T0. pose proof (table_for_mono _ _ (Hy13 n Hn)). unfold table_for in *. lia. }
    assert (nth_blocks 13 = y 13%nat) as He by (apply (iter_agree T0 13 low_blocks); intros m Hm'; apply Hag; lia).
    exists 13%nat. split; [lia|]. rewrite He. unfold needed_blocks, rstep. rewrite Hag by lia. exact Hfix.
  - set (z := nth_blocks 13). assert (rt0 < table_for z) as Hz.
    { pose proof (table_for_mono _ _ (Hle 13%nat)). unfold z, table_for in *. lia. }
    assert (forall m, z <= riter T1 epr low_blocks m z) as Hup.
    { intros m. induction m as [|m IH]; [done|]. etrans; [exact IH|]. apply (riter_up T1 epr low_blocks Hepr T1_mono).
      pose proof (nth_blocks_up 13) as Hu. change (nth_blocks 14) with (rstep file_clusters epr low_blocks z) in Hu. unfold rstep in *.
      rewrite file_clusters_T1 in Hu by done. exact Hu. }
    assert (forall m, file_clusters (riter T1 epr low_blocks m z) = T1 (riter T1 epr low_blocks m z)) as Hag.
    { intros m. apply file_clusters_T1. eapply Z.lt_le_trans; [exact Hz|]. apply table_for_mono, Hup. }
    assert (forall m, nth_blocks (m + 13) = riter T1 epr low_blocks m z) as He.
    { intros m. unfold nth_blocks. rewrite Nat.iter_add. change (Nat.iter 13 needed_blocks low_blocks) with z. apply (iter_agree T1 m z). intros; apply Hag. }
    exists 26%nat. split; [lia|]. change 26%nat with (13 + 13)%nat. rewrite He. unfold needed_blocks, rstep. rewrite Hag.
    apply (riter_fixed T1 epr low_blocks Hepr T1_mono T1_slope 11).
    + apply (Hup 1%nat).
    + pose proof (proj2 (nth_blocks_bounds 14)) as Hb. change 14%nat with (1 + 13)%nat in Hb. rewrite He in Hb. change (riter T1 epr low_blocks 1 z) with (rstep T1 epr low_blocks z) in Hb.
      change (32 ^ Z.of_nat 11) with 36028797018963968. pose proof (nth_blocks_bounds 13) as Hz13. fold z in Hz13. unfold low_blocks in *. lia.
Qed.

(** The sizes of an iterate fit 64 bits. *)
Lemma iterate_bounds b : low_blocks <= b <= most_blocks ->
  0 <= appended_table b * cs <= 2 ^ 62 /\ 0 <= Z.max (b - E) 0 * cs <= 2 ^ 62 /\ 0 <= b * 8 <= 2 ^ 62 /\ 0 <= L * cs <= 2 ^ 43 /\
  file_clusters b * cs = fs + L * cs + appended_table b * cs + Z.max (b - E) 0 * cs.
Proof using Hcs Hepr Hfs Hal HL Hrt HE Hcap.
  intros Hb. destruct most_blocks_step as (_ & Hl & Hm). pose proof base_bounds as Hbase. unfold u32_max in Hrt.
  assert (1 <= b) by (unfold low_blocks in Hb; lia).
  assert (0 <= rt0 * cs <= 4294967295 * 2097152) as Hrc by (change (2 ^ 21) with 2097152 in *; split; [|apply Z.mul_le_mono_nonneg]; lia).
  assert (0 <= L * cs <= 2 ^ 43) as HLc.
  { change (2 ^ 43) with (4194304 * 2097152). change (2 ^ 22) with 4194304 in *. change (2 ^ 21) with 2097152 in *.
    split; [|apply Z.mul_le_mono_nonneg]; lia. }
  pose proof (Z.div_mod fs cs ltac:(lia)) as Hdm. rewrite Hal in Hdm.
  assert (table_for b * cs <= rt0 * cs + b * 8 + cs) as Ht.
  { unfold table_for. destruct (div_ceil_spec (b * 8) cs ltac:(lia)) as [_ Hlt].
    destruct (Z.max_spec (div_ceil (b * 8) cs) rt0) as [[_ ->]|[_ ->]]; lia. }
  assert (0 <= table_for b) by (unfold table_for; lia).
  assert (0 <= appended_table b /\ appended_table b * cs <= table_for b * cs) as [Ha0 Ha].
  { unfold appended_table. destruct (_ <? _); [lia|]. split; [lia|]. rewrite Z.mul_0_l. apply Z.mul_nonneg_nonneg; lia. }
  change (2 ^ 21) with 2097152 in *. change (2 ^ 54) with 18014398509481984 in *. change (2 ^ 62) with 4611686018427387904.
  change (2 ^ 61) with 2305843009213693952 in *. change (2 ^ 43) with 8796093022208 in *.
  split_and!; try lia; try (apply Z.mul_nonneg_nonneg; lia).
  - assert (Z.max (b - E) 0 <= base_clusters + rt0 + 3) as Hd by (unfold most_blocks in Hb; lia).
    etrans; [apply Z.mul_le_mono_nonneg_r; [lia|exact Hd]|]. unfold base_clusters. lia.
  - unfold file_clusters, base_clusters. lia.
Qed.

(** A round of the loop. *)
Lemma append_loop_step fuel b : low_blocks <= b <= most_blocks ->
  append_loop (S fuel) fs cs epr (L * cs) rt0 E b (table_for b) =
    if (needed_blocks b =? b) && (table_for (needed_blocks b) =? table_for b) then Ok (b, table_for b, file_clusters b)
    else append_loop fuel fs cs epr (L * cs) rt0 E (needed_blocks b) (table_for (needed_blocks b)).
Proof using Hcs Hepr Hfs Hal HL Hrt HE Hcap.
  intros Hb. destruct (iterate_bounds b Hb) as (B1 & B2 & B3 & B4 & Hsum). pose proof most_blocks_step as (Hs & _ & Hm).
  assert (low_blocks <= needed_blocks b <= most_blocks) as Hn.
  { split; [unfold needed_blocks, rstep; lia|]. etrans; [|exact Hs]. apply needed_mono. lia. }
  destruct (iterate_bounds _ Hn) as (_ & _ & B8 & _ & _). cbn [append_loop].
  change (2 ^ 62) with 4611686018427387904 in *. change (2 ^ 61) with 2305843009213693952 in *. change (2 ^ 43) with 8796093022208 in *.
  assert ((if rt0 <? table_for b then wmul (table_for b) cs else 0) = appended_table b * cs) as ->.
  { unfold appended_table in *. destruct (_ <? _); [apply wmul_small; unfold u64_max; lia | done]. }
  change (sat_sub b E) with (Z.max (b - E) 0). rewrite (wmul_small (Z.max (b - E) 0) cs) by (unfold u64_max; lia).
  rewrite (wadd_small fs (L * cs)) by (unfold u64_max; lia). rewrite (wadd_small (fs + L * cs)) by (unfold u64_max; lia).
  rewrite (wadd_small (fs + L * cs + appended_table b * cs)) by (unfold u64_max; lia). rewrite <- Hsum.
  unfold udiv. rewrite (proj2 (Z.eqb_neq cs 0)) by lia. cbn [obind]. rewrite Z.div_mul by lia.
  change (Z.max (div_ceil (file_clusters b) epr) (Z.max E 1)) with (needed_blocks b).
  rewrite (wmul_small (needed_blocks b) 8) by (unfold u64_max; lia). done.
Qed.

Lemma append_loop_ends fuel n : (exists m, (n <= m < n + fuel)%nat /\ needed_blocks (nth_blocks m) = nth_blocks m) ->
  exists k, append_loop fuel fs cs epr (L * cs) rt0 E (nth_blocks n) (table_for (nth_blocks n)) =
              Ok (nth_blocks k, table_for (nth_blocks k), file_clusters (nth_blocks k)) /\
            needed_blocks (nth_blocks k) = nth_blocks k.
Proof using Hcs Hepr Hfs Hal HL Hrt HE Hcap.
  revert n. induction fuel as [|fuel IH]; intros n (m & Hm & Hfix); [lia|]. rewrite append_loop_step by apply nth_blocks_bounds.
  destruct (Z.eqb_spec (needed_blocks (nth_blocks n)) (nth_blocks n)) as [He|Hne]; cbn [andb].
  - exists n. rewrite He, Z.eqb_refl. done.
  - apply (IH (S n)). exists m. split; [|done]. assert (m <> n) by congruence. lia.
Qed.

(** What the loop returns: a fixed point below every number of blocks that suffices. *)
Lemma append_loop_spec : exists b,
  append_loop APPEND_FUEL fs cs epr (L * cs) rt0 E low_blocks rt0 = Ok (b, table_for b, file_clusters b) /\
  needed_blocks b = b /\ low_blocks <= b <= most_blocks /\ (forall y, low_blocks <= y -> needed_blocks y <= y -> b <= y).
Proof using Hcs Hepr Hfs Hal HL Hrt HE Hcap.
  destruct nth_blocks_fixed as (n & Hn & Hfix). destruct (append_loop_ends APPEND_FUEL 0) as (k & Hk & Hkf).
  { exists n. unfold APPEND_FUEL. split; [lia|done]. }
  change (nth_blocks 0) with low_blocks in Hk. rewrite table_for_low in Hk. exists (nth_blocks k). split; [exact Hk|].
  split; [done|]. split; [apply nth_blocks_bounds|]. intros y Hy Hs.
  by apply (riter_least file_clusters epr low_blocks Hepr file_clusters_mono).
Qed.
End append.

(** The numbers of a resize that appends at the end of a file. *)
Record append_request (fs cs bits L rtc E : Z) : Prop := {
  ar_cs : 512 <= cs <= 2 ^ 21;
  ar_bits : valid_width bits;
  ar_size : 0 <= fs <= 2 ^ 61;
  ar_aligned : fs mod cs = 0;
  ar_l1 : 0 <= L <= 2 ^ 22;
  ar_table : 0 <= rtc <= u32_max;
  ar_blocks : 0 <= E;
  ar_fits : E * 8 <= Z.max rtc 1 * cs
}.

(** [compute_append_requirements] as a fixed point. *)
Lemma append_requirements_spec fs cs bits L rtc E : append_request fs cs bits L rtc E ->
  let epr := cs * 8 / bits in let rt0 := Z.max rtc 1 in
  exists b, compute_append_requirements fs cs bits L rtc E = Ok (b, table_for cs rt0 b, file_clusters fs cs L rt0 E b) /\
    needed_blocks fs cs epr L rt0 E b = b /\ low_blocks E <= b <= most_blocks fs cs L rt0 E /\
    (forall y, low_blocks E <= y -> needed_blocks fs cs epr L rt0 E y <= y -> b <= y).
Proof.
  intros [Hcs Hw Hfs Hal HL Hrt HE Hf] epr rt0. pose proof (entries_per_block_bounds cs bits Hcs Hw) as He.
  assert (1 <= rt0 <= u32_max) as Hrt0 by (unfold rt0, u32_max in *; lia).
  destruct (append_loop_spec fs cs epr L rt0 E Hcs ltac:(apply He) Hfs Hal HL Hrt0 HE Hf) as (b & Hb & Hfix & Hbd & Hl).
  exists b. split; [|done]. unfold compute_append_requirements. pose proof (valid_width_range bits Hw).
  change (2 ^ 21) with 2097152 in *. change (2 ^ 22) with 4194304 in *.
  rewrite (wmul_small cs 8) by (unfold u64_max; lia). unfold udiv. rewrite (proj2 (Z.eqb_neq bits 0)) by lia. cbn [obind].
  rewrite (wmul_small L cs); [exact Hb|]. assert (L * cs <= 4194304 * 2097152) by (apply Z.mul_le_mono_nonneg; lia).
  pose proof (Z.mul_nonneg_nonneg L cs). unfold u64_max. lia.
Qed.

(** The numbers it returns. *)
Lemma append_requirements_facts fs cs bits L rtc E : append_request fs cs bits L rtc E ->
  let epr := cs * 8 / bits in let rt0 := Z.max rtc 1 in
  let moved tc := if rt0 <? tc then tc else 0 in
  exists bc tc total, compute_append_requirements fs cs bits L rtc E = Ok (bc, tc, total) /\
    E <= bc /\ 1 <= bc /\ rt0 <= tc /\ total * cs = fs + (L + moved tc + (bc - E)) * cs /\
    total <= bc * epr /\ bc * 8 <= tc * cs /\ tc = Z.max (div_ceil (bc * 8) cs) rt0 /\
    forall bc' tc', Z.max E 1 <= bc' -> rt0 <= tc' -> bc' * 8 <= tc' * cs ->
      fs / cs + L + moved tc' + (bc' - E) <= bc' * epr -> bc <= bc' /\ tc <= tc'.
Proof.
  intros Hr epr rt0 moved. destruct (append_requirements_spec fs cs bits L rtc E Hr) as (b & Hb & Hfix & Hbd & Hl).
  fold epr rt0 in Hb, Hfix, Hbd, Hl. pose proof Hr as [Hcs Hw Hfs Hal HL Hrt HE Hf].
  pose proof (entries_per_block_bounds cs bits Hcs Hw) as He. fold epr in He.
  exists b, (table_for cs rt0 b), (file_clusters fs cs L rt0 E b). split; [done|].
  unfold low_blocks in Hbd. pose proof (Z.div_mod fs cs ltac:(lia)) as Hdm. rewrite Hal in Hdm.
  assert (rt0 <= table_for cs rt0 b) by (unfold table_for; lia).
  split_and!; try lia.
  - unfold file_clusters, base_clusters, appended_table, moved. rewrite (Z.max_l (b - E) 0) by lia. nia.
  - rewrite <- Hfix at 2. unfold needed_blocks, rstep.
    destruct (div_ceil_spec (file_clusters fs cs L rt0 E b) epr ltac:(lia)) as [Hge _].
    pose proof (Z.le_max_l (div_ceil (file_clusters fs cs L rt0 E b) epr) (low_blocks E)). nia.
  - unfold table_for. destruct (div_ceil_spec (b * 8) cs ltac:(lia)) as [Hge _]. pose proof (Z.le_max_l (div_ceil (b * 8) cs) rt0). nia.
  - done.
  - intros bc' tc' Hbc Htc Hroom Hcov.
    assert (table_for cs rt0 bc' <= tc') as Ht by (unfold table_for; apply Z.max_lub; [apply div_ceil_le; lia | done]).
    assert (b <= bc') as Hle.
    { apply Hl; [done|]. unfold needed_blocks, rstep. apply Z.max_lub; [|unfold low_blocks; lia]. apply div_ceil_le; [lia|].
      etrans; [|exact Hcov]. unfold file_clusters, base_clusters, appended_table, moved. rewrite (Z.max_l (bc' - E) 0) by lia.
      destruct (Z.ltb_spec rt0 (table_for cs rt0 bc')), (Z.ltb_spec rt0 tc'); lia. }
    split; [done|]. etrans; [|exact Ht]. by apply table_for_mono.
Qed.

(** They stay small for a file of at most a pebibyte. *)
Lemma append_numbers fs cs bits L rtc E : append_request fs cs bits L rtc E -> fs <= 2 ^ 50 -> 1 <= rtc -> rtc * cs <= fs -> L <= 65536 ->
  let epr := cs * 8 / bits in let moved tc := if rtc <? tc then tc else 0 in
  exists bc tc total, compute_append_requirements fs cs bits L rtc E = Ok (bc, tc, total) /\
    E <= bc /\ 1 <= bc /\ rtc <= tc <= u32_max /\ total * cs = fs + (L + moved tc + (bc - E)) * cs /\
    total <= bc * epr /\ bc * 8 <= tc * cs /\ total * cs <= 2 ^ 53 /\ bc <= 2 ^ 50.
Proof.
  intros Hr Hfs Hrt Hrc HL epr moved. destruct (append_requirements_facts fs cs bits L rtc E Hr) as (bc & tc & total & H1 & H2 & H3 & H4 & H5 & H6 & H7 & H8 & H9).
  rewrite (Z.max_l rtc 1) in H4, H5, H8, H9 by lia. fold epr in H6, H9. pose proof Hr as [Hcs Hw Hfs0 Hal HL0 _ HE Hf]. rewrite Z.max_l in Hf by lia.
  pose proof (entries_per_block_bounds cs bits Hcs Hw) as He. fold epr in He. change (2 ^ 21) with 2097152 in Hcs. change (2 ^ 50) with 1125899906842624 in *.
  change (2 ^ 53) with 9007199254740992. change (2 ^ 24) with 16777216 in He.
  assert (rtc <= fs / cs) as Hrtc by (apply Z.div_le_lower_bound; lia).
  assert (fs / cs <= 2199023255552) as Hfc by (etrans; [apply (Z.div_le_compat_l fs 512 cs); lia | apply Z.div_le_upper_bound; lia]).
  set (y := Z.max (Z.max E 1) ((fs / cs + L + rtc) / 62 + 1)).
  assert (fs / cs + L + rtc < 62 * y) as Hy by (pose proof (Z.mul_succ_div_gt (fs / cs + L + rtc) 62 ltac:(lia)); lia).
  set (ty := Z.max (div_ceil (y * 8) cs) rtc).
  destruct (div_ceil_spec (y * 8) cs ltac:(lia)) as [Hty1 Hty2].
  assert (div_ceil (y * 8) cs <= y) as Hty by (apply div_ceil_le; [lia | apply Z.mul_le_mono_nonneg_l; lia]).
  destruct (H9 y ty) as [Hb Ht]; [lia | lia | etrans; [apply Z.ge_le, Hty1 | apply Z.mul_le_mono_nonneg_r; unfold ty; lia] | |].
  { etrans; [|apply Z.mul_le_mono_nonneg_l; [lia | apply He]]. unfold ty. clear - Hy Hty HE Hrtc Hrt HL0. destruct (_ <? _); [lia|lia]. }
  assert ((fs / cs + L + rtc) / 62 + 1 <= 70937000000) as Hsmall by (assert ((fs / cs + L + rtc) / 62 <= 70936999999) by (apply Z.div_le_upper_bound; lia); lia).
  assert (E <= rtc * cs / 8) as HEr by (apply Z.div_le_lower_bound; lia).
  assert (rtc * cs / 8 <= 140737488355328) as HEb by (apply Z.div_le_upper_bound; lia).
  assert (tc <= Z.max 1108391001 rtc) as Htc.
  { rewrite H8. destruct (decide (bc <= E)); [assert (div_ceil (bc * 8) cs <= rtc) by (apply div_ceil_le; lia); lia|].
    assert (div_ceil (bc * 8) cs <= 1108391001); [|lia]. apply div_ceil_le; [lia|]. assert (bc <= 70937000000) by lia. etrans; [|apply Z.mul_le_mono_nonneg_l; [lia | apply Hcs]]. lia. }
  assert (tc <= u32_max) by (destruct Hr; unfold u32_max in *; lia).
  assert (moved tc * cs <= 1125899906842624 + 1108391001 * 2097152) as Hm.
  { unfold moved. destruct (_ <? _); [|lia]. destruct (Z.max_spec 1108391001 rtc) as [[_ Hmx]|[_ Hmx]]; rewrite Hmx in Htc;
      [assert (tc * cs <= rtc * cs) by (apply Z.mul_le_mono_nonneg_r; lia) | assert (tc * cs <= 1108391001 * 2097152) by (apply Z.mul_le_mono_nonneg; lia)]; lia. }
  assert ((bc - E) * cs <= 1125899906842624) as Hd.
  { assert (0 <= (fs / cs + L + rtc) / 62) as Hq by (apply Z.div_pos; lia). assert (bc - E <= (fs / cs + L + rtc) / 62 + 1) by (clear - Hb Hq HE; lia). assert ((fs / cs + L + rtc) / 62 * 62 <= fs / cs + L + rtc) by (pose proof (Z.mul_div_le (fs / cs + L + rtc) 62); lia).
    assert (fs / cs * cs <= fs) by (pose proof (Z.mul_div_le fs cs); lia).
    assert ((bc - E) * 62 <= 2 * (fs / cs) + 65598) as H62 by lia.
    assert ((bc - E) * 62 * cs <= (2 * (fs / cs) + 65598) * cs) by (apply Z.mul_le_mono_nonneg_r; lia). lia. }
  exists bc, tc, total. split_and!; try done; [|lia]. rewrite H5. fold (moved tc).
  assert (L * cs <= 65536 * 2097152) by (apply Z.mul_le_mono_nonneg; lia). lia.
Qed.

(** The blocks and the table cost less than a twentieth of the file. *)
Lemma append_growth fs cs bits L rtc E bc tc total : append_request fs cs bits L rtc E -> 1 <= rtc -> rtc * cs <= fs ->
  compute_append_requirements fs cs bits L rtc E = Ok (bc, tc, total) ->
  3968 * (total * cs - fs - L * cs) <= 65 * (2 * fs + L * cs) + 7998 * cs.
Proof.
  intros Hr Hrt Hrc Hok. destruct (append_requirements_facts fs cs bits L rtc E Hr) as (bc' & tc' & total' & H1 & H2 & H3 & H4 & H5 & H6 & H7 & H8 & H9).
  rewrite Hok in H1. injection H1 as <- <- <-. rewrite (Z.max_l rtc 1) in H4, H5, H8, H9 by lia. pose proof Hr as [Hcs Hw Hfs0 Hal HL0 _ HE Hf]. rewrite Z.max_l in Hf by lia.
  pose proof (entries_per_block_bounds cs bits Hcs Hw) as He. set (epr := cs * 8 / bits) in *.
  pose proof (Z.div_mod fs cs ltac:(lia)) as Hdm. rewrite Hal in Hdm. set (F := fs / cs) in *.
  assert (rtc <= F) as Hrtc by nia. set (X := F + L + rtc) in *. pose proof (Z.mul_div_le X 62 ltac:(lia)) as Hx1. pose proof (Z.mul_succ_div_gt X 62 ltac:(lia)) as Hx2.
  assert (0 <= X / 62) as Hx0 by (apply Z.div_pos; lia). set (k := X / 62) in *. set (y := Z.max (Z.max E 1) (k + 1)). set (ty := Z.max (div_ceil (y * 8) cs) rtc).
  destruct (div_ceil_spec (y * 8) cs ltac:(lia)) as [Hty1 Hty2].
  assert (div_ceil (y * 8) cs <= y) as Hty by (apply div_ceil_le; [lia | apply Z.mul_le_mono_nonneg_l; lia]).
  destruct (H9 y ty) as [Hb _]; [lia | lia | etrans; [apply Z.ge_le, Hty1 | apply Z.mul_le_mono_nonneg_r; unfold ty; lia] | |].
  { etrans; [|apply Z.mul_le_mono_nonneg_l; [lia | apply He]]. unfold ty. clear - Hx2 Hty HE Hrtc Hrt HL0 Hx0. destruct (_ <? _); [lia|lia]. }
  assert (64 * (if rtc <? tc then tc else 0) + 64 * (bc - E) <= 65 * (k + 1) + 64) as Hm.
  { destruct (decide (bc <= E)) as [Hle|Hgt].
    - assert (div_ceil (bc * 8) cs <= rtc) by (apply div_ceil_le; lia). destruct (Z.ltb_spec rtc tc); lia.
    - assert (bc <= k + 1) by lia. destruct (Z.ltb_spec rtc tc); [|lia]. assert (tc = div_ceil (bc * 8) cs) as -> by lia.
      destruct (div_ceil_spec (bc * 8) cs ltac:(lia)) as [_ Hc]. assert (64 * (div_ceil (bc * 8) cs - 1) <= bc); [|lia].
      destruct (Z.le_gt_cases (div_ceil (bc * 8) cs) 1); [lia|]. assert ((div_ceil (bc * 8) cs - 1) * 512 <= (div_ceil (bc * 8) cs - 1) * cs) by (apply Z.mul_le_mono_nonneg_l; lia). lia. }
  set (m := (if rtc <? tc then tc else 0) + (bc - E)) in *. replace (total * cs - fs - L * cs) with (m * cs) by lia.
  assert (3968 * m <= 65 * (2 * F + L) + 7998) as Hfin by lia.
  apply (Z.mul_le_mono_nonneg_r _ _ cs) in Hfin; [|lia]. lia.
Qed.

(** ** Properties *)

(** C16: Sizing a resize.  The unbounded loop of [compute_append_requirements] always ends:
    for a cluster-aligned file of at most 2^61 bytes, a new L1 table of [L] clusters and an
    image whose refcount table holds its [E] blocks, it returns the number of blocks and
    table clusters after the resize and the clusters of the resized file.  The file is the
    old one with the L1 table, the new blocks and, where it outgrew its place, the whole
    refcount table appended; the blocks have an entry for every cluster of it, the table
    has room for the blocks, and no smaller blocks or table do. *)
Theorem append_requirements_least (fs cs bits L rtc E : Z) :
  append_request fs cs bits L rtc E ->
  let epr := cs * 8 / bits in
  let rt0 := Z.max rtc 1 in
  let moved tc := if rt0 <? tc then tc else 0 in
  exists bc tc total,
    compute_append_requirements fs cs bits L rtc E = Ok (bc, tc, total) /\
    E <= bc /\ 1 <= bc /\ rt0 <= tc /\ total * cs = fs + (L + moved tc + (bc - E)) * cs /\
    total <= bc * epr /\ bc * 8 <= tc * cs /\
    forall bc' tc', Z.max E 1 <= bc' -> rt0 <= tc' -> bc' * 8 <= tc' * cs ->
      fs / cs + L + moved tc' + (bc' - E) <= bc' * epr -> bc <= bc' /\ tc <= tc'.
Proof.
  intros Hr epr rt0 moved. destruct (append_requirements_facts fs cs bits L rtc E Hr) as (bc & tc & total & H1 & H2 & H3 & H4 & H5 & H6 & H7 & _ & H9).
  by exists bc, tc, total.
Qed.

(** A file of 65,536 clusters whose 256 refcount blocks are exactly full. *)
Lemma append_requirements_least_witness :
  append_request 33554432 512 16 40 4 256 /\ compute_append_requirements 33554432 512 16 40 4 256 = Ok (257, 5, 65582).
Proof.
  assert (append_request 33554432 512 16 40 4 256) as Hr.
  { constructor; try lia; [|reflexivity|unfold u32_max; lia]. apply (bool_decide_unpack _). exact I. }
  split; [done|]. destruct (append_requirements_least _ _ _ _ _ _ Hr) as (bc & tc & total & Hc & _). vm_compute in Hc |- *. done.
Defined.
