(* ===== verification/ResizeStage.v ===== *)
(** * Staging refcount blocks for a resize

    The planners of [Resize] copy the refcount blocks they change into slots of the
    scratch buffer.  Here a slot is described by the refcounts its bytes hold, and the
    staging loops by the change they make to them. *)

From stdpp Require Import base list.
From Stdlib Require Import ZArith Lia.
From S2P Require Import Prelude Bytes Refcount Qcow2 Create Resize.

(** The errors of a planner that has started: room is missing, or the refcount table does
    not list a block. *)
Definition plan_error (e : ResizeError) : Prop := e = RzScratchTooSmall \/ e = HeaderMismatch.

(** [m] gives [Q] or such an error; it never panics. *)
Definition gives {S A} (m : SM S ResizeError A) (s : S) (Q : A -> S -> Prop) : Prop :=
  wp m Q (fun e _ => plan_error e) s.

Lemma gives_bind {S A B} (m : SM S ResizeError A) (k : A -> SM S ResizeError B) s Q :
  gives m s (fun a s' => gives (k a) s' Q) -> gives (sbind m k) s Q.
Proof. apply wp_bind. Qed.

Lemma gives_mono {S A} (m : SM S ResizeError A) s (Q Q' : A -> S -> Prop) :
  gives m s Q -> (forall a s', Q a s' -> Q' a s') -> gives m s Q'.
Proof. intros H HQ. eapply wp_mono; [exact H | exact HQ | done]. Qed.

Lemma gives_get {S} s (Q : S -> S -> Prop) : Q s s -> gives sget s Q.
Proof. apply wp_get. Qed.

Lemma gives_ret {S A} (a : A) s (Q : A -> S -> Prop) : Q a s -> gives (sret a) s Q.
Proof. apply wp_ret. Qed.

Lemma gives_mod {S} (f : S -> S) s (Q : unit -> S -> Prop) : Q tt (f s) -> gives (smod f) s Q.
Proof. apply wp_mod. Qed.

Lemma gives_no_room {S A} s (Q : A -> S -> Prop) : gives (sfail RzScratchTooSmall) s Q.
Proof. apply wp_fail. by left. Qed.

Lemma gives_ok {S A} (m : outcome ResizeError A) a s (Q : A -> S -> Prop) : m = Ok a -> Q a s -> gives (slift m) s Q.
Proof. intros -> H. by apply wp_lift. Qed.

(** A loop over clusters. *)
Lemma gives_for {S} (body : Z -> SM S ResizeError unit) (I : Z -> S -> Prop) n c s :
  I c s -> (forall x s', c <= x < c + Z.of_nat n -> I x s' -> gives (body x) s' (fun _ => I (x + 1))) ->
  gives (for_clusters n c body) s (fun _ => I (c + Z.of_nat n)).
Proof.
  revert c s. induction n as [|n IH]; intros c s Hi Hb; cbn [for_clusters].
  - apply gives_ret. by replace (c + Z.of_nat 0) with c by lia.
  - apply gives_bind. eapply gives_mono; [apply Hb; [lia|done]|]. intros u s' Hi'. cbv beta in Hi'. replace (c + Z.of_nat (Datatypes.S n)) with (c + 1 + Z.of_nat n) by lia.
    apply IH; [done|]. intros x s'' Hx. apply Hb. lia.
Qed.

(** Two scratch buffers that agree outside a range. *)
Record scr_frame (lo hi : Z) (b b' : bytes) : Prop := {
  sf_len : blen b' = blen b;
  sf_bytes : is_bytes b';
  sf_slice : forall x y, y <= lo \/ hi <= x -> slice b' x y = slice b x y
}.

Lemma scr_frame_refl lo hi b : is_bytes b -> scr_frame lo hi b b.
Proof. by split. Qed.

Lemma scr_frame_trans lo hi b1 b2 b3 : scr_frame lo hi b1 b2 -> scr_frame lo hi b2 b3 -> scr_frame lo hi b1 b3.
Proof. intros [L1 B1 S1] [L2 B2 S2]. split; [congruence | done|]. intros x y Hxy. rewrite S2 by done. by apply S1. Qed.

Lemma scr_frame_mono lo hi lo' hi' b b' : lo' <= lo -> hi <= hi' -> scr_frame lo hi b b' -> scr_frame lo' hi' b b'.
Proof. intros H1 H2 [L B S]. split; [done..|]. intros x y Hxy. apply S. lia. Qed.

Lemma slice_empty_range b b' x y : y < x -> slice b' x y = slice b x y.
Proof.
  intros H. assert (forall c, slice c x y = None) as Hn; [|by rewrite !Hn].
  intros c. destruct (slice c x y) eqn:E; [|done]. assert (is_Some (slice c x y)) as Hs by (by eexists). apply slice_is_Some in Hs. lia.
Qed.

Lemma splice_frame b off src b' : is_bytes b -> is_bytes src -> splice b off src = Some b' -> scr_frame off (off + blen src) b b'.
Proof.
  intros Hb Hs Hp. split; [by eapply splice_blen | exact (splice_is_bytes _ _ _ _ Hb Hs Hp)|].
  intros x y Hxy. destruct (decide (x <= y)); [|apply slice_empty_range; lia].
  eapply slice_splice_ne; [exact Hp|]. lia.
Qed.

Section counts.
Context (o : Qcow2ResizeOpts) (epr : Z).
#[local] Abbreviation cs := (rz_cluster_size o).
#[local] Abbreviation w := (rz_refcount_bits o).
Context (Hcs : 512 <= cs <= 2 ^ 21) (Hw : valid_width w) (Hepr : epr = cs * 8 / w).

Lemma epr_bounds : 64 <= epr <= 2 ^ 24.
Proof using Hcs Hw Hepr. rewrite Hepr. by apply entries_per_block_bounds. Qed.

(** The block of index [b] holds the refcounts [f]. *)
Record block_counts (blk : bytes) (b : Z) (f : Z -> Z) : Prop := {
  bc_len : blen blk = cs;
  bc_bytes : is_bytes blk;
  bc_read : forall j, 0 <= j < epr -> read_refcount_in_block blk j w = Ok (f (b * epr + j))
}.

Lemma block_counts_ext blk b f g : (forall c, b * epr <= c < (b + 1) * epr -> f c = g c) -> block_counts blk b f -> block_counts blk b g.
Proof. intros Hfg [L B R]. split; [done..|]. intros j Hj. rewrite R by done. rewrite Hfg by lia. done. Qed.

Lemma in_block_local blk j : blen blk = cs -> 0 <= j < epr -> in_block blk j w.
Proof using Hcs Hw Hepr.
  intros Hl Hj. split; [lia|]. rewrite Hl. pose proof (valid_width_range w Hw). pose proof (Z.mul_div_le (cs * 8) w ltac:(lia)).
  rewrite <- Hepr in *. nia.
Qed.

(** Setting an entry. *)
Lemma set_counts blk b f j v : block_counts blk b f -> 0 <= j < epr -> 0 <= v <= 1 ->
  exists blk', set_refcount_in_block blk j w v = Ok blk' /\
    block_counts blk' b (fun c => if c =? b * epr + j then v else f c).
Proof using Hcs Hw Hepr.
  intros [L B R] Hj Hv. change (2 ^ 21) with 2097152 in Hcs.
  destruct (set_refcount_spec blk j w v B ltac:(unfold slice_fits; lia) Hw (in_block_local _ _ L Hj)) as (blk' & Hs & L' & B' & R').
  exists blk'. split; [done|]. split; [lia | done|]. intros i Hi. rewrite R' by (by apply in_block_local).
  destruct (Z.eqb_spec i j) as [->|Hne].
  - rewrite Z.eqb_refl. f_equal. apply stored_small; [done|]. pose proof (valid_width_range w Hw).
    assert (2 ^ 1 <= 2 ^ w) by (apply Z.pow_le_mono_r; lia). change (2 ^ 1) with 2 in *. lia.
  - rewrite R by done. destruct (Z.eqb_spec (b * epr + i) (b * epr + j)); [lia|done].
Qed.

(** A slot of the scratch buffer. *)
Definition slot_holds (b : bytes) (off idx : Z) (f : Z -> Z) : Prop :=
  exists blk, slice b off (off + cs) = Some blk /\ block_counts blk idx f.

Lemma slot_holds_frame lo hi b b' off idx f : scr_frame lo hi b b' -> off + cs <= lo \/ hi <= off ->
  slot_holds b off idx f -> slot_holds b' off idx f.
Proof. intros [_ _ S] Hd (blk & Hs & Hc). exists blk. split; [|done]. by rewrite S. Qed.

Lemma slot_holds_ext b off idx f g : (forall c, idx * epr <= c < (idx + 1) * epr -> f c = g c) -> slot_holds b off idx f -> slot_holds b off idx g.
Proof. intros Hfg (blk & Hs & Hc). exists blk. split; [done|]. by eapply block_counts_ext. Qed.

(** The staged blocks of the image hold [old]. *)
Definition staged_ok (old : Z -> Z) : Prop :=
  is_bytes (existing_refcount_block_bytes o) /\
  forall i idx blk, index_of 0 (existing_refcount_block_indices o) idx = Some i ->
    slice (existing_refcount_block_bytes o) (i * cs) (i * cs + cs) = Some blk -> block_counts blk idx old.

Lemma index_of_nonneg i l x k : index_of i l x = Some k -> i <= k.
Proof. revert i. induction l as [|y l IH]; intros i; cbn; [done|]. destruct (_ =? _); [by intros [= ->]|]. intros H%IH. lia. Qed.

Context (old : Z -> Z) (Hst : staged_ok old).

(** *** The operations *)

Section ops.
Context {A : Type}.
Implicit Types s : Staged A.

Lemma gives_put off src s (Q : unit -> Staged A -> Prop) : is_bytes (sg_scratch s) -> is_bytes src -> 0 <= off -> off + blen src <= blen (sg_scratch s) ->
  (forall b', splice (sg_scratch s) off src = Some b' -> scr_frame off (off + blen src) (sg_scratch s) b' -> Q tt (upd_scratch b' s)) ->
  gives (scratch_put off src) s Q.
Proof.
  intros Hb Hs H0 Hl HQ. unfold scratch_put, gives. do 3 wstep.
  destruct (proj2 (splice_is_Some (sg_scratch s) off src) ltac:(pose proof (blen_nonneg src); lia)) as [b' Hp]. rewrite Hp. cbn [or_panic]. wstep.
  apply HQ; [done|]. by apply splice_frame.
Qed.

Lemma gives_read off len s (Q : bytes -> Staged A -> Prop) : 0 <= off -> 0 <= len -> off + len <= blen (sg_scratch s) ->
  (forall b, slice (sg_scratch s) off (off + len) = Some b -> Q b s) -> gives (scratch_get off len) s Q.
Proof.
  intros H0 H1 Hl HQ. unfold scratch_get, gives. do 2 wstep. wstep.
  destruct (proj2 (slice_is_Some (sg_scratch s) off (off + len)) ltac:(lia)) as [b Hp]. rewrite Hp. cbn [or_panic]. by apply HQ.
Qed.

Lemma gives_alloc s (Q : Z -> Staged A -> Prop) :
  (sg_next s + cs <= blen (sg_scratch s) -> Q (sg_next s) (mkStaged (sg_scratch s) (sg_next s + cs) (sg_slots s))) ->
  gives (allocate_staging cs) s Q.
Proof.
  intros HQ. unfold allocate_staging, gives. do 2 wstep. destruct (Z.ltb_spec (blen (sg_scratch s)) (sg_next s + cs)); [wstep; by left|].
  do 3 wstep. by apply HQ.
Qed.

Lemma gives_ensure idx off s (Q : unit -> Staged A -> Prop) : is_bytes (sg_scratch s) -> 0 <= off -> off + cs <= blen (sg_scratch s) ->
  (forall b', scr_frame off (off + cs) (sg_scratch s) b' -> slot_holds b' off idx old -> Q tt (upd_scratch b' s)) ->
  gives (ensure_block_staged o cs idx off) s Q.
Proof using Hcs Hst.
  intros Hb H0 Hl HQ. unfold ensure_block_staged. destruct (index_of 0 _ idx) as [i|] eqn:Hi; [|apply gives_no_room].
  pose proof (index_of_nonneg _ _ _ _ Hi) as Hi0. destruct Hst as [Hbb Hblk].
  destruct (Z.ltb_spec (blen (existing_refcount_block_bytes o)) (i * cs + cs)) as [|Hle]; [apply gives_no_room|].
  destruct (proj2 (slice_is_Some (existing_refcount_block_bytes o) (i * cs) (i * cs + cs)) ltac:(nia)) as [blk Hs].
  apply gives_bind. unfold gives at 1. wstep. rewrite Hs. cbn [or_panic].
  pose proof (slice_blen _ _ _ _ Hs) as Hlen. replace (i * cs + cs - i * cs) with cs in Hlen by lia.
  apply gives_put; [done | by eapply slice_is_bytes | done | lia|]. rewrite Hlen. intros b' Hp Hf. apply HQ; [done|].
  exists blk. split; [|by apply (Hblk i)]. pose proof (slice_splice_eq _ _ _ _ Hp) as He. by rewrite Hlen in He.
Qed.

Lemma gives_set idx off j v f s (Q : unit -> Staged A -> Prop) : is_bytes (sg_scratch s) -> 0 <= off -> off + cs <= blen (sg_scratch s) ->
  slot_holds (sg_scratch s) off idx f -> 0 <= j < epr -> 0 <= v <= 1 ->
  (forall b', scr_frame off (off + cs) (sg_scratch s) b' -> slot_holds b' off idx (fun c => if c =? idx * epr + j then v else f c) -> Q tt (upd_scratch b' s)) ->
  gives (set_refcount o cs off j v) s Q.
Proof using Hcs Hw Hepr.
  intros Hb H0 Hl (blk & Hs & Hc) Hj Hv HQ. unfold set_refcount. apply gives_bind. apply gives_read; [done|lia|done|]. rewrite Hs. intros b [= <-].
  destruct (set_counts blk idx f j v Hc Hj Hv) as (blk' & Hset & Hc'). apply gives_bind. unfold gives at 1. wstep. rewrite Hset. cbn [map_err].
  pose proof (bc_len _ _ _ Hc') as Hlen. apply gives_put; [done | apply (bc_bytes _ _ _ Hc') | done | lia|]. rewrite Hlen. intros b' Hp Hf.
  apply HQ; [done|]. exists blk'. split; [|done]. pose proof (slice_splice_eq _ _ _ _ Hp) as He. by rewrite Hlen in He.
Qed.
(** *** Slots *)

(** [P t i x]: there is a slot for block [i] at offset [x]; [t] tells the slots written
    after the header from those written before it.  [f t] are the refcounts they hold. *)
Record slots_ok (lo : Z) (P : bool -> Z -> Z -> Prop) (f : bool -> Z -> Z) (s : Staged A) : Prop := {
  so_bytes : is_bytes (sg_scratch s);
  so_range : 0 <= lo <= sg_next s /\ sg_next s <= blen (sg_scratch s);
  so_in : forall t i x, P t i x -> lo <= x /\ x + cs <= sg_next s;
  so_idx : forall t i x, P t i x -> 0 <= i <= 2 ^ 60;
  so_holds : forall t i x, P t i x -> slot_holds (sg_scratch s) x i (f t);
  so_apart : forall t i x u j y, P t i x -> P u j y -> (t, i, x) = (u, j, y) \/ ((t, i) <> (u, j) /\ (x + cs <= y \/ y + cs <= x))
}.

Lemma slots_ok_iff lo P P' f s : (forall t i x, P' t i x <-> P t i x) -> slots_ok lo P f s -> slots_ok lo P' f s.
Proof. intros He [H1 H2 H3 H3' H4 H5]. split; [done|done|..]; intros *; rewrite !He; eauto. Qed.

Lemma slots_ok_ext lo P f g s : (forall t c, f t c = g t c) -> slots_ok lo P f s -> slots_ok lo P g s.
Proof. intros He [H1 H2 H3 H3' H4 H5]. split; [done..| |done]. intros t i x Hp. eapply slot_holds_ext; [|by apply H4]. auto. Qed.

Definition upd (t : bool) (c v : Z) (f : bool -> Z -> Z) : bool -> Z -> Z :=
  fun u x => if (eqb u t && (x =? c)) : bool then v else f u x.

(** Setting a refcount in a slot. *)
Lemma slots_set lo P f s t i x c v (Q : unit -> Staged A -> Prop) : slots_ok lo P f s -> P t i x -> i = c / epr -> 0 <= v <= 1 ->
  (forall b', scr_frame lo (sg_next s) (sg_scratch s) b' -> slots_ok lo P (upd t c v f) (upd_scratch b' s) -> Q tt (upd_scratch b' s)) ->
  gives (set_refcount o cs x (c mod epr) v) s Q.
Proof using Hcs Hw Hepr.
  intros Hs Hp -> Hv HQ. destruct Hs as [Hb [Hlo Hn] Hin Hix Hh Ha]. pose proof (Hin _ _ _ Hp) as [Hx1 Hx2]. pose proof epr_bounds.
  eapply (gives_set _ x (c mod epr) v (f t)); [done | lia | lia | by apply Hh | apply Z.mod_pos_bound; lia | done|].
  intros b' Hf Hc. pose proof (Z.div_mod c epr ltac:(lia)) as Hdm. apply HQ; [apply (scr_frame_mono x (x + cs)); [lia | lia | exact Hf]|].
  split; cbn [upd_scratch sg_scratch sg_next]; [by destruct Hf | destruct Hf; lia | done | done | |done].
  intros u j y Hq. destruct (Ha _ _ _ _ _ _ Hp Hq) as [[= <- <- <-]|[Hne Hd]].
  - eapply slot_holds_ext; [|exact Hc]. intros z _. cbv beta. unfold upd. rewrite eqb_reflx. cbn [andb].
    replace (c / epr * epr + c mod epr) with c by lia. done.
  - eapply slot_holds_frame; [exact Hf | lia|]. eapply slot_holds_ext; [|by apply Hh]. intros z Hz. unfold upd.
    destruct (eqb u t && (z =? c)) eqn:E; [|done]. apply andb_true_iff in E as [->%eqb_prop ->%Z.eqb_eq].
    exfalso. apply Hne. f_equal. symmetry. apply Z.div_unique with (c - j * epr); nia.
Qed.

(** A new slot, seeded. *)
Lemma slots_new lo P f s t i (b' : bytes) sl : slots_ok lo P f s -> (forall x, ~ P t i x) -> 0 <= i <= 2 ^ 60 -> sg_next s + cs <= blen (sg_scratch s) ->
  scr_frame (sg_next s) (sg_next s + cs) (sg_scratch s) b' -> slot_holds b' (sg_next s) i (f t) ->
  slots_ok lo (fun u j y => P u j y \/ (u, j, y) = (t, i, sg_next s)) f (mkStaged b' (sg_next s + cs) sl).
Proof using Hcs.
  intros [Hb [Hlo Hn] Hin Hix Hh Ha] Hno Hi Hroom Hf Hhold. split; cbn [sg_scratch sg_next]; [by destruct Hf | destruct Hf; lia | | | |].
  - intros u j y [Hp|[= -> -> ->]]; [apply Hin in Hp|]; lia.
  - intros u j y [Hp|[= -> -> ->]]; [by eapply Hix|done].
  - intros u j y [Hp|[= -> -> ->]]; [|done]. pose proof (Hin _ _ _ Hp). eapply slot_holds_frame; [exact Hf | lia | by apply Hh].
  - intros u j y u' j' y' [Hp|[= -> -> ->]] [Hq|[= -> -> ->]]; [by apply Ha | | |by left].
    + right. split; [intros [= -> ->]; by eapply Hno|]. apply Hin in Hp. lia.
    + right. split; [intros [= <- <-]; by eapply Hno|]. apply Hin in Hq. lia.
Qed.
(** *** The two phases *)

(** [f1] are the refcounts before the header is switched, [f2] those after the cleanup;
    a block without a slot keeps what it had.  Nothing below [lo] has moved since [b0]. *)
Record phase (lo : Z) (b0 : bytes) (P : bool -> Z -> Z -> Prop) (f1 f2 : Z -> Z) (s : Staged A) : Prop := {
  ph_slots : slots_ok lo P (fun t => if t : bool then f2 else f1) s;
  ph_frame : scr_frame lo (blen b0) b0 (sg_scratch s);
  ph_old : forall c, (forall x, ~ P false (c / epr) x) -> f1 c = old c;
  ph_base : forall c, (forall x, ~ P true (c / epr) x) -> f2 c = f1 c
}.

Definition set1 (c v : Z) (g : Z -> Z) : Z -> Z := fun x => if x =? c then v else g x.
Definition bump (s : Staged A) : Staged A := mkStaged (sg_scratch s) (sg_next s + cs) (sg_slots s).
Definition add_slot (P : bool -> Z -> Z -> Prop) (t : bool) (i x : Z) : bool -> Z -> Z -> Prop := fun u j y => P u j y \/ (u, j, y) = (t, i, x).

Lemma phase_irrel lo b0 P f1 f2 s s' : sg_scratch s = sg_scratch s' -> sg_next s = sg_next s' -> phase lo b0 P f1 f2 s -> phase lo b0 P f1 f2 s'.
Proof.
  intros Eb En [[H1 H2 H3 H3' H4 H5] H6 H7 H8]. rewrite Eb in H1, H2, H4, H6. rewrite En in H2, H3. split; [|done..]. by split.
Qed.

Lemma phase_iff lo b0 P P' f1 f2 s : (forall t i x, P' t i x <-> P t i x) -> phase lo b0 P f1 f2 s -> phase lo b0 P' f1 f2 s.
Proof.
  intros He [H1 H2 H3 H4]. split; [by eapply slots_ok_iff | done | |].
  - intros c Hc. apply H3. intros x. rewrite <- He. auto.
  - intros c Hc. apply H4. intros x. rewrite <- He. auto.
Qed.

Lemma phase_ext lo b0 P f1 f2 g1 g2 s : (forall c, f1 c = g1 c) -> (forall c, f2 c = g2 c) -> phase lo b0 P f1 f2 s -> phase lo b0 P g1 g2 s.
Proof.
  intros E1 E2 [H1 H2 H3 H4]. split; [eapply slots_ok_ext; [|exact H1]; intros [] c; cbn; auto | done | |].
  - intros c Hc. rewrite <- E1. auto.
  - intros c Hc. rewrite <- E1, <- E2. auto.
Qed.

Lemma phase_set_dec lo b0 P f1 f2 s i x c (Q : unit -> Staged A -> Prop) : phase lo b0 P f1 f2 s -> P true i x -> i = c / epr ->
  (forall b', phase lo b0 P f1 (set1 c 0 f2) (upd_scratch b' s) -> Q tt (upd_scratch b' s)) ->
  gives (set_refcount o cs x (c mod epr) 0) s Q.
Proof using Hcs Hw Hepr.
  intros [Hs Hf Hold Hbase] Hp Hi HQ. eapply slots_set; [exact Hs | exact Hp | done | lia|]. intros b' Hf' Hs'.
  pose proof (so_range _ _ _ _ Hs) as Hr. pose proof (sf_len _ _ _ _ Hf) as Hl. apply HQ. split; [| |exact Hold|].
  - eapply slots_ok_ext; [|exact Hs']. intros [] z; unfold upd, set1; cbn [eqb andb]; done.
  - eapply scr_frame_trans; [exact Hf|]. apply (scr_frame_mono lo (sg_next s)); [lia | lia | exact Hf'].
  - intros z Hz. unfold set1. destruct (Z.eqb_spec z c) as [->|]; [exfalso; subst i; by eapply Hz|auto].
Qed.

Lemma phase_set_inc lo b0 P f s i x c (Q : unit -> Staged A -> Prop) : phase lo b0 P f f s -> (forall j y, ~ P true j y) -> P false i x -> i = c / epr ->
  (forall b', phase lo b0 P (set1 c 1 f) (set1 c 1 f) (upd_scratch b' s) -> Q tt (upd_scratch b' s)) ->
  gives (set_refcount o cs x (c mod epr) 1) s Q.
Proof using Hcs Hw Hepr.
  intros [Hs Hf Hold Hbase] Hno Hp Hi HQ. eapply slots_set; [exact Hs | exact Hp | done | lia|]. intros b' Hf' Hs'.
  pose proof (so_range _ _ _ _ Hs) as Hr. pose proof (sf_len _ _ _ _ Hf) as Hl. apply HQ. split; [| | |done].
  - destruct Hs' as [H1 H2 H3 H3' H4 H5]. split; [done..| |done]. intros t j y Hq. destruct t; [by apply Hno in Hq|].
    eapply slot_holds_ext; [|by apply H4]. intros z _. unfold upd, set1. cbn [eqb andb]. done.
  - eapply scr_frame_trans; [exact Hf|]. apply (scr_frame_mono lo (sg_next s)); [lia | lia | exact Hf'].
  - intros z Hz. unfold set1. destruct (Z.eqb_spec z c) as [->|]; [exfalso; subst i; by eapply Hz|auto].
Qed.

Lemma phase_new lo b0 P f1 f2 s t i b' : phase lo b0 P f1 f2 s -> (forall x, ~ P t i x) -> 0 <= i <= 2 ^ 60 -> sg_next s + cs <= blen (sg_scratch s) ->
  scr_frame (sg_next s) (sg_next s + cs) (sg_scratch s) b' -> slot_holds b' (sg_next s) i (if t : bool then f2 else f1) ->
  phase lo b0 (add_slot P t i (sg_next s)) f1 f2 (upd_scratch b' (bump s)).
Proof using Hcs.
  intros [Hs Hf Hold Hbase] Hno Hix Hroom Hfr Hh. pose proof (so_range _ _ _ _ Hs) as Hr. pose proof (sf_len _ _ _ _ Hf) as Hl. split.
  - eapply slots_new; [exact Hs | done | done | done | done | done].
  - eapply scr_frame_trans; [exact Hf|]. apply (scr_frame_mono (sg_next s) (sg_next s + cs)); [lia | lia | exact Hfr].
  - intros c Hc. apply Hold. intros x Hx. apply (Hc x). by left.
  - intros c Hc. apply Hbase. intros x Hx. apply (Hc x). by left.
Qed.

Lemma phase_alloc lo b0 P f1 f2 s {B} (k : Z -> SM (Staged A) ResizeError B) (Q : B -> Staged A -> Prop) : phase lo b0 P f1 f2 s ->
  (sg_next s + cs <= blen (sg_scratch s) -> gives (k (sg_next s)) (bump s) Q) -> gives (sbind (allocate_staging cs) k) s Q.
Proof. intros _ HQ. apply gives_bind, gives_alloc. exact HQ. Qed.

(** Seeding a slot with the block of the image. *)
Lemma phase_ensure lo b0 P f1 f2 s t i (Q : unit -> Staged A -> Prop) : phase lo b0 P f1 f2 s -> (forall u x, ~ P u i x) -> 0 <= i <= 2 ^ 60 ->
  sg_next s + cs <= blen (sg_scratch s) ->
  (forall b', phase lo b0 (add_slot P t i (sg_next s)) f1 f2 (upd_scratch b' (bump s)) -> Q tt (upd_scratch b' (bump s))) ->
  gives (ensure_block_staged o cs i (sg_next s)) (bump s) Q.
Proof using Hcs Hw Hepr Hst.
  intros Hph Hno Hix Hroom HQ. pose proof (so_range _ _ _ _ (ph_slots _ _ _ _ _ _ Hph)) as Hr. pose proof (so_bytes _ _ _ _ (ph_slots _ _ _ _ _ _ Hph)) as Hb.
  apply gives_ensure; [done | lia | done|]. intros b' Hf Hh. apply HQ. apply phase_new; [done | auto | done | done | done|].
  eapply slot_holds_ext; [|exact Hh]. intros c Hc. pose proof epr_bounds.
  assert (c / epr = i) as Hi by (symmetry; apply Z.div_unique with (c - i * epr); nia).
  assert (f1 c = old c) as E1 by (apply (ph_old _ _ _ _ _ _ Hph); rewrite Hi; auto).
  assert (f2 c = f1 c) as E2 by (apply (ph_base _ _ _ _ _ _ Hph); rewrite Hi; auto).
  destruct t; congruence.
Qed.

(** Seeding a cleanup slot with the block of the first phase. *)
Lemma phase_copy lo b0 P f1 f2 s i x src (Q : unit -> Staged A -> Prop) : phase lo b0 P f1 f2 s -> P false i x -> (forall y, ~ P true i y) ->
  sg_next s + cs <= blen (sg_scratch s) -> slice (sg_scratch s) x (x + cs) = Some src ->
  (forall b', phase lo b0 (add_slot P true i (sg_next s)) f1 f2 (upd_scratch b' (bump s)) -> Q tt (upd_scratch b' (bump s))) ->
  gives (scratch_put (sg_next s) src) (bump s) Q.
Proof using Hcs Hw Hepr.
  intros Hph Hp Hno Hroom Hsl HQ. pose proof (ph_slots _ _ _ _ _ _ Hph) as Hs. pose proof (so_range _ _ _ _ Hs) as Hr. pose proof (so_bytes _ _ _ _ Hs) as Hb.
  pose proof (slice_blen _ _ _ _ Hsl) as Hl. apply gives_put; [done | by eapply slice_is_bytes | lia | cbn [bump sg_scratch]; lia|].
  cbn [bump sg_scratch]. replace (blen src) with cs by lia. intros b' Hsp Hf. apply HQ. apply phase_new; [done | done | exact (so_idx _ _ _ _ Hs _ _ _ Hp) | done | done|].
  destruct (so_holds _ _ _ _ Hs _ _ _ Hp) as (blk & Hsl' & Hc). rewrite Hsl in Hsl'. injection Hsl' as <-.
  exists src. split; [pose proof (slice_splice_eq _ _ _ _ Hsp) as He; by replace (blen src) with cs in He by lia|].
  eapply block_counts_ext; [|exact Hc]. intros c Hcr. pose proof epr_bounds.
  assert (c / epr = i) as Hi by (symmetry; apply Z.div_unique with (c - i * epr); nia).
  symmetry. apply (ph_base _ _ _ _ _ _ Hph). rewrite Hi. auto.
Qed.
End ops.
End counts.
