(* ===== verification/ResizeSlots.v ===== *)
(** * The staging loops of the growth planners

    The loops of [plan_l1_grow] and [plan_l1_and_refcount_grow] over the clusters they
    claim and release, against the two phases of [ResizeStage]. *)

From stdpp Require Import base list.
From Stdlib Require Import ZArith Lia.
From S2P Require Import Prelude Bytes Refcount Qcow2 Create Resize ResizeStage.

(** [f] with [v] on the clusters from [a] to [b]. *)
Definition fill (a b v : Z) (f : Z -> Z) : Z -> Z := fun c => if ((a <=? c) && (c <? b)) : bool then v else f c.

Lemma fill_empty a v f c : fill a a v f c = f c.
Proof. unfold fill. destruct (Z.leb_spec a c), (Z.ltb_spec c a); cbn; done || lia. Qed.

Lemma fill_snoc a b v f c : a <= b -> set1 b v (fill a b v f) c = fill a (b + 1) v f c.
Proof. intros Hab. unfold set1, fill. destruct (Z.eqb_spec c b), (Z.leb_spec a c), (Z.ltb_spec c b), (Z.ltb_spec c (b + 1)); cbn; done || lia. Qed.

Section loops.
Context (o : Qcow2ResizeOpts) (epr : Z).
#[local] Abbreviation cs := (rz_cluster_size o).
#[local] Abbreviation w := (rz_refcount_bits o).
Context (Hcs : 512 <= cs <= 2 ^ 21) (Hw : valid_width w) (Hepr : epr = cs * 8 / w).
Context (old : Z -> Z) (Hst : staged_ok o epr old).

Lemma block_index c : 0 <= c <= 2 ^ 60 -> 0 <= c / epr <= 2 ^ 60.
Proof using Hcs Hw Hepr.
  intros Hc. pose proof (epr_bounds o epr Hcs Hw Hepr). split; [apply Z.div_pos; lia|].
  etrans; [|apply Hc]. apply Z.div_le_upper_bound; nia.
Qed.

(** A view of the slots of a planner, with the two operations that change it. *)
Section view.
Context {A : Type} (view : A -> bool -> Z -> Z -> Prop) (J : A -> Prop).

(** A first-phase loop: the clusters from [a] have their slots and refcount 1. *)
Record claimed (lo : Z) (b0 : bytes) (a x : Z) (s : Staged A) : Prop := {
  cl_le : a <= x;
  cl_phase : phase o epr old lo b0 (view (sg_slots s)) (fill a x 1 old) (fill a x 1 old) s;
  cl_wf : J (sg_slots s);
  cl_none : forall i y, ~ view (sg_slots s) true i y;
  cl_slots : forall c, a <= c < x -> exists y, view (sg_slots s) false (c / epr) y
}.

(** A second-phase loop: the clusters of [freed] and those from [a] have refcount 0; those
    of [held] keep their slots of the first phase. *)
Record released (lo : Z) (b0 : bytes) (f1 g : Z -> Z) (held freed : Z -> Prop) (a x : Z) (s : Staged A) : Prop := {
  re_le : a <= x;
  re_wf : J (sg_slots s);
  re_phase : phase o epr old lo b0 (view (sg_slots s)) f1 (fill a x 0 g) s;
  re_held : forall c, held c -> exists y, view (sg_slots s) false (c / epr) y;
  re_slots : forall c, freed c \/ a <= c < x -> exists y, view (sg_slots s) true (c / epr) y
}.

(** What one turn does. *)
Definition claims (body : Z -> SM (Staged A) ResizeError unit) : Prop :=
  forall lo b0 f c s, 0 <= c <= 2 ^ 60 -> phase o epr old lo b0 (view (sg_slots s)) f f s -> J (sg_slots s) -> (forall i y, ~ view (sg_slots s) true i y) ->
  gives (body c) s (fun _ s' => phase o epr old lo b0 (view (sg_slots s')) (set1 c 1 f) (set1 c 1 f) s' /\ J (sg_slots s') /\
    (forall i y, ~ view (sg_slots s') true i y) /\ (exists y, view (sg_slots s') false (c / epr) y) /\
    (forall i y, view (sg_slots s) false i y -> view (sg_slots s') false i y)).

Definition releases (body : Z -> SM (Staged A) ResizeError unit) : Prop :=
  forall lo b0 f1 f2 c s, 0 <= c <= 2 ^ 60 -> phase o epr old lo b0 (view (sg_slots s)) f1 f2 s -> J (sg_slots s) ->
  gives (body c) s (fun _ s' => phase o epr old lo b0 (view (sg_slots s')) f1 (set1 c 0 f2) s' /\ J (sg_slots s') /\
    (exists y, view (sg_slots s') true (c / epr) y) /\ (forall t i y, view (sg_slots s) t i y -> view (sg_slots s') t i y)).

Lemma claim_loop body lo b0 a n s : claims body -> 0 <= a -> a + Z.of_nat n <= 2 ^ 60 -> claimed lo b0 a a s ->
  gives (for_clusters n a body) s (fun _ => claimed lo b0 a (a + Z.of_nat n)).
Proof.
  intros Hbody Ha Hn Hi. apply gives_for; [done|]. intros x s' Hx [H1 H2 HJ H3 H4]. eapply gives_mono; [eapply Hbody; [lia | done..]|].
  intros u s2 (P2 & J2 & N2 & S2 & K2). split; [lia | | done | done|].
  - eapply phase_ext; [..|exact P2]; intros c; by apply fill_snoc.
  - intros c Hc. destruct (decide (c = x)) as [->|]; [done|]. destruct (H4 c ltac:(lia)) as [y Hy]. eauto.
Qed.

Lemma release_loop body lo b0 f1 g held freed a n s : releases body -> 0 <= a -> a + Z.of_nat n <= 2 ^ 60 -> released lo b0 f1 g held freed a a s ->
  gives (for_clusters n a body) s (fun _ => released lo b0 f1 g held freed a (a + Z.of_nat n)).
Proof.
  intros Hbody Ha Hn Hi. apply gives_for; [done|]. intros x s' Hx [H1 HJ H2 HH H3]. eapply gives_mono; [eapply Hbody; [lia | done..]|].
  intros u s2 (P2 & J2 & S2 & K2). split; [lia | done | | |].
  - eapply phase_ext; [done | | exact P2]. intros c; by apply fill_snoc.
  - intros c Hc. destruct (HH c Hc) as [y Hy]. eauto.
  - intros c Hc. destruct (decide (c = x)) as [->|]; [done|]. destruct (H3 c ltac:(destruct Hc; [by left|right; lia])) as [y Hy]. eauto.
Qed.

(** The second phase starts where the first one ended. *)
Lemma claimed_released lo b0 a x a' s : claimed lo b0 a x s ->
  released lo b0 (fill a x 1 old) (fill a x 1 old) (fun c => a <= c < x) (fun _ => False) a' a' s.
Proof.
  intros [H1 H2 HJ H3 H4]. split; [lia | done | | exact H4 |].
  - eapply phase_ext; [done | | exact H2]. intros c. symmetry. apply fill_empty.
  - intros c [[]|]; lia.
Qed.

Lemma released_next lo b0 f1 g held freed a x a' s : released lo b0 f1 g held freed a x s ->
  released lo b0 f1 (fill a x 0 g) held (fun c => freed c \/ a <= c < x) a' a' s.
Proof.
  intros [H1 HJ H2 HH H3]. split; [lia | done | | exact HH |].
  - eapply phase_ext; [done | | exact H2]. intros c. symmetry. apply fill_empty.
  - intros c [Hc|]; [by apply H3|lia].
Qed.
End view.

(** ** Slots of the refcount growth *)

Definition gview (g : GrowSlots) (t : bool) (i x : Z) : Prop := (i, x) ∈ (if t then gs_cleanup g else gs_overlap g).

Lemma find_slot_off_Some l i x : find_slot_off l i = Some x -> (i, x) ∈ l.
Proof.
  induction l as [|[j y] l IH]; cbn [find_slot_off]; [done|]. destruct (Z.eqb_spec j i) as [->|]; [intros [= ->]; left|]. intros H%IH. by right.
Qed.

Lemma find_slot_off_None l i x : find_slot_off l i = None -> (i, x) ∉ l.
Proof.
  induction l as [|[j y] l IH]; cbn [find_slot_off]; [intros _; apply not_elem_of_nil|]. destruct (Z.eqb_spec j i) as [->|]; [done|].
  intros H%IH. rewrite not_elem_of_cons. split; [congruence|done].
Qed.

Lemma gview_push_overlap g i x : forall u j y, gview (mkGrowSlots (gs_overlap g ++ [(i, x)]) (gs_cleanup g)) u j y <-> add_slot (gview g) false i x u j y.
Proof.
  intros [] j y; unfold gview, add_slot; cbn [gs_overlap gs_cleanup].
  - split; [by left | by intros [H|[=]]].
  - rewrite elem_of_app, list_elem_of_singleton. split; (intros [H|[= -> ->]]; [by left | by right]).
Qed.

Lemma gview_push_cleanup g i x : forall u j y, gview (mkGrowSlots (gs_overlap g) (gs_cleanup g ++ [(i, x)])) u j y <-> add_slot (gview g) true i x u j y.
Proof.
  intros [] j y; unfold gview, add_slot; cbn [gs_overlap gs_cleanup].
  - rewrite elem_of_app, list_elem_of_singleton. split; (intros [H|[= -> ->]]; [by left | by right]).
  - split; [by left | by intros [H|[=]]].
Qed.

Lemma stage_overlap_claims : claims gview (fun _ => True) (stage_overlap o cs epr).
Proof using Hcs Hw Hepr Hst.
  intros lo b0 f c s Hc Hp _ Hno. pose proof (block_index c Hc) as Hix. unfold stage_overlap. cbv zeta. apply gives_bind, gives_get. apply gives_bind.
  destruct (find_slot_off _ _) as [off|] eqn:Ef.
  - apply gives_ret. apply find_slot_off_Some in Ef. eapply phase_set_inc; try done. intros b' Hp'. cbn [upd_scratch sg_slots].
    split; [done|]. split; [done|]. split; [done|]. split; [by exists off | done].
  - destruct (_ <=? _); [apply gives_no_room|]. eapply phase_alloc; [done|]. intros Hroom. apply gives_bind.
    eapply (phase_ensure _ _ Hcs Hw Hepr _ Hst _ _ _ _ _ _ false); [exact Hp | | done | done|].
    { intros [] x; [apply Hno | by apply find_slot_off_None]. }
    intros b' Hp'. apply gives_bind, gives_mod, gives_ret.
    eapply phase_set_inc; [done..| | | |done|].
    + eapply phase_iff; [|eapply phase_irrel; [..|exact Hp']; done]. intros u j y. cbn [upd_slots upd_scratch bump sg_slots]. apply gview_push_overlap.
    + intros j y. cbn [upd_slots upd_scratch bump sg_slots]. rewrite gview_push_overlap. intros [H|[=]]. by eapply Hno.
    + cbn [upd_slots upd_scratch bump sg_slots]. rewrite gview_push_overlap. by right.
    + intros b2 Hp2. split; [exact Hp2|]. cbn [upd_slots upd_scratch bump sg_slots]. split; [done|]. split; [|split].
      * intros j y. rewrite gview_push_overlap. intros [H|[=]]. by eapply Hno.
      * exists (sg_next s). rewrite gview_push_overlap. by right.
      * intros j y H. rewrite gview_push_overlap. by left.
Qed.

(** A seeded cleanup slot is pushed and the refcount set. *)
Lemma cleanup_seeded lo b0 f1 f2 c s b' : phase o epr old lo b0 (add_slot (gview (sg_slots s)) true (c / epr) (sg_next s)) f1 f2 (upd_scratch b' (bump o s)) ->
  gives (do! smod (fun s' => upd_slots (mkGrowSlots (gs_overlap (sg_slots s')) (gs_cleanup (sg_slots s') ++ [(c / epr, sg_next s)])) s') in sret (sg_next s))
    (upd_scratch b' (bump o s)) (fun off s1 => gives (set_refcount o cs off (c mod epr) 0) s1 (fun _ s' =>
      phase o epr old lo b0 (gview (sg_slots s')) f1 (set1 c 0 f2) s' /\ True /\
      (exists y, gview (sg_slots s') true (c / epr) y) /\ (forall t i y, gview (sg_slots s) t i y -> gview (sg_slots s') t i y))).
Proof using Hcs Hw Hepr.
  intros Hp'. apply gives_bind, gives_mod, gives_ret. eapply phase_set_dec; [done..| | |done|].
  - eapply phase_iff; [|eapply phase_irrel; [..|exact Hp']; done]. intros u j y. cbn [upd_slots upd_scratch bump sg_slots]. apply gview_push_cleanup.
  - cbn [upd_slots upd_scratch bump sg_slots]. rewrite gview_push_cleanup. by right.
  - intros b2 Hp2. split; [exact Hp2|]. cbn [upd_slots upd_scratch bump sg_slots]. split; [done|]. split.
    + exists (sg_next s). rewrite gview_push_cleanup. by right.
    + intros t j y H. rewrite gview_push_cleanup. by left.
Qed.

Lemma stage_cleanup_releases : releases gview (fun _ => True) (stage_cleanup_decrement o cs epr).
Proof using Hcs Hw Hepr Hst.
  intros lo b0 f1 f2 c s Hc Hp _. pose proof (block_index c Hc) as Hix. unfold stage_cleanup_decrement. cbv zeta. apply gives_bind, gives_get. apply gives_bind.
  destruct (find_slot_off (gs_cleanup _) _) as [off|] eqn:Ef.
  { apply gives_ret. apply find_slot_off_Some in Ef. eapply phase_set_dec; try done. intros b' Hp'. cbn [upd_scratch sg_slots].
    split; [done|]. split; [done|]. split; [by exists off | done]. }
  destruct (_ <=? _); [apply gives_no_room|]. eapply phase_alloc; [done|]. intros Hroom. apply gives_bind.
  pose proof (so_range _ _ _ _ _ _ (ph_slots _ _ _ _ _ _ _ _ _ Hp)) as Hr.
  destruct (find_slot_off (gs_overlap _) _) as [src_off|] eqn:Eo.
  - apply find_slot_off_Some in Eo. destruct (so_in _ _ _ _ _ _ (ph_slots _ _ _ _ _ _ _ _ _ Hp) false _ _ Eo) as [Hx1 Hx2].
    apply gives_bind. apply gives_read; [lia | lia | cbn [bump sg_scratch]; lia|]. cbn [bump sg_scratch]. intros src Hsrc.
    eapply (phase_copy o epr Hcs Hw Hepr old lo b0 _ f1 f2); [exact Hp | exact Eo | intros y; by apply find_slot_off_None | done | done|].
    intros b' Hp'. by apply cleanup_seeded.
  - eapply (phase_ensure _ _ Hcs Hw Hepr _ Hst _ _ _ _ _ _ true); [exact Hp | | done | done|].
    { intros [] x; by apply find_slot_off_None. }
    intros b' Hp'. by apply cleanup_seeded.
Qed.

(** ** Slots of the L1 growth *)

Definition bslot (b : BlockSlot) (t : bool) (x : Z) : Prop :=
  if t then bs_has_decrement b = true /\ bs_final_off b = x else bs_has_increment b = true /\ bs_increment_off b = x.
Definition bview (l : list BlockSlot) (t : bool) (i x : Z) : Prop := exists k b, l !! k = Some b /\ bs_block_idx b = i /\ bslot b t x.
Record bwf (l : list BlockSlot) : Prop := {
  bw_inj : forall k k' b b', l !! k = Some b -> l !! k' = Some b' -> bs_block_idx b = bs_block_idx b' -> k = k';
  bw_used : forall k b, l !! k = Some b -> exists t x, bslot b t x
}.

Lemma find_block_slot_spec l i :
  match find_block_slot l i with
  | Some k => exists b, l !! k = Some b /\ bs_block_idx b = i
  | None => forall k b, l !! k = Some b -> bs_block_idx b <> i
  end.
Proof.
  induction l as [|b l IH]; cbn [find_block_slot]; [intros [] ? [=]|]. destruct (Z.eqb_spec (bs_block_idx b) i) as [E|E]; [by exists b|].
  destruct (find_block_slot l i); cbn; [exact IH|]. intros [|k] b'; cbn; [by intros [= <-]|apply IH].
Qed.

Lemma bview_at l k b t x : bwf l -> l !! k = Some b -> bview l t (bs_block_idx b) x <-> bslot b t x.
Proof.
  intros Hwf Hk. split; [|intros H; by exists k, b]. intros (k' & b' & Hk' & Hi & Hs).
  rewrite (bw_inj _ Hwf _ _ _ _ Hk' Hk Hi) in Hk'. by rewrite Hk in Hk'; injection Hk' as ->.
Qed.

Lemma bview_set l k b b' t i x : bwf l -> l !! k = Some b -> bs_block_idx b' = bs_block_idx b ->
  bview (<[k := b']> l) t i x <-> (i = bs_block_idx b /\ bslot b' t x) \/ (i <> bs_block_idx b /\ bview l t i x).
Proof.
  intros Hwf Hk Hi. pose proof (lookup_lt_Some _ _ _ Hk) as Hlt. split.
  - intros (k' & c & Hk' & Hic & Hs). destruct (decide (k = k')) as [<-|Hne].
    + rewrite list_lookup_insert_eq in Hk' by done. injection Hk' as <-. left. split; [congruence|done].
    + rewrite list_lookup_insert_ne in Hk' by done. right. split; [|by exists k', c].
      intros E. apply Hne. apply (bw_inj _ Hwf _ _ _ _ Hk Hk'). congruence.
  - intros [[-> Hs]|[Hne (k' & c & Hk' & Hic & Hs)]].
    + exists k, b'. rewrite list_lookup_insert_eq by done. done.
    + exists k', c. rewrite list_lookup_insert_ne; [done|]. intros <-. rewrite Hk in Hk'. congruence.
Qed.

Lemma bwf_set l k b b' : bwf l -> l !! k = Some b -> bs_block_idx b' = bs_block_idx b -> (exists t x, bslot b' t x) -> bwf (<[k := b']> l).
Proof.
  intros Hwf Hk Hi Hu. pose proof (lookup_lt_Some _ _ _ Hk) as Hlt.
  assert (forall k' c, <[k := b']> l !! k' = Some c -> exists c', l !! k' = Some c' /\ bs_block_idx c' = bs_block_idx c) as Hback.
  { intros k' c Hk'. destruct (decide (k = k')) as [<-|]; [rewrite list_lookup_insert_eq in Hk' by done; injection Hk' as <-; by exists b|].
    rewrite list_lookup_insert_ne in Hk' by done. by exists c. }
  split.
  - intros k1 k2 c1 c2 (c1' & H1 & E1)%Hback (c2' & H2 & E2)%Hback E. apply (bw_inj _ Hwf _ _ _ _ H1 H2). congruence.
  - intros k' c Hk'. destruct (decide (k = k')) as [<-|]; [rewrite list_lookup_insert_eq in Hk' by done; by injection Hk' as <-|].
    rewrite list_lookup_insert_ne in Hk' by done. by eapply bw_used.
Qed.

Lemma bview_push l b t i x : bview (l ++ [b]) t i x <-> bview l t i x \/ (i = bs_block_idx b /\ bslot b t x).
Proof.
  unfold bview. split.
  - intros (k & c & [Hk|[Hk Hc]]%lookup_app_Some & Hi & Hs); [left; by exists k, c|]. right.
    apply list_lookup_singleton_Some in Hc as [_ <-]. done.
  - intros [(k & c & Hk & Hi & Hs)|[-> Hs]].
    + exists k, c. split; [by apply lookup_app_l_Some|done].
    + exists (length l), b. split; [by rewrite lookup_app_r, Nat.sub_diag|done].
Qed.

Lemma bwf_push l b : bwf l -> (forall k c, l !! k = Some c -> bs_block_idx c <> bs_block_idx b) -> (exists t x, bslot b t x) -> bwf (l ++ [b]).
Proof.
  intros Hwf Hno Hu. split.
  - intros k1 k2 c1 c2 [H1|[L1 H1]]%lookup_app_Some [H2|[L2 H2]]%lookup_app_Some E.
    + by eapply bw_inj.
    + apply list_lookup_singleton_Some in H2 as [_ <-]. by apply Hno in H1.
    + apply list_lookup_singleton_Some in H1 as [_ <-]. by apply Hno in H2.
    + apply list_lookup_singleton_Some in H1 as [? _]. apply list_lookup_singleton_Some in H2 as [? _]. lia.
  - intros k c [H|[_ H]]%lookup_app_Some; [by eapply bw_used|]. by apply list_lookup_singleton_Some in H as [_ <-].
Qed.

Lemma find_block_at l i :
  match (k ← find_block_slot l i; b ← l !! k; Some (k, b)) with
  | Some (k, b) => l !! k = Some b /\ bs_block_idx b = i
  | None => forall k b, l !! k = Some b -> bs_block_idx b <> i
  end.
Proof. pose proof (find_block_slot_spec l i) as H. destruct (find_block_slot l i) as [k|]; cbn; [|done]. destruct H as (b & Hb & Hi). by rewrite Hb. Qed.

Lemma bview_new l i : (forall k b, l !! k = Some b -> bs_block_idx b <> i) -> forall t x, ~ bview l t i x.
Proof. intros Hno t x (k & b & Hk & Hi & _). by eapply Hno. Qed.

Lemma bview_push_slot l t i x u j y :
  bview (l ++ [mkBlockSlot i x x (negb t) t]) u j y <-> add_slot (bview l) t i x u j y.
Proof.
  rewrite bview_push. unfold add_slot, bslot. cbn. split; (intros [H|H]; [by left | right]).
  - destruct H as [-> H]. destruct u, t; destruct H as [[=] ->]; done.
  - injection H as -> -> ->. by destruct t.
Qed.

Lemma bview_set_slot l k b x u j y : bwf l -> l !! k = Some b -> bs_has_decrement b = false ->
  bview (<[k := mkBlockSlot (bs_block_idx b) (bs_increment_off b) x (bs_has_increment b) true]> l) u j y <-> add_slot (bview l) true (bs_block_idx b) x u j y.
Proof.
  intros Hwf Hk Hd. rewrite (bview_set _ k b) by done. unfold add_slot. destruct (decide (j = bs_block_idx b)) as [->|Hne].
  - rewrite (bview_at _ k b) by done. unfold bslot. cbn. destruct u.
    + rewrite Hd. split; [intros [[_ [_ ->]]|[? _]]; [by right|done] | intros [[[=] _]|[= ->]]; by left].
    + split; [intros [[_ H]|[? _]]; [by left|done] | intros [H|[=]]; by left].
  - split; [intros [[? _]|[_ H]]; [done | by left] | intros [H|[= _ ? _]]; [by right | done]].
Qed.

Lemma stage_increment_claims : claims bview bwf (fun c => stage_increment o cs (c / epr) (c mod epr)).
Proof using Hcs Hw Hepr Hst.
  intros lo b0 f c s Hc Hp Hwf Hno. pose proof (block_index c Hc) as Hix. unfold stage_increment. apply gives_bind, gives_get. pose proof (find_block_at (sg_slots s) (c / epr)) as Hf.
  destruct (_ ≫= _) as [[k b]|].
  - destruct Hf as [Hk Hi]. assert (bs_has_decrement b = false) as Hd.
    { destruct (bs_has_decrement b) eqn:E; [|done]. exfalso. apply (Hno (bs_block_idx b) (bs_final_off b)). by exists k, b. }
    assert (bs_has_increment b = true) as Hin.
    { destruct (bw_used _ Hwf _ _ Hk) as ([] & x & Hx); [by destruct Hx; congruence|by destruct Hx]. }
    rewrite Hin. apply gives_bind. eapply phase_set_inc; [done..|exact Hp | done | by exists k, b | done|].
    intros b' Hp'. rewrite Hd. apply gives_ret. cbn [upd_scratch sg_slots]. split; [exact Hp'|]. split; [done|]. split; [done|].
    split; [|done]. exists (bs_increment_off b), k, b. done.
  - destruct (_ <=? _); [apply gives_no_room|]. eapply phase_alloc; [done|]. intros Hroom. apply gives_bind.
    eapply (phase_ensure _ _ Hcs Hw Hepr _ Hst _ _ _ _ _ _ false); [exact Hp | intros u x; by apply bview_new | done | done|].
    intros b' Hp'. apply gives_bind. eapply phase_set_inc; [done..|exact Hp' | | by right | done|].
    { intros j y [H|[=]]. by eapply Hno. }
    intros b2 Hp2. apply gives_mod. cbn [upd_slots upd_scratch bump sg_slots sg_next].
    pose proof (bview_push_slot (sg_slots s) false (c / epr) (sg_next s)) as Hv.
    split; [|split; [|split; [|split]]].
    + eapply phase_iff; [exact Hv|]. eapply phase_irrel; [..|exact Hp2]; done.
    + apply bwf_push; [done | exact Hf|]. by exists false, (sg_next s).
    + intros j y. rewrite Hv. intros [H|[=]]. by eapply Hno.
    + exists (sg_next s). rewrite Hv. by right.
    + intros j y H. rewrite Hv. by left.
Qed.

Lemma stage_decrement_releases : releases bview bwf (fun c => stage_decrement o cs (c / epr) (c mod epr)).
Proof using Hcs Hw Hepr Hst.
  intros lo b0 f1 f2 c s Hc Hp Hwf. pose proof (block_index c Hc) as Hix. unfold stage_decrement. apply gives_bind, gives_get. pose proof (find_block_at (sg_slots s) (c / epr)) as Hf.
  pose proof (so_range _ _ _ _ _ _ (ph_slots _ _ _ _ _ _ _ _ _ Hp)) as Hr.
  destruct (_ ≫= _) as [[k b]|].
  - destruct Hf as [Hk Hi]. destruct (bs_has_decrement b) eqn:Hd.
    + eapply phase_set_dec; [done..|exact Hp | by exists k, b | done|].
      intros b' Hp'. cbn [upd_scratch sg_slots]. split; [exact Hp'|]. split; [done|]. split; [|done]. exists (bs_final_off b), k, b. done.
    + assert (bs_has_increment b = true) as Hin.
      { destruct (bw_used _ Hwf _ _ Hk) as ([] & x & Hx); [by destruct Hx; congruence|by destruct Hx]. }
      assert (bview (sg_slots s) false (c / epr) (bs_increment_off b)) as Hb by (by exists k, b).
      destruct (so_in _ _ _ _ _ _ (ph_slots _ _ _ _ _ _ _ _ _ Hp) false _ _ Hb) as [Hx1 Hx2].
      eapply phase_alloc; [done|]. intros Hroom. apply gives_bind, gives_read; [lia | lia | cbn [bump sg_scratch]; lia|]. cbn [bump sg_scratch].
      intros src Hsrc. apply gives_bind.
      eapply (phase_copy o epr Hcs Hw Hepr old lo b0 _ f1 f2); [exact Hp | exact Hb | | done | done|].
      { intros y (k' & b' & Hk' & Hi' & Hd' & _). rewrite (bw_inj _ Hwf _ _ _ _ Hk' Hk) in Hk' by congruence. congruence. }
      intros b' Hp'. apply gives_bind. eapply phase_set_dec; [done..|exact Hp' | by right | done|].
      intros b2 Hp2. apply gives_mod. cbn [upd_slots upd_scratch bump sg_slots sg_next]. rewrite Hi.
      pose proof (fun u j y => bview_set_slot _ k b (sg_next s) u j y Hwf Hk Hd) as Hv. rewrite Hi in Hv.
      split; [|split; [|split]].
      * eapply phase_iff; [exact Hv|]. eapply phase_irrel; [..|exact Hp2]; done.
      * eapply bwf_set; [done | done | done|]. by exists true, (sg_next s).
      * exists (sg_next s). rewrite Hv. by right.
      * intros t j y H. rewrite Hv. by left.
  - destruct (_ <=? _); [apply gives_no_room|]. eapply phase_alloc; [done|]. intros Hroom. apply gives_bind.
    eapply (phase_ensure _ _ Hcs Hw Hepr _ Hst _ _ _ _ _ _ true); [exact Hp | intros u x; by apply bview_new | done | done|].
    intros b' Hp'. apply gives_bind. eapply phase_set_dec; [done..|exact Hp' | by right | done|].
    intros b2 Hp2. apply gives_mod. cbn [upd_slots upd_scratch bump sg_slots sg_next].
    pose proof (bview_push_slot (sg_slots s) true (c / epr) (sg_next s)) as Hv.
    split; [|split; [|split]].
    + eapply phase_iff; [exact Hv|]. eapply phase_irrel; [..|exact Hp2]; done.
    + apply bwf_push; [done | exact Hf|]. by exists true, (sg_next s).
    + exists (sg_next s). rewrite Hv. by right.
    + intros t j y H. rewrite Hv. by left.
Qed.
End loops.
