(* ===== verification/ResizeTables.v ===== *)
(** * The tables a growth appends

    The refcount blocks, refcount table entries and L1 region the growth planners of
    [Resize] build in the scratch buffer. *)

From stdpp Require Import base list.
From Stdlib Require Import ZArith Lia.
From S2P Require Import Prelude Bytes Refcount Qcow2 SnapshotWalk ExecBytes Header Create CreateProps Resize ResizeStage ResizeSlots.

(** Refcount 1 below [n] and 0 from there on. *)
Definition ones (n : Z) : Z -> Z := fun c => if c <? n then 1 else 0.

Section tables.
Context (o : Qcow2ResizeOpts) (epr : Z).
#[local] Abbreviation cs := (rz_cluster_size o).
#[local] Abbreviation w := (rz_refcount_bits o).
Context (Hcs : 512 <= cs <= 2 ^ 21) (Hw : valid_width w) (Hepr : epr = cs * 8 / w).

Lemma zero_counts i : block_counts o epr (filled cs 0) i (fun _ => 0).
Proof using Hcs Hw Hepr.
  change (2 ^ 21) with 2097152 in Hcs. split; [apply blen_filled; lia | by apply filled_is_bytes|].
  intros j Hj. apply zero_refcount; [done | lia|]. apply in_block_local with epr; try done. apply blen_filled. lia.
Qed.

(** One new block. *)
Lemma block_entries_spec n j i total blk : 0 <= j -> j + Z.of_nat n = epr ->
  block_counts o epr blk i (fun c => if (c <? Z.min total (i * epr + j)) : bool then 1 else 0) ->
  exists blk', block_entries n j (i * epr) total w blk = Ok blk' /\ block_counts o epr blk' i (ones total).
Proof using Hcs Hw Hepr.
  revert j blk. induction n as [|n IH]; intros j blk Hj Hn Hb; cbn [block_entries].
  - exists blk. split; [done|]. eapply block_counts_ext; [|exact Hb]. intros c Hc. unfold ones. cbv beta.
    destruct (Z.ltb_spec c (Z.min total (i * epr + j))), (Z.ltb_spec c total); done || lia.
  - destruct (Z.ltb_spec (i * epr + j) total).
    + destruct (set_counts o epr Hcs Hw Hepr blk i _ j 1 Hb ltac:(lia) ltac:(lia)) as (b1 & -> & H1). cbn [map_err obind].
      apply IH; [lia | lia|]. eapply block_counts_ext; [|exact H1]. intros c Hc. cbv beta.
      destruct (Z.eqb_spec c (i * epr + j)), (Z.ltb_spec c (Z.min total (i * epr + j))), (Z.ltb_spec c (Z.min total (i * epr + (j + 1)))); done || lia.
    + cbn [obind]. apply IH; [lia | lia|]. eapply block_counts_ext; [|exact Hb]. intros c Hc. cbv beta.
      destruct (Z.ltb_spec c (Z.min total (i * epr + j))), (Z.ltb_spec c (Z.min total (i * epr + (j + 1)))); done || lia.
Qed.

(** All of them. *)
Lemma new_blocks_spec n i E total blocks : is_bytes blocks -> 0 <= i -> 0 <= E -> (E + i + Z.of_nat n) * epr <= u64_max -> blen blocks = (i + Z.of_nat n) * cs ->
  (forall k, i <= k < i + Z.of_nat n -> slice blocks (k * cs) ((k + 1) * cs) = Some (filled cs 0)) ->
  (forall k, 0 <= k < i -> exists blk, slice blocks (k * cs) ((k + 1) * cs) = Some blk /\ block_counts o epr blk (E + k) (ones total)) ->
  exists blocks', new_blocks n i E epr total w cs blocks = Ok blocks' /\ is_bytes blocks' /\ blen blocks' = blen blocks /\
    forall k, 0 <= k < i + Z.of_nat n -> exists blk, slice blocks' (k * cs) ((k + 1) * cs) = Some blk /\ block_counts o epr blk (E + k) (ones total).
Proof using Hcs Hw Hepr.
  pose proof (epr_bounds o epr Hcs Hw Hepr) as Heb. revert i blocks. induction n as [|n IH]; intros i blocks Hb Hi HE Hmax Hl Hz Hdone; cbn [new_blocks].
  - exists blocks. split_and!; try done. intros k Hk. apply Hdone. lia.
  - rewrite Hz by lia. cbn [or_panic obind]. change (2 ^ 24) with 16777216 in Heb.
    assert (E + i <= u64_max) by nia. rewrite (wadd_small E i), (wmul_small (E + i) epr) by (unfold u64_max in *; nia).
    destruct (block_entries_spec (Z.to_nat epr) 0 (E + i) total (filled cs 0)) as (blk & -> & Hc); [lia | lia| |].
    { eapply block_counts_ext; [|apply zero_counts]. intros c Hc. cbv beta. destruct (Z.ltb_spec c (Z.min total ((E + i) * epr + 0))); [lia|done]. }
    cbn [obind]. pose proof (bc_len _ _ _ _ _ Hc) as Hlb.
    destruct (splice_of blocks (i * cs) blk) as (b1 & Hb1 & Hl1); [nia | nia|]. rewrite Hb1. cbn [or_panic obind].
    assert (forall k, k <> i -> slice b1 (k * cs) ((k + 1) * cs) = slice blocks (k * cs) ((k + 1) * cs)) as Hother.
    { intros k Hk. apply (slice_splice_ne _ _ _ _ _ _ Hb1). nia. }
    destruct (IH (i + 1) b1) as (blocks' & -> & Hb' & Hl' & Hall); try lia.
    + exact (splice_is_bytes _ _ _ _ Hb (bc_bytes _ _ _ _ _ Hc) Hb1).
    + intros k Hk. rewrite Hother by lia. apply Hz. lia.
    + intros k Hk. destruct (decide (k = i)) as [->|]; [|rewrite Hother by lia; apply Hdone; lia].
      exists blk. split; [|done]. pose proof (slice_splice_eq _ _ _ _ Hb1) as He. rewrite Hlb in He. by replace ((i + 1) * cs) with (i * cs + cs) by lia.
    + exists blocks'. split_and!; [done | done | lia|]. intros k Hk. apply Hall. lia.
Qed.

(** The entries of the new blocks. *)
Lemma table_entries_spec n i E base table : is_bytes table -> 0 <= i -> 0 <= E -> (E + i + Z.of_nat n) * 8 <= blen table -> slice_fits table ->
  (forall k, i <= k < i + Z.of_nat n -> is_u64 (base + k * cs)) ->
  exists table', table_entries n i E base cs table = Ok table' /\ is_bytes table' /\ blen table' = blen table /\
    (forall k, i <= k < i + Z.of_nat n -> u64_at table' (8 * (E + k)) = base + k * cs) /\
    (forall k, 0 <= k < E + i -> u64_at table' (8 * k) = u64_at table (8 * k)).
Proof using Hcs.
  revert i table. induction n as [|n IH]; intros i table Hb Hi HE Hl Hf Hoff; cbn [table_entries].
  - exists table. split_and!; try done. intros; lia.
  - unfold slice_fits in Hf. pose proof (Hoff i ltac:(lia)) as Hoi. unfold is_u64 in Hoi.
    rewrite (wadd_small E i), (wmul_small (E + i) 8) by (unfold u64_max; lia).
    destruct (Z.ltb_spec (blen table) ((E + i) * 8 + 8)); [lia|].
    assert (0 <= base + i * cs <= u64_max) as Hb0 by done.
    assert (wadd base (wmul i cs) = base + i * cs) as ->.
    { unfold wadd, wmul. rewrite Z.add_mod_idemp_r by done. apply Z.mod_small. unfold u64_max in Hb0. lia. }
    unfold write_be_u64. destruct (splice_of table ((E + i) * 8) (be_bytes 8 (base + i * cs))) as (t1 & Ht1 & Hl1); [lia | rewrite blen_be_bytes; lia|].
    rewrite Ht1. cbn [or_panic obind].
    destruct (IH (i + 1) t1) as (t' & -> & Hb' & Hl' & Hnew & Hold); try lia.
    + by eapply splice_is_bytes; [exact Hb | apply be_bytes_is_bytes|].
    + unfold slice_fits. lia.
    + intros k Hk. apply Hoff. lia.
    + exists t'. split_and!; [done | done | lia | |].
      * intros k Hk. destruct (decide (k = i)) as [->|]; [|apply Hnew; lia]. rewrite Hold by lia. replace (8 * (E + i)) with ((E + i) * 8) by lia.
        eapply u64_at_put; [exact Ht1|done].
      * intros k Hk. rewrite Hold by lia. apply u64_at_same. eapply slice_splice_ne; [exact Ht1|]. rewrite blen_be_bytes. lia.
Qed.
End tables.
