(* ===== verification/ResizeGrow.v ===== *)
(** * The plans of a growth

    What the three growth planners of [Resize] put into their plans: the appended
    structures, the refcount blocks written before the header, the header, and the
    refcount blocks written after it. *)

From stdpp Require Import base list.
From Stdlib Require Import ZArith Lia.
From S2P Require Import Prelude Bytes Refcount Qcow2 SnapshotWalk ExecBytes Header Create CreateProps CreateHeader Resize ResizeSize ResizeStage ResizeSlots ResizeTables.

(** What a resize is given: the geometry of the image, its L1 table, its refcount table of
    [E] blocks and the blocks staged from it. *)
Record growable (o : Qcow2ResizeOpts) (bits epr E : Z) (old : Z -> Z) : Prop := {
  gr_bits : 9 <= bits <= 21;
  gr_cs : rz_cluster_size o = 2 ^ bits;
  gr_width : valid_width (rz_refcount_bits o);
  gr_epr : epr = rz_cluster_size o * 8 / rz_refcount_bits o;
  gr_file : 0 <= current_file_size o <= 2 ^ 50;
  gr_aligned : current_file_size o mod rz_cluster_size o = 0;
  gr_l1 : is_bytes (existing_l1_bytes o) /\ blen (existing_l1_bytes o) = current_l1_entries o * 8;
  gr_l1_entries : 0 <= current_l1_entries o <= QCOW2_MAX_L1_SIZE_ENTRIES;
  gr_l1_place : 0 <= current_l1_table_offset o <= current_file_size o;
  gr_table : is_bytes (existing_refcount_table_bytes o) /\
    blen (existing_refcount_table_bytes o) = current_refcount_table_clusters o * rz_cluster_size o;
  gr_table_clusters : 1 <= current_refcount_table_clusters o <= u32_max;
  gr_table_place : 0 <= current_refcount_table_offset o /\
    current_refcount_table_offset o + current_refcount_table_clusters o * rz_cluster_size o <= current_file_size o;
  gr_blocks : 0 <= E /\ E * 8 <= current_refcount_table_clusters o * rz_cluster_size o /\ E * rz_cluster_size o <= current_file_size o;
  gr_staged : staged_ok o epr old;
  gr_path : forall p, rz_backing_file o = Some p -> is_bytes p /\ slice_fits p;
  gr_format : forall f, rz_backing_format o = Some f -> is_bytes f /\ slice_fits f
}.

(** A patch that writes block [i] of the image, with the refcounts [f]. *)
Definition block_write (o : Qcow2ResizeOpts) (epr : Z) (f : Z -> Z) (i : Z) (p : ResizePatch) : Prop :=
  0 <= i <= 2 ^ 60 /\ exists off blk, block_offset_in_file (existing_refcount_table_bytes o) i = Ok off /\ p = PWrite off blk /\ block_counts o epr blk i f.

(** [m] returns [Q] or one of the planner's errors. *)
Definition builds {A} (m : outcome ResizeError A) (Q : A -> Prop) : Prop :=
  match m with Ok a => Q a | Err e => plan_error e | _ => False end.

Lemma builds_bind {A B} (m : outcome ResizeError A) (k : A -> outcome ResizeError B) Q :
  builds m (fun a => builds (k a) Q) -> builds (let? x := m in k x) Q.
Proof. by destruct m. Qed.

Lemma builds_mono {A} (m : outcome ResizeError A) (Q Q' : A -> Prop) : builds m Q -> (forall a, Q a -> Q' a) -> builds m Q'.
Proof. destruct m; cbn; auto. Qed.

Lemma gives_lift {S A} (m : outcome ResizeError A) (s : S) (Q : A -> S -> Prop) : builds m (fun a => Q a s) -> gives (slift m) s Q.
Proof. intros H. apply wp_lift. by destruct m. Qed.

Lemma builds_push p patch (Q : ResizePlan -> Prop) :
  Q (mkResizePlan (rp_total_file_size p) (rp_action p) (rp_patches p ++ [patch])) -> builds (plan_push p patch) Q.
Proof. intros H. unfold plan_push. destruct (_ <=? _); [by left|exact H]. Qed.

Section plans.
Context (o : Qcow2ResizeOpts) (bits epr E : Z) (old : Z -> Z) (Hg : growable o bits epr E old).
#[local] Abbreviation cs := (rz_cluster_size o).
#[local] Abbreviation w := (rz_refcount_bits o).
#[local] Abbreviation fs := (current_file_size o).
#[local] Abbreviation table := (existing_refcount_table_bytes o).

Lemma gr_cs_bounds : 512 <= cs <= 2 ^ 21.
Proof using Hg. rewrite (gr_cs _ _ _ _ _ Hg). exact (proj2 (cluster_size_pow _ (gr_bits _ _ _ _ _ Hg))). Qed.

(** ** Pushing the slots *)

Lemma block_offset_builds i : 0 <= i <= 2 ^ 60 ->
  builds (block_offset_in_file table i) (fun off => block_offset_in_file table i = Ok off).
Proof using.
  intros Hi. change (2 ^ 60) with 1152921504606846976 in Hi. unfold block_offset_in_file.
  rewrite (wmul_small i 8), (wadd_small (i * 8) 8) by (unfold u64_max; lia).
  destruct (Z.ltb_spec (blen table) (i * 8 + 8)); [by left|]. destruct (be_u64_ok (E := ResizeError) table (i * 8)) as (s & _ & ->); [lia | lia|].
  cbn [obind]. destruct (_ =? _); [by right|done].
Qed.

Lemma push_slots_spec {A} (idx off : A -> Z) (sel : A -> bool) f b slots plan :
  (forall x, x ∈ slots -> sel x = true -> 0 <= idx x <= 2 ^ 60 /\ slot_holds o epr b (off x) (idx x) f) ->
  builds (push_slots o b idx off sel slots plan) (fun plan' => exists Bs ps,
    rp_patches plan' = rp_patches plan ++ ps /\ rp_total_file_size plan' = rp_total_file_size plan /\ rp_action plan' = rp_action plan /\
    Forall2 (block_write o epr f) Bs ps /\ (forall x, x ∈ slots -> sel x = true -> idx x ∈ Bs)).
Proof using.
  revert plan. induction slots as [|x slots IH]; intros plan Hs; cbn [push_slots].
  - exists [], []. rewrite app_nil_r. split_and!; try done. intros x Hx. by apply elem_of_nil in Hx.
  - assert (forall y, y ∈ slots -> sel y = true -> 0 <= idx y <= 2 ^ 60 /\ slot_holds o epr b (off y) (idx y) f) as Hs' by (intros y Hy; apply Hs; by right).
    destruct (sel x) eqn:Esel.
    + destruct (Hs x ltac:(left) Esel) as [Hi (blk & Hsl & Hc)]. apply builds_bind. eapply builds_mono; [by apply block_offset_builds|].
      intros foff Hfoff. rewrite Hsl. cbn [or_panic obind]. apply builds_bind, builds_push.
      eapply builds_mono; [by apply IH|]. cbn [rp_patches rp_total_file_size rp_action]. intros p2 (Bs & ps & H1 & H2 & H3 & H4 & H5).
      exists (idx x :: Bs), (PWrite foff blk :: ps). rewrite H1, <- app_assoc. split_and!; try done.
      * constructor; [|done]. split; [done|]. by exists foff, blk.
      * intros y [->|Hy]%elem_of_cons Hsy; [left|]. right. auto.
    + eapply builds_mono; [by apply IH|]. intros p2 (Bs & ps & H1 & H2 & H3 & H4 & H5). exists Bs, ps. split_and!; try done.
      intros y [->|Hy]%elem_of_cons Hsy; [congruence|]. auto.
Qed.

(** ** The header and the L1 region *)

Lemma put_header_gives {A} l (s : Staged A) (Q : Z -> Staged A -> Prop) : header_fields_ok l -> ly_cluster_size l = cs ->
  is_bytes (sg_scratch s) -> cs <= blen (sg_scratch s) ->
  (forall h b', blen h = cs -> is_bytes h -> header_at h = created_header (resize_header o l) -> slice b' 0 cs = Some h ->
    scr_frame 0 cs (sg_scratch s) b' -> Q cs (upd_scratch b' s)) ->
  gives (put_header o l) s Q.
Proof using Hg.
  intros Hl Hlc Hb Hroom HQ. pose proof gr_cs_bounds as Hcs. unfold put_header. apply gives_bind, gives_read; [lia | lia | lia|].
  rewrite Z.add_0_l. intros buf Hbuf. pose proof (slice_blen _ _ _ _ Hbuf) as Hlb. apply gives_bind, gives_lift.
  assert (opts_ok (resize_header o l)) as Ho.
  { split; [done | exact (gr_path _ _ _ _ _ Hg) | exact (gr_format _ _ _ _ _ Hg)]. }
  pose proof (created_header_spec (resize_header o l) Ho buf) as Hh. unfold hcs in Hh. cbn [resize_header bh_layout] in Hh. rewrite Hlc in Hh.
  specialize (Hh ltac:(lia)). fold (resize_header o l) in Hh. change (mkBuildHeaderOptions l _ _ _ None) with (resize_header o l) in Hh. destruct (_ <=? _); [|rewrite Hh; cbn; by left].
  destruct Hh as (h & -> & Lh & Bh & Hat & _). cbn [map_err builds]. apply gives_bind, gives_put; [done | done | lia | lia|].
  intros b' Hsp Hf. apply gives_ret. rewrite Lh, ?Z.add_0_l in *. apply (HQ h); try done.
  pose proof (slice_splice_eq _ _ _ _ Hsp) as He. by rewrite Lh, Z.add_0_l in He.
Qed.

(** The old entries, then zeros. *)
Definition l1_region (n : Z) : bytes := existing_l1_bytes o ++ filled (n - current_l1_entries o * 8) 0.

Lemma l1_region_blen n : current_l1_entries o * 8 <= n -> blen (l1_region n) = n.
Proof using Hg. intros Hn. unfold l1_region. rewrite blen_app, blen_filled by lia. rewrite (proj2 (gr_l1 _ _ _ _ _ Hg)). lia. Qed.

Lemma l1_region_bytes n : is_bytes (l1_region n).
Proof using Hg. unfold l1_region. apply Forall_app. split; [exact (proj1 (gr_l1 _ _ _ _ _ Hg)) | by apply filled_is_bytes]. Qed.

Lemma put_l1_gives {A} off n (s : Staged A) (Q : unit -> Staged A -> Prop) : is_bytes (sg_scratch s) -> 0 <= off ->
  current_l1_entries o * 8 <= n -> off + n <= blen (sg_scratch s) ->
  (forall b', slice b' off (off + n) = Some (l1_region n) -> scr_frame off (off + n) (sg_scratch s) b' -> Q tt (upd_scratch b' s)) ->
  gives (put_l1 o off n) s Q.
Proof using Hg.
  intros Hb Ho Hn Hroom HQ. unfold put_l1. destruct (gr_l1 _ _ _ _ _ Hg) as [Hlb Hll]. pose proof (gr_l1_entries _ _ _ _ _ Hg) as He.
  unfold QCOW2_MAX_L1_SIZE_ENTRIES in He. rewrite (wmul_small (current_l1_entries o) 8) by (unfold u64_max; lia). rewrite Hll, Z.min_id.
  apply gives_bind, gives_put; [done | by apply filled_is_bytes | done | rewrite blen_filled by lia; lia|]. rewrite blen_filled by lia.
  intros b1 Hb1 Hf1. apply gives_bind, gives_lift. rewrite <- Hll, slice_full. cbn [or_panic builds].
  apply gives_bind, gives_read; cbn [upd_scratch sg_scratch]; [lia | lia | rewrite (sf_len _ _ _ _ Hf1); lia|]. intros l1_buf Hl1.
  pose proof (slice_splice_eq _ _ _ _ Hb1) as Hz. rewrite blen_filled in Hz by lia. rewrite Hz in Hl1. injection Hl1 as <-.
  destruct (splice_of (filled n 0) 0 (existing_l1_bytes o)) as (r & Hr & Lr); [lia | rewrite blen_filled; lia|].
  apply gives_bind, gives_lift. rewrite Hr. cbn [or_panic builds]. rewrite blen_filled in Lr by lia.
  assert (r = l1_region n) as ->.
  { apply splice_Some in Hr as (_ & _ & ->). unfold l1_region, filled. change (Z.to_nat 0) with 0%nat.
    rewrite take_0, app_nil_l, drop_replicate. do 2 f_equal. unfold blen in Hll. lia. }
  apply gives_put; cbn [upd_scratch sg_scratch]; [by destruct Hf1 | apply l1_region_bytes | done | rewrite (sf_len _ _ _ _ Hf1); lia|]. rewrite Lr.
  intros b2 Hb2 Hf2. apply HQ; [|by eapply scr_frame_trans]. pose proof (slice_splice_eq _ _ _ _ Hb2) as He2. by rewrite Lr in He2.
Qed.

(** ** The plans *)

Definition plan_shape (p : ResizePlan) (total : Z) (app : list ResizePatch) (l : Qcow2Layout) (f1 f2 : Z -> Z) (claimed freed : Z -> Prop) : Prop :=
  exists hdr pre post B1 B2, rp_action p = Grow /\ rp_total_file_size p = total /\ rp_patches p = app ++ pre ++ PWrite 0 hdr :: post /\
    blen hdr = cs /\ is_bytes hdr /\ header_at hdr = created_header (resize_header o l) /\
    Forall2 (block_write o epr f1) B1 pre /\ Forall2 (block_write o epr f2) B2 post /\
    (forall c, claimed c -> c / epr ∈ B1) /\ (forall c, freed c -> c / epr ∈ B2).

Lemma cluster_bits_pow : cluster_bits_from cs = Ok bits.
Proof using Hg.
  rewrite (gr_cs _ _ _ _ _ Hg). pose proof (gr_bits _ _ _ _ _ Hg) as Hb.
  assert (forallb (fun n => match cluster_bits_from (2 ^ Z.of_nat n) with Ok b => b =? Z.of_nat n | _ => false end) (seq 9 13) = true) as Hall by (vm_compute; reflexivity).
  rewrite forallb_forall in Hall. specialize (Hall (Z.to_nat bits) ltac:(apply in_seq; lia)). rewrite Z2Nat.id in Hall by lia.
  destruct (cluster_bits_from _) as [b| | |]; try done. apply Z.eqb_eq in Hall. by rewrite Hall.
Qed.

Lemma bits_or_panic_ok : bits_or_panic o = Ok bits.
Proof using Hg. unfold bits_or_panic. by rewrite cluster_bits_pow. Qed.

(** The new size and number of L1 entries. *)
Record grow_target (vs n : Z) : Prop := {
  gt_size : is_u64 vs;
  gt_entries : current_l1_entries o <= n <= QCOW2_MAX_L1_SIZE_ENTRIES;
  gt_needed : div_ceil vs (l2_coverage_of bits (rz_extended_l2 o)) <= QCOW2_MAX_L1_SIZE_ENTRIES
}.

Lemma header_layout_fields vs n l1_off t_off tc : grow_target vs n -> is_u64 l1_off -> is_u64 t_off -> is_u32 tc ->
  header_fields_ok (header_layout o bits vs n l1_off t_off tc).
Proof using Hg.
  intros [H1 H2 H3] H4 H5 H6. pose proof (gr_l1_entries _ _ _ _ _ Hg). unfold QCOW2_MAX_L1_SIZE_ENTRIES in *.
  split; try done; [exact (gr_bits _ _ _ _ _ Hg) | exact (gr_cs _ _ _ _ _ Hg) | exact (gr_width _ _ _ _ _ Hg)|].
  cbn [header_layout ly_l1_entries]. unfold QCOW2_MAX_L1_SIZE_ENTRIES. lia.
Qed.

Lemma l1_clusters_bounds n : 0 <= n <= QCOW2_MAX_L1_SIZE_ENTRIES -> 1 <= l1_clusters_of n cs <= 65536 /\ n * 8 <= l1_clusters_of n cs * cs.
Proof using Hg.
  intros Hn. unfold QCOW2_MAX_L1_SIZE_ENTRIES in Hn. pose proof gr_cs_bounds as Hcs. unfold l1_clusters_of. rewrite wmul_small by (unfold u64_max; lia).
  destruct (div_ceil_spec (n * 8) cs ltac:(lia)) as [Hge _]. pose proof (div_ceil_le (n * 8) cs 65536 ltac:(lia) ltac:(lia)) as Hle. split; [lia|].
  pose proof (Z.le_max_l (div_ceil (n * 8) cs) 1). nia.
Qed.

(** The header alone, whatever the size of the file. *)
Lemma plan_header_only_gives n b : is_bytes b -> is_u64 (new_virtual_size o) ->
  div_ceil (new_virtual_size o) (l2_coverage_of bits (rz_extended_l2 o)) <= QCOW2_MAX_L1_SIZE_ENTRIES ->
  gives (plan_header_only (with_file_size o n)) (mkStaged b 0 tt) (fun p _ => plan_shape p n [] (header_layout o bits (new_virtual_size o) (current_l1_entries o)
    (current_l1_table_offset o) (current_refcount_table_offset o) (current_refcount_table_clusters o)) old old (fun _ => False) (fun _ => False)).
Proof using Hg.
  intros Hb Hvs Hneed. pose proof (gr_file _ _ _ _ _ Hg) as Hfs. pose proof (gr_l1_place _ _ _ _ _ Hg). pose proof (gr_table_place _ _ _ _ _ Hg).
  pose proof (gr_table_clusters _ _ _ _ _ Hg) as Htc. change (2 ^ 50) with 1125899906842624 in Hfs. pose proof gr_cs_bounds as Hcs.
  unfold plan_header_only. change (rz_cluster_size (with_file_size o n)) with cs. change (new_virtual_size (with_file_size o n)) with (new_virtual_size o).
  change (synthetic_current_layout (with_file_size o n)) with (synthetic_current_layout o). change (@put_header unit (with_file_size o n)) with (@put_header unit o).
  apply gives_bind, gives_get. cbn [sg_scratch]. destruct (Z.ltb_spec (blen b) cs); [apply gives_no_room|].
  apply gives_bind. eapply gives_ok. { unfold synthetic_current_layout. rewrite bits_or_panic_ok. cbn [obind]. reflexivity. }
  apply gives_bind. apply put_header_gives; [|done | done | done|].
  { apply header_layout_fields; [|unfold is_u64, u64_max; nia|unfold is_u64, u64_max; nia | unfold is_u32; lia].
    split; [done | pose proof (gr_l1_entries _ _ _ _ _ Hg); lia | done]. }
  intros h b' Lh Bh Hat Hsl Hf. apply gives_bind, gives_read; [lia | lia | cbn [upd_scratch sg_scratch]; rewrite (sf_len _ _ _ _ Hf); cbn [sg_scratch]; lia|].
  cbn [upd_scratch sg_scratch]. rewrite Z.add_0_l, Hsl. intros hb [= <-]. apply gives_lift, builds_push.
  exists h, [], [], [], []. cbn [plan_new rp_action rp_total_file_size rp_patches]. split_and!; try done; constructor.
Qed.

(** The slots of a phase, as patches. *)
Lemma push_phase {A B} (t : bool) lo b0 P f1 f2 (s : Staged A) b4 (slots : list B) idx off sel plan :
  phase o epr old lo b0 P f1 f2 s -> cs <= lo -> scr_frame 0 cs (sg_scratch s) b4 ->
  (forall x, x ∈ slots -> sel x = true -> P t (idx x) (off x)) ->
  (forall i y, P t i y -> exists x, x ∈ slots /\ sel x = true /\ idx x = i) ->
  builds (push_slots o b4 idx off sel slots plan) (fun plan' => exists Bs ps,
    rp_patches plan' = rp_patches plan ++ ps /\ rp_total_file_size plan' = rp_total_file_size plan /\ rp_action plan' = rp_action plan /\
    Forall2 (block_write o epr (if t then f2 else f1)) Bs ps /\ (forall i y, P t i y -> i ∈ Bs)).
Proof using.
  intros [Hso _ _ _] Hlo Hf Hin Hall. eapply builds_mono.
  - apply (push_slots_spec idx off sel (if t then f2 else f1)). intros x Hx Hs. specialize (Hin x Hx Hs). split; [by eapply so_idx|].
    destruct (so_in _ _ _ _ _ _ Hso _ _ _ Hin). eapply slot_holds_frame; [exact Hf | lia|]. exact (so_holds _ _ _ _ _ _ Hso _ _ _ Hin).
  - intros p2 (Bs & ps & H1 & H2 & H3 & H4 & H5). exists Bs, ps. split_and!; try done.
    intros i y Hp. destruct (Hall i y Hp) as (x & Hx & Hs & <-). auto.
Qed.

Lemma bview_selected (t : bool) l : (forall x, x ∈ l -> (if t then bs_has_decrement x else bs_has_increment x) = true ->
    bview l t (bs_block_idx x) (if t then bs_final_off x else bs_increment_off x)) /\
  (forall i y, bview l t i y -> exists x, x ∈ l /\ (if t then bs_has_decrement x else bs_has_increment x) = true /\ bs_block_idx x = i).
Proof using.
  split.
  - intros x [k Hk]%list_elem_of_lookup Hs. exists k, x. split; [done|]. split; [done|]. by destruct t.
  - intros i y (k & x & Hk & Hi & Hs). exists x. split; [by eapply list_elem_of_lookup_2|]. split; [by destruct t; destruct Hs|done].
Qed.

Lemma gview_selected (t : bool) g : (forall x : Z * Z, x ∈ (if t then gs_cleanup g else gs_overlap g) -> true = true -> gview g t x.1 x.2) /\
  (forall i y, gview g t i y -> exists x : Z * Z, x ∈ (if t then gs_cleanup g else gs_overlap g) /\ true = true /\ x.1 = i).
Proof using. split; [by intros [i y] Hx _ | intros i y H; by exists (i, y)]. Qed.

(** A new L1 table, in the refcount blocks there are. *)
Lemma plan_l1_grow_gives t b : is_bytes b -> grow_target (new_virtual_size o) (ly_l1_entries t) ->
  let L := l1_clusters_of (ly_l1_entries t) cs in let a := fs / cs in
  let L0 := l1_clusters_of (current_l1_entries o) cs in let a0 := current_l1_table_offset o / cs in
  gives (plan_l1_grow o t) (mkStaged b 0 []) (fun p _ => plan_shape p (fs + L * cs) [PAppend fs (l1_region (L * cs))]
    (header_layout o bits (new_virtual_size o) (ly_l1_entries t) fs (current_refcount_table_offset o) (current_refcount_table_clusters o))
    (fill a (a + L) 1 old) (fill a0 (a0 + L0) 0 (fill a (a + L) 1 old)) (fun c => a <= c < a + L) (fun c => a0 <= c < a0 + L0)).
Proof using Hg.
  intros Hb Ht L a L0 a0. pose proof (gt_entries _ _ Ht) as Hn. pose proof (gr_l1_entries _ _ _ _ _ Hg) as Hn0.
  destruct (l1_clusters_bounds (ly_l1_entries t) ltac:(lia)) as [HL HLe]. destruct (l1_clusters_bounds (current_l1_entries o) ltac:(lia)) as [HL0 _].
  fold L in HL, HLe. fold L0 in HL0. pose proof gr_cs_bounds as Hcs. pose proof Hcs as Hcs'. change (2 ^ 21) with 2097152 in Hcs'.
  pose proof (gr_file _ _ _ _ _ Hg) as Hfs. change (2 ^ 50) with 1125899906842624 in Hfs. pose proof (gr_l1_place _ _ _ _ _ Hg) as Hl1p.
  pose proof (gr_table_place _ _ _ _ _ Hg) as Htp. pose proof (gr_table_clusters _ _ _ _ _ Hg) as Htc. pose proof (gr_width _ _ _ _ _ Hg) as Hw.
  pose proof (valid_width_range w Hw) as Hwr. pose proof (gr_epr _ _ _ _ _ Hg) as Hepr. pose proof (gr_staged _ _ _ _ _ Hg) as Hst.
  assert (0 <= a <= fs / 512) as Ha by (unfold a; split; [apply Z.div_pos; lia | apply Z.div_le_compat_l; lia]).
  assert (0 <= a0 <= fs / 512) as Ha0.
  { unfold a0. split; [apply Z.div_pos; lia|]. etrans; [apply Z.div_le_mono; [lia | apply Hl1p]|]. apply Z.div_le_compat_l; lia. }
  assert (fs / 512 <= 4503599627370496) as Hdiv by (apply Z.div_le_upper_bound; lia).
  assert (L * cs <= 65536 * 2097152) as HLcs by (apply Z.mul_le_mono_nonneg; lia).
  unfold plan_l1_grow. fold L L0 a a0. rewrite (wmul_small L cs), (wmul_small cs 8) by (unfold u64_max; lia).
  rewrite (wadd_small fs (L * cs)) by (unfold u64_max; lia).
  apply gives_bind. eapply gives_ok. { unfold udiv. rewrite (proj2 (Z.eqb_neq w 0)) by lia. by rewrite <- Hepr. }
  apply gives_bind, gives_get. cbn [sg_scratch]. destruct (Z.ltb_spec (blen b) (cs + L * cs)); [apply gives_no_room|].
  apply gives_bind. apply put_l1_gives; [done | lia | lia | done|]. intros b1 Hl1 Hf1. cbn [sg_scratch] in Hf1. pose proof (sf_len _ _ _ _ Hf1) as Lb1.
  apply gives_bind, gives_mod. cbn [upd_scratch sg_scratch]. apply gives_bind.
  eapply gives_mono.
  { apply (claim_loop o epr old bview bwf _ (cs + L * cs) b1 a); [by apply stage_increment_claims | lia | lia|].
    split; [lia | | split; by intros | by intros i y (k & c & Hk & _) | intros; lia]. split.
    - split; cbn [sg_scratch sg_next sg_slots]; [by destruct Hf1 | lia | ..]; intros *; intros (k & c & Hk & _); done.
    - apply scr_frame_refl. by destruct Hf1.
    - intros c _. apply fill_empty.
    - done. }
  intros u s2 H2. rewrite Z2Nat.id in H2 by lia. apply gives_bind. eapply gives_mono.
  { apply (release_loop o epr old bview bwf _ (cs + L * cs) b1 (fill a (a + L) 1 old) (fill a (a + L) 1 old) (fun c => a <= c < a + L) (fun _ => False) a0 _ s2); [by apply stage_decrement_releases | lia | lia|].
    by eapply claimed_released. }
  intros u' s3 H3. rewrite Z2Nat.id in H3 by lia. pose proof (re_phase _ _ _ _ _ _ _ _ _ _ _ _ _ _ H3) as Hph.
  pose proof (ph_slots _ _ _ _ _ _ _ _ _ Hph) as Hso. pose proof (ph_frame _ _ _ _ _ _ _ _ _ Hph) as Hfr.
  apply gives_bind. eapply gives_ok. { unfold synthetic_layout_after_l1_grow. rewrite bits_or_panic_ok. cbn [obind]. reflexivity. }
  apply gives_bind. apply put_header_gives; [|done | by destruct Hfr | rewrite (sf_len _ _ _ _ Hfr); lia|].
  { apply header_layout_fields; [done | unfold is_u64, u64_max; lia | unfold is_u64, u64_max; nia | unfold is_u32; lia]. }
  intros h b4 Lh Bh Hat Hsl Hf4. apply gives_bind, gives_get. cbn [upd_scratch sg_scratch sg_slots]. apply gives_lift.
  rewrite (sf_slice _ _ _ _ Hf4), (sf_slice _ _ _ _ Hfr), Hl1 by lia. cbn [or_panic obind]. apply builds_bind, builds_push. apply builds_bind.
  destruct (bview_selected false (sg_slots s3)) as [Hb1 Hb2]. destruct (bview_selected true (sg_slots s3)) as [Hc1 Hc2].
  eapply builds_mono; [eapply (push_phase false); [exact Hph | lia | exact Hf4 | exact Hb1 | exact Hb2]|].
  intros p2 (B1 & pre & E1 & E2 & E3 & F1 & C1). rewrite Hsl. cbn [or_panic obind]. apply builds_bind, builds_push.
  eapply builds_mono; [eapply (push_phase true); [exact Hph | lia | exact Hf4 | exact Hc1 | exact Hc2]|].
  intros p3 (B2 & post & G1 & G2 & G3 & F2 & C2). cbn [rp_patches rp_total_file_size rp_action plan_new] in *.
  exists h, pre, post, B1, B2. rewrite G1, G2, G3, E1, E2, E3. split_and!; try done.
  - by rewrite <- !app_assoc.
  - intros c Hc. destruct (re_held _ _ _ _ _ _ _ _ _ _ _ _ _ _ H3 c Hc) as [y Hy]. eauto.
  - intros c Hc. destruct (re_slots _ _ _ _ _ _ _ _ _ _ _ _ _ _ H3 c (or_intror Hc)) as [y Hy]. eauto.
Qed.

(** ** A growth of the refcount structures *)

#[local] Abbreviation rtc := (current_refcount_table_clusters o).
#[local] Abbreviation rt_off := (current_refcount_table_offset o).

(** The layout for [L] clusters of L1 table, [tc] of refcount table and [delta] new blocks. *)
Definition layout_of (L tc delta : Z) : AppendLayout :=
  let reloc := rtc <? tc in
  let tb := if reloc then tc * cs else 0 in
  mkAppendLayout L (L * cs) tc delta reloc (negb reloc && (0 <? delta)) fs (fs + L * cs) tb (fs + L * cs + tb) (delta * cs)
    (fs + L * cs + tb + delta * cs) (if reloc then fs + L * cs else rt_off).

Record append_fits (L tc delta : Z) : Prop := {
  af_l1 : 1 <= L <= 65536;
  af_delta : 0 <= delta;
  af_table : rtc <= tc <= u32_max;
  af_room : (E + delta) * 8 <= tc * cs;
  af_cover : al_total (layout_of L tc delta) / cs <= (E + delta) * epr;
  af_total : al_total (layout_of L tc delta) <= 2 ^ 53;
  af_aligned : al_total (layout_of L tc delta) mod cs = 0;
  af_blocks : E + delta <= 2 ^ 50;
  af_growth : 3968 * (al_total (layout_of L tc delta) - fs - L * cs) <= 65 * (2 * fs + L * cs) + 7998 * cs
}.

Lemma append_layout_ok t : grow_target (new_virtual_size o) (ly_l1_entries t) ->
  let L := l1_clusters_of (ly_l1_entries t) cs in
  exists tc delta, append_layout o t E = Ok (layout_of L tc delta) /\ append_fits L tc delta.
Proof using Hg.
  intros Ht L. pose proof (gt_entries _ _ Ht) as Hn. pose proof (gr_l1_entries _ _ _ _ _ Hg) as Hn0.
  destruct (l1_clusters_bounds (ly_l1_entries t) ltac:(lia)) as [HL _]. fold L in HL. pose proof gr_cs_bounds as Hcs.
  pose proof (gr_file _ _ _ _ _ Hg) as Hfs. pose proof (gr_table_clusters _ _ _ _ _ Hg) as Hrt. pose proof (gr_table_place _ _ _ _ _ Hg) as Htp.
  pose proof (gr_blocks _ _ _ _ _ Hg) as (HE & HE8 & HEf). pose proof (gr_aligned _ _ _ _ _ Hg) as Hal.
  assert (append_request fs cs w L rtc E) as Hr.
  { change (2 ^ 50) with 1125899906842624 in Hfs. change (2 ^ 21) with 2097152 in Hcs.
    split; try done; [exact (gr_width _ _ _ _ _ Hg) | change (2 ^ 61) with 2305843009213693952; lia | change (2 ^ 22) with 4194304; lia | lia | lia]. }
  destruct (append_numbers fs cs w L rtc E Hr ltac:(apply Hfs) ltac:(lia) ltac:(lia) ltac:(lia)) as (bc & tc & total & Hc & H2 & H3 & H4 & H5 & H6 & H7 & H8 & H9).
  pose proof (append_growth _ _ _ _ _ _ _ _ _ Hr ltac:(lia) ltac:(lia) Hc) as Hgrow.
  exists tc, (bc - E). change (2 ^ 53) with 9007199254740992 in H8. change (2 ^ 50) with 1125899906842624 in *. change (2 ^ 21) with 2097152 in Hcs.
  rewrite <- (gr_epr _ _ _ _ _ Hg) in H6.
  assert (0 <= L * cs) by (apply Z.mul_nonneg_nonneg; lia). assert (0 <= (bc - E) * cs) by (apply Z.mul_nonneg_nonneg; lia).
  assert (0 <= (if rtc <? tc then tc * cs else 0)) by (destruct (_ <? _); [apply Z.mul_nonneg_nonneg; lia|lia]).
  assert (fs + L * cs + (if rtc <? tc then tc * cs else 0) + (bc - E) * cs = total * cs) as Htot by (rewrite H5; destruct (_ <? _); lia).
  split.
  - unfold append_layout. fold L. rewrite (wmul_small L cs) by (unfold u64_max; lia). rewrite Hc. cbn [obind].
    replace (sat_sub bc E) with (bc - E) by (unfold sat_sub; lia). rewrite (wmul_small (bc - E) cs) by (unfold u64_max; lia).
    assert ((if rtc <? tc then wmul tc cs else 0) = if rtc <? tc then tc * cs else 0) as ->.
    { destruct (_ <? _); [|done]. apply wmul_small. unfold u64_max. lia. }
    unfold layout_of. rewrite (wadd_small fs (L * cs)) by (unfold u64_max; lia).
    rewrite (wadd_small (fs + L * cs)), (wadd_small _ ((bc - E) * cs)) by (unfold u64_max; lia). done.
  - assert (al_total (layout_of L tc (bc - E)) = total * cs) as Hat by exact Htot.
    split; rewrite ?Hat; replace (E + (bc - E)) with bc by lia; try lia; [by rewrite Z.div_mul by lia | apply Z.mod_mul; lia].
Qed.

(** The staged table: the old entries and those of the new blocks. *)
Record table_spec (L tc delta : Z) (tb : bytes) : Prop := {
  ts_len : blen tb = tc * cs;
  ts_bytes : is_bytes tb;
  ts_old : forall i, 0 <= i < E -> u64_at tb (8 * i) = u64_at table (8 * i);
  ts_new : forall k, 0 <= k < delta -> u64_at tb (8 * (E + k)) = al_blocks_offset (layout_of L tc delta) + k * cs
}.

(** The new blocks: refcount 1 up to the end of the file. *)
Record blocks_spec (L tc delta : Z) (bb : bytes) : Prop := {
  bs_len : blen bb = delta * cs;
  bs_bytes : is_bytes bb;
  bs_counts : forall k, 0 <= k < delta -> exists blk, slice bb (k * cs) ((k + 1) * cs) = Some blk /\
    block_counts o epr blk (E + k) (ones (al_total (layout_of L tc delta) / cs))
}.

(** Sizes of the regions. *)
Lemma append_sizes L tc delta : append_fits L tc delta -> let al := layout_of L tc delta in
  0 <= L * cs /\ 0 <= tc * cs <= 9007199254740991 /\ 0 <= delta * cs /\ fs <= al_table_offset al /\ al_table_offset al + al_table_bytes al = al_blocks_offset al /\
  al_blocks_offset al + delta * cs = al_total al /\ al_total al <= 9007199254740992 /\ fs + L * cs <= al_blocks_offset al.
Proof using Hg.
  intros [H1 H2 H3 H4 H5 H6 H7 H8] al. change (2 ^ 53) with 9007199254740992 in H6. pose proof gr_cs_bounds as Hcs. change (2 ^ 21) with 2097152 in Hcs.
  pose proof (gr_table_clusters _ _ _ _ _ Hg) as Htc. unfold u32_max in *.
  assert (0 <= L * cs) by (apply Z.mul_nonneg_nonneg; lia). assert (0 <= tc * cs) by (apply Z.mul_nonneg_nonneg; lia).
  assert (tc * cs <= 4294967295 * 2097152) by (apply Z.mul_le_mono_nonneg; lia).
  assert (0 <= delta * cs) by (apply Z.mul_nonneg_nonneg; lia). unfold al, layout_of in *. cbn in *. destruct (_ <? _); lia.
Qed.

Lemma put_table_gives L tc delta toff (s : Staged GrowSlots) (Q : unit -> Staged GrowSlots -> Prop) : append_fits L tc delta ->
  is_bytes (sg_scratch s) -> 0 <= toff -> toff + tc * cs <= blen (sg_scratch s) ->
  (forall b' tb, slice b' toff (toff + tc * cs) = Some tb -> table_spec L tc delta tb -> scr_frame toff (toff + tc * cs) (sg_scratch s) b' -> Q tt (upd_scratch b' s)) ->
  gives (put_table o (layout_of L tc delta) E toff (tc * cs)) s Q.
Proof using Hg.
  intros Hf Hb Ho Hroom HQ. destruct (append_sizes L tc delta Hf) as (S1 & S2 & S3 & S4 & S5 & S6 & S7 & S8). cbv zeta in *. destruct Hf as [H1 H2 H3 H4 H5 H6 H7 H8 _].
  pose proof (gr_file _ _ _ _ _ Hg) as Hfs. destruct (gr_table _ _ _ _ _ Hg) as [Htb Htl]. destruct (gr_blocks _ _ _ _ _ Hg) as (HE & HE8 & HEf). pose proof gr_cs_bounds as Hcs.
  pose proof (gr_table_clusters _ _ _ _ _ Hg) as Hrt.
  assert (rtc * cs <= tc * cs) as Hle by (apply Z.mul_le_mono_nonneg_r; lia).
  unfold put_table. apply gives_bind, gives_put; [done | by apply filled_is_bytes | done | rewrite blen_filled by lia; lia|]. rewrite blen_filled by lia.
  intros b1 Hb1 Hf1. apply gives_bind, gives_read; cbn [upd_scratch sg_scratch]; [lia | lia | rewrite (sf_len _ _ _ _ Hf1); lia|]. intros buf Hbuf.
  pose proof (slice_splice_eq _ _ _ _ Hb1) as Hz. rewrite blen_filled in Hz by lia. rewrite Hz in Hbuf. injection Hbuf as <-.
  rewrite blen_filled, Z.min_l by lia. apply gives_bind, gives_lift. rewrite slice_full. cbn [or_panic builds].
  destruct (splice_of (filled (tc * cs) 0) 0 table) as (t1 & Ht1 & Lt1); [lia | rewrite blen_filled; lia|]. rewrite blen_filled in Lt1 by lia.
  apply gives_bind, gives_lift. rewrite Ht1. cbn [or_panic builds].
  assert (is_bytes t1) as Bt1 by (eapply splice_is_bytes; [by apply (filled_is_bytes (tc * cs) 0) | exact Htb | exact Ht1]).
  destruct (table_entries_spec o Hcs (Z.to_nat delta) 0 E (al_blocks_offset (layout_of L tc delta)) t1 Bt1 ltac:(lia) ltac:(lia)) as (tb & Htb' & Bt & Lt & Hnew & Hold).
  { rewrite Z2Nat.id by lia. lia. } { unfold slice_fits. lia. }
  { intros k Hk. rewrite Z2Nat.id in Hk by lia. assert (k * cs <= delta * cs) by (apply Z.mul_le_mono_nonneg_r; lia).
    assert (0 <= k * cs) by (apply Z.mul_nonneg_nonneg; lia). unfold is_u64, u64_max. lia. }
  apply gives_bind, gives_lift. change (al_delta (layout_of L tc delta)) with delta. rewrite Htb'. cbn [builds].
  apply gives_put; cbn [upd_scratch sg_scratch]; [by destruct Hf1 | done | done | rewrite (sf_len _ _ _ _ Hf1); lia|]. rewrite Lt, Lt1. intros b2 Hb2 Hf2.
  apply (HQ b2 tb); [|split; [lia | done | |]|by eapply scr_frame_trans].
  - pose proof (slice_splice_eq _ _ _ _ Hb2) as He. by rewrite Lt, Lt1 in He.
  - intros i Hi. rewrite Hold by lia. pose proof (slice_splice_eq _ _ _ _ Ht1) as Hpre. rewrite Z.add_0_l in Hpre.
    unfold u64_at. f_equal. apply (slice_of_prefix _ _ _ _ _ Hpre); lia.
  - intros k Hk. apply Hnew. lia.
Qed.

Lemma new_blocks_ok L tc delta : append_fits L tc delta -> exists bb,
  new_blocks (Z.to_nat delta) 0 E epr (al_total (layout_of L tc delta) / cs) w cs (filled (delta * cs) 0) = Ok bb /\ blocks_spec L tc delta bb.
Proof using Hg.
  intros Hf. destruct (append_sizes L tc delta Hf) as (S1 & S2 & S3 & S4 & S5 & S6 & S7 & S8). cbv zeta in *. destruct Hf as [H1 H2 H3 H4 H5 H6 H7 H8 _]. pose proof gr_cs_bounds as Hcs. destruct (gr_blocks _ _ _ _ _ Hg) as (HE & _ & HEf).
  pose proof (epr_bounds o epr Hcs (gr_width _ _ _ _ _ Hg) (gr_epr _ _ _ _ _ Hg)) as He.
  destruct (new_blocks_spec o epr Hcs (gr_width _ _ _ _ _ Hg) (gr_epr _ _ _ _ _ Hg) (Z.to_nat delta) 0 E (al_total (layout_of L tc delta) / cs) (filled (delta * cs) 0))
    as (bb & Hbb & Bb & Lb & Hall); try lia.
  - by apply filled_is_bytes.
  - rewrite Z2Nat.id, Z.add_0_r by lia. assert (epr <= cs * 8) as Hec.
    { rewrite (gr_epr _ _ _ _ _ Hg). pose proof (valid_width_range w (gr_width _ _ _ _ _ Hg)). etrans; [apply (Z.div_le_compat_l (cs * 8) 1 w); lia|]. by rewrite Z.div_1_r. }
    assert ((E + delta) * epr <= (E + delta) * (cs * 8)) by (apply Z.mul_le_mono_nonneg_l; lia). unfold u64_max. lia.
  - rewrite blen_filled by lia. lia.
  - intros k Hk. rewrite slice_filled by nia. f_equal. f_equal. lia.
  - exists bb. split; [done|]. rewrite blen_filled in Lb by lia. split; [done | done|]. intros k Hk. apply Hall. lia.
Qed.

(** The patches that write the new structures. *)
Definition app_patches (L tc delta : Z) (tb bb : bytes) : list ResizePatch :=
  let al := layout_of L tc delta in
  PAppend fs (l1_region (L * cs)) :: (if al_relocates al then [PAppend (al_table_offset al) tb] else []) ++
    (if 0 <? delta then [PAppend (al_blocks_offset al) bb] else []) ++ (if al_in_place al then [PWrite rt_off tb] else []).

Lemma builds_push_if (c : bool) patch x plan (Q : ResizePlan -> Prop) : (c = true -> patch = Ok x) ->
  Q (mkResizePlan (rp_total_file_size plan) (rp_action plan) (rp_patches plan ++ if c then [x] else [])) -> builds (push_if c patch plan) Q.
Proof using.
  intros Hp HQ. unfold push_if. destruct c; [rewrite Hp by done; cbn [obind]; by apply builds_push|]. cbn [builds].
  rewrite app_nil_r in HQ. by destruct plan.
Qed.

(** The planner from the overlap loop on. *)
Definition grow_rest (al : AppendLayout) (l1_end table_end blocks_end ntc : Z) : SM (Staged GrowSlots) ResizeError ResizePlan :=
  let overlap_first := fs / cs in
  let overlap_last_excl := Z.min (wmul E epr) ntc in
  do! for_clusters (Z.to_nat (overlap_last_excl - overlap_first)) overlap_first (stage_overlap o cs epr) in
  let old_l1_first := current_l1_table_offset o / cs in
  let old_l1_clusters := l1_clusters_of (current_l1_entries o) cs in
  do! for_clusters (Z.to_nat old_l1_clusters) old_l1_first (stage_cleanup_decrement o cs epr) in
  do! (if al_relocates al then for_clusters (Z.to_nat rtc) (rt_off / cs) (stage_cleanup_decrement o cs epr) else sret tt) in
  let! s := sget in
  let scratch := sg_scratch s in
  slift
    (let? l1_bytes := or_panic (slice scratch cs l1_end) in
     let? plan := plan_push (plan_new Grow (al_total al)) (PAppend (al_l1_offset al) l1_bytes) in
     let? plan := push_if (al_relocates al)
                    (let? b := or_panic (slice scratch l1_end table_end) in Ok (PAppend (al_table_offset al) b)) plan in
     let? plan := push_if (0 <? al_delta al)
                    (let? b := or_panic (slice scratch table_end blocks_end) in Ok (PAppend (al_blocks_offset al) b)) plan in
     let? plan := push_if (al_in_place al)
                    (let? b := or_panic (slice scratch l1_end table_end) in Ok (PWrite rt_off b)) plan in
     let? plan := push_slots o scratch fst snd (fun _ => true) (gs_overlap (sg_slots s)) plan in
     let? header_bytes := or_panic (slice scratch 0 cs) in
     let? plan := plan_push plan (PWrite 0 header_bytes) in
     push_slots o scratch fst snd (fun _ => true) (gs_cleanup (sg_slots s)) plan).

(** The refcounts it leaves behind. *)
Definition grown1 (ntc : Z) : Z -> Z := fill (fs / cs) (Z.max (fs / cs) (Z.min (E * epr) ntc)) 1 old.
Definition grown2 (reloc : bool) (ntc : Z) : Z -> Z :=
  let a0 := current_l1_table_offset o / cs in
  let g := fill a0 (a0 + l1_clusters_of (current_l1_entries o) cs) 0 (grown1 ntc) in
  if reloc then fill (rt_off / cs) (rt_off / cs + rtc) 0 g else g.
Definition freed (reloc : bool) (c : Z) : Prop :=
  let a0 := current_l1_table_offset o / cs in
  a0 <= c < a0 + l1_clusters_of (current_l1_entries o) cs \/ (reloc = true /\ rt_off / cs <= c < rt_off / cs + rtc).

Lemma grow_loops (al : AppendLayout) lo ntc b : 0 <= ntc <= 2 ^ 53 -> is_bytes b -> 0 <= lo <= blen b ->
  let overlap_last_excl := Z.min (E * epr) ntc in
  forall k (Q : ResizePlan -> Staged GrowSlots -> Prop),
  (forall s, phase o epr old lo b (gview (sg_slots s)) (grown1 ntc) (grown2 (al_relocates al) ntc) s ->
    (forall c, fs / cs <= c < Z.min (E * epr) ntc -> exists y, gview (sg_slots s) false (c / epr) y) ->
    (forall c, freed (al_relocates al) c -> exists y, gview (sg_slots s) true (c / epr) y) -> gives k s Q) ->
  gives (do! for_clusters (Z.to_nat (overlap_last_excl - fs / cs)) (fs / cs) (stage_overlap o cs epr) in
         do! for_clusters (Z.to_nat (l1_clusters_of (current_l1_entries o) cs)) (current_l1_table_offset o / cs) (stage_cleanup_decrement o cs epr) in
         do! (if al_relocates al then for_clusters (Z.to_nat rtc) (rt_off / cs) (stage_cleanup_decrement o cs epr) else sret tt) in k)
    (mkStaged b lo (mkGrowSlots [] [])) Q.
Proof using Hg.
  intros Hntc Hb Hlo last k Q HQ. pose proof gr_cs_bounds as Hcs. pose proof (gr_width _ _ _ _ _ Hg) as Hw. pose proof (gr_epr _ _ _ _ _ Hg) as Hepr.
  pose proof (gr_staged _ _ _ _ _ Hg) as Hst. pose proof (gr_file _ _ _ _ _ Hg) as Hfs. pose proof (gr_l1_place _ _ _ _ _ Hg) as Hl1p.
  pose proof (gr_table_place _ _ _ _ _ Hg) as Htp. pose proof (gr_table_clusters _ _ _ _ _ Hg) as Hrt.
  destruct (l1_clusters_bounds (current_l1_entries o) (gr_l1_entries _ _ _ _ _ Hg)) as [HL0 _].
  set (L0 := l1_clusters_of (current_l1_entries o) cs) in *. set (a := fs / cs) in *. set (a0 := current_l1_table_offset o / cs) in *.
  change (2 ^ 50) with 1125899906842624 in Hfs. change (2 ^ 53) with 9007199254740992 in Hntc.
  assert (forall x, 0 <= x <= fs -> 0 <= x / cs <= 1125899906842624) as Hdiv.
  { intros x Hx. split; [apply Z.div_pos; lia|]. apply Z.div_le_upper_bound; nia. }
  pose proof (Hdiv fs ltac:(lia)) as Ha. pose proof (Hdiv _ Hl1p) as Ha0. assert (0 <= rtc * cs) by (apply Z.mul_nonneg_nonneg; lia).
  pose proof (Hdiv rt_off ltac:(lia)) as Hr. fold a in Ha. fold a0 in Ha0. unfold u32_max in Hrt.
  apply gives_bind. eapply gives_mono.
  { apply (claim_loop o epr old gview (fun _ => True) _ lo b a); [by apply stage_overlap_claims | lia | change (2 ^ 60) with 1152921504606846976; lia|].
    split; [lia | | done | intros i y Hy; by apply elem_of_nil in Hy | intros; lia]. split.
    - split; cbn [sg_scratch sg_next sg_slots]; [done | lia | ..]; intros t *; intros Hy; destruct t; by apply elem_of_nil in Hy.
    - by apply scr_frame_refl.
    - intros c _. apply fill_empty.
    - done. }
  intros u1 s1 H1. replace (a + Z.of_nat (Z.to_nat (last - a))) with (Z.max a last) in H1 by lia. fold (grown1 ntc) in H1.
  apply gives_bind. eapply gives_mono.
  { apply (release_loop o epr old gview (fun _ => True) _ lo b (grown1 ntc) (grown1 ntc) (fun c => a <= c < Z.max a last) (fun _ => False) a0 _ s1);
      [by apply stage_cleanup_releases | lia | change (2 ^ 60) with 1152921504606846976; lia|]. by eapply claimed_released. }
  intros u2 s2 H2. rewrite Z2Nat.id in H2 by lia. apply gives_bind.
  destruct (al_relocates al).
  - eapply gives_mono.
    { apply (release_loop o epr old gview (fun _ => True) _ lo b (grown1 ntc) (fill a0 (a0 + L0) 0 (grown1 ntc)) (fun c => a <= c < Z.max a last)
        (fun c => False \/ a0 <= c < a0 + L0) (rt_off / cs) _ s2); [by apply stage_cleanup_releases | lia | change (2 ^ 60) with 1152921504606846976; lia|].
      by eapply released_next. }
    intros u3 s3 H3. rewrite Z2Nat.id in H3 by lia. apply HQ; [exact (re_phase _ _ _ _ _ _ _ _ _ _ _ _ _ _ H3) | |].
    + intros c Hc. apply (re_held _ _ _ _ _ _ _ _ _ _ _ _ _ _ H3). unfold last. lia.
    + intros c Hc. apply (re_slots _ _ _ _ _ _ _ _ _ _ _ _ _ _ H3). destruct Hc as [Hc|[_ Hc]]; [left; by right|by right].
  - apply gives_ret. apply HQ; [exact (re_phase _ _ _ _ _ _ _ _ _ _ _ _ _ _ H2) | |].
    + intros c Hc. apply (re_held _ _ _ _ _ _ _ _ _ _ _ _ _ _ H2). unfold last. lia.
    + intros c Hc. apply (re_slots _ _ _ _ _ _ _ _ _ _ _ _ _ _ H2). destruct Hc as [Hc|[[=] _]]; by right.
Qed.

(** The scratch buffer once the new structures are in it. *)
Record areas (L tc delta l1_end table_end blocks_end : Z) (tb bb h b : bytes) : Prop := {
  ar_end : cs <= l1_end <= table_end /\ table_end <= blocks_end <= blen b;
  ar_is_bytes : is_bytes b;
  ar_header : slice b 0 cs = Some h;
  ar_l1_bytes : slice b cs l1_end = Some (l1_region (L * cs));
  ar_table_bytes : al_relocates (layout_of L tc delta) || al_in_place (layout_of L tc delta) = true -> slice b l1_end table_end = Some tb;
  ar_block_bytes : slice b table_end blocks_end = Some bb
}.

Lemma grow_rest_gives L tc delta l1_end table_end blocks_end tb bb h b l : let al := layout_of L tc delta in append_fits L tc delta ->
  areas L tc delta l1_end table_end blocks_end tb bb h b -> blen h = cs -> is_bytes h -> header_at h = created_header (resize_header o l) ->
  let ntc := al_total al / cs in
  gives (grow_rest al l1_end table_end blocks_end ntc) (mkStaged b blocks_end (mkGrowSlots [] []))
    (fun p _ => plan_shape p (al_total al) (app_patches L tc delta tb bb) l (grown1 ntc) (grown2 (al_relocates al) ntc)
                  (fun c => fs / cs <= c < Z.min (E * epr) ntc) (freed (al_relocates al))).
Proof using Hg.
  intros al Hfit [He Hb Hh Hl1 Htb Hbb] Lh Bh Hat ntc. destruct (append_sizes L tc delta Hfit) as (S1 & S2 & S3 & S4 & S5 & S6 & S7 & S8). cbv zeta in *. fold al in S4, S5, S6, S7, S8, Htb.
  pose proof gr_cs_bounds as Hcs. pose proof (gr_file _ _ _ _ _ Hg) as Hfs.
  assert (0 <= ntc <= 2 ^ 53) as Hntc.
  { change (2 ^ 53) with 9007199254740992. split; [apply Z.div_pos; lia | apply Z.div_le_upper_bound; nia]. }
  assert (wmul E epr = E * epr) as Hwm.
  { apply wmul_small. destruct (gr_blocks _ _ _ _ _ Hg) as (HE & _ & HEf). pose proof (epr_bounds o epr Hcs (gr_width _ _ _ _ _ Hg) (gr_epr _ _ _ _ _ Hg)) as Hep.
    assert (epr <= cs * 8) as Hec.
    { rewrite (gr_epr _ _ _ _ _ Hg). pose proof (valid_width_range w (gr_width _ _ _ _ _ Hg)). etrans; [apply (Z.div_le_compat_l (cs * 8) 1 w); lia|]. by rewrite Z.div_1_r. }
    assert (0 <= E * epr) by (apply Z.mul_nonneg_nonneg; lia). assert (E * epr <= E * (cs * 8)) by (apply Z.mul_le_mono_nonneg_l; lia).
    change (2 ^ 50) with 1125899906842624 in Hfs. unfold u64_max. lia. }
  unfold grow_rest. rewrite Hwm. apply grow_loops; [done | done | lia|]. intros s Hph Hcl Hfr.
  pose proof (sf_slice _ _ _ _ (ph_frame _ _ _ _ _ _ _ _ _ Hph)) as Hsl.
  apply gives_bind, gives_get, gives_lift. rewrite !Hsl by lia. rewrite Hl1, Hh, Hbb. cbn [or_panic obind].
  apply builds_bind, builds_push. apply builds_bind. eapply (builds_push_if _ _ (PAppend (al_table_offset al) tb)).
  { intros Hr. rewrite Htb by (by rewrite Hr). done. }
  apply builds_bind. eapply (builds_push_if _ _ (PAppend (al_blocks_offset al) bb)); [done|].
  apply builds_bind. eapply (builds_push_if _ _ (PWrite rt_off tb)).
  { intros Hr. rewrite Htb by (rewrite Hr; apply orb_true_r). done. }
  destruct (gview_selected false (sg_slots s)) as [Ho1 Ho2]. destruct (gview_selected true (sg_slots s)) as [Hc1 Hc2]. apply builds_bind.
  assert (scr_frame 0 cs (sg_scratch s) (sg_scratch s)) as Hrefl by (apply scr_frame_refl; by destruct (ph_slots _ _ _ _ _ _ _ _ _ Hph)).
  eapply builds_mono; [eapply (push_phase false); [exact Hph | lia | exact Hrefl | exact Ho1 | exact Ho2]|].
  intros p2 (B1 & pre & E1 & E2 & E3 & F1 & C1). apply builds_bind, builds_push.
  eapply builds_mono; [eapply (push_phase true); [exact Hph | lia | exact Hrefl | exact Hc1 | exact Hc2]|].
  intros p3 (B2 & post & G1 & G2 & G3 & F2 & C2). cbn [rp_patches rp_total_file_size rp_action plan_new] in *.
  exists h, pre, post, B1, B2. rewrite G1, G2, G3, E1, E2, E3. split_and!; try done.
  - unfold app_patches. fold al. change (al_delta al) with delta. cbn [app]. rewrite <- !app_assoc. cbn [app]. rewrite <- ?app_assoc. done.
  - intros c Hc. destruct (Hcl c Hc) as [y Hy]. eauto.
  - intros c Hc. destruct (Hfr c Hc) as [y Hy]. eauto.
Qed.

(** The optional staging of the table. *)
Lemma table_step_gives L tc delta toff n (s : Staged GrowSlots) (Q : unit -> Staged GrowSlots -> Prop) : append_fits L tc delta ->
  let c := al_relocates (layout_of L tc delta) || al_in_place (layout_of L tc delta) in n = (if c then tc * cs else 0) ->
  is_bytes (sg_scratch s) -> 0 <= toff -> toff + n <= blen (sg_scratch s) ->
  (forall b' tb, (c = true -> slice b' toff (toff + n) = Some tb /\ table_spec L tc delta tb) -> scr_frame toff (toff + n) (sg_scratch s) b' -> Q tt (upd_scratch b' s)) ->
  gives (if c then put_table o (layout_of L tc delta) E toff n else sret tt) s Q.
Proof using Hg.
  intros Hf c -> Hb Ho Hroom HQ. destruct c.
  - apply put_table_gives; try done. intros b' tb Hsl Hts Hfr. apply (HQ b' tb); [done|exact Hfr].
  - apply gives_ret. specialize (HQ (sg_scratch s) []). destruct s. apply HQ; [done|]. by apply scr_frame_refl.
Qed.

Lemma plan_l1_and_refcount_gives t b : is_bytes b -> grow_target (new_virtual_size o) (ly_l1_entries t) ->
  let L := l1_clusters_of (ly_l1_entries t) cs in
  gives (plan_l1_and_refcount_grow o t E) (mkStaged b 0 (mkGrowSlots [] [])) (fun p _ => exists tc delta tb bb,
    let al := layout_of L tc delta in let ntc := al_total al / cs in
    append_fits L tc delta /\ (al_relocates al || al_in_place al = true -> table_spec L tc delta tb) /\ blocks_spec L tc delta bb /\
    plan_shape p (al_total al) (app_patches L tc delta tb bb)
      (header_layout o bits (new_virtual_size o) (ly_l1_entries t) fs (al_effective_table_offset al) tc)
      (grown1 ntc) (grown2 (al_relocates al) ntc) (fun c => fs / cs <= c < Z.min (E * epr) ntc) (freed (al_relocates al))).
Proof using Hg.
  intros Hb Ht L. pose proof (gt_entries _ _ Ht) as Hn. pose proof (gr_l1_entries _ _ _ _ _ Hg) as Hn0.
  destruct (l1_clusters_bounds (ly_l1_entries t) ltac:(lia)) as [HL HLe]. fold L in HL, HLe. pose proof gr_cs_bounds as Hcs.
  destruct (append_layout_ok t Ht) as (tc & delta & Hal & Hfit). fold L in Hal, Hfit.
  destruct (append_sizes L tc delta Hfit) as (S1 & S2 & S3 & S4 & S5 & S6 & S7 & S8). cbv zeta in *. set (al := layout_of L tc delta) in *.
  pose proof (gr_file _ _ _ _ _ Hg) as Hfs. pose proof (gr_width _ _ _ _ _ Hg) as Hw. pose proof (valid_width_range w Hw) as Hwr. pose proof (gr_table_place _ _ _ _ _ Hg) as Htp.
  pose proof (gr_table_clusters _ _ _ _ _ Hg) as Hrt. change (2 ^ 21) with 2097152 in Hcs. change (2 ^ 50) with 1125899906842624 in Hfs.
  unfold plan_l1_and_refcount_grow. rewrite (wmul_small cs 8) by (unfold u64_max; lia).
  apply gives_bind. eapply gives_ok. { unfold udiv. rewrite (proj2 (Z.eqb_neq w 0)) by lia. by rewrite <- (gr_epr _ _ _ _ _ Hg). }
  apply gives_bind. eapply gives_ok; [exact Hal|]. apply gives_bind. eapply gives_ok. { unfold udiv. by rewrite (proj2 (Z.eqb_neq cs 0)) by lia. }
  change (al_l1_bytes al) with (L * cs). change (al_table_clusters al) with tc. change (al_blocks_bytes al) with (delta * cs). change (al_delta al) with delta.
  rewrite (wmul_small tc cs) by (unfold u64_max; lia).
  set (st := if al_relocates al || al_in_place al then tc * cs else 0).
  assert (0 <= st <= tc * cs) as Hst by (unfold st; destruct (_ || _); lia).
  rewrite (wadd_small cs (L * cs)), (wadd_small _ st), (wadd_small _ (delta * cs)) by (unfold u64_max; lia).
  apply gives_bind, gives_get. cbn [sg_scratch]. destruct (Z.ltb_spec (blen b) (cs + L * cs + st + delta * cs)); [apply gives_no_room|].
  apply gives_bind. apply put_l1_gives; [done | lia | lia | cbn; lia|]. intros b1 Hl1 Hf1. cbn [sg_scratch] in Hf1. pose proof (sf_len _ _ _ _ Hf1) as Lb1.
  apply gives_bind. apply table_step_gives; cbn [upd_scratch sg_scratch]; [done | done | by destruct Hf1 | lia | lia|].
  intros b2 tb Htb Hf2. cbn [upd_scratch sg_scratch sg_next sg_slots] in *. pose proof (sf_len _ _ _ _ Hf2) as Lb2.
  apply gives_bind. apply gives_put; cbn [upd_scratch sg_scratch]; [by destruct Hf2 | by apply filled_is_bytes | lia | rewrite blen_filled by lia; lia|].
  rewrite blen_filled by lia. intros b3 Hb3 Hf3. pose proof (sf_len _ _ _ _ Hf3) as Lb3.
  apply gives_bind, gives_read; cbn [upd_scratch sg_scratch]; [lia | lia | lia|]. intros buf Hbuf.
  pose proof (slice_splice_eq _ _ _ _ Hb3) as Hz. rewrite blen_filled in Hz by lia. rewrite Hz in Hbuf. injection Hbuf as <-.
  destruct (new_blocks_ok L tc delta Hfit) as (bb & Hbb & Hbs). fold al in Hbb. apply gives_bind. eapply gives_ok; [exact Hbb|].
  apply gives_bind. apply gives_put; cbn [upd_scratch sg_scratch]; [by destruct Hf3 | exact (bs_bytes _ _ _ _ Hbs) | lia | rewrite (bs_len _ _ _ _ Hbs); lia|].
  rewrite (bs_len _ _ _ _ Hbs). intros b4 Hb4 Hf4. pose proof (sf_len _ _ _ _ Hf4) as Lb4.
  apply gives_bind. eapply gives_ok; [exact bits_or_panic_ok|].
  apply gives_bind. apply put_header_gives; [|done | by destruct Hf4 | cbn; lia|].
  { apply header_layout_fields; [done | change (al_l1_offset al) with fs; unfold is_u64, u64_max; lia | | destruct Hfit; unfold is_u32, u32_max in *; lia].
    change (al_effective_table_offset al) with (if al_relocates al then al_table_offset al else rt_off).
    assert (0 <= rtc * cs) by (apply Z.mul_nonneg_nonneg; lia). assert (al_table_offset al <= al_total al) by (change (al_table_offset al) with (fs + L * cs); lia).
    unfold is_u64, u64_max. destruct (al_relocates al); lia. }
  intros h b5 Lh Bh Hat Hh Hf5. cbn [upd_scratch sg_scratch] in Hf5. pose proof (sf_len _ _ _ _ Hf5) as Lb5.
  apply gives_bind, gives_mod. cbn [upd_scratch sg_scratch].
  eapply gives_mono; [eapply (grow_rest_gives L tc delta (cs + L * cs) (cs + L * cs + st) (cs + L * cs + st + delta * cs) tb bb h b5); [done | | done | done | exact Hat]|].
  - split; [lia | by destruct Hf5 | exact Hh | | |].
    + rewrite (sf_slice _ _ _ _ Hf5), (sf_slice _ _ _ _ Hf4), (sf_slice _ _ _ _ Hf3), (sf_slice _ _ _ _ Hf2) by lia. exact Hl1.
    + intros Hc. rewrite (sf_slice _ _ _ _ Hf5), (sf_slice _ _ _ _ Hf4), (sf_slice _ _ _ _ Hf3) by lia. exact (proj1 (Htb Hc)).
    + rewrite (sf_slice _ _ _ _ Hf5) by lia. pose proof (slice_splice_eq _ _ _ _ Hb4) as He. by rewrite (bs_len _ _ _ _ Hbs) in He.
  - intros p u Hp. exists tc, delta, tb, bb. split; [done|]. split; [intros Hc; exact (proj2 (Htb Hc))|]. split; [done|]. exact Hp.
Qed.
End plans.
