(* ===== verification/ResizeDisk.v ===== *)
(** * A growth on the disk

    The patches of a growth applied one after another to the image they were planned for:
    what a reader of the disk finds after any prefix of them. *)

From stdpp Require Import base list.
From Stdlib Require Import ZArith Lia.
From S2P Require Import Prelude Bytes Refcount Qcow2 SnapshotWalk ExecBytes Header Create CreateProps CreateHeader CreatePlan Resize ResizeSize ResizeStage ResizeSlots ResizeTables ResizeGrow.

(** The bytes a patch writes. *)
Definition patch_write (p : ResizePatch) : Z * bytes :=
  match p with
  | PWrite off b | PAppend off b => (off, b)
  | PZeroFill off len => (off, filled len 0)
  end.

Definition apply_patches (d : bytes) (ps : list ResizePatch) : option bytes := apply_writes d (patch_write <$> ps).

(** The refcount of cluster [c] on a disk whose refcount table is at [toff]. *)
Definition disk_refcount (cs w : Z) (d : bytes) (toff c : Z) : option Z :=
  let epr := cs * 8 / w in
  let off := u64_at d (toff + 8 * (c / epr)) in
  blk ← slice d off (off + cs);
  match read_refcount_in_block blk (c mod epr) w with Ok v => Some v | _ => None end.

Section disk.
Context (o : Qcow2ResizeOpts) (bits epr E : Z) (old : Z -> Z) (Hg : growable o bits epr E old).
#[local] Abbreviation cs := (rz_cluster_size o).
#[local] Abbreviation w := (rz_refcount_bits o).
#[local] Abbreviation fs := (current_file_size o).
#[local] Abbreviation table := (existing_refcount_table_bytes o).
#[local] Abbreviation rtc := (current_refcount_table_clusters o).
#[local] Abbreviation rt_off := (current_refcount_table_offset o).
#[local] Abbreviation l1_off := (current_l1_table_offset o).
#[local] Abbreviation L0 := (l1_clusters_of (current_l1_entries o) (rz_cluster_size o)).

(** Where block [i] is. *)
Definition addr (i : Z) : Z := u64_at table (8 * i).

(** Block [i] holds the refcounts [g i]. *)
Definition blocks_at (d : bytes) (g : Z -> Z -> Z) : Prop :=
  forall i, 0 <= i < E -> exists blk, slice d (addr i) (addr i + cs) = Some blk /\ block_counts o epr blk i (g i).

(** The image as it was staged: its tables and blocks in clusters of their own behind the
    header, the blocks dense in the table. *)
Record on_disk (d : bytes) : Prop := {
  od_bytes : is_bytes d;
  od_l1 : slice d l1_off (l1_off + current_l1_entries o * 8) = Some (existing_l1_bytes o);
  od_l1_place : cs <= l1_off /\ l1_off mod cs = 0 /\ l1_off + L0 * cs <= fs;
  od_table : slice d rt_off (rt_off + rtc * cs) = Some table;
  od_table_place : cs <= rt_off /\ rt_off mod cs = 0;
  od_tables_apart : l1_off + L0 * cs <= rt_off \/ rt_off + rtc * cs <= l1_off;
  od_blocks : blocks_at d (fun _ => old);
  od_block_place : forall i, 0 <= i < E -> cs <= addr i /\ addr i + cs <= fs;
  od_blocks_apart : forall i j, 0 <= i < E -> 0 <= j < E -> i <> j -> addr i + cs <= addr j \/ addr j + cs <= addr i;
  od_block_l1 : forall i, 0 <= i < E -> addr i + cs <= l1_off \/ l1_off + L0 * cs <= addr i;
  od_block_table : forall i, 0 <= i < E -> addr i + cs <= rt_off \/ rt_off + rtc * cs <= addr i;
  od_dense : forall i, E <= i -> 8 * i + 8 <= rtc * cs -> addr i = 0
}.

Context (d0 : bytes) (Hd : on_disk d0).

Lemma apply_patches_app d a b : apply_patches d (a ++ b) = (d1 ← apply_patches d a; apply_patches d1 b).
Proof using. unfold apply_patches. rewrite fmap_app. apply apply_writes_app. Qed.

(** ** Block writes *)

Lemma block_write_addr f i p : block_write o epr f i p -> 0 <= i < E /\ exists blk, p = PWrite (addr i) blk /\ block_counts o epr blk i f.
Proof using Hg Hd.
  intros (Hi & off & blk & Ho & -> & Hc). change (2 ^ 60) with 1152921504606846976 in Hi. unfold block_offset_in_file in Ho.
  rewrite (wmul_small i 8), (wadd_small (i * 8) 8) in Ho by (unfold u64_max; lia). rewrite (proj2 (gr_table _ _ _ _ _ Hg)) in Ho.
  destruct (Z.ltb_spec (rtc * cs) (i * 8 + 8)); [done|]. rewrite be_u64_at in Ho by (rewrite ?(proj2 (gr_table _ _ _ _ _ Hg)); lia). cbn [obind] in Ho.
  replace (u64_at table (i * 8)) with (addr i) in Ho by (unfold addr; f_equal; lia).
  destruct (Z.eqb_spec (addr i) 0) as [|Hne]; [done|]. injection Ho as <-. split; [|by exists blk].
  split; [lia|]. destruct (decide (i < E)); [done|]. exfalso. apply Hne. apply (od_dense _ Hd); lia.
Qed.

(** A range clear of the blocks. *)
Definition clear_of_blocks (x y : Z) : Prop := forall i, 0 <= i < E -> y <= addr i \/ addr i + cs <= x.

Lemma block_writes_apply f Bs ps d d' : Forall2 (block_write o epr f) Bs ps -> apply_patches d ps = Some d' ->
  (forall x y, clear_of_blocks x y -> slice d' x y = slice d x y) /\
  (forall g, blocks_at d g -> blocks_at d' (fun i => if decide (i ∈ Bs) then f else g i)).
Proof using Hg Hd.
  intros HF. revert d. induction HF as [|i p Bs ps Hp HF IH]; intros d Ha.
  { injection Ha as <-. split; [done|]. intros g Hb i Hi. rewrite decide_False by apply not_elem_of_nil. by apply Hb. }
  apply block_write_addr in Hp as (Hi & blk & -> & Hc). unfold apply_patches in Ha. cbn [fmap list_fmap patch_write apply_writes] in Ha.
  apply bind_Some in Ha as (d1 & Hs & Ha). destruct (IH d1 Ha) as [Hfr Hbl]. pose proof (bc_len _ _ _ _ _ Hc) as Hlen. split.
  - intros x y Hxy. rewrite (Hfr x y Hxy). apply (slice_splice_ne _ _ _ _ _ _ Hs). rewrite Hlen. apply Hxy. done.
  - intros g Hb. assert (blocks_at d1 (fun j => if decide (j = i) then f else g j)) as H1.
    { intros j Hj. destruct (decide (j = i)) as [->|Hne].
      - exists blk. split; [|done]. pose proof (slice_splice_eq _ _ _ _ Hs) as He. by rewrite Hlen in He.
      - destruct (Hb j Hj) as (b & Hsl & Hcb). exists b. split; [|done]. rewrite (slice_splice_ne _ _ _ _ _ _ Hs); [done|]. rewrite Hlen.
        destruct (od_blocks_apart _ Hd i j); done || lia. }
    specialize (Hbl _ H1). intros j Hj. destruct (Hbl j Hj) as (b & Hsl & Hcb). exists b. split; [done|].
    destruct (decide (j ∈ i :: Bs)) as [Hin|Hin]; destruct (decide (j ∈ Bs)) as [Hin'|Hin']; try done.
    + apply elem_of_cons in Hin as [->|Hin]; [|done]. by rewrite decide_True in Hcb.
    + exfalso. apply Hin. by right.
    + rewrite decide_False in Hcb; [done|]. intros ->. apply Hin. left.
Qed.

(** Reading a refcount. *)
Lemma disk_refcount_at d toff c A f : 0 <= c -> u64_at d (toff + 8 * (c / epr)) = A ->
  (exists blk, slice d A (A + cs) = Some blk /\ block_counts o epr blk (c / epr) f) -> disk_refcount cs w d toff c = Some (f c).
Proof using Hg.
  intros Hc Ha (blk & Hs & Hb). unfold disk_refcount. cbv zeta. rewrite <- (gr_epr _ _ _ _ _ Hg), Ha, Hs. cbn [mbind option_bind].
  pose proof (epr_bounds o epr (gr_cs_bounds o bits epr E old Hg) (gr_width _ _ _ _ _ Hg) (gr_epr _ _ _ _ _ Hg)) as He.
  rewrite (bc_read _ _ _ _ _ Hb) by (apply Z.mod_pos_bound; lia). by replace (c / epr * epr + c mod epr) with c by (pose proof (Z.div_mod c epr); lia).
Qed.

(** ** The new structures *)

(** A write of new structures: behind the old file, or the table in place with the old
    entries kept. *)
Definition app_ok (total : Z) (p : ResizePatch) : Prop :=
  let '(off, b) := patch_write p in
  is_bytes b /\ 0 <= off /\ off + blen b <= total /\
  (fs <= off \/ (off = rt_off /\ blen b = rtc * cs /\ forall i, 0 <= i < E -> u64_at b (8 * i) = addr i)).

(** The image a crash before the header leaves behind. *)
Record old_image (d : bytes) (g : Z -> Z -> Z) : Prop := {
  oi_header : slice d 0 cs = slice d0 0 cs;
  oi_l1 : slice d l1_off (l1_off + current_l1_entries o * 8) = Some (existing_l1_bytes o);
  oi_table : forall i, 0 <= i < E -> u64_at d (rt_off + 8 * i) = addr i;
  oi_blocks : blocks_at d g
}.

Lemma l1_fits : 0 <= current_l1_entries o * 8 <= L0 * cs.
Proof using Hg.
  destruct (l1_clusters_bounds o bits epr E old Hg _ (gr_l1_entries _ _ _ _ _ Hg)) as [_ H]. pose proof (gr_l1_entries _ _ _ _ _ Hg). lia.
Qed.

Lemma start_image : old_image d0 (fun _ => old).
Proof using Hg Hd.
  destruct (gr_blocks _ _ _ _ _ Hg) as (HE & HE8 & _). split; [done | exact (od_l1 _ Hd) | | exact (od_blocks _ Hd)].
  intros i Hi. apply (u64_at_region _ _ _ _ _ (od_table _ Hd)); lia.
Qed.

Lemma app_keeps total ps d d' g : Forall (app_ok total) ps -> apply_patches d ps = Some d' -> old_image d g -> old_image d' g.
Proof using Hg Hd.
  intros HF. revert d. induction HF as [|p ps Hp HF IH]; intros d Ha Ho; [by injection Ha as <-|].
  unfold apply_patches in Ha. cbn [fmap list_fmap apply_writes] in Ha. unfold app_ok in Hp. destruct (patch_write p) as [off b].
  apply bind_Some in Ha as (d1 & Hs & Ha). apply (IH d1 Ha). clear IH Ha HF. destruct Hp as (Hb & H0 & Ht & Hwhere).
  destruct (gr_blocks _ _ _ _ _ Hg) as (HE & HE8 & _). pose proof (gr_table_place _ _ _ _ _ Hg) as Htp. pose proof (od_l1_place _ Hd) as Hlp. pose proof (od_table_place _ Hd) as Htp'.
  pose proof l1_fits as Hlf. pose proof (od_tables_apart _ Hd) as Hap. pose proof (blen_nonneg b). pose proof (gr_cs_bounds o bits epr E old Hg) as Hcs.
  assert (forall x y, y <= fs -> y <= rt_off \/ rt_off + rtc * cs <= x -> slice d1 x y = slice d x y) as Hfr.
  { intros x y Hy Hxy. apply (slice_splice_ne _ _ _ _ _ _ Hs). destruct Hwhere as [|(-> & -> & _)]; lia. }
  pose proof (gr_table_clusters _ _ _ _ _ Hg) as Hrt. assert (0 <= rtc * cs) by (apply Z.mul_nonneg_nonneg; lia).
  destruct Ho as [Hh Hl Hta Hbl]. split.
  - rewrite Hfr; [done | lia | lia].
  - rewrite Hfr; [done | lia | lia].
  - intros i Hi. destruct Hwhere as [Hge|(-> & Hlen & Hent)].
    + rewrite <- Hta by done. apply u64_at_same. apply (slice_splice_ne _ _ _ _ _ _ Hs). lia.
    + rewrite <- Hent by done. pose proof (slice_splice_eq _ _ _ _ Hs) as He. apply (u64_at_region _ _ _ _ _ He); lia.
  - intros i Hi. destruct (Hbl i Hi) as (blk & Hsl & Hc). exists blk. split; [|done]. pose proof (od_block_place _ Hd i Hi). pose proof (od_block_table _ Hd i Hi).
    rewrite Hfr; [done | lia | lia].
Qed.

(** Blocks written before the header. *)
Lemma pre_keeps f Bs ps d d' g : Forall2 (block_write o epr f) Bs ps -> apply_patches d ps = Some d' -> old_image d g ->
  old_image d' (fun i => if decide (i ∈ Bs) then f else g i).
Proof using Hg Hd.
  intros HF Ha [Hh Hl Hta Hbl]. destruct (block_writes_apply f Bs ps d d' HF Ha) as [Hfr Hb]. pose proof l1_fits as Hlf.
  destruct (gr_blocks _ _ _ _ _ Hg) as (HE & HE8 & _). pose proof (gr_cs_bounds o bits epr E old Hg) as Hcs. split; [| | |by apply Hb].
  - rewrite Hfr; [done|]. intros i Hi. left. apply (od_block_place _ Hd i Hi).
  - rewrite Hfr; [done|]. intros i Hi. destruct (od_block_l1 _ Hd i Hi); [right|left]; lia.
  - intros i Hi. rewrite <- Hta by done. apply u64_at_same, Hfr. intros j Hj. destruct (od_block_table _ Hd j Hj); [right|left]; lia.
Qed.

(** ** Behind the header *)

(** A range nothing writes any more once the new structures are there. *)
Definition stable (x y : Z) : Prop := cs <= x /\ clear_of_blocks x y.

Lemma above_stable x y : fs <= x -> x <= y -> stable x y.
Proof using Hg Hd.
  intros Hx Hy. pose proof (od_l1_place _ Hd). pose proof (l1_clusters_bounds o bits epr E old Hg _ (gr_l1_entries _ _ _ _ _ Hg)) as [? _].
  pose proof (gr_cs_bounds o bits epr E old Hg). split; [nia|]. intros i Hi. right. pose proof (od_block_place _ Hd i Hi). lia.
Qed.

(** The new geometry on the disk. *)
Record new_tables (d : bytes) (l1_at : Z) (l1b : bytes) (toff nb ntc : Z) (naddr : Z -> Z) : Prop := {
  nt_l1 : slice d l1_at (l1_at + blen l1b) = Some l1b /\ stable l1_at (l1_at + blen l1b);
  nt_entry : forall i, 0 <= i < nb -> u64_at d (toff + 8 * i) = naddr i /\ stable (toff + 8 * i) (toff + 8 * i + 8);
  nt_old : forall i, 0 <= i < E -> naddr i = addr i;
  nt_new : forall i, E <= i < nb -> stable (naddr i) (naddr i + cs) /\
    exists blk, slice d (naddr i) (naddr i + cs) = Some blk /\ block_counts o epr blk i (ones ntc)
}.

Lemma new_tables_frame d d' l1_at l1b toff nb ntc naddr : (forall x y, stable x y -> slice d' x y = slice d x y) ->
  new_tables d l1_at l1b toff nb ntc naddr -> new_tables d' l1_at l1b toff nb ntc naddr.
Proof using.
  intros Hfr [[H1 H1'] H2 H3 H4]. split; [by rewrite Hfr | | done |].
  - intros i Hi. destruct (H2 i Hi) as [He Hs]. split; [|done]. rewrite <- He. by apply u64_at_same, Hfr.
  - intros i Hi. destruct (H4 i Hi) as (Hs & blk & Hb & Hc). split; [done|]. exists blk. split; [|done]. by rewrite Hfr.
Qed.

(** The refcounts a reader of the new header finds. *)
Lemma new_refcounts d l1_at l1b toff nb ntc naddr g c : new_tables d l1_at l1b toff nb ntc naddr -> blocks_at d g -> 0 <= c < nb * epr ->
  disk_refcount cs w d toff c = Some (if c <? E * epr then g (c / epr) c else ones ntc c).
Proof using Hg.
  intros [_ H2 H3 H4] Hb Hc. pose proof (epr_bounds o epr (gr_cs_bounds o bits epr E old Hg) (gr_width _ _ _ _ _ Hg) (gr_epr _ _ _ _ _ Hg)) as He.
  assert (0 <= c / epr < nb) as Hi by (split; [apply Z.div_pos; lia | apply Z.div_lt_upper_bound; lia]).
  destruct (H2 _ Hi) as [Hent _]. destruct (Z.ltb_spec c (E * epr)) as [Hlt|Hge].
  - assert (c / epr < E) as HiE by (apply Z.div_lt_upper_bound; lia). rewrite (H3 (c / epr) ltac:(lia)) in Hent.
    apply (disk_refcount_at d toff c (addr (c / epr))); [lia | done | apply Hb; lia].
  - assert (E <= c / epr) as HiE by (apply Z.div_le_lower_bound; lia). destruct (H4 (c / epr) ltac:(lia)) as [_ Hblk].
    apply (disk_refcount_at d toff c (naddr (c / epr))); [lia | done | done].
Qed.

(** ** Prefixes of a plan *)

(** What the new header gives up. *)
Definition given_up (h : QcowHeader) (c : Z) : Prop :=
  (hdr_l1_table_offset h <> l1_off /\ l1_off / cs <= c < l1_off / cs + L0) \/
  (hdr_refcount_table_offset h <> rt_off /\ rt_off / cs <= c < rt_off / cs + rtc).

(** The old image: its header, its L1 table, its refcounts. *)
Definition reads_old (d : bytes) : Prop :=
  slice d 0 cs = slice d0 0 cs /\
  slice d l1_off (l1_off + current_l1_entries o * 8) = Some (existing_l1_bytes o) /\
  forall c, 0 <= c < fs / cs -> c < E * epr -> disk_refcount cs w d rt_off c = Some (old c).

(** The new image: the new header, the L1 table extended with zeros, and the refcounts of
    the [ntc] clusters of the file, [all] of the cleanup done or not. *)
Definition reads_new (hdr : bytes) (h : QcowHeader) (ntc : Z) (all : bool) (d : bytes) : Prop :=
  slice d 0 cs = Some hdr /\
  slice d (hdr_l1_table_offset h) (hdr_l1_table_offset h + hdr_l1_size h * 8) = Some (l1_region o (hdr_l1_size h * 8)) /\
  forall c, 0 <= c < ntc -> c < E * epr \/ fs / cs <= c ->
    exists v, disk_refcount cs w d (hdr_refcount_table_offset h) c = Some v /\
      (fs / cs <= c -> v = 1) /\
      (c < fs / cs -> ~ given_up h c -> v = old c) /\
      (c < fs / cs -> given_up h c -> v = 0 \/ (all = false /\ v = old c)).

(** A plan whose prefixes all read as one of the two. *)
Definition crash_safe (p : ResizePlan) (n ntc : Z) : Prop :=
  exists hdr h m, parse hdr = Ok h /\ hdr_virtual_size h = new_virtual_size o /\ hdr_l1_size h = n /\
    hdr_cluster_size h = cs /\ hdr_refcount_bits h = w /\ extended_l2 h = rz_extended_l2 o /\
    (m < length (rp_patches p))%nat /\
    forall k, exists d, apply_patches d0 (take k (rp_patches p)) = Some d /\
      if (k <=? m)%nat then reads_old d else reads_new hdr h ntc (length (rp_patches p) <=? k)%nat d.

(** What the assembled plan has to bring. *)
Record plan_facts (app : list ResizePatch) (l : Qcow2Layout) (f1 f2 : Z -> Z) (claimed fr : Z -> Prop) (total nb ntc : Z) (l1b : bytes) (naddr : Z -> Z) : Prop := {
  pf_device : fs <= total <= blen d0;
  pf_fields : header_fields_ok l /\ ly_cluster_size l = cs /\ ly_refcount_bits l = w /\ ly_extended_l2 l = rz_extended_l2 o;
  pf_app : Forall (app_ok total) app;
  pf_new : forall d, apply_patches d0 app = Some d -> new_tables d (ly_l1_offset l) l1b (ly_refcount_table_offset l) nb ntc naddr;
  pf_l1 : exists n1, ly_l1_entries l * 8 <= n1 /\ current_l1_entries o <= ly_l1_entries l /\ l1b = l1_region o n1;
  pf_cover : fs / cs <= ntc /\ (ntc <= nb * epr \/ ntc = fs / cs) /\ E <= nb;
  pf_low : forall c, c < fs / cs -> f1 c = old c;
  pf_high : forall c, fs / cs <= c < ntc -> c < E * epr -> claimed c /\ f1 c = 1 /\ f2 c = 1;
  pf_freed : forall c, c < fs / cs -> fr c <-> given_up (created_header (resize_header o l)) c;
  pf_final : forall c, c < fs / cs -> (fr c -> f2 c = 0) /\ (~ fr c -> f2 c = f1 c)
}.

Lemma l1_region_prefix n n1 : current_l1_entries o * 8 <= n <= n1 -> slice (l1_region o n1) 0 n = Some (l1_region o n).
Proof using Hg.
  intros Hn. pose proof (gr_l1_entries _ _ _ _ _ Hg). destruct (gr_l1 _ _ _ _ _ Hg) as [_ Hl].
  rewrite slice_Some_2 by (rewrite ?(l1_region_blen o bits epr E old Hg) by lia; lia). f_equal. rewrite drop_0. unfold l1_region.
  rewrite take_app, firstn_all2 by (unfold blen in Hl; lia). f_equal. unfold filled. rewrite take_replicate. f_equal. unfold blen in Hl. lia.
Qed.

Lemma firstn_split {A} (k : nat) (a b : list A) x c : (k <= length a + length b)%nat ->
  take k (a ++ b ++ x :: c) = take k a ++ take (k - length a) b.
Proof using. intros Hk. rewrite take_app. f_equal. rewrite take_app. replace (k - length a - length b)%nat with 0%nat by lia. by rewrite take_0, app_nil_r. Qed.

Lemma firstn_past {A} (k : nat) (a b : list A) x c : (length a + length b < k)%nat ->
  take k (a ++ b ++ x :: c) = a ++ b ++ x :: take (k - length a - length b - 1) c.
Proof using.
  intros Hk. rewrite take_app, firstn_all2 by lia. f_equal. rewrite take_app, firstn_all2 by lia. f_equal.
  destruct (k - length a - length b)%nat as [|n] eqn:En; [lia|]. cbn [firstn]. by rewrite Nat.sub_succ, Nat.sub_0_r.
Qed.

Section prefixes.
Context (app pre post : list ResizePatch) (l : Qcow2Layout) (f1 f2 : Z -> Z) (claimed fr : Z -> Prop) (total nb ntc : Z) (l1b : bytes) (naddr : Z -> Z) (hdr : bytes) (B1 B2 : list Z).
Context (Hf : plan_facts app l f1 f2 claimed fr total nb ntc l1b naddr).
Context (Lh : blen hdr = cs) (Bh : is_bytes hdr) (Hat : header_at hdr = created_header (resize_header o l)).
Context (F1 : Forall2 (block_write o epr f1) B1 pre) (F2 : Forall2 (block_write o epr f2) B2 post).
Context (C1 : forall c, claimed c -> c / epr ∈ B1) (C2 : forall c, fr c -> c / epr ∈ B2).

Lemma patches_fit : Forall (fun x => 0 <= x.1 /\ x.1 + blen x.2 <= blen d0 /\ is_bytes x.2) (patch_write <$> app ++ pre ++ PWrite 0 hdr :: post).
Proof using Hg Hd Hf Lh Bh F1 F2.
  pose proof (pf_device _ _ _ _ _ _ _ _ _ _ _ Hf) as Hdev. pose proof (gr_cs_bounds o bits epr E old Hg) as Hcs. pose proof (od_l1_place _ Hd) as Hlp.
  destruct (l1_clusters_bounds o bits epr E old Hg _ (gr_l1_entries _ _ _ _ _ Hg)) as [HL0 _].
  assert (forall f Bs ps, Forall2 (block_write o epr f) Bs ps -> Forall (fun x => 0 <= x.1 /\ x.1 + blen x.2 <= blen d0 /\ is_bytes x.2) (patch_write <$> ps)) as Hblk.
  { intros f Bs ps H. induction H as [|i p Bs ps Hp _ IH]; [constructor|]. apply block_write_addr in Hp as (Hi & blk & -> & Hc).
    constructor; [|done]. cbn [patch_write fst snd]. pose proof (od_block_place _ Hd i Hi). rewrite (bc_len _ _ _ _ _ Hc). split_and!; [lia | lia | apply (bc_bytes _ _ _ _ _ Hc)]. }
  rewrite !fmap_app, fmap_cons. apply Forall_app. split.
  - apply Forall_fmap. eapply Forall_impl; [exact (pf_app _ _ _ _ _ _ _ _ _ _ _ Hf)|]. intros p Hp. cbn [compose].
    unfold app_ok in Hp. destruct (patch_write p) as [off b]. cbn [fst snd]. destruct Hp as (H1 & H2 & H3 & _). split_and!; [lia | lia | done].
  - apply Forall_app. split; [by eapply Hblk|]. constructor; [|by eapply Hblk]. cbn [patch_write fst snd]. rewrite Lh. split_and!; [lia | nia | done].
Qed.

Lemma prefix_applies k : exists d, apply_patches d0 (take k (app ++ pre ++ PWrite 0 hdr :: post)) = Some d.
Proof using Hg Hd Hf Lh Bh F1 F2.
  unfold apply_patches. rewrite fmap_take. destruct (apply_writes_ok d0 (take k (patch_write <$> app ++ pre ++ PWrite 0 hdr :: post)) (od_bytes _ Hd)) as (d & Hda & _).
  - apply Forall_take, patches_fit.
  - by exists d.
Qed.

(** Before the header: blocks hold [old] or [f1], which agree on the old file. *)
Lemma prefix_old k d : (k <= length app + length pre)%nat -> apply_patches d0 (take k (app ++ pre ++ PWrite 0 hdr :: post)) = Some d -> reads_old d.
Proof using Hg Hd Hf F1.
  intros Hk Ha. rewrite firstn_split in Ha by done. rewrite apply_patches_app in Ha. apply bind_Some in Ha as (d1 & Ha1 & Ha2).
  pose proof (app_keeps total _ d0 d1 _ (Forall_take _ k _ (pf_app _ _ _ _ _ _ _ _ _ _ _ Hf)) Ha1 start_image) as H1.
  pose proof (pre_keeps f1 _ _ d1 d _ (Forall2_take _ _ _ (k - length app) F1) Ha2 H1) as [Hh Hl Ht Hb].
  split; [done|]. split; [done|]. intros c Hc HcE. pose proof (epr_bounds o epr (gr_cs_bounds o bits epr E old Hg) (gr_width _ _ _ _ _ Hg) (gr_epr _ _ _ _ _ Hg)) as He.
  assert (0 <= c / epr < E) as Hi by (split; [apply Z.div_pos; lia | apply Z.div_lt_upper_bound; lia]).
  rewrite (disk_refcount_at d rt_off c _ _ ltac:(lia) (Ht _ Hi) (Hb _ Hi)). f_equal. destruct (decide _); [|done]. apply (pf_low _ _ _ _ _ _ _ _ _ _ _ Hf). lia.
Qed.

(** The blocks once the header is there and [j] of the blocks behind it. *)
Definition held_by (j : nat) (i : Z) : Z -> Z := if decide (i ∈ take j B2) then f2 else if decide (i ∈ B1) then f1 else old.

Lemma past_header j d : apply_patches d0 (app ++ pre ++ PWrite 0 hdr :: take j post) = Some d ->
  slice d 0 cs = Some hdr /\ new_tables d (ly_l1_offset l) l1b (ly_refcount_table_offset l) nb ntc naddr /\ blocks_at d (held_by j).
Proof using Hg Hd Hf Lh F1 F2.
  intros Ha. rewrite apply_patches_app in Ha. apply bind_Some in Ha as (d1 & Ha1 & Ha).
  rewrite apply_patches_app in Ha. apply bind_Some in Ha as (d2 & Ha2 & Ha). change (PWrite 0 hdr :: take j post) with ([PWrite 0 hdr] ++ take j post) in Ha.
  rewrite apply_patches_app in Ha. apply bind_Some in Ha as (d3 & Ha3 & Ha4). unfold apply_patches in Ha3. cbn in Ha3. apply bind_Some in Ha3 as (d3' & Hs & [= ->]).
  pose proof (gr_cs_bounds o bits epr E old Hg) as Hcs.
  pose proof (app_keeps total _ d0 d1 _ (pf_app _ _ _ _ _ _ _ _ _ _ _ Hf) Ha1 start_image) as H1.
  destruct (block_writes_apply f1 B1 pre d1 d2 F1 Ha2) as [Hfr2 Hb2]. specialize (Hb2 _ (oi_blocks _ _ H1)).
  destruct (block_writes_apply f2 (take j B2) (take j post) d3 d (Forall2_take _ _ _ j F2) Ha4) as [Hfr4 Hb4].
  assert (forall x y, cs <= x -> slice d3 x y = slice d2 x y) as Hfr3.
  { intros x y Hx. apply (slice_splice_ne _ _ _ _ _ _ Hs). lia. }
  split; [|split].
  - rewrite Hfr4; [pose proof (slice_splice_eq _ _ _ _ Hs) as He; by rewrite Lh, Z.add_0_l in He|]. intros i Hi. left. apply (od_block_place _ Hd i Hi).
  - eapply (new_tables_frame d1); [|by apply (pf_new _ _ _ _ _ _ _ _ _ _ _ Hf)]. intros x y [Hx Hxy]. rewrite Hfr4, Hfr3, Hfr2 by done. done.
  - apply Hb4. intros i Hi. destruct (Hb2 i Hi) as (blk & Hsl & Hc). exists blk. split; [|done]. rewrite Hfr3; [done|]. apply (od_block_place _ Hd i Hi).
Qed.

Lemma prefix_new k d : (length app + length pre < k)%nat -> apply_patches d0 (take k (app ++ pre ++ PWrite 0 hdr :: post)) = Some d ->
  reads_new hdr (created_header (resize_header o l)) ntc (length (app ++ pre ++ PWrite 0 hdr :: post) <=? k)%nat d.
Proof using Hg Hd Hf Lh F1 F2 C1 C2.
  intros Hk Ha. rewrite firstn_past in Ha by done. set (j := (k - length app - length pre - 1)%nat) in *.
  destruct (past_header j d Ha) as (Hh & Hn & Hb). pose proof Hf as [Hdev Hflds Happ Hnew (n1 & Hn1 & Hen & ->) Hcov Hlow Hhigh Hfreed Hfinal].
  pose proof (epr_bounds o epr (gr_cs_bounds o bits epr E old Hg) (gr_width _ _ _ _ _ Hg) (gr_epr _ _ _ _ _ Hg)) as He. pose proof (gr_l1_entries _ _ _ _ _ Hg) as Hl1e.
  split; [done|]. split.
  { cbn [created_header hdr_l1_table_offset hdr_l1_size resize_header bh_layout]. destruct (nt_l1 _ _ _ _ _ _ _ Hn) as [Hsl _].
    rewrite <- (l1_region_prefix (ly_l1_entries l * 8) n1) by lia. rewrite (slice_slice _ _ _ _ 0 (ly_l1_entries l * 8) Hsl); [by rewrite Z.add_0_r | lia|].
    rewrite (l1_region_blen o bits epr E old Hg) by lia. lia. }
  intros c Hc Hwhere. change (hdr_refcount_table_offset (created_header (resize_header o l))) with (ly_refcount_table_offset l).
  assert (0 <= c < nb * epr) as Hcn.
  { split; [lia|]. destruct Hcov as (Hc1 & [Hc2|Hc2] & HE); [lia|]. assert (E * epr <= nb * epr) by (apply Z.mul_le_mono_nonneg_r; lia). lia. }
  rewrite (new_refcounts _ _ _ _ _ _ _ _ _ Hn Hb Hcn). eexists. split; [done|]. unfold held_by. destruct (Z.ltb_spec c (E * epr)) as [HcE|HcE].
  - split; [|split].
    + intros Hhi. destruct (Hhigh c ltac:(lia) HcE) as (Hcl & E1 & E2). destruct (decide (c / epr ∈ take j B2)); [done|]. by rewrite decide_True by auto.
    + intros Hlo Hng. rewrite <- (Hfreed c Hlo) in Hng. destruct (Hfinal c Hlo) as [_ Hf2]. specialize (Hf2 Hng). specialize (Hlow c Hlo).
      destruct (decide _); [congruence|]. by destruct (decide _).
    + intros Hlo Hgu. rewrite <- (Hfreed c Hlo) in Hgu. destruct (Hfinal c Hlo) as [Hf2 _]. specialize (Hf2 Hgu). specialize (Hlow c Hlo).
      destruct (decide (c / epr ∈ take j B2)) as [|Hnin]; [by left|]. right. split; [|by destruct (decide _)].
      apply Nat.leb_gt. destruct (decide (k < length (app ++ pre ++ PWrite 0 hdr :: post))%nat) as [|Hge]; [done|]. exfalso. apply Hnin.
      rewrite firstn_all2; [by apply C2|]. rewrite (Forall2_length _ _ _ F2). rewrite !length_app in Hge. cbn [length] in Hge. unfold j. lia.
  - assert (fs / cs <= c) by lia. unfold ones. destruct (Z.ltb_spec c ntc); [|lia]. split; [done|]. split; intros; lia.
Qed.

Lemma parse_new : parse hdr = Ok (created_header (resize_header o l)).
Proof using Hg Hf Lh Hat.
  pose proof (gr_cs_bounds o bits epr E old Hg). rewrite parse_header_at by lia. rewrite Hat, created_valid; [done|].
  split; [exact (proj1 (pf_fields _ _ _ _ _ _ _ _ _ _ _ Hf)) | exact (gr_path _ _ _ _ _ Hg) | exact (gr_format _ _ _ _ _ Hg)].
Qed.
End prefixes.

(** A plan of the right shape is crash safe. *)
Lemma shape_crash_safe p t2 app l f1 f2 claimed fr total nb ntc l1b naddr : plan_shape o epr p t2 app l f1 f2 claimed fr ->
  plan_facts app l f1 f2 claimed fr total nb ntc l1b naddr -> ly_virtual_size l = new_virtual_size o -> crash_safe p (ly_l1_entries l) ntc.
Proof using Hg Hd.
  intros (hdr & pre & post & B1 & B2 & _ & _ & Hp & Lh & Bh & Hat & F1 & F2 & C1 & C2) Hf Hvs.
  destruct (pf_fields _ _ _ _ _ _ _ _ _ _ _ Hf) as (_ & Hc & Hw & Hx). exists hdr, (created_header (resize_header o l)), (length app + length pre)%nat.
  split; [by eapply parse_new|]. rewrite Hp. split_and!; try done; [rewrite !length_app; cbn [length]; lia|]. intros k.
  destruct (prefix_applies app pre post l f1 f2 claimed fr total nb ntc l1b naddr hdr B1 B2 Hf Lh Bh F1 F2 k) as [d Hda].
  exists d. split; [done|]. destruct (Nat.leb_spec k (length app + length pre)); [by eapply prefix_old | by eapply prefix_new].
Qed.
End disk.
