(* ===== verification/ResizeProps.v ===== *)
(** * Growing an image is crash safe

    The three growth plans of [ResizeGrow] on the disk of [ResizeDisk], and the theorem on
    the entry point of the planner. *)

From stdpp Require Import base list.
From Stdlib Require Import ZArith Lia.
From S2P Require Import Prelude Bytes Refcount Qcow2 SnapshotWalk ExecBytes Header Create CreateProps CreateHeader CreatePlan Resize ResizeSize ResizeStage ResizeSlots ResizeTables ResizeGrow ResizeDisk.

Section facts.
Context (o : Qcow2ResizeOpts) (bits epr E : Z) (old : Z -> Z) (Hg : growable o bits epr E old) (d0 : bytes) (Hd : on_disk o epr E old d0).
#[local] Abbreviation cs := (rz_cluster_size o).
#[local] Abbreviation w := (rz_refcount_bits o).
#[local] Abbreviation fs := (current_file_size o).
#[local] Abbreviation vs := (new_virtual_size o).
#[local] Abbreviation rtc := (current_refcount_table_clusters o).
#[local] Abbreviation rt_off := (current_refcount_table_offset o).
#[local] Abbreviation l1_off := (current_l1_table_offset o).
#[local] Abbreviation L0 := (l1_clusters_of (current_l1_entries o) (rz_cluster_size o)).

(** The clusters given up lie in the old file. *)
Lemma div_below x n : 0 <= n -> x + n * cs <= fs -> x / cs + n <= fs / cs.
Proof using Hg. intros Hn H. pose proof (gr_cs_bounds o bits epr E old Hg). apply Z.div_le_lower_bound; [lia|]. pose proof (Z.mul_div_le x cs ltac:(lia)). lia. Qed.

Lemma old_tables_below : l1_off / cs + L0 <= fs / cs /\ rt_off / cs + rtc <= fs / cs /\ l1_off < fs /\ rt_off < fs.
Proof using Hg Hd.
  pose proof (gr_cs_bounds o bits epr E old Hg). destruct (l1_clusters_bounds o bits epr E old Hg _ (gr_l1_entries _ _ _ _ _ Hg)) as [HL0 _].
  pose proof (od_l1_place _ _ _ _ _ Hd) as (_ & _ & H1). pose proof (gr_table_place _ _ _ _ _ Hg) as (_ & H2). pose proof (gr_table_clusters _ _ _ _ _ Hg).
  split_and!; [apply div_below; lia | apply div_below; lia | nia | nia].
Qed.

Lemma fill_out a b v f c : ~ (a <= c < b) -> fill a b v f c = f c.
Proof using. intros H. unfold fill. destruct (Z.leb_spec a c), (Z.ltb_spec c b); cbn; done || lia. Qed.

Lemma fill_in a b v f c : a <= c < b -> fill a b v f c = v.
Proof using. intros H. unfold fill. destruct (Z.leb_spec a c), (Z.ltb_spec c b); cbn; done || lia. Qed.

(** The old tables, where they stay. *)
Lemma old_entries_stable i : 0 <= i < E -> stable o E (rt_off + 8 * i) (rt_off + 8 * i + 8).
Proof using Hg Hd.
  intros Hi. destruct (gr_blocks _ _ _ _ _ Hg) as (HE & HE8 & _). pose proof (od_table_place _ _ _ _ _ Hd). split; [lia|].
  intros j Hj. destruct (od_block_table _ _ _ _ _ Hd j Hj); [right|left]; lia.
Qed.

Lemma old_entry i : 0 <= i < E -> u64_at d0 (rt_off + 8 * i) = addr o i.
Proof using Hg Hd. intros Hi. exact (oi_table _ _ _ _ _ _ (start_image o bits epr E old Hg d0 Hd) i Hi). Qed.

(** ** The header alone *)

Lemma header_only_facts : fs <= blen d0 -> is_u64 vs -> div_ceil vs (l2_coverage_of bits (rz_extended_l2 o)) <= QCOW2_MAX_L1_SIZE_ENTRIES ->
  plan_facts o epr E old d0 [] (header_layout o bits vs (current_l1_entries o) l1_off rt_off rtc) old old (fun _ => False) (fun _ => False)
    fs E (fs / cs) (l1_region o (current_l1_entries o * 8)) (addr o).
Proof using Hg Hd.
  intros Hdev Hvs Hneed. pose proof (gr_file _ _ _ _ _ Hg) as Hfs. pose proof (gr_l1_place _ _ _ _ _ Hg). pose proof (gr_table_place _ _ _ _ _ Hg).
  pose proof (gr_table_clusters _ _ _ _ _ Hg) as Htc. pose proof (gr_cs_bounds o bits epr E old Hg) as Hcs. change (2 ^ 50) with 1125899906842624 in Hfs.
  pose proof (gr_l1_entries _ _ _ _ _ Hg) as Hl1e. pose proof (l1_fits o bits epr E old Hg) as Hlf.
  assert (l1_region o (current_l1_entries o * 8) = existing_l1_bytes o) as Hl1.
  { unfold l1_region, filled. rewrite Z.sub_diag. apply app_nil_r. }
  split; cbn [header_layout ly_l1_offset ly_refcount_table_offset ly_l1_entries]; try done.
  - split; [|done]. apply header_layout_fields with epr E old; [done | split; done || lia | unfold is_u64, u64_max; lia | unfold is_u64, u64_max; nia | unfold is_u32; lia].
  - intros d Ha. injection Ha as <-. rewrite Hl1. split; [rewrite (proj2 (gr_l1 _ _ _ _ _ Hg)); split; [exact (od_l1 _ _ _ _ _ Hd)|] | | done | intros; lia].
    + split; [exact (proj1 (od_l1_place _ _ _ _ _ Hd))|]. intros i Hi. destruct (od_block_l1 _ _ _ _ _ Hd i Hi); [right|left]; lia.
    + intros i Hi. split; [by apply old_entry | by apply old_entries_stable].
  - exists (current_l1_entries o * 8). split_and!; [lia | lia | done].
  - split; [lia|]. split; [by right|lia].
  - intros c H1 H2. lia.
  - intros c _. unfold given_up. cbn. split; [done|]. intros [[? _]|[? _]]; done.
Qed.

(** ** A new L1 table *)

Lemma l1_grow_facts n : let L := l1_clusters_of n cs in grow_target o bits vs n -> fs + L * cs <= blen d0 -> fs / cs + L <= E * epr ->
  let a := fs / cs in let f1 := fill a (a + L) 1 old in
  plan_facts o epr E old d0 [PAppend fs (l1_region o (L * cs))] (header_layout o bits vs n fs rt_off rtc) f1 (fill (l1_off / cs) (l1_off / cs + L0) 0 f1)
    (fun c => a <= c < a + L) (fun c => l1_off / cs <= c < l1_off / cs + L0) (fs + L * cs) E (a + L) (l1_region o (L * cs)) (addr o).
Proof using Hg Hd.
  intros L Ht Hdev Hcov a f1. pose proof (gt_entries _ _ _ _ Ht) as Hn. pose proof (gr_l1_entries _ _ _ _ _ Hg) as Hl1e.
  destruct (l1_clusters_bounds o bits epr E old Hg n ltac:(lia)) as [HL HLe]. fold L in HL, HLe.
  pose proof (gr_file _ _ _ _ _ Hg) as Hfs. pose proof (gr_table_place _ _ _ _ _ Hg). pose proof (gr_cs_bounds o bits epr E old Hg) as Hcs.
  pose proof (gr_table_clusters _ _ _ _ _ Hg) as Htc. change (2 ^ 50) with 1125899906842624 in Hfs. destruct old_tables_below as (Hb1 & Hb2 & Hb3 & Hb4).
  assert (0 <= L * cs) by (apply Z.mul_nonneg_nonneg; lia). pose proof (l1_region_blen o bits epr E old Hg (L * cs) ltac:(lia)) as Hlen.
  split; cbn [header_layout ly_l1_offset ly_refcount_table_offset ly_l1_entries]; try lia.
  - split; [|done]. apply header_layout_fields with epr E old; [done | done | unfold is_u64, u64_max; lia | unfold is_u64, u64_max; nia | unfold is_u32; lia].
  - constructor; [|constructor]. unfold app_ok. cbn [patch_write]. split_and!; [apply (l1_region_bytes o bits epr E old Hg) | lia | lia | by left].
  - intros d Ha. unfold apply_patches in Ha. cbn in Ha. apply bind_Some in Ha as (d1 & Hs & [= <-]). pose proof (slice_splice_eq _ _ _ _ Hs) as He.
    split; [split; [exact He | apply above_stable with bits epr old d0; [done | done | lia | lia]] | | done | intros; lia].
    intros i Hi. split; [|by apply old_entries_stable]. rewrite <- old_entry by done. apply u64_at_same, (slice_splice_ne _ _ _ _ _ _ Hs).
    destruct (gr_blocks _ _ _ _ _ Hg) as (HE & HE8 & _). lia.
  - exists (L * cs). split_and!; [lia | lia | done].
  - intros c Hc. apply fill_out. lia.
  - intros c Hc1 Hc2. split; [lia|]. unfold f1. rewrite (fill_out (l1_off / cs)) by lia. by rewrite fill_in by lia.
  - intros c Hc. unfold given_up. cbn. split; [intros H1; left; split; [lia|done]|]. intros [[_ ?]|[? _]]; done.
  - intros c Hc. split; [intros H1; by apply fill_in | intros H1; by apply fill_out].
Qed.

(** ** New refcount structures *)

(** The last write to a range. *)
Lemma apply_get d a off b ps d' p : apply_patches d (a ++ p :: ps) = Some d' -> patch_write p = (off, b) ->
  Forall (fun q => off + blen b <= (patch_write q).1 \/ (patch_write q).1 + blen (patch_write q).2 <= off) ps -> slice d' off (off + blen b) = Some b.
Proof using.
  intros Ha Hp HF. unfold apply_patches in Ha. rewrite fmap_app, fmap_cons, Hp, apply_writes_app in Ha. apply bind_Some in Ha as (d1 & _ & Ha).
  cbn [apply_writes] in Ha. apply bind_Some in Ha as (d2 & Hs & Ha). rewrite (apply_writes_frame _ _ _ _ _ Ha); [by eapply slice_splice_eq|].
  apply Forall_fmap. eapply Forall_impl; [exact HF|]. done.
Qed.

Section refcounts.
Context (L tc delta : Z) (tb bb : bytes) (Hfit : append_fits o epr E L tc delta) (HL : current_l1_entries o * 8 <= L * cs).
Context (Htb : al_relocates (layout_of o L tc delta) || al_in_place (layout_of o L tc delta) = true -> table_spec o E L tc delta tb).
Context (Hbb : blocks_spec o epr E L tc delta bb).
#[local] Abbreviation al := (layout_of o L tc delta).

Definition new_addr (i : Z) : Z := if i <? E then addr o i else al_blocks_offset al + (i - E) * cs.

Lemma al_fields : al_relocates al = (rtc <? tc) /\ al_in_place al = negb (rtc <? tc) && (0 <? delta) /\ al_table_offset al = fs + L * cs /\
  al_effective_table_offset al = (if rtc <? tc then fs + L * cs else rt_off) /\ al_blocks_offset al = fs + L * cs + (if rtc <? tc then tc * cs else 0) /\
  al_total al = al_blocks_offset al + delta * cs.
Proof using. done. Qed.

Lemma app_patches_ok : Forall (app_ok o E (al_total al)) (app_patches o L tc delta tb bb).
Proof using Hg Hd Hfit HL Htb Hbb.
  destruct (append_sizes o bits epr E old Hg L tc delta Hfit) as (S1 & S2 & S3 & S4 & S5 & S6 & S7 & S8). cbv zeta in *.
  destruct al_fields as (E1 & E2 & E3 & E4 & E5 & E6). destruct (gr_blocks _ _ _ _ _ Hg) as (HE & HE8 & _). pose proof (gr_file _ _ _ _ _ Hg) as Hfs.
  pose proof (gr_table_place _ _ _ _ _ Hg) as Htp. pose proof (l1_region_blen o bits epr E old Hg (L * cs) HL) as Hlen.
  unfold app_patches. rewrite E1, E2 in *. constructor; [|apply Forall_app; split; [|apply Forall_app; split]].
  - unfold app_ok. cbn [patch_write]. split_and!; [apply (l1_region_bytes o bits epr E old Hg) | lia | lia | by left].
  - destruct (rtc <? tc) in *; [|constructor]. constructor; [|constructor]. specialize (Htb eq_refl). unfold app_ok. cbn [patch_write].
    rewrite (ts_len _ _ _ _ _ _ Htb). split_and!; [apply (ts_bytes _ _ _ _ _ _ Htb) | lia | lia | left; lia].
  - destruct (0 <? delta); [|constructor]. constructor; [|constructor]. unfold app_ok. cbn [patch_write].
    rewrite (bs_len _ _ _ _ _ _ _ Hbb). split_and!; [apply (bs_bytes _ _ _ _ _ _ _ Hbb) | lia | lia | left; lia].
  - destruct (negb (rtc <? tc) && (0 <? delta)) eqn:Eip; [|constructor]. constructor; [|constructor]. specialize (Htb ltac:(rewrite ?Eip; apply orb_true_r)). unfold app_ok. cbn [patch_write].
    apply andb_true_iff in Eip as [Er _]. apply negb_true_iff, Z.ltb_ge in Er. assert (tc = rtc) as Etc by (destruct Hfit; lia).
    rewrite (ts_len _ _ _ _ _ _ Htb). replace (tc * cs) with (rtc * cs) by (by rewrite Etc). split_and!; [apply (ts_bytes _ _ _ _ _ _ Htb) | lia | lia | right].
    split_and!; [done | done|]. intros i Hi. apply (ts_old _ _ _ _ _ _ Htb i Hi).
Qed.

(** What is on the disk once they are written. *)
Lemma app_regions d : apply_patches d0 (app_patches o L tc delta tb bb) = Some d ->
  slice d fs (fs + L * cs) = Some (l1_region o (L * cs)) /\
  (al_relocates al || al_in_place al = true -> slice d (al_effective_table_offset al) (al_effective_table_offset al + tc * cs) = Some tb) /\
  (0 < delta -> slice d (al_blocks_offset al) (al_blocks_offset al + delta * cs) = Some bb).
Proof using Hg Hd Hfit HL Htb Hbb.
  intros Ha. destruct (append_sizes o bits epr E old Hg L tc delta Hfit) as (S1 & S2 & S3 & S4 & S5 & S6 & S7 & S8). cbv zeta in *.
  destruct al_fields as (E1 & E2 & E3 & E4 & E5 & E6). pose proof (gr_table_place _ _ _ _ _ Hg) as Htp. pose proof (l1_region_blen o bits epr E old Hg (L * cs) HL) as Hlen.
  pose proof (bs_len _ _ _ _ _ _ _ Hbb) as Lbb. unfold app_patches in Ha. rewrite E1, E2 in *. rewrite E4.
  destruct (rtc <? tc) eqn:Hr in *; [apply Z.ltb_lt in Hr | apply Z.ltb_ge in Hr]; cbn [negb andb orb app] in *.
  - specialize (Htb eq_refl). pose proof (ts_len _ _ _ _ _ _ Htb) as Ltb. split_and!.
    + replace (fs + L * cs) with (fs + blen (l1_region o (L * cs))) by lia. eapply (apply_get d0 []); [exact Ha | by cbn|]. constructor; [cbn [patch_write fst snd]; lia|]. destruct (0 <? delta); cbn [app]; [|constructor]. constructor; [cbn [patch_write fst snd]; lia|constructor].
    + intros _. rewrite <- E3, <- Ltb. eapply (apply_get d0 [PAppend fs (l1_region o (L * cs))]); [exact Ha | by cbn|].
      destruct (0 <? delta); cbn [app]; [|constructor]. constructor; [cbn [patch_write fst snd]; lia|constructor].
    + intros Hdp. rewrite (proj2 (Z.ltb_lt 0 delta) Hdp) in Ha. rewrite <- Lbb.
      eapply (apply_get d0 [PAppend fs (l1_region o (L * cs)); PAppend (al_table_offset al) tb]); [exact Ha | by cbn|constructor].
  - assert (tc = rtc) as Etc by (destruct Hfit; lia).
    destruct (0 <? delta) eqn:Hdl in *; [apply Z.ltb_lt in Hdl | apply Z.ltb_ge in Hdl]; cbn [app] in *.
    + specialize (Htb eq_refl). pose proof (ts_len _ _ _ _ _ _ Htb) as Ltb. split_and!.
      * replace (fs + L * cs) with (fs + blen (l1_region o (L * cs))) by lia. eapply (apply_get d0 []); [exact Ha | by cbn|]. constructor; [cbn [patch_write fst snd]; lia|]. constructor; [cbn [patch_write fst snd]; rewrite Ltb; replace (tc * cs) with (rtc * cs) by (by rewrite Etc); lia|constructor].
      * intros _. rewrite <- Ltb. eapply (apply_get d0 [PAppend fs (l1_region o (L * cs)); PAppend (al_blocks_offset al) bb]); [exact Ha | by cbn|constructor].
      * intros _. rewrite <- Lbb. eapply (apply_get d0 [PAppend fs (l1_region o (L * cs))]); [exact Ha | by cbn|]. constructor; [cbn [patch_write fst snd]; rewrite Ltb; replace (tc * cs) with (rtc * cs) by (by rewrite Etc); lia|constructor].
    + split_and!; [|done|lia]. replace (fs + L * cs) with (fs + blen (l1_region o (L * cs))) by lia. eapply (apply_get d0 []); [exact Ha | by cbn|constructor].
Qed.

Lemma app_new_tables d : apply_patches d0 (app_patches o L tc delta tb bb) = Some d ->
  new_tables o epr E d fs (l1_region o (L * cs)) (al_effective_table_offset al) (E + delta) (al_total al / cs) new_addr.
Proof using Hg Hd Hfit HL Htb Hbb.
  intros Ha. destruct (app_regions d Ha) as (R1 & R2 & R3). pose proof (app_keeps o bits epr E old Hg d0 Hd _ _ d0 d _ app_patches_ok Ha (start_image o bits epr E old Hg d0 Hd)) as Hk.
  destruct (append_sizes o bits epr E old Hg L tc delta Hfit) as (S1 & S2 & S3 & S4 & S5 & S6 & S7 & S8). cbv zeta in *.
  destruct al_fields as (E1 & E2 & E3 & E4 & E5 & E6). destruct (gr_blocks _ _ _ _ _ Hg) as (HE & HE8 & _). pose proof (l1_region_blen o bits epr E old Hg (L * cs) HL) as Hlen.
  pose proof (gr_cs_bounds o bits epr E old Hg) as Hcs.
  assert (forall x y, fs <= x -> x <= y -> stable o E x y) as Hst by (intros; by apply above_stable with bits epr old d0).
  split; [rewrite Hlen; split; [done | apply Hst; lia] | | |].
  - intros i Hi. pose proof (af_room _ _ _ _ _ _ Hfit) as Hroom.
    destruct (al_relocates al || al_in_place al) eqn:Ec.
    + specialize (R2 eq_refl). specialize (Htb eq_refl). split.
      * rewrite (u64_at_region _ _ _ _ _ R2) by lia. unfold new_addr. destruct (Z.ltb_spec i E); [apply (ts_old _ _ _ _ _ _ Htb); lia|].
        pose proof (ts_new _ _ _ _ _ _ Htb (i - E) ltac:(lia)) as Hn. by replace (E + (i - E)) with i in Hn by lia.
      * rewrite E4. destruct (rtc <? tc) eqn:Er; [apply Hst; lia|]. apply Z.ltb_ge in Er. assert (tc = rtc) as Etc by (destruct Hfit; lia).
        pose proof (od_table_place _ _ _ _ _ Hd) as Htp. rewrite Etc in Hroom. split; [lia|]. intros j Hj. destruct (od_block_table _ _ _ _ _ Hd j Hj); [right|left]; lia.
    + rewrite E1, E2 in Ec. apply orb_false_iff in Ec as [Er Edl]. rewrite Er in Edl. cbn [negb andb] in Edl. apply Z.ltb_ge in Edl. rewrite E4, Er.
      assert (0 <= i < E) as HiE by lia. split; [|by apply old_entries_stable]. unfold new_addr. rewrite (proj2 (Z.ltb_lt i E)) by lia. by apply (oi_table _ _ _ _ _ _ Hk).
  - intros i Hi. unfold new_addr. by rewrite (proj2 (Z.ltb_lt i E)) by lia.
  - intros i Hi. unfold new_addr. rewrite (proj2 (Z.ltb_ge i E)) by lia. assert (0 <= (i - E) * cs) by (apply Z.mul_nonneg_nonneg; lia).
    split; [apply Hst; lia|]. destruct (bs_counts _ _ _ _ _ _ _ Hbb (i - E) ltac:(lia)) as (blk & Hsl & Hc). exists blk. replace (E + (i - E)) with i in Hc by lia.
    split; [|done]. rewrite (slice_slice _ _ _ _ ((i - E) * cs) ((i - E + 1) * cs) (R3 ltac:(lia))) in Hsl by nia. rewrite <- Hsl. f_equal. lia.
Qed.

Lemma refcount_grow_facts n : L = l1_clusters_of n cs -> grow_target o bits vs n -> al_total al <= blen d0 -> let ntc := al_total al / cs in
  plan_facts o epr E old d0 (app_patches o L tc delta tb bb) (header_layout o bits vs n fs (al_effective_table_offset al) tc)
    (grown1 o epr E old ntc) (grown2 o epr E old (al_relocates al) ntc) (fun c => fs / cs <= c < Z.min (E * epr) ntc) (freed o (al_relocates al))
    (al_total al) (E + delta) ntc (l1_region o (L * cs)) new_addr.
Proof using Hg Hd Hfit HL Htb Hbb.
  intros HLn Ht Hdev ntc. destruct (append_sizes o bits epr E old Hg L tc delta Hfit) as (S1 & S2 & S3 & S4 & S5 & S6 & S7 & S8). cbv zeta in *.
  destruct al_fields as (E1 & E2 & E3 & E4 & E5 & E6). pose proof (gt_entries _ _ _ _ Ht) as Hn. pose proof (gr_l1_entries _ _ _ _ _ Hg) as Hl1e.
  destruct (l1_clusters_bounds o bits epr E old Hg n ltac:(lia)) as [HLb HLe]. rewrite <- HLn in HLb, HLe. destruct old_tables_below as (Hb1 & Hb2 & Hb3 & Hb4).
  pose proof (gr_file _ _ _ _ _ Hg) as Hfs. pose proof (gr_table_place _ _ _ _ _ Hg) as Htp. pose proof (gr_cs_bounds o bits epr E old Hg) as Hcs. pose proof (gr_table_clusters _ _ _ _ _ Hg) as Hrt.
  assert (fs / cs <= ntc) as Hntc by (apply Z.div_le_mono; lia). assert (0 <= rtc * cs) by (apply Z.mul_nonneg_nonneg; lia).
  assert (is_u64 (al_effective_table_offset al)) as Heff by (rewrite E4; unfold is_u64, u64_max; destruct (_ <? _); lia).
  assert (forall c, fs / cs <= c -> ~ freed o (al_relocates al) c) as Hnf by (intros c Hc [H1|[_ H1]]; lia).
  assert (forall c, (freed o (al_relocates al) c -> grown2 o epr E old (al_relocates al) ntc c = 0) /\
                    (~ freed o (al_relocates al) c -> grown2 o epr E old (al_relocates al) ntc c = grown1 o epr E old ntc c)) as Hgr2.
  { intros c. unfold freed, grown2. destruct (al_relocates al).
    - unfold fill. destruct (Z.leb_spec (rt_off / cs) c), (Z.ltb_spec c (rt_off / cs + rtc)); cbn [andb]; (split; [intros [Hc|[_ Hc]]|intros Hc]); try done; try lia;
        try (exfalso; apply Hc; right; split; [done|lia]); destruct (Z.leb_spec (l1_off / cs) c), (Z.ltb_spec c (l1_off / cs + L0)); cbn [andb]; try done; try lia;
        exfalso; apply Hc; left; lia.
    - split; [intros [Hc|[[=] _]]; by apply fill_in | intros Hc; apply fill_out; intros Hin; apply Hc; by left]. }
  split; cbn [header_layout ly_l1_offset ly_refcount_table_offset ly_l1_entries]; try done; try lia.
  - split; [|done]. apply header_layout_fields with epr E old; [done | done | unfold is_u64, u64_max; lia | done | destruct Hfit; unfold is_u32, u32_max in *; lia].
  - exact app_patches_ok.
  - exact app_new_tables.
  - exists (L * cs). split_and!; [lia | lia | done].
  - destruct Hfit as [_ F2 _ _ F5 _ _ _ _]. split; [done|]. split; [by left|lia].
  - intros c Hc. unfold grown1. apply fill_out. lia.
  - intros c Hc1 Hc2. split; [lia|]. assert (grown1 o epr E old ntc c = 1) as H1 by (apply fill_in; lia). split; [done|].
    rewrite (proj2 (Hgr2 c)); [done|]. apply Hnf. lia.
  - intros c Hc. unfold freed, given_up. cbn [created_header hdr_l1_table_offset hdr_refcount_table_offset resize_header bh_layout header_layout ly_l1_offset ly_refcount_table_offset].
    rewrite E1, E4. destruct (rtc <? tc).
    + split; [intros [H1|[_ H1]]; [left; split; [lia|done] | right; split; [lia|done]] | intros [[_ H1]|[_ H1]]; [by left | by right]].
    + split; [intros [H1|[[=] _]]; left; split; [lia|done] | intros [[_ H1]|[H1 _]]; [by left|done]].
Qed.
End refcounts.
End facts.

(** ** The entry point *)

Lemma run_gives {A} (m : SM (Staged A) ResizeError ResizePlan) slots scratch (Q : ResizePlan -> Prop) :
  gives m (mkStaged scratch 0 slots) (fun p _ => Q p) -> builds (run_planner m slots scratch) Q.
Proof. unfold gives, wp, run_planner, builds. by destruct (m _) as [[] ?]. Qed.

(** The blocks of a dense table are counted. *)
Lemma count_dense o bits epr E old d0 n k : growable o bits epr E old -> on_disk o epr E old d0 ->
  let len := current_refcount_table_clusters o * rz_cluster_size o in
  0 <= k -> 8 * k <= len -> (len - 8 * k) / 8 < Z.of_nat n ->
  count_blocks_from n (existing_refcount_table_bytes o) (8 * k) (Z.min k E) = Ok E.
Proof.
  intros Hg Hd len. destruct (gr_table _ _ _ _ _ Hg) as [_ Hlen]. destruct (gr_blocks _ _ _ _ _ Hg) as (HE & HE8 & _). fold len in Hlen, HE8.
  assert (len mod 8 = 0) as Hm.
  { unfold len. rewrite (gr_cs _ _ _ _ _ Hg). replace bits with (3 + (bits - 3)) by lia. pose proof (gr_bits _ _ _ _ _ Hg).
    rewrite Z.pow_add_r by lia. rewrite Z.mul_assoc, (Z.mul_comm _ (2 ^ 3)), <- Z.mul_assoc, Z.mul_comm. apply Z.mod_mul. lia. }
  pose proof (gr_cs_bounds o bits epr E old Hg) as Hcs. pose proof (Z.div_mod len 8 ltac:(lia)) as Hdm.
  revert k. induction n as [|n IH]; intros k Hk Hle Hf; [pose proof (Z.div_pos (len - 8 * k) 8); lia|]. cbn [count_blocks_from]. rewrite Hlen.
  destruct (Z.ltb_spec len (8 * k + 8)); [f_equal; lia|]. rewrite be_u64_at by lia. cbn [obind]. fold (addr o k).
  replace (8 * k + 8) with (8 * (k + 1)) by lia.
  assert ((if nonzero (addr o k) then Z.min k E + 1 else Z.min k E) = Z.min (k + 1) E) as ->.
  { unfold nonzero. destruct (decide (k < E)) as [Hlt|Hge].
    - pose proof (od_block_place _ _ _ _ _ Hd k ltac:(lia)). destruct (Z.eqb_spec (addr o k) 0); cbn [negb]; lia.
    - rewrite (od_dense _ _ _ _ _ Hd k) by (fold len; lia). cbn. lia. }
  apply IH; [lia | lia|]. replace (len - 8 * k) with (len - 8 * (k + 1) + 1 * 8) in Hf by lia. rewrite Z.div_add in Hf by lia. lia.
Qed.

(** A growth of a well-formed image. *)
Record grow_request (opts : Qcow2ResizeOpts) (bits E : Z) (old : Z -> Z) (d0 : bytes) : Prop := {
  gq_size : 0 <= current_file_size opts;
  gq_features : validate_incompat (current_incompatible_features opts) = Ok tt /\ validate_no_bitmaps (current_autoclear_features opts) = Ok tt;
  gq_larger : 0 <= current_virtual_size opts < new_virtual_size opts /\ is_u64 (new_virtual_size opts);
  gq_room : div_ceil (new_virtual_size opts) (l2_coverage_of bits (rz_extended_l2 opts)) <= QCOW2_MAX_L1_SIZE_ENTRIES;
  gq_prealloc : prealloc_is (rz_preallocation opts) RzMetadata = false /\ rz_extended_l2 opts && negb (prealloc_is (rz_preallocation opts) RzOff) = false;
  gq_image : let o := with_file_size opts (div_ceil (current_file_size opts) (rz_cluster_size opts) * rz_cluster_size opts) in
    let epr := rz_cluster_size opts * 8 / rz_refcount_bits opts in growable o bits epr E old /\ on_disk o epr E old d0;
  gq_counted : 1 + l1_clusters_of (current_l1_entries opts) (rz_cluster_size opts) + current_refcount_table_clusters opts + E <=
    E * (rz_cluster_size opts * 8 / rz_refcount_bits opts)
}.

Section entry.
Context (opts : Qcow2ResizeOpts) (bits E : Z) (old : Z -> Z) (d0 : bytes) (Hq : grow_request opts bits E old d0).
#[local] Abbreviation cs := (rz_cluster_size opts).
#[local] Abbreviation epr := (rz_cluster_size opts * 8 / rz_refcount_bits opts).
#[local] Abbreviation fs := (div_ceil (current_file_size opts) (rz_cluster_size opts) * rz_cluster_size opts).
#[local] Abbreviation o := (with_file_size opts fs).
#[local] Abbreviation cur := (current_l1_entries opts).
#[local] Abbreviation n := (div_ceil (new_virtual_size opts) (l2_coverage_of bits (rz_extended_l2 opts))).

Lemma file_aligned : aligned_file_size (current_file_size opts) cs = Ok fs.
Proof using Hq.
  destruct (gq_image _ _ _ _ _ Hq) as [Hg _]. pose proof (gr_cs_bounds o bits epr E old Hg) as Hcs. change (rz_cluster_size o) with cs in Hcs. change (2 ^ 21) with 2097152 in Hcs.
  pose proof (gr_file _ _ _ _ _ Hg) as Hfs. change (current_file_size o) with fs in Hfs. change (2 ^ 50) with 1125899906842624 in Hfs. pose proof (gq_size _ _ _ _ _ Hq).
  destruct (div_ceil_spec (current_file_size opts) cs ltac:(lia)) as [H1 H2]. unfold aligned_file_size, checked_next_multiple_of.
  pose proof (Z.div_mod (current_file_size opts) cs ltac:(lia)) as Hdm. pose proof (Z.mod_pos_bound (current_file_size opts) cs ltac:(lia)) as Hmb.
  set (q := current_file_size opts / cs) in *. set (r := current_file_size opts mod cs) in *. set (dc := div_ceil (current_file_size opts) cs) in *.
  destruct (Z.eqb_spec r 0) as [Hr|Hr].
  - cbn [ok_or]. f_equal. assert (dc = q) by nia. lia.
  - assert (dc = q + 1) by nia. unfold checked_add. replace (current_file_size opts + (cs - r)) with (dc * cs) by lia.
    destruct (Z.leb_spec (dc * cs) u64_max) as [|Hu]; [done|]. unfold u64_max in Hu. lia.
Qed.

Lemma existing_counted : count_existing_refcount_blocks (existing_refcount_table_bytes opts) = Ok E.
Proof using Hq.
  destruct (gq_image _ _ _ _ _ Hq) as [Hg Hd]. destruct (gr_table _ _ _ _ _ Hg) as [_ Hlen]. destruct (gr_blocks _ _ _ _ _ Hg) as (HE & _).
  pose proof (count_dense o bits epr E old d0 (S (length (existing_refcount_table_bytes opts))) 0 Hg Hd ltac:(lia)) as H. cbv zeta in H. rewrite <- Hlen in H.
  change (existing_refcount_table_bytes o) with (existing_refcount_table_bytes opts) in H. rewrite Z.min_l in H by lia. apply H; [apply blen_nonneg|].
  rewrite Z.mul_0_r, Z.sub_0_r. unfold blen. apply Z.div_lt_upper_bound; lia.
Qed.

Lemma target_layout : exists t, compute_layout (new_virtual_size opts) bits (rz_refcount_bits opts) (rz_extended_l2 opts) Off = Ok t /\ ly_l1_entries t = n /\
  (n <= cur -> ly_refcount_block_count t <= E /\ ly_refcount_table_clusters t <= current_refcount_table_clusters opts).
Proof using Hq.
  destruct (gq_image _ _ _ _ _ Hq) as [Hg _]. pose proof (gr_bits _ _ _ _ _ Hg) as Hb. pose proof (gr_width _ _ _ _ _ Hg) as Hw. pose proof (valid_width_range _ Hw) as Hwr.
  change (rz_refcount_bits o) with (rz_refcount_bits opts) in *. pose proof (gq_larger _ _ _ _ _ Hq) as [Hlt Hu]. pose proof (gr_cs_bounds o bits epr E old Hg) as Hcs.
  change (rz_cluster_size o) with cs in Hcs.
  pose proof (compute_layout_spec (new_virtual_size opts) bits (rz_refcount_bits opts) (rz_extended_l2 opts) Off Hu
    ltac:(unfold is_u32, u32_max; lia) ltac:(unfold is_u32, u32_max; lia)) as Hs.
  assert (creatable (new_virtual_size opts) bits (rz_refcount_bits opts) (rz_extended_l2 opts) Off) as Hc.
  { split; [lia | done | done | by rewrite andb_false_r | exact (gq_room _ _ _ _ _ Hq)]. }
  destruct (compute_layout _ _ _ _ _) as [t| | |]; [|by exfalso; apply Hs|done..]. destruct Hs as (Hl & Hbd & [= E1 E2 E3] & E4 & E5 & Hleast).
  exists t. split; [done|]. pose proof (lo_l1 _ Hl) as Hl1. rewrite E1, E2, E4 in Hl1. split; [done|]. intros Hle.
  pose proof (lo_cs _ Hl) as Hlc. rewrite E2 in Hlc. pose proof (gr_cs _ _ _ _ _ Hg) as Hgc. change (rz_cluster_size o) with cs in Hgc. rewrite <- Hgc in Hlc.
  pose proof (lo_l2c _ Hl) as Hl2. pose proof (lo_data _ Hl) as Hld. rewrite E5 in Hl2, Hld. cbn [populates_data_metadata] in Hl2, Hld.
  pose proof (gq_counted _ _ _ _ _ Hq) as Hcnt. destruct (gr_blocks _ _ _ _ _ Hg) as (HE & HE8 & _). pose proof (gr_table_clusters _ _ _ _ _ Hg) as Hrt.
  change (current_refcount_table_clusters o) with (current_refcount_table_clusters opts) in *. change (rz_cluster_size o) with cs in HE8.
  pose proof (gr_l1_entries _ _ _ _ _ Hg) as Hcur. change (current_l1_entries o) with cur in Hcur. unfold QCOW2_MAX_L1_SIZE_ENTRIES in Hcur.
  assert (ly_l1_clusters t <= l1_clusters_of cur cs) as Hlcl.
  { rewrite (lo_l1c _ Hl), Hlc, Hl1. unfold l1_clusters_of. rewrite wmul_small by (unfold u64_max; lia).
    etrans; [apply (div_ceil_mono _ (cur * 8)); lia|]. lia. }
  rewrite Hlc, Hl2, Hld in Hleast. pose proof (Z.le_max_r (div_ceil (wmul cur 8) cs) 1). unfold l1_clusters_of in Hcnt, Hlcl.
  destruct (Hleast (current_refcount_table_clusters opts) E) as [H1 H2]; [|split; lia|done].
  destruct (decide (E = 0)) as [->|]; lia.
Qed.

Lemma div_ceil_multiple x m : 0 < m -> x mod m = 0 -> div_ceil x m = x / m.
Proof using. intros Hm Hx. destruct (div_ceil_spec x m Hm) as [H1 H2]. pose proof (Z.div_mod x m ltac:(lia)). nia. Qed.

Lemma coverage_large (b : Z) (ext : bool) : 9 <= b <= 21 -> 16384 <= l2_coverage_of b ext.
Proof using.
  intros Hb. unfold l2_coverage_of, l2_entries_of. assert (512 <= 2 ^ b) by (change 512 with (2 ^ 9); apply Z.pow_le_mono_r; lia).
  assert (32 <= 2 ^ b / (if ext then 16 else 8)) by (destruct ext; apply Z.div_le_lower_bound; lia). nia.
Qed.

(** What a growth appends fits the capacity the host gives the device. *)
Lemma capacity_covers T L : 0 <= T <= 2 ^ 53 -> L = l1_clusters_of n cs -> 3968 * (T - fs - L * cs) <= 65 * (2 * fs + L * cs) + 7998 * cs ->
  T <= capacity_hint (current_file_size opts) (new_virtual_size opts).
Proof using Hq.
  intros HT -> HG. destruct (gq_image _ _ _ _ _ Hq) as [Hg _]. pose proof (gr_cs_bounds o bits epr E old Hg) as Hcs. change (rz_cluster_size o) with cs in Hcs. change (2 ^ 21) with 2097152 in Hcs.
  pose proof (gq_size _ _ _ _ _ Hq). pose proof (gq_larger _ _ _ _ _ Hq) as [Hlt Hu]. pose proof (gq_room _ _ _ _ _ Hq) as Hroom. unfold QCOW2_MAX_L1_SIZE_ENTRIES in Hroom.
  destruct (div_ceil_spec (current_file_size opts) cs ltac:(lia)) as [_ Hf]. pose proof (coverage_large bits (rz_extended_l2 opts) (gr_bits _ _ _ _ _ Hg)) as Hcov.
  destruct (div_ceil_spec (new_virtual_size opts) (l2_coverage_of bits (rz_extended_l2 opts)) ltac:(lia)) as [_ Hn].
  assert (0 <= n) as Hn0 by (apply div_ceil_nonneg; lia).
  assert ((n - 1) * 16384 <= new_virtual_size opts) as Hn1.
  { destruct (Z.le_gt_cases n 0); [lia|]. assert ((n - 1) * 16384 <= (n - 1) * l2_coverage_of bits (rz_extended_l2 opts)) by (apply Z.mul_le_mono_nonneg_l; lia). lia. }
  assert (l1_clusters_of n cs * cs <= 8 * n + cs) as HL.
  { unfold l1_clusters_of. rewrite wmul_small by (unfold u64_max; lia). destruct (div_ceil_spec (n * 8) cs ltac:(lia)) as [_ Hl].
    destruct (Z.max_spec (div_ceil (n * 8) cs) 1) as [[_ ->]|[_ ->]]; lia. }
  unfold capacity_hint, sat_mul, u64_max. change (2 ^ 30) with 1073741824. change (2 ^ 53) with 9007199254740992 in HT. lia.
Qed.

Definition grown (p : ResizePlan) : Prop :=
  rp_action p = Grow /\ div_ceil (rp_total_file_size p) cs * cs <= capacity_hint (current_file_size opts) (new_virtual_size opts) /\ (div_ceil (rp_total_file_size p) cs * cs <= blen d0 ->
    crash_safe o epr E old d0 p (Z.max cur n) (div_ceil (rp_total_file_size p) cs)).

Lemma grown_of p l total app f1 f2 cl fr tot nb ntc l1b na : plan_shape o epr p total app l f1 f2 cl fr -> div_ceil total cs = ntc -> ntc * cs <= capacity_hint (current_file_size opts) (new_virtual_size opts) ->
  (ntc * cs <= blen d0 -> plan_facts o epr E old d0 app l f1 f2 cl fr tot nb ntc l1b na) -> ly_virtual_size l = new_virtual_size opts -> ly_l1_entries l = Z.max cur n -> grown p.
Proof using Hq.
  intros Hs Ht Hcap Hf Hv Hl. destruct (gq_image _ _ _ _ _ Hq) as [Hg Hd]. pose proof Hs as (hdr & pre & post & B1 & B2 & Ha & Htot & _). split; [done|].
  rewrite Htot, Ht. split; [done|]. intros Hdev. rewrite <- Hl. eapply shape_crash_safe; [exact Hg | exact Hd | exact Hs | by apply Hf | done].
Qed.

Lemma header_only_grown scratch : is_bytes scratch -> n <= cur -> builds (run_planner (plan_header_only opts) tt scratch) grown.
Proof using Hq.
  intros Hb Hle. destruct (gq_image _ _ _ _ _ Hq) as [Hg Hd]. pose proof (gr_cs_bounds o bits epr E old Hg) as Hcs. change (rz_cluster_size o) with cs in Hcs.
  apply run_gives. replace opts with (with_file_size o (current_file_size opts)) at 1 by (by destruct opts).
  eapply gives_mono; [eapply plan_header_only_gives; [exact Hg | done | exact (proj2 (gq_larger _ _ _ _ _ Hq)) | exact (gq_room _ _ _ _ _ Hq)]|].
  intros p u Hp. cbv beta in Hp. eapply (grown_of _ _ _ _ _ _ _ _ _ _ (current_file_size o / rz_cluster_size o));
    [exact Hp | symmetry; apply Z.div_mul; change (rz_cluster_size o) with cs; lia | | | done | cbn; lia].
  { change (current_file_size o / rz_cluster_size o) with (fs / cs). rewrite Z.div_mul by lia. pose proof (gr_file _ _ _ _ _ Hg) as Hfs. change (current_file_size o) with fs in Hfs.
    apply (capacity_covers fs (l1_clusters_of n cs)); [change (2 ^ 53) with 9007199254740992; change (2 ^ 50) with 1125899906842624 in Hfs; lia | done|].
    assert (0 <= l1_clusters_of n cs * cs) by (apply Z.mul_nonneg_nonneg; [unfold l1_clusters_of|]; lia). lia. }
  intros Hdev. change (current_file_size o / rz_cluster_size o) with (fs / cs) in Hdev. rewrite Z.div_mul in Hdev by lia.
  apply (header_only_facts o bits epr E old Hg d0 Hd); [exact Hdev | exact (proj2 (gq_larger _ _ _ _ _ Hq)) | exact (gq_room _ _ _ _ _ Hq)].
Qed.

Lemma target_ok : cur <= n -> grow_target o bits (new_virtual_size opts) n.
Proof using Hq. intros H. pose proof (gq_room _ _ _ _ _ Hq). split; [exact (proj2 (gq_larger _ _ _ _ _ Hq)) | split; [exact H | done] | done]. Qed.

Lemma l1_grown t scratch : is_bytes scratch -> cur <= n -> ly_l1_entries t = n -> fs / cs + l1_clusters_of n cs <= E * epr ->
  builds (run_planner (plan_l1_grow o t) [] scratch) grown.
Proof using Hq.
  intros Hb Hle Hn Hcov. destruct (gq_image _ _ _ _ _ Hq) as [Hg Hd]. pose proof (gr_cs_bounds o bits epr E old Hg) as Hcs. change (rz_cluster_size o) with cs in Hcs.
  apply run_gives. eapply gives_mono; [eapply plan_l1_grow_gives; [exact Hg | done | rewrite Hn; by apply target_ok]|]. rewrite Hn.
  intros p u Hp. cbv beta in Hp. eapply (grown_of _ _ _ _ _ _ _ _ _ _ (fs / cs + l1_clusters_of n cs)); [exact Hp | | | | done | cbn; lia].
  - change (current_file_size o) with fs. change (rz_cluster_size o) with cs. rewrite <- Z.mul_add_distr_r, div_ceil_multiple by (lia || apply Z.mod_mul; lia).
    by rewrite !Z.div_mul by lia.
  - rewrite Z.div_mul by lia. rewrite Z.mul_add_distr_r. pose proof (gr_file _ _ _ _ _ Hg) as Hfs. change (current_file_size o) with fs in Hfs.
    pose proof (gr_l1_entries _ _ _ _ _ Hg) as Hcur. change (current_l1_entries o) with cur in Hcur. pose proof (gq_room _ _ _ _ _ Hq) as Hroom.
    destruct (l1_clusters_bounds o bits epr E old Hg n ltac:(lia)) as [HL _]. change (rz_cluster_size o) with cs in HL. change (2 ^ 21) with 2097152 in Hcs.
    assert (0 <= l1_clusters_of n cs * cs <= 65536 * 2097152) by (split; [apply Z.mul_nonneg_nonneg; lia | apply Z.mul_le_mono_nonneg; lia]).
    change (2 ^ 50) with 1125899906842624 in Hfs. apply (capacity_covers _ (l1_clusters_of n cs)); [change (2 ^ 53) with 9007199254740992; lia | done | lia].
  - intros Hdev. apply (l1_grow_facts o bits epr E old Hg d0 Hd n); [by apply target_ok | | exact Hcov].
    change (current_file_size o) with fs. change (rz_cluster_size o) with cs. rewrite Z.div_mul in Hdev by lia. lia.
Qed.

Lemma refcount_grown t scratch : is_bytes scratch -> cur <= n -> ly_l1_entries t = n -> builds (run_planner (plan_l1_and_refcount_grow o t E) (mkGrowSlots [] []) scratch) grown.
Proof using Hq.
  intros Hb Hle Hn. destruct (gq_image _ _ _ _ _ Hq) as [Hg Hd]. pose proof (gr_cs_bounds o bits epr E old Hg) as Hcs. change (rz_cluster_size o) with cs in Hcs.
  apply run_gives. eapply gives_mono; [eapply plan_l1_and_refcount_gives; [exact Hg | done | rewrite Hn; by apply target_ok]|]. rewrite Hn.
  intros p u (tc & delta & tb & bb & Hfit & Htb & Hbb & Hp). pose proof (gr_l1_entries _ _ _ _ _ Hg) as Hcur. change (current_l1_entries o) with cur in Hcur.
  pose proof (gq_room _ _ _ _ _ Hq) as Hroom. destruct (l1_clusters_bounds o bits epr E old Hg n ltac:(lia)) as [_ HL].
  eapply grown_of; [exact Hp | | | | done | cbn; lia].
  - apply div_ceil_multiple; [lia|]. exact (af_aligned _ _ _ _ _ _ Hfit).
  - pose proof (af_aligned _ _ _ _ _ _ Hfit) as Hal. change (rz_cluster_size o) with cs in *.
    pose proof (Z.div_mod (al_total (layout_of o (l1_clusters_of n cs) tc delta)) cs ltac:(lia)) as Hdm. rewrite Hal in Hdm.
    replace (al_total (layout_of o (l1_clusters_of n cs) tc delta) / cs * cs) with (al_total (layout_of o (l1_clusters_of n cs) tc delta)) by lia.
    apply (capacity_covers _ (l1_clusters_of n cs)); [|done | exact (af_growth _ _ _ _ _ _ Hfit)]. split; [|exact (af_total _ _ _ _ _ _ Hfit)].
    destruct (append_sizes o bits epr E old Hg _ _ _ Hfit) as (S1 & _ & S3 & _ & _ & S6 & _ & S8). change (rz_cluster_size o) with cs in *. change (current_file_size o) with fs in S8.
    pose proof (gr_file _ _ _ _ _ Hg) as [Hfs _]. change (current_file_size o) with fs in Hfs. rewrite <- S6. lia.
  - intros Hdev. eapply (refcount_grow_facts o bits epr E old Hg d0 Hd); [exact Hfit | change (current_l1_entries o) with cur; lia | exact Htb | exact Hbb | done | by apply target_ok|].
    etrans; [|exact Hdev]. pose proof (af_aligned _ _ _ _ _ _ Hfit) as Hal. pose proof (Z.div_mod (al_total (layout_of o (l1_clusters_of n (rz_cluster_size o)) tc delta)) cs ltac:(lia)) as Hdm.
    change (rz_cluster_size o) with cs in *. lia.
Qed.

(** Which of the three plans is made. *)
Lemma action_cases t : ly_l1_entries t = n ->
  (n <= cur -> ly_refcount_block_count t <= E /\ ly_refcount_table_clusters t <= current_refcount_table_clusters opts) ->
  exists blocks table, effective_requirements t fs cs (rz_refcount_bits opts) cur (current_refcount_table_clusters opts) E = Ok (blocks, table) /\
    match decide_action cur (current_refcount_table_clusters opts) E (ly_l1_entries t) table blocks with
    | HeaderOnly => n <= cur
    | L1Grow => cur <= n /\ fs / cs + l1_clusters_of n cs <= E * epr
    | L1AndRefcountGrow => cur <= n
    end.
Proof using Hq.
  intros Hn Hsmall. destruct (gq_image _ _ _ _ _ Hq) as [Hg Hd]. pose proof (gr_cs_bounds o bits epr E old Hg) as Hcs. change (rz_cluster_size o) with cs in Hcs.
  unfold effective_requirements. rewrite Hn. destruct (Z.ltb_spec cur n) as [Hlt|Hge].
  - pose proof (gr_file _ _ _ _ _ Hg) as Hfs. change (current_file_size o) with fs in Hfs. pose proof (gr_table_clusters _ _ _ _ _ Hg) as Hrt.
    pose proof (gr_table_place _ _ _ _ _ Hg) as Htp. destruct (gr_blocks _ _ _ _ _ Hg) as (HE & HE8 & _). pose proof (gr_l1_entries _ _ _ _ _ Hg) as Hcur.
    pose proof (gq_room _ _ _ _ _ Hq) as Hroom. destruct (l1_clusters_bounds o bits epr E old Hg n ltac:(change (current_l1_entries o) with cur in Hcur; lia)) as [HL _].
    change (rz_cluster_size o) with cs in *. change (current_refcount_table_clusters o) with (current_refcount_table_clusters opts) in *.
    change (current_file_size o) with fs in Htp. change (2 ^ 50) with 1125899906842624 in Hfs.
    assert (append_request fs cs (rz_refcount_bits opts) (l1_clusters_of n cs) (current_refcount_table_clusters opts) E) as Hr.
    { split; try done; [exact (gr_width _ _ _ _ _ Hg) | change (2 ^ 61) with 2305843009213693952; lia | apply Z.mod_mul; lia | change (2 ^ 22) with 4194304; lia | lia | rewrite Z.max_l by lia; done]. }
    destruct (append_numbers _ _ _ _ _ _ Hr) as (bc & tc & total & -> & N1 & N2 & N3 & N4 & N5 & N6 & _); [change (2 ^ 50) with 1125899906842624; lia | lia | lia | lia|].
    exists bc, tc. split; [done|]. unfold decide_action. rewrite (proj2 (Z.ltb_lt cur n) Hlt).
    destruct (Z.ltb_spec E bc), (Z.ltb_spec (current_refcount_table_clusters opts) tc); cbn [orb]; try lia. split; [lia|]. assert (bc = E) as -> by lia. rewrite Z.div_mul by lia.
    assert (total = div_ceil (current_file_size opts) cs + l1_clusters_of n cs) as Et; [|lia]. apply (Z.mul_reg_r _ _ cs); lia.
  - eexists _, _. split; [done|]. destruct (Hsmall Hge) as [H1 H2]. unfold decide_action.
    by rewrite (proj2 (Z.ltb_ge cur n) Hge), (proj2 (Z.ltb_ge E _) H1), (proj2 (Z.ltb_ge (current_refcount_table_clusters opts) _) H2).
Qed.

Lemma plan_grow_grown scratch : is_bytes scratch -> builds (plan_grow opts scratch) grown.
Proof using Hq.
  intros Hb. destruct Hq as [_ [Hf1 Hf2] [Hlt Hu] _ [Hp1 Hp2] [Hg _] _]. unfold plan_grow.
  destruct (Z.eqb_spec (new_virtual_size opts) 0); [lia|]. rewrite Hf1, Hf2. cbn [obind].
  destruct (Z.ltb_spec (new_virtual_size opts) (current_virtual_size opts)); [lia|]. destruct (Z.eqb_spec (new_virtual_size opts) (current_virtual_size opts)); [lia|].
  rewrite Hp1, Hp2. pose proof (cluster_bits_pow o bits epr E old Hg) as Hbits. change (rz_cluster_size o) with cs in Hbits. rewrite Hbits, file_aligned. cbn [obind].
  destruct target_layout as (t & Ht & Hn & Hsmall). rewrite Ht, existing_counted. cbn [map_err obind].
  destruct (action_cases t Hn Hsmall) as (blocks & table & -> & Hact). cbn [obind]. destruct (decide_action _ _ _ _ _ _);
    [by apply header_only_grown | by apply l1_grown; [done | apply Hact | done | apply Hact] | by apply refcount_grown].
Qed.
End entry.

(** ** Properties *)

(** C13: Growing an image is crash safe.  For a well-formed image and a larger size within
    the format's limits the planner returns: it refuses only for want of room or because
    the refcount table does not list a block, and otherwise plans a growth that fits the
    capacity the host gives the device.  Whatever prefix of the patches reaches a disk
    large enough for it, a reader finds one of two images.  Up to the header patch it is
    the old one, with the header, the L1 table and the refcount of every cluster as they
    were.  From the header patch on it is the new one: the header parses to the requested size, its L1 table is the old one extended
    with zeros, every cluster appended to the file has refcount 1 and every other one the
    refcount it had, except that the clusters of tables the new header gave up are
    released, all of them once the last patch is written. *)
Theorem grow_crash_safe (opts : Qcow2ResizeOpts) (bits E : Z) (old : Z -> Z) (d0 scratch : bytes) :
  grow_request opts bits E old d0 -> is_bytes scratch ->
  let cs := rz_cluster_size opts in
  let epr := cs * 8 / rz_refcount_bits opts in
  let o := with_file_size opts (div_ceil (current_file_size opts) cs * cs) in
  match plan_grow opts scratch with
  | Ok p =>
      let clusters := div_ceil (rp_total_file_size p) cs in
      rp_action p = Grow /\ clusters * cs <= capacity_hint (current_file_size opts) (new_virtual_size opts) /\
      let l1_entries := Z.max (current_l1_entries opts) (div_ceil (new_virtual_size opts) (l2_coverage_of bits (rz_extended_l2 opts))) in
      (clusters * cs <= blen d0 -> crash_safe o epr E old d0 p l1_entries clusters)
  | Err e => e = RzScratchTooSmall \/ e = HeaderMismatch
  | _ => False
  end.
Proof. intros Hq Hb. exact (plan_grow_grown opts bits E old d0 Hq scratch Hb). Qed.

(** A file of four clusters of 512 bytes: header, L1 table, refcount table, and the one
    block of 64-bit refcounts; it grows from one L1 entry to two. *)
Definition demo_block : bytes := concat (replicate 4 (be_bytes 8 1)) ++ filled 480 0.
Definition demo_table : bytes := be_bytes 8 1536 ++ filled 504 0.
Definition demo_image_header : bytes :=
  be_bytes 4 0x514649fb ++ be_bytes 4 3 ++ be_bytes 8 0 ++ be_bytes 4 0 ++ be_bytes 4 9 ++ be_bytes 8 32768 ++ be_bytes 4 0 ++ be_bytes 4 1 ++ be_bytes 8 512 ++
  be_bytes 8 1024 ++ be_bytes 4 1 ++ be_bytes 4 0 ++ be_bytes 8 0 ++ be_bytes 8 0 ++ be_bytes 8 0 ++ be_bytes 8 0 ++ be_bytes 4 6 ++ be_bytes 4 104 ++ filled 408 0.
Definition demo_disk : bytes := demo_image_header ++ filled 512 0 ++ demo_table ++ demo_block ++ filled 512 0.
Definition demo_resize : Qcow2ResizeOpts :=
  mkQcow2ResizeOpts 32768 65536 512 64 false RzOff false (filled 8 0) demo_table demo_block [0] 2048 1 512 1024 1 0 0 None None false [] [].
Definition demo_old (c : Z) : Z := if (0 <=? c) && (c <? 4) then 1 else 0.

Lemma demo_block_counts : block_counts demo_resize 64 demo_block 0 demo_old.
Proof.
  split; [reflexivity | apply is_bytesb_true; reflexivity|]. intros j Hj.
  assert (forallb (fun n => match read_refcount_in_block demo_block (Z.of_nat n) 64 with Ok v => v =? demo_old (Z.of_nat n) | _ => false end) (seq 0 64) = true) as Hall by (vm_compute; reflexivity).
  rewrite forallb_forall in Hall. specialize (Hall (Z.to_nat j) ltac:(apply in_seq; lia)). rewrite Z2Nat.id in Hall by lia.
  change (rz_refcount_bits demo_resize) with 64. destruct (read_refcount_in_block _ _ _); try done. apply Z.eqb_eq in Hall. by rewrite Hall.
Qed.

Lemma demo_grow_request : grow_request demo_resize 9 1 demo_old demo_disk.
Proof.
  assert (forall i, 0 <= i < 1 -> addr (with_file_size demo_resize 2048) i = 1536) as Haddr by (intros i Hi; replace i with 0 by lia; reflexivity).
  assert (forall blk i f, block_counts demo_resize 64 blk i f -> block_counts (with_file_size demo_resize 2048) 64 blk i f) as Hbc by (intros blk i f [? ? ?]; by split).
  split; [done | by split | done | vm_compute; discriminate | by split | | vm_compute; discriminate].
  change (div_ceil (current_file_size demo_resize) (rz_cluster_size demo_resize) * rz_cluster_size demo_resize) with 2048.
  change (rz_cluster_size demo_resize * 8 / rz_refcount_bits demo_resize) with 64. split.
  - split; try done; try (split; vm_compute; discriminate).
    + apply (bool_decide_unpack _). exact I.
    + split; [apply is_bytesb_true; reflexivity | reflexivity].
    + split; [apply is_bytesb_true; reflexivity | reflexivity].
    + split; [apply is_bytesb_true; reflexivity|]. intros i idx blk Hi Hs. cbn in Hi. destruct idx as [|q|q]; try done. injection Hi as <-.
      change (slice demo_block 0 512 = Some blk) in Hs. rewrite (slice_full demo_block : slice demo_block 0 512 = Some demo_block) in Hs. injection Hs as <-.
      apply Hbc, demo_block_counts.
  - split; try done; try (split; vm_compute; discriminate).
    + apply is_bytesb_true. reflexivity.
    + by left.
    + intros i Hi. rewrite Haddr by done. replace i with 0 by lia. exists demo_block. split; [reflexivity|]. apply Hbc, demo_block_counts.
    + intros i Hi. rewrite Haddr by done. split; vm_compute; discriminate.
    + intros i j Hi Hj. lia.
    + intros i Hi. rewrite Haddr by done. right. vm_compute. discriminate.
    + intros i Hi. rewrite Haddr by done. right. vm_compute. discriminate.
    + intros i Hi Hl. change (8 * i + 8 <= 512) in Hl. unfold addr. change (existing_refcount_table_bytes (with_file_size demo_resize 2048)) with demo_table.
      assert (slice demo_table 8 512 = Some (filled 504 0)) as Hz by reflexivity.
      replace (8 * i) with (8 + (8 * i - 8)) by lia. rewrite (u64_at_region demo_table 8 504 (filled 504 0)) by (done || lia). apply u64_at_filled; lia.
Qed.

Lemma grow_crash_safe_witness : exists p, plan_grow demo_resize (filled 2560 7) = Ok p /\ length (rp_patches p) = 4%nat /\
  crash_safe (with_file_size demo_resize 2048) 64 1 demo_old demo_disk p 2 5.
Proof.
  pose proof (grow_crash_safe demo_resize 9 1 demo_old demo_disk (filled 2560 7) demo_grow_request ltac:(by apply filled_is_bytes)) as H. cbv zeta in H.
  assert (match plan_grow demo_resize (filled 2560 7) with Ok p => (length (rp_patches p) =? 4)%nat && (rp_total_file_size p =? 2560) | _ => false end = true) as E
    by (vm_compute; reflexivity).
  destruct (plan_grow demo_resize (filled 2560 7)) as [p| | |]; try done. apply andb_true_iff in E as [E1%Nat.eqb_eq E2%Z.eqb_eq].
  exists p. split; [done|]. split; [done|]. destruct H as (_ & _ & H). rewrite E2 in H. apply H. vm_compute. discriminate.
Defined.
