(* ===== verification/ResizeOp.v ===== *)
(** * The resize operation of the guest

    [src/src/operations/resize/src/main.rs]: the byte-range helpers over the output device,
    the applicator of a plan, and the runner of a qcow2 resize, which stages the metadata
    the planner asks for, plans, and applies; with the host's post-pass of
    [src/src/vmm/src/main.rs].

    The guest's memory is the bounce sector [HEADER_BUF], which holds the first sector of
    the device when a runner starts, and the staging area [EXISTING_STATE]; the planner's
    buffer is an argument, since what a plan keeps of it is in the patches.  An access
    outside the two regions, which the code does not check, is a [Panic]. *)

From stdpp Require Import base list.
From Stdlib Require Import ZArith Lia.
From S2P Require Import Prelude Bytes Refcount Qcow2 WriteTypes Exec RangeIo Create Resize.

(** ** Data *)

Definition HEADER_BUF_SIZE : Z := 65536.
Definition EXISTING_STATE_LIMIT : Z := 4 * 1024 * 1024.
Definition MAX_SHRINK_RB_INDICES : Z := 1024.
Definition MAX_STAGED_L2 : Z := 256.
Definition RZ_AUTOCLEAR_FEATURES_OFFSET : Z := 88.

Record ResizeConfig : Type := mkResizeConfig {
  rc_magic : Z;
  rc_target_format : Z;
  rc_flags : Z;
  rc_sector_size : Z;
  rc_current_virtual_size : Z;
  rc_new_virtual_size : Z;
  rc_qcow2_cluster_size : Z;
  rc_qcow2_refcount_bits : Z;
  rc_vmdk_subformat : Z;
  rc_vhd_subformat : Z;
  rc_vmdk_grain_size : Z;
  rc_block_size : Z;
  rc_current_file_size : Z
}.

Definition RC_FLAG_SHRINK : Z := 1.
Definition RC_PREALLOC_MASK : Z := 48.
Definition RC_PREALLOC_METADATA : Z := 16.
Definition RC_PREALLOC_FALLOC : Z := 32.
Definition RC_PREALLOC_FULL : Z := 48.

Definition config_allow_shrink (c : ResizeConfig) : bool := nonzero (Z.land (rc_flags c) RC_FLAG_SHRINK).

Record ResizeResult : Type := mkResizeResult {
  rr_magic : Z;
  rr_target_format : Z;
  rr_resolved_new_virtual_size : Z;
  rr_file_size_before : Z;
  rr_file_size_after : Z;
  rr_action : Z;
  rr_error : Z
}.

Definition RR_MAGIC : Z := 0x52524553.
Definition RR_ACTION_NOOP : Z := 0.
Definition RR_ACTION_GROW : Z := 1.
Definition RR_ACTION_SHRINK : Z := 2.
Definition RR_OK : Z := 0.
Definition RR_INVALID_NEW_SIZE : Z := 2.
Definition RR_SHRINK_WITHOUT_FLAG : Z := 3.
Definition RR_SHRINK_BELOW_ALLOCATED : Z := 4.
Definition RR_UNSUPPORTED_FORMAT : Z := 5.
Definition RR_UNSUPPORTED_SUBFORMAT : Z := 6.
Definition RR_UNSUPPORTED_SHRINK : Z := 7.
Definition RR_PREALLOCATION_UNSUPPORTED : Z := 8.
Definition RR_SCRATCH_TOO_SMALL : Z := 9.
Definition RR_READ_FAILED : Z := 10.
Definition RR_WRITE_FAILED : Z := 11.
Definition RR_PARSE_FAILED : Z := 12.
Definition RR_HEADER_MISMATCH : Z := 13.
Definition RR_BITMAPS_UNSUPPORTED : Z := 14.
Definition RR_FIXED_VHDX : Z := 15.

Definition encode_action (a : ResizeAction) : Z :=
  match a with NoOp => RR_ACTION_NOOP | Grow => RR_ACTION_GROW | Shrink => RR_ACTION_SHRINK end.

Definition map_error (e : ResizeError) : Z :=
  match e with
  | InvalidNewVirtualSize => RR_INVALID_NEW_SIZE
  | ShrinkWithoutFlag => RR_SHRINK_WITHOUT_FLAG
  | ShrinkBelowAllocated => RR_SHRINK_BELOW_ALLOCATED
  | UnsupportedFormat => RR_UNSUPPORTED_FORMAT
  | UnsupportedSubformat => RR_UNSUPPORTED_SUBFORMAT
  | UnsupportedShrink => RR_UNSUPPORTED_SHRINK
  | RzPreallocationUnsupported => RR_PREALLOCATION_UNSUPPORTED
  | RzOverflow => RR_INVALID_NEW_SIZE
  | RzScratchTooSmall => RR_SCRATCH_TOO_SMALL
  | RequiresCheckFirst => RR_PARSE_FAILED
  | HeaderMismatch => RR_HEADER_MISMATCH
  | RzParseFailed => RR_PARSE_FAILED
  | BitmapsPresent => RR_BITMAPS_UNSUPPORTED
  | FixedVhdx => RR_FIXED_VHDX
  end.

Definition map_prealloc (flags : Z) : RzPreallocation :=
  let mode := Z.land flags RC_PREALLOC_MASK in
  if mode =? RC_PREALLOC_METADATA then RzMetadata
  else if mode =? RC_PREALLOC_FALLOC then RzFalloc
  else if mode =? RC_PREALLOC_FULL then RzFull
  else RzOff.

Definition err_result (config : ResizeConfig) (error : Z) : ResizeResult :=
  mkResizeResult RR_MAGIC (rc_target_format config) 0 (rc_current_virtual_size config) 0 RR_ACTION_NOOP error.

Definition run_raw (config : ResizeConfig) : outcome unit ResizeResult :=
  match plan_resize_raw (mkRawResizeOpts (rc_current_virtual_size config) (rc_new_virtual_size config) (map_prealloc (rc_flags config))) with
  | Ok plan =>
      Ok (mkResizeResult RR_MAGIC (rc_target_format config) (rc_new_virtual_size config) (rc_current_virtual_size config)
            (rp_total_file_size plan) (encode_action (rp_action plan)) RR_OK)
  | Err e => Ok (err_result config (map_error e))
  | Panic => Panic
  | OutOfFuel => OutOfFuel
  end.

(** ** Sector-level helpers *)

Section op.
Context {D : Type} `{DeviceIo D}.

Record RzMem : Type := mkRzMem { rm_dev : D; rm_header : bytes; rm_state : bytes }.

(** Into [len] bytes of the staging area at [pos]; [Err] is [false]. *)
Definition read_byte_range (ssz byte_offset pos len : Z) : SM RzMem ExecCause unit :=
  let! s := sget in
  let! dst := slift (or_panic (slice (rm_state s) pos (pos + len))) in
  let '(r, s') := read_range Output ssz byte_offset (mkRdSt (rm_dev s) dst (rm_header s)) in
  let! state := slift (or_panic (splice (rm_state s) pos (rd_dst s'))) in
  do! sput (mkRzMem (rd_dev s') (rd_rmw s') state) in
  slift r.

Definition write_byte_range (ssz byte_offset : Z) (src : bytes) : SM RzMem ExecCause unit :=
  let! s := sget in
  let '(r, s') := write_range Output ssz byte_offset src (mkWrSt (rm_dev s) (rm_header s)) in
  do! sput (mkRzMem (wr_dev s') (wr_rmw s') (rm_state s)) in
  slift r.

(** A whole sector from the zeroed bounce sector, a part of one by read-modify-write in the
    tail of the staging area. *)
Definition zero_turn (ssz cur take : Z) : SM RzMem ExecCause unit :=
  let! s := sget in
  let sector := cur / ssz in
  let in_off := cur mod ssz in
  if (in_off =? 0) && (take =? ssz) then
    let! bounce := slift (or_panic (slice (rm_header s) 0 ssz)) in
    let '(ok, d') := write_sector Output sector bounce (rm_dev s) in
    do! sput (mkRzMem d' (rm_header s) (rm_state s)) in
    if ok then sret tt else sfail WriteFailed
  else
    let pos := EXISTING_STATE_LIMIT - ssz in
    let! staging := slift (or_panic (slice (rm_state s) pos (pos + ssz))) in
    let '(ok, staging', d') := read_sector Output sector staging (rm_dev s) in
    let! state' := slift (or_panic (splice (rm_state s) pos staging')) in
    do! sput (mkRzMem d' (rm_header s) state') in
    if ok then
      let! staging2 := slift (or_panic (splice staging' in_off (filled take 0))) in
      let! state2 := slift (or_panic (splice state' pos staging2)) in
      let '(ok2, d2) := write_sector Output sector staging2 d' in
      do! sput (mkRzMem d2 (rm_header s) state2) in
      if ok2 then sret tt else sfail WriteFailed
    else sfail ReadFailed.

Fixpoint zero_loop (fuel : nat) (ssz len written cur : Z) : SM RzMem ExecCause unit :=
  match fuel with
  | O => slift OutOfFuel
  | S fuel' =>
      if written <? len then
        let take := Z.min (ssz - cur mod ssz) (len - written) in
        do! zero_turn ssz cur take in
        zero_loop fuel' ssz len (wadd written take) (wadd cur take)
      else sret tt
  end.

Definition zero_byte_range (ssz byte_offset len : Z) : SM RzMem ExecCause unit :=
  if len =? 0 then sret tt
  else
  let! s := sget in
  let! header := slift (or_panic (splice (rm_header s) 0 (filled ssz 0))) in
  do! sput (mkRzMem (rm_dev s) header (rm_state s)) in
  if ssz =? 0 then slift Panic else zero_loop (S (Z.to_nat len)) ssz len 0 byte_offset.

Fixpoint apply_patch_list (ssz : Z) (ps : list ResizePatch) : SM RzMem ExecCause unit :=
  match ps with
  | [] => sret tt
  | p :: rest =>
      do! match p with
          | PWrite byte_offset b | PAppend byte_offset b => write_byte_range ssz byte_offset b
          | PZeroFill byte_offset len => zero_byte_range ssz byte_offset len
          end in
      apply_patch_list ssz rest
  end.

Definition apply_plan (plan : ResizePlan) : SM RzMem ExecCause unit :=
  let! s := sget in
  apply_patch_list (sector_size (rm_dev s) Output) (rp_patches plan).

(** ** The qcow2 runner *)

Abbreviation RM := (SM RzMem Z).

(** [if !m { return err_result(config, code) }]. *)
Definition or_code {A} (code : Z) (m : SM RzMem ExecCause A) : RM A :=
  fun s => let '(r, s') := m s in (map_err (fun _ => code) r, s').

Definition grow_query (config : ResizeConfig) (h : QcowHeader) (autoclear file_size_before : Z) (rt : bytes) : Qcow2ResizeGrowQuery :=
  {| q_cluster_size := as_u32 (hdr_cluster_size h); q_refcount_bits := as_u8 (hdr_refcount_bits h); q_extended_l2 := extended_l2 h;
     q_current_virtual_size := rc_current_virtual_size config; q_new_virtual_size := rc_new_virtual_size config;
     q_current_file_size := file_size_before; q_current_l1_entries := hdr_l1_size h; q_current_l1_table_offset := hdr_l1_table_offset h;
     q_current_refcount_table_offset := hdr_refcount_table_offset h; q_current_refcount_table_clusters := hdr_refcount_table_clusters h;
     q_current_incompatible_features := incompatible_features h; q_current_autoclear_features := autoclear;
     q_preallocation := map_prealloc (rc_flags config); q_allow_shrink := config_allow_shrink config; q_existing_refcount_table_bytes := rt |}.

(** The scan for the blocks of a shrink: every non-zero table entry. *)
Fixpoint shrink_blocks (n : nat) (rt : bytes) (i : Z) (found : list Z) : outcome Z (list Z) :=
  match n with
  | O => OutOfFuel
  | S n' =>
      if blen rt <? i + 8 then Ok found
      else
      let? entry := be_u64 rt i in
      if nonzero entry then
        if MAX_SHRINK_RB_INDICES <=? Z.of_nat (length found) then Err RR_SCRATCH_TOO_SMALL
        else shrink_blocks n' rt (i + 8) (found ++ [i / 8])
      else shrink_blocks n' rt (i + 8) found
  end.

(** The refcount blocks to stage. *)
Definition block_indices (config : ResizeConfig) (h : QcowHeader) (autoclear file_size_before : Z) (rt : bytes) : outcome Z (list Z) :=
  if rc_current_virtual_size config <=? rc_new_virtual_size config then
    let? q := map_err map_error (compute_grow_query (grow_query config h autoclear file_size_before rt)) in
    Ok (gq_required_blocks q)
  else shrink_blocks (S (length rt)) rt 0 [].

Fixpoint stage_blocks (ssz cluster_size : Z) (rt : bytes) (pos : Z) (indices : list Z) : RM unit :=
  match indices with
  | [] => sret tt
  | block_idx :: rest =>
      let! block_file_off := slift (be_u64 rt (block_idx * 8)) in
      do! or_code RR_READ_FAILED (read_byte_range ssz block_file_off pos cluster_size) in
      stage_blocks ssz cluster_size rt (pos + cluster_size) rest
  end.

(** The L2 tables of a shrink: those that reach past the new end. *)
Fixpoint stage_l2 (n : nat) (config : ResizeConfig) (ssz cluster_size l2_coverage : Z) (l1 : bytes) (l2_off li : Z) (staged : list Z) : RM (list Z) :=
  match n with
  | O => sret staged
  | S n' =>
      let base_virtual := wmul li l2_coverage in
      let l2_end_virtual := wadd base_virtual l2_coverage in
      if l2_end_virtual <=? rc_new_virtual_size config then stage_l2 n' config ssz cluster_size l2_coverage l1 l2_off (li + 1) staged
      else if rc_current_virtual_size config <=? base_virtual then stage_l2 n' config ssz cluster_size l2_coverage l1 l2_off (li + 1) staged
      else
      let! entry := slift (be_u64 l1 (li * 8)) in
      if entry =? 0 then stage_l2 n' config ssz cluster_size l2_coverage l1 l2_off (li + 1) staged
      else if MAX_STAGED_L2 <=? Z.of_nat (length staged) then sfail RR_SCRATCH_TOO_SMALL
      else
      let slot := l2_off + Z.of_nat (length staged) * cluster_size in
      if EXISTING_STATE_LIMIT <? slot + cluster_size then sfail RR_SCRATCH_TOO_SMALL
      else
      do! or_code RR_READ_FAILED (read_byte_range ssz (Z.land entry L2_OFFSET_MASK) slot cluster_size) in
      stage_l2 n' config ssz cluster_size l2_coverage l1 l2_off (li + 1) (staged ++ [as_u32 li])
  end.

Definition state_slice (pos len : Z) : RM bytes :=
  let! s := sget in slift (or_panic (slice (rm_state s) pos (pos + len))).

Definition resize_opts (config : ResizeConfig) (h : QcowHeader) (autoclear file_size_before : Z)
    (l1 rt rb : bytes) (rb_indices : list Z) (l2 : bytes) (l2_indices : list Z) : Qcow2ResizeOpts :=
  {| current_virtual_size := rc_current_virtual_size config; new_virtual_size := rc_new_virtual_size config;
     rz_cluster_size := as_u32 (hdr_cluster_size h); rz_refcount_bits := as_u8 (hdr_refcount_bits h); rz_extended_l2 := extended_l2 h;
     rz_preallocation := map_prealloc (rc_flags config); allow_shrink := config_allow_shrink config;
     existing_l1_bytes := l1; existing_refcount_table_bytes := rt; existing_refcount_block_bytes := rb;
     existing_refcount_block_indices := rb_indices; current_file_size := file_size_before; current_l1_entries := hdr_l1_size h;
     current_l1_table_offset := hdr_l1_table_offset h; current_refcount_table_offset := hdr_refcount_table_offset h;
     current_refcount_table_clusters := hdr_refcount_table_clusters h; current_incompatible_features := incompatible_features h;
     current_autoclear_features := autoclear; rz_backing_file := None; rz_backing_format := None; rz_lazy_refcounts := lazy_refcounts h;
     existing_l2_bytes := l2; existing_l2_indices := l2_indices |}.

(** The staging: the options of the planner, borrowed from the staging area. *)
Definition stage_opts (config : ResizeConfig) (file_size_before ssz : Z) (h : QcowHeader) (autoclear : Z) : RM Qcow2ResizeOpts :=
  let cluster_size := hdr_cluster_size h in
  if (cluster_size =? 0) || (2 * 1024 * 1024 <? cluster_size) then sfail RR_PARSE_FAILED
  else
  let l1_bytes := hdr_l1_size h * 8 in
  let rt_bytes := hdr_refcount_table_clusters h * cluster_size in
  let rt_off := l1_bytes in
  let rt_end := rt_off + rt_bytes in
  if EXISTING_STATE_LIMIT <? rt_end then sfail RR_SCRATCH_TOO_SMALL
  else
  do! or_code RR_READ_FAILED (read_byte_range ssz (hdr_l1_table_offset h) 0 l1_bytes) in
  do! or_code RR_READ_FAILED (read_byte_range ssz (hdr_refcount_table_offset h) rt_off rt_bytes) in
  let! rt := state_slice rt_off rt_bytes in
  let! indices := slift (block_indices config h autoclear file_size_before rt) in
  let blocks_off := rt_end in
  let blocks_total := Z.of_nat (length indices) * cluster_size in
  if EXISTING_STATE_LIMIT <? blocks_off + blocks_total then sfail RR_SCRATCH_TOO_SMALL
  else
  do! stage_blocks ssz cluster_size rt blocks_off indices in
  let l2_off := blocks_off + blocks_total in
  let! l2_indices :=
    if rc_new_virtual_size config <? rc_current_virtual_size config then
      let l2_entry_size := if extended_l2 h then 16 else 8 in
      let! l1 := state_slice 0 l1_bytes in
      stage_l2 (Z.to_nat (hdr_l1_size h)) config ssz cluster_size (wmul cluster_size (cluster_size / l2_entry_size)) l1 l2_off 0 []
    else sret [] in
  let! l1 := state_slice 0 l1_bytes in
  let! rt := state_slice rt_off rt_bytes in
  let! rb := state_slice blocks_off blocks_total in
  let! l2 := state_slice l2_off (Z.of_nat (length l2_indices) * cluster_size) in
  sret (resize_opts config h autoclear file_size_before l1 rt rb indices l2 l2_indices).

Definition run_qcow2_body (config : ResizeConfig) (file_size_before : Z) (scratch : bytes) : RM ResizeResult :=
  let! s := sget in
  let ssz := sector_size (rm_dev s) Output in
  let! header := slift (or_panic (slice (rm_header s) 0 ssz)) in
  let! parsed := slift (map_err (fun _ => RR_PARSE_FAILED) (parse header)) in
  let! autoclear := slift (if RZ_AUTOCLEAR_FEATURES_OFFSET + 8 <=? blen header then be_u64 header RZ_AUTOCLEAR_FEATURES_OFFSET else Ok 0) in
  let! opts := stage_opts config file_size_before ssz parsed autoclear in
  let! plan := slift (map_err map_error (plan_grow opts scratch)) in
  do! or_code RR_WRITE_FAILED (apply_plan plan) in
  sret (mkResizeResult RR_MAGIC (rc_target_format config) (rc_new_virtual_size config) file_size_before
          (rp_total_file_size plan) (encode_action (rp_action plan)) RR_OK).

(** [run_qcow2]: an early return is the [err_result] of its code. *)
Definition run_qcow2 (config : ResizeConfig) (file_size_before : Z) (scratch : bytes) : SM RzMem unit ResizeResult :=
  fun s =>
    let '(r, s') := run_qcow2_body config file_size_before scratch s in
    (match r with Ok a => Ok a | Err code => Ok (err_result config code) | Panic => Panic | OutOfFuel => OutOfFuel end, s').
End op.
Arguments RzMem D : clear implicits.

(** ** The host's post-pass *)

(** What [apply_preallocation] does to the bytes of the file: [falloc] only reserves space,
    [full] zero-fills the range. *)
Definition apply_preallocation (mode : RzPreallocation) (data_offset data_len : Z) (file : bytes) : option bytes :=
  match mode with
  | RzFull => splice file data_offset (filled data_len 0)
  | _ => Some file
  end.

(** The tail of [run_resize_nonraw] after a guest that reported success: the preallocation
    of the appended range, then [set_len]; [file] is as long as the capacity. *)
Definition resize_post_pass (mode : RzPreallocation) (r : ResizeResult) (file : bytes) : option bytes :=
  let preallocates := prealloc_is mode RzFalloc || prealloc_is mode RzFull in
  file ← (if preallocates && (rr_file_size_before r <? rr_file_size_after r)
          then apply_preallocation mode (rr_file_size_before r) (rr_file_size_after r - rr_file_size_before r) file
          else Some file);
  slice file 0 (rr_file_size_after r).
