(* ===== verification/ResizeQuery.v ===== *)
(** * The refcount blocks a resize asks for

    Before it plans a growth the guest asks [compute_grow_query] which refcount blocks to
    stage.  The planner reads no other block: it plans the same whatever else is staged. *)

From stdpp Require Import base list sets.
From Stdlib Require Import ZArith Lia.
From S2P Require Import Prelude Bytes Refcount Qcow2 Create Resize.

(** ** Options that stage other blocks *)

Definition with_blocks (opts : Qcow2ResizeOpts) (rb : bytes) (indices : list Z) : Qcow2ResizeOpts :=
  mkQcow2ResizeOpts (current_virtual_size opts) (new_virtual_size opts) (rz_cluster_size opts) (rz_refcount_bits opts)
    (rz_extended_l2 opts) (rz_preallocation opts) (allow_shrink opts) (existing_l1_bytes opts)
    (existing_refcount_table_bytes opts) rb indices (current_file_size opts)
    (current_l1_entries opts) (current_l1_table_offset opts) (current_refcount_table_offset opts)
    (current_refcount_table_clusters opts) (current_incompatible_features opts) (current_autoclear_features opts)
    (rz_backing_file opts) (rz_backing_format opts) (rz_lazy_refcounts opts) (existing_l2_bytes opts) (existing_l2_indices opts).

(** The query about the image the options describe. *)
Definition query_of (opts : Qcow2ResizeOpts) : Qcow2ResizeGrowQuery :=
  mkQcow2ResizeGrowQuery (rz_cluster_size opts) (rz_refcount_bits opts) (rz_extended_l2 opts) (current_virtual_size opts)
    (new_virtual_size opts) (current_file_size opts) (current_l1_entries opts) (current_l1_table_offset opts)
    (current_refcount_table_offset opts) (current_refcount_table_clusters opts) (current_incompatible_features opts)
    (current_autoclear_features opts) (rz_preallocation opts) (allow_shrink opts) (existing_refcount_table_bytes opts).

(** The block the planner finds under an index. *)
Definition staged_block (opts : Qcow2ResizeOpts) (block_idx : Z) : outcome ResizeError bytes :=
  let cs := rz_cluster_size opts in
  match index_of 0 (existing_refcount_block_indices opts) block_idx with
  | Some i =>
      if blen (existing_refcount_block_bytes opts) <? i * cs + cs then Err RzScratchTooSmall
      else or_panic (slice (existing_refcount_block_bytes opts) (i * cs) (i * cs + cs))
  | None => Err RzScratchTooSmall
  end.

(** ** What the query lists *)

Record listed (l l' : list Z) (P : Z -> Prop) : Prop := {
  li_keeps : forall i, i ∈ l -> i ∈ l';
  li_new : forall i, P i -> i ∈ l';
  li_only : forall i, i ∈ l' -> i ∈ l \/ P i;
  li_nodup : NoDup l -> NoDup l';
  li_len : Z.of_nat (length l) <= QCOW2_MAX_REQUIRED_BLOCKS -> Z.of_nat (length l') <= QCOW2_MAX_REQUIRED_BLOCKS
}.

Lemma listed_trans l1 l2 l3 P Q : listed l1 l2 P -> listed l2 l3 Q -> listed l1 l3 (fun i => P i \/ Q i).
Proof. intros [? ? K1 ? ?] [? ? K2 ? ?]. split; [auto | intros i []; auto | | auto | auto]. intros i [[|]%K1|]%K2; auto. Qed.

Lemma existsb_elem i l : existsb (Z.eqb i) l = true <-> i ∈ l.
Proof.
  rewrite existsb_exists. split.
  - intros (x & Hx & ->%Z.eqb_eq). by apply list_elem_of_In.
  - intros Hi. exists i. split; [by apply list_elem_of_In | apply Z.eqb_refl].
Qed.

Lemma required_add_lists i l l' : required_add i l = (Ok tt, l') -> listed l l' (eq i).
Proof.
  unfold required_add, sbind, sget. destruct (existsb (Z.eqb i) l) eqn:Ex; cbn.
  - intros [= <-]. apply existsb_elem in Ex. split; try done; [by intros j <- | by left].
  - destruct (Z.leb_spec QCOW2_MAX_REQUIRED_BLOCKS (Z.of_nat (length l))); [done|]. intros [= <-].
    split; [intros j Hj; apply elem_of_app; by left | intros j <-; apply elem_of_app; right; by apply list_elem_of_singleton | | |rewrite length_app; cbn; lia].
    { intros j [Hj|Hj%list_elem_of_singleton]%elem_of_app; [by left | by right]. }
    intros Hn. apply NoDup_app. split_and!; [done | | apply NoDup_singleton].
    intros x Hx ->%list_elem_of_singleton. apply existsb_elem in Hx. congruence.
Qed.

Lemma range_listed epr n : forall c l l', for_clusters n c (fun c => required_add (c / epr)) l = (Ok tt, l') ->
  listed l l' (fun i => exists x, c <= x < c + Z.of_nat n /\ i = x / epr).
Proof.
  induction n as [|n IH]; intros c l l'; cbn [for_clusters].
  - intros [= <-]. split; try done; [|by left]. intros i (x & Hx & _). lia.
  - unfold sbind. destruct (required_add (c / epr) l) as [[[]|?| |] l1] eqn:Ea; try done. intros Hl.
    pose proof (listed_trans _ _ _ _ _ (required_add_lists _ _ _ Ea) (IH _ _ _ Hl)) as [H1 H2 K H3 H4]. split; try done.
    + intros i (x & Hx & ->). apply H2. destruct (decide (x = c)) as [->|]; [by left|]. right. exists x. split; [lia|done].
    + intros i [Hi|[<-|(x & Hx & ->)]]%K; [by left | right; exists c; split; [lia|done] | right; exists x; split; [lia|done]].
Qed.

(** ** Planning with other blocks *)

Lemma sbind_ext {S E A B} (m1 m2 : SM S E A) (k1 k2 : A -> SM S E B) s :
  m1 s = m2 s -> (forall a s', k1 a s' = k2 a s') -> sbind m1 k1 s = sbind m2 k2 s.
Proof. intros Hm Hk. unfold sbind. rewrite Hm. destruct (m2 s) as [[] ?]; [apply Hk | done..]. Qed.

Lemma slift_ext {S E A B} (m : outcome E A) (k1 k2 : A -> SM S E B) s :
  (forall a, m = Ok a -> k1 a s = k2 a s) -> sbind (slift m) k1 s = sbind (slift m) k2 s.
Proof. intros Hk. unfold sbind, slift. destruct m; [by apply Hk | done..]. Qed.

Lemma for_clusters_ext {S} n : forall c (f g : Z -> SM S ResizeError unit) s,
  (forall x s', c <= x < c + Z.of_nat n -> f x s' = g x s') -> for_clusters n c f s = for_clusters n c g s.
Proof.
  induction n as [|n IH]; intros c f g s Hfg; [done|]. cbn [for_clusters]. apply sbind_ext; [apply Hfg; lia|].
  intros _ s'. apply IH. intros x s2 Hx. apply Hfg. lia.
Qed.

Section same.
Context (o : Qcow2ResizeOpts) (rb : bytes) (indices : list Z).
#[local] Abbreviation o' := (with_blocks o rb indices).
#[local] Abbreviation cs := (rz_cluster_size o).

Definition same_block (i : Z) : Prop := staged_block o i = staged_block o' i.

Lemma ensure_is_block {A} (p : Qcow2ResizeOpts) i off (s : Staged A) :
  ensure_block_staged p (rz_cluster_size p) i off s = (let! src := slift (staged_block p i) in scratch_put off src) s.
Proof using.
  unfold ensure_block_staged, staged_block. destruct (index_of 0 (existing_refcount_block_indices p) i) as [k|]; [|done].
  by destruct (blen (existing_refcount_block_bytes p) <? k * rz_cluster_size p + rz_cluster_size p).
Qed.

Lemma ensure_same {A} i off (s : Staged A) : same_block i -> ensure_block_staged o cs i off s = ensure_block_staged o' cs i off s.
Proof using. intros Hi. rewrite (ensure_is_block o). change cs with (rz_cluster_size o') at 1. rewrite (ensure_is_block o'). unfold same_block in Hi. by rewrite Hi. Qed.

Lemma stage_increment_same i j s : same_block i -> stage_increment o cs i j s = stage_increment o' cs i j s.
Proof using.
  intros Hi. unfold stage_increment. apply sbind_ext; [done|]. intros s1 s2.
  destruct (_ ← find_block_slot _ _; _) as [[k b]|].
  - destruct (bs_has_increment b); [done|]. apply sbind_ext; [done|]. intros off s3. apply sbind_ext; [by apply ensure_same|done].
  - destruct (_ <=? _); [done|]. apply sbind_ext; [done|]. intros off s3. apply sbind_ext; [by apply ensure_same|done].
Qed.

Lemma stage_decrement_same i j s : same_block i -> stage_decrement o cs i j s = stage_decrement o' cs i j s.
Proof using.
  intros Hi. unfold stage_decrement. apply sbind_ext; [done|]. intros s1 s2.
  destruct (_ ← find_block_slot _ _; _) as [[k b]|]; [done|].
  destruct (_ <=? _); [done|]. apply sbind_ext; [done|]. intros off s3. apply sbind_ext; [by apply ensure_same|done].
Qed.

Lemma stage_overlap_same epr c s : same_block (c / epr) -> stage_overlap o cs epr c s = stage_overlap o' cs epr c s.
Proof using.
  intros Hi. unfold stage_overlap. apply sbind_ext; [done|]. intros s1 s2. apply sbind_ext; [|done].
  destruct (find_slot_off _ _); [done|]. destruct (_ <=? _); [done|]. apply sbind_ext; [done|]. intros off s3.
  apply sbind_ext; [by apply ensure_same|done].
Qed.

Lemma stage_cleanup_same epr c s : same_block (c / epr) -> stage_cleanup_decrement o cs epr c s = stage_cleanup_decrement o' cs epr c s.
Proof using.
  intros Hi. unfold stage_cleanup_decrement. apply sbind_ext; [done|]. intros s1 s2. apply sbind_ext; [|done].
  destruct (find_slot_off _ _); [done|]. destruct (_ <=? _); [done|]. apply sbind_ext; [done|]. intros off s3.
  apply sbind_ext; [|done]. destruct (find_slot_off _ _); [done|]. by apply ensure_same.
Qed.

Lemma push_slots_same {A} scratch (idx off : A -> Z) sel slots : forall plan,
  push_slots o scratch idx off sel slots plan = push_slots o' scratch idx off sel slots plan.
Proof using.
  induction slots as [|x rest IH]; intros plan; [done|]. cbn [push_slots]. destruct (sel x); [|apply IH].
  change (existing_refcount_table_bytes o') with (existing_refcount_table_bytes o). change (rz_cluster_size o') with cs.
  destruct (block_offset_in_file _ _); [|done..]. cbn [obind]. destruct (or_panic _); [|done..]. cbn [obind]. destruct (plan_push _ _); [|done..]. apply IH.
Qed.

(** A cluster of [n] from [first] on lies in a block both stage alike. *)
Definition same_range (epr first n : Z) : Prop := forall x, first <= x < first + n -> same_block (x / epr).

Lemma loop_same {S} (body body' : Z -> SM S ResizeError unit) epr first n s :
  (forall c s', same_block (c / epr) -> body c s' = body' c s') -> same_range epr first n ->
  for_clusters (Z.to_nat n) first body s = for_clusters (Z.to_nat n) first body' s.
Proof using. intros Hb Hr. apply for_clusters_ext. intros x s' Hx. apply Hb, Hr. lia. Qed.

Lemma plan_l1_grow_same t s :
  (forall epr, udiv (E := ResizeError) (wmul cs 8) (rz_refcount_bits o) = Ok epr ->
     same_range epr (current_file_size o / cs) (l1_clusters_of (ly_l1_entries t) cs) /\
     same_range epr (current_l1_table_offset o / cs) (l1_clusters_of (current_l1_entries o) cs)) ->
  plan_l1_grow o t s = plan_l1_grow o' t s.
Proof using.
  intros Hr. unfold plan_l1_grow. cbv zeta. apply slift_ext. intros epr He. destruct (Hr epr He) as [Hn Ho]. clear Hr.
  apply sbind_ext; [done|]. intros s1 s2. change (rz_cluster_size o') with cs. destruct (_ <? _); [done|].
  apply sbind_ext; [done|]. intros _ s3. apply sbind_ext; [done|]. intros _ s4.
  apply sbind_ext; [eapply loop_same; [|exact Hn]; intros; by apply stage_increment_same|]. intros _ s5.
  apply sbind_ext; [eapply loop_same; [|exact Ho]; intros; by apply stage_decrement_same|]. intros _ s6.
  apply sbind_ext; [done|]. intros l s7. apply sbind_ext; [done|]. intros len s8. apply sbind_ext; [done|]. intros s9 s10.
  unfold slift. f_equal. destruct (or_panic _); [|done..]. cbn [obind]. change (current_file_size o') with (current_file_size o).
  destruct (plan_push _ _); [|done..]. cbn [obind]. rewrite push_slots_same. destruct (push_slots _ _ _ _ _ _ _); [|done..]. cbn [obind].
  destruct (or_panic _); [|done..]. cbn [obind]. destruct (plan_push _ _); [|done..]. apply push_slots_same.
Qed.

Lemma append_layout_same t E : append_layout o' t E = append_layout o t E.
Proof using. done. Qed.

Lemma plan_refcount_grow_same t E s :
  (forall epr al ntc, udiv (E := ResizeError) (wmul cs 8) (rz_refcount_bits o) = Ok epr -> append_layout o t E = Ok al -> udiv (E := ResizeError) (al_total al) cs = Ok ntc ->
     same_range epr (current_file_size o / cs) (Z.min (wmul E epr) ntc - current_file_size o / cs) /\
     same_range epr (current_l1_table_offset o / cs) (l1_clusters_of (current_l1_entries o) cs) /\
     (al_relocates al = true -> same_range epr (current_refcount_table_offset o / cs) (current_refcount_table_clusters o))) ->
  plan_l1_and_refcount_grow o t E s = plan_l1_and_refcount_grow o' t E s.
Proof using.
  intros Hr. unfold plan_l1_and_refcount_grow. rewrite append_layout_same. cbv zeta. apply slift_ext. intros epr He. apply slift_ext. intros al Hal. apply slift_ext. intros ntc Hntc.
  destruct (Hr epr al ntc He Hal Hntc) as (H1 & H2 & H3). clear Hr.
  apply sbind_ext; [done|]. intros s1 s2. change (rz_cluster_size o') with cs. destruct (_ <? _); [done|].
  apply sbind_ext; [done|]. intros _ s3. apply sbind_ext; [done|]. intros _ s4. do 7 (apply sbind_ext; [done|]; intros ? ?).
  apply sbind_ext; [eapply loop_same; [|exact H1]; intros; by apply stage_overlap_same|]. intros _ s5.
  apply sbind_ext; [eapply loop_same; [|exact H2]; intros; by apply stage_cleanup_same|]. intros _ s6.
  apply sbind_ext.
  { destruct (al_relocates al); [|done]. eapply loop_same; [|by apply H3]. intros. by apply stage_cleanup_same. }
  intros _ s7. apply sbind_ext; [done|]. intros s9 s10. unfold slift. f_equal.
  repeat match goal with
    | |- push_slots o _ _ _ _ _ _ = _ => apply push_slots_same
    | |- obind (push_slots o _ _ _ _ _ _) _ = _ => rewrite push_slots_same
    | |- obind ?m _ = obind ?m' _ => change m' with m; destruct m; [cbn [obind] | done..]
    end.
Qed.
End same.

(** ** The query and the planner *)

Lemma clusters_listed epr n c l l' : for_clusters (Z.to_nat n) c (fun c => required_add (c / epr)) l = (Ok tt, l') ->
  listed l l' (fun i => exists x, c <= x < c + n /\ i = x / epr).
Proof.
  intros [H1 H2 K H3 H4]%range_listed. split; try done.
  - intros i (x & Hx & ->). apply H2. exists x. split; [lia|done].
  - intros i [Hi|(x & Hx & ->)]%K; [by left|]. right. exists x. split; [lia|done].
Qed.

Lemma sbind_Ok {S E A B} (m : SM S E A) (k : A -> SM S E B) s b s' : sbind m k s = (Ok b, s') -> exists a s1, m s = (Ok a, s1) /\ k a s1 = (Ok b, s').
Proof. unfold sbind. destruct (m s) as [[a|?| |] s1]; try done. by exists a, s1. Qed.

Lemma l1_growth_listed o n epr l : add_l1_growth_blocks (query_of o) n epr [] = (Ok tt, l) -> let cs := rz_cluster_size o in
  listed [] l (fun i => (exists x, current_file_size o / cs <= x < current_file_size o / cs + l1_clusters_of n cs /\ i = x / epr) \/
    (exists x, current_l1_table_offset o / cs <= x < current_l1_table_offset o / cs + l1_clusters_of (current_l1_entries o) cs /\ i = x / epr)).
Proof.
  unfold add_l1_growth_blocks. cbv zeta. intros ([] & l1 & H1 & H2)%sbind_Ok. eapply listed_trans; by apply clusters_listed.
Qed.

Lemma refcount_growth_listed o t epr E l : add_l1_and_refcount_growth_blocks (query_of o) (ly_l1_entries t) epr E [] = (Ok tt, l) -> let cs := rz_cluster_size o in
  exists al, append_layout o t E = Ok al /\
  listed [] l (fun i =>
    (exists x, current_file_size o / cs <= x < current_file_size o / cs + (Z.min (wmul E epr) (al_total al / cs) - current_file_size o / cs) /\ i = x / epr) \/
    ((exists x, current_l1_table_offset o / cs <= x < current_l1_table_offset o / cs + l1_clusters_of (current_l1_entries o) cs /\ i = x / epr) \/
     (al_relocates al = true /\ exists x, current_refcount_table_offset o / cs <= x < current_refcount_table_offset o / cs + current_refcount_table_clusters o /\ i = x / epr))).
Proof.
  unfold add_l1_and_refcount_growth_blocks, append_layout. cbn [query_of q_cluster_size q_current_file_size q_current_refcount_table_clusters q_refcount_bits
    q_current_l1_table_offset q_current_l1_entries q_current_refcount_table_offset]. cbv zeta.
  intros ([[bc tc] total] & l0 & H0 & H)%sbind_Ok. unfold slift in H0. injection H0 as Hreq <-. rewrite Hreq. cbn [obind]. eexists. split; [done|].
  cbn [al_total al_relocates]. apply sbind_Ok in H as ([] & l1 & H1 & H). apply sbind_Ok in H as ([] & l2 & H2 & H3).
  eapply listed_trans; [by apply clusters_listed|]. eapply listed_trans; [by apply clusters_listed|].
  destruct (current_refcount_table_clusters o <? tc).
  - destruct (clusters_listed _ _ _ _ _ H3) as [K1 K2 K K3 K4]. split; try done; [intros i [_ Hi]; by apply K2|]. intros i [Hi|Hi]%K; [by left | by right].
  - injection H3 as <-. split; try done; [by intros i [? _] | by left].
Qed.

Lemma obind_Ok {E A B} (m : outcome E A) (k : A -> outcome E B) b : obind m k = Ok b -> exists a, m = Ok a /\ k a = Ok b.
Proof. destruct m; try done. by eexists. Qed.

(** What a query that returns has established. *)
Lemma query_facts o q : compute_grow_query (query_of o) = Ok q -> new_virtual_size o <> current_virtual_size o ->
  exists bits fs t E blocks table epr,
    new_virtual_size o <> 0 /\ current_virtual_size o <= new_virtual_size o /\
    cluster_bits_from (rz_cluster_size o) = Ok bits /\ aligned_file_size (current_file_size o) (rz_cluster_size o) = Ok fs /\
    map_err map_qcow2_create_err (compute_layout (new_virtual_size o) bits (rz_refcount_bits o) (rz_extended_l2 o) Off) = Ok t /\
    count_existing_refcount_blocks (existing_refcount_table_bytes o) = Ok E /\
    effective_requirements t fs (rz_cluster_size o) (rz_refcount_bits o) (current_l1_entries o) (current_refcount_table_clusters o) E = Ok (blocks, table) /\
    udiv (E := ResizeError) (wmul (rz_cluster_size o) 8) (rz_refcount_bits o) = Ok epr /\
    let action := decide_action (current_l1_entries o) (current_refcount_table_clusters o) E (ly_l1_entries t) table blocks in
    gq_action q = action /\
    match action with
    | HeaderOnly => gq_required_blocks q = []
    | L1Grow => add_l1_growth_blocks (query_of (with_file_size o fs)) (ly_l1_entries t) epr [] = (Ok tt, gq_required_blocks q)
    | L1AndRefcountGrow => add_l1_and_refcount_growth_blocks (query_of (with_file_size o fs)) (ly_l1_entries t) epr E [] = (Ok tt, gq_required_blocks q)
    end.
Proof.
  intros Hq Hne. unfold compute_grow_query in Hq. cbn [query_of q_cluster_size q_refcount_bits q_extended_l2 q_current_virtual_size q_new_virtual_size q_current_file_size
    q_current_l1_entries q_current_l1_table_offset q_current_refcount_table_offset q_current_refcount_table_clusters q_current_incompatible_features
    q_current_autoclear_features q_preallocation q_allow_shrink q_existing_refcount_table_bytes] in Hq.
  destruct (Z.eqb_spec (new_virtual_size o) 0); [done|]. apply obind_Ok in Hq as ([] & Hi & Hq). apply obind_Ok in Hq as ([] & Hb & Hq).
  destruct (Z.ltb_spec (new_virtual_size o) (current_virtual_size o)); [by destruct (negb (allow_shrink o))|].
  destruct (prealloc_is (rz_preallocation o) RzMetadata); [done|]. destruct (rz_extended_l2 o && _); [done|].
  apply obind_Ok in Hq as (bits & Hbits & Hq). apply obind_Ok in Hq as (fs & Hfs & Hq).
  destruct (Z.eqb_spec (new_virtual_size o) (current_virtual_size o)); [done|].
  apply obind_Ok in Hq as (t & Ht & Hq). apply obind_Ok in Hq as (E & HE & Hq). apply obind_Ok in Hq as ([blocks table] & Hreq & Hq). apply obind_Ok in Hq as (epr & Hepr & Hq).
  exists bits, fs, t, E, blocks, table, epr. split_and!; try done.
  set (action := decide_action _ _ _ _ _ _) in *. destruct action.
  - cbn [obind] in Hq. by injection Hq as <-.
  - change (mkQcow2ResizeGrowQuery _ _ _ _ _ _ _ _ _ _ _ _ _ _ _) with (query_of (with_file_size o fs)) in Hq.
    destruct (add_l1_growth_blocks _ _ _ _) as [[[]|?| |] l]; try done. cbn [obind] in Hq. by injection Hq as <-.
  - change (mkQcow2ResizeGrowQuery _ _ _ _ _ _ _ _ _ _ _ _ _ _ _) with (query_of (with_file_size o fs)) in Hq.
    destruct (add_l1_and_refcount_growth_blocks _ _ _ _ _) as [[[]|?| |] l]; try done. cbn [obind] in Hq. by injection Hq as <-.
Qed.

Lemma query_bounded o q : compute_grow_query (query_of o) = Ok q ->
  NoDup (gq_required_blocks q) /\ Z.of_nat (length (gq_required_blocks q)) <= QCOW2_MAX_REQUIRED_BLOCKS.
Proof.
  intros Hq. assert (forall P l, listed [] l P -> NoDup l /\ Z.of_nat (length l) <= QCOW2_MAX_REQUIRED_BLOCKS) as Hl.
  { intros P l [_ _ _ H3 H4]. split; [apply H3, NoDup_nil_2 | by apply H4]. }
  destruct (decide (new_virtual_size o = current_virtual_size o)) as [Heq|Hne].
  - assert (gq_required_blocks q = []) as ->; [|by split; [apply NoDup_nil_2|]]. unfold compute_grow_query in Hq. cbn [query_of q_new_virtual_size q_current_virtual_size] in Hq.
    destruct (_ =? 0); [done|]. apply obind_Ok in Hq as (? & _ & Hq). apply obind_Ok in Hq as (? & _ & Hq). rewrite Heq, Z.ltb_irrefl in Hq.
    destruct (prealloc_is _ _); [done|]. destruct (_ && _); [done|]. apply obind_Ok in Hq as (? & _ & Hq). apply obind_Ok in Hq as (? & _ & Hq).
    rewrite Z.eqb_refl in Hq. by injection Hq as <-.
  - destruct (query_facts o q Hq Hne) as (bits & fs & t & E & blocks & table & epr & _ & _ & _ & _ & _ & _ & _ & _ & _ & Hact).
    destruct (decide_action _ _ _ _ _ _).
    + rewrite Hact. split; [apply NoDup_nil_2 | done].
    + eapply Hl, l1_growth_listed. exact Hact.
    + apply refcount_growth_listed in Hact as (al & _ & Hli). by eapply Hl.
Qed.

Lemma plan_same o rb indices q scratch : compute_grow_query (query_of o) = Ok q ->
  (forall i, i ∈ gq_required_blocks q -> same_block o rb indices i) -> plan_grow o scratch = plan_grow (with_blocks o rb indices) scratch.
Proof.
  intros Hq Hsame. unfold plan_grow. cbn [with_blocks new_virtual_size current_virtual_size current_incompatible_features current_autoclear_features
    allow_shrink rz_preallocation rz_extended_l2 rz_cluster_size current_file_size rz_refcount_bits existing_refcount_table_bytes current_l1_entries current_refcount_table_clusters].
  destruct (decide (new_virtual_size o = current_virtual_size o)) as [Heq|Hne].
  { rewrite Heq, Z.ltb_irrefl, Z.eqb_refl. reflexivity. }
  destruct (query_facts o q Hq Hne) as (bits & fs & t & E & blocks & table & epr & Hnz & Hle & Hbits & Hfs & Ht & HE & Hreq & Hepr & Hact).
  destruct (validate_incompat _); cbn [obind]; [|reflexivity..]. destruct (validate_no_bitmaps _); cbn [obind]; [|reflexivity..].
  destruct (Z.eqb_spec (new_virtual_size o) 0); [done|]. destruct (Z.ltb_spec (new_virtual_size o) (current_virtual_size o)); [lia|].
  destruct (Z.eqb_spec (new_virtual_size o) (current_virtual_size o)); [done|]. destruct (prealloc_is _ _); [reflexivity|]. destruct (_ && _); [reflexivity|].
  rewrite Hbits, Hfs. cbn [obind]. rewrite Ht, HE. cbn [obind]. rewrite Hreq. cbn [obind]. destruct Hact as [_ Hact].
  change (with_file_size (with_blocks o rb indices) fs) with (with_blocks (with_file_size o fs) rb indices).
  destruct (decide_action _ _ _ _ _ _); unfold run_planner; apply (f_equal fst).
  - reflexivity.
  - apply plan_l1_grow_same. intros epr' He. change (wmul (rz_cluster_size (with_file_size o fs)) 8) with (wmul (rz_cluster_size o) 8) in He.
    change (rz_refcount_bits (with_file_size o fs)) with (rz_refcount_bits o) in He. rewrite Hepr in He. injection He as <-.
    apply l1_growth_listed in Hact as [_ Hnew _ _ _]. split; intros x Hx; apply Hsame, Hnew; [left | right]; by exists x.
  - apply plan_refcount_grow_same. intros epr' al ntc He Hal Hntc. change (wmul (rz_cluster_size (with_file_size o fs)) 8) with (wmul (rz_cluster_size o) 8) in He.
    change (rz_refcount_bits (with_file_size o fs)) with (rz_refcount_bits o) in He. rewrite Hepr in He. injection He as <-.
    apply refcount_growth_listed in Hact as (al' & Hal' & [_ Hnew _ _ _]). rewrite Hal in Hal'. injection Hal' as <-.
    unfold udiv in Hntc. destruct (_ =? 0); [done|]. injection Hntc as <-.
    split_and!; [intros x Hx | intros x Hx | intros Hre x Hx]; apply Hsame, Hnew; [left | right; left | right; right; split; [done|]]; by exists x.
Qed.

(** ** Properties *)

(** C15: The query names every block a growth reads.  A query that returns lists at most
    sixteen blocks, each once, and a planner that finds those blocks staged returns the
    same plan, or the same error, whatever other blocks are staged beside them, in whatever
    order: staging what the query lists is as good as staging the whole refcount
    structure. *)
Theorem grow_query_sufficient (o : Qcow2ResizeOpts) (rb : bytes) (indices : list Z) (scratch : bytes) (q : Qcow2GrowQueryResult) :
  compute_grow_query (query_of o) = Ok q ->
  NoDup (gq_required_blocks q) /\ Z.of_nat (length (gq_required_blocks q)) <= QCOW2_MAX_REQUIRED_BLOCKS /\
  ((forall i, i ∈ gq_required_blocks q -> staged_block o i = staged_block (with_blocks o rb indices) i) ->
   plan_grow o scratch = plan_grow (with_blocks o rb indices) scratch).
Proof.
  intros Hq. destruct (query_bounded o q Hq) as [Hn Hl]. split_and!; [done | done|]. by apply plan_same.
Qed.

(** An image of 512-byte clusters whose L1 table, at the end of 64 clusters, is counted by
    the first of its two blocks of 64 refcounts, while a new L1 table is counted by the
    second; the planner is given both, or both in the other order with a third. *)
Definition two_blocks : Qcow2ResizeOpts :=
  mkQcow2ResizeOpts 32768 65536 512 64 false RzOff false (filled 8 0) (be_bytes 8 1536 ++ be_bytes 8 2048 ++ filled 496 0)
    (filled 512 1 ++ filled 512 2) [0; 1] 32768 1 512 1024 1 0 0 None None false [] [].

Lemma grow_query_sufficient_witness :
  compute_grow_query (query_of two_blocks) = Ok (mkQcow2GrowQueryResult L1Grow [1; 0]) /\
  plan_grow two_blocks (filled 2560 7) = plan_grow (with_blocks two_blocks (filled 512 9 ++ filled 512 2 ++ filled 512 1) [5; 1; 0]) (filled 2560 7).
Proof.
  assert (compute_grow_query (query_of two_blocks) = Ok (mkQcow2GrowQueryResult L1Grow [1; 0])) as Hq by (vm_compute; reflexivity).
  split; [exact Hq|]. destruct (grow_query_sufficient two_blocks (filled 512 9 ++ filled 512 2 ++ filled 512 1) [5; 1; 0] (filled 2560 7) _ Hq) as (_ & _ & H).
  apply H. intros i Hi. cbn [gq_required_blocks] in Hi. apply elem_of_cons in Hi as [->|Hi]; [vm_compute; reflexivity|].
  apply elem_of_cons in Hi as [->|Hi]; [vm_compute; reflexivity|]. destruct (not_elem_of_nil i Hi).
Defined.
