(* ===== verification/ResizeRun.v ===== *)
(** * Running a resize

    The resize operation on a working device: the byte-range helpers move the bytes they
    name, applying a plan is applying its patches to the disk, and [run_qcow2] turns a
    well-formed image into the grown one. *)

From stdpp Require Import base numbers list sets option.
From Stdlib Require Import ZArith Lia.
From S2P Require Import Prelude Bytes Refcount Qcow2 SnapshotWalk WriteTypes Exec ExecSpec ExecBytes RangeIo Header Create CreateHeader Resize ResizeSize ResizeStage ResizeGrow ResizeDisk ResizeProps ResizeQuery ResizeOp.

Section run.
Context {D : Type} `{FlatDisk D}.

(** ** The memory of the operation over a working device *)

Record rz_ok (ssz : Z) (c : bytes) (s : RzMem D) : Prop := {
  ro_io : io_ok Output ssz (rm_dev s) (rm_header s);
  ro_small : ssz <= HEADER_BUF_SIZE;
  ro_state : blen (rm_state s) = EXISTING_STATE_LIMIT;
  ro_file : disk_of (contents (rm_dev s)) Output = c
}.

Lemma rz_size ssz c s : rz_ok ssz c s -> 0 < ssz /\ blen c <= u64_max.
Proof. intros [Hio _ _ <-]. exact (io_size _ _ _ _ Hio). Qed.

Lemma read_byte_range_ok ssz c s off pos len b : rz_ok ssz c s -> 0 <= len -> 0 <= pos -> pos + len <= EXISTING_STATE_LIMIT ->
  slice c off (off + len) = Some b ->
  exists s', read_byte_range ssz off pos len s = (Ok tt, s') /\ rz_ok ssz c s' /\ splice (rm_state s) pos b = Some (rm_state s').
Proof.
  intros [Hio Hsm Hst Hf] Hl Hp Hlim Hs. destruct (slice_of (rm_state s) pos (pos + len)) as (dst & Hdst & Hdl); [lia | lia|].
  destruct (read_range_ok Output ssz off (rm_dev s) dst (rm_header s) b Hio) as (d' & rmw' & Hr & Hh & Hc & Hsz & Hrl); [rewrite Hf, Hdl; by replace (pos + len - pos) with len by lia|].
  pose proof (slice_blen _ _ _ _ Hs). destruct (splice_of (rm_state s) pos b) as (st & Hsp & Hsl); [lia | lia|].
  exists (mkRzMem d' rmw' st). unfold read_byte_range, sbind, sget, slift, sput. rewrite Hdst. cbn [or_panic]. rewrite Hr. cbn [rd_dst rd_dev rd_rmw]. rewrite Hsp. cbn [or_panic].
  split_and!; try done. destruct Hio as [? Hz ?]. split; cbn; [split; [done | by rewrite Hsz | lia] | done | lia | by rewrite Hc].
Qed.

Lemma write_byte_range_ok ssz c s off src c' : rz_ok ssz c s -> splice c off src = Some c' ->
  exists s', write_byte_range ssz off src s = (Ok tt, s') /\ rz_ok ssz c' s'.
Proof.
  intros [Hio Hsm Hst Hf] Hs. destruct (write_range_ok Output ssz off src (rm_dev s) (rm_header s) c' Hio) as (d' & rmw' & Hr & Hh & Hc & Hsz & Hrl); [by rewrite Hf|].
  exists (mkRzMem d' rmw' (rm_state s)). unfold write_byte_range, sbind, sget, slift, sput. rewrite Hr. cbn [wr_dev wr_rmw]. split; [done|].
  destruct Hio as [? Hz ?]. split; cbn; [split; [done | by rewrite Hsz | lia] | done | lia | by rewrite Hc].
Qed.

(** ** Zeroing a range *)

Definition zeroed (ssz : Z) (s : RzMem D) : Prop := slice (rm_header s) 0 ssz = Some (filled ssz 0).

Lemma zero_turn_ok ssz c s cur take : rz_ok ssz c s -> zeroed ssz s -> 0 <= cur -> 0 < take <= ssz - cur mod ssz -> cur + take <= blen c ->
  exists s' c', zero_turn ssz cur take s = (Ok tt, s') /\ rz_ok ssz c' s' /\ zeroed ssz s' /\ splice c cur (filled take 0) = Some c'.
Proof.
  intros Hok Hz Hcur Htake Hin. destruct (rz_size _ _ _ Hok) as [Hpos _]. destruct Hok as [[Hh Hs Hr] Hsm Hst Hf]. unfold HEADER_BUF_SIZE in Hsm.
  pose proof (Z.mod_pos_bound cur ssz Hpos). pose proof (Z.div_mod cur ssz ltac:(lia)).
  unfold zero_turn, sbind, sget, slift, sput, EXISTING_STATE_LIMIT in *. cbv beta zeta.
  destruct ((cur mod ssz =? 0) && (take =? ssz)) eqn:E.
  - bool_to_prop. assert (take = ssz) as -> by lia. rewrite Hz. cbn [or_panic].
    destruct (sector_write (rm_dev s) Output cur ssz (filled ssz 0)) as (ok & d' & c' & Hw & Hsz & Hc & Hwr & Hhw); [lia | done | lia | rewrite blen_filled; lia|].
    rewrite Hw. destruct Hhw as [-> Hh']; [done | rewrite Hf; lia|]. rewrite Hf in Hwr. eexists _, c'. split; [done|]. unfold sector_written in Hwr.
    split_and!; [|done | rewrite <- Hwr; f_equal; lia]. split; cbn; [split; [done | by rewrite Hsz | lia] | done | done | by rewrite Hc].
  - destruct (slice_of (rm_state s) (4 * 1024 * 1024 - ssz) (4 * 1024 * 1024 - ssz + ssz)) as (sub & Hsub & Hsl); [lia | lia|]. rewrite Hsub. cbn [or_panic].
    destruct (sector_read (rm_dev s) Output cur ssz sub) as (ok & sub' & d1 & Hrd & [Hc1 Hs1] & Hl & Hok & Hhr); [lia | done | lia | lia|]. rewrite Hrd.
    destruct Hhr as [-> Hh1]; [done | rewrite Hf; lia|]. destruct (splice_of (rm_state s) (4 * 1024 * 1024 - ssz) sub') as (st1 & Hst1 & Hl1); [lia | lia|]. rewrite Hst1. cbn [or_panic].
    destruct (splice_of sub' (cur mod ssz) (filled take 0)) as (sub2 & Hsub2 & Hl2); [lia | rewrite blen_filled; lia|]. rewrite Hsub2. cbn [or_panic].
    destruct (splice_of st1 (4 * 1024 * 1024 - ssz) sub2) as (st2 & Hst2 & Hl3); [lia | lia|]. rewrite Hst2. cbn [or_panic].
    destruct (sector_write d1 Output cur ssz sub2) as (ok2 & d2 & c' & Hw & Hsz & Hc & Hwr & Hhw); [lia | by rewrite Hs1 | lia | lia|]. rewrite Hw.
    destruct Hhw as [-> Hh']; [done | rewrite Hc1, Hf; lia|]. rewrite Hc1, Hf in Hwr. rewrite Hf in Hok. eexists _, c'. split; [done|]. unfold sector_written in Hwr.
    split_and!; [|done |]. { split; cbn; [split; [done | by rewrite Hsz, Hs1 | lia] | done | unfold EXISTING_STATE_LIMIT; lia | by rewrite Hc, Hc1]. }
    replace cur with (cur / ssz * ssz + cur mod ssz) by lia. eapply splice_through_sector; [by apply Hok | exact Hsub2 | exact Hwr].
Qed.

Lemma filled_add a b v : 0 <= a -> 0 <= b -> filled (a + b) v = filled a v ++ filled b v.
Proof. intros. unfold filled. rewrite Z2Nat.inj_add by lia. apply replicate_add. Qed.

Lemma zero_loop_ok fuel : forall ssz c s len written cur, rz_ok ssz c s -> zeroed ssz s -> 0 <= cur -> 0 <= written < len -> cur + (len - written) <= blen c -> len <= u64_max ->
  (Z.to_nat (len - written) < fuel)%nat ->
  exists s' c', zero_loop fuel ssz len written cur s = (Ok tt, s') /\ rz_ok ssz c' s' /\ splice c cur (filled (len - written) 0) = Some c'.
Proof.
  induction fuel as [|fuel IH]; intros ssz c s len written cur Hok Hz Hcur Hw Hin Hlen Hf; [lia|]. cbn [zero_loop]. rewrite (proj2 (Z.ltb_lt written len)) by lia.
  destruct (rz_size _ _ _ Hok) as [Hpos Hcl]. pose proof (Z.mod_pos_bound cur ssz Hpos). set (take := Z.min (ssz - cur mod ssz) (len - written)).
  destruct (zero_turn_ok ssz c s cur take Hok Hz Hcur) as (s1 & c1 & Ht & Hok1 & Hz1 & Hs1); [lia | lia|]. unfold sbind. rewrite Ht.
  rewrite (wadd_small written take), (wadd_small cur take) by lia. destruct (decide (written + take = len)) as [He|Hne].
  - destruct fuel as [|fuel]; [lia|]. cbn [zero_loop]. rewrite (proj2 (Z.ltb_ge _ _)) by lia. exists s1, c1. by replace (len - written) with take by lia.
  - pose proof (splice_blen _ _ _ _ Hs1). destruct (IH ssz c1 s1 len (written + take) (cur + take) Hok1 Hz1) as (s2 & c2 & Hl & Hok2 & Hs2); [lia..|].
    exists s2, c2. split_and!; [done | done|]. replace (len - written) with (take + (len - (written + take))) by lia. rewrite filled_add by lia.
    eapply splice_app; [exact Hs1|]. by rewrite blen_filled by lia.
Qed.

Lemma zero_byte_range_ok ssz c s off len c' : rz_ok ssz c s -> splice c off (filled len 0) = Some c' ->
  exists s', zero_byte_range ssz off len s = (Ok tt, s') /\ rz_ok ssz c' s'.
Proof.
  intros Hok Hs. destruct (rz_size _ _ _ Hok) as [Hpos Hcl]. pose proof (splice_Some _ _ _ _ Hs) as (Ho & Hin & _). unfold zero_byte_range.
  destruct (Z.le_gt_cases len 0) as [Hle|Hgt].
  - assert (filled len 0 = []) as Hnil by (unfold filled; by rewrite Z2Nat.nonpos). rewrite Hnil in *. rewrite splice_nil in Hs by (change (blen []) with 0 in *; lia).
    injection Hs as <-. destruct (Z.eqb_spec len 0); [by exists s|]. pose proof Hok as [[Hh Hz Hr] Hsm Hst Hf]. unfold sbind, sget, slift, sput.
    destruct (splice_of (rm_header s) 0 (filled ssz 0)) as (h & Hh1 & Hh2); [lia | rewrite blen_filled; lia|]. rewrite Hh1. cbn [or_panic].
    destruct (Z.eqb_spec ssz 0); [lia|]. rewrite Z2Nat.nonpos by lia. cbn [zero_loop]. rewrite (proj2 (Z.ltb_ge 0 len)) by lia. eexists. split; [done|].
    split; cbn; [split; [done | done | lia] | done..].
  - rewrite blen_filled in Hin by lia. destruct (Z.eqb_spec len 0); [lia|]. pose proof Hok as [[Hh Hz Hr] Hsm Hst Hf]. unfold sbind, sget, slift, sput.
    destruct (splice_of (rm_header s) 0 (filled ssz 0)) as (h & Hh1 & Hh2); [lia | rewrite blen_filled; lia|]. rewrite Hh1. cbn [or_panic].
    destruct (Z.eqb_spec ssz 0); [lia|].
    destruct (zero_loop_ok (S (Z.to_nat len)) ssz c (mkRzMem (rm_dev s) h (rm_state s)) len 0 off) as (s' & c2 & Hl & Hok' & Hs2); try lia.
    + split; cbn; [split; [done | done | lia] | done..].
    + unfold zeroed. cbn. pose proof (slice_splice_eq _ _ _ _ Hh1) as He. by rewrite blen_filled in He by lia.
    + exists s'. split; [done|]. rewrite Z.sub_0_r, Hs in Hs2. by injection Hs2 as <-.
Qed.

(** ** Applying a plan *)

Lemma apply_patch_list_ok ssz ps : forall c s c', rz_ok ssz c s -> apply_patches c ps = Some c' ->
  exists s', apply_patch_list ssz ps s = (Ok tt, s') /\ rz_ok ssz c' s'.
Proof.
  induction ps as [|p ps IH]; intros c s c' Hok Ha; [injection Ha as <-; by exists s|]. unfold apply_patches in Ha. cbn [fmap list_fmap apply_writes] in Ha.
  destruct (patch_write p) as [off src] eqn:Ep. apply bind_Some in Ha as (c1 & Hs & Ha). cbn [apply_patch_list]. unfold sbind.
  assert (exists s1, match p with
     | PWrite byte_offset b | PAppend byte_offset b => write_byte_range ssz byte_offset b
     | PZeroFill byte_offset len => zero_byte_range ssz byte_offset len end s = (Ok tt, s1) /\ rz_ok ssz c1 s1) as (s1 & -> & Hok1).
  { destruct p; cbn [patch_write] in Ep; injection Ep as <- <-; [by apply (write_byte_range_ok ssz c) | by apply (write_byte_range_ok ssz c) | by apply (zero_byte_range_ok ssz c)]. }
  by apply (IH c1).
Qed.
End run.

(** ** The blocks the query lists *)

Lemma range_returns epr n : forall c l, exists l', for_clusters n c (fun c => required_add (c / epr)) l = (Ok tt, l') \/
  for_clusters n c (fun c => required_add (c / epr)) l = (Err RzScratchTooSmall, l').
Proof.
  induction n as [|n IH]; intros c l; [by exists l; left|]. cbn [for_clusters]. unfold sbind.
  destruct (required_add (c / epr) l) as [r l1] eqn:Ea. unfold required_add, sbind, sget, sret, sfail, sput in Ea.
  destruct (existsb _ _); [injection Ea as <- <-; apply IH|]. destruct (_ <=? _); injection Ea as <- <-; [by exists l; right | apply IH].
Qed.

(** The clusters of the two tables of the image have refcounts. *)
Definition tables_counted (o : Qcow2ResizeOpts) (E : Z) : Prop :=
  let cs := rz_cluster_size o in let epr := cs * 8 / rz_refcount_bits o in
  current_l1_table_offset o / cs + l1_clusters_of (current_l1_entries o) cs <= E * epr /\
  current_refcount_table_offset o / cs + current_refcount_table_clusters o <= E * epr.

(** What a query answers: sixteen blocks of the image at most, or that they are more. *)
Definition query_answer (E : Z) (r : outcome ResizeError Qcow2GrowQueryResult) : Prop :=
  match r with
  | Ok q => forall i, i ∈ gq_required_blocks q -> 0 <= i < E
  | Err e => e = RzScratchTooSmall
  | _ => False
  end.

Section query.
Context (opts : Qcow2ResizeOpts) (bits E : Z) (old : Z -> Z) (d0 : bytes) (Hq : grow_request opts bits E old d0) (Hc : tables_counted opts E).
#[local] Abbreviation cs := (rz_cluster_size opts).
#[local] Abbreviation epr := (rz_cluster_size opts * 8 / rz_refcount_bits opts).
#[local] Abbreviation fs := (div_ceil (current_file_size opts) (rz_cluster_size opts) * rz_cluster_size opts).
#[local] Abbreviation o := (with_file_size opts fs).

Lemma query_numbers : 512 <= cs <= 2097152 /\ 64 <= epr /\ 0 <= fs /\ 0 <= E /\ 0 <= E * epr <= 2 ^ 53 /\
  udiv (E := ResizeError) (wmul cs 8) (rz_refcount_bits opts) = Ok epr /\ 0 <= current_l1_table_offset opts /\ 0 <= current_refcount_table_offset opts.
Proof using Hq.
  destruct (gq_image _ _ _ _ _ Hq) as [Hg _]. pose proof (gr_cs_bounds o bits epr E old Hg) as Hcs. change (rz_cluster_size o) with cs in Hcs. change (2 ^ 21) with 2097152 in Hcs.
  pose proof (gr_width _ _ _ _ _ Hg) as Hw. change (rz_refcount_bits o) with (rz_refcount_bits opts) in Hw. pose proof (valid_width_range _ Hw) as Hwr.
  pose proof (entries_per_block_bounds cs _ Hcs Hw) as He. destruct (gr_blocks _ _ _ _ _ Hg) as (HE & _ & HEf). pose proof (gr_file _ _ _ _ _ Hg) as Hfs.
  change (rz_cluster_size o) with cs in HEf. change (current_file_size o) with fs in *. change (2 ^ 50) with 1125899906842624 in Hfs.
  assert (epr <= cs * 8) as Hle by (etrans; [apply (Z.div_le_compat_l (cs * 8) 1); lia | by rewrite Z.div_1_r]).
  assert (0 <= E * epr <= E * (cs * 8)) by (split; [apply Z.mul_nonneg_nonneg; lia | apply Z.mul_le_mono_nonneg_l; lia]).
  pose proof (gr_l1_place _ _ _ _ _ Hg) as [? _]. pose proof (gr_table_place _ _ _ _ _ Hg) as [? _].
  split_and!; try done; try lia.
  unfold udiv. rewrite wmul_small by (unfold u64_max; lia). by destruct (Z.eqb_spec (rz_refcount_bits opts) 0); [lia|].
Qed.

Lemma in_block_range x : 0 <= x < E * epr -> 0 <= x / epr < E.
Proof using Hq. intros Hx. destruct query_numbers as (_ & He & _). split; [apply Z.div_pos; lia | apply Z.div_lt_upper_bound; lia]. Qed.

Lemma answer_run (m : SM (list Z) ResizeError unit) act :
  (exists l, m [] = (Ok tt, l) \/ m [] = (Err RzScratchTooSmall, l)) -> (forall l, m [] = (Ok tt, l) -> forall i, i ∈ l -> 0 <= i < E) ->
  query_answer E (let '(r, required) := m [] in let? _ := r in Ok (mkQcow2GrowQueryResult act required)).
Proof using. intros (l & [Hm|Hm]) Hl; rewrite Hm; cbn [obind query_answer]; [|done]. cbn [gq_required_blocks]. by apply Hl. Qed.

Lemma clusters_div a : 0 <= a -> 0 <= a / cs.
Proof using Hq. intros. destruct query_numbers as (? & _). apply Z.div_pos; lia. Qed.

Lemma l1_answer t : fs / cs + l1_clusters_of (ly_l1_entries t) cs <= E * epr ->
  query_answer E (let '(r, required) := add_l1_growth_blocks (query_of o) (ly_l1_entries t) epr [] in let? _ := r in Ok (mkQcow2GrowQueryResult L1Grow required)).
Proof using Hq Hc.
  intros Hle. destruct Hc as [Hc1 _]. destruct query_numbers as (Hcs & He & Hfs & HE & HEe & _ & Hl1 & _). apply answer_run.
  - unfold add_l1_growth_blocks. cbv zeta. unfold sbind.
    match goal with |- context [for_clusters ?n ?c _ []] => destruct (range_returns epr n c []) as (l & [->| ->]); [apply range_returns | by exists l; right] end.
  - intros l Hl i Hi. apply l1_growth_listed in Hl as [_ _ Ho _ _].
    apply Ho in Hi as [Hi|[(x & Hx & ->)|(x & Hx & ->)]]; [by apply elem_of_nil in Hi | |]; apply in_block_range.
    + pose proof (clusters_div fs Hfs). change (current_file_size o) with fs in Hx. change (rz_cluster_size o) with cs in Hx. lia.
    + pose proof (clusters_div _ Hl1). change (current_l1_table_offset o) with (current_l1_table_offset opts) in Hx. change (rz_cluster_size o) with cs in Hx.
      change (current_l1_entries o) with (current_l1_entries opts) in Hx. lia.
Qed.

Lemma refcount_answer t : (exists al, append_layout o t E = Ok al) ->
  query_answer E (let '(r, required) := add_l1_and_refcount_growth_blocks (query_of o) (ly_l1_entries t) epr E [] in let? _ := r in Ok (mkQcow2GrowQueryResult L1AndRefcountGrow required)).
Proof using Hq Hc.
  intros (al & Hal). destruct Hc as [Hc1 Hc2]. destruct query_numbers as (Hcs & He & Hfs & HE & HEe & _ & Hl1 & Hrt). change (2 ^ 53) with 9007199254740992 in HEe. apply answer_run.
  - unfold add_l1_and_refcount_growth_blocks. cbv zeta. unfold append_layout in Hal. cbv zeta in Hal. apply obind_Ok in Hal as ([[bc tc] total] & Hreq & _).
    unfold sbind at 1, slift. change (compute_append_requirements (q_current_file_size (query_of o)) (q_cluster_size (query_of o)) (q_refcount_bits (query_of o))
      (l1_clusters_of (ly_l1_entries t) (q_cluster_size (query_of o))) (q_current_refcount_table_clusters (query_of o)) E)
      with (compute_append_requirements (current_file_size o) (rz_cluster_size o) (rz_refcount_bits o) (l1_clusters_of (ly_l1_entries t) (rz_cluster_size o)) (current_refcount_table_clusters o) E).
    rewrite Hreq. unfold sbind.
    match goal with |- context [for_clusters ?n ?c _ []] => destruct (range_returns epr n c []) as (l & [->| ->]); [|by exists l; right] end.
    match goal with |- context [for_clusters ?n ?c _ l] => destruct (range_returns epr n c l) as (l2 & [->| ->]); [|by exists l2; right] end.
    destruct (_ <? _); [apply range_returns | by exists l2; left].
  - intros l Hl i Hi. apply refcount_growth_listed in Hl as (al' & _ & [_ _ Ho _ _]).
    apply Ho in Hi as [Hi|[(x & Hx & ->)|[(x & Hx & ->)|(_ & x & Hx & ->)]]]; [by apply elem_of_nil in Hi | | |]; apply in_block_range.
    + pose proof (clusters_div fs Hfs). change (current_file_size o) with fs in Hx. change (rz_cluster_size o) with cs in Hx. rewrite (wmul_small E epr) in Hx by (unfold u64_max; lia). lia.
    + pose proof (clusters_div _ Hl1). change (current_l1_table_offset o) with (current_l1_table_offset opts) in Hx. change (rz_cluster_size o) with cs in Hx.
      change (current_l1_entries o) with (current_l1_entries opts) in Hx. lia.
    + pose proof (clusters_div _ Hrt). change (current_refcount_table_offset o) with (current_refcount_table_offset opts) in Hx. change (rz_cluster_size o) with cs in Hx.
      change (current_refcount_table_clusters o) with (current_refcount_table_clusters opts) in Hx. lia.
Qed.

Lemma query_answers : query_answer E (compute_grow_query (query_of opts)).
Proof using Hq Hc.
  pose proof Hq as [_ [Hf1 Hf2] [Hlt Hu] Hroom [Hp1 Hp2] [Hg _] _]. destruct query_numbers as (_ & _ & _ & _ & _ & Hepr & _).
  destruct (target_layout _ _ _ _ _ Hq) as (t & Ht & Hn & Hsmall). destruct (action_cases _ _ _ _ _ Hq t Hn Hsmall) as (blocks & table & Hreq & Hact).
  pose proof (cluster_bits_pow o bits epr E old Hg) as Hbits. change (rz_cluster_size o) with cs in Hbits.
  unfold compute_grow_query. cbn [query_of q_cluster_size q_refcount_bits q_extended_l2 q_current_virtual_size q_new_virtual_size q_current_file_size
    q_current_l1_entries q_current_l1_table_offset q_current_refcount_table_offset q_current_refcount_table_clusters q_current_incompatible_features
    q_current_autoclear_features q_preallocation q_allow_shrink q_existing_refcount_table_bytes].
  destruct (Z.eqb_spec (new_virtual_size opts) 0); [lia|]. rewrite Hf1, Hf2. cbn [obind]. destruct (Z.ltb_spec (new_virtual_size opts) (current_virtual_size opts)); [lia|].
  rewrite Hp1, Hp2, Hbits. cbn [obind]. rewrite (file_aligned _ _ _ _ _ Hq). cbn [obind]. destruct (Z.eqb_spec (new_virtual_size opts) (current_virtual_size opts)); [lia|].
  rewrite Ht. cbn [map_err obind]. rewrite (existing_counted _ _ _ _ _ Hq). cbn [obind]. rewrite Hreq. cbn [obind]. rewrite Hepr. cbn [obind].
  destruct (decide_action _ _ _ _ _ _).
  - cbn [obind query_answer gq_required_blocks]. intros i Hi. by apply elem_of_nil in Hi.
  - apply (l1_answer t). rewrite Hn. apply Hact.
  - apply (refcount_answer t). destruct (append_layout_ok o bits epr E old Hg t) as (tc & delta & Hal & _); [|by eexists]. rewrite Hn. by apply (target_ok _ _ _ _ _ Hq).
Qed.
End query.

(** ** Staging *)

Lemma slice_cat l a b c p q : slice l a b = Some p -> slice l b c = Some q -> slice l a c = Some (p ++ q).
Proof.
  intros Hp Hq. pose proof (slice_Some _ _ _ _ Hp) as (? & ? & _). pose proof (slice_Some _ _ _ _ Hq) as (? & ? & _).
  destruct (slice_of l a c) as (s & Hs & Hl); [lia | lia|]. rewrite Hs. f_equal. pose proof (slice_blen _ _ _ _ Hp). pose proof (slice_blen _ _ _ _ Hq).
  apply byte_ext; [rewrite blen_app; lia|]. intros i Hi. rewrite byte_at_app, (slice_byte _ _ _ _ _ Hs) by lia.
  destruct (Z.ltb_spec i (blen p)); [rewrite (slice_byte _ _ _ _ _ Hp) by lia; done|]. rewrite (slice_byte _ _ _ _ _ Hq) by lia. f_equal. lia.
Qed.

(** The blocks read from the disk, in the order of their indices. *)
Definition blocks_read (c rt : bytes) (cs : Z) : list Z -> list bytes -> Prop :=
  Forall2 (fun i blk => let a := u64_at rt (8 * i) in slice c a (a + cs) = Some blk).

Lemma staged_found c rt cs indices blks x : blocks_read c rt cs indices blks -> 0 < cs -> forall i k, index_of i indices x = Some k ->
  exists blk, let a := u64_at rt (8 * x) in slice c a (a + cs) = Some blk /\ slice (concat blks) ((k - i) * cs) ((k - i) * cs + cs) = Some blk.
Proof.
  intros HF Hcs. induction HF as [|y blk indices blks Hb HF IH]; intros i k; cbn [index_of concat]; [done|]. pose proof (slice_blen _ _ _ _ Hb) as Hl.
  destruct (Z.eqb_spec y x) as [->|Hne].
  - intros [= <-]. exists blk. split; [done|]. replace ((i - i) * cs) with 0 by lia. replace (0 + cs) with (blen blk) by lia. apply slice_left.
  - intros Hk. destruct (IH _ _ Hk) as (b & H1 & H2). exists b. split; [done|]. pose proof (index_of_nonneg _ _ _ _ Hk).
    replace ((k - i) * cs) with (blen blk + (k - (i + 1)) * cs) by lia. replace (blen blk + (k - (i + 1)) * cs + cs) with (blen blk + ((k - (i + 1)) * cs + cs)) by lia.
    rewrite slice_right by (apply Z.mul_nonneg_nonneg; lia). done.
Qed.

Section stage.
Context {D : Type} `{FlatDisk D}.

Lemma stage_blocks_ok ssz c cs rt indices : 0 < cs -> forall s pos, rz_ok (D := D) ssz c s -> 0 <= pos -> pos + Z.of_nat (length indices) * cs <= EXISTING_STATE_LIMIT ->
  (forall i, i ∈ indices -> 0 <= i /\ i * 8 + 8 <= blen rt /\ is_Some (slice c (u64_at rt (8 * i)) (u64_at rt (8 * i) + cs))) ->
  exists s' blks, stage_blocks ssz cs rt pos indices s = (Ok tt, s') /\ rz_ok ssz c s' /\ blocks_read c rt cs indices blks /\
    slice (rm_state s') pos (pos + Z.of_nat (length indices) * cs) = Some (concat blks) /\
    forall a b, b <= pos -> slice (rm_state s') a b = slice (rm_state s) a b.
Proof.
  intros Hcs. induction indices as [|i indices IH]; intros s pos Hok Hp Hlim Hin.
  - exists s, []. split_and!; try done; [constructor|]. cbn [length concat]. rewrite Z.add_0_r. pose proof (ro_state _ _ _ Hok).
    destruct (slice_of (rm_state s) pos pos) as (x & Hx & Hxl); [lia | cbn in Hlim; lia|]. rewrite Hx. f_equal. apply length_zero_iff_nil. unfold blen in Hxl. lia.
  - destruct (Hin i ltac:(left)) as (Hi & Hi8 & blk & Hblk). cbn [length] in *. cbn [stage_blocks].
    destruct (read_byte_range_ok ssz c s (u64_at rt (8 * i)) pos cs blk Hok ltac:(lia) Hp ltac:(lia) Hblk) as (s1 & Hr & Hok1 & Hs1).
    destruct (IH s1 (pos + cs) Hok1 ltac:(lia) ltac:(lia)) as (s2 & blks & Hst & Hok2 & HF & Hsl & Hfr); [intros j Hj; apply Hin; by right|].
    exists s2, (blk :: blks). unfold sbind, slift at 1. rewrite be_u64_at by lia. replace (i * 8) with (8 * i) by lia. unfold or_code at 1. rewrite Hr. cbn [map_err].
    pose proof (slice_blen _ _ _ _ Hblk) as Hbl. pose proof (slice_splice_eq _ _ _ _ Hs1) as He.
    split_and!; [exact Hst | done | by constructor | |].
    + cbn [concat]. replace (pos + Z.of_nat (S (length indices)) * cs) with (pos + cs + Z.of_nat (length indices) * cs) by lia. eapply slice_cat; [|exact Hsl].
      rewrite Hfr by lia. rewrite <- He. f_equal. lia.
    + intros a b Hb. rewrite Hfr by lia. apply (slice_splice_ne _ _ _ _ _ _ Hs1). by left.
Qed.
End stage.

(** ** The request of the staged options *)

Lemma staged_request o bits E old c rt_blks indices blks : grow_request o bits E old c -> rt_blks = concat blks ->
  blocks_read c (existing_refcount_table_bytes o) (rz_cluster_size o) indices blks -> (forall i, i ∈ indices -> 0 <= i < E) ->
  grow_request (with_blocks o rt_blks indices) bits E old c.
Proof.
  intros [G1 G2 G3 G4 G5 [Hg Hd] G7] -> HF Hin. set (epr := rz_cluster_size o * 8 / rz_refcount_bits o) in *.
  set (oa := with_file_size o (div_ceil (current_file_size o) (rz_cluster_size o) * rz_cluster_size o)) in *.
  pose proof (gr_cs_bounds oa bits epr E old Hg) as Hcs. change (rz_cluster_size oa) with (rz_cluster_size o) in Hcs.
  assert (forall blk i f, block_counts oa epr blk i f -> block_counts (with_blocks oa (concat blks) indices) epr blk i f) as Hbc by (intros blk i f [? ? ?]; by split).
  split; try done. split.
  - destruct Hg as [? ? ? ? ? ? ? ? ? ? ? ? ? _ ? ?]. split; try done. split.
    + change (is_bytes (concat blks)). pose proof (od_bytes _ _ _ _ _ Hd) as Hb. clear -HF Hb. induction HF as [|i blk indices blks Hs HF IH]; [constructor|].
      cbn [concat]. apply Forall_app. split; [exact (slice_is_bytes _ _ _ _ Hb Hs) | exact IH].
    + intros k idx blk Hk Hs. change (index_of 0 indices idx = Some k) in Hk. change (slice (concat blks) (k * rz_cluster_size o) (k * rz_cluster_size o + rz_cluster_size o) = Some blk) in Hs.
      destruct (staged_found c _ _ indices blks idx HF ltac:(lia) 0 k Hk) as (b & Hb1 & Hb2). rewrite Z.sub_0_r, Hs in Hb2. injection Hb2 as <-.
      assert (idx ∈ indices) as Hidx by (clear -Hk; revert Hk; generalize 0; induction indices as [|y l IH]; intros z; cbn; [done|]; destruct (Z.eqb_spec y idx) as [->|]; [by left | intros Hk; right; by apply (IH (z + 1))]).
      destruct (od_blocks _ _ _ _ _ Hd idx (Hin _ Hidx)) as (b & Hb3 & Hb4). change (rz_cluster_size oa) with (rz_cluster_size o) in Hb3.
      assert (b = blk) as -> by (unfold addr in Hb3; change (existing_refcount_table_bytes oa) with (existing_refcount_table_bytes o) in Hb3; congruence). by apply Hbc.
  - destruct Hd as [? ? ? ? ? ? Hbl ? ? ? ? ?]. split; try done. intros i Hi. destruct (Hbl i Hi) as (blk & H1 & H2). exists blk. split; [done|]. by apply Hbc.
Qed.

(** ** The runner *)

Section runner.
Context {D : Type} `{FlatDisk D} (config : ResizeConfig) (file_size ssz : Z) (header : bytes) (h : QcowHeader) (c l1 rt : bytes) (bits E : Z) (old : Z -> Z).

(** The options the staging starts from: the image without refcount blocks. *)
Definition base_opts : Qcow2ResizeOpts := resize_opts config h (u64_at header RZ_AUTOCLEAR_FEATURES_OFFSET) file_size l1 rt [] [] [] [].

(** The device holds the image [header] describes, and it can grow. *)
Record growing_image : Prop := {
  gi_parse : parse header = Ok h;
  gi_l1 : slice c (hdr_l1_table_offset h) (hdr_l1_table_offset h + hdr_l1_size h * 8) = Some l1;
  gi_rt : slice c (hdr_refcount_table_offset h) (hdr_refcount_table_offset h + hdr_refcount_table_clusters h * hdr_cluster_size h) = Some rt;
  gi_request : grow_request base_opts bits E old c;
  gi_counted : tables_counted base_opts E
}.
Context (Hi : growing_image).
#[local] Abbreviation cs := (hdr_cluster_size h).

Lemma image_cluster_size : 512 <= cs <= 2097152 /\ as_u32 cs = cs.
Proof using Hi.
  destruct (parse_Ok _ _ (gi_parse Hi)) as (_ & Hh & Hv). unfold header_valid in Hv. rewrite !andb_true_iff, !Z.leb_le in Hv. destruct Hv as [[[_ Hb] _] _].
  assert (cs = 2 ^ hdr_cluster_bits h) as Hcs by (rewrite Hh; cbn [header_at hdr_cluster_size hdr_cluster_bits]; by rewrite Z.shiftl_1_l).
  assert (2 ^ 9 <= 2 ^ hdr_cluster_bits h <= 2 ^ 21) as Hp by (split; apply Z.pow_le_mono_r; lia). rewrite <- Hcs in Hp. change (2 ^ 9) with 512 in Hp. change (2 ^ 21) with 2097152 in Hp.
  split; [done|]. unfold as_u32. apply Z.mod_small. lia.
Qed.

Lemma image_sizes : blen l1 = hdr_l1_size h * 8 /\ blen rt = hdr_refcount_table_clusters h * cs /\ 0 <= blen l1 /\ 0 <= blen rt /\
  rc_current_virtual_size config < rc_new_virtual_size config.
Proof using Hi.
  pose proof (slice_blen _ _ _ _ (gi_l1 Hi)). pose proof (slice_blen _ _ _ _ (gi_rt Hi)). pose proof (blen_nonneg l1). pose proof (blen_nonneg rt).
  destruct (gq_larger _ _ _ _ _ (gi_request Hi)) as [[_ Hlt] _]. change (rc_current_virtual_size config < rc_new_virtual_size config) in Hlt. split_and!; lia.
Qed.

Lemma indices_answer : match block_indices config h (u64_at header RZ_AUTOCLEAR_FEATURES_OFFSET) file_size rt with
  | Ok indices => forall i, i ∈ indices -> 0 <= i < E
  | Err code => code = RR_SCRATCH_TOO_SMALL
  | _ => False
  end.
Proof using Hi.
  destruct image_sizes as (_ & _ & _ & _ & Hlt). unfold block_indices. destruct (Z.leb_spec (rc_current_virtual_size config) (rc_new_virtual_size config)); [|lia].
  pose proof (query_answers base_opts bits E old c (gi_request Hi) (gi_counted Hi)) as Ha. change (query_of base_opts) with (grow_query config h (u64_at header RZ_AUTOCLEAR_FEATURES_OFFSET) file_size rt) in Ha.
  unfold query_answer in Ha. destruct (compute_grow_query _) as [q|e| |]; [exact Ha | by subst e | done..].
Qed.

Lemma block_on_disk i : 0 <= i < E -> i * 8 + 8 <= blen rt /\ is_Some (slice c (u64_at rt (8 * i)) (u64_at rt (8 * i) + cs)).
Proof using Hi.
  intros HiE. destruct (gq_image _ _ _ _ _ (gi_request Hi)) as [Hg Hd]. destruct image_cluster_size as [_ Hu]. destruct image_sizes as (_ & Hrt & _).
  destruct (gr_blocks _ _ _ _ _ Hg) as (_ & HE8 & _). change (E * 8 <= hdr_refcount_table_clusters h * as_u32 cs) in HE8. rewrite Hu, <- Hrt in HE8. split; [lia|].
  destruct (od_blocks _ _ _ _ _ Hd i HiE) as (blk & Hs & _). change (slice c (u64_at rt (8 * i)) (u64_at rt (8 * i) + as_u32 cs) = Some blk) in Hs. rewrite Hu in Hs. by exists blk.
Qed.

Lemma sbind_step {S F A B} (m : SM S F A) (k : A -> SM S F B) s a s1 : m s = (Ok a, s1) -> sbind m k s = k a s1.
Proof using. intros Hm. unfold sbind. by rewrite Hm. Qed.

Lemma or_code_Ok {A} code (m : SM (RzMem D) ExecCause A) s a s1 : m s = (Ok a, s1) -> or_code code m s = (Ok a, s1).
Proof using. intros Hm. unfold or_code. by rewrite Hm. Qed.

Lemma state_slice_eq (s : RzMem D) pos len b : slice (rm_state s) pos (pos + len) = Some b -> state_slice pos len s = (Ok b, s).
Proof using. intros Hs. unfold state_slice, sbind, sget, slift. by rewrite Hs. Qed.

Lemma stage_opts_ok (s : RzMem D) : rz_ok ssz c s -> exists s', rz_ok ssz c s' /\
  (stage_opts config file_size ssz h (u64_at header RZ_AUTOCLEAR_FEATURES_OFFSET) s = (Err RR_SCRATCH_TOO_SMALL, s') \/
   exists indices blks, stage_opts config file_size ssz h (u64_at header RZ_AUTOCLEAR_FEATURES_OFFSET) s = (Ok (with_blocks base_opts (concat blks) indices), s') /\
     blocks_read c rt cs indices blks /\ forall i, i ∈ indices -> 0 <= i < E).
Proof using Hi.
  intros Hok. destruct image_cluster_size as [Hcs _]. destruct image_sizes as (Hl1 & Hrt & Hl10 & Hrt0 & Hlt). unfold stage_opts. cbv zeta.
  destruct (Z.eqb_spec cs 0); [lia|]. destruct (Z.ltb_spec (2 * 1024 * 1024) cs); [lia|]. cbn [orb]. rewrite <- Hl1, <- Hrt.
  destruct (Z.ltb_spec EXISTING_STATE_LIMIT (blen l1 + blen rt)); [by exists s; split; [|left]|].
  destruct (read_byte_range_ok ssz c s (hdr_l1_table_offset h) 0 (blen l1) l1 Hok ltac:(lia) ltac:(lia) ltac:(lia)) as (s1 & R1 & Hok1 & S1); [rewrite Hl1; exact (gi_l1 Hi)|].
  destruct (read_byte_range_ok ssz c s1 (hdr_refcount_table_offset h) (blen l1) (blen rt) rt Hok1 ltac:(lia) ltac:(lia) ltac:(lia)) as (s2 & R2 & Hok2 & S2); [rewrite Hrt; exact (gi_rt Hi)|].
  pose proof (slice_splice_eq _ _ _ _ S2) as Hrt2. assert (slice (rm_state s2) 0 (0 + blen l1) = Some l1) as Hl12.
  { rewrite (slice_splice_ne _ _ _ _ _ _ S2) by lia. exact (slice_splice_eq _ _ _ _ S1). }
  rewrite (sbind_step _ _ _ _ _ (or_code_Ok RR_READ_FAILED _ _ _ _ R1)), (sbind_step _ _ _ _ _ (or_code_Ok RR_READ_FAILED _ _ _ _ R2)), (sbind_step _ _ _ _ _ (state_slice_eq _ _ _ _ Hrt2)).
  pose proof indices_answer as Ha. destruct (block_indices _ _ _ _ _) as [indices|code| |]; try done; [|subst code; by exists s2; split; [|left]].
  rewrite (sbind_step (slift (Ok indices)) _ s2 indices s2 eq_refl).
  destruct (Z.ltb_spec EXISTING_STATE_LIMIT (blen l1 + blen rt + Z.of_nat (length indices) * cs)); [by exists s2; split; [|left]|].
  destruct (stage_blocks_ok ssz c cs rt indices ltac:(lia) s2 (blen l1 + blen rt) Hok2 ltac:(lia) ltac:(lia)) as (s3 & blks & R3 & Hok3 & HF & Hrb & Hfr).
  { intros i Hin. destruct (Ha i Hin) as [? ?]. destruct (block_on_disk i ltac:(lia)). by split; [lia|]. }
  exists s3. split; [done|]. right. exists indices, blks. split; [|done]. rewrite (sbind_step _ _ _ _ _ R3). destruct (Z.ltb_spec (rc_new_virtual_size config) (rc_current_virtual_size config)); [lia|].
  rewrite (sbind_step (sret []) _ s3 [] s3 eq_refl). rewrite <- Hfr in Hl12, Hrt2 by lia.
  rewrite (sbind_step _ _ _ _ _ (state_slice_eq _ _ _ _ Hl12)), (sbind_step _ _ _ _ _ (state_slice_eq _ _ _ _ Hrt2)), (sbind_step _ _ _ _ _ (state_slice_eq _ _ _ _ Hrb)).
  pose proof (ro_state _ _ _ Hok3) as Hst. cbn [length].
  rewrite (sbind_step _ _ _ [] s3); [done|]. apply state_slice_eq. rewrite Z.mul_0_l, Z.add_0_r. destruct (slice_of (rm_state s3) (blen l1 + blen rt + Z.of_nat (length indices) * cs) (blen l1 + blen rt + Z.of_nat (length indices) * cs)) as (x & Hx & Hxl); [lia | lia|].
  rewrite Hx. f_equal. apply length_zero_iff_nil. unfold blen in Hxl. lia.
Qed.

(** The image a growth leaves. *)
Definition grown_image (r : ResizeResult) (d : bytes) : Prop :=
  let o := with_file_size base_opts (div_ceil file_size cs * cs) in
  let epr := cs * 8 / hdr_refcount_bits h in
  exists hdr h', parse hdr = Ok h' /\ hdr_virtual_size h' = rc_new_virtual_size config /\
    hdr_l1_size h' = Z.max (hdr_l1_size h) (div_ceil (rc_new_virtual_size config) (l2_coverage_of bits (extended_l2 h))) /\
    hdr_cluster_size h' = cs /\ hdr_refcount_bits h' = hdr_refcount_bits h /\ extended_l2 h' = extended_l2 h /\
    reads_new o epr E old hdr h' (div_ceil (rr_file_size_after r) cs) true d.

Definition success (total : Z) : ResizeResult :=
  mkResizeResult RR_MAGIC (rc_target_format config) (rc_new_virtual_size config) file_size total RR_ACTION_GROW RR_OK.

(** What a run of a growth answers. *)
Definition run_answer (r : ResizeResult) (s : RzMem D) : Prop :=
  (exists code, r = err_result config code /\ (code = RR_SCRATCH_TOO_SMALL \/ code = RR_HEADER_MISMATCH) /\ rz_ok ssz c s) \/
  (exists total d, r = success total /\ rz_ok ssz d s /\ grown_image r d).

Lemma image_width : as_u8 (hdr_refcount_bits h) = hdr_refcount_bits h.
Proof using Hi.
  destruct (parse_Ok _ _ (gi_parse Hi)) as (_ & -> & _). apply Z.mod_small. cbn [header_at hdr_refcount_bits]. set (order := u32_at header REFCOUNT_ORDER_OFFSET).
  destruct (3 <=? _); [|lia]. destruct (Z.leb_spec order 6); [|lia]. destruct (Z.le_gt_cases 0 order) as [Hp|Hn].
  - rewrite Z.shiftl_1_l. assert (0 <= 2 ^ order <= 2 ^ 6) as Hb by (split; [apply Z.pow_nonneg; lia | apply Z.pow_le_mono_r; lia]). change (2 ^ 6) with 64 in Hb. lia.
  - assert (Z.shiftl 1 order = 0) as ->; [|lia]. rewrite Z.shiftl_div_pow2 by lia. apply Z.div_small. split; [lia|]. change 1 with (2 ^ 0). apply Z.pow_lt_mono_r; lia.
Qed.

Lemma plan_applied scratch indices blks p s : rz_ok ssz c s -> is_bytes scratch -> capacity_hint file_size (rc_new_virtual_size config) <= blen c ->
  blocks_read c rt cs indices blks -> (forall i, i ∈ indices -> 0 <= i < E) ->
  plan_grow (with_blocks base_opts (concat blks) indices) scratch = Ok p ->
  rp_action p = Grow /\ exists d s', apply_plan p s = (Ok tt, s') /\ rz_ok ssz d s' /\ grown_image (success (rp_total_file_size p)) d.
Proof using Hi.
  intros Hok Hb Hcap HF Hin Hp. destruct image_cluster_size as [Hcs Hu]. pose proof image_width as Hw.
  assert (grow_request (with_blocks base_opts (concat blks) indices) bits E old c) as Hr.
  { eapply staged_request; [exact (gi_request Hi) | done | | exact Hin]. change (blocks_read c rt (as_u32 cs) indices blks). by rewrite Hu. }
  pose proof (plan_grow_grown _ _ _ _ _ Hr scratch Hb) as Hg. rewrite Hp in Hg. destruct Hg as (Hact & Hfit & Hsafe). split; [done|].
  cbn [with_blocks base_opts resize_opts rz_cluster_size rz_refcount_bits current_file_size new_virtual_size current_l1_entries rz_extended_l2] in Hfit, Hsafe. rewrite Hu in Hfit, Hsafe. rewrite Hw in Hsafe.
  destruct (Hsafe ltac:(lia)) as (hdr & h' & m & Hph & Hv & Hl & Hc' & Hw' & Hx & Hm & Hk). clear Hsafe.
  destruct (Hk (length (rp_patches p))) as (d & Hd & Hnew). rewrite firstn_all in Hd. rewrite (proj2 (Nat.leb_gt _ _) Hm), Nat.leb_refl in Hnew.
  destruct (apply_patch_list_ok ssz (rp_patches p) c s d Hok Hd) as (s' & Ha & Hok'). exists d, s'. split_and!; [|done|].
  - unfold apply_plan, sbind, sget. rewrite (io_ssz _ _ _ _ (ro_io _ _ _ Hok)). exact Ha.
  - exists hdr, h'. split_and!; try done; [by rewrite <- Hu | by rewrite <- Hw].
Qed.

Lemma run_answers scratch s : rz_ok ssz c s -> slice (rm_header s) 0 ssz = Some header -> is_bytes scratch ->
  capacity_hint file_size (rc_new_virtual_size config) <= blen c ->
  exists r s', run_qcow2 config file_size scratch s = (Ok r, s') /\ run_answer r s'.
Proof using Hi.
  intros Hok Hh Hb Hcap. destruct (parse_Ok _ _ (gi_parse Hi)) as (Hlen & _ & _). unfold run_qcow2, run_qcow2_body, RZ_AUTOCLEAR_FEATURES_OFFSET.
  rewrite (sbind_step sget _ s s s eq_refl). cbv zeta. rewrite (io_ssz _ _ _ _ (ro_io _ _ _ Hok)), Hh. cbn [or_panic]. rewrite (sbind_step (slift (Ok header)) _ s header s eq_refl).
  rewrite (gi_parse Hi). cbn [map_err]. rewrite (sbind_step (slift (Ok h)) _ s h s eq_refl). destruct (Z.leb_spec (88 + 8) (blen header)); [|lia].
  rewrite be_u64_at by lia. rewrite (sbind_step (slift (Ok _)) _ s _ s eq_refl).
  destruct (stage_opts_ok s Hok) as (s1 & Hok1 & [Hst|(indices & blks & Hst & HF & Hin)]); unfold RZ_AUTOCLEAR_FEATURES_OFFSET in Hst.
  - unfold sbind at 1. rewrite Hst. eexists _, s1. split; [done|]. left. exists RR_SCRATCH_TOO_SMALL. by split_and!; [|left|].
  - rewrite (sbind_step _ _ _ _ _ Hst). assert (grow_request (with_blocks base_opts (concat blks) indices) bits E old c) as Hr.
    { destruct image_cluster_size as [_ Hu]. eapply staged_request; [exact (gi_request Hi) | done | | exact Hin]. change (blocks_read c rt (as_u32 cs) indices blks). by rewrite Hu. }
    pose proof (plan_grow_grown _ _ _ _ _ Hr scratch Hb) as Hg. unfold builds in Hg. destruct (plan_grow _ scratch) as [p|e| |] eqn:Hp; try done.
    + cbn [map_err]. rewrite (sbind_step (slift (Ok p)) _ s1 p s1 eq_refl). destruct (plan_applied scratch indices blks p s1 Hok1 Hb Hcap HF Hin Hp) as (Hact & d & s2 & Ha & Hok2 & Hgr).
      rewrite (sbind_step _ _ _ _ _ (or_code_Ok RR_WRITE_FAILED _ _ _ _ Ha)). rewrite Hact. eexists _, s2. split; [done|]. right. exists (rp_total_file_size p), d. by split_and!.
    + cbn [map_err]. unfold sbind at 1, slift. eexists _, s1. split; [done|]. left. exists (map_error e). split_and!; [done | | done]. by destruct Hg as [->| ->]; [left|right].
Qed.
End runner.

(** ** Properties *)

(** C14: A run of a growth.  On a working device of the capacity the host gives it, holding
    an image that can grow, with the header in the bounce sector, the operation returns.
    Either it refuses, because the metadata does not fit the staging area or the planner's
    buffer or the refcount table does not list a block, and the disk is as it was; or it
    reports success and the disk holds the grown image: a header of the requested virtual
    size, the old L1 table extended with zeros, refcount 1 for every appended cluster, and
    every other refcount as it was, except that the tables given up are released. *)
Theorem run_qcow2_grows {D : Type} `{FlatDisk D} (config : ResizeConfig) (file_size ssz : Z) (header : bytes) (h : QcowHeader) (c l1 rt : bytes)
    (bits E : Z) (old : Z -> Z) (scratch : bytes) (s : RzMem D) :
  rz_ok ssz c s -> slice (rm_header s) 0 ssz = Some header -> is_bytes scratch -> capacity_hint file_size (rc_new_virtual_size config) <= blen c ->
  growing_image config file_size header h c l1 rt bits E old ->
  exists r s', run_qcow2 config file_size scratch s = (Ok r, s') /\ run_answer config file_size ssz header h c l1 rt bits E old r s'.
Proof. intros Hok Hh Hb Hcap Hi. by apply run_answers. Qed.

(** *** A witness: the image of [grow_crash_safe_witness] on a device of a gibibyte *)

Lemma slice_extend d t a b x : slice d a b = Some x -> slice (d ++ t) a b = Some x.
Proof.
  intros Hs. pose proof (slice_Some _ _ _ _ Hs) as (? & ? & _). pose proof (slice_blen _ _ _ _ Hs). pose proof (blen_nonneg t).
  destruct (slice_of (d ++ t) a b) as (y & Hy & Hyl); [lia | rewrite blen_app; lia|]. rewrite Hy. f_equal. apply byte_ext; [lia|]. intros i Hi.
  rewrite (slice_byte _ _ _ _ _ Hy), (slice_byte _ _ _ _ _ Hs), byte_at_app by lia. destruct (Z.ltb_spec (a + i) (blen d)); [done|lia].
Qed.

(** Room behind the image changes nothing. *)
Lemma request_extend o bits E old d t : is_bytes t -> grow_request o bits E old d -> grow_request o bits E old (d ++ t).
Proof.
  intros Ht [G1 G2 G3 G4 G5 [Hg Hd] G7]. split; try done. split; [done|]. destruct Hd as [Hb Hl ? Ht' ? ? Hbl ? ? ? ? ?]. split; try done.
  - by apply Forall_app.
  - by apply slice_extend.
  - by apply slice_extend.
  - intros i Hi. destruct (Hbl i Hi) as (blk & Hs & Hc). exists blk. split; [by apply slice_extend | done].
Qed.

Definition demo_config : ResizeConfig := mkResizeConfig 0 1 0 512 32768 65536 512 64 0 0 0 0 2048.
Definition demo_device : bytes := demo_disk ++ filled (2 ^ 30 - 2560) 0.
Definition demo_memory : RzMem VecDisk := mkRzMem (mkVecDisk (mkDisks [] demo_device) 512 512 false) demo_image_header (filled EXISTING_STATE_LIMIT 0).

Lemma demo_base : base_opts demo_config 2048 demo_image_header (header_at demo_image_header) (filled 8 0) demo_table = with_blocks demo_resize [] [].
Proof. vm_compute. reflexivity. Qed.

Lemma demo_device_blen : blen demo_device = 2 ^ 30.
Proof. unfold demo_device. rewrite blen_app, blen_filled by (apply Z.leb_le; reflexivity). change (blen demo_disk) with 2560. lia. Qed.

Lemma demo_growing : growing_image demo_config 2048 demo_image_header (header_at demo_image_header) demo_device (filled 8 0) demo_table 9 1 demo_old.
Proof.
  split.
  - vm_compute. reflexivity.
  - unfold demo_device. apply slice_extend. vm_compute. reflexivity.
  - unfold demo_device. apply slice_extend. vm_compute. reflexivity.
  - rewrite demo_base. unfold demo_device. apply request_extend; [by apply filled_is_bytes|].
    apply (staged_request demo_resize 9 1 demo_old demo_disk [] [] []); [exact demo_grow_request | done | constructor |]. intros i Hi. by apply elem_of_nil in Hi.
  - rewrite demo_base. split; vm_compute; discriminate.
Qed.

Lemma demo_memory_ok : rz_ok 512 demo_device demo_memory.
Proof.
  split.
  - unfold demo_memory. cbn [rm_dev rm_header]. split; [|reflexivity | vm_compute; discriminate].
    change (vd_healthy (mkVecDisk (mkDisks [] demo_device) 512 512 false)).
    intros []; cbn [vd_disks disk_of disk_input0 disk_output vd_sector_size vd_input_sector vd_output_sector].
    + split_and!; vm_compute; (reflexivity || discriminate).
    + rewrite demo_device_blen. split_and!; vm_compute; (reflexivity || discriminate).
  - vm_compute. discriminate.
  - unfold demo_memory. cbn [rm_state]. rewrite blen_filled; [reflexivity | vm_compute; discriminate].
  - unfold demo_memory. cbn [rm_dev]. change (disk_of (mkDisks [] demo_device) Output = demo_device). cbn [disk_of disk_output]. reflexivity.
Qed.

Lemma run_qcow2_grows_witness : exists r s', run_qcow2 demo_config 2048 (filled 8192 7) demo_memory = (Ok r, s') /\
  run_answer demo_config 2048 512 demo_image_header (header_at demo_image_header) demo_device (filled 8 0) demo_table 9 1 demo_old r s'.
Proof.
  apply (run_qcow2_grows demo_config 2048 512 demo_image_header (header_at demo_image_header) demo_device (filled 8 0) demo_table 9 1 demo_old (filled 8192 7) demo_memory).
  - exact demo_memory_ok.
  - unfold demo_memory. cbn [rm_header]. vm_compute. reflexivity.
  - by apply filled_is_bytes.
  - rewrite demo_device_blen. vm_compute. discriminate.
  - exact demo_growing.
Defined.

(** ** Two defects *)

(** A header that claims an L1 table of no entries far past what the refcount table can
    count. *)
Definition far_l1_header : bytes :=
  be_bytes 4 0x514649fb ++ be_bytes 4 3 ++ be_bytes 8 0 ++ be_bytes 4 0 ++ be_bytes 4 9 ++ be_bytes 8 32768 ++ be_bytes 4 0 ++ be_bytes 4 0 ++ be_bytes 8 16777216 ++
  be_bytes 8 1024 ++ be_bytes 4 1 ++ be_bytes 4 0 ++ be_bytes 8 0 ++ be_bytes 8 0 ++ be_bytes 8 0 ++ be_bytes 8 0 ++ be_bytes 4 6 ++ be_bytes 4 104 ++ filled 408 0.

(** The index of a block the query lists is not checked against the staged refcount table:
    the operation panics, and the panic handler never returns. *)
Lemma far_l1_panics : (run_qcow2 demo_config 2048 (filled 8192 7)
  (mkRzMem (mkVecDisk (mkDisks [] (far_l1_header ++ filled 512 0 ++ demo_table ++ demo_block ++ filled 512 0)) 512 512 false) far_l1_header (filled 4096 0))).1 = Panic.
Proof. vm_compute. reflexivity. Qed.

(** The image of the witness with an L2 table in a fifth cluster, and a growth with full
    preallocation. *)
Definition l2_entry : Z := 2 ^ 63 + 2048.
Definition full_device : bytes := demo_image_header ++ be_bytes 8 l2_entry ++ filled 504 0 ++ demo_table ++ concat (replicate 5 (be_bytes 8 1)) ++ filled 472 0 ++ filled 1024 0.
Definition full_config : ResizeConfig := mkResizeConfig 0 1 RC_PREALLOC_FULL 512 32768 65536 512 64 0 0 0 0 2560.

(** The L1 entry a reader of the header finds. *)
Definition first_l1_entry (d : bytes) : option Z := match parse d with Ok h => Some (u64_at d (hdr_l1_table_offset h)) | _ => None end.

(** With full preallocation the host zero-fills the appended range after the guest has
    written the new L1 table there: the entries of the image are lost. *)
Lemma full_prealloc_erases_l1 :
  match run_qcow2 full_config 2560 (filled 8192 7) (mkRzMem (mkVecDisk (mkDisks [] full_device) 512 512 false) demo_image_header (filled 4096 0)) with
  | (Ok r, s) =>
      let d := disk_of (contents (rm_dev s)) Output in
      rr_error r = RR_OK /\ first_l1_entry full_device = Some l2_entry /\ first_l1_entry d = Some l2_entry /\
      (d' ← resize_post_pass RzOff r d; first_l1_entry d') = Some l2_entry /\
      (d' ← resize_post_pass RzFull r d; first_l1_entry d') = Some 0
  | _ => False
  end.
Proof. vm_compute. split_and!; reflexivity. Qed.
